(* ===== verification/_CoqProject ===== *)
-Q . S2P
Prelude.v
Slice.v
GoString.v
Unicode.v
Regex.v
Errors.v
Messages.v
PyPrim.v
OrderedMap.v
Scalar.v
Strconv.v
GoPath.v
Meta.v
DepGen.v
Vfs.v
VfsInv.v
Hash.v
Machine.v
Lab.v
LabInv.v
Decode.v
LabConf.v
LabExt.v
Event.v
Screen.v
ScreenInv.v
ScreenText.v
Mux.v
MuxInv.v
StrOrder.v
Pool.v
Shlex.v
Json.v
Settings.v
K8sConf.v
SettingsInv.v
FloatInt.v
JsonInv.v
Base64.v
Params.v
Services.v
Emits.v
DockerConf.v
DockerApi.v
DockerPlugin.v
Docker.v
DockerMgr.v
DockerRec.v
DockerSim.v
DockerRun.v
DockerInv.v
K8sNet.v
K8sApi.v
K8s.v
K8sMgr.v
K8sRec.v
K8sLog.v
K8sInv.v
K8sDeploy.v
K8sBack.v
CliTable.v
CliLayout.v
CliJson.v
CliConsole.v
CliLines.v
CliArgs.v
CliUsage.v
CliCommands.v
CliExec.v
CliArchive.v
LabFolder.v
RealPath.v
SettingsFile.v
SettingsForm.v
CliApp.v
CliStart.v
CliInfo.v
CliRoot.v
CliStartInv.v
