(* ===== verification/Prelude.v ===== *)
(** * Kathara for Go: a verification development

    The program builds network scenarios and runs them: a directory with a
    lab.conf (and possibly lab.dep and lab.ext) is parsed into a scenario of
    devices wired to collision domains, which a backend (Docker or Kubernetes)
    then creates, and a terminal multiplexer shows.  This library models package
    [model], package [labfile], the scenario filesystem of package [vfs], the
    dispatcher of package [event], the classification of package [kerrors], the
    helpers of [internal/util], the settings with their file and their form, the
    terminal emulator and its multiplexer, the Docker and the Kubernetes backend, the
    client API in front of them, and on top of that the command line [cmd/kathara]
    with its console output [internal/cliout].  The sources are under src/ with the
    same names.

    A command runs through the library in this order: [CliRoot.dispatch] reads the
    command line ([CliArgs], [CliUsage], [CliCommands]) and enters a body ([CliStart],
    [CliInfo], [CliExec], [SettingsForm]); the body reads the scenario
    ([LabConf], [LabExt], [LabFolder], or an archive, [CliArchive]) into the heap of
    [Machine], edits it with the operations of [Lab], and hands it to a manager, of
    which [DockerMgr] and [K8sMgr] are the two the code has; what it answers goes
    through [CliConsole] and [CliJson].

    ** Conventions

    A Go function returning a value and an error is a function into
    [result goerror A].  A method that mutates its receiver is a program of the
    state and error monad [M S E A]; what it changed before it failed stays
    changed.  Pointers to devices, collision domains and scenarios are locations
    of an explicit heap ([Machine.heap]), so that aliasing is the one of the
    code; a nil dereference is the error [NilDeref] of [Machine.failure], apart
    from the errors the code returns.  A string is a list of bytes; [decode]
    reads it as Go reads UTF-8.  [int] and [int64] are integers with the range of
    64 bits where the code converts, saturates or overflows.  Code that is not
    in the repository is a parameter: the host calls of package os, the case
    mapping and the normalisation of golang.org/x/text, the search function of a
    compiled user pattern, the codes of bubbletea, the client of the daemon.  A
    map that the runtime ranges over in any order is a list in that order where
    the order shows.

    ** The files, in dependency order

    - Prelude: results, the monad with its Hoare triples, tactics, lists.
    - Slice, Strconv, StrOrder: indexing with the runtime's checks, [Atoi] and
      wrapping integers, sorting of strings.
    - GoString, Unicode, GoPath: what the code uses of packages strings,
      unicode/utf8, unicode, path and path/filepath.
    - Regex: package regexp for start-anchored patterns: a backtracking matcher with
      captures, with its meaning [den] and the captures [capt] it records.
    - Errors, Messages (kerrors/codes.go, errors.go, messages.go): error values,
      texts, [Unwrap], [Code], [HumanLabel]; [Code_known] and
      [Code_transparent] say that classification is total and that wrapping keeps it.
    - PyPrim (internal/util): [int()] twice, [repr()], versions, small validators;
      [PyInt_pyBigInt] relates the two integer parsers.
    - OrderedMap (model/ordered.go), Scalar (model/scalar.go, python.go).
    - Meta (model/meta.go): [AddMeta] and [UpdateMeta]; [metas_well_formed] is their
      invariant, [AddMeta_error_atomic] and [port_round_trip] their behaviour.
    - DepGen (labfile/depgen.go): [HasLoop_correct] (loop detection is the transitive
      closure), [Flatten_topological] (the boot order is a topological order),
      [Flatten_terminates].
    - Vfs (vfs/vfs.go, memory.go, sub.go, files.go, lines.go): the interface
      [FileSystem] as a class, its in-memory instance, directory views, creators,
      appenders, line editors.  VfsInv: [memory_stays_a_tree],
      [written_text_is_read_back], [DeleteLine_exact], and
      [late_close_orphans_a_file], a limit of the first.
    - Hash (internal/util/hash.go): MD5, URL-safe hash, slug.
    - Machine (model/machine.go, interface.go, link.go, externallink.go): the records,
      the heap, [checkNumbering] ([Check_sequential], [Check_bridged]), the
      accessors of the limits.
    - Lab (model/lab.go and the stateful half of machine.go): every operation that
      allocates or mutates.  LabInv: the scenario invariant [lab_inv], kept by
      every operation ([reachable_scenarios_consistent]), from which no call
      dereferences nil ([reachable_scenarios_never_panic]); what removing a
      device does; and [boot_order_respects_dependencies], which joins lab.dep's
      order to the scenario's.
    - Decode (labfile/decode.go), LabConf (deviceline.go, labconf.go), LabExt (dep.go,
      ext.go, options.go): the parsers.  Each line grammar is proved against its
      declarative reading ([matchDeviceLine_exact], [matchDepLine_exact],
      [extLine_exact]), each file against what it builds ([ParseLab_sound],
      [dep_file_exact], [ParseDep_correct], [external_links_valid]).  LabFolder
      (folder.go): a scenario from the subdirectories of a directory;
      [ParseFolder_devices].
    - Event (event/dispatcher.go, events.go): the subscriber table with reentrant
      callbacks.  [step] is what the library can do to the table;
      [Dispatch_runs_the_list], [Dispatch_terminates],
      [Unsubscribe_runs_hooks_then_deletes] and [deleted_list_is_final] hold for every
      interleaving of such steps.
    - Screen (term/screen.go): the terminal emulator of a pane.  ScreenInv: its
      invariant and [screen_never_panics]; [Write_chunks], that how the output is
      cut into writes does not matter.  ScreenText: [written_lines_are_read_back],
      [Resize_keeps_lines].
    - Mux (term/mux.go, mux_model.go, keys.go, mode.go): the multiplexer's update loop,
      its views and its goroutines as a step relation.  MuxInv:
      [multiplexer_never_panics] and [sessions_conserved] in every reachable state;
      [only_typed_keys_are_written], the fitting of the tabs.
    - Shlex (the shell words of both backends): [ShlexSplit_Join].
    - Json, Settings, SettingsInv (settings/): the schema of kathara.conf;
      [settings_round_trip], [Set_exact], [keys_are_typed].  SettingsFile: the file
      on a disk; [saved_settings_are_loaded].  SettingsForm
      (cmd/kathara/settings_tui.go): [settings_form_is_safe],
      [menu_answers_are_legal].
    - RealPath (internal/util/realpath_unix.go, path.go): [realPath_ends],
      [realPath_resolves].
    - Pool (pool.go of both backends): batches of goroutines;
      [every_run_completes] and [runs_refine_sequence].
    - DockerConf (naming.go, driveropts.go, startup.go, containerconfig.go of the Docker
      backend): names, labels, filters, the startup line, the payload of a
      container: [shared_network_is_found], [user_sysctl_wins],
      [startup_commands_verbatim].
    - Params (kathara/params.go, registry.go, client.go): the client API.
    - DockerApi (apiobject.go, apierr.go, execstream.go): the daemon's client as a
      class, inspected objects, running a command.  DockerPlugin (plugin.go,
      iptables_linux.go): [CheckAndDownload_ready].
    - Docker, DockerMgr (link.go, machine.go, image.go, manager.go of the Docker
      backend), DockerRec (reconstruct.go, stats.go).  DockerSim: the client that
      logs its calls, and a daemon for closed examples.  DockerInv: with the triple
      [emits] on what a program asks for, [UndeployLab_only_its_own],
      [DeployLab_only_adds], and [chosen_links_cover].  DockerMgr: the numbering the
      backend extends is the one [Machine.Check] asked for.  DockerRun:
      [wait_bounded], [ReadAll_frames].
    - Services, Emits: what both backends are made of: the state a service keeps
      (the scenario's heap, the API objects hung on it, the world of the client),
      batches run in order, the collision domains a selection of devices needs;
      and two triples on the calls a program makes, [emits] for what each of them
      may be and [traces] for the list of them.
    - Base64, FloatInt, JsonInv: the standard base64 encoding, integers in binary64
      and the shares of a width, and one lemma per production for what the decoder
      of Json makes of a document.
    - K8sConf (naming.go, startup.go, apiobject.go and the numbers of link.go of the
      Kubernetes backend), with SHA-256 and [format_pieces], that what is put into a
      template is not read again.  K8sNet: [allocated_apart],
      [annotation_read_back] and [vni_read_back].
    - K8sApi (namespace.go, secret.go, configmap.go, execstream.go, errors.go): the
      client of the API server as a class, and the services over it.  K8s
      (link.go, machine.go), K8sMgr (manager.go, config.go), K8sRec (the rebuilt
      scenario of manager.go, stats.go).  K8sLog: the client that logs its calls,
      and a cluster for closed examples.  K8sInv: [UndeployLab_in_its_namespace],
      [UndeployLab_spares_the_others], [startup_loop_counts_reports].  K8sDeploy:
      [DeployLinks_numbers_apart], [Create_then_undeploy].  K8sBack:
      [device_read_back].
    - Command line, output (internal/cliout): CliTable (text.go, table.go, panel.go), CliLayout
      ([Wrap_exact], [Render_fills_console]), CliJson (jsonwriter.go,
      envelopes.go), CliConsole (console.go, errors.go, slog.go, prompt.go,
      handlers.go), CliLines ([envelopes_are_read_back],
      [machine_output_is_json_lines]).
    - Command line, arguments (cmd/kathara): CliArgs (args.go, flags.go;
      [splitRemainder_exact]), CliUsage (usage.go, parser.go; [validate_exact]),
      CliCommands (what every command declares; [coherent] is checked of each).
    - Command line, bodies (cmd/kathara): CliExec (the output of exec;
      [exec_shows_its_output]), CliArchive (archive.go; [archive_stays_inside]),
      CliApp (app.go, and the host, the process and the manager as classes),
      CliStart (lstart.go, lclean.go, vstart.go), CliInfo (list.go, lconfig.go,
      wipe.go, config.go, exec.go), CliRoot (root.go, lrestart.go, main.go, the
      first half of connect.go and terminal.go, with instances of the classes for
      closed examples).  CliStartInv: [lstart_deploys_only_checked],
      [dry_run_needs_no_manager], [archive_directory_is_removed],
      [deployedNames_exact], [undeployedNames_exact].
    ** Fuel

    [hasLoopFrom] and [orderFrom] recurse along paths without repetition; their fuel,
    [loop_fuel], is one more than the names some device depends on, and
    [Flatten_terminates] and the proof of [HasLoop_correct] show it is never
    exhausted.  [codeOf] has the depth of the error as fuel ([codeOf_fuel]); the
    star of a pattern iterates at most as often as the text has letters
    ([star_loop_complete]); MD5 has one step for each block.  The loops over bytes
    ([Screen.write_loop], the word splitter, the decoder [Json.value], the frames
    of [DockerApi]) have the length of their input as fuel and consume some of it
    in every round; so does the decoder of a stream in CliExec ([decode_loop]), and
    the translation of a pattern and its expansion in LabFolder.  The solver for
    column widths narrows a column in every round and has one round more than
    columns ([Render_fills_console] includes that it ends).  The walk of RealPath
    has [walk_fuel], from the links of the host ([realPath_ends]); the resolution of
    an alias of an option has one step for each alias. A dispatch need not end,
    since its list may grow: running out of its fuel is the result [None], and
    [Dispatch_terminates] says how much is enough for a bounded list. What a
    watch of the API server delivers is a finite stream, so the waits of K8s
    recurse over it; the search for a VXLAN number has as many steps as numbers
    are taken, which [allocated_apart] shows to be enough. The wait for a
    device's startup commands polls a daemon that may never answer: [None] is
    "still waiting", and [wait_bounded] bounds the polls of a wait that has
    retries.

    ** Not modelled

    External terminals, tmux and pseudo-terminals, the session of [connect], the
    window around the multiplexer's own loop, the operations for other programs
    (cmd/kathara/api.go), the subscription of the console to the events,
    archives (pack.go), commands run on the host (external.go), charset
    detection, the host's own filesystem (vfs/osdir.go), test harnesses and the
    Python bindings. The library that parses flags is not in the repository:
    [CliRoot.ParseFlags] is what it gives. In a command the disk and the
    filesystem of a scenario are two states: the second is a directory of the
    first as it is when the scenario is made. A command that redraws until it is interrupted has
    the number of redraws as an argument; other interruptions are left out.
    Concurrency: the locks of the in-memory filesystem serialise its operations,
    which are modelled one after another; the dispatcher's lock is held for
    single accesses of its table, and between them anything may happen to it;
    the batches of the backends are [Pool], and the backends' own definitions
    run the tasks of a batch in order, which [runs_refine_sequence] justifies
    for tasks that do not interfere. A wait of the Kubernetes backend, a
    goroutine of its own in the code, reads its events after the batch it waits
    for. Elsewhere contexts are never cancelled. Log messages and modification
    times are left out: no result depends on them. *)

From Stdlib Require Export ZArith Lia Ascii String.
From stdpp Require Export base tactics numbers list gmap strings.

(** Notations of the development live in a scope of their own. *)
Declare Scope kat_scope.
Delimit Scope kat_scope with kat.
Local Open Scope Z_scope.

(** ** Results

    A Go function returning [(T, error)] is a [result error T]: the two
    branches exclude each other in every function modelled here. *)
Inductive result (E A : Type) : Type :=
| Ok (a : A)
| Err (e : E).
Global Arguments Ok {E A} a.
Global Arguments Err {E A} e.

Definition rbind {E A B} (r : result E A) (k : A → result E B) : result E B :=
  match r with Ok a => k a | Err e => Err e end.

Definition rmap {E A B} (f : A → B) (r : result E A) : result E B :=
  match r with Ok a => Ok (f a) | Err e => Err e end.

Definition is_ok {E A} (r : result E A) : bool :=
  match r with Ok _ => true | Err _ => false end.

(** An [option] read as the comma-ok idiom, with the error of the miss. *)
Definition of_option {E A} (e : E) (o : option A) : result E A :=
  match o with Some a => Ok a | None => Err e end.

Notation "'let*' x ':=' r 'in' k" := (rbind r (fun x => k))
  (at level 10, x pattern, r at level 100, k at level 200) : kat_scope.

(** ** State with errors

    A method that mutates its receiver and may fail keeps the mutations made
    before the failure, so the state is returned on both branches. *)
Definition M (S E A : Type) : Type := S → S * result E A.

Definition sret {S E A} (a : A) : M S E A := fun s => (s, Ok a).
Definition sthrow {S E A} (e : E) : M S E A := fun s => (s, Err e).
Definition sbind {S E A B} (m : M S E A) (k : A → M S E B) : M S E B :=
  fun s => match m s with
           | (s', Ok a) => k a s'
           | (s', Err e) => (s', Err e)
           end.
Definition sget {S E} : M S E S := fun s => (s, Ok s).
Definition sput {S E} (s : S) : M S E unit := fun _ => (s, Ok tt).
Definition smodify {S E} (f : S → S) : M S E unit := fun s => (f s, Ok tt).
Definition slift {S E A} (r : result E A) : M S E A := fun s => (s, r).

Notation "'do*' x '<-' m 'in' k" := (sbind m (fun x => k))
  (at level 10, x pattern, m at level 100, k at level 200) : kat_scope.

(** The loop [for _, x := range xs { if err := f(x); err != nil { return err } }]. *)
Fixpoint sfor {S E A} (xs : list A) (f : A → M S E unit) : M S E unit :=
  match xs with
  | [] => sret tt
  | x :: xs => sbind (f x) (fun _ => sfor xs f)
  end.

(** ** Hoare triples over the state monad

    [sspec P m Q]: from a state satisfying [P], [m] ends in a state and a
    result related by [Q]. *)
Definition sspec {S E A} (P : S → Prop) (m : M S E A) (Q : S → result E A → Prop) : Prop :=
  ∀ s, P s → Q (m s).1 (m s).2.

(** [sinv P m]: [P] is preserved whether [m] fails or not. *)
Definition sinv {S E A} (P : S → Prop) (m : M S E A) : Prop := sspec P m (fun s _ => P s).

Lemma bind_ok {S E A B} (m : M S E A) (f : A → M S E B) s s' a :
  m s = (s', Ok a) → sbind m f s = f a s'.
Proof. intros E1. unfold sbind. by rewrite E1. Qed.
Lemma bind_err {S E A B} (m : M S E A) (f : A → M S E B) s s' e :
  m s = (s', Err e) → sbind m f s = (s', Err e).
Proof. intros E1. unfold sbind. by rewrite E1. Qed.
Lemma bind_inv {S E A B} (m : M S E A) (f : A → M S E B) s s' b :
  sbind m f s = (s', Ok b) → ∃ a s1, m s = (s1, Ok a) ∧ f a s1 = (s', Ok b).
Proof. unfold sbind. destruct (m s) as [s1 [a|e]]; [|done]. eauto. Qed.

Section monad_laws.
Context {S E : Type}.

Lemma sspec_bind {A B} (P : S → Prop) (m : M S E A) (k : A → M S E B) R Q :
  sspec P m (fun s r => match r with Ok a => R a s | Err e => Q s (Err e) end) →
  (∀ a, sspec (R a) (k a) Q) →
  sspec P (sbind m k) Q.
Proof.
  intros Hm Hk s Hs. specialize (Hm s Hs). unfold sbind.
  destruct (m s) as [s' [a|e]]; simpl in *; [by apply Hk | done].
Qed.

Lemma sspec_weaken {A} (P P' : S → Prop) (m : M S E A) (Q Q' : S → result E A → Prop) :
  sspec P m Q → (∀ s, P' s → P s) → (∀ s r, Q s r → Q' s r) → sspec P' m Q'.
Proof. intros H HP HQ s Hs. apply HQ, H, HP, Hs. Qed.

Lemma sinv_ret {A} (P : S → Prop) (a : A) : sinv P (@sret S E A a).
Proof. by intros s Hs. Qed.

Lemma sinv_throw {A} (P : S → Prop) (e : E) : sinv P (@sthrow S E A e).
Proof. by intros s Hs. Qed.

Lemma sinv_get (P : S → Prop) : sinv P (@sget S E).
Proof. by intros s Hs. Qed.

Lemma sinv_lift {A} (P : S → Prop) (r : result E A) : sinv P (@slift S E A r).
Proof. by intros s Hs. Qed.

Lemma sinv_bind {A B} (P : S → Prop) (m : M S E A) (k : A → M S E B) :
  sinv P m → (∀ a, sinv P (k a)) → sinv P (sbind m k).
Proof.
  intros Hm Hk. eapply (sspec_bind _ _ _ (fun _ => P)); [|done].
  intros s Hs. specialize (Hm s Hs). by destruct (m s) as [s' []].
Qed.

Lemma sinv_modify (P : S → Prop) f : (∀ s, P s → P (f s)) → sinv P (@smodify S E f).
Proof. intros H s Hs. by apply H. Qed.

Lemma sinv_for {A} (P : S → Prop) (xs : list A) (f : A → M S E unit) :
  (∀ x, x ∈ xs → sinv P (f x)) → sinv P (sfor xs f).
Proof.
  induction xs as [|x xs IH]; intros Hf; simpl; [apply sinv_ret|].
  apply sinv_bind; [apply Hf; left|]. intros _. apply IH.
  intros y Hy. apply Hf. by right.
Qed.

Lemma sfor_app {A} (xs ys : list A) (f : A → M S E unit) s :
  sfor (xs ++ ys) f s = sbind (sfor xs f) (fun _ => sfor ys f) s.
Proof.
  revert s. induction xs as [|x xs IH]; intros s; [done|].
  simpl. unfold sbind. destruct (f x s) as [s' [[]|e]]; [|done].
  rewrite IH. unfold sbind. done.
Qed.
End monad_laws.

Create HintDb kat.
#[export] Hint Resolve sinv_ret sinv_throw sinv_get sinv_lift : kat.

(** ** Tactics *)

(** Case analysis on the innermost scrutinee of a [match] or [if]. *)
Ltac break_match_goal :=
  match goal with
  | |- context [match ?x with _ => _ end] =>
      lazymatch x with context [match _ with _ => _ end] => fail | _ => destruct x eqn:? end
  end.
Ltac break_match_hyp :=
  match goal with
  | H : context [match ?x with _ => _ end] |- _ =>
      lazymatch x with context [match _ with _ => _ end] => fail | _ => destruct x eqn:? end
  end.
Ltac break_match := first [break_match_goal | break_match_hyp].

(** Injectivity and discrimination for [result], [option] and pairs. *)
Ltac inv_ok :=
  repeat match goal with
  | H : Ok _ = Ok _ |- _ => injection H as H; subst
  | H : Ok _ = Err _ |- _ => discriminate H
  | H : Err _ = Ok _ |- _ => discriminate H
  | H : Err _ = Err _ |- _ => injection H as H; subst
  | H : Some _ = Some _ |- _ => injection H as H; subst
  | H : Some _ = None |- _ => discriminate H
  | H : None = Some _ |- _ => discriminate H
  | H : (_, _) = (_, _) |- _ => injection H as H; subst
  end.

(** Turns boolean tests of the code into propositions. *)
Ltac bool_prop :=
  repeat match goal with
  | H : (_ && _)%bool = true |- _ => apply andb_true_iff in H as [? ?]
  | H : (_ || _)%bool = false |- _ => apply orb_false_iff in H as [? ?]
  | H : negb _ = true |- _ => apply negb_true_iff in H
  | H : negb _ = false |- _ => apply negb_false_iff in H
  | H : bool_decide _ = true |- _ => apply bool_decide_eq_true in H
  | H : bool_decide _ = false |- _ => apply bool_decide_eq_false in H
  | H : (_ <=? _) = true |- _ => apply Z.leb_le in H
  | H : (_ <=? _) = false |- _ => apply Z.leb_gt in H
  | H : (_ <? _) = true |- _ => apply Z.ltb_lt in H
  | H : (_ <? _) = false |- _ => apply Z.ltb_ge in H
  | H : (_ =? _) = true |- _ => apply Z.eqb_eq in H
  | H : (_ =? _) = false |- _ => apply Z.eqb_neq in H
  end.

(** ** Machine integers

    Go's [int] and [int64] on the 64-bit targets of the program. *)
Definition MaxInt64 : Z := 9223372036854775807.
Definition MinInt64 : Z := -9223372036854775808.

(** ** Lists *)

Section list_functions.
Context {A : Type}.

(** [slices.DeleteFunc], [slices.IndexFunc] style helpers. *)
Fixpoint drop_while (p : A → bool) (l : list A) : list A :=
  match l with
  | [] => []
  | x :: l' => if p x then drop_while p l' else l
  end.

Fixpoint take_while (p : A → bool) (l : list A) : list A :=
  match l with
  | [] => []
  | x :: l' => if p x then x :: take_while p l' else []
  end.

Definition trim (p : A → bool) (l : list A) : list A :=
  reverse (drop_while p (reverse (drop_while p l))).

Lemma take_drop_while p l : take_while p l ++ drop_while p l = l.
Proof. induction l as [|x l IH]; simpl; [done|]. destruct (p x); simpl; [by rewrite IH|done]. Qed.

Lemma take_while_forallb p l : forallb p (take_while p l) = true.
Proof. induction l as [|x l IH]; simpl; [done|]. destruct (p x) eqn:E; simpl; [by rewrite E, IH|done]. Qed.

Lemma drop_while_head p l x l' : drop_while p l = x :: l' → p x = false.
Proof.
  induction l as [|y l IH]; simpl; [done|].
  destruct (p y) eqn:E; [done|]. by intros [= <- _].
Qed.

Lemma drop_while_none p l : (∀ x, x ∈ l → p x = false) → drop_while p l = l.
Proof. destruct l as [|x l]; simpl; [done|]. intros H. by rewrite (H x) by left. Qed.

Lemma drop_while_suffix p l : drop_while p l `suffix_of` l.
Proof. exists (take_while p l). by rewrite take_drop_while. Qed.

Lemma trim_none p l : (∀ x, x ∈ l → p x = false) → trim p l = l.
Proof.
  intros H. unfold trim. rewrite (drop_while_none p l H), drop_while_none, reverse_involutive; [done|].
  intros x Hx. apply H. by apply elem_of_reverse.
Qed.

Lemma trim_sublist p l x : x ∈ trim p l → x ∈ l.
Proof.
  unfold trim. rewrite elem_of_reverse. intros H.
  destruct (drop_while_suffix p (reverse (drop_while p l))) as [k1 E1].
  destruct (drop_while_suffix p l) as [k2 E2]. rewrite E2.
  apply elem_of_app; right. apply elem_of_reverse. rewrite E1.
  apply elem_of_app; by right.
Qed.

Lemma drop_while_idemp p l : drop_while p (drop_while p l) = drop_while p l.
Proof. induction l as [|x l IH]; simpl; [done|]. destruct (p x) eqn:E; simpl; [done|]. by rewrite E. Qed.
End list_functions.

(** A property that every step of a fold keeps holds of its result. *)
Lemma foldl_inv {A B} (P : B → Prop) (f : B → A → B) (l : list A) (b : B) :
  P b → (∀ b a, P b → P (f b a)) → P (foldl f b l).
Proof. intros Hb Hf. revert b Hb. induction l as [|a l IH]; simpl; auto. Qed.
