(* ===== verification/Slice.v ===== *)
(** * Slices of Go

    Indexing, slicing and copying with the checks of the runtime: an index out
    of range is a panic, which [result panic] makes a value.  With them the
    counted loops the program runs over slices, and their closed forms. *)

From S2P Require Export Prelude.
Local Open Scope list_scope.
Local Open Scope Z_scope.
Local Open Scope kat_scope.

Inductive panic : Type :=
| IndexOutOfRange (i len : Z)
| SliceOutOfRange (lo hi len : Z)
| NilSession (* a method of a nil interface *).

Section slices.
Context {A : Type}.

Definition zlen (l : list A) : Z := Z.of_nat (length l).

(** [l[i]]. *)
Definition index_at (l : list A) (i : Z) : result panic A :=
  if i <? 0 then Err (IndexOutOfRange i (zlen l))
  else match l !! Z.to_nat i with Some x => Ok x | None => Err (IndexOutOfRange i (zlen l)) end.

(** [l[i] = x]. *)
Definition set_at (l : list A) (i : Z) (x : A) : result panic (list A) :=
  if (0 <=? i) && (i <? zlen l) then Ok (<[Z.to_nat i := x]> l)
  else Err (IndexOutOfRange i (zlen l)).

(** [for i := i; n more times; i++ { l[i] = x }]. *)
Fixpoint fill (n : nat) (i : Z) (x : A) (l : list A) : result panic (list A) :=
  match n with
  | O => Ok l
  | S n => let* l := set_at l i x in fill n (i + 1) x l
  end.

(** [l[lo:hi]]. *)
Definition slice (l : list A) (lo hi : Z) : result panic (list A) :=
  if (0 <=? lo) && (lo <=? hi) && (hi <=? zlen l)
  then Ok (take (Z.to_nat (hi - lo)) (drop (Z.to_nat lo) l))
  else Err (SliceOutOfRange lo hi (zlen l)).

(** [copy(l[dlo:dhi], l[slo:shi])]: as many elements as both have, as if
    through a buffer. *)
Definition copy_within (l : list A) (dlo dhi slo shi : Z) : result panic (list A) :=
  let* dst := slice l dlo dhi in
  let* src := slice l slo shi in
  let n := Nat.min (length dst) (length src) in
  Ok (take (Z.to_nat dlo) l ++ take n src ++ drop (Z.to_nat dlo + n) l).
End slices.

Definition clamp (v lo hi : Z) : Z :=
  if v <? lo then lo else if hi <? v then hi else v.
Definition minInt (a b : Z) : Z := if a <? b then a else b.
Definition maxInt (a b : Z) : Z := if b <? a then a else b.

(** [n] rounds of a loop body. *)
Fixpoint repeat_ok {A} (n : nat) (f : A → result panic A) (a : A) : result panic A :=
  match n with O => Ok a | S n => let* a := f a in repeat_ok n f a end.

(** [for i := i; n more times; i++ { out = append(out, f(i)) }]. *)
Fixpoint collect {A} (n : nat) (i : Z) (f : Z → result panic A) : result panic (list A) :=
  match n with
  | O => Ok []
  | S n => let* x := f i in let* xs := collect n (i + 1) f in Ok (x :: xs)
  end.

(** [for end > 0 && blank(line[end-1]) { end-- }] and the cells before [end]. *)
Definition trim_right {A} (p : A → bool) (l : list A) : list A := reverse (drop_while p (reverse l)).


(** ** Lemmas *)

Section slice_lemmas.
Context {A : Type}.
Implicit Types (l : list A) (x : A).

Lemma zlen_nonneg l : 0 <= zlen l.
Proof. unfold zlen. lia. Qed.

Lemma zlen_nil : zlen (@nil A) = 0.
Proof. done. Qed.

Lemma zlen_cons x l : zlen (x :: l) = zlen l + 1.
Proof. unfold zlen. cbn [length]. lia. Qed.

Lemma zlen_app l k : zlen (l ++ k) = zlen l + zlen k.
Proof. unfold zlen. rewrite length_app. lia. Qed.

Lemma zlen_snoc l x : zlen (l ++ [x]) = zlen l + 1.
Proof. by rewrite zlen_app. Qed.

Lemma zlen_fmap {B} (f : A → B) l : zlen (f <$> l) = zlen l.
Proof. unfold zlen. by rewrite length_fmap. Qed.

Lemma zlen_replicate n x : zlen (replicate n x) = Z.of_nat n.
Proof. unfold zlen. by rewrite length_replicate. Qed.

Lemma zlen_insert l i x : zlen (<[i := x]> l) = zlen l.
Proof. unfold zlen. by rewrite length_insert. Qed.

Lemma index_at_Ok l i x : index_at l i = Ok x ↔ 0 <= i ∧ l !! Z.to_nat i = Some x.
Proof.
  unfold index_at. destruct (Z.ltb_spec i 0); [split; [done|lia]|].
  destruct (l !! Z.to_nat i); (split; [intros [= ->]; auto|intros [_ [= ->]]; auto]).
Qed.

Lemma index_at_in l i : 0 <= i < zlen l → ∃ x, index_at l i = Ok x ∧ l !! Z.to_nat i = Some x.
Proof.
  unfold zlen. intros Hi. destruct (lookup_lt_is_Some_2 l (Z.to_nat i)) as [x Hx]; [lia|].
  exists x. split; [|done]. apply index_at_Ok. split; [lia|done].
Qed.

Lemma set_at_in l i x : 0 <= i < zlen l → set_at l i x = Ok (<[Z.to_nat i := x]> l).
Proof.
  intros Hi. unfold set_at. by rewrite (proj2 (Z.leb_le _ _)), (proj2 (Z.ltb_lt _ _)) by lia.
Qed.

Lemma slice_in l lo hi :
  0 <= lo <= hi → hi <= zlen l → slice l lo hi = Ok (take (Z.to_nat (hi - lo)) (drop (Z.to_nat lo) l)).
Proof. intros. unfold slice. by rewrite !(proj2 (Z.leb_le _ _)) by lia. Qed.

Lemma fill_spec n i x l :
  0 <= i → i + Z.of_nat n <= zlen l →
  fill n i x l = Ok (take (Z.to_nat i) l ++ replicate n x ++ drop (Z.to_nat i + n) l).
Proof.
  revert i l. induction n as [|n IH]; intros i l Hi Hl; cbn [fill replicate].
  { by rewrite Nat.add_0_r, app_nil_l, take_drop. }
  rewrite set_at_in by lia. cbn [rbind]. rewrite IH by (rewrite ?zlen_insert; lia).
  f_equal. replace (Z.to_nat (i + 1)) with (S (Z.to_nat i)) by lia.
  unfold zlen in Hl.
  erewrite take_S_r by (apply list_lookup_insert_eq; lia).
  rewrite take_insert_ge by lia. rewrite <- app_assoc. cbn. do 3 f_equal.
  rewrite drop_insert_lt by lia. f_equal. lia.
Qed.

Lemma fill_length n i x l l' : fill n i x l = Ok l' → length l' = length l.
Proof.
  revert i l. induction n as [|n IH]; intros i l; cbn [fill]; [by intros [= ->]|].
  unfold set_at. case_match; cbn; [|done]. intros H0%IH. by rewrite H0, length_insert.
Qed.

(** A row range of a slice: what comes before, the range and what comes after. *)
Lemma split_range l lo hi :
  0 <= lo <= hi → hi < zlen l →
  ∃ a b c, l = a ++ b ++ c ∧ zlen a = lo ∧ zlen a + zlen b = hi + 1.
Proof.
  unfold zlen. intros. exists (take (Z.to_nat lo) l), (take (Z.to_nat (hi + 1 - lo)) (drop (Z.to_nat lo) l)),
    (drop (Z.to_nat (hi + 1)) l). split_and!.
  - rewrite <- (take_drop (Z.to_nat lo) l) at 1. f_equal.
    rewrite <- (take_drop (Z.to_nat (hi + 1 - lo)) (drop _ l)) at 1. f_equal.
    rewrite drop_drop. f_equal. lia.
  - rewrite length_take. lia.
  - rewrite !length_take, length_drop. lia.
Qed.

Lemma take_zlen_app l k : take (Z.to_nat (zlen l)) (l ++ k) = l.
Proof. unfold zlen. rewrite Nat2Z.id. apply take_app_length. Qed.
Lemma drop_zlen_app l k : drop (Z.to_nat (zlen l)) (l ++ k) = k.
Proof. unfold zlen. rewrite Nat2Z.id. apply drop_app_length. Qed.

(** [copy] moving a range one place down, the freed last place being written. *)
Lemma shift_down_spec a y b c x :
  (let* g := copy_within (a ++ (y :: b) ++ c) (zlen a) (zlen a + zlen b) (zlen a + 1) (zlen a + zlen b + 1) in
   set_at g (zlen a + zlen b) x) = Ok (a ++ (b ++ [x]) ++ c).
Proof.
  pose proof (zlen_nonneg a). pose proof (zlen_nonneg b). pose proof (zlen_nonneg c).
  unfold copy_within.
  rewrite !slice_in by (rewrite ?zlen_app, ?zlen_cons; lia). cbn [rbind].
  replace (Z.to_nat (zlen a + 1)) with (Z.to_nat (zlen a) + 1)%nat by lia.
  rewrite <- drop_drop, drop_zlen_app. cbn [app drop].
  replace (Z.to_nat (zlen a + zlen b - zlen a)) with (length b) by (unfold zlen; lia).
  replace (Z.to_nat (zlen a + zlen b + 1 - (zlen a + 1))) with (length b) by (unfold zlen; lia).
  rewrite drop_0, take_app_length, length_take. cbn [length]. rewrite length_app.
  replace (Nat.min (Nat.min (length b) (S (length b + length c))) (length b)) with (length b) by lia.
  rewrite take_zlen_app, (take_ge b) by lia. rewrite <- drop_drop, drop_zlen_app.
  assert (∃ z, drop (length b) (y :: b ++ c) = z :: c) as [z ->].
  { clear. revert y. induction b as [|y' b IH]; intros y; cbn; [by exists y|apply IH]. }
  rewrite set_at_in by (rewrite !zlen_app, zlen_cons; lia). f_equal.
  replace (Z.to_nat (zlen a + zlen b)) with (length a + (length b + 0))%nat by (unfold zlen; lia).
  rewrite !insert_app_r. cbn. by rewrite <- app_assoc.
Qed.

(** [copy] moving a range one place up, the freed first place being written. *)
Lemma shift_up_spec a b y c x :
  (let* g := copy_within (a ++ (b ++ [y]) ++ c) (zlen a + 1) (zlen a + zlen b + 1) (zlen a) (zlen a + zlen b) in
   set_at g (zlen a) x) = Ok (a ++ (x :: b) ++ c).
Proof.
  pose proof (zlen_nonneg a). pose proof (zlen_nonneg b). pose proof (zlen_nonneg c).
  unfold copy_within.
  rewrite !slice_in by (rewrite ?zlen_app, ?zlen_cons, ?zlen_nil; lia). cbn [rbind].
  replace (Z.to_nat (zlen a + zlen b - zlen a)) with (length b) by (unfold zlen; lia).
  replace (Z.to_nat (zlen a + zlen b + 1 - (zlen a + 1))) with (length b) by (unfold zlen; lia).
  rewrite drop_zlen_app. rewrite <- (app_assoc b), take_app_length.
  rewrite length_take, length_drop, !length_app. cbn [length].
  replace (Nat.min _ (length b)) with (length b) by (unfold zlen; lia). rewrite (take_ge b) by lia.
  replace (Z.to_nat (zlen a + 1)) with (Z.to_nat (zlen a) + 1)%nat by lia.
  assert (∃ z, take (Z.to_nat (zlen a) + 1) (a ++ b ++ [y] ++ c) = a ++ [z]) as [z ->].
  { unfold zlen. rewrite Nat2Z.id, take_app_add. destruct b as [|z b]; cbn; eauto. }
  replace (drop (Z.to_nat (zlen a) + 1 + length b) (a ++ b ++ [y] ++ c)) with c.
  2:{ replace (Z.to_nat (zlen a) + 1 + length b)%nat with (Z.to_nat (zlen a) + (length b + 1))%nat by lia.
      by rewrite <- drop_drop, drop_zlen_app, <- drop_drop, drop_app_length. }
  rewrite set_at_in by (rewrite !zlen_app, zlen_cons, zlen_nil; lia). f_equal.
  replace (Z.to_nat (zlen a)) with (length a + 0)%nat by (unfold zlen; lia).
  rewrite <- app_assoc. rewrite insert_app_r. done.
Qed.

Lemma copy_within_length l dlo dhi slo shi l' : copy_within l dlo dhi slo shi = Ok l' → length l' = length l.
Proof.
  unfold copy_within, slice. repeat (case_match; cbn; try done). intros [= <-].
  unfold zlen in *. bool_prop. rewrite !length_app, !length_take, !length_drop. lia.
Qed.

Lemma copy_within_in l dlo dhi slo shi :
  0 <= dlo <= dhi → dhi <= zlen l → 0 <= slo <= shi → shi <= zlen l →
  ∃ l', copy_within l dlo dhi slo shi = Ok l'.
Proof. intros. unfold copy_within. rewrite !slice_in by lia. cbn. eauto. Qed.

Lemma repeat_ok_inv (P : A → Prop) n (f : A → result panic A) a :
  (∀ a, P a → ∃ a', f a = Ok a' ∧ P a') → P a → ∃ a', repeat_ok n f a = Ok a' ∧ P a'.
Proof.
  intros Hf. revert a. induction n as [|n IH]; intros a Ha; cbn; [eauto|].
  destruct (Hf a Ha) as (a' & -> & Ha'). cbn. auto.
Qed.

Lemma collect_spec n i (f : Z → result panic A) (g : nat → A) :
  (∀ k, (k < n)%nat → f (i + Z.of_nat k) = Ok (g k)) → collect n i f = Ok (g <$> seq 0 n).
Proof.
  revert i g. induction n as [|n IH]; intros i g Hf; cbn; [done|].
  rewrite <- (Z.add_0_r i) at 1. change 0 with (Z.of_nat 0) at 1. rewrite Hf by lia. cbn.
  rewrite (IH (i + 1) (λ k, g (S k))).
  - cbn. do 2 f_equal. rewrite <- fmap_S_seq, <- list_fmap_compose. done.
  - intros k Hk. rewrite <- Hf by lia. f_equal. lia.
Qed.

Lemma collect_total n i (f : Z → result panic A) :
  (∀ j, i <= j < i + Z.of_nat n → ∃ x, f j = Ok x) → ∃ l, collect n i f = Ok l ∧ length l = n.
Proof.
  revert i. induction n as [|n IH]; intros i H; cbn; [by exists []|].
  destruct (H i) as [x ->]; [lia|]. destruct (IH (i + 1)) as (l & -> & El); [intros j Hj; apply H; lia|].
  exists (x :: l). cbn. by rewrite El.
Qed.

Lemma collect_lookup n i (f : Z → result panic A) l :
  length l = n → (∀ k x, l !! k = Some x → f (i + Z.of_nat k) = Ok x) → collect n i f = Ok l.
Proof.
  revert i n. induction l as [|x l IH]; intros i n <- Hf; cbn; [done|].
  rewrite <- (Z.add_0_r i) at 1. change 0 with (Z.of_nat 0) at 1. rewrite (Hf 0%nat x) by done. cbn.
  rewrite (IH (i + 1)); [done|done|]. intros k y Hk. rewrite <- (Hf (S k) y) by done. f_equal. lia.
Qed.

Lemma trim_right_app (p : A → bool) l k : forallb p k = true → trim_right p (l ++ k) = trim_right p l.
Proof.
  unfold trim_right. intros Hk. f_equal. rewrite reverse_app.
  assert (H : forallb p (reverse k) = true) by (rewrite forallb_forall in *; intros y Hy; apply Hk;
    apply list_elem_of_In, elem_of_reverse, list_elem_of_In; done).
  induction (reverse k) as [|y k' IH]; cbn; [done|]. cbn in H. apply andb_true_iff in H as [-> ?]. auto.
Qed.

Lemma trim_right_none (p : A → bool) l x : p x = false → trim_right p (l ++ [x]) = l ++ [x].
Proof. unfold trim_right. intros Hx. rewrite reverse_snoc. cbn [drop_while]. rewrite Hx. by rewrite reverse_cons, reverse_involutive. Qed.
End slice_lemmas.

Lemma clamp_in v lo hi : lo <= hi → lo <= clamp v lo hi <= hi.
Proof. unfold clamp. repeat case_match; bool_prop; lia. Qed.
Lemma clamp_lt v n : 0 < n → 0 <= clamp v 0 (n - 1) < n.
Proof. intros. pose proof (clamp_in v 0 (n - 1)). lia. Qed.
Lemma clamp_id v lo hi : lo <= v <= hi → clamp v lo hi = v.
Proof. unfold clamp. repeat case_match; bool_prop; lia. Qed.
Lemma minInt_min a b : minInt a b = Z.min a b.
Proof. unfold minInt. case_match; bool_prop; lia. Qed.
Lemma maxInt_max a b : maxInt a b = Z.max a b.
Proof. unfold maxInt. case_match; bool_prop; lia. Qed.
