(* ===== verification/GoString.v ===== *)
(** * Go strings

    A Go [string] is a sequence of bytes that usually, but not always, holds
    UTF-8.  This file models the part of the language and of the packages
    [strings], [strconv] and [unicode/utf8] the program relies on: decoding a
    string into runes the way [for _, r := range s] does, encoding runes, and
    the byte-wise and rune-wise functions built on the two. *)

From S2P Require Export Prelude.
From stdpp Require Export pretty.
Local Open Scope Z_scope.

#[global] Arguments String.append !_ _ /.

(** A byte as a number, and back. *)
Definition zb (a : ascii) : Z := Z.of_N (N_of_ascii a).
Definition az (z : Z) : ascii := ascii_of_N (Z.to_N z).

Definition str1 (a : ascii) : string := String a EmptyString.

(** ** UTF-8 *)

(** [utf8.RuneError]. *)
Definition RuneError : Z := 0xFFFD.

(** The second byte a leading byte accepts, the table of [unicode/utf8]. *)
Definition second_ok (b0 b1 : Z) : bool :=
  let within lo hi := (lo <=? b1) && (b1 <=? hi) in
  if (0xC2 <=? b0) && (b0 <=? 0xDF) then within 0x80 0xBF
  else if b0 =? 0xE0 then within 0xA0 0xBF
  else if b0 =? 0xED then within 0x80 0x9F
  else if (0xE1 <=? b0) && (b0 <=? 0xEF) then within 0x80 0xBF
  else if b0 =? 0xF0 then within 0x90 0xBF
  else if (0xF1 <=? b0) && (b0 <=? 0xF3) then within 0x80 0xBF
  else if b0 =? 0xF4 then within 0x80 0x8F
  else false.

Definition is_cont (b : Z) : bool := (0x80 <=? b) && (b <=? 0xBF).

(** Successive [utf8.DecodeRuneInString]: each rune with the bytes it took. A
    byte that starts no valid sequence is [RuneError] of width one. *)
Fixpoint decode (s : string) : list (Z * string) :=
  match s with
  | EmptyString => []
  | String a s1 =>
      let b0 := zb a in
      if b0 <? 0x80 then (b0, str1 a) :: decode s1 else
      match s1 with
      | EmptyString => [(RuneError, str1 a)]
      | String b s2 =>
          if negb (second_ok b0 (zb b)) then (RuneError, str1 a) :: decode s1 else
          if b0 <? 0xE0 then
            ((b0 - 0xC0) * 64 + (zb b - 0x80), String a (str1 b)) :: decode s2 else
          match s2 with
          | EmptyString => (RuneError, str1 a) :: decode s1
          | String c s3 =>
              if negb (is_cont (zb c)) then (RuneError, str1 a) :: decode s1 else
              if b0 <? 0xF0 then
                ((b0 - 0xE0) * 4096 + (zb b - 0x80) * 64 + (zb c - 0x80),
                 String a (String b (str1 c))) :: decode s3 else
              match s3 with
              | EmptyString => (RuneError, str1 a) :: decode s1
              | String d s4 =>
                  if negb (is_cont (zb d)) then (RuneError, str1 a) :: decode s1 else
                  ((b0 - 0xF0) * 262144 + (zb b - 0x80) * 4096 + (zb c - 0x80) * 64
                     + (zb d - 0x80),
                   String a (String b (String c (str1 d)))) :: decode s4
              end
          end
      end
  end.

(** [[]rune(s)], and the runes of a [range] loop. *)
Definition runes (s : string) : list Z := (decode s).*1.

(** A decoding failure: [RuneError] of width one. *)
Definition bad_chunk (c : Z * string) : bool :=
  (c.1 =? RuneError) && Nat.eqb (String.length c.2) 1.

(** [utf8.Valid]. *)
Definition utf8_valid (s : string) : bool :=
  forallb (fun c => negb (bad_chunk c)) (decode s).

(** The runes [utf8.AppendRune] encodes as themselves. *)
Definition valid_rune (r : Z) : bool :=
  ((0 <=? r) && (r <? 0xD800)) || ((0xE000 <=? r) && (r <=? 0x10FFFF)).

Definition encode_rune (r : Z) : string :=
  let r := if valid_rune r then r else RuneError in
  if r <? 0x80 then str1 (az r)
  else if r <? 0x800 then
    String (az (0xC0 + r / 64)) (str1 (az (0x80 + r mod 64)))
  else if r <? 0x10000 then
    String (az (0xE0 + r / 4096))
      (String (az (0x80 + (r / 64) mod 64)) (str1 (az (0x80 + r mod 64))))
  else
    String (az (0xF0 + r / 262144))
      (String (az (0x80 + (r / 4096) mod 64))
         (String (az (0x80 + (r / 64) mod 64)) (str1 (az (0x80 + r mod 64))))).

(** ** [utf8.FullRune] and [utf8.DecodeRune] *)

(** The length of the sequence a leading byte announces; 1 for a byte that
    announces none. *)
Definition rune_len (b0 : Z) : nat :=
  if (0xC2 <=? b0) && (b0 <=? 0xDF) then 2%nat
  else if (0xE0 <=? b0) && (b0 <=? 0xEF) then 3%nat
  else if (0xF0 <=? b0) && (b0 <=? 0xF4) then 4%nat
  else 1%nat.

Definition FullRune (s : string) : bool :=
  match s with
  | EmptyString => false
  | String a s1 =>
      if (rune_len (zb a) <=? String.length s)%nat then true
      else match s1 with
           | EmptyString => false
           | String b s2 =>
               if negb (second_ok (zb a) (zb b)) then true
               else match s2 with
                    | EmptyString => false
                    | String c _ => negb (is_cont (zb c))
                    end
           end
  end.

(** The first rune and the number of bytes it takes. *)
Definition DecodeRune (s : string) : Z * nat :=
  match decode s with
  | [] => (RuneError, 0%nat)
  | (r, b) :: _ => (r, String.length b)
  end.

Fixpoint string_concat (l : list string) : string :=
  match l with [] => EmptyString | s :: l => s +:+ string_concat l end.

(** [string(rs)] for a slice of runes. *)
Definition string_of_runes (rs : list Z) : string := string_concat (encode_rune <$> rs).

(** The bytes a list of decoded chunks covers. *)
Definition chunks_string (cs : list (Z * string)) : string := string_concat cs.*2.

(** ** Package [strings] *)

(** [strings.TrimFunc]. *)
Definition TrimFunc (p : Z → bool) (s : string) : string :=
  chunks_string (trim (fun c => p c.1) (decode s)).

(** [strings.HasPrefix] and [strings.TrimPrefix]. *)
Definition HasPrefix (s p : string) : bool := String.prefix p s.

Fixpoint string_drop (n : nat) (s : string) : string :=
  match n, s with
  | S n, String _ s => string_drop n s
  | _, _ => s
  end.

Fixpoint string_take (n : nat) (s : string) : string :=
  match n, s with
  | S n, String a s => String a (string_take n s)
  | _, _ => EmptyString
  end.

Definition TrimPrefix (s p : string) : string :=
  if HasPrefix s p then string_drop (String.length p) s else s.

Fixpoint string_bytes (s : string) : list ascii :=
  match s with EmptyString => [] | String a s => a :: string_bytes s end.

Fixpoint bytes_string (l : list ascii) : string :=
  match l with [] => EmptyString | a :: l => String a (bytes_string l) end.

Definition string_rev (s : string) : string := bytes_string (reverse (string_bytes s)).

Definition HasSuffix (s p : string) : bool :=
  String.prefix (string_rev p) (string_rev s).

Definition TrimSuffix (s p : string) : string :=
  if HasSuffix s p then string_take (String.length s - String.length p)%nat s else s.

(** [strings.Contains] of a one-byte string. *)
Fixpoint contains_byte (c : ascii) (s : string) : bool :=
  match s with
  | EmptyString => false
  | String a s => Ascii.eqb a c || contains_byte c s
  end.

(** [strings.Split] on a one-byte separator: never empty. *)
Fixpoint split_byte (sep : ascii) (s : string) : list string :=
  match s with
  | EmptyString => [EmptyString]
  | String a s =>
      if Ascii.eqb a sep then EmptyString :: split_byte sep s
      else match split_byte sep s with
           | [] => [str1 a]
           | p :: ps => String a p :: ps
           end
  end.

(** [strings.Join]. *)
Fixpoint str_join (sep : string) (l : list string) : string :=
  match l with
  | [] => EmptyString
  | [s] => s
  | s :: l => s +:+ sep +:+ str_join sep l
  end.

(** Deletes every byte satisfying [p]: [strings.NewReplacer] with one-byte
    keys and empty replacements. *)
Fixpoint delete_bytes (p : ascii → bool) (s : string) : string :=
  match s with
  | EmptyString => EmptyString
  | String a s => if p a then delete_bytes p s else String a (delete_bytes p s)
  end.

Definition all_bytes (p : ascii → bool) (s : string) : bool := forallb p (string_bytes s).

(** [strings.Cut] at a byte. *)
Fixpoint cut_byte (sep : ascii) (s : string) : option (string * string) :=
  match s with
  | EmptyString => None
  | String a s => if Ascii.eqb a sep then Some (EmptyString, s)
                  else match cut_byte sep s with
                       | Some (before, after) => Some (String a before, after)
                       | None => None
                       end
  end.

(** [strings.ReplaceAll] of a non-empty pattern; [skip] bytes of a match are
    still to be passed over. *)
Fixpoint replace_from (old new : string) (skip : nat) (s : string) : string :=
  match s with
  | EmptyString => ""
  | String a r =>
      match skip with
      | S k => replace_from old new k r
      | O => if String.prefix old s then new +:+ replace_from old new (Nat.pred (String.length old)) r
             else String a (replace_from old new 0 r)
      end
  end.

Definition ReplaceAll (s old new : string) : string := replace_from old new 0 s.

(** [strings.ContainsRune] and [strings.ContainsFunc]. *)
Definition ContainsRune (s : string) (r : Z) : bool := existsb (Z.eqb r) (runes s).
Definition ContainsFunc (s : string) (p : Z → bool) : bool := existsb p (runes s).

(** [strconv.Itoa] and [strconv.FormatInt(n, 10)]. *)
Definition Itoa (n : Z) : string := pretty n.

(** [strings.Contains]. *)
Fixpoint Contains (s sub : string) : bool :=
  String.prefix sub s || match s with EmptyString => false | String _ r => Contains r sub end.

(** [slices.Contains] on strings. *)
Definition str_in (x : string) (l : list string) : bool := existsb (String.eqb x) l.

(** Byte-wise order of strings, Go's [<] on [string]. *)
Fixpoint str_compare (s t : string) : comparison :=
  match s, t with
  | EmptyString, EmptyString => Eq
  | EmptyString, _ => Lt
  | _, EmptyString => Gt
  | String a s, String b t =>
      match zb a ?= zb b with Eq => str_compare s t | c => c end
  end.

Definition str_leb (s t : string) : bool :=
  match str_compare s t with Gt => false | _ => true end.

(** ** Lemmas *)

Lemma str_in_elem x l : str_in x l = true ↔ x ∈ l.
Proof.
  unfold str_in. rewrite existsb_exists. split.
  - intros (y & Hy & E). apply String.eqb_eq in E as ->. by apply list_elem_of_In.
  - intros H. exists x. split; [by apply list_elem_of_In | apply String.eqb_refl].
Qed.

Lemma string_app_nil_r (s : string) : s +:+ "" = s.
Proof. induction s; simpl; [done|congruence]. Qed.

Lemma string_app_assoc (s t u : string) : (s +:+ t) +:+ u = s +:+ (t +:+ u).
Proof. induction s; simpl; [done|congruence]. Qed.

Lemma string_length_app (s t : string) : String.length (s +:+ t) = (String.length s + String.length t)%nat.
Proof. induction s as [|a s IH]; [done|]. cbn. by rewrite IH. Qed.

Lemma string_app_inj_r (s t u v : string) :
  String.length u = String.length v → s +:+ u = t +:+ v → s = t ∧ u = v.
Proof.
  intros Hl. revert t. induction s as [|a s IH]; intros t E.
  - destruct t as [|b t]; [done|]. apply (f_equal String.length) in E. cbn in E.
    rewrite string_length_app in E. lia.
  - destruct t as [|b t].
    + apply (f_equal String.length) in E. cbn in E. rewrite string_length_app in E. lia.
    + cbn in E. injection E as -> E. apply IH in E as [-> ->]. done.
Qed.

Lemma string_drop_app n (s t : string) :
  (n <= String.length s)%nat → string_drop n (s +:+ t) = string_drop n s +:+ t.
Proof. revert s. induction n as [|n IH]; intros [|a s] Hn; cbn in *; try done; try lia. apply IH. lia. Qed.

Lemma string_take_app s t : string_take (String.length s) (s +:+ t) = s.
Proof. induction s as [|a s IH]; cbn; [by destruct t|]. by rewrite IH. Qed.

Lemma string_drop_length_app s t : string_drop (String.length s) (s +:+ t) = t.
Proof. induction s as [|a s IH]; cbn; [by destruct t|done]. Qed.

Lemma string_drop_length n s : String.length (string_drop n s) = (String.length s - n)%nat.
Proof. revert s. induction n as [|n IH]; intros [|a s]; cbn; try done. Qed.

Lemma string_take_drop n s : string_take n s +:+ string_drop n s = s.
Proof. revert s. induction n as [|n IH]; intros [|a s]; cbn; try done. by rewrite IH. Qed.

Lemma string_concat_app l k : string_concat (l ++ k) = string_concat l +:+ string_concat k.
Proof. induction l; simpl; [done|]. by rewrite string_app_assoc, IHl. Qed.

Lemma string_bytes_app s t : string_bytes (s +:+ t) = string_bytes s ++ string_bytes t.
Proof. induction s; simpl; [done|congruence]. Qed.

Lemma bytes_string_bytes s : bytes_string (string_bytes s) = s.
Proof. induction s; simpl; [done|congruence]. Qed.

Lemma string_bytes_string l : string_bytes (bytes_string l) = l.
Proof. induction l; simpl; [done|congruence]. Qed.

Lemma zb_range a : 0 <= zb a < 256.
Proof. unfold zb. pose proof (N_ascii_bounded a). lia. Qed.

Lemma zb_az z : 0 <= z < 256 → zb (az z) = z.
Proof. intros H. unfold zb, az. rewrite N_ascii_embedding by lia. lia. Qed.

Lemma az_zb a : az (zb a) = a.
Proof. unfold zb, az. by rewrite N2Z.id, ascii_N_embedding. Qed.

Lemma zb_inj a b : zb a = zb b → a = b.
Proof. intros H. rewrite <- (az_zb a), <- (az_zb b). by rewrite H. Qed.

Lemma str_compare_eq s t : str_compare s t = Eq ↔ s = t.
Proof.
  revert t. induction s as [|a s IH]; intros [|b t]; simpl; try done.
  destruct (Z.compare_spec (zb a) (zb b)) as [E|L|L].
  - apply zb_inj in E as ->. rewrite IH. split; [by intros ->|by intros [= ->]].
  - split; [done|]. intros [= -> ->]. lia.
  - split; [done|]. intros [= -> ->]. lia.
Qed.

(** Decoding covers the string: no byte is lost or duplicated. *)
Lemma chunks_decode s : chunks_string (decode s) = s.
Proof.
  unfold chunks_string.
  enough (H : ∀ n s, (String.length s < n)%nat → string_concat (decode s).*2 = s)
    by (apply (H (S (String.length s))); lia); clear s.
  induction n as [|n IH]; intros s Hn; [lia|].
  assert (IH' : ∀ r p t, (String.length t < n)%nat →
            string_concat ((r, p) :: decode t).*2 = p +:+ t) by (intros; simpl; by rewrite IH).
  assert (IH0 : ∀ (r : Z) p, string_concat [(r, p)].*2 = p) by (intros; apply string_app_nil_r).
  destruct s as [|a s]; [done|]. cbn [String.length] in Hn. cbn [decode].
  repeat (case_match; cbn [String.length] in *);
    first [rewrite IH' by lia | rewrite IH'; cbn [String.length]; [|lia] | rewrite IH0]; done.
Qed.

Lemma decode_ascii a s : zb a < 0x80 → decode (String a s) = (zb a, str1 a) :: decode s.
Proof. intros H. cbn [decode]. by rewrite (proj2 (Z.ltb_lt _ _) H). Qed.

(** Boolean comparisons against constants, decided by [lia]. *)
Ltac zdec :=
  repeat match goal with
  | |- context [?a <? ?b] =>
      first [replace (a <? b) with true by (symmetry; apply Z.ltb_lt; lia)
            |replace (a <? b) with false by (symmetry; apply Z.ltb_ge; lia)]
  | |- context [?a <=? ?b] =>
      first [replace (a <=? b) with true by (symmetry; apply Z.leb_le; lia)
            |replace (a <=? b) with false by (symmetry; apply Z.leb_gt; lia)]
  | |- context [?a =? ?b] =>
      first [replace (a =? b) with true by (symmetry; apply Z.eqb_eq; lia)
            |replace (a =? b) with false by (symmetry; apply Z.eqb_neq; lia)]
  end.

Lemma valid_rune_spec r :
  valid_rune r = true ↔ 0 <= r < 0xD800 ∨ 0xE000 <= r <= 0x10FFFF.
Proof. unfold valid_rune. rewrite orb_true_iff, !andb_true_iff, !Z.leb_le, !Z.ltb_lt. lia. Qed.

Lemma second_ok_2 b0 b1 : 0xC2 <= b0 <= 0xDF → 0x80 <= b1 <= 0xBF → second_ok b0 b1 = true.
Proof. intros. unfold second_ok. by zdec. Qed.

Lemma second_ok_wide b0 b1 :
  0xE0 <= b0 <= 0xF4 → 0x80 <= b1 <= 0xBF →
  (b0 = 0xE0 → 0xA0 <= b1) → (b0 = 0xED → b1 <= 0x9F) →
  (b0 = 0xF0 → 0x90 <= b1) → (b0 = 0xF4 → b1 <= 0x8F) →
  second_ok b0 b1 = true.
Proof.
  intros H0 H1 HE0 HED HF0 HF4. unfold second_ok.
  destruct (decide (b0 = 0xE0)) as [->|]; [simpl; zdec; done|].
  destruct (decide (b0 = 0xED)) as [->|]; [simpl; zdec; done|].
  destruct (decide (b0 = 0xF0)) as [->|]; [simpl; zdec; done|].
  destruct (decide (b0 = 0xF4)) as [->|]; [simpl; zdec; done|].
  zdec. simpl. destruct (decide (b0 <= 0xEF)); zdec; done.
Qed.

Lemma is_cont_ok b : 0x80 <= b <= 0xBF → is_cont b = true.
Proof. intros. unfold is_cont. by zdec. Qed.

Lemma decode_2 a b s :
  0xC2 <= zb a <= 0xDF → 0x80 <= zb b <= 0xBF →
  decode (String a (String b s)) =
    ((zb a - 0xC0) * 64 + (zb b - 0x80), String a (str1 b)) :: decode s.
Proof.
  intros Ha Hb. cbn [decode]. zdec. rewrite second_ok_2 by done. cbn [negb]. by zdec.
Qed.

Lemma decode_3 a b c s :
  0xE0 <= zb a <= 0xEF → second_ok (zb a) (zb b) = true → 0x80 <= zb c <= 0xBF →
  decode (String a (String b (String c s))) =
    ((zb a - 0xE0) * 4096 + (zb b - 0x80) * 64 + (zb c - 0x80),
     String a (String b (str1 c))) :: decode s.
Proof.
  intros Ha Hb Hc. cbn [decode]. zdec. rewrite Hb, is_cont_ok by done. cbn [negb]. by zdec.
Qed.

Lemma decode_4 a b c d s :
  0xF0 <= zb a <= 0xF4 → second_ok (zb a) (zb b) = true →
  0x80 <= zb c <= 0xBF → 0x80 <= zb d <= 0xBF →
  decode (String a (String b (String c (String d s)))) =
    ((zb a - 0xF0) * 262144 + (zb b - 0x80) * 4096 + (zb c - 0x80) * 64 + (zb d - 0x80),
     String a (String b (String c (str1 d)))) :: decode s.
Proof.
  intros Ha Hb Hc Hd. cbn [decode]. zdec. rewrite Hb, !is_cont_ok by done. cbn [negb]. by zdec.
Qed.

(** Decoding inverts encoding, whatever follows. *)
Lemma decode_encode r s :
  valid_rune r = true → decode (encode_rune r +:+ s) = (r, encode_rune r) :: decode s.
Proof.
  intros Hv. unfold encode_rune. rewrite Hv. apply valid_rune_spec in Hv.
  destruct (Z.ltb_spec r 0x80); [|destruct (Z.ltb_spec r 0x800);
    [|destruct (Z.ltb_spec r 0x10000)]]; unfold str1; simpl String.append.
  - rewrite decode_ascii by (rewrite zb_az; lia). by rewrite zb_az by lia.
  - rewrite decode_2 by (rewrite ?zb_az; Z.to_euclidean_division_equations; lia).
    rewrite !zb_az by (Z.to_euclidean_division_equations; lia).
    do 2 f_equal. Z.to_euclidean_division_equations; lia.
  - rewrite decode_3; rewrite ?zb_az by (Z.to_euclidean_division_equations; lia);
      [|Z.to_euclidean_division_equations; lia
       |apply second_ok_wide; Z.to_euclidean_division_equations; lia
       |Z.to_euclidean_division_equations; lia].
    do 2 f_equal. Z.to_euclidean_division_equations; lia.
  - rewrite decode_4; rewrite ?zb_az by (Z.to_euclidean_division_equations; lia);
      [|Z.to_euclidean_division_equations; lia
       |apply second_ok_wide; Z.to_euclidean_division_equations; lia
       |Z.to_euclidean_division_equations; lia
       |Z.to_euclidean_division_equations; lia].
    do 2 f_equal. Z.to_euclidean_division_equations; lia.
Qed.

Lemma decode_string_of_runes rs s :
  Forall (fun r => valid_rune r = true) rs →
  decode (string_of_runes rs +:+ s) = ((fun r => (r, encode_rune r)) <$> rs) ++ decode s.
Proof.
  unfold string_of_runes. induction 1 as [|r rs Hr _ IH]; [done|].
  cbn [fmap list_fmap string_concat]. by rewrite string_app_assoc, decode_encode, IH.
Qed.

Lemma runes_string_of_runes rs :
  Forall (fun r => valid_rune r = true) rs → runes (string_of_runes rs) = rs.
Proof.
  intros H. unfold runes. rewrite <- (string_app_nil_r (string_of_runes rs)).
  rewrite decode_string_of_runes, app_nil_r by done.
  rewrite <- list_fmap_compose. simpl. apply list_fmap_id.
Qed.

(** Every byte below [0x80], the case of all identifiers and literals. *)
Definition is_ascii (s : string) : bool := all_bytes (fun a => zb a <? 0x80) s.

Lemma string_of_runes_app r1 r2 : string_of_runes (r1 ++ r2) = string_of_runes r1 +:+ string_of_runes r2.
Proof. unfold string_of_runes. by rewrite fmap_app, string_concat_app. Qed.

Lemma is_ascii_app s t : is_ascii (s +:+ t) = is_ascii s && is_ascii t.
Proof. unfold is_ascii, all_bytes. rewrite string_bytes_app. apply forallb_app. Qed.

Lemma decode_is_ascii s :
  is_ascii s = true → decode s = (fun a => (zb a, str1 a)) <$> string_bytes s.
Proof.
  unfold is_ascii, all_bytes. induction s as [|a s IH]; [done|].
  cbn [string_bytes forallb]. intros [Ha Hs]%andb_true_iff. apply Z.ltb_lt in Ha.
  rewrite decode_ascii by done. cbn [fmap list_fmap]. by rewrite IH.
Qed.

Lemma TrimFunc_none p s : (∀ r, r ∈ runes s → p r = false) → TrimFunc p s = s.
Proof.
  intros H. unfold TrimFunc. rewrite trim_none; [apply chunks_decode|].
  intros [r b] Hx. apply H. unfold runes. apply list_elem_of_fmap. by exists (r, b).
Qed.

Lemma contains_byte_split c s :
  contains_byte c s = false → split_byte c s = [s].
Proof.
  induction s as [|a s IH]; simpl; [done|]. intros [Ha Hs]%orb_false_iff.
  by rewrite Ha, IH.
Qed.

Lemma split_byte_nonempty c s : split_byte c s ≠ [].
Proof. destruct s; simpl; [done|]. destruct (Ascii.eqb a c); [done|]. by destruct (split_byte c s). Qed.

(** Splitting and joining on the same byte is the identity. *)
Lemma join_split_byte c s : str_join (str1 c) (split_byte c s) = s.
Proof.
  induction s as [|a s IH]; [done|]. simpl.
  pose proof (split_byte_nonempty c s) as Hne.
  destruct (split_byte c s) as [|p ps] eqn:E; [done|].
  destruct (Ascii.eqb_spec a c) as [->|].
  - by rewrite <- IH.
  - rewrite <- IH. destruct ps; done.
Qed.

(** No piece of a split contains the separator. *)
Lemma split_byte_free c s : Forall (fun p => contains_byte c p = false) (split_byte c s).
Proof.
  induction s as [|a s IH]; simpl; [by constructor|].
  destruct (Ascii.eqb_spec a c) as [->|Hn]; [by constructor|].
  destruct (split_byte c s) as [|p ps]; inversion IH; subst;
    constructor; simpl; try done; apply orb_false_iff; split; try done; by apply Ascii.eqb_neq.
Qed.

Lemma contains_byte_app c s t : contains_byte c (s +:+ t) = contains_byte c s || contains_byte c t.
Proof. induction s as [|a s IH]; simpl; [done|]. by rewrite IH, orb_assoc. Qed.

(** A separator after a piece that has none cuts exactly there. *)
Lemma split_byte_cons c s t :
  contains_byte c s = false → split_byte c (s +:+ String c t) = s :: split_byte c t.
Proof.
  induction s as [|a s IH]; simpl; [by rewrite Ascii.eqb_refl|].
  intros [Ha Hs]%orb_false_iff. by rewrite Ha, IH.
Qed.

Lemma contains_byte_elem c s : contains_byte c s = true ↔ c ∈ string_bytes s.
Proof.
  induction s as [|a s IH]; simpl; [split; [done|by intros ?%elem_of_nil]|].
  rewrite orb_true_iff, IH, elem_of_cons, Ascii.eqb_eq. naive_solver.
Qed.

Lemma delete_bytes_free p s : all_bytes (fun a => negb (p a)) (delete_bytes p s) = true.
Proof. unfold all_bytes. induction s; simpl; [done|]. destruct (p a) eqn:E; simpl; [done|]. by rewrite E. Qed.

Lemma second_ok_inv b0 b1 :
  second_ok b0 b1 = true →
  0xC2 <= b0 <= 0xF4 ∧ 0x80 <= b1 <= 0xBF ∧
  (b0 = 0xE0 → 0xA0 <= b1) ∧ (b0 = 0xED → b1 <= 0x9F) ∧
  (b0 = 0xF0 → 0x90 <= b1) ∧ (b0 = 0xF4 → b1 <= 0x8F).
Proof.
  unfold second_ok. intros H.
  repeat match type of H with (if ?c then _ else _) = true => destruct c eqn:? end;
    try done; bool_prop; subst; lia.
Qed.

Lemma is_cont_inv b : is_cont b = true → 0x80 <= b <= 0xBF.
Proof. unfold is_cont. intros H. bool_prop. lia. Qed.

(** Decoding only ever produces runes that can be encoded. *)
Lemma decode_valid s c : c ∈ decode s → valid_rune c.1 = true.
Proof.
  assert (H : ∀ n s, (String.length s < n)%nat → Forall (fun c => valid_rune c.1 = true) (decode s)).
  { clear s c. induction n as [|n IH]; intros s Hn; [lia|].
    destruct s as [|a s]; [constructor|]. cbn [String.length] in Hn. cbn [decode].
    pose proof (zb_range a).
    repeat (case_match; cbn [String.length] in *); bool_prop;
      repeat match goal with
             | H : second_ok _ _ = true |- _ => apply second_ok_inv in H
             | H : is_cont _ = true |- _ => apply is_cont_inv in H
             end;
      (constructor; [|try constructor; try (apply IH; cbn [String.length]; lia)]); try done;
      apply valid_rune_spec; cbn [fst]; lia. }
  intros Hc. pose proof (H (S (String.length s)) s (Nat.lt_succ_diag_r _)) as Hf.
  rewrite Forall_forall in Hf. by apply Hf.
Qed.

Lemma runes_valid s : Forall (fun r => valid_rune r = true) (runes s).
Proof.
  apply Forall_forall. intros r Hr. unfold runes in Hr.
  apply list_elem_of_fmap in Hr as (c & -> & Hc). by eapply decode_valid.
Qed.

(** *** Valid text: encoding inverts decoding *)

Definition good_letter (c : Z * string) : Prop := valid_rune c.1 = true ∧ c.2 = encode_rune c.1.

Lemma az_shift a k : k = zb a → az k = a.
Proof. intros ->. apply az_zb. Qed.

Lemma string_cons_eq a b s t : a = b → s = t → String a s = String b t.
Proof. by intros -> ->. Qed.

Ltac encode_tac :=
  intros; unfold encode_rune; rewrite (proj2 (valid_rune_spec _)) by lia; unfold str1; zdec; cbv iota;
  repeat (apply string_cons_eq; [apply az_shift; Z.to_euclidean_division_equations; lia|]); done.

Lemma encode_1 a : zb a < 0x80 → encode_rune (zb a) = str1 a.
Proof. pose proof (zb_range a). encode_tac. Qed.

Lemma encode_2 a b :
  0xC2 <= zb a < 0xE0 → 0x80 <= zb b <= 0xBF →
  encode_rune ((zb a - 0xC0) * 64 + (zb b - 0x80)) = String a (str1 b).
Proof. encode_tac. Qed.

Lemma encode_3 a b c :
  0xE0 <= zb a < 0xF0 → 0x80 <= zb b <= 0xBF → (zb a = 0xE0 → 0xA0 <= zb b) →
  (zb a = 0xED → zb b <= 0x9F) → 0x80 <= zb c <= 0xBF →
  encode_rune ((zb a - 0xE0) * 4096 + (zb b - 0x80) * 64 + (zb c - 0x80)) =
    String a (String b (str1 c)).
Proof. encode_tac. Qed.

Lemma encode_4 a b c d :
  0xF0 <= zb a <= 0xF4 → 0x80 <= zb b <= 0xBF → (zb a = 0xF0 → 0x90 <= zb b) →
  (zb a = 0xF4 → zb b <= 0x8F) → 0x80 <= zb c <= 0xBF → 0x80 <= zb d <= 0xBF →
  encode_rune ((zb a - 0xF0) * 262144 + (zb b - 0x80) * 4096 + (zb c - 0x80) * 64 + (zb d - 0x80)) =
    String a (String b (String c (str1 d))).
Proof. encode_tac. Qed.

(** A decoded letter is either a failure or the encoding of its rune. *)
Lemma decode_good s c : c ∈ decode s → bad_chunk c = false → good_letter c.
Proof.
  intros Hc Hb. split; [by eapply decode_valid|]. revert Hc Hb.
  assert (H : ∀ n s, (String.length s < n)%nat →
            Forall (fun c => bad_chunk c = false → c.2 = encode_rune c.1) (decode s)).
  { clear s c. induction n as [|n IH]; intros s Hn; [lia|].
    destruct s as [|a s]; [constructor|]. cbn [String.length] in Hn. cbn [decode].
    pose proof (zb_range a).
    repeat (case_match; cbn [String.length] in *); bool_prop;
      repeat match goal with
             | H : second_ok _ _ = true |- _ => apply second_ok_inv in H
             | H : is_cont _ = true |- _ => apply is_cont_inv in H
             end;
      (constructor; [|try constructor; try (apply IH; cbn [String.length]; lia)]);
      intros Hbad; try done; cbn [fst snd]; symmetry;
      first [by apply encode_1 | apply encode_2; lia | apply encode_3; lia | apply encode_4; lia]. }
  intros Hc Hb. pose proof (H (S (String.length s)) s (Nat.lt_succ_diag_r _)) as Hf.
  rewrite Forall_forall in Hf. by apply Hf.
Qed.

Lemma chunks_good l : Forall good_letter l → chunks_string l = string_of_runes l.*1.
Proof.
  unfold chunks_string, string_of_runes. intros H. f_equal. induction H as [|c l [_ Hc] _ IH]; [done|].
  cbn. by rewrite Hc, IH.
Qed.

Lemma decode_chunks l : Forall good_letter l → decode (chunks_string l) = l.
Proof.
  intros H. rewrite chunks_good by done. rewrite <- (string_app_nil_r (string_of_runes _)).
  rewrite decode_string_of_runes.
  - rewrite app_nil_r. induction H as [|[r c] l [_ Hc] _ IH]; [done|]. cbn in *. by rewrite IH, <- Hc.
  - apply Forall_fmap. eapply Forall_impl; [exact H|]. by intros c [? _].
Qed.

Lemma utf8_valid_good s : utf8_valid s = true → Forall good_letter (decode s).
Proof.
  unfold utf8_valid. rewrite forallb_forall. intros Hv. apply Forall_forall. intros c Hc.
  apply (decode_good s); [done|]. apply negb_true_iff, Hv. by apply list_elem_of_In.
Qed.

Lemma encode_rune_byte a r :
  valid_rune r = true → contains_byte a (encode_rune r) = true → zb a < 0x80 → r = zb a.
Proof.
  intros Hv Hc Ha. unfold encode_rune in Hc. rewrite Hv in Hc. apply valid_rune_spec in Hv.
  unfold str1 in Hc.
  repeat case_match; bool_prop; cbn [contains_byte] in Hc; rewrite ?orb_false_r, ?orb_true_iff, ?Ascii.eqb_eq in Hc;
    repeat match goal with H : _ ∨ _ |- _ => destruct H end; subst; rewrite zb_az in *;
    Z.to_euclidean_division_equations; lia.
Qed.

Lemma contains_byte_runes a rs :
  zb a < 0x80 → Forall (fun r => valid_rune r = true) rs → zb a ∉ rs →
  contains_byte a (string_of_runes rs) = false.
Proof.
  intros Ha Hv Hn. unfold string_of_runes. induction Hv as [|r rs Hr _ IH]; [done|].
  cbn. rewrite contains_byte_app. apply not_elem_of_cons in Hn as [Hne Hn].
  rewrite IH by done. rewrite orb_false_r. apply not_true_is_false. intros Hc.
  by apply Hne, eq_sym, encode_rune_byte.
Qed.

(** Splitting undoes joining when no piece holds the separator. *)
Lemma split_byte_join c l :
  l ≠ [] → Forall (fun s => contains_byte c s = false) l → split_byte c (str_join (str1 c) l) = l.
Proof.
  intros Hne Hl. induction Hl as [|s l Hs Hl IH]; [done|]. destruct l as [|s2 l].
  - by apply contains_byte_split.
  - cbn [str_join]. change (str1 c +:+ ?t) with (String c t). rewrite split_byte_cons by done.
    f_equal. by apply IH.
Qed.

(** *** Full runes *)

Lemma second_ok_lead b0 b1 : second_ok b0 b1 = true → 0xC2 <= b0 <= 0xF4.
Proof. unfold second_ok. repeat case_match; bool_prop; try done; lia. Qed.

Lemma rune_len_second b0 b1 : second_ok b0 b1 = true →
  (rune_len b0 = 2%nat ∧ 0xC2 <= b0 < 0xE0) ∨ (rune_len b0 = 3%nat ∧ 0xE0 <= b0 < 0xF0) ∨ (rune_len b0 = 4%nat ∧ 0xF0 <= b0 <= 0xF4).
Proof. intros H%second_ok_lead. unfold rune_len. repeat case_match; bool_prop; lia. Qed.

Lemma rune_len_lead b0 : (1 < rune_len b0)%nat → 0xC2 <= b0 <= 0xF4.
Proof. unfold rune_len. repeat case_match; bool_prop; lia. Qed.

(** The head of [decode] without its tail. *)
Definition decode_head (a : ascii) (s1 : string) : Z * nat :=
  let b0 := zb a in
  if b0 <? 0x80 then (b0, 1%nat) else
  match s1 with
  | String b s2 =>
      if negb (second_ok b0 (zb b)) then (RuneError, 1%nat) else
      if b0 <? 0xE0 then ((b0 - 0xC0) * 64 + (zb b - 0x80), 2%nat) else
      match s2 with
      | String c s3 =>
          if negb (is_cont (zb c)) then (RuneError, 1%nat) else
          if b0 <? 0xF0 then ((b0 - 0xE0) * 4096 + (zb b - 0x80) * 64 + (zb c - 0x80), 3%nat) else
          match s3 with
          | String d _ =>
              if negb (is_cont (zb d)) then (RuneError, 1%nat)
              else ((b0 - 0xF0) * 262144 + (zb b - 0x80) * 4096 + (zb c - 0x80) * 64 + (zb d - 0x80), 4%nat)
          | _ => (RuneError, 1%nat)
          end
      | _ => (RuneError, 1%nat)
      end
  | _ => (RuneError, 1%nat)
  end.

Lemma decode_step a s1 : decode (String a s1) =
      let b0 := zb a in
      if b0 <? 0x80 then (b0, str1 a) :: decode s1 else
      match s1 with
      | EmptyString => [(RuneError, str1 a)]
      | String b s2 =>
          if negb (second_ok b0 (zb b)) then (RuneError, str1 a) :: decode s1 else
          if b0 <? 0xE0 then
            ((b0 - 0xC0) * 64 + (zb b - 0x80), String a (str1 b)) :: decode s2 else
          match s2 with
          | EmptyString => (RuneError, str1 a) :: decode s1
          | String c s3 =>
              if negb (is_cont (zb c)) then (RuneError, str1 a) :: decode s1 else
              if b0 <? 0xF0 then
                ((b0 - 0xE0) * 4096 + (zb b - 0x80) * 64 + (zb c - 0x80),
                 String a (String b (str1 c))) :: decode s3 else
              match s3 with
              | EmptyString => (RuneError, str1 a) :: decode s1
              | String d s4 =>
                  if negb (is_cont (zb d)) then (RuneError, str1 a) :: decode s1 else
                  ((b0 - 0xF0) * 262144 + (zb b - 0x80) * 4096 + (zb c - 0x80) * 64
                     + (zb d - 0x80),
                   String a (String b (String c (str1 d)))) :: decode s4
              end
          end
      end
.
Proof. done. Qed.

Lemma DecodeRune_head a s1 : DecodeRune (String a s1) = decode_head a s1.
Proof.
  unfold DecodeRune, decode_head. rewrite decode_step. destruct s1 as [|b [|c [|d s4]]].
  all: cbv zeta; repeat match goal with |- context [if ?b then _ else _] => destruct b end; done.
Qed.

Lemma FullRune_app d t :
  FullRune d = true → FullRune (d +:+ t) = true ∧ DecodeRune (d +:+ t) = DecodeRune d.
Proof.
  destruct d as [|a [|b [|c d]]]; [done|..]; cbn [String.append]; rewrite !DecodeRune_head; cbn [FullRune String.length].
  - intros H. destruct (Nat.leb_spec (rune_len (zb a)) 1) as [Hl|]; [|done]. split.
    { by rewrite (proj2 (Nat.leb_le _ _)) by lia. }
    unfold decode_head. cbv zeta. destruct (zb a <? 0x80) eqn:Ea; [done|]. destruct t as [|b t]; [done|].
    destruct (second_ok (zb a) (zb b)) eqn:E; [|by cbn]. apply rune_len_second in E. lia.
  - intros H. split.
    { destruct (Nat.leb_spec (rune_len (zb a)) 2); [by rewrite (proj2 (Nat.leb_le _ _)) by lia|].
      destruct (negb _); [by case_match|done]. }
    unfold decode_head. cbv zeta. destruct (zb a <? 0x80) eqn:Ea; [done|]. destruct (second_ok (zb a) (zb b)) eqn:E; [|by cbn]. cbn [negb] in *.
    apply rune_len_second in E. destruct (Z.ltb_spec (zb a) 0xE0); [done|].
    destruct (Nat.leb_spec (rune_len (zb a)) 2); [lia|done].
  - intros H. split.
    { destruct (Nat.leb_spec (rune_len (zb a)) (S (S (S (String.length d)))));
        [by rewrite (proj2 (Nat.leb_le _ _)) by (rewrite string_length_app; lia)|].
      destruct (rune_len (zb a) <=? _)%nat; [done|exact H]. }
    unfold decode_head. cbv zeta. destruct (zb a <? 0x80) eqn:Ea; [done|]. destruct (second_ok (zb a) (zb b)) eqn:E; [|by cbn]. cbn [negb] in *.
    apply rune_len_second in E. destruct (zb a <? 0xE0) eqn:Eb; [done|]. destruct (is_cont (zb c)); [|done]. cbn [negb] in *.
    destruct (Z.ltb_spec (zb a) 0xF0); [done|]. destruct d; [|done].
    cbn [String.length] in H. destruct (Nat.leb_spec (rune_len (zb a)) 3); [lia|done].
Qed.

(** A rune takes at least a byte and at most what there is; beyond ASCII it
    takes no ASCII byte. *)
Lemma DecodeRune_size a s : (1 <= (DecodeRune (String a s)).2 <= String.length (String a s))%nat.
Proof.
  rewrite DecodeRune_head. unfold decode_head. cbn [String.length].
  repeat case_match; cbn [snd String.length]; lia.
Qed.

Lemma DecodeRune_high a s :
  0x80 <= zb a →
  all_bytes (fun b => 0x80 <=? zb b) (string_take (DecodeRune (String a s)).2 (String a s)) = true.
Proof.
  intros Ha. rewrite DecodeRune_head. unfold decode_head.
  destruct (zb a <? 0x80) eqn:E; [bool_prop; lia|]. clear E.
  assert (H1 : all_bytes (fun b => 0x80 <=? zb b) (string_take 1 (String a s)) = true).
  { cbn. by rewrite (proj2 (Z.leb_le _ _)). }
  destruct s as [|b s]; [done|]. destruct (second_ok _ _) eqn:E2; [|done]. apply second_ok_inv in E2.
  cbn [negb]. case_match.
  { cbn. by rewrite !(proj2 (Z.leb_le _ _)) by lia. }
  destruct s as [|c s]; [done|]. destruct (is_cont (zb c)) eqn:E3; [|done]. apply is_cont_inv in E3. cbn [negb].
  case_match.
  { cbn. by rewrite !(proj2 (Z.leb_le _ _)) by lia. }
  destruct s as [|d s]; [done|]. destruct (is_cont (zb d)) eqn:E4; [|done]. apply is_cont_inv in E4.
  cbn. by rewrite !(proj2 (Z.leb_le _ _)) by lia.
Qed.

(** What [FullRune] holds back has no ASCII byte. *)
Lemma not_full_high a s :
  0x80 <= zb a → FullRune (String a s) = false → all_bytes (fun b => 0x80 <=? zb b) (String a s) = true.
Proof.
  intros Ha. cbn [FullRune]. destruct (Nat.leb_spec (rune_len (zb a)) (String.length (String a s))) as [|Hl]; [done|].
  assert (Hr : (rune_len (zb a) <= 4)%nat) by (unfold rune_len; repeat case_match; lia).
  destruct s as [|b [|c [|d s]]]; cbn [String.length] in Hl; try lia.
  - intros _. cbn. by rewrite (proj2 (Z.leb_le _ _)).
  - destruct (second_ok _ _) eqn:E; [|done]. apply second_ok_inv in E. intros _. cbn.
    by rewrite !(proj2 (Z.leb_le _ _)) by lia.
  - destruct (second_ok _ _) eqn:E; [|done]. apply second_ok_inv in E. cbn [negb].
    destruct (is_cont _) eqn:E2; [|done]. apply is_cont_inv in E2. intros _. cbn.
    by rewrite !(proj2 (Z.leb_le _ _)) by lia.
Qed.

Lemma all_bytes_app p s t : all_bytes p (s +:+ t) = all_bytes p s && all_bytes p t.
Proof. unfold all_bytes. by rewrite string_bytes_app, forallb_app. Qed.

Lemma split_byte_snoc c s b ps p :
  split_byte c s = ps ++ [p] →
  split_byte c (s +:+ str1 b) = if Ascii.eqb b c then ps ++ [p; ""%string] else ps ++ [p +:+ str1 b].
Proof.
  revert ps p. induction s as [|a s IH]; intros ps p; cbn.
  - destruct ps as [|? [|]]; cbn; [|done..]. intros [= <-]. by case_match.
  - destruct (Ascii.eqb a c).
    + destruct ps as [|q ps]; cbn; intros [= <- E].
      * by apply (f_equal length) in E; destruct (split_byte c s) eqn:Es; [apply split_byte_nonempty in Es|].
      * rewrite (IH _ _ E). by case_match.
    + destruct (split_byte c s) as [|q qs] eqn:Es; [by apply split_byte_nonempty in Es|].
      destruct ps as [|q' ps]; cbn.
      * intros [= <- ->]. rewrite (IH [] q) by done. by case_match.
      * intros [= <- ->]. rewrite (IH (q :: ps) p) by done. by case_match.
Qed.
