(* ===== verification/Regex.v ===== *)
(** * Regular expressions

    The program writes several of its grammars as [regexp.MustCompile]
    patterns.  This file models the fragment of package [regexp] they use: the
    syntax as a data type, an executable leftmost-first matcher with capture
    groups, and its soundness and completeness against the declarative meaning
    of the pattern.  All the patterns are anchored at the start, so matching
    begins at the first letter; [Eot] is [$] outside multi-line mode.

    The letters are arbitrary; the program matches decoded strings, whose
    letters are runes paired with the bytes they came from. *)

From S2P Require Export Unicode.
Local Open Scope Z_scope.

Inductive re (A : Type) : Type :=
| Eps
| Eot
| Cls (p : A → bool)
| Cat (r1 r2 : re A)
| Alt (r1 r2 : re A)
| Star (r : re A)
| Grp (n : nat) (r : re A).
Global Arguments Eps {A}.
Global Arguments Eot {A}.
Global Arguments Cls {A} p.
Global Arguments Cat {A} r1 r2.
Global Arguments Alt {A} r1 r2.
Global Arguments Star {A} r.
Global Arguments Grp {A} n r.

Section derived.
Context {A : Type}.
(** [r+], [r?] (greedy), and [r{n}], [r{m,n}]. *)
Definition Plus (r : re A) : re A := Cat r (Star r).
Definition Opt (r : re A) : re A := Alt r Eps.
Fixpoint Times (n : nat) (r : re A) : re A :=
  match n with O => Eps | S n => Cat r (Times n r) end.
Fixpoint UpTo (n : nat) (r : re A) : re A :=
  match n with O => Eps | S n => Opt (Cat r (UpTo n r)) end.
Definition Between (m n : nat) (r : re A) : re A := Cat (Times m r) (UpTo (n - m)%nat r).
End derived.

Section matcher.
Context {A : Type}.

(** A capture is the group number with the text it spans. *)
Definition caps : Type := list (nat * list A).

(** The text between a position and a later one of the same input. *)
Definition span (s s' : list A) : list A := take (length s - length s')%nat s.

(** One more iteration of a star while it consumes something, else the rest
    of the pattern [k]; [n] bounds the iterations by the text's length. *)
Fixpoint star_loop {R} (body : (list A → caps → option R) → list A → caps → option R)
    (k : list A → caps → option R) (n : nat) (s : list A) (c : caps) : option R :=
  match n with
  | O => k s c
  | S n =>
      match body (fun s' c' =>
               if (length s' <? length s)%nat then star_loop body k n s' c' else None) s c with
      | Some x => Some x
      | None => k s c
      end
  end.

(** Backtracking search in the priority order of the syntax; [k] is the rest
    of the pattern. *)
Fixpoint mt {R} (r : re A) (k : list A → caps → option R) (s : list A) (c : caps)
    : option R :=
  match r with
  | Eps => k s c
  | Eot => match s with [] => k s c | _ :: _ => None end
  | Cls p => match s with a :: s' => if p a then k s' c else None | [] => None end
  | Cat r1 r2 => mt r1 (mt r2 k) s c
  | Alt r1 r2 => match mt r1 k s c with Some x => Some x | None => mt r2 k s c end
  | Star r1 => star_loop (mt r1) k (length s) s c
  | Grp n r1 => mt r1 (fun s' c' => k s' ((n, span s s') :: c')) s c
  end.

(** [FindStringSubmatch] on a start-anchored pattern. *)
Definition match_prefix (r : re A) (s : list A) : option caps :=
  mt r (fun _ c => Some c) s [].

(** [MatchString] on a start-anchored pattern. *)
Definition match_bool (r : re A) (s : list A) : bool :=
  match match_prefix r s with Some _ => true | None => false end.

(** Group [n] of a successful match, empty when it did not participate. *)
Definition group (n : nat) (c : caps) : list A :=
  match List.find (fun e => Nat.eqb e.1 n) c with Some e => e.2 | None => [] end.

(** ** Declarative meaning

    [den r s t]: [r] can match the text [s] when [t] follows it. *)
Inductive den : re A → list A → list A → Prop :=
| den_eps t : den Eps [] t
| den_eot : den Eot [] []
| den_cls p a t : p a = true → den (Cls p) [a] t
| den_cat r1 r2 s1 s2 t :
    den r1 s1 (s2 ++ t) → den r2 s2 t → den (Cat r1 r2) (s1 ++ s2) t
| den_alt_l r1 r2 s t : den r1 s t → den (Alt r1 r2) s t
| den_alt_r r1 r2 s t : den r2 s t → den (Alt r1 r2) s t
| den_star_nil r t : den (Star r) [] t
| den_star_cons r s1 s2 t :
    den r s1 (s2 ++ t) → den (Star r) s2 t → den (Star r) (s1 ++ s2) t
| den_grp n r s t : den r s t → den (Grp n r) s t.

Definition body_sound {R} (r : re A)
    (body : (list A → caps → option R) → list A → caps → option R) : Prop :=
  ∀ k s c x, body k s c = Some x →
  ∃ s1 s2 c', s = s1 ++ s2 ∧ den r s1 s2 ∧ k s2 c' = Some x.

Definition body_complete {R} (r : re A)
    (body : (list A → caps → option R) → list A → caps → option R) : Prop :=
  ∀ k s1 s2 c, den r s1 s2 → (∀ c', k s2 c' ≠ None) → body k (s1 ++ s2) c ≠ None.

Lemma star_loop_sound {R} r body n : @body_sound R r body → body_sound (Star r) (fun k => star_loop body k n).
Proof.
  intros Hb. induction n as [|n IHn]; intros k s c x H; simpl in H.
  { exists [], s, c. eauto using den. }
  match type of H with match ?m with _ => _ end = _ => destruct m eqn:E end.
  - injection H as ->. apply Hb in E as (s1 & s2 & c1 & -> & D & H).
    destruct (_ <? _)%nat; [|done].
    apply IHn in H as (s3 & s4 & c2 & -> & D2 & H).
    exists (s1 ++ s3), s4, c2. rewrite <- app_assoc. eauto using den.
  - exists [], s, c. eauto using den.
Qed.

(** A star match can be taken with non-empty iterations only. *)
Lemma den_star_progress r s t :
  den (Star r) s t →
  s = [] ∨ ∃ s1 s2, s = s1 ++ s2 ∧ s1 ≠ [] ∧ den r s1 (s2 ++ t) ∧ den (Star r) s2 t.
Proof.
  intros H. remember (Star r) as q eqn:E. revert E.
  induction H as [| | | | | |r' t|r' s1 s2 t H1 _ H2 IH2|]; intros [= ->]; [by left|].
  destruct s1 as [|a s1].
  - destruct (IH2 eq_refl) as [->|(s3 & s4 & -> & Hne & D1 & D2)]; [by left|].
    right. by exists s3, s4.
  - right. by exists (a :: s1), s2.
Qed.

Lemma star_loop_complete {R} r body n : @body_complete R r body →
  ∀ k s1 s2 c, (length s1 <= n)%nat → den (Star r) s1 s2 → (∀ c', k s2 c' ≠ None) →
  star_loop body k n (s1 ++ s2) c ≠ None.
Proof.
  intros Hb. induction n as [|n IHn]; intros k s1 s2 c Hn D Hk; simpl.
  { destruct s1; [|simpl in Hn; lia]. apply Hk. }
  apply den_star_progress in D as [->|(v1 & v2 & -> & Hne & D1 & D2)].
  { case_match; [done|apply Hk]. }
  rewrite <- app_assoc. case_match eqn:E; [done|]. exfalso. revert E. apply Hb; [done|].
  intros c'. assert (0 < length v1)%nat by (destruct v1; simpl; [done|lia]).
  rewrite (proj2 (Nat.ltb_lt _ _)) by (rewrite !length_app; lia).
  apply IHn; [|done..]. rewrite !length_app in *. lia.
Qed.

Lemma mt_sound {R} (r : re A) : @body_sound R r (mt r).
Proof.
  induction r as [| |p|r1 IH1 r2 IH2|r1 IH1 r2 IH2|r IH|n r IH]; intros k s c x; simpl.
  - intros H. exists [], s, c. eauto using den.
  - destruct s; [|done]. intros H. exists [], [], c. eauto using den.
  - destruct s as [|a s]; [done|]. destruct (p a) eqn:E; [|done].
    intros H. exists [a], s, c. eauto using den.
  - intros (s1 & s2 & c1 & -> & D1 & (s3 & s4 & c2 & -> & D2 & H)%IH2)%IH1.
    exists (s1 ++ s3), s4, c2. rewrite <- app_assoc. eauto using den.
  - destruct (mt r1 k s c) eqn:E.
    + intros [= <-]. apply IH1 in E as (s1 & s2 & c1 & -> & D & H). eauto 10 using den.
    + intros (s1 & s2 & c1 & -> & D & H)%IH2. eauto 10 using den.
  - by apply star_loop_sound.
  - intros (s1 & s2 & c1 & -> & D & H)%IH. eauto 10 using den.
Qed.

Lemma mt_complete {R} (r : re A) : @body_complete R r (mt r).
Proof.
  induction r as [| |p|r1 IH1 r2 IH2|r1 IH1 r2 IH2|r IH|n r IH]; intros k s1 s2 c D Hk.
  - inversion D; subst. apply Hk.
  - inversion D; subst. apply Hk.
  - inversion D as [| |? a ? E| | | | | |]; subst. simpl. rewrite E. apply Hk.
  - inversion D as [| | |? ? u1 u2 ? D1 D2| | | | |]; subst. simpl. rewrite <- app_assoc.
    apply IH1; [done|]. intros c'. by apply IH2.
  - simpl. inversion D as [| | | |? ? ? ? D1|? ? ? ? D1| | |]; subst.
    + pose proof (IH1 k s1 s2 c D1 Hk) as H. by destruct (mt r1 k _ c).
    + destruct (mt r1 k _ c); [done|]. by apply IH2.
  - simpl. apply (star_loop_complete r); [done| |done|done]. rewrite length_app. lia.
  - inversion D; subst. simpl. by apply IH.
Qed.

(** The matcher decides the declarative meaning of a start-anchored pattern. *)
Theorem match_bool_spec r s :
  match_bool r s = true ↔ ∃ s1 s2, s = s1 ++ s2 ∧ den r s1 s2.
Proof.
  unfold match_bool, match_prefix. split.
  - destruct (mt _ _ s []) as [x|] eqn:E; [|done]. intros _.
    apply mt_sound in E as (s1 & s2 & c' & -> & D & _). eauto.
  - intros (s1 & s2 & -> & D).
    pose proof (mt_complete r (fun _ c' => Some c') s1 s2 [] D) as H.
    destruct (mt r _ _ []); [done|]. exfalso. by apply H.
Qed.

(** ** What a match captures

    [capt r s t c c']: [r] matches [s] when [t] follows, and turns the captures
    [c] into [c'], the groups it closes recorded last first. *)
Inductive capt : re A → list A → list A → caps → caps → Prop :=
| capt_eps t c : capt Eps [] t c c
| capt_eot c : capt Eot [] [] c c
| capt_cls p a t c : p a = true → capt (Cls p) [a] t c c
| capt_cat r1 r2 s1 s2 t c1 c2 c3 :
    capt r1 s1 (s2 ++ t) c1 c2 → capt r2 s2 t c2 c3 → capt (Cat r1 r2) (s1 ++ s2) t c1 c3
| capt_alt_l r1 r2 s t c c' : capt r1 s t c c' → capt (Alt r1 r2) s t c c'
| capt_alt_r r1 r2 s t c c' : capt r2 s t c c' → capt (Alt r1 r2) s t c c'
| capt_star_nil r t c : capt (Star r) [] t c c
| capt_star_cons r s1 s2 t c1 c2 c3 :
    capt r s1 (s2 ++ t) c1 c2 → capt (Star r) s2 t c2 c3 → capt (Star r) (s1 ++ s2) t c1 c3
| capt_grp n r s t c c' : capt r s t c c' → capt (Grp n r) s t c ((n, s) :: c').

Definition body_capt {R} (r : re A)
    (body : (list A → caps → option R) → list A → caps → option R) : Prop :=
  ∀ k s c x, body k s c = Some x →
  ∃ s1 s2 c', s = s1 ++ s2 ∧ capt r s1 s2 c c' ∧ k s2 c' = Some x.

Lemma star_loop_capt {R} r body n : @body_capt R r body → body_capt (Star r) (fun k => star_loop body k n).
Proof.
  intros Hb. induction n as [|n IHn]; intros k s c x H; simpl in H.
  { exists [], s, c. eauto using capt. }
  match type of H with match ?m with _ => _ end = _ => destruct m eqn:E end.
  - injection H as ->. apply Hb in E as (s1 & s2 & c1 & -> & D & H).
    destruct (_ <? _)%nat; [|done].
    apply IHn in H as (s3 & s4 & c2 & -> & D2 & H).
    exists (s1 ++ s3), s4, c2. rewrite <- app_assoc. eauto using capt.
  - exists [], s, c. eauto using capt.
Qed.

Lemma span_app (s1 s2 : list A) : span (s1 ++ s2) s2 = s1.
Proof.
  unfold span. rewrite length_app. replace (length s1 + length s2 - length s2)%nat with (length s1) by lia.
  apply take_app_length.
Qed.

Lemma mt_capt {R} (r : re A) : @body_capt R r (mt r).
Proof.
  induction r as [| |p|r1 IH1 r2 IH2|r1 IH1 r2 IH2|r IH|n r IH]; intros k s c x; simpl.
  - intros H. exists [], s, c. eauto using capt.
  - destruct s; [|done]. intros H. exists [], [], c. eauto using capt.
  - destruct s as [|a s]; [done|]. destruct (p a) eqn:E; [|done].
    intros H. exists [a], s, c. eauto using capt.
  - intros (s1 & s2 & c1 & -> & D1 & (s3 & s4 & c2 & -> & D2 & H)%IH2)%IH1.
    exists (s1 ++ s3), s4, c2. rewrite <- app_assoc. eauto using capt.
  - destruct (mt r1 k s c) eqn:E.
    + intros [= <-]. apply IH1 in E as (s1 & s2 & c1 & -> & D & H). eauto 10 using capt.
    + intros (s1 & s2 & c1 & -> & D & H)%IH2. eauto 10 using capt.
  - by apply star_loop_capt.
  - intros (s1 & s2 & c1 & -> & D & H)%IH. rewrite span_app in H. eauto 10 using capt.
Qed.

(** A start-anchored match splits the text, with the captures the split records. *)
Lemma match_prefix_capt r s c :
  match_prefix r s = Some c → ∃ s1 s2, s = s1 ++ s2 ∧ capt r s1 s2 [] c.
Proof. intros (s1 & s2 & c' & -> & D & [= ->])%mt_capt. eauto. Qed.

Lemma capt_den r s t c c' : capt r s t c c' → den r s t.
Proof. induction 1; eauto using den. Qed.

(** Inversions in the order of the syntax. *)
Lemma capt_cat_inv r1 r2 s t c c3 : capt (Cat r1 r2) s t c c3 →
  ∃ s1 s2 c2, s = s1 ++ s2 ∧ capt r1 s1 (s2 ++ t) c c2 ∧ capt r2 s2 t c2 c3.
Proof. inversion 1; eauto 10. Qed.
Lemma capt_cls_inv p s t c c' : capt (Cls p) s t c c' → ∃ a, s = [a] ∧ p a = true ∧ c' = c.
Proof. inversion 1; eauto. Qed.
Lemma capt_grp_inv n r s t c c' : capt (Grp n r) s t c c' → ∃ c1, c' = (n, s) :: c1 ∧ capt r s t c c1.
Proof. inversion 1; eauto. Qed.
Lemma capt_eot_inv s t c c' : capt Eot s t c c' → s = [] ∧ t = [] ∧ c' = c.
Proof. by inversion 1. Qed.
Lemma capt_opt_inv r s t c c' : capt (Opt r) s t c c' → capt r s t c c' ∨ s = [] ∧ c' = c.
Proof.
  unfold Opt. inversion 1 as [| | | |? ? ? ? ? ? D|? ? ? ? ? ? D| | |]; subst; [by left|right].
  by inversion D.
Qed.
Lemma capt_star_cls_inv p s t c c' : capt (Star (Cls p)) s t c c' → forallb p s = true ∧ c' = c.
Proof.
  intros H. remember (Star (Cls p)) as r eqn:E. revert E.
  induction H as [| | | | | | |r s1 s2 t c1 c2 c3 H1 _ H2 IH|]; intros [= ->]; [done|].
  apply capt_cls_inv in H1 as (a & -> & Ha & ->). destruct (IH eq_refl) as [Hs ->].
  simpl. by rewrite Ha.
Qed.
Lemma capt_plus_cls_inv p s t c c' :
  capt (Plus (Cls p)) s t c c' → forallb p s = true ∧ s ≠ [] ∧ c' = c.
Proof.
  intros (s1 & s2 & c2 & -> & (a & -> & Ha & ->)%capt_cls_inv & [Hs ->]%capt_star_cls_inv)%capt_cat_inv.
  simpl. by rewrite Ha.
Qed.
End matcher.
