(* ===== verification/Errors.v ===== *)
(** * Errors (kerrors)

    The error taxonomy of kerrors/errors.go and kerrors/codes.go: class
    sentinels carrying a JSON code, rendered messages tied to a class and an
    optional cause, the device/link/image/path wrappers, the structured error
    types, and the classification [Code] that walks an error chain.  The
    message catalogue kerrors/messages.go is [MESSAGES] below.

    An error value is modelled by its dynamic type and fields.  Go compares
    sentinels by identity; here two sentinels are distinguished by their code
    and text, which are pairwise distinct in the source. *)

From S2P Require Export GoString.
Local Open Scope string_scope.
Local Open Scope list_scope.
Local Open Scope Z_scope.

(** ** The frozen codes (codes.go) *)

Definition CodeClassNotFound : string := "ClassNotFound".
Definition CodeHTTPConnection : string := "HTTPConnection".
Definition CodeInstantiation : string := "Instantiation".
Definition CodeInvocation : string := "Invocation".
Definition CodeSettings : string := "Settings".
Definition CodeSettingsNotFound : string := "SettingsNotFound".
Definition CodeDockerDaemonConnection : string := "DockerDaemonConnection".
Definition CodeNotSupported : string := "NotSupported".
Definition CodePrivilege : string := "Privilege".
Definition CodeHostArchitecture : string := "HostArchitecture".
Definition CodeLabAlreadyExists : string := "LabAlreadyExists".
Definition CodeLabNotFound : string := "LabNotFound".
Definition CodeEmptyLab : string := "EmptyLab".
Definition CodeMachineDependency : string := "MachineDependency".
Definition CodeMountDenied : string := "MountDenied".
Definition CodeMachineAlreadyExists : string := "MachineAlreadyExists".
Definition CodeNonSequentialMachineIface : string := "NonSequentialMachineInterface".
Definition CodeMachineOption : string := "MachineOption".
Definition CodeMachineCollisionDomain : string := "MachineCollisionDomain".
Definition CodeMachineNotFound : string := "MachineNotFound".
Definition CodeMachineNotRunning : string := "MachineNotRunning".
Definition CodeMachineNotReady : string := "MachineNotReady".
Definition CodeMachineBinary : string := "MachineBinary".
Definition CodeInterfaceMacAddress : string := "InterfaceMacAddress".
Definition CodeLinkNotFound : string := "LinkNotFound".
Definition CodeLinkAlreadyExists : string := "LinkAlreadyExists".
Definition CodeInterfaceNotFound : string := "InterfaceNotFound".
Definition CodeTest : string := "Test".
Definition CodeMachineSignatureNotFound : string := "MachineSignatureNotFound".
Definition CodeInvalidImageArchitecture : string := "InvalidImageArchitecture".
Definition CodeDockerImageNotFound : string := "DockerImageNotFound".
Definition CodeDockerPlugin : string := "DockerPlugin".
Definition CodeKubernetesConfigMap : string := "KubernetesConfigMap".
Definition CodeSyntax : string := "Syntax".
Definition CodeValue : string := "Value".
Definition CodeOS : string := "OS".
Definition CodeFileNotFound : string := "FileNotFound".
Definition CodeFileExists : string := "FileExists".
Definition CodeNotADirectory : string := "NotADirectory".
Definition CodePermission : string := "Permission".
Definition CodeConnection : string := "Connection".
Definition CodeDockerAPI : string := "DockerAPI".
Definition CodeKubernetesAPI : string := "KubernetesAPI".
Definition CodeFeatureNotAvailable : string := "FeatureNotAvailable".
Definition CodeInternalError : string := "InternalError".
Definition CodeConfirmationRequired : string := "ConfirmationRequired".

Definition AllCodes : list string :=
  [CodeClassNotFound; CodeHTTPConnection; CodeInstantiation;
   CodeInvocation; CodeSettings; CodeSettingsNotFound;
   CodeDockerDaemonConnection; CodeNotSupported; CodePrivilege;
   CodeInterfaceNotFound; CodeHostArchitecture; CodeLabAlreadyExists;
   CodeLabNotFound; CodeEmptyLab; CodeMachineDependency;
   CodeMountDenied; CodeMachineAlreadyExists; CodeNonSequentialMachineIface;
   CodeMachineOption; CodeMachineCollisionDomain; CodeMachineNotFound;
   CodeMachineNotRunning; CodeMachineNotReady; CodeMachineBinary;
   CodeInterfaceMacAddress; CodeLinkNotFound; CodeLinkAlreadyExists;
   CodeTest; CodeMachineSignatureNotFound; CodeInvalidImageArchitecture;
   CodeDockerImageNotFound; CodeDockerPlugin; CodeKubernetesConfigMap;
   CodeSyntax; CodeValue; CodeOS;
   CodeFileNotFound; CodeFileExists; CodeNotADirectory;
   CodePermission; CodeConnection; CodeDockerAPI;
   CodeKubernetesAPI; CodeFeatureNotAvailable; CodeInternalError;
   CodeConfirmationRequired].


(** ** Error values *)

Inductive goerror : Type :=
| EClass (code text : string)                               (* *classError *)
| EMessage (msg : string) (class : goerror) (cause : option goerror) (* *message *)
| EMachine (machine op : string) (err : option goerror)     (* *MachineError *)
| ELink (link op : string) (err : option goerror)           (* *LinkError *)
| EImage (image : string) (err : option goerror)            (* *ImageError *)
| EPath (path : string) (err : option goerror)              (* *PathError *)
| EBinary (binary machine : string)                         (* *BinaryError *)
| EImageArch (image arch : string)                          (* *ImageArchError *)
| ENonSeqInterface (iface : Z) (machine : string)           (* *NonSeqInterfaceError *)
| EMacAddress (mac : string) (iface : Z) (machine : string) (* *MacAddressError *)
| ECollisionDomain (machine link : string) (iface variant : Z) (* *CollisionDomainError *)
| EOption (machine option message : string)                 (* *OptionError *)
| EMachineSet (machines : list string)                      (* *MachineSetError *)
| ESettingsInvalid (reason : string)                        (* *SettingsInvalidError *)
| ESettingsNotFound (path : string)                         (* *SettingsNotFoundError *)
| EHostArch (arch : string)                                 (* *HostArchError *)
| EFeature (feature : string)                               (* *FeatureNotAvailableError *)
| EPyRuntime (class msg : string)                           (* *model.PyRuntimeError *)
| EParse (file : string) (line : Z) (msg code : string)     (* *labfile.ParseError *)
| EUnicodeDecode (data : string) (start stop : Z) (reason : string)
| EFsPath (op path : string) (err : goerror)                (* *fs.PathError *)
| EJoin (errs : list goerror)                               (* errors.Join *)
| EFmt (text : string) (cause : goerror)                    (* fmt.Errorf with %w *)
| EPromptEOF                                                (* *cliout.eofError *)
| EPlain (text : string).                                   (* errors.New *)

Definition newClass (code text : string) : goerror := EClass code text.

Definition ErrHTTPConnection : goerror := newClass CodeHTTPConnection "kathara: HTTP connection error".
Definition ErrInvocation : goerror := newClass CodeInvocation "kathara: invalid invocation".
Definition ErrSettings : goerror := newClass CodeSettings "kathara: settings file is not valid".
Definition ErrSettingsNotFound : goerror := newClass CodeSettingsNotFound "kathara: settings file not found".
Definition ErrDaemonConnection : goerror := newClass CodeDockerDaemonConnection "kathara: cannot connect to the container daemon".
Definition ErrNotSupported : goerror := newClass CodeNotSupported "kathara: not supported".
Definition ErrPrivilege : goerror := newClass CodePrivilege "kathara: root privileges required".
Definition ErrInterfaceNotFound : goerror := newClass CodeInterfaceNotFound "kathara: interface not found".
Definition ErrHostArchitecture : goerror := newClass CodeHostArchitecture "kathara: unsupported host architecture".
Definition ErrLabAlreadyExists : goerror := newClass CodeLabAlreadyExists "kathara: network scenario already exists".
Definition ErrLabNotFound : goerror := newClass CodeLabNotFound "kathara: network scenario not found".
Definition ErrEmptyLab : goerror := newClass CodeEmptyLab "kathara: network scenario has no devices".
Definition ErrDependencyLoop : goerror := newClass CodeMachineDependency "kathara: dependency loop in lab.dep".
Definition ErrMountDenied : goerror := newClass CodeMountDenied "kathara: volume mount denied".
Definition ErrMachineAlreadyExists : goerror := newClass CodeMachineAlreadyExists "kathara: device already exists".
Definition ErrNonSequentialMachineInterface : goerror := newClass CodeNonSequentialMachineIface "kathara: non-sequential device interface".
Definition ErrMachineOption : goerror := newClass CodeMachineOption "kathara: invalid device option".
Definition ErrMachineCollisionDomain : goerror := newClass CodeMachineCollisionDomain "kathara: device collision domain conflict".
Definition ErrMachineNotFound : goerror := newClass CodeMachineNotFound "kathara: device not found".
Definition ErrMachineNotRunning : goerror := newClass CodeMachineNotRunning "kathara: device not running".
Definition ErrMachineNotReady : goerror := newClass CodeMachineNotReady "kathara: device not ready".
Definition ErrMachineBinary : goerror := newClass CodeMachineBinary "kathara: binary not found in device".
Definition ErrInterfaceMacAddress : goerror := newClass CodeInterfaceMacAddress "kathara: invalid interface MAC address".
Definition ErrLinkNotFound : goerror := newClass CodeLinkNotFound "kathara: collision domain not found".
Definition ErrLinkAlreadyExists : goerror := newClass CodeLinkAlreadyExists "kathara: collision domain already exists".
Definition ErrInvalidImageArchitecture : goerror := newClass CodeInvalidImageArchitecture "kathara: incompatible image architecture".
Definition ErrDockerImageNotFound : goerror := newClass CodeDockerImageNotFound "kathara: docker image not found".
Definition ErrDockerPlugin : goerror := newClass CodeDockerPlugin "kathara: docker network plugin error".
Definition ErrKubernetesConfigMap : goerror := newClass CodeKubernetesConfigMap "kathara: kubernetes config map error".
Definition ErrSyntax : goerror := newClass CodeSyntax "kathara: syntax error".
Definition ErrValue : goerror := newClass CodeValue "kathara: invalid value".
Definition ErrOS : goerror := newClass CodeOS "kathara: os error".
Definition ErrFileNotFound : goerror := newClass CodeFileNotFound "kathara: file not found".
Definition ErrFileExists : goerror := newClass CodeFileExists "kathara: path does not exist".
Definition ErrNotADirectory : goerror := newClass CodeNotADirectory "kathara: not a directory".
Definition ErrPermission : goerror := newClass CodePermission "kathara: permission denied".
Definition ErrConnection : goerror := newClass CodeConnection "kathara: connection error".
Definition ErrDockerAPI : goerror := newClass CodeDockerAPI "kathara: docker api error".
Definition ErrKubernetesAPI : goerror := newClass CodeKubernetesAPI "kathara: kubernetes api error".
Definition ErrConfirmationRequired : goerror := newClass CodeConfirmationRequired "kathara: confirmation required".

(** [fs.ErrNotExist], [fs.ErrPermission], [fs.ErrInvalid]. *)
Definition fs_ErrNotExist : goerror := EPlain "file does not exist".
Definition fs_ErrPermission : goerror := EPlain "permission denied".
Definition fs_ErrInvalid : goerror := EPlain "invalid argument".

(** ** Constructors of the core machinery (errors.go) *)

(** [New] and [Wrap]. *)
Definition New (class : goerror) (msg : string) : goerror := EMessage msg class None.
Definition Wrap (class cause : goerror) (msg : string) : goerror := EMessage msg class (Some cause).

(** The wrappers return nil on a nil error; here they are applied to errors. *)
Definition WrapMachine (machine op : string) (err : option goerror) : option goerror :=
  match err with None => None | Some e => Some (EMachine machine op (Some e)) end.
Definition WrapLink (link op : string) (err : option goerror) : option goerror :=
  match err with None => None | Some e => Some (ELink link op (Some e)) end.
Definition WrapImage (image : string) (err : option goerror) : option goerror :=
  match err with None => None | Some e => Some (EImage image (Some e)) end.
Definition WrapPath (path : string) (err : option goerror) : option goerror :=
  match err with None => None | Some e => Some (EPath path (Some e)) end.

(** ** Rendering *)

Definition featureMessages (feature : string) : option string :=
  if String.eqb feature "lab.ext" then Some
    "lab.ext external links are not supported in this release. Use Kathará 3.8.x."
  else if String.eqb feature "linfo" then Some
    "The linfo command is not supported in this release. Use Kathará 3.8.x."
  else if String.eqb feature "stats-sampling" then Some
    "Resource statistics sampling is not supported in this release. Use Kathará 3.8.x."
  else if String.eqb feature "webhooks" then Some
    "Docker Hub image listing is not supported in this release. Use Kathará 3.8.x."
  else None.

(** [slices.Sort] on strings, as an insertion sort. *)
Fixpoint str_insert (x : string) (l : list string) : list string :=
  match l with
  | [] => [x]
  | y :: l' => if str_leb x y then x :: l else y :: str_insert x l'
  end.
Definition sortedCopy (names : list string) : list string := foldr str_insert [] names.

Definition pythonSet (names : list string) : string :=
  match names with
  | [] => "set()"
  | _ => "{" +:+ str_join ", " ((fun n => "'" +:+ n +:+ "'") <$> sortedCopy names) +:+ "}"
  end.

Definition hexdigit (n : Z) : string :=
  match String.get (Z.to_nat n) "0123456789abcdef" with Some a => str1 a | None => "" end.

(** [hexByte] of labfile/decode.go: CPython's two-digit lower-case rendering. *)
Definition hexByte (b : Z) : string := hexdigit (b / 16) +:+ hexdigit (b mod 16).

Definition CDVariantInterfaceTaken : Z := 1.
Definition CDVariantAlreadyConnected : Z := 2.
Definition CDVariantNotConnected : Z := 3.
Definition CDVariantManagerAlreadyConnected : Z := 4.
Definition CDVariantManagerNotConnected : Z := 5.

(** [CollisionDomainError.Error]. *)
Definition collision_domain_text (machine link : string) (iface variant : Z) : string :=
  if variant =? CDVariantInterfaceTaken then
    "Interface " +:+ Itoa iface +:+ " already set on device `" +:+ machine +:+ "`."
  else if (variant =? CDVariantNotConnected) || (variant =? CDVariantManagerNotConnected) then
    "Device `" +:+ machine +:+ "` is not connected to collision domain `" +:+ link +:+ "`."
  else
    "Device `" +:+ machine +:+ "` is already connected to collision domain `" +:+ link +:+ "`.".

(** [UnicodeDecodeError.Error]. *)
Definition unicode_decode_text (data : string) (start stop : Z) (reason : string) : string :=
  if start + 1 =? stop then
    "'utf-8' codec can't decode byte 0x" +:+
      hexByte (match String.get (Z.to_nat start) data with Some a => zb a | None => 0 end) +:+
      " in position " +:+ Itoa start +:+ ": " +:+ reason
  else
    "'utf-8' codec can't decode bytes in position " +:+ Itoa start +:+ "-" +:+
      Itoa (stop - 1) +:+ ": " +:+ reason.

(** [err.Error()]. *)
Fixpoint Error (e : goerror) : string :=
  match e with
  | EClass _ text => text
  | EMessage msg _ _ => msg
  | EMachine m _ err =>
      match err with Some e => Error e | None => "kathara: error on device `" +:+ m +:+ "`" end
  | ELink l _ err =>
      match err with
      | Some e => Error e
      | None => "kathara: error on collision domain `" +:+ l +:+ "`"
      end
  | EImage i err =>
      match err with Some e => Error e | None => "kathara: error on image `" +:+ i +:+ "`" end
  | EPath p err =>
      match err with Some e => Error e | None => "kathara: error on path `" +:+ p +:+ "`" end
  | EBinary b m => "Binary `" +:+ b +:+ "` not found in device `" +:+ m +:+ "`."
  | EImageArch i a =>
      "Docker Image `" +:+ i +:+ "` is not compatible with your host architecture `" +:+ a +:+ "`"
  | ENonSeqInterface i m =>
      "Interface `" +:+ Itoa i +:+ "` missing on device `" +:+ m +:+ "`."
  | EMacAddress mac i m =>
      "MAC address " +:+ mac +:+ " on interface `" +:+ Itoa i +:+ "` of device `" +:+ m
        +:+ "` is invalid."
  | ECollisionDomain m l i v => collision_domain_text m l i v
  | EOption _ _ msg => msg
  | EMachineSet ms =>
      "The following devices are not in the network scenario: " +:+ pythonSet ms +:+ "."
  | ESettingsInvalid r =>
      "Settings file is not valid: " +:+ r +:+ " Fix it or delete it before launching."
  | ESettingsNotFound p => "Settings file not found in path `" +:+ p +:+ "`."
  | EHostArch a => "Not implemented for host architecture `" +:+ a +:+ "`."
  | EFeature f =>
      match featureMessages f with
      | Some m => m
      | None => "`" +:+ f +:+ "` is not supported in this release. Use Kathará 3.8.x."
      end
  | EPyRuntime _ msg => msg
  | EParse _ _ msg _ => msg
  | EUnicodeDecode d s t r => unicode_decode_text d s t r
  | EFsPath op p err => op +:+ " " +:+ p +:+ ": " +:+ Error err
  | EJoin errs =>
      (fix go l := match l with
                   | [] => ""
                   | [e] => Error e
                   | e :: l => Error e +:+ String (az 10) (go l)
                   end) errs
  | EFmt t _ => t
  | EPromptEOF => "EOF when reading a line"
  | EPlain t => t
  end.

(** [ParseError.ErrorCode]. *)
Definition parse_error_code (code : string) : string :=
  if String.eqb code CodeValue then CodeValue else CodeSyntax.

(** What [Unwrap] exposes: nothing, one error (possibly nil), or several. *)
Inductive unwrapped : Type :=
| UNone
| UOne (e : option goerror)
| UMany (es : list goerror).

Definition Unwrap (e : goerror) : unwrapped :=
  match e with
  | EMessage _ class None => UMany [class]
  | EMessage _ class (Some cause) => UMany [class; cause]
  | EMachine _ _ err | ELink _ _ err | EImage _ err | EPath _ err => UOne err
  | EBinary _ _ => UOne (Some ErrMachineBinary)
  | EImageArch _ _ => UOne (Some ErrInvalidImageArchitecture)
  | ENonSeqInterface _ _ => UOne (Some ErrNonSequentialMachineInterface)
  | EMacAddress _ _ _ => UOne (Some ErrInterfaceMacAddress)
  | ECollisionDomain _ _ _ _ => UOne (Some ErrMachineCollisionDomain)
  | EOption _ _ _ => UOne (Some ErrMachineOption)
  | EMachineSet _ => UOne (Some ErrMachineNotFound)
  | ESettingsInvalid _ => UOne (Some ErrSettings)
  | ESettingsNotFound _ => UMany [ErrSettingsNotFound; fs_ErrNotExist]
  | EHostArch _ => UOne (Some ErrHostArchitecture)
  | EFeature _ => UOne (Some ErrNotSupported)
  | EParse _ _ _ code =>
      UOne (Some (if String.eqb code CodeValue then ErrValue else ErrSyntax))
  | EFsPath _ _ err => UOne (Some err)
  | EJoin errs => UMany errs
  | EFmt _ cause => UOne (Some cause)
  | EClass _ _ | EPyRuntime _ _ | EUnicodeDecode _ _ _ _ | EPromptEOF | EPlain _ => UNone
  end.

(** [Joined]: the batch of a multi-error; the marked types carry none. *)
Definition Joined (e : option goerror) : list goerror :=
  match e with
  | Some (EJoin errs) => errs
  | _ => []
  end.

(** [errors.As] and [errors.Is]: the first error of the tree [p] picks. *)
Fixpoint find_error {A} (p : goerror → option A) (e : goerror) : option A :=
  match p e with
  | Some a => Some a
  | None =>
      match e with
      | EMessage _ class cause =>
          match find_error p class with
          | Some a => Some a
          | None => match cause with Some c => find_error p c | None => None end
          end
      | EMachine _ _ (Some err) | ELink _ _ (Some err) | EImage _ (Some err) | EPath _ (Some err) => find_error p err
      | EFsPath _ _ err | EFmt _ err => find_error p err
      | EJoin errs =>
          (fix go l := match l with
                       | [] => None
                       | e :: l => match find_error p e with Some a => Some a | None => go l end
                       end) errs
      | _ => None
      end
  end.

(** The binary of a [BinaryError] in the tree. *)
Definition as_binary (e : goerror) : option string :=
  find_error (fun e => match e with EBinary binary _ => Some binary | _ => None end) e.

(** [errors.Is] of a class: the sentinel itself, or an error made from it. *)
Definition is_class (class : string) (e : goerror) : bool :=
  match find_error (fun e => match e with
                             | EClass code _ => if String.eqb code class then Some tt else None
                             | _ => None
                             end) e with
  | Some _ => true
  | None => false
  end.

Definition is_mount_denied (e : goerror) : bool := is_class CodeMountDenied e.

(** The [Coder] interface: the types naming their own code. *)
Definition ErrorCode (e : goerror) : option string :=
  match e with
  | EClass code _ => Some code
  | EFeature _ => Some CodeFeatureNotAvailable
  | EParse _ _ _ code => Some (parse_error_code code)
  | EPromptEOF => Some CodeInternalError
  | _ => None
  end.

(** An empty code does not count. *)
Definition own_code (e : goerror) : option string :=
  match ErrorCode e with
  | Some code => if String.eqb code "" then None else Some code
  | None => None
  end.

(** [codeOf]: the loop over the chain, the first branch with a code winning.
    [fuel] bounds the depth of the chain; [depth] below is enough. *)
Fixpoint codeOf (fuel : nat) (e : goerror) : option string :=
  match fuel with
  | O => None
  | S fuel =>
      match own_code e with
      | Some code => Some code
      | None =>
          match Unwrap e with
          | UNone => None
          | UOne None => None
          | UOne (Some e') => codeOf fuel e'
          | UMany es =>
              (fix branches l := match l with
                                 | [] => None
                                 | b :: l => match codeOf fuel b with
                                             | Some c => Some c
                                             | None => branches l
                                             end
                                 end) es
          end
      end
  end.

(** Depth of an error chain. *)
Fixpoint depth (e : goerror) : nat :=
  match e with
  | EMessage _ class cause =>
      S (Nat.max (depth class) (match cause with Some c => depth c | None => O end))
  | EMachine _ _ err | ELink _ _ err | EImage _ err | EPath _ err =>
      S (match err with Some e => depth e | None => O end)
  | EJoin errs => S ((fix go l := match l with [] => O | e :: l => Nat.max (depth e) (go l) end) errs)
  | EFsPath _ _ err | EFmt _ err => S (depth err)
  | EClass _ _ | EPyRuntime _ _ | EUnicodeDecode _ _ _ _ | EPromptEOF | EPlain _ => 1%nat
  | _ => 2%nat
  end.

(** [Code]. *)
Definition Code (e : option goerror) : string :=
  match e with
  | None => ""
  | Some e => match codeOf (depth e) e with Some c => c | None => CodeInternalError end
  end.

(** [HumanLabel]. *)
Definition humanLabels (code : string) : option string :=
  if String.eqb code CodeDockerAPI then Some "APIError"
  else if String.eqb code CodeKubernetesAPI then Some "ApiException"
  else if String.eqb code CodeFeatureNotAvailable then Some "FeatureNotAvailable"
  else if String.eqb code CodeInternalError then Some "InternalError"
  else if String.eqb code CodeConfirmationRequired then Some "ConfirmationRequired"
  else None.

Definition HumanLabel (code : string) : string :=
  if String.eqb code "" then ""
  else match humanLabels code with
       | Some l => l
       | None => code +:+ "Error"
       end.

(** ** Lemmas *)

(** The branches loop of [codeOf], named for the lemmas. *)
Fixpoint first_code (f : goerror → option string) (l : list goerror) : option string :=
  match l with
  | [] => None
  | b :: l => match f b with Some c => Some c | None => first_code f l end
  end.

Lemma codeOf_S n e :
  codeOf (S n) e =
    match own_code e with
    | Some code => Some code
    | None => match Unwrap e with
              | UNone | UOne None => None
              | UOne (Some e') => codeOf n e'
              | UMany es => first_code (codeOf n) es
              end
    end.
Proof.
  simpl. destruct (own_code e); [done|]. destruct (Unwrap e) as [|[]|es]; try done.
  induction es as [|b es IH]; simpl; [done|]. by rewrite IH.
Qed.

Lemma depth_pos e : (1 <= depth e)%nat.
Proof. destruct e; simpl; lia. Qed.

Lemma unwrap_one_depth e e' : Unwrap e = UOne (Some e') → (depth e' < depth e)%nat.
Proof.
  destruct e; simpl; try done;
    try (intros [= <-]; unfold lt; try case_match; cbv [newClass]; simpl; lia);
    try (intros [= <-]; try case_match; apply Nat.lt_1_2); try (intros [= ->]; simpl; lia).
  by destruct cause.
Qed.

Lemma unwrap_many_depth e es e' : Unwrap e = UMany es → e' ∈ es → (depth e' < depth e)%nat.
Proof.
  destruct e; simpl; try done.
  - destruct cause; intros [= <-]; rewrite ?elem_of_cons, elem_of_nil; naive_solver lia.
  - intros [= <-]. rewrite !elem_of_cons, elem_of_nil. intros [->|[->|[]]]; apply Nat.lt_1_2.
  - intros [= <-] H. apply Nat.lt_succ_r. induction H as [e l|e e2 l _ IH]; lia.
Qed.

(** The depth of an error is enough fuel, and more fuel changes nothing. *)
Lemma codeOf_fuel n m e : (depth e <= n)%nat → (depth e <= m)%nat → codeOf n e = codeOf m e.
Proof.
  revert m e. induction n as [|n IH]; intros m e Hn Hm; pose proof (depth_pos e); [lia|].
  destruct m as [|m]; [lia|]. rewrite !codeOf_S.
  destruct (own_code e); [done|]. destruct (Unwrap e) as [|[e'|]|es] eqn:E; [done| |done|].
  - apply unwrap_one_depth in E. apply IH; lia.
  - assert (H' : ∀ e', e' ∈ es → (depth e' < depth e)%nat) by eauto using unwrap_many_depth.
    clear E. induction es as [|b es IHes]; simpl; [done|].
    rewrite (IH m b) by (specialize (H' b); rewrite elem_of_cons in H'; naive_solver lia).
    case_match; [done|]. apply IHes. intros e' He'. apply H'. by right.
Qed.

(** [Code] without its fuel. *)
Definition codeOf' (e : goerror) : option string := codeOf (depth e) e.

Lemma codeOf'_unfold e :
  codeOf' e =
    match own_code e with
    | Some code => Some code
    | None => match Unwrap e with
              | UNone | UOne None => None
              | UOne (Some e') => codeOf' e'
              | UMany es => first_code codeOf' es
              end
    end.
Proof.
  unfold codeOf'. rewrite (codeOf_fuel _ (S (depth e))) by lia. rewrite codeOf_S.
  destruct (own_code e); [done|]. destruct (Unwrap e) as [|[e'|]|es] eqn:E; [done| |done|].
  - apply codeOf_fuel; apply unwrap_one_depth in E; lia.
  - assert (H' : ∀ e', e' ∈ es → (depth e' < depth e)%nat) by eauto using unwrap_many_depth.
    clear E. induction es as [|b es IHes]; simpl; [done|].
    rewrite (codeOf_fuel _ (depth b)) by (specialize (H' b); rewrite elem_of_cons in H'; naive_solver lia).
    case_match; [done|]. apply IHes. intros e' He'. apply H'. by right.
Qed.

Lemma Code_unfold e :
  Code (Some e) = match codeOf' e with Some c => c | None => CodeInternalError end.
Proof. done. Qed.

(** A class sentinel has its own code. *)
Lemma codeOf'_class code text : code ≠ "" → codeOf' (EClass code text) = Some code.
Proof. intros H. rewrite codeOf'_unfold. unfold own_code. simpl. by apply String.eqb_neq in H as ->. Qed.

Lemma codeOf'_nonempty e c : codeOf' e = Some c → c ≠ "".
Proof.
  assert (H : ∀ n e, (depth e <= n)%nat → ∀ c, codeOf' e = Some c → c ≠ ""); [|by eapply H].
  clear e c. intros n. induction n as [|n IH]; intros e Hn c; pose proof (depth_pos e); [lia|].
  rewrite codeOf'_unfold. destruct (own_code e) as [code|] eqn:Eo.
  { intros [= <-]. unfold own_code in Eo. destruct (ErrorCode e) as [code'|]; [|done].
    destruct (String.eqb_spec code' ""); [done|]. by injection Eo as <-. }
  destruct (Unwrap e) as [|[e'|]|es] eqn:E; [done| |done|].
  - apply unwrap_one_depth in E. intros Hc. eapply IH; [|done]. lia.
  - assert (H' : ∀ e', e' ∈ es → (depth e' < depth e)%nat) by eauto using unwrap_many_depth.
    clear E. induction es as [|b es IHes]; simpl; [done|].
    case_match eqn:Eb; [|apply IHes; intros e' He'; apply H'; by right].
    intros [= ->]. eapply IH; [|done]. specialize (H' b). rewrite elem_of_cons in H'. naive_solver lia.
Qed.

Lemma str_insert_perm x l : str_insert x l ≡ₚ x :: l.
Proof.
  induction l as [|y l IH]; simpl; [done|]. destruct (str_leb x y); [done|].
  rewrite IH. apply Permutation_swap.
Qed.

Lemma sortedCopy_perm l : sortedCopy l ≡ₚ l.
Proof. induction l as [|x l IH]; simpl; [done|]. by rewrite str_insert_perm, IH. Qed.

Lemma sortedCopy_elem x l : x ∈ sortedCopy l ↔ x ∈ l.
Proof. by rewrite sortedCopy_perm. Qed.

(** ** Properties *)

(** [classes_in P e]: every class sentinel of the error tree satisfies [P]. *)
Fixpoint classes_in (P : string → bool) (e : goerror) : bool :=
  let opt o := match o with Some e => classes_in P e | None => true end in
  match e with
  | EClass code _ => P code
  | EMessage _ class cause => classes_in P class && opt cause
  | EMachine _ _ err | ELink _ _ err | EImage _ err | EPath _ err => opt err
  | EFsPath _ _ err | EFmt _ err => classes_in P err
  | EJoin errs => (fix go l := match l with [] => true | e :: l => classes_in P e && go l end) errs
  | _ => true
  end.

Lemma classes_in_join P errs e : classes_in P (EJoin errs) = true → e ∈ errs → classes_in P e = true.
Proof.
  cbn. intros H He. induction He as [e l|e e' l _ IH]; apply andb_true_iff in H as [? ?]; auto.
Qed.

Definition known_code (code : string) : bool := existsb (String.eqb code) AllCodes.

Lemma known_code_elem code : known_code code = true ↔ code ∈ AllCodes.
Proof.
  unfold known_code. rewrite existsb_exists. split.
  - intros (c & Hc & ->%String.eqb_eq). by apply list_elem_of_In.
  - intros Hc. exists code. split; [by apply list_elem_of_In|by apply String.eqb_refl].
Qed.

Lemma own_code_known e c :
  classes_in known_code e = true → own_code e = Some c → known_code c = true.
Proof.
  unfold own_code. destruct e; cbn; try done.
  - destruct (String.eqb code ""); [done|]. by intros ? [= <-].
  - by intros _ [= <-].
  - unfold parse_error_code. destruct (String.eqb code CodeValue); by intros _ [= <-].
  - by intros _ [= <-].
Qed.

(** Unwrapping stays inside the tree, or reaches a sentinel of the package. *)
Lemma unwrap_one_known e e' :
  classes_in known_code e = true → Unwrap e = UOne (Some e') → classes_in known_code e' = true.
Proof.
  destruct e; cbn [Unwrap]; intros Hc He; try done; try (injection He as <-; done);
    try (injection He as ->; exact Hc).
  - by destruct cause.
  - injection He as <-. by destruct (String.eqb code CodeValue).
Qed.

Lemma unwrap_many_known e es e' :
  classes_in known_code e = true → Unwrap e = UMany es → e' ∈ es → classes_in known_code e' = true.
Proof.
  destruct e; cbn [Unwrap]; intros Hc He Hin; try done.
  - cbn in Hc. apply andb_true_iff in Hc as [H1 H2]. destruct cause; injection He as <-;
      rewrite ?elem_of_cons, elem_of_nil in Hin; naive_solver.
  - injection He as <-. rewrite !elem_of_cons, elem_of_nil in Hin. by destruct Hin as [->|[->|[]]].
  - injection He as <-. by eapply classes_in_join.
Qed.

Lemma first_code_some f l c : first_code f l = Some c → ∃ b, b ∈ l ∧ f b = Some c.
Proof.
  induction l as [|b l IH]; cbn; [done|]. destruct (f b) as [c'|] eqn:E.
  - intros [= ->]. exists b. split; [by left|done].
  - intros (b' & ? & ?)%IH. exists b'. split; [by right|done].
Qed.

Lemma codeOf_known n : ∀ e c,
  (depth e <= n)%nat → classes_in known_code e = true → codeOf' e = Some c → known_code c = true.
Proof.
  induction n as [|n IH]; intros e c Hn Hk; pose proof (depth_pos e); [lia|].
  rewrite codeOf'_unfold. destruct (own_code e) as [code|] eqn:Eo.
  { intros [= <-]. by eapply own_code_known. }
  destruct (Unwrap e) as [|[e'|]|es] eqn:E; [done| |done|].
  - intros Hc. eapply IH; [|by eapply unwrap_one_known|done]. apply unwrap_one_depth in E. lia.
  - intros (b & Hb & Hc)%first_code_some. eapply IH; [|by eapply unwrap_many_known|done].
    pose proof (unwrap_many_depth e es b E Hb). lia.
Qed.

(** An error all of whose class sentinels carry published codes, however
    deeply wrapped or joined, is always classified by one of the published codes. *)
Theorem Code_known e : classes_in known_code e = true → Code (Some e) ∈ AllCodes.
Proof.
  intros He. apply known_code_elem. rewrite Code_unfold. destruct (codeOf' e) as [c|] eqn:E; [|done].
  by eapply codeOf_known.
Qed.

Lemma Code_known_witness :
  Code (Some (EMachine "pc1" "start" (Some (EJoin [EPlain "x"; Wrap ErrOS (EPlain "y") "z"])))) ∈ AllCodes.
Proof. apply Code_known. vm_compute. reflexivity. Defined.

Lemma Code_one e e' :
  own_code e = None → Unwrap e = UOne (Some e') → Code (Some e) = Code (Some e').
Proof. intros Ho Hu. by rewrite !Code_unfold, (codeOf'_unfold e), Ho, Hu. Qed.

Lemma Code_wrap_class class cause msg :
  codeOf' class ≠ None → Code (Some (Wrap class cause msg)) = Code (Some class).
Proof.
  intros Hc. rewrite !Code_unfold, (codeOf'_unfold (Wrap _ _ _)). cbn. by destruct (codeOf' class).
Qed.

Lemma first_code_skip f l b l' :
  Forall (fun e => f e = None) l → first_code f (l ++ b :: l') =
    match f b with Some c => Some c | None => first_code f l' end.
Proof. induction 1 as [|e l He _ IH]; [done|]. cbn. by rewrite He. Qed.

(** The context wrappers keep the class of what they wrap and keep nil nil;
    wrapping a cause under a class gives the class's code whatever the cause; and a joined
    error is classified by its first branch that has a class. *)
Theorem Code_transparent :
  (∀ machine op e, Code (WrapMachine machine op e) = Code e) ∧
  (∀ link op e, Code (WrapLink link op e) = Code e) ∧
  (∀ image e, Code (WrapImage image e) = Code e) ∧
  (∀ path e, Code (WrapPath path e) = Code e) ∧
  (∀ code text cause msg, code ≠ "" → Code (Some (Wrap (newClass code text) cause msg)) = code) ∧
  (∀ pre e rest, Forall (fun e => codeOf' e = None) pre → codeOf' e ≠ None →
     Code (Some (EJoin (pre ++ e :: rest))) = Code (Some e)).
Proof.
  split_and!; try (by intros; destruct e; [|done]; by apply Code_one).
  - intros code text cause msg Hne. rewrite Code_wrap_class; [|by unfold newClass; rewrite codeOf'_class].
    unfold newClass. by rewrite Code_unfold, codeOf'_class.
  - intros pre e rest Hpre He. rewrite !Code_unfold, (codeOf'_unfold (EJoin _)).
    unfold own_code. cbn [ErrorCode Unwrap]. rewrite first_code_skip by done.
    by destruct (codeOf' e).
Qed.
