(* ===== verification/Messages.v ===== *)
(** * The message catalogue (kerrors/messages.go)

    One definition per constructor or sentinel of the catalogue: the class an
    error is filed under, the structured fields it carries, and its text.
    What the group of theorems at the end shows is the promise callers rely
    on: a message is classified by the class its constructor names, whatever
    it wraps. *)

From S2P Require Export Errors.
Local Open Scope string_scope.
Local Open Scope list_scope.
Local Open Scope Z_scope.

Definition NewOnlyOneParameter (params : list string) : goerror :=
  New ErrInvocation ("You must specify only a parameter among " +:+ str_join ", " params).
Definition NewOneParameter (params : list string) : goerror :=
  New ErrInvocation ("You must specify a parameter among " +:+ str_join ", " params).
Definition NewSettingsTerminal (terminal : string) : goerror :=
  ESettingsInvalid ("Terminal Emulator `" +:+ terminal +:+
    "` not valid! Install it before using it.").
Definition NewSettingsInvalid (reason : string) : goerror :=
  ESettingsInvalid reason.
Definition NewSettingsNotFound (path : string) : goerror :=
  ESettingsNotFound path.
Definition NewDaemonConnection (cause : goerror) : goerror :=
  Wrap ErrDaemonConnection cause
    ("Cannot connect to Docker Daemon, this may indicate that it is not running. " +:+ Error
    cause).
Definition NewNotSupported (msg : string) : goerror :=
  New ErrNotSupported ("Not Supported: " +:+ msg).
Definition NewPrivilegeMachinePrivileged (machine : string) : goerror :=
  New ErrPrivilege ("You must be root in order to start device `" +:+ machine +:+
    "` in privileged mode.").
Definition NewHostArchitecture (arch : string) : goerror :=
  EHostArch arch.
Definition NewLabNotFoundDevice (machine : string) : goerror :=
  EMachine machine "" (Some (New ErrLabNotFound ("Device `" +:+ machine +:+
    "` is not associated to a network scenario."))).
Definition NewLabNotFoundMachine (machine : string) : goerror :=
  EMachine machine "" (Some (New ErrLabNotFound ("Machine `" +:+ machine +:+
    "` is not associated to a network scenario."))).
Definition NewLabNotFoundCollisionDomain (link : string) : goerror :=
  ELink link "" (Some (New ErrLabNotFound ("Collision domain `" +:+ link +:+
    "` is not associated to a network scenario."))).
Definition NewLabNotFoundLink (link : string) : goerror :=
  ELink link "" (Some (New ErrLabNotFound ("Link `" +:+ link +:+
    "` is not associated to a network scenario."))).
Definition NewMountDeniedDevice (machine : string) : goerror :=
  EMachine machine "" (Some (New ErrMountDenied ("Device `" +:+ machine +:+
    "` cannot mount volumes."))).
Definition NewMachineAlreadyExists (machine : string) : goerror :=
  EMachine machine "" (Some (New ErrMachineAlreadyExists ("Device with name `" +:+ machine +:+
    "` already exists."))).
Definition NewNonSequentialMachineInterface (iface : Z) (machine : string) : goerror :=
  ENonSeqInterface iface machine.
Definition NewOptionSysctl (machine : string) (value : string) : goerror :=
  EOption machine "sysctl" ("Invalid sysctl value (`" +:+ value +:+ "`) on `" +:+ machine +:+
    "`, missing `=` or value not in `net.` namespace.").
Definition NewOptionEnv (machine : string) (value : string) : goerror :=
  EOption machine "env" ("Invalid env value (`" +:+ value +:+ "`) on `" +:+ machine +:+ "`.").
Definition NewOptionUlimitRange (machine : string) (value : string) : goerror :=
  EOption machine "ulimit" ("Invalid ulimit value (`" +:+ value +:+
    "`) on `ulimit`. Values must be >= -1.").
Definition NewOptionUlimitSoftHard (machine : string) (value : string) (hard : string) :
    goerror :=
  EOption machine "ulimit" ("Invalid ulimit value (`" +:+ value +:+
    "`) on `ulimit`. Soft limit (-1) cannot be greater than hard limit (" +:+ hard +:+ ").").
Definition NewOptionUlimit (machine : string) (value : string) : goerror :=
  EOption machine "ulimit" ("Invalid ulimit value (`" +:+ value +:+ "`) on `ulimit`.").
Definition NewOptionPortProtocol (machine : string) : goerror :=
  EOption machine "port" ("Port protocol value not valid on `" +:+ machine +:+ "`.").
Definition NewOptionPortValue (machine : string) : goerror :=
  EOption machine "port" ("Port value not valid on `" +:+ machine +:+ "`.").
Definition NewOptionVolumeFormat (machine : string) (value : string) : goerror :=
  EOption machine "volume" ("The volume specified `" +:+ value +:+
    "` is not in a valid format: <host_path>|<guest_path>|[<mode>]").
Definition NewOptionVolumeMode (machine : string) (mode : string) (hostPath : string) :
    goerror :=
  EOption machine "volume" ("Invalid volume mode `" +:+ mode +:+ "` on `" +:+ hostPath +:+
    "` mount. Allowed values are ro, rw, rx. ").
Definition NewOptionMemory (machine : string) : goerror :=
  EOption machine "mem" ("Memory value not valid on `" +:+ machine +:+ "`.").
Definition NewOptionCPU (machine : string) : goerror :=
  EOption machine "cpus" ("CPU value not valid on `" +:+ machine +:+ "`.").
Definition NewOptionTerminalsNegative (machine : string) : goerror :=
  EOption machine "num_terms" ("Terminals Number value on `" +:+ machine +:+
    "` must be a positive value or zero.").
Definition NewOptionTerminals (machine : string) : goerror :=
  EOption machine "num_terms" ("Terminals Number value not valid on `" +:+ machine +:+ "`.").
Definition NewOptionIPv6 (machine : string) : goerror :=
  EOption machine "ipv6" ("IPv6 value not valid on `" +:+ machine +:+ "`.").
Definition NewInterfaceAlreadySet (machine : string) (iface : Z) : goerror :=
  ECollisionDomain machine "" iface CDVariantInterfaceTaken.
Definition NewMachineAlreadyConnected (machine : string) (link : string) : goerror :=
  ECollisionDomain machine link 0 CDVariantAlreadyConnected.
Definition NewMachineNotConnected (machine : string) (link : string) : goerror :=
  ECollisionDomain machine link 0 CDVariantNotConnected.
Definition NewManagerMachineAlreadyConnected (machine : string) (link : string) : goerror :=
  ECollisionDomain machine link 0 CDVariantManagerAlreadyConnected.
Definition NewManagerMachineNotConnected (machine : string) (link : string) : goerror :=
  ECollisionDomain machine link 0 CDVariantManagerNotConnected.
Definition NewMachineNotFoundInScenario (machine : string) : goerror :=
  EMachine machine "" (Some (New ErrMachineNotFound ("Device " +:+ machine +:+
    " not in the network scenario."))).
Definition NewMachineNotFoundSet (machines : list string) : goerror :=
  EMachineSet (sortedCopy machines).
Definition NewMachineNotFoundQuoted (machine : string) : goerror :=
  EMachine machine "" (Some (New ErrMachineNotFound ("Device `" +:+ machine +:+
    "` not found."))).
Definition NewMachineNotFoundUnquoted (machine : string) : goerror :=
  EMachine machine "" (Some (New ErrMachineNotFound ("Device " +:+ machine +:+ " not found."))).
Definition NewMachineNotRunning (machine : string) : goerror :=
  EMachine machine "" (Some (New ErrMachineNotRunning ("Device `" +:+ machine +:+
    "` is not running."))).
Definition NewMachineNotReady (machine : string) : goerror :=
  EMachine machine "" (Some (New ErrMachineNotReady ("Device `" +:+ machine +:+
    "` is not ready."))).
Definition NewMachineBinary (binary : string) (machine : string) : goerror :=
  EBinary binary machine.
Definition NewInterfaceMacAddress (mac : string) (iface : Z) (machine : string) : goerror :=
  EMacAddress mac iface machine.
Definition NewLinkNotFoundInScenario (link : string) : goerror :=
  ELink link "" (Some (New ErrLinkNotFound ("Collision domain " +:+ link +:+
    " not found in the network scenario."))).
Definition NewLinkNotFoundQuoted (link : string) : goerror :=
  ELink link "" (Some (New ErrLinkNotFound ("Collision Domain `" +:+ link +:+ "` not found."))).
Definition NewLinkNotFoundUnquoted (link : string) : goerror :=
  ELink link "" (Some (New ErrLinkNotFound ("Collision Domain " +:+ link +:+ " not found."))).
Definition NewLinkAlreadyExists (link : string) : goerror :=
  ELink link "" (Some (New ErrLinkAlreadyExists ("Collision domain " +:+ link +:+
    " is already the network scenario."))).
Definition NewInvalidImageArchitecture (image : string) (arch : string) : goerror :=
  EImageArch image arch.
Definition NewDockerImageNotFound (image : string) : goerror :=
  EImage image (Some (New ErrDockerImageNotFound ("Docker Image `" +:+ image +:+
    "` is not available neither on Docker Hub nor in local repository!"))).
Definition NewConfigMapTooLarge (maxSize : string) (current : string) : goerror :=
  New ErrKubernetesConfigMap ("Unable to upload device folder. Maximum supported size: " +:+
    maxSize +:+ ". Current: " +:+ current +:+ ".").
Definition NewSyntaxDeviceName (name : string) : goerror :=
  New ErrSyntax ("Invalid device name `" +:+ name +:+ "`.").
Definition NewSyntaxInterfaceDefinition (value : string) : goerror :=
  New ErrSyntax ("Invalid interface definition: `" +:+ value +:+ "`.").
Definition NewSyntaxEthNumber (ifaceNumber : string) (s : string) : goerror :=
  New ErrSyntax ("Interface number in `--eth " +:+ ifaceNumber +:+ ":" +:+ s +:+
    "` is not a number.").
Definition NewSyntax (msg : string) : goerror :=
  New ErrSyntax msg.
Definition WrapSyntax (cause : goerror) (msg : string) : goerror :=
  Wrap ErrSyntax cause msg.
Definition NewValueOptionParameter (inner : string) : goerror :=
  New ErrValue ("Option parameter not valid: " +:+ inner +:+ ".").
Definition NewValue (msg : string) : goerror :=
  New ErrValue msg.
Definition WrapValue (cause : goerror) (msg : string) : goerror :=
  Wrap ErrValue cause msg.
Definition NewOSNoConfInDirectory (confName : string) : goerror :=
  New ErrOS ("No " +:+ confName +:+ " in given directory.").
Definition NewOSConfEmpty (confName : string) : goerror :=
  New ErrOS (confName +:+ " file is empty.").
Definition NewOSCannotOpenConf (confName : string) (cause : goerror) : goerror :=
  Wrap ErrOS cause ("Cannot open " +:+ confName +:+ " file.").
Definition NewOSCannotOpenLabDep (cause : goerror) : goerror :=
  Wrap ErrOS cause "Cannot open lab.dep file.".
Definition NewOS (msg : string) : goerror :=
  New ErrOS msg.
Definition WrapOS (cause : goerror) (msg : string) : goerror :=
  Wrap ErrOS cause msg.
Definition NewHostTmpNotFound (key : string) : goerror :=
  Wrap ErrFileNotFound fs_ErrNotExist ("Unable to find `" +:+ key +:+ "` in plugin mounts.").
Definition NewPathNotExist (path : string) : goerror :=
  EPath path (Some (Wrap ErrFileExists fs_ErrNotExist ("Path `" +:+ path +:+
    "` does not exist."))).
Definition NewPathNotDirectory (path : string) : goerror :=
  EPath path (Some (New ErrNotADirectory ("Path `" +:+ path +:+ "` must be a directory."))).
Definition NewVolumePermission (hostPath guestPath : string) (missing : list string) : goerror :=
  Wrap ErrPermission fs_ErrPermission ("To mount volume `" +:+ hostPath +:+ "` in `" +:+
    guestPath +:+ "` you miss the following permissions: `" +:+ str_join ", " missing +:+ "`.").
Definition NewConnectionImagePull (image : string) : goerror :=
  EImage image (Some (New ErrConnection ("Docker Image `" +:+ image +:+
    "` is not available in local repository and no Internet connection is available to pull it from Docker Hub."))).
Definition NewDockerAPI (cause : goerror) : goerror :=
  Wrap ErrDockerAPI cause (Error cause).
Definition NewKubernetesAPI (cause : goerror) : goerror :=
  Wrap ErrKubernetesAPI cause (Error cause).
Definition NewFeatureNotAvailable (feature : string) : goerror :=
  EFeature feature.
Definition ErrSelectedOrExcludedMachines : goerror :=
  New ErrInvocation "You can either specify `selected_machines` or `excluded_machines`.".
Definition ErrSelectedOrExcludedLinks : goerror :=
  New ErrInvocation "You can either specify `selected_links` or `excluded_links`.".
Definition ErrSelectOrExcludeDevices : goerror :=
  New ErrInvocation "You can either select or exclude devices.".
Definition ErrLabHashOrName : goerror :=
  New ErrInvocation "You must specify a running network scenario hash or name.".
Definition ErrDeviceNameOrObject : goerror :=
  New ErrInvocation "You must specify a device name or object.".
Definition ErrNoFilesystem : goerror :=
  New ErrInvocation "There is no filesystem associated to this object.".
Definition ErrNoFilesystemCreate : goerror :=
  New ErrInvocation "Cannot create a file if the filesystem is not set.".
Definition ErrStreamReadPermissions : goerror :=
  New ErrInvocation "To create a file from stream, you must open it with read permissions.".
Definition ErrSettingsInvalidJSON : goerror :=
  ESettingsInvalid ("Not a valid JSON.").
Definition ErrSettingsNetworksPrefix : goerror :=
  ESettingsInvalid ("Networks Prefix must only contain lowercase letters and underscore.").
Definition ErrSettingsDevicePrefix : goerror :=
  ESettingsInvalid ("Device Prefix must only contain lowercase letters and underscore.").
Definition ErrSettingsDebugLevel : goerror :=
  ESettingsInvalid
    ("Debug Level must be one of the following: CRITICAL, ERROR, WARNING, INFO, DEBUG, EXCEPTION.").
Definition ErrSettingsManagerType : goerror :=
  ESettingsInvalid ("Manager Type not allowed.").
Definition ErrUpdateRunningDevice : goerror :=
  NewNotSupported "Unable to update a running device.".
Definition ErrUpdateRunningLab : goerror :=
  NewNotSupported "Unable to update a running network scenario.".
Definition ErrPrivilegeListAllUsers : goerror :=
  New ErrPrivilege "You must be root in order to show all Kathara devices of all users.".
Definition ErrPrivilegeWipeAllUsers : goerror :=
  New ErrPrivilege "You must be root in order to wipe all Kathara devices of all users.".
Definition ErrPrivilegeLabPrivileged : goerror :=
  New ErrPrivilege "You must be root in order to start Kathara devices in privileged mode.".
Definition ErrPrivilegeDevicePrivileged : goerror :=
  New ErrPrivilege "You must be root in order to start this Kathara device in privileged mode.".
Definition ErrPrivilegeLinkStats : goerror :=
  New ErrPrivilege "You must be root to get networks statistics of all users.".
Definition ErrPrivilegeMachineStats : goerror :=
  New ErrPrivilege "You must be root to get devices statistics of all users.".
Definition ErrLabTerminating : goerror :=
  New ErrLabAlreadyExists
    "Previous network scenario execution is still terminating. Please wait.".
Definition ErrNoDevicesInScenario : goerror :=
  New ErrEmptyLab "No devices in the current network scenario.".
Definition ErrLabDepLoop : goerror :=
  New ErrDependencyLoop "Machines' dependency loop in lab.dep file.".
Definition ErrHostDriveNotShared : goerror :=
  New ErrMountDenied "Host drive is not shared with Docker.".
Definition ErrPluginNotFound : goerror :=
  New ErrDockerPlugin "Kathara Network Plugin not found on remote Docker connection.".
Definition ErrPluginNotEnabled : goerror :=
  New ErrDockerPlugin "Kathara Network Plugin not enabled on remote Docker connection.".
Definition ErrInconsistentState : goerror :=
  New ErrDockerPlugin
    "Kathara has been left in an inconsistent state! Please run `kathara wipe`.".
Definition ErrSharedSymlink : goerror :=
  New ErrValue "`shared` folder is a symlink, delete it.".
Definition ErrInvalidWaitValue : goerror :=
  New ErrValue "Invalid `wait` value.".
Definition ErrKatharaNotFound : goerror :=
  Wrap ErrFileNotFound fs_ErrNotExist "Unable to find Kathara.".
Definition ErrIptablesNotFound : goerror :=
  Wrap ErrFileNotFound fs_ErrNotExist "Cannot find `iptables` in the host.".
Definition ErrKubeConfigUnreadable : goerror :=
  New ErrConnection "Cannot read Kubernetes configuration.".
Definition ErrWipeConfirmationRequired : goerror :=
  New ErrConfirmationRequired "Confirmation required: re-run with `--force` to wipe Kathara.".
