(* ===== verification/PyPrim.v ===== *)
(** * CPython primitives and small validators (internal/util, model/python.go)

    The integer literal grammar of [int()], [repr()] of a string, the truth
    values of [strtobool], version comparison, the keyword-argument checks and
    the collision-domain/MAC splitter.  [pyLower] is golang.org/x/text, which
    is not part of the repository: it is a parameter, of which the program
    relies on nothing but its behaviour on ASCII. *)

From S2P Require Export Unicode Messages.
Local Open Scope string_scope.
Local Open Scope list_scope.
Local Open Scope Z_scope.
Local Open Scope kat_scope.

(** ** The case mapping of golang.org/x/text *)

Class TextCases : Type := pyLower : string → string.

(** Documented behaviour on ASCII: the simple lower-case mapping. *)
Class TextCasesLaws `{TC : TextCases} : Prop :=
  pyLower_ascii : ∀ s, is_ascii s = true → pyLower s = ToLower s.

(** ** [int()] (internal/util/pyint.go) *)

Definition ErrPyIntSyntax : goerror := EPlain "invalid literal for int() with base 10".
Definition ErrPyIntRange : goerror := EPlain "integer literal out of range for int".

Definition intSpace (r : Z) : bool :=
  ((0x09 <=? r) && (r <=? 0x0D)) || (r =? 0x20) || (r =? 0x85) || (r =? 0xA0)
  || (r =? 0x1680) || ((0x2000 <=? r) && (r <=? 0x200A))
  || (r =? 0x2028) || (r =? 0x2029) || (r =? 0x202F) || (r =? 0x205F) || (r =? 0x3000).

Definition ndZeros : list Z :=
  [0x0030; 0x0660; 0x06F0; 0x07C0; 0x0966; 0x09E6; 0x0A66; 0x0AE6;
   0x0B66; 0x0BE6; 0x0C66; 0x0CE6; 0x0D66; 0x0DE6; 0x0E50; 0x0ED0;
   0x0F20; 0x1040; 0x1090; 0x17E0; 0x1810; 0x1946; 0x19D0; 0x1A80;
   0x1A90; 0x1B50; 0x1BB0; 0x1C40; 0x1C50; 0xA620; 0xA8D0; 0xA900;
   0xA9D0; 0xA9F0; 0xAA50; 0xABF0; 0xFF10; 0x104A0; 0x10D30; 0x11066;
   0x110F0; 0x11136; 0x111D0; 0x112F0; 0x11450; 0x114D0; 0x11650; 0x116C0;
   0x11730; 0x118E0; 0x11950; 0x11C50; 0x11D50; 0x11DA0; 0x11F50; 0x16A60;
   0x16AC0; 0x16B50; 0x1D7CE; 0x1D7D8; 0x1D7E2; 0x1D7EC; 0x1D7F6; 0x1E140;
   0x1E2F0; 0x1E4F0; 0x1E950; 0x1FBF0].

Definition decimalValue (r : Z) : option Z :=
  if (48 <=? r) && (r <=? 57) then Some (r - 48)
  else match List.find (fun z => (z <=? r) && (r <? z + 10)) ndZeros with
       | Some z => Some (r - z)
       | None => None
       end.

Definition nonDecimalDigits : list (Z * Z) :=
  [(0x00B2, 0x00B3); (0x00B9, 0x00B9); (0x1369, 0x1371); (0x19DA, 0x19DA);
   (0x2070, 0x2070); (0x2074, 0x2079); (0x2080, 0x2089); (0x2460, 0x2468);
   (0x2474, 0x247C); (0x2488, 0x2490); (0x24EA, 0x24EA); (0x24F5, 0x24FD);
   (0x24FF, 0x24FF); (0x2776, 0x277E); (0x2780, 0x2788); (0x278A, 0x2792);
   (0x10A40, 0x10A43); (0x10E60, 0x10E68); (0x11052, 0x1105A); (0x1F100, 0x1F10A)].

Definition PyIsDigit (r : Z) : bool :=
  match decimalValue r with
  | Some _ => true
  | None => in_ranges nonDecimalDigits r
  end.

(** The optional sign both integer parsers strip: [(negative, rest)]. *)
Definition split_sign (s : string) : bool * string :=
  match s with
  | String a rest =>
      if zb a =? 43 then (false, rest)
      else if zb a =? 45 then (true, rest)
      else (false, s)
  | EmptyString => (false, s)
  end.

(** The digit loop of [PyInt]: value, digit count and pending underscore. *)
Fixpoint PyInt_loop (rs : list Z) (value digits : Z) (prev : bool)
    : result goerror (Z * Z * bool) :=
  match rs with
  | [] => Ok (value, digits, prev)
  | r :: rs =>
      if r =? 95 then
        if (digits =? 0) || prev then Err ErrPyIntSyntax
        else PyInt_loop rs value digits true
      else match decimalValue r with
           | None => Err ErrPyIntSyntax
           | Some d =>
               if (MaxInt64 - d) / 10 <? value then Err ErrPyIntRange
               else PyInt_loop rs (value * 10 + d) (digits + 1) false
           end
  end.

Definition PyInt (s : string) : result goerror Z :=
  let trimmed := TrimFunc intSpace s in
  let '(negative, rest) := split_sign trimmed in
  if String.eqb rest "" then Err ErrPyIntSyntax
  else let* (value, digits, prev) := PyInt_loop (runes rest) 0 0 false in
       if (digits =? 0) || prev then Err ErrPyIntSyntax
       else Ok (if negative then - value else value).

(** ** Arbitrary precision (model/python.go) *)

Definition pyIntSpace (r : Z) : bool :=
  ((0x09 <=? r) && (r <=? 0x0D)) || (r =? 0x20) || (r =? 0x85) || (r =? 0xA0)
  || (r =? 0x1680) || ((0x2000 <=? r) && (r <=? 0x200A))
  || (r =? 0x2028) || (r =? 0x2029) || (r =? 0x202F) || (r =? 0x205F) || (r =? 0x3000).

Definition pyDecimalValue (r : Z) : option Z :=
  if (48 <=? r) && (r <=? 57) then Some (r - 48)
  else match PyInt (encode_rune r) with
       | Ok v => if (v <? 0) || (9 <? v) then None else Some v
       | Err _ => None
       end.

Fixpoint pyBigInt_loop (rs : list Z) (value digits : Z) (prev : bool)
    : result goerror (Z * Z * bool) :=
  match rs with
  | [] => Ok (value, digits, prev)
  | r :: rs =>
      if r =? 95 then
        if (digits =? 0) || prev then Err ErrPyIntSyntax
        else pyBigInt_loop rs value digits true
      else match pyDecimalValue r with
           | None => Err ErrPyIntSyntax
           | Some d => pyBigInt_loop rs (value * 10 + d) (digits + 1) false
           end
  end.

Definition pyBigInt (s : string) : result goerror Z :=
  let trimmed := TrimFunc pyIntSpace s in
  let '(negative, rest) := split_sign trimmed in
  if String.eqb rest "" then Err ErrPyIntSyntax
  else let* (value, digits, prev) := pyBigInt_loop (runes rest) 0 0 false in
       if (digits =? 0) || prev then Err ErrPyIntSyntax
       else Ok (if negative then - value else value).

(** [str.isnumeric]: [unicode.In(r, Nd, Nl, No)] is [unicode.IsNumber]. *)
Definition pyIsNumeric (s : string) : bool :=
  negb (String.eqb s "") && forallb IsNumber (runes s).

Definition saturateInt64 (v : Z) : Z :=
  if (MinInt64 <=? v) && (v <=? MaxInt64) then v
  else if v <? 0 then MinInt64 else MaxInt64.

(** [int] is 64 bits wide, so the second narrowing does nothing there. *)
Definition saturateInt (v : Z) : Z :=
  let n := saturateInt64 v in
  if MaxInt64 <? n then MaxInt64 else if n <? MinInt64 then MinInt64 else n.

(** ** [repr()] of a string *)

(** [writeHexEscape]: [width] hexadecimal digits of [r]. *)
Fixpoint hex_digits (width : nat) (r : Z) : string :=
  match width with
  | O => ""
  | S w => hexdigit (Z.land (Z.shiftr r (4 * Z.of_nat w)) 15) +:+ hex_digits w r
  end.

Definition writeHexEscape (prefix : string) (r : Z) (width : nat) : string :=
  prefix +:+ hex_digits width r.

Definition repr_quote (s : string) : Z :=
  if contains_byte (az 39) s && negb (contains_byte (az 34) s) then 34 else 39.

Definition repr_rune (quote r : Z) : string :=
  if (r =? quote) || (r =? 92) then String (az 92) (encode_rune r)
  else if r =? 9 then "\t"
  else if r =? 10 then "\n"
  else if r =? 13 then "\r"
  else if (r <? 0x20) || (r =? 0x7F) then writeHexEscape "\x" r 2
  else if (r <? 0x7F) || IsPrint r then encode_rune r
  else if r <? 0x100 then writeHexEscape "\x" r 2
  else if r <? 0x10000 then writeHexEscape "\u" r 4
  else writeHexEscape "\U" r 8.

Definition PythonRepr (s : string) : string :=
  let quote := repr_quote s in
  str1 (az quote) +:+ string_concat (repr_rune quote <$> runes s) +:+ str1 (az quote).

Definition PythonStrListRepr (items : list string) : string :=
  "[" +:+ str_join ", " (PythonRepr <$> items) +:+ "]".

(** [PyIntFailure]: [fmt.Errorf("%w: %s", cause, PythonRepr(s))]. *)
Definition PyIntFailure (cause : goerror) (s : string) : goerror :=
  EFmt (Error cause +:+ ": " +:+ PythonRepr s) cause.

(** ** [strtobool] (internal/util/strtobool.go) *)

Definition StrToBool `{TextCases} (val : string) : result goerror bool :=
  let val := pyLower val in
  if str_in val ["y"; "yes"; "t"; "true"; "on"; "1"] then Ok true
  else if str_in val ["n"; "no"; "f"; "false"; "off"; "0"] then Ok false
  else Err (EPlain ("Invalid truth value `" +:+ val +:+ "`.")).

(** ** Versions (internal/util/version.go) *)

Fixpoint ParseVersion_parts (parts : list string) : result goerror (list Z) :=
  match parts with
  | [] => Ok []
  | part :: parts =>
      match PyInt part with
      | Err e => let failure := PyIntFailure e part in Err (WrapValue failure (Error failure))
      | Ok n => let* ns := ParseVersion_parts parts in Ok (n :: ns)
      end
  end.

Definition dot : ascii := az 46.
Definition slash : ascii := az 47.

Definition ParseVersion (version : string) : result goerror (list Z) :=
  ParseVersion_parts (split_byte dot version).

(** The tuple comparison of [LessThan]. *)
Fixpoint version_lt (ls rs : list Z) : bool :=
  match ls, rs with
  | l :: ls, r :: rs => if l =? r then version_lt ls rs else l <? r
  | ls, rs => Nat.ltb (length ls) (length rs)
  end.

Definition LessThan (version otherVersion : string) : result goerror bool :=
  let* ls := ParseVersion version in
  let* rs := ParseVersion otherVersion in
  Ok (version_lt ls rs).

Fixpoint ParseDockerEngineVersion_parts (parts : list string) : list string :=
  match parts with
  | [] => []
  | part :: parts =>
      let numericPart := string_of_runes (take_while PyIsDigit (runes part)) in
      if String.eqb numericPart "" then []
      else numericPart :: ParseDockerEngineVersion_parts parts
  end.

Definition ParseDockerEngineVersion (v : string) : string :=
  str_join "." (ParseDockerEngineVersion_parts (split_byte dot v)).

(** ** Argument checks (internal/util/check.go) *)

Record Param : Type := { ParamName : string; Present : bool }.

Definition paramNames (params : list Param) : list string := ParamName <$> params.
Definition countPresent (params : list Param) : Z :=
  Z.of_nat (length (List.filter Present params)).

Definition CheckSingleNotNoneVar (params : list Param) : option goerror :=
  if 1 <? countPresent params then Some (NewOnlyOneParameter (paramNames params)) else None.

Definition CheckRequiredSingleNotNoneVar (params : list Param) : option goerror :=
  let n := countPresent params in
  if n =? 0 then Some (NewOneParameter (paramNames params))
  else if 1 <? n then Some (NewOnlyOneParameter (paramNames params))
  else None.

Definition ParseCDMACAddress (value : string) : result goerror (string * string) :=
  if negb (contains_byte slash value) then Ok (value, "")
  else match List.filter (fun x => negb (String.eqb x "")) (split_byte slash value) with
       | [cd; mac] => Ok (cd, mac)
       | _ => Err (NewSyntaxInterfaceDefinition value)
       end.

(** ** Reserved names (internal/util/platform.go) *)

Definition reservedMachineNames : list string := ["shared"; "_test"].
Definition IsReservedMachineName (name : string) : bool := str_in name reservedMachineNames.

(** ** Lemmas *)

Lemma intSpace_pyIntSpace : pyIntSpace = intSpace.
Proof. done. Qed.

Lemma decimalValue_range r d : decimalValue r = Some d → 0 <= d <= 9.
Proof.
  unfold decimalValue. case_match; bool_prop; [intros [= <-]; lia|].
  case_match eqn:E; [|done]. intros [= <-]. apply List.find_some in E as [_ E]. bool_prop. lia.
Qed.

(** The runes of a decimal digit are neither spaces, signs nor underscores. *)
Lemma decimalValue_plain r d :
  decimalValue r = Some d → valid_rune r = true ∧ intSpace r = false ∧ r ≠ 43 ∧ r ≠ 45 ∧ r ≠ 95.
Proof.
  unfold decimalValue. case_match; bool_prop.
  - intros _. split; [apply valid_rune_spec; lia|]. split; [|lia].
    apply negb_true_iff, (ascii_check (fun r => negb (intSpace r)) 48 10); [by vm_compute|lia].
  - case_match eqn:E; [|done]. intros _. apply List.find_some in E as [Hin E]. bool_prop.
    apply list_elem_of_In in Hin.
    assert (Hz : ∀ z, z ∈ ndZeros → forallb (fun k => let r := z + Z.of_nat k in
      valid_rune r && negb (intSpace r) && negb (r =? 43) && negb (r =? 45) && negb (r =? 95))
      (seq 0 10) = true).
    { intros z' Hz'. apply list_elem_of_In in Hz'. revert z' Hz'. apply forallb_forall. by vm_compute. }
    specialize (Hz _ Hin). pose proof (ascii_check (fun r => valid_rune r && negb (intSpace r)
      && negb (r =? 43) && negb (r =? 45) && negb (r =? 95)) _ 10 Hz r) as Hr.
    rewrite !andb_true_iff, !negb_true_iff in Hr.
    destruct Hr as [[[[? ?] ?] ?] ?]; [lia|]. bool_prop. done.
Qed.

Lemma encode_rune_nonempty r : encode_rune r ≠ "".
Proof. unfold encode_rune. repeat case_match; done. Qed.

Lemma decode_encode_one r : valid_rune r = true → decode (encode_rune r) = [(r, encode_rune r)].
Proof. intros H. rewrite <- (string_app_nil_r (encode_rune r)) at 1. by rewrite decode_encode. Qed.

Lemma encode_rune_head r a s :
  valid_rune r = true → encode_rune r = String a s → zb a < 0x80 → r = zb a.
Proof.
  intros Hv E Ha. pose proof (decode_encode_one r Hv) as Hd. rewrite E in Hd.
  rewrite decode_ascii in Hd by done. by injection Hd as <- _ _.
Qed.

Lemma split_sign_plain r :
  valid_rune r = true → r ≠ 43 → r ≠ 45 → split_sign (encode_rune r) = (false, encode_rune r).
Proof.
  intros Hv H1 H2. unfold split_sign. destruct (encode_rune r) as [|a s] eqn:E; [done|].
  destruct (Z.eqb_spec (zb a) 43) as [Ha|]; [|destruct (Z.eqb_spec (zb a) 45) as [Ha|]; [|done]];
    apply encode_rune_head in E; done || lia.
Qed.

Lemma TrimFunc_encode p r :
  valid_rune r = true → p r = false → TrimFunc p (encode_rune r) = encode_rune r.
Proof.
  intros Hv Hp. apply TrimFunc_none. intros r' Hr'. unfold runes in Hr'.
  rewrite decode_encode_one in Hr' by done. apply list_elem_of_singleton in Hr' as ->. done.
Qed.

(** [model.pyDecimalValue], which goes through [util.PyInt], is
    [util.decimalValue] on every rune a decoded string can hold. *)
Lemma pyDecimalValue_spec r : valid_rune r = true → pyDecimalValue r = decimalValue r.
Proof.
  intros Hv. unfold pyDecimalValue. destruct ((48 <=? r) && (r <=? 57)) eqn:Hd.
  { unfold decimalValue. by rewrite Hd. }
  destruct (decimalValue r) as [d|] eqn:E.
  - pose proof (decimalValue_plain r d E) as (_ & Hs & H1 & H2 & H3).
    pose proof (decimalValue_range r d E). unfold PyInt.
    rewrite TrimFunc_encode, split_sign_plain by done.
    rewrite (proj2 (String.eqb_neq _ _)) by apply encode_rune_nonempty.
    unfold runes. rewrite decode_encode_one by done. simpl. rewrite E.
    destruct (Z.eqb_spec r 95); [done|].
    rewrite (proj2 (Z.ltb_ge _ _)) by (unfold MaxInt64; Z.to_euclidean_division_equations; lia).
    simpl. by zdec.
  - destruct (intSpace r) eqn:Hs.
    { unfold PyInt, TrimFunc. rewrite decode_encode_one by done. unfold trim. simpl. by rewrite Hs. }
    unfold PyInt. rewrite TrimFunc_encode by done.
    destruct (decide (r = 43)) as [->|]; [done|]. destruct (decide (r = 45)) as [->|]; [done|].
    rewrite split_sign_plain by done.
    rewrite (proj2 (String.eqb_neq _ _)) by apply encode_rune_nonempty.
    unfold runes. rewrite decode_encode_one by done. simpl. rewrite E.
    by destruct (r =? 95).
Qed.

(** One loop simulates the other: [PyInt_loop] either agrees with the unbounded
    loop, or stops early because the value no longer fits. *)
Definition loop_agree (small big : result goerror (Z * Z * bool)) : Prop :=
  match small with
  | Ok x => big = Ok x ∧ x.1.1 <= MaxInt64
  | Err e => e = ErrPyIntSyntax ∧ big = Err ErrPyIntSyntax
             ∨ e = ErrPyIntRange ∧ ∀ x, big = Ok x → MaxInt64 < x.1.1
  end.

Lemma pyBigInt_loop_mono rs : ∀ value digits prev x,
  0 <= value → pyBigInt_loop rs value digits prev = Ok x → value <= x.1.1.
Proof.
  induction rs as [|r rs IH]; intros value digits prev x Hv; simpl; [by intros [= <-]|].
  destruct (r =? 95).
  { destruct (_ || _); [done|]. by apply IH. }
  destruct (pyDecimalValue r) as [d|] eqn:E; [|done].
  assert (0 <= d).
  { unfold pyDecimalValue in E. repeat case_match; simplify_eq; bool_prop; lia. }
  intros H'. apply IH in H'; lia.
Qed.

Lemma PyInt_loop_agree rs : ∀ value digits prev,
  Forall (fun r => valid_rune r = true) rs → 0 <= value <= MaxInt64 →
  loop_agree (PyInt_loop rs value digits prev) (pyBigInt_loop rs value digits prev).
Proof.
  induction rs as [|r rs IH]; intros value digits prev Hrs Hv; simpl; [split; [done|simpl; lia]|].
  inversion Hrs as [|? ? Hr Hrs']; subst.
  destruct (r =? 95).
  { destruct (_ || _); [by left|]. by apply IH. }
  rewrite pyDecimalValue_spec by done. destruct (decimalValue r) as [d|] eqn:E; [|by left].
  apply decimalValue_range in E.
  destruct (Z.ltb_spec ((MaxInt64 - d) / 10) value) as [Hlt|Hle].
  - right. split; [done|]. intros x Hx. apply pyBigInt_loop_mono in Hx; [|lia].
    Z.to_euclidean_division_equations; lia.
  - apply IH; [done|]. Z.to_euclidean_division_equations; lia.
Qed.

Lemma split_sign_cases s :
  (∃ neg, split_sign s = (neg, string_drop 1 s)) ∨ split_sign s = (false, s).
Proof. unfold split_sign. destruct s; [by right|]. repeat case_match; eauto. Qed.

(** Digits of a formatted integer are read back. *)
Lemma decimalValue_digit d : 0 <= d <= 9 → decimalValue (48 + d) = Some d.
Proof. intros H. unfold decimalValue. zdec. simpl. f_equal. lia. Qed.

Lemma pyBigInt_loop_digits ds : ∀ value digits prev rs,
  Forall (fun d => 0 <= d <= 9) ds →
  pyBigInt_loop (((fun d => 48 + d) <$> ds) ++ rs) value digits prev =
  pyBigInt_loop rs (foldl (fun v d => v * 10 + d) value ds)
    (digits + Z.of_nat (length ds)) (match ds with [] => prev | _ => false end).
Proof.
  induction ds as [|d ds IH]; intros value digits prev rs H; cbn [fmap list_fmap app foldl length].
  { by rewrite Z.add_0_r. }
  inversion H; subst. cbn [pyBigInt_loop]. destruct (Z.eqb_spec (48 + d) 95); [lia|].
  unfold pyDecimalValue. zdec. cbn [andb]. rewrite IH by done.
  replace (48 + d - 48) with d by lia. f_equal; [lia|]. by destruct ds.
Qed.

(** *** The decimal rendering of an integer *)

Definition digit_string (ds : list Z) : string := bytes_string ((fun d => az (48 + d)) <$> ds).

Lemma pretty_N_char_digit d : (d < 10)%N → pretty_N_char d = az (48 + Z.of_N d).
Proof.
  intros H.
  pose proof (ascii_check (λ d, Ascii.eqb (pretty_N_char (Z.to_N d)) (az (48 + d))) 0 10
    ltac:(by vm_compute) (Z.of_N d) ltac:(lia)) as Hd.
  cbv beta in Hd. rewrite N2Z.id in Hd. by apply Ascii.eqb_eq.
Qed.

Lemma foldl_digits_acc ds v :
  foldl (fun v d => v * 10 + d) v ds = v * 10 ^ Z.of_nat (length ds) + foldl (fun v d => v * 10 + d) 0 ds.
Proof.
  revert v. induction ds as [|d ds IH]; intros v; [simpl; lia|].
  cbn [foldl length]. rewrite IH, (IH (0 * 10 + d)), Nat2Z.inj_succ, Z.pow_succ_r by lia. lia.
Qed.

Lemma pretty_N_go_digits x s :
  ∃ ds, pretty_N_go x s = digit_string ds +:+ s ∧ Forall (fun d => 0 <= d <= 9) ds ∧
        foldl (fun v d => v * 10 + d) 0 ds = Z.of_N x ∧ (x = 0%N ∨ ds ≠ []).
Proof.
  revert s. induction x as [x IH] using (well_founded_induction N.lt_wf_0); intros s.
  destruct (decide (x = 0%N)) as [->|Hx].
  { exists []. rewrite pretty_N_go_0. split_and!; [done|constructor|done|by left]. }
  rewrite pretty_N_go_step by lia.
  destruct (IH (x `div` 10)%N ltac:(apply N.div_lt; lia) (String (pretty_N_char (x `mod` 10)) s))
    as (ds & -> & Hds & Hv & _).
  pose proof (N.mod_lt x 10 ltac:(done)).
  exists (ds ++ [Z.of_N (x `mod` 10)]). split_and!.
  - unfold digit_string. rewrite fmap_app, pretty_N_char_digit by done. cbn [fmap list_fmap].
    clear. induction ds as [|d ds IHd]; simpl; [done|]. f_equal. done.
  - apply Forall_app. split; [done|]. constructor; [|constructor].
    generalize dependent (x `mod` 10)%N. intros; lia.
  - rewrite foldl_app. cbn [foldl]. rewrite Hv.
    pose proof (N.div_mod x 10 ltac:(done)). lia.
  - right. by destruct ds.
Qed.

Lemma digit_string_ascii ds : Forall (fun d => 0 <= d <= 9) ds → is_ascii (digit_string ds) = true.
Proof.
  unfold is_ascii, all_bytes, digit_string. rewrite string_bytes_string.
  induction 1 as [|d ds Hd _ IH]; [done|]. cbn [fmap list_fmap forallb].
  rewrite zb_az by lia. by zdec.
Qed.

Lemma runes_digit_string ds :
  Forall (fun d => 0 <= d <= 9) ds → runes (digit_string ds) = (fun d => 48 + d) <$> ds.
Proof.
  intros H. unfold runes. rewrite decode_is_ascii by by apply digit_string_ascii.
  unfold digit_string. rewrite string_bytes_string, <- !list_fmap_compose.
  induction H as [|d ds Hd _ IH]; [done|]. cbn [fmap list_fmap compose fst].
  rewrite zb_az by lia. by f_equal.
Qed.

(** [strconv.Itoa] is an optional minus followed by the digits. *)
Lemma Itoa_digits n :
  ∃ ds, Itoa n = (if n <? 0 then "-" else "") +:+ digit_string ds ∧ ds ≠ [] ∧
        Forall (fun d => 0 <= d <= 9) ds ∧ foldl (fun v d => v * 10 + d) 0 ds = Z.abs n.
Proof.
  assert (Hp : ∀ p, ∃ ds, pretty (N.pos p) = digit_string ds ∧ ds ≠ [] ∧
     Forall (fun d => 0 <= d <= 9) ds ∧ foldl (fun v d => v * 10 + d) 0 ds = Z.pos p).
  { intros p. unfold pretty, pretty_N. rewrite decide_False by done.
    destruct (pretty_N_go_digits (N.pos p) "") as (ds & -> & H1 & H2 & [?|H3]); [done|].
    exists ds. by rewrite string_app_nil_r. }
  destruct n as [|p|p]; unfold Itoa, pretty, pretty_Z.
  - exists [0]. split_and!; [done|done|constructor; [lia|constructor]|done].
  - destruct (Hp p) as (ds & E & ?). exists ds.
    change (pretty p) with (pretty (N.pos p)). by rewrite E.
  - destruct (Hp p) as (ds & E & ?). exists ds.
    change (pretty p) with (pretty (N.pos p)). by rewrite E.
Qed.

(** A decimal numeral holds no byte outside the digits and the minus sign. *)
Lemma Itoa_free c n : negb ((48 <=? zb c) && (zb c <=? 57) || (zb c =? 45)) = true →
  contains_byte c (Itoa n) = false.
Proof.
  intros Hc. apply not_true_is_false. rewrite contains_byte_elem. intros Hin.
  destruct (Itoa_digits n) as (ds & E & _ & Hds & _). rewrite E, string_bytes_app in Hin.
  apply elem_of_app in Hin as [Hin|Hin].
  - destruct (n <? 0); simpl in Hin; [|by apply elem_of_nil in Hin].
    apply list_elem_of_singleton in Hin as ->. done.
  - unfold digit_string in Hin. rewrite string_bytes_string in Hin.
    apply list_elem_of_fmap in Hin as (d & -> & Hd). rewrite Forall_forall in Hds.
    specialize (Hds d Hd). rewrite zb_az in Hc by lia. revert Hc.
    rewrite (proj2 (Z.leb_le _ _)), (proj2 (Z.leb_le (48 + d) _)) by lia. done.
Qed.

Lemma pyBigInt_Itoa n : pyBigInt (Itoa n) = Ok n.
Proof.
  destruct (Itoa_digits n) as (ds & E & Hne & Hds & Hv). unfold pyBigInt.
  rewrite TrimFunc_none.
  2: { intros r Hr. rewrite E in Hr.
       enough (45 <= r < 58) by (apply negb_true_iff,
         (ascii_check (fun r => negb (pyIntSpace r)) 45 13); [by vm_compute|lia]).
       assert (Hd : ∀ r, r ∈ runes (digit_string ds) → 48 <= r <= 57).
       { rewrite runes_digit_string by done. intros r' Hr'.
         apply list_elem_of_fmap in Hr' as (d & -> & Hd). rewrite Forall_forall in Hds.
         specialize (Hds d Hd). lia. }
       destruct (n <? 0); [|simpl in Hr; specialize (Hd r Hr); lia].
       change ("-" +:+ digit_string ds) with (String "-" (digit_string ds)) in Hr.
       unfold runes in Hr. rewrite decode_ascii in Hr by done. cbn [fmap list_fmap fst] in Hr.
       apply elem_of_cons in Hr as [->|Hr]; [by cbv|]. specialize (Hd r Hr). lia. }
  assert (Hs : split_sign (Itoa n) = (n <? 0, digit_string ds)).
  { rewrite E. destruct (n <? 0); [done|]. destruct ds as [|d ds]; [done|].
    inversion Hds; subst. unfold digit_string. cbn [fmap list_fmap bytes_string split_sign].
    cbn [String.append]. unfold split_sign. rewrite zb_az by lia. by zdec. }
  rewrite Hs. rewrite (proj2 (String.eqb_neq _ _)) by by destruct ds.
  rewrite runes_digit_string, <- (app_nil_r (_ <$> ds)), pyBigInt_loop_digits by done.
  cbn [pyBigInt_loop rbind]. rewrite Hv.
  assert (0 < length ds)%nat by (destruct ds; simpl; [done|lia]). zdec.
  destruct ds; [done|]. cbn [orb]. f_equal. destruct (Z.ltb_spec n 0); lia.
Qed.

(** ** Properties *)

(** The two integer parsers agree: the bounded one returns the value the
    unbounded one returns, within the range of an [int]; its syntax error is a syntax error
    of both, and its range error means that no value the literal denotes fits. *)
Theorem PyInt_pyBigInt s :
  match PyInt s with
  | Ok v => pyBigInt s = Ok v ∧ - MaxInt64 <= v <= MaxInt64
  | Err e => (e = ErrPyIntSyntax ∧ pyBigInt s = Err ErrPyIntSyntax) ∨
             (e = ErrPyIntRange ∧ ∀ v, pyBigInt s = Ok v → MaxInt64 < Z.abs v)
  end.
Proof.
  unfold PyInt, pyBigInt. rewrite intSpace_pyIntSpace.
  destruct (split_sign _) as [neg rest]. destruct (String.eqb rest ""); [by left|].
  pose proof (PyInt_loop_agree (runes rest) 0 0 false (runes_valid rest) ltac:(done)) as Ha.
  assert (Hm := pyBigInt_loop_mono (runes rest) 0 0 false).
  destruct (PyInt_loop _ _ _ _) as [[[v d] p]|e]; simpl in Ha |- *.
  - destruct Ha as [Hb Hv]. rewrite Hb. simpl. specialize (Hm _ ltac:(done) Hb). simpl in Hm.
    destruct (_ || _); [by left|]. split; [done|]. destruct neg; lia.
  - destruct Ha as [[-> ->]|[-> Hb]]; [by left|]. right. split; [done|]. intros v.
    destruct (pyBigInt_loop _ _ _ _) as [[[w d] p]|e']; simpl; [|done].
    specialize (Hb _ eq_refl). destruct (_ || _); [done|]. intros [= <-]. simpl in Hb. destruct neg; lia.
Qed.
