(* ===== verification/OrderedMap.v ===== *)
(** * Insertion-ordered maps (model/ordered.go)

    A Python dict: a slice of keys in insertion order beside a Go map.  The
    model keeps both halves, so that the invariant tying them together is a
    theorem and not a choice of representation. *)

From S2P Require Export Prelude.
From Stdlib Require Import Sorting.Sorted.
Local Open Scope list_scope.
Local Open Scope Z_scope.

(** ** Stable sorting

    [slices.SortStableFunc] as a stable insertion sort: the element that came
    first stays first among those neither smaller nor greater. *)
Section stable_sort.
Context {A : Type} (cmp : A → A → Z).

Fixpoint stable_insert (x : A) (l : list A) : list A :=
  match l with
  | [] => [x]
  | y :: l' => if cmp y x <? 0 then y :: stable_insert x l' else x :: l
  end.

Definition SortStable (l : list A) : list A := foldr stable_insert [] l.

Lemma stable_insert_perm x l : stable_insert x l ≡ₚ x :: l.
Proof.
  induction l as [|y l IH]; simpl; [done|]. destruct (_ <? 0); [|done].
  rewrite IH. apply Permutation_swap.
Qed.

Lemma SortStable_perm l : SortStable l ≡ₚ l.
Proof. induction l as [|x l IH]; simpl; [done|]. by rewrite stable_insert_perm, IH. Qed.
End stable_sort.

(** The comparator of a numeric rank. *)
Section rank_sort.
Context {A : Type} (rank : A → Z).
Let cmp (a b : A) : Z := rank a - rank b.
Let le (a b : A) : Prop := rank a <= rank b.

Lemma stable_insert_sorted x l :
  StronglySorted le l → StronglySorted le (stable_insert cmp x l).
Proof.
  induction 1 as [|y l Hs IH Hall]; simpl; [by repeat constructor|].
  unfold cmp at 1. destruct (Z.ltb_spec (rank y - rank x) 0).
  - constructor; [done|]. rewrite stable_insert_perm. constructor; [unfold le; lia|done].
  - constructor; [by constructor|]. constructor; [unfold le; lia|].
    eapply List.Forall_impl; [|done]. unfold le. intros z ?. lia.
Qed.

Lemma SortStable_sorted l : StronglySorted le (SortStable cmp l).
Proof. induction l; simpl; [constructor|]. by apply stable_insert_sorted. Qed.

Lemma stable_insert_filter r x l :
  List.filter (fun a => rank a =? r) (stable_insert cmp x l) =
  List.filter (fun a => rank a =? r) (x :: l).
Proof.
  induction l as [|y l IH]; [done|]. cbn [stable_insert].
  unfold cmp at 1. destruct (Z.ltb_spec (rank y - rank x) 0); [|done].
  cbn [List.filter] in *. rewrite IH.
  destruct (Z.eqb_spec (rank y) r), (Z.eqb_spec (rank x) r); try done. lia.
Qed.

(** Elements of one rank keep their relative order. *)
Lemma SortStable_stable r l :
  List.filter (fun a => rank a =? r) (SortStable cmp l) = List.filter (fun a => rank a =? r) l.
Proof.
  induction l as [|x l IH]; [done|]. cbn [SortStable foldr].
  fold (SortStable cmp l). rewrite stable_insert_filter. cbn [List.filter]. by rewrite IH.
Qed.
End rank_sort.

(** ** The map *)

Record OrderedMap (K V : Type) `{Countable K} : Type := mkOrderedMap {
  okeys : list K;
  ovalues : gmap K V;
}.
Global Arguments mkOrderedMap {K V _ _} _ _.
Global Arguments okeys {K V _ _} _.
Global Arguments ovalues {K V _ _} _.

Section ordered_map.
Context {K V : Type} `{Countable K}.
Implicit Types (o : OrderedMap K V) (k : K) (v : V).

Definition NewOrderedMap : OrderedMap K V := mkOrderedMap [] ∅.

Definition Len o : Z := Z.of_nat (length (okeys o)).

(** The comma-ok lookup. *)
Definition Get o k : option V := ovalues o !! k.
Definition Has o k : bool := match Get o k with Some _ => true | None => false end.

(** [Set] returns the previous value and whether there was one. *)
Definition SetKey o k v : OrderedMap K V * option V :=
  match ovalues o !! k with
  | Some prev => (mkOrderedMap (okeys o) (<[k:=v]> (ovalues o)), Some prev)
  | None => (mkOrderedMap (okeys o ++ [k]) (<[k:=v]> (ovalues o)), None)
  end.

Definition DeleteKey o k : OrderedMap K V * bool :=
  match ovalues o !! k with
  | None => (o, false)
  | Some _ => (mkOrderedMap (List.filter (fun k' => negb (bool_decide (k' = k))) (okeys o))
                            (delete k (ovalues o)), true)
  end.

Definition Keys o : list K := okeys o.
(** Every key has a value (see [wf_map]), so no zero value is ever produced. *)
Definition Entries o : list (K * V) :=
  omap (fun k => v ← ovalues o !! k; Some (k, v)) (okeys o).
Definition Values o : list V := (Entries o).*2.

Definition SortStableFunc (cmp : K * V → K * V → Z) o : OrderedMap K V :=
  mkOrderedMap (SortStable cmp (Entries o)).*1 (ovalues o).

(** ** The invariant: the keys are exactly the domain of the map, once each. *)
Definition wf_map o : Prop :=
  NoDup (okeys o) ∧ ∀ k, k ∈ okeys o ↔ is_Some (ovalues o !! k).

Lemma wf_new : wf_map NewOrderedMap.
Proof.
  split; [constructor|]. intros k. simpl. rewrite lookup_empty, elem_of_nil.
  split; [done|by intros []].
Qed.

Lemma wf_set o k v : wf_map o → wf_map (SetKey o k v).1.
Proof.
  intros [Hnd Hdom]. unfold SetKey. destruct (ovalues o !! k) as [prev|] eqn:E; split; simpl.
  - done.
  - intros k'. rewrite Hdom. destruct (decide (k = k')) as [->|].
    + rewrite lookup_insert_eq, E. by split; eauto.
    + by rewrite lookup_insert_ne.
  - apply NoDup_app. split_and!; [done| |apply NoDup_singleton].
    intros k' Hk' ->%list_elem_of_singleton. apply Hdom in Hk' as [? ?]. congruence.
  - intros k'. rewrite elem_of_app, list_elem_of_singleton, Hdom.
    destruct (decide (k = k')) as [->|].
    + rewrite lookup_insert_eq. split; [eauto|by right].
    + rewrite lookup_insert_ne by done. naive_solver.
Qed.

Lemma elem_of_lfilter {A} (p : A → bool) l x : x ∈ List.filter p l ↔ x ∈ l ∧ p x = true.
Proof. by rewrite !list_elem_of_In, filter_In. Qed.

Lemma NoDup_lfilter {A} (p : A → bool) l : NoDup l → NoDup (List.filter p l).
Proof.
  induction 1 as [|x l Hx _ IH]; simpl; [constructor|]. destruct (p x); [|done].
  constructor; [|done]. rewrite elem_of_lfilter. tauto.
Qed.

Lemma wf_delete o k : wf_map o → wf_map (DeleteKey o k).1.
Proof.
  intros [Hnd Hdom]. unfold DeleteKey. destruct (ovalues o !! k) eqn:E; [|done]. split; simpl.
  - by apply NoDup_lfilter.
  - intros k'. rewrite elem_of_lfilter, negb_true_iff, bool_decide_eq_false, Hdom.
    destruct (decide (k' = k)) as [->|].
    + rewrite lookup_delete_eq. split; [tauto|by intros []].
    + rewrite lookup_delete_ne by done. tauto.
Qed.

Lemma entries_keys o : wf_map o → (Entries o).*1 = okeys o.
Proof.
  intros [_ Hdom]. unfold Entries.
  assert (Hall : ∀ k, k ∈ okeys o → is_Some (ovalues o !! k)) by (intros; by apply Hdom).
  clear Hdom. induction (okeys o) as [|k ks IH]; [done|]. cbn [omap list_omap].
  destruct (Hall k) as [v Hv]; [by left|]. rewrite Hv. cbn. f_equal. apply IH.
  intros k' Hk'. apply Hall. by right.
Qed.

Lemma elem_of_entries o k v : wf_map o → (k, v) ∈ Entries o ↔ Get o k = Some v.
Proof.
  intros [_ Hdom]. unfold Entries, Get. rewrite list_elem_of_omap. split.
  - intros (k' & _ & Hk'). destruct (ovalues o !! k') eqn:E; simplify_eq/=. done.
  - intros Hv. exists k. rewrite Hdom, Hv. eauto.
Qed.

Lemma elem_of_keys o k : wf_map o → k ∈ Keys o ↔ Has o k = true.
Proof.
  intros [_ Hdom]. unfold Keys, Has, Get. rewrite Hdom.
  destruct (ovalues o !! k); split; try done; try (by intros []); by eauto.
Qed.

Lemma wf_sort cmp o : wf_map o → wf_map (SortStableFunc cmp o).
Proof.
  intros Hwf. destruct (Hwf) as [Hnd Hdom]. unfold SortStableFunc. split; simpl.
  - rewrite SortStable_perm, entries_keys; done.
  - intros k. rewrite SortStable_perm, entries_keys by done. apply Hdom.
Qed.

Lemma get_new k : Get NewOrderedMap k = None.
Proof. apply lookup_empty. Qed.

Lemma get_set_eq o k v : Get (SetKey o k v).1 k = Some v.
Proof. unfold Get, SetKey. destruct (ovalues o !! k); apply lookup_insert_eq. Qed.

Lemma get_set_ne o k k' v : k ≠ k' → Get (SetKey o k v).1 k' = Get o k'.
Proof. intros. unfold Get, SetKey. destruct (ovalues o !! k); by apply lookup_insert_ne. Qed.

Lemma set_prev o k v : (SetKey o k v).2 = Get o k.
Proof. unfold Get, SetKey. by destruct (ovalues o !! k). Qed.

Lemma get_delete_eq o k : Get (DeleteKey o k).1 k = None.
Proof. unfold Get, DeleteKey. destruct (ovalues o !! k) eqn:E; [apply lookup_delete_eq|done]. Qed.

Lemma get_delete_ne o k k' : k ≠ k' → Get (DeleteKey o k).1 k' = Get o k'.
Proof. intros. unfold Get, DeleteKey. destruct (ovalues o !! k); [by apply lookup_delete_ne|done]. Qed.

Lemma has_get o k : Has o k = true ↔ is_Some (Get o k).
Proof. unfold Has. destruct (Get o k); split; eauto; try done; by intros []. Qed.

Lemma has_get_false o k : Has o k = false ↔ Get o k = None.
Proof. unfold Has. by destruct (Get o k). Qed.

Lemma get_sort cmp o k : Get (SortStableFunc cmp o) k = Get o k.
Proof. done. Qed.

Lemma keys_set o k v :
  Keys (SetKey o k v).1 = if Has o k then Keys o else Keys o ++ [k].
Proof. unfold Keys, SetKey, Has, Get. by destruct (ovalues o !! k). Qed.

Lemma keys_sort_perm cmp o : wf_map o → Keys (SortStableFunc cmp o) ≡ₚ Keys o.
Proof. intros. unfold Keys, SortStableFunc. simpl. by rewrite SortStable_perm, entries_keys. Qed.

(** ** Reference semantics

    A well-formed ordered map is determined by its list of pairs, and the
    operations act on it the way a Python dict's do. *)
Lemma entries_set_new o k v :
  wf_map o → Has o k = false → Entries (SetKey o k v).1 = Entries o ++ [(k, v)].
Proof.
  intros [_ Hdom] Hk. apply has_get_false in Hk. unfold Get in Hk.
  unfold Entries, SetKey. rewrite Hk. cbn [okeys ovalues fst].
  rewrite omap_app. cbn [omap list_omap]. rewrite lookup_insert_eq. cbn. f_equal.
  apply list_omap_ext. apply Forall2_same_length_lookup. split; [done|].
  intros i k1 k2 H1 H2. rewrite H1 in H2. injection H2 as <-.
  destruct (decide (k = k1)) as [->|].
  - apply list_elem_of_lookup_2, Hdom in H1 as [? ?]. congruence.
  - by rewrite lookup_insert_ne.
Qed.

Lemma entries_set_old o k v :
  wf_map o → Has o k = true →
  Entries (SetKey o k v).1 = (fun e => if bool_decide (e.1 = k) then (k, v) else e) <$> Entries o.
Proof.
  intros [_ Hdom] Hk. apply has_get in Hk as [prev Hk]. unfold Get in Hk.
  unfold Entries, SetKey. rewrite Hk. cbn [okeys ovalues fst].
  assert (Hall : ∀ k, k ∈ okeys o → is_Some (ovalues o !! k)) by (intros; by apply Hdom).
  clear Hdom. induction (okeys o) as [|k' ks IH]; [done|]. cbn [omap list_omap].
  destruct (decide (k = k')) as [->|].
  - rewrite lookup_insert_eq, Hk. cbn. rewrite bool_decide_eq_true_2 by done. f_equal.
    apply IH. intros; apply Hall; by right.
  - rewrite lookup_insert_ne by done. destruct (Hall k') as [v' Hv']; [by left|]. rewrite Hv'. cbn.
    rewrite bool_decide_eq_false_2 by done. f_equal. apply IH. intros; apply Hall; by right.
Qed.

Lemma entries_delete o k :
  wf_map o → Entries (DeleteKey o k).1 = List.filter (fun e => negb (bool_decide (e.1 = k))) (Entries o).
Proof.
  intros [_ Hdom]. unfold DeleteKey.
  assert (Hall : ∀ k, k ∈ okeys o → is_Some (ovalues o !! k)) by (intros; by apply Hdom).
  destruct (ovalues o !! k) eqn:E; unfold Entries; cbn [okeys ovalues fst].
  - clear Hdom. induction (okeys o) as [|k' ks IH]; [done|]. cbn [omap list_omap List.filter].
    destruct (Hall k') as [v' Hv']; [by left|]. rewrite Hv'. cbn.
    destruct (decide (k' = k)) as [->|].
    + rewrite bool_decide_eq_true_2 by done. cbn. apply IH. intros; apply Hall; by right.
    + rewrite bool_decide_eq_false_2 by done. cbn.
      rewrite lookup_delete_ne, Hv' by done. cbn. f_equal. apply IH. intros; apply Hall; by right.
  - assert (Hk : k ∉ okeys o) by (rewrite Hdom, E; by intros []). clear Hdom.
    induction (okeys o) as [|k' ks IH]; [done|]. cbn [omap list_omap].
    rewrite not_elem_of_cons in Hk. destruct Hk as [Hne Hk].
    destruct (Hall k') as [v' Hv']; [by left|]. rewrite Hv'. cbn.
    rewrite bool_decide_eq_false_2 by done. cbn. f_equal. apply IH; [|done].
    intros; apply Hall; by right.
Qed.
End ordered_map.

#[export] Hint Resolve wf_new wf_set wf_delete wf_sort : kat.
