(* ===== verification/Scalar.v ===== *)
(** * Python scalars (model/scalar.go, model/python.go, model/errors.go)

    [Scalar] is the closed set of Python values a meta, a general option or a
    global machine metadata entry can hold, with [str()], truth, [int()] and
    [float()] over it.  A [float64] is a [spec_float] of the Standard Library:
    the IEEE 754 binary64 format computed on integers, with 53 bits of
    precision and a maximal exponent of 1024. *)

From S2P Require Export PyPrim.
From Stdlib Require Import SpecFloat.
Local Open Scope string_scope.
Local Open Scope list_scope.
Local Open Scope Z_scope.
Local Open Scope kat_scope.

(** ** binary64 *)

Definition f64 : Type := spec_float.
Definition f64_of_Z (z : Z) : f64 := binary_normalize 53 1024 z 0 false.
Definition f64_mul (x y : f64) : f64 := SFmul 53 1024 x y.
Definition f64_div (x y : f64) : f64 := SFdiv 53 1024 x y.

(** The double nearest to [± d * 10 ^ e10], ties to even, overflowing to an
    infinity: the value [strconv.ParseFloat] returns. *)
Definition f64_of_decimal (neg : bool) (d e10 : Z) : f64 :=
  match d with
  | Zpos m =>
      if 0 <=? e10 then
        let v := Zpos m * 10 ^ e10 in
        binary_normalize 53 1024 (if neg then - v else v) 0 neg
      else
        let '(q, e', l) := SFdiv_core_binary 53 1024 (Zpos m) 0 (10 ^ (- e10)) 0 in
        binary_round_aux 53 1024 neg q e' l
  | _ => S754_zero neg
  end.

(** *** [strconv.ParseFloat] on the alphabet [pyFloat] hands it

    Digits, one decimal point and a signed exponent; the other spellings of
    ParseFloat cannot be written with these characters. *)

Definition is_digit (r : Z) : bool := (48 <=? r) && (r <=? 57).

Fixpoint digits_value (acc : Z) (ds : list Z) : Z :=
  match ds with [] => acc | d :: ds => digits_value (acc * 10 + (d - 48)) ds end.

(** The exponent stops growing past 10000, as in [readFloat]. *)
Fixpoint exponent_value (acc : Z) (ds : list Z) : Z :=
  match ds with
  | [] => acc
  | d :: ds => exponent_value (if acc <? 10000 then acc * 10 + (d - 48) else acc) ds
  end.

Definition read_exponent (rs : list Z) : option Z :=
  match rs with
  | [] => Some 0
  | r :: rs =>
      if (r =? 101) || (r =? 69) then
        let '(esign, ds) := match rs with
                            | 43 :: ds => (1, ds)
                            | 45 :: ds => (-1, ds)
                            | ds => (1, ds)
                            end in
        if negb (Nat.eqb (length ds) 0) && forallb is_digit ds
        then Some (esign * exponent_value 0 ds) else None
      else None
  end.

Definition ParseFloat (s : list Z) : option f64 :=
  let '(neg, rest) := match s with
                      | 43 :: rest => (false, rest)
                      | 45 :: rest => (true, rest)
                      | rest => (false, rest)
                      end in
  let int_part := take_while is_digit rest in
  let after := drop_while is_digit rest in
  let '(frac, tail) := match after with
                       | 46 :: f => (take_while is_digit f, drop_while is_digit f)
                       | a => ([], a)
                       end in
  if Nat.eqb (length int_part + length frac) 0 then None
  else match read_exponent tail with
       | None => None
       | Some e => Some (f64_of_decimal neg (digits_value 0 (int_part ++ frac))
                                        (e - Z.of_nat (length frac)))
       end.

(** ** Errors (model/errors.go) *)

Definition newTypeError (msg : string) : goerror := EPyRuntime "TypeError" msg.
Definition newNoneAttributeError (attr : string) : goerror :=
  EPyRuntime "AttributeError" ("'NoneType' object has no attribute '" +:+ attr +:+ "'").
Definition newLowerAttributeError (typeName : string) : goerror :=
  EPyRuntime "AttributeError" ("'" +:+ typeName +:+ "' object has no attribute 'lower'").
Definition newKeyError (key : string) : goerror := EPyRuntime "KeyError" (PythonRepr key).
Definition newBridgedIfaceTypeError (typeName : string) : goerror :=
  EPyRuntime "TypeError"
    ("'<' not supported between instances of '" +:+ typeName +:+ "' and 'int'").
Definition errPyIntNaN : goerror := EPlain "model: cannot convert float NaN to integer".
Definition errPyIntInf : goerror :=
  EPyRuntime "OverflowError" "cannot convert float infinity to integer".
Definition errPyFloatSyntax : goerror := EPlain "model: could not convert string to float".

(** [errors.Is(err, ErrPyTypeError)], through [PyRuntimeError.Is], on the
    unwrapped errors the scalar conversions return. *)
Definition is_type_error (e : goerror) : bool :=
  match e with EPyRuntime class _ => String.eqb class "TypeError" | _ => false end.

(** ** [float()] *)

(** The rewriting loop: the ASCII literal, or a syntax error. *)
Fixpoint pyFloat_loop (rs : list Z) (prevDigit prevUnderscore : bool)
    : result goerror (list Z * bool) :=
  match rs with
  | [] => Ok ([], prevUnderscore)
  | r :: rs =>
      if r =? 95 then
        if negb prevDigit || prevUnderscore then Err errPyFloatSyntax
        else pyFloat_loop rs prevDigit true
      else if (r =? 46) || (r =? 101) || (r =? 69) || (r =? 43) || (r =? 45) then
        if prevUnderscore then Err errPyFloatSyntax
        else let* (out, u) := pyFloat_loop rs false prevUnderscore in Ok (r :: out, u)
      else match pyDecimalValue r with
           | None => Err errPyFloatSyntax
           | Some d => let* (out, u) := pyFloat_loop rs true false in Ok (48 + d :: out, u)
           end
  end.

Definition pyFloat (s : string) : result goerror f64 :=
  let trimmed := TrimFunc pyIntSpace s in
  let '(negative, rest) := split_sign trimmed in
  if String.eqb rest "" then Err errPyFloatSyntax
  else
    let lower := ToLower rest in
    if str_in lower ["inf"; "infinity"] then Ok (S754_infinity negative)
    else if String.eqb lower "nan" then Ok S754_nan
    else
      let* (literal, prevUnderscore) := pyFloat_loop (runes rest) false false in
      if prevUnderscore then Err errPyFloatSyntax
      else match ParseFloat ((if negative then [45] else []) ++ literal) with
           | Some f => Ok f
           | None => Err errPyFloatSyntax
           end.

(** ** [int()] and [str()] of a float *)

Definition floatToBigInt (f : f64) : result goerror Z :=
  match f with
  | S754_nan => Err errPyIntNaN
  | S754_infinity _ => Err errPyIntInf
  | S754_zero _ => Ok 0
  | S754_finite s m e =>
      let v := if 0 <=? e then Zpos m * 2 ^ e else Zpos m / 2 ^ (- e) in
      Ok (if s then - v else v)
  end.

(** Decimal digits needed before the point: [10^(k-1) <= num/den < 10^k]. *)
Fixpoint decimal_point (fuel : nat) (num den k : Z) : Z :=
  match fuel with
  | O => k
  | S fuel =>
      if num <? den then
        if num * 10 <? den then decimal_point fuel (num * 10) den (k - 1) else k
      else decimal_point fuel num (den * 10) (k + 1)
  end.

(** The shortest decimal [d * 10^x] that reads back as [m * 2^e], nearest to it
    among the shortest: candidates are the neighbours with [n] digits. *)
Definition candidate (m : positive) (e : Z) (k n : Z) : option Z :=
  let num := if 0 <=? e then Zpos m * 2 ^ e else Zpos m in
  let den := if 0 <=? e then 1 else 2 ^ (- e) in
  let x := k - n in
  let num' := if 0 <=? x then num else num * 10 ^ (- x) in
  let den' := if 0 <=? x then den * 10 ^ x else den in
  let q := num' / den' in
  let r := num' mod den' in
  let reads v := match f64_of_decimal false v x with
                 | S754_finite false m' e' => Pos.eqb m m' && (e =? e')
                 | _ => false
                 end in
  let up := match 2 * r ?= den' with
            | Gt => true | Lt => false | Eq => Z.odd q
            end in
  match reads q, reads (q + 1) with
  | true, true => Some (if up then q + 1 else q)
  | true, false => Some q
  | false, true => Some (q + 1)
  | false, false => None
  end.

Fixpoint shortest (fuel : nat) (m : positive) (e k n : Z) : Z * Z :=
  match fuel with
  | O => (0, 0)
  | S fuel => match candidate m e k n with
              | Some q => (q, k - n)
              | None => shortest fuel m e k (n + 1)
              end
  end.

(** Drops the trailing zeros of [d * 10^x]. *)
Fixpoint strip_zeros (fuel : nat) (d x : Z) : Z * Z :=
  match fuel with
  | O => (d, x)
  | S fuel => if (d mod 10 =? 0) && negb (d =? 0) then strip_zeros fuel (d / 10) (x + 1) else (d, x)
  end.

Fixpoint zeros (n : nat) : string := match n with O => "" | S n => String "0" (zeros n) end.

(** The digits and the position of the decimal point of [m * 2^e]. *)
Definition shortest_decimal (m : positive) (e : Z) : string * Z :=
  let num := if 0 <=? e then Zpos m * 2 ^ e else Zpos m in
  let den := if 0 <=? e then 1 else 2 ^ (- e) in
  let k := decimal_point 400 num den 0 in
  let '(d, x) := shortest 17 m e k 1 in
  let '(d, x) := strip_zeros 20 d x in
  let ds := Itoa d in
  (ds, x + Z.of_nat (String.length ds)).

(** [strconv.FormatFloat(f, 'e', -1, 64)] and ['f'] from the digits. *)
Definition format_e (ds : string) (decpt : Z) : string :=
  let x := decpt - 1 in
  let ax := Itoa (Z.abs x) in
  string_take 1 ds +:+ (if (1 <? Z.of_nat (String.length ds)) then "." +:+ string_drop 1 ds else "")
    +:+ "e" +:+ (if x <? 0 then "-" else "+")
    +:+ (if Z.abs x <? 10 then "0" +:+ ax else ax).

Definition format_f (ds : string) (decpt : Z) : string :=
  let n := Z.of_nat (String.length ds) in
  if decpt <=? 0 then "0." +:+ zeros (Z.to_nat (- decpt)) +:+ ds
  else if n <=? decpt then ds +:+ zeros (Z.to_nat (decpt - n))
  else string_take (Z.to_nat decpt) ds +:+ "." +:+ string_drop (Z.to_nat decpt) ds.

Definition pyFloatRepr (f : f64) : string :=
  match f with
  | S754_infinity false => "inf"
  | S754_infinity true => "-inf"
  | S754_nan => "nan"
  | S754_zero s => if s then "-0.0" else "0.0"
  | S754_finite s m e =>
      let '(ds, decpt) := shortest_decimal m e in
      let sign := if s then "-" else "" in
      if (decpt <=? -4) || (16 <? decpt) then sign +:+ format_e ds decpt
      else let t := sign +:+ format_f ds decpt in
           if contains_byte dot t then t else t +:+ ".0"
  end.

(** ** Scalars *)

Inductive Scalar : Type :=
| SAbsent
| Str (v : string)
| Bool (v : bool)
| Int (v : Z)
| Float (v : f64)
| Strings (v : list string).

Definition IsSet (s : Scalar) : bool := match s with SAbsent => false | _ => true end.

Definition AsString (s : Scalar) : option string := match s with Str v => Some v | _ => None end.
Definition AsBool (s : Scalar) : option bool := match s with Bool v => Some v | _ => None end.
Definition AsStrings (s : Scalar) : option (list string) :=
  match s with Strings v => Some v | _ => None end.

(** [Scalar.String]: Python's [str(x)]. *)
Definition scalar_string (s : Scalar) : string :=
  match s with
  | SAbsent => ""
  | Str v => v
  | Bool v => if v then "True" else "False"
  | Int v => Itoa v
  | Float v => pyFloatRepr v
  | Strings v => "[" +:+ str_join ", " (PythonRepr <$> v) +:+ "]"
  end.

Definition Truthy (s : Scalar) : bool :=
  match s with
  | SAbsent => false
  | Str v => negb (String.eqb v "")
  | Bool v => v
  | Int v => negb (v =? 0)
  | Float v => match v with S754_zero _ => false | _ => true end
  | Strings v => match v with [] => false | _ => true end
  end.

Definition pyTypeName (s : Scalar) : string :=
  match s with
  | SAbsent => "NoneType"
  | Str _ => "str"
  | Bool _ => "bool"
  | Int _ => "int"
  | Float _ => "float"
  | Strings _ => "list"
  end.

Definition pyInt (s : Scalar) : result goerror Z :=
  match s with
  | Str v => pyBigInt v
  | Bool v => Ok (if v then 1 else 0)
  | Int v => Ok v
  | Float v => floatToBigInt v
  | Strings _ => Err (newTypeError
      "int() argument must be a string, a bytes-like object or a real number, not 'list'")
  | SAbsent => Err (newTypeError
      "int() argument must be a string, a bytes-like object or a real number, not 'NoneType'")
  end.

Definition scalar_pyFloat (s : Scalar) : result goerror f64 :=
  match s with
  | Str v => pyFloat v
  | Bool v => Ok (f64_of_Z (if v then 1 else 0))
  | Int v => Ok (f64_of_Z v)
  | Float v => Ok v
  | Strings _ => Err (newTypeError "float() argument must be a string or a real number, not 'list'")
  | SAbsent => Err (newTypeError
      "float() argument must be a string or a real number, not 'NoneType'")
  end.

(** ** Checks of the float layer against known values *)

Example parse_tenth : ParseFloat (runes "0.1") = Some (S754_finite false 7205759403792794 (-56)).
Proof. vm_compute. reflexivity. Qed.
Example repr_tenth : pyFloatRepr (S754_finite false 7205759403792794 (-56)) = "0.1".
Proof. vm_compute. reflexivity. Qed.
Example repr_large : rmap pyFloatRepr (pyFloat "1e22") = Ok "1e+22".
Proof. vm_compute. reflexivity. Qed.
Example repr_third : rmap pyFloatRepr (pyFloat "0.30000000000000004") = Ok "0.30000000000000004".
Proof. vm_compute. reflexivity. Qed.
Example repr_int : rmap pyFloatRepr (pyFloat " 1_000 ") = Ok "1000.0".
Proof. vm_compute. reflexivity. Qed.
Example repr_small : rmap pyFloatRepr (pyFloat "-0.00001") = Ok "-1e-05".
Proof. vm_compute. reflexivity. Qed.
