(* ===== verification/Strconv.v ===== *)
(** * Package [strconv] and machine integers

    [Atoi] with its errors, [ParseFloat], and the arithmetic of a Go [int] on the 64-bit
    targets of the program, which wraps around. *)

From S2P Require Export Scalar.
From S2P Require Export PyPrim Scalar.
From Stdlib Require Import SpecFloat.
Local Open Scope string_scope.
Local Open Scope list_scope.
Local Open Scope Z_scope.
Local Open Scope kat_scope.

(** ** Wrapping arithmetic *)

Definition wrap64 (z : Z) : Z := (z + 2 ^ 63) mod 2 ^ 64 - 2 ^ 63.

Definition iadd (a b : Z) : Z := wrap64 (a + b).
Definition isub (a b : Z) : Z := wrap64 (a - b).
Definition imul (a b : Z) : Z := wrap64 (a * b).

Lemma wrap64_small z : MinInt64 <= z <= MaxInt64 → wrap64 z = z.
Proof. unfold wrap64, MinInt64, MaxInt64. intros. rewrite Z.mod_small; lia. Qed.

Lemma wrap64_range z : MinInt64 <= wrap64 z <= MaxInt64.
Proof.
  unfold wrap64, MinInt64, MaxInt64. pose proof (Z.mod_pos_bound (z + 2 ^ 63) (2 ^ 64) ltac:(lia)). lia.
Qed.

Lemma iadd_small a b : MinInt64 <= a + b <= MaxInt64 → iadd a b = a + b.
Proof. apply wrap64_small. Qed.
Lemma isub_small a b : MinInt64 <= a - b <= MaxInt64 → isub a b = a - b.
Proof. apply wrap64_small. Qed.
Lemma imul_small a b : MinInt64 <= a * b <= MaxInt64 → imul a b = a * b.
Proof. apply wrap64_small. Qed.

(** ** [strconv.Atoi]

    The loop of [ParseUint] in base 10, then the range of an [int].  The error
    quotes the argument as it is, which is what [strconv.Quote] does to the
    digits this file passes. *)
Definition numError (s why : string) : goerror :=
  EPlain ("strconv.Atoi: parsing " +:+ str1 (az 34) +:+ s +:+ str1 (az 34) +:+ ": " +:+ why).

Definition MaxUint64 : Z := 2 ^ 64 - 1.

Fixpoint ParseUint_loop (s : string) (bytes : list ascii) (n : Z) : result goerror Z :=
  match bytes with
  | [] => Ok n
  | c :: bytes =>
      if negb (is_digit (zb c)) then Err (numError s "invalid syntax")
      else let n1 := n * 10 + (zb c - 48) in
      if MaxUint64 <? n1 then Err (numError s "value out of range")
      else ParseUint_loop s bytes n1
  end.

Definition Atoi (s : string) : result goerror Z :=
  let '(neg, rest) := split_sign s in
  if String.eqb rest "" then Err (numError s "invalid syntax")
  else let* un := ParseUint_loop s (string_bytes rest) 0 in
  if negb neg && (MaxInt64 <? un) then Err (numError s "value out of range")
  else if neg && (MaxInt64 + 1 <? un) then Err (numError s "value out of range")
  else Ok (if neg then - un else un).


(** ** Digits *)

Lemma digits_value_ge ds : ∀ n, 0 <= n → forallb is_digit ds = true → n <= digits_value n ds.
Proof.
  induction ds as [|d ds IH]; intros n Hn; cbn [digits_value forallb]; [lia|].
  intros [Hd Hds]%andb_true_iff. unfold is_digit in Hd. bool_prop.
  pose proof (IH (n * 10 + (d - 48)) ltac:(lia) Hds). lia.
Qed.


Lemma ParseUint_loop_digits s ds : ∀ n, 0 <= n <= MaxUint64 → forallb is_digit ds = true →
  ParseUint_loop s (az <$> ds) n =
    if MaxUint64 <? digits_value n ds then Err (numError s "value out of range")
    else Ok (digits_value n ds).
Proof.
  induction ds as [|d ds IH]; intros n Hn.
  { intros _. cbn. by rewrite (proj2 (Z.ltb_ge _ _)) by lia. }
  cbn [forallb digits_value fmap list_fmap ParseUint_loop]. intros [Hd Hds]%andb_true_iff.
  assert (Hr : 48 <= d <= 57) by (unfold is_digit in Hd; bool_prop; lia).
  rewrite zb_az by lia. rewrite Hd. cbn [negb]. cbv zeta.
  pose proof (digits_value_ge ds (n * 10 + (d - 48)) ltac:(lia) Hds).
  destruct (Z.ltb_spec MaxUint64 (n * 10 + (d - 48))); [by rewrite (proj2 (Z.ltb_lt _ _)) by lia|].
  apply IH; [lia|done].
Qed.

Lemma string_bytes_digits ds :
  forallb is_digit ds = true → string_bytes (string_of_runes ds) = az <$> ds.
Proof.
  induction ds as [|d ds IH]; [done|]. cbn [forallb]. intros [Hd Hds]%andb_true_iff.
  assert (Hr : 48 <= d <= 57) by (unfold is_digit in Hd; bool_prop; lia).
  change (string_of_runes (d :: ds)) with (encode_rune d +:+ string_of_runes ds).
  rewrite string_bytes_app, IH by done. unfold encode_rune.
  rewrite (proj2 (valid_rune_spec d)) by lia. by rewrite (proj2 (Z.ltb_lt _ _)) by lia.
Qed.

Lemma Atoi_digits ds :
  ds ≠ [] → forallb is_digit ds = true →
  Atoi (string_of_runes ds) =
    if MaxInt64 <? digits_value 0 ds then Err (numError (string_of_runes ds) "value out of range")
    else Ok (digits_value 0 ds).
Proof.
  intros Hne Hds. pose proof (string_bytes_digits ds Hds) as Hb. unfold Atoi, split_sign.
  destruct ds as [|d ds]; [done|]. cbn [fmap list_fmap] in Hb.
  destruct (string_of_runes (d :: ds)) as [|a s] eqn:Es; [done|].
  assert (Hd : 48 <= d <= 57).
  { cbn in Hds. apply andb_true_iff in Hds as [Hd _]. unfold is_digit in Hd. bool_prop. lia. }
  assert (Ha : zb a = d) by (injection Hb as -> _; apply zb_az; lia).
  rewrite Ha. zdec. cbv iota. change (String a s =? "")%string with false. cbv iota.
  rewrite Hb. change (az d :: (az <$> ds)) with (az <$> (d :: ds)).
  rewrite ParseUint_loop_digits by (done || (unfold MaxUint64; lia)).
  destruct (Z.ltb_spec MaxUint64 (digits_value 0 (d :: ds))); cbn [rbind negb andb].
  - by rewrite (proj2 (Z.ltb_lt _ _)) by (unfold MaxUint64, MaxInt64 in *; lia).
  - by destruct (MaxInt64 <? _).
Qed.

(** * [strconv.ParseFloat] *)

(** The grammar with underscores and hexadecimal digits, and the range of a
    binary64. *)

Definition lower_byte (b : Z) : Z := Z.lor b 0x20.
Definition is_hex (b : Z) : bool := is_digit b || ((97 <=? lower_byte b) && (lower_byte b <=? 102)).

(** What was seen before: nothing or a sign, a digit, an underscore, another. *)
Inductive seen : Type := SeenStart | SeenDigit | SeenUnderscore | SeenOther.

Fixpoint underscores_from (hex : bool) (i : seen) (s : list Z) : bool :=
  match s with
  | [] => match i with SeenUnderscore => false | _ => true end
  | b :: s =>
      if is_digit b || hex && is_hex b then underscores_from hex SeenDigit s
      else if b =? 95 then match i with SeenDigit => underscores_from hex SeenUnderscore s | _ => false end
      else match i with SeenUnderscore => false | _ => underscores_from hex SeenOther s end
  end.

Definition unsigned (s : list Z) : list Z := match s with b :: r => if (b =? 43) || (b =? 45) then r else s | [] => [] end.

Definition underscoreOK (s : list Z) : bool :=
  match unsigned s with
  | 48 :: b :: r =>
      if existsb (Z.eqb (lower_byte b)) [98; 111; 120] then underscores_from (lower_byte b =? 120) SeenDigit r
      else underscores_from false SeenStart (48 :: b :: r)
  | s => underscores_from false SeenStart s
  end.

(** Digits around at most one point, underscores passed over: the digits, how many
    of them come after the point, and what follows. *)
Fixpoint mantissa_loop (digit : Z → bool) (s digits : list Z) (point : option Z) : list Z * Z * list Z :=
  match s with
  | [] => (digits, default 0 point, [])
  | b :: r =>
      if b =? 95 then mantissa_loop digit r digits point
      else if (b =? 46) && bool_decide (point = None) then mantissa_loop digit r digits (Some 0)
      else if digit b then mantissa_loop digit r (digits ++ [b]) (Z.succ <$> point)
      else (digits, default 0 point, s)
  end.

Definition hex_digit (b : Z) : Z := if is_digit b then b - 48 else lower_byte b - 87.

(** An exponent, to the end of the text. *)
Definition float_exponent (s : list Z) : option Z :=
  let '(sign, s) := match s with b :: r => if b =? 43 then (1, r) else if b =? 45 then (-1, r) else (1, s) | [] => (1, []) end in
  match s with
  | b :: _ =>
      if is_digit b && forallb (fun b => is_digit b || (b =? 95)) s
      then Some (sign * exponent_value 0 (List.filter is_digit s)) else None
  | [] => None
  end.

Definition finite (f : f64) : bool := match f with S754_infinity _ => false | _ => true end.

(** The number a text spells; [None] is an error, out of range included. *)
Definition ParseFloat_value (text : string) : option f64 :=
  let s := zb <$> string_bytes text in
  let neg := HasPrefix text "-" in
  let rest := unsigned s in
  let spells word s := bool_decide ((lower_byte <$> s) = zb <$> string_bytes word) in
  if spells "inf" rest || spells "infinity" rest then Some (S754_infinity neg)
  else if spells "nan" s then Some S754_nan
  else
    let '(hex, body) := match rest with 48 :: b :: c :: r => if lower_byte b =? 120 then (true, c :: r) else (false, rest) | _ => (false, rest) end in
    let '(digits, after, tail) := mantissa_loop (if hex then is_hex else is_digit) body [] None in
    let exponent :=
      match tail with
      | [] => if hex then None else Some 0
      | b :: r => if lower_byte b =? (if hex then 112 else 101) then float_exponent r else None
      end in
    match exponent with
    | None => None
    | Some e =>
        if negb (bool_decide (digits = [])) && (negb (existsb (Z.eqb 95) s) || underscoreOK s) then
          let m := foldl (fun v d => v * 16 + hex_digit d) 0 digits in
          let f := if hex then binary_normalize 53 1024 (if neg then - m else m) (e - 4 * after) neg
                   else f64_of_decimal neg (digits_value 0 digits) (e - after) in
          if finite f then Some f else None
        else None
    end.

Definition ParseFloat_ok (text : string) : bool := bool_decide (is_Some (ParseFloat_value text)).

Example floats_ok : ParseFloat_ok <$> ["1."; ".5e3"; "1_0.0"; "0x1.8p1"; "-inf"; "1e308"] = [true; true; true; true; true; true].
Proof. vm_compute. reflexivity. Qed.
Example floats_not : ParseFloat_ok <$> ["."; "1e"; "_1."; "0x1.8"; "1e309"; "x"; ""; "1 "] = [false; false; false; false; false; false; false; false].
Proof. vm_compute. reflexivity. Qed.
Example floats_value : ParseFloat_value <$> ["-0x1p1"; "-2"; "1e309"; "-InF"] =
  [Some (f64_of_Z (-2)); Some (f64_of_Z (-2)); None; Some (S754_infinity true)].
Proof. vm_compute. reflexivity. Qed.
