(* ===== verification/GoPath.v ===== *)
(** * Lexical paths

    [path.Clean], [path.Join], [path.Dir] and [filepath.Abs] of the Go standard
    library on slash-separated paths, the only separator of the POSIX targets
    modelled here. *)

From S2P Require Export GoString.
Local Open Scope string_scope.
Local Open Scope list_scope.
Local Open Scope Z_scope.

Definition sep : ascii := az 47.

Definition is_rooted (p : string) : bool := HasPrefix p "/".

(** The stack of components [Clean] keeps, deepest first: empty and ["."]
    components vanish, [".."] removes its parent, and at the root of an absolute
    path it vanishes too. *)
Definition clean_step (rooted : bool) (stack : list string) (c : string) : list string :=
  if String.eqb c "" || String.eqb c "." then stack
  else if String.eqb c ".." then
    match stack with
    | top :: rest => if String.eqb top ".." then c :: stack else rest
    | [] => if rooted then [] else [c]
    end
  else c :: stack.

Definition clean_components (rooted : bool) (cs : list string) : list string :=
  reverse (foldl (clean_step rooted) [] cs).

Definition Clean (p : string) : string :=
  let rooted := is_rooted p in
  let body := str_join "/" (clean_components rooted (split_byte sep p)) in
  if rooted then "/" +:+ body
  else if String.eqb body "" then "." else body.

(** [path.Join] ignores empty elements. *)
Definition Join (elems : list string) : string :=
  match List.filter (fun e => negb (String.eqb e "")) elems with
  | [] => ""
  | es => Clean (str_join "/" es)
  end.

(** [path.Split]: everything up to the last slash, and the rest. *)
Definition Base_component (p : string) : string := List.last (split_byte sep p) "".

Definition dir_part (p : string) : string :=
  string_take (String.length p - String.length (Base_component p)) p.

Definition Dir (p : string) : string := Clean (dir_part p).

(** [filepath.Abs] against the working directory, which may be unavailable. *)
Definition Abs (cwd : option string) (p : string) : option string :=
  if is_rooted p then Some (Clean p)
  else match cwd with
       | Some wd => Some (Join [wd; p])
       | None => None
       end.

Example clean1 : Clean "a//b/./../c/" = "a/c". Proof. reflexivity. Qed.
Example clean2 : Clean "/../a" = "/a". Proof. reflexivity. Qed.
Example clean3 : Clean "../../x/.." = "../..". Proof. reflexivity. Qed.
Example clean4 : Clean "" = ".". Proof. reflexivity. Qed.
Example dir1 : Dir "a/b/c" = "a/b". Proof. reflexivity. Qed.
Example dir2 : Dir "a" = ".". Proof. reflexivity. Qed.

(** ** Lemmas *)

(** A component [Clean] leaves alone. *)
Definition plain_component (c : string) : bool :=
  negb (String.eqb c "") && negb (String.eqb c ".") && negb (String.eqb c "..")
  && negb (contains_byte sep c).

Lemma clean_step_plain rooted stack c :
  plain_component c = true → clean_step rooted stack c = c :: stack.
Proof.
  unfold plain_component, clean_step. rewrite !andb_true_iff, !negb_true_iff.
  intros [[[-> ->] ->] _]. done.
Qed.

Lemma foldl_clean_plain rooted cs : ∀ stack,
  Forall (fun c => plain_component c = true) cs →
  foldl (clean_step rooted) stack cs = reverse cs ++ stack.
Proof.
  induction cs as [|c cs IH]; intros stack H; [done|].
  inversion H; subst. cbn [foldl]. rewrite clean_step_plain, IH by done.
  by rewrite reverse_cons, <- app_assoc.
Qed.

Lemma clean_components_plain rooted cs :
  Forall (fun c => plain_component c = true) cs → clean_components rooted cs = cs.
Proof.
  intros H. unfold clean_components. rewrite foldl_clean_plain, app_nil_r by done.
  apply reverse_involutive.
Qed.

(** In an absolute path no [".."] survives, and neither do empty components. *)
Lemma foldl_clean_rooted cs : ∀ stack,
  Forall (fun c => contains_byte sep c = false) cs →
  Forall (fun c => plain_component c = true) stack →
  Forall (fun c => plain_component c = true) (foldl (clean_step true) stack cs).
Proof.
  induction cs as [|c cs IH]; intros stack Hcs Hs; [done|].
  inversion Hcs; subst. cbn [foldl]. apply IH; [done|].
  unfold clean_step. destruct (String.eqb_spec c ""); [done|].
  destruct (String.eqb_spec c "."); [done|]. simpl.
  destruct (String.eqb_spec c "..").
  - destruct stack as [|top rest]; [done|]. inversion Hs; subst.
    destruct (String.eqb_spec top "..") as [->|]; [done|done].
  - constructor; [|done]. unfold plain_component.
    rewrite !(proj2 (String.eqb_neq _ _)) by done. simpl. by apply negb_true_iff.
Qed.

Lemma clean_components_rooted p :
  Forall (fun c => plain_component c = true) (clean_components true (split_byte sep p)).
Proof.
  unfold clean_components. apply Forall_reverse. apply foldl_clean_rooted; [|constructor].
  apply split_byte_free.
Qed.
