(* ===== verification/Meta.v ===== *)
(** * Device metas (model/meta.go)

    The metas of a device: the record a device carries, the parser of each
    [key=value] meta with the regular expression it uses, [AddMeta], which
    dispatches on the meta name and reports the previous value, and
    [UpdateMeta], the batch form the API and the command line go through. *)

From S2P Require Export Regex OrderedMap Scalar GoPath.
Local Open Scope string_scope.
Local Open Scope list_scope.
Local Open Scope Z_scope.
Local Open Scope kat_scope.

(** ** Data *)

Definition machineCapabilities : list string :=
  ["NET_ADMIN"; "NET_RAW"; "NET_BROADCAST"; "NET_BIND_SERVICE"; "SYS_ADMIN"].
Definition allowedVolumeModes : list string := ["ro"; "rw"; "rx"].
Definition allowedPortProtocols : list string := ["tcp"; "udp"; "sctp"].

(** [PortKey]: the host port and the protocol. *)
Definition PortKey : Type := Z * string.
#[export] Instance PortKey_eq_dec : EqDecision PortKey := _.
#[export] Instance PortKey_countable : Countable PortKey := _.

Definition PortKey_String (k : PortKey) : string :=
  "(" +:+ Itoa k.1 +:+ ", '" +:+ k.2 +:+ "')".

Record Ulimit : Type := mkUlimit { Soft : Z; Hard : Z }.
Record Volume : Type := mkVolume { GuestPath : string; Mode : string }.

Record Meta : Type := mkMeta {
  ExecCommands : list string;
  Sysctls : OrderedMap string Scalar;
  Envs : OrderedMap string string;
  Ports : OrderedMap PortKey Z;
  Ulimits : OrderedMap string Ulimit;
  Volumes : OrderedMap string Volume;
  Privileged : option bool;
  Bridged : option bool;
  Image : Scalar;
  Mem : Scalar;
  CPUs : Scalar;
  Shell : Scalar;
  NumTerms : Scalar;
  IPv6 : Scalar;
  Entrypoint : Scalar;
  Args : Scalar;
  BridgedIface : Scalar;
  Extras : OrderedMap string Scalar;
}.

Definition newMeta : Meta :=
  mkMeta [] NewOrderedMap NewOrderedMap NewOrderedMap NewOrderedMap NewOrderedMap
         None None SAbsent SAbsent SAbsent SAbsent SAbsent SAbsent SAbsent SAbsent SAbsent
         NewOrderedMap.

(** Field updates: [m.Meta.F = v]. *)
Definition set_ExecCommands v (m : Meta) := mkMeta v m.(Sysctls) m.(Envs) m.(Ports) m.(Ulimits) m.(Volumes) m.(Privileged) m.(Bridged) m.(Image) m.(Mem) m.(CPUs) m.(Shell) m.(NumTerms) m.(IPv6) m.(Entrypoint) m.(Args) m.(BridgedIface) m.(Extras).
Definition set_Sysctls v (m : Meta) := mkMeta m.(ExecCommands) v m.(Envs) m.(Ports) m.(Ulimits) m.(Volumes) m.(Privileged) m.(Bridged) m.(Image) m.(Mem) m.(CPUs) m.(Shell) m.(NumTerms) m.(IPv6) m.(Entrypoint) m.(Args) m.(BridgedIface) m.(Extras).
Definition set_Envs v (m : Meta) := mkMeta m.(ExecCommands) m.(Sysctls) v m.(Ports) m.(Ulimits) m.(Volumes) m.(Privileged) m.(Bridged) m.(Image) m.(Mem) m.(CPUs) m.(Shell) m.(NumTerms) m.(IPv6) m.(Entrypoint) m.(Args) m.(BridgedIface) m.(Extras).
Definition set_Ports v (m : Meta) := mkMeta m.(ExecCommands) m.(Sysctls) m.(Envs) v m.(Ulimits) m.(Volumes) m.(Privileged) m.(Bridged) m.(Image) m.(Mem) m.(CPUs) m.(Shell) m.(NumTerms) m.(IPv6) m.(Entrypoint) m.(Args) m.(BridgedIface) m.(Extras).
Definition set_Ulimits v (m : Meta) := mkMeta m.(ExecCommands) m.(Sysctls) m.(Envs) m.(Ports) v m.(Volumes) m.(Privileged) m.(Bridged) m.(Image) m.(Mem) m.(CPUs) m.(Shell) m.(NumTerms) m.(IPv6) m.(Entrypoint) m.(Args) m.(BridgedIface) m.(Extras).
Definition set_Volumes v (m : Meta) := mkMeta m.(ExecCommands) m.(Sysctls) m.(Envs) m.(Ports) m.(Ulimits) v m.(Privileged) m.(Bridged) m.(Image) m.(Mem) m.(CPUs) m.(Shell) m.(NumTerms) m.(IPv6) m.(Entrypoint) m.(Args) m.(BridgedIface) m.(Extras).
Definition set_Privileged v (m : Meta) := mkMeta m.(ExecCommands) m.(Sysctls) m.(Envs) m.(Ports) m.(Ulimits) m.(Volumes) v m.(Bridged) m.(Image) m.(Mem) m.(CPUs) m.(Shell) m.(NumTerms) m.(IPv6) m.(Entrypoint) m.(Args) m.(BridgedIface) m.(Extras).
Definition set_Bridged v (m : Meta) := mkMeta m.(ExecCommands) m.(Sysctls) m.(Envs) m.(Ports) m.(Ulimits) m.(Volumes) m.(Privileged) v m.(Image) m.(Mem) m.(CPUs) m.(Shell) m.(NumTerms) m.(IPv6) m.(Entrypoint) m.(Args) m.(BridgedIface) m.(Extras).
Definition set_Extras v (m : Meta) := mkMeta m.(ExecCommands) m.(Sysctls) m.(Envs) m.(Ports) m.(Ulimits) m.(Volumes) m.(Privileged) m.(Bridged) m.(Image) m.(Mem) m.(CPUs) m.(Shell) m.(NumTerms) m.(IPv6) m.(Entrypoint) m.(Args) m.(BridgedIface) v.

(** The nine metas stored as a plain scalar; [scalarField] is a name's field. *)
Inductive scalar_field : Type :=
| FImage | FMem | FCPUs | FShell | FNumTerms | FIPv6 | FEntrypoint | FArgs | FBridgedIface.
#[export] Instance scalar_field_eq_dec : EqDecision scalar_field.
Proof. solve_decision. Defined.

Definition scalarField (name : string) : option scalar_field :=
  if String.eqb name "image" then Some FImage
  else if String.eqb name "mem" then Some FMem
  else if String.eqb name "cpus" then Some FCPUs
  else if String.eqb name "shell" then Some FShell
  else if String.eqb name "num_terms" then Some FNumTerms
  else if String.eqb name "ipv6" then Some FIPv6
  else if String.eqb name "entrypoint" then Some FEntrypoint
  else if String.eqb name "args" then Some FArgs
  else if String.eqb name "bridged_iface" then Some FBridgedIface
  else None.

Definition get_field (f : scalar_field) (m : Meta) : Scalar :=
  match f with
  | FImage => m.(Image) | FMem => m.(Mem) | FCPUs => m.(CPUs) | FShell => m.(Shell)
  | FNumTerms => m.(NumTerms) | FIPv6 => m.(IPv6) | FEntrypoint => m.(Entrypoint)
  | FArgs => m.(Args) | FBridgedIface => m.(BridgedIface)
  end.

Definition set_field (f : scalar_field) (v : Scalar) (m : Meta) : Meta :=
  let pick g := if decide (f = g) then v else get_field g m in
  mkMeta m.(ExecCommands) m.(Sysctls) m.(Envs) m.(Ports) m.(Ulimits) m.(Volumes)
         m.(Privileged) m.(Bridged)
         (pick FImage) (pick FMem) (pick FCPUs) (pick FShell) (pick FNumTerms) (pick FIPv6)
         (pick FEntrypoint) (pick FArgs) (pick FBridgedIface) m.(Extras).

(** [Meta.Scalars]: every scalar meta that is set, under its lab.conf name. *)
Definition Meta_Scalars (m : Meta) : list (string * Scalar) :=
  let add (name : string) (v : Scalar) := if IsSet v then [(name, v)] else [] in
  let addb (name : string) (b : option bool) :=
    match b with Some b => [(name, Bool b)] | None => [] end in
  add "image" m.(Image) ++ add "mem" m.(Mem) ++ add "cpus" m.(CPUs) ++ add "shell" m.(Shell)
  ++ add "num_terms" m.(NumTerms) ++ add "ipv6" m.(IPv6)
  ++ addb "privileged" m.(Privileged) ++ addb "bridged" m.(Bridged)
  ++ add "entrypoint" m.(Entrypoint) ++ add "args" m.(Args)
  ++ add "bridged_iface" m.(BridgedIface) ++ Entries m.(Extras).

(** ** Values of type [any] the parsers return *)

Inductive anyval : Type :=
| VNil
| VScalar (s : Scalar)              (* string, bool, int64, float64 or []string *)
| VInt (n : Z)
| VUlimit (u : Ulimit)
| VVolume (v : Volume)
| VExec (cs : list string)
| VSysctls (m : OrderedMap string Scalar)
| VEnvs (m : OrderedMap string string)
| VPorts (m : OrderedMap PortKey Z)
| VUlimits (m : OrderedMap string Ulimit)
| VVolumes (m : OrderedMap string Volume).

(** [Scalar.Value]. *)
Definition scalar_value (s : Scalar) : anyval :=
  match s with SAbsent => VNil | _ => VScalar s end.

(** ** The regular expressions *)

Definition letter : Type := Z * string.
Definition rcls (p : Z → bool) : re letter := Cls (fun c => p c.1).
Definition rchar (c : Z) : re letter := rcls (fun r => r =? c).
Fixpoint rlit (s : list Z) : re letter :=
  match s with [] => Eps | c :: s => Cat (rchar c) (rlit s) end.

Definition FindStringSubmatch (r : re letter) (s : string) : option (@caps letter) :=
  match_prefix r (decode s).
Definition MatchString (r : re letter) (s : string) : bool := match_bool r (decode s).
Definition submatch (n : nat) (c : @caps letter) : string := chunks_string (group n c).

(** [\n?$]: an optional final newline. *)
Definition opt_newline_end : re letter := Cat (Opt (rchar 10)) Eot.

(** [[\p{L}\p{N}_-]] and [[\p{L}\p{N}_]]. *)
Definition word_class : re letter := rcls isWordRune.
Definition word_dash_class : re letter := rcls (fun r => isWordRune r || (r =? 45)).

Definition sysctlRegex : re letter :=
  Cat (Grp 1 (Cat (rlit [110; 101; 116; 46])
             (Cat (Plus (Cat (Plus word_dash_class) (rchar 46))) (Plus word_dash_class))))
  (Cat (rchar 61) (Cat (Grp 2 (Star (rcls (fun r => negb (r =? 61))))) opt_newline_end)).

Definition envRegex : re letter :=
  Cat (Grp 1 (Plus word_class))
  (Cat (rchar 61) (Cat (Grp 2 (Star (rcls (fun r => negb (r =? 10))))) opt_newline_end)).

Definition signed_digits : re letter := Cat (Opt (rchar 45)) (Plus (rcls IsNd)).

Definition ulimitRegex : re letter :=
  Cat (Grp 1 (Plus word_class))
  (Cat (rchar 61)
  (Cat (Grp 2 signed_digits)
  (Cat (Opt (Cat (rchar 58) (Grp 3 signed_digits))) opt_newline_end))).

(** ** The parsers *)

Definition prev_value {A} (f : A → anyval) (prev : option A) : anyval * bool :=
  match prev with Some v => (f v, true) | None => (VNil, false) end.

(** [Meta.setScalar]. *)
Definition setScalar (name : string) (value : Scalar) (m : Meta) : Meta * (anyval * bool) :=
  match scalarField name with
  | Some f => let prev := get_field f m in
              (set_field f value m, (scalar_value prev, IsSet prev))
  | None => let '(extras, prev) := SetKey m.(Extras) name value in
            (set_Extras extras m, prev_value scalar_value prev)
  end.

(** [addBoolMeta], on the field it is given. *)
Definition addBoolMeta `{TextCases} (field : option bool) (value : string)
    : result goerror (bool * (anyval * bool)) :=
  match StrToBool value with
  | Err e => Err (WrapValue e (Error e))
  | Ok parsed => Ok (parsed, prev_value (fun b => VScalar (Bool b)) field)
  end.

Definition trim_left_dashes (s : string) : string :=
  bytes_string (drop_while (Ascii.eqb (az 45)) (string_bytes s)).

(** [errors.Is(err, util.ErrPyIntSyntax)] on the errors of [pyBigInt]. *)
Definition is_syntax (e : goerror) : bool :=
  match e, ErrPyIntSyntax with EPlain s, EPlain t => String.eqb s t | _, _ => false end.

(** The value stored for a sysctl: an int when what follows the dashes is
    numeric, else a string. *)
Definition sysctl_value (val : string) : result goerror Scalar :=
  if pyIsNumeric (trim_left_dashes val) then
    match pyBigInt val with
    | Err e => if is_syntax e then
                 let failure := PyIntFailure ErrPyIntSyntax val in
                 Err (WrapValue failure (Error failure))
               else Err e
    | Ok parsed => Ok (Int (saturateInt64 parsed))
    end
  else Ok (Str val).

Definition addSysctlMeta (mname value : string) (m : Meta)
    : result goerror (Meta * (anyval * bool)) :=
  match FindStringSubmatch sysctlRegex value with
  | None => Err (NewOptionSysctl mname value)
  | Some c =>
      let key := pyStrip (submatch 1 c) in
      let val := pyStrip (submatch 2 c) in
      let* stored := sysctl_value val in
      let '(sysctls, prev) := SetKey m.(Sysctls) key stored in
      Ok (set_Sysctls sysctls m, prev_value scalar_value prev)
  end.

Definition addEnvMeta (mname value : string) (m : Meta)
    : result goerror (Meta * (anyval * bool)) :=
  match FindStringSubmatch envRegex value with
  | None => Err (NewOptionEnv mname value)
  | Some c =>
      let key := pyStrip (submatch 1 c) in
      let val := pyStrip (submatch 2 c) in
      let '(envs, prev) := SetKey m.(Envs) key val in
      Ok (set_Envs envs m, prev_value (fun s => VScalar (Str s)) prev)
  end.

(** The limits once parsed: rejected, or clamped. *)
Definition ulimit_limits (mname value : string) (soft hard : Z) : result goerror Ulimit :=
  if (soft <? -1) || (hard <? -1) then Err (NewOptionUlimitRange mname value)
  else if (soft =? -1) && negb (hard =? -1) then
    Err (NewOptionUlimitSoftHard mname value (Itoa hard))
  else
    let soft := if negb (negb (soft =? -1) && (hard =? -1)) && (hard <? soft) then hard else soft in
    Ok (mkUlimit (saturateInt64 soft) (saturateInt64 hard)).

Definition addUlimitMeta (mname value : string) (m : Meta)
    : result goerror (Meta * (anyval * bool)) :=
  match FindStringSubmatch ulimitRegex value with
  | None => Err (NewOptionUlimit mname value)
  | Some c =>
      let key := pyStrip (submatch 1 c) in
      let* soft := pyBigInt (pyStrip (submatch 2 c)) in
      let* hard := (if String.eqb (submatch 3 c) "" then Ok soft
                    else pyBigInt (pyStrip (submatch 3 c))) in
      let* u := ulimit_limits mname value soft hard in
      let '(ulimits, prev) := SetKey m.(Ulimits) key u in
      Ok (set_Ulimits ulimits m, prev_value VUlimit prev)
  end.

Definition errTooManyValuesToUnpack : goerror :=
  NewValue "too many values to unpack (expected 2)".

Definition colon : ascii := az 58.
Definition pipe : ascii := az 124.

(** [a, b = s.split(c)] when [s] contains [c]; otherwise the defaults. *)
Definition unpack2 (c : ascii) (s : string) (dflt : string * string)
    : result goerror (string * string) :=
  if contains_byte c s then
    match split_byte c s with
    | [a; b] => Ok (a, b)
    | _ => Err errTooManyValuesToUnpack
    end
  else Ok dflt.

Definition addPortMeta (mname value : string) (m : Meta)
    : result goerror (Meta * (anyval * bool)) :=
  let* (ports, protocol) := unpack2 slash value (value, "tcp") in
  let* (hostPort, guestPort) := unpack2 colon ports ("3000", ports) in
  let protocol := ToLower protocol in
  if negb (str_in protocol allowedPortProtocols) then Err (NewOptionPortProtocol mname)
  else match pyBigInt hostPort with
       | Err _ => Err (NewOptionPortValue mname)
       | Ok host =>
           match pyBigInt guestPort with
           | Err _ => Err (NewOptionPortValue mname)
           | Ok guest =>
               let '(ps, prev) := SetKey m.(Ports) (saturateInt host, protocol) (saturateInt guest) in
               Ok (set_Ports ps m, prev_value VInt prev)
           end
       end.

(** [absPath] on POSIX: a leading double slash survives [filepath.Abs]. *)
Definition absPath (cwd : option string) (p : string) : string :=
  match Abs cwd p with
  | None => p
  | Some abs => if HasPrefix p "//" && negb (HasPrefix p "///") then "/" +:+ abs else abs
  end.

(** The host path, the guest path and the mode of a volume. *)
Definition volume_parts (mname value : string) : result goerror (string * string * string) :=
  match List.filter (fun p => negb (String.eqb p "")) (split_byte pipe value) with
  | [h; g; mo] => Ok (h, g, mo)
  | [h; g] => Ok (h, g, "ro")
  | _ => Err (NewOptionVolumeFormat mname value)
  end.

Definition addVolumeMeta (cwd : option string) (value : string) (mname : string) (m : Meta)
    : result goerror (Meta * (anyval * bool)) :=
  let* (hostPath, guestPath, mode) := volume_parts mname value in
  if negb (str_in mode allowedVolumeModes) then Err (NewOptionVolumeMode mname mode hostPath)
  else let '(vs, prev) := SetKey m.(Volumes) (absPath cwd hostPath) (mkVolume guestPath mode) in
       Ok (set_Volumes vs m, prev_value VVolume prev).

(** The container a plural meta name denotes. *)
Definition containerValue (name : string) (m : Meta) : anyval :=
  if String.eqb name "exec_commands" then VExec m.(ExecCommands)
  else if String.eqb name "sysctls" then VSysctls m.(Sysctls)
  else if String.eqb name "envs" then VEnvs m.(Envs)
  else if String.eqb name "ports" then VPorts m.(Ports)
  else if String.eqb name "ulimits" then VUlimits m.(Ulimits)
  else if String.eqb name "volumes" then VVolumes m.(Volumes)
  else VNil.

Definition addContainerNameMeta (name value : string) (m : Meta) : Meta * (anyval * bool) :=
  let '(extras, prev) := SetKey m.(Extras) name (Str value) in
  let m' := set_Extras extras m in
  match prev with
  | Some prev => (m', (scalar_value prev, true))
  | None => (m', (containerValue name m', true))
  end.

(** ** [AddMeta]: the receiver is the meta record of the device [mname]. *)

Section add_meta.
Context `{TextCases} (cwd : option string).

Definition from_result {A} (r : result goerror (Meta * A)) : M Meta goerror A :=
  fun m => match r with Ok (m', a) => (m', Ok a) | Err e => (m, Err e) end.

Definition container_names : list string :=
  ["exec_commands"; "sysctls"; "envs"; "ports"; "ulimits"; "volumes"].

Definition AddMeta (mname name value : string) : M Meta goerror (anyval * bool) := fun m =>
  if String.eqb name "privileged" then
    from_result (let* (b, r) := addBoolMeta m.(Privileged) value in
                 Ok (set_Privileged (Some b) m, r)) m
  else if String.eqb name "exec" then
    (set_ExecCommands (m.(ExecCommands) ++ [value]) m, Ok (VNil, false))
  else if String.eqb name "bridged" then
    from_result (let* (b, r) := addBoolMeta m.(Bridged) value in
                 Ok (set_Bridged (Some b) m, r)) m
  else if String.eqb name "sysctl" then from_result (addSysctlMeta mname value m) m
  else if String.eqb name "env" then from_result (addEnvMeta mname value m) m
  else if String.eqb name "ulimit" then from_result (addUlimitMeta mname value m) m
  else if String.eqb name "port" then from_result (addPortMeta mname value m) m
  else if String.eqb name "volume" then from_result (addVolumeMeta cwd value mname m) m
  else if str_in name container_names then
    let '(m', r) := addContainerNameMeta name value m in (m', Ok r)
  else let '(m', r) := setScalar name (Str value) m in (m', Ok r).

(** *** [UpdateMeta] *)

Record MetaOptions : Type := mkMetaOptions {
  oPrivileged : option bool;
  oExecCommands : list string;
  oMem : option string;
  oCPUs : option string;
  oImage : option string;
  oBridged : option bool;
  oPorts : list string;
  oNumTerms : option string;
  oSysctls : list string;
  oEnvs : list string;
  oUlimits : list string;
  oIPv6 : option bool;
  oShell : option string;
  oEntrypoint : option string;
  oArgs : option (list string);
  oVolumes : list string;
}.

Definition add_all (mname name : string) (values : list string) : M Meta goerror unit :=
  sfor values (fun v => sbind (AddMeta mname name v) (fun _ => sret tt)).

Definition store_field {A} (f : scalar_field) (mk : A → Scalar) (o : option A)
    : M Meta goerror unit :=
  match o with Some v => smodify (set_field f (mk v)) | None => sret tt end.

Definition when_true (mname name : string) (o : option bool) : M Meta goerror unit :=
  match o with Some true => add_all mname name ["True"] | _ => sret tt end.

Definition UpdateMeta (mname : string) (opts : MetaOptions) : M Meta goerror unit :=
  do* _ <- when_true mname "privileged" opts.(oPrivileged) in
  do* _ <- add_all mname "exec" opts.(oExecCommands) in
  do* _ <- store_field FMem Str opts.(oMem) in
  do* _ <- store_field FCPUs Str opts.(oCPUs) in
  do* _ <- store_field FImage Str opts.(oImage) in
  do* _ <- when_true mname "bridged" opts.(oBridged) in
  do* _ <- add_all mname "port" opts.(oPorts) in
  do* _ <- store_field FNumTerms Str opts.(oNumTerms) in
  do* _ <- add_all mname "sysctl" opts.(oSysctls) in
  do* _ <- add_all mname "env" opts.(oEnvs) in
  do* _ <- add_all mname "ulimit" opts.(oUlimits) in
  do* _ <- store_field FIPv6 Bool opts.(oIPv6) in
  do* _ <- store_field FShell Str opts.(oShell) in
  do* _ <- store_field FEntrypoint Str opts.(oEntrypoint) in
  do* _ <- store_field FArgs Strings opts.(oArgs) in
  add_all mname "volume" opts.(oVolumes).
End add_meta.

(** ** The invariant of a meta record

    What the parsers promise to the backends that read a device's metas. *)

Definition ulimit_ok (u : Ulimit) : Prop :=
  -1 <= u.(Soft) <= MaxInt64 ∧ -1 <= u.(Hard) <= MaxInt64 ∧
  (u.(Soft) = -1 → u.(Hard) = -1) ∧ (u.(Hard) ≠ -1 → u.(Soft) <= u.(Hard)).

Definition volume_ok (v : Volume) : Prop := v.(Mode) ∈ allowedVolumeModes.

Definition int64_ok (n : Z) : Prop := MinInt64 <= n <= MaxInt64.

Definition port_ok (k : PortKey) (guest : Z) : Prop :=
  k.2 ∈ allowedPortProtocols ∧ int64_ok k.1 ∧ int64_ok guest.

(** A sysctl holds an int64 or a string. *)
Definition sysctl_ok (v : Scalar) : Prop :=
  (∃ n, v = Int n ∧ int64_ok n) ∨ ∃ s, v = Str s.

Record meta_ok (m : Meta) : Prop := {
  ok_sysctls : wf_map m.(Sysctls);
  ok_envs : wf_map m.(Envs);
  ok_ports : wf_map m.(Ports);
  ok_ulimits : wf_map m.(Ulimits);
  ok_volumes : wf_map m.(Volumes);
  ok_extras : wf_map m.(Extras);
  ok_sysctl : ∀ k v, Get m.(Sysctls) k = Some v → sysctl_ok v;
  ok_port : ∀ k v, Get m.(Ports) k = Some v → port_ok k v;
  ok_ulimit : ∀ k v, Get m.(Ulimits) k = Some v → ulimit_ok v;
  ok_volume : ∀ k v, Get m.(Volumes) k = Some v → volume_ok v;
}.

Lemma get_set_inv {K V} `{Countable K} (P : K → V → Prop) (o : OrderedMap K V) k v :
  (∀ k' v', Get o k' = Some v' → P k' v') → P k v →
  ∀ k' v', Get (SetKey o k v).1 k' = Some v' → P k' v'.
Proof.
  intros Ho Hv k' v'. destruct (decide (k = k')) as [->|].
  - rewrite get_set_eq. by intros [= <-].
  - rewrite get_set_ne by done. apply Ho.
Qed.

Lemma newMeta_ok : meta_ok newMeta.
Proof. split; simpl; auto with kat; intros k v; rewrite get_new; done. Qed.

Lemma saturateInt64_ok v : int64_ok (saturateInt64 v).
Proof. unfold int64_ok, saturateInt64. repeat case_match; bool_prop; unfold MinInt64, MaxInt64 in *; lia. Qed.

Lemma saturateInt_id v : saturateInt v = saturateInt64 v.
Proof.
  unfold saturateInt. destruct (saturateInt64_ok v) as [Hl Hu].
  repeat case_match; bool_prop; lia.
Qed.

Lemma saturateInt64_exact v : int64_ok v → saturateInt64 v = v.
Proof. unfold int64_ok, saturateInt64. intros [? ?]. repeat case_match; bool_prop; lia. Qed.

Lemma saturate_mono a b : a <= b → saturateInt64 a <= saturateInt64 b.
Proof. unfold saturateInt64. intros. repeat case_match; bool_prop; unfold MinInt64, MaxInt64 in *; lia. Qed.

Lemma saturate_ge a : -1 <= a → -1 <= saturateInt64 a.
Proof. intros ?%saturate_mono. done. Qed.

Lemma saturate_m1 a : -1 <= a → saturateInt64 a = -1 → a = -1.
Proof. unfold saturateInt64. intros. repeat case_match; bool_prop; unfold MinInt64, MaxInt64 in *; lia. Qed.

Lemma ulimit_limits_ok mname value soft hard u :
  ulimit_limits mname value soft hard = Ok u → ulimit_ok u.
Proof.
  unfold ulimit_limits. intros Hu.
  destruct (_ || _) eqn:E1 in Hu; [done|]. apply orb_false_iff in E1 as [Hs Hh]. bool_prop.
  destruct (_ && _) eqn:E2 in Hu; [done|]. injection Hu as <-.
  apply andb_false_iff in E2.
  set (s := if _ && _ then hard else soft).
  assert (-1 <= s ∧ (s = -1 → hard = -1) ∧ (hard ≠ -1 → s <= hard)) as (H1 & H2 & H3).
  { unfold s. destruct (soft =? -1) eqn:A, (hard =? -1) eqn:B, (hard <? soft) eqn:C; simpl;
      bool_prop; destruct E2; simplify_eq; lia. }
  destruct (saturateInt64_ok s), (saturateInt64_ok hard).
  split_and!; simpl; auto using saturate_ge.
  - intros ->%saturate_m1; [|done]. by rewrite H2.
  - intros Hne. apply saturate_mono, H3. intros ->. done.
Qed.

(** Replacing one container by a map that satisfies its own clauses. *)
Lemma ok_set_Sysctls m o :
  meta_ok m → wf_map o → (∀ k v, Get o k = Some v → sysctl_ok v) → meta_ok (set_Sysctls o m).
Proof. intros [] ??. by split. Qed.
Lemma ok_set_Envs m o : meta_ok m → wf_map o → meta_ok (set_Envs o m).
Proof. intros [] ?. by split. Qed.
Lemma ok_set_Ports m o :
  meta_ok m → wf_map o → (∀ k v, Get o k = Some v → port_ok k v) → meta_ok (set_Ports o m).
Proof. intros [] ??. by split. Qed.
Lemma ok_set_Ulimits m o :
  meta_ok m → wf_map o → (∀ k v, Get o k = Some v → ulimit_ok v) → meta_ok (set_Ulimits o m).
Proof. intros [] ??. by split. Qed.
Lemma ok_set_Volumes m o :
  meta_ok m → wf_map o → (∀ k v, Get o k = Some v → volume_ok v) → meta_ok (set_Volumes o m).
Proof. intros [] ??. by split. Qed.
Lemma ok_set_Extras m o : meta_ok m → wf_map o → meta_ok (set_Extras o m).
Proof. intros [] ?. by split. Qed.
Lemma ok_set_field m f v : meta_ok m → meta_ok (set_field f v m).
Proof. intros []. by split. Qed.
Lemma ok_set_Privileged m b : meta_ok m → meta_ok (set_Privileged b m).
Proof. intros []. by split. Qed.
Lemma ok_set_Bridged m b : meta_ok m → meta_ok (set_Bridged b m).
Proof. intros []. by split. Qed.
Lemma ok_set_ExecCommands m c : meta_ok m → meta_ok (set_ExecCommands c m).
Proof. intros []. by split. Qed.

#[export] Hint Resolve ok_set_Extras ok_set_Envs ok_set_field ok_set_Privileged
  ok_set_Bridged ok_set_ExecCommands ok_sysctls ok_envs ok_ports ok_ulimits ok_volumes
  ok_extras newMeta_ok : kat.

(** A stored entry: the shape shared by the five container parsers. *)
Lemma SetKey_pair {K V} `{Countable K} (o : OrderedMap K V) k v o' prev :
  SetKey o k v = (o', prev) → o' = (SetKey o k v).1 ∧ prev = Get o k.
Proof. intros E. rewrite <- set_prev with (v := v), E. done. Qed.

Ltac parser_ok :=
  repeat first
    [ progress inv_ok
    | progress simplify_eq/=
    | match goal with
      | H : rbind ?r _ = Ok _ |- _ => destruct r eqn:?; cbn [rbind] in H
      | H : (let '(_, _) := ?x in _) = Ok _ |- _ => destruct x eqn:?
      | H : match ?x with _ => _ end = Ok _ |- _ => destruct x eqn:?
      end ].

Section parsers_ok.
Context `{TextCases}.

Lemma sysctl_value_ok val v : sysctl_value val = Ok v → sysctl_ok v.
Proof.
  unfold sysctl_value. intros Hv. parser_ok; [left|right]; eauto using saturateInt64_ok.
Qed.

Lemma addSysctlMeta_ok mname value m m' r :
  addSysctlMeta mname value m = Ok (m', r) → meta_ok m → meta_ok m'.
Proof.
  unfold addSysctlMeta. intros Hr Hm. parser_ok.
  destruct (SetKey_pair _ _ _ _ _ Heqp) as [-> _]. apply ok_set_Sysctls; auto with kat.
  intros k v. apply (get_set_inv (fun _ => sysctl_ok)); [apply Hm|by eapply sysctl_value_ok].
Qed.

Lemma addEnvMeta_ok mname value m m' r :
  addEnvMeta mname value m = Ok (m', r) → meta_ok m → meta_ok m'.
Proof.
  unfold addEnvMeta. intros Hr Hm. parser_ok.
  destruct (SetKey_pair _ _ _ _ _ Heqp) as [-> _]. auto with kat.
Qed.

Lemma addUlimitMeta_ok mname value m m' r :
  addUlimitMeta mname value m = Ok (m', r) → meta_ok m → meta_ok m'.
Proof.
  unfold addUlimitMeta. intros Hr Hm.
  destruct (FindStringSubmatch _ _) as [c|]; [|done].
  destruct (pyBigInt _) as [soft|] in Hr; [|done]. cbn [rbind] in Hr.
  destruct (if String.eqb _ _ then _ else _) as [hard|] in Hr; [|done]. cbn [rbind] in Hr.
  destruct (ulimit_limits _ _ _ _) as [u|] eqn:Hu in Hr; [|done]. cbn [rbind] in Hr.
  destruct (SetKey _ _ _) as [o prev] eqn:E in Hr. injection Hr as <- <-.
  destruct (SetKey_pair _ _ _ _ _ E) as [-> _]. apply ok_set_Ulimits; auto with kat.
  intros k v. apply (get_set_inv (fun _ => ulimit_ok)); [apply Hm|by eapply ulimit_limits_ok].
Qed.

Lemma addPortMeta_ok mname value m m' r :
  addPortMeta mname value m = Ok (m', r) → meta_ok m → meta_ok m'.
Proof.
  unfold addPortMeta. intros Hr Hm.
  destruct (unpack2 _ _ _) as [[ports protocol]|] in Hr; [|done]. cbn [rbind] in Hr.
  destruct (unpack2 _ _ _) as [[h g]|] in Hr; [|done]. cbn [rbind] in Hr.
  destruct (negb _) eqn:Hp in Hr; [done|]. apply negb_false_iff, str_in_elem in Hp.
  destruct (pyBigInt h) in Hr; [|done]. destruct (pyBigInt g) in Hr; [|done].
  destruct (SetKey _ _ _) as [o prev] eqn:E in Hr. injection Hr as <- <-.
  destruct (SetKey_pair _ _ _ _ _ E) as [-> _]. apply ok_set_Ports; auto with kat.
  intros k v. apply (get_set_inv port_ok); [apply Hm|].
  rewrite !saturateInt_id. split_and!; [done|apply saturateInt64_ok..].
Qed.

Lemma addVolumeMeta_ok cwd mname value m m' r :
  addVolumeMeta cwd value mname m = Ok (m', r) → meta_ok m → meta_ok m'.
Proof.
  unfold addVolumeMeta. intros Hr Hm.
  destruct (volume_parts _ _) as [[[h g] mo]|] in Hr; [|done].
  cbn [rbind] in Hr. destruct (negb _) eqn:Hp in Hr; [done|].
  apply negb_false_iff, str_in_elem in Hp.
  destruct (SetKey _ _ _) as [o prev] eqn:E in Hr. injection Hr as <- <-.
  destruct (SetKey_pair _ _ _ _ _ E) as [-> _]. apply ok_set_Volumes; auto with kat.
  intros k v. apply (get_set_inv (fun _ => volume_ok)); [apply Hm|done].
Qed.

Lemma setScalar_ok name v m : meta_ok m → meta_ok (setScalar name v m).1.
Proof.
  intros Hm. unfold setScalar. destruct (scalarField name); [by apply ok_set_field|].
  destruct (SetKey _ _ _) as [o prev] eqn:E.
  destruct (SetKey_pair _ _ _ _ _ E) as [-> _]. cbn. auto with kat.
Qed.

Lemma addContainerNameMeta_ok name v m : meta_ok m → meta_ok (addContainerNameMeta name v m).1.
Proof.
  intros Hm. unfold addContainerNameMeta. destruct (SetKey _ _ _) as [o prev] eqn:E.
  destruct (SetKey_pair _ _ _ _ _ E) as [-> _]. destruct prev; cbn; auto with kat.
Qed.
End parsers_ok.

Section add_meta_theorems.
Context `{TextCases} (cwd : option string).

Lemma from_result_spec {A} (P : Meta → Prop) (r : result goerror (Meta * A)) m :
  P m → (∀ m' a, r = Ok (m', a) → P m') → P (from_result r m).1.
Proof. intros Hm Hr. unfold from_result. destruct r as [[m' a]|e]; simpl; eauto. Qed.

Lemma from_result_err {A} (r : result goerror (Meta * A)) m m' e :
  from_result r m = (m', Err e) → m' = m.
Proof. unfold from_result. destruct r as [[m2 a]|]; [done|]. by intros [= <- _]. Qed.

(** Every assignment of a meta, accepted or refused, keeps the invariant. *)
Lemma AddMeta_inv mname name value : sinv meta_ok (AddMeta cwd mname name value).
Proof.
  intros m Hm. unfold AddMeta.
  repeat (case_match; [|]);
    try (apply from_result_spec; [done|intros m' a Hr]);
    eauto using addSysctlMeta_ok, addEnvMeta_ok, addUlimitMeta_ok, addPortMeta_ok,
      addVolumeMeta_ok.
  - destruct (addBoolMeta _ _) as [[b r]|]; [|done]. injection Hr as <- _. by apply ok_set_Privileged.
  - simpl. auto with kat.
  - destruct (addBoolMeta _ _) as [[b r]|]; [|done]. injection Hr as <- _. by apply ok_set_Bridged.
  - pose proof (addContainerNameMeta_ok name value m Hm) as Hc.
    by destruct (addContainerNameMeta _ _ _).
  - pose proof (setScalar_ok name (Str value) m Hm) as Hc. by destruct (setScalar _ _ _).
Qed.

Lemma add_all_inv mname name values : sinv meta_ok (add_all cwd mname name values).
Proof.
  apply sinv_for. intros v _. apply sinv_bind; [apply AddMeta_inv|]. intros _. apply sinv_ret.
Qed.

Lemma store_field_inv {A} f (mk : A → Scalar) o : sinv meta_ok (store_field f mk o).
Proof.
  unfold store_field. destruct o; [|apply sinv_ret]. apply sinv_modify. eauto with kat.
Qed.

Lemma when_true_inv mname name o : sinv meta_ok (when_true cwd mname name o).
Proof. destruct o as [[]|]; simpl; try apply sinv_ret. apply add_all_inv. Qed.

Lemma UpdateMeta_inv mname opts : sinv meta_ok (UpdateMeta cwd mname opts).
Proof.
  unfold UpdateMeta.
  repeat (apply sinv_bind; [first [apply when_true_inv|apply add_all_inv|apply store_field_inv]|intros _]).
  apply add_all_inv.
Qed.

(** C22: whatever sequence of [AddMeta] and [UpdateMeta] calls a device has
    seen, accepted or refused, its ulimits satisfy soft <= hard (with -1 for unlimited),
    its ports are int64 with an allowed protocol, its volumes have an allowed mode, its
    sysctls are int64 or strings and its containers are proper ordered maps. *)
Theorem metas_well_formed mname (calls : list (string * string + MetaOptions)) :
  meta_ok (foldl (fun m c => match c with
                             | inl (name, value) => (AddMeta cwd mname name value m).1
                             | inr opts => (UpdateMeta cwd mname opts m).1
                             end) newMeta calls).
Proof.
  apply foldl_inv; [apply newMeta_ok|]. intros m [[name value]|opts] Hm.
  - by apply AddMeta_inv.
  - by apply UpdateMeta_inv.
Qed.

(** A meta that is refused leaves the device's metas exactly as they were. *)
Theorem AddMeta_error_atomic mname name value m m' e :
  AddMeta cwd mname name value m = (m', Err e) → m' = m.
Proof.
  unfold AddMeta. repeat (case_match; [|]);
    first [by apply from_result_err | by intros [=] | by destruct (addContainerNameMeta _ _ _)
          | by destruct (setScalar _ _ _)].
Qed.
End add_meta_theorems.

(** A port written as [host:guest/protocol] is read back as exactly the two
    numbers and the protocol it was written from, and the previous guest port is returned. *)
Theorem port_round_trip mname h g proto m :
  int64_ok h → int64_ok g → proto ∈ allowedPortProtocols →
  addPortMeta mname (Itoa h +:+ ":" +:+ Itoa g +:+ "/" +:+ proto) m =
    Ok (set_Ports (SetKey m.(Ports) (h, proto) g).1 m,
        prev_value VInt (Get m.(Ports) (h, proto))).
Proof.
  intros Hh Hg Hp. unfold addPortMeta.
  assert (contains_byte slash proto = false ∧ ToLower proto = proto) as [Hps Hpl].
  { unfold allowedPortProtocols in Hp. repeat (apply elem_of_cons in Hp as [->|Hp]; [done|]).
    by apply elem_of_nil in Hp. }
  assert (Hn : ∀ n, contains_byte slash (Itoa n) = false ∧ contains_byte colon (Itoa n) = false).
  { intros n. split; by apply Itoa_free. }
  assert (E1 : unpack2 slash (Itoa h +:+ ":" +:+ Itoa g +:+ "/" +:+ proto)
                 (Itoa h +:+ ":" +:+ Itoa g +:+ "/" +:+ proto, "tcp")
               = Ok (Itoa h +:+ ":" +:+ Itoa g, proto)).
  { unfold unpack2.
    rewrite <- (string_app_assoc (Itoa h)), <- (string_app_assoc (Itoa h +:+ ":")).
    rewrite contains_byte_app. change (contains_byte slash ("/" +:+ proto)) with true.
    rewrite orb_true_r. change ("/" +:+ proto) with (String slash proto).
    rewrite split_byte_cons by (rewrite !contains_byte_app, !(proj1 (Hn _)); done).
    rewrite contains_byte_split by done. by rewrite string_app_assoc. }
  rewrite E1. cbn [rbind].
  assert (E2 : unpack2 colon (Itoa h +:+ ":" +:+ Itoa g) ("3000", Itoa h +:+ ":" +:+ Itoa g)
               = Ok (Itoa h, Itoa g)).
  { unfold unpack2. rewrite contains_byte_app. change (contains_byte colon (":" +:+ Itoa g)) with true.
    rewrite orb_true_r. change (":" +:+ Itoa g) with (String colon (Itoa g)).
    rewrite split_byte_cons by apply Hn. by rewrite contains_byte_split by apply Hn. }
  rewrite E2. cbn [rbind]. rewrite Hpl, (proj2 (str_in_elem _ _) Hp), !pyBigInt_Itoa.
  rewrite !saturateInt_id, !saturateInt64_exact by done. cbn [negb].
  destruct (SetKey _ _ _) as [o prev] eqn:E. destruct (SetKey_pair _ _ _ _ _ E) as [-> ->]. done.
Qed.

Lemma port_round_trip_witness :
  addPortMeta "pc1" "8080:80/udp" newMeta =
    Ok (set_Ports (SetKey NewOrderedMap (8080, "udp") 80).1 newMeta, (VNil, false)).
Proof.
  apply (port_round_trip "pc1" 8080 80 "udp" newMeta).
  - split; by vm_compute.
  - split; by vm_compute.
  - right. left.
Defined.

(** What the six typed metas store, on the inputs the vectors of the project fix. *)
Section examples.
#[local] Instance lower_id : TextCases := ToLower.

Example ex_env : (AddMeta None "pc1" "env" "K=1=2" newMeta).1.(Envs)
  = (SetKey NewOrderedMap "K" "1=2").1.
Proof. vm_compute. reflexivity. Qed.
Example ex_sysctl_shallow : ∃ e, AddMeta None "pc1" "sysctl" "net.foo=1" newMeta = (newMeta, Err e).
Proof. eexists. vm_compute. reflexivity. Qed.
Example ex_sysctl : (AddMeta None "pc1" "sysctl" "net.a.b=1" newMeta).1.(Sysctls)
  = (SetKey NewOrderedMap "net.a.b" (Int 1)).1.
Proof. vm_compute. reflexivity. Qed.
Example ex_ulimit : (AddMeta None "pc1" "ulimit" "nofile=9:5" newMeta).1.(Ulimits)
  = (SetKey NewOrderedMap "nofile" (mkUlimit 5 5)).1.
Proof. vm_compute. reflexivity. Qed.
Example ex_volume : (AddMeta (Some "/w") "pc1" "volume" "/a||/b" newMeta).1.(Volumes)
  = (SetKey NewOrderedMap "/a" (mkVolume "/b" "ro")).1.
Proof. vm_compute. reflexivity. Qed.
End examples.

Lemma AddMeta_error_atomic_witness :
  ∃ e, @AddMeta (ToLower : TextCases) None "pc1" "sysctl" "net.foo=1" newMeta = (newMeta, Err e)
       ∧ newMeta = newMeta.
Proof.
  eexists. split; [vm_compute; reflexivity|].
  eapply (@AddMeta_error_atomic (ToLower : TextCases) None "pc1" "sysctl" "net.foo=1" newMeta).
  vm_compute. reflexivity.
Defined.
