(* ===== verification/DepGen.v ===== *)
(** * The dependency graph of lab.dep (labfile/depgen.go)

    Loop detection and the boot order: [HasLoop] finds a cycle of the
    dependency graph, and [Flatten] orders the devices so that each comes
    after everything it depends on.  The recursions take fuel; the fuel given
    by the entry points is shown to be enough on every graph, cyclic ones
    included. *)

From S2P Require Export OrderedMap.
From Stdlib Require Import Sorting.Sorted.
Local Open Scope string_scope.
Local Open Scope list_scope.
Local Open Scope Z_scope.
Local Open Scope kat_scope.

Definition DepGraph : Type := OrderedMap string (list string).
Definition NewDepGraph : DepGraph := NewOrderedMap.

(** The zero value of a missing key: [next, _ := g.Get(val)]. *)
Definition deps (g : DepGraph) (v : string) : list string := default [] (Get g v).

(** Every name some device depends on. *)
Definition dep_values (g : DepGraph) : list string := Entries g ≫= snd.

(** [slices.Contains]. *)
Definition str_contains (l : list string) (s : string) : bool := bool_decide (s ∈ l).

(** ** Loops over calls that may run out of fuel *)

Fixpoint oexists {A} (f : A → option bool) (l : list A) : option bool :=
  match l with
  | [] => Some false
  | x :: l => match f x with
              | None => None
              | Some true => Some true
              | Some false => oexists f l
              end
  end.

Fixpoint ofold {A B} (f : B → A → option B) (acc : B) (l : list A) : option B :=
  match l with
  | [] => Some acc
  | x :: l => match f acc x with None => None | Some acc => ofold f acc l end
  end.

(** ** Loop detection *)

Fixpoint hasLoopFrom (fuel : nat) (dependencies : DepGraph) (seen : list string) (val : string)
    : option bool :=
  match fuel with
  | O => None
  | S fuel =>
      if str_contains seen val then Some true
      else oexists (hasLoopFrom fuel dependencies (seen ++ [val])) (deps dependencies val)
  end.

Definition loop_fuel (g : DepGraph) : nat := S (length (dep_values g)).

Definition HasLoop (dependencies : DepGraph) : bool :=
  default true
    (oexists (fun entry => oexists (hasLoopFrom (loop_fuel dependencies) dependencies []) entry.2)
             (Entries dependencies)).

(** ** The boot order *)

(** [inverted.Set(k, append(inverted.Get(k), v))]. *)
Definition append_at {K V} `{Countable K} (inv : OrderedMap K (list V)) (k : K) (v : V)
    : OrderedMap K (list V) :=
  (SetKey inv k (default [] (Get inv k) ++ [v])).1.

Definition invertDeps (dependencies : DepGraph) : DepGraph :=
  foldl (fun inv entry => foldl (fun inv dep => append_at inv dep entry.1) inv entry.2)
        NewDepGraph (Entries dependencies).

Definition invertOrder (order : OrderedMap string Z) : OrderedMap Z (list string) :=
  foldl (fun inv entry => append_at inv entry.2 entry.1) NewOrderedMap (Entries order).

Definition merge_one (results : OrderedMap string Z) (entry : string * Z) : OrderedMap string Z :=
  if default 0 (Get results entry.1) <? entry.2 then (SetKey results entry.1 entry.2).1
  else results.

Definition mergeMax (results other : OrderedMap string Z) : OrderedMap string Z :=
  foldl merge_one results (Entries other).

Fixpoint orderFrom (fuel : nat) (inverted : DepGraph) (val : string) (level : Z)
    (path : list string) : option (OrderedMap string Z) :=
  match fuel with
  | O => None
  | S fuel =>
      let results := (SetKey NewOrderedMap val level).1 in
      let path := path ++ [val] in
      ofold (fun results dep =>
               if str_contains path dep then Some results
               else match orderFrom fuel inverted dep (level + 1) path with
                    | None => None
                    | Some o => Some (mergeMax results o)
                    end)
            results (deps inverted val)
  end.

Definition seed (results : OrderedMap string Z) (k : string) : OrderedMap string Z :=
  if Has results k then results else (SetKey results k 0).1.

Definition orderAll (fuel : nat) (inverted : DepGraph) : option (OrderedMap string Z) :=
  ofold (fun results entry =>
           ofold (fun results dep =>
                    match orderFrom fuel inverted dep 1 [] with
                    | None => None
                    | Some o => Some (mergeMax (seed results entry.1) o)
                    end)
                 results entry.2)
        NewOrderedMap (Entries inverted).

(** [slices.Sort] on ints. *)
Definition sort_ints (l : list Z) : list Z := SortStable (fun a b => a - b) l.

Definition FlattenFuel (fuel : nat) (dependencies : DepGraph) : option (list string) :=
  match orderAll fuel (invertDeps dependencies) with
  | None => None
  | Some order =>
      let byDepth := invertOrder order in
      let depths := sort_ints (Keys byDepth) in
      Some (foldl (fun output depth => output ++ default [] (Get byDepth depth)) [] depths)
  end.

Definition Flatten (dependencies : DepGraph) : list string :=
  default [] (FlattenFuel (loop_fuel (invertDeps dependencies)) dependencies).

Definition graph_of (l : list (string * list string)) : DepGraph :=
  foldl (fun g e => (SetKey g e.1 e.2).1) NewDepGraph l.

Example flatten_chain :
  Flatten (graph_of [("a", ["b"; "c"]); ("b", ["c"]); ("d", ["a"])]) = ["c"; "b"; "a"; "d"].
Proof. vm_compute. reflexivity. Qed.
Example loop_two : HasLoop (graph_of [("a", ["b"]); ("b", ["a"])]) = true.
Proof. vm_compute. reflexivity. Qed.
Example flatten_cyclic : Flatten (graph_of [("a", ["b"]); ("b", ["a"])]) = ["b"; "a"].
Proof. vm_compute. reflexivity. Qed.
Example no_loop : HasLoop (graph_of [("a", ["b"; "c"]); ("b", ["c"]); ("d", ["a"])]) = false.
Proof. vm_compute. reflexivity. Qed.

(** ** Generic lemmas *)

Lemma oexists_total {A} (f : A → option bool) l :
  (∀ x, x ∈ l → is_Some (f x)) → is_Some (oexists f l).
Proof.
  induction l as [|x l IH]; intros Hf; simpl; [eauto|].
  destruct (Hf x) as [[] ->]; [by left|eauto|]. apply IH. intros y Hy. apply Hf. by right.
Qed.

Lemma oexists_true {A} (f : A → option bool) l :
  oexists f l = Some true → ∃ x, x ∈ l ∧ f x = Some true.
Proof.
  induction l as [|x l IH]; simpl; [done|]. destruct (f x) as [[]|] eqn:E; [|..|done].
  - intros _. exists x. split; [by left|done].
  - intros (y & Hy & ?)%IH. exists y. split; [by right|done].
Qed.

Lemma oexists_false {A} (f : A → option bool) l :
  oexists f l = Some false → ∀ x, x ∈ l → f x = Some false.
Proof.
  induction l as [|x l IH]; simpl; [by intros _ x ?%elem_of_nil|].
  destruct (f x) as [[]|] eqn:E; try done. intros Hl y [->|Hy]%elem_of_cons; auto.
Qed.

Lemma ofold_total {A B} (f : B → A → option B) l acc :
  (∀ acc x, x ∈ l → is_Some (f acc x)) → is_Some (ofold f acc l).
Proof.
  revert acc. induction l as [|x l IH]; intros acc Hf; simpl; [eauto|].
  destruct (Hf acc x) as [acc' ->]; [by left|]. apply IH. intros ???. apply Hf. by right.
Qed.

(** The invariant of a successful fold may speak of the elements consumed. *)
Lemma ofold_inv {A B} (P : list A → B → Prop) (f : B → A → option B) l acc r :
  ofold f acc l = Some r → P [] acc →
  (∀ done acc x acc', x ∈ l → P done acc → f acc x = Some acc' → P (done ++ [x]) acc') →
  P l r.
Proof.
  assert (Hgen : ∀ l d acc, ofold f acc l = Some r → P d acc →
    (∀ done acc x acc', x ∈ l → P done acc → f acc x = Some acc' → P (done ++ [x]) acc') →
    P (d ++ l) r).
  { clear. induction l as [|x l IH]; intros d acc; simpl.
    - intros [= ->] ? _. by rewrite app_nil_r.
    - destruct (f acc x) as [acc'|] eqn:E; [|done]. intros Hr Hd Hstep.
      rewrite cons_middle, app_assoc. eapply IH; [done| |].
      + eapply Hstep; eauto. by left.
      + intros. eapply Hstep; eauto. by right. }
  intros Hr H0 Hs. apply (Hgen l [] acc Hr H0 Hs).
Qed.

(** Two nested loops are one loop over the pairs. *)
Lemma foldl_nested {A B C K} (h : A → K) (f : C → K → B → C) (g : A → list B) l acc :
  foldl (fun acc x => foldl (fun acc y => f acc (h x) y) acc (g x)) acc l =
  foldl (fun acc p => f acc p.1 p.2) acc (l ≫= fun x => (h x,.) <$> g x).
Proof.
  revert acc. induction l as [|x l IH]; intros acc; [done|].
  cbn [foldl mbind list_bind]. rewrite foldl_app, IH. f_equal.
  generalize acc. clear. induction (g x) as [|y l IH]; intros acc; [done|]. simpl. apply IH.
Qed.

Lemma ofold_app {A B} (f : B → A → option B) l1 l2 acc :
  ofold f acc (l1 ++ l2) =
  match ofold f acc l1 with None => None | Some acc => ofold f acc l2 end.
Proof.
  revert acc. induction l1 as [|x l1 IH]; intros acc; [done|]. simpl.
  destruct (f acc x); [apply IH|done].
Qed.

Lemma ofold_nested {A B C K} (h : A → K) (f : C → K → B → option C) (g : A → list B) l acc :
  ofold (fun acc x => ofold (fun acc y => f acc (h x) y) acc (g x)) acc l =
  ofold (fun acc p => f acc p.1 p.2) acc (l ≫= fun x => (h x,.) <$> g x).
Proof.
  revert acc. induction l as [|x l IH]; intros acc; [done|].
  cbn [ofold mbind list_bind]. rewrite ofold_app.
  assert (Hx : ∀ acc, ofold (fun acc p => f acc p.1 p.2) acc ((h x,.) <$> g x) =
               ofold (fun acc y => f acc (h x) y) acc (g x)).
  { clear. induction (g x) as [|y l IH]; intros acc; [done|]. simpl.
    destruct (f acc (h x) y); [apply IH|done]. }
  rewrite Hx. destruct (ofold _ acc (g x)); [apply IH|done].
Qed.

(** ** The graph as a relation *)

(** [depends g a b]: device [a] lists [b] among its dependencies. *)
Definition depends (g : DepGraph) (a b : string) : Prop := b ∈ deps g a.

Definition acyclic {A} (R : A → A → Prop) : Prop := ∀ v, ¬ tc R v v.

Definition edges (g : DepGraph) : list (string * string) :=
  Entries g ≫= fun e => (e.1,.) <$> e.2.

Lemma elem_of_edges g a b : wf_map g → (a, b) ∈ edges g ↔ depends g a b.
Proof.
  intros Hwf. unfold edges, depends, deps. rewrite list_elem_of_bind. split.
  - intros ([a' l] & (b' & E & Hb)%list_elem_of_fmap & He). simpl in *. simplify_eq.
    apply elem_of_entries in He; [|done]. by rewrite He.
  - destruct (Get g a) as [l|] eqn:E; simpl; [|by intros ?%elem_of_nil]. intros Hb.
    exists (a, l). split; [by apply list_elem_of_fmap; eauto|by apply elem_of_entries].
Qed.

Lemma elem_of_dep_values g b : wf_map g → b ∈ dep_values g ↔ ∃ a, depends g a b.
Proof.
  intros Hwf. unfold dep_values. rewrite list_elem_of_bind. split.
  - intros ([a l] & Hb & He). exists a. unfold depends, deps.
    apply elem_of_entries in He; [|done]. by rewrite He.
  - intros [a Hb]. unfold depends, deps in Hb.
    destruct (Get g a) as [l|] eqn:E; simpl in Hb; [|by apply elem_of_nil in Hb].
    exists (a, l). split; [done|by apply elem_of_entries].
Qed.

Lemma str_contains_true l s : str_contains l s = true ↔ s ∈ l.
Proof. apply bool_decide_eq_true. Qed.
Lemma str_contains_false l s : str_contains l s = false ↔ s ∉ l.
Proof. apply bool_decide_eq_false. Qed.

(** A path without repetition inside the graph is shorter than the fuel. *)
Lemma path_bound g (path : list string) :
  NoDup path → (∀ v, v ∈ path → v ∈ dep_values g) → (length path < loop_fuel g)%nat.
Proof.
  intros Hnd Hsub. unfold loop_fuel.
  enough (length path ≤ length (dep_values g))%nat by lia.
  by apply submseteq_length, NoDup_submseteq.
Qed.

Lemma tc_first_step {A} (R : A → A → Prop) x z : tc R x z → ∃ y, R x y ∧ rtc R y z.
Proof.
  intros [x' y Hxy|x' y z' Hxy Hyz]; [exists y; split; [done|constructor]|].
  exists y. split; [done|by apply tc_rtc].
Qed.

(** ** Loop detection is correct *)

Section loop_detection.
Context (g : DepGraph) (Hwf : wf_map g).

Lemma hasLoopFrom_total fuel : ∀ seen val,
  NoDup seen → (∀ v, v ∈ seen → v ∈ dep_values g) → val ∈ dep_values g →
  (loop_fuel g ≤ fuel + length seen)%nat → is_Some (hasLoopFrom fuel g seen val).
Proof.
  induction fuel as [|fuel IH]; intros seen val Hnd Hsub Hval Hfuel; simpl.
  { pose proof (path_bound g seen Hnd Hsub). lia. }
  destruct (str_contains seen val) eqn:Hs; [eauto|]. apply str_contains_false in Hs.
  apply oexists_total. intros d Hd. apply IH.
  - apply NoDup_app. split_and!; [done| |apply NoDup_singleton].
    by intros x Hx ->%list_elem_of_singleton.
  - intros v [| ->%list_elem_of_singleton]%elem_of_app; auto.
  - apply elem_of_dep_values; [done|]. by exists val.
  - rewrite length_app. simpl. lia.
Qed.

Lemma hasLoopFrom_sound fuel : ∀ seen val,
  hasLoopFrom fuel g seen val = Some true →
  ∃ v, rtc (depends g) val v ∧ (v ∈ seen ∨ tc (depends g) v v).
Proof.
  induction fuel as [|fuel IH]; intros seen val; simpl; [done|].
  destruct (str_contains seen val) eqn:Hs.
  { apply str_contains_true in Hs. intros _. exists val. split; [constructor|by left]. }
  intros (d & Hd & (v & Hv & Hc)%IH)%oexists_true. change (depends g val d) in Hd.
  destruct Hc as [[Hc| ->%list_elem_of_singleton]%elem_of_app|Hc].
  - exists v. split; [by econstructor|by left].
  - exists val. split; [constructor|]. right. by eapply tc_rtc_r; [constructor|].
  - exists v. split; [by econstructor|by right].
Qed.

Lemma hasLoopFrom_complete fuel : ∀ seen val,
  hasLoopFrom fuel g seen val = Some false →
  ∀ v, rtc (depends g) val v → v ∉ seen ∧ ¬ tc (depends g) v v.
Proof.
  induction fuel as [|fuel IH]; intros seen val; simpl; [done|].
  destruct (str_contains seen val) eqn:Hs; [done|]. apply str_contains_false in Hs.
  intros Hf v Hv.
  assert (Hd : ∀ d w, depends g val d → rtc (depends g) d w →
               w ∉ seen ++ [val] ∧ ¬ tc (depends g) w w).
  { intros d w Hd Hw. eapply IH; [by eapply oexists_false|done]. }
  apply rtc_inv in Hv as [<-|(d & Hstep & Hv)].
  - split; [done|]. intros Hc. apply tc_first_step in Hc as (d & Hc & Hr).
    destruct (Hd d val Hc) as [Hn _]; [done|]. apply Hn, elem_of_app. right. by left.
  - destruct (Hd d v Hstep Hv) as [Hn Hc]. split; [|done]. intros Hin.
    apply Hn, elem_of_app. by left.
Qed.

(** Every node of a cycle is a dependency. *)
Lemma HasLoop_spec : HasLoop g = true ↔ ∃ v, tc (depends g) v v.
Proof.
  unfold HasLoop.
  set (outer := oexists _ _).
  assert (Hval : ∀ e v, e ∈ Entries g → v ∈ e.2 → depends g e.1 v).
  { intros [a l] v He Hv. apply elem_of_entries in He; [|done].
    unfold depends, deps. simpl. by rewrite He. }
  assert (is_Some outer) as [b Hb].
  { apply oexists_total. intros e He. apply oexists_total. intros v Hv.
    apply hasLoopFrom_total; [apply NoDup_nil_2|by intros ? ?%elem_of_nil| |cbn [length]; lia].
    apply elem_of_dep_values; eauto. }
  rewrite Hb. simpl. destruct b.
  - split; [intros _|done].
    apply oexists_true in Hb as (e & He & (v & Hv & Hl)%oexists_true).
    apply hasLoopFrom_sound in Hl as (w & _ & [Hw|Hw]); [by apply elem_of_nil in Hw|eauto].
  - split; [done|]. intros (v & Hc). exfalso.
    assert (∃ u, depends g u v) as [u Hu].
    { clear -Hc. induction Hc as [x y Hxy|x y z Hxy _ IH]; eauto. }
    unfold depends, deps in Hu. destruct (Get g u) as [l|] eqn:E; simpl in Hu;
      [|by apply elem_of_nil in Hu].
    apply elem_of_entries in E; [|done].
    pose proof (oexists_false _ _ Hb _ E) as Hin. cbn [snd] in Hin.
    pose proof (oexists_false _ _ Hin _ Hu) as Hl.
    destruct (hasLoopFrom_complete _ _ _ Hl v) as [_ Hno]; [constructor|done].
Qed.
End loop_detection.

(** ** Inverting *)

Section append_at.
Context {K V : Type} `{Countable K}.

Lemma wf_append_at (inv : OrderedMap K (list V)) k v : wf_map inv → wf_map (append_at inv k v).
Proof. apply wf_set. Qed.

Lemma get_append_at (inv : OrderedMap K (list V)) k v k' :
  Get (append_at inv k v) k' =
  if decide (k = k') then Some (default [] (Get inv k) ++ [v]) else Get inv k'.
Proof.
  unfold append_at. destruct (decide (k = k')) as [->|Hne].
  - apply get_set_eq.
  - by apply get_set_ne.
Qed.

(** Inverting a list of [(value, key)] pairs. *)
Definition invert_pairs (l : list (V * K)) (inv : OrderedMap K (list V)) : OrderedMap K (list V) :=
  foldl (fun inv p => append_at inv p.2 p.1) inv l.

Definition values_at (k : K) (l : list (V * K)) : list V :=
  (List.filter (fun p => bool_decide (p.2 = k)) l).*1.

Lemma wf_invert_pairs l inv : wf_map inv → wf_map (invert_pairs l inv).
Proof. intros Hinv. unfold invert_pairs. apply foldl_inv; [done|]. intros. by apply wf_append_at. Qed.

Lemma get_invert_pairs l k : ∀ inv,
  default [] (Get (invert_pairs l inv) k) = default [] (Get inv k) ++ values_at k l.
Proof.
  induction l as [|[v k'] l IH]; intros inv; [simpl; by rewrite app_nil_r|].
  cbn [invert_pairs foldl fst snd]. fold (invert_pairs l (append_at inv k' v)).
  rewrite IH, get_append_at. unfold values_at. cbn [List.filter snd].
  destruct (decide (k' = k)) as [->|Hne].
  - rewrite bool_decide_eq_true_2 by done. simpl. by rewrite <- app_assoc.
  - by rewrite bool_decide_eq_false_2 by done.
Qed.

Lemma has_invert_pairs l k : ∀ inv,
  Has (invert_pairs l inv) k = true ↔ Has inv k = true ∨ k ∈ l.*2.
Proof.
  induction l as [|[v k'] l IH]; intros inv.
  { simpl. split; [by left|]. intros [?|Hk]; [done|by apply elem_of_nil in Hk]. }
  cbn [invert_pairs foldl fst snd fmap list_fmap]. fold (invert_pairs l (append_at inv k' v)).
  rewrite IH, elem_of_cons, !has_get, get_append_at.
  destruct (decide (k' = k)) as [->|Hne]; [|naive_solver]. split; eauto.
Qed.

Lemma elem_of_values_at k l v : v ∈ values_at k l ↔ (v, k) ∈ l.
Proof.
  unfold values_at. rewrite list_elem_of_fmap. split.
  - intros ([v' k'] & -> & [Hin Hk%bool_decide_eq_true]%elem_of_lfilter). by simplify_eq/=.
  - intros Hin. exists (v, k). rewrite elem_of_lfilter. split; [done|].
    split; [done|]. by apply bool_decide_eq_true.
Qed.
End append_at.

Lemma invertDeps_pairs g : invertDeps g = invert_pairs (edges g) NewDepGraph.
Proof.
  unfold invertDeps, invert_pairs, edges.
  apply (foldl_nested fst (fun inv a dep => append_at inv dep a) snd).
Qed.

Lemma wf_invertDeps g : wf_map (invertDeps g).
Proof. rewrite invertDeps_pairs. apply wf_invert_pairs, wf_new. Qed.

(** Inverting the graph inverts the relation. *)
Lemma invertDeps_spec g a b : wf_map g → depends (invertDeps g) b a ↔ depends g a b.
Proof.
  intros Hwf. unfold depends at 1, deps. rewrite invertDeps_pairs, get_invert_pairs.
  change (default [] (Get NewDepGraph b)) with (default [] (Get (@NewOrderedMap string (list string) _ _) b)).
  rewrite get_new. simpl. by rewrite elem_of_values_at, elem_of_edges.
Qed.

(** ** Maps that hold maxima

    [sup r S]: [r] maps each name of the set [S] of candidate depths to one of
    its candidates, no smaller than the others. *)
Definition sup (r : OrderedMap string Z) (S : string → Z → Prop) : Prop :=
  wf_map r ∧ (∀ x n, Get r x = Some n → S x n) ∧
  ∀ x n, S x n → ∃ m, Get r x = Some m ∧ n <= m.

Lemma sup_ext r (S T : string → Z → Prop) : (∀ x n, S x n ↔ T x n) → sup r S → sup r T.
Proof.
  intros HST (Hwf & Ha & Hb). split_and!; [done| |].
  - intros x n ?. by apply HST, Ha.
  - intros x n ?. by apply Hb, HST.
Qed.

Definition raise_to (a : option Z) (b : Z) : option Z := if default 0 a <? b then Some b else a.

Lemma get_merge_one r k b x :
  Get (merge_one r (k, b)) x = if decide (k = x) then raise_to (Get r x) b else Get r x.
Proof.
  unfold merge_one, raise_to. cbn [fst snd]. destruct (decide (k = x)) as [->|Hne].
  - destruct (_ <? _); [apply get_set_eq|done].
  - destruct (_ <? _); [by apply get_set_ne|done].
Qed.

Lemma merge_list_notin l x : ∀ r, x ∉ l.*1 → Get (foldl merge_one r l) x = Get r x.
Proof.
  induction l as [|[k b] l IH]; intros r; [done|]. cbn [foldl fmap list_fmap fst].
  intros [Hne Hx]%not_elem_of_cons. by rewrite IH, get_merge_one, decide_False by done.
Qed.

Lemma merge_list_in l x b : ∀ r,
  NoDup l.*1 → (x, b) ∈ l → Get (foldl merge_one r l) x = raise_to (Get r x) b.
Proof.
  induction l as [|[k b'] l IH]; intros r; [by intros _ ?%elem_of_nil|].
  cbn [foldl fmap list_fmap fst]. intros [Hk Hnd]%NoDup_cons [[= -> ->]|Hx]%elem_of_cons.
  - rewrite merge_list_notin, get_merge_one by done. by rewrite decide_True.
  - rewrite IH, get_merge_one by done. rewrite decide_False; [done|].
    intros ->. apply Hk, list_elem_of_fmap. by exists (x, b).
Qed.

Lemma get_mergeMax r o x :
  wf_map o →
  Get (mergeMax r o) x = match Get o x with Some b => raise_to (Get r x) b | None => Get r x end.
Proof.
  intros Hwf. unfold mergeMax. destruct (Get o x) as [b|] eqn:E.
  - apply merge_list_in; [|by apply elem_of_entries]. rewrite entries_keys by done. apply Hwf.
  - apply merge_list_notin. rewrite entries_keys by done.
    change (x ∉ Keys o). rewrite elem_of_keys, has_get, E by done. by intros [].
Qed.

Lemma wf_mergeMax r o : wf_map r → wf_map (mergeMax r o).
Proof.
  intros Hr. unfold mergeMax. apply foldl_inv; [done|]. intros r' [k b] Hr'.
  unfold merge_one. destruct (_ <? _); [by apply wf_set|done].
Qed.

Lemma sup_mergeMax r o S T :
  sup r S → sup o T → (∀ x n, T x n → 0 < n) → sup (mergeMax r o) (fun x n => S x n ∨ T x n).
Proof.
  intros (Hr & Ha & Hb) (Ho & Ha' & Hb') Hpos. split_and!; [by apply wf_mergeMax| |].
  - intros x n. rewrite get_mergeMax by done. unfold raise_to.
    destruct (Get o x) as [b|] eqn:E; [|eauto].
    destruct (_ <? _); [|eauto]. intros [= <-]. eauto.
  - intros x n Hn. rewrite get_mergeMax by done. unfold raise_to.
    assert (Hor : (∃ a, Get r x = Some a ∧ n <= a) ∨
                  ∃ b, Get o x = Some b ∧ n <= b ∧ 0 < b) by naive_solver.
    destruct (Get o x) as [b|] eqn:E, (Get r x) as [a|] eqn:F; simpl;
      try (destruct (Z.ltb_spec a b)); try (destruct (Z.ltb_spec 0 b)); naive_solver lia.
Qed.

(** ** Depths are longest paths *)

(** The depths a walk of the relation [E] from [val], entered at [level], reaches. *)
Definition walks (E : string → string → Prop) (val : string) (level : Z) : string → Z → Prop :=
  fun x n => ∃ k, nsteps E k val x ∧ n = level + Z.of_nat k.

Section depths.
Context (inv : DepGraph) (Hwf : wf_map inv).
Notation E := (depends inv).

Lemma orderFrom_total fuel : ∀ val level path,
  NoDup (path ++ [val]) → (∀ v, v ∈ path ++ [val] → v ∈ dep_values inv) →
  (loop_fuel inv ≤ fuel + length path)%nat → is_Some (orderFrom fuel inv val level path).
Proof.
  induction fuel as [|fuel IH]; intros val level path Hnd Hsub Hfuel; cbn [orderFrom].
  { pose proof (path_bound inv _ Hnd Hsub) as Hb. rewrite length_app in Hb. simpl in Hb. lia. }
  apply ofold_total. intros acc d Hd. destruct (str_contains _ d) eqn:Hc; [eauto|].
  apply str_contains_false in Hc.
  destruct (IH d (level + 1) (path ++ [val])) as [o ->]; [| | |eauto].
  - apply NoDup_app. split_and!; [done| |apply NoDup_singleton].
    by intros x Hx ->%list_elem_of_singleton.
  - intros v [| ->%list_elem_of_singleton]%elem_of_app; [auto|].
    apply elem_of_dep_values; [done|]. by exists val.
  - rewrite length_app. simpl. lia.
Qed.

Lemma orderFrom_sup (Hacy : acyclic E) fuel : ∀ val level path r,
  0 < level → (∀ p, p ∈ path → rtc E p val) →
  orderFrom fuel inv val level path = Some r → sup r (walks E val level).
Proof.
  induction fuel as [|fuel IH]; intros val level path r Hlev Hpath; cbn [orderFrom]; [done|].
  intros Hr.
  assert (Hfin : sup r (fun x n => walks E val level x n ∧ (x, n) = (val, level) ∨
                   ∃ d, d ∈ deps inv val ∧ walks E d (level + 1) x n)).
  { apply (ofold_inv (fun ds r => sup r (fun x n =>
      walks E val level x n ∧ (x, n) = (val, level) ∨ ∃ d, d ∈ ds ∧ walks E d (level + 1) x n))
      _ _ _ _ Hr).
    - split_and!; [apply wf_set, wf_new| |].
      + intros x n. destruct (decide (val = x)) as [<-|Hne].
        * rewrite get_set_eq. intros [= <-]. left. split; [|done].
          exists 0%nat. split; [constructor|lia].
        * by rewrite get_set_ne, get_new by done.
      + intros x n [[_ [= -> ->]]|(d & Hd & _)]; [|by apply elem_of_nil in Hd].
        exists level. rewrite get_set_eq. split; [done|lia].
    - intros ds acc d acc' Hd Hacc. destruct (str_contains _ d) eqn:Hc.
      { apply str_contains_true in Hc. exfalso. apply (Hacy d). 
        apply elem_of_app in Hc as [Hc| ->%list_elem_of_singleton].
        - eapply tc_rtc_l; [by apply Hpath|]. by constructor.
        - by constructor. }
      destruct (orderFrom fuel inv d _ _) as [o|] eqn:Ho; [|done]. intros [= <-].
      apply IH in Ho; [|lia|].
      + eapply sup_ext; [|apply sup_mergeMax; [exact Hacc|exact Ho|]].
        * intros x n. setoid_rewrite elem_of_app. setoid_rewrite list_elem_of_singleton. naive_solver.
        * intros x n (k & _ & ->). lia.
      + intros p [Hp| ->%list_elem_of_singleton]%elem_of_app.
        * eapply rtc_r; [by apply Hpath|done].
        * by apply rtc_once. }
  revert Hfin. apply sup_ext. intros x n. split.
  - intros [[? _]|(d & Hd & k & Hk & ->)]; [done|]. exists (S k). split; [by econstructor|lia].
  - intros ([|k] & Hk & ->).
    + inversion Hk; subst. left. split; [|f_equal; lia]. exists 0%nat. split; [done|lia].
    + inversion Hk as [|? ? d ? Hd Hk']; subst. right. exists d. split; [done|].
      exists k. split; [done|lia].
Qed.

Definition order_step (fuel : nat) (results : OrderedMap string Z) (b d : string)
    : option (OrderedMap string Z) :=
  match orderFrom fuel inv d 1 [] with
  | None => None
  | Some o => Some (mergeMax (seed results b) o)
  end.

Lemma orderAll_pairs fuel :
  orderAll fuel inv = ofold (fun r p => order_step fuel r p.1 p.2) NewOrderedMap (edges inv).
Proof. apply (ofold_nested fst (order_step fuel) snd). Qed.

Lemma orderAll_total fuel : (loop_fuel inv ≤ fuel)%nat → is_Some (orderAll fuel inv).
Proof.
  intros Hfuel. rewrite orderAll_pairs. apply ofold_total. intros acc [b d] Hbd.
  apply elem_of_edges in Hbd; [|done]. unfold order_step. cbn [fst snd].
  destruct (orderFrom_total fuel d 1 []) as [o ->]; [| |cbn [length]; lia|eauto].
  - apply NoDup_singleton.
  - intros v [Hv| ->%list_elem_of_singleton]%elem_of_app; [by apply elem_of_nil in Hv|].
    apply elem_of_dep_values; eauto.
Qed.

Lemma sup_seed r (S : string → Z → Prop) b :
  (∀ x n, S x n → 0 <= n) → sup r S → sup (seed r b) (fun x n => S x n ∨ (x, n) = (b, 0)).
Proof.
  intros Hpos (Hr & Ha & Hb). unfold seed. destruct (Has r b) eqn:Hh.
  - apply has_get in Hh as [n Hn]. split_and!; [done|eauto|].
    intros x m [?|[= -> ->]]; [eauto|]. exists n. eauto.
  - apply has_get_false in Hh. split_and!; [by apply wf_set| |].
    + intros x n. destruct (decide (b = x)) as [<-|Hne].
      * rewrite get_set_eq. intros [= <-]. by right.
      * rewrite get_set_ne by done. eauto.
    + intros x n [Hn|[= -> ->]].
      * destruct (decide (b = x)) as [<-|Hne]; [|rewrite get_set_ne by done; eauto].
        destruct (Hb _ _ Hn) as (m & Hm & _). congruence.
      * exists 0. rewrite get_set_eq. split; [done|lia].
Qed.
End depths.

(** The candidate depths of a name: the lengths of the walks into it. *)
Definition depth_of (E : string → string → Prop) (x : string) (n : Z) : Prop :=
  ∃ b d, E b d ∧ walks E b 0 x n.

Lemma orderAll_sup inv fuel order :
  wf_map inv → acyclic (depends inv) → orderAll fuel inv = Some order →
  sup order (depth_of (depends inv)).
Proof.
  intros Hwf Hacy Hr. rewrite orderAll_pairs in Hr by done.
  set (cover := fun (ps : list (string * string)) x n => ∃ p, p ∈ ps ∧
     ((x, n) = (p.1, 0) ∨ walks (depends inv) p.2 1 x n)).
  assert (Hcov : sup order (cover (edges inv))).
  { apply (ofold_inv (fun ps r => sup r (cover ps)) _ _ _ _ Hr).
    - split_and!; [apply wf_new| |].
      + intros x n. by rewrite get_new.
      + by intros x n (p & Hp%elem_of_nil & _).
    - intros ps acc [b d] acc' Hbd Hacc. unfold order_step. cbn [fst snd].
      destruct (orderFrom fuel inv d 1 []) as [o|] eqn:Ho; [|done]. intros [= <-].
      apply orderFrom_sup in Ho; [|done..|by intros p ?%elem_of_nil].
      eapply sup_ext; [|apply sup_mergeMax; [apply sup_seed; [|exact Hacc]|exact Ho|]].
      + intros x n. unfold cover. setoid_rewrite elem_of_app.
        setoid_rewrite list_elem_of_singleton. naive_solver.
      + intros x n (p & _ & [[= _ ->]|(k & _ & ->)]); lia.
      + intros x n (k & _ & ->). lia. }
  revert Hcov. apply sup_ext. intros x n. split.
  - intros ([b d] & Hbd%elem_of_edges & [[= -> ->]|(k & Hk & ->)]); [| |done]; exists b, d.
    + split; [done|]. exists 0%nat. split; [constructor|done].
    + split; [done|]. exists (S k). split; [by econstructor|lia].
  - intros (b & d & Hbd & [|k] & Hk & ->).
    + inversion Hk; subst. exists (x, d). split; [by apply elem_of_edges|by left].
    + inversion Hk as [|? ? d' ? Hd Hk']; subst. exists (b, d'). split; [by apply elem_of_edges|].
      right. exists k. split; [done|lia].
Qed.

(** ** Grouping by depth *)

(** The names of [l] at each of the given depths, in that order. *)
Definition by_depth (l : list (string * Z)) (ds : list Z) : list string :=
  ds ≫= fun d => values_at d l.

Lemma elem_of_by_depth l ds x : x ∈ by_depth l ds ↔ ∃ d, d ∈ ds ∧ (x, d) ∈ l.
Proof. unfold by_depth. rewrite list_elem_of_bind. setoid_rewrite elem_of_values_at. naive_solver. Qed.

Lemma NoDup_by_depth l ds : NoDup l.*1 → NoDup ds → NoDup (by_depth l ds).
Proof.
  intros Hl. assert (Hf : ∀ x d d', (x, d) ∈ l → (x, d') ∈ l → d = d').
  { intros x d d' [i Hi]%list_elem_of_lookup [j Hj]%list_elem_of_lookup.
    assert (i = j) as ->; [|congruence].
    eapply NoDup_lookup; [exact Hl|..]; rewrite list_lookup_fmap; [by rewrite Hi|by rewrite Hj]. }
  induction 1 as [|d ds Hd _ IH]; [apply NoDup_nil_2|]. cbn [by_depth mbind list_bind].
  apply NoDup_app. split_and!; [| |done].
  - unfold values_at. clear -Hl. induction l as [|[x n] l IHl]; [apply NoDup_nil_2|].
    cbn [fmap list_fmap fst] in Hl. apply NoDup_cons in Hl as [Hx Hl]. cbn [List.filter snd].
    destruct (bool_decide _); [|auto]. cbn [fmap list_fmap fst]. apply NoDup_cons. split; [|auto].
    intros ([y m] & -> & [Hin _]%elem_of_lfilter)%list_elem_of_fmap. apply Hx, list_elem_of_fmap. eauto.
  - intros x Hx (d' & Hd' & Hx')%elem_of_by_depth. apply elem_of_values_at in Hx.
    by rewrite (Hf _ _ _ Hx Hx') in Hd.
Qed.

(** [before x y l]: [x] occurs in [l] before [y]. *)
Definition before {A} (x y : A) (l : list A) : Prop := ∃ l1 l2, l = l1 ++ y :: l2 ∧ x ∈ l1.

Lemma by_depth_before l ds x y n m :
  StronglySorted Z.le ds → NoDup ds → (x, n) ∈ l → (y, m) ∈ l → n ∈ ds → m ∈ ds → n < m →
  before x y (by_depth l ds).
Proof.
  intros Hs Hnd Hx Hy Hn Hm Hlt.
  apply list_elem_of_split in Hm as (d1 & d2 & ->).
  assert (Hn1 : n ∈ d1).
  { apply elem_of_app in Hn as [Hn|[->|Hn]%elem_of_cons]; [done|lia|].
    clear -Hs Hn Hlt. induction d1 as [|d d1 IH].
    - inversion Hs as [|? ? _ Hall]; subst. rewrite List.Forall_forall in Hall.
      apply list_elem_of_In in Hn. specialize (Hall n Hn). lia.
    - right. apply IH. by inversion Hs. }
  assert (Hv : y ∈ values_at m l) by by apply elem_of_values_at.
  apply list_elem_of_split in Hv as (v1 & v2 & Ev).
  exists (by_depth l d1 ++ v1), (v2 ++ by_depth l d2). split.
  - unfold by_depth. rewrite bind_app. cbn [mbind list_bind]. rewrite Ev.
    by rewrite <- !app_assoc.
  - apply elem_of_app. left. apply elem_of_by_depth. eauto.
Qed.

Lemma sort_ints_sorted l : StronglySorted Z.le (sort_ints l).
Proof. apply (SortStable_sorted (fun z => z)). Qed.

Lemma FlattenFuel_by_depth fuel g order :
  orderAll fuel (invertDeps g) = Some order →
  FlattenFuel fuel g = Some (by_depth (Entries order) (sort_ints (Keys (invertOrder order)))).
Proof.
  intros Ho. unfold FlattenFuel. rewrite Ho. f_equal. unfold by_depth.
  assert (Hg : ∀ d, default [] (Get (invertOrder order) d) = values_at d (Entries order)).
  { intros d. unfold invertOrder. fold (invert_pairs (Entries order) (@NewOrderedMap Z (list string) _ _)).
    by rewrite get_invert_pairs, get_new. }
  enough (Hall : ∀ ds acc,
    foldl (fun output depth => output ++ default [] (Get (invertOrder order) depth)) acc ds =
    acc ++ (ds ≫= fun d => values_at d (Entries order))) by apply (Hall _ []).
  induction ds as [|d ds IH]; intros acc; [by rewrite app_nil_r|].
  cbn [foldl mbind list_bind]. by rewrite IH, Hg, <- app_assoc.
Qed.

(** ** The entry points *)

(** Flattening terminates on every graph, cyclic ones included: the fuel
    the entry point gives is enough. *)
Theorem Flatten_terminates g fuel :
  (loop_fuel (invertDeps g) ≤ fuel)%nat → is_Some (FlattenFuel fuel g).
Proof.
  intros Hfuel. destruct (orderAll_total (invertDeps g) (wf_invertDeps g) fuel Hfuel) as [o Ho].
  rewrite (FlattenFuel_by_depth _ _ _ Ho). eauto.
Qed.

Lemma Flatten_terminates_witness :
  let g := graph_of [("a", ["b"]); ("b", ["a"])] in is_Some (FlattenFuel 3 g).
Proof. apply Flatten_terminates. vm_compute. lia. Defined.

(** Loop detection is exact: [HasLoop] answers true exactly when some device
    depends, through a chain of dependencies, on itself. *)
Theorem HasLoop_correct g : wf_map g → HasLoop g = true ↔ ∃ v, tc (depends g) v v.
Proof. apply HasLoop_spec. Qed.

Lemma wf_graph_of l : wf_map (graph_of l).
Proof. unfold graph_of. apply foldl_inv; [apply wf_new|]. intros. by apply wf_set. Qed.

Lemma HasLoop_correct_witness :
  let g := graph_of [("a", ["b"]); ("b", ["a"])] in
  wf_map g ∧ ∃ v, tc (depends g) v v.
Proof.
  split; [apply wf_graph_of|]. apply HasLoop_correct; [apply wf_graph_of|].
  vm_compute. reflexivity.
Defined.

Lemma tc_flip_inv g (Hwf : wf_map g) x y :
  tc (depends (invertDeps g)) x y → tc (depends g) y x.
Proof.
  induction 1 as [x y Hxy|x y z Hxy _ IH].
  - apply tc_once. by apply invertDeps_spec.
  - eapply tc_r; [exact IH|]. by apply invertDeps_spec.
Qed.

Lemma Flatten_topological_all g :
  wf_map g → HasLoop g = false →
  NoDup (Flatten g) ∧
  (∀ x, x ∈ Flatten g ↔ ∃ y, depends g x y ∨ depends g y x) ∧
  (∀ a b, depends g a b → before b a (Flatten g)).
Proof.
  intros Hwf Hloop. set (inv := invertDeps g).
  assert (Hwi : wf_map inv) by apply wf_invertDeps.
  assert (Hacy : acyclic (depends inv)).
  { intros v Hv%tc_flip_inv; [|done].
    assert (HasLoop g = true) by (apply HasLoop_spec; eauto). congruence. }
  destruct (orderAll_total inv Hwi (loop_fuel inv) ltac:(done)) as [order Ho].
  pose proof (orderAll_sup inv _ order Hwi Hacy Ho) as (Hw & Ha & Hb).
  unfold Flatten. fold inv. rewrite (FlattenFuel_by_depth _ _ _ Ho). cbn [default from_option id].
  set (ds := sort_ints (Keys (invertOrder order))).
  assert (Hpairs : invertOrder order = invert_pairs (Entries order) NewOrderedMap) by done.
  assert (Hds : ∀ x n, (x, n) ∈ Entries order → n ∈ ds).
  { intros x n Hin. unfold ds, sort_ints. rewrite SortStable_perm, Hpairs.
    apply elem_of_keys; [apply wf_invert_pairs, wf_new|]. apply has_invert_pairs. right.
    apply list_elem_of_fmap. by exists (x, n). }
  assert (Hnd : NoDup ds).
  { unfold ds, sort_ints. rewrite SortStable_perm, Hpairs. apply wf_invert_pairs, wf_new. }
  assert (Hin : ∀ x, x ∈ by_depth (Entries order) ds ↔ ∃ n, depth_of (depends inv) x n).
  { intros x. rewrite elem_of_by_depth. split.
    - intros (n & _ & Hn%elem_of_entries); [|done]. eauto.
    - intros (n & (m & Hm & _)%Hb). apply elem_of_entries in Hm; [|done]. eauto. }
  split_and!.
  - apply NoDup_by_depth; [|done]. rewrite entries_keys by done. apply Hw.
  - intros x. rewrite Hin. split.
    + intros (n & b & d & Hbd & [|k] & Hk & _).
      * inversion Hk; subst. exists d. right. by apply (invertDeps_spec g _ _ Hwf).
      * apply nsteps_inv_r in Hk as (y & _ & Hy). exists y. left. by apply (invertDeps_spec g _ _ Hwf).
    + intros (y & [Hxy|Hyx]).
      * exists 1, y, x. split; [by apply invertDeps_spec|]. exists 1%nat. split; [|done].
        econstructor; [by apply (invertDeps_spec g _ _ Hwf)|constructor].
      * exists 0, x, y. split; [by apply invertDeps_spec|]. exists 0%nat. split; [constructor|done].
  - intros a b Hab. apply (invertDeps_spec g a b Hwf) in Hab.
    destruct (Hb b 0) as (n & Hn & _).
    { exists b, a. split; [done|]. exists 0%nat. split; [constructor|done]. }
    destruct (Ha b n Hn) as (r & d & Hrd & k & Hk & En).
    destruct (Hb a (n + 1)) as (m & Hm & Hle).
    { exists r, d. split; [done|]. exists (S k). split; [by eapply nsteps_r|lia]. }
    apply elem_of_entries in Hn, Hm; [|done..].
    eapply by_depth_before; eauto using sort_ints_sorted. lia.
Qed.

Lemma Flatten_order g :
  wf_map g → HasLoop g = false →
  NoDup (Flatten g) ∧ ∀ a b, depends g a b → before b a (Flatten g).
Proof. intros Hwf Hl. by destruct (Flatten_topological_all g Hwf Hl) as (? & _ & ?). Qed.

(** C2: for a graph without loops the flattened list is a boot order: it names
    every device that depends on another or is depended upon, once each, and every
    device comes after all the devices it depends on. *)
Theorem Flatten_topological g :
  wf_map g → HasLoop g = false →
  NoDup (Flatten g) ∧
  (∀ x, x ∈ Flatten g ↔ ∃ y, depends g x y ∨ depends g y x) ∧
  (∀ a b, depends g a b → before b a (Flatten g)).
Proof. apply Flatten_topological_all. Qed.

Lemma Flatten_topological_witness :
  let g := graph_of [("a", ["b"; "c"]); ("b", ["c"]); ("d", ["a"])] in
  wf_map g ∧ HasLoop g = false ∧ before "b" "a" (Flatten g).
Proof.
  split; [apply wf_graph_of|]. split; [vm_compute; reflexivity|].
  apply Flatten_topological.
  - apply wf_graph_of.
  - vm_compute. reflexivity.
  - left.
Defined.
