(* ===== verification/Vfs.v ===== *)
(** * The scenario filesystem (vfs/)

    [FileSystem] is the interface [FS] of vfs/vfs.go: a dictionary of operations over a
    state [F].  [memFS] (vfs/memory.go) is its in-memory implementation and
    [subFS] (vfs/sub.go) the view of a directory, a dictionary over the state
    of its parent, so that a device's files and the scenario's are the same
    files.  The creators, the appenders and the line editors of vfs/files.go
    and vfs/lines.go are programs over the interface.  Modification times are
    not modelled: nothing under src/ reads them back. *)

From S2P Require Export Errors GoPath.
Local Open Scope string_scope.
Local Open Scope list_scope.
Local Open Scope Z_scope.
Local Open Scope kat_scope.

Definition ErrNoFilesystem : goerror := EPlain "There is no filesystem associated to this object.".
Definition ErrNoFilesystemCreate : goerror :=
  EPlain "Cannot create a file if the filesystem is not set.".
Definition ErrFileExpected : goerror := EPlain "path should be a file".
Definition ErrDirectoryExpected : goerror := EPlain "path should be a directory".
Definition ErrDirectoryNotEmpty : goerror := EPlain "directory is not empty".
Definition ErrRemoveRoot : goerror := EPlain "root directory may not be removed".

(** ** Paths *)

(** [fs.ValidPath] of the standard library. *)
Definition ValidPath (name : string) : bool :=
  utf8_valid name &&
  (String.eqb name "." ||
   forallb (fun c => negb (String.eqb c "" || String.eqb c "." || String.eqb c ".."))
           (split_byte sep name)).

Definition CleanPath (name : string) : result goerror string :=
  let cleaned := TrimPrefix (Clean ("/" +:+ name)) "/" in
  let cleaned := if String.eqb cleaned "" then "." else cleaned in
  if ValidPath cleaned then Ok cleaned else Err (EFsPath "clean" name fs_ErrInvalid).

Definition parentDir (cleaned : string) : string :=
  let dir := Dir cleaned in if String.eqb dir "" then "." else dir.

(** ** The interface *)

(** An open writer: where it writes, what it holds, and whether it is closed. *)
Record writer : Type := mkWriter { w_name : string; w_buf : string; w_closed : bool }.

Class FileSystem (F : Type) : Type := {
  fsStat : string → F → result goerror bool;          (* [info.IsDir()] *)
  fsReadDir : string → F → result goerror (list string);
  fsRead : string → F → result goerror string;        (* [fs.ReadFile] *)
  fsCreate : string → M F goerror writer;
  fsAppend : string → M F goerror writer;
  fsClose : writer → M F goerror writer;
  fsMkdirAll : string → Z → M F goerror unit;
  fsRemove : string → M F goerror unit;
  fsSysPath : string → F → option string;
  fsTypeName : string;
}.

(** ** The in-memory filesystem *)

Record memNode : Type := mkNode { n_dir : bool; n_data : string; n_mode : Z }.
Notation memFS := (gmap string memNode).

Definition ModeDir : Z := 2 ^ 31.
Definition Memory : memFS := {[ "." := mkNode true "" (Z.lor ModeDir 0x1ED) ]}.

Definition mem_Stat (name : string) (m : memFS) : result goerror bool :=
  if negb (ValidPath name) then Err (EFsPath "stat" name fs_ErrInvalid)
  else match m !! name with
       | None => Err (EFsPath "stat" name fs_ErrNotExist)
       | Some n => Ok n.(n_dir)
       end.

(** The name [p] has inside [dir], when it is a direct child of it. *)
Definition child_name (dir p : string) : option string :=
  let prefix := if String.eqb dir "." then "" else dir +:+ "/" in
  if String.eqb p "." || negb (HasPrefix p prefix) then None
  else let rest := TrimPrefix p prefix in
       if String.eqb rest "" || contains_byte sep rest then None else Some rest.

Definition cmp_to_Z (c : comparison) : Z := match c with Lt => -1 | Eq => 0 | Gt => 1 end.

Fixpoint insert_sorted (x : string) (l : list string) : list string :=
  match l with
  | [] => [x]
  | y :: l' => if str_leb x y then x :: l else y :: insert_sorted x l'
  end.

Definition children (dir : string) (m : memFS) : list string :=
  foldr insert_sorted [] (omap (child_name dir) (map_to_list m).*1).

Definition mem_ReadDir (name : string) (m : memFS) : result goerror (list string) :=
  if negb (ValidPath name) then Err (EFsPath "readdir" name fs_ErrInvalid)
  else match m !! name with
       | None => Err (EFsPath "readdir" name fs_ErrNotExist)
       | Some n => if negb n.(n_dir) then Err (EFsPath "readdir" name ErrDirectoryExpected)
                   else Ok (children name m)
       end.

(** [fs.ReadFile]: [Open], then reading to the end; a directory cannot be read. *)
Definition mem_Read (name : string) (m : memFS) : result goerror string :=
  if negb (ValidPath name) then Err (EFsPath "open" name fs_ErrInvalid)
  else match m !! name with
       | None => Err (EFsPath "open" name fs_ErrNotExist)
       | Some n => if n.(n_dir) then Err (EFsPath "read" name ErrFileExpected) else Ok n.(n_data)
       end.

Definition fail {S A} (e : goerror) : M S goerror A := sthrow e.

(** [openWrite]: the entry is created, and truncated unless appending, here. *)
Definition openWrite (name op : string) (appendMode : bool) : M memFS goerror writer := fun m =>
  match CleanPath name with
  | Err e => (m, Err e)
  | Ok cleaned =>
      if match m !! cleaned with Some n => n.(n_dir) | None => false end
      then (m, Err (EFsPath op cleaned ErrFileExpected))
      else if negb match m !! parentDir cleaned with Some pn => pn.(n_dir) | None => false end
      then (m, Err (EFsPath op cleaned fs_ErrNotExist))
      else match (if appendMode then m !! cleaned else None) with
           | Some n => (m, Ok (mkWriter cleaned n.(n_data) false))
           | None => (<[cleaned := mkNode false "" 0x1A4]> m, Ok (mkWriter cleaned "" false))
           end
  end.

Definition mem_Close (w : writer) : M memFS goerror writer := fun m =>
  if w.(w_closed) then (m, Ok w)
  else (<[w.(w_name) := mkNode false w.(w_buf) 0x1A4]> m,
        Ok (mkWriter w.(w_name) w.(w_buf) true)).

(** The loop of [MkdirAll] over the components below [cur]. *)
Fixpoint mkdir_loop (cur : string) (parts : list string) (perm : Z) : M memFS goerror unit := fun m =>
  match parts with
  | [] => (m, Ok tt)
  | p :: parts =>
      let cur := Join [cur; p] in
      match m !! cur with
      | Some n => if negb n.(n_dir) then (m, Err (EFsPath "mkdir" cur ErrDirectoryExpected))
                  else mkdir_loop cur parts perm m
      | None => mkdir_loop cur parts perm
                  (<[cur := mkNode true "" (Z.lor ModeDir (Z.land perm 0x1FF))]> m)
      end
  end.

Definition mem_MkdirAll (name : string) (perm : Z) : M memFS goerror unit := fun m =>
  match CleanPath name with
  | Err e => (m, Err e)
  | Ok cleaned => if String.eqb cleaned "." then (m, Ok tt)
                  else mkdir_loop "." (split_byte sep cleaned) perm m
  end.

Definition mem_Remove (name : string) : M memFS goerror unit := fun m =>
  match CleanPath name with
  | Err e => (m, Err e)
  | Ok cleaned =>
      match m !! cleaned with
      | None => (m, Err (EFsPath "remove" cleaned fs_ErrNotExist))
      | Some n =>
          if n.(n_dir) && String.eqb cleaned "." then (m, Err (EFsPath "remove" cleaned ErrRemoveRoot))
          else if n.(n_dir) && negb (bool_decide (children cleaned m = [])) then
            (m, Err (EFsPath "remove" cleaned ErrDirectoryNotEmpty))
          else (delete cleaned m, Ok tt)
      end
  end.

#[export] Instance Memory_FS : FileSystem memFS := {
  fsStat := mem_Stat;
  fsReadDir := mem_ReadDir;
  fsRead := mem_Read;
  fsCreate name := openWrite name "create" false;
  fsAppend name := openWrite name "append" true;
  fsClose := mem_Close;
  fsMkdirAll := mem_MkdirAll;
  fsRemove := mem_Remove;
  fsSysPath _ _ := None;
  fsTypeName := "memory";
}.

(** ** The view of a directory *)

Section sub.
Context {F : Type} (parent : FileSystem F) (prefix : string).

Definition sub_join (name : string) : result goerror string :=
  let* cleaned := CleanPath name in
  Ok (if String.eqb cleaned "." then prefix else Join [prefix; cleaned]).

Definition sub_read {A} (op : string) (read : string → F → result goerror A) (name : string)
    (s : F) : result goerror A :=
  if negb (ValidPath name) then Err (EFsPath op name fs_ErrInvalid)
  else let* full := sub_join name in read full s.

Definition sub_write {A} (write : string → M F goerror A) (name : string) : M F goerror A :=
  do* full <- slift (sub_join name) in write full.

Definition subFS : FileSystem F := {|
  fsStat := sub_read "stat" (@fsStat F parent);
  fsReadDir := sub_read "readdir" (@fsReadDir F parent);
  fsRead := sub_read "open" (@fsRead F parent);
  fsCreate := sub_write (@fsCreate F parent);
  fsAppend := sub_write (@fsAppend F parent);
  fsClose := @fsClose F parent;
  fsMkdirAll name perm := sub_write (fun full => @fsMkdirAll F parent full perm) name;
  fsRemove := sub_write (@fsRemove F parent);
  fsSysPath name s := match sub_join name with
                      | Err _ => None | Ok full => @fsSysPath F parent full s end;
  fsTypeName := "sub";
|}.
End sub.

(** [Sub]: the prefix of the view of [dir], which must be a directory. *)
Definition Sub {F} (fsys : FileSystem F) (dir : string) (s : F) : result goerror string :=
  let* cleaned := CleanPath dir in
  let* isdir := @fsStat F fsys cleaned s in
  if negb isdir then Err (EFsPath "opendir" cleaned ErrDirectoryExpected) else Ok cleaned.

(** ** Programs over the interface *)

Section programs.
Context {F : Type} (fsys : FileSystem F).

Definition Exists (name : string) (s : F) : bool :=
  match CleanPath name with Err _ => false | Ok cleaned => is_ok (@fsStat F fsys cleaned s) end.

Definition IsDir (name : string) (s : F) : bool :=
  match CleanPath name with
  | Err _ => false
  | Ok cleaned => match @fsStat F fsys cleaned s with Ok d => d | Err _ => false end
  end.

Definition IsEmpty (name : string) (s : F) : result goerror bool :=
  let* cleaned := CleanPath name in
  let* entries := @fsReadDir F fsys cleaned s in
  Ok (bool_decide (entries = [])).

Definition requireFile (cleaned : string) (s : F) : result goerror unit :=
  let* isdir := @fsStat F fsys cleaned s in
  if isdir : bool then Err (EFsPath "open" cleaned ErrFileExpected) else Ok tt.

Definition ReadFile (name : string) (s : F) : result goerror string :=
  let* cleaned := CleanPath name in
  let* _ := requireFile cleaned s in
  @fsRead F fsys cleaned s.

(** [w.Write(b)], then the deferred [w.Close()]. *)
Definition Write (w : writer) (b : string) : result goerror writer :=
  if w.(w_closed) then Err (EPlain "file already closed")
  else Ok (mkWriter w.(w_name) (w.(w_buf) +:+ b) false).

Definition writeThrough (open : M F goerror writer) (content : string) : M F goerror unit :=
  do* w <- open in
  match Write w content with
  | Ok w => do* _ <- @fsClose F fsys w in sret tt
  | Err e => fun s => ((@fsClose F fsys w s).1, Err e)
  end.

Definition writeAll (cleaned b : string) : M F goerror unit :=
  writeThrough (@fsCreate F fsys cleaned) b.

(** [os.path.dirname]: up to the last slash, its trailing slashes stripped
    unless it is nothing but slashes. *)
Definition posixDirname (p : string) : string :=
  let head := dir_part p in
  if all_bytes (Ascii.eqb sep) head then head
  else bytes_string (reverse (drop_while (Ascii.eqb sep) (reverse (string_bytes head)))).

Definition dirPerm : Z := 0x1ED.

Definition prepareCreate (dstPath : string) : M F goerror string :=
  do* cleaned <- slift (CleanPath dstPath) in
  do* parent <- slift (CleanPath (posixDirname dstPath)) in
  do* _ <- @fsMkdirAll F fsys parent dirPerm in
  sret cleaned.

Definition createBytes (content dstPath : string) : M F goerror unit :=
  do* cleaned <- prepareCreate dstPath in
  writeAll cleaned content.

Definition appendBytes (content dstPath : string) : M F goerror unit :=
  do* cleaned <- slift (CleanPath dstPath) in
  writeThrough (@fsAppend F fsys cleaned) content.

Definition joinLines (lines : list string) : string :=
  string_concat ((fun l => l +:+ str1 (az 10)) <$> lines).

Definition CreateFileFromString (content dstPath : string) := createBytes content dstPath.
Definition CreateFileFromList (lines : list string) (dstPath : string) :=
  createBytes (joinLines lines) dstPath.
Definition UpdateFileFromString (content dstPath : string) := appendBytes content dstPath.
Definition UpdateFileFromList (lines : list string) (dstPath : string) :=
  appendBytes (joinLines lines) dstPath.
End programs.

(** ** Editing lines *)

Definition LF : ascii := az 10.
Definition CR : ascii := az 13.

(** [SplitLines]: the line read so far is kept reversed in [acc]. *)
Fixpoint SplitLines_go (s : string) (acc : list ascii) : list string :=
  match s with
  | EmptyString => if bool_decide (acc = []) then [] else [bytes_string (reverse acc)]
  | String a s =>
      if Ascii.eqb a LF then bytes_string (reverse (a :: acc)) :: SplitLines_go s []
      else if Ascii.eqb a CR then
        match s with
        | String b s' =>
            if Ascii.eqb b LF then bytes_string (reverse (b :: a :: acc)) :: SplitLines_go s' []
            else bytes_string (reverse (a :: acc)) :: SplitLines_go s []
        | EmptyString => bytes_string (reverse (a :: acc)) :: SplitLines_go s []
        end
      else SplitLines_go s (a :: acc)
  end.
Definition SplitLines (b : string) : list string := SplitLines_go b [].

(** [strings.ReplaceAll] of a two-byte pattern. *)
Fixpoint replace2 (a b : ascii) (new s : string) : string :=
  match s with
  | String x ((String y s') as s1) =>
      if Ascii.eqb x a && Ascii.eqb y b then new +:+ replace2 a b new s'
      else String x (replace2 a b new s1)
  | _ => s
  end.

Definition normalizeLine (line : string) : string :=
  replace2 CR LF (str1 LF) (replace2 LF CR (str1 LF) line).

Section edit_lines.
Context {F : Type} (fsys : FileSystem F).
(** [regexp.Compile] of the pattern: the search function, or its error. *)
Context (Compile : string → result goerror (string → bool)).

Definition drop_last_byte (s : string) : string := string_take (String.length s - 1) s.

Definition pySearch (re : string → bool) (line : string) : bool :=
  if re line then true
  else if HasSuffix line (str1 LF) then re (drop_last_byte line) else false.

Definition edit_step (re : string → bool) (emit : string → bool → list string → list string)
    (firstOccurrence : bool) (st : Z * list string) (line : string) : Z * list string :=
  let '(n, out) := st in
  let matched := pySearch re line && (negb firstOccurrence || (n =? 0)) in
  ((if matched then n + 1 else n), emit line matched out).

Definition editLines (filePath pattern : string)
    (emit : string → bool → list string → list string) (firstOccurrence : bool)
    : M F goerror Z :=
  do* re <- slift (Compile pattern) in
  do* cleaned <- slift (CleanPath filePath) in
  do* s <- sget in
  do* content <- slift (ReadFile fsys cleaned s) in
  let '(n, out) := foldl (edit_step re emit firstOccurrence) (0, []) (SplitLines content) in
  do* _ <- writeAll fsys cleaned (string_concat out) in
  sret n.

Definition emit_before (lineToAdd line : string) (matched : bool) (out : list string) :=
  (if matched then out ++ [lineToAdd +:+ str1 LF] else out) ++ [normalizeLine line].

Definition emit_after (lineToAdd line : string) (matched : bool) (out : list string) :=
  let out := out ++ [normalizeLine line] in
  if matched then
    let prefix := if negb (HasSuffix line (str1 LF)) then str1 LF else "" in
    out ++ [prefix +:+ lineToAdd +:+ str1 LF]
  else out.

Definition emit_delete (line : string) (matched : bool) (out : list string) :=
  if matched then out else out ++ [normalizeLine line].

Definition WriteLineBefore (filePath lineToAdd searchedLine : string) (firstOccurrence : bool) :=
  editLines filePath searchedLine (emit_before lineToAdd) firstOccurrence.
Definition WriteLineAfter (filePath lineToAdd searchedLine : string) (firstOccurrence : bool) :=
  editLines filePath searchedLine (emit_after lineToAdd) firstOccurrence.
Definition DeleteLine (filePath lineToDelete : string) (firstOccurrence : bool) :=
  editLines filePath lineToDelete emit_delete firstOccurrence.
End edit_lines.

Example vfs_round :
  let m := (CreateFileFromString Memory_FS "hello" "/a/b/c.txt" Memory).1 in
  ReadFile Memory_FS "a/b/c.txt" m = Ok "hello" ∧ children "a" m = ["b"] ∧
  (mem_Remove "a" m).2 = Err (EFsPath "remove" "a" ErrDirectoryNotEmpty).
Proof. vm_compute. done. Qed.
Example vfs_sub :
  let m := (CreateFileFromString Memory_FS "x" "pc1/f" Memory).1 in
  let m := (UpdateFileFromString (subFS Memory_FS "pc1") "y" "f" m).1 in
  ReadFile (subFS Memory_FS "pc1") "/f" m = Ok "xy" ∧ ReadFile Memory_FS "pc1/f" m = Ok "xy".
Proof. vm_compute. done. Qed.
