(* ===== verification/VfsInv.v ===== *)
(** * The scenario filesystem: theorems

    Canonical paths as lists of components; the in-memory tree stays a tree
    under every operation; what the creators, the appenders and the line
    editors leave in a file. *)

From S2P Require Export Vfs.
Local Open Scope string_scope.
Local Open Scope list_scope.
Local Open Scope Z_scope.
Local Open Scope kat_scope.

(** ** Canonical paths *)

Definition plain (cs : list string) : Prop := Forall (fun c => plain_component c = true) cs.

Definition path_of (cs : list string) : string :=
  match cs with [] => "." | _ => str_join "/" cs end.

Lemma plain_component_spec c :
  plain_component c = true → c ≠ "" ∧ c ≠ "." ∧ c ≠ ".." ∧ contains_byte sep c = false.
Proof.
  unfold plain_component. rewrite !andb_true_iff, !negb_true_iff, !String.eqb_neq. tauto.
Qed.

Lemma plain_free cs : plain cs → Forall (fun c => contains_byte sep c = false) cs.
Proof. intros H. eapply Forall_impl; [exact H|]. by intros c (_ & _ & _ & ?)%plain_component_spec. Qed.

Lemma split_path cs : cs ≠ [] → plain cs → split_byte sep (str_join "/" cs) = cs.
Proof. intros Hne Hp. change "/"%string with (str1 sep). by apply split_byte_join, plain_free. Qed.

Lemma path_of_inj cs cs' : plain cs → plain cs' → path_of cs = path_of cs' → cs = cs'.
Proof.
  assert (Hdot : ∀ cs, cs ≠ [] → plain cs → path_of cs ≠ ".").
  { intros ds Hne Hp E. assert (Hs : split_byte sep (path_of ds) = ds) by (destruct ds; [done|by apply split_path]).
    rewrite E in Hs. subst. apply Forall_cons in Hp as [Hp _]. by apply plain_component_spec in Hp as (_ & ? & _). }
  destruct cs as [|c cs], cs' as [|c' cs']; intros Hp Hp' E; [done|..].
  - by exfalso; eapply (Hdot (c' :: cs')).
  - by exfalso; eapply (Hdot (c :: cs)).
  - rewrite <- (split_path (c :: cs)), <- (split_path (c' :: cs')) by done. cbn [path_of] in E. by rewrite E.
Qed.

Lemma str_join_snoc c cs x : cs ≠ [] → str_join c (cs ++ [x]) = str_join c cs +:+ c +:+ x.
Proof.
  induction cs as [|y cs IH]; [done|]. intros _. destruct cs as [|z cs]; [done|].
  cbn [app str_join] in *. rewrite IH by done. by rewrite !string_app_assoc.
Qed.

Lemma str_join_nonempty cs : cs ≠ [] → plain cs → str_join "/" cs ≠ "".
Proof.
  intros Hne Hp E. pose proof (split_path cs Hne Hp) as Hs. rewrite E in Hs. cbn in Hs. subst.
  apply Forall_cons in Hp as [Hp _]. by apply plain_component_spec in Hp as (? & _).
Qed.

Lemma is_rooted_cons a s : is_rooted (String a s) = Ascii.eqb a sep.
Proof.
  unfold is_rooted, HasPrefix.
  change (String.prefix "/" (String a s)) with (if ascii_dec sep a then String.prefix "" s else false).
  destruct (ascii_dec sep a) as [<-|Hne].
  - rewrite Ascii.eqb_refl. by destruct s.
  - symmetry. apply Ascii.eqb_neq. congruence.
Qed.

Lemma is_rooted_slash s : is_rooted ("/" +:+ s) = true.
Proof. change ("/" +:+ s) with (String sep s). by rewrite is_rooted_cons. Qed.

Lemma TrimPrefix_slash s : TrimPrefix ("/" +:+ s) "/" = s.
Proof.
  unfold TrimPrefix. change (HasPrefix ("/" +:+ s) "/") with (is_rooted ("/" +:+ s)).
  by rewrite is_rooted_slash.
Qed.

Lemma not_rooted cs : cs ≠ [] → plain cs → is_rooted (str_join "/" cs) = false.
Proof.
  intros Hne Hp. pose proof (split_path cs Hne Hp) as Hs.
  destruct (str_join "/" cs) as [|a s] eqn:E; [done|]. rewrite is_rooted_cons.
  destruct (Ascii.eqb_spec a sep) as [->|]; [|done].
  exfalso. cbn in Hs. subst. apply Forall_cons in Hp as [Hp _].
  by apply plain_component_spec in Hp as (? & _).
Qed.

Lemma last_snoc_default {A} (l : list A) x d : List.last (l ++ [x]) d = x.
Proof. apply List.last_last. Qed.

Lemma Clean_plain cs : cs ≠ [] → plain cs → Clean (str_join "/" cs) = str_join "/" cs.
Proof.
  intros Hne Hp. unfold Clean. rewrite not_rooted, split_path, clean_components_plain by done. cbv zeta.
  by rewrite (proj2 (String.eqb_neq _ _)) by by apply str_join_nonempty.
Qed.

(** A trailing slash is cleaned away. *)
Lemma Clean_slash cs : cs ≠ [] → plain cs → Clean (str_join "/" cs +:+ "/") = str_join "/" cs.
Proof.
  intros Hne Hp. unfold Clean.
  assert (E : split_byte sep (str_join "/" cs +:+ "/") = cs ++ [""]).
  { change (str_join "/" cs +:+ "/") with (str_join (str1 sep) cs +:+ str1 sep +:+ "").
    rewrite <- str_join_snoc by done. apply split_byte_join; [by destruct cs|].
    apply Forall_app. split; [by apply plain_free|by constructor]. }
  assert (Hr : is_rooted (str_join "/" cs +:+ "/") = false).
  { pose proof (not_rooted cs Hne Hp) as Hn. pose proof (str_join_nonempty cs Hne Hp).
    destruct (str_join "/" cs) as [|a s]; [done|]. cbn [String.append]. rewrite is_rooted_cons in Hn |- *. done. }
  rewrite Hr, E. cbv zeta. unfold clean_components. rewrite foldl_app, (foldl_clean_plain false cs []) by done.
  cbn [foldl]. unfold clean_step. cbn [String.eqb orb]. rewrite app_nil_r, reverse_involutive.
  by rewrite (proj2 (String.eqb_neq _ _)) by by apply str_join_nonempty.
Qed.

Lemma parentDir_snoc cs x : plain (cs ++ [x]) → parentDir (path_of (cs ++ [x])) = path_of cs.
Proof.
  intros Hp. unfold parentDir, Dir, dir_part, Base_component.
  assert (Hpath : path_of (cs ++ [x]) = str_join "/" (cs ++ [x])) by by destruct cs.
  rewrite Hpath, split_path by (done || by destruct cs). rewrite last_snoc_default.
  apply Forall_app in Hp as [Hp Hx]. destruct cs as [|c cs].
  - cbn [app str_join]. rewrite Nat.sub_diag. by destruct x.
  - rewrite str_join_snoc by done. rewrite <- string_app_assoc.
    rewrite string_length_app, Nat.add_sub, string_take_app, Clean_slash by done.
    by rewrite (proj2 (String.eqb_neq _ _)) by by apply str_join_nonempty.
Qed.

Lemma Join_path cs x : plain (cs ++ [x]) → Join [path_of cs; x] = path_of (cs ++ [x]).
Proof.
  intros Hp. pose proof Hp as Hp'. apply Forall_app in Hp' as [Hcs Hx]. apply Forall_cons in Hx as [Hplain _].
  pose proof Hplain as Hx.
  apply plain_component_spec in Hx as (Hx & Hdot & _ & Hfree). unfold Join.
  assert (Hne : path_of cs ≠ "") by (destruct cs; [done|by apply str_join_nonempty]).
  cbn [List.filter]. rewrite (proj2 (String.eqb_neq _ _) Hne), (proj2 (String.eqb_neq _ _) Hx). cbn [negb].
  destruct cs as [|c cs].
  - cbn [path_of str_join app]. unfold Clean.
    change ("." +:+ "/" +:+ x) with ("." +:+ String sep x). change (is_rooted ("." +:+ String sep x)) with false.
    rewrite split_byte_cons by done. rewrite contains_byte_split by done.
    unfold clean_components. cbn [foldl]. change (clean_step false [] ".") with (@nil string).
    rewrite clean_step_plain by done. cbn.
    by rewrite (proj2 (String.eqb_neq _ _) Hx).
  - change (path_of (c :: cs)) with (str_join "/" (c :: cs)).
    change (str_join "/" [str_join "/" (c :: cs); x]) with (str_join "/" (c :: cs) +:+ "/" +:+ x).
    rewrite <- str_join_snoc by done. rewrite Clean_plain by (done || by destruct cs). done.
Qed.

(** The canonical form of any path. *)
Lemma CleanPath_ok name cleaned :
  CleanPath name = Ok cleaned → ∃ cs, cleaned = path_of cs ∧ plain cs ∧ ValidPath cleaned = true.
Proof.
  unfold CleanPath, Clean. rewrite is_rooted_slash. cbv zeta iota.
  set (cs := clean_components true (split_byte sep ("/" +:+ name))).
  assert (Hp : plain cs) by apply clean_components_rooted.
  rewrite TrimPrefix_slash.
  destruct (ValidPath _) eqn:Hv; [|done]. intros [= <-]. exists cs. split; [|done].
  destruct cs as [|c cs']; [done|]. by rewrite (proj2 (String.eqb_neq _ _)) by by apply str_join_nonempty.
Qed.

Lemma Clean_rooted cs :
  plain cs → Clean ("/" +:+ path_of cs) = "/" +:+ str_join "/" cs.
Proof.
  intros Hp. unfold Clean. rewrite is_rooted_slash. cbv zeta iota. f_equal.
  change ("/" +:+ path_of cs) with (String sep (path_of cs)).
  change (split_byte sep (String sep (path_of cs))) with ("" :: split_byte sep (path_of cs)).
  destruct cs as [|c cs]; [done|]. cbn [path_of]. rewrite split_path by done.
  unfold clean_components. cbn [foldl]. change (clean_step true [] "") with (@nil string).
  change (foldl (clean_step true) (clean_step true [] c) cs) with (foldl (clean_step true) [] (c :: cs)).
  rewrite (foldl_clean_plain true) by done. by rewrite app_nil_r, reverse_involutive.
Qed.

(** Cleaning is idempotent. *)
Lemma CleanPath_idem name cleaned : CleanPath name = Ok cleaned → CleanPath cleaned = Ok cleaned.
Proof.
  intros (cs & -> & Hp & Hv)%CleanPath_ok. unfold CleanPath. rewrite Clean_rooted by done. cbv zeta.
  rewrite TrimPrefix_slash.
  assert ((if String.eqb (str_join "/" cs) "" then "." else str_join "/" cs) = path_of cs) as ->.
  { destruct cs; [done|]. by rewrite (proj2 (String.eqb_neq _ _)) by by apply str_join_nonempty. }
  by rewrite Hv.
Qed.

(** ** The in-memory tree *)

Definition dir_at (m : memFS) (p : string) : bool :=
  match m !! p with Some n => n.(n_dir) | None => false end.

(** The root is a directory, every entry has a canonical path, and the parent of
    every entry but the root is a directory. *)
Record tree_ok (m : memFS) : Prop := {
  tree_root : dir_at m "." = true;
  tree_path p n : m !! p = Some n → ∃ cs, p = path_of cs ∧ plain cs;
  tree_parent cs x n :
    plain (cs ++ [x]) → m !! path_of (cs ++ [x]) = Some n → dir_at m (path_of cs) = true;
}.

Lemma Memory_ok : tree_ok Memory.
Proof.
  split; [done| |].
  - intros p n H. unfold Memory in H. apply lookup_singleton_Some in H as [<- _]. exists []. split; [done|constructor].
  - intros cs x n Hp H. unfold Memory in H. apply lookup_singleton_Some in H as [H _].
    apply (path_of_inj []) in H; [by destruct cs|constructor|done].
Qed.

Lemma dir_at_insert_ne m p q n : p ≠ q → dir_at (<[p:=n]> m) q = dir_at m q.
Proof. intros H. unfold dir_at. by rewrite lookup_insert_ne. Qed.

Lemma path_ne cs x : plain (cs ++ [x]) → path_of (cs ++ [x]) ≠ path_of cs.
Proof.
  intros Hp E. pose proof Hp as Hp'. apply Forall_app in Hp' as [Hcs _].
  apply path_of_inj in E; [|done|done]. apply (f_equal length) in E. rewrite length_app in E. cbn in E. lia.
Qed.

Lemma path_root cs x : plain (cs ++ [x]) → path_of (cs ++ [x]) ≠ ".".
Proof. intros Hp E. apply (path_of_inj _ []) in E; [by destruct cs|done|constructor]. Qed.

(** A new entry, or new contents for a file, below an existing directory. *)
Lemma tree_insert m cs x n :
  tree_ok m → plain (cs ++ [x]) → dir_at m (path_of cs) = true → dir_at m (path_of (cs ++ [x])) = false →
  tree_ok (<[path_of (cs ++ [x]) := n]> m).
Proof.
  intros Ht Hp Hd Hf. split.
  - rewrite dir_at_insert_ne by by apply path_root. apply Ht.
  - intros p n' H. apply lookup_insert_Some in H as [[<- _]|[_ H]]; [by eexists|by eapply Ht].
  - intros ds y n' Hds H. apply lookup_insert_Some in H as [[E _]|[Hne H]].
    + apply path_of_inj in E; [|done|done]. apply app_inj_tail in E as [<- <-].
      rewrite dir_at_insert_ne; [done|by apply path_ne].
    + pose proof (tree_parent m Ht ds y n' Hds H) as Hpar. rewrite dir_at_insert_ne; [done|].
      intros E. rewrite E in Hf. congruence.
Qed.

(** A path that is neither the root nor a directory splits into its parent and a name. *)
Lemma clean_not_dir m c :
  tree_ok m → (∃ name, CleanPath name = Ok c) → dir_at m c = false →
  ∃ cs x, c = path_of (cs ++ [x]) ∧ plain (cs ++ [x]) ∧ parentDir c = path_of cs.
Proof.
  intros Ht (name & (cs & -> & Hp & _)%CleanPath_ok) Hf.
  destruct cs as [|x cs _] using rev_ind.
  - change (path_of []) with "." in Hf. rewrite (tree_root m Ht) in Hf. done.
  - exists cs, x. split; [done|]. split; [done|]. by apply parentDir_snoc.
Qed.

(** *** Opening, writing, closing *)

Definition file_at (m : memFS) (p : string) : string :=
  match m !! p with Some n => n.(n_data) | None => "" end.

Lemma write_run name op app content m :
  writeThrough Memory_FS (openWrite name op app) content m =
  match CleanPath name with
  | Err e => (m, Err e)
  | Ok c =>
      if dir_at m c then (m, Err (EFsPath op c ErrFileExpected))
      else if negb (dir_at m (parentDir c)) then (m, Err (EFsPath op c fs_ErrNotExist))
      else (<[c := mkNode false ((if app : bool then file_at m c else "") +:+ content) 0x1A4]> m, Ok tt)
  end.
Proof.
  unfold writeThrough, openWrite, sbind, dir_at, file_at, Write. destruct (CleanPath name) as [c|e]; [|done].
  destruct (match m !! c with Some n => n_dir n | None => false end) eqn:Ed; [done|].
  destruct (match m !! parentDir c with Some pn => n_dir pn | None => false end); [|done]. cbn [negb].
  destruct app; [destruct (m !! c) as [n|] eqn:El|]; cbn; by rewrite ?insert_insert_eq.
Qed.

Lemma write_inv name op app content : sinv tree_ok (writeThrough Memory_FS (openWrite name op app) content).
Proof.
  intros m Ht. rewrite write_run. destruct (CleanPath name) as [c|e] eqn:Ec; [|done].
  destruct (dir_at m c) eqn:Ed; [done|]. destruct (dir_at m (parentDir c)) eqn:Ep; [|done]. cbn.
  destruct (clean_not_dir m c Ht ltac:(eauto) Ed) as (cs & x & -> & Hp & Hpar). rewrite Hpar in Ep.
  by apply tree_insert.
Qed.

(** *** Directories *)

Lemma mkdir_loop_spec perm parts : ∀ cs m,
  tree_ok m → plain (cs ++ parts) → dir_at m (path_of cs) = true →
  let st := mkdir_loop (path_of cs) parts perm m in
  tree_ok st.1 ∧ m ⊆ st.1 ∧ (∀ p n, st.1 !! p = Some n → m !! p = None → n.(n_dir) = true) ∧
  (st.2 = Ok tt → dir_at st.1 (path_of (cs ++ parts)) = true).
Proof.
  induction parts as [|x parts IH]; intros cs m Ht Hp Hd; cbn [mkdir_loop].
  { cbn. rewrite app_nil_r. split_and!; try done. by intros p n ->. }
  rewrite cons_middle, app_assoc in Hp. pose proof Hp as Hp'. apply Forall_app in Hp' as [Hx _].
  rewrite Join_path by done. cbv zeta. destruct (m !! path_of (cs ++ [x])) as [n|] eqn:E.
  - destruct (n_dir n) eqn:En; cbn [negb].
    + specialize (IH (cs ++ [x]) m Ht Hp). rewrite <- app_assoc in IH. apply IH.
      unfold dir_at. by rewrite E.
    + cbn. split_and!; try done. by intros p n' ->.
  - set (nd := mkNode true "" _).
    assert (Hf : dir_at m (path_of (cs ++ [x])) = false) by (unfold dir_at; by rewrite E).
    specialize (IH (cs ++ [x]) (<[path_of (cs ++ [x]) := nd]> m)).
    destruct IH as (H1 & H2 & H3 & H4); [by apply tree_insert|done|unfold dir_at; by rewrite lookup_insert_eq|].
    rewrite <- app_assoc in H4. split_and!; [done| | |done].
    + etrans; [by apply insert_subseteq|done].
    + intros p n Hn Hm. destruct (decide (p = path_of (cs ++ [x]))) as [->|Hne].
      * eapply lookup_weaken in H2; [|apply lookup_insert_eq]. rewrite Hn in H2. by injection H2 as ->.
      * apply (H3 p n Hn). by rewrite lookup_insert_ne.
Qed.

Lemma MkdirAll_spec name perm m :
  tree_ok m →
  let st := mem_MkdirAll name perm m in
  tree_ok st.1 ∧ m ⊆ st.1 ∧ (∀ p n, st.1 !! p = Some n → m !! p = None → n.(n_dir) = true) ∧
  (st.2 = Ok tt → ∃ c, CleanPath name = Ok c ∧ dir_at st.1 c = true).
Proof.
  intros Ht. unfold mem_MkdirAll.
  assert (Hrefl : tree_ok m ∧ m ⊆ m ∧ (∀ p n, m !! p = Some n → m !! p = None → n.(n_dir) = true)).
  { split_and!; try done. by intros p n ->. }
  destruct (CleanPath name) as [c|e] eqn:Ec.
  2: { cbn. destruct Hrefl as (? & ? & ?). by split_and!. }
  destruct (CleanPath_ok _ _ Ec) as (cs & -> & Hp & _).
  destruct (String.eqb_spec (path_of cs) ".") as [E|Hne].
  - cbn. destruct Hrefl as (? & ? & ?). split_and!; try done. intros _. exists (path_of cs).
    split; [done|]. rewrite E. by apply tree_root.
  - destruct cs as [|c cs]; [done|]. cbn [path_of]. rewrite split_path by done.
    destruct (mkdir_loop_spec perm (c :: cs) [] m Ht Hp (tree_root m Ht)) as (H1 & H2 & H3 & H4).
    split_and!; [done|done|done|]. intros E. exists (path_of (c :: cs)). split; [done|]. apply H4, E.
Qed.

(** *** Listing and removing *)

Lemma insert_sorted_perm x l : insert_sorted x l ≡ₚ x :: l.
Proof.
  induction l as [|y l IH]; cbn; [done|]. destruct (str_leb x y); [done|].
  rewrite IH. apply Permutation_swap.
Qed.

Lemma elem_of_children d x m :
  x ∈ children d m ↔ ∃ p n, m !! p = Some n ∧ child_name d p = Some x.
Proof.
  unfold children.
  assert (Hs : ∀ l, foldr insert_sorted [] l ≡ₚ l).
  { induction l as [|y l IH]; [done|]. cbn. by rewrite insert_sorted_perm, IH. }
  rewrite Hs, list_elem_of_omap. split.
  - intros (p & ([p' n] & -> & Hp%elem_of_map_to_list)%list_elem_of_fmap & Hx). eauto.
  - intros (p & n & Hp & Hx). exists p. split; [|done]. apply list_elem_of_fmap.
    exists (p, n). split; [done|]. by apply elem_of_map_to_list.
Qed.

Lemma prefix_app s t : HasPrefix (s +:+ t) s = true.
Proof.
  unfold HasPrefix. induction s as [|a s IH]; cbn; [by destruct t|].
  destruct (ascii_dec a a); [done|congruence].
Qed.

Lemma child_name_snoc cs x : plain (cs ++ [x]) → child_name (path_of cs) (path_of (cs ++ [x])) = Some x.
Proof.
  intros Hp. unfold child_name. rewrite (proj2 (String.eqb_neq _ _) (path_root cs x Hp)). cbn [orb].
  pose proof Hp as Hp'. apply Forall_app in Hp' as [Hcs Hx]. apply Forall_cons in Hx as [Hx _].
  apply plain_component_spec in Hx as (Hne & _ & _ & Hfree).
  assert (E : (if String.eqb (path_of cs) "." then "" else path_of cs +:+ "/") +:+ x = path_of (cs ++ [x])).
  { destruct cs as [|c cs]; [done|].
    assert (path_of (c :: cs) ≠ ".") as ->%String.eqb_neq.
    { intros E%(path_of_inj (c :: cs) []); [done|done|constructor]. }
    change (path_of ((c :: cs) ++ [x])) with (str_join "/" ((c :: cs) ++ [x])).
    by rewrite str_join_snoc, string_app_assoc. }
  set (prefix := if String.eqb (path_of cs) "." then "" else path_of cs +:+ "/") in *.
  rewrite <- E. unfold TrimPrefix. rewrite prefix_app, string_drop_length_app. cbn [negb].
  rewrite (proj2 (String.eqb_neq _ _) Hne), Hfree. done.
Qed.

Lemma Remove_inv name : sinv tree_ok (mem_Remove name).
Proof.
  intros m Ht. unfold mem_Remove. destruct (CleanPath name) as [c|e] eqn:Ec; [|done].
  destruct (m !! c) as [n|] eqn:E; [|done].
  destruct (n_dir n && String.eqb c ".") eqn:E1; [done|].
  destruct (n_dir n && negb _) eqn:E2; [done|]. cbn.
  assert (Hroot : c ≠ ".").
  { intros ->. pose proof (tree_root m Ht) as Hr. unfold dir_at in Hr. rewrite E in Hr. by rewrite Hr in E1. }
  assert (Hchild : ∀ p n', m !! p = Some n' → child_name c p = None ∨ n_dir n = false).
  { intros p n' Hp. destruct (n_dir n); [left|by right]. cbn in E2. apply negb_false_iff, bool_decide_eq_true in E2.
    destruct (child_name c p) as [x|] eqn:Ex; [|done].
    assert (x ∈ children c m) as Hin by (apply elem_of_children; eauto). rewrite E2 in Hin. by apply elem_of_nil in Hin. }
  split.
  - unfold dir_at. rewrite lookup_delete_ne by done. apply Ht.
  - intros p n' [_ H]%lookup_delete_Some. by eapply Ht.
  - intros cs x n' Hp [Hne H]%lookup_delete_Some. pose proof (tree_parent m Ht cs x n' Hp H) as Hd.
    unfold dir_at in *. rewrite lookup_delete_ne; [done|]. intros ->. rewrite E in Hd.
    destruct (Hchild _ _ H) as [Hc|Hc]; [|congruence]. rewrite child_name_snoc in Hc by done. done.
Qed.

(** ** Programs over the tree and over the views of its directories *)

(** The filesystem of the scenario, or of a directory of it. *)
Definition view (dir : option string) : FileSystem memFS :=
  match dir with None => Memory_FS | Some prefix => subFS Memory_FS prefix end.

Lemma writeThrough_sub prefix op app content name m :
  writeThrough (subFS Memory_FS prefix) (sub_write prefix (fun full => openWrite full op app) name) content m =
  match sub_join prefix name with
  | Err e => (m, Err e)
  | Ok full => writeThrough Memory_FS (openWrite full op app) content m
  end.
Proof. unfold writeThrough, sub_write, sbind, slift. by destruct (sub_join prefix name). Qed.

Lemma view_create_inv dir name content : sinv tree_ok (writeThrough (view dir) (@fsCreate _ (view dir) name) content).
Proof.
  intros m Ht. destruct dir as [prefix|]; [|by apply write_inv]. cbn [view fsCreate subFS Memory_FS].
  rewrite writeThrough_sub. destruct (sub_join prefix name); [by apply write_inv|done].
Qed.

Lemma view_append_inv dir name content : sinv tree_ok (writeThrough (view dir) (@fsAppend _ (view dir) name) content).
Proof.
  intros m Ht. destruct dir as [prefix|]; [|by apply write_inv]. cbn [view fsAppend subFS Memory_FS].
  rewrite writeThrough_sub. destruct (sub_join prefix name); [by apply write_inv|done].
Qed.

Lemma MkdirAll_inv name perm : sinv tree_ok (mem_MkdirAll name perm).
Proof. intros m Ht. by apply MkdirAll_spec. Qed.

Lemma sub_write_inv {A} prefix (write : string → M memFS goerror A) name :
  (∀ full, sinv tree_ok (write full)) → sinv tree_ok (sub_write prefix write name).
Proof. intros H. unfold sub_write. apply sinv_bind; [apply sinv_lift|done]. Qed.

Lemma view_mkdir_inv dir name perm : sinv tree_ok (@fsMkdirAll _ (view dir) name perm).
Proof. destruct dir; [apply sub_write_inv; intros full|]; apply MkdirAll_inv. Qed.

Lemma view_remove_inv dir name : sinv tree_ok (@fsRemove _ (view dir) name).
Proof. destruct dir; [apply sub_write_inv; intros full|]; apply Remove_inv. Qed.

(** The operations of a program on the files of a scenario or of a device. *)
Inductive fs_call : Type :=
| FsCreate (content path : string)
| FsCreateList (lines : list string) (path : string)
| FsUpdate (content path : string)
| FsUpdateList (lines : list string) (path : string)
| FsMkdirAll (path : string) (perm : Z)
| FsRemove (path : string)
| FsWriteLineBefore (path line searched : string) (first : bool)
| FsWriteLineAfter (path line searched : string) (first : bool)
| FsDeleteLine (path searched : string) (first : bool).

Definition run_fs (Compile : string → result goerror (string → bool)) (dir : option string) (c : fs_call)
    : M memFS goerror unit :=
  let fsys := view dir in
  match c with
  | FsCreate content path => CreateFileFromString fsys content path
  | FsCreateList lines path => CreateFileFromList fsys lines path
  | FsUpdate content path => UpdateFileFromString fsys content path
  | FsUpdateList lines path => UpdateFileFromList fsys lines path
  | FsMkdirAll path perm => @fsMkdirAll _ fsys path perm
  | FsRemove path => @fsRemove _ fsys path
  | FsWriteLineBefore path line searched first =>
      do* _ <- WriteLineBefore fsys Compile path line searched first in sret tt
  | FsWriteLineAfter path line searched first =>
      do* _ <- WriteLineAfter fsys Compile path line searched first in sret tt
  | FsDeleteLine path searched first =>
      do* _ <- DeleteLine fsys Compile path searched first in sret tt
  end.

Lemma createBytes_inv dir content path : sinv tree_ok (createBytes (view dir) content path).
Proof.
  unfold createBytes. apply sinv_bind; [|intros c; apply view_create_inv]. unfold prepareCreate.
  do 2 (apply sinv_bind; [apply sinv_lift|intros ?]).
  apply sinv_bind; [apply view_mkdir_inv|intros _; apply sinv_ret].
Qed.

Lemma appendBytes_inv dir content path : sinv tree_ok (appendBytes (view dir) content path).
Proof. unfold appendBytes. apply sinv_bind; [apply sinv_lift|]. intros c. apply view_append_inv. Qed.

Lemma editLines_inv Compile dir path pat emit first :
  sinv tree_ok (editLines (view dir) Compile path pat emit first).
Proof.
  unfold editLines. do 2 (apply sinv_bind; [apply sinv_lift|intros ?]).
  apply sinv_bind; [apply sinv_get|intros s]. apply sinv_bind; [apply sinv_lift|intros content].
  destruct (foldl _ _ _) as [n out]. apply sinv_bind; [apply view_create_inv|intros _; apply sinv_ret].
Qed.

Lemma run_fs_inv Compile dir c : sinv tree_ok (run_fs Compile dir c).
Proof.
  destruct c; cbn [run_fs]; try apply createBytes_inv; try apply appendBytes_inv;
    try apply view_mkdir_inv; try apply view_remove_inv;
    (apply sinv_bind; [apply editLines_inv|intros ?; apply sinv_ret]).
Qed.

(** C18: whatever sequence of creations, appends, line edits, directories and
    removals a program runs over the in-memory filesystem and the views of its directories,
    failed calls included, the entries stay a tree: canonical paths, under a root that
    stays a directory, each below an existing directory. *)
Theorem memory_stays_a_tree Compile (calls : list (option string * fs_call)) :
  tree_ok (foldl (fun m c => (run_fs Compile c.1 c.2 m).1) Memory calls).
Proof. apply foldl_inv; [apply Memory_ok|]. intros m c Hm. by apply run_fs_inv. Qed.

(** ** What is read back *)

Lemma ReadFile_run path m t :
  ReadFile Memory_FS path m = Ok t ↔
  ∃ c n, CleanPath path = Ok c ∧ m !! c = Some n ∧ n.(n_dir) = false ∧ t = n.(n_data).
Proof.
  unfold ReadFile, requireFile. destruct (CleanPath path) as [c|e] eqn:Ec; cbn [rbind].
  2: { split; [done|]. by intros (? & ? & ? & _). }
  destruct (CleanPath_ok _ _ Ec) as (cs & _ & _ & Hv). cbn [fsStat fsRead Memory_FS].
  unfold mem_Stat, mem_Read. rewrite Hv. cbn [negb]. split.
  - destruct (m !! c) as [n|] eqn:E; [|done]. cbn [rbind]. destruct (n_dir n) eqn:Ed; [done|].
    cbn [rbind]. intros [= <-]. eauto 10.
  - intros (c' & n & [= <-] & E & Ed & ->). rewrite E. cbn [rbind]. by rewrite Ed.
Qed.

(** Storing a file changes what is read from its path and from no other. *)
Lemma read_stored m m1 path c d mode :
  CleanPath path = Ok c → m ⊆ m1 →
  let m' := <[c := mkNode false d mode]> m1 in
  ReadFile Memory_FS path m' = Ok d ∧
  ∀ other t, CleanPath other ≠ Ok c → ReadFile Memory_FS other m = Ok t →
             ReadFile Memory_FS other m' = Ok t.
Proof.
  intros Hc Hsub m'. split.
  - apply ReadFile_run. exists c, (mkNode false d mode). unfold m'. by rewrite lookup_insert_eq.
  - intros other t Hne (c' & n & Hc' & E & Hd & ->)%ReadFile_run. apply ReadFile_run.
    exists c', n. unfold m'. rewrite lookup_insert_ne by congruence.
    split_and!; try done. by eapply lookup_weaken.
Qed.

Lemma create_run content path m m' :
  tree_ok m → CreateFileFromString Memory_FS content path m = (m', Ok tt) →
  ∃ c m1, CleanPath path = Ok c ∧ m ⊆ m1 ∧ m' = <[c := mkNode false content 0x1A4]> m1.
Proof.
  intros Ht. unfold CreateFileFromString, createBytes, prepareCreate, writeAll.
  unfold sbind at 1 2 3 4. unfold slift. destruct (CleanPath path) as [c|e] eqn:Ec; [|done].
  destruct (CleanPath (posixDirname path)) as [d|e] eqn:Ed; [|done].
  destruct (MkdirAll_spec d dirPerm m Ht) as (_ & Hsub & _).
  change (@fsMkdirAll _ Memory_FS d dirPerm) with (mem_MkdirAll d dirPerm).
  destruct (mem_MkdirAll d dirPerm m) as [m1 [[]|e]]; [|done]. cbn [fst] in Hsub. unfold sret.
  change (@fsCreate _ Memory_FS c) with (openWrite c "create" false). rewrite write_run. rewrite (CleanPath_idem _ _ Ec).
  destruct (dir_at m1 c); [done|]. destruct (dir_at m1 (parentDir c)); [|done]. cbn [negb].
  intros [= <-]. eauto 10.
Qed.

Lemma append_run content path m m' :
  UpdateFileFromString Memory_FS content path m = (m', Ok tt) →
  ∃ c, CleanPath path = Ok c ∧ dir_at m c = false ∧
       m' = <[c := mkNode false (file_at m c +:+ content) 0x1A4]> m.
Proof.
  unfold UpdateFileFromString, appendBytes. unfold sbind, slift.
  destruct (CleanPath path) as [c|e] eqn:Ec; [|done].
  change (@fsAppend _ Memory_FS c) with (openWrite c "append" true).
  rewrite write_run, (CleanPath_idem _ _ Ec). destruct (dir_at m c) eqn:Ed; [done|].
  destruct (dir_at m (parentDir c)); [|done]. cbn [negb]. intros [= <-]. eauto.
Qed.

(** A file that was created reads back as the text it was created from, a
    file that was appended to as its old text (none, when it did not exist) followed by the
    new one, and in both cases every other file reads as before. *)
Theorem written_text_is_read_back content path m m' :
  tree_ok m →
  (CreateFileFromString Memory_FS content path m = (m', Ok tt) →
     ReadFile Memory_FS path m' = Ok content ∧
     ∀ other t, CleanPath other ≠ CleanPath path → ReadFile Memory_FS other m = Ok t →
                ReadFile Memory_FS other m' = Ok t) ∧
  (UpdateFileFromString Memory_FS content path m = (m', Ok tt) →
     let old := match ReadFile Memory_FS path m with Ok t => t | Err _ => "" end in
     ReadFile Memory_FS path m' = Ok (old +:+ content) ∧
     ∀ other t, CleanPath other ≠ CleanPath path → ReadFile Memory_FS other m = Ok t →
                ReadFile Memory_FS other m' = Ok t).
Proof.
  intros Ht. split.
  - intros (c & m1 & Hc & Hsub & ->)%create_run; [|done]. rewrite Hc.
    by apply (read_stored m m1 path).
  - intros (c & Hc & Hd & ->)%append_run old. rewrite Hc.
    assert (old = file_at m c) as ->; [|by apply (read_stored m m path)].
    unfold old. destruct (ReadFile Memory_FS path m) as [t|e] eqn:E.
    + apply ReadFile_run in E as (c' & n & Hc' & En & _ & ->).
      assert (c' = c) as -> by congruence. unfold file_at. by rewrite En.
    + unfold file_at. destruct (m !! c) as [n|] eqn:En; [|done]. exfalso.
      assert (ReadFile Memory_FS path m = Ok n.(n_data)); [|congruence].
      apply ReadFile_run. exists c, n. unfold dir_at in Hd. by rewrite En in Hd.
Qed.

Lemma written_text_is_read_back_witness :
  let m := (CreateFileFromString Memory_FS "a" "/d/f" Memory).1 in
  ReadFile Memory_FS "d/f" (UpdateFileFromString Memory_FS "b" "d//f" m).1 = Ok "ab".
Proof.
  set (m := (CreateFileFromString Memory_FS "a" "/d/f" Memory).1).
  assert (Ht : tree_ok m) by (apply (createBytes_inv None), Memory_ok).
  destruct (written_text_is_read_back "b" "d//f" m (UpdateFileFromString Memory_FS "b" "d//f" m).1 Ht)
    as [_ H].
  destruct H as [Hr _]; [vm_compute; reflexivity|].
  assert (E : ReadFile Memory_FS "d//f" m = Ok "a") by (vm_compute; reflexivity).
  rewrite E in Hr. exact Hr.
Defined.

(** A writer that is still open when its file and the directory of the file are
    removed brings the file back on [Close], below a directory that no longer exists. *)
Definition orphan_run : M memFS goerror unit :=
  do* _ <- mem_MkdirAll "d" dirPerm in
  do* w <- @fsCreate _ Memory_FS "d/f" in
  do* _ <- mem_Remove "d/f" in
  do* _ <- mem_Remove "d" in
  do* _ <- mem_Close w in
  sret tt.

(** The tree relies on writers being closed before their file is removed:
    closing one after its file and its directory were removed leaves a file that reads
    but has no directory above it. *)
Theorem late_close_orphans_a_file :
  ∃ m, orphan_run Memory = (m, Ok tt) ∧ ReadFile Memory_FS "d/f" m = Ok "" ∧
       Exists Memory_FS "d" m = false ∧ ¬ tree_ok m.
Proof.
  exists (orphan_run Memory).1. split; [vm_compute; reflexivity|]. split; [vm_compute; reflexivity|].
  split; [vm_compute; reflexivity|]. intros Ht.
  pose proof (tree_parent _ Ht ["d"] "f") as Hp.
  specialize (Hp _ ltac:(repeat constructor) ltac:(vm_compute; reflexivity)). by vm_compute in Hp.
Qed.

(** ** Editing lines *)

Lemma SplitLines_go_concat s : ∀ acc, string_concat (SplitLines_go s acc) = bytes_string (reverse acc) +:+ s.
Proof.
  induction s as [s IH] using (induction_ltof1 _ String.length). unfold ltof in IH. intros acc.
  assert (Hsnoc : ∀ a, bytes_string (reverse (a :: acc)) = bytes_string (reverse acc) +:+ str1 a).
  { intros a. rewrite reverse_cons. induction (reverse acc) as [|b l IHl]; [done|]. cbn. by rewrite IHl. }
  destruct s as [|a s]; cbn [SplitLines_go].
  { case_bool_decide; [by subst|]. cbn. by rewrite string_app_nil_r. }
  assert (Hone : string_concat (bytes_string (reverse (a :: acc)) :: SplitLines_go s []) =
                      bytes_string (reverse acc) +:+ String a s).
  { cbn [string_concat]. rewrite IH by (cbn; lia). by rewrite Hsnoc, string_app_assoc. }
  destruct (Ascii.eqb a LF); [exact Hone|]. destruct (Ascii.eqb a CR).
  - destruct s as [|b s]; [exact Hone|]. destruct (Ascii.eqb b LF); [|exact Hone].
    cbn [string_concat]. rewrite IH by (cbn; lia). rewrite !reverse_cons.
    rewrite <- !app_assoc. cbn [app reverse].
    assert (Ht : ∀ l, bytes_string (l ++ [a; b]) = bytes_string l +:+ String a (str1 b)).
    { induction l as [|x l IHl]; [done|]. cbn. by rewrite IHl. }
    rewrite Ht, string_app_assoc. done.
  - rewrite IH by (cbn; lia). rewrite Hsnoc, string_app_assoc. done.
Qed.

Lemma SplitLines_concat text : string_concat (SplitLines text) = text.
Proof. apply SplitLines_go_concat. Qed.

(** The editors on a readable file: the edited lines replace its contents. *)
Lemma editLines_run Compile path pat emit first re m c text :
  tree_ok m → Compile pat = Ok re → CleanPath path = Ok c → ReadFile Memory_FS path m = Ok text →
  let '(n, out) := foldl (edit_step re emit first) (0, []) (SplitLines text) in
  editLines Memory_FS Compile path pat emit first m =
    (<[c := mkNode false (string_concat out) 0x1A4]> m, Ok n).
Proof.
  intros Ht Hre Hc Hr. pose proof Hr as (c' & nd & Hc' & En & Hd & _)%ReadFile_run.
  assert (c' = c) as -> by congruence.
  assert (Hr' : ReadFile Memory_FS c m = Ok text).
  { unfold ReadFile in Hr |- *. by rewrite (CleanPath_idem _ _ Hc), <- Hc. }
  destruct (foldl _ _ _) as [n out] eqn:Ef. unfold editLines, sbind, slift, sget. rewrite Hre, Hc, Hr', Ef.
  unfold writeAll. change (@fsCreate _ Memory_FS c) with (openWrite c "create" false).
  rewrite write_run, (CleanPath_idem _ _ Hc).
  assert (Hf : dir_at m c = false) by (unfold dir_at; by rewrite En). rewrite Hf.
  destruct (clean_not_dir m c Ht ltac:(eauto) Hf) as (cs & x & -> & Hp & ->).
  by rewrite (tree_parent m Ht cs x nd Hp En).
Qed.

Lemma delete_fold_all re lines : ∀ n out,
  foldl (edit_step re emit_delete false) (n, out) lines =
  (n + Z.of_nat (length (List.filter (pySearch re) lines)),
   out ++ (normalizeLine <$> List.filter (fun l => negb (pySearch re l)) lines)).
Proof.
  induction lines as [|l lines IH]; intros n out; cbn [foldl List.filter].
  { rewrite Z.add_0_r. cbn. by rewrite app_nil_r. }
  unfold edit_step at 2. cbn [negb orb]. rewrite andb_true_r. unfold emit_delete at 2.
  destruct (pySearch re l); cbn [negb]; rewrite IH.
  - f_equal. cbn [length]. lia.
  - by rewrite <- app_assoc.
Qed.

Lemma delete_fold_rest re lines : ∀ n out, 0 < n →
  foldl (edit_step re emit_delete true) (n, out) lines = (n, out ++ (normalizeLine <$> lines)).
Proof.
  induction lines as [|l lines IH]; intros n out Hn; cbn [foldl]; [cbn; by rewrite app_nil_r|].
  unfold edit_step at 2. cbn [negb orb]. rewrite (proj2 (Z.eqb_neq n 0)) by lia. rewrite andb_false_r.
  unfold emit_delete at 2. rewrite IH by done. by rewrite <- app_assoc.
Qed.

Lemma delete_fold_none re lines : ∀ out,
  Forall (fun l => pySearch re l = false) lines →
  foldl (edit_step re emit_delete true) (0, out) lines = (0, out ++ (normalizeLine <$> lines)).
Proof.
  induction lines as [|l lines IH]; intros out Hall; cbn [foldl]; [cbn; by rewrite app_nil_r|].
  apply Forall_cons in Hall as [Hl Hall]. unfold edit_step at 2. rewrite Hl. cbn [andb].
  unfold emit_delete at 2. rewrite IH by done. by rewrite <- app_assoc.
Qed.

(** Deleting the lines of a file that match a pattern leaves the other lines,
    in order and with their line ends normalised, and reports how many went; limited to
    the first occurrence it removes that line alone.  The lines are cut without losing a byte. *)
Theorem DeleteLine_exact Compile path pat re m c text :
  tree_ok m → Compile pat = Ok re → CleanPath path = Ok c → ReadFile Memory_FS path m = Ok text →
  let lines := SplitLines text in
  let stored out := <[c := mkNode false (string_concat (normalizeLine <$> out)) 0x1A4]> m in
  string_concat lines = text ∧
  DeleteLine Memory_FS Compile path pat false m =
    (stored (List.filter (fun l => negb (pySearch re l)) lines),
     Ok (Z.of_nat (length (List.filter (pySearch re) lines)))) ∧
  (Forall (fun l => pySearch re l = false) lines →
     DeleteLine Memory_FS Compile path pat true m = (stored lines, Ok 0)) ∧
  (∀ pre l post, lines = pre ++ l :: post → Forall (fun l => pySearch re l = false) pre →
     pySearch re l = true → DeleteLine Memory_FS Compile path pat true m = (stored (pre ++ post), Ok 1)).
Proof.
  intros Ht Hre Hc Hr lines stored. unfold DeleteLine. split; [apply SplitLines_concat|].
  pose proof (fun emit first => editLines_run Compile path pat emit first re m c text Ht Hre Hc Hr) as Hrun.
  fold lines in Hrun. split; [|split].
  - specialize (Hrun emit_delete false). by rewrite delete_fold_all in Hrun.
  - intros Hall. specialize (Hrun emit_delete true). by rewrite delete_fold_none in Hrun.
  - intros pre l post El Hpre Hl. specialize (Hrun emit_delete true).
    rewrite El, foldl_app, delete_fold_none in Hrun by done. cbn [foldl] in Hrun.
    unfold edit_step at 2 in Hrun. rewrite Hl in Hrun. cbn [andb negb orb] in Hrun.
    change (0 =? 0) with true in Hrun. cbn [emit_delete] in Hrun. cbv iota in Hrun.
    rewrite delete_fold_rest in Hrun by lia. cbn [app] in Hrun. unfold stored. by rewrite fmap_app.
Qed.

Lemma DeleteLine_exact_witness :
  let text := "a" +:+ str1 LF +:+ "b" +:+ str1 LF +:+ "a" in
  let m := (CreateFileFromString Memory_FS text "f" Memory).1 in
  let Compile p := Ok (fun l => HasPrefix l p) in
  (DeleteLine Memory_FS Compile "f" "a" false m).2 = Ok 2.
Proof.
  intros text m Compile.
  assert (Ht : tree_ok m) by (apply (createBytes_inv None), Memory_ok).
  destruct (DeleteLine_exact Compile "f" "a" (fun l => HasPrefix l "a") m "f" text Ht)
    as (_ & H & _); [reflexivity|vm_compute; reflexivity|vm_compute; reflexivity|].
  rewrite H. vm_compute. reflexivity.
Defined.

(** ** A name under a path *)

Lemma split_under (p name : string) : contains_byte sep name = false →
  split_byte sep (p +:+ "/" +:+ name) = split_byte sep p ++ [name].
Proof.
  intros Hn. rewrite <- (join_split_byte sep p) at 1. change "/" with (str1 sep).
  rewrite <- (str_join_snoc (str1 sep)) by apply split_byte_nonempty.
  apply split_byte_join; [by destruct (split_byte sep p)|]. apply Forall_app. split; [apply split_byte_free|by constructor].
Qed.

Lemma basename_under (p name : string) : contains_byte sep name = false → Base_component (p +:+ "/" +:+ name) = name.
Proof. intros Hn. unfold Base_component. rewrite split_under by done. apply List.last_last. Qed.

Lemma dir_part_under (p name : string) : contains_byte sep name = false → dir_part (p +:+ "/" +:+ name) = p +:+ "/".
Proof.
  intros Hn. unfold dir_part. rewrite basename_under by done.
  replace (String.length (p +:+ "/" +:+ name) - String.length name)%nat with (String.length (p +:+ "/"))
    by (rewrite !string_length_app; lia).
  rewrite <- string_app_assoc. apply string_take_app.
Qed.
