(* ===== verification/Hash.v ===== *)
(** * Identity tokens (internal/util/hash.go)

    [GenerateURLSafeHash], the hash a scenario's containers are created under,
    and [Slug].  MD5 is implemented here from RFC 1321 on 32-bit words, base64
    from RFC 4648; the NFKD normalisation of golang.org/x/text is a parameter. *)

From S2P Require Export GoString OrderedMap.
Local Open Scope string_scope.
Local Open Scope list_scope.
Local Open Scope Z_scope.

(** ** MD5 *)

Definition w32 (z : Z) : Z := Z.land z 0xFFFFFFFF.
Definition not32 (z : Z) : Z := Z.lxor z 0xFFFFFFFF.
Definition rotl32 (x n : Z) : Z := w32 (Z.lor (Z.shiftl x n) (Z.shiftr x (32 - n))).

Definition md5_K : list Z :=
  [0xd76aa478; 0xe8c7b756; 0x242070db; 0xc1bdceee; 0xf57c0faf; 0x4787c62a; 0xa8304613; 0xfd469501;
   0x698098d8; 0x8b44f7af; 0xffff5bb1; 0x895cd7be; 0x6b901122; 0xfd987193; 0xa679438e; 0x49b40821;
   0xf61e2562; 0xc040b340; 0x265e5a51; 0xe9b6c7aa; 0xd62f105d; 0x02441453; 0xd8a1e681; 0xe7d3fbc8;
   0x21e1cde6; 0xc33707d6; 0xf4d50d87; 0x455a14ed; 0xa9e3e905; 0xfcefa3f8; 0x676f02d9; 0x8d2a4c8a;
   0xfffa3942; 0x8771f681; 0x6d9d6122; 0xfde5380c; 0xa4beea44; 0x4bdecfa9; 0xf6bb4b60; 0xbebfbc70;
   0x289b7ec6; 0xeaa127fa; 0xd4ef3085; 0x04881d05; 0xd9d4d039; 0xe6db99e5; 0x1fa27cf8; 0xc4ac5665;
   0xf4292244; 0x432aff97; 0xab9423a7; 0xfc93a039; 0x655b59c3; 0x8f0ccc92; 0xffeff47d; 0x85845dd1;
   0x6fa87e4f; 0xfe2ce6e0; 0xa3014314; 0x4e0811a1; 0xf7537e82; 0xbd3af235; 0x2ad7d2bb; 0xeb86d391].

Definition md5_rot (i : Z) : Z :=
  List.nth (Z.to_nat (i mod 4))
    (if i <? 16 then [7; 12; 17; 22] else if i <? 32 then [5; 9; 14; 20]
     else if i <? 48 then [4; 11; 16; 23] else [6; 10; 15; 21]) 0.

Definition md5_mix (i b c d : Z) : Z * Z :=
  if i <? 16 then (Z.lor (Z.land b c) (Z.land (not32 b) d), i)
  else if i <? 32 then (Z.lor (Z.land d b) (Z.land (not32 d) c), (5 * i + 1) mod 16)
  else if i <? 48 then (Z.lxor (Z.lxor b c) d, (3 * i + 5) mod 16)
  else (Z.lxor c (Z.lor b (not32 d)), (7 * i) mod 16).

Definition md5_round (words : list Z) (st : Z * Z * Z * Z) (ik : Z * Z) : Z * Z * Z * Z :=
  let '(a, b, c, d) := st in
  let '(i, k) := ik in
  let '(f, g) := md5_mix i b c d in
  let f := w32 (f + a + k + List.nth (Z.to_nat g) words 0) in
  (d, w32 (b + rotl32 f (md5_rot i)), b, c).

Fixpoint le_bytes (n : nat) (z : Z) : list Z :=
  match n with O => [] | S n => Z.land z 0xFF :: le_bytes n (Z.shiftr z 8) end.

Fixpoint le_words (bs : list Z) : list Z :=
  match bs with
  | b0 :: b1 :: b2 :: b3 :: bs =>
      (b0 + Z.shiftl b1 8 + Z.shiftl b2 16 + Z.shiftl b3 24) :: le_words bs
  | _ => []
  end.

Definition md5_pad (bs : list Z) : list Z :=
  let n := length bs in
  let zeros := Z.to_nat ((55 - Z.of_nat n) mod 64) in
  bs ++ [0x80] ++ replicate zeros 0 ++ le_bytes 8 (8 * Z.of_nat n).

Fixpoint md5_blocks (fuel : nat) (words : list Z) (st : Z * Z * Z * Z) : Z * Z * Z * Z :=
  match fuel with
  | O => st
  | S fuel =>
      if decide (words = []) then st
      else
        let '(a0, b0, c0, d0) := st in
        let '(a, b, c, d) :=
          foldl (md5_round (take 16 words)) st (zip (Z.of_nat <$> seq 0 64) md5_K) in
        md5_blocks fuel (drop 16 words) (w32 (a0 + a), w32 (b0 + b), w32 (c0 + c), w32 (d0 + d))
  end.

Definition md5_Sum (bs : list Z) : list Z :=
  let words := le_words (md5_pad bs) in
  let '(a, b, c, d) :=
    md5_blocks (length words) words (0x67452301, 0xefcdab89, 0x98badcfe, 0x10325476) in
  le_bytes 4 a ++ le_bytes 4 b ++ le_bytes 4 c ++ le_bytes 4 d.

(** ** URL-safe base64, with padding *)

Definition b64_char (i : Z) : ascii :=
  if i <? 26 then az (65 + i) else if i <? 52 then az (71 + i)
  else if i <? 62 then az (i - 4) else if i =? 62 then az 45 else az 95.

Fixpoint b64_encode (bs : list Z) : list ascii :=
  let c z := b64_char (Z.land z 63) in
  match bs with
  | b0 :: b1 :: b2 :: bs =>
      let z := Z.shiftl b0 16 + Z.shiftl b1 8 + b2 in
      c (Z.shiftr z 18) :: c (Z.shiftr z 12) :: c (Z.shiftr z 6) :: c z :: b64_encode bs
  | [b0; b1] =>
      let z := Z.shiftl b0 16 + Z.shiftl b1 8 in
      [c (Z.shiftr z 18); c (Z.shiftr z 12); c (Z.shiftr z 6); az 61]
  | [b0] => let z := Z.shiftl b0 16 in [c (Z.shiftr z 18); c (Z.shiftr z 12); az 61; az 61]
  | [] => []
  end.

(** ** The hash *)

Definition GenerateURLSafeHash (s : string) : string :=
  let asciiOnly := List.filter (fun b => b <? 0x80) (zb <$> string_bytes s) in
  let encoded := b64_encode (md5_Sum asciiOnly) in
  delete_bytes (fun a => Ascii.eqb a (az 45) || Ascii.eqb a (az 95))
    (bytes_string (take (length encoded - 2) encoded)).

(** ** The slug *)

Definition asciiSpace (b : ascii) : bool :=
  let z := zb b in ((9 <=? z) && (z <=? 13)) || (z =? 32) || ((28 <=? z) && (z <=? 31)).

Definition asciiWord (b : ascii) : bool :=
  let z := zb b in
  (z =? 95) || ((48 <=? z) && (z <=? 57)) || ((97 <=? z) && (z <=? 122)) || ((65 <=? z) && (z <=? 90)).

Definition ascii_to_lower (b : ascii) : ascii :=
  if (65 <=? zb b) && (zb b <=? 90) then az (zb b + 32) else b.

(** The last loop: runs of dashes and spaces become one dash. *)
Fixpoint slug_loop (kept : list ascii) (inRun : bool) : list ascii :=
  match kept with
  | [] => []
  | b :: kept =>
      if Ascii.eqb b (az 45) || asciiSpace b then
        if inRun then slug_loop kept true else az 45 :: slug_loop kept true
      else ascii_to_lower b :: slug_loop kept false
  end.

Definition slug_kept (b : ascii) : bool :=
  (zb b <? 0x80) && (asciiWord b || asciiSpace b || Ascii.eqb b (az 45)).

Definition Slug (NFKD : string → string) (value : string) : string :=
  bytes_string (slug_loop (trim asciiSpace (List.filter slug_kept (string_bytes (NFKD value)))) false).

(** The RFC 1321 test suite, and the hash the project's tests expect. *)
Definition hex_digest (s : string) : list Z := md5_Sum (zb <$> string_bytes s).
Example md5_empty : take 4 (hex_digest "") = [0xd4; 0x1d; 0x8c; 0xd9].
Proof. vm_compute. reflexivity. Qed.
Example md5_abc : take 4 (hex_digest "abc") = [0x90; 0x01; 0x50; 0x98].
Proof. vm_compute. reflexivity. Qed.
Example md5_long :
  take 4 (hex_digest "12345678901234567890123456789012345678901234567890123456789012345678901234567890")
  = [0x57; 0xed; 0xf4; 0xa2].
Proof. vm_compute. reflexivity. Qed.
Example hash_vlab : GenerateURLSafeHash "kathara_vlab" = "rMHnlcI87I74aEZKpwj7Q".
Proof. vm_compute. reflexivity. Qed.
Example hash_unicode : GenerateURLSafeHash (string_of_runes [26085; 26412; 35486]) = GenerateURLSafeHash "".
Proof. vm_compute. reflexivity. Qed.
Example slug_ex : Slug id "  Foo -_ Bar!  " = "foo-_-bar".
Proof. vm_compute. reflexivity. Qed.

(** ** Theorems *)

Definition is_alnum (a : ascii) : bool :=
  let z := zb a in
  ((48 <=? z) && (z <=? 57)) || ((65 <=? z) && (z <=? 90)) || ((97 <=? z) && (z <=? 122)).

Lemma b64_char_class i :
  0 <= i < 64 →
  is_alnum (b64_char i) || Ascii.eqb (b64_char i) (az 45) || Ascii.eqb (b64_char i) (az 95) = true.
Proof.
  intros Hi. assert (Hall : forallb (fun n => let i := Z.of_nat n in
    is_alnum (b64_char i) || Ascii.eqb (b64_char i) (az 45) || Ascii.eqb (b64_char i) (az 95))
    (seq 0 64) = true) by by vm_compute.
  rewrite forallb_forall in Hall. specialize (Hall (Z.to_nat i)).
  rewrite Z2Nat.id in Hall by lia. apply Hall. apply in_seq. lia.
Qed.

Lemma land63 z : 0 <= Z.land z 63 < 64.
Proof. change 63 with (Z.ones 6). rewrite Z.land_ones by lia. apply Z.mod_pos_bound. lia. Qed.

Lemma string_bytes_delete p s :
  string_bytes (delete_bytes p s) = List.filter (fun a => negb (p a)) (string_bytes s).
Proof. induction s as [|a s IH]; [done|]. simpl. destruct (p a); simpl; by rewrite IH. Qed.

(** Sixteen bytes encode to twenty-two characters of the alphabet and two pads. *)
Lemma b64_16 bs :
  length bs = 16%nat →
  length (b64_encode bs) = 24%nat ∧
  Forall (fun a => is_alnum a || Ascii.eqb a (az 45) || Ascii.eqb a (az 95) = true)
         (take 22 (b64_encode bs)).
Proof.
  intros Hlen. do 16 (destruct bs as [|? bs]; [done|]). destruct bs; [|done].
  split; [done|]. cbn [b64_encode take].
  repeat (constructor; [apply b64_char_class, land63|]). constructor.
Qed.

(** The hash of any string is made of ASCII letters and digits only, and of
    at most twenty-two of them, so it is a valid token for Docker and Kubernetes names. *)
Theorem GenerateURLSafeHash_safe s :
  Forall (fun a => is_alnum a = true) (string_bytes (GenerateURLSafeHash s)) ∧
  (length (string_bytes (GenerateURLSafeHash s)) ≤ 22)%nat.
Proof.
  unfold GenerateURLSafeHash. set (bs := md5_Sum _).
  assert (Hlen : length bs = 16%nat).
  { unfold bs, md5_Sum. by destruct (md5_blocks _ _ _) as [[[a b] c] d]. }
  destruct (b64_16 bs Hlen) as [H24 Hall]. rewrite H24, string_bytes_delete, string_bytes_string.
  change (24 - 2)%nat with 22%nat. split.
  - apply Forall_forall. intros a [Ha Hn]%elem_of_lfilter.
    rewrite Forall_forall in Hall. specialize (Hall a Ha). 
    apply negb_true_iff, orb_false_iff in Hn as [Hn1 Hn2].
    by rewrite Hn1, Hn2, !orb_false_r in Hall.
  - etrans; [apply filter_length_le|]. rewrite length_take. lia.
Qed.

Definition slug_char (a : ascii) : bool :=
  let z := zb a in (z =? 45) || (z =? 95) || ((48 <=? z) && (z <=? 57)) || ((97 <=? z) && (z <=? 122)).

(** No two dashes in a row; [prev] says whether a dash comes just before. *)
Fixpoint no_double_dash (prev : bool) (l : list ascii) : bool :=
  match l with
  | [] => true
  | a :: l => let d := Ascii.eqb a (az 45) in negb (prev && d) && no_double_dash d l
  end.

Lemma slug_lower b :
  slug_kept b = true → Ascii.eqb b (az 45) || asciiSpace b = false →
  slug_char (ascii_to_lower b) = true ∧ Ascii.eqb (ascii_to_lower b) (az 45) = false.
Proof. destruct b as [[][][][][][][][]]; vm_compute; intros; try discriminate; done. Qed.

Lemma slug_loop_ok l : ∀ inRun,
  Forall (fun b => slug_kept b = true) l →
  Forall (fun b => slug_char b = true) (slug_loop l inRun) ∧
  no_double_dash inRun (slug_loop l inRun) = true.
Proof.
  induction l as [|b l IH]; intros inRun Hl; [split; [constructor|done]|].
  inversion_clear Hl as [|? ? Hb Hl']. cbn [slug_loop].
  destruct (Ascii.eqb b (az 45) || asciiSpace b) eqn:E.
  - destruct (IH true Hl') as [H1 H2]. destruct inRun; [done|].
    split; [by constructor|]. cbn [no_double_dash]. by rewrite Ascii.eqb_refl.
  - destruct (slug_lower b Hb E) as [H1 H2]. destruct (IH false Hl') as [H3 H4].
    split; [by constructor|]. cbn [no_double_dash]. by rewrite H2, andb_false_r.
Qed.

(** Whatever the normalisation does, a slug holds only lower-case letters,
    digits, underscores and dashes, and never two dashes in a row. *)
Theorem Slug_safe NFKD value :
  let s := string_bytes (Slug NFKD value) in
  Forall (fun a => slug_char a = true) s ∧ no_double_dash false s = true.
Proof.
  simpl. unfold Slug. rewrite string_bytes_string. apply slug_loop_ok.
  apply Forall_forall. intros a Ha%trim_sublist. by apply elem_of_lfilter in Ha as [_ ?].
Qed.
