(* ===== verification/Machine.v ===== *)
(** * The scenario heap and its devices (model/machine.go, interface.go, link.go)

    Devices, collision domains and scenarios refer to each other by pointer:
    a device is held by its scenario and by every collision domain it is
    attached to, and an interface points back to both.  The model keeps the
    pointers: the state is a heap of devices, links and scenarios, and an
    operation reads and writes through locations.  A failed call keeps the
    writes made before the failure, as the Go code does. *)

From S2P Require Export Meta Vfs Hash.
From Stdlib Require Import Floats.SpecFloat Sorting.Sorted.
From stdpp Require Import sorting.
Local Open Scope string_scope.
Local Open Scope list_scope.
Local Open Scope Z_scope.
Local Open Scope kat_scope.

(** ** Data *)

Definition loc : Type := positive.

(** An interface slot; a removed interface leaves its number behind. *)
Record Interface : Type := mkInterface {
  iMachine : option loc;
  iLink : option loc;
  Number : Z;
  MAC : string;
}.

Definition IsTombstone (i : Interface) : bool := match i.(iLink) with None => true | Some _ => false end.

Record Machine : Type := mkMachine {
  mLab : loc;
  mName : string;
  mMeta : Meta;
  mFS : option string;          (* the directory of the scenario filesystem it views *)
  interfaces : list Interface;
}.

Record ExternalLink : Type := mkExternalLink { eInterface : string; VLAN : Z }.

Record Link : Type := mkLink {
  lLab : loc;
  lName : string;
  External : list ExternalLink;
  lMachines : OrderedMap string loc;
}.

Record Defaults : Type := mkDefaults {
  dImage : string;
  DeviceShell : string;
  EnableIPv6 : bool;
  VolumeMountPolicy : string;
}.

Definition DefaultDefaults : Defaults := mkDefaults "kathara/base" "/bin/bash" false "Always".

Record Lab (F : Type) : Type := mkLab {
  Description : string;
  Version : string;
  Author : string;
  Email : string;
  Web : string;
  LabHash : string;
  SharedPath : string;
  HasDependencies : bool;
  labFS : F;
  labDefaults : Defaults;
  labName : option string;
  labMachines : OrderedMap string loc;
  labLinks : OrderedMap string loc;
  generalOptions : OrderedMap string Scalar;
  globalMachineMetadata : OrderedMap string Scalar;
}.
Arguments mkLab {F}.
Arguments Description {F}. Arguments Version {F}. Arguments Author {F}. Arguments Email {F}.
Arguments Web {F}. Arguments LabHash {F}. Arguments SharedPath {F}. Arguments HasDependencies {F}.
Arguments labFS {F}. Arguments labDefaults {F}. Arguments labName {F}. Arguments labMachines {F}.
Arguments labLinks {F}. Arguments generalOptions {F}. Arguments globalMachineMetadata {F}.

Record heap (F : Type) : Type := mkHeap {
  hMachines : gmap loc Machine;
  hLinks : gmap loc Link;
  hLabs : gmap loc (Lab F);
  hNext : loc;
}.
Arguments mkHeap {F}.
Arguments hMachines {F}. Arguments hLinks {F}. Arguments hLabs {F}. Arguments hNext {F}.

(** What ends a call early: an error value, or a nil pointer dereference. *)
Inductive failure : Type := Go (e : goerror) | NilDeref.

(** ** The MAC and device-name patterns *)

Definition hex_class : re letter :=
  rcls (fun r => ((48 <=? r) && (r <=? 57)) || ((97 <=? r) && (r <=? 102)) || ((65 <=? r) && (r <=? 70))).

Definition macAddressRegex : re letter :=
  Cat (Times 5 (Cat (Times 2 hex_class) (rchar 58))) (Cat (Times 2 hex_class) opt_newline_end).

Definition machineNameRegex : re letter := Cat (Between 1 30 (rcls isDeviceNameRune)) Eot.

(** ** Searching the interface slots *)

(** The bisection of [sort.Search] and [slices.BinarySearchFunc]: the least
    index in [[i, j)] where [f] holds, [j] if there is none. *)
Fixpoint bisect (fuel : nat) (f : nat → bool) (i j : nat) : nat :=
  match fuel with
  | O => i
  | S fuel =>
      if (i <? j)%nat then
        let h := Nat.div2 (i + j) in
        if negb (f h) then bisect fuel f (S h) j else bisect fuel f i h
      else i
  end.

Definition sort_Search (n : nat) (f : nat → bool) : nat := bisect n f 0 n.

Definition slot_number (ifs : list Interface) (h : nat) : Z :=
  match ifs !! h with Some i => i.(Number) | None => 0 end.

Definition interfaceIndex (ifs : list Interface) (n : Z) : nat * bool :=
  let i := sort_Search (length ifs) (fun h => negb (slot_number ifs h <? n)) in
  (i, (i <? length ifs)%nat && (slot_number ifs i =? n)).

Definition HasInterfaceNumber (m : Machine) (n : Z) : bool := (interfaceIndex m.(interfaces) n).2.

Definition InterfaceAt (m : Machine) (n : Z) : option Interface :=
  let '(idx, found) := interfaceIndex m.(interfaces) n in
  if negb found then None
  else match m.(interfaces) !! idx with
       | Some i => if IsTombstone i then None else Some i
       | None => None
       end.

(** [slices.Insert]. *)
Definition insert_at {A} (idx : nat) (x : A) (l : list A) : list A := take idx l ++ x :: drop idx l.

Definition set_interfaces (ifs : list Interface) (m : Machine) : Machine :=
  mkMachine m.(mLab) m.(mName) m.(mMeta) m.(mFS) ifs.
Definition set_meta (meta : Meta) (m : Machine) : Machine :=
  mkMachine m.(mLab) m.(mName) meta m.(mFS) m.(interfaces).
Definition set_mFS (fs : option string) (m : Machine) : Machine :=
  mkMachine m.(mLab) m.(mName) m.(mMeta) fs m.(interfaces).
Definition set_lMachines (ms : OrderedMap string loc) (l : Link) : Link :=
  mkLink l.(lLab) l.(lName) l.(External) ms.
Definition set_External (es : list ExternalLink) (l : Link) : Link :=
  mkLink l.(lLab) l.(lName) es l.(lMachines).

Definition insertInterface (iface : Interface) (m : Machine) : Machine :=
  let '(idx, _) := interfaceIndex m.(interfaces) iface.(Number) in
  set_interfaces (insert_at idx iface m.(interfaces)) m.

(** ** [Check] *)

(** An exact rational of the form [m * 2^e], or an infinity: a [big.Float]. *)
Inductive bigfloat : Type := BFin (m e : Z) | BInf (neg : bool).

Definition cmpIntFloat (n : Z) (f : bigfloat) : comparison :=
  match f with
  | BFin m e => if 0 <=? e then Z.compare n (m * 2 ^ e) else Z.compare (n * 2 ^ (- e)) m
  | BInf neg => if neg then Gt else Lt
  end.

(** [bridgedNumber]: [None] is the NaN. *)
Definition bridgedIfaceValue (m : Machine) : result goerror (option bigfloat) :=
  let iface := m.(mMeta).(BridgedIface) in
  match iface with
  | Int _ | Bool _ => let* value := pyInt iface in Ok (Some (BFin value 0))
  | Float _ =>
      let* value := scalar_pyFloat iface in
      Ok (match value with
          | S754_nan => None
          | S754_infinity s => Some (BInf s)
          | S754_zero _ => Some (BFin 0 0)
          | S754_finite s mant e => Some (BFin (if s then Zneg mant else Zpos mant) e)
          end)
  | SAbsent | Str _ | Strings _ =>
      match m.(interfaces) with
      | [] => Err (NewNonSequentialMachineInterface 0 m.(mName))
      | _ => Err (newBridgedIfaceTypeError (pyTypeName iface))
      end
  end.

Definition number_at (m : Machine) (i : nat) : Z := slot_number m.(interfaces) i.

(** The first index of [idxs] that fails the test is the interface reported missing. *)
Fixpoint check_from (ok : nat → bool) (idxs : list nat) (name : string) : result goerror unit :=
  match idxs with
  | [] => Ok tt
  | i :: idxs => if negb (ok i) then Err (NewNonSequentialMachineInterface (Z.of_nat i) name)
               else check_from ok idxs name
  end.

Definition cmp_ge (c : comparison) : bool := match c with Lt => false | _ => true end.
Definition cmp_eq (c : comparison) : bool := match c with Eq => true | _ => false end.

Definition checkNumbering (m : Machine) : result goerror unit :=
  let len := length m.(interfaces) in
  if negb (IsSet m.(mMeta).(BridgedIface)) then
    check_from (fun i => number_at m i =? Z.of_nat i) (seq 0 len) m.(mName)
  else
    let* bridged := bridgedIfaceValue m in
    let position := match bridged with
                    | None => len
                    | Some v => sort_Search len (fun i => cmp_ge (cmpIntFloat (number_at m i) v))
                    end in
    check_from (fun i =>
      if (i <? position)%nat then number_at m i =? Z.of_nat i
      else if (i =? position)%nat then
        match bridged with
        | None => false
        | Some v => cmp_eq (cmpIntFloat (Z.of_nat i) v)
        end
      else number_at m (i - 1) =? Z.of_nat i) (seq 0 (S len)) m.(mName).

(** ** External links and their rendering *)

Definition NameAndVLAN (e : ExternalLink) : string * Z :=
  if e.(VLAN) =? 0 then (e.(eInterface), 0)
  else
    let suffix := "." +:+ Itoa e.(VLAN) in
    let limit := Z.max 0 (15 - Z.of_nat (String.length suffix)) in
    let rs := runes e.(eInterface) in
    if limit <? Z.of_nat (length rs)
    then (string_of_runes (take (Z.to_nat limit) rs), e.(VLAN))
    else (e.(eInterface), e.(VLAN)).

Definition FullName (e : ExternalLink) : string :=
  let '(base, vlan) := NameAndVLAN e in
  if vlan =? 0 then base else base +:+ "." +:+ Itoa vlan.

Definition ExternalLink_String (e : ExternalLink) : string :=
  "ExternalLink(" +:+ e.(eInterface) +:+ ", "
    +:+ (if negb (e.(VLAN) =? 0) then Itoa e.(VLAN) else "None") +:+ ")".

Definition Link_String (l : Link) : string :=
  "Link(" +:+ l.(lName) +:+ ", [" +:+ str_join ", " (ExternalLink_String <$> l.(External)) +:+ "])".

(** ** The accessors of the metas, over the device's scenario and the device *)

Section accessors.
Context {F : Type} `{TextCases}.
Implicit Types (lab : Lab F) (m : Machine).

Definition GlobalMachineMetadata lab (name : string) : option Scalar :=
  Get lab.(globalMachineMetadata) name.
Definition GeneralOption lab (name : string) : option Scalar := Get lab.(generalOptions) name.

Definition IsPrivileged lab m : bool :=
  match GlobalMachineMetadata lab "privileged" with
  | Some global => Truthy global
  | None => match m.(mMeta).(Privileged) with Some b => b | None => false end
  end.

Definition IsBridged m : bool :=
  match m.(mMeta).(Bridged) with Some b => b | None => false end.

Definition GetImage lab m : string :=
  match GlobalMachineMetadata lab "image" with
  | Some global => scalar_string global
  | None => if IsSet m.(mMeta).(Image) then scalar_string m.(mMeta).(Image)
            else lab.(labDefaults).(dImage)
  end.

Definition memory_units : list string := ["b"; "k"; "m"; "g"].

Definition GetMem lab m : result goerror string :=
  let memory := default m.(mMeta).(Mem) (GlobalMachineMetadata lab "mem") in
  if negb (Truthy memory) then Ok ""
  else match AsString memory with
  | None => Err (newTypeError ("'" +:+ pyTypeName memory +:+ "' object is not subscriptable"))
  | Some raw =>
      let rs := runes raw in
      let unit := ToLower (string_of_runes [List.last rs 0]) in
      if negb (str_in unit memory_units) then
        match pyBigInt raw with
        | Err _ => Err (NewOptionMemory m.(mName))
        | Ok value => Ok (Itoa value +:+ "m")
        end
      else
        match pyBigInt (string_of_runes (take (length rs - 1) rs)) with
        | Err _ => Err (NewOptionMemory m.(mName))
        | Ok value => Ok (Itoa value +:+ unit)
        end
  end.

Definition is_plain_error (text : goerror) (e : goerror) : bool :=
  match text, e with EPlain s, EPlain t => String.eqb s t | _, _ => false end.

Definition GetCPU (multiplier : f64) lab m : result goerror (option Z) :=
  let value := match GlobalMachineMetadata lab "cpus" with
               | Some global => Some global
               | None => if IsSet m.(mMeta).(CPUs) then Some m.(mMeta).(CPUs) else None
               end in
  match value with
  | None => Ok None
  | Some value =>
      match scalar_pyFloat value with
      | Err e => if is_type_error e then Err e else Err (NewOptionCPU m.(mName))
      | Ok cpus =>
          match floatToBigInt (f64_mul cpus multiplier) with
          | Err e => if is_plain_error errPyIntNaN e then Err (NewOptionCPU m.(mName)) else Err e
          | Ok scaled => Ok (Some (saturateInt64 scaled))
          end
      end
  end.

Definition GetShell lab m : string :=
  if IsSet m.(mMeta).(Shell) then scalar_string m.(mMeta).(Shell)
  else lab.(labDefaults).(DeviceShell).

(** [errors.Is(err, errPyIntInf)]: the identity of that error value. *)
Definition is_int_inf (e : goerror) : bool :=
  match e with EPyRuntime c _ => String.eqb c "OverflowError" | _ => false end.

Definition GetNumTerms lab m : result goerror Z :=
  let value := match GlobalMachineMetadata lab "num_terms" with
               | Some global => global
               | None => if IsSet m.(mMeta).(NumTerms) then m.(mMeta).(NumTerms) else Int 1
               end in
  match pyInt value with
  | Err e => if is_type_error e || is_int_inf e then Err e else Err (NewOptionTerminals m.(mName))
  | Ok numTerms =>
      if numTerms <? 0 then Err (NewOptionTerminalsNegative m.(mName))
      else Ok (saturateInt numTerms)
  end.

Definition GetVolumes lab m : result goerror (OrderedMap string Volume) :=
  let canMount :=
    if 0 <? Len m.(mMeta).(Volumes) then
      match GeneralOption lab "_mount_volumes" with
      | Some option => Truthy option
      | None => String.eqb lab.(labDefaults).(VolumeMountPolicy) "Prompt"
                || String.eqb lab.(labDefaults).(VolumeMountPolicy) "Always"
      end
    else true in
  if negb canMount then Err (NewMountDeniedDevice m.(mName)) else Ok m.(mMeta).(Volumes).

Definition IsIPv6Enabled lab m : result goerror bool :=
  let value := match GlobalMachineMetadata lab "ipv6" with
               | Some global => global
               | None => if IsSet m.(mMeta).(IPv6) then m.(mMeta).(IPv6)
                         else Bool lab.(labDefaults).(EnableIPv6)
               end in
  match AsBool value with
  | Some enabled => Ok enabled
  | None =>
      match AsString value with
      | None => Err (newLowerAttributeError (pyTypeName value))
      | Some raw => match StrToBool raw with
                    | Err _ => Err (NewOptionIPv6 m.(mName))
                    | Ok enabled => Ok enabled
                    end
      end
  end.
End accessors.

(** ** The bisection is a linear search *)

Definition monotone_upto (n : nat) (f : nat → bool) : Prop :=
  ∀ i j, (i ≤ j < n)%nat → f i = true → f j = true.

Lemma bisect_spec f n fuel : ∀ i j,
  monotone_upto n f → (i ≤ j ≤ n)%nat → (j - i ≤ fuel)%nat →
  (∀ k, (k < i)%nat → f k = false) → (∀ k, (j ≤ k < n)%nat → f k = true) →
  let r := bisect fuel f i j in
  (i ≤ r ≤ j)%nat ∧ (∀ k, (k < r)%nat → f k = false) ∧ (∀ k, (r ≤ k < n)%nat → f k = true).
Proof.
  induction fuel as [|fuel IH]; intros i j Hm Hij Hfuel Hlo Hhi; cbn [bisect].
  { assert (i = j) as -> by lia. split_and!; [lia|lia|done|done]. }
  destruct (Nat.ltb_spec i j); [|assert (i = j) as -> by lia; split_and!; [lia|lia|done|done]].
  assert (Hh : (i ≤ Nat.div2 (i + j) < j)%nat).
  { rewrite Nat.div2_div. split; [apply Nat.div_le_lower_bound; lia|].
    apply Nat.Div0.div_lt_upper_bound. lia. }
  set (h := Nat.div2 (i + j)) in *. destruct (f h) eqn:E; cbn [negb].
  - destruct (IH i h) as ((? & ?) & ? & ?); [done|lia|lia|done| |split_and!; [lia|lia|done|done]].
    intros k Hk. apply (Hm h k); [lia|done].
  - destruct (IH (S h) j) as ((? & ?) & ? & ?); [done|lia|lia| |done|split_and!; [lia|lia|done|done]].
    intros k Hk. destruct (f k) eqn:Ek; [|done]. rewrite (Hm k h) in E; [done|lia|done].
Qed.

Lemma sort_Search_spec f n :
  monotone_upto n f →
  let r := sort_Search n f in
  (r ≤ n)%nat ∧ (∀ k, (k < r)%nat → f k = false) ∧ (∀ k, (r ≤ k < n)%nat → f k = true).
Proof.
  intros Hm. destruct (bisect_spec f n n 0 n Hm) as ((_ & ?) & ? & ?); [lia|lia|lia|lia|].
  split_and!; eauto.
Qed.

(** ** The slots of a device stay sorted by number *)

Definition numbers (ifs : list Interface) : list Z := Number <$> ifs.
Definition ifs_sorted (ifs : list Interface) : Prop := StronglySorted Z.lt (numbers ifs).

Lemma sorted_lookup (l : list Z) i j a b :
  StronglySorted Z.lt l → l !! i = Some a → l !! j = Some b → (i < j)%nat → a < b.
Proof.
  intros Hs. revert i j. induction Hs as [|x l Hs IH Hall]; intros [|i] [|j] Ha Hb Hij; simpl in *;
    try done; try lia.
  - simplify_eq. rewrite List.Forall_forall in Hall. apply Hall, list_elem_of_In.
    by eapply list_elem_of_lookup_2.
  - apply (IH i j); [done|done|lia].
Qed.

Lemma numbers_lookup ifs i : numbers ifs !! i = Number <$> (ifs !! i).
Proof. apply list_lookup_fmap. Qed.

(** The index found: everything before it is smaller, nothing from it on is. *)
Lemma interfaceIndex_spec ifs n :
  ifs_sorted ifs →
  let '(idx, found) := interfaceIndex ifs n in
  (idx ≤ length ifs)%nat ∧
  (∀ i f, (i < idx)%nat → ifs !! i = Some f → f.(Number) < n) ∧
  (∀ i f, (idx ≤ i)%nat → ifs !! i = Some f → n <= f.(Number)) ∧
  (found = true ↔ n ∈ numbers ifs).
Proof.
  intros Hs. unfold interfaceIndex.
  assert (Hnum : ∀ i f, ifs !! i = Some f → slot_number ifs i = f.(Number)).
  { intros i f Hf. unfold slot_number. by rewrite Hf. }
  destruct (sort_Search_spec (fun h => negb (slot_number ifs h <? n)) (length ifs)) as (Hle & Hlo & Hhi).
  { intros i j Hij Hi. destruct (lookup_lt_is_Some_2 ifs i) as [a Ha]; [lia|].
    destruct (lookup_lt_is_Some_2 ifs j) as [b Hb]; [lia|].
    rewrite (Hnum i a Ha) in Hi. rewrite (Hnum j b Hb). bool_prop. apply negb_true_iff, Z.ltb_ge.
    destruct (decide (i = j)) as [->|]; [simplify_eq; lia|].
    enough (a.(Number) < b.(Number)) by lia.
    eapply (sorted_lookup (numbers ifs) i j); [done|..|lia]; rewrite numbers_lookup; [by rewrite Ha|by rewrite Hb]. }
  set (idx := sort_Search _ _) in *.
  assert (Hlow : ∀ i f, (i < idx)%nat → ifs !! i = Some f → f.(Number) < n).
  { intros i f Hi Hf. specialize (Hlo i Hi). rewrite (Hnum i f Hf) in Hlo. bool_prop. done. }
  assert (Hhigh : ∀ i f, (idx ≤ i)%nat → ifs !! i = Some f → n <= f.(Number)).
  { intros i f Hi Hf. pose proof (lookup_lt_Some _ _ _ Hf).
    specialize (Hhi i ltac:(lia)). rewrite (Hnum i f Hf) in Hhi. bool_prop. lia. }
  split_and!; [done..|]. rewrite andb_true_iff, Nat.ltb_lt, Z.eqb_eq. split.
  - intros [Hlt Heq]. destruct (lookup_lt_is_Some_2 ifs idx Hlt) as [f Hf].
    rewrite (Hnum idx f Hf) in Heq. apply list_elem_of_fmap. exists f. split; [done|].
    by eapply list_elem_of_lookup_2.
  - intros (f & -> & Hf)%list_elem_of_fmap. apply list_elem_of_lookup_1 in Hf as [i Hi].
    assert (Hge : (idx ≤ i)%nat).
    { destruct (decide (idx ≤ i)%nat); [done|]. pose proof (Hlow i f ltac:(lia) Hi). lia. }
    pose proof (lookup_lt_Some _ _ _ Hi).
    destruct (lookup_lt_is_Some_2 ifs idx) as [g Hg]; [lia|]. split; [lia|].
    rewrite (Hnum idx g Hg). pose proof (Hhigh idx g ltac:(lia) Hg).
    destruct (decide (idx = i)) as [->|]; [by simplify_eq|].
    enough (g.(Number) < f.(Number)) by lia.
    eapply (sorted_lookup (numbers ifs) idx i); [done|..|lia]; rewrite numbers_lookup;
      [by rewrite Hg|by rewrite Hi].
Qed.

Lemma HasInterfaceNumber_spec m n :
  ifs_sorted m.(interfaces) → HasInterfaceNumber m n = true ↔ n ∈ numbers m.(interfaces).
Proof.
  intros Hs. unfold HasInterfaceNumber. pose proof (interfaceIndex_spec m.(interfaces) n Hs) as H.
  destruct (interfaceIndex _ _) as [idx found]. apply H.
Qed.

Lemma StronglySorted_app_lt (l1 l2 : list Z) :
  StronglySorted Z.lt l1 → StronglySorted Z.lt l2 → (∀ a b, a ∈ l1 → b ∈ l2 → a < b) →
  StronglySorted Z.lt (l1 ++ l2).
Proof.
  induction 1 as [|x l1 Hs IH Hall]; intros H2 H12; [done|]. simpl. constructor.
  - apply IH; [done|]. intros a b Ha. apply H12. by right.
  - apply List.Forall_app. split; [done|]. apply List.Forall_forall. intros b Hb%list_elem_of_In.
    apply H12; [by left|done].
Qed.

Lemma StronglySorted_sub (l1 l2 : list Z) :
  StronglySorted Z.lt (l1 ++ l2) → StronglySorted Z.lt l1 ∧ StronglySorted Z.lt l2.
Proof.
  induction l1 as [|x l1 IH]; intros H; [split; [constructor|done]|]. inversion_clear H.
  destruct IH as [? ?]; [done|]. split; [|done]. constructor; [done|].
  by apply List.Forall_app in H1 as [? _].
Qed.

(** The slot inserted is the only change, and the order is kept. *)
Lemma insertInterface_spec iface m :
  ifs_sorted m.(interfaces) → iface.(Number) ∉ numbers m.(interfaces) →
  ifs_sorted (insertInterface iface m).(interfaces) ∧
  (insertInterface iface m).(interfaces) ≡ₚ iface :: m.(interfaces).
Proof.
  intros Hs Hn. unfold insertInterface, insert_at.
  pose proof (interfaceIndex_spec m.(interfaces) iface.(Number) Hs) as H.
  destruct (interfaceIndex _ _) as [idx found]. destruct H as (Hle & Hlow & Hhigh & Hf).
  cbn [interfaces set_interfaces]. split.
  - unfold ifs_sorted, numbers in *. rewrite <- (take_drop idx m.(interfaces)) in Hs.
    rewrite fmap_app in Hs. apply StronglySorted_sub in Hs as [Ht Hd].
    rewrite fmap_app, fmap_cons.
    assert (Hlt : ∀ a, a ∈ Number <$> take idx m.(interfaces) → a < iface.(Number)).
    { intros a (f & -> & Hin)%list_elem_of_fmap. apply list_elem_of_lookup_1 in Hin as [i Hi].
      apply lookup_take_Some in Hi as [Hi Hlti]. eauto. }
    assert (Hgt : ∀ a, a ∈ Number <$> drop idx m.(interfaces) → iface.(Number) < a).
    { intros a (f & -> & Hin)%list_elem_of_fmap. apply list_elem_of_lookup_1 in Hin as [i Hi].
      rewrite lookup_drop in Hi. pose proof (Hhigh (idx + i)%nat f ltac:(lia) Hi).
      enough (iface.(Number) ≠ f.(Number)) by lia. intros Heq. apply Hn. rewrite Heq.
      apply list_elem_of_fmap. exists f. split; [done|]. by eapply list_elem_of_lookup_2. }
    apply StronglySorted_app_lt; [done| |].
    + constructor; [done|]. apply List.Forall_forall. intros a Ha%list_elem_of_In. auto.
    + intros a b Ha [->|Hb]%elem_of_cons; [auto|]. specialize (Hlt a Ha). specialize (Hgt b Hb). lia.
  - rewrite <- Permutation_middle. by rewrite take_drop.
Qed.

(** ** What [Check] checks *)

Lemma check_from_ok ok idxs name :
  check_from ok idxs name = Ok tt ↔ ∀ i, i ∈ idxs → ok i = true.
Proof.
  induction idxs as [|i idxs IH]; cbn [check_from].
  { split; [by intros _ i ?%elem_of_nil|done]. }
  destruct (ok i) eqn:E; cbn [negb].
  - rewrite IH. setoid_rewrite elem_of_cons. naive_solver.
  - split; [done|]. intros Hall. rewrite (Hall i) in E; [done|by left].
Qed.

(** The error names the first index that fails. *)
Lemma check_from_err ok idxs name e :
  check_from ok idxs name = Err e →
  ∃ i, i ∈ idxs ∧ ok i = false ∧ e = NewNonSequentialMachineInterface (Z.of_nat i) name.
Proof.
  induction idxs as [|i idxs IH]; cbn [check_from]; [done|].
  destruct (ok i) eqn:E; cbn [negb].
  - intros (j & ? & ?)%IH. exists j. split; [by right|done].
  - intros [= <-]. exists i. split; [by left|done].
Qed.

Lemma elem_of_seq0 i n : i ∈ seq 0 n ↔ (i < n)%nat.
Proof. rewrite elem_of_seq. lia. Qed.

Lemma lookup_seqZ0 n i : (i < n)%nat → seqZ 0 (Z.of_nat n) !! i = Some (Z.of_nat i).
Proof. intros. apply lookup_seqZ. split; lia. Qed.

Lemma eq_seqZ (l : list Z) :
  l = seqZ 0 (Z.of_nat (length l)) ↔ ∀ i, (i < length l)%nat → l !! i = Some (Z.of_nat i).
Proof.
  split.
  - intros Hl i Hi. rewrite Hl. by apply lookup_seqZ0.
  - intros Hl. apply list_eq. intros i. destruct (decide (i < length l)%nat) as [Hi|Hi].
    + rewrite Hl, lookup_seqZ0 by done. done.
    + rewrite !lookup_ge_None_2; [done| |lia]. rewrite length_seqZ. lia.
Qed.

Lemma slot_number_lookup ifs i k :
  (i < length ifs)%nat → slot_number ifs i = k ↔ numbers ifs !! i = Some k.
Proof.
  intros Hi. destruct (lookup_lt_is_Some_2 ifs i Hi) as [f Hf].
  unfold slot_number. rewrite numbers_lookup, Hf. simpl. naive_solver.
Qed.

Lemma length_numbers ifs : length (numbers ifs) = length ifs.
Proof. apply length_fmap. Qed.

Lemma checkNumbering_sequential m :
  IsSet m.(mMeta).(BridgedIface) = false →
  checkNumbering m = Ok tt ↔
  numbers m.(interfaces) = seqZ 0 (Z.of_nat (length m.(interfaces))).
Proof.
  intros Hb. unfold checkNumbering. rewrite Hb. cbn [negb]. rewrite check_from_ok.
  rewrite <- (length_numbers m.(interfaces)), eq_seqZ, length_numbers.
  setoid_rewrite elem_of_seq0. unfold number_at. split; intros H i Hi.
  - specialize (H i Hi). bool_prop. by apply slot_number_lookup.
  - apply Z.eqb_eq, slot_number_lookup; auto.
Qed.

(** Without a bridged interface, a device passes [Check] exactly when its
    interface numbers are 0, 1, ..., n-1 in slot order. *)
Theorem Check_sequential m :
  IsSet m.(mMeta).(BridgedIface) = false →
  checkNumbering m = Ok tt ↔
  numbers m.(interfaces) = seqZ 0 (Z.of_nat (length m.(interfaces))).
Proof. apply checkNumbering_sequential. Qed.

Definition three_slots : Machine :=
  mkMachine 1%positive "pc1" newMeta None
    [mkInterface None None 0 ""; mkInterface None None 1 ""; mkInterface None None 3 ""].

Lemma Check_sequential_witness :
  IsSet (mMeta three_slots).(BridgedIface) = false ∧ checkNumbering three_slots ≠ Ok tt.
Proof.
  split; [vm_compute; reflexivity|].
  rewrite (Check_sequential three_slots); [vm_compute; discriminate|vm_compute; reflexivity].
Defined.

(** *** The exact comparison with a float *)

Lemma cmpIntFloat_eq k v n : cmpIntFloat k v = Eq → cmpIntFloat n v = Z.compare n k.
Proof.
  unfold cmpIntFloat. destruct v as [m e|[]]; [|done..].
  destruct (Z.leb_spec 0 e); intros Hk%Z.compare_eq_iff.
  - by rewrite Hk.
  - subst m. pose proof (Z.pow_pos_nonneg 2 (- e)) as Hp.
    apply eq_sym. apply Zmult_compare_compat_r. lia.
Qed.

Lemma cmpIntFloat_mono v a b :
  a <= b → cmp_ge (cmpIntFloat a v) = true → cmp_ge (cmpIntFloat b v) = true.
Proof.
  unfold cmpIntFloat. intros Hab. destruct v as [m e|[]]; [|done..].
  assert (Hge : ∀ x y, cmp_ge (Z.compare x y) = true ↔ y <= x).
  { intros x y. destruct (Z.compare_spec x y); simpl; split; intros; try done; lia. }
  destruct (0 <=? e) eqn:He; rewrite !Hge; [lia|].
  pose proof (Z.pow_nonneg 2 (- e)). nia.
Qed.

Lemma insert_at_lookup {A} pos (k : A) ns i :
  (pos ≤ length ns)%nat →
  insert_at pos k ns !! i =
  if (i <? pos)%nat then ns !! i else if (i =? pos)%nat then Some k else ns !! (i - 1)%nat.
Proof.
  intros Hpos. unfold insert_at.
  destruct (Nat.ltb_spec i pos).
  - rewrite lookup_app_l by (rewrite length_take; lia). by rewrite lookup_take, decide_True by lia.
  - rewrite lookup_app_r by (rewrite length_take; lia). rewrite length_take, Nat.min_l by done.
    destruct (Nat.eqb_spec i pos) as [->|].
    + by rewrite Nat.sub_diag.
    + destruct (i - pos)%nat as [|d] eqn:E; [lia|].
      change ((k :: drop pos ns) !! S d) with (drop pos ns !! d). rewrite lookup_drop. f_equal. lia.
Qed.

Lemma StronglySorted_lt_perm (l1 l2 : list Z) :
  StronglySorted Z.lt l1 → StronglySorted Z.lt l2 → l1 ≡ₚ l2 → l1 = l2.
Proof.
  intros H1 H2 Hp. apply (StronglySorted_unique_strong Z.lt l1 l2); [|done..].
  intros x y _ _ ??. lia.
Qed.

Lemma seqZ_sorted m n : StronglySorted Z.lt (seqZ m n).
Proof.
  destruct (decide (0 <= n)) as [Hn|Hn]; [|rewrite seqZ_nil by lia; constructor].
  revert m. pattern n. apply natlike_ind; [intros m; rewrite seqZ_nil by lia; constructor| |done].
  clear. intros n Hn IH m. rewrite seqZ_cons by lia. rewrite Z.pred_succ.
  constructor; [apply IH|]. apply List.Forall_forall. intros x Hx%list_elem_of_In.
  apply elem_of_seqZ in Hx. lia.
Qed.

(** The position found splits the numbers at the bridged value. *)
Lemma bridged_position m v :
  ifs_sorted m.(interfaces) →
  let pos := sort_Search (length m.(interfaces)) (fun i => cmp_ge (cmpIntFloat (number_at m i) v)) in
  (pos ≤ length m.(interfaces))%nat ∧
  (∀ i f, (i < pos)%nat → m.(interfaces) !! i = Some f → cmp_ge (cmpIntFloat f.(Number) v) = false) ∧
  (∀ i f, (pos ≤ i)%nat → m.(interfaces) !! i = Some f → cmp_ge (cmpIntFloat f.(Number) v) = true).
Proof.
  intros Hs. set (ifs := m.(interfaces)) in *.
  assert (Hnum : ∀ i f, ifs !! i = Some f → number_at m i = f.(Number)).
  { intros i f Hf. unfold number_at, slot_number. fold ifs. by rewrite Hf. }
  destruct (sort_Search_spec (fun i => cmp_ge (cmpIntFloat (number_at m i) v)) (length ifs))
    as (Hle & Hlo & Hhi).
  { intros i j Hij. destruct (lookup_lt_is_Some_2 ifs i) as [a Ha]; [lia|].
    destruct (lookup_lt_is_Some_2 ifs j) as [b Hb]; [lia|].
    rewrite (Hnum i a Ha), (Hnum j b Hb). apply cmpIntFloat_mono.
    destruct (decide (i = j)) as [->|]; [simplify_eq; lia|].
    enough (a.(Number) < b.(Number)) by lia.
    eapply (sorted_lookup (numbers ifs) i j); [done|..|lia]; rewrite numbers_lookup; [by rewrite Ha|by rewrite Hb]. }
  split_and!; [done| |].
  - intros i f Hi Hf. rewrite <- (Hnum i f Hf). auto.
  - intros i f Hi Hf. rewrite <- (Hnum i f Hf). apply Hhi. split; [done|]. by eapply lookup_lt_Some.
Qed.

(** The test of slot [i] of the merged list, with the bridged value at [pos]. *)
Definition merged_ok (m : Machine) (v : bigfloat) (pos i : nat) : bool :=
  if (i <? pos)%nat then number_at m i =? Z.of_nat i
  else if (i =? pos)%nat then cmp_eq (cmpIntFloat (Z.of_nat i) v)
  else number_at m (i - 1) =? Z.of_nat i.

Lemma insert_at_perm {A} pos (x : A) l : insert_at pos x l ≡ₚ x :: l.
Proof. unfold insert_at. rewrite <- Permutation_middle. by rewrite take_drop. Qed.

Lemma insert_at_length {A} pos (x : A) l : length (insert_at pos x l) = S (length l).
Proof. by rewrite insert_at_perm. Qed.

(** With an integer value, the loop compares the merged list with 0..n. *)
Lemma merged_loop m v pos k :
  (pos ≤ length m.(interfaces))%nat → cmpIntFloat k v = Eq →
  (∀ i, (i < S (length m.(interfaces)))%nat → merged_ok m v pos i = true) ↔
  insert_at pos k (numbers m.(interfaces)) = seqZ 0 (Z.of_nat (S (length m.(interfaces)))).
Proof.
  intros Hle Hk. set (n := length m.(interfaces)) in *. set (ns := numbers m.(interfaces)).
  assert (Hn : length ns = n) by apply length_numbers.
  rewrite <- Hn, <- (insert_at_length pos k), eq_seqZ, insert_at_length, Hn.
  apply forall_proper; intros i. apply forall_proper; intros Hlt. rewrite insert_at_lookup by lia.
  unfold merged_ok, number_at. destruct (Nat.ltb_spec i pos).
  { rewrite Z.eqb_eq. apply slot_number_lookup. lia. }
  destruct (Nat.eqb_spec i pos) as [->|].
  { rewrite (cmpIntFloat_eq k v) by done.
    destruct (Z.compare_spec (Z.of_nat pos) k); cbn [cmp_eq]; split; intros; simplify_eq; try done; lia. }
  rewrite Z.eqb_eq. apply slot_number_lookup. fold n. lia.
Qed.

(** The bridged number goes between the smaller and the larger ones. *)
Lemma merged_sorted m v pos k :
  ifs_sorted m.(interfaces) → cmpIntFloat k v = Eq → k ∉ numbers m.(interfaces) →
  (∀ i f, (i < pos)%nat → m.(interfaces) !! i = Some f → cmp_ge (cmpIntFloat f.(Number) v) = false) →
  (∀ i f, (pos ≤ i)%nat → m.(interfaces) !! i = Some f → cmp_ge (cmpIntFloat f.(Number) v) = true) →
  StronglySorted Z.lt (insert_at pos k (numbers m.(interfaces))).
Proof.
  intros Hs Hk Hnd Hlo Hhi. set (ns := numbers m.(interfaces)) in *. unfold insert_at.
  assert (Hs' : StronglySorted Z.lt (take pos ns ++ drop pos ns)) by by rewrite take_drop.
  apply StronglySorted_sub in Hs' as [Ht Hd].
  assert (Hlt : ∀ a, a ∈ take pos ns → a < k).
  { intros a [i Hi]%list_elem_of_lookup_1. apply lookup_take_Some in Hi as [Hi Hlt].
    unfold ns in Hi. rewrite numbers_lookup in Hi.
    destruct (m.(interfaces) !! i) as [f|] eqn:Hf; simplify_eq/=.
    specialize (Hlo i f Hlt Hf). rewrite (cmpIntFloat_eq k v) in Hlo by done.
    by destruct (Z.compare_spec f.(Number) k). }
  assert (Hgt : ∀ a, a ∈ drop pos ns → k < a).
  { intros a [i Hi]%list_elem_of_lookup_1. rewrite lookup_drop in Hi.
    assert (k ≠ a) by (intros ->; apply Hnd; by eapply list_elem_of_lookup_2).
    unfold ns in Hi. rewrite numbers_lookup in Hi.
    destruct (m.(interfaces) !! (pos + i)%nat) as [f|] eqn:Hf; simplify_eq/=.
    specialize (Hhi (pos + i)%nat f ltac:(lia) Hf). rewrite (cmpIntFloat_eq k v) in Hhi by done.
    destruct (Z.compare_spec f.(Number) k); [congruence|done|lia]. }
  apply StronglySorted_app_lt; [done| |].
  - constructor; [done|]. apply List.Forall_forall. intros a Ha%list_elem_of_In. auto.
  - intros a b Ha [->|Hb]%elem_of_cons; [auto|]. specialize (Hlt a Ha). specialize (Hgt b Hb). lia.
Qed.

Lemma checkNumbering_bridged m v :
  ifs_sorted m.(interfaces) → IsSet m.(mMeta).(BridgedIface) = true →
  bridgedIfaceValue m = Ok (Some v) →
  checkNumbering m = Ok tt ↔
  ∃ k, cmpIntFloat k v = Eq ∧
       k :: numbers m.(interfaces) ≡ₚ seqZ 0 (Z.of_nat (S (length m.(interfaces)))).
Proof.
  intros Hs Hset Hv. unfold checkNumbering. rewrite Hset, Hv. cbn [negb rbind].
  rewrite check_from_ok. setoid_rewrite elem_of_seq0.
  destruct (bridged_position m v Hs) as (Hle & Hlo & Hhi). set (pos := sort_Search _ _) in *.
  split.
  - intros Hall.
    assert (Hk : cmpIntFloat (Z.of_nat pos) v = Eq).
    { specialize (Hall pos ltac:(lia)). rewrite Nat.ltb_irrefl, Nat.eqb_refl in Hall.
      by destruct (cmpIntFloat _ v). }
    exists (Z.of_nat pos). split; [done|]. rewrite <- (insert_at_perm pos).
    by rewrite (proj1 (merged_loop m v pos _ Hle Hk) Hall).
  - intros (k & Hk & Hp). apply (merged_loop m v pos k Hle Hk).
    apply StronglySorted_lt_perm; [|apply seqZ_sorted|by rewrite insert_at_perm].
    apply (merged_sorted m v); [done|done| |done|].
    + pose proof (NoDup_seqZ 0 (Z.of_nat (S (length m.(interfaces))))) as Hnd.
      rewrite <- Hp in Hnd. by apply NoDup_cons in Hnd as [? _].
    + done.
Qed.

(** With a bridged interface of numeric value [v], a device passes [Check]
    exactly when [v] is an integer that, together with the interface numbers, makes up
    0, 1, ..., n with nothing missing and nothing twice. *)
Theorem Check_bridged m v :
  ifs_sorted m.(interfaces) → IsSet m.(mMeta).(BridgedIface) = true →
  bridgedIfaceValue m = Ok (Some v) →
  checkNumbering m = Ok tt ↔
  ∃ k, cmpIntFloat k v = Eq ∧
       k :: numbers m.(interfaces) ≡ₚ seqZ 0 (Z.of_nat (S (length m.(interfaces)))).
Proof. apply checkNumbering_bridged. Qed.

Definition bridged_machine : Machine :=
  mkMachine 1%positive "pc1" (set_field FBridgedIface (Float (f64_of_Z 1)) newMeta) None
    [mkInterface None None 0 ""; mkInterface None None 2 ""].

Lemma bridged_machine_sorted : ifs_sorted bridged_machine.(interfaces).
Proof. repeat constructor. Qed.

Lemma Check_bridged_witness :
  checkNumbering bridged_machine = Ok tt ∧
  ∃ k, cmpIntFloat k (BFin 4503599627370496 (-52)) = Eq ∧
       k :: numbers (interfaces bridged_machine) ≡ₚ seqZ 0 3.
Proof.
  split; [vm_compute; reflexivity|].
  apply (Check_bridged bridged_machine (BFin 4503599627370496 (-52))).
  - apply bridged_machine_sorted.
  - vm_compute. reflexivity.
  - vm_compute. reflexivity.
  - vm_compute. reflexivity.
Defined.

(** ** The normalised memory limit *)

Lemma ascii_runes s : is_ascii s = true → runes s = zb <$> string_bytes s.
Proof.
  intros Hs. unfold runes. rewrite decode_is_ascii by done. rewrite <- list_fmap_compose.
  by apply list_fmap_ext.
Qed.

Lemma encode_rune_ascii a : zb a < 0x80 → encode_rune (zb a) = str1 a.
Proof. intros Ha. destruct a as [[][][][][][][][]]; vm_compute in Ha |- *; done. Qed.

Lemma string_of_ascii_runes l :
  forallb (fun a => zb a <? 0x80) l = true → string_of_runes (zb <$> l) = bytes_string l.
Proof.
  induction l as [|a l IH]; cbn [forallb]; [done|]. intros [Ha%Z.ltb_lt Hl]%andb_true_iff.
  unfold string_of_runes in *. cbn [fmap list_fmap string_concat].
  rewrite encode_rune_ascii by done. cbn [bytes_string]. rewrite <- IH by done. done.
Qed.

Lemma Itoa_ascii n : is_ascii (Itoa n) = true.
Proof.
  destruct (Itoa_digits n) as (ds & -> & _ & Hds & _). rewrite is_ascii_app.
  rewrite digit_string_ascii by done. by destruct (n <? 0).
Qed.

(** A numeral followed by a unit: its last rune, and what precedes it. *)
Lemma runes_number_unit n (u : ascii) :
  zb u < 0x80 →
  let rs := runes (Itoa n +:+ str1 u) in
  List.last rs 0 = zb u ∧ string_of_runes (take (length rs - 1) rs) = Itoa n.
Proof.
  intros Hu rs. assert (Hrs : rs = (zb <$> string_bytes (Itoa n)) ++ [zb u]).
  { unfold rs. rewrite ascii_runes, string_bytes_app, fmap_app; [done|].
    rewrite is_ascii_app, Itoa_ascii. unfold is_ascii, all_bytes. cbn. by zdec. }
  split.
  - rewrite Hrs. apply last_last.
  - rewrite Hrs, length_app. cbn [length]. rewrite Nat.add_sub, take_app_length.
    rewrite string_of_ascii_runes by apply Itoa_ascii. apply bytes_string_bytes.
Qed.

Lemma memory_unit_cases u : str_in u memory_units = true → u = "b" ∨ u = "k" ∨ u = "m" ∨ u = "g".
Proof.
  intros Hu%str_in_elem. unfold memory_units in Hu.
  repeat (apply elem_of_cons in Hu as [->|Hu]; [tauto|]). by apply elem_of_nil in Hu.
Qed.

(** What [GetMem] reports is a numeral followed by one of the four units. *)
Lemma GetMem_shape {F} (lab : Lab F) m s :
  GetMem lab m = Ok s →
  s = "" ∨ ∃ n u, s = Itoa n +:+ u ∧ str_in u memory_units = true.
Proof.
  unfold GetMem. intros Hs. destruct (negb _) in Hs; [injection Hs as <-; by left|].
  destruct (AsString _) as [raw|] in Hs; [|done].
  destruct (str_in _ _) eqn:Hu in Hs; cbn [negb] in Hs;
    destruct (pyBigInt _) as [value|] in Hs; simplify_eq; right; eauto.
Qed.

(** The limit recorded for a given memory string. *)
Definition with_mem (s : string) (m : Machine) : Machine := set_meta (set_field FMem (Str s) m.(mMeta)) m.

(** C35: [GetMem] normalises: the limit it reports is itself a valid limit, and
    reading it back gives the same limit. *)
Theorem GetMem_idempotent {F} (lab : Lab F) m s :
  GlobalMachineMetadata lab "mem" = None → GetMem lab m = Ok s →
  GetMem lab (with_mem s m) = Ok s.
Proof.
  intros Hg Hs. destruct (GetMem_shape lab m s Hs) as [->|(n & u & -> & Hu)].
  { unfold GetMem. rewrite Hg. done. }
  unfold GetMem. rewrite Hg.
  change (default (Mem (mMeta (with_mem (Itoa n +:+ u) m))) None) with (Str (Itoa n +:+ u)).
  assert (Hne : Truthy (Str (Itoa n +:+ u)) = true).
  { cbn. apply negb_true_iff, String.eqb_neq. intros He.
    destruct (Itoa n); [|done]. by destruct (memory_unit_cases u Hu) as [->|[->|[->| ->]]]. }
  rewrite Hne. cbn [negb AsString].
  destruct (memory_unit_cases u Hu) as [->|[->|[->| ->]]];
    match goal with |- context [_ +:+ String ?c EmptyString] =>
      change (String c EmptyString) with (str1 c);
      destruct (runes_number_unit n c ltac:(by vm_compute)) as [-> ->] end;
    rewrite pyBigInt_Itoa; done.
Qed.

Definition mem_lab : Lab unit :=
  mkLab "" "" "" "" "" "" "" false tt DefaultDefaults None NewOrderedMap NewOrderedMap
    NewOrderedMap NewOrderedMap.

Lemma GetMem_idempotent_witness :
  GlobalMachineMetadata mem_lab "mem" = None ∧
  GetMem mem_lab (with_mem "0_64M" three_slots) = Ok "64m" ∧
  GetMem mem_lab (with_mem "64m" (with_mem "0_64M" three_slots)) = Ok "64m".
Proof.
  split; [vm_compute; reflexivity|]. split; [vm_compute; reflexivity|].
  apply (GetMem_idempotent mem_lab (with_mem "0_64M" three_slots) "64m");
    vm_compute; reflexivity.
Defined.

(** The numeric limits are in range: the terminals are a non-negative Go
    int, the scaled CPU limit an int64. *)
Theorem numeric_limits_in_range {F} (lab : Lab F) m mult :
  (∀ n, GetNumTerms lab m = Ok n → 0 <= n <= MaxInt64) ∧
  (∀ n, GetCPU mult lab m = Ok (Some n) → int64_ok n).
Proof.
  split.
  - intros n. unfold GetNumTerms. destruct (pyInt _) as [v|e]; [|by destruct (_ || _)].
    destruct (Z.ltb_spec v 0); [done|]. intros [= <-]. rewrite saturateInt_id.
    destruct (saturateInt64_ok v). split; [|done].
    change 0 with (saturateInt64 0). by apply saturate_mono.
  - intros n. unfold GetCPU. repeat case_match; intros; simplify_eq; try done; apply saturateInt64_ok.
Qed.
