(* ===== verification/Lab.v ===== *)
(** * Scenarios (model/lab.go, and the stateful half of model/machine.go)

    Every operation that allocates or mutates a device, a collision domain or
    a scenario, as a program over the heap of Machine.v. *)

From S2P Require Export Machine DepGen.
Local Open Scope string_scope.
Local Open Scope list_scope.
Local Open Scope Z_scope.
Local Open Scope kat_scope.

Section lab.
(** The filesystem implementation of the scenarios, the case mapping of
    golang.org/x/text and the process working directory. *)
Context {F : Type} (fsys : FileSystem F) `{TextCases} (cwd : option string).

Definition MM (A : Type) : Type := M (heap F) failure A.

Definition go {A} (r : result goerror A) : MM A :=
  match r with Ok a => sret a | Err e => sthrow (Go e) end.
Definition throw {A} (e : goerror) : MM A := sthrow (Go e).

(** ** Pointers *)

Definition deref {A} (o : option A) : MM A :=
  match o with Some a => sret a | None => sthrow NilDeref end.
Definition getMachine (l : loc) : MM Machine := fun h => deref (h.(hMachines) !! l) h.
Definition getLink (l : loc) : MM Link := fun h => deref (h.(hLinks) !! l) h.
Definition getLab (l : loc) : MM (Lab F) := fun h => deref (h.(hLabs) !! l) h.

Definition putMachine (l : loc) (m : Machine) : MM unit :=
  smodify (fun h => mkHeap (<[l:=m]> h.(hMachines)) h.(hLinks) h.(hLabs) h.(hNext)).
Definition putLink (l : loc) (k : Link) : MM unit :=
  smodify (fun h => mkHeap h.(hMachines) (<[l:=k]> h.(hLinks)) h.(hLabs) h.(hNext)).
Definition putLab (l : loc) (b : Lab F) : MM unit :=
  smodify (fun h => mkHeap h.(hMachines) h.(hLinks) (<[l:=b]> h.(hLabs)) h.(hNext)).

Definition newLoc : MM loc := fun h =>
  (mkHeap h.(hMachines) h.(hLinks) h.(hLabs) (Pos.succ h.(hNext)), Ok h.(hNext)).

(** ** Field updates of a scenario *)

Definition set_labFS (fs : F) (b : Lab F) : Lab F :=
  mkLab b.(Description) b.(Version) b.(Author) b.(Email) b.(Web) b.(LabHash) b.(SharedPath)
    b.(HasDependencies) fs b.(labDefaults) b.(labName) b.(labMachines) b.(labLinks)
    b.(generalOptions) b.(globalMachineMetadata).
Definition set_labMachines (ms : OrderedMap string loc) (b : Lab F) : Lab F :=
  mkLab b.(Description) b.(Version) b.(Author) b.(Email) b.(Web) b.(LabHash) b.(SharedPath)
    b.(HasDependencies) b.(labFS) b.(labDefaults) b.(labName) ms b.(labLinks)
    b.(generalOptions) b.(globalMachineMetadata).
Definition set_labLinks (ls : OrderedMap string loc) (b : Lab F) : Lab F :=
  mkLab b.(Description) b.(Version) b.(Author) b.(Email) b.(Web) b.(LabHash) b.(SharedPath)
    b.(HasDependencies) b.(labFS) b.(labDefaults) b.(labName) b.(labMachines) ls
    b.(generalOptions) b.(globalMachineMetadata).
Definition set_options (o g : OrderedMap string Scalar) (b : Lab F) : Lab F :=
  mkLab b.(Description) b.(Version) b.(Author) b.(Email) b.(Web) b.(LabHash) b.(SharedPath)
    b.(HasDependencies) b.(labFS) b.(labDefaults) b.(labName) b.(labMachines) b.(labLinks) o g.
Definition set_labName (n : option string) (hash : string) (b : Lab F) : Lab F :=
  mkLab b.(Description) b.(Version) b.(Author) b.(Email) b.(Web) hash b.(SharedPath)
    b.(HasDependencies) b.(labFS) b.(labDefaults) n b.(labMachines) b.(labLinks)
    b.(generalOptions) b.(globalMachineMetadata).
Definition set_deps (ms : OrderedMap string loc) (b : Lab F) : Lab F :=
  mkLab b.(Description) b.(Version) b.(Author) b.(Email) b.(Web) b.(LabHash) b.(SharedPath)
    true b.(labFS) b.(labDefaults) b.(labName) ms b.(labLinks)
    b.(generalOptions) b.(globalMachineMetadata).
Definition set_SharedPath (p : string) (b : Lab F) : Lab F :=
  mkLab b.(Description) b.(Version) b.(Author) b.(Email) b.(Web) b.(LabHash) p
    b.(HasDependencies) b.(labFS) b.(labDefaults) b.(labName) b.(labMachines) b.(labLinks)
    b.(generalOptions) b.(globalMachineMetadata).

(** ** Devices *)

(** The view of the device's directory, when the scenario has one. *)
Definition machine_dir (name : string) (fs : F) : result goerror (option string) :=
  if Vfs.Exists fsys name fs && IsDir fsys name fs
  then rmap Some (Sub fsys name fs) else Ok None.

Definition newMachine (lab : loc) (name : string) (opts : option MetaOptions) : MM loc :=
  let name := pyStrip name in
  if negb (MatchString machineNameRegex name) then throw (NewSyntaxDeviceName name)
  else
    do* b <- getLab lab in
    do* fs <- go (machine_dir name b.(labFS)) in
    do* meta <- go (match opts with
                    | None => Ok newMeta
                    | Some opts => let '(meta, r) := UpdateMeta cwd name opts newMeta in
                                   rmap (fun _ => meta) r
                    end) in
    do* l <- newLoc in
    do* _ <- putMachine l (mkMachine lab name meta fs []) in
    sret l.

Definition HasMachine (k : Link) (name : string) : bool := Has k.(lMachines) name.

Definition newInterface (machine link : loc) (number : Z) (mac mname : string) : result goerror Interface :=
  if negb (String.eqb mac "") && negb (MatchString macAddressRegex mac)
  then Err (NewInterfaceMacAddress mac number mname)
  else Ok (mkInterface (Some machine) (Some link) number mac).

Record AddInterfaceOptions : Type := mkIfaceOpts { oNumber : option Z; oMAC : string }.

Definition AddInterface (machine link : loc) (opts : AddInterfaceOptions) : MM Interface :=
  do* m <- getMachine machine in
  let number := default (Z.of_nat (length m.(interfaces))) opts.(oNumber) in
  if HasInterfaceNumber m number then throw (NewInterfaceAlreadySet m.(mName) number)
  else
    do* k <- getLink link in
    if HasMachine k m.(mName) then throw (NewMachineAlreadyConnected m.(mName) k.(lName))
    else
      do* iface <- go (newInterface machine link number opts.(oMAC) m.(mName)) in
      do* _ <- putMachine machine (insertInterface iface m) in
      do* _ <- putLink link (set_lMachines (SetKey k.(lMachines) m.(mName) machine).1 k) in
      sret iface.

(** The loop that turns the live interfaces on [link] into tombstones. *)
Fixpoint tombstone_loop (linkName : string) (ifs : list Interface) : MM (list Interface) :=
  match ifs with
  | [] => sret []
  | i :: ifs =>
      do* i' <- match i.(iLink) with
                | None => sret i
                | Some l =>
                    do* k <- getLink l in
                    sret (if String.eqb k.(lName) linkName
                          then mkInterface None None i.(Number) "" else i)
                end in
      do* ifs' <- tombstone_loop linkName ifs in
      sret (i' :: ifs')
  end.

Definition RemoveInterface (machine link : loc) : MM unit :=
  do* m <- getMachine machine in
  do* k <- getLink link in
  if negb (HasMachine k m.(mName)) then throw (NewMachineNotConnected m.(mName) k.(lName))
  else
    do* ifs <- tombstone_loop k.(lName) m.(interfaces) in
    do* _ <- putMachine machine (set_interfaces ifs m) in
    putLink link (set_lMachines (DeleteKey k.(lMachines) m.(mName)).1 k).

Definition Machine_AddMeta (machine : loc) (name value : string) : MM (anyval * bool) :=
  do* m <- getMachine machine in
  let '(meta, r) := AddMeta cwd m.(mName) name value m.(mMeta) in
  do* _ <- putMachine machine (set_meta meta m) in
  go r.

Definition Machine_UpdateMeta (machine : loc) (opts : MetaOptions) : MM unit :=
  do* m <- getMachine machine in
  let '(meta, r) := UpdateMeta cwd m.(mName) opts m.(mMeta) in
  do* _ <- putMachine machine (set_meta meta m) in
  go r.

Definition Machine_Check (machine : loc) : MM unit :=
  do* m <- getMachine machine in go (checkNumbering m).

(** *** Files *)

(** Runs a filesystem program on a scenario's files. *)
Definition withFS {A} (lab : loc) (p : M F goerror A) : MM A :=
  do* b <- getLab lab in
  let '(fs, r) := p b.(labFS) in
  do* _ <- putLab lab (set_labFS fs b) in
  go r.

Definition ensureFS (machine : loc) : MM string :=
  do* m <- getMachine machine in
  match m.(mFS) with
  | Some prefix => sret prefix
  | None =>
      do* _ <- withFS m.(mLab) (@fsMkdirAll F fsys m.(mName) 0x1FF) in
      do* b <- getLab m.(mLab) in
      do* prefix <- go (Sub fsys m.(mName) b.(labFS)) in
      do* _ <- putMachine machine (set_mFS (Some prefix) m) in
      sret prefix
  end.

Definition machine_file {A} (p : FileSystem F → M F goerror A) (machine : loc) : MM A :=
  do* prefix <- ensureFS machine in
  do* m <- getMachine machine in
  withFS m.(mLab) (p (subFS fsys prefix)).

Definition Machine_CreateFileFromString content dst :=
  machine_file (fun d => CreateFileFromString d content dst).
Definition Machine_UpdateFileFromString content dst :=
  machine_file (fun d => UpdateFileFromString d content dst).
Definition Machine_CreateFileFromList lines dst :=
  machine_file (fun d => CreateFileFromList d lines dst).
Definition Machine_UpdateFileFromList lines dst :=
  machine_file (fun d => UpdateFileFromList d lines dst).

(** ** Scenarios *)

(** [newLab]: [memory] is the state [vfs.Memory()] builds, [OSDir] what
    [os.Stat] and [vfs.OSDir] answer for a path. *)
Definition newCreateFailed (path : string) : goerror :=
  EPyRuntime "CreateFailed" ("root path '" +:+ path +:+ "' does not exist").

Definition newLab (memory : F) (OSDir : string → option F) (name : option string) (path : string)
    (defaults : Defaults) : MM loc :=
  let hash := GenerateURLSafeHash (default path name) in
  do* fs <- (if String.eqb path "" then sret memory
             else match OSDir path with
                  | Some fs => sret fs
                  | None => throw (newCreateFailed path)
                  end) in
  do* l <- newLoc in
  do* _ <- putLab l (mkLab "" "" "" "" "" hash "" false fs defaults name NewOrderedMap NewOrderedMap
                       NewOrderedMap NewOrderedMap) in
  sret l.

Definition Lab_Name (b : Lab F) : string := default "" b.(labName).

Definition SetName (lab : loc) (name : string) : MM unit :=
  do* b <- getLab lab in
  putLab lab (set_labName (Some name) (GenerateURLSafeHash name) b).

Definition GetMachine (lab : loc) (name : string) : MM loc :=
  do* b <- getLab lab in
  match Get b.(labMachines) name with
  | None => throw (NewMachineNotFoundInScenario name)
  | Some m => sret m
  end.

Definition register (lab : loc) (name : string) (opts : option MetaOptions) : MM loc :=
  do* m <- newMachine lab name opts in
  do* b <- getLab lab in
  do* _ <- putLab lab (set_labMachines (SetKey b.(labMachines) name m).1 b) in
  sret m.

Definition NewMachine (lab : loc) (name : string) (opts : option MetaOptions) : MM loc :=
  do* b <- getLab lab in
  if Has b.(labMachines) name then throw (NewMachineAlreadyExists name)
  else register lab name opts.

Definition GetOrNewMachine (lab : loc) (name : string) (opts : option MetaOptions) : MM loc :=
  do* b <- getLab lab in
  match Get b.(labMachines) name with
  | Some m => sret m
  | None => register lab name opts
  end.

Definition GetLink (lab : loc) (name : string) : MM loc :=
  do* b <- getLab lab in
  match Get b.(labLinks) name with
  | None => throw (NewLinkNotFoundInScenario name)
  | Some l => sret l
  end.

Definition register_link (lab : loc) (name : string) : MM loc :=
  do* l <- newLoc in
  do* _ <- putLink l (mkLink lab name [] NewOrderedMap) in
  do* b <- getLab lab in
  do* _ <- putLab lab (set_labLinks (SetKey b.(labLinks) name l).1 b) in
  sret l.

Definition NewLink (lab : loc) (name : string) : MM loc :=
  do* b <- getLab lab in
  if Has b.(labLinks) name then throw (NewLinkAlreadyExists name) else register_link lab name.

Definition GetOrNewLink (lab : loc) (name : string) : MM loc :=
  do* b <- getLab lab in
  match Get b.(labLinks) name with Some l => sret l | None => register_link lab name end.

(** *** Removing a device *)

Definition unlink_iface (name : string) (iface : Interface) : MM unit :=
  match iface.(iLink) with
  | None => throw (newNoneAttributeError "link")
  | Some l =>
      do* k <- getLink l in
      let '(ms, existed) := DeleteKey k.(lMachines) name in
      if negb existed then throw (newKeyError name)
      else putLink l (set_lMachines ms k)
  end.

Definition remove_startup_file (name suffix : string) : M F goerror unit := fun s =>
  let target := name +:+ suffix in
  if negb (Vfs.Exists fsys target s) then (s, Ok tt)
  else if IsDir fsys target s then (s, Err (EFsPath "remove" target Vfs.ErrFileExpected))
  else @fsRemove F fsys target s.

Definition remove_files (name : string) : M F goerror unit :=
  do* _ <- remove_startup_file name ".startup" in
  do* _ <- remove_startup_file name ".shutdown" in
  fun s =>
    if Vfs.Exists fsys name s then
      if negb (IsDir fsys name s) then (s, Err (EFsPath "removedir" name ErrDirectoryExpected))
      else @fsRemove F fsys name s
    else (s, Ok tt).

Definition RemoveMachine (lab : loc) (name : string) (deleteFS : bool) : MM unit :=
  do* b <- getLab lab in
  match Get b.(labMachines) name with
  | None => throw (NewMachineNotFoundInScenario name)
  | Some machine =>
      do* m <- getMachine machine in
      do* _ <- sfor m.(interfaces) (unlink_iface name) in
      do* b <- getLab lab in
      do* _ <- putLab lab (set_labMachines (DeleteKey b.(labMachines) name).1 b) in
      if negb deleteFS then sret tt else withFS lab (remove_files name)
  end.

Definition RemoveMachineObj (lab : loc) (machine : option loc) (deleteFS : bool) : MM unit :=
  match machine with
  | None => throw ErrDeviceNameOrObject
  | Some machine => do* m <- getMachine machine in RemoveMachine lab m.(mName) deleteFS
  end.

(** *** Wiring *)

Definition ConnectMachineToLink (lab : loc) (machineName linkName : string)
    (opts : AddInterfaceOptions) : MM (loc * Interface) :=
  do* machine <- GetOrNewMachine lab machineName None in
  do* link <- GetOrNewLink lab linkName in
  do* iface <- AddInterface machine link opts in
  sret (machine, iface).

Definition ConnectMachineObjToLink (lab machine : loc) (linkName : string)
    (opts : AddInterfaceOptions) : MM Interface :=
  do* link <- GetOrNewLink lab linkName in
  AddInterface machine link opts.

Definition AssignMetaToMachine (lab : loc) (machineName metaName metaValue : string)
    : MM (anyval * bool) :=
  do* machine <- GetOrNewMachine lab machineName None in
  Machine_AddMeta machine metaName metaValue.

(** The map is ranged over twice, in an order the runtime chooses; the list is
    that order. *)
Definition attach_one (lab : loc) (e : string * list ExternalLink) : MM unit :=
  do* b <- getLab lab in
  match Get b.(labLinks) e.1 with
  | None => sthrow NilDeref
  | Some l => do* k <- getLink l in putLink l (set_External (k.(External) ++ e.2) k)
  end.

Definition external_declared (b : Lab F) (e : string * list ExternalLink) : bool :=
  Has b.(labLinks) e.1.

Definition NewExternalNotFound (name : string) : goerror :=
  let e := New ErrLinkNotFound ("Collision domain `" +:+ name +:+
    "` (declared in lab.ext) not found in network scenario collision domains.") in
  default e (WrapLink name "" (Some e)).

Definition AttachExternalLinks (lab : loc) (external : list (string * list ExternalLink)) : MM unit :=
  do* b <- getLab lab in
  match List.find (fun e => negb (external_declared b e)) external with
  | Some e => throw (NewExternalNotFound e.1)
  | None => sfor external (attach_one lab)
  end.

Definition CheckIntegrity (lab : loc) : MM unit :=
  do* b <- getLab lab in sfor (Values b.(labMachines)) Machine_Check.

(** *** The collision domains of some devices *)

Fixpoint iface_links (ifs : list Interface) (acc : gset string) : MM (gset string) :=
  match ifs with
  | [] => sret acc
  | i :: ifs =>
      match i.(iLink) with
      | None => throw (newNoneAttributeError "link")
      | Some l => do* k <- getLink l in iface_links ifs ({[ k.(lName) ]} ∪ acc)
      end
  end.

Fixpoint links_of_entries (selected : gset string) (es : list (string * loc)) (acc : gset string)
    : MM (gset string) :=
  match es with
  | [] => sret acc
  | (name, machine) :: es =>
      if decide (name ∈ selected) then
        do* m <- getMachine machine in
        do* acc <- iface_links m.(interfaces) acc in
        links_of_entries selected es acc
      else links_of_entries selected es acc
  end.

Definition linksOf (lab : loc) (selected : gset string) : MM (gset string) :=
  do* b <- getLab lab in links_of_entries selected (Entries b.(labMachines)) ∅.

Definition GetLinksFromMachines (lab : loc) (names : list string) : MM (gset string) :=
  do* b <- getLab lab in
  linksOf lab (list_to_set (List.filter (Has b.(labMachines)) names)).

Fixpoint names_of (b : Lab F) (machines : list (option loc)) : MM (list string) :=
  match machines with
  | [] => sret []
  | None :: _ => throw (newNoneAttributeError "name")
  | Some machine :: machines =>
      do* m <- getMachine machine in
      do* rest <- names_of b machines in
      sret (if Has b.(labMachines) m.(mName) then m.(mName) :: rest else rest)
  end.

Definition GetLinksFromMachineObjs (lab : loc) (machines : list (option loc)) : MM (gset string) :=
  do* b <- getLab lab in
  do* names <- names_of b machines in
  linksOf lab (list_to_set names).

(** *** Boot order *)

(** [position[name]]: one more than the index of the first occurrence, 0 if
    the name is not listed. *)
Fixpoint first_position (i : Z) (dependencies : list string) (name : string) : Z :=
  match dependencies with
  | [] => 0
  | d :: dependencies => if String.eqb d name then i + 1 else first_position (i + 1) dependencies name
  end.

Definition position (dependencies : list string) (name : string) : Z :=
  first_position 0 dependencies name.

Definition ApplyDependencies (lab : loc) (dependencies : list string) : MM unit :=
  do* b <- getLab lab in
  putLab lab (set_deps (SortStableFunc (fun x y => position dependencies x.1 - position dependencies y.1)
                          b.(labMachines)) b).

(** *** Options *)

Definition AddOption (lab : loc) (name : string) (value : Scalar) : MM unit :=
  if negb (IsSet value) then sret tt
  else do* b <- getLab lab in
       putLab lab (set_options (SetKey b.(generalOptions) name value).1 b.(globalMachineMetadata) b).

Definition AddGlobalMachineMetadata (lab : loc) (name : string) (value : Scalar) : MM unit :=
  if negb (IsSet value) then sret tt
  else do* b <- getLab lab in
       putLab lab (set_options b.(generalOptions) (SetKey b.(globalMachineMetadata) name value).1 b).

(** *** Files and rendering *)

Definition HasHostPath : bool := String.eqb (@fsTypeName F fsys) "os".

(** [lstat]: whether the path is a symbolic link, when it can be read. *)
Definition CreateSharedFolder (lstat : string → option bool) (lab : loc) : MM unit :=
  if negb HasHostPath then sret tt
  else
    do* _ <- withFS lab (@fsMkdirAll F fsys "shared" 0x1FF) in
    do* b <- getLab lab in
    match @fsSysPath F fsys "shared" b.(labFS) with
    | None => sret tt
    | Some path =>
        do* _ <- putLab lab (set_SharedPath path b) in
        match lstat path with
        | Some true => throw ErrSharedSymlink
        | _ => sret tt
        end
    end.

Definition startupFileName (m : Machine) : string := m.(mName) +:+ ".startup".

Definition CreateStartupFileFromString (lab machine : loc) (commands : string) : MM unit :=
  do* m <- getMachine machine in
  withFS lab (CreateFileFromString fsys commands (startupFileName m)).
Definition UpdateStartupFileFromString (lab machine : loc) (commands : string) : MM unit :=
  do* m <- getMachine machine in
  withFS lab (UpdateFileFromString fsys commands (startupFileName m)).

Definition Lab_String (b : Lab F) : string :=
  let line (label value : string) := if String.eqb value "" then [] else [label +:+ value] in
  str_join (str1 LF)
    (line "Name: " (Lab_Name b) ++ line "Description: " b.(Description)
     ++ line "Version: " b.(Version) ++ line "Author(s): " b.(Author)
     ++ line "Email: " b.(Email) ++ line "Website: " b.(Web)).

Definition Interface_String (h : heap F) (i : Interface) : string :=
  let name := match i.(iMachine) ≫= (fun l => h.(hMachines) !! l) with
              | Some m => m.(mName) | None => "" end in
  "Interface(" +:+ name +:+ ", " +:+ Itoa i.(Number) +:+ ", "
    +:+ (if String.eqb i.(MAC) "" then "None" else i.(MAC)) +:+ ")".

Definition interfacesRepr (h : heap F) (m : Machine) : string :=
  "[" +:+ str_join ", "
    ((fun i => "(" +:+ Itoa i.(Number) +:+ ", "
               +:+ (if IsTombstone i then "None" else Interface_String h i) +:+ ")")
     <$> m.(interfaces)) +:+ "]".

(** One line of [Machine.String] per live interface. *)
Definition iface_line (h : heap F) (i : Interface) : string :=
  match i.(iLink) ≫= (fun l => h.(hLinks) !! l) with
  | None => ""
  | Some k => str1 LF +:+ str1 (az 9) +:+ "- " +:+ Itoa i.(Number) +:+ ": " +:+ k.(lName)
              +:+ (if String.eqb i.(MAC) "" then ""
                   else " (MAC Address: " +:+ i.(MAC) +:+ ")")
  end.

Definition Machine_String (h : heap F) (b : Lab F) (m : Machine) : string :=
  let nl := str1 LF in let item := nl +:+ str1 (az 9) +:+ "- " in
  "Name: " +:+ m.(mName) +:+ nl +:+ "Image: " +:+ GetImage b m
  +:+ (if decide (m.(interfaces) = []) then ""
       else nl +:+ "Interfaces: " +:+ string_concat (iface_line h <$> m.(interfaces)))
  +:+ (match m.(mMeta).(Bridged) with
       | Some v => nl +:+ "Bridged Connection: " +:+ scalar_string (Bool v) | None => "" end)
  +:+ (if 0 <? Len m.(mMeta).(Sysctls)
       then nl +:+ "Sysctls:" +:+ string_concat
              ((fun e => item +:+ e.1 +:+ " = " +:+ scalar_string e.2) <$> Entries m.(mMeta).(Sysctls))
       else "")
  +:+ (if 0 <? Len m.(mMeta).(Ports)
       then nl +:+ "Exposed Ports:" +:+ string_concat
              ((fun e => item +:+ "Host: " +:+ PortKey_String e.1 +:+ " -> Guest: " +:+ Itoa e.2)
               <$> Entries m.(mMeta).(Ports))
       else "").
End lab.
