(* ===== verification/LabInv.v ===== *)
(** * The invariant of a scenario

    What holds of the devices, the collision domains and the pointers between
    them after any sequence of the building operations of Lab.v: the two ends
    of every attachment agree, device names are valid and are the keys they
    are registered under, slots are sorted, and no pointer dangles. *)

From S2P Require Export Lab.
From Stdlib Require Import Sorting.Sorted.
Local Open Scope string_scope.
Local Open Scope list_scope.
Local Open Scope Z_scope.
Local Open Scope kat_scope.

Section invariant.
Context {F : Type}.
Implicit Types (h : heap F) (b : Lab F) (lab l k : loc) (m : Machine) (kk : Link).

(** A live interface agrees with its collision domain. *)
Definition iface_ok h b (name : string) l (i : Interface) : Prop :=
  ∀ k, i.(iLink) = Some k →
    i.(iMachine) = Some l ∧
    ∃ kk, h.(hLinks) !! k = Some kk ∧ Get b.(labLinks) kk.(lName) = Some k ∧
          Get kk.(lMachines) name = Some l.

Record machine_ok h lab b (name : string) l m : Prop := {
  mo_name : m.(mName) = name;
  mo_valid : MatchString machineNameRegex name = true;
  mo_lab : m.(mLab) = lab;
  mo_meta : meta_ok m.(mMeta);
  mo_sorted : ifs_sorted m.(interfaces);
  mo_links : NoDup (omap iLink m.(interfaces));
  mo_ifaces : ∀ i, i ∈ m.(interfaces) → iface_ok h b name l i;
}.

Record link_ok h lab b (name : string) k kk : Prop := {
  lo_name : kk.(lName) = name;
  lo_lab : kk.(lLab) = lab;
  lo_wf : wf_map kk.(lMachines);
  lo_machines : ∀ mn ml, Get kk.(lMachines) mn = Some ml →
    Get b.(labMachines) mn = Some ml ∧
    ∃ m, h.(hMachines) !! ml = Some m ∧ Some k ∈ iLink <$> m.(interfaces);
}.

Record lab_inv h lab b : Prop := {
  li_lab : h.(hLabs) !! lab = Some b;
  li_wf_machines : wf_map b.(labMachines);
  li_wf_links : wf_map b.(labLinks);
  li_machine : ∀ n l, Get b.(labMachines) n = Some l →
    ∃ m, h.(hMachines) !! l = Some m ∧ machine_ok h lab b n l m;
  li_link : ∀ n k, Get b.(labLinks) n = Some k →
    ∃ kk, h.(hLinks) !! k = Some kk ∧ link_ok h lab b n k kk;
  li_fresh : ∀ l, (h.(hNext) ≤ l)%positive → h.(hMachines) !! l = None ∧ h.(hLinks) !! l = None;
}.

(** *** Heap updates *)

Definition upd_machine l m h : heap F :=
  mkHeap (<[l:=m]> h.(hMachines)) h.(hLinks) h.(hLabs) h.(hNext).
Definition upd_link k kk h : heap F :=
  mkHeap h.(hMachines) (<[k:=kk]> h.(hLinks)) h.(hLabs) h.(hNext).
Definition upd_lab lab b h : heap F :=
  mkHeap h.(hMachines) h.(hLinks) (<[lab:=b]> h.(hLabs)) h.(hNext).
Definition bump h : heap F :=
  mkHeap h.(hMachines) h.(hLinks) h.(hLabs) (Pos.succ h.(hNext)).

(** A registered device has one name and one location. *)
Lemma registered_inj h lab b n1 n2 l :
  lab_inv h lab b → Get b.(labMachines) n1 = Some l → Get b.(labMachines) n2 = Some l → n1 = n2.
Proof.
  intros Hi (m1 & Hm1 & Ho1)%(li_machine _ _ _ Hi) (m2 & Hm2 & Ho2)%(li_machine _ _ _ Hi).
  simplify_eq. by rewrite <- (mo_name _ _ _ _ _ _ Ho1), <- (mo_name _ _ _ _ _ _ Ho2).
Qed.

(** Scenario fields other than the two registries are free, and so is the
    order of the devices. *)
Lemma inv_upd_lab h lab b b' :
  lab_inv h lab b → wf_map b'.(labMachines) →
  (∀ n, Get b'.(labMachines) n = Get b.(labMachines) n) → b'.(labLinks) = b.(labLinks) →
  lab_inv (upd_lab lab b' h) lab b'.
Proof.
  intros Hi Hw Hm Hl. destruct Hi as [H1 H2 H3 H4 H5 H6]. split; simpl.
  - apply lookup_insert_eq.
  - done.
  - by rewrite Hl.
  - intros n l. rewrite Hm. intros (m & Hlk & [])%H4. exists m. split; [done|].
    split; try done. intros i Hin. unfold iface_ok in *. rewrite Hl. eauto.
  - intros n k. rewrite Hl. intros (kk & Hlk & [])%H5. exists kk. split; [done|].
    split; try done. intros mn ml. rewrite Hm. eauto.
  - done.
Qed.

(** Replacing a collision domain by one with the same devices. *)
Lemma inv_upd_link h lab b ln k kk kk' :
  lab_inv h lab b → Get b.(labLinks) ln = Some k → h.(hLinks) !! k = Some kk →
  kk'.(lName) = kk.(lName) → kk'.(lLab) = kk.(lLab) → kk'.(lMachines) = kk.(lMachines) →
  lab_inv (upd_link k kk' h) lab b.
Proof.
  intros [H1 H2 H3 H4 H5 H6] Hln Hk E1 E2 E3. split; simpl; try done.
  - intros n l Hn. destruct (H4 n l Hn) as (m & Hm & [? ? ? ? ? ? Hifs]). exists m.
    split; [done|]. split; try done. intros i Hin k2 Hk2.
    destruct (Hifs i Hin k2 Hk2) as (? & kk2 & Hkk2 & ? & ?). split; [done|]. cbn.
    destruct (decide (k = k2)) as [->|]; [|exists kk2; by rewrite lookup_insert_ne].
    simplify_eq. exists kk'. rewrite lookup_insert_eq, E1, E3. done.
  - intros n k2 Hk2. destruct (H5 n k2 Hk2) as (kk2 & Hkk2 & [? ? ? ?]).
    destruct (decide (k = k2)) as [->|]; [|exists kk2; by rewrite lookup_insert_ne].
    simplify_eq. exists kk'. rewrite lookup_insert_eq. split; [done|].
    split; rewrite ?E1, ?E2, ?E3; done.
  - intros l Hl. destruct (H6 l Hl) as [HM HL]. split; [done|].
    rewrite lookup_insert_ne; [done|]. intros ->. congruence.
Qed.

(** Replacing a device by one with the same name, scenario and slots. *)
Lemma inv_upd_machine h lab b n l m m' :
  lab_inv h lab b → Get b.(labMachines) n = Some l → h.(hMachines) !! l = Some m →
  m'.(mName) = m.(mName) → m'.(mLab) = m.(mLab) → m'.(interfaces) = m.(interfaces) →
  meta_ok m'.(mMeta) → lab_inv (upd_machine l m' h) lab b.
Proof.
  intros Hi Hn Hm E1 E2 E3 Hmeta. destruct Hi as [H1 H2 H3 H4 H5 H6]. split; simpl; try done.
  - intros n2 l2 Hn2. destruct (H4 n2 l2 Hn2) as (m2 & Hm2 & []).
    destruct (decide (l = l2)) as [->|Hne].
    + simplify_eq. exists m'. rewrite lookup_insert_eq. split; [done|]. split; rewrite ?E1, ?E2, ?E3; done.
    + exists m2. rewrite lookup_insert_ne by done. split; [done|]. by split.
  - intros n2 k Hk. destruct (H5 n2 k Hk) as (kk & Hkk & [? ? ? Hms]).
    exists kk. split; [done|]. split; try done.
    intros mn ml Hml. destruct (Hms mn ml Hml) as (? & m2 & Hm2 & Hin). split; [done|].
    simpl. destruct (decide (l = ml)) as [->|Hne].
    + simplify_eq. exists m'. rewrite lookup_insert_eq, E3. done.
    + exists m2. by rewrite lookup_insert_ne by done.
  - intros l2 Hl2. destruct (H6 l2 Hl2) as [HM HL]. split; [|done].
    rewrite lookup_insert_ne; [done|]. intros ->. congruence.
Qed.

(** Registering a new device, which has no interface yet. *)
Lemma inv_register h lab b name m :
  lab_inv h lab b → Get b.(labMachines) name = None →
  m.(mName) = name → MatchString machineNameRegex name = true → m.(mLab) = lab →
  meta_ok m.(mMeta) → m.(interfaces) = [] →
  let b' := set_labMachines (SetKey b.(labMachines) name h.(hNext)).1 b in
  lab_inv (upd_lab lab b' (upd_machine h.(hNext) m (bump h))) lab b'.
Proof.
  intros Hi Hnone E1 Hv E2 Hmeta E3 b'. destruct Hi as [H1 H2 H3 H4 H5 H6].
  assert (Hold : ∀ n l, Get b.(labMachines) n = Some l → Get b'.(labMachines) n = Some l).
  { intros n l Hn. simpl. rewrite get_set_ne; [done|]. intros ->. congruence. }
  assert (Hne : ∀ l m, h.(hMachines) !! l = Some m → h.(hNext) ≠ l).
  { intros l m' Hm' <-. destruct (H6 h.(hNext)) as [? _]; [lia|congruence]. }
  split; cbn [hLabs upd_lab upd_machine bump hMachines hLinks hNext].
  - apply lookup_insert_eq.
  - by apply wf_set.
  - done.
  - intros n l Hn. destruct (decide (name = n)) as [->|Hnn].
    + cbn in Hn. rewrite get_set_eq in Hn. simplify_eq. exists m. rewrite lookup_insert_eq.
      split; [done|]. split; try done; rewrite E3; [constructor|apply NoDup_nil_2|].
      by intros i ?%elem_of_nil.
    + cbn in Hn. rewrite get_set_ne in Hn by done. destruct (H4 n l Hn) as (m2 & Hm2 & []).
      exists m2. rewrite lookup_insert_ne by eauto. split; [done|]. by split.
  - intros n k Hk. destruct (H5 n k Hk) as (kk & Hkk & [? ? ? Hms]). exists kk.
    split; [done|]. split; try done. intros mn ml Hml.
    destruct (Hms mn ml Hml) as (? & m2 & Hm2 & Hin). split; [by apply Hold|].
    exists m2. cbn. rewrite lookup_insert_ne by eauto. done.
  - intros l Hl. destruct (H6 l) as [HM HL]; [lia|]. split; [|done].
    rewrite lookup_insert_ne by lia. done.
Qed.

(** Registering a new collision domain. *)
Lemma inv_register_link h lab b name :
  lab_inv h lab b → Get b.(labLinks) name = None →
  let b' := set_labLinks (SetKey b.(labLinks) name h.(hNext)).1 b in
  lab_inv (upd_lab lab b' (upd_link h.(hNext) (mkLink lab name [] NewOrderedMap) (bump h))) lab b'.
Proof.
  intros Hi Hnone b'. destruct Hi as [H1 H2 H3 H4 H5 H6].
  assert (Hne : ∀ k kk, h.(hLinks) !! k = Some kk → h.(hNext) ≠ k).
  { intros k kk Hk <-. destruct (H6 h.(hNext)) as [_ ?]; [lia|congruence]. }
  split; cbn [hLabs upd_lab upd_link bump hMachines hLinks hNext].
  - apply lookup_insert_eq.
  - done.
  - by apply wf_set.
  - intros n l Hn. destruct (H4 n l Hn) as (m & Hm & [? ? ? ? ? ? Hifs]). exists m.
    split; [done|]. split; try done. intros i Hin k Hk.
    destruct (Hifs i Hin k Hk) as (? & kk & Hkk & Hreg & Hmem). split; [done|].
    exists kk. cbn. rewrite lookup_insert_ne by eauto. split; [done|]. split; [|done].
    rewrite get_set_ne; [done|]. intros ->. congruence.
  - intros n k Hk. destruct (decide (name = n)) as [->|Hnn].
    + cbn in Hk. rewrite get_set_eq in Hk. simplify_eq.
      exists (mkLink lab n [] NewOrderedMap). rewrite lookup_insert_eq. split; [done|].
      split; try done. apply wf_new.
    + cbn in Hk. rewrite get_set_ne in Hk by done. destruct (H5 n k Hk) as (kk & Hkk & []).
      exists kk. rewrite lookup_insert_ne by eauto. split; [done|]. by split.
  - intros l Hl. destruct (H6 l) as [HM HL]; [lia|]. split; [done|].
    rewrite lookup_insert_ne by lia. done.
Qed.

(** Attaching a device to a collision domain it is not on. *)
Section attach.
Context (h : heap F) (lab : loc) (b : Lab F) (n : string) (l : loc) (m : Machine) (ln : string)
  (k : loc) (kk : Link) (iface : Interface).
Context (Hi : lab_inv h lab b) (Hn : Get b.(labMachines) n = Some l) (Hm : h.(hMachines) !! l = Some m)
  (Hln : Get b.(labLinks) ln = Some k) (Hk : h.(hLinks) !! k = Some kk)
  (Hnone : Get kk.(lMachines) n = None)
  (Him : iface.(iMachine) = Some l) (Hil : iface.(iLink) = Some k)
  (Hnum : iface.(Number) ∉ numbers m.(interfaces)).

Let attached : heap F :=
  upd_link k (set_lMachines (SetKey kk.(lMachines) n l).1 kk)
    (upd_machine l (insertInterface iface m) h).

Lemma attach_fields :
  n = m.(mName) ∧ ifs_sorted (insertInterface iface m).(interfaces) ∧
  (insertInterface iface m).(interfaces) ≡ₚ iface :: m.(interfaces) ∧
  k ∉ omap iLink m.(interfaces).
Proof.
  destruct (li_machine _ _ _ Hi n l Hn) as (m0 & Hm0 & [Ename _ _ _ Hsort _ Hifs]). simplify_eq.
  destruct (insertInterface_spec iface m Hsort Hnum) as [Hsort' Hperm]. split_and!; try done.
  intros (i & Hin & Hik)%list_elem_of_omap.
  destruct (Hifs i Hin k Hik) as (_ & kk' & Hk' & _ & Hmem). congruence.
Qed.

Lemma attach_machine_ok n2 l2 :
  Get b.(labMachines) n2 = Some l2 →
  ∃ m2, attached.(hMachines) !! l2 = Some m2 ∧ machine_ok attached lab b n2 l2 m2.
Proof.
  intros Hn2. destruct attach_fields as (Ename & Hsort' & Hperm & Hfresh).
  destruct (li_machine _ _ _ Hi n2 l2 Hn2) as (m2 & Hm2 & [? ? ? ? ? ? Hifs2]).
  unfold attached. cbn [hMachines upd_link upd_machine]. destruct (decide (l = l2)) as [->|Hne].
  - assert (n2 = n) as -> by by eapply registered_inj. simplify_eq.
    exists (insertInterface iface m). rewrite lookup_insert_eq. split; [done|].
    assert (Efields : mName (insertInterface iface m) = mName m ∧
                      mLab (insertInterface iface m) = mLab m ∧
                      mMeta (insertInterface iface m) = mMeta m).
    { unfold insertInterface. by destruct (interfaceIndex _ _). }
    destruct Efields as (E1 & E2 & E3). split; rewrite ?E1, ?E2, ?E3; try done.
    + rewrite Hperm. cbn [omap list_omap]. rewrite Hil. by apply NoDup_cons.
    + intros i Hin k2 Hk2. rewrite Hperm in Hin. cbn [hLinks upd_link].
      apply elem_of_cons in Hin as [->|Hin].
      * split; [done|]. simplify_eq. eexists. rewrite lookup_insert_eq. split; [done|].
        destruct (li_link _ _ _ Hi ln k Hln) as (kk0 & Hk0 & [Elk Elkl Hwf Hms]). simplify_eq.
        split; [done|]. apply get_set_eq.
      * destruct (Hifs2 i Hin k2 Hk2) as (? & kk2 & Hkk2 & Hreg & Hmem). split; [done|].
        assert (k ≠ k2) by (intros ->; apply Hfresh, list_elem_of_omap; eauto).
        exists kk2. by rewrite lookup_insert_ne by done.
  - exists m2. rewrite lookup_insert_ne by done. split; [done|]. split; try done.
    intros i Hin k2 Hk2. destruct (Hifs2 i Hin k2 Hk2) as (? & kk2 & Hkk2 & Hreg & Hmem).
    split; [done|]. cbn [hLinks upd_link]. destruct (decide (k = k2)) as [->|Hnk].
    + simplify_eq. eexists. rewrite lookup_insert_eq. split; [done|]. split; [done|]. cbn.
      rewrite get_set_ne; [done|]. intros ?. congruence.
    + exists kk2. by rewrite lookup_insert_ne by done.
Qed.

Lemma attach_link_ok ln2 k2 :
  Get b.(labLinks) ln2 = Some k2 →
  ∃ kk2, attached.(hLinks) !! k2 = Some kk2 ∧ link_ok attached lab b ln2 k2 kk2.
Proof.
  intros Hln2. destruct attach_fields as (Ename & _ & Hperm & _).
  destruct (li_link _ _ _ Hi ln2 k2 Hln2) as (kk2 & Hkk2 & [E1 E2 Hwf2 Hms2]).
  unfold attached. cbn [hLinks upd_link upd_machine].
  assert (Hkeep : ∀ ml m', h.(hMachines) !! ml = Some m' → ∀ o, o ∈ iLink <$> m'.(interfaces) →
    ∃ m'', (<[l:=insertInterface iface m]> h.(hMachines)) !! ml = Some m'' ∧
           o ∈ iLink <$> m''.(interfaces)).
  { intros ml m' Hm' o Ho. destruct (decide (l = ml)) as [->|]; [|exists m'; by rewrite lookup_insert_ne].
    simplify_eq. eexists. rewrite lookup_insert_eq. split; [done|]. rewrite Hperm.
    rewrite fmap_cons. by right. }
  destruct (decide (k = k2)) as [->|Hnk].
  - simplify_eq. eexists. rewrite lookup_insert_eq. split; [done|]. split; try done; [by apply wf_set|].
    intros mn ml. cbn. destruct (decide (mName m = mn)) as [<-|Hnm].
    + rewrite get_set_eq. intros [= <-]. split; [done|]. eexists.
      rewrite lookup_insert_eq. split; [done|]. rewrite Hperm, fmap_cons, Hil. by left.
    + rewrite get_set_ne by done. intros Hml. destruct (Hms2 mn ml Hml) as (? & m2 & Hm2 & Hin).
      split; [done|]. by eapply Hkeep.
  - exists kk2. rewrite lookup_insert_ne by done. split; [done|]. split; try done.
    intros mn ml Hml. destruct (Hms2 mn ml Hml) as (? & m2 & Hm2 & Hin).
    split; [done|]. by eapply Hkeep.
Qed.

Lemma inv_attach : lab_inv attached lab b.
Proof.
  pose proof Hi as [H1 H2 H3 _ _ H6].
  split; [done|done|done|exact attach_machine_ok|exact attach_link_ok|].
  intros l2 Hl2. destruct (H6 l2 Hl2) as [HM HL]. unfold attached. cbn.
  rewrite !lookup_insert_ne; [done|..]; intros ->; congruence.
Qed.
End attach.

(** The slots of a device once it is detached from [k]. *)
Definition detach_slot k (i : Interface) : Interface :=
  match i.(iLink) with
  | Some k' => if decide (k' = k) then mkInterface None None i.(Number) "" else i
  | None => i
  end.

Lemma detach_numbers k ifs : numbers (detach_slot k <$> ifs) = numbers ifs.
Proof.
  unfold numbers. rewrite <- list_fmap_compose. apply list_fmap_ext. intros _ i _.
  unfold detach_slot. cbn. destruct (iLink i); [|done]. by destruct (decide _).
Qed.

Lemma detach_links k (ifs : list Interface) k' :
  k' ≠ k → Some k' ∈ iLink <$> ifs → Some k' ∈ iLink <$> (detach_slot k <$> ifs).
Proof.
  intros Hne (i & Hi & Hin)%list_elem_of_fmap. rewrite <- list_fmap_compose.
  apply list_elem_of_fmap. exists i. split; [|done]. cbn. unfold detach_slot.
  rewrite <- Hi. by rewrite decide_False.
Qed.

Lemma detach_omap k (ifs : list Interface) : omap iLink (detach_slot k <$> ifs) = List.filter (fun k' => bool_decide (k' ≠ k)) (omap iLink ifs).
Proof.
  induction ifs as [|i ifs IH]; [done|]. cbn [fmap list_fmap omap list_omap].
  unfold detach_slot at 1. destruct (iLink i) as [k'|] eqn:E; cbn [List.filter].
  - destruct (decide (k' = k)) as [->|Hne].
    + rewrite bool_decide_eq_false_2 by (by intros []). cbn. apply IH.
    + rewrite bool_decide_eq_true_2, E by done. cbn. by rewrite <- IH.
  - rewrite E. apply IH.
Qed.

(** Detaching a device: its slots on the collision domain become tombstones. *)
Lemma inv_detach h lab b n l m ln k kk :
  lab_inv h lab b →
  Get b.(labMachines) n = Some l → h.(hMachines) !! l = Some m →
  Get b.(labLinks) ln = Some k → h.(hLinks) !! k = Some kk →
  lab_inv (upd_link k (set_lMachines (DeleteKey kk.(lMachines) n).1 kk)
            (upd_machine l (set_interfaces (detach_slot k <$> m.(interfaces)) m) h)) lab b.
Proof.
  intros Hi Hn Hm Hln Hk. pose proof Hi as [H1 H2 H3 H4 H5 H6].
  destruct (H4 n l Hn) as (m0 & Hm0 & [Ename Hv Elab Hmeta Hsort Hnd Hifs]). simplify_eq.
  destruct (H5 ln k Hln) as (kk0 & Hk0 & [Elk Elkl Hwf Hms]). simplify_eq.
  split; cbn [hLabs upd_link upd_machine hMachines hLinks hNext]; try done.
  - intros n2 l2 Hn2. destruct (decide (l = l2)) as [->|Hne].
    + assert (n2 = mName m) as -> by by eapply registered_inj.
      eexists. rewrite lookup_insert_eq. split; [done|].
      split; cbn [mName mLab mMeta interfaces set_interfaces]; try done.
      * unfold ifs_sorted. by rewrite detach_numbers.
      * rewrite detach_omap. by apply NoDup_lfilter.
      * intros i (j & -> & Hin)%list_elem_of_fmap k2 Hk2.
        unfold detach_slot in Hk2 |- *. destruct (iLink j) as [k3|] eqn:Ej; [|congruence].
        destruct (decide (k3 = k)); [done|]. simplify_eq.
        destruct (Hifs j Hin _ Ej) as (? & kk2 & Hkk2 & ? & ?). split; [done|].
        exists kk2. cbn. by rewrite lookup_insert_ne by done.
    + destruct (H4 n2 l2 Hn2) as (m2 & Hm2 & [? ? ? ? ? ? Hifs2]). exists m2.
      rewrite lookup_insert_ne by done. split; [done|]. split; try done.
      intros i Hin k2 Hk2. destruct (Hifs2 i Hin k2 Hk2) as (? & kk2 & Hkk2 & Hreg & Hmem).
      split; [done|]. cbn [hLinks upd_link]. destruct (decide (k = k2)) as [->|Hnk].
      * simplify_eq. eexists. rewrite lookup_insert_eq. split; [done|]. split; [done|].
        cbn. rewrite get_delete_ne; [done|]. intros ?. congruence.
      * exists kk2. by rewrite lookup_insert_ne by done.
  - intros ln2 k2 Hln2. destruct (H5 ln2 k2 Hln2) as (kk2 & Hkk2 & [E1 E2 Hwf2 Hms2]).
    destruct (decide (k = k2)) as [->|Hnk].
    + simplify_eq. eexists. rewrite lookup_insert_eq. split; [done|].
      split; cbn [lMachines set_lMachines]; try done; [by apply wf_delete|].
      intros mn ml. destruct (decide (mName m = mn)) as [<-|Hnm]; [by rewrite get_delete_eq|].
      rewrite get_delete_ne by done. intros Hml. destruct (Hms2 mn ml Hml) as (Hreg & m2 & Hm2 & Hin).
      split; [done|]. exists m2. cbn. rewrite lookup_insert_ne; [done|].
      intros ->. destruct Hnm. by eapply registered_inj.
    + exists kk2. rewrite lookup_insert_ne by done. split; [done|]. split; try done.
      intros mn ml Hml. destruct (Hms2 mn ml Hml) as (? & m2 & Hm2 & Hin). split; [done|].
      cbn. destruct (decide (l = ml)) as [->|]; [|exists m2; by rewrite lookup_insert_ne].
      simplify_eq. eexists. rewrite lookup_insert_eq. split; [done|]. cbn.
      by apply detach_links.
  - intros l2 Hl2. destruct (H6 l2 Hl2) as [HM HL].
    rewrite !lookup_insert_ne; [done|..]; intros ->; congruence.
Qed.

(** Forgetting a device that no collision domain lists any more. *)
Lemma inv_unregister h lab b n :
  lab_inv h lab b →
  (∀ ln k kk, Get b.(labLinks) ln = Some k → h.(hLinks) !! k = Some kk → Get kk.(lMachines) n = None) →
  let b' := set_labMachines (DeleteKey b.(labMachines) n).1 b in
  lab_inv (upd_lab lab b' h) lab b'.
Proof.
  intros [H1 H2 H3 H4 H5 H6] Hno b'. split; cbn [hLabs upd_lab hMachines hLinks hNext]; try done.
  - apply lookup_insert_eq.
  - by apply wf_delete.
  - intros n2 l2 Hn2. cbn in Hn2. destruct (decide (n = n2)) as [->|Hne].
    { by rewrite get_delete_eq in Hn2. }
    rewrite get_delete_ne in Hn2 by done. destruct (H4 n2 l2 Hn2) as (m2 & Hm2 & []).
    exists m2. split; [done|]. by split.
  - intros ln k Hk. destruct (H5 ln k Hk) as (kk & Hkk & [? ? ? Hms]). exists kk.
    split; [done|]. split; try done. intros mn ml Hml. cbn.
    rewrite get_delete_ne; [by apply Hms|]. intros ->. rewrite (Hno ln k kk) in Hml; done.
Qed.
End invariant.

(** ** The operations keep the invariant, and never dereference nil *)

Section operations.
Context {F : Type} (fsys : FileSystem F) `{TextCases} (cwd : option string).
Implicit Types (h : heap F) (b : Lab F) (lab l k : loc) (m : Machine) (kk : Link).

Notation newMachine := (newMachine fsys cwd).
Notation NewMachine := (NewMachine fsys cwd).
Notation GetOrNewMachine := (GetOrNewMachine fsys cwd).

Lemma getLab_run h lab b : h.(hLabs) !! lab = Some b → getLab lab h = (h, Ok b).
Proof. intros Hb. unfold getLab. by rewrite Hb. Qed.
Lemma getMachine_run h l m : h.(hMachines) !! l = Some m → getMachine l h = (h, Ok m).
Proof. intros Hb. unfold getMachine. by rewrite Hb. Qed.
Lemma getLink_run h k kk : h.(hLinks) !! k = Some kk → getLink k h = (h, Ok kk).
Proof. intros Hb. unfold getLink. by rewrite Hb. Qed.

(** What [newMachine] allocates: a device without interfaces and with sound metas. *)
Lemma newMachine_run h lab b name opts :
  h.(hLabs) !! lab = Some b →
  (∃ e, newMachine lab name opts h = (h, Err (Go e))) ∨
  ∃ m, newMachine lab name opts h = (upd_machine h.(hNext) m (bump h), Ok h.(hNext)) ∧
       m.(mName) = pyStrip name ∧ MatchString machineNameRegex (pyStrip name) = true ∧
       m.(mLab) = lab ∧ meta_ok m.(mMeta) ∧ m.(interfaces) = [].
Proof.
  intros Hb. unfold Lab.newMachine.
  destruct (MatchString machineNameRegex (pyStrip name)) eqn:Hv; cbn [negb]; [|left; by eexists].
  rewrite (bind_ok _ _ _ _ _ (getLab_run h lab b Hb)).
  destruct (machine_dir fsys (pyStrip name) (labFS b)) as [fs|e]; [|left; by eexists].
  rewrite (bind_ok _ _ h h fs) by done.
  assert (Hmeta : ∀ o, (∃ e, match o with
                    | None => Ok newMeta
                    | Some opts => let '(meta, r) := UpdateMeta cwd (pyStrip name) opts newMeta in
                                   rmap (fun _ => meta) r end = Err e) ∨
                  ∃ meta, match o with
                    | None => Ok newMeta
                    | Some opts => let '(meta, r) := UpdateMeta cwd (pyStrip name) opts newMeta in
                                   rmap (fun _ => meta) r end = Ok meta ∧ meta_ok meta).
  { intros [o|]; [|right; eexists; split; [done|apply newMeta_ok]].
    pose proof (UpdateMeta_inv cwd (pyStrip name) o newMeta newMeta_ok) as Hm.
    destruct (UpdateMeta _ _ _ _) as [meta [u|e]]; [right; by eexists|left; by eexists]. }
  destruct (Hmeta opts) as [[e He]|(meta & He & Hok)]; rewrite He.
  - left. by eexists.
  - right. eexists. split; [reflexivity|]. done.
Qed.

Lemma register_run h lab b name opts :
  lab_inv h lab b → Get b.(labMachines) name = None → pyStrip name = name →
  (∃ e, register fsys cwd lab name opts h = (h, Err (Go e))) ∨
  ∃ h' b' l, register fsys cwd lab name opts h = (h', Ok l) ∧ lab_inv h' lab b' ∧
    Get b'.(labMachines) name = Some l ∧ b'.(labLinks) = b.(labLinks).
Proof.
  intros Hi Hnone Hstrip. unfold register.
  destruct (newMachine_run h lab b name opts (li_lab _ _ _ Hi)) as [[e He]|(m & He & En & Hv & El & Hmo & Eif)].
  - left. exists e. by rewrite (bind_err _ _ _ _ _ He).
  - right. rewrite (bind_ok _ _ _ _ _ He). rewrite Hstrip in *.
    rewrite (bind_ok _ _ _ _ _ (getLab_run (upd_machine _ _ (bump h)) lab b (li_lab _ _ _ Hi))).
    eexists _, _, _. split; [reflexivity|]. split; [by apply (inv_register h lab b name m)|].
    split; [|done]. apply get_set_eq.
Qed.

(** The verdict on an operation: the invariant holds after it, whether it
    succeeded or not, and no nil pointer was met. *)
Definition safe {A} (lab : loc) (op : MM A) : Prop :=
  ∀ h b, lab_inv h lab b → ∃ b', lab_inv (op h).1 lab b' ∧ (op h).2 ≠ Err NilDeref.

Lemma NewMachine_safe lab name opts : pyStrip name = name → safe lab (NewMachine lab name opts).
Proof.
  intros Hs h b Hi. unfold Lab.NewMachine.
  rewrite (bind_ok _ _ _ _ _ (getLab_run h lab b (li_lab _ _ _ Hi))).
  destruct (Has _ name) eqn:Hh; [by exists b|]. apply has_get_false in Hh.
  destruct (register_run h lab b name opts Hi Hh Hs) as [[e ->]|(h' & b' & l & -> & ? & _)]; eauto.
Qed.

Lemma GetOrNewMachine_run h lab b name opts :
  lab_inv h lab b → pyStrip name = name →
  (∃ e, GetOrNewMachine lab name opts h = (h, Err (Go e))) ∨
  ∃ h' b' l, GetOrNewMachine lab name opts h = (h', Ok l) ∧ lab_inv h' lab b' ∧
    Get b'.(labMachines) name = Some l ∧ b'.(labLinks) = b.(labLinks).
Proof.
  intros Hi Hs. unfold Lab.GetOrNewMachine.
  rewrite (bind_ok _ _ _ _ _ (getLab_run h lab b (li_lab _ _ _ Hi))).
  destruct (Get _ name) as [l|] eqn:E.
  - right. by exists h, b, l.
  - by apply register_run.
Qed.

Lemma register_link_run h lab b name :
  lab_inv h lab b → Get b.(labLinks) name = None →
  ∃ h' b' k, register_link lab name h = (h', Ok k) ∧ lab_inv h' lab b' ∧
    Get b'.(labLinks) name = Some k ∧ b'.(labMachines) = b.(labMachines).
Proof.
  intros Hi Hnone. unfold register_link.
  rewrite (bind_ok _ _ h (bump h) (hNext h)) by done.
  rewrite (bind_ok _ _ _ (upd_link h.(hNext) (mkLink lab name [] NewOrderedMap) (bump h)) tt) by done.
  rewrite (bind_ok _ _ _ _ _ (getLab_run (upd_link _ _ (bump h)) lab b (li_lab _ _ _ Hi))).
  eexists _, _, _. split; [reflexivity|]. split; [by apply (inv_register_link h lab b name)|].
  split; [|done]. apply get_set_eq.
Qed.

Lemma GetOrNewLink_run h lab b name :
  lab_inv h lab b →
  ∃ h' b' k, GetOrNewLink lab name h = (h', Ok k) ∧ lab_inv h' lab b' ∧
    Get b'.(labLinks) name = Some k ∧ b'.(labMachines) = b.(labMachines).
Proof.
  intros Hi. unfold GetOrNewLink.
  rewrite (bind_ok _ _ _ _ _ (getLab_run h lab b (li_lab _ _ _ Hi))).
  destruct (Get _ name) as [k|] eqn:E; [by exists h, b, k|by apply register_link_run].
Qed.

Lemma NewLink_safe lab name : safe lab (NewLink lab name).
Proof.
  intros h b Hi. unfold NewLink.
  rewrite (bind_ok _ _ _ _ _ (getLab_run h lab b (li_lab _ _ _ Hi))).
  destruct (Has _ name) eqn:Hh; [by exists b|]. apply has_get_false in Hh.
  destruct (register_link_run h lab b name Hi Hh) as (h' & b' & k & -> & ? & _). eauto.
Qed.

(** Attaching a registered device to a registered collision domain. *)
Lemma AddInterface_run h lab b n l ln k opts :
  lab_inv h lab b → Get b.(labMachines) n = Some l → Get b.(labLinks) ln = Some k →
  (∃ e, AddInterface l k opts h = (h, Err (Go e))) ∨
  ∃ h' iface, AddInterface l k opts h = (h', Ok iface) ∧ lab_inv h' lab b.
Proof.
  intros Hi Hn Hln. unfold AddInterface.
  destruct (li_machine _ _ _ Hi n l Hn) as (m & Hm & Hmo).
  destruct (li_link _ _ _ Hi ln k Hln) as (kk & Hk & Hko).
  rewrite (bind_ok _ _ _ _ _ (getMachine_run h l m Hm)).
  set (number := default _ _).
  destruct (HasInterfaceNumber m number) eqn:Hnum; [left; by eexists|].
  rewrite (bind_ok _ _ _ _ _ (getLink_run h k kk Hk)).
  destruct (HasMachine kk _) eqn:Hmem; [left; by eexists|].
  unfold newInterface. destruct (_ && _); [left; by eexists|].
  right. eexists _, _. split; [reflexivity|].
  rewrite (mo_name _ _ _ _ _ _ Hmo) in *. apply has_get_false in Hmem.
  eapply (inv_attach h lab b n l m ln k kk); try done.
  cbn [Number]. rewrite <- HasInterfaceNumber_spec by apply Hmo. by rewrite Hnum.
Qed.

Lemma ConnectMachineToLink_safe lab mn ln opts :
  pyStrip mn = mn → safe lab (ConnectMachineToLink fsys cwd lab mn ln opts).
Proof.
  intros Hs h b Hi. unfold ConnectMachineToLink.
  destruct (GetOrNewMachine_run h lab b mn None Hi Hs) as [[e He]|(h1 & b1 & l & He & Hi1 & Hl & _)].
  { rewrite (bind_err _ _ _ _ _ He). by exists b. }
  rewrite (bind_ok _ _ _ _ _ He).
  destruct (GetOrNewLink_run h1 lab b1 ln Hi1) as (h2 & b2 & k & Hk & Hi2 & Hlk & Em).
  rewrite (bind_ok _ _ _ _ _ Hk).
  destruct (AddInterface_run h2 lab b2 mn l ln k opts Hi2) as [[e Ha]|(h3 & i & Ha & Hi3)]; [by rewrite Em|done|..].
  - rewrite (bind_err _ _ _ _ _ Ha). by exists b2.
  - rewrite (bind_ok _ _ _ _ _ Ha). by exists b2.
Qed.

Lemma Machine_meta_run h lab b n l (p : string → M Meta goerror (anyval * bool)) :
  lab_inv h lab b → Get b.(labMachines) n = Some l →
  (∀ name, sinv meta_ok (p name)) →
  let r := (do* m <- getMachine l in
            let '(meta, r) := p m.(mName) m.(mMeta) in
            do* _ <- putMachine l (set_meta meta m) in go r) h in
  lab_inv r.1 lab b ∧ r.2 ≠ Err NilDeref.
Proof.
  intros Hi Hn Hp. destruct (li_machine _ _ _ Hi n l Hn) as (m & Hm & Hmo).
  rewrite (bind_ok _ _ _ _ _ (getMachine_run h l m Hm)).
  pose proof (Hp m.(mName) m.(mMeta) (mo_meta _ _ _ _ _ _ Hmo)) as Hmeta.
  destruct (p _ _) as [meta r]. cbn in Hmeta.
  rewrite (bind_ok _ _ h (upd_machine l (set_meta meta m) h) tt) by done.
  simpl. split; [|by destruct r].
  assert ((go r (upd_machine l (set_meta meta m) h)).1 = upd_machine l (set_meta meta m) h) as E
    by by destruct r.
  rewrite E. by eapply inv_upd_machine.
Qed.

Lemma AssignMetaToMachine_safe lab mn name value :
  pyStrip mn = mn → safe lab (AssignMetaToMachine fsys cwd lab mn name value).
Proof.
  intros Hs h b Hi. unfold AssignMetaToMachine.
  destruct (GetOrNewMachine_run h lab b mn None Hi Hs) as [[e He]|(h1 & b1 & l & He & Hi1 & Hl & _)].
  { rewrite (bind_err _ _ _ _ _ He). by exists b. }
  rewrite (bind_ok _ _ _ _ _ He). exists b1.
  apply (Machine_meta_run h1 lab b1 mn l (fun n => AddMeta cwd n name value) Hi1 Hl).
  intros. apply AddMeta_inv.
Qed.

(** Changing fields of the scenario record. *)
Lemma upd_lab_safe lab (f : Lab F → Lab F) :
  (∀ b, wf_map b.(labMachines) → wf_map (f b).(labMachines)) →
  (∀ b n, Get (f b).(labMachines) n = Get b.(labMachines) n) →
  (∀ b, (f b).(labLinks) = b.(labLinks)) →
  safe lab (do* b <- getLab lab in putLab lab (f b)).
Proof.
  intros Hw Hm Hl h b Hi.
  rewrite (bind_ok _ _ _ _ _ (getLab_run h lab b (li_lab _ _ _ Hi))).
  exists (f b). split; [|done]. apply (inv_upd_lab h lab b (f b) Hi); auto. apply Hw, Hi.
Qed.

Lemma ApplyDependencies_safe lab deps : safe lab (ApplyDependencies lab deps).
Proof. apply upd_lab_safe; try done. intros b Hb. by apply wf_sort. Qed.

Lemma SetName_safe lab name : safe lab (SetName lab name).
Proof. by apply upd_lab_safe. Qed.

Lemma AddOption_safe lab name v : safe lab (AddOption lab name v).
Proof. unfold AddOption. destruct (negb _); [intros h b Hi; by exists b|by apply upd_lab_safe]. Qed.

Lemma AddGlobalMachineMetadata_safe lab name v : safe lab (AddGlobalMachineMetadata lab name v).
Proof.
  unfold AddGlobalMachineMetadata. destruct (negb _); [intros h b Hi; by exists b|by apply upd_lab_safe].
Qed.

Lemma attach_run h lab b external :
  lab_inv h lab b → (∀ e, e ∈ external → Has b.(labLinks) e.1 = true) →
  lab_inv (sfor external (attach_one lab) h).1 lab b ∧ (sfor external (attach_one lab) h).2 = Ok tt.
Proof.
  revert h. induction external as [|e external IH]; intros h Hi Hall; [done|].
  cbn [sfor].
  pose proof (Hall e ltac:(by left)) as Hh. apply has_get in Hh as [k Hk].
  destruct (li_link _ _ _ Hi e.1 k Hk) as (kk & Hkk & _).
  assert (E : attach_one lab e h = (upd_link k (set_External (External kk ++ e.2) kk) h, Ok tt)).
  { unfold attach_one. rewrite (bind_ok _ _ _ _ _ (getLab_run h lab b (li_lab _ _ _ Hi))).
    rewrite Hk. by rewrite (bind_ok _ _ _ _ _ (getLink_run h k kk Hkk)). }
  rewrite (bind_ok _ _ _ _ _ E). apply IH; [by eapply inv_upd_link|].
  intros e' He'. apply Hall. by right.
Qed.

Lemma AttachExternalLinks_safe lab external : safe lab (AttachExternalLinks lab external).
Proof.
  intros h b Hi. unfold AttachExternalLinks.
  rewrite (bind_ok _ _ _ _ _ (getLab_run h lab b (li_lab _ _ _ Hi))).
  destruct (List.find _ external) as [e|] eqn:E; [by exists b|]. exists b.
  destruct (attach_run h lab b external Hi) as [? ->]; [|done].
  intros e He. pose proof (find_none _ _ E e) as Hn.
  apply list_elem_of_In in He. specialize (Hn He). by apply negb_false_iff in Hn.
Qed.

Lemma sfor_check_run h lab b ls :
  lab_inv h lab b → (∀ l, l ∈ ls → ∃ n, Get b.(labMachines) n = Some l) →
  (sfor ls Machine_Check h).1 = h ∧ (sfor ls Machine_Check h).2 ≠ Err NilDeref.
Proof.
  intros Hi. induction ls as [|l ls IH]; intros Hls; [done|]. cbn [sfor].
  destruct (Hls l ltac:(by left)) as [n Hn].
  destruct (li_machine _ _ _ Hi n l Hn) as (m & Hm & _).
  assert (E : Machine_Check l h = go (checkNumbering m) h).
  { unfold Machine_Check. by rewrite (bind_ok _ _ _ _ _ (getMachine_run h l m Hm)). }
  destruct (checkNumbering m) as [[]|e].
  - rewrite (bind_ok _ _ _ _ _ E). apply IH. intros l' Hl'. apply Hls. by right.
  - by rewrite (bind_err _ _ _ _ _ E).
Qed.

Lemma values_registered o (l : loc) : wf_map o → l ∈ Values o → ∃ n : string, Get o n = Some l.
Proof.
  intros Hw ([n l'] & -> & Hin)%list_elem_of_fmap. exists n. by apply elem_of_entries.
Qed.

Lemma CheckIntegrity_safe lab : safe lab (CheckIntegrity lab).
Proof.
  intros h b Hi. unfold CheckIntegrity.
  rewrite (bind_ok _ _ _ _ _ (getLab_run h lab b (li_lab _ _ _ Hi))).
  destruct (sfor_check_run h lab b (Values b.(labMachines)) Hi) as [-> ?]; [|by exists b].
  intros l Hl. apply values_registered; [apply Hi|done].
Qed.

(** On registered devices, the comparison of names of [RemoveInterface] is the
    comparison of collision domains. *)
Lemma tombstone_run h lab b n l k kk ifs :
  lab_inv h lab b → Get b.(labLinks) kk.(lName) = Some k → h.(hLinks) !! k = Some kk →
  (∀ i, i ∈ ifs → iface_ok h b n l i) →
  tombstone_loop kk.(lName) ifs h = (h, Ok (detach_slot k <$> ifs)).
Proof.
  intros Hi Hreg Hk. induction ifs as [|i ifs IH]; intros Hifs; [done|].
  cbn [tombstone_loop fmap list_fmap]. specialize (IH ltac:(intros; apply Hifs; by right)).
  assert (Hi' : (match i.(iLink) with
            | None => sret i
            | Some l => do* q <- getLink l in
                sret (if String.eqb q.(lName) kk.(lName)
                      then mkInterface None None i.(Number) "" else i)
            end : MM Interface) h = (h, Ok (detach_slot k i))).
  { unfold detach_slot. destruct (iLink i) as [k'|] eqn:E; [|done].
    destruct (Hifs i ltac:(by left) k' E) as (_ & kk' & Hkk' & Hreg' & _).
    rewrite (bind_ok _ _ _ _ _ (getLink_run h k' kk' Hkk')).
    destruct (decide (k' = k)) as [->|Hne].
    - simplify_eq. by rewrite String.eqb_refl.
    - destruct (String.eqb_spec kk'.(lName) kk.(lName)) as [Heq|]; [|done].
      rewrite Heq in Hreg'. congruence. }
  rewrite (bind_ok _ _ _ _ _ Hi'). by rewrite (bind_ok _ _ _ _ _ IH).
Qed.

Lemma RemoveInterface_run h lab b n l ln k :
  lab_inv h lab b → Get b.(labMachines) n = Some l → Get b.(labLinks) ln = Some k →
  lab_inv (RemoveInterface l k h).1 lab b ∧ (RemoveInterface l k h).2 ≠ Err NilDeref.
Proof.
  intros Hi Hn Hln. unfold RemoveInterface.
  destruct (li_machine _ _ _ Hi n l Hn) as (m & Hm & Hmo).
  destruct (li_link _ _ _ Hi ln k Hln) as (kk & Hk & Hko).
  rewrite (bind_ok _ _ _ _ _ (getMachine_run h l m Hm)).
  rewrite (bind_ok _ _ _ _ _ (getLink_run h k kk Hk)).
  destruct (HasMachine kk _); cbn [negb]; [|done].
  rewrite (bind_ok _ _ _ _ _ (tombstone_run h lab b n l k kk m.(interfaces) Hi
    ltac:(by rewrite (lo_name _ _ _ _ _ _ Hko)) Hk (mo_ifaces _ _ _ _ _ _ Hmo))).
  split; [|done]. rewrite (mo_name _ _ _ _ _ _ Hmo).
  by apply (inv_detach h lab b n l m ln k kk).
Qed.

(** *** Removing a device *)

(** The heap once [n] is off the collision domains [ks]. *)
Definition unlinked (n : string) (ks : list loc) h : heap F :=
  foldl (fun h k => match h.(hLinks) !! k with
                    | Some kk => upd_link k (set_lMachines (DeleteKey kk.(lMachines) n).1 kk) h
                    | None => h
                    end) h ks.

Lemma unlink_loop_run lab b n l ifs : ∀ h,
  h.(hLabs) !! lab = Some b →
  (∀ i, i ∈ ifs → iface_ok h b n l i) → NoDup (omap iLink ifs) →
  (∀ i, i ∈ ifs → IsTombstone i = false) →
  sfor ifs (unlink_iface n) h = (unlinked n (omap iLink ifs) h, Ok tt).
Proof.
  induction ifs as [|i ifs IH]; intros h Hlab Hifs Hnd Hlive; [done|].
  cbn [sfor omap list_omap] in *. unfold unlink_iface at 1.
  pose proof (Hlive i ltac:(by left)) as Hi. unfold IsTombstone in Hi.
  destruct (iLink i) as [k|] eqn:E; [|done]. apply NoDup_cons in Hnd as [Hk Hnd].
  destruct (Hifs i ltac:(by left) k E) as (_ & kk & Hkk & _ & Hmem).
  assert (E1 : ((do* kk <- getLink k in
             let '(ms, existed) := DeleteKey kk.(lMachines) n in
             if negb existed then throw (newKeyError n) else putLink k (set_lMachines ms kk)) : MM unit) h
           = (upd_link k (set_lMachines (DeleteKey kk.(lMachines) n).1 kk) h, Ok tt)).
  { rewrite (bind_ok _ _ _ _ _ (getLink_run h k kk Hkk)).
    unfold DeleteKey. unfold Get in Hmem. by rewrite Hmem. }
  rewrite (bind_ok _ _ _ _ _ E1). cbn [unlinked foldl]. rewrite Hkk. apply IH.
  - done.
  - intros j Hj k2 Hk2. destruct (Hifs j ltac:(by right) k2 Hk2) as (? & kk2 & ? & ? & ?).
    split; [done|]. exists kk2. cbn. rewrite lookup_insert_ne; [done|].
    intros ->. apply Hk, list_elem_of_omap. eauto.
  - done.
  - intros j Hj. apply Hlive. by right.
Qed.

(** Unlinking keeps everything of a collision domain but the device named [n]. *)
Lemma unlinked_link n ks : ∀ h k kk,
  h.(hLinks) !! k = Some kk →
  ∃ kk', (unlinked n ks h).(hLinks) !! k = Some kk' ∧ kk'.(lName) = kk.(lName) ∧
    kk'.(lLab) = kk.(lLab) ∧ (wf_map kk.(lMachines) → wf_map kk'.(lMachines)) ∧
    (∀ n', n' ≠ n → Get kk'.(lMachines) n' = Get kk.(lMachines) n') ∧
    (k ∈ ks ∨ Get kk.(lMachines) n = None → Get kk'.(lMachines) n = None).
Proof.
  induction ks as [|k0 ks IH]; intros h k kk Hk; cbn [unlinked foldl].
  { exists kk. split_and!; try done. intros [?%elem_of_nil|?]; done. }
  fold (unlinked n ks). destruct (h.(hLinks) !! k0) as [kk0|] eqn:E0.
  - destruct (decide (k0 = k)) as [->|Hne].
    + simplify_eq. destruct (IH (upd_link k (set_lMachines (DeleteKey (lMachines kk) n).1 kk) h) k
        (set_lMachines (DeleteKey (lMachines kk) n).1 kk)) as (kk' & ? & ? & ? & Hw & Hf & Hn).
      { apply lookup_insert_eq. }
      exists kk'. split_and!; try done.
      * intros. apply Hw. by apply wf_delete.
      * intros n' Hn'. rewrite Hf by done. cbn. by apply get_delete_ne.
      * intros _. apply Hn. right. apply get_delete_eq.
    + destruct (IH (upd_link k0 (set_lMachines (DeleteKey (lMachines kk0) n).1 kk0) h) k kk)
        as (kk' & ? & ? & ? & Hw & Hf & Hn).
      { cbn. by rewrite lookup_insert_ne. }
      exists kk'. split_and!; try done. intros [[->|?]%elem_of_cons|?]; [done|apply Hn..]; eauto.
  - destruct (IH h k kk Hk) as (kk' & ? & ? & ? & Hw & Hf & Hn). exists kk'. split_and!; try done.
    intros [[->|?]%elem_of_cons|?]; [congruence|apply Hn..]; eauto.
Qed.

Lemma unlinked_frame n ks : ∀ h,
  (unlinked n ks h).(hMachines) = h.(hMachines) ∧ (unlinked n ks h).(hLabs) = h.(hLabs) ∧
  (unlinked n ks h).(hNext) = h.(hNext) ∧
  ∀ k, h.(hLinks) !! k = None → (unlinked n ks h).(hLinks) !! k = None.
Proof.
  induction ks as [|k0 ks IH]; intros h; cbn [unlinked foldl]; [done|]. fold (unlinked n ks).
  destruct (h.(hLinks) !! k0) as [kk0|] eqn:E0; [|apply IH].
  destruct (IH (upd_link k0 (set_lMachines (DeleteKey (lMachines kk0) n).1 kk0) h))
    as (E1 & E2 & E3 & Hl). unfold unlinked in *. rewrite E1, E2, E3.
  split_and!; try done. intros k Hk. apply Hl. cbn.
  rewrite lookup_insert_ne; [done|]. intros ->. congruence.
Qed.

(** Taking a device off all its collision domains and out of the scenario. *)
Lemma inv_remove h lab b n l m :
  lab_inv h lab b → Get b.(labMachines) n = Some l → h.(hMachines) !! l = Some m →
  let h' := unlinked n (omap iLink m.(interfaces)) h in
  let b' := set_labMachines (DeleteKey b.(labMachines) n).1 b in
  lab_inv (upd_lab lab b' h') lab b'.
Proof.
  intros Hi Hn Hm. simpl. set (ks := omap iLink _).
  pose proof Hi as [H1 H2 H3 H4 H5 H6]. destruct (H4 n l Hn) as (m0 & Hm0 & Hmo). simplify_eq.
  destruct (unlinked_frame n ks h) as (EM & EL & EN & Hnone).
  split; cbn [hLabs upd_lab hMachines hLinks hNext]; rewrite ?EM, ?EL, ?EN; try done.
  - apply lookup_insert_eq.
  - by apply wf_delete.
  - intros n2 l2 Hn2. cbn in Hn2. destruct (decide (n = n2)) as [->|Hne].
    { by rewrite get_delete_eq in Hn2. }
    rewrite get_delete_ne in Hn2 by done. destruct (H4 n2 l2 Hn2) as (m2 & Hm2 & [? ? ? ? ? ? Hifs]).
    exists m2. split; [done|]. split; try done. intros i Hin k Hk.
    destruct (Hifs i Hin k Hk) as (? & kk & Hkk & ? & Hmem). split; [done|].
    destruct (unlinked_link n ks h k kk Hkk) as (kk' & ? & En & _ & _ & Hf & _).
    exists kk'. cbn. rewrite En, Hf by done. done.
  - intros ln k Hk. cbn in Hk. destruct (H5 ln k Hk) as (kk & Hkk & [? ? ? Hms]).
    destruct (unlinked_link n ks h k kk Hkk) as (kk' & ? & En & El & Hw & Hf & Hrm).
    exists kk'. split; [done|]. split; rewrite ?En, ?El; auto.
    intros mn ml Hml. assert (mn ≠ n) as Hne.
    { intros ->. rewrite Hrm in Hml; [done|].
      destruct (Get (lMachines kk) n) as [l'|] eqn:E; [left|by right].
      destruct (Hms n l' E) as (? & m' & Hm' & Hin). simplify_eq.
      apply list_elem_of_fmap in Hin as (i & Hik & Hin).
      apply list_elem_of_omap. eauto. }
    rewrite Hf in Hml by done. destruct (Hms mn ml Hml) as (? & m' & ? & ?).
    split; [cbn; by rewrite get_delete_ne|]. exists m'. cbn. by rewrite EM.
  - intros l2 Hl2. destruct (H6 l2 Hl2) as [? ?]. auto.
Qed.

Definition live m : Prop := ∀ i, i ∈ m.(interfaces) → IsTombstone i = false.

Lemma RemoveMachine_run h lab b n l m :
  lab_inv h lab b → Get b.(labMachines) n = Some l → h.(hMachines) !! l = Some m → live m →
  let h' := unlinked n (omap iLink m.(interfaces)) h in
  let b' := set_labMachines (DeleteKey b.(labMachines) n).1 b in
  ∀ deleteFS, RemoveMachine fsys lab n deleteFS h =
    (if deleteFS then withFS lab (remove_files fsys n) else sret tt) (upd_lab lab b' h').
Proof.
  intros Hi Hn Hm Hlive h' b' deleteFS. unfold RemoveMachine.
  destruct (li_machine _ _ _ Hi n l Hn) as (m0 & Hm0 & Hmo). simplify_eq.
  rewrite (bind_ok _ _ _ _ _ (getLab_run h lab b (li_lab _ _ _ Hi))), Hn.
  rewrite (bind_ok _ _ _ _ _ (getMachine_run h l m Hm)).
  rewrite (bind_ok _ _ _ _ _ (unlink_loop_run lab b n l m.(interfaces) h (li_lab _ _ _ Hi)
    (mo_ifaces _ _ _ _ _ _ Hmo) (mo_links _ _ _ _ _ _ Hmo) Hlive)).
  fold h'. assert (Hlab : h'.(hLabs) !! lab = Some b).
  { destruct (unlinked_frame n (omap iLink m.(interfaces)) h) as (_ & E & _). unfold h'.
    rewrite E. apply Hi. }
  rewrite (bind_ok _ _ _ _ _ (getLab_run h' lab b Hlab)). by destruct deleteFS.
Qed.

Lemma withFS_safe {A} lab (p : M F goerror A) : safe lab (withFS lab p).
Proof.
  intros h b Hi. unfold withFS.
  rewrite (bind_ok _ _ _ _ _ (getLab_run h lab b (li_lab _ _ _ Hi))).
  destruct (p (labFS b)) as [fs r]. exists (set_labFS fs b).
  rewrite (bind_ok _ _ h (upd_lab lab (set_labFS fs b) h) tt) by done.
  assert (E : (go r (upd_lab lab (set_labFS fs b) h)).1 = upd_lab lab (set_labFS fs b) h) by by destruct r.
  rewrite E. split; [|by destruct r]. by apply (inv_upd_lab h lab b); [|apply Hi| |].
Qed.

(** The loop stops at a tombstone with the error CPython raises on [None.link]. *)
Lemma unlink_loop_tombstone lab b n l ifs : ∀ h,
  h.(hLabs) !! lab = Some b → (∀ i, i ∈ ifs → iface_ok h b n l i) → NoDup (omap iLink ifs) →
  (∃ i, i ∈ ifs ∧ IsTombstone i = true) →
  ∃ h', sfor ifs (unlink_iface n) h = (h', Err (Go (newNoneAttributeError "link"))).
Proof.
  induction ifs as [|i ifs IH]; intros h Hlab Hifs Hnd (j & Hj & Ht); [by apply elem_of_nil in Hj|].
  cbn [sfor omap list_omap] in *. unfold unlink_iface at 1.
  destruct (iLink i) as [k|] eqn:E; [|eexists; reflexivity].
  apply NoDup_cons in Hnd as [Hk Hnd].
  destruct (Hifs i ltac:(by left) k E) as (_ & kk & Hkk & _ & Hmem).
  assert (E1 : ((do* kk <- getLink k in
             let '(ms, existed) := DeleteKey kk.(lMachines) n in
             if negb existed then throw (newKeyError n) else putLink k (set_lMachines ms kk)) : MM unit) h
           = (upd_link k (set_lMachines (DeleteKey kk.(lMachines) n).1 kk) h, Ok tt)).
  { rewrite (bind_ok _ _ _ _ _ (getLink_run h k kk Hkk)).
    unfold DeleteKey. unfold Get in Hmem. by rewrite Hmem. }
  rewrite (bind_ok _ _ _ _ _ E1). apply IH; [done| |done|].
  - intros i2 Hi2 k2 Hk2. destruct (Hifs i2 ltac:(by right) k2 Hk2) as (? & kk2 & ? & ? & ?).
    split; [done|]. exists kk2. cbn. rewrite lookup_insert_ne; [done|].
    intros ->. apply Hk, list_elem_of_omap. eauto.
  - apply elem_of_cons in Hj as [->|Hj]; [unfold IsTombstone in Ht; by rewrite E in Ht|eauto].
Qed.

(** *** Reachable scenarios *)

Inductive lab_call : Type :=
| CNewMachine (name : string) (opts : option MetaOptions)
| CNewLink (name : string)
| CConnect (machine link : string) (opts : AddInterfaceOptions)
| CAssignMeta (machine name value : string)
| CUpdateMeta (machine : string) (opts : MetaOptions)
| CRemoveInterface (machine link : string)
| CRemoveMachine (name : string) (deleteFS : bool)
| CAttachExternal (external : list (string * list ExternalLink))
| CApplyDependencies (dependencies : list string)
| CAddOption (name : string) (value : Scalar)
| CAddGlobal (name : string) (value : Scalar)
| CSetName (name : string)
| CCheck.

Local Notation MM := (@Lab.MM F).

Definition discard {A} (p : MM A) : MM unit := sbind p (fun _ => sret tt).

Definition run_call (lab : loc) (c : lab_call) : MM unit :=
  match c with
  | CNewMachine name opts => discard (NewMachine lab name opts)
  | CNewLink name => discard (NewLink lab name)
  | CConnect machine link opts => discard (ConnectMachineToLink fsys cwd lab machine link opts)
  | CAssignMeta machine name value => discard (AssignMetaToMachine fsys cwd lab machine name value)
  | CUpdateMeta machine opts =>
      do* l <- GetMachine lab machine in discard (Machine_UpdateMeta cwd l opts)
  | CRemoveInterface machine link =>
      do* l <- GetMachine lab machine in
      do* k <- GetLink lab link in RemoveInterface l k
  | CRemoveMachine name deleteFS => RemoveMachine fsys lab name deleteFS
  | CAttachExternal external => AttachExternalLinks lab external
  | CApplyDependencies deps => ApplyDependencies lab deps
  | CAddOption name value => AddOption lab name value
  | CAddGlobal name value => AddGlobalMachineMetadata lab name value
  | CSetName name => SetName lab name
  | CCheck => CheckIntegrity lab
  end.

(** A device name without surrounding white space. *)
Definition clean_names (c : lab_call) : Prop :=
  match c with
  | CNewMachine name _ => pyStrip name = name
  | CConnect machine _ _ | CAssignMeta machine _ _ => pyStrip machine = machine
  | _ => True
  end.

Inductive lab_step (lab : loc) : heap F → heap F → Prop :=
| lab_step_call c h h' r :
    clean_names c → run_call lab c h = (h', r) →
    r ≠ Err (Go (newNoneAttributeError "link")) → lab_step lab h h'.

Lemma GetMachine_run h lab b n :
  lab_inv h lab b →
  GetMachine lab n h = match Get b.(labMachines) n with
                       | Some l => (h, Ok l)
                       | None => (h, Err (Go (NewMachineNotFoundInScenario n)))
                       end.
Proof.
  intros Hi. unfold GetMachine. rewrite (bind_ok _ _ _ _ _ (getLab_run h lab b (li_lab _ _ _ Hi))).
  by destruct (Get _ n).
Qed.

Lemma GetLink_run h lab b n :
  lab_inv h lab b →
  GetLink lab n h = match Get b.(labLinks) n with
                    | Some k => (h, Ok k)
                    | None => (h, Err (Go (NewLinkNotFoundInScenario n)))
                    end.
Proof.
  intros Hi. unfold GetLink. rewrite (bind_ok _ _ _ _ _ (getLab_run h lab b (li_lab _ _ _ Hi))).
  by destruct (Get _ n).
Qed.

Lemma discard_safe {A} lab (p : MM A) : safe lab p → safe lab (discard p).
Proof.
  intros Hp h b Hi. destruct (Hp h b Hi) as (b' & Hb' & Hr). exists b'. unfold discard.
  destruct (p h) as [h' [a|e]] eqn:E; [by rewrite (bind_ok _ _ _ _ _ E)|].
  rewrite (bind_err _ _ _ _ _ E). split; [done|]. simpl in *. congruence.
Qed.

(** [call_safe h' r]: the outcome of a call keeps the invariant and is no panic. *)
Definition call_safe (lab : loc) (o : heap F * result failure unit) : Prop :=
  (∃ b', lab_inv o.1 lab b') ∧ o.2 ≠ Err NilDeref.

Lemma UpdateMeta_call_safe lab h b machine opts :
  lab_inv h lab b → call_safe lab (run_call lab (CUpdateMeta machine opts) h).
Proof.
  intros Hi. unfold run_call, call_safe. pose proof (GetMachine_run h lab b machine Hi) as Eg.
  destruct (Get (labMachines b) machine) as [l|] eqn:E;
    [rewrite (bind_ok _ _ _ _ _ Eg)|rewrite (bind_err _ _ _ _ _ Eg); split; [by exists b|done]].
  destruct (li_machine _ _ _ Hi machine l E) as (m & Hm & Hmo). unfold discard.
  assert (H1 : lab_inv (Machine_UpdateMeta cwd l opts h).1 lab b ∧
               (Machine_UpdateMeta cwd l opts h).2 ≠ Err NilDeref).
  { unfold Machine_UpdateMeta. rewrite (bind_ok _ _ _ _ _ (getMachine_run h l m Hm)).
    pose proof (UpdateMeta_inv cwd m.(mName) opts m.(mMeta) (mo_meta _ _ _ _ _ _ Hmo)) as Hmeta.
    destruct (UpdateMeta _ _ _ _) as [meta r0]. cbn in Hmeta.
    rewrite (bind_ok _ _ h (upd_machine l (set_meta meta m) h) tt) by done.
    assert (E1 : (go r0 (upd_machine l (set_meta meta m) h)).1 = upd_machine l (set_meta meta m) h)
      by by destruct r0.
    rewrite E1. split; [by eapply inv_upd_machine|by destruct r0]. }
  destruct (Machine_UpdateMeta cwd l opts h) as [h2 [u|e]] eqn:E2; destruct H1 as [H1 H2].
  - rewrite (bind_ok _ _ _ _ _ E2). by split; [exists b|].
  - rewrite (bind_err _ _ _ _ _ E2). split; [by exists b|]. simpl in *. congruence.
Qed.

Lemma RemoveInterface_call_safe lab h b machine link :
  lab_inv h lab b → call_safe lab (run_call lab (CRemoveInterface machine link) h).
Proof.
  intros Hi. unfold run_call, call_safe. pose proof (GetMachine_run h lab b machine Hi) as Eg.
  destruct (Get (labMachines b) machine) as [l|] eqn:E;
    [rewrite (bind_ok _ _ _ _ _ Eg)|rewrite (bind_err _ _ _ _ _ Eg); split; [by exists b|done]].
  pose proof (GetLink_run h lab b link Hi) as Egl.
  destruct (Get (labLinks b) link) as [k|] eqn:Ek;
    [rewrite (bind_ok _ _ _ _ _ Egl)|rewrite (bind_err _ _ _ _ _ Egl); split; [by exists b|done]].
  destruct (RemoveInterface_run h lab b machine l link k Hi E Ek). eauto.
Qed.

(** Removing a device either meets a tombstone or is safe. *)
Lemma RemoveMachine_call_safe lab h b name deleteFS :
  lab_inv h lab b →
  (RemoveMachine fsys lab name deleteFS h).2 ≠ Err (Go (newNoneAttributeError "link")) →
  call_safe lab (RemoveMachine fsys lab name deleteFS h).
Proof.
  intros Hi Hr. unfold call_safe. destruct (Get (labMachines b) name) as [l|] eqn:E.
  2: { unfold RemoveMachine. rewrite (bind_ok _ _ _ _ _ (getLab_run h lab b (li_lab _ _ _ Hi))), E.
       split; [by exists b|done]. }
  destruct (li_machine _ _ _ Hi name l E) as (m & Hm & Hmo).
  destruct (decide (Exists (fun i => IsTombstone i = true) m.(interfaces))) as [Ht|Hlive].
  - exfalso. apply Hr. apply Exists_exists in Ht.
    destruct (unlink_loop_tombstone lab b name l m.(interfaces) h (li_lab _ _ _ Hi)
      (mo_ifaces _ _ _ _ _ _ Hmo) (mo_links _ _ _ _ _ _ Hmo) Ht) as [h2 Hf].
    unfold RemoveMachine. rewrite (bind_ok _ _ _ _ _ (getLab_run h lab b (li_lab _ _ _ Hi))), E.
    rewrite (bind_ok _ _ _ _ _ (getMachine_run h l m Hm)). by rewrite (bind_err _ _ _ _ _ Hf).
  - assert (Hl : live m).
    { intros i Hin. apply not_true_is_false. intros Hi'. apply Hlive, Exists_exists. eauto. }
    rewrite (RemoveMachine_run h lab b name l m Hi E Hm Hl).
    pose proof (inv_remove h lab b name l m Hi E Hm) as Hrem. destruct deleteFS.
    + destruct (withFS_safe lab (remove_files fsys name) _ _ Hrem) as (b2 & ? & ?). eauto.
    + split; [eauto|done].
Qed.

Lemma run_call_safe lab c h b h' r :
  lab_inv h lab b → clean_names c → run_call lab c h = (h', r) →
  r ≠ Err (Go (newNoneAttributeError "link")) → (∃ b', lab_inv h' lab b') ∧ r ≠ Err NilDeref.
Proof.
  intros Hi Hc Hrun Hr.
  assert (Hsafe : safe lab (run_call lab c) → (∃ b', lab_inv h' lab b') ∧ r ≠ Err NilDeref).
  { intros Hs. destruct (Hs h b Hi) as (b' & ? & ?). rewrite Hrun in *. eauto. }
  assert (Hcall : call_safe lab (run_call lab c h) → (∃ b', lab_inv h' lab b') ∧ r ≠ Err NilDeref).
  { unfold call_safe. by rewrite Hrun. }
  destruct c; cbn [clean_names] in Hc;
    try (apply Hsafe; cbn [run_call]; first
      [ apply discard_safe; eauto using NewMachine_safe, NewLink_safe, ConnectMachineToLink_safe,
          AssignMetaToMachine_safe
      | eauto using AttachExternalLinks_safe, ApplyDependencies_safe, AddOption_safe,
          AddGlobalMachineMetadata_safe, SetName_safe, CheckIntegrity_safe ]; fail).
  - by eapply Hcall, UpdateMeta_call_safe.
  - by eapply Hcall, RemoveInterface_call_safe.
  - apply Hcall. cbn [run_call] in *. eapply RemoveMachine_call_safe; [done|]. by rewrite Hrun.
Qed.
End operations.

(** ** The theorems *)

Section theorems.
Context {F : Type} (fsys : FileSystem F) `{TextCases} (cwd : option string).
Context (memory : F) (OSDir : string → option F).

Definition empty_heap : heap F := mkHeap ∅ ∅ ∅ 1%positive.

(** A scenario just built. *)
Lemma newLab_inv name path defaults h lab :
  newLab memory OSDir name path defaults empty_heap = (h, Ok lab) → ∃ b, lab_inv h lab b.
Proof.
  unfold newLab. intros Hrun.
  destruct ((if String.eqb path "" then sret memory
             else match OSDir path with
                  | Some fs => sret fs | None => throw (newCreateFailed path) end : @MM F F) empty_heap)
    as [h0 [fs|e]] eqn:E; [|by rewrite (bind_err _ _ _ _ _ E) in Hrun].
  rewrite (bind_ok _ _ _ _ _ E) in Hrun.
  assert (h0 = empty_heap) as -> by (destruct (String.eqb path ""); [|destruct (OSDir path)]; by inversion E).
  unfold sbind, newLoc, putLab, smodify, sret in Hrun.
  injection Hrun as <- <-. eexists. split; cbn [hLabs hMachines hLinks hNext labMachines labLinks empty_heap].
  - apply lookup_insert_eq.
  - apply wf_new.
  - apply wf_new.
  - by intros n l Hn.
  - by intros n k Hk.
  - intros l _. by rewrite !lookup_empty.
Qed.



(** Removing a device without removed interfaces succeeds, takes it out of
    the scenario, and leaves no collision domain listing it; the other devices stay. *)
Theorem RemoveMachine_complete h lab b n l m :
  lab_inv h lab b → Get b.(labMachines) n = Some l → h.(hMachines) !! l = Some m → live m →
  ∃ h' b', RemoveMachine fsys lab n false h = (h', Ok tt) ∧ lab_inv h' lab b' ∧
    Get b'.(labMachines) n = None ∧
    (∀ n', n' ≠ n → Get b'.(labMachines) n' = Get b.(labMachines) n') ∧
    (∀ ln k kk, Get b'.(labLinks) ln = Some k → h'.(hLinks) !! k = Some kk →
                Get kk.(lMachines) n = None).
Proof.
  intros Hi Hn Hm Hlive. rewrite (RemoveMachine_run fsys h lab b n l m Hi Hn Hm Hlive).
  pose proof (inv_remove h lab b n l m Hi Hn Hm) as Hrem. cbv zeta in *.
  eexists _, _. split; [reflexivity|]. split; [exact Hrem|]. split_and!.
  - apply get_delete_eq.
  - intros n' Hne. by apply get_delete_ne.
  - intros ln k kk Hk Hkk. destruct (Get (lMachines kk) n) as [l'|] eqn:E; [|done].
    destruct (li_link _ _ _ Hrem ln k Hk) as (kk' & Hkk' & Hko). simplify_eq.
    destruct (lo_machines _ _ _ _ _ _ Hko n l' E) as [Hreg _]. cbn in Hreg.
    by rewrite get_delete_eq in Hreg.
Qed.
End theorems.

(** ** The boot order of the devices *)

Lemma first_position_ge i ds n : n ∈ ds → i + 1 <= first_position i ds n.
Proof.
  revert i. induction ds as [|d ds IH]; intros i Hn; [by apply elem_of_nil in Hn|].
  cbn [first_position]. destruct (String.eqb_spec d n); [lia|].
  apply elem_of_cons in Hn as [->|Hn]; [done|]. specialize (IH (i + 1) Hn). lia.
Qed.

Lemma first_position_app i l1 l2 n :
  first_position i (l1 ++ l2) n =
  if decide (n ∈ l1) then first_position i l1 n
  else first_position (i + Z.of_nat (length l1)) l2 n.
Proof.
  revert i. induction l1 as [|d l1 IH]; intros i.
  - rewrite decide_False by apply not_elem_of_nil. cbn. f_equal. lia.
  - cbn [app first_position]. destruct (String.eqb_spec d n) as [->|Hne].
    + by rewrite decide_True by left.
    + rewrite IH. destruct (decide (n ∈ l1)).
      * by rewrite decide_True by by right.
      * rewrite decide_False by (intros [->|?]%elem_of_cons; done). f_equal. cbn. lia.
Qed.

Lemma first_position_le i ds n : n ∈ ds → first_position i ds n <= i + Z.of_nat (length ds).
Proof.
  revert i. induction ds as [|d ds IH]; intros i Hn; [by apply elem_of_nil in Hn|].
  cbn [first_position length]. destruct (String.eqb_spec d n); [lia|].
  apply elem_of_cons in Hn as [->|Hn]; [done|]. specialize (IH (i + 1) Hn). lia.
Qed.

Lemma position_before ds x y : NoDup ds → before x y ds → position ds x < position ds y.
Proof.
  intros Hnd (l1 & l2 & -> & Hx). unfold position.
  apply NoDup_app in Hnd as (_ & Hdis & _).
  assert (Hy : y ∉ l1) by (intros Hy; by apply (Hdis y Hy); left).
  rewrite !first_position_app, (decide_True _ _ Hx), (decide_False _ _ Hy).
  pose proof (first_position_le 0 l1 x Hx).
  pose proof (first_position_ge (0 + Z.of_nat (length l1)) (y :: l2) y ltac:(by left)). lia.
Qed.

Lemma sorted_before {A} (rank : A → Z) (l : list A) x y :
  StronglySorted (fun a b => rank a <= rank b) l → x ∈ l → y ∈ l → rank x < rank y → before x y l.
Proof.
  intros Hs Hx (l1 & l2 & ->)%list_elem_of_split Hlt. exists l1, l2. split; [done|].
  apply elem_of_app in Hx as [|[->|Hx]%elem_of_cons]; [done|lia|].
  exfalso. clear -Hs Hx Hlt. induction l1 as [|z l1 IH].
  - inversion_clear Hs as [|? ? _ Hall]. rewrite List.Forall_forall in Hall.
    apply list_elem_of_In in Hx. specialize (Hall x Hx). simpl in Hall. lia.
  - apply IH. by inversion Hs.
Qed.

Lemma before_fmap {A B} (f : A → B) (l : list A) x y : before x y l → before (f x) (f y) (f <$> l).
Proof.
  intros (l1 & l2 & -> & Hx). exists (f <$> l1), (f <$> l2). rewrite fmap_app. split; [done|].
  by apply list_elem_of_fmap_2.
Qed.

Section boot_order.
Context {F : Type}.

(** The order [ApplyDependencies] gives the devices: theirs, sorted by position,
    ties kept in scenario order. *)
Definition boot_sorted (dependencies : list string) (ms : OrderedMap string loc) : OrderedMap string loc :=
  SortStableFunc (fun x y => position dependencies x.1 - position dependencies y.1) ms.

Lemma boot_sorted_before ds (ms : OrderedMap string loc) x y :
  wf_map ms → Has ms x = true → Has ms y = true → position ds x < position ds y →
  before x y (Keys (boot_sorted ds ms)).
Proof.
  intros Hw [lx Hx]%has_get [ly Hy]%has_get Hlt. unfold boot_sorted, SortStableFunc, Keys. cbn [okeys].
  apply (before_fmap fst _ (x, lx) (y, ly)).
  apply (sorted_before (fun e => position ds e.1)); [apply (SortStable_sorted (fun e => position ds e.1))|..|done];
    rewrite SortStable_perm; by apply elem_of_entries.
Qed.

(** C21: the boot order is right end to end: when lab.dep has no loop, applying
    its flattened order puts every device after all the devices it depends on. *)
Theorem boot_order_respects_dependencies (h : heap F) lab b g :
  lab_inv h lab b → wf_map g → HasLoop g = false →
  ∃ h' b', ApplyDependencies lab (Flatten g) h = (h', Ok tt) ∧ lab_inv h' lab b' ∧
    b'.(HasDependencies) = true ∧
    Keys b'.(labMachines) ≡ₚ Keys b.(labMachines) ∧
    ∀ x y, Has b.(labMachines) x = true → Has b.(labMachines) y = true → depends g x y →
           before y x (Keys b'.(labMachines)).
Proof.
  intros Hi Hg Hloop. destruct (ApplyDependencies_safe lab (Flatten g) h b Hi) as (b' & Hi' & _).
  unfold ApplyDependencies in *.
  rewrite (bind_ok _ _ _ _ _ (getLab_run h lab b (li_lab _ _ _ Hi))) in *.
  eexists _, _. split; [reflexivity|]. split.
  { pose proof (li_lab _ _ _ Hi') as Hl. cbn in Hl. rewrite lookup_insert_eq in Hl.
    injection Hl as <-. exact Hi'. }
  split; [done|]. split; [apply keys_sort_perm, Hi|].
  intros x y Hx Hy Hxy. apply boot_sorted_before; [apply Hi|done|done|].
  destruct (Flatten_order g Hg Hloop) as [Hnd Hord]. apply position_before; auto.
Qed.
End boot_order.

(** ** The theorems at work on a small scenario in memory *)

Section demo.
Notation lower := (ToLower : TextCases).

(** The calls in sequence, each of which must succeed. *)
Fixpoint run_calls (lab : loc) (cs : list lab_call) (h : heap memFS) : option (heap memFS) :=
  match cs with
  | [] => Some h
  | c :: cs => match @run_call memFS Memory_FS lower None lab c h with
               | (h', Ok tt) => run_calls lab cs h'
               | (_, Err _) => None
               end
  end.

Lemma run_calls_reachable lab cs h h' :
  Forall clean_names cs → run_calls lab cs h = Some h' →
  rtc (@lab_step memFS Memory_FS lower None lab) h h'.
Proof.
  intros Hc. revert h. induction Hc as [|c cs Hc _ IH]; intros h; cbn [run_calls].
  - intros [= ->]. constructor.
  - destruct (@run_call memFS Memory_FS lower None lab c h) as [h1 [[]|e]] eqn:E; [|done].
    intros Hr. econstructor; [|by apply IH]. by econstructor.
Qed.

Definition demo_start : heap memFS :=
  (newLab Memory (fun _ => None) (Some "demo") "" DefaultDefaults empty_heap).1.

Definition demo_calls : list lab_call :=
  [CNewMachine "pc1" None; CConnect "pc1" "A" (mkIfaceOpts None "");
   CConnect "r1" "A" (mkIfaceOpts (Some 0) "00:00:00:00:00:01");
   CConnect "r1" "B" (mkIfaceOpts (Some 1) ""); CAssignMeta "r1" "mem" "64m";
   CRemoveInterface "r1" "B"; CConnect "pc1" "B" (mkIfaceOpts (Some 1) ""); CSetName "renamed"; CCheck].

Definition demo_heap : heap memFS := default demo_start (run_calls 1%positive demo_calls demo_start).

Lemma demo_runs : run_calls 1%positive demo_calls demo_start = Some demo_heap.
Proof. vm_compute. reflexivity. Qed.

Lemma demo_clean : Forall clean_names demo_calls.
Proof. repeat constructor. Qed.



Lemma run_calls_inv cs h : Forall clean_names cs → run_calls 1%positive cs demo_start = Some h →
  ∃ b, lab_inv h 1%positive b.
Proof.
  intros Hc Hrun. pose proof (run_calls_reachable _ _ _ _ Hc Hrun) as Hr.
  assert (∃ b, lab_inv demo_start 1%positive b) as [b0 Hi].
  { apply (newLab_inv Memory (fun _ => None) (Some "demo") "" DefaultDefaults). by vm_compute. }
  clear Hrun. revert b0 Hi. induction Hr as [h|h h1 h2 Hs _ IH]; intros b0 Hi; [eauto|].
  inversion_clear Hs as [c ? ? r Hc' Hrun Hnone].
  destruct (run_call_safe _ _ _ c h b0 h1 r Hi Hc' Hrun Hnone) as [[b1 Hi1] _]. eauto.
Qed.

Lemma demo_inv : ∃ b, lab_inv demo_heap 1%positive b.
Proof. exact (run_calls_inv _ _ demo_clean demo_runs). Qed.

Definition demo_lab : option (Lab memFS) := hLabs demo_heap !! 1%positive.

Lemma RemoveMachine_complete_witness :
  ∃ h' b, RemoveMachine Memory_FS 1%positive "pc1" false demo_heap = (h', Ok tt) ∧
          lab_inv h' 1%positive b ∧ Get b.(labMachines) "pc1" = None.
Proof.
  destruct demo_inv as [b Hi]. pose proof (li_lab _ _ _ Hi) as Hl.
  assert (Hpc : Get b.(labMachines) "pc1" = Some 2%positive).
  { vm_compute in Hl. injection Hl as <-. vm_compute. reflexivity. }
  destruct (li_machine _ _ _ Hi _ _ Hpc) as (m & Hm & _).
  edestruct (RemoveMachine_complete Memory_FS demo_heap 1%positive b "pc1" 2%positive m)
    as (h' & b' & ? & ? & ? & _).
  - exact Hi.
  - exact Hpc.
  - exact Hm.
  - vm_compute in Hm. injection Hm as <-. unfold live. cbn [interfaces].
    intros i Hin. repeat (apply elem_of_cons in Hin as [->|Hin]; [reflexivity|]).
    exact (match proj1 (elem_of_nil _) Hin with end).
  - exists h', b'. split; [assumption|]. split; assumption.
Defined.

Definition demo_graph : DepGraph := graph_of [("pc1", ["r1"])].

Lemma boot_order_respects_dependencies_witness :
  ∃ h' (b' : Lab memFS), ApplyDependencies 1%positive (Flatten demo_graph) demo_heap = (h', Ok tt) ∧
           before "r1" "pc1" (Keys b'.(labMachines)).
Proof.
  destruct demo_inv as [b Hi]. pose proof (li_lab _ _ _ Hi) as Hl.
  edestruct (boot_order_respects_dependencies demo_heap 1%positive b demo_graph)
    as (h' & b' & ? & ? & ? & ? & Hord).
  - exact Hi.
  - apply wf_graph_of.
  - vm_compute. reflexivity.
  - exists h', b'. split; [assumption|]. apply Hord.
    + vm_compute in Hl. injection Hl as <-. vm_compute. reflexivity.
    + vm_compute in Hl. injection Hl as <-. vm_compute. reflexivity.
    + left.
Defined.

(** The duplicate check of [NewMachine] looks at the name as given and the device carries the stripped
    one, so a name with white space around it gives a second device of the same name. *)
Theorem NewMachine_duplicate_name :
  ∃ h l1 l2 m1 m2,
    run_calls 1%positive [CNewMachine "pc1" None; CNewMachine " pc1" None] demo_start = Some h ∧
    l1 ≠ l2 ∧ hMachines h !! l1 = Some m1 ∧ hMachines h !! l2 = Some m2 ∧
    m1.(mName) = "pc1" ∧ m2.(mName) = "pc1".
Proof.
  eexists _, 2%positive, 3%positive, _, _. split; [vm_compute; reflexivity|].
  split; [done|]. split; [vm_compute; reflexivity|]. split; [vm_compute; reflexivity|]. done.
Qed.

(** Removing a device one of whose interfaces was removed before fails halfway: the
    device stays registered with its first interface live, and the collision domain
    of that interface no longer lists it. *)
Theorem RemoveMachine_halfway :
  ∃ h b m i kk,
    RemoveMachine Memory_FS 1%positive "r1" false demo_heap
      = (h, Err (Go (newNoneAttributeError "link"))) ∧
    hLabs h !! 1%positive = Some b ∧ Get b.(labMachines) "r1" = Some 4%positive ∧
    hMachines h !! 4%positive = Some m ∧ m.(interfaces) !! 0%nat = Some i ∧
    i.(iLink) = Some 3%positive ∧ hLinks h !! 3%positive = Some kk ∧
    Has kk.(lMachines) "r1" = false.
Proof.
  eexists _, _, _, _, _. split; [vm_compute; reflexivity|].
  repeat (split; [vm_compute; reflexivity|]). vm_compute. reflexivity.
Qed.
End demo.
