(* ===== verification/Decode.v ===== *)
(** * Reading configuration files (labfile/decode.go)

    The lines of a file and their UTF-8 decoding, with the position and the
    reason CPython reports for a line that is not UTF-8. *)

From S2P Require Export Errors.
Local Open Scope string_scope.
Local Open Scope list_scope.
Local Open Scope Z_scope.
Local Open Scope kat_scope.

Definition isContinuation (b : Z) : bool := Z.land b 0xC0 =? 0x80.

Definition invalidStart : string := "invalid start byte".
Definition invalidContinuation : string := "invalid continuation byte".
Definition unexpectedEnd : string := "unexpected end of data".

(** The scan of [utf8Failure] at offset [s] of [n] bytes, [l] being the bytes
    from there on; [None] is the end of the loop. *)
Fixpoint utf8Failure_from (l : list Z) (s n : Z) : option (Z * Z * string) :=
  match l with
  | [] => None
  | c :: l1 =>
      if c <? 0x80 then utf8Failure_from l1 (s + 1) n
      else if c <? 0xE0 then
        if c <? 0xC2 then Some (s, s + 1, invalidStart)
        else match l1 with
             | [] => Some (s, n, unexpectedEnd)
             | c2 :: l2 => if negb (isContinuation c2) then Some (s, s + 1, invalidContinuation)
                           else utf8Failure_from l2 (s + 2) n
             end
      else if c <? 0xF0 then
        match l1 with
        | [] => Some (s, n, unexpectedEnd)
        | [c2] => if negb (isContinuation c2) || (if c2 <? 0xA0 then c =? 0xE0 else c =? 0xED)
                  then Some (s, s + 1, invalidContinuation) else Some (s, n, unexpectedEnd)
        | c2 :: c3 :: l3 =>
            if negb (isContinuation c2) || ((c =? 0xE0) && (c2 <? 0xA0)) || ((c =? 0xED) && (0xA0 <=? c2))
            then Some (s, s + 1, invalidContinuation)
            else if negb (isContinuation c3) then Some (s, s + 2, invalidContinuation)
            else utf8Failure_from l3 (s + 3) n
        end
      else if c <? 0xF5 then
        match l1 with
        | [] => Some (s, n, unexpectedEnd)
        | c2 :: l2 =>
            let bad := negb (isContinuation c2) || (if c2 <? 0x90 then c =? 0xF0 else c =? 0xF4) in
            match l2 with
            | [] => if bad then Some (s, s + 1, invalidContinuation) else Some (s, n, unexpectedEnd)
            | [c3] => if bad then Some (s, s + 1, invalidContinuation)
                      else if negb (isContinuation c3) then Some (s, s + 2, invalidContinuation)
                      else Some (s, n, unexpectedEnd)
            | c3 :: c4 :: l4 =>
                if negb (isContinuation c2) || ((c =? 0xF0) && (c2 <? 0x90)) || ((c =? 0xF4) && (0x90 <=? c2))
                then Some (s, s + 1, invalidContinuation)
                else if negb (isContinuation c3) then Some (s, s + 2, invalidContinuation)
                else if negb (isContinuation c4) then Some (s, s + 3, invalidContinuation)
                else utf8Failure_from l4 (s + 4) n
            end
        end
      else Some (s, s + 1, invalidStart)
  end.

Definition utf8Failure (b : string) : Z * Z * string :=
  let bytes := zb <$> string_bytes b in
  let n := Z.of_nat (length bytes) in
  default (0, n, unexpectedEnd) (utf8Failure_from bytes 0 n).

Definition decodeUTF8 (b : string) : result goerror string :=
  if utf8_valid b then Ok b
  else let '(start, stop, reason) := utf8Failure b in Err (EUnicodeDecode b start stop reason).

(** [readLines]: [acc] holds the current line, reversed. *)
Fixpoint readLines_go (s : string) (acc : list ascii) : list string :=
  match s with
  | EmptyString => if bool_decide (acc = []) then [] else [bytes_string (reverse acc)]
  | String a s => if Ascii.eqb a (az 10) then bytes_string (reverse (a :: acc)) :: readLines_go s []
                  else readLines_go s (a :: acc)
  end.
Definition readLines (data : string) : list string := readLines_go data [].

Definition hibytes (l : list Z) : string := bytes_string (az <$> l).

Example decode_surrogate :
  decodeUTF8 (hibytes [97; 0xED; 0xA0; 0x80]) = Err (EUnicodeDecode (hibytes [97; 0xED; 0xA0; 0x80]) 1 2 invalidContinuation).
Proof. vm_compute. reflexivity. Qed.
Example decode_truncated :
  decodeUTF8 (hibytes [0xF0; 0x9F; 0x98]) = Err (EUnicodeDecode (hibytes [0xF0; 0x9F; 0x98]) 0 3 unexpectedEnd).
Proof. vm_compute. reflexivity. Qed.
Example lines_ex : readLines (hibytes [97; 10; 10; 98]) = [hibytes [97; 10]; hibytes [10]; "b"].
Proof. vm_compute. reflexivity. Qed.

(** ** The two scans agree *)

Lemma isContinuation_is_cont a : isContinuation (zb a) = is_cont (zb a).
Proof. destruct a as [[][][][][][][][]]; reflexivity. Qed.

Lemma bad_wide r a b s : bad_chunk (r, String a (String b s)) = false.
Proof. unfold bad_chunk. cbn [fst snd String.length Nat.eqb]. apply andb_false_r. Qed.

Lemma bad_ascii a : zb a < 0x80 → bad_chunk (zb a, str1 a) = false.
Proof.
  intros Ha. unfold bad_chunk. cbn [fst snd]. apply andb_false_iff. left. apply Z.eqb_neq.
  unfold RuneError. lia.
Qed.

Lemma bad_error a : bad_chunk (RuneError, str1 a) = true.
Proof. done. Qed.

(** A fact about two bytes, checked on all of them. *)
Definition bytes256 : list Z := Z.of_nat <$> seq 0 256.

Lemma byte_elem a : zb a ∈ bytes256.
Proof.
  unfold bytes256. apply list_elem_of_fmap. pose proof (zb_range a). exists (Z.to_nat (zb a)).
  split; [lia|]. apply elem_of_seq. lia.
Qed.

Lemma check_bytes2 (p : Z → Z → bool) :
  forallb (fun c => forallb (p c) bytes256) bytes256 = true → ∀ a b, p (zb a) (zb b) = true.
Proof.
  intros Hall a b. rewrite forallb_forall in Hall.
  specialize (Hall (zb a) (proj1 (list_elem_of_In _ _) (byte_elem a))).
  rewrite forallb_forall in Hall. apply Hall, list_elem_of_In, byte_elem.
Qed.

Definition second_two (c b : Z) : bool := negb (c <? 0xC2) && is_cont b.
Definition second_three (c b : Z) : bool :=
  negb (negb (is_cont b) || ((c =? 0xE0) && (b <? 0xA0)) || ((c =? 0xED) && (0xA0 <=? b))).
Definition second_four (c b : Z) : bool :=
  negb (negb (is_cont b) || ((c =? 0xF0) && (b <? 0x90)) || ((c =? 0xF4) && (0x90 <=? b))).

(** The constraint on the second byte, as [utf8Failure] writes it. *)
Lemma second_ok_cases a b :
  0x80 <= zb a →
  second_ok (zb a) (zb b) =
  if zb a <? 0xE0 then second_two (zb a) (zb b)
  else if zb a <? 0xF0 then second_three (zb a) (zb b)
  else if zb a <? 0xF5 then second_four (zb a) (zb b) else false.
Proof.
  intros Ha. apply eqb_prop.
  pose proof (check_bytes2 (fun c b => (c <? 0x80) || eqb (second_ok c b)
    (if c <? 0xE0 then second_two c b else if c <? 0xF0 then second_three c b
     else if c <? 0xF5 then second_four c b else false)) ltac:(vm_compute; reflexivity) a b) as Hc.
  cbv beta in Hc. rewrite (proj2 (Z.ltb_ge _ _)) in Hc by lia. done.
Qed.

Notation zbytes s := (zb <$> string_bytes s).

Lemma utf8_valid_cons c l s : decode s = c :: l → utf8_valid s = negb (bad_chunk c) && forallb (fun c => negb (bad_chunk c)) l.
Proof. intros E. unfold utf8_valid. by rewrite E. Qed.

(** The scan reaches the end exactly on valid input. *)
Lemma utf8Failure_from_valid k : ∀ s off n,
  (String.length s ≤ k)%nat →
  utf8Failure_from (zbytes s) off n = None ↔ utf8_valid s = true.
Proof.
  induction k as [|k IH]; intros s off n Hk.
  { destruct s; [done|simpl in Hk; lia]. }
  destruct s as [|a s1]; [done|]. cbn [string_bytes fmap list_fmap utf8Failure_from String.length] in *.
  destruct (zb a <? 0x80) eqn:E0.
  { rewrite (utf8_valid_cons (zb a, str1 a) (decode s1)) by (apply decode_ascii; bool_prop; lia).
    rewrite bad_ascii by (bool_prop; lia). apply IH. lia. }
  assert (Ha : 0x80 <= zb a) by (bool_prop; lia).
  assert (Hbad : ∀ l, decode (String a s1) = (RuneError, str1 a) :: l → utf8_valid (String a s1) = true ↔ False).
  { intros l E. by rewrite (utf8_valid_cons _ _ _ E). }
  assert (Hnext : ∀ w t, decode (String a s1) = w :: decode t → bad_chunk w = false →
            utf8_valid (String a s1) = utf8_valid t).
  { intros w t E Hw. by rewrite (utf8_valid_cons _ _ _ E), Hw. }
  cbn [decode] in Hbad, Hnext. rewrite E0 in Hbad, Hnext.
  destruct s1 as [|b s2].
  { rewrite (Hbad _ eq_refl). cbn. by repeat case_match. }
  cbn [string_bytes fmap list_fmap String.length] in *. rewrite !isContinuation_is_cont.
  rewrite (second_ok_cases a b Ha) in Hbad, Hnext.
  destruct (zb a <? 0xE0) eqn:E1.
  { unfold second_two in Hbad, Hnext. destruct (zb a <? 0xC2); [by rewrite (Hbad _ eq_refl)|].
    destruct (is_cont (zb b)); [|by rewrite (Hbad _ eq_refl)]. cbn [negb andb] in *.
    rewrite (Hnext _ s2 eq_refl) by apply bad_wide. apply IH. lia. }
  destruct (zb a <? 0xF0) eqn:E2.
  { unfold second_three in Hbad, Hnext. destruct s2 as [|c s3].
    { cbn [string_bytes fmap list_fmap]. rewrite (Hbad (decode (String b "")));
        [by repeat case_match|]. by destruct (negb (negb _)). }
    cbn [string_bytes fmap list_fmap String.length] in *. rewrite isContinuation_is_cont.
    destruct (negb (is_cont (zb b)) || _ || _); [by rewrite (Hbad _ eq_refl)|].
    cbn [negb] in *. destruct (is_cont (zb c)); [|by rewrite (Hbad _ eq_refl)]. cbn [negb] in *.
    rewrite (Hnext _ s3 eq_refl) by apply bad_wide. apply IH. lia. }
  destruct (zb a <? 0xF5) eqn:E3; [|by rewrite (Hbad _ eq_refl)].
  unfold second_four in Hbad, Hnext. destruct s2 as [|c s3].
  { cbn [string_bytes fmap list_fmap]. rewrite (Hbad (decode (String b "")));
      [by repeat case_match|]. by destruct (negb (negb _)). }
  cbn [string_bytes fmap list_fmap String.length] in *. destruct s3 as [|d s4].
  { cbn [string_bytes fmap list_fmap].
    rewrite (Hbad (decode (String b (String c "")))); [by repeat case_match|].
    destruct (negb (negb _)); [done|]. destruct (negb (is_cont (zb c))); [done|]. by rewrite ?E1, ?E2. }
  cbn [string_bytes fmap list_fmap String.length] in *. rewrite !isContinuation_is_cont.
  destruct (negb (is_cont (zb b)) || _ || _); [by rewrite (Hbad _ eq_refl)|].
  cbn [negb] in *. destruct (is_cont (zb c)); [|by rewrite (Hbad _ eq_refl)]. cbn [negb] in *.
  destruct (is_cont (zb d)); [|by rewrite (Hbad _ eq_refl)]. cbn [negb] in *.
  rewrite (Hnext _ s4 eq_refl) by apply bad_wide. apply IH. lia.
Qed.

(** A failure is inside the input, and what precedes it is accepted by the scan. *)
Definition failure_span (l : list Z) (s n start stop : Z) : Prop :=
  s <= start < stop ∧ stop <= n ∧
  ∀ n', utf8Failure_from (take (Z.to_nat (start - s)) l) s n' = None.

Lemma span_here l s n e r start stop (reason : string) :
  Some (s, e, r) = Some (start, stop, reason) → s < e <= n → failure_span l s n start stop.
Proof. intros [= <- <- <-] ?. unfold failure_span. rewrite Z.sub_diag. split_and!; [lia|lia|lia|done]. Qed.

(** Skipping [w] bytes the scan accepts. *)
Lemma span_skip (w : nat) l s n start stop :
  (1 ≤ w ≤ length l)%nat →
  (∀ t n', utf8Failure_from (take w l ++ t) s n' = utf8Failure_from t (s + Z.of_nat w) n') →
  failure_span (drop w l) (s + Z.of_nat w) n start stop → failure_span l s n start stop.
Proof.
  intros Hw Hstep (? & ? & Hpre). split_and!; [lia|lia|lia|]. intros n'.
  replace (Z.to_nat (start - s)) with (w + Z.to_nat (start - (s + Z.of_nat w)))%nat by lia.
  rewrite <- (take_drop w l) at 1. rewrite take_app_add' by (rewrite length_take; lia).
  by rewrite Hstep.
Qed.

Lemma utf8Failure_from_span k : ∀ l s n start stop reason, (length l ≤ k)%nat →
  utf8Failure_from l s n = Some (start, stop, reason) → n = s + Z.of_nat (length l) →
  failure_span l s n start stop.
Proof.
  induction k as [|k IH]; intros l s n start stop reason Hk Hf Hn.
  { destruct l; [done|simpl in Hk; lia]. }
  destruct l as [|c l1]; [done|]. cbn [length] in *.
  assert (Hhere : ∀ e r, Some (s, e, r) = Some (start, stop, reason) → s < e <= n →
    failure_span (c :: l1) s n start stop) by (intros; by eapply span_here).
  assert (Hskip : ∀ (w : nat) l', (1 ≤ w)%nat → l' = drop w (c :: l1) → (w ≤ length (c :: l1))%nat →
    utf8Failure_from l' (s + Z.of_nat w) n = Some (start, stop, reason) →
    (∀ t n', utf8Failure_from (take w (c :: l1) ++ t) s n' = utf8Failure_from t (s + Z.of_nat w) n') →
    failure_span (c :: l1) s n start stop).
  { intros w l' Hw -> Hle Hrec Hstep. apply (span_skip w); [lia|done|].
    eapply IH; [|exact Hrec|]; rewrite length_drop; cbn [length] in *; lia. }
  cbn [utf8Failure_from] in Hf.
  destruct (c <? 0x80) eqn:E0.
  { apply (Hskip 1%nat l1); try done; [cbn; lia|]. intros t n'. cbn. by rewrite E0. }
  destruct (c <? 0xE0) eqn:E1.
  { destruct (c <? 0xC2) eqn:Ec; [apply (Hhere _ _ Hf); lia|].
    destruct l1 as [|c2 l2]; [apply (Hhere _ _ Hf); cbn [length] in *; lia|].
    destruct (isContinuation c2) eqn:Ec2; [|apply (Hhere _ _ Hf); cbn [length] in *; lia].
    apply (Hskip 2%nat l2); try done; [lia|cbn; lia|]. intros t n'. cbn. by rewrite E0, E1, Ec, Ec2. }
  destruct (c <? 0xF0) eqn:E2.
  { destruct l1 as [|c2 [|c3 l3]]; cbn [length] in *.
    - apply (Hhere _ _ Hf). lia.
    - destruct (_ || _); apply (Hhere _ _ Hf); lia.
    - destruct (_ || _ || _) eqn:Ec2; [apply (Hhere _ _ Hf); lia|].
      destruct (isContinuation c3) eqn:Ec3; [|apply (Hhere _ _ Hf); lia].
      apply (Hskip 3%nat l3); try done; [lia|cbn; lia|]. intros t n'. cbn [take app utf8Failure_from].
      by rewrite E0, E1, E2, Ec2, Ec3. }
  destruct (c <? 0xF5) eqn:E3; [|apply (Hhere _ _ Hf); lia].
  destruct l1 as [|c2 [|c3 [|c4 l4]]]; cbn [length] in *.
  - apply (Hhere _ _ Hf). lia.
  - destruct (_ || _); apply (Hhere _ _ Hf); lia.
  - destruct (_ || _); [apply (Hhere _ _ Hf); lia|].
    destruct (negb _); apply (Hhere _ _ Hf); lia.
  - destruct (_ || _ || _) eqn:Ec2; [apply (Hhere _ _ Hf); lia|].
    destruct (isContinuation c3) eqn:Ec3; [|apply (Hhere _ _ Hf); lia].
    destruct (isContinuation c4) eqn:Ec4; [|apply (Hhere _ _ Hf); lia].
    apply (Hskip 4%nat l4); try done; [lia|cbn; lia|]. intros t n'. cbn [take app utf8Failure_from].
    by rewrite E0, E1, E2, E3, Ec2, Ec3, Ec4.
Qed.

Lemma zbytes_length s : length (zbytes s) = String.length s.
Proof. induction s as [|a s IH]; [done|]. cbn. by rewrite IH. Qed.

(** Decoding a line succeeds exactly on valid UTF-8, returning it unchanged;
    otherwise the error spans a non-empty range of the line, everything before that
    range is valid UTF-8, and the unreachable end of the scan is indeed never reached. *)
Theorem decodeUTF8_exact b :
  if utf8_valid b then decodeUTF8 b = Ok b
  else ∃ start stop reason,
    decodeUTF8 b = Err (EUnicodeDecode b start stop reason) ∧
    utf8Failure_from (zbytes b) 0 (Z.of_nat (String.length b)) = Some (start, stop, reason) ∧
    0 <= start < stop ∧ stop <= Z.of_nat (String.length b) ∧
    utf8_valid (bytes_string (take (Z.to_nat start) (string_bytes b))) = true.
Proof.
  unfold decodeUTF8, utf8Failure. rewrite zbytes_length.
  destruct (utf8_valid b) eqn:Hv; [done|].
  destruct (utf8Failure_from (zbytes b) 0 _) as [[[start stop] reason]|] eqn:E.
  - exists start, stop, reason. pose proof (utf8Failure_from_span _ _ _ _ _ _ _ (le_n _) E) as Hs.
    unfold failure_span in Hs. rewrite zbytes_length in Hs. destruct (Hs ltac:(lia)) as (? & ? & Hpre). split_and!; try done; try lia.
    rewrite Z.sub_0_r in Hpre. specialize (Hpre 0).
    eapply (utf8Failure_from_valid _ _ 0 0); [reflexivity|].
    by rewrite string_bytes_string, fmap_take.
  - apply (utf8Failure_from_valid _ _ _ _ ltac:(reflexivity)) in E. congruence.
Qed.

(** ** Lines *)

Definition is_line (s : string) : bool :=
  match reverse (string_bytes s) with
  | [] => false
  | a :: rest => forallb (fun c => negb (Ascii.eqb c (az 10))) rest
  end.

Lemma bytes_string_app l1 l2 : bytes_string (l1 ++ l2) = bytes_string l1 +:+ bytes_string l2.
Proof. induction l1 as [|a l1 IH]; [done|]. cbn. by rewrite IH. Qed.

Lemma readLines_go_spec s : ∀ acc,
  forallb (fun c => negb (Ascii.eqb c (az 10))) acc = true →
  string_concat (readLines_go s acc) = bytes_string (reverse acc) +:+ s ∧
  Forall (fun l => is_line l = true) (readLines_go s acc) ∧
  Forall (fun l => HasSuffix l (str1 (az 10)) = true) (removelast (readLines_go s acc)).
Proof.
  induction s as [|a s IH]; intros acc Hacc; cbn [readLines_go].
  { destruct (bool_decide (acc = [])) eqn:E; bool_prop; subst; [split_and!; constructor|].
    cbn. rewrite !string_app_nil_r. split_and!; [done| |constructor].
    constructor; [|constructor]. unfold is_line. rewrite string_bytes_string, reverse_involutive.
    destruct acc as [|a acc]; [done|]. cbn in Hacc. by apply andb_true_iff in Hacc as [_ ?]. }
  destruct (Ascii.eqb_spec a (az 10)) as [->|Hne].
  - destruct (IH [] eq_refl) as (Hc & Hl & Hs).
    assert (Hline : is_line (bytes_string (reverse (az 10 :: acc))) = true).
    { unfold is_line. rewrite string_bytes_string, reverse_involutive. done. }
    split_and!.
    + cbn [string_concat]. rewrite Hc, reverse_cons, bytes_string_app, string_app_assoc. done.
    + by constructor.
    + destruct (readLines_go s []) as [|x xs]; [constructor|]. cbn [removelast].
      constructor; [|done]. unfold HasSuffix, string_rev.
      rewrite string_bytes_string, reverse_involutive. cbv. by destruct ((fix F l := match l with [] => EmptyString | a :: l => String a (F l) end) acc).
  - destruct (IH (a :: acc)) as (Hc & Hl & Hs).
    { cbn [forallb]. by rewrite Hacc, (proj2 (Ascii.eqb_neq _ _) Hne). }
    split_and!; [|done|done]. rewrite Hc, reverse_cons, bytes_string_app, string_app_assoc. done.
Qed.

(** Splitting a file into lines loses nothing: the lines concatenate to the
    file, none is empty, a newline occurs only at the end of a line, and every line but
    the last ends with one. *)
Theorem readLines_lossless data :
  string_concat (readLines data) = data ∧
  Forall (fun l => is_line l = true) (readLines data) ∧
  Forall (fun l => HasSuffix l (str1 (az 10)) = true) (removelast (readLines data)).
Proof. apply (readLines_go_spec data []). done. Qed.
