(* ===== verification/LabConf.v ===== *)
(** * lab.conf (labfile/deviceline.go, labconf.go)

    The matcher of the device line, which is hand-written because the pattern
    has a backreference; what a device line and a metadata line do to the
    scenario; and [ParseLab], which reads the file line by line.  The file
    system calls are parameters. *)

From S2P Require Export Decode LabInv.
Local Open Scope string_scope.
Local Open Scope list_scope.
Local Open Scope Z_scope.
Local Open Scope kat_scope.

(** ** The device line *)

Record deviceLine : Type := mkDeviceLine { dl_key : string; dl_arg : string; dl_value : string }.

Definition isQuote (r : Z) : bool := (r =? 34) || (r =? 39).

Definition stripQuotes (s : string) : string :=
  delete_bytes (fun a => Ascii.eqb a (az 34) || Ascii.eqb a (az 39)) s.

Definition run (p : Z → bool) (r : list Z) : nat := length (take_while p r).

Fixpoint index_of (c : Z) (r : list Z) : option nat :=
  match r with
  | [] => None
  | x :: r => if x =? c then Some O else S <$> index_of c r
  end.

(** The comment group of the pattern and its end anchor, against the remainder of the line. *)
Definition matchCommentTail (rest : list Z) : bool :=
  let spaces := run pySpace rest in
  let commented :=
    match rest !! spaces with
    | Some c =>
        if (0 <? spaces)%nat && (c =? 35) then
          let body := drop (S spaces) rest in
          match index_of 10 body with
          | None => true
          | Some newline => (newline =? length body - 1)%nat
          end
        else false
    | None => false
    end in
  if commented then true else bool_decide (rest = []).

(** The loop over [end], [len] being the length of the value tried: longest
    first, and at least one. *)
Fixpoint try_lengths (quote : option Z) (body : list Z) (len : nat) : option (list Z) :=
  match len with
  | O => None
  | S len' =>
      let rest := drop len body in
      let tail := match quote with
                  | None => Some rest
                  | Some q => match rest with
                              | c :: rest' => if c =? q then Some rest' else None
                              | [] => None
                              end
                  end in
      match tail with
      | Some t => if matchCommentTail t then Some (take len body) else try_lengths quote body len'
      | None => try_lengths quote body len'
      end
  end.

Definition try_quote (p : list Z) (quote : option Z) : option (list Z) :=
  let body := match quote with Some _ => drop 1 p | None => p end in
  try_lengths quote body (run (fun c => negb (isQuote c)) body).

Fixpoint try_quotes (p : list Z) (quotes : list (option Z)) : option (list Z) :=
  match quotes with
  | [] => None
  | q :: quotes => match try_quote p q with Some v => Some v | None => try_quotes p quotes end
  end.

Definition quotes_of (p : list Z) : list (option Z) :=
  match p with
  | c :: _ => if isQuote c then [Some c; None] else [None]
  | [] => [None]
  end.

Definition matchDeviceLine (s : string) : option deviceLine :=
  let r := runes s in
  let i := run isDeviceNameRune r in
  if (i =? 0)%nat || (30 <? i)%nat || negb (bool_decide (r !! i = Some 91)) then None else
  let r1 := drop (S i) r in
  let j := run isWordRune r1 in
  if (j =? 0)%nat || negb (bool_decide (r1 !! j = Some 93)) then None else
  let r2 := drop (S j) r1 in
  if negb (bool_decide (r2 !! 0%nat = Some 61)) then None else
  let p := drop 1 r2 in
  match try_quotes p (quotes_of p) with
  | None => None
  | Some value => Some (mkDeviceLine (string_of_runes (take i r)) (string_of_runes (take j r1))
                          (string_of_runes value))
  end.

Example dl_comment : matchDeviceLine "pc1[0]=A # x" = Some (mkDeviceLine "pc1" "0" "A # x").
Proof. vm_compute. reflexivity. Qed.
Example dl_quoted : matchDeviceLine "pc1[image]='a b'  #c" = Some (mkDeviceLine "pc1" "image" "a b").
Proof. vm_compute. reflexivity. Qed.
Example dl_unbalanced : matchDeviceLine "pc1[0]='A" = None.
Proof. vm_compute. reflexivity. Qed.
Example dl_mixed : matchDeviceLine (string_of_runes ([112; 99; 49; 91; 48; 93; 61; 39; 65; 34])) = None.
Proof. vm_compute. reflexivity. Qed.
Example dl_spaces : matchDeviceLine "pc1[exec]=ls  -l" = Some (mkDeviceLine "pc1" "exec" "ls  -l").
Proof. vm_compute. reflexivity. Qed.

(** ** What a line does *)

Definition newLabSyntax (confName : string) (line : Z) (inner : string) : goerror :=
  EParse confName line ("In " +:+ confName +:+ " - Line " +:+ Itoa line +:+ ": " +:+ inner) CodeSyntax.

Definition newLabReservedName (confName : string) (line : Z) (key : string) : goerror :=
  EParse confName line ("In " +:+ confName +:+ " - Line " +:+ Itoa line +:+ ": `" +:+ key +:+
    "` is a reserved name, you can not use it for a device.") CodeValue.

Definition errTooManyValues : goerror := NewValue "too many values to unpack (expected 2)".

(** [interfaceNumber]: the interface-versus-meta dispatch. *)
Definition interfaceNumber (arg : string) : result goerror Z :=
  match PyInt arg with
  | Ok number => Ok number
  | Err e => if is_plain_error ErrPyIntRange e then
               Ok (if contains_byte (az 45) arg then MinInt64 else MaxInt64)
             else Err e
  end.

Definition isCollisionDomainName (name : string) : bool :=
  let name := TrimSuffix name (str1 LF) in
  negb (String.eqb name "") && forallb isWordRune (runes name).

Definition labMetadata : list string :=
  ["LAB_NAME"; "LAB_DESCRIPTION"; "LAB_VERSION"; "LAB_AUTHOR"; "LAB_EMAIL"; "LAB_WEB"].
Definition labMetadataPrefixes : list string := (fun n => n +:+ "=") <$> labMetadata.

(** [strings.ReplaceAll(s, pat, "")]. *)
Fixpoint remove_all (fuel : nat) (pat s : string) : string :=
  match fuel with
  | O => s
  | S fuel =>
      match s with
      | EmptyString => EmptyString
      | String a s' => if HasPrefix s pat then remove_all fuel pat (string_drop (String.length pat) s)
                       else String a (remove_all fuel pat s')
      end
  end.
Definition ReplaceAll_empty (s pat : string) : string := remove_all (String.length s) pat s.

Section labconf.
Context {F : Type} (fsys : FileSystem F) `{TextCases} (cwd : option string).
(** [vfs.Memory()], [vfs.OSDir] of an existing directory, and the two calls
    to package os: the size [os.Stat] reports and the bytes [os.ReadFile] reads. *)
Context (memory : F) (OSDir : string → option F).
Context (os_Stat : string → option Z) (os_ReadFile : string → result goerror string).

Local Notation MM := (@Lab.MM F).

Definition applyDeviceLine (lab : loc) (confName : string) (lineNumber : Z) (d : deviceLine) : MM unit :=
  let key := pyStrip d.(dl_key) in
  let arg := pyStrip d.(dl_arg) in
  let value := stripQuotes d.(dl_value) in
  if IsReservedMachineName key then throw (newLabReservedName confName lineNumber key)
  else match interfaceNumber arg with
  | Err _ => do* _ <- AssignMetaToMachine fsys cwd lab key arg value in sret tt
  | Ok number =>
      match ParseCDMACAddress value with
      | Err e => throw (newLabSyntax confName lineNumber (Error e))
      | Ok (cdName, mac) =>
          if negb (isCollisionDomainName cdName) then
            throw (newLabSyntax confName lineNumber
              ("Collision domain `" +:+ value +:+ "` contains non-alphanumeric characters."))
          else
            do* _ <- ConnectMachineToLink fsys cwd lab key cdName (mkIfaceOpts (Some number) mac) in
            sret tt
      end
  end.

(** The setters behind [LAB_DESCRIPTION] and its siblings; the name has its own. *)
Definition set_info (name value : string) (b : Lab F) : Lab F :=
  let pick (n old : string) := if String.eqb name n then value else old in
  mkLab (pick "description" b.(Description)) (pick "version" b.(Version)) (pick "author" b.(Author))
    (pick "email" b.(Email)) (pick "web" b.(Web)) b.(LabHash) b.(SharedPath) b.(HasDependencies)
    b.(labFS) b.(labDefaults) b.(labName) b.(labMachines) b.(labLinks) b.(generalOptions)
    b.(globalMachineMetadata).

Definition applyLabMetadata (lab : loc) (confName : string) (lineNumber : Z) (line : string) : MM unit :=
  if negb (existsb (HasPrefix line) labMetadataPrefixes) then
    throw (newLabSyntax confName lineNumber ("`" +:+ line +:+ "`."))
  else match split_byte (az 61) line with
  | [lhs; rhs] =>
      let name := ToLower (ReplaceAll_empty lhs "LAB_") in
      let value := pyStrip (stripQuotes rhs) in
      if String.eqb name "name" then SetName lab value
      else do* b <- getLab lab in putLab lab (set_info name value b)
  | _ => throw errTooManyValues
  end.

Definition parse_line (lab : loc) (confName : string) (lineNumber : Z) (raw : string) : MM unit :=
  do* line <- go (decodeUTF8 raw) in
  let stripped := pyStrip line in
  match matchDeviceLine stripped with
  | Some device => applyDeviceLine lab confName lineNumber device
  | None =>
      if HasPrefix line "#" || String.eqb stripped "" then sret tt
      else applyLabMetadata lab confName lineNumber line
  end.

(** Line numbers start from one. *)
Fixpoint parse_lines (lab : loc) (confName : string) (lineNumber : Z) (lines : list string) : MM unit :=
  match lines with
  | [] => sret tt
  | raw :: lines => do* _ <- parse_line lab confName lineNumber raw in
                    parse_lines lab confName (lineNumber + 1) lines
  end.

Definition joinPath (dir name : string) : string :=
  if is_rooted name then name else GoPath.Join [dir; name].

Definition ParseLab (path confName : string) (defaults : Defaults) : MM loc :=
  let confPath := joinPath path confName in
  match os_Stat confPath with
  | None => throw (NewOSNoConfInDirectory confName)
  | Some size =>
      if size =? 0 then throw (NewOSConfEmpty confName)
      else match os_ReadFile confPath with
      | Err e => throw (NewOSCannotOpenConf confName e)
      | Ok data =>
          do* lab <- newLab memory OSDir None path defaults in
          do* _ <- parse_lines lab confName 1 (readLines data) in
          do* _ <- CheckIntegrity lab in
          sret lab
      end
  end.
End labconf.

(** ** The matcher is the pattern *)

Lemma run_app p l c rest :
  forallb p l = true → p c = false → run p (l ++ c :: rest) = length l.
Proof.
  intros Hl Hc. unfold run. induction l as [|x l IH]; cbn; [by rewrite Hc|].
  cbn in Hl. apply andb_true_iff in Hl as [Hx Hl]. rewrite Hx. cbn. f_equal. auto.
Qed.

Lemma run_all p l : forallb p l = true → run p l = length l.
Proof.
  intros Hl. unfold run. induction l as [|x l IH]; cbn; [done|].
  cbn in Hl. apply andb_true_iff in Hl as [Hx Hl]. rewrite Hx. cbn. f_equal. auto.
Qed.

Lemma take_run p r : take (run p r) r = take_while p r.
Proof.
  unfold run. rewrite <- (take_drop_while p r) at 2. by rewrite take_app_length.
Qed.

Lemma run_forallb p r : forallb p (take (run p r) r) = true.
Proof. rewrite take_run. apply take_while_forallb. Qed.

Lemma forallb_take {A} (p : A → bool) n l : forallb p l = true → forallb p (take n l) = true.
Proof.
  intros Hl. rewrite <- (take_drop n l), forallb_app in Hl. by apply andb_true_iff in Hl as [? _].
Qed.

(** The optional comment, as the pattern writes it. *)
Definition comment_tail (t : list Z) : Prop :=
  t = [] ∨ ∃ sp body, t = sp ++ 35 :: body ∧ sp ≠ [] ∧ forallb pySpace sp = true ∧
    (10 ∉ body ∨ ∃ body', body = body' ++ [10] ∧ 10 ∉ body').

Lemma index_of_none c r : index_of c r = None ↔ c ∉ r.
Proof.
  induction r as [|x r IH]; cbn [index_of]; [split; [intros _; apply not_elem_of_nil|done]|].
  rewrite not_elem_of_cons. destruct (Z.eqb_spec x c) as [->|Hne]; [naive_solver|].
  destruct (index_of c r); simpl; naive_solver.
Qed.

Lemma index_of_some c r n : index_of c r = Some n → c ∉ take n r ∧ r !! n = Some c.
Proof.
  revert n. induction r as [|x r IH]; intros n; cbn [index_of]; [done|].
  destruct (Z.eqb_spec x c) as [->|Hne].
  - intros [= <-]. split; [apply not_elem_of_nil|done].
  - destruct (index_of c r) as [k|]; [|done]. intros [= <-]. destruct (IH k eq_refl) as [H1 H2].
    split; [|done]. cbn [take]. rewrite not_elem_of_cons. naive_solver.
Qed.

Lemma newline_end body :
  match index_of 10 body with None => true | Some n => (n =? length body - 1)%nat end = true ↔
  (10 ∉ body ∨ ∃ body', body = body' ++ [10] ∧ 10 ∉ body').
Proof.
  destruct (index_of 10 body) as [n|] eqn:E.
  - apply index_of_some in E as [Hn Hl]. rewrite Nat.eqb_eq. split.
    + intros ->. right. exists (take (length body - 1) body). split; [|done].
      pose proof (lookup_lt_Some _ _ _ Hl).
      rewrite <- (take_drop (length body - 1) body) at 1. f_equal.
      rewrite (drop_S _ _ _ Hl). rewrite drop_ge by lia. done.
    + intros [Hno|(body' & -> & Hno)]; [by apply list_elem_of_lookup_2 in Hl|].
      rewrite length_app. cbn. 
      destruct (decide (n < length body')%nat) as [Hlt|Hge].
      * rewrite lookup_app_l in Hl by done. by apply list_elem_of_lookup_2 in Hl.
      * pose proof (lookup_lt_Some _ _ _ Hl) as Hlt. rewrite length_app in Hlt. cbn in Hlt. lia.
  - apply index_of_none in E. split; [by left|done].
Qed.

Lemma matchCommentTail_spec t : matchCommentTail t = true ↔ comment_tail t.
Proof.
  unfold matchCommentTail, comment_tail. split.
  - set (n := run pySpace t). destruct (t !! n) as [c|] eqn:E.
    2: { intros Ht. left. by bool_prop. }
    destruct ((0 <? n)%nat && (c =? 35)) eqn:Ec.
    2: { intros Ht. left. by bool_prop. }
    apply andb_true_iff in Ec as [Hn%Nat.ltb_lt ->%Z.eqb_eq]. cbv zeta.
    destruct (match index_of 10 _ with None => true | Some _ => _ end) eqn:Eb.
    2: { intros Ht. left. by bool_prop. }
    intros _. right. exists (take n t), (drop (S n) t). split_and!.
    + rewrite <- (drop_S t 35 n E). by rewrite take_drop.
    + intros Hnil. apply (f_equal length) in Hnil. rewrite length_take in Hnil.
      pose proof (lookup_lt_Some _ _ _ E). cbn in Hnil. lia.
    + apply run_forallb.
    + by apply newline_end.
  - intros [->|(sp & body & -> & Hne & Hsp & Hbody)]; [done|].
    rewrite (run_app pySpace sp 35 body Hsp) by by vm_compute.
    rewrite list_lookup_middle by done.
    rewrite (proj2 (Nat.ltb_lt _ _)) by (destruct sp; [done|cbn; lia]). cbn [andb].
    change (35 =? 35) with true. cbv iota zeta.
    replace (drop (S (length sp)) (sp ++ 35 :: body)) with body.
    2: { rewrite cons_middle, app_assoc. replace (S (length sp)) with (length (sp ++ [35])).
         - by rewrite drop_app_length.
         - rewrite length_app. cbn. lia. }
    apply newline_end in Hbody. by rewrite Hbody.
Qed.

(** *** The value *)

(** What follows a value of length [n] when [quote] was opened. *)
Definition tail_after (quote : option Z) (body : list Z) (n : nat) : option (list Z) :=
  let rest := drop n body in
  match quote with
  | None => Some rest
  | Some q => match rest with
              | c :: rest' => if c =? q then Some rest' else None
              | [] => None
              end
  end.

Definition length_ok (quote : option Z) (body : list Z) (n : nat) : Prop :=
  ∃ t, tail_after quote body n = Some t ∧ comment_tail t.

Lemma try_lengths_spec quote body len :
  match try_lengths quote body len with
  | Some v => ∃ n, (1 ≤ n ≤ len)%nat ∧ v = take n body ∧ length_ok quote body n
  | None => ∀ n, (1 ≤ n ≤ len)%nat → ¬ length_ok quote body n
  end.
Proof.
  induction len as [|len IH]; cbn [try_lengths]; [intros n Hn; lia|].
  fold (tail_after quote body (S len)).
  assert (Hrec : ¬ length_ok quote body (S len) →
    match try_lengths quote body len with
    | Some v => ∃ n, (1 ≤ n ≤ S len)%nat ∧ v = take n body ∧ length_ok quote body n
    | None => ∀ n, (1 ≤ n ≤ S len)%nat → ¬ length_ok quote body n
    end).
  { intros Hno. destruct (try_lengths quote body len) as [v|].
    - destruct IH as (n & ? & ? & ?). exists n. split; [lia|done].
    - intros n Hn. destruct (decide (n = S len)) as [->|]; [done|]. apply IH. lia. }
  destruct (tail_after quote body (S len)) as [t|] eqn:Et.
  - destruct (matchCommentTail t) eqn:Em.
    + exists (S len). split; [lia|]. split; [done|]. exists t. split; [done|].
      by apply matchCommentTail_spec.
    + apply Hrec. intros (t' & Ht' & Hc). rewrite Et in Ht'. simplify_eq.
      apply matchCommentTail_spec in Hc. congruence.
  - apply Hrec. intros (t' & Ht' & _). congruence.
Qed.

(** A line of the pattern: the key, the argument, the value with its optional
    quotes, and the comment. *)
Definition quote_list (quote : option Z) : list Z := match quote with Some q => [q] | None => [] end.

Definition value_spec (p value : list Z) : Prop :=
  ∃ quote tail, p = quote_list quote ++ value ++ quote_list quote ++ tail ∧
    match quote with Some q => isQuote q = true | None => True end ∧
    value ≠ [] ∧ forallb (fun c => negb (isQuote c)) value = true ∧ comment_tail tail.

Definition device_line_spec (r key arg value : list Z) : Prop :=
  ∃ p, r = key ++ 91 :: arg ++ 93 :: 61 :: p ∧
    (1 ≤ length key ≤ 30)%nat ∧ forallb isDeviceNameRune key = true ∧
    arg ≠ [] ∧ forallb isWordRune arg = true ∧ value_spec p value.

Notation nonquote := (fun c => negb (isQuote c)).

Lemma value_length body value quote tail :
  body = value ++ quote_list quote ++ tail → forallb nonquote value = true →
  (length value ≤ run nonquote body)%nat.
Proof.
  intros -> Hv. unfold run. induction value as [|x value IH]; cbn; [lia|].
  cbn in Hv. apply andb_true_iff in Hv as [Hx Hv]. rewrite Hx. cbn. specialize (IH Hv). lia.
Qed.

Lemma try_quote_some p quote v :
  try_quote p quote = Some v → match quote with Some q => ∃ p', p = q :: p' ∧ isQuote q = true | None => True end →
  value_spec p v.
Proof.
  unfold try_quote. intros Ht Hq. set (body := match quote with Some _ => drop 1 p | None => p end) in *.
  assert (Hp : p = quote_list quote ++ body).
  { unfold body. destruct quote as [q|]; [|done]. destruct Hq as (p' & -> & _). done. }
  pose proof (try_lengths_spec quote body (run nonquote body)) as Hs. rewrite Ht in Hs.
  destruct Hs as (n & Hn & -> & t & Htail & Hc).
  exists quote, t. split_and!.
  - rewrite Hp at 1. f_equal. unfold tail_after in Htail.
    rewrite <- (take_drop n body) at 1. f_equal. destruct quote as [q|]; [|by injection Htail].
    destruct (drop n body) as [|c rest]; [done|]. destruct (Z.eqb_spec c q) as [->|]; [|done].
    by injection Htail as ->.
  - destruct quote; [|done]. by destruct Hq as (? & _ & ?).
  - intros Hnil. apply (f_equal length) in Hnil. rewrite length_take in Hnil.
    assert (run nonquote body ≤ length body)%nat.
    { rewrite <- (take_drop (run nonquote body) body) at 2. rewrite length_app, length_take.
      unfold run. rewrite <- (take_drop_while nonquote body) at 3. rewrite length_app. lia. }
    cbn in Hnil. lia.
  - assert (take n body = take n (take (run nonquote body) body)) as ->
      by (rewrite take_take; f_equal; lia).
    apply forallb_take, run_forallb.
  - done.
Qed.

Lemma try_quote_none p quote value tail :
  try_quote p quote = None →
  p = quote_list quote ++ value ++ quote_list quote ++ tail → value ≠ [] →
  forallb nonquote value = true → comment_tail tail → False.
Proof.
  unfold try_quote. intros Ht Hp Hne Hv Hc.
  set (body := match quote with Some _ => drop 1 p | None => p end) in *.
  assert (Hb : body = value ++ quote_list quote ++ tail).
  { unfold body. rewrite Hp. by destruct quote. }
  pose proof (try_lengths_spec quote body (run nonquote body)) as Hs. rewrite Ht in Hs.
  apply (Hs (length value)).
  - split; [destruct value; [done|cbn; lia]|]. by eapply value_length.
  - exists tail. split; [|done]. unfold tail_after. rewrite Hb, drop_app_length.
    destruct quote as [q|]; cbn; [|done]. by rewrite Z.eqb_refl.
Qed.

Lemma try_quotes_spec p :
  match try_quotes p (quotes_of p) with
  | Some v => value_spec p v
  | None => ∀ v, ¬ value_spec p v
  end.
Proof.
  assert (Hnone : ∀ v, value_spec p v → try_quote p None = None →
    ∃ q p', p = q :: p' ∧ isQuote q = true ∧ try_quote p (Some q) ≠ None).
  { intros v ([q|] & tail & Hp & Hq & Hne & Hv & Hc) Hn.
    - exists q, (v ++ [q] ++ tail). split_and!; [done|done|].
      intros Ht. by eapply (try_quote_none p (Some q)).
    - exfalso. by eapply (try_quote_none p None). }
  unfold quotes_of. destruct p as [|c p'].
  - cbn [try_quotes]. destruct (try_quote [] None) as [v|] eqn:E.
    + by apply (try_quote_some _ _ _ E).
    + intros v Hv. destruct (Hnone v Hv E) as (q & p' & ? & _). done.
  - destruct (isQuote c) eqn:Eq; cbn [try_quotes].
    + destruct (try_quote (c :: p') (Some c)) as [v|] eqn:E1; [apply (try_quote_some _ _ _ E1); eauto|].
      destruct (try_quote (c :: p') None) as [v|] eqn:E2; [by apply (try_quote_some _ _ _ E2)|].
      intros v Hv. destruct (Hnone v Hv eq_refl) as (q & p2 & [= <- <-] & _ & ?). done.
    + destruct (try_quote (c :: p') None) as [v|] eqn:E; [by apply (try_quote_some _ _ _ E)|].
      intros v Hv. destruct (Hnone v Hv eq_refl) as (q & p2 & [= <- <-] & ? & _). congruence.
Qed.

Lemma device_rune_not_bracket : isDeviceNameRune 91 = false.
Proof. done. Qed.
Lemma word_rune_not_bracket : isWordRune 93 = false.
Proof. by vm_compute. Qed.

(** The decomposition of the pattern fixes the three runs. *)
Lemma device_line_runs r key arg value :
  device_line_spec r key arg value →
  let i := run isDeviceNameRune r in
  i = length key ∧ r !! i = Some 91 ∧ (1 ≤ i ≤ 30)%nat ∧
  ∃ p, drop (S i) r = arg ++ 93 :: 61 :: p ∧ arg ≠ [] ∧ run isWordRune (drop (S i) r) = length arg ∧
       value_spec p value.
Proof.
  intros (p & Hr & Hk & Hkey & Ha & Harg & Hv) i.
  assert (Ei : i = length key) by (unfold i; rewrite Hr; by apply run_app).
  assert (Ed : drop (S i) r = arg ++ 93 :: 61 :: p).
  { rewrite Ei, Hr, cons_middle, app_assoc.
    replace (S (length key)) with (length (key ++ [91])) by (rewrite length_app; cbn; lia).
    apply drop_app_length. }
  split_and!; [done|by rewrite Ei, Hr, list_lookup_middle|lia|lia|].
  exists p. split_and!; [done|done| |done]. rewrite Ed. by apply run_app.
Qed.

Lemma matchDeviceLine_split s :
  match matchDeviceLine s with
  | Some d => ∃ key arg value, device_line_spec (runes s) key arg value ∧
      d = mkDeviceLine (string_of_runes key) (string_of_runes arg) (string_of_runes value)
  | None => ∀ key arg value, ¬ device_line_spec (runes s) key arg value
  end.
Proof.
  unfold matchDeviceLine. set (r := runes s). set (i := run isDeviceNameRune r).
  pose proof (device_line_runs r) as Hfix. fold i in Hfix. cbv zeta in Hfix.
  destruct ((i =? 0)%nat || (30 <? i)%nat || negb (bool_decide (r !! i = Some 91))) eqn:E1.
  { intros key arg value (_ & Hb & Hi & _)%Hfix.
    rewrite bool_decide_eq_true_2 in E1 by done.
    rewrite (proj2 (Nat.eqb_neq _ _)), (proj2 (Nat.ltb_ge _ _)) in E1 by lia. done. }
  apply orb_false_iff in E1 as [[Hi0 Hi30]%orb_false_iff Hbr].
  apply Nat.eqb_neq in Hi0. apply Nat.ltb_ge in Hi30.
  apply negb_false_iff, bool_decide_eq_true in Hbr.
  set (r1 := drop (S i) r) in *. set (j := run isWordRune r1) in *.
  destruct ((j =? 0)%nat || negb (bool_decide (r1 !! j = Some 93))) eqn:E2.
  { intros key arg value (_ & _ & _ & p & Er1 & Ha & Ej & _)%Hfix.
    rewrite Ej in E2. rewrite Er1 in E2. rewrite list_lookup_middle in E2 by done.
    rewrite bool_decide_eq_true_2 in E2 by done.
    rewrite (proj2 (Nat.eqb_neq _ _)) in E2 by (destruct arg; [done|cbn; lia]). done. }
  apply orb_false_iff in E2 as [Hj0 Hbr2]. apply Nat.eqb_neq in Hj0.
  apply negb_false_iff, bool_decide_eq_true in Hbr2.
  set (r2 := drop (S j) r1) in *.
  assert (Hr2 : ∀ arg p, r1 = arg ++ 93 :: 61 :: p → j = length arg → r2 = 61 :: p).
  { intros arg p Er1 Ej. unfold r2. rewrite Ej, Er1, cons_middle, app_assoc.
    replace (S (length arg)) with (length (arg ++ [93])) by (rewrite length_app; cbn; lia).
    apply drop_app_length. }
  destruct (negb (bool_decide (r2 !! 0%nat = Some 61))) eqn:E3.
  { intros key arg value (_ & _ & _ & p & Er1 & Ha & Ej & _)%Hfix.
    rewrite (Hr2 arg p Er1 Ej) in E3. done. }
  apply negb_false_iff, bool_decide_eq_true in E3.
  destruct r2 as [|c p] eqn:Er2; [done|]. injection E3 as ->. change (drop 1 (61 :: p)) with p.
  pose proof (try_quotes_spec p) as Hq. destruct (try_quotes p (quotes_of p)) as [v|].
  - exists (take i r), (take j r1), v. split; [|done]. exists p. split_and!.
    + rewrite <- (take_drop i r) at 1. f_equal. rewrite (drop_S _ _ _ Hbr). f_equal.
      fold r1. rewrite <- (take_drop j r1) at 1. f_equal. rewrite (drop_S _ _ _ Hbr2). f_equal. done.
    + rewrite length_take. pose proof (lookup_lt_Some _ _ _ Hbr). lia.
    + rewrite length_take. lia.
    + apply run_forallb.
    + intros Hnil. apply (f_equal length) in Hnil. rewrite length_take in Hnil.
      pose proof (lookup_lt_Some _ _ _ Hbr2). cbn in Hnil. lia.
    + apply run_forallb.
    + done.
  - intros key arg value (_ & _ & _ & p' & Er1 & Ha & Ej & Hv)%Hfix.
    pose proof (Hr2 arg p' Er1 Ej) as Heq. injection Heq as <-. by apply (Hq value).
Qed.

(** C3: the hand-written matcher decides exactly the lab.conf pattern: it
    succeeds on the lines that split into a key of 1 to 30 name characters, a bracketed
    argument, and a value with matching optional quotes and an optional comment, and
    what it returns is such a split. *)
Theorem matchDeviceLine_exact s :
  match matchDeviceLine s with
  | Some d => ∃ key arg value, device_line_spec (runes s) key arg value ∧
      d = mkDeviceLine (string_of_runes key) (string_of_runes arg) (string_of_runes value)
  | None => ∀ key arg value, ¬ device_line_spec (runes s) key arg value
  end.
Proof. apply matchDeviceLine_split. Qed.

(** ** What the parser guarantees of the scenario it builds *)

Section safety.
Context {F : Type}.
Local Notation MM := (@Lab.MM F).

Lemma safe_bind {A B} lab (p : MM A) (k : A → MM B) :
  safe lab p → (∀ a, safe lab (k a)) → safe lab (sbind p k).
Proof.
  intros Hp Hk h b Hi. destruct (Hp h b Hi) as (b' & Hi' & Hr). unfold sbind.
  destruct (p h) as [h' [a|e]]; simpl in *; [by eapply Hk|]. exists b'. split; [done|congruence].
Qed.

Lemma safe_go {A} lab (r : result goerror A) : safe lab (go r : MM A).
Proof. intros h b Hi. exists b. by destruct r. Qed.

Lemma safe_ret {A} lab (a : A) : safe lab (sret a : MM A).
Proof. intros h b Hi. by exists b. Qed.

Lemma safe_throw {A} lab e : safe lab (throw e : MM A).
Proof. intros h b Hi. by exists b. Qed.
End safety.

#[export] Hint Resolve safe_bind safe_go safe_ret safe_throw : kat.

Lemma device_runes_valid rs : forallb isDeviceNameRune rs = true → Forall (fun r => valid_rune r = true) rs.
Proof.
  intros Hrs. apply Forall_forall. intros r Hr. rewrite forallb_forall in Hrs.
  apply list_elem_of_In, Hrs, isDeviceNameRune_ascii in Hr. apply valid_rune_spec. lia.
Qed.

(** A device name holds nothing [str.strip] removes. *)
Lemma device_name_stripped rs :
  forallb isDeviceNameRune rs = true → pyStrip (string_of_runes rs) = string_of_runes rs.
Proof.
  intros Hrs. apply TrimFunc_none. rewrite runes_string_of_runes by by apply device_runes_valid.
  intros r Hr. rewrite forallb_forall in Hrs.
  apply list_elem_of_In, Hrs, isDeviceNameRune_ascii in Hr.
  apply negb_true_iff, (ascii_check (fun r => negb (pySpace r)) 48 75); [by vm_compute|lia].
Qed.

Lemma matchDeviceLine_key s d : matchDeviceLine s = Some d → pyStrip d.(dl_key) = d.(dl_key).
Proof.
  intros Hm. pose proof (matchDeviceLine_split s) as Hs. rewrite Hm in Hs.
  destruct Hs as (key & arg & value & (p & _ & _ & Hk & _) & ->). by apply device_name_stripped.
Qed.

Section parser.
Context {F : Type} (fsys : FileSystem F) `{TextCases} (cwd : option string).
Context (memory : F) (OSDir : string → option F).
Context (os_Stat : string → option Z) (os_ReadFile : string → result goerror string).

Lemma applyDeviceLine_safe lab confName n d :
  pyStrip d.(dl_key) = d.(dl_key) → safe lab (applyDeviceLine fsys cwd lab confName n d).
Proof.
  intros Hk. unfold applyDeviceLine. rewrite Hk.
  destruct (IsReservedMachineName _); [apply safe_throw|].
  destruct (interfaceNumber _) as [number|e].
  - destruct (ParseCDMACAddress _) as [[cd mac]|e]; [|apply safe_throw].
    destruct (negb _); [apply safe_throw|].
    apply safe_bind; [by apply ConnectMachineToLink_safe|]. intros ?. apply safe_ret.
  - apply safe_bind; [by apply AssignMetaToMachine_safe|]. intros ?. apply safe_ret.
Qed.

Lemma applyLabMetadata_safe lab confName n line : safe lab (applyLabMetadata (F:=F) lab confName n line).
Proof.
  unfold applyLabMetadata. destruct (negb _); [apply safe_throw|].
  destruct (split_byte _ _) as [|lhs [|rhs [|]]]; try apply safe_throw.
  destruct (String.eqb _ _); [apply SetName_safe|]. by apply upd_lab_safe.
Qed.

Lemma parse_lines_safe lab confName lines : ∀ n, safe lab (parse_lines fsys cwd lab confName n lines).
Proof.
  induction lines as [|raw lines IH]; intros n; cbn [parse_lines]; [apply safe_ret|].
  apply safe_bind; [|intros _; apply IH]. unfold parse_line.
  apply safe_bind; [apply safe_go|]. intros line.
  destruct (matchDeviceLine (pyStrip line)) as [d|] eqn:Em.
  - apply applyDeviceLine_safe. by eapply matchDeviceLine_key.
  - destruct (_ || _); [apply safe_ret|apply applyLabMetadata_safe].
Qed.

(** What a successful integrity check says of every device. *)
Lemma CheckIntegrity_ok lab (h h' : heap F) b :
  lab_inv h lab b → CheckIntegrity lab h = (h', Ok tt) →
  h' = h ∧ ∀ n l m, Get b.(labMachines) n = Some l → h.(hMachines) !! l = Some m →
                    checkNumbering m = Ok tt.
Proof.
  intros Hi. unfold CheckIntegrity.
  rewrite (bind_ok _ _ _ _ _ (getLab_run h lab b (li_lab _ _ _ Hi))).
  assert (Hgen : ∀ ls, (∀ l, l ∈ ls → ∃ n, Get b.(labMachines) n = Some l) →
    sfor ls Machine_Check h = (h', Ok tt) →
    h' = h ∧ ∀ l m, l ∈ ls → h.(hMachines) !! l = Some m → checkNumbering m = Ok tt).
  { induction ls as [|l ls IH]; intros Hls; cbn [sfor].
    { intros [= ->]. split; [done|]. by intros l m ?%elem_of_nil. }
    destruct (Hls l ltac:(by left)) as [n Hn].
    destruct (li_machine _ _ _ Hi n l Hn) as (m & Hm & _).
    assert (E : Machine_Check l h = go (checkNumbering m) h).
    { unfold Machine_Check. by rewrite (bind_ok _ _ _ _ _ (getMachine_run h l m Hm)). }
    destruct (checkNumbering m) as [[]|e] eqn:Ec; [|by rewrite (bind_err _ _ _ _ _ E)].
    rewrite (bind_ok _ _ _ _ _ E). intros Hr.
    destruct IH as [-> Hall]; [intros; apply Hls; by right|done|]. split; [done|].
    intros l' m' [->|Hl']%elem_of_cons Hm'; [congruence|eauto]. }
  intros Hr. destruct (Hgen (Values b.(labMachines))) as [-> Hall]; [|done|].
  - intros l Hl. apply values_registered; [apply Hi|done].
  - split; [done|]. intros n l m Hn Hm. apply (Hall l m); [|done].
    apply list_elem_of_fmap. exists (n, l). split; [done|]. by apply elem_of_entries; [apply Hi|].
Qed.

Lemma newLab_outcome name path defaults :
  (∃ h lab b, newLab memory OSDir name path defaults empty_heap = (h, Ok lab) ∧ lab_inv h lab b) ∨
  ∃ h e, newLab memory OSDir name path defaults empty_heap = (h, Err (Go e)).
Proof.
  destruct (newLab memory OSDir name path defaults empty_heap) as [h [lab|e]] eqn:E.
  - left. destruct (newLab_inv _ _ _ _ _ _ _ E) as [b Hb]. eauto 6.
  - right. unfold newLab in E. unfold sbind, newLoc, putLab, smodify, sret, throw, sthrow in E.
    destruct (String.eqb path ""); [done|]. destruct (OSDir path); [done|]. simplify_eq. eauto.
Qed.

(** C20: whatever bytes lab.conf holds, a scenario the parser returns satisfies
    the scenario invariant and every one of its devices passes the integrity check. *)
Theorem ParseLab_sound path confName defaults h lab :
  ParseLab fsys cwd memory OSDir os_Stat os_ReadFile path confName defaults empty_heap = (h, Ok lab) →
  ∃ b, lab_inv h lab b ∧
    ∀ n l m, Get b.(labMachines) n = Some l → h.(hMachines) !! l = Some m → checkNumbering m = Ok tt.
Proof.
  unfold ParseLab. destruct (os_Stat _) as [size|]; [|done].
  destruct (size =? 0); [done|]. destruct (os_ReadFile _) as [data|e]; [|done].
  destruct (newLab_outcome None path defaults) as [(h0 & lab0 & b0 & E & Hi)|(h0 & e & E)];
    [|by rewrite (bind_err _ _ _ _ _ E)].
  rewrite (bind_ok _ _ _ _ _ E).
  destruct (parse_lines_safe lab0 confName (readLines data) 1 h0 b0 Hi) as (b1 & Hi1 & _).
  destruct (parse_lines _ _ _ _ _ _ h0) as [h1 [[]|e]] eqn:E1; [|by rewrite (bind_err _ _ _ _ _ E1)].
  rewrite (bind_ok _ _ _ _ _ E1). simpl in Hi1.
  destruct (CheckIntegrity lab0 h1) as [h2 [[]|e]] eqn:E2; [|by rewrite (bind_err _ _ _ _ _ E2)].
  rewrite (bind_ok _ _ _ _ _ E2). intros [= <- <-].
  destruct (CheckIntegrity_ok lab0 h1 h2 b1 Hi1 E2) as [-> Hall]. eauto.
Qed.

(** Whatever bytes lab.conf holds, parsing it ends in a scenario or in an
    error value, never in a nil pointer dereference. *)
Theorem ParseLab_never_panics path confName defaults :
  (ParseLab fsys cwd memory OSDir os_Stat os_ReadFile path confName defaults empty_heap).2 ≠ Err NilDeref.
Proof.
  unfold ParseLab. destruct (os_Stat _) as [size|]; [|done].
  destruct (size =? 0); [done|]. destruct (os_ReadFile _) as [data|e]; [|done].
  destruct (newLab_outcome None path defaults) as [(h0 & lab0 & b0 & E & Hi)|(h0 & e & E)];
    [|by rewrite (bind_err _ _ _ _ _ E)].
  rewrite (bind_ok _ _ _ _ _ E).
  assert (Hs : safe lab0 (do* _ <- parse_lines fsys cwd lab0 confName 1 (readLines data) in
                          do* _ <- CheckIntegrity lab0 in sret lab0)).
  { apply safe_bind; [apply parse_lines_safe|]. intros _.
    apply safe_bind; [apply CheckIntegrity_safe|]. intros _. apply safe_ret. }
  by destruct (Hs h0 b0 Hi) as (_ & _ & ?).
Qed.
End parser.

(** A file of three lines, parsed. *)
Definition demo_conf : string :=
  string_concat ["LAB_NAME=demo"; str1 LF; "pc1[0]=A/00:00:00:00:00:01"; str1 LF; "r1[0]=A"; str1 LF;
                 "r1[mem]='64m'  # memory"; str1 LF].

Definition demo_parse : heap memFS * result failure loc :=
  @ParseLab memFS Memory_FS (ToLower : TextCases) None Memory (fun _ => Some Memory)
    (fun _ => Some 70) (fun _ => Ok demo_conf) "/lab" "lab.conf" DefaultDefaults empty_heap.

Lemma ParseLab_sound_witness :
  demo_parse.2 = Ok 1%positive ∧ ∃ b, lab_inv demo_parse.1 1%positive b.
Proof.
  split; [vm_compute; reflexivity|].
  edestruct (@ParseLab_sound memFS Memory_FS (ToLower : TextCases) None Memory (fun _ => Some Memory)
    (fun _ => Some 70) (fun _ => Ok demo_conf) "/lab" "lab.conf" DefaultDefaults
    demo_parse.1 1%positive) as (b & Hb & _).
  - vm_compute. reflexivity.
  - exists b. exact Hb.
Defined.

(** An argument that [int()] rejects can still be taken for an interface
    number: the bounded integer parser reports an overflow before it sees the byte that
    makes the literal invalid, so a meta named like an overlong number wires the device. *)
Theorem interfaceNumber_overlong :
  interfaceNumber "99999999999999999999x" = Ok MaxInt64 ∧
  pyBigInt "99999999999999999999x" = Err ErrPyIntSyntax.
Proof. split; vm_compute; reflexivity. Qed.
