(* ===== verification/LabExt.v ===== *)
(** * lab.dep, lab.ext and the command-line options (labfile/dep.go, ext.go, options.go)

    The boot order of the devices, the external links of the collision domains, and the
    options that set metas.  The calls to package os are parameters. *)

From S2P Require Export LabConf.
From S2P Require Export Strconv.
Local Open Scope string_scope.
Local Open Scope list_scope.
Local Open Scope Z_scope.
Local Open Scope kat_scope.

(** * lab.dep (labfile/dep.go)

    The dependency line, as the regular expression the parser compiles, and
    [ParseDep], which reads the file into a graph, refuses a loop and flattens
    the rest into a boot order.  The calls to package os are parameters. *)

Definition DepName : string := "lab.dep".

(** [pySpaceClass]: the character class the patterns of labfile share. *)
Definition pySpaceRanges : list (Z * Z) :=
  [(0x09, 0x0D); (0x1C, 0x1F); (0x20, 0x20); (0x85, 0x85); (0xA0, 0xA0); (0x1680, 0x1680);
   (0x2000, 0x200A); (0x2028, 0x2028); (0x2029, 0x2029); (0x202F, 0x202F); (0x205F, 0x205F);
   (0x3000, 0x3000)].
Definition pySpaceClass : re letter := rcls (in_ranges pySpaceRanges).

Definition depLineRegex : re letter :=
  Cat (Grp 1 (Plus word_class))
  (Cat (rchar 58)
  (Cat (Opt pySpaceClass)
  (Cat (Grp 2 (Plus (Cat (Plus word_class) (Opt (rchar 32))))) Eot))).

Definition newDepSyntax (line : Z) : goerror :=
  EParse DepName line ("In " +:+ DepName +:+ " - Line " +:+ Itoa line +:+ ".") CodeSyntax.

(** The name and the dependencies of a line that matches. *)
Definition matchDepLine (line : string) : option (string * list string) :=
  match FindStringSubmatch depLineRegex line with
  | None => None
  | Some c => Some (pyStrip (submatch 1 c), pyStrip <$> split_byte (az 32) (submatch 2 c))
  end.

Definition parse_dep_line (lineNumber : Z) (raw : string) (dependencies : DepGraph)
    : result goerror DepGraph :=
  let* line := decodeUTF8 raw in
  let line := pyStrip line in
  if String.eqb line "" || HasPrefix line "#" then Ok dependencies
  else match matchDepLine line with
  | None => Err (newDepSyntax lineNumber)
  | Some (name, deps) => Ok (SetKey dependencies name deps).1
  end.

Fixpoint parse_dep_lines (lineNumber : Z) (lines : list string) (dependencies : DepGraph)
    : result goerror DepGraph :=
  match lines with
  | [] => Ok dependencies
  | raw :: lines =>
      let* dependencies := parse_dep_line lineNumber raw dependencies in
      parse_dep_lines (lineNumber + 1) lines dependencies
  end.

Section labdep.
(** [os.Stat], as the size of an existing file, and [os.ReadFile]. *)
Context (os_Stat : string → option Z) (os_ReadFile : string → result goerror string).

(** A nil slice and an empty one are not told apart by any caller. *)
Definition ParseDep (path : string) : result goerror (list string) :=
  let depPath := joinPath path DepName in
  match os_Stat depPath with
  | None => Ok []
  | Some size =>
      if size =? 0 then Ok []
      else match os_ReadFile depPath with
      | Err e => Err (NewOSCannotOpenLabDep e)
      | Ok data =>
          let* dependencies := parse_dep_lines 1 (readLines data) NewDepGraph in
          if HasLoop dependencies then Err ErrLabDepLoop
          else Ok (Flatten dependencies)
      end
  end.
End labdep.

Example depline_1 : matchDepLine "pc1: r1 r2" = Some ("pc1", ["r1"; "r2"]).
Proof. vm_compute. reflexivity. Qed.
Example depline_2 : matchDepLine "pc1:r1" = Some ("pc1", ["r1"]).
Proof. vm_compute. reflexivity. Qed.
Example depline_3 : matchDepLine "pc1:  r1" = None.
Proof. vm_compute. reflexivity. Qed.
Example depline_4 : matchDepLine "pc1: r1  r2" = None.
Proof. vm_compute. reflexivity. Qed.
Example parsedep_1 :
  ParseDep (fun _ => Some 1) (fun _ => Ok ("# boot" +:+ str1 LF +:+ "pc1: r1" +:+ str1 LF +:+ " r1: r2 ")) "/lab"
  = Ok ["r2"; "r1"; "pc1"].
Proof. vm_compute. reflexivity. Qed.
Example parsedep_2 :
  ParseDep (fun _ => Some 1) (fun _ => Ok ("pc1: r1" +:+ str1 LF +:+ "r1: pc1")) "/lab" = Err ErrLabDepLoop.
Proof. vm_compute. reflexivity. Qed.

(** ** The pattern *)

(** The class is the predicate [pyStrip] uses. *)
Lemma pySpaceRanges_pySpace r : in_ranges pySpaceRanges r = pySpace r.
Proof.
  apply eq_true_iff_eq. unfold pySpace, IsSpace, in_ranges, pySpaceRanges. cbn [existsb fst snd].
  rewrite !orb_true_iff, !andb_true_iff, !Z.leb_le. split; intros; intuition lia.
Qed.

Lemma word_not_32 : isWordRune 32 = false.
Proof. by vm_compute. Qed.
Lemma word_not_error : isWordRune RuneError = false.
Proof. by vm_compute. Qed.

(** Words with one space between. *)
Fixpoint unwords (ws : list (list Z)) : list Z :=
  match ws with
  | [] => []
  | [w] => w
  | w :: ws => w ++ 32 :: unwords ws
  end.

Definition word (w : list Z) : Prop := w ≠ [] ∧ forallb isWordRune w = true.

(** A dependency line: a name, a colon, at most one white space, and words
    separated by one space. *)
Definition dep_line_spec (r name : list Z) (deps : list (list Z)) : Prop :=
  ∃ sp, r = name ++ 58 :: sp ++ unwords deps ∧ word name ∧
    (sp = [] ∨ ∃ c, sp = [c] ∧ pySpace c = true) ∧ deps ≠ [] ∧ Forall word deps.

Lemma unwords_cons w ws : ws ≠ [] → unwords (w :: ws) = w ++ 32 :: unwords ws.
Proof. by destruct ws. Qed.

Lemma capt_word s t c c' : capt (Plus word_class) s t c c' → word s.*1 ∧ c' = c.
Proof.
  intros (Hall & Hne & ->)%capt_plus_cls_inv. split; [|done]. split; [by destruct s|].
  rewrite <- Hall. clear. induction s as [|[r b] s IH]; [done|]. cbn in *. by rewrite IH.
Qed.

Lemma word_app w1 w2 : word w1 → word w2 → word (w1 ++ w2).
Proof.
  intros [Hne H1] [_ H2]. split; [by destruct w1|]. by rewrite forallb_app, H1, H2.
Qed.

(** What the second group can be: words with one space between, and possibly
    one more space at the end. *)
Lemma capt_words s t c c' :
  capt (Star (Cat (Plus word_class) (Opt (rchar 32)))) s t c c' →
  c' = c ∧ (s = [] ∨ ∃ ws tl, s.*1 = unwords ws ++ tl ∧ ws ≠ [] ∧ Forall word ws ∧
                    (tl = [] ∨ tl = [32])).
Proof.
  intros H. remember (Star (Cat (Plus word_class) (Opt (rchar 32)))) as r eqn:E. revert E.
  induction H as [| | | | | | |r s1 s2 t c1 c2 c3 H1 _ H2 IH|]; intros [= ->]; [by auto|].
  destruct (IH eq_refl) as [-> IH']. clear IH.
  apply capt_cat_inv in H1 as (w & o & c4 & -> & [Hw ->]%capt_word & Ho).
  assert (c2 = c1 ∧ (o.*1 = [] ∨ o.*1 = [32])) as [-> Ho'].
  { apply capt_opt_inv in Ho as [(a & -> & Ha & ->)%capt_cls_inv|[-> ->]]; [|by auto].
    apply Z.eqb_eq in Ha. cbn. rewrite Ha. auto. }
  split; [done|]. right. rewrite !fmap_app.
  destruct IH' as [->|(ws & tl & Hs2 & Hne & Hws & Htl)].
  - exists [w.*1], (o.*1). rewrite app_nil_r. split; [done|]. split; [done|]. by rewrite Forall_singleton.
  - rewrite Hs2. destruct Ho' as [-> | ->].
    + destruct ws as [|w2 ws]; [done|]. exists ((w.*1 ++ w2) :: ws), tl. apply Forall_cons in Hws as [Hw2 Hws].
      split; [|split; [done|split; [constructor; [by apply word_app|done]|done]]].
      rewrite app_nil_r. destruct ws; [by rewrite app_assoc|].
      rewrite (unwords_cons w2), (unwords_cons (w.*1 ++ w2)) by done. by rewrite <- !app_assoc.
    + exists (w.*1 :: ws), tl. rewrite unwords_cons by done. rewrite <- !app_assoc. cbn.
      split; [done|]. split; [done|]. split; [by constructor|done].
Qed.

Lemma den_word s t : word s.*1 → den (Plus word_class) s t.
Proof.
  intros [Hne Hall]. destruct s as [|a s]; [done|]. cbn in Hall. apply andb_true_iff in Hall as [Ha Hs].
  change (a :: s) with ([a] ++ s). apply den_cat; [by constructor|]. clear a Ha Hne.
  induction s as [|a s IH]; [constructor|]. cbn in Hs. apply andb_true_iff in Hs as [Ha Hs].
  change (a :: s) with ([a] ++ s). apply den_star_cons; [by constructor|auto].
Qed.

Lemma den_words ws : ∀ s t, s.*1 = unwords ws → Forall word ws →
  den (Star (Cat (Plus word_class) (Opt (rchar 32)))) s t.
Proof.
  induction ws as [|w ws IH]; intros s t Hs Hws.
  { apply fmap_nil_inv in Hs as ->. constructor. }
  apply Forall_cons in Hws as [Hw Hws]. destruct ws as [|w2 ws].
  - rewrite <- (app_nil_r s). apply den_star_cons; [|constructor].
    rewrite <- (app_nil_r s). apply den_cat; [by apply den_word; rewrite Hs|].
    apply den_alt_r. constructor.
  - rewrite unwords_cons in Hs by done. apply fmap_app_inv in Hs as (s1 & s2 & Hs1 & Hs2 & ->).
    symmetry in Hs2. apply fmap_cons_inv in Hs2 as (a & s3 & Ha & Hs3 & ->).
    rewrite cons_middle, app_assoc. apply den_star_cons; [|by apply IH].
    apply den_cat; [apply den_word; by rewrite <- Hs1|]. apply den_alt_l. constructor.
    apply Z.eqb_eq. by rewrite Ha.
Qed.

(** A line that ends in no white space matches exactly when it is a dependency
    line, and the groups are its parts. *)
Lemma depLineRegex_sound ls c :
  (∀ pre a, ls = pre ++ [a] → pySpace a.1 = false) → match_prefix depLineRegex ls = Some c →
  ∃ g1 g2 name deps, group 1 c = g1 ∧ group 2 c = g2 ∧ g1.*1 = name ∧ g2.*1 = unwords deps ∧
    (∀ a, a ∈ g1 ++ g2 → a ∈ ls) ∧ dep_line_spec ls.*1 name deps.
Proof.
  intros Hend (s1 & s2 & -> & H)%match_prefix_capt. unfold depLineRegex in H.
  apply capt_cat_inv in H as (n & s3 & c1 & -> & Hn & H).
  apply capt_grp_inv in Hn as (c2 & -> & Hn). apply capt_word in Hn as [Hn ->].
  apply capt_cat_inv in H as (col & s4 & c3 & -> & Hc & H).
  apply capt_cls_inv in Hc as (colon & -> & Hcolon & ->). apply Z.eqb_eq in Hcolon.
  apply capt_cat_inv in H as (sp & s5 & c4 & -> & Hsp & H).
  apply capt_cat_inv in H as (body & e & c5 & -> & Hb & He).
  apply capt_eot_inv in He as (-> & -> & ->). rewrite !app_nil_r in *.
  apply capt_grp_inv in Hb as (c6 & -> & Hb).
  assert (Hsp' : c4 = [(1%nat, n)] ∧ (sp.*1 = [] ∨ ∃ c, sp.*1 = [c] ∧ pySpace c = true)).
  { apply capt_opt_inv in Hsp as [(a & -> & Ha & ->)%capt_cls_inv|[-> ->]]; [|by auto].
    rewrite pySpaceRanges_pySpace in Ha. cbn. eauto. }
  destruct Hsp' as [-> Hsp']. unfold Plus in Hb.
  apply capt_cat_inv in Hb as (b1 & b2 & c7 & -> & Hb1 & Hb2).
  assert (Hb : capt (Star (Cat (Plus word_class) (Opt (rchar 32)))) (b1 ++ b2) [] [(1%nat, n)] c6).
  { econstructor; eauto. }
  apply capt_words in Hb as [-> [Hnil|(ws & tl & Hws & Hne & Hall & Htl)]].
  { exfalso. apply app_nil in Hnil as [-> _]. apply capt_cat_inv in Hb1 as (w & o & c8 & Ho & [[Hw _] _]%capt_word & _).
    symmetry in Ho. apply app_nil in Ho as [-> _]. done. }
  assert (tl = []) as ->.
  { destruct Htl as [-> | ->]; [done|]. exfalso.
    apply fmap_app_inv in Hws as (p1 & p2 & _ & Hp2 & Hp).
    symmetry in Hp2. apply fmap_cons_inv in Hp2 as (a & p3 & Ha & Hp3%eq_sym%fmap_nil_inv & ->). subst p3.
    pose proof (Hend (n ++ [colon] ++ sp ++ p1) a) as Hsp2. rewrite <- Ha in Hsp2.
    rewrite Hp, <- !app_assoc in Hsp2. by specialize (Hsp2 eq_refl). }
  rewrite app_nil_r in Hws. exists n, (b1 ++ b2), (n.*1), ws. split_and!; try done.
  - intros a. rewrite !elem_of_app. tauto.
  - exists (sp.*1). rewrite <- Hws, !fmap_app. cbn. rewrite Hcolon. split_and!; try done.
Qed.

Lemma depLineRegex_complete ls name deps :
  dep_line_spec ls.*1 name deps → match_prefix depLineRegex ls ≠ None.
Proof.
  intros (sp & Hr & Hn & Hsp & Hne & Hws).
  assert (Hm : match_bool depLineRegex ls = true); [|unfold match_bool in Hm; by destruct (match_prefix _ _)].
  apply match_bool_spec. exists ls, []. split; [by rewrite app_nil_r|].
  apply fmap_app_inv in Hr as (l1 & l2 & -> & Hr & ->).
  symmetry in Hr. apply fmap_cons_inv in Hr as (colon & l3 & Hcolon & Hr & ->).
  symmetry in Hr. apply fmap_app_inv in Hr as (l4 & l5 & -> & Hr & ->). symmetry in Hr.
  unfold depLineRegex. apply den_cat; [constructor; by apply den_word|].
  change (colon :: ?l) with ([colon] ++ l). apply den_cat; [constructor; by apply Z.eqb_eq|].
  apply den_cat.
  { destruct Hsp as [Hsp|(c & Hsp & Hc)].
    - apply fmap_nil_inv in Hsp as ->. apply den_alt_r. constructor.
    - destruct l4 as [|a [|]]; [done| |done]. apply den_alt_l. constructor.
      rewrite pySpaceRanges_pySpace. by injection Hsp as ->. }
  rewrite <- (app_nil_r l5). apply den_cat; [|constructor]. constructor.
  pose proof (den_words deps l5 ([] ++ []) Hr Hws) as Hd.
  apply den_star_progress in Hd as [->|(s1 & s2 & -> & _ & H1 & H2)].
  - exfalso. destruct deps as [|w deps]; [done|]. apply Forall_cons in Hws as [[Hw _] _].
    destruct deps; cbn in Hr; [|destruct w]; done.
  - by apply den_cat.
Qed.

(** ** The parts as strings *)

Lemma in_ranges_check (P : Z → bool) rs r :
  forallb (fun p => forallb (fun k => P (p.1 + Z.of_nat k)) (seq 0 (Z.to_nat (p.2 - p.1 + 1)))) rs = true →
  in_ranges rs r = true → P r = true.
Proof.
  unfold in_ranges. rewrite forallb_forall, existsb_exists. intros Hall ([lo hi] & Hin & Hr).
  specialize (Hall _ Hin). cbn [fst snd] in *. apply andb_true_iff in Hr as [Hlo%Z.leb_le Hhi%Z.leb_le].
  apply (ascii_check P lo _ Hall). lia.
Qed.

Lemma space_not_word r : pySpace r = true → isWordRune r = false.
Proof.
  rewrite <- pySpaceRanges_pySpace. intros H. apply negb_true_iff.
  apply (in_ranges_check (fun r => negb (isWordRune r)) pySpaceRanges); [by vm_compute|done].
Qed.

Lemma word_not_space w : word w → ∀ r, r ∈ w → pySpace r = false.
Proof.
  intros [_ Hw] r Hr. rewrite forallb_forall in Hw. apply not_true_is_false. intros Hs%space_not_word.
  rewrite Hw in Hs; [done|]. by apply list_elem_of_In.
Qed.

Lemma pyStrip_word w :
  Forall (fun r => valid_rune r = true) w → word w → pyStrip (string_of_runes w) = string_of_runes w.
Proof.
  intros Hv Hw. apply TrimFunc_none. rewrite runes_string_of_runes by done. by apply word_not_space.
Qed.

Lemma string_of_unwords ws :
  string_of_runes (unwords ws) = str_join (str1 (az 32)) (string_of_runes <$> ws).
Proof.
  induction ws as [|w ws IH]; [done|]. destruct ws as [|w2 ws]; [done|].
  rewrite unwords_cons, string_of_runes_app by done. change (32 :: ?l) with ([32] ++ l).
  rewrite string_of_runes_app, IH. done.
Qed.

Lemma elem_of_unwords r w ws : w ∈ ws → r ∈ w → r ∈ unwords ws.
Proof.
  induction ws as [|w1 ws IH]; [by intros ?%elem_of_nil|]. intros Hw Hr. destruct ws as [|w2 ws].
  - by apply list_elem_of_singleton in Hw as ->.
  - rewrite unwords_cons, elem_of_app by done. apply elem_of_cons in Hw as [->|Hw]; [by left|right].
    apply elem_of_cons. right. auto.
Qed.

Lemma words_string ws :
  ws ≠ [] → Forall word ws → Forall (fun r => valid_rune r = true) (unwords ws) →
  pyStrip <$> split_byte (az 32) (string_of_runes (unwords ws)) = string_of_runes <$> ws.
Proof.
  intros Hne Hws Hv. rewrite Forall_forall in Hv.
  assert (Hvw : ∀ w, w ∈ ws → Forall (fun r => valid_rune r = true) w).
  { intros w Hw. apply Forall_forall. intros r Hr. by eapply Hv, elem_of_unwords. }
  rewrite Forall_forall in Hws. rewrite string_of_unwords, split_byte_join.
  - rewrite <- list_fmap_compose. apply list_fmap_ext. intros i w Hi%list_elem_of_lookup_2.
    apply pyStrip_word; auto.
  - by intros ?%fmap_nil_inv.
  - apply Forall_forall. intros s (w & -> & Hw)%list_elem_of_fmap. apply contains_byte_runes; [done|auto|].
    intros Hin. destruct (Hws w Hw) as [_ Hall]. rewrite forallb_forall in Hall.
    specialize (Hall 32). rewrite word_not_32 in Hall. apply list_elem_of_In in Hin. by specialize (Hall Hin).
Qed.

(** ** Stripped lines *)

Lemma trim_end {A} (p : A → bool) l pre a : trim p l = pre ++ [a] → p a = false.
Proof.
  unfold trim. intros H. apply (f_equal reverse) in H. rewrite reverse_involutive, reverse_snoc in H.
  by eapply drop_while_head.
Qed.

Lemma decode_pyStrip line :
  utf8_valid line = true → GoString.decode (pyStrip line) = trim (fun c => pySpace c.1) (GoString.decode line).
Proof.
  intros Hv%utf8_valid_good. unfold pyStrip, TrimFunc. apply decode_chunks.
  rewrite Forall_forall in *. intros c Hc. by eapply Hv, trim_sublist.
Qed.

Lemma matchDepLine_spec line :
  utf8_valid line = true →
  match matchDepLine (pyStrip line) with
  | Some (name, deps) => ∃ n ws, dep_line_spec (runes (pyStrip line)) n ws ∧
      name = string_of_runes n ∧ deps = string_of_runes <$> ws
  | None => ∀ n ws, ¬ dep_line_spec (runes (pyStrip line)) n ws
  end.
Proof.
  intros Hv. unfold matchDepLine, FindStringSubmatch, runes.
  assert (Hgood : Forall good_letter (GoString.decode (pyStrip line))).
  { rewrite decode_pyStrip by done. apply utf8_valid_good in Hv. rewrite Forall_forall in *.
    intros c Hc. by eapply Hv, trim_sublist. }
  destruct (match_prefix depLineRegex (GoString.decode (pyStrip line))) as [c|] eqn:E.
  2: { intros n ws Hs. by eapply depLineRegex_complete. }
  apply depLineRegex_sound in E as (g1 & g2 & n & ws & Hg1 & Hg2 & Hn & Hws & Hin & Hspec).
  2: { intros pre a. rewrite decode_pyStrip by done. apply (trim_end (fun c => pySpace c.1)). }
  assert (Forall good_letter g1 ∧ Forall good_letter g2) as [Gg1 Gg2].
  { rewrite Forall_forall in Hgood. split; apply Forall_forall; intros a Ha;
      apply Hgood, Hin, elem_of_app; auto. }
  assert (Hval : ∀ l, Forall good_letter l → Forall (fun r => valid_rune r = true) l.*1).
  { intros l Hl. apply Forall_fmap. eapply Forall_impl; [exact Hl|]. by intros x [? _]. }
  exists n, ws. split; [done|]. unfold submatch. rewrite Hg1, Hg2, !chunks_good by done.
  destruct Hspec as (sp & _ & Hwn & _ & Hne & Hww). split.
  - rewrite Hn. apply pyStrip_word; [|done]. rewrite <- Hn. auto.
  - rewrite Hws. apply words_string; [done|done|]. rewrite <- Hws. auto.
Qed.

(** A stripped line of lab.dep is accepted exactly when it is a device name,
    a colon, at most one white space and dependency names separated by single spaces,
    and then the name and the list of dependencies are read back without loss. *)
Theorem matchDepLine_exact line :
  utf8_valid line = true →
  match matchDepLine (pyStrip line) with
  | Some (name, deps) => ∃ n ws, dep_line_spec (runes (pyStrip line)) n ws ∧
      name = string_of_runes n ∧ deps = string_of_runes <$> ws
  | None => ∀ n ws, ¬ dep_line_spec (runes (pyStrip line)) n ws
  end.
Proof. apply matchDepLine_spec. Qed.

Lemma matchDepLine_exact_witness :
  matchDepLine (pyStrip " pc1: r1 r2 ") = Some ("pc1", ["r1"; "r2"]) ∧
  ∃ n ws, dep_line_spec (runes (pyStrip " pc1: r1 r2 ")) n ws ∧
    "pc1" = string_of_runes n ∧ ["r1"; "r2"] = string_of_runes <$> ws.
Proof.
  assert (E : matchDepLine (pyStrip " pc1: r1 r2 ") = Some ("pc1", ["r1"; "r2"])) by (vm_compute; reflexivity).
  split; [exact E|].
  pose proof (matchDepLine_exact " pc1: r1 r2 " ltac:(vm_compute; reflexivity)) as H.
  rewrite E in H. exact H.
Defined.

(** ** The file *)

(** What a line declares: [None] when it is refused, [Some None] when it is blank
    or a comment. *)
Definition dep_decl (raw : string) : option (option (string * list string)) :=
  if negb (utf8_valid raw) then None
  else let line := pyStrip raw in
  if String.eqb line "" || HasPrefix line "#" then Some None
  else match matchDepLine line with None => None | Some d => Some (Some d) end.

(** The dependencies the last declaration of [x] lists, after those of [before]. *)
Definition last_decl (x : string) (before : option (list string)) (lines : list string)
    : option (list string) :=
  foldl (fun acc raw => match dep_decl raw with
                        | Some (Some (name, deps)) => if String.eqb name x then Some deps else acc
                        | _ => acc
                        end) before lines.

Lemma parse_dep_line_decl n raw g :
  match dep_decl raw with
  | Some None => parse_dep_line n raw g = Ok g
  | Some (Some (name, deps)) => parse_dep_line n raw g = Ok (SetKey g name deps).1
  | None => if utf8_valid raw then parse_dep_line n raw g = Err (newDepSyntax n)
            else ∃ a b r, parse_dep_line n raw g = Err (EUnicodeDecode raw a b r)
  end.
Proof.
  unfold dep_decl, parse_dep_line, decodeUTF8. destruct (utf8_valid raw) eqn:Hv; cbn [negb rbind].
  - destruct (_ || _); [done|]. by destruct (matchDepLine _) as [[name deps]|].
  - destruct (utf8Failure raw) as [[a b] r]. simpl. eauto.
Qed.

Definition line_refused (k : nat) (raw : string) (e : goerror) : Prop :=
  if utf8_valid raw then e = newDepSyntax (Z.of_nat k + 1)
  else ∃ a b r, e = EUnicodeDecode raw a b r.

Lemma parse_dep_lines_spec lines : ∀ n g, wf_map g →
  match parse_dep_lines (Z.of_nat n + 1) lines g with
  | Ok g' => wf_map g' ∧ Forall (fun raw => is_Some (dep_decl raw)) lines ∧
             ∀ x, Get g' x = last_decl x (Get g x) lines
  | Err e => ∃ k raw, lines !! k = Some raw ∧ dep_decl raw = None ∧
               Forall (fun raw => is_Some (dep_decl raw)) (take k lines) ∧ line_refused (n + k) raw e
  end.
Proof.
  induction lines as [|raw lines IH]; intros n g Hg; [done|]. cbn [parse_dep_lines].
  pose proof (parse_dep_line_decl (Z.of_nat n + 1) raw g) as Hl.
  assert (Hnext : ∀ g', parse_dep_line (Z.of_nat n + 1) raw g = Ok g' → wf_map g' → is_Some (dep_decl raw) →
    (∀ x, last_decl x (Get g' x) lines = last_decl x (Get g x) (raw :: lines)) →
    match (let* dependencies := parse_dep_line (Z.of_nat n + 1) raw g in
           parse_dep_lines (Z.of_nat n + 1 + 1) lines dependencies) with
    | Ok g' => wf_map g' ∧ Forall (fun raw => is_Some (dep_decl raw)) (raw :: lines) ∧
               ∀ x, Get g' x = last_decl x (Get g x) (raw :: lines)
    | Err e => ∃ k r, (raw :: lines) !! k = Some r ∧ dep_decl r = None ∧
               Forall (fun raw => is_Some (dep_decl raw)) (take k (raw :: lines)) ∧ line_refused (n + k) r e
    end).
  { intros g' E Hg' Hd Hx. rewrite E. cbn [rbind]. specialize (IH (S n) g' Hg').
    replace (Z.of_nat (S n) + 1) with (Z.of_nat n + 1 + 1) in IH by lia.
    destruct (parse_dep_lines _ lines g') as [g2|e].
    - destruct IH as (Hw & Hall & Hget). split; [done|]. split; [by constructor|].
      intros x. by rewrite Hget, Hx.
    - destruct IH as (k & r & Hk & Hr & Hall & He). exists (S k), r. split; [done|]. split; [done|].
      split; [by constructor|]. by replace (n + S k)%nat with (S n + k)%nat by lia. }
  destruct (dep_decl raw) as [[[name deps]|]|] eqn:Ed.
  - apply (Hnext _ Hl); [by apply wf_set|eauto|]. intros x. unfold last_decl. cbn [foldl]. rewrite Ed.
    destruct (String.eqb_spec name x) as [->|Hne]; [by rewrite get_set_eq|by rewrite get_set_ne].
  - apply (Hnext _ Hl); [done|eauto|]. intros x. unfold last_decl. cbn [foldl]. by rewrite Ed.
  - clear Hnext IH. assert (∃ e, parse_dep_line (Z.of_nat n + 1) raw g = Err e ∧ line_refused n raw e)
      as (e & E & He).
    { unfold line_refused. destruct (utf8_valid raw); [eauto|].
      destruct Hl as (a & b & r & E). eauto 10. }
    rewrite E. cbn [rbind]. exists O, raw. rewrite Nat.add_0_r. by repeat split.
Qed.

(** Reading lab.dep accepts exactly the files all of whose lines are blank,
    comments or dependency lines; the graph then maps each device to the list of its
    last declaration.  A refused file is refused for its first bad line: a decoding error, or
    a syntax error that carries the line's number, counted from one. *)
Theorem dep_file_exact lines :
  match parse_dep_lines 1 lines NewDepGraph with
  | Ok g => wf_map g ∧ Forall (fun raw => is_Some (dep_decl raw)) lines ∧
            ∀ x, Get g x = last_decl x None lines
  | Err e => ∃ k raw, lines !! k = Some raw ∧ dep_decl raw = None ∧
               Forall (fun raw => is_Some (dep_decl raw)) (take k lines) ∧ line_refused k raw e
  end.
Proof. apply (parse_dep_lines_spec lines 0 NewDepGraph wf_new). Qed.

(** C16: of a readable lab.dep, [ParseDep] passes on the parser's error; a graph
    in which some device depends on itself, directly or not, is refused as a loop; any
    other gives a boot order that names every device once and puts each device after
    everything it depends on. *)
Theorem ParseDep_correct os_Stat os_ReadFile path size data :
  os_Stat (joinPath path DepName) = Some size → size ≠ 0 →
  os_ReadFile (joinPath path DepName) = Ok data →
  match parse_dep_lines 1 (readLines data) NewDepGraph with
  | Err e => ParseDep os_Stat os_ReadFile path = Err e
  | Ok g =>
      (ParseDep os_Stat os_ReadFile path = Err ErrLabDepLoop ∧ ∃ v, tc (depends g) v v) ∨
      ∃ order, ParseDep os_Stat os_ReadFile path = Ok order ∧ (∀ v, ¬ tc (depends g) v v) ∧
        NoDup order ∧ (∀ x, x ∈ order ↔ ∃ y, depends g x y ∨ depends g y x) ∧
        ∀ a b, depends g a b → before b a order
  end.
Proof.
  intros Hs Hne Hr. unfold ParseDep. rewrite Hs, Hr. rewrite (proj2 (Z.eqb_neq _ _)) by done.
  pose proof (parse_dep_lines_spec (readLines data) 0 NewDepGraph wf_new) as H. change (Z.of_nat 0 + 1) with 1 in H.
  destruct (parse_dep_lines 1 (readLines data) NewDepGraph) as [g|e]; [|done]. cbn [rbind].
  destruct H as (Hw & _ & _). destruct (HasLoop g) eqn:El; [left|right].
  - split; [done|]. by apply HasLoop_spec.
  - exists (Flatten g). split; [done|]. split.
    + intros v Hv. assert (HasLoop g = true) by (apply HasLoop_spec; eauto). congruence.
    + by apply Flatten_topological_all.
Qed.

Lemma ParseDep_correct_witness :
  ParseDep (fun _ => Some 10) (fun _ => Ok "pc1: r1") "/lab" = Ok ["r1"; "pc1"] ∧
  match parse_dep_lines 1 (readLines "pc1: r1") NewDepGraph with
  | Err e => ParseDep (fun _ => Some 10) (fun _ => Ok "pc1: r1") "/lab" = Err e
  | Ok g =>
      (ParseDep (fun _ => Some 10) (fun _ => Ok "pc1: r1") "/lab" = Err ErrLabDepLoop ∧
       ∃ v, tc (depends g) v v) ∨
      ∃ order, ParseDep (fun _ => Some 10) (fun _ => Ok "pc1: r1") "/lab" = Ok order ∧
        (∀ v, ¬ tc (depends g) v v) ∧
        NoDup order ∧ (∀ x, x ∈ order ↔ ∃ y, depends g x y ∨ depends g y x) ∧
        ∀ a b, depends g a b → before b a order
  end.
Proof.
  split; [vm_compute; reflexivity|].
  apply (ParseDep_correct (fun _ => Some 10) (fun _ => Ok "pc1: r1") "/lab" 10 "pc1: r1");
    [reflexivity|discriminate|reflexivity].
Defined.

(** * lab.ext and the command-line options (labfile/ext.go, options.go) *)

Definition ExtName : string := "lab.ext".

(** ** The line *)

Definition extLineRegex : re letter :=
  Cat (Grp 1 (Plus word_class))
  (Cat (Plus pySpaceClass)
  (Cat (Grp 2 (Plus word_class))
  (Cat (Opt (Grp 3 (Cat (rchar 46) (Plus (rcls is_digit))))) Eot))).

Definition external_map : Type := gmap string (list ExternalLink).

(** [external[k] = append(external[k], e)]. *)
Definition append_link (k : string) (e : ExternalLink) (external : external_map) : external_map :=
  <[k := default [] (external !! k) ++ [e]]> external.

Definition ext_vlan (lineNumber : Z) (vlan : string) : result goerror Z :=
  if String.eqb vlan "" then Ok 0
  else match Atoi (TrimPrefix vlan ".") with
  | Err e => Err (WrapValue e (Error e))
  | Ok vlan =>
      if 4095 <=? vlan then
        Err (NewValue ("In file lab.ext, line " +:+ Itoa lineNumber +:+
                       ": VLAN ID must be in range [1, 4094]."))
      else Ok vlan
  end.

Definition parse_ext_line (lineNumber : Z) (raw : string) (external : external_map)
    : result goerror external_map :=
  let* line := decodeUTF8 raw in
  let trimmed := pyStrip line in
  match FindStringSubmatch extLineRegex trimmed with
  | Some c =>
      let* vlan := ext_vlan lineNumber (submatch 3 c) in
      Ok (append_link (submatch 1 c) (mkExternalLink (submatch 2 c) vlan) external)
  | None =>
      if HasPrefix line "#" || String.eqb trimmed "" then Ok external
      else Err (NewSyntax ("In file lab.ext - Line " +:+ Itoa lineNumber +:+ "."))
  end.

Fixpoint parse_ext_lines (lineNumber : Z) (lines : list string) (external : external_map)
    : result goerror external_map :=
  match lines with
  | [] => Ok external
  | raw :: lines =>
      let* external := parse_ext_line lineNumber raw external in
      parse_ext_lines (lineNumber + 1) lines external
  end.

Section labext.
(** [os.Stat], as the size of an existing file, with [os.IsNotExist] on its
    error, and [os.ReadFile]. *)
Context (os_Stat : string → result goerror Z) (os_IsNotExist : goerror → bool).
Context (os_ReadFile : string → result goerror string).

(** [None] is the nil map: the file is absent or empty. *)
Definition ParseExt (path : string) : result goerror (option external_map) :=
  let extPath := joinPath path ExtName in
  match os_Stat extPath with
  | Err e => if os_IsNotExist e then Ok None else Err (WrapOS e "Cannot open lab.ext file.")
  | Ok size =>
      if size =? 0 then Ok None
      else match os_ReadFile extPath with
      | Err e => Err (WrapOS e "Cannot open lab.ext file.")
      | Ok data => let* external := parse_ext_lines 1 (readLines data) ∅ in Ok (Some external)
      end
  end.

Definition CheckExt (path : string) : result goerror unit :=
  let* _ := ParseExt path in Ok tt.
End labext.

(** ** [ParseOptions] *)

Definition tooManyValues : string := "too many values to unpack (expected 2)".
Definition notEnoughValues (got : Z) : string :=
  "not enough values to unpack (expected 2, got " +:+ Itoa got +:+ ")".

Fixpoint parse_options (options : list string) (parsed : OrderedMap string string)
    : result goerror (OrderedMap string string) :=
  match options with
  | [] => Ok parsed
  | option :: options =>
      match split_byte (az 61) (stripQuotes option) with
      | [k; v] => parse_options options (SetKey parsed k v).1
      | parts =>
          if (length parts <? 2)%nat
          then Err (NewValueOptionParameter (notEnoughValues (Z.of_nat (length parts))))
          else Err (NewValueOptionParameter tooManyValues)
      end
  end.

Definition ParseOptions (options : list string) : result goerror (OrderedMap string string) :=
  parse_options options NewOrderedMap.

Example ext_1 : parse_ext_line 1 " A eth0.10 " ∅ = Ok {["A" := [mkExternalLink "eth0" 10]]}.
Proof. vm_compute. reflexivity. Qed.
Example ext_2 : parse_ext_line 1 "A eth0" {["A" := [mkExternalLink "eth0" 10]]}
  = Ok {["A" := [mkExternalLink "eth0" 10; mkExternalLink "eth0" 0]]}.
Proof. vm_compute. reflexivity. Qed.
Example ext_3 : ext_vlan 3 ".4095" =
  Err (NewValue "In file lab.ext, line 3: VLAN ID must be in range [1, 4094].").
Proof. vm_compute. reflexivity. Qed.
Example ext_4 : Atoi "99999999999999999999" =
  Err (EPlain ("strconv.Atoi: parsing " +:+ str1 (az 34) +:+ "99999999999999999999" +:+ str1 (az 34)
        +:+ ": value out of range")).
Proof. vm_compute. reflexivity. Qed.
Example options_1 : Entries <$> (match ParseOptions ["mem=64m"; "cpus=2"] with Ok o => Some o | Err _ => None end)
  = Some [("mem", "64m"); ("cpus", "2")].
Proof. vm_compute. reflexivity. Qed.
Example options_2 : ParseOptions ["mem"] =
  Err (NewValueOptionParameter "not enough values to unpack (expected 2, got 1)").
Proof. vm_compute. reflexivity. Qed.

(** ** The pattern *)

Definition spaces (sp : list Z) : Prop := sp ≠ [] ∧ forallb pySpace sp = true.

Definition vlan_suffix (vlan : option (list Z)) : list Z :=
  match vlan with Some ds => 46 :: ds | None => [] end.

(** A link line: a collision domain, white space, an interface and possibly a
    VLAN number. *)
Definition ext_line_spec (r link iface : list Z) (vlan : option (list Z)) : Prop :=
  ∃ sp, r = link ++ sp ++ iface ++ vlan_suffix vlan ∧ word link ∧ spaces sp ∧ word iface ∧
    match vlan with Some ds => ds ≠ [] ∧ forallb is_digit ds = true | None => True end.

Lemma forallb_fmap {A B} (f : A → B) (p : B → bool) l : forallb p (f <$> l) = forallb (p ∘ f) l.
Proof. induction l as [|x l IH]; [done|]. cbn. by rewrite IH. Qed.

Lemma capt_plus_rcls p s t c c' :
  capt (Plus (rcls p)) s t c c' → s.*1 ≠ [] ∧ forallb p s.*1 = true ∧ c' = c.
Proof.
  intros (Hall & Hne & ->)%capt_plus_cls_inv. split; [by intros ?%fmap_nil_inv|].
  split; [|done]. by rewrite forallb_fmap.
Qed.

Lemma den_plus_rcls p s t : s.*1 ≠ [] → forallb p s.*1 = true → den (Plus (rcls p)) s t.
Proof.
  intros Hne Hall. destruct s as [|a s]; [done|]. cbn in Hall. apply andb_true_iff in Hall as [Ha Hs].
  change (a :: s) with ([a] ++ s). apply den_cat; [by constructor|]. clear a Ha Hne.
  induction s as [|a s IH]; [constructor|]. cbn in Hs. apply andb_true_iff in Hs as [Ha Hs].
  change (a :: s) with ([a] ++ s). apply den_star_cons; [by constructor|auto].
Qed.

Lemma forallb_pySpace l : forallb (in_ranges pySpaceRanges) l = forallb pySpace l.
Proof. induction l as [|r l IH]; [done|]. cbn [forallb]. by rewrite pySpaceRanges_pySpace, IH. Qed.

Lemma extLineRegex_sound ls c :
  match_prefix extLineRegex ls = Some c →
  ∃ g3 vlan, (∀ a, a ∈ group 1 c ++ group 2 c ++ g3 → a ∈ ls) ∧ group 3 c = g3 ∧
    g3.*1 = vlan_suffix vlan ∧ ext_line_spec ls.*1 (group 1 c).*1 (group 2 c).*1 vlan.
Proof.
  intros (s1 & s2 & -> & H)%match_prefix_capt. unfold extLineRegex in H.
  apply capt_cat_inv in H as (l & s3 & c1 & -> & Hl & H).
  apply capt_grp_inv in Hl as (c2 & -> & Hl). apply capt_word in Hl as [Hl ->].
  apply capt_cat_inv in H as (sp & s4 & c3 & -> & Hsp & H).
  apply capt_plus_rcls in Hsp as (Hne & Hall & ->). rewrite forallb_pySpace in Hall.
  apply capt_cat_inv in H as (i & s5 & c4 & -> & Hi & H).
  apply capt_grp_inv in Hi as (c5 & -> & Hi). apply capt_word in Hi as [Hi ->].
  apply capt_cat_inv in H as (v & e & c6 & -> & Hv & He).
  apply capt_eot_inv in He as (-> & -> & ->). rewrite !app_nil_r in *.
  apply capt_opt_inv in Hv as [Hv|[-> ->]].
  - apply capt_grp_inv in Hv as (c7 & -> & Hv).
    apply capt_cat_inv in Hv as (dot & ds & c8 & -> & Hd & Hds).
    apply capt_cls_inv in Hd as (d & -> & Hd%Z.eqb_eq & ->).
    apply capt_plus_rcls in Hds as (Hdne & Hdall & ->). cbn [group List.find fst snd Nat.eqb].
    exists ([d] ++ ds), (Some ds.*1). split; [intros a; rewrite !elem_of_app; tauto|]. split; [done|].
    cbn [app fmap list_fmap vlan_suffix]. rewrite Hd. split; [done|].
    exists sp.*1. rewrite !fmap_app. cbn. rewrite Hd. split_and!; done.
  - exists [], None. split; [intros a; cbn [group List.find fst snd Nat.eqb]; rewrite !elem_of_app; tauto|].
    split; [done|]. split; [done|]. exists sp.*1. rewrite !fmap_app. cbn. rewrite app_nil_r. split_and!; done.
Qed.

Lemma extLineRegex_complete ls link iface vlan :
  ext_line_spec ls.*1 link iface vlan → match_prefix extLineRegex ls ≠ None.
Proof.
  intros (sp & Hr & Hl & [Hsne Hsp] & Hi & Hv).
  assert (Hm : match_bool extLineRegex ls = true); [|unfold match_bool in Hm; by destruct (match_prefix _ _)].
  apply match_bool_spec. exists ls, []. split; [by rewrite app_nil_r|].
  apply fmap_app_inv in Hr as (l1 & l2 & -> & Hr & ->).
  symmetry in Hr. apply fmap_app_inv in Hr as (l3 & l4 & -> & Hr & ->).
  symmetry in Hr. apply fmap_app_inv in Hr as (l5 & l6 & -> & Hr & ->).
  unfold extLineRegex. apply den_cat; [constructor; by apply den_word|].
  apply den_cat; [apply den_plus_rcls; [done|by rewrite forallb_pySpace]|].
  apply den_cat; [constructor; by apply den_word|].
  rewrite <- (app_nil_r l6). apply den_cat; [|constructor]. destruct vlan as [ds|].
  - symmetry in Hr. apply fmap_cons_inv in Hr as (d & l7 & Hd & -> & ->). destruct Hv as [Hne Hds].
    apply den_alt_l. constructor. change (d :: l7) with ([d] ++ l7).
    apply den_cat; [constructor; by apply Z.eqb_eq|by apply den_plus_rcls].
  - symmetry in Hr. apply fmap_nil_inv in Hr as ->. apply den_alt_r. constructor.
Qed.

Lemma pyStrip_good line : utf8_valid line = true → Forall good_letter (GoString.decode (pyStrip line)).
Proof.
  intros Hv. rewrite decode_pyStrip by done. apply utf8_valid_good in Hv. rewrite Forall_forall in *.
  intros c Hc. by eapply Hv, trim_sublist.
Qed.

Lemma extLine_parts line c :
  utf8_valid line = true → FindStringSubmatch extLineRegex (pyStrip line) = Some c →
  ∃ link iface vlan, ext_line_spec (runes (pyStrip line)) link iface vlan ∧
    submatch 1 c = string_of_runes link ∧ submatch 2 c = string_of_runes iface ∧
    submatch 3 c = string_of_runes (vlan_suffix vlan).
Proof.
  intros Hv E. pose proof (pyStrip_good line Hv) as Hgood. rewrite Forall_forall in Hgood.
  apply extLineRegex_sound in E as (g3 & vlan & Hin & Hg3 & Hvlan & Hspec).
  assert (Hg : ∀ g, (∀ a, a ∈ g → a ∈ group 1 c ++ group 2 c ++ g3) → chunks_string g = string_of_runes g.*1).
  { intros g Hsub. apply chunks_good, Forall_forall. auto. }
  exists (group 1 c).*1, (group 2 c).*1, vlan. split; [done|]. unfold submatch. rewrite Hg3, <- Hvlan.
  repeat split; apply Hg; intros a; rewrite !elem_of_app; tauto.
Qed.

(** A stripped line of lab.ext declares a link exactly when it is a collision
    domain name, white space, an interface name and possibly a dot and digits, and the
    three parts are read back without loss. *)
Theorem extLine_exact line :
  utf8_valid line = true →
  match FindStringSubmatch extLineRegex (pyStrip line) with
  | Some c => ∃ link iface vlan, ext_line_spec (runes (pyStrip line)) link iface vlan ∧
      submatch 1 c = string_of_runes link ∧ submatch 2 c = string_of_runes iface ∧
      submatch 3 c = string_of_runes (vlan_suffix vlan)
  | None => ∀ link iface vlan, ¬ ext_line_spec (runes (pyStrip line)) link iface vlan
  end.
Proof.
  intros Hv. destruct (FindStringSubmatch _ _) as [c|] eqn:E; [by apply extLine_parts|].
  intros link iface vlan Hs. by eapply extLineRegex_complete.
Qed.

Lemma extLine_exact_witness :
  FindStringSubmatch extLineRegex (pyStrip "A eth0.7") ≠ None ∧
  match FindStringSubmatch extLineRegex (pyStrip "A eth0.7") with
  | Some c => ∃ link iface vlan, ext_line_spec (runes (pyStrip "A eth0.7")) link iface vlan ∧
      submatch 1 c = string_of_runes link ∧ submatch 2 c = string_of_runes iface ∧
      submatch 3 c = string_of_runes (vlan_suffix vlan)
  | None => ∀ link iface vlan, ¬ ext_line_spec (runes (pyStrip "A eth0.7")) link iface vlan
  end.
Proof.
  split; [by vm_compute|]. apply extLine_exact. vm_compute. reflexivity.
Defined.

(** ** The VLAN number *)

(** The VLAN of a link line is its decimal number: below 4095 it is taken, at
    4095 and above it is refused with the line's number, past the range of an [int] the
    conversion error is wrapped, and a line without one has VLAN zero. *)
Theorem ext_vlan_exact lineNumber vlan :
  match vlan with Some ds => ds ≠ [] ∧ forallb is_digit ds = true | None => True end →
  ext_vlan lineNumber (string_of_runes (vlan_suffix vlan)) =
  match vlan with
  | None => Ok 0
  | Some ds =>
      let v := digits_value 0 ds in
      if MaxInt64 <? v then
        let e := numError (string_of_runes ds) "value out of range" in Err (WrapValue e (Error e))
      else if v <? 4095 then Ok v
      else Err (NewValue ("In file lab.ext, line " +:+ Itoa lineNumber +:+
                          ": VLAN ID must be in range [1, 4094]."))
  end.
Proof.
  destruct vlan as [ds|]; [|done]. intros [Hne Hds]. unfold ext_vlan.
  change (string_of_runes (vlan_suffix (Some ds))) with (String (az 46) (string_of_runes ds)).
  change (String (az 46) (string_of_runes ds) =? "")%string with false. cbv iota.
  assert (TrimPrefix (String (az 46) (string_of_runes ds)) "." = string_of_runes ds) as ->.
  { unfold TrimPrefix, HasPrefix. change "."%string with (str1 (az 46)). cbn.
    by destruct (string_of_runes ds). }
  rewrite Atoi_digits by done. cbv zeta. destruct (MaxInt64 <? _); [done|].
  destruct (Z.leb_spec 4095 (digits_value 0 ds)), (Z.ltb_spec (digits_value 0 ds) 4095); done || lia.
Qed.

Lemma ext_vlan_exact_witness :
  ext_vlan 2 ".4094" = Ok 4094.
Proof. apply (ext_vlan_exact 2 (Some [52; 48; 57; 52])). split; [discriminate|reflexivity]. Defined.

(** ** The parsed map *)

Definition is_word (s : string) : Prop :=
  ∃ w, word w ∧ Forall (fun r => valid_rune r = true) w ∧ s = string_of_runes w.

Definition link_valid (e : ExternalLink) : Prop :=
  is_word e.(eInterface) ∧ 0 <= e.(VLAN) <= 4094.

Definition external_valid (external : external_map) : Prop :=
  map_Forall (fun k es => is_word k ∧ es ≠ [] ∧ Forall link_valid es) external.

Lemma ext_vlan_range n vlan v :
  match vlan with Some ds => ds ≠ [] ∧ forallb is_digit ds = true | None => True end →
  ext_vlan n (string_of_runes (vlan_suffix vlan)) = Ok v → 0 <= v <= 4094.
Proof.
  destruct vlan as [ds|]; [|intros _; unfold ext_vlan; cbn; intros [= <-]; lia].
  intros [Hne Hds]. unfold ext_vlan.
  change (string_of_runes (vlan_suffix (Some ds))) with (String (az 46) (string_of_runes ds)).
  change (String (az 46) (string_of_runes ds) =? "")%string with false. cbv iota.
  assert (TrimPrefix (String (az 46) (string_of_runes ds)) "." = string_of_runes ds) as ->.
  { unfold TrimPrefix, HasPrefix. change "."%string with (str1 (az 46)). cbn.
    by destruct (string_of_runes ds). }
  rewrite Atoi_digits by done. destruct (MaxInt64 <? _); [done|].
  destruct (Z.leb_spec 4095 (digits_value 0 ds)); [done|]. intros [= <-].
  pose proof (digits_value_ge ds 0 ltac:(lia) Hds). lia.
Qed.

Lemma append_link_valid k e external :
  is_word k → link_valid e → external_valid external → external_valid (append_link k e external).
Proof.
  intros Hk He Hm. unfold append_link. apply map_Forall_insert_2; [|done]. split; [done|].
  split; [by destruct (default _ _)|]. apply Forall_app. split; [|by apply Forall_singleton].
  destruct (external !! k) as [es|] eqn:E; [|by constructor]. by destruct (Hm k es E) as (_ & _ & ?).
Qed.

Lemma parse_ext_line_valid n raw external external' :
  external_valid external → parse_ext_line n raw external = Ok external' → external_valid external'.
Proof.
  intros Hm. unfold parse_ext_line, decodeUTF8. destruct (utf8_valid raw) eqn:Hv.
  2: { by destruct (utf8Failure raw) as [[? ?] ?]. }
  cbn [rbind]. destruct (FindStringSubmatch _ _) as [c|] eqn:E.
  - pose proof (runes_valid (pyStrip raw)) as Hr.
    apply extLine_parts in E as (link & iface & vlan & (sp & Es & Hl & _ & Hi & Hvl) & -> & -> & ->); [|done].
    rewrite Es, !Forall_app in Hr. destruct Hr as (? & _ & ? & _).
    destruct (ext_vlan _ _) as [v|e] eqn:Ev; [|done]. cbn [rbind]. intros [= <-].
    apply append_link_valid; [by exists link| |done]. split; [by exists iface|]. by eapply ext_vlan_range.
  - destruct (_ || _); [|done]. by intros [= <-].
Qed.

Lemma parse_ext_lines_valid lines : ∀ n external external',
  external_valid external → parse_ext_lines n lines external = Ok external' → external_valid external'.
Proof.
  induction lines as [|raw lines IH]; intros n m m' Hm; cbn [parse_ext_lines]; [by intros [= <-]|].
  destruct (parse_ext_line n raw m) as [m1|e] eqn:E; [|done]. cbn [rbind].
  apply IH. by eapply parse_ext_line_valid.
Qed.

(** Whatever bytes lab.ext holds, the map the parser returns only holds
    collision domains and interfaces whose names are words of letters, digits and
    underscores, at least one link for each domain it names, and VLANs from 0 to 4094. *)
Theorem external_links_valid os_Stat os_IsNotExist os_ReadFile path external :
  ParseExt os_Stat os_IsNotExist os_ReadFile path = Ok (Some external) → external_valid external.
Proof.
  unfold ParseExt. destruct (os_Stat _) as [size|e]; [|by destruct (os_IsNotExist e)].
  destruct (size =? 0); [done|]. destruct (os_ReadFile _) as [data|e]; [|done].
  destruct (parse_ext_lines 1 _ ∅) as [m|e] eqn:E; [|done]. cbn [rbind]. intros [= <-].
  eapply parse_ext_lines_valid; [|exact E]. apply map_Forall_empty.
Qed.

Lemma external_links_valid_witness :
  external_valid {["A" := [mkExternalLink "eth0" 10]]}.
Proof.
  apply (external_links_valid (fun _ => Ok 9) (fun _ => false) (fun _ => Ok "A eth0.10") "/lab").
  vm_compute. reflexivity.
Defined.

(** ** The host-side name *)

Lemma contains_byte_Itoa_dot n : contains_byte (az 46) (Itoa n) = false.
Proof. by apply Itoa_free. Qed.

Lemma word_no_dot w :
  Forall (fun r => valid_rune r = true) w → forallb isWordRune w = true →
  contains_byte (az 46) (string_of_runes w) = false.
Proof.
  intros Hv Hw. apply contains_byte_runes; [done|done|]. intros Hin.
  rewrite forallb_forall in Hw. apply list_elem_of_In in Hin. specialize (Hw _ Hin).
  assert (isWordRune (zb (az 46)) = false) by (vm_compute; reflexivity). congruence.
Qed.

Lemma is_word_no_dot s : is_word s → contains_byte (az 46) s = false.
Proof. intros (w & [_ Hw] & Hv & ->). by apply word_no_dot. Qed.

Lemma NameAndVLAN_parts e :
  is_word e.(eInterface) →
  (NameAndVLAN e).2 = e.(VLAN) ∧ contains_byte (az 46) (NameAndVLAN e).1 = false.
Proof.
  intros Hi. unfold NameAndVLAN. destruct (Z.eqb_spec e.(VLAN) 0) as [->|].
  { split; [done|]. by apply is_word_no_dot. }
  cbv zeta. destruct (_ <? _); (split; [done|]); [|by apply is_word_no_dot].
  destruct Hi as (w & [_ Hw] & Hv & E). cbn [fst]. rewrite E, runes_string_of_runes by done.
  apply word_no_dot; [by apply Forall_take|by apply forallb_take].
Qed.

Lemma FullName_split e :
  is_word e.(eInterface) →
  split_byte (az 46) (FullName e) =
    if e.(VLAN) =? 0 then [e.(eInterface)] else [(NameAndVLAN e).1; Itoa e.(VLAN)].
Proof.
  intros Hi. pose proof (NameAndVLAN_parts e Hi) as [Hv Hb]. unfold FullName.
  destruct (NameAndVLAN e) as [base vlan] eqn:E. cbn [fst snd] in *. subst vlan.
  destruct (Z.eqb_spec e.(VLAN) 0) as [H0|H0].
  - unfold NameAndVLAN in E. rewrite H0 in E. injection E as <-. by apply contains_byte_split.
  - change ("." +:+ Itoa e.(VLAN)) with (String (az 46) (Itoa e.(VLAN))).
    rewrite split_byte_cons by done. f_equal. apply contains_byte_split, contains_byte_Itoa_dot.
Qed.

Lemma length_string_bytes s : length (string_bytes s) = String.length s.
Proof. induction s as [|a s IH]; [done|]. cbn. by rewrite IH. Qed.

Lemma length_runes_ascii s : is_ascii s = true → length (runes s) = String.length s.
Proof.
  intros Hs. unfold runes. rewrite decode_is_ascii by done. by rewrite !length_fmap, length_string_bytes.
Qed.

Lemma vlan_text v : 0 <= v <= 4094 → is_ascii (Itoa v) = true ∧ (String.length (Itoa v) ≤ 4)%nat.
Proof.
  intros Hv.
  pose proof (ascii_check (fun v => is_ascii (Itoa v) && (String.length (Itoa v) <=? 4)%nat) 0 4095
                ltac:(vm_compute; reflexivity) v ltac:(lia)) as H.
  cbv beta in H. by apply andb_true_iff in H as [? ?%Nat.leb_le].
Qed.

Lemma FullName_length e :
  link_valid e → e.(VLAN) ≠ 0 → (length (runes (FullName e)) ≤ 15)%nat.
Proof.
  intros [(w & Hw & Hv & Ei) Hr] Hne. unfold FullName, NameAndVLAN.
  rewrite (proj2 (Z.eqb_neq _ _)) by done. cbv zeta.
  destruct (vlan_text _ Hr) as [Ha Hl].
  set (suffix := "." +:+ Itoa e.(VLAN)).
  assert (Hs : length (runes suffix) = S (String.length (Itoa e.(VLAN)))).
  { unfold suffix. rewrite length_runes_ascii; [done|]. unfold is_ascii, all_bytes. cbn. exact Ha. }
  assert (Hlen : String.length suffix = S (String.length (Itoa e.(VLAN)))) by done.
  rewrite Ei, runes_string_of_runes by done.
  assert (Hj : ∀ rs, Forall (fun r => valid_rune r = true) rs →
    length (runes (string_of_runes rs +:+ suffix)) = (length rs + length (runes suffix))%nat).
  { intros rs Hrs. unfold runes. rewrite decode_string_of_runes by done.
    by rewrite fmap_app, length_app, !length_fmap. }
  destruct (Z.ltb_spec (Z.max 0 (15 - Z.of_nat (String.length suffix))) (Z.of_nat (length w)));
    rewrite (proj2 (Z.eqb_neq _ _)) by done; rewrite Hj by (try apply Forall_take; done);
    rewrite ?length_take, Hs; lia.
Qed.

(** Of the links the parser can produce, those with a VLAN get a host-side
    name of at most 15 characters, and two links whose names agree have the same VLAN
    and, without one, the same interface. *)
Theorem FullName_exact e e' :
  link_valid e → link_valid e' →
  (e.(VLAN) ≠ 0 → (length (runes (FullName e)) ≤ 15)%nat) ∧
  (FullName e = FullName e' →
     e.(VLAN) = e'.(VLAN) ∧ (e.(VLAN) = 0 → e.(eInterface) = e'.(eInterface))).
Proof.
  intros He He'. split; [by apply FullName_length|]. intros E.
  apply (f_equal (split_byte (az 46))) in E. rewrite !FullName_split in E by (apply He || apply He').
  destruct (Z.eqb_spec e.(VLAN) 0), (Z.eqb_spec e'.(VLAN) 0); simplify_eq/=; try done.
  split; [congruence|done].
Qed.

Lemma FullName_exact_witness :
  let e := mkExternalLink "enx0123456789ab" 4094 in
  link_valid e ∧ (length (runes (FullName e)) ≤ 15)%nat.
Proof.
  assert (H : link_valid (mkExternalLink "enx0123456789ab" 4094)).
  { split; [|cbn; lia]. exists (runes "enx0123456789ab").
    split; [split; [by vm_compute|by vm_compute]|]. split; [apply runes_valid|by vm_compute]. }
  split; [exact H|]. apply (FullName_exact _ _ H H). done.
Defined.

(** ** The options *)

(** An option is accepted when, quotes removed, it holds exactly one equals sign. *)
Definition option_parts (option : string) : list string := split_byte (az 61) (stripQuotes option).

Lemma parse_options_spec options : ∀ parsed,
  match parse_options options parsed with
  | Ok o => Forall (fun s => length (option_parts s) = 2%nat) options ∧
      ∀ x, Get o x = foldl (fun acc s => match option_parts s with
                                         | [k; v] => if String.eqb k x then Some v else acc
                                         | _ => acc
                                         end) (Get parsed x) options
  | Err e => ∃ k s, options !! k = Some s ∧ length (option_parts s) ≠ 2%nat ∧
      Forall (fun s => length (option_parts s) = 2%nat) (take k options) ∧
      e = NewValueOptionParameter (if (length (option_parts s) <? 2)%nat
            then notEnoughValues (Z.of_nat (length (option_parts s))) else tooManyValues)
  end.
Proof.
  induction options as [|s options IH]; intros parsed; [done|]. cbn [parse_options].
  change (split_byte (az 61) (stripQuotes s)) with (option_parts s).
  destruct (option_parts s) as [|k [|v [|x l]]] eqn:E;
    try (exists 0%nat, s; rewrite E; split_and!; [done|done|constructor|done]).
  specialize (IH (SetKey parsed k v).1). destruct (parse_options options _) as [o|e].
  - destruct IH as [Hall Hget]. split; [constructor; [by rewrite E|done]|]. intros y. rewrite Hget.
    cbn [foldl]. rewrite E. destruct (String.eqb_spec k y) as [->|Hne]; [by rewrite get_set_eq|by rewrite get_set_ne].
  - destruct IH as (i & s' & Hi & Hs' & Hall & He). exists (S i), s'. split_and!; [done|done| |done].
    constructor; [by rewrite E|done].
Qed.

(** The options are accepted exactly when each holds one equals sign once its
    quotes are removed, and then each key carries the value of its last occurrence; otherwise
    the error is Python's unpacking error for the first option that does not. *)
Theorem ParseOptions_exact options :
  match ParseOptions options with
  | Ok o => Forall (fun s => length (option_parts s) = 2%nat) options ∧
      ∀ x, Get o x = foldl (fun acc s => match option_parts s with
                                         | [k; v] => if String.eqb k x then Some v else acc
                                         | _ => acc
                                         end) None options
  | Err e => ∃ k s, options !! k = Some s ∧ length (option_parts s) ≠ 2%nat ∧
      Forall (fun s => length (option_parts s) = 2%nat) (take k options) ∧
      e = NewValueOptionParameter (if (length (option_parts s) <? 2)%nat
            then notEnoughValues (Z.of_nat (length (option_parts s))) else tooManyValues)
  end.
Proof. apply (parse_options_spec options NewOrderedMap). Qed.
