(* ===== verification/Event.v ===== *)
(** * The event dispatcher (event/dispatcher.go, event/events.go)

    The table maps an event name to the location of its subscriber list, and
    the lists live apart from the table, because a running dispatch keeps the
    list it started with while the key is deleted and filed anew.  A callback
    is an arbitrary program over the dispatcher: what it does through the
    library, and what other goroutines do before it returns, since the lock
    is only held across single accesses of the table. *)

From S2P Require Export Scalar.
Local Open Scope string_scope.
Local Open Scope list_scope.
Local Open Scope Z_scope.
Local Open Scope kat_scope.

(** ** Events *)

Inductive event : Type :=
| DockerImageUpdateFound | DockerPullEnded | DockerPullProgress | DockerPullStarted
| LinkDeployed | LinkUndeployed | LinksDeployEnded | LinksDeployStarted
| LinksUndeployEnded | LinksUndeployStarted | MachineDeployed
| MachineStartupWaitEnded | MachineStartupWaitStarted | MachineUndeployed
| MachinesDeployEnded | MachinesDeployStarted | MachinesUndeployEnded
| MachinesUndeployStarted | MachinesWithVolumes.

#[export] Instance event_eq_dec : EqDecision event.
Proof. solve_decision. Defined.

Definition eventName (e : event) : string :=
  match e with
  | DockerImageUpdateFound => "docker_image_update_found"
  | DockerPullEnded => "docker_pull_ended"
  | DockerPullProgress => "docker_pull_progress"
  | DockerPullStarted => "docker_pull_started"
  | LinkDeployed => "link_deployed"
  | LinkUndeployed => "link_undeployed"
  | LinksDeployEnded => "links_deploy_ended"
  | LinksDeployStarted => "links_deploy_started"
  | LinksUndeployEnded => "links_undeploy_ended"
  | LinksUndeployStarted => "links_undeploy_started"
  | MachineDeployed => "machine_deployed"
  | MachineStartupWaitEnded => "machine_startup_wait_ended"
  | MachineStartupWaitStarted => "machine_startup_wait_started"
  | MachineUndeployed => "machine_undeployed"
  | MachinesDeployEnded => "machines_deploy_ended"
  | MachinesDeployStarted => "machines_deploy_started"
  | MachinesUndeployEnded => "machines_undeploy_ended"
  | MachinesUndeployStarted => "machines_undeploy_started"
  | MachinesWithVolumes => "machines_with_volumes"
  end.

(** ** The table *)

(** A subscription: the event its handler takes, and the identities of the
    handler and of the hook. *)
Record subscription : Type := mkSubscription {
  s_event : event;
  handle : positive;
  onUnsubscribe : option positive;
}.

Record table : Type := mkTable {
  events : gmap string positive;
  lists : gmap positive (list subscription);
  nextList : positive;
}.

(** A pointer to a dispatcher: [None] is nil. *)
Definition Dispatcher : Type := option table.

Definition New : Dispatcher := Some (mkTable ∅ ∅ 1%positive).

Definition subscribe (name : string) (s : subscription) (d : Dispatcher) : Dispatcher :=
  match d with
  | None => None
  | Some t =>
      match t.(events) !! name with
      | Some l => Some (mkTable t.(events) (<[l := default [] (t.(lists) !! l) ++ [s]]> t.(lists)) t.(nextList))
      | None =>
          let l := t.(nextList) in
          Some (mkTable (<[name := l]> t.(events)) (<[l := [s]]> t.(lists)) (Pos.succ l))
      end
  end.

Definition Subscribe (e : event) (h : positive) (d : Dispatcher) : Dispatcher :=
  subscribe (eventName e) (mkSubscription e h None) d.
Definition SubscribeWithHook (e : event) (h hook : positive) (d : Dispatcher) : Dispatcher :=
  subscribe (eventName e) (mkSubscription e h (Some hook)) d.

Definition listOf (name : string) (d : Dispatcher) : option positive :=
  match d with None => None | Some t => t.(events) !! name end.

Definition subs_of (l : positive) (d : Dispatcher) : list subscription :=
  match d with None => [] | Some t => default [] (t.(lists) !! l) end.

Arguments subs_of : simpl never.

(** [at]: the list is read anew at every step. *)
Definition at_ (l : positive) (i : nat) (d : Dispatcher) : option subscription := subs_of l d !! i.

Definition newKeyError (name : string) : goerror := EPyRuntime "KeyError" ("'" +:+ name +:+ "'").

(** ** Dispatching *)

Definition callback : Type := subscription → M Dispatcher goerror unit.

(** The loop of [walk]; it ends when the list does, however long it grew:
    [None] is the fuel running out. *)
Fixpoint walk_loop (fuel : nat) (l : positive) (i : nat) (call : callback) (d : Dispatcher)
    : option (Dispatcher * result goerror unit) :=
  match fuel with
  | O => None
  | S fuel =>
      match at_ l i d with
      | None => Some (d, Ok tt)
      | Some s => match call s d with
                  | (d, Err e) => Some (d, Err e)
                  | (d, Ok _) => walk_loop fuel l (S i) call d
                  end
      end
  end.

Definition walk (fuel : nat) (name : string) (call : callback) (d : Dispatcher)
    : option (Dispatcher * result goerror unit) :=
  match listOf name d with
  | None => Some (d, Ok tt)
  | Some l => walk_loop fuel l 0 call d
  end.

Section callbacks.
(** What a handler does with the payload at hand, and what a hook does. *)
Context (run : positive → M Dispatcher goerror unit).

(** The type assertion of [Dispatch]: a subscription of another event is skipped. *)
Definition deliver (e : event) : callback := fun s =>
  if decide (s.(s_event) = e) then run s.(handle) else sret tt.

Definition Dispatch (fuel : nat) (e : event) (d : Dispatcher) := walk fuel (eventName e) (deliver e) d.

Definition run_hook : callback := fun s =>
  match s.(onUnsubscribe) with None => sret tt | Some h => run h end.

(** The final step of [unsubscribe], under the lock. *)
Definition delete_key (name : string) : M Dispatcher goerror unit := fun d =>
  match d with
  | None => (None, Ok tt)
  | Some t =>
      match t.(events) !! name with
      | None => (Some t, Err (newKeyError name))
      | Some _ => (Some (mkTable (delete name t.(events)) t.(lists) t.(nextList)), Ok tt)
      end
  end.

Definition unsubscribe (fuel : nat) (name : string) (d : Dispatcher)
    : option (Dispatcher * result goerror unit) :=
  match listOf name d with
  | None => Some (d, Ok tt)
  | Some l => match walk_loop fuel l 0 run_hook d with
              | Some (d, Ok _) => Some (delete_key name d)
              | o => o
              end
  end.

Definition Unsubscribe (fuel : nat) (e : event) (d : Dispatcher) := unsubscribe fuel (eventName e) d.
End callbacks.

Definition Subscribers (e : event) (d : Dispatcher) : result goerror (list positive) :=
  match listOf (eventName e) d with
  | None => Err (newKeyError (eventName e))
  | Some l => Ok (handle <$> List.filter (fun s => bool_decide (s.(s_event) = e)) (subs_of l d))
  end.

(** Handler 1 subscribes handler 2 to the event being dispatched and then
    takes the event away; every call is counted by a subscription to another
    event. *)
Definition example_run (h : positive) : M Dispatcher goerror unit := fun d =>
  let d := Subscribe DockerPullEnded h d in
  if Pos.eqb h 1
  then delete_key (eventName LinkDeployed) (Subscribe LinkDeployed 2 d)
  else (d, Ok tt).

Definition example_dispatcher : Dispatcher := SubscribeWithHook LinkDeployed 1 3 New.

Example dispatch_sees_new_subscriber :
  (fun o => (Subscribers DockerPullEnded (fst o), snd o, Subscribers LinkDeployed (fst o)))
    <$> Dispatch example_run 5 LinkDeployed example_dispatcher =
  Some (Ok [1%positive; 2%positive], Ok tt, Err (newKeyError "link_deployed")).
Proof. vm_compute. reflexivity. Qed.

(** ** What the library can do to the table

    Every change of the table is a [subscribe] or the delete that ends an
    [unsubscribe].  Callbacks and other goroutines interleave them freely. *)

Inductive step : Dispatcher → Dispatcher → Prop :=
| step_subscribe s d : step d (subscribe (eventName s.(s_event)) s d)
| step_delete name d : step d (fst (delete_key name d)).

Notation steps := (rtc step).
Notation reachable d := (steps New d).

(** A program that touches the dispatcher through the library only. *)
Definition through_library {A} (m : M Dispatcher goerror A) : Prop :=
  ∀ d, steps d (fst (m d)).

(** A table is sane: a list is filed under one name at most, it has been
    allocated and is not empty, and everything in it is of the event it is
    filed under; a list that is no longer filed still holds one event only. *)
Definition sane (d : Dispatcher) : Prop :=
  ∃ t, d = Some t ∧
  (∀ n l, t.(events) !! n = Some l →
     (l < t.(nextList))%positive ∧ ∃ s, s ∈ subs_of l d ∧ eventName s.(s_event) = n) ∧
  (∀ n n' l, t.(events) !! n = Some l → t.(events) !! n' = Some l → n = n') ∧
  (∀ l, (t.(nextList) <= l)%positive → t.(lists) !! l = None) ∧
  (∀ l s s', s ∈ subs_of l d → s' ∈ subs_of l d → s.(s_event) = s'.(s_event)).

Lemma eventName_inj : Inj (=) (=) eventName.
Proof. intros [] []; cbn; congruence. Qed.
#[export] Existing Instance eventName_inj.

Lemma subs_of_insert l l' ev xs m k :
  subs_of l (Some (mkTable ev (<[l' := xs]> m) k)) =
  if decide (l = l') then xs else default [] (m !! l).
Proof.
  unfold subs_of. cbn. case_decide; simplify_map_eq; done.
Qed.

Lemma sane_New : sane New.
Proof.
  eexists. split_and!; [done|..]; cbn; try set_solver.
  all: intros; simplify_map_eq.
  all: unfold subs_of in *; cbn in *; rewrite lookup_empty in *; set_solver.
Qed.

Lemma step_sane d d' : step d d' → sane d → sane d'.
Proof.
  intros [s ?|name ?] (t & -> & Hfiled & Huniq & Hfree & Hsame).
  - cbn. destruct (events t !! eventName (s_event s)) as [l|] eqn:E.
    + destruct (Hfiled _ _ E) as (Hlt & s0 & Hs0 & Hn0). apply (inj eventName) in Hn0.
      eexists. split; [done|]. cbn. split_and!; [| done | |].
      * intros n l' Hl'. destruct (Hfiled _ _ Hl') as (? & s' & Hs' & ?). split; [done|].
        exists s'. split; [|done]. rewrite subs_of_insert. case_decide; subst; set_solver.
      * intros l' ?. rewrite lookup_insert_ne by lia. auto.
      * intros l' s1 s2. rewrite subs_of_insert. case_decide; subst; [|apply Hsame].
        fold (subs_of l (Some t)). rewrite !elem_of_app, !list_elem_of_singleton.
        intros [?| ->] [?| ->]; eauto; [|symmetry]; rewrite <- Hn0; eauto.
    + eexists. split; [done|]. cbn. split_and!.
      * intros n l Hl. destruct (decide (n = eventName (s_event s))) as [->|].
        { simplify_map_eq. split; [lia|]. exists s. rewrite subs_of_insert, decide_True; set_solver. }
        rewrite lookup_insert_ne in Hl by done. destruct (Hfiled _ _ Hl) as (? & s' & ? & ?).
        split; [lia|]. exists s'. rewrite subs_of_insert, decide_False by lia. done.
      * intros n n' l Hn Hn'. rewrite lookup_insert in Hn, Hn'. repeat case_decide; subst; try congruence.
        all: simplify_eq; try by eauto.
        all: match goal with H : events _ !! _ = Some (nextList _) |- _ => apply Hfiled in H as [? _] end; lia.
      * intros l ?. rewrite lookup_insert_ne by lia. apply Hfree. lia.
      * intros l s1 s2. rewrite subs_of_insert. case_decide; subst; [set_solver|apply Hsame].
  - cbn. destruct (events t !! name) as [l|] eqn:E; cbn; [|by exists t].
    eexists. split; [done|]. cbn. split_and!; [| |done|done].
    + intros n l'. rewrite lookup_delete_Some. intros [_ H]. apply Hfiled in H. done.
    + intros n n' l'. rewrite !lookup_delete_Some. naive_solver.
Qed.

Lemma steps_sane d d' : steps d d' → sane d → sane d'.
Proof. induction 1; eauto using step_sane. Qed.

Lemma reachable_sane d : reachable d → sane d.
Proof. intros H. eapply steps_sane, sane_New; done. Qed.

Lemma subscribe_steps e h o d : steps d (subscribe (eventName e) (mkSubscription e h o) d).
Proof. apply rtc_once, (step_subscribe (mkSubscription e h o)). Qed.

Lemma example_run_library h : through_library (example_run h).
Proof.
  intros d. unfold example_run. destruct (Pos.eqb h 1).
  - etrans; [apply (subscribe_steps DockerPullEnded)|].
    etrans; [apply (subscribe_steps LinkDeployed)|]. apply rtc_once, step_delete.
  - apply (subscribe_steps DockerPullEnded).
Qed.

Lemma example_reachable : reachable example_dispatcher.
Proof. apply (subscribe_steps LinkDeployed). Qed.

(** ** A list only ever grows, and a list that is not filed does not *)

Lemma step_grows l d d' : sane d → step d d' → subs_of l d `prefix_of` subs_of l d'.
Proof.
  intros (t & -> & Hfiled & _ & Hfree & _) Hstep. inversion Hstep as [s|name]; subst; cbn.
  - destruct (events t !! _) as [l'|] eqn:E; rewrite subs_of_insert; case_decide; subst; try done.
    + by eexists.
    + unfold subs_of. cbn. rewrite Hfree by lia. apply prefix_nil.
  - destruct (events t !! name); done.
Qed.

Lemma steps_grows l d d' : sane d → steps d d' → subs_of l d `prefix_of` subs_of l d'.
Proof.
  intros Hd H. induction H as [|d d1 d2 H ? IH]; [done|].
  etrans; [by eapply step_grows|]. eauto using step_sane.
Qed.

Definition unfiled (l : positive) (d : Dispatcher) : Prop :=
  ∃ t, d = Some t ∧ (l < t.(nextList))%positive ∧ ∀ n, t.(events) !! n ≠ Some l.

Lemma step_unfiled l d d' : step d d' → unfiled l d → unfiled l d' ∧ subs_of l d' = subs_of l d.
Proof.
  intros Hstep (t & -> & Hlt & Hn). inversion Hstep as [s|name]; subst; cbn.
  - destruct (events t !! _) as [l'|] eqn:E; rewrite subs_of_insert; rewrite decide_False by (naive_solver lia);
      (split; [|done]); eexists; (split; [done|]); cbn; (split; [lia|]); try done.
    intros n. rewrite lookup_insert_Some. intros [[_ ?]|[_ ?]]; [lia|naive_solver].
  - destruct (events t !! name); (split; [|done]); eexists; (split; [done|]); cbn; (split; [done|]); try done.
    intros n. rewrite lookup_delete_Some. naive_solver.
Qed.

Lemma steps_unfiled l d d' : steps d d' → unfiled l d → unfiled l d' ∧ subs_of l d' = subs_of l d.
Proof.
  induction 1 as [|d d1 d2 H ? IH]; [done|]. intros Hd.
  destruct (step_unfiled _ _ _ H Hd) as [Hd1 <-]. auto.
Qed.

(** ** The loop *)

Lemma walk_loop_steps fuel l i call d d' r :
  (∀ s, through_library (call s)) → walk_loop fuel l i call d = Some (d', r) → steps d d'.
Proof.
  intros Hcall. revert i d. induction fuel as [|fuel IH]; intros i d; cbn; [done|].
  destruct (at_ l i d) as [s|]; [|by intros [= -> _]].
  specialize (Hcall s d). destruct (call s d) as [d1 [u|e]]; intros H; [|by simplify_eq].
  etrans; [done|]. eauto.
Qed.

(** The loop runs the list as it stands at the end. *)
Lemma walk_loop_final fuel l i call d d' r :
  (∀ s, through_library (call s)) → sane d →
  walk_loop fuel l i call d = Some (d', r) → sfor (drop i (subs_of l d')) call d = (d', r).
Proof.
  intros Hcall. revert i d. induction fuel as [|fuel IH]; intros i d Hd; cbn; [done|].
  destruct (at_ l i d) as [s|] eqn:Es.
  - intros H. assert (Hfin : subs_of l d' !! i = Some s).
    { eapply prefix_lookup_Some; [exact Es|]. eapply steps_grows; [done|].
      eapply (walk_loop_steps (S fuel) l i call); [done|]. cbn. rewrite Es. exact H. }
    rewrite (drop_S _ _ _ Hfin). cbn. unfold sbind. pose proof (Hcall s d) as Hs.
    destruct (call s d) as [d1 [u|e]]; [|by simplify_eq].
    apply IH; [|done]. by eapply steps_sane.
  - intros [= -> <-]. unfold at_ in Es. rewrite lookup_ge_None in Es.
    by rewrite drop_ge.
Qed.

(** Enough fuel: one step more than the list can ever hold. *)
Lemma walk_loop_enough (I : Dispatcher → Prop) N l call d i :
  (∀ s d, I d → I (fst (call s d))) → (∀ d, I d → (length (subs_of l d) ≤ N)%nat) →
  I d → (i ≤ N)%nat → is_Some (walk_loop (S N - i) l i call d).
Proof.
  intros Hcall Hlen Hd Hi. assert (∃ k, k = (N - i)%nat) as [k Hk] by eauto.
  replace (S N - i)%nat with (S k) by lia. revert i d Hd Hi Hk.
  induction k as [|k IH]; intros i d Hd Hi Hk; cbn [walk_loop].
  all: destruct (at_ l i d) as [s|] eqn:Es; [|done].
  all: unfold at_ in Es; pose proof (lookup_lt_Some _ _ _ Es); pose proof (Hlen d Hd); try lia.
  pose proof (Hcall s d Hd). destruct (call s d) as [d1 [u|e]]; [|done].
  apply IH; [done|lia..].
Qed.

Lemma sane_list_event d n l s :
  sane d → listOf n d = Some l → s ∈ subs_of l d → eventName s.(s_event) = n.
Proof.
  intros (t & -> & Hfiled & _ & _ & Hsame) H Hs. destruct (Hfiled _ _ H) as (_ & s' & Hs' & <-).
  f_equal. eauto.
Qed.

(** The event of a list survives the list growing, filed or not. *)
Lemma list_event_final d d' n l s :
  sane d → steps d d' → listOf n d = Some l → s ∈ subs_of l d' → eventName s.(s_event) = n.
Proof.
  intros Hd Hsteps Hl Hs. pose proof (steps_sane _ _ Hsteps Hd) as (t' & -> & _ & _ & _ & Hsame).
  pose proof Hd as (t & -> & Hfiled & _). destruct (Hfiled _ _ Hl) as (_ & s' & Hs' & <-).
  f_equal. eapply Hsame; [done|]. eapply elem_of_prefix; [done|]. by eapply steps_grows.
Qed.

Lemma delete_key_spec n d :
  delete_key n d = match listOf n d with
                   | None => (d, match d with None => Ok tt | Some _ => Err (newKeyError n) end)
                   | Some _ => (fst (delete_key n d), Ok tt)
                   end.
Proof. destruct d as [t|]; cbn; [|done]. by destruct (events t !! n). Qed.

Lemma delete_key_listOf n d : listOf n (fst (delete_key n d)) = None.
Proof.
  destruct d as [t|]; cbn; [|done]. destruct (events t !! n) eqn:E; cbn; [|done].
  apply lookup_delete_eq.
Qed.

Lemma delete_key_subs n l d : subs_of l (fst (delete_key n d)) = subs_of l d.
Proof. destruct d as [t|]; cbn; [|done]. by destruct (events t !! n). Qed.

Section callbacks_theorems.
Context (run : positive → M Dispatcher goerror unit).
Context (Hrun : ∀ h, through_library (run h)).

Lemma deliver_library e s : through_library (deliver run e s).
Proof. intros d. unfold deliver. case_decide; [apply Hrun|done]. Qed.

Lemma run_hook_library s : through_library (run_hook run s).
Proof. intros d. unfold run_hook. destruct (onUnsubscribe s); [apply Hrun|done]. Qed.

Lemma sfor_deliver e xs d :
  (∀ s, s ∈ xs → s.(s_event) = e) → sfor xs (deliver run e) d = sfor (handle <$> xs) run d.
Proof.
  clear Hrun. revert d. induction xs as [|s xs IH]; intros d Hxs; cbn; [done|]. unfold sbind.
  unfold deliver at 1. rewrite decide_True by set_solver.
  destruct (run (handle s) d) as [d1 [u|e']]; [|done]. apply IH. set_solver.
Qed.
End callbacks_theorems.

Lemma Dispatch_through_library run fuel e d d' r :
  (∀ h, through_library (run h)) → Dispatch run fuel e d = Some (d', r) → steps d d'.
Proof.
  intros Hrun. unfold Dispatch, walk. destruct (listOf _ d) as [l|]; [|by intros [= -> _]].
  apply walk_loop_steps. intros s. by apply deliver_library.
Qed.

Lemma Unsubscribe_through_library run fuel e d d' r :
  (∀ h, through_library (run h)) → Unsubscribe run fuel e d = Some (d', r) → steps d d'.
Proof.
  intros Hrun. unfold Unsubscribe, unsubscribe. destruct (listOf _ d) as [l|]; [|by intros [= -> _]].
  destruct (walk_loop fuel l 0 (run_hook run) d) as [[d1 [u|err]]|] eqn:E; intros H; [| |done].
  all: apply walk_loop_steps in E; [|by intros s; apply run_hook_library].
  - apply (inj Some) in H. etrans; [done|]. apply rtc_once.
    replace d' with (fst (delete_key (eventName e) d1)) by (by rewrite H). constructor.
  - by simplify_eq.
Qed.

(** ** Properties *)

(** A dispatch runs, in registration order and up to the first
    error, exactly the handlers of the list it started with as that list
    stands when the dispatch returns: a handler subscribed meanwhile is run in
    the same dispatch, an unsubscribe meanwhile takes none away, none is run
    twice and the type assertion skips none, whatever the handlers (and other
    goroutines) do through the library in between. *)
Theorem Dispatch_runs_the_list run fuel e d d' r l :
  reachable d → (∀ h, through_library (run h)) →
  listOf (eventName e) d = Some l → Dispatch run fuel e d = Some (d', r) →
  sfor (handle <$> subs_of l d') run d = (d', r) ∧ subs_of l d `prefix_of` subs_of l d'.
Proof.
  intros Hd%reachable_sane Hrun Hl H. pose proof (Dispatch_through_library _ _ _ _ _ _ Hrun H) as Hsteps.
  split; [|by apply steps_grows].
  unfold Dispatch, walk in H. rewrite Hl in H.
  apply walk_loop_final in H; [|by intros s; apply deliver_library|done].
  rewrite <- (sfor_deliver run e); [exact H|].
  intros s Hs. apply (inj eventName). by eapply list_event_final.
Qed.

Lemma Dispatch_runs_the_list_witness :
  ∃ d', Dispatch example_run 5 LinkDeployed example_dispatcher = Some (d', Ok tt) ∧
        handle <$> subs_of 1 d' = [1%positive; 2%positive] ∧
        sfor (handle <$> subs_of 1 d') example_run example_dispatcher = (d', Ok tt).
Proof.
  eexists. split; [vm_compute; reflexivity|]. split; [vm_compute; reflexivity|].
  apply (Dispatch_runs_the_list example_run 5 LinkDeployed example_dispatcher _ (Ok tt) 1).
  - apply example_reachable.
  - apply example_run_library.
  - vm_compute. reflexivity.
  - vm_compute. reflexivity.
Defined.

(** A dispatch ends as soon as its list is bounded: if what the
    handlers do keeps the list within N subscriptions, N + 1 rounds are
    enough; a handler that subscribes anew at every call is the only way to
    keep a dispatch going. *)
Theorem Dispatch_terminates run N e d (I : Dispatcher → Prop) :
  (∀ h d, I d → I (fst (run h d))) →
  (∀ d l, I d → (length (subs_of l d) ≤ N)%nat) →
  I d → is_Some (Dispatch run (S N) e d).
Proof.
  intros Hrun Hlen Hd. unfold Dispatch, walk. destruct (listOf _ d) as [l|]; [|done].
  apply (walk_loop_enough I N l (deliver run e) d 0); [|by intros; apply Hlen|done|lia].
  intros s d1 Hd1. unfold deliver. case_decide; [by apply Hrun|done].
Qed.

Lemma Dispatch_terminates_witness :
  is_Some (Dispatch (fun _ => delete_key "link_deployed") 2 LinkDeployed example_dispatcher).
Proof.
  apply (Dispatch_terminates _ 1 _ _ (fun d => ∀ l, (length (subs_of l d) ≤ 1)%nat)).
  - intros _ d Hd l. rewrite delete_key_subs. apply Hd.
  - intros d l Hd. apply Hd.
  - intros l. change example_dispatcher with
      (Some (mkTable {["link_deployed" := 1%positive]} (<[1%positive := [mkSubscription LinkDeployed 1 (Some 3%positive)]]> ∅) 2)).
    rewrite subs_of_insert. case_decide; [done|]. rewrite lookup_empty. cbn. lia.
Defined.

(** An unsubscribe of a known event runs the hooks of the list
    as it stands in the end, in registration order.  If one fails the
    unsubscribe returns its error and the event stays as the hooks left it; if
    all succeed the key is deleted, and a KeyError reports that a hook (or
    another goroutine) had deleted it first. *)
Theorem Unsubscribe_runs_hooks_then_deletes run fuel e d d' r l :
  reachable d → (∀ h, through_library (run h)) →
  listOf (eventName e) d = Some l → Unsubscribe run fuel e d = Some (d', r) →
  ∃ d1 r1, sfor (subs_of l d') (run_hook run) d = (d1, r1) ∧
  match r1 with
  | Err err => d' = d1 ∧ r = Err err
  | Ok _ => listOf (eventName e) d' = None ∧ (∀ l', subs_of l' d' = subs_of l' d1) ∧
            r = if listOf (eventName e) d1 then Ok tt else Err (newKeyError (eventName e))
  end.
Proof.
  intros Hd%reachable_sane Hrun Hl. unfold Unsubscribe, unsubscribe. rewrite Hl.
  destruct (walk_loop fuel l 0 (run_hook run) d) as [[d1 r1]|] eqn:E; [|by intros [=]].
  pose proof (walk_loop_steps _ _ _ _ _ _ _ ltac:(intros s; by apply run_hook_library) E) as Hsteps.
  apply walk_loop_final in E; [|by intros s; apply run_hook_library|done]. rewrite drop_0 in E.
  pose proof (steps_sane _ _ Hsteps Hd) as (t1 & -> & _).
  intros H. exists (Some t1), r1. destruct r1 as [[]|err]; [|by simplify_eq].
  apply (inj Some) in H. assert (d' = fst (delete_key (eventName e) (Some t1))) as Hd' by (by rewrite H).
  rewrite Hd', delete_key_subs. split_and!; [done|apply delete_key_listOf|intros; apply delete_key_subs|].
  apply (f_equal snd) in H. cbn [snd] in H. rewrite <- H, delete_key_spec. destruct (listOf _ (Some t1)); reflexivity.
Qed.

Lemma Unsubscribe_runs_hooks_then_deletes_witness :
  ∃ d', Unsubscribe (fun _ => delete_key "link_deployed") 5 LinkDeployed example_dispatcher
        = Some (d', Err (newKeyError "link_deployed")) ∧ listOf "link_deployed" d' = None.
Proof.
  eexists. split; [vm_compute; reflexivity|].
  destruct (Unsubscribe_runs_hooks_then_deletes (fun _ => delete_key "link_deployed") 5 LinkDeployed
              example_dispatcher _ _ 1 example_reachable
              ltac:(intros _ d; apply rtc_once, step_delete) ltac:(vm_compute; reflexivity)
              ltac:(vm_compute; reflexivity)) as (d1 & r1 & E & H).
  vm_compute. reflexivity.
Defined.

(** Once its key is deleted a list is final: whatever the
    library does afterwards, a dispatch still walking it finds the same
    subscriptions, and the event, if subscribed to again, is filed under a
    list of its own. *)
Theorem deleted_list_is_final n l d d' :
  reachable d → listOf n d = Some l → steps (fst (delete_key n d)) d' →
  subs_of l d' = subs_of l d ∧ listOf n d' ≠ Some l.
Proof.
  intros (t & -> & Hfiled & Huniq & _)%reachable_sane Hl Hsteps. cbn in Hl.
  destruct (Hfiled _ _ Hl) as [Hlt _]. cbn in Hsteps. rewrite Hl in Hsteps.
  destruct (steps_unfiled l _ _ Hsteps) as [(t' & -> & _ & Hn) ->].
  - eexists. split; [done|]. cbn. split; [done|].
    intros n'. rewrite lookup_delete_Some. naive_solver.
  - split; [done|]. apply Hn.
Qed.

Lemma deleted_list_is_final_witness :
  let d' := Subscribe LinkDeployed 2 (fst (delete_key "link_deployed" example_dispatcher)) in
  subs_of 1 d' = [mkSubscription LinkDeployed 1 (Some 3%positive)] ∧ listOf "link_deployed" d' ≠ Some 1%positive.
Proof.
  apply (deleted_list_is_final "link_deployed" 1 example_dispatcher _ example_reachable); [reflexivity|].
  apply (subscribe_steps LinkDeployed).
Defined.
