(* ===== verification/Screen.v ===== *)
(** * The terminal emulator (term/screen.go)

    A pane of the multiplexer is a grid of cells, a cursor, a scroll region, a
    bounded history and the state of the escape-sequence parser.  An index out
    of range is a runtime panic, which [result panic] makes a value.  Rows are
    never shared between two positions of a grid, so a grid is a list of
    lists.  The display width of a rune beyond ASCII is that of package
    lipgloss, a parameter. *)

From S2P Require Export Strconv Slice.
Local Open Scope string_scope.
Local Open Scope list_scope.
Local Open Scope Z_scope.
Local Open Scope kat_scope.

(** [lipgloss.Width], of which the emulator relies on one thing: a rune takes
    no cell, one or two. *)
Class Lipgloss : Type := lgWidth : string → Z.
Class LipglossLaws `{LG : Lipgloss} : Prop :=
  lgWidth_rune r : 0 <= lgWidth (encode_rune r) <= 2.

(** ** The screen *)

Definition DefaultScrollback : Z := 2000.

(** A cell: its rune and an index into the style table.  The second cell of a
    double-width rune holds rune 0. *)
Record cell : Type := mkCell { crune : Z; cstyle : Z }.

Definition blank : cell := mkCell 0x20 0.

Notation Grid := (list (list cell)).

Inductive parseState : Type :=
| stGround | stEsc | stCSI | stOSC | stStr | stCharset.

#[export] Instance parseState_eq_dec : EqDecision parseState.
Proof. solve_decision. Defined.

Record Screen : Type := mkScreen {
  cols : Z;
  rows : Z;
  grid : Grid;
  curX : Z;
  curY : Z;
  savedX : Z;
  savedY : Z;
  savedStyle : Z;
  style : Z;
  styles : list string;
  styleIndex : gmap string Z;
  scrollTop : Z;
  scrollBot : Z;
  wrapNext : bool;
  autoWrap : bool;
  scrollback : Grid;
  maxScrollback : Z;
  alt : Grid;
  altActive : bool;
  altCurX : Z;
  altCurY : Z;
  cursorHidden : bool;
  title : string;
  pending : string;
  state : parseState;
  params : string;
  inter : string;
}.

Definition set_cols (v : Z) (s : Screen) : Screen :=
  mkScreen
    v s.(rows) s.(grid) s.(curX) s.(curY) s.(savedX) s.(savedY) s.(savedStyle) s.(style)
    s.(styles) s.(styleIndex) s.(scrollTop) s.(scrollBot) s.(wrapNext) s.(autoWrap)
    s.(scrollback) s.(maxScrollback) s.(alt) s.(altActive) s.(altCurX) s.(altCurY)
    s.(cursorHidden) s.(title) s.(pending) s.(state) s.(params) s.(inter).
Definition set_rows (v : Z) (s : Screen) : Screen :=
  mkScreen
    s.(cols) v s.(grid) s.(curX) s.(curY) s.(savedX) s.(savedY) s.(savedStyle) s.(style)
    s.(styles) s.(styleIndex) s.(scrollTop) s.(scrollBot) s.(wrapNext) s.(autoWrap)
    s.(scrollback) s.(maxScrollback) s.(alt) s.(altActive) s.(altCurX) s.(altCurY)
    s.(cursorHidden) s.(title) s.(pending) s.(state) s.(params) s.(inter).
Definition set_grid (v : Grid) (s : Screen) : Screen :=
  mkScreen
    s.(cols) s.(rows) v s.(curX) s.(curY) s.(savedX) s.(savedY) s.(savedStyle) s.(style)
    s.(styles) s.(styleIndex) s.(scrollTop) s.(scrollBot) s.(wrapNext) s.(autoWrap)
    s.(scrollback) s.(maxScrollback) s.(alt) s.(altActive) s.(altCurX) s.(altCurY)
    s.(cursorHidden) s.(title) s.(pending) s.(state) s.(params) s.(inter).
Definition set_curX (v : Z) (s : Screen) : Screen :=
  mkScreen
    s.(cols) s.(rows) s.(grid) v s.(curY) s.(savedX) s.(savedY) s.(savedStyle) s.(style)
    s.(styles) s.(styleIndex) s.(scrollTop) s.(scrollBot) s.(wrapNext) s.(autoWrap)
    s.(scrollback) s.(maxScrollback) s.(alt) s.(altActive) s.(altCurX) s.(altCurY)
    s.(cursorHidden) s.(title) s.(pending) s.(state) s.(params) s.(inter).
Definition set_curY (v : Z) (s : Screen) : Screen :=
  mkScreen
    s.(cols) s.(rows) s.(grid) s.(curX) v s.(savedX) s.(savedY) s.(savedStyle) s.(style)
    s.(styles) s.(styleIndex) s.(scrollTop) s.(scrollBot) s.(wrapNext) s.(autoWrap)
    s.(scrollback) s.(maxScrollback) s.(alt) s.(altActive) s.(altCurX) s.(altCurY)
    s.(cursorHidden) s.(title) s.(pending) s.(state) s.(params) s.(inter).
Definition set_savedX (v : Z) (s : Screen) : Screen :=
  mkScreen
    s.(cols) s.(rows) s.(grid) s.(curX) s.(curY) v s.(savedY) s.(savedStyle) s.(style)
    s.(styles) s.(styleIndex) s.(scrollTop) s.(scrollBot) s.(wrapNext) s.(autoWrap)
    s.(scrollback) s.(maxScrollback) s.(alt) s.(altActive) s.(altCurX) s.(altCurY)
    s.(cursorHidden) s.(title) s.(pending) s.(state) s.(params) s.(inter).
Definition set_savedY (v : Z) (s : Screen) : Screen :=
  mkScreen
    s.(cols) s.(rows) s.(grid) s.(curX) s.(curY) s.(savedX) v s.(savedStyle) s.(style)
    s.(styles) s.(styleIndex) s.(scrollTop) s.(scrollBot) s.(wrapNext) s.(autoWrap)
    s.(scrollback) s.(maxScrollback) s.(alt) s.(altActive) s.(altCurX) s.(altCurY)
    s.(cursorHidden) s.(title) s.(pending) s.(state) s.(params) s.(inter).
Definition set_savedStyle (v : Z) (s : Screen) : Screen :=
  mkScreen
    s.(cols) s.(rows) s.(grid) s.(curX) s.(curY) s.(savedX) s.(savedY) v s.(style)
    s.(styles) s.(styleIndex) s.(scrollTop) s.(scrollBot) s.(wrapNext) s.(autoWrap)
    s.(scrollback) s.(maxScrollback) s.(alt) s.(altActive) s.(altCurX) s.(altCurY)
    s.(cursorHidden) s.(title) s.(pending) s.(state) s.(params) s.(inter).
Definition set_style (v : Z) (s : Screen) : Screen :=
  mkScreen
    s.(cols) s.(rows) s.(grid) s.(curX) s.(curY) s.(savedX) s.(savedY) s.(savedStyle) v
    s.(styles) s.(styleIndex) s.(scrollTop) s.(scrollBot) s.(wrapNext) s.(autoWrap)
    s.(scrollback) s.(maxScrollback) s.(alt) s.(altActive) s.(altCurX) s.(altCurY)
    s.(cursorHidden) s.(title) s.(pending) s.(state) s.(params) s.(inter).
Definition set_styles (v : (list string)) (s : Screen) : Screen :=
  mkScreen
    s.(cols) s.(rows) s.(grid) s.(curX) s.(curY) s.(savedX) s.(savedY) s.(savedStyle)
    s.(style) v s.(styleIndex) s.(scrollTop) s.(scrollBot) s.(wrapNext) s.(autoWrap)
    s.(scrollback) s.(maxScrollback) s.(alt) s.(altActive) s.(altCurX) s.(altCurY)
    s.(cursorHidden) s.(title) s.(pending) s.(state) s.(params) s.(inter).
Definition set_styleIndex (v : (gmap string Z)) (s : Screen) : Screen :=
  mkScreen
    s.(cols) s.(rows) s.(grid) s.(curX) s.(curY) s.(savedX) s.(savedY) s.(savedStyle)
    s.(style) s.(styles) v s.(scrollTop) s.(scrollBot) s.(wrapNext) s.(autoWrap)
    s.(scrollback) s.(maxScrollback) s.(alt) s.(altActive) s.(altCurX) s.(altCurY)
    s.(cursorHidden) s.(title) s.(pending) s.(state) s.(params) s.(inter).
Definition set_scrollTop (v : Z) (s : Screen) : Screen :=
  mkScreen
    s.(cols) s.(rows) s.(grid) s.(curX) s.(curY) s.(savedX) s.(savedY) s.(savedStyle)
    s.(style) s.(styles) s.(styleIndex) v s.(scrollBot) s.(wrapNext) s.(autoWrap)
    s.(scrollback) s.(maxScrollback) s.(alt) s.(altActive) s.(altCurX) s.(altCurY)
    s.(cursorHidden) s.(title) s.(pending) s.(state) s.(params) s.(inter).
Definition set_scrollBot (v : Z) (s : Screen) : Screen :=
  mkScreen
    s.(cols) s.(rows) s.(grid) s.(curX) s.(curY) s.(savedX) s.(savedY) s.(savedStyle)
    s.(style) s.(styles) s.(styleIndex) s.(scrollTop) v s.(wrapNext) s.(autoWrap)
    s.(scrollback) s.(maxScrollback) s.(alt) s.(altActive) s.(altCurX) s.(altCurY)
    s.(cursorHidden) s.(title) s.(pending) s.(state) s.(params) s.(inter).
Definition set_wrapNext (v : bool) (s : Screen) : Screen :=
  mkScreen
    s.(cols) s.(rows) s.(grid) s.(curX) s.(curY) s.(savedX) s.(savedY) s.(savedStyle)
    s.(style) s.(styles) s.(styleIndex) s.(scrollTop) s.(scrollBot) v s.(autoWrap)
    s.(scrollback) s.(maxScrollback) s.(alt) s.(altActive) s.(altCurX) s.(altCurY)
    s.(cursorHidden) s.(title) s.(pending) s.(state) s.(params) s.(inter).
Definition set_autoWrap (v : bool) (s : Screen) : Screen :=
  mkScreen
    s.(cols) s.(rows) s.(grid) s.(curX) s.(curY) s.(savedX) s.(savedY) s.(savedStyle)
    s.(style) s.(styles) s.(styleIndex) s.(scrollTop) s.(scrollBot) s.(wrapNext) v
    s.(scrollback) s.(maxScrollback) s.(alt) s.(altActive) s.(altCurX) s.(altCurY)
    s.(cursorHidden) s.(title) s.(pending) s.(state) s.(params) s.(inter).
Definition set_scrollback (v : Grid) (s : Screen) : Screen :=
  mkScreen
    s.(cols) s.(rows) s.(grid) s.(curX) s.(curY) s.(savedX) s.(savedY) s.(savedStyle)
    s.(style) s.(styles) s.(styleIndex) s.(scrollTop) s.(scrollBot) s.(wrapNext)
    s.(autoWrap) v s.(maxScrollback) s.(alt) s.(altActive) s.(altCurX) s.(altCurY)
    s.(cursorHidden) s.(title) s.(pending) s.(state) s.(params) s.(inter).
Definition set_maxScrollback (v : Z) (s : Screen) : Screen :=
  mkScreen
    s.(cols) s.(rows) s.(grid) s.(curX) s.(curY) s.(savedX) s.(savedY) s.(savedStyle)
    s.(style) s.(styles) s.(styleIndex) s.(scrollTop) s.(scrollBot) s.(wrapNext)
    s.(autoWrap) s.(scrollback) v s.(alt) s.(altActive) s.(altCurX) s.(altCurY)
    s.(cursorHidden) s.(title) s.(pending) s.(state) s.(params) s.(inter).
Definition set_alt (v : Grid) (s : Screen) : Screen :=
  mkScreen
    s.(cols) s.(rows) s.(grid) s.(curX) s.(curY) s.(savedX) s.(savedY) s.(savedStyle)
    s.(style) s.(styles) s.(styleIndex) s.(scrollTop) s.(scrollBot) s.(wrapNext)
    s.(autoWrap) s.(scrollback) s.(maxScrollback) v s.(altActive) s.(altCurX) s.(altCurY)
    s.(cursorHidden) s.(title) s.(pending) s.(state) s.(params) s.(inter).
Definition set_altActive (v : bool) (s : Screen) : Screen :=
  mkScreen
    s.(cols) s.(rows) s.(grid) s.(curX) s.(curY) s.(savedX) s.(savedY) s.(savedStyle)
    s.(style) s.(styles) s.(styleIndex) s.(scrollTop) s.(scrollBot) s.(wrapNext)
    s.(autoWrap) s.(scrollback) s.(maxScrollback) s.(alt) v s.(altCurX) s.(altCurY)
    s.(cursorHidden) s.(title) s.(pending) s.(state) s.(params) s.(inter).
Definition set_altCurX (v : Z) (s : Screen) : Screen :=
  mkScreen
    s.(cols) s.(rows) s.(grid) s.(curX) s.(curY) s.(savedX) s.(savedY) s.(savedStyle)
    s.(style) s.(styles) s.(styleIndex) s.(scrollTop) s.(scrollBot) s.(wrapNext)
    s.(autoWrap) s.(scrollback) s.(maxScrollback) s.(alt) s.(altActive) v s.(altCurY)
    s.(cursorHidden) s.(title) s.(pending) s.(state) s.(params) s.(inter).
Definition set_altCurY (v : Z) (s : Screen) : Screen :=
  mkScreen
    s.(cols) s.(rows) s.(grid) s.(curX) s.(curY) s.(savedX) s.(savedY) s.(savedStyle)
    s.(style) s.(styles) s.(styleIndex) s.(scrollTop) s.(scrollBot) s.(wrapNext)
    s.(autoWrap) s.(scrollback) s.(maxScrollback) s.(alt) s.(altActive) s.(altCurX) v
    s.(cursorHidden) s.(title) s.(pending) s.(state) s.(params) s.(inter).
Definition set_cursorHidden (v : bool) (s : Screen) : Screen :=
  mkScreen
    s.(cols) s.(rows) s.(grid) s.(curX) s.(curY) s.(savedX) s.(savedY) s.(savedStyle)
    s.(style) s.(styles) s.(styleIndex) s.(scrollTop) s.(scrollBot) s.(wrapNext)
    s.(autoWrap) s.(scrollback) s.(maxScrollback) s.(alt) s.(altActive) s.(altCurX)
    s.(altCurY) v s.(title) s.(pending) s.(state) s.(params) s.(inter).
Definition set_title (v : string) (s : Screen) : Screen :=
  mkScreen
    s.(cols) s.(rows) s.(grid) s.(curX) s.(curY) s.(savedX) s.(savedY) s.(savedStyle)
    s.(style) s.(styles) s.(styleIndex) s.(scrollTop) s.(scrollBot) s.(wrapNext)
    s.(autoWrap) s.(scrollback) s.(maxScrollback) s.(alt) s.(altActive) s.(altCurX)
    s.(altCurY) s.(cursorHidden) v s.(pending) s.(state) s.(params) s.(inter).
Definition set_pending (v : string) (s : Screen) : Screen :=
  mkScreen
    s.(cols) s.(rows) s.(grid) s.(curX) s.(curY) s.(savedX) s.(savedY) s.(savedStyle)
    s.(style) s.(styles) s.(styleIndex) s.(scrollTop) s.(scrollBot) s.(wrapNext)
    s.(autoWrap) s.(scrollback) s.(maxScrollback) s.(alt) s.(altActive) s.(altCurX)
    s.(altCurY) s.(cursorHidden) s.(title) v s.(state) s.(params) s.(inter).
Definition set_state (v : parseState) (s : Screen) : Screen :=
  mkScreen
    s.(cols) s.(rows) s.(grid) s.(curX) s.(curY) s.(savedX) s.(savedY) s.(savedStyle)
    s.(style) s.(styles) s.(styleIndex) s.(scrollTop) s.(scrollBot) s.(wrapNext)
    s.(autoWrap) s.(scrollback) s.(maxScrollback) s.(alt) s.(altActive) s.(altCurX)
    s.(altCurY) s.(cursorHidden) s.(title) s.(pending) v s.(params) s.(inter).
Definition set_params (v : string) (s : Screen) : Screen :=
  mkScreen
    s.(cols) s.(rows) s.(grid) s.(curX) s.(curY) s.(savedX) s.(savedY) s.(savedStyle)
    s.(style) s.(styles) s.(styleIndex) s.(scrollTop) s.(scrollBot) s.(wrapNext)
    s.(autoWrap) s.(scrollback) s.(maxScrollback) s.(alt) s.(altActive) s.(altCurX)
    s.(altCurY) s.(cursorHidden) s.(title) s.(pending) s.(state) v s.(inter).
Definition set_inter (v : string) (s : Screen) : Screen :=
  mkScreen
    s.(cols) s.(rows) s.(grid) s.(curX) s.(curY) s.(savedX) s.(savedY) s.(savedStyle)
    s.(style) s.(styles) s.(styleIndex) s.(scrollTop) s.(scrollBot) s.(wrapNext)
    s.(autoWrap) s.(scrollback) s.(maxScrollback) s.(alt) s.(altActive) s.(altCurX)
    s.(altCurY) s.(cursorHidden) s.(title) s.(pending) s.(state) s.(params) v.

(** ** Construction *)

Definition newLine (cols : Z) : list cell := replicate (Z.to_nat cols) blank.
Definition newGrid (cols rows : Z) : Grid := replicate (Z.to_nat rows) (newLine cols).

Definition NewScreen (cols rows scrollback : Z) : Screen :=
  let cols := if cols <? 1 then 1 else cols in
  let rows := if rows <? 1 then 1 else rows in
  let scrollback := if scrollback =? 0 then DefaultScrollback else scrollback in
  let scrollback := if scrollback <? 0 then 0 else scrollback in
  mkScreen cols rows (newGrid cols rows) 0 0 0 0 0 0 [""] {["" := 0]} 0 (rows - 1) false true
    [] scrollback [] false 0 0 false "" "" stGround "" "".

Definition Size (s : Screen) : Z * Z := (s.(cols), s.(rows)).
Definition CursorVisible (s : Screen) : bool := negb s.(cursorHidden).
Definition Cursor (s : Screen) : Z * Z := (s.(curX), s.(curY)).

Definition clampCursor (s : Screen) : Screen :=
  set_curY (clamp s.(curY) 0 (s.(rows) - 1)) (set_curX (clamp s.(curX) 0 (s.(cols) - 1)) s).

(** Rewrites row [y] of the grid. *)
Definition on_row (y : Z) (f : list cell → result panic (list cell)) (s : Screen) : result panic Screen :=
  let* line := index_at s.(grid) y in
  let* line := f line in
  let* g := set_at s.(grid) y line in
  Ok (set_grid g s).

(** ** Scrolling *)

(** [if len(s.scrollback) > s.maxScrollback], drop the oldest. *)
Definition trim_history (max : Z) (h : Grid) : Grid :=
  if max <? zlen h then drop (Z.to_nat (zlen h - max)) h else h.

Definition clear_line (line : list cell) : list cell := (fun _ => blank) <$> line.

Definition scrollUp_once (fullHeight : bool) (s : Screen) : result panic Screen :=
  let* top := index_at s.(grid) s.(scrollTop) in
  let '(s, top) :=
    if negb s.(altActive) && fullHeight && (0 <? s.(maxScrollback))
    then (set_scrollback (trim_history s.(maxScrollback) (s.(scrollback) ++ [top])) s, newLine s.(cols))
    else (s, clear_line top) in
  let* g := copy_within s.(grid) s.(scrollTop) s.(scrollBot) (s.(scrollTop) + 1) (s.(scrollBot) + 1) in
  let* g := set_at g s.(scrollBot) top in
  Ok (set_grid g s).

Definition scrollUp (n : Z) (s : Screen) : result panic Screen :=
  if n <=? 0 then Ok s
  else
    let fullHeight := (s.(scrollTop) =? 0) && (s.(scrollBot) =? s.(rows) - 1) in
    repeat_ok (Z.to_nat n) (scrollUp_once fullHeight) s.

Definition scrollDown (n : Z) (s : Screen) : result panic Screen :=
  repeat_ok (Z.to_nat n) (fun s =>
    let* bot := index_at s.(grid) s.(scrollBot) in
    let* g := copy_within s.(grid) (s.(scrollTop) + 1) (s.(scrollBot) + 1) s.(scrollTop) s.(scrollBot) in
    let* g := set_at g s.(scrollTop) (clear_line bot) in
    Ok (set_grid g s)) s.

Definition index (s : Screen) : result panic Screen :=
  let s := set_wrapNext false s in
  if s.(curY) =? s.(scrollBot) then scrollUp 1 s
  else Ok (if s.(curY) <? s.(rows) - 1 then set_curY (s.(curY) + 1) s else s).

Definition reverseIndex (s : Screen) : result panic Screen :=
  let s := set_wrapNext false s in
  if s.(curY) =? s.(scrollTop) then scrollDown 1 s
  else Ok (if 0 <? s.(curY) then set_curY (s.(curY) - 1) s else s).

(** ** Printing *)

Section printing.
Context `{Lipgloss}.

Definition runeWidth (r : Z) : Z :=
  if r <? 0x80 then (if (r <? 0x20) || (r =? 0x7f) then 0 else 1)
  else lgWidth (encode_rune r).

Definition print (r : Z) (s : Screen) : result panic Screen :=
  let w := runeWidth r in
  if w =? 0 then Ok s
  else
    let* s := (if s.(wrapNext) && s.(autoWrap)
               then let* s := index (set_curX 0 s) in Ok (set_wrapNext false s)
               else Ok s) in
    let s := if s.(cols) <=? s.(curX) then set_curX (s.(cols) - 1) s else s in
    let* s := on_row s.(curY) (fun line =>
                let* line := set_at line s.(curX) (mkCell r s.(style)) in
                if (w =? 2) && (iadd s.(curX) 1 <? s.(cols))
                then set_at line (iadd s.(curX) 1) (mkCell 0 s.(style)) else Ok line) s in
    let s := set_curX (iadd s.(curX) w) s in
    Ok (if s.(cols) <=? s.(curX) then set_wrapNext true (set_curX (s.(cols) - 1) s) else s).
End printing.

(** ** Erasing and editing *)

(** The erased cell of the editing operations: a space in the current style. *)
Definition space (s : Screen) : cell := mkCell 0x20 s.(style).

(** [for x := lo; x < hi; x++ { line[x] = c }]. *)
Definition fill_between (lo hi : Z) (c : cell) (line : list cell) : result panic (list cell) :=
  fill (Z.to_nat (hi - lo)) lo c line.

Definition clearRow (y : Z) (s : Screen) : result panic Screen :=
  on_row y (fun line => Ok ((fun _ => space s) <$> line)) s.

Definition eraseLine (mode : Z) (s : Screen) : result panic Screen :=
  on_row s.(curY) (fun line =>
    if mode =? 0 then fill_between s.(curX) s.(cols) (space s) line
    else if mode =? 1 then fill_between 0 (minInt (s.(curX) + 1) s.(cols)) (space s) line
    else if mode =? 2 then Ok ((fun _ => space s) <$> line)
    else Ok line) s.

(** [for y := y; n more times; y++ { s.clearRow(y) }]. *)
Fixpoint clear_rows (n : nat) (y : Z) (s : Screen) : result panic Screen :=
  match n with
  | O => Ok s
  | S n => let* s := clearRow y s in clear_rows n (y + 1) s
  end.

Definition eraseDisplay (mode : Z) (s : Screen) : result panic Screen :=
  if mode =? 0 then
    let* s := eraseLine 0 s in
    clear_rows (Z.to_nat (s.(rows) - (s.(curY) + 1))) (s.(curY) + 1) s
  else if mode =? 1 then
    let* s := eraseLine 1 s in clear_rows (Z.to_nat s.(curY)) 0 s
  else if (mode =? 2) || (mode =? 3) then clear_rows (Z.to_nat s.(rows)) 0 s
  else Ok s.

Definition insertLines (n : Z) (s : Screen) : result panic Screen :=
  if (s.(curY) <? s.(scrollTop)) || (s.(scrollBot) <? s.(curY)) then Ok s
  else
    let n := clamp n 0 (s.(scrollBot) - s.(curY) + 1) in
    repeat_ok (Z.to_nat n) (fun s =>
      let* line := index_at s.(grid) s.(scrollBot) in
      let* g := copy_within s.(grid) (s.(curY) + 1) (s.(scrollBot) + 1) s.(curY) s.(scrollBot) in
      let* g := set_at g s.(curY) (clear_line line) in
      Ok (set_grid g s)) s.

Definition deleteLines (n : Z) (s : Screen) : result panic Screen :=
  if (s.(curY) <? s.(scrollTop)) || (s.(scrollBot) <? s.(curY)) then Ok s
  else
    let n := clamp n 0 (s.(scrollBot) - s.(curY) + 1) in
    repeat_ok (Z.to_nat n) (fun s =>
      let* line := index_at s.(grid) s.(curY) in
      let* g := copy_within s.(grid) s.(curY) s.(scrollBot) (s.(curY) + 1) (s.(scrollBot) + 1) in
      let* g := set_at g s.(scrollBot) (clear_line line) in
      Ok (set_grid g s)) s.

Definition deleteChars (n : Z) (s : Screen) : result panic Screen :=
  on_row s.(curY) (fun line =>
    let n := clamp n 0 (isub s.(cols) s.(curX)) in
    let* line := copy_within line s.(curX) (zlen line) (iadd s.(curX) n) (zlen line) in
    fill_between (s.(cols) - n) s.(cols) (space s) line) s.

Definition insertChars (n : Z) (s : Screen) : result panic Screen :=
  on_row s.(curY) (fun line =>
    let n := clamp n 0 (isub s.(cols) s.(curX)) in
    let* line := copy_within line (iadd s.(curX) n) (zlen line) s.(curX) (zlen line) in
    fill_between s.(curX) (s.(curX) + n) (space s) line) s.

Definition eraseChars (n : Z) (s : Screen) : result panic Screen :=
  on_row s.(curY) (fun line =>
    let n := clamp n 0 (isub s.(cols) s.(curX)) in
    fill_between s.(curX) (s.(curX) + n) (space s) line) s.

(** ** Styles *)

Definition esc : string := str1 (az 0x1B).

(** The maximum of a [uint16]. *)
Definition MaxUint16 : Z := 65535.

Definition internStyle (seq : string) (s : Screen) : Screen * Z :=
  match s.(styleIndex) !! seq with
  | Some i => (s, i)
  | None =>
      if MaxUint16 <=? zlen s.(styles) then (s, 0)
      else
        let i := zlen s.(styles) in
        (set_styleIndex (<[seq := i]> s.(styleIndex)) (set_styles (s.(styles) ++ [seq]) s), i)
  end.

Definition is_reset (p : string) : bool := String.eqb p "" || String.eqb p "0" || String.eqb p "00".

(** The loop of [lastResetIndex] over the remaining parameters: the current
    one starts at [start], [idx] is the last reset seen. *)
Fixpoint last_reset (start : Z) (idx : Z) (params : list string) : Z :=
  match params with
  | [] => idx
  | p :: ps => last_reset (start + Z.of_nat (String.length p) + 1) (if is_reset p then start else idx) ps
  end.

Definition semicolon : ascii := az 0x3B.
Definition colon : ascii := az 0x3A.

Definition lastResetIndex (spec : string) : Z := last_reset 0 (-1) (split_byte semicolon spec).

Definition sgr (raw : string) (s : Screen) : result panic Screen :=
  if is_reset raw then Ok (set_style 0 s)
  else
    let* cur := index_at s.(styles) s.(style) in
    let idx := lastResetIndex raw in
    let next := if 0 <=? idx then esc +:+ "[" +:+ string_drop (Z.to_nat idx) raw +:+ "m"
                else cur +:+ esc +:+ "[" +:+ raw +:+ "m" in
    let '(s, i) := internStyle next s in
    Ok (set_style i s).

(** ** Titles *)

Fixpoint sanitize_loop (rs : list Z) (b : string) : string :=
  match rs with
  | [] => b
  | r :: rs =>
      if (r <? 0x20) || (r =? 0x7f) then sanitize_loop rs b
      else let b := b +:+ encode_rune r in
           if 128 <? Z.of_nat (String.length b) then b else sanitize_loop rs b
  end.

Definition sanitizeTitle (s : string) : string := sanitize_loop (runes s) "".

Definition osc (body : string) (s : Screen) : Screen :=
  match cut_byte semicolon body with
  | None => s
  | Some (num, rest) =>
      if String.eqb num "0" || String.eqb num "2" then set_title (sanitizeTitle rest) s else s
  end.

(** ** Control functions *)

Definition parse_param (f : string) : Z :=
  let f := match cut_byte colon f with Some (before, _) => before | None => f end in
  match Atoi f with Ok n => n | Err _ => 0 end.

Definition parseParams (raw : string) : list Z :=
  if String.eqb raw "" then [] else parse_param <$> split_byte semicolon raw.

(** [arg] of [csi]. *)
Definition arg (ps : list Z) (i : nat) (def : Z) : Z :=
  match ps !! i with
  | Some p => if 0 <? p then p else if (p =? 0) && (def =? 0) then 0 else def
  | None => def
  end.

Definition scrollTopBound (s : Screen) : Z := if s.(scrollTop) <=? s.(curY) then s.(scrollTop) else 0.
Definition scrollBotBound (s : Screen) : Z :=
  if s.(curY) <=? s.(scrollBot) then s.(scrollBot) else s.(rows) - 1.

Definition setAltScreen (on : bool) (s : Screen) : Screen :=
  if Bool.eqb on s.(altActive) then s
  else if on then
    let s := set_altCurY s.(curY) (set_altCurX s.(curX) (set_alt s.(grid) s)) in
    set_altActive true (set_curY 0 (set_curX 0 (set_grid (newGrid s.(cols) s.(rows)) s)))
  else
    let s := set_alt [] (set_grid s.(alt) s) in
    clampCursor (set_altActive false (set_curY s.(altCurY) (set_curX s.(altCurX) s))).

Definition setPrivateMode (on : bool) (s : Screen) (p : Z) : Screen :=
  if p =? 7 then set_autoWrap on s
  else if p =? 25 then set_cursorHidden (negb on) s
  else if (p =? 47) || (p =? 1047) || (p =? 1049) then setAltScreen on s
  else s.

Definition setPrivateModes (ps : list Z) (on : bool) (s : Screen) : Screen :=
  fold_left (setPrivateMode on) ps s.

Definition saveCursor (s : Screen) : Screen :=
  set_savedStyle s.(style) (set_savedY s.(curY) (set_savedX s.(curX) s)).
Definition restoreCursor (s : Screen) : Screen :=
  clampCursor (set_style s.(savedStyle) (set_curY s.(savedY) (set_curX s.(savedX) s))).

Definition setMargins (top bot : Z) (s : Screen) : Screen :=
  if top <? bot then
    set_curY top (set_curX 0 (set_scrollBot bot (set_scrollTop top s)))
  else s.

Definition clear_params (s : Screen) : Screen := set_inter "" (set_params "" s).

Definition isc (c : ascii) (d : string) : bool := String.eqb (str1 c) d.

Definition is_private (params : string) : bool :=
  match params with
  | String c _ => isc c "?" || isc c "<" || isc c "=" || isc c ">"
  | EmptyString => false
  end.

(** The switch on the final byte of a sequence without a private marker. *)
Definition csi_final (final : ascii) (raw : string) (s : Screen) : result panic Screen :=
  let ps := parseParams raw in
  let arg := arg ps in
  if isc final "A" then
    Ok (set_wrapNext false (set_curY (maxInt (scrollTopBound s) (isub s.(curY) (arg 0%nat 1))) s))
  else if isc final "B" then
    Ok (set_wrapNext false (set_curY (minInt (scrollBotBound s) (iadd s.(curY) (arg 0%nat 1))) s))
  else if isc final "C" then
    Ok (set_wrapNext false (set_curX (minInt (s.(cols) - 1) (iadd s.(curX) (arg 0%nat 1))) s))
  else if isc final "D" then
    Ok (set_wrapNext false (set_curX (maxInt 0 (isub s.(curX) (arg 0%nat 1))) s))
  else if isc final "E" then
    Ok (set_curY (minInt (s.(rows) - 1) (iadd s.(curY) (arg 0%nat 1))) (set_curX 0 s))
  else if isc final "F" then
    Ok (set_curY (maxInt 0 (isub s.(curY) (arg 0%nat 1))) (set_curX 0 s))
  else if isc final "G" || isc final "`" then
    Ok (set_wrapNext false (set_curX (clamp (arg 0%nat 1 - 1) 0 (s.(cols) - 1)) s))
  else if isc final "d" then
    Ok (set_wrapNext false (set_curY (clamp (arg 0%nat 1 - 1) 0 (s.(rows) - 1)) s))
  else if isc final "H" || isc final "f" then
    let s := set_curY (clamp (arg 0%nat 1 - 1) 0 (s.(rows) - 1)) s in
    Ok (set_wrapNext false (set_curX (clamp (arg 1%nat 1 - 1) 0 (s.(cols) - 1)) s))
  else if isc final "J" then eraseDisplay (arg 0%nat 0) s
  else if isc final "K" then eraseLine (arg 0%nat 0) s
  else if isc final "L" then insertLines (arg 0%nat 1) s
  else if isc final "M" then deleteLines (arg 0%nat 1) s
  else if isc final "P" then deleteChars (arg 0%nat 1) s
  else if isc final "@" then insertChars (arg 0%nat 1) s
  else if isc final "X" then eraseChars (arg 0%nat 1) s
  else if isc final "S" then scrollUp (arg 0%nat 1) s
  else if isc final "T" then scrollDown (arg 0%nat 1) s
  else if isc final "m" then sgr raw s
  else if isc final "r" then
    Ok (setMargins (clamp (arg 0%nat 1 - 1) 0 (s.(rows) - 1))
                   (clamp (arg 1%nat s.(rows) - 1) 0 (s.(rows) - 1)) s)
  else if isc final "s" then Ok (saveCursor s)
  else if isc final "u" then Ok (restoreCursor s)
  else Ok s.

Definition csi (final : ascii) (s : Screen) : result panic Screen :=
  let* s :=
    (if is_private s.(params) then
       let ps := parseParams (string_drop 1 s.(params)) in
       Ok (if isc final "h" then setPrivateModes ps true s
           else if isc final "l" then setPrivateModes ps false s else s)
     else csi_final final s.(params) s) in
  Ok (clear_params s).

Definition reset (s : Screen) : Screen :=
  let s := set_curY 0 (set_curX 0 (set_grid (newGrid s.(cols) s.(rows)) s)) in
  let s := set_cursorHidden false (set_autoWrap true (set_style 0 s)) in
  set_alt [] (set_altActive false (set_scrollBot (s.(rows) - 1) (set_scrollTop 0 s))).

(** ** The parser *)

Definition control (b : ascii) (s : Screen) : result panic Screen :=
  let b := zb b in
  if (b =? 10) || (b =? 0x0b) || (b =? 0x0c) then index s
  else if b =? 13 then Ok (set_wrapNext false (set_curX 0 s))
  else if b =? 8 then
    Ok (if s.(wrapNext) then set_wrapNext false s
        else if 0 <? s.(curX) then set_curX (s.(curX) - 1) s else s)
  else if b =? 9 then
    let s := set_wrapNext false s in
    let next := imul (iadd (Z.quot s.(curX) 8) 1) 8 in
    Ok (set_curX (if s.(cols) <=? next then s.(cols) - 1 else next) s)
  else Ok s.

Definition escape (b : ascii) (s : Screen) : result panic Screen :=
  let s := set_state stGround s in
  if isc b "[" then Ok (clear_params (set_state stCSI s))
  else if isc b "]" then Ok (set_params "" (set_state stOSC s))
  else if isc b "P" || isc b "X" || isc b "^" || isc b "_" then Ok (set_params "" (set_state stStr s))
  else if isc b "(" || isc b ")" || isc b "*" || isc b "+" then Ok (set_state stCharset s)
  else if isc b "7" then Ok (saveCursor s)
  else if isc b "8" then Ok (restoreCursor s)
  else if isc b "D" then index s
  else if isc b "M" then reverseIndex s
  else if isc b "E" then index (set_curX 0 s)
  else if isc b "c" then Ok (reset s)
  else Ok s.

Definition finishString (s : Screen) : Screen :=
  let s := match s.(state) with stOSC => osc s.(params) s | _ => s end in
  set_state stGround (set_params "" s).

Section parser.
Context `{Lipgloss}.

Definition ground (b : ascii) (s : Screen) : result panic Screen :=
  if zb b =? 0x1b then Ok (clear_params (set_state stEsc s))
  else if (zb b <? 0x20) || (zb b =? 0x7f) then control b s
  else print (zb b) s.

Definition feed (b : ascii) (s : Screen) : result panic Screen :=
  let z := zb b in
  match s.(state) with
  | stGround => ground b s
  | stEsc => escape b s
  | stCSI =>
      if (0x30 <=? z) && (z <=? 0x3f) then Ok (set_params (s.(params) +:+ str1 b) s)
      else if (0x20 <=? z) && (z <=? 0x2f) then Ok (set_inter (s.(inter) +:+ str1 b) s)
      else if (0x40 <=? z) && (z <=? 0x7e) then
        let* s := csi b s in Ok (set_state stGround s)
      else if z =? 0x1b then Ok (clear_params (set_state stEsc s))
      else control b s
  | stOSC | stStr =>
      if z =? 0x07 then Ok (finishString s)
      else if z =? 0x1b then Ok (set_state stEsc (finishString s))
      else Ok (match s.(state) with
               | stOSC => if Z.of_nat (String.length s.(params)) <? 1024
                          then set_params (s.(params) +:+ str1 b) s else s
               | _ => s
               end)
  | stCharset => Ok (set_state stGround s)
  end.

(** The loop of [Write] over the remaining bytes; every round takes at least
    one, so their number is enough fuel. *)
Fixpoint write_loop (fuel : nat) (data : string) (s : Screen) : result panic Screen :=
  match fuel, data with
  | S fuel, String b rest =>
      match s.(state) with
      | stGround =>
          if 0x80 <=? zb b then
            if negb (FullRune data) then Ok (set_pending data s)
            else let '(r, size) := DecodeRune data in
                 let* s := print r s in write_loop fuel (string_drop size data) s
          else let* s := feed b s in write_loop fuel rest s
      | _ => let* s := feed b s in write_loop fuel rest s
      end
  | _, _ => Ok s
  end.

Definition Write (p : string) (s : Screen) : result panic Screen :=
  let data := s.(pending) +:+ p in
  write_loop (String.length data) data (set_pending "" s).
End parser.

(** ** Resizing *)

Definition resizeLine (l : list cell) (cols : Z) : list cell :=
  if cols <? zlen l then take (Z.to_nat cols) l
  else l ++ replicate (Z.to_nat (cols - zlen l)) blank.

(** [for len(g) < rows { g = append(g, newLine(cols)) }]. *)
Definition pad_grid (g : Grid) (cols rows : Z) : Grid :=
  g ++ replicate (Z.to_nat (rows - zlen g)) (newLine cols).

Definition resizeGrid (g : Grid) (cols rows curY : Z) (spill : bool) (s : Screen) : Screen * (Grid * Z) :=
  let g := (fun l => resizeLine l cols) <$> g in
  if zlen g <? rows then (s, (pad_grid g cols rows, curY))
  else if rows <? zlen g then
    let needed := zlen g - rows in
    let drop_ := clamp (iadd (isub curY rows) 1) 0 needed in
    let s := if spill && (0 <? s.(maxScrollback))
             then set_scrollback (trim_history s.(maxScrollback)
                    (s.(scrollback) ++ take (Z.to_nat drop_) g)) s
             else s in
    let g := drop (Z.to_nat drop_) g in
    let g := if rows <? zlen g then take (Z.to_nat rows) g else g in
    (s, (pad_grid g cols rows, isub curY drop_))
  else (s, (g, curY)).

Definition Resize (cols' rows' : Z) (s : Screen) : Screen :=
  let cols' := if cols' <? 1 then 1 else cols' in
  let rows' := if rows' <? 1 then 1 else rows' in
  if (cols' =? s.(cols)) && (rows' =? s.(rows)) then s
  else
    let s :=
      if s.(altActive) then
        let '(s, (g, y)) := resizeGrid s.(grid) cols' rows' s.(curY) false s in
        let s := set_curY y (set_grid g s) in
        let '(s, (a, y)) := resizeGrid s.(alt) cols' rows' s.(altCurY) true s in
        let s := set_altCurY y (set_alt a s) in
        set_altCurY (clamp s.(altCurY) 0 (rows' - 1)) (set_altCurX (clamp s.(altCurX) 0 (cols' - 1)) s)
      else
        let '(s, (g, y)) := resizeGrid s.(grid) cols' rows' s.(curY) true s in
        set_curY y (set_grid g s) in
    let s := set_rows rows' (set_cols cols' s) in
    let s := set_scrollBot (rows' - 1) (set_scrollTop 0 s) in
    set_wrapNext false (clampCursor s).

(** ** Reading the screen *)

Definition ScrollbackLen (s : Screen) : Z := zlen s.(scrollback).
Definition TotalLines (s : Screen) : Z := zlen s.(scrollback) + s.(rows).

Definition lineAt (s : Screen) (i : Z) : result panic (list cell) :=
  if i <? zlen s.(scrollback) then index_at s.(scrollback) i
  else index_at s.(grid) (i - zlen s.(scrollback)).

Definition default_blank (c : cell) : bool := (c.(crune) =? 0x20) && (c.(cstyle) =? 0).

(** The loop of [renderLine] over the cells from position [i] on. *)
Fixpoint render_loop (styles : list string) (cursorX i cur : Z) (cs : list cell) : string :=
  match cs with
  | [] => if cur =? 0 then "" else esc +:+ "[0m"
  | c :: cs =>
      if c.(crune) =? 0 then render_loop styles cursorX (i + 1) cur cs
      else if i =? cursorX then
        esc +:+ "[0m" +:+ esc +:+ "[7m" +:+ encode_rune c.(crune) +:+ esc +:+ "[0m" +:+
        render_loop styles cursorX (i + 1) 0 cs
      else
        (if c.(cstyle) =? cur then "" else esc +:+ "[0m" +:+ default "" (styles !! Z.to_nat c.(cstyle))) +:+
        encode_rune c.(crune) +:+ render_loop styles cursorX (i + 1) c.(cstyle) cs
  end.

Definition renderLine (line : list cell) (styles : list string) (width cursorX : Z) : string :=
  let end_ := zlen (trim_right default_blank line) in
  let end_ := if (0 <=? cursorX) && (cursorX <? zlen line) && (end_ <? cursorX + 1)
              then cursorX + 1 else end_ in
  if end_ =? 0 then ""
  else render_loop styles cursorX 0 0 (take (Z.to_nat (Z.min end_ width)) line).

Definition plainLine (line : list cell) : string :=
  string_concat ((fun c => if c.(crune) =? 0 then "" else encode_rune c.(crune))
                   <$> trim_right (fun c => c.(crune) =? 0x20) line).

Definition view_range (s : Screen) (from to : Z) : Z * Z :=
  let from := clamp from 0 (TotalLines s) in (from, clamp to from (TotalLines s)).

Definition RenderView (from to : Z) (showCursor : bool) (s : Screen) : result panic (list string) :=
  let '(from, to) := view_range s from to in
  let cursorLine := if showCursor && negb s.(cursorHidden) then zlen s.(scrollback) + s.(curY) else -1 in
  collect (Z.to_nat (to - from)) from (fun i =>
    let* line := lineAt s i in
    Ok (renderLine line s.(styles) s.(cols) (if i =? cursorLine then s.(curX) else -1))).

Definition RenderLines (from to : Z) (s : Screen) : result panic (list string) := RenderView from to false s.

Definition PlainLines (from to : Z) (s : Screen) : result panic (list string) :=
  let '(from, to) := view_range s from to in
  collect (Z.to_nat (to - from)) from (fun i => let* line := lineAt s i in Ok (plainLine line)).

Definition newline : string := str1 (az 10).

Definition Text (from to : Z) (s : Screen) : result panic string :=
  rmap (str_join newline) (PlainLines from to s).

Definition Screen_String (s : Screen) : result panic string :=
  let base := zlen s.(scrollback) in Text base (base + s.(rows)) s.

(** ** Examples *)

(** A terminal in which every rune takes one cell. *)
Definition narrow : Lipgloss := fun _ => 1.

Lemma narrow_laws : @LipglossLaws narrow.
Proof. intros r. unfold lgWidth, narrow. lia. Qed.

Section examples.
#[local] Existing Instance narrow.

Definition example_screen (data : string) : result panic Screen := Write data (NewScreen 10 3 5).

Example screen_1 : (let* s := example_screen ("hello" +:+ str1 (az 13) +:+ newline +:+ "world" +:+ esc +:+ "[2Dxx") in Screen_String s)
  = Ok ("hello" +:+ newline +:+ "worxx" +:+ newline).
Proof. vm_compute. reflexivity. Qed.

Example screen_2 : (let* s := example_screen (esc +:+ "[1;31mred" +:+ esc +:+ "[0m ok") in RenderLines 0 1 s)
  = Ok [esc +:+ "[0m" +:+ esc +:+ "[1;31mred" +:+ esc +:+ "[0m ok"].
Proof. vm_compute. reflexivity. Qed.
End examples.
