(* ===== verification/ScreenInv.v ===== *)
(** * The terminal emulator: invariant, safety and chunking

    A well-formed screen stays well-formed and never panics while the
    parameters of control sequences stay small; how the device's output is cut
    into writes does not matter. *)

From S2P Require Export Screen.
Local Open Scope string_scope.
Local Open Scope list_scope.
Local Open Scope Z_scope.
Local Open Scope kat_scope.

(** ** The invariant *)

(** Dimensions and parameters below this bound cannot make the cursor
    arithmetic overflow. *)
Definition small : Z := 2 ^ 62.

Definition grid_ok (c r : Z) (g : Grid) : Prop := zlen g = r ∧ Forall (fun l => zlen l = c) g.

Definition table_ok (s : Screen) : Prop :=
  (1 <= zlen s.(styles) <= MaxUint16) ∧ s.(styles) !! 0%nat = Some "" ∧
  ∀ q i, s.(styleIndex) !! q = Some i ↔ 0 <= i ∧ s.(styles) !! Z.to_nat i = Some q.

Definition cursor_ok (s : Screen) : Prop := 0 <= s.(curX) < s.(cols) ∧ 0 <= s.(curY) < s.(rows).

Definition screen_ok (s : Screen) : Prop :=
  ((1 <= s.(cols) <= small) ∧ (1 <= s.(rows) <= small)) ∧
  grid_ok s.(cols) s.(rows) s.(grid) ∧
  cursor_ok s ∧
  (0 <= s.(scrollTop) <= s.(scrollBot) ∧ s.(scrollBot) < s.(rows)) ∧
  ((0 <= s.(style) < zlen s.(styles)) ∧ (0 <= s.(savedStyle) < zlen s.(styles))) ∧
  table_ok s ∧
  (0 <= s.(maxScrollback) ∧ zlen s.(scrollback) <= s.(maxScrollback)) ∧
  (if s.(altActive) then grid_ok s.(cols) s.(rows) s.(alt) else s.(alt) = []).

(** The size of a screen, the bytes held back by [Write], the state of the
    parser and the parameters it has read. *)
Definition size (s : Screen) : Z * Z := (s.(cols), s.(rows)).
Definition held (s : Screen) : (Z * Z) * string * parseState * string :=
  (size s, s.(pending), s.(state), s.(params)).

(** An operation that succeeds, keeps the screen well-formed and touches neither. *)
Definition keeps (s : Screen) (r : result panic Screen) : Prop :=
  ∃ s', r = Ok s' ∧ screen_ok s' ∧ held s' = held s.

Lemma keeps_Ok s s' : screen_ok s' → held s' = held s → keeps s (Ok s').
Proof. intros. by exists s'. Qed.

Lemma keeps_bind s r (f : Screen → result panic Screen) :
  keeps s r → (∀ s', screen_ok s' → held s' = held s → keeps s' (f s')) → keeps s (rbind r f).
Proof.
  intros (s1 & -> & H1 & E1) Hf. destruct (Hf s1 H1 E1) as (s2 & E2 & H2 & E3).
  cbn. rewrite E2. exists s2. split_and!; [done|done|congruence].
Qed.

(** Setters of fields the invariant does not constrain are transparent. *)
Lemma ok_set_wrapNext b s : screen_ok s → screen_ok (set_wrapNext b s).
Proof. exact id. Qed.

Lemma ok_set_cursor x y s :
  screen_ok s → 0 <= x < s.(cols) → 0 <= y < s.(rows) → screen_ok (set_curY y (set_curX x s)).
Proof. intros (H1 & H2 & H3 & H4) Hx Hy. split_and!; try apply H1; try apply H2; try apply H4; done. Qed.

Lemma ok_set_curX x s : screen_ok s → 0 <= x < s.(cols) → screen_ok (set_curX x s).
Proof. intros Hs Hx. pose proof Hs as (_ & _ & [_ Hy] & _). exact (ok_set_cursor x _ s Hs Hx Hy). Qed.
Lemma ok_set_curY y s : screen_ok s → 0 <= y < s.(rows) → screen_ok (set_curY y s).
Proof. intros Hs Hy. pose proof Hs as (_ & _ & [Hx _] & _). exact (ok_set_cursor _ y s Hs Hx Hy). Qed.

Lemma ok_set_grid g s : screen_ok s → grid_ok s.(cols) s.(rows) g → screen_ok (set_grid g s).
Proof. intros (H1 & H2 & H3) Hg. exact (conj H1 (conj Hg H3)). Qed.

Lemma ok_set_style i s : screen_ok s → 0 <= i < zlen s.(styles) → screen_ok (set_style i s).
Proof. intros (H1 & H2 & H3 & H4 & [H5 H6] & H7) Hi. exact (conj H1 (conj H2 (conj H3 (conj H4 (conj (conj Hi H6) H7))))). Qed.

Lemma ok_set_margins t b s :
  screen_ok s → 0 <= t <= b → b < s.(rows) → screen_ok (set_scrollBot b (set_scrollTop t s)).
Proof. intros (H1 & H2 & H3 & H4 & H5) Ht Hb. exact (conj H1 (conj H2 (conj H3 (conj (conj Ht Hb) H5)))). Qed.

Lemma ok_set_scrollback h s :
  screen_ok s → zlen h <= s.(maxScrollback) → screen_ok (set_scrollback h s).
Proof. intros (H1 & H2 & H3 & H4 & H5 & H6 & [H7 _] & H8) Hh. exact (conj H1 (conj H2 (conj H3 (conj H4 (conj H5 (conj H6 (conj (conj H7 Hh) H8))))))). Qed.

Lemma ok_cursor s : screen_ok s → 0 <= s.(curX) < s.(cols) ∧ 0 <= s.(curY) < s.(rows).
Proof. intros (_ & _ & H & _). exact H. Qed.
Lemma ok_size s : screen_ok s → (1 <= s.(cols) <= small) ∧ (1 <= s.(rows) <= small).
Proof. intros (H & _). exact H. Qed.
Lemma ok_grid s : screen_ok s → grid_ok s.(cols) s.(rows) s.(grid).
Proof. intros (_ & H & _). exact H. Qed.
Lemma ok_margins s : screen_ok s → 0 <= s.(scrollTop) <= s.(scrollBot) ∧ s.(scrollBot) < s.(rows).
Proof. intros (_ & _ & _ & H & _). exact H. Qed.
Lemma ok_styles s : screen_ok s → (0 <= s.(style) < zlen s.(styles)) ∧ (0 <= s.(savedStyle) < zlen s.(styles)).
Proof. intros (_ & _ & _ & _ & H & _). exact H. Qed.
Lemma ok_table s : screen_ok s → table_ok s.
Proof. intros (_ & _ & _ & _ & _ & H & _). exact H. Qed.
Lemma ok_history s : screen_ok s → 0 <= s.(maxScrollback) ∧ zlen s.(scrollback) <= s.(maxScrollback).
Proof. intros (_ & _ & _ & _ & _ & _ & H & _). exact H. Qed.
Lemma ok_alt s : screen_ok s → if s.(altActive) then grid_ok s.(cols) s.(rows) s.(alt) else s.(alt) = [].
Proof. intros (_ & _ & _ & _ & _ & _ & _ & H). exact H. Qed.

(** Brings the bounds of a well-formed screen into the context. *)
Ltac screen_facts H :=
  pose proof (ok_size _ H); pose proof (ok_cursor _ H); pose proof (ok_margins _ H);
  unfold small in *.

(** ** Grids *)

Lemma newLine_len c : 0 <= c → zlen (newLine c) = c.
Proof. intros. unfold newLine. rewrite zlen_replicate. lia. Qed.

Lemma newGrid_ok c r : 0 <= c → 0 <= r → grid_ok c r (newGrid c r).
Proof.
  intros. unfold newGrid, grid_ok. rewrite zlen_replicate. split; [lia|].
  apply Forall_replicate, newLine_len. done.
Qed.

Lemma grid_row c r g y : grid_ok c r g → 0 <= y < r → ∃ line, index_at g y = Ok line ∧ zlen line = c ∧ g !! Z.to_nat y = Some line.
Proof.
  intros [Hr Hc] Hy. destruct (index_at_in g y) as (line & E & El); [by rewrite Hr|].
  exists line. split_and!; [done| |done]. by eapply (Forall_lookup_1 _ _ _ _ Hc).
Qed.

Lemma grid_insert c r g (y : nat) line : grid_ok c r g → zlen line = c → grid_ok c r (<[y := line]> g).
Proof. intros [Hr Hc] Hl. split; [by rewrite zlen_insert|]. by apply Forall_insert. Qed.

Lemma keeps_on_row y f s :
  screen_ok s → 0 <= y < s.(rows) →
  (∀ line, zlen line = s.(cols) → ∃ line', f line = Ok line' ∧ length line' = length line) →
  keeps s (on_row y f s).
Proof.
  intros Hs Hy Hf. pose proof (ok_grid _ Hs) as Hg. unfold on_row.
  destruct (grid_row _ _ _ _ Hg Hy) as (line & -> & Hl & _). cbn.
  destruct (Hf line Hl) as (line' & -> & Hl'). cbn.
  rewrite set_at_in by (destruct Hg as [-> _]; done). cbn.
  apply keeps_Ok; [|done]. apply ok_set_grid; [done|]. apply grid_insert; [done|].
  unfold zlen in *. congruence.
Qed.

Lemma grid_shift_down c r g lo hi line :
  grid_ok c r g → 0 <= lo <= hi → hi < r → zlen line = c →
  ∃ g', (let* g := copy_within g lo hi (lo + 1) (hi + 1) in set_at g hi line) = Ok g' ∧ grid_ok c r g'.
Proof.
  intros [Hr Hc] Hlo Hhi Hl. destruct (split_range g lo hi) as (a & b & d & -> & <- & Hb); [done|lia|].
  destruct b as [|y b]; [rewrite zlen_nil in Hb; lia|]. rewrite zlen_cons in Hb.
  replace hi with (zlen a + zlen b) by lia. rewrite (shift_down_spec a y b d).
  eexists. split; [done|]. split.
  - rewrite <- Hr, !zlen_app, zlen_cons, zlen_cons, zlen_nil. lia.
  - rewrite !Forall_app, Forall_cons in *. naive_solver.
Qed.

Lemma grid_shift_up c r g lo hi line :
  grid_ok c r g → 0 <= lo <= hi → hi < r → zlen line = c →
  ∃ g', (let* g := copy_within g (lo + 1) (hi + 1) lo hi in set_at g lo line) = Ok g' ∧ grid_ok c r g'.
Proof.
  intros [Hr Hc] Hlo Hhi Hl. destruct (split_range g lo hi) as (a & b & d & -> & <- & Hb); [done|lia|].
  destruct b as [|y b _] using rev_ind; [rewrite zlen_nil in Hb; lia|]. rewrite zlen_app, zlen_cons, zlen_nil in Hb.
  replace hi with (zlen a + zlen b) by lia. rewrite (shift_up_spec a b y d).
  eexists. split; [done|]. split.
  - rewrite <- Hr, !zlen_app, !zlen_cons, zlen_nil. lia.
  - rewrite !Forall_app, !Forall_cons in *. naive_solver.
Qed.

Lemma clear_line_len l : zlen (clear_line l) = zlen l.
Proof. apply zlen_fmap. Qed.

Lemma trim_history_len m h : 0 <= m → zlen (trim_history m h) <= m.
Proof. unfold trim_history, zlen. intros. case_match; bool_prop; rewrite ?length_drop; lia. Qed.

(** ** Scrolling *)

Lemma scrollUp_once_keeps full s : screen_ok s → keeps s (scrollUp_once full s).
Proof.
  intros Hs. screen_facts Hs. pose proof (ok_grid _ Hs) as Hg. unfold scrollUp_once.
  destruct (grid_row _ _ _ s.(scrollTop) Hg) as (top & -> & Hl & _); [lia|]. cbn [rbind].
  destruct (negb _ && full && _).
  - destruct (grid_shift_down _ _ _ s.(scrollTop) s.(scrollBot) (newLine s.(cols)) Hg) as (g' & E & Hg');
      [lia..|apply newLine_len; lia|].
    cbn. destruct (copy_within _ _ _ _ _); cbn in E |- *; [|done]. rewrite E. cbn.
    apply keeps_Ok; [|done]. apply ok_set_grid; [|done]. apply ok_set_scrollback; [done|].
    apply trim_history_len. by apply ok_history.
  - destruct (grid_shift_down _ _ _ s.(scrollTop) s.(scrollBot) (clear_line top) Hg) as (g' & E & Hg');
      [lia..|by rewrite clear_line_len|].
    cbn. destruct (copy_within _ _ _ _ _); cbn in E |- *; [|done]. rewrite E. cbn.
    apply keeps_Ok; [|done]. by apply ok_set_grid.
Qed.

Lemma repeat_keeps n f s :
  screen_ok s → (∀ s', screen_ok s' → keeps s' (f s')) → keeps s (repeat_ok n f s).
Proof.
  intros Hs Hf. revert s Hs. induction n as [|n IH]; intros s Hs; cbn; [by apply keeps_Ok|].
  apply keeps_bind; [auto|]. intros. auto.
Qed.

Lemma scrollUp_keeps n s : screen_ok s → keeps s (scrollUp n s).
Proof.
  intros Hs. unfold scrollUp. case_match; [by apply keeps_Ok|].
  apply repeat_keeps; [done|]. intros. by apply scrollUp_once_keeps.
Qed.

Lemma scrollDown_keeps n s : screen_ok s → keeps s (scrollDown n s).
Proof.
  intros Hs. unfold scrollDown. apply repeat_keeps; [done|]. clear. intros s Hs.
  screen_facts Hs. pose proof (ok_grid _ Hs) as Hg.
  destruct (grid_row _ _ _ s.(scrollBot) Hg) as (bot & -> & Hl & _); [lia|]. cbn.
  destruct (grid_shift_up _ _ _ s.(scrollTop) s.(scrollBot) (clear_line bot) Hg) as (g' & E & Hg');
    [lia..|by rewrite clear_line_len|].
  destruct (copy_within _ _ _ _ _); cbn in E |- *; [|done]. rewrite E. cbn.
  apply keeps_Ok; [|done]. by apply ok_set_grid.
Qed.

Lemma index_keeps s : screen_ok s → keeps s (index s).
Proof.
  intros Hs. screen_facts Hs. unfold index. case_match.
  - by apply (scrollUp_keeps 1 (set_wrapNext false s)).
  - apply keeps_Ok; [|by case_match]. cbn. case_match; bool_prop; [|done].
    apply (ok_set_curY _ (set_wrapNext false s)); [done|]. cbn. lia.
Qed.

Lemma reverseIndex_keeps s : screen_ok s → keeps s (reverseIndex s).
Proof.
  intros Hs. screen_facts Hs. unfold reverseIndex. case_match.
  - by apply (scrollDown_keeps 1 (set_wrapNext false s)).
  - apply keeps_Ok; [|by case_match]. cbn. case_match; bool_prop; [|done].
    apply (ok_set_curY _ (set_wrapNext false s)); [done|]. cbn. lia.
Qed.

(** ** Printing *)

Section printing.
Context `{LL : LipglossLaws}.

Lemma runeWidth_range r : 0 <= runeWidth r <= 2.
Proof. unfold runeWidth. repeat case_match; try lia. apply lgWidth_rune. Qed.

Lemma print_keeps r s : screen_ok s → keeps s (print r s).
Proof.
  intros Hs. unfold print. pose proof (runeWidth_range r) as Hw.
  destruct (Z.eqb_spec (runeWidth r) 0); [by apply keeps_Ok|]. apply keeps_bind.
  { destruct (wrapNext s && autoWrap s); [|by apply keeps_Ok].
    apply keeps_bind; [apply (index_keeps (set_curX 0 s))|intros; by apply keeps_Ok].
    screen_facts Hs. apply ok_set_curX; [done|lia]. }
  intros s1 Hs1 _. clear s Hs. rename s1 into s, Hs1 into Hs. screen_facts Hs.
  rewrite (proj2 (Z.leb_gt _ _)) by lia. apply keeps_bind.
  { apply keeps_on_row; [done|lia|]. intros line Hl. rewrite set_at_in by lia. cbn.
    case_match; bool_prop; [|eexists; split; [done|apply length_insert]].
    rewrite iadd_small in * by (unfold MinInt64, MaxInt64; lia).
    rewrite set_at_in by (rewrite zlen_insert; lia). eexists. split; [done|]. by rewrite !length_insert. }
  intros s1 Hs1 _. clear dependent s. rename s1 into s, Hs1 into Hs. screen_facts Hs. cbn.
  rewrite iadd_small by (unfold MinInt64, MaxInt64; lia).
  apply keeps_Ok; [|by case_match]. case_match; bool_prop.
  - apply (ok_set_wrapNext true (set_curX (cols s - 1) (set_curX (curX s + runeWidth r) s))).
    apply (ok_set_curX _ s); [done|lia].
  - apply ok_set_curX; [done|lia].
Qed.
End printing.

(** ** Erasing and editing *)

Lemma fill_between_len lo hi c line :
  0 <= lo → hi <= zlen line → ∃ l', fill_between lo hi c line = Ok l' ∧ length l' = length line.
Proof.
  intros Hlo Hhi. unfold fill_between. destruct (Z.leb_spec hi lo).
  { replace (Z.to_nat (hi - lo)) with 0%nat by lia. cbn. eauto. }
  rewrite fill_spec by lia. eexists. split; [done|]. unfold zlen in *.
  rewrite !length_app, length_take, length_replicate, length_drop. lia.
Qed.

Lemma clearRow_keeps y s : screen_ok s → 0 <= y < s.(rows) → keeps s (clearRow y s).
Proof.
  intros. apply keeps_on_row; [done..|]. intros. eexists. split; [done|]. apply length_fmap.
Qed.

Lemma eraseLine_keeps mode s : screen_ok s → keeps s (eraseLine mode s).
Proof.
  intros Hs. screen_facts Hs. apply keeps_on_row; [done|lia|]. intros line Hl.
  case_match; [apply fill_between_len; lia|].
  case_match; [apply fill_between_len; rewrite ?minInt_min; lia|].
  case_match; eexists; (split; [done|]); [apply length_fmap|done].
Qed.

(** The editing operations change nothing but the grid. *)
Lemma on_row_frame y f s s' : on_row y f s = Ok s' → ∃ g, s' = set_grid g s.
Proof.
  unfold on_row. destruct (index_at _ _) as [line|]; [|done]. cbn.
  destruct (f line) as [line'|]; [|done]. cbn. destruct (set_at _ _ _) as [g|]; [|done].
  intros [= <-]. eauto.
Qed.

Lemma clear_rows_keeps n y s :
  screen_ok s → 0 <= y → y + Z.of_nat n <= s.(rows) → keeps s (clear_rows n y s).
Proof.
  revert y s. induction n as [|n IH]; intros y s Hs Hy Hn; cbn; [by apply keeps_Ok|].
  destruct (clearRow_keeps y s Hs) as (s1 & E & Hs1 & Hp); [lia|]. rewrite E. cbn.
  apply on_row_frame in E as [g ->].
  destruct (IH (y + 1) (set_grid g s) Hs1) as (s2 & E & Hs2 & Hp2); [lia|cbn; lia|].
  exists s2. split_and!; [done|done|congruence].
Qed.

Lemma eraseDisplay_keeps mode s : screen_ok s → keeps s (eraseDisplay mode s).
Proof.
  intros Hs. screen_facts Hs. unfold eraseDisplay. case_match.
  - destruct (eraseLine_keeps 0 s Hs) as (s1 & E & Hs1 & Hp). rewrite E. cbn.
    apply on_row_frame in E as [g ->]. apply (clear_rows_keeps _ _ (set_grid g s)); [done|cbn; lia..].
  - case_match.
    + destruct (eraseLine_keeps 1 s Hs) as (s1 & E & Hs1 & Hp). rewrite E. cbn.
      apply on_row_frame in E as [g ->]. apply (clear_rows_keeps _ _ (set_grid g s)); [done|cbn; lia..].
    + case_match; [|by apply keeps_Ok]. apply clear_rows_keeps; [done|lia..].
Qed.

Lemma insertLines_keeps n s : screen_ok s → keeps s (insertLines n s).
Proof.
  intros Hs. unfold insertLines. case_match eqn:E; [by apply keeps_Ok|]. bool_prop.
  generalize (Z.to_nat (clamp n 0 (scrollBot s - curY s + 1))). intros k.
  assert (Hc : s.(scrollTop) <= s.(curY) <= s.(scrollBot)) by lia. clear -Hs Hc. revert s Hs Hc.
  induction k as [|k IH]; intros s Hs Hc; cbn; [by apply keeps_Ok|].
  screen_facts Hs. pose proof (ok_grid _ Hs) as Hg.
  destruct (grid_row _ _ _ s.(scrollBot) Hg) as (line & -> & Hl & _); [lia|]. cbn.
  destruct (grid_shift_up _ _ _ s.(curY) s.(scrollBot) (clear_line line) Hg) as (g' & E & Hg');
    [lia..|by rewrite clear_line_len|].
  destruct (copy_within _ _ _ _ _); cbn in E |- *; [|done]. rewrite E. cbn.
  apply (IH (set_grid g' s)); [|done]. by apply ok_set_grid.
Qed.

Lemma deleteLines_keeps n s : screen_ok s → keeps s (deleteLines n s).
Proof.
  intros Hs. unfold deleteLines. case_match eqn:E; [by apply keeps_Ok|]. bool_prop.
  generalize (Z.to_nat (clamp n 0 (scrollBot s - curY s + 1))). intros k.
  assert (Hc : s.(scrollTop) <= s.(curY) <= s.(scrollBot)) by lia. clear -Hs Hc. revert s Hs Hc.
  induction k as [|k IH]; intros s Hs Hc; cbn; [by apply keeps_Ok|].
  screen_facts Hs. pose proof (ok_grid _ Hs) as Hg.
  destruct (grid_row _ _ _ s.(curY) Hg) as (line & -> & Hl & _); [lia|]. cbn.
  destruct (grid_shift_down _ _ _ s.(curY) s.(scrollBot) (clear_line line) Hg) as (g' & E & Hg');
    [lia..|by rewrite clear_line_len|].
  destruct (copy_within _ _ _ _ _); cbn in E |- *; [|done]. rewrite E. cbn.
  apply (IH (set_grid g' s)); [|done]. by apply ok_set_grid.
Qed.

(** The number of cells an editing operation moves. *)
Lemma edit_count n s :
  screen_ok s → isub s.(cols) s.(curX) = s.(cols) - s.(curX) ∧
  0 <= clamp n 0 (s.(cols) - s.(curX)) <= s.(cols) - s.(curX) ∧
  iadd s.(curX) (clamp n 0 (s.(cols) - s.(curX))) = s.(curX) + clamp n 0 (s.(cols) - s.(curX)).
Proof.
  intros Hs. screen_facts Hs. pose proof (clamp_in n 0 (s.(cols) - s.(curX)) ltac:(lia)).
  split_and!; try lia; [apply isub_small|apply iadd_small]; unfold MinInt64, MaxInt64; lia.
Qed.

Lemma deleteChars_keeps n s : screen_ok s → keeps s (deleteChars n s).
Proof.
  intros Hs. screen_facts Hs. apply keeps_on_row; [done|lia|]. intros line Hl. cbv zeta.
  destruct (edit_count n s Hs) as (-> & Hn & ->).
  edestruct (copy_within_in line) as (l1 & E); [..|rewrite E; cbn]; [lia..|].
  apply copy_within_length in E. rewrite <- E. apply fill_between_len; unfold zlen in *; lia.
Qed.

Lemma insertChars_keeps n s : screen_ok s → keeps s (insertChars n s).
Proof.
  intros Hs. screen_facts Hs. apply keeps_on_row; [done|lia|]. intros line Hl. cbv zeta.
  destruct (edit_count n s Hs) as (-> & Hn & ->).
  edestruct (copy_within_in line) as (l1 & E); [..|rewrite E; cbn]; [lia..|].
  apply copy_within_length in E. rewrite <- E. apply fill_between_len; unfold zlen in *; lia.
Qed.

Lemma eraseChars_keeps n s : screen_ok s → keeps s (eraseChars n s).
Proof.
  intros Hs. screen_facts Hs. apply keeps_on_row; [done|lia|]. intros line Hl.
  destruct (edit_count n s Hs) as (-> & Hn & _). cbv zeta. apply fill_between_len; lia.
Qed.

(** ** Styles *)

Lemma internStyle_ok q s :
  screen_ok s →
  screen_ok (internStyle q s).1 ∧ 0 <= (internStyle q s).2 < zlen (internStyle q s).1.(styles) ∧
  held (internStyle q s).1 = held s.
Proof.
  intros Hs. pose proof (ok_table _ Hs) as (Hn & H0 & Ht). unfold internStyle.
  destruct (styleIndex s !! q) as [i|] eqn:E.
  { apply Ht in E as [Hi E]. apply lookup_lt_Some in E. unfold zlen. cbn. split_and!; [done|lia|lia|done]. }
  case_match; bool_prop; [cbn; split_and!; [done|lia|lia|done]|].
  destruct Hs as (H1 & H2 & H3 & H4 & [H5 H5'] & _ & H7). cbn. split_and!.
  2,3: rewrite ?zlen_snoc; pose proof (zlen_nonneg s.(styles)); try lia. 2: done.
  refine (conj H1 (conj H2 (conj H3 (conj H4 (conj (conj _ _) (conj _ H7)))))); cbn.
  1,2: rewrite ?zlen_snoc; pose proof (zlen_nonneg s.(styles)); try lia.
  unfold table_ok. cbn. rewrite ?zlen_snoc. split_and!; [lia|lia| |].
  { rewrite lookup_app_l; [done|]. by eapply lookup_lt_Some. }
  intros q' i. rewrite lookup_app_Some. split.
  - destruct (decide (q' = q)) as [->|Hne].
    + rewrite lookup_insert_eq. intros [= <-]. split; [unfold zlen; lia|]. right.
      unfold zlen. rewrite Nat2Z.id, Nat.sub_diag. split; [lia|done].
    + rewrite lookup_insert_ne by done. intros [? ?]%Ht. auto.
  - intros [Hi [Hq|[Hlen Hq]]].
    + destruct (decide (q' = q)) as [->|Hne]; [|rewrite lookup_insert_ne by done; by apply Ht].
      rewrite (proj2 (Ht q i)) in E by done. done.
    + apply list_lookup_singleton_Some in Hq as [Hz <-]. rewrite lookup_insert_eq. f_equal. unfold zlen. lia.
Qed.

Lemma sgr_keeps raw s : screen_ok s → keeps s (sgr raw s).
Proof.
  intros Hs. pose proof (ok_styles _ Hs) as [Hst _]. pose proof (ok_table _ Hs) as (Hn & _).
  unfold sgr. case_match; [apply keeps_Ok; [apply ok_set_style; [done|lia]|done]|].
  destruct (index_at_in s.(styles) s.(style)) as (cur & -> & _); [done|]. cbn [rbind].
  set (q := if 0 <=? _ then _ else _). clearbody q.
  pose proof (internStyle_ok q s Hs) as (H1 & H2 & H3). destruct (internStyle q s) as [s1 i]. cbn in *.
  apply keeps_Ok; [by apply ok_set_style|done].
Qed.

(** ** Control sequences *)

Definition small_params (raw : string) : Prop := Forall (fun p => p <= small) (parseParams raw).

Lemma arg_le ps i d : Forall (fun p => p <= small) ps → 0 <= d <= small → 0 <= arg ps i d <= small.
Proof.
  intros Hps Hd. unfold arg. destruct (ps !! i) as [p|] eqn:E; [|done].
  pose proof (Forall_lookup_1 _ _ _ _ Hps E). cbn in *. repeat case_match; bool_prop; lia.
Qed.

Lemma arg_pos ps i d : Forall (fun p => p <= small) ps → 0 < d <= small → 0 < arg ps i d <= small.
Proof.
  intros Hps Hd. unfold arg. destruct (ps !! i) as [p|] eqn:E; [|done].
  pose proof (Forall_lookup_1 _ _ _ _ Hps E). cbn in *. repeat case_match; bool_prop; lia.
Qed.

Lemma clampCursor_ok s :
  (screen_ok s → screen_ok (clampCursor s)).
Proof. intros Hs. screen_facts Hs. apply (ok_set_cursor _ _ s); [done|apply clamp_lt; lia..]. Qed.

Lemma restoreCursor_ok s : screen_ok s → screen_ok (restoreCursor s).
Proof.
  intros Hs. screen_facts Hs. pose proof (ok_styles _ Hs) as [_ Hst].
  apply (ok_set_cursor (clamp s.(savedX) 0 (s.(cols) - 1)) (clamp s.(savedY) 0 (s.(rows) - 1)) (set_style s.(savedStyle) s));
    [by apply ok_set_style|apply clamp_lt; cbn; lia..].
Qed.

Lemma saveCursor_ok s : screen_ok s → screen_ok (saveCursor s).
Proof.
  intros (H1 & H2 & H3 & H4 & [H5 _] & H6). exact (conj H1 (conj H2 (conj H3 (conj H4 (conj (conj H5 H5) H6))))).
Qed.

Lemma setMargins_ok t b s :
  screen_ok s → 0 <= t → b < s.(rows) → screen_ok (setMargins t b s).
Proof.
  intros Hs Ht Hb. screen_facts Hs. unfold setMargins. case_match; bool_prop; [|done].
  apply (ok_set_cursor 0 t (set_scrollBot b (set_scrollTop t s))); [|cbn; lia..]. apply ok_set_margins; [done|lia..].
Qed.

(** Swapping the grids, the cursor being placed afterwards. *)
Lemma ok_set_alt g a (b : bool) s :
  screen_ok s → grid_ok s.(cols) s.(rows) g →
  (if b then grid_ok s.(cols) s.(rows) a else a = []) →
  screen_ok (set_altActive b (set_alt a (set_grid g s))).
Proof.
  intros (H1 & _ & H3 & H4 & H5 & H6 & H7 & _) Hg Ha.
  exact (conj H1 (conj Hg (conj H3 (conj H4 (conj H5 (conj H6 (conj H7 Ha))))))).
Qed.

Lemma setAltScreen_ok on s : screen_ok s → screen_ok (setAltScreen on s).
Proof.
  intros Hs. screen_facts Hs. pose proof (ok_alt _ Hs) as Ha. unfold setAltScreen.
  destruct (eqb_spec on s.(altActive)) as [->|Hne]; [done|].
  destruct on, (altActive s) eqn:Eb; try done.
  - apply (ok_set_cursor 0 0 (set_altActive true (set_alt s.(grid) (set_grid (newGrid s.(cols) s.(rows))
             (set_altCurY s.(curY) (set_altCurX s.(curX) s)))))); [|cbn; lia..].
    apply ok_set_alt; [exact Hs|apply newGrid_ok; cbn; lia|exact (ok_grid _ Hs)].
  - apply (ok_set_cursor (clamp s.(altCurX) 0 (s.(cols) - 1)) (clamp s.(altCurY) 0 (s.(rows) - 1))
      (set_altActive false (set_alt [] (set_grid s.(alt) s)))); [by apply ok_set_alt|apply clamp_lt; cbn; lia..].
Qed.

Lemma setAltScreen_held on s : held (setAltScreen on s) = held s.
Proof. unfold setAltScreen. by repeat case_match. Qed.

Lemma setPrivateModes_ok ps on s :
  screen_ok s → screen_ok (setPrivateModes ps on s) ∧ held (setPrivateModes ps on s) = held s.
Proof.
  unfold setPrivateModes. revert s. induction ps as [|p ps IH]; intros s Hs; cbn; [done|].
  assert (screen_ok (setPrivateMode on s p) ∧ held (setPrivateMode on s p) = held s) as [H1 <-].
  { unfold setPrivateMode. repeat case_match; try done.
    split; [by apply setAltScreen_ok|apply setAltScreen_held]. }
  by apply IH.
Qed.

Lemma reset_ok s : screen_ok s → screen_ok (reset s).
Proof.
  intros Hs. screen_facts Hs. pose proof (ok_table _ Hs) as (? & _). unfold reset.
  set (s1 := set_cursorHidden false (set_autoWrap true s)).
  assert (Hr : screen_ok s1) by exact Hs.
  apply (ok_set_alt (newGrid s.(cols) s.(rows)) [] false s1) in Hr; [|apply newGrid_ok; cbn; lia|done].
  apply (ok_set_style 0) in Hr; [|cbn; lia].
  apply (ok_set_margins 0 (s.(rows) - 1)) in Hr; [|cbn; lia..].
  apply (ok_set_cursor 0 0) in Hr; [exact Hr|cbn; lia..].
Qed.

Lemma csi_final_keeps final raw s : screen_ok s → small_params raw → keeps s (csi_final final raw s).
Proof.
  intros Hs Hp. screen_facts Hs. unfold csi_final.
  pose proof (arg_pos _ 0 1 Hp ltac:(unfold small; lia)) as Ha0.
  pose proof (arg_pos _ 1 1 Hp ltac:(unfold small; lia)) as Ha1.
  pose proof (arg_pos _ 1 s.(rows) Hp ltac:(unfold small; lia)) as Ha2. unfold small in *.
  assert (Hcur : ∀ x y w, 0 <= x < s.(cols) → 0 <= y < s.(rows) →
            keeps s (Ok (set_wrapNext w (set_curY y (set_curX x s))))).
  { intros. apply keeps_Ok; [|done]. by apply (ok_set_wrapNext w), ok_set_cursor. }
  pose proof (λ v, clamp_lt v s.(cols) ltac:(lia)) as Hcx. pose proof (λ v, clamp_lt v s.(rows) ltac:(lia)) as Hcy.
  set (a0 := arg _ 0 1) in *. set (a1 := arg _ 1 1) in *.
  assert (Htop : 0 <= scrollTopBound s <= s.(curY)) by (unfold scrollTopBound; case_match; bool_prop; lia).
  assert (Hbot : s.(curY) <= scrollBotBound s < s.(rows)) by (unfold scrollBotBound; case_match; bool_prop; lia).
  rewrite !iadd_small, !isub_small, !minInt_min, !maxInt_max by (unfold MinInt64, MaxInt64; lia).
  case_match; [apply (Hcur s.(curX) (Z.max (scrollTopBound s) (s.(curY) - a0)) false); lia|].
  case_match; [apply (Hcur s.(curX) (Z.min (scrollBotBound s) (s.(curY) + a0)) false); lia|].
  case_match; [apply (Hcur (Z.min (s.(cols) - 1) (s.(curX) + a0)) s.(curY) false); lia|].
  case_match; [apply (Hcur (Z.max 0 (s.(curX) - a0)) s.(curY) false); lia|].
  case_match; [apply (Hcur 0 (Z.min (s.(rows) - 1) (s.(curY) + a0)) s.(wrapNext)); lia|].
  case_match; [apply (Hcur 0 (Z.max 0 (s.(curY) - a0)) s.(wrapNext)); lia|].
  case_match; [apply (Hcur (clamp (a0 - 1) 0 (s.(cols) - 1)) s.(curY) false); [apply Hcx|lia]|].
  case_match; [apply (Hcur s.(curX) (clamp (a0 - 1) 0 (s.(rows) - 1)) false); [lia|apply Hcy]|].
  case_match; [apply (Hcur (clamp (a1 - 1) 0 (s.(cols) - 1)) (clamp (a0 - 1) 0 (s.(rows) - 1)) false);
                 [apply Hcx|apply Hcy]|].
  do 3 (case_match; [by auto using eraseDisplay_keeps, eraseLine_keeps, insertLines_keeps|]).
  do 3 (case_match; [by auto using deleteLines_keeps, deleteChars_keeps, insertChars_keeps|]).
  do 3 (case_match; [by auto using eraseChars_keeps, scrollUp_keeps, scrollDown_keeps|]).
  case_match; [by apply sgr_keeps|].
  case_match; [apply keeps_Ok; [|unfold setMargins; by case_match]; apply setMargins_ok;
    [done|apply Hcy..]|].
  case_match; [apply keeps_Ok; [by apply saveCursor_ok|done]|].
  case_match; apply keeps_Ok; try done. by apply restoreCursor_ok.
Qed.

Lemma csi_keeps final s :
  screen_ok s → (is_private s.(params) = false → small_params s.(params)) →
  ∃ s', csi final s = Ok s' ∧ screen_ok s' ∧ s'.(pending) = s.(pending) ∧ size s' = size s.
Proof.
  intros Hs Hp. unfold csi.
  assert (H : keeps s (if is_private s.(params) then
     let ps := parseParams (string_drop 1 s.(params)) in
       Ok (if isc final "h" then setPrivateModes ps true s
           else if isc final "l" then setPrivateModes ps false s else s)
     else csi_final final s.(params) s)).
  { destruct (is_private _); [|by apply csi_final_keeps; auto].
    repeat case_match; [apply keeps_Ok; by apply setPrivateModes_ok..|by apply keeps_Ok]. }
  destruct H as (s1 & E & Hs1 & Hh). injection Hh as Hc1 Hr1 Hp1 _ _. cbv zeta in E |- *. rewrite E.
  exists (clear_params s1). split_and!; [done|done|done|]. unfold size. cbn. congruence.
Qed.

(** ** The parser, abstractly

    What a byte does to the state of the parser depends on the byte alone. *)

Definition param_byte (b : ascii) : bool := (0x30 <=? zb b) && (zb b <=? 0x3f).

Definition next (st : parseState) (b : ascii) : parseState :=
  match st with
  | stGround => if zb b =? 0x1b then stEsc else stGround
  | stEsc =>
      if isc b "[" then stCSI
      else if isc b "]" then stOSC
      else if isc b "P" || isc b "X" || isc b "^" || isc b "_" then stStr
      else if isc b "(" || isc b ")" || isc b "*" || isc b "+" then stCharset
      else stGround
  | stCSI => if (0x40 <=? zb b) && (zb b <=? 0x7e) then stGround
             else if zb b =? 0x1b then stEsc else stCSI
  | stOSC => if zb b =? 0x07 then stGround else if zb b =? 0x1b then stEsc else stOSC
  | stStr => if zb b =? 0x07 then stGround else if zb b =? 0x1b then stEsc else stStr
  | stCharset => stGround
  end.

(** The longest parameter that cannot reach [small]. *)
Definition max_param : nat := 18.

(** Runs the parser over [data], [k] counting the bytes of the parameter a
    control sequence is in; [None] when a parameter grows beyond [max_param]. *)
Fixpoint scan (st : parseState) (k : nat) (data : string) : option (parseState * nat) :=
  match data with
  | EmptyString => Some (st, match st with stCSI => k | _ => 0%nat end)
  | String b data =>
      match st with
      | stCSI =>
          if param_byte b then
            if Ascii.eqb b semicolon then scan stCSI 0 data
            else if (k <? max_param)%nat then scan stCSI (S k) data else None
          else scan (next stCSI b) k data
      | _ => scan (next st b) 0 data
      end
  end.

Lemma scan_ground k data : scan stGround k data = scan stGround 0 data.
Proof. by destruct data. Qed.

Lemma scan_high k t data :
  all_bytes (fun b => 0x80 <=? zb b) t = true → scan stGround k (t +:+ data) = scan stGround 0 data.
Proof.
  revert k. induction t as [|b t IH]; intros k; cbn; [by rewrite scan_ground|].
  intros [Hb Ht]%andb_true_iff. bool_prop. rewrite (proj2 (Z.eqb_neq _ _)) by lia. by apply IH.
Qed.

Lemma scan_app st k p q :
  scan st k (p +:+ q) = match scan st k p with Some (st', k') => scan st' k' q | None => None end.
Proof.
  revert st k. induction p as [|b p IH]; intros st k; cbn [scan String.append].
  - destruct st; [by rewrite scan_ground|by destruct q..].
  - destruct st; try apply IH. destruct (param_byte b); [|apply IH].
    destruct (Ascii.eqb b semicolon); [apply IH|]. destruct (k <? max_param)%nat; [apply IH|done].
Qed.

(** *** Parameters stay small *)

Definition params_short (k : nat) (s : Screen) : Prop :=
  s.(state) = stCSI →
  ∃ fs f, split_byte semicolon s.(params) = fs ++ [f] ∧
    Forall (fun f => (String.length f <= max_param)%nat) (fs ++ [f]) ∧ (String.length f <= k <= max_param)%nat.

Lemma cut_byte_length c s p q : cut_byte c s = Some (p, q) → (String.length p <= String.length s)%nat.
Proof.
  revert p. induction s as [|a s IH]; intros p; cbn; [done|].
  case_match; [intros [= <- _]; cbn; lia|]. destruct (cut_byte c s) as [[p' q']|]; [|done].
  intros [= <- <-]. specialize (IH p' eq_refl). cbn. lia.
Qed.

Lemma ParseUint_loop_bound s bs n v :
  ParseUint_loop s bs n = Ok v → 0 <= n → 0 <= v ∧ v + 1 <= (n + 1) * 10 ^ Z.of_nat (length bs).
Proof.
  revert n. induction bs as [|c bs IH]; intros n; cbn [ParseUint_loop].
  { intros [= ->] ?. change (10 ^ Z.of_nat (length [])) with 1. lia. }
  destruct (is_digit (zb c)) eqn:E; [|done]. cbn [negb]. case_match; [done|].
  unfold is_digit in E. bool_prop. intros Hv Hn. apply IH in Hv as [Hv0 Hv]; [|lia].
  cbn [length]. rewrite Nat2Z.inj_succ, Z.pow_succ_r by lia.
  assert (0 < 10 ^ Z.of_nat (length bs)) by (apply Z.pow_pos_nonneg; lia). nia.
Qed.

Lemma string_bytes_length s : length (string_bytes s) = String.length s.
Proof. induction s as [|a s IH]; [done|]. cbn. by rewrite IH. Qed.


Lemma Atoi_bound s n : Atoi s = Ok n → n <= 10 ^ Z.of_nat (String.length s).
Proof.
  unfold Atoi. destruct (split_sign s) as [neg rest] eqn:Es. case_match; [done|].
  destruct (ParseUint_loop s (string_bytes rest) 0) as [un|] eqn:E; cbn [rbind]; [|done].
  apply ParseUint_loop_bound in E as [E0 E]; [|lia]. rewrite string_bytes_length in E.
  assert (Hl : (String.length rest <= String.length s)%nat).
  { unfold split_sign in Es. destruct s as [|a s]; [by injection Es as <- <-|].
    repeat case_match; injection Es as <- <-; cbn; lia. }
  assert (10 ^ Z.of_nat (String.length rest) <= 10 ^ Z.of_nat (String.length s)) by (apply Z.pow_le_mono_r; lia).
  repeat (case_match; [done|]). intros [= <-]. destruct neg; lia.
Qed.

Lemma parse_param_small f : (String.length f <= max_param)%nat → parse_param f <= small.
Proof.
  intros Hf. unfold parse_param.
  assert (H : ∀ g, (String.length g <= max_param)%nat → match Atoi g with Ok n => n | Err _ => 0 end <= small).
  { intros g Hg. destruct (Atoi g) as [n|] eqn:E; [|done]. apply Atoi_bound in E.
    assert (10 ^ Z.of_nat (String.length g) <= 10 ^ 18) by (apply Z.pow_le_mono_r; unfold max_param in *; lia).
    unfold small. lia. }
  destruct (cut_byte colon f) as [[p q]|] eqn:E; [|by apply H]. apply cut_byte_length in E. apply H. lia.
Qed.

Lemma params_short_small k s : params_short k s → s.(state) = stCSI → small_params s.(params).
Proof.
  intros H Hs. destruct (H Hs) as (fs & f & E & Hf & _). unfold small_params, parseParams.
  case_match; [constructor|]. rewrite E. apply Forall_fmap. eapply Forall_impl; [exact Hf|].
  intros g Hg. by apply parse_param_small.
Qed.

Lemma params_short_snoc k b s :
  params_short k s → s.(state) = stCSI →
  ((if Ascii.eqb b semicolon then 0%nat else S k) <= max_param)%nat →
  params_short (if Ascii.eqb b semicolon then 0%nat else S k) (set_params (s.(params) +:+ str1 b) s).
Proof.
  intros H Hs Hk _. destruct (H Hs) as (fs & f & E & Hf & Hl). apply (split_byte_snoc _ _ b) in E.
  change (params (set_params (s.(params) +:+ str1 b) s)) with (s.(params) +:+ str1 b).
  rewrite E. destruct (Ascii.eqb b semicolon) in Hk |- *.
  - exists (fs ++ [f]), ""%string. rewrite <- app_assoc. split; [done|].
    split; [|cbn; lia].
    rewrite !Forall_app in *. destruct Hf as [Hf1 Hf2]. split_and!; [done..|]. apply Forall_singleton; cbn; lia.
  - exists fs, (f +:+ str1 b). split; [done|]. rewrite string_length_app. cbn [String.length str1].
    rewrite Forall_app in *. destruct Hf as [Hf1 Hf2]. split; [|lia]. split; [done|].
    apply Forall_singleton. rewrite string_length_app. cbn. lia.
Qed.

(** ** One byte *)

(** What a write leaves behind is a rune that is not complete yet. *)
Definition settled (s : Screen) : Prop :=
  s.(pending) ≠ ""%string →
  s.(state) = stGround ∧ all_bytes (fun b => 0x80 <=? zb b) s.(pending) = true.

(** A well-formed screen in the middle of its input. *)
Definition good (k : nat) (s : Screen) : Prop := screen_ok s ∧ settled s ∧ params_short k s.

Lemma held_state s s' : held s' = held s → s'.(state) = s.(state) ∧ s'.(pending) = s.(pending) ∧ size s' = size s.
Proof. unfold held, size. by intros [= -> -> -> -> _]. Qed.

(** The outcome of a byte: the parser moves as [next] says. *)
Definition stepped (s : Screen) (st : parseState) (r : result panic Screen) : Prop :=
  ∃ s', r = Ok s' ∧ screen_ok s' ∧ s'.(pending) = s.(pending) ∧ s'.(state) = st ∧ size s' = size s.

Lemma keeps_stepped s r : keeps s r → stepped s s.(state) r.
Proof. intros (s' & -> & ? & (? & ? & ?)%held_state). by exists s'. Qed.

Lemma keeps_stepped_state s st r : keeps (set_state st s) r → stepped s st r.
Proof. intros (s' & -> & ? & (? & ? & ?)%held_state). by exists s'. Qed.

Lemma control_keeps b s : screen_ok s → keeps s (control b s).
Proof.
  intros Hs. screen_facts Hs. unfold control. case_match; [by apply index_keeps|].
  case_match; [apply keeps_Ok; [|done]; apply (ok_set_wrapNext false), ok_set_curX; [done|lia]|].
  case_match.
  { apply keeps_Ok; [|by repeat case_match]. case_match; [done|]. case_match; bool_prop; [|done].
    apply ok_set_curX; [done|lia]. }
  case_match; [|by apply keeps_Ok].
  pose proof (Z.quot_pos s.(curX) 8 ltac:(lia) ltac:(lia)).
  pose proof (Z.quot_le_upper_bound s.(curX) 8 s.(curX) ltac:(lia) ltac:(lia)).
  assert (8 * (s.(curX) ÷ 8) <= s.(curX)) by (apply Z.mul_quot_le; lia).
  cbn. rewrite iadd_small, imul_small by (unfold MinInt64, MaxInt64; lia || (rewrite iadd_small; unfold MinInt64, MaxInt64; lia)).
  apply keeps_Ok; [|done]. apply (ok_set_curX _ (set_wrapNext false s)); [done|]. cbn. case_match; bool_prop; lia.
Qed.

Lemma osc_keeps body s : screen_ok s → screen_ok (osc body s) ∧ held (osc body s) = held s.
Proof. intros Hs. unfold osc. by repeat case_match. Qed.

Lemma finishString_ok s :
  screen_ok s → screen_ok (finishString s) ∧ (finishString s).(pending) = s.(pending) ∧
  (finishString s).(state) = stGround ∧ size (finishString s) = size s.
Proof.
  intros Hs. unfold finishString. destruct (osc_keeps s.(params) s Hs) as [H1 (H2 & H3 & H4)%held_state].
  destruct (state s); (split_and!; [|done..]); done.
Qed.

Lemma escape_stepped b s : screen_ok s → stepped s (next stEsc b) (escape b s).
Proof.
  intros Hs. unfold escape, next.
  assert (Hg : screen_ok (set_state stGround s)) by exact Hs.
  case_match; [by exists (clear_params (set_state stCSI s))|].
  case_match; [by exists (set_params "" (set_state stOSC s))|].
  case_match; [by exists (set_params "" (set_state stStr s))|].
  case_match; [by exists (set_state stCharset s)|].
  apply keeps_stepped_state.
  case_match; [apply keeps_Ok; [by apply saveCursor_ok|done]|].
  case_match; [apply keeps_Ok; [by apply restoreCursor_ok|done]|].
  case_match; [by apply index_keeps|]. case_match; [by apply reverseIndex_keeps|].
  case_match; [apply (index_keeps (set_curX 0 (set_state stGround s)));
               apply ok_set_curX; [done|]; screen_facts Hg; cbn in *; lia|].
  case_match; [apply keeps_Ok; [by apply reset_ok|done]|by apply keeps_Ok].
Qed.

Section parser.
Context `{LL : LipglossLaws}.

Lemma ground_stepped b s :
  screen_ok s → s.(state) = stGround → stepped s (next stGround b) (ground b s).
Proof.
  intros Hs Hst. unfold ground, next. case_match; [by exists (clear_params (set_state stEsc s))|].
  rewrite <- Hst. apply keeps_stepped. case_match; [by apply control_keeps|by apply print_keeps].
Qed.

Lemma feed_stepped b s :
  screen_ok s → (s.(state) = stCSI → small_params s.(params)) → stepped s (next s.(state) b) (feed b s).
Proof.
  intros Hs Hp. unfold feed. destruct (state s) eqn:Hst.
  - by apply ground_stepped.
  - by apply escape_stepped.
  - cbn [next]. destruct ((0x30 <=? zb b) && (zb b <=? 0x3f)) eqn:E1.
    { bool_prop. rewrite (proj2 (Z.leb_gt _ _)), (proj2 (Z.eqb_neq _ _)) by lia. cbn. by exists (set_params (s.(params) +:+ str1 b) s). }
    clear E1. destruct ((0x20 <=? zb b) && (zb b <=? 0x2f)) eqn:E1.
    { bool_prop. rewrite (proj2 (Z.leb_gt _ _)), (proj2 (Z.eqb_neq _ _)) by lia. cbn. by exists (set_inter (s.(inter) +:+ str1 b) s). }
    case_match.
    { destruct (csi_keeps b s) as (s1 & -> & Hs1 & E2 & E3); [done|auto|]. by exists (set_state stGround s1). }
    case_match; [by exists (clear_params (set_state stEsc s))|].
    rewrite <- Hst. by apply keeps_stepped, control_keeps.
  - cbn [next]. destruct (finishString_ok s Hs) as (H1 & H2 & H3 & H4).
    case_match; [by exists (finishString s)|]. case_match; [by exists (set_state stEsc (finishString s))|].
    case_match; [by exists (set_params (s.(params) +:+ str1 b) s)|by exists s].
  - cbn [next]. destruct (finishString_ok s Hs) as (H1 & H2 & H3 & H4).
    case_match; [by exists (finishString s)|]. case_match; [by exists (set_state stEsc (finishString s))|]. by exists s.
  - by exists (set_state stGround s).
Qed.

(** In the middle of a control sequence the parameters grow by parameter bytes
    alone. *)
Lemma feed_params b s s' :
  screen_ok s → feed b s = Ok s' → s.(state) = stCSI → s'.(state) = stCSI →
  s'.(params) = if param_byte b then s.(params) +:+ str1 b else s.(params).
Proof.
  intros Hs. unfold feed. intros E Hst Hst'. rewrite Hst in E. unfold param_byte.
  destruct ((0x30 <=? zb b) && (zb b <=? 0x3f)); [by injection E as <-|].
  case_match; [by injection E as <-|]. case_match.
  { destruct (csi b s) as [s1|]; [|done]. injection E as <-. done. }
  case_match; [by injection E as <-|].
  destruct (control_keeps b s Hs) as (s1 & E1 & _ & Hh). rewrite E in E1. injection E1 as <-.
  by injection Hh as _ _ _ _ ->.
Qed.

Lemma params_short_eq k s s' :
  params_short k s → s'.(params) = s.(params) → s.(state) = stCSI → params_short k s'.
Proof. intros H E Hs _. rewrite E. auto. Qed.

(** A control sequence starts without parameters. *)
Lemma feed_enter b s s' :
  feed b s = Ok s' → s.(state) ≠ stCSI → next s.(state) b = stCSI → s'.(params) = "".
Proof.
  unfold feed. destruct (state s) eqn:Hst; cbn [next]; intros E Hn Hc; try done.
  2: { unfold escape in E. case_match; [by injection E as <-|]. by repeat case_match. }
  all: by repeat case_match.
Qed.

(** One byte of an abstract run is one byte of the screen. *)
Lemma feed_scan b data k s r :
  screen_ok s → params_short k s → scan s.(state) k (String b data) = Some r →
  ∃ s' k', feed b s = Ok s' ∧ screen_ok s' ∧ s'.(pending) = s.(pending) ∧ size s' = size s ∧
    params_short k' s' ∧ scan s'.(state) k' data = Some r.
Proof.
  intros Hs Hk Hr.
  destruct (feed_stepped b s Hs) as (s' & E & Hs' & Hp & Hst' & Hsz); [intros; by eapply params_short_small|].
  destruct (decide (s.(state) = stCSI)) as [Hc|Hc].
  - assert (Hnew : s'.(state) = stCSI → s'.(params) = if param_byte b then s.(params) +:+ str1 b else s.(params)).
    { intros Hc'. by eapply feed_params. }
    destruct (Hk Hc) as (fs & f & _ & _ & Hkm).
    rewrite Hc in Hr. cbn [scan] in Hr. destruct (param_byte b) eqn:Eb.
    + assert (Hn : next s.(state) b = stCSI).
      { rewrite Hc. unfold param_byte in Eb. bool_prop. cbn [next].
        by rewrite (proj2 (Z.leb_gt _ _)), (proj2 (Z.eqb_neq _ _)) by lia. }
      rewrite Hn in Hst'. exists s', (if Ascii.eqb b semicolon then 0%nat else S k). rewrite Hst'.
      split_and!; try done.
      * eapply (params_short_eq _ (set_params (s.(params) +:+ str1 b) s)); [|by rewrite Hnew|done].
        apply params_short_snoc; [done..|]. case_match; [lia|].
        destruct (Nat.ltb_spec k max_param); [lia|done].
      * case_match; [done|]. by destruct (k <? max_param)%nat.
    + exists s', k. split_and!; try done; [|by rewrite Hst', Hc].
      intros Hc'. eapply (params_short_eq k s s'); [done|by apply Hnew|done..].
  - exists s', 0%nat. split_and!; try done.
    + intros Hc'. rewrite (feed_enter b s s') by congruence. exists [], ""%string. cbn. split_and!; try done; try lia.
      apply Forall_singleton. cbn. lia.
    + rewrite Hst'. destruct (state s); done.
Qed.

(** ** Writing *)

(** The loop follows the abstract run. *)
Lemma write_loop_scan fuel data k s st' k' :
  (String.length data <= fuel)%nat → screen_ok s → s.(pending) = "" → params_short k s →
  scan s.(state) k data = Some (st', k') →
  ∃ s', write_loop fuel data s = Ok s' ∧ s'.(state) = st' ∧ good k' s' ∧ size s' = size s.
Proof.
  revert data k s. induction fuel as [|fuel IH]; intros data k s Hl Hs Hp Hk Hr.
  all: destruct data as [|b data]; cbn [String.length] in Hl; [|try lia].
  1,2: cbn in Hr; injection Hr as <- <-; exists s; do 2 (split; [done|]);
    (split; [|done]); (split; [done|split; [by intros ?|intros Hc; rewrite Hc; by apply Hk]]).
  assert (Hfeed : ∃ s', (let* s := feed b s in write_loop fuel data s) = Ok s' ∧ s'.(state) = st' ∧ good k' s' ∧ size s' = size s).
  { destruct (feed_scan _ _ _ _ _ Hs Hk Hr) as (s1 & k1 & -> & Hs1 & Hp1 & Hz1 & Hk1 & Hr1).
    cbn. rewrite <- Hz1. apply (IH _ k1); try done; [lia|congruence]. }
  cbn [write_loop]. destruct (state s) eqn:Hst; try exact Hfeed.
  destruct (Z.leb_spec 0x80 (zb b)); [|exact Hfeed].
  destruct (FullRune (String b data)) eqn:Ef; cbn [negb].
  2:{ pose proof (not_full_high b data ltac:(lia) Ef) as Hh.
      rewrite <- (string_app_nil_r (String b data)), scan_high in Hr by done. injection Hr as <- <-.
      exists (set_pending (String b data) s). do 2 (split; [done|]). split; [|done]. split; [done|].
      split; [by intros _|intros Hc; cbn in Hc; congruence]. }
  pose proof (DecodeRune_size b data) as Hsz. pose proof (DecodeRune_high b data ltac:(lia)) as Hh.
  destruct (DecodeRune (String b data)) as [r size]. cbn [snd] in *.
  destruct (print_keeps r s Hs) as (s1 & -> & Hs1 & (E1 & E2 & <-)%held_state). cbn [rbind].
  apply (IH _ 0%nat); [rewrite string_drop_length; cbn [String.length] in *; lia|done|congruence| |].
  - intros Hc. congruence.
  - rewrite <- (string_take_drop size (String b data)), scan_high in Hr by done. by rewrite E1, Hst.
Qed.

(** The fuel of [Write] is enough: more changes nothing. *)
Lemma write_loop_fuel fuel fuel' data s :
  (String.length data <= fuel)%nat → (fuel <= fuel')%nat → write_loop fuel' data s = write_loop fuel data s.
Proof.
  revert fuel' data s. induction fuel as [|fuel IH]; intros fuel' data s Hl Hf.
  { destruct data; cbn in Hl; [|lia]. by destruct fuel'. }
  destruct fuel' as [|fuel']; [lia|]. destruct data as [|b data]; [done|]. cbn [write_loop String.length] in *.
  assert (Hfeed : (let* s := feed b s in write_loop fuel' data s) = (let* s := feed b s in write_loop fuel data s)).
  { destruct (feed b s) as [s1|]; [|done]. cbn. apply IH; lia. }
  destruct (state s); try exact Hfeed. destruct (0x80 <=? zb b); [|exact Hfeed].
  destruct (negb _); [done|]. pose proof (DecodeRune_size b data) as Hsz.
  destruct (DecodeRune (String b data)) as [r size]. cbn [snd String.length] in *. destruct (print r s) as [s1|]; [|done]. cbn [rbind].
  apply IH; [|lia]. rewrite string_drop_length. cbn [String.length] in *. lia.
Qed.
End parser.

(** ** Chunks of output

    No operation of the screen touches the bytes held back. *)

Definition frame (s : Screen) (r : result panic Screen) : Prop := ∀ s', r = Ok s' → s'.(pending) = s.(pending).

Lemma frame_Ok s s' : s'.(pending) = s.(pending) → frame s (Ok s').
Proof. by intros ? ? [= <-]. Qed.

Lemma frame_bind s r f : frame s r → (∀ s', s'.(pending) = s.(pending) → frame s' (f s')) → frame s (rbind r f).
Proof.
  intros Hr Hf s'. destruct r as [s1|]; cbn; [|done]. intros E. specialize (Hr s1 eq_refl).
  by rewrite (Hf s1 Hr s' E).
Qed.

Lemma frame_lift {A} s (r : result panic A) f : (∀ a, frame s (f a)) → frame s (rbind r f).
Proof. intros Hf. destruct r as [a|]; cbn; [apply Hf|done]. Qed.

Lemma frame_repeat s n f : (∀ s', frame s' (f s')) → frame s (repeat_ok n f s).
Proof.
  intros Hf. revert s. induction n as [|n IH]; intros s; cbn; [by apply frame_Ok|].
  apply frame_bind; [apply Hf|]. intros. apply IH.
Qed.

Lemma frame_on_row y f s : frame s (on_row y f s).
Proof. intros s' [g ->]%on_row_frame. done. Qed.

Create HintDb frame.
#[local] Hint Resolve frame_on_row frame_repeat : frame.

(** Follows the code: a primitive, a loop, a bind or a test. *)
Ltac frame_step :=
  first [ apply frame_Ok; by repeat case_match
        | apply frame_on_row
        | apply frame_repeat; intros ?
        | solve [auto with frame]
        | apply frame_bind; [|intros ? ?]
        | apply frame_lift; intros ?
        | case_match ].

Lemma frame_scrollUp n s : frame s (scrollUp n s).
Proof.
  unfold scrollUp. case_match; [by apply frame_Ok|]. apply frame_repeat. intros s1.
  unfold scrollUp_once. apply frame_lift. intros top. destruct (negb _ && _ && _); by repeat frame_step.
Qed.

Lemma frame_scrollDown n s : frame s (scrollDown n s).
Proof. unfold scrollDown. by repeat frame_step. Qed.
#[local] Hint Resolve frame_scrollUp frame_scrollDown : frame.

Lemma frame_index s : frame s (index s).
Proof. unfold index. case_match; [|by frame_step]. intros s' E. by rewrite (frame_scrollUp _ _ _ E). Qed.
Lemma frame_reverseIndex s : frame s (reverseIndex s).
Proof. unfold reverseIndex. case_match; [|by frame_step]. intros s' E. by rewrite (frame_scrollDown _ _ _ E). Qed.

Lemma frame_clear_rows n y s : frame s (clear_rows n y s).
Proof.
  revert y s. induction n as [|n IH]; intros y s; cbn; [by apply frame_Ok|].
  apply frame_bind; [apply frame_on_row|]. intros. apply IH.
Qed.
#[local] Hint Resolve frame_index frame_reverseIndex frame_clear_rows : frame.

Lemma frame_eraseDisplay m s : frame s (eraseDisplay m s).
Proof. unfold eraseDisplay, eraseLine. by repeat frame_step. Qed.

Lemma frame_insertLines n s : frame s (insertLines n s).
Proof. unfold insertLines. by repeat frame_step. Qed.
Lemma frame_deleteLines n s : frame s (deleteLines n s).
Proof. unfold deleteLines. by repeat frame_step. Qed.

Lemma frame_sgr raw s : frame s (sgr raw s).
Proof.
  unfold sgr. case_match; [by apply frame_Ok|]. apply frame_lift. intros cur.
  unfold internStyle. cbv zeta. by repeat break_match_goal; simplify_eq; apply frame_Ok.
Qed.
#[local] Hint Resolve frame_eraseDisplay frame_insertLines frame_deleteLines frame_sgr : frame.

Lemma setPrivateModes_pending ps on s : (setPrivateModes ps on s).(pending) = s.(pending).
Proof.
  unfold setPrivateModes. revert s. induction ps as [|p ps IH]; intros s; cbn; [done|]. rewrite IH.
  unfold setPrivateMode, setAltScreen. by repeat case_match.
Qed.

Lemma frame_csi b s : frame s (csi b s).
Proof.
  unfold csi. apply frame_bind; [|intros; by apply frame_Ok]. case_match.
  { apply frame_Ok. repeat case_match; try done; apply setPrivateModes_pending. }
  unfold csi_final, eraseLine, deleteChars, insertChars, eraseChars. cbv zeta.
  repeat (case_match; [solve [auto with frame | apply frame_Ok; by repeat case_match | apply frame_Ok; unfold setMargins; by case_match]|]).
  by apply frame_Ok.
Qed.

Lemma finishString_pending s : (finishString s).(pending) = s.(pending).
Proof. unfold finishString, osc. by repeat case_match. Qed.

Section chunks.
Context `{LG : Lipgloss}.

Lemma frame_print r s : frame s (print r s).
Proof.
  unfold print. case_match; [by apply frame_Ok|]. apply frame_bind.
  - case_match; [|by apply frame_Ok]. apply frame_bind; [|intros; by apply frame_Ok].
    intros s' E. by rewrite (frame_index _ _ E).
  - intros s1 _. apply frame_bind; [|intros; apply frame_Ok; by repeat case_match].
    intros s' E. rewrite (frame_on_row _ _ _ _ E). by case_match.
Qed.

Lemma frame_control b s : frame s (control b s).
Proof. unfold control. by repeat frame_step. Qed.

Lemma frame_escape b s : frame s (escape b s).
Proof.
  unfold escape. repeat (case_match; [by apply frame_Ok|]).
  case_match; [intros s' E; by rewrite (frame_index _ _ E)|].
  case_match; [intros s' E; by rewrite (frame_reverseIndex _ _ E)|].
  case_match; [intros s' E; by rewrite (frame_index _ _ E)|]. by case_match; apply frame_Ok.
Qed.

Lemma frame_feed b s : frame s (feed b s).
Proof.
  unfold feed. case_match.
  - unfold ground. case_match; [by apply frame_Ok|]. case_match; [apply frame_control|apply frame_print].
  - apply frame_escape.
  - repeat (case_match; [by apply frame_Ok|]). case_match.
    + apply frame_bind; [apply frame_csi|intros; by apply frame_Ok].
    + case_match; [by apply frame_Ok|apply frame_control].
  - repeat (case_match; [apply frame_Ok; cbn [pending set_state set_params]; by rewrite ?finishString_pending|]). by apply frame_Ok.
  - repeat (case_match; [apply frame_Ok; cbn [pending set_state set_params]; by rewrite ?finishString_pending|]). by apply frame_Ok.
  - by apply frame_Ok.
Qed.

Lemma set_pending_id s : s.(pending) = "" → set_pending "" s = s.
Proof. destruct s. cbn. by intros ->. Qed.

Lemma write_loop_app fuel d q s :
  (String.length d <= fuel)%nat → s.(pending) = "" →
  write_loop (fuel + String.length q) (d +:+ q) s =
  (let* s1 := write_loop fuel d s in
   write_loop (String.length (s1.(pending) +:+ q)) (s1.(pending) +:+ q) (set_pending "" s1)).
Proof.
  revert d s. induction fuel as [|fuel IH]; intros d s Hl Hp.
  { destruct d; cbn in Hl; [|lia]. cbn. by rewrite Hp, set_pending_id. }
  destruct d as [|b d].
  { cbn [write_loop rbind String.append]. rewrite Hp, set_pending_id by done. cbn [String.append].
    apply write_loop_fuel; lia. }
  cbn [String.length] in Hl.
  assert (Hfeed : (let* s1 := feed b s in write_loop (fuel + String.length q) (d +:+ q) s1) =
    (let* s1 := (let* s1 := feed b s in write_loop fuel d s1) in
     write_loop (String.length (s1.(pending) +:+ q)) (s1.(pending) +:+ q) (set_pending "" s1))).
  { pose proof (frame_feed b s) as Hf. destruct (feed b s) as [s1|]; [|done]. cbn.
    apply IH; [lia|]. by rewrite (Hf s1). }
  destruct (FullRune (String b d)) eqn:Ef.
  - cbn [Nat.add String.append write_loop].
    destruct (state s) eqn:Hst; try exact Hfeed. destruct (0x80 <=? zb b); [|exact Hfeed].
    destruct (FullRune_app (String b d) q Ef) as [E1 E2]. cbn [String.append] in E1, E2. rewrite E1, E2, Ef.
    pose proof (DecodeRune_size b d) as Hsz. cbn [negb]. destruct (DecodeRune (String b d)) as [r size]. cbn [snd] in Hsz.
    pose proof (frame_print r s) as Hf. destruct (print r s) as [s1|]; [|done]. cbn [rbind].
    change (String b (d +:+ q)) with (String b d +:+ q). rewrite string_drop_app by lia.
    apply IH; [|by rewrite (Hf s1)]. rewrite string_drop_length. cbn [String.length] in *. lia.
  - destruct (state s) eqn:Hst; [destruct (0x80 <=? zb b) eqn:Eb|..];
      try (cbn [Nat.add String.append write_loop]; rewrite Hst, ?Eb; exact Hfeed).
    assert (write_loop (S fuel) (String b d) s = Ok (set_pending (String b d) s)) as ->.
    { cbn [write_loop]. by rewrite Hst, Eb, Ef. }
    cbn [rbind]. change (pending (set_pending (String b d) s)) with (String b d).
    change (set_pending "" (set_pending (String b d) s)) with (set_pending "" s).
    rewrite set_pending_id by done. apply write_loop_fuel; [lia|].
    rewrite string_length_app. cbn [String.length]. lia.
Qed.
End chunks.

(** ** Resizing *)

Lemma resizeLine_len l c : 0 <= c → zlen (resizeLine l c) = c.
Proof.
  intros. unfold resizeLine. case_match; bool_prop.
  - unfold zlen in *. rewrite length_take. lia.
  - rewrite zlen_app, zlen_replicate. lia.
Qed.

(** What [resizeGrid] answers: a grid of the new size, and at most the history
    changed. *)
Lemma resizeGrid_ok g c r y spill s :
  1 <= c → 1 <= r → 0 <= s.(maxScrollback) →
  grid_ok c r (resizeGrid g c r y spill s).2.1 ∧
  ((resizeGrid g c r y spill s).1 = s ∨
   spill = true ∧ ∃ h, (resizeGrid g c r y spill s).1 = set_scrollback h s ∧ zlen h <= s.(maxScrollback)).
Proof.
  intros Hc Hr Hm. unfold resizeGrid. cbv zeta. set (g' := (fun l => resizeLine l c) <$> g).
  assert (Hg : Forall (fun l => zlen l = c) g').
  { apply Forall_fmap, Forall_true. intros l. apply resizeLine_len. lia. }
  assert (Hpad : ∀ g1, Forall (fun l => zlen l = c) g1 → zlen g1 <= r → grid_ok c r (pad_grid g1 c r)).
  { intros g1 H1 Hl. unfold pad_grid. split.
    - rewrite zlen_app, zlen_replicate. lia.
    - apply Forall_app. split; [done|]. apply Forall_replicate, newLine_len. lia. }
  destruct (Z.ltb_spec (zlen g') r); [cbn; split; [apply Hpad; [done|lia]|by left]|].
  destruct (Z.ltb_spec r (zlen g')); [|cbn; split; [split; [lia|done]|by left]].
  cbn. split.
  - set (d := Z.to_nat _). apply Hpad.
    + case_match; [apply Forall_take|]; by apply Forall_drop.
    + case_match; bool_prop; [|lia]. unfold zlen. rewrite length_take. lia.
  - destruct spill; cbn; [|by left]. case_match; [|by left]. right. split; [done|].
    eexists. split; [done|]. by apply trim_history_len.
Qed.

Lemma Resize_ok c r s :
  screen_ok s → c <= small → r <= small → screen_ok (Resize c r s) ∧
  (Resize c r s).(pending) = s.(pending) ∧ (Resize c r s).(state) = s.(state) ∧ (Resize c r s).(params) = s.(params).
Proof.
  intros Hs Hc Hr. pose proof (ok_history _ Hs) as [Hm _]. unfold Resize. cbv zeta.
  set (c' := if c <? 1 then 1 else c). set (r' := if r <? 1 then 1 else r).
  assert (Hc' : 1 <= c' <= small) by (unfold c', small in *; case_match; bool_prop; lia).
  assert (Hr' : 1 <= r' <= small) by (unfold r', small in *; case_match; bool_prop; lia).
  clearbody c' r'. destruct ((c' =? s.(cols)) && (r' =? s.(rows))); [done|].
  pose proof (λ v, clamp_lt v c' ltac:(lia)) as Hx. pose proof (λ v, clamp_lt v r' ltac:(lia)) as Hy.
  assert (Hz : (0 <= 0 <= r' - 1) ∧ r' - 1 < r') by lia.
  destruct s as [f1 f2 g f4 y f6 f7 f8 f9 f10 f11 f12 f13 f14 f15 f16 f17 a b f20 ya f22 f23 f24 f25 f26 f27].
  destruct Hs as (_ & _ & _ & _ & H5 & H6 & H7 & Ha). cbn -[resizeGrid small] in *.
  destruct b; cbn -[resizeGrid small] in *.
  - match goal with |- context [resizeGrid g c' r' y false ?s] =>
      pose proof (resizeGrid_ok g c' r' y false s ltac:(lia) ltac:(lia) Hm) as [Hg [E|[? _]]]; [|done];
      destruct (resizeGrid g c' r' y false s) as [s1 [g' y']] end.
    cbn -[resizeGrid small] in E, Hg. subst s1. cbn -[resizeGrid small].
    match goal with |- context [resizeGrid a c' r' ya true ?s] =>
      pose proof (resizeGrid_ok a c' r' ya true s ltac:(lia) ltac:(lia) Hm) as [Hg2 H2];
      destruct (resizeGrid a c' r' ya true s) as [s1 [a' ya']] end.
    cbn -[small] in Hg2, H2. destruct H2 as [->|(_ & h & -> & Hh)]; cbn -[small]; (split; [|done]).
    all: unfold screen_ok, cursor_ok; cbn -[small]; split_and!; try done; try apply Hx; try apply Hy; try apply H5; try apply H6; try apply H7; lia.
  - match goal with |- context [resizeGrid g c' r' y true ?s] =>
      pose proof (resizeGrid_ok g c' r' y true s ltac:(lia) ltac:(lia) Hm) as [Hg H2];
      destruct (resizeGrid g c' r' y true s) as [s1 [g' y']] end.
    cbn -[small] in Hg, H2. destruct H2 as [->|(_ & h & -> & Hh)]; cbn -[small]; (split; [|done]).
    all: unfold screen_ok, cursor_ok; cbn -[small]; split_and!; try done; try apply Hx; try apply Hy; try apply H5; try apply H6; try apply H7; lia.
Qed.

(** ** Properties *)

Lemma NewScreen_ok c r sb :
  c <= small → r <= small → screen_ok (NewScreen c r sb).
Proof.
  intros Hc Hr. unfold NewScreen.
  set (c' := if c <? 1 then 1 else c). set (r' := if r <? 1 then 1 else r).
  set (m := if _ <? 0 then 0 else _).
  assert (Hc' : 1 <= c' <= small) by (unfold c', small in *; case_match; bool_prop; lia).
  assert (Hr' : 1 <= r' <= small) by (unfold r', small in *; case_match; bool_prop; lia).
  assert (Hm : 0 <= m) by (unfold m; case_match; bool_prop; lia). clearbody c' r' m.
  unfold screen_ok, cursor_ok, table_ok, zlen, MaxUint16; cbn -[small]. split_and!; try done; try lia.
  - apply newGrid_ok; lia.
  - intros q i. rewrite lookup_singleton_Some. split; [intros [<- <-]; done|].
    intros [Hi H]. destruct (Z.to_nat i) eqn:E; [|done]. cbn in H. injection H as <-. split; [done|lia].
Qed.

(** What reaches a pane: output of its device and changes of the window. *)
Inductive pane_event : Type :=
| Output (p : string)
| WindowSize (c r : Z).

Section properties.
Context `{LG : Lipgloss}.

Definition play (s : Screen) (e : pane_event) : result panic Screen :=
  match e with Output p => Write p s | WindowSize c r => Ok (Resize c r s) end.

Fixpoint replay (s : Screen) (es : list pane_event) : result panic Screen :=
  match es with [] => Ok s | e :: es => let* s := play s e in replay s es end.

Definition output_of (e : pane_event) : string := match e with Output p => p | WindowSize _ _ => "" end.
Definition outputs (es : list pane_event) : string := string_concat (output_of <$> es).

Definition sizes_small (e : pane_event) : Prop :=
  match e with Output _ => True | WindowSize c r => c <= small ∧ r <= small end.

Context {LL : LipglossLaws}.

Lemma Write_scan p k s st' k' :
  good k s → scan s.(state) k p = Some (st', k') →
  ∃ s', Write p s = Ok s' ∧ s'.(state) = st' ∧ good k' s' ∧ size s' = size s.
Proof.
  intros (Hs & Hset & Hk) Hr. unfold Write.
  assert (Hz : size (set_pending "" s) = size s) by done. rewrite <- Hz.
  apply (write_loop_scan _ _ k); [lia|done..|]. cbn.
  destruct (decide (s.(pending) = "")) as [->|Hne]; [done|].
  destruct (Hset Hne) as [Hst Hh]. rewrite Hst in Hr |- *. by rewrite scan_high, <- (scan_ground k).
Qed.

Lemma replay_scan es k s st' k' :
  good k s → Forall sizes_small es → scan s.(state) k (outputs es) = Some (st', k') →
  ∃ s', replay s es = Ok s' ∧ s'.(state) = st' ∧ good k' s'.
Proof.
  revert k s. induction es as [|e es IH]; intros k s Hg Hes Hr.
  { cbn in Hr. injection Hr as <- <-. exists s. split; [done|]. split; [done|].
    destruct Hg as (? & ? & Hk). split; [done|]. split; [done|]. intros Hc. rewrite Hc. by apply Hk. }
  apply Forall_cons in Hes as [He Hes]. change (outputs (e :: es)) with (output_of e +:+ outputs es) in Hr.
  destruct e as [p|c r]; cbn [replay play output_of] in *.
  - rewrite scan_app in Hr. destruct (scan _ k p) as [[st1 k1]|] eqn:E; [|done].
    destruct (Write_scan p k s st1 k1 Hg E) as (s1 & -> & <- & Hg1 & _). cbn. by apply (IH k1).
  - destruct Hg as (Hs & Hset & Hk). destruct He. destruct (Resize_ok c r s) as [H1 H2]; [done..|].
    destruct H2 as (H2 & H3 & H4). cbn [rbind]. apply (IH k); [|done|by rewrite H3].
    split; [done|]. unfold settled, params_short. by rewrite H2, H3, H4.
Qed.

(** C5: whatever a device prints and however the window is resized,
    the emulator does not panic, its state stays well-formed (cursor and
    margins inside the grid, every row of the grid as wide as the screen,
    styles in the table, history within its bound) and its parser is in the
    state the bytes alone determine, as long as no parameter of a control
    sequence is longer than 18 bytes. *)
Theorem screen_never_panics c r sb es st k :
  c <= small → r <= small → Forall sizes_small es →
  scan stGround 0 (outputs es) = Some (st, k) →
  ∃ s, replay (NewScreen c r sb) es = Ok s ∧ screen_ok s ∧ s.(state) = st.
Proof.
  intros Hc Hr Hes Hscan.
  destruct (replay_scan es 0 (NewScreen c r sb) st k) as (s & E & Hst & Hs & _); [|done..|by exists s].
  split; [by apply NewScreen_ok|]. by split; intros ?.
Qed.

(** C19: how the output of a device is cut into writes does not
    matter, be it in the middle of a rune or of a control sequence: two writes
    leave the screen that one write of the whole leaves, or panic as it does. *)
Theorem Write_chunks p q s : Write (p +:+ q) s = let* s := Write p s in Write q s.
Proof.
  unfold Write. rewrite <- string_app_assoc, string_length_app. by rewrite write_loop_app.
Qed.

(** Writing byte by byte. *)
Lemma Write_byte b s :
  s.(pending) = "" → s.(state) ≠ stGround ∨ zb b < 0x80 → Write (str1 b) s = feed b s.
Proof.
  intros Hp Hb. unfold Write. rewrite Hp, set_pending_id by done. cbn [String.append String.length str1 write_loop].
  assert (E : (let* s := feed b s in Ok s) = feed b s) by (by destruct (feed b s)).
  destruct (state s); try exact E. rewrite (proj2 (Z.leb_gt _ _)); [exact E|]. by destruct Hb.
Qed.

Lemma Write_cons b p s :
  s.(pending) = "" → s.(state) ≠ stGround ∨ zb b < 0x80 →
  Write (String b p) s = let* s := feed b s in Write p s.
Proof. intros. change (String b p) with (str1 b +:+ p). by rewrite Write_chunks, Write_byte. Qed.

Lemma Write_params ds s :
  s.(pending) = "" → s.(state) = stCSI → all_bytes param_byte ds = true →
  Write ds s = Ok (set_params (s.(params) +:+ ds) s).
Proof.
  revert s. induction ds as [|b ds IH]; intros s Hp Hs; cbn.
  { intros _. unfold Write. rewrite Hp, set_pending_id, (string_app_nil_r s.(params)) by done. by destruct s. }
  intros [Hb Hds]%andb_true_iff. rewrite Write_cons by (done || (left; by rewrite Hs)).
  unfold feed. rewrite Hs. unfold param_byte in Hb. rewrite Hb. cbn [rbind]. rewrite IH by done.
  f_equal. destruct s. cbn. by rewrite string_app_assoc.
Qed.

(** Introducing a control sequence. *)
Lemma Write_csi ds s :
  s.(pending) = "" → s.(state) = stGround → all_bytes param_byte ds = true →
  Write (esc +:+ "[" +:+ ds) s = Ok (set_params ds (clear_params (set_state stCSI s))).
Proof.
  intros Hp Hs Hds. unfold esc, str1. cbn [String.append].
  rewrite Write_cons by (done || (right; done)). unfold feed at 1. rewrite Hs. unfold ground. cbn [rbind].
  change (zb (az 27) =? 27) with true. cbv iota. cbn [rbind].
  rewrite Write_cons by (done || (left; done)). unfold feed at 1. cbn [rbind].
  change (state (clear_params (set_state stEsc s))) with stEsc. cbv iota. unfold escape.
  change (isc "[" "[") with true. cbv iota. cbn [rbind].
  by rewrite Write_params.
Qed.

(** Without that bound the emulator can panic: a cursor that has
    left the first column is moved right by the largest [int], the sum wraps
    around, and printing the next character indexes the row with it. *)
Theorem cursor_overflow_panics s :
  screen_ok s → s.(state) = stGround → s.(pending) = "" → 1 <= s.(curX) →
  Write (esc +:+ "[9223372036854775807" +:+ "Cx") s = Err (IndexOutOfRange (s.(curX) + MaxInt64 - 2 ^ 64) s.(cols)).
Proof.
  intros Hs Hst Hp Hx. screen_facts Hs. pose proof (ok_grid _ Hs) as Hg.
  change ("[9223372036854775807" +:+ "Cx") with (("[" +:+ "9223372036854775807") +:+ "Cx").
  rewrite <- string_app_assoc, Write_chunks, Write_csi by done. cbn [rbind].
  set (s1 := set_params _ _).
  rewrite Write_cons by (done || (left; done)). unfold feed at 1. change (state s1) with stCSI. cbv iota zeta.
  change ((0x30 <=? zb "C") && _) with false. cbv iota. change ((0x20 <=? zb "C") && _) with false. cbv iota.
  change ((0x40 <=? zb "C") && _) with true. cbv iota.
  assert (E : csi "C" s1 = Ok (clear_params (set_wrapNext false (set_curX (s.(curX) + MaxInt64 - 2 ^ 64) s1)))).
  { unfold csi. change (is_private (params s1)) with false. cbv iota. unfold csi_final.
    change (parseParams (params s1)) with [MaxInt64]. cbv zeta. cbn [isc String.eqb str1 Ascii.eqb Bool.eqb].
    change (arg [MaxInt64] 0 1) with MaxInt64. change (curX s1) with s.(curX). change (cols s1) with s.(cols).
    assert (iadd s.(curX) MaxInt64 = s.(curX) + MaxInt64 - 2 ^ 64) as ->.
    { unfold iadd, wrap64, MaxInt64.
      rewrite <- (Z.mod_unique (s.(curX) + 9223372036854775807 + 2 ^ 63) (2 ^ 64) 1
                    (s.(curX) + 9223372036854775807 + 2 ^ 63 - 2 ^ 64)); lia. }
    unfold minInt. rewrite (proj2 (Z.ltb_ge _ _)) by (unfold MaxInt64; lia). done. }
  rewrite E. cbn [rbind]. set (s2 := set_state stGround _).
  rewrite Write_cons by (done || (right; done)). unfold feed. change (state s2) with stGround. cbv iota.
  unfold ground. change (zb "x" =? 27) with false. change ((zb "x" <? 32) || (zb "x" =? 127)) with false. cbv iota.
  unfold print. change (runeWidth (zb "x")) with 1. cbv zeta. change (1 =? 0) with false. cbv iota.
  change (wrapNext s2) with false. cbn [andb rbind].
  change (cols s2) with s.(cols). change (curX s2) with (s.(curX) + MaxInt64 - 2 ^ 64).
  rewrite (proj2 (Z.leb_gt _ _)) by (unfold MaxInt64; lia). unfold on_row.
  change (grid s2) with s.(grid). change (curY s2) with s.(curY). change (curX s2) with (s.(curX) + MaxInt64 - 2 ^ 64).
  destruct (grid_row _ _ _ s.(curY) Hg) as (line & -> & Hl & _); [lia|]. cbn [rbind].
  unfold set_at. rewrite (proj2 (Z.leb_gt _ _)) by (unfold MaxInt64; lia). cbn [andb rbind]. by rewrite Hl.
Qed.
End properties.

(** *** Titles *)

Definition title_byte (b : ascii) : bool := (0x20 <=? zb b) && negb (zb b =? 0x7f).

Lemma encode_rune_title r :
  (r <? 0x20) || (r =? 0x7f) = false → all_bytes title_byte (encode_rune r) = true ∧ (String.length (encode_rune r) <= 4)%nat.
Proof.
  intros Hr. bool_prop.
  assert (Hb : ∀ z, 0x20 <= z < 256 → z ≠ 0x7f → title_byte (az z) = true).
  { intros z Hz Hn. unfold title_byte. rewrite zb_az by lia.
    by rewrite (proj2 (Z.leb_le _ _)), (proj2 (Z.eqb_neq _ _)) by lia. }
  unfold encode_rune. set (r' := if valid_rune r then r else RuneError).
  assert (Hv : 0x20 <= r' <= 0x10FFFF ∧ r' ≠ 0x7f).
  { unfold r', RuneError. destruct (valid_rune r) eqn:E; [|lia]. apply valid_rune_spec in E. lia. }
  clearbody r'. destruct (Z.ltb_spec r' 0x80); [|destruct (Z.ltb_spec r' 0x800); [|destruct (Z.ltb_spec r' 0x10000)]].
  all: (split; [|cbn; lia]); unfold all_bytes; cbn [string_bytes str1 forallb]; rewrite ?andb_true_r.
  all: rewrite ?andb_true_iff; split_and?; apply Hb; Z.to_euclidean_division_equations; lia.
Qed.

(** A title a device sets can neither break the tab bar nor start an escape
    sequence made of ASCII bytes, and is at most 132 bytes long. *)
Theorem sanitizeTitle_safe t :
  all_bytes title_byte (sanitizeTitle t) = true ∧ (String.length (sanitizeTitle t) <= 132)%nat.
Proof.
  unfold sanitizeTitle. assert (H : ∀ rs b, all_bytes title_byte b = true → (String.length b <= 128)%nat →
    all_bytes title_byte (sanitize_loop rs b) = true ∧ (String.length (sanitize_loop rs b) <= 132)%nat); [|by apply H; [|cbn; lia]].
  induction rs as [|r rs IH]; intros b Hb Hl; cbn [sanitize_loop]; [split; [done|lia]|].
  destruct ((r <? 0x20) || (r =? 0x7f)) eqn:Er; [by apply IH|].
  destruct (encode_rune_title r Er) as [He Hle]. cbv zeta.
  assert (Ha : all_bytes title_byte (b +:+ encode_rune r) = true) by (by rewrite all_bytes_app, Hb, He).
  rewrite string_length_app. case_match; bool_prop.
  - split; [done|]. rewrite string_length_app. lia.
  - apply IH; [done|]. rewrite string_length_app. lia.
Qed.

(** The C1 controls pass, among them the one-byte introducer of a control
    sequence. *)
Example sanitizeTitle_keeps_C1 :
  sanitizeTitle (encode_rune 0x9b +:+ "2J") = encode_rune 0x9b +:+ "2J".
Proof. vm_compute. reflexivity. Qed.

Section witnesses.
#[local] Existing Instance narrow.
#[local] Existing Instance narrow_laws.

Lemma screen_never_panics_witness :
  ∃ s, replay (NewScreen 80 24 0) [Output ("ab" +:+ esc +:+ "[38;5;1"); WindowSize 20 5; Output "96mcd"] = Ok s ∧
       screen_ok s ∧ s.(state) = stGround.
Proof.
  apply (screen_never_panics 80 24 0 _ stGround 0).
  - vm_compute. discriminate.
  - vm_compute. discriminate.
  - repeat constructor; vm_compute; discriminate.
  - vm_compute. reflexivity.
Defined.

Lemma cursor_overflow_panics_witness :
  Write (esc +:+ "[9223372036854775807" +:+ "Cx") (set_curX 1 (NewScreen 80 24 0))
  = Err (IndexOutOfRange (-9223372036854775808) 80).
Proof.
  apply (cursor_overflow_panics (set_curX 1 (NewScreen 80 24 0))); try reflexivity.
  apply ok_set_curX; [apply NewScreen_ok; vm_compute; discriminate|]. cbn. lia.
Defined.
End witnesses.
