(* ===== verification/ScreenText.v ===== *)
(** * The terminal emulator: what is written is what is read

    The history and the visible rows form one tape of lines.  Printed text goes
    to its end, scrolling moves lines from the visible part to the history
    without losing any until the bound, and a change of the window keeps the
    tape above the cursor. *)

From S2P Require Export ScreenInv.
Local Open Scope string_scope.
Local Open Scope list_scope.
Local Open Scope Z_scope.
Local Open Scope kat_scope.

Definition tape (s : Screen) : Grid := s.(scrollback) ++ s.(grid).

(** The primary screen with nothing but default settings. *)
Definition plain (s : Screen) : Prop :=
  screen_ok s ∧ s.(altActive) = false ∧ s.(scrollTop) = 0 ∧ s.(scrollBot) = s.(rows) - 1 ∧
  s.(autoWrap) = true ∧ s.(style) = 0 ∧ s.(state) = stGround ∧ s.(pending) = "" ∧ 0 < s.(maxScrollback).

(** ** Scrolling the whole screen *)

Lemma index_scroll s top g :
  screen_ok s → s.(altActive) = false → s.(scrollTop) = 0 → s.(scrollBot) = s.(rows) - 1 →
  0 < s.(maxScrollback) → s.(curY) = s.(rows) - 1 → s.(grid) = top :: g →
  index s = Ok (set_grid (g ++ [newLine s.(cols)])
              (set_scrollback (trim_history s.(maxScrollback) (s.(scrollback) ++ [top])) (set_wrapNext false s))).
Proof.
  intros Hs Ha Ht Hb Hm Hy Hg. screen_facts Hs. pose proof (ok_grid _ Hs) as [Hr _].
  rewrite Hg, zlen_cons in Hr.
  destruct s as [f1 f2 g0 x y f6 f7 f8 f9 f10 f11 st sb f14 f15 f16 f17 a b f20 ya f22 f23 f24 f25 f26 f27].
  cbn in *. subst. unfold index. cbn -[Z.sub Z.eqb scrollUp]. rewrite Z.eqb_refl.
  unfold scrollUp. change (1 <=? 0) with false. cbv iota. change (Z.to_nat 1) with 1%nat. cbn [repeat_ok].
  unfold scrollUp_once. cbn -[Z.sub Z.eqb copy_within set_at trim_history newLine index_at].
  change (index_at (top :: g) 0) with (@Ok panic _ top). cbn [rbind].
  rewrite (proj2 (Z.ltb_lt _ _) Hm), !Z.eqb_refl. cbn -[Z.sub copy_within set_at trim_history newLine].
  pose proof (shift_down_spec (@nil (list cell)) top g [] (newLine f1)) as E. rewrite !app_nil_l, !app_nil_r in E.
  replace (zlen (@nil (list cell)) + zlen g) with (zlen g + 1 - 1) in E by (rewrite zlen_nil; lia).
  rewrite zlen_nil in E. change (0 + 1) with 1 in *.
  destruct (copy_within _ _ _ _ _) as [g1|]; [|done]. cbn [rbind] in E |- *. rewrite E. done.
Qed.

Lemma trim_history_tape m h g :
  0 <= m → trim_history m h ++ g = drop (Z.to_nat (zlen h - m)) (h ++ g).
Proof.
  intros Hm. unfold trim_history, zlen. case_match; bool_prop.
  - rewrite drop_app_le by lia. done.
  - replace (Z.to_nat (Z.of_nat (length h) - m)) with 0%nat by lia. done.
Qed.

(** A line feed at the bottom of the full primary screen loses
    nothing: the history and the visible rows together are the same lines as
    before followed by a blank one, less the oldest once the history is full;
    the cursor stays. *)
Theorem scrolling_keeps_lines s :
  plain s → s.(curY) = s.(rows) - 1 →
  ∃ s', index s = Ok s' ∧
    tape s' = drop (Z.to_nat (zlen s.(scrollback) + 1 - s.(maxScrollback))) (tape s ++ [newLine s.(cols)]) ∧
    s'.(curX) = s.(curX) ∧ s'.(curY) = s.(curY).
Proof.
  intros (Hs & Ha & Ht & Hb & _ & _ & _ & _ & Hm) Hy. screen_facts Hs.
  pose proof (ok_grid _ Hs) as [Hr _]. destruct (grid s) as [|top g] eqn:Hg; [rewrite zlen_nil in Hr; lia|].
  rewrite (index_scroll s top g) by done. eexists. split; [done|]. split; [|done].
  unfold tape. rewrite Hg. cbn. rewrite trim_history_tape by lia. rewrite zlen_snoc. by rewrite <- !app_assoc.
Qed.

Lemma scrolling_keeps_lines_witness :
  plain (set_curY 2 (NewScreen 4 3 5)) ∧
  ∃ s', index (set_curY 2 (NewScreen 4 3 5)) = Ok s' ∧
    tape s' = drop (Z.to_nat (0 + 1 - 5)) (tape (set_curY 2 (NewScreen 4 3 5)) ++ [newLine 4]) ∧
    s'.(curX) = 0 ∧ s'.(curY) = 2.
Proof.
  assert (H : plain (set_curY 2 (NewScreen 4 3 5))).
  { split; [|done]. apply ok_set_curY; [apply NewScreen_ok; vm_compute; discriminate|]. cbn. lia. }
  split; [exact H|]. exact (scrolling_keeps_lines _ H eq_refl).
Defined.

(** ** Typing lines *)

Definition printable (b : ascii) : bool := (0x20 <=? zb b) && (zb b <? 0x7f).

(** The cells of a line of text, padded to the width of the screen. *)
Definition text_cells (c : Z) (l : string) : list cell :=
  ((fun b => mkCell (zb b) 0) <$> string_bytes l) ++ replicate (Z.to_nat c - String.length l) blank.

(** The screen shows the lines [ls ++ [l]] on its tape and the cursor is after
    the last of them. *)
Definition typed (ls : list string) (l : string) (s : Screen) : Prop :=
  plain s ∧
  zlen s.(scrollback) + s.(curY) = zlen ls ∧
  (∃ n, tape s = (text_cells s.(cols) <$> (ls ++ [l])) ++ replicate n (newLine s.(cols))) ∧
  s.(curX) = Z.min (Z.of_nat (String.length l)) (s.(cols) - 1) ∧
  s.(wrapNext) = (Z.of_nat (String.length l) =? s.(cols)) ∧ Z.of_nat (String.length l) <= s.(cols).

Lemma text_cells_empty c : text_cells c "" = newLine c.
Proof. unfold text_cells, newLine. cbn. f_equal. lia. Qed.

Lemma text_cells_len c l : Z.of_nat (String.length l) <= c → zlen (text_cells c l) = c.
Proof.
  intros Hl. unfold text_cells. rewrite zlen_app, zlen_replicate, zlen_fmap. unfold zlen.
  rewrite string_bytes_length. lia.
Qed.

Lemma text_cells_snoc c l b :
  Z.of_nat (String.length l) < c →
  <[String.length l := mkCell (zb b) 0]> (text_cells c l) = text_cells c (l +:+ str1 b).
Proof.
  intros Hl. unfold text_cells. rewrite string_bytes_app, fmap_app, string_length_app. cbn [String.length str1].
  replace (Z.to_nat c - String.length l)%nat with (S (Z.to_nat c - (String.length l + 1))) by lia. cbn [replicate].
  rewrite <- (string_bytes_length l). rewrite <- (length_fmap (fun b => mkCell (zb b) 0)).
  replace (length _) with (length ((fun b => mkCell (zb b) 0) <$> string_bytes l) + 0)%nat at 1 by lia.
  rewrite insert_app_r. cbn. rewrite <- app_assoc. done.
Qed.

Lemma typed_row ls l s : typed ls l s → s.(grid) !! Z.to_nat s.(curY) = Some (text_cells s.(cols) l).
Proof.
  intros ((Hs & _) & Hlen & (n & Ht) & _). screen_facts Hs.
  assert (E : tape s !! length ls = Some (text_cells s.(cols) l)).
  { rewrite Ht, lookup_app_l by (rewrite length_fmap, length_app; cbn; lia).
    rewrite fmap_app, lookup_app_r by (by rewrite length_fmap). by rewrite length_fmap, Nat.sub_diag. }
  unfold tape in E. rewrite lookup_app_r in E by (unfold zlen in *; lia). rewrite <- E. f_equal. unfold zlen in *. lia.
Qed.

Section typing.
Context `{LL : LipglossLaws}.

Lemma typed_print ls l b s :
  typed ls l s → printable b = true → Z.of_nat (String.length l) < s.(cols) →
  ∃ s', print (zb b) s = Ok s' ∧ typed ls (l +:+ str1 b) s' ∧ s'.(cols) = s.(cols) ∧ s'.(rows) = s.(rows) ∧
        s'.(maxScrollback) = s.(maxScrollback).
Proof.
  intros Hty Hb Hl. pose proof (typed_row _ _ _ Hty) as Hrow.
  destruct Hty as (Hpl & Hlen & (n & Ht) & Hx & Hw & _). pose proof Hpl as (Hs & _). screen_facts Hs.
  unfold printable in Hb. bool_prop.
  destruct (print_keeps (zb b) s Hs) as (s' & E & Hs' & _). exists s'. split; [done|].
  unfold print, runeWidth in E. rewrite (proj2 (Z.ltb_lt _ _)) in E by lia.
  rewrite (proj2 (Z.ltb_ge (zb b) 0x20)), (proj2 (Z.eqb_neq (zb b) 0x7f)) in E by lia.
  cbn [orb] in E. change (1 =? 0) with false in E. cbv iota in E.
  rewrite Hw, (proj2 (Z.eqb_neq _ _)) in E by lia. cbn [andb rbind] in E.
  rewrite (proj2 (Z.leb_gt _ _)) in E by lia. unfold on_row in E.
  assert (Hidx : index_at s.(grid) s.(curY) = Ok (text_cells s.(cols) l)) by (apply index_at_Ok; split; [lia|done]).
  rewrite Hidx in E. cbn [rbind] in E.
  rewrite set_at_in in E by (rewrite text_cells_len; lia). cbn [rbind] in E. change (1 =? 2) with false in E.
  cbn [andb rbind] in E.
  replace (Z.to_nat s.(curX)) with (String.length l) in E by lia.
  replace s.(style) with 0 in E by (symmetry; apply Hpl). rewrite text_cells_snoc in E by done.
  rewrite set_at_in in E by (destruct (ok_grid _ Hs) as [-> _]; lia). cbn [rbind] in E.
  assert (Htape : s.(scrollback) ++ <[Z.to_nat s.(curY) := text_cells s.(cols) (l +:+ str1 b)]> s.(grid) =
    (text_cells s.(cols) <$> (ls ++ [l +:+ str1 b])) ++ replicate n (newLine s.(cols))).
  { rewrite <- insert_app_r. fold (tape s). rewrite Ht.
    replace (length (scrollback s) + Z.to_nat (curY s))%nat with (length (text_cells s.(cols) <$> ls) + 0)%nat
      by (rewrite length_fmap; unfold zlen in *; lia).
    rewrite !fmap_app, <- !app_assoc, insert_app_r. done. }
  destruct s as [f1 f2 g x y f6 f7 f8 f9 f10 f11 st sb f14 f15 f16 f17 a d f20 ya f22 f23 f24 f25 f26 f27].
  cbn -[iadd small Z.leb text_cells] in *. rewrite iadd_small in E by (unfold MinInt64, MaxInt64; lia).
  destruct Hpl as (_ & Ha & Htop & Hbot & Haw & Hst & Hstate & Hpend & Hm). cbn in Ha, Htop, Hbot, Haw, Hst, Hstate, Hpend, Hm.
  unfold typed, plain. rewrite string_length_app. cbn [String.length str1].
  assert (Hw' : f14 = false) by (rewrite Hw; apply Z.eqb_neq; lia).
  destruct (Z.leb_spec f1 (x + 1)); injection E as <-; cbn -[small text_cells]; (split; [|done]);
    (split; [done|]); (split; [done|]); (split; [by exists n|]); (split; [lia|]); (split; [|lia]); symmetry.
  - apply Z.eqb_eq. lia.
  - rewrite Hw'. apply Z.eqb_neq. lia.
Qed.

Lemma Write_print ls l t s :
  typed ls l s → forallb printable (string_bytes t) = true →
  Z.of_nat (String.length l + String.length t) <= s.(cols) →
  ∃ s', Write t s = Ok s' ∧ typed ls (l +:+ t) s' ∧ s'.(cols) = s.(cols) ∧ s'.(rows) = s.(rows) ∧
        s'.(maxScrollback) = s.(maxScrollback).
Proof.
  revert l s. induction t as [|b t IH]; intros l s Hty Hp Hl.
  { exists s. rewrite string_app_nil_r. split; [|done]. destruct Hty as ((_ & _ & _ & _ & _ & _ & _ & Hpend & _) & _).
    unfold Write. by rewrite Hpend, set_pending_id. }
  cbn in Hp. apply andb_true_iff in Hp as [Hb Hp]. cbn [String.length] in Hl.
  pose proof Hty as ((_ & _ & _ & _ & _ & _ & Hstate & Hpend & _) & _).
  destruct (typed_print ls l b s Hty Hb) as (s1 & E & Hty1 & Ec & Er & Em); [lia|].
  assert (Hf : feed b s = Ok s1).
  { unfold feed. rewrite Hstate. unfold ground. unfold printable in Hb. bool_prop.
    by rewrite (proj2 (Z.eqb_neq (zb b) 0x1b)), (proj2 (Z.ltb_ge (zb b) 0x20)), (proj2 (Z.eqb_neq (zb b) 0x7f)) by lia. }
  rewrite Write_cons; [|done|right; unfold printable in Hb; bool_prop; lia]. rewrite Hf. cbn [rbind].
  destruct (IH (l +:+ str1 b) s1) as (s2 & E2 & Hty2 & ? & ? & ?); [done..|rewrite string_length_app, Ec; cbn [String.length str1]; lia|].
  rewrite string_app_assoc in Hty2. exists s2. split_and!; try done; congruence.
Qed.

Definition crlf : string := String (az 13) (String (az 10) "").

Lemma typed_crlf ls l s :
  typed ls l s → zlen ls + 1 < s.(rows) + s.(maxScrollback) →
  ∃ s', Write crlf s = Ok s' ∧ typed (ls ++ [l]) "" s' ∧ s'.(cols) = s.(cols) ∧ s'.(rows) = s.(rows) ∧
        s'.(maxScrollback) = s.(maxScrollback).
Proof.
  intros (Hpl & Hlen & (n & Ht) & _ & _ & _) Hroom.
  pose proof Hpl as (Hs & Ha & Htop & Hbot & Haw & Hst & Hstate & Hpend & Hm). screen_facts Hs.
  unfold crlf. rewrite Write_cons by (done || (right; done)). unfold feed at 1. rewrite Hstate.
  change (ground (az 13) s) with (@Ok panic _ (set_wrapNext false (set_curX 0 s))). cbn [rbind].
  set (s1 := set_wrapNext false (set_curX 0 s)).
  rewrite Write_cons by (done || (right; done)). unfold feed at 1.
  change (state s1) with s.(state). rewrite Hstate. change (ground (az 10) s1) with (index s1).
  assert (Hs1 : screen_ok s1) by (apply (ok_set_wrapNext false), ok_set_curX; [done|lia]).
  assert (Hend : ∀ s2, index s1 = Ok s2 → s2.(pending) = "" → (let* s := index s1 in Write "" s) = Ok s2).
  { intros s2 -> Hp2. cbn. unfold Write. by rewrite Hp2, set_pending_id. }
  assert (Hlast : text_cells s.(cols) <$> ((ls ++ [l]) ++ [""]) = (text_cells s.(cols) <$> (ls ++ [l])) ++ [newLine s.(cols)]).
  { by rewrite (fmap_app _ (ls ++ [l])), <- text_cells_empty. }
  pose proof (ok_grid _ Hs) as [Hr _].
  assert (Hn : Z.of_nat n = zlen s.(scrollback) + s.(rows) - (zlen ls + 1)).
  { apply (f_equal zlen) in Ht. unfold tape in Ht. rewrite !zlen_app, zlen_fmap, zlen_snoc, zlen_replicate in Ht. lia. }
  destruct (index_keeps s1 Hs1) as (s2 & E2 & Hs2 & Hh2). exists s2.
  pose proof (held_state _ _ Hh2) as (_ & Hp2 & _). split; [apply Hend; [done|]; by rewrite Hp2|].
  destruct (Z.eqb_spec s.(curY) (s.(rows) - 1)) as [Hy|Hy].
  - destruct (grid s) as [|top g] eqn:Hg; [rewrite zlen_nil in Hr; lia|].
    rewrite (index_scroll s1 top g) in E2 by done. injection E2 as <-.
    assert (Hn0 : n = 0%nat) by lia. subst n.
    assert (Hl2 : zlen s.(scrollback) + 1 <= s.(maxScrollback)) by lia.
    assert (Htr : trim_history s.(maxScrollback) (s.(scrollback) ++ [top]) = s.(scrollback) ++ [top]).
    { unfold trim_history. by rewrite zlen_snoc, (proj2 (Z.ltb_ge _ _)). }
    change (maxScrollback s1) with s.(maxScrollback) in *. change (scrollback s1) with s.(scrollback) in *.
    rewrite Htr in *. subst s1.
    split; [|done]. split; [split; [exact Hs2|done]|]. cbn [scrollback set_scrollback set_grid curY set_wrapNext set_curX cols].
    split_and!; [rewrite !zlen_snoc; lia| |cbn; lia|cbn; symmetry; apply Z.eqb_neq; lia|cbn; lia].
    exists 0%nat. unfold tape in *. rewrite Hg in Ht. cbn. rewrite app_nil_r in *. rewrite Hlast, <- Ht. by rewrite <- !app_assoc.
  - unfold index in E2. cbn -[Z.sub Z.eqb Z.ltb] in E2.
    rewrite Hbot, (proj2 (Z.eqb_neq _ _)), (proj2 (Z.ltb_lt _ _)) in E2 by lia. injection E2 as <-.
    split; [|done]. split; [split; [exact Hs2|done]|]. cbn.
    split_and!; [rewrite zlen_snoc; lia| |lia|symmetry; apply Z.eqb_neq; lia|lia].
    destruct n as [|n]; [lia|]. exists n. unfold tape in *. cbn. rewrite Ht, Hlast, <- app_assoc. done.
Qed.
End typing.

(** ** Reading back *)

Definition is_space (b : ascii) : bool := zb b =? 0x20.

(** A line without its trailing spaces. *)
Definition rstrip (l : string) : string := bytes_string (trim_right is_space (string_bytes l)).

Lemma drop_while_fmap {A B} (p : B → bool) (f : A → B) l :
  drop_while p (f <$> l) = f <$> drop_while (fun x => p (f x)) l.
Proof. induction l as [|x l IH]; cbn; [done|]. by destruct (p (f x)). Qed.

Lemma trim_right_fmap {A B} (p : B → bool) (f : A → B) l :
  trim_right p (f <$> l) = f <$> trim_right (fun x => p (f x)) l.
Proof. unfold trim_right. by rewrite <- fmap_reverse, drop_while_fmap, fmap_reverse. Qed.

Lemma trim_right_elem {A} (p : A → bool) l x : x ∈ trim_right p l → x ∈ l.
Proof.
  unfold trim_right. rewrite elem_of_reverse. intros H. apply elem_of_reverse.
  destruct (drop_while_suffix p (reverse l)) as [k E]. rewrite E. set_solver.
Qed.

Lemma plain_text_cells c l :
  forallb printable (string_bytes l) = true → plainLine (text_cells c l) = rstrip l.
Proof.
  intros Hp. unfold plainLine, text_cells, rstrip.
  rewrite trim_right_app.
  2:{ generalize (Z.to_nat c - String.length l)%nat. intros k. induction k; [done|]. done. }
  rewrite trim_right_fmap. cbn [crune]. fold is_space.
  change (fun x : ascii => zb x =? 32) with is_space.
  assert (Hq : ∀ b, b ∈ trim_right is_space (string_bytes l) → printable b = true).
  { intros b Hb%trim_right_elem. rewrite forallb_forall in Hp. apply Hp, list_elem_of_In, Hb. }
  induction (trim_right is_space (string_bytes l)) as [|b bs IH]; [done|].
  assert (Hb : printable b = true) by (apply Hq; left). unfold printable in Hb. bool_prop.
  cbn. rewrite (proj2 (Z.eqb_neq _ _)) by lia. rewrite encode_1 by lia. cbn. f_equal.
  apply IH. intros b' Hb'. apply Hq. by right.
Qed.

Lemma lineAt_tape s i line :
  tape s !! i = Some line → lineAt s (Z.of_nat i) = Ok line.
Proof.
  unfold tape, lineAt, zlen. intros Hi. apply lookup_app_Some in Hi as [Hi|[Hlen Hi]].
  - pose proof (lookup_lt_Some _ _ _ Hi). rewrite (proj2 (Z.ltb_lt _ _)) by lia.
    apply index_at_Ok. rewrite Nat2Z.id. split; [lia|done].
  - rewrite (proj2 (Z.ltb_ge _ _)) by lia. apply index_at_Ok. split; [lia|]. rewrite <- Hi. f_equal. lia.
Qed.

Lemma PlainLines_tape s : screen_ok s → PlainLines 0 (TotalLines s) s = Ok (plainLine <$> tape s).
Proof.
  intros Hs. screen_facts Hs. destruct (ok_grid _ Hs) as [Hr _].
  assert (Hn : TotalLines s = zlen (tape s)) by (unfold tape, TotalLines; rewrite zlen_app; lia).
  unfold PlainLines, view_range. pose proof (zlen_nonneg (tape s)).
  rewrite Hn. rewrite (clamp_id 0) by lia. rewrite clamp_id by lia.
  apply collect_lookup; [rewrite length_fmap; unfold zlen; lia|].
  intros k x Hk. rewrite list_lookup_fmap in Hk. destruct (tape s !! k) as [line|] eqn:E; [|done].
  injection Hk as <-. change (0 + Z.of_nat k) with (Z.of_nat k). by rewrite (lineAt_tape s k line).
Qed.

Lemma NewScreen_typed c r sb :
  1 <= c <= small → 1 <= r <= small → 0 <= sb → typed [] "" (NewScreen c r sb) ∧
  (NewScreen c r sb).(cols) = c ∧ (NewScreen c r sb).(rows) = r ∧ sb <= (NewScreen c r sb).(maxScrollback).
Proof.
  intros Hc Hr Hsb. pose proof (NewScreen_ok c r sb ltac:(lia) ltac:(lia)) as Hs. unfold NewScreen in *.
  rewrite (proj2 (Z.ltb_ge c 1)), (proj2 (Z.ltb_ge r 1)) in * by lia.
  assert (Hm : 0 < (if (if sb =? 0 then DefaultScrollback else sb) <? 0 then 0 else if sb =? 0 then DefaultScrollback else sb)
    ∧ sb <= (if (if sb =? 0 then DefaultScrollback else sb) <? 0 then 0 else if sb =? 0 then DefaultScrollback else sb)).
  { unfold DefaultScrollback. destruct (Z.eqb_spec sb 0); rewrite (proj2 (Z.ltb_ge _ _)) by lia; lia. }
  set (m := if _ <? 0 then 0 else _) in *. destruct Hm.
  split; [|done]. split; [split; [exact Hs|done]|]. cbn [cols].
  split; [done|]. split; [|split; [cbn; lia|split; [cbn; symmetry; apply Z.eqb_neq; lia|cbn; lia]]].
  exists (Z.to_nat (r - 1)). unfold tape. cbn -[text_cells newGrid Z.sub]. rewrite text_cells_empty. unfold newGrid.
  replace (Z.to_nat r) with (S (Z.to_nat (r - 1))) by lia. done.
Qed.

Section reading.
Context `{LL : LipglossLaws}.

Lemma Write_lines ls l s pre :
  typed pre l s → zlen pre + zlen ls < s.(rows) + s.(maxScrollback) →
  Forall (fun l => forallb printable (string_bytes l) = true ∧ Z.of_nat (String.length l) <= s.(cols)) ls →
  ∃ s' l', Write (string_concat ((fun l => crlf +:+ l) <$> ls)) s = Ok s' ∧
    (∃ pre', typed pre' l' s' ∧ pre' ++ [l'] = pre ++ l :: ls) ∧ s'.(cols) = s.(cols).
Proof.
  revert pre l s. induction ls as [|l2 ls IH]; intros pre l s Hty Hroom Hls.
  { exists s, l. split; [|by eauto]. destruct Hty as ((_ & _ & _ & _ & _ & _ & _ & Hpend & _) & _).
    cbn. unfold Write. by rewrite Hpend, set_pending_id. }
  apply Forall_cons in Hls as [[Hp Hl] Hls]. rewrite zlen_cons in Hroom. pose proof (zlen_nonneg ls).
  destruct (typed_crlf pre l s Hty) as (s1 & E1 & Hty1 & Ec1 & Er1 & Em1); [lia|].
  destruct (Write_print (pre ++ [l]) "" l2 s1 Hty1 Hp) as (s2 & E2 & Hty2 & Ec2 & Er2 & Em2); [cbn; lia|].
  destruct (IH (pre ++ [l]) l2 s2) as (s3 & l' & E3 & (pre' & Hty3 & Epre) & Ec3); [done|rewrite zlen_snoc; lia| |].
  { eapply Forall_impl; [exact Hls|]. intros l3 [? ?]. split; [done|]. by rewrite Ec2, Ec1. }
  exists s3, l'. split_and!; [|exists pre'; split; [done|by rewrite Epre, <- app_assoc]|congruence].
  cbn [fmap list_fmap string_concat]. rewrite !Write_chunks, E1. cbn [rbind]. rewrite E2. cbn [rbind]. exact E3.
Qed.

Lemma join_lines l ls : str_join crlf (l :: ls) = l +:+ string_concat ((fun l => crlf +:+ l) <$> ls).
Proof.
  revert l. induction ls as [|l2 ls IH]; intros l; [by rewrite string_app_nil_r|].
  change (str_join crlf (l :: l2 :: ls)) with (l +:+ crlf +:+ str_join crlf (l2 :: ls)). rewrite IH.
  cbn [fmap list_fmap string_concat]. by rewrite !string_app_assoc.
Qed.

(** Lines of printable text no wider than the screen, written with
    a carriage return and a line feed between them, are read back from the
    history and the visible rows as they were written, less their trailing
    spaces and followed by nothing but blank rows, as long as they fit into the
    two; a line exactly as wide as the screen makes no extra row. *)
Theorem written_lines_are_read_back c r sb l ls :
  1 <= c <= small → 1 <= r <= small → 0 <= sb → zlen ls < r + sb →
  Forall (fun l => forallb printable (string_bytes l) = true ∧ Z.of_nat (String.length l) <= c) (l :: ls) →
  ∃ s n, Write (str_join crlf (l :: ls)) (NewScreen c r sb) = Ok s ∧
    PlainLines 0 (TotalLines s) s = Ok ((rstrip <$> l :: ls) ++ replicate n "").
Proof.
  intros Hc Hr Hsb Hroom Hls. destruct (NewScreen_typed c r sb Hc Hr Hsb) as (Hty & Ec & Er & Em).
  pose proof Hls as [[Hp Hl] Hls']%Forall_cons.
  destruct (Write_print [] "" l _ Hty Hp) as (s1 & E1 & Hty1 & Ec1 & Er1 & Em1); [cbn [String.length]; lia|].
  destruct (Write_lines ls l s1 [] Hty1) as (s2 & l' & E2 & (pre' & Hty2 & Epre) & Ec2);
    [rewrite zlen_nil; lia|by rewrite Ec1, Ec|].
  destruct Hty2 as ((Hs2 & _) & _ & (n & Ht) & _). exists s2, n. split.
  { rewrite join_lines, Write_chunks, E1. exact E2. }
  rewrite PlainLines_tape by done. f_equal. rewrite Ht, Epre. cbn [app].
  rewrite fmap_app, fmap_replicate. f_equal.
  - rewrite <- list_fmap_compose. apply list_fmap_ext. intros i x Hx.
    apply plain_text_cells. by apply (Forall_lookup_1 _ _ _ _ Hls Hx).
  - f_equal. rewrite <- (text_cells_empty (cols s2)). by apply plain_text_cells.
Qed.
End reading.

(** ** Changing the window *)

Lemma resizeLine_same l : resizeLine l (zlen l) = l.
Proof. unfold resizeLine. rewrite Z.ltb_irrefl, Z.sub_diag. cbn. apply app_nil_r. Qed.

(** The rows of a resized grid, and what went to the history. *)
Lemma resizeGrid_rows g c r y s :
  1 <= r <= small → zlen g <= small → 0 <= y < zlen g → 0 < s.(maxScrollback) →
  zlen s.(scrollback) + zlen g <= s.(maxScrollback) →
  ∃ d k, (0 <= d <= y ∧ y - d < r) ∧
    resizeGrid g c r y true s =
      (set_scrollback (s.(scrollback) ++ take (Z.to_nat d) ((fun l => resizeLine l c) <$> g)) s,
       (take (Z.to_nat r) (drop (Z.to_nat d) ((fun l => resizeLine l c) <$> g)) ++ replicate k (newLine c), y - d)).
Proof.
  intros Hr Hg Hy Hm Hroom. unfold small in *. unfold resizeGrid. cbv zeta. set (g' := (fun l => resizeLine l c) <$> g).
  assert (Hlen : zlen g' = zlen g) by apply zlen_fmap.
  assert (Htake : ∀ g1 : list (list cell), zlen g1 <= r → take (Z.to_nat r) g1 = g1).
  { intros g1 H1. apply take_ge. unfold zlen in H1. lia. }
  assert (Hid : set_scrollback s.(scrollback) s = s) by (by destruct s).
  rewrite Hlen. destruct (Z.ltb_spec (zlen g) r); [|destruct (Z.ltb_spec r (zlen g))].
  - exists 0, (Z.to_nat (r - zlen g')). split; [lia|]. cbn. rewrite app_nil_r, Hid, drop_0, Z.sub_0_r, Htake by lia. done.
  - rewrite isub_small, iadd_small by (unfold MinInt64, MaxInt64; lia).
    set (d := clamp (y - r + 1) 0 (zlen g - r)).
    assert (Hd : (0 <= d <= y ∧ y - d < r) ∧ d <= zlen g - r) by (unfold d, clamp; repeat case_match; bool_prop; lia).
    rewrite isub_small by (unfold MinInt64, MaxInt64; lia).
    rewrite (proj2 (Z.ltb_lt _ _) Hm). cbn [andb].
    unfold trim_history. rewrite (proj2 (Z.ltb_ge _ _)).
    2:{ rewrite zlen_app. unfold zlen at 2. rewrite length_take. unfold zlen in *. lia. }
    exists d. eexists. split; [lia|]. unfold pad_grid. do 3 f_equal.
    case_match; bool_prop; [done|]. by rewrite Htake by lia.
  - exists 0, 0%nat. split; [lia|]. cbn. rewrite app_nil_r, Hid, drop_0, Z.sub_0_r, Htake, app_nil_r by lia. done.
Qed.

(** Changing the size of the window keeps the cursor on its line
    of the tape, with every line above it: the history unchanged, the visible
    ones cut or padded to the new width; only rows below the cursor can be
    lost (as long as the history has room for the rows that leave the window). *)
Theorem Resize_keeps_lines c r s :
  screen_ok s → s.(altActive) = false → 1 <= c <= small → 1 <= r <= small →
  zlen s.(scrollback) + s.(rows) <= s.(maxScrollback) →
  let s' := Resize c r s in
  zlen s'.(scrollback) + s'.(curY) = zlen s.(scrollback) + s.(curY) ∧
  ∀ i line, Z.of_nat i <= zlen s.(scrollback) + s.(curY) → tape s !! i = Some line →
    tape s' !! i = Some (if Z.of_nat i <? zlen s.(scrollback) then line else resizeLine line c).
Proof.
  intros Hs Ha Hc Hr Hroom. screen_facts Hs. destruct (ok_grid _ Hs) as [Hrows Hcols]. cbv zeta.
  unfold Resize. rewrite (proj2 (Z.ltb_ge c 1)), (proj2 (Z.ltb_ge r 1)) by lia. cbv zeta.
  destruct ((c =? cols s) && (r =? rows s)) eqn:Esize.
  { bool_prop. subst. split; [done|]. intros i line Hi Hl. rewrite Hl. case_match; [done|]. f_equal. bool_prop.
    assert (Hline : zlen line = s.(cols)) by (unfold tape in Hl; rewrite lookup_app_r in Hl by (unfold zlen in *; lia);
      by eapply (Forall_lookup_1 _ _ _ _ Hcols)).
    by rewrite <- Hline, resizeLine_same. }
  rewrite Ha. pose proof (zlen_nonneg s.(scrollback)). destruct (resizeGrid_rows s.(grid) c r s.(curY) s) as (d & k & Hd & E); [unfold small; lia..|].
  rewrite E. clear E Esize.
  destruct s as [f1 f2 g x y f6 f7 f8 f9 f10 f11 st sb f14 f15 f16 f17 a b f20 ya f22 f23 f24 f25 f26 f27].
  cbn -[clamp] in *. rewrite (clamp_id (y - d)) by lia.
  assert (Hdlen : (Z.to_nat d <= length g)%nat) by (unfold zlen in *; lia).
  split; [rewrite zlen_app; unfold zlen; rewrite length_take, length_fmap; lia|].
  intros i line Hi Hl. unfold tape in *. cbn in *. rewrite <- app_assoc.
  apply lookup_app_Some in Hl as [Hl|[Hge Hl]].
  - pose proof (lookup_lt_Some _ _ _ Hl). unfold zlen. rewrite (proj2 (Z.ltb_lt _ _)) by lia.
    by rewrite lookup_app_l.
  - unfold zlen in *. rewrite (proj2 (Z.ltb_ge _ _)) by lia. rewrite lookup_app_r by lia.
    assert (Hl' : ((fun l => resizeLine l c) <$> g) !! (i - length f16)%nat = Some (resizeLine line c)).
    { by rewrite list_lookup_fmap, Hl. }
    destruct (decide (i - length f16 < Z.to_nat d)%nat).
    + rewrite lookup_app_l by (rewrite length_take, length_fmap; lia). by rewrite lookup_take_lt.
    + rewrite lookup_app_r by (rewrite length_take, length_fmap; lia).
      rewrite length_take, length_fmap, Nat.min_l by lia.
      rewrite lookup_app_l by (rewrite length_take, length_drop, length_fmap; apply lookup_lt_Some in Hl; lia).
      rewrite lookup_take_lt by lia. rewrite lookup_drop. rewrite <- Hl'. f_equal. lia.
Qed.

Lemma Resize_keeps_lines_witness :
  let s := set_curY 2 (NewScreen 4 3 5) in
  zlen (Resize 3 2 s).(scrollback) + (Resize 3 2 s).(curY) = 2 ∧
  ∀ i line, Z.of_nat i <= 2 → tape s !! i = Some line → tape (Resize 3 2 s) !! i = Some (resizeLine line 3).
Proof.
  intros s. assert (Hs : screen_ok s).
  { apply ok_set_curY; [apply NewScreen_ok; vm_compute; discriminate|]. cbn. lia. }
  destruct (Resize_keeps_lines 3 2 s Hs eq_refl) as [H1 H2]; try (split; vm_compute; discriminate).
  { vm_compute. discriminate. }
  split; [exact H1|]. intros i line Hi Hl. specialize (H2 i line Hi Hl).
  change (zlen s.(scrollback)) with 0 in H2. rewrite (proj2 (Z.ltb_ge _ _)) in H2 by lia. exact H2.
Defined.

Section witnesses.
#[local] Existing Instance narrow.
#[local] Existing Instance narrow_laws.

Lemma written_lines_are_read_back_witness :
  ∃ s n, Write (str_join crlf ["abc"; "d "; "efgh"; ""; "i"]) (NewScreen 4 2 6) = Ok s ∧
    PlainLines 0 (TotalLines s) s = Ok ((rstrip <$> ["abc"; "d "; "efgh"; ""; "i"]) ++ replicate n "").
Proof.
  apply (written_lines_are_read_back 4 2 6); try (split; vm_compute; discriminate); try (vm_compute; discriminate).
  repeat (apply Forall_cons; split); try (split; [vm_compute; reflexivity|vm_compute; discriminate]). constructor.
Defined.
End witnesses.
