(* ===== verification/Mux.v ===== *)
(** * The terminal multiplexer (term/mux.go, mux_model.go, keys.go, mode.go)

    The model of the window: the panes with their emulators, the mode, the
    selection, and the handler of every message.  What the handlers do to the
    world (sessions, goroutines, the clipboard) is the list of actions they
    add to the state, in order.  Packages bubbletea and lipgloss are
    parameters: the codes and names of keys, and the rendering of styles. *)

From S2P Require Export Screen Errors.
Local Open Scope string_scope.
Local Open Scope list_scope.
Local Open Scope Z_scope.
Local Open Scope kat_scope.

(** ** Keys *)

Record KeyMsg : Type := mkKey { kType : Z; kRunes : list Z; kAlt : bool }.

(** The non-textual keys [specialKeys] has a sequence for. *)
Inductive specialKey : Type :=
| KeyUp | KeyDown | KeyRight | KeyLeft | KeyShiftTab | KeyHome | KeyEnd | KeyPgUp | KeyPgDown
| KeyDelete | KeyInsert | KeyCtrlUp | KeyCtrlDown | KeyCtrlRight | KeyCtrlLeft | KeyCtrlHome
| KeyCtrlEnd | KeyCtrlPgUp | KeyCtrlPgDown | KeyShiftUp | KeyShiftDown | KeyShiftRight
| KeyShiftLeft | KeyShiftHome | KeyShiftEnd | KeyCtrlShiftUp | KeyCtrlShiftDown
| KeyCtrlShiftRight | KeyCtrlShiftLeft | KeyCtrlShiftHome | KeyCtrlShiftEnd
| KeyF1 | KeyF2 | KeyF3 | KeyF4 | KeyF5 | KeyF6 | KeyF7 | KeyF8 | KeyF9 | KeyF10 | KeyF11 | KeyF12
| KeyF13 | KeyF14 | KeyF15 | KeyF16 | KeyF17 | KeyF18 | KeyF19 | KeyF20.

#[export] Instance specialKey_eq_dec : EqDecision specialKey.
Proof. solve_decision. Defined.

Definition specialKeys : list (specialKey * string) :=
  [(KeyUp, "[A"); (KeyDown, "[B"); (KeyRight, "[C"); (KeyLeft, "[D"); (KeyShiftTab, "[Z");
   (KeyHome, "[H"); (KeyEnd, "[F"); (KeyPgUp, "[5~"); (KeyPgDown, "[6~"); (KeyDelete, "[3~");
   (KeyInsert, "[2~"); (KeyCtrlUp, "[1;5A"); (KeyCtrlDown, "[1;5B"); (KeyCtrlRight, "[1;5C");
   (KeyCtrlLeft, "[1;5D"); (KeyCtrlHome, "[1;5H"); (KeyCtrlEnd, "[1;5F"); (KeyCtrlPgUp, "[5;5~");
   (KeyCtrlPgDown, "[6;5~"); (KeyShiftUp, "[1;2A"); (KeyShiftDown, "[1;2B");
   (KeyShiftRight, "[1;2C"); (KeyShiftLeft, "[1;2D"); (KeyShiftHome, "[1;2H");
   (KeyShiftEnd, "[1;2F"); (KeyCtrlShiftUp, "[1;6A"); (KeyCtrlShiftDown, "[1;6B");
   (KeyCtrlShiftRight, "[1;6C"); (KeyCtrlShiftLeft, "[1;6D"); (KeyCtrlShiftHome, "[1;6H");
   (KeyCtrlShiftEnd, "[1;6F"); (KeyF1, "OP"); (KeyF2, "OQ"); (KeyF3, "OR"); (KeyF4, "OS");
   (KeyF5, "[15~"); (KeyF6, "[17~"); (KeyF7, "[18~"); (KeyF8, "[19~"); (KeyF9, "[20~");
   (KeyF10, "[21~"); (KeyF11, "[23~"); (KeyF12, "[24~"); (KeyF13, "[25~"); (KeyF14, "[26~");
   (KeyF15, "[28~"); (KeyF16, "[29~"); (KeyF17, "[31~"); (KeyF18, "[32~"); (KeyF19, "[33~");
   (KeyF20, "[34~")].

(** The styles of the window's own lines. *)
Inductive lineStyle : Type := activeTab | inactiveTab | closedTab | statusLine | selectedLine.

Class Tea : Type := {
  KeyRunes : Z;
  KeySpace : Z;
  KeyCtrlB : Z;
  keyCode : specialKey → Z;
  keyString : KeyMsg → string;
  renderStyle : lineStyle → string → string;
}.

(** What package bubbletea documents of its key codes: control keys are their
    ASCII codes, the others are negative and told apart. *)
Class TeaLaws `{T : Tea} : Prop := {
  ctrl_b : KeyCtrlB = 2;
  runes_negative : KeyRunes < 0;
  space_negative : KeySpace < 0;
  space_runes : KeySpace ≠ KeyRunes;
  special_negative k : keyCode k < 0;
  special_runes k : keyCode k ≠ KeyRunes;
  special_space k : keyCode k ≠ KeySpace;
  special_inj k k' : keyCode k = keyCode k' → k = k';
}.

Section keys.
Context `{Tea}.

Definition encodeKey (k : KeyMsg) : string :=
  let body :=
    if k.(kType) =? KeyRunes then Some (string_of_runes k.(kRunes))
    else if k.(kType) =? KeySpace then Some " "
    else if (0 <=? k.(kType)) && (k.(kType) <=? 127) then Some (str1 (az k.(kType)))
    else match List.find (fun e => keyCode e.1 =? k.(kType)) specialKeys with
         | Some e => Some (esc +:+ e.2)
         | None => None
         end in
  match body with
  | None => ""
  | Some body => if k.(kAlt) then esc +:+ body else body
  end.
End keys.

(** ** Modes (mode.go) *)

Inductive Mode : Type := ModeMultiplexer | ModeTmux | ModeExternal.

Definition Mode_String (m : Mode) : string :=
  match m with ModeTmux => "tmux" | ModeExternal => "external" | ModeMultiplexer => "multiplexer" end.

Definition ModeFor (terminal : string) : Mode :=
  if String.eqb terminal "TMUX" then ModeTmux
  else if String.eqb terminal "MULTIPLEXER" || String.eqb terminal "" then ModeMultiplexer
  else ModeExternal.

(** ** The state *)

Inductive paneState : Type := paneIdle | paneOpening | paneLive | paneClosed.
Inductive uiMode : Type := modeAttached | modeScroll | modeHelp.

#[export] Instance paneState_eq_dec : EqDecision paneState.
Proof. solve_decision. Defined.
#[export] Instance uiMode_eq_dec : EqDecision uiMode.
Proof. solve_decision. Defined.

(** A session is known by its identity. *)
Definition session : Type := positive.

Record pane : Type := mkPane {
  p_name : string;
  p_screen : Screen;
  p_session : option session;
  p_state : paneState;
  p_err : option goerror;
  p_gen : Z;
  p_offset : Z;
}.

Record selection : Type := mkSelection { s_active : bool; s_anchor : Z; s_cursor : Z }.

Definition no_selection : selection := mkSelection false 0 0.

Definition sel_bounds (s : selection) : Z * Z :=
  if s.(s_anchor) <=? s.(s_cursor) then (s.(s_anchor), s.(s_cursor)) else (s.(s_cursor), s.(s_anchor)).

Record muxModel : Type := mkMux {
  m_title : string;
  panes : list pane;
  active : Z;
  width : Z;
  height : Z;
  mode : uiMode;
  prefix : bool;
  status : string;
  sel : selection;
}.

(** What a handler does besides changing the model. *)
Inductive action : Type :=
| OpenSession (idx gen : Z)                (* go m.openSession(idx, gen) *)
| StartPump (idx gen : Z) (s : session)    (* go m.pump(idx, gen, s) *)
| SessionClose (s : session)
| SessionResize (s : session) (cols rows : Z)
| SessionWrite (s : session) (data : string)
| CopyText (text : string).

(** A command handed back to bubbletea. *)
Inductive Cmd : Type :=
| CmdNone
| NextEvent
| SetWindowTitle (title : string)
| Batch (cmds : list Cmd)
| Quit
| SendDetach
| SendClosed (idx gen : Z) (err : option goerror).

Inductive Msg : Type :=
| WindowSizeMsg (w h : Z)
| KeyMsgOf (k : KeyMsg)
| paneOutputMsg (idx gen : Z) (data : string)
| paneOpenedMsg (idx gen : Z) (s : option session) (err : option goerror)
| paneClosedMsg (idx gen : Z) (err : option goerror)
| DetachMsg
| OtherMsg.

(** *** Field updates *)

Definition set_panes ps m := mkMux m.(m_title) ps m.(active) m.(width) m.(height) m.(mode) m.(prefix) m.(status) m.(sel).
Definition set_active i m := mkMux m.(m_title) m.(panes) i m.(width) m.(height) m.(mode) m.(prefix) m.(status) m.(sel).
Definition set_window w h m := mkMux m.(m_title) m.(panes) m.(active) w h m.(mode) m.(prefix) m.(status) m.(sel).
Definition set_mode u m := mkMux m.(m_title) m.(panes) m.(active) m.(width) m.(height) u m.(prefix) m.(status) m.(sel).
Definition set_prefix b m := mkMux m.(m_title) m.(panes) m.(active) m.(width) m.(height) m.(mode) b m.(status) m.(sel).
Definition set_status s m := mkMux m.(m_title) m.(panes) m.(active) m.(width) m.(height) m.(mode) m.(prefix) s m.(sel).
Definition set_sel s m := mkMux m.(m_title) m.(panes) m.(active) m.(width) m.(height) m.(mode) m.(prefix) m.(status) s.

Definition with_screen s p := mkPane p.(p_name) s p.(p_session) p.(p_state) p.(p_err) p.(p_gen) p.(p_offset).
Definition with_session s p := mkPane p.(p_name) p.(p_screen) s p.(p_state) p.(p_err) p.(p_gen) p.(p_offset).
Definition with_state st p := mkPane p.(p_name) p.(p_screen) p.(p_session) st p.(p_err) p.(p_gen) p.(p_offset).
Definition with_err e p := mkPane p.(p_name) p.(p_screen) p.(p_session) p.(p_state) e p.(p_gen) p.(p_offset).
Definition with_gen g p := mkPane p.(p_name) p.(p_screen) p.(p_session) p.(p_state) p.(p_err) g p.(p_offset).
Definition with_offset o p := mkPane p.(p_name) p.(p_screen) p.(p_session) p.(p_state) p.(p_err) p.(p_gen) o.

(** ** The handlers *)

(** A handler runs over the model and the actions done so far; it can panic. *)
Definition MX (A : Type) : Type := M (muxModel * list action) panic A.

Definition mget : MX muxModel := fun s => (s, Ok s.1).
Definition mset (f : muxModel → muxModel) : MX unit := fun s => ((f s.1, s.2), Ok tt).
Definition act (a : action) : MX unit := fun s => ((s.1, s.2 ++ [a]), Ok tt).
Definition mlift {A} (r : result panic A) : MX A := slift r.

(** [m.panes[i]] and assignments through the pointer it holds. *)
Definition pane_at (i : Z) : MX pane := do* m <- mget in mlift (index_at m.(panes) i).
Definition set_pane (i : Z) (f : pane → pane) : MX unit :=
  do* m <- mget in
  do* p <- pane_at i in
  do* ps <- mlift (set_at m.(panes) i (f p)) in
  mset (set_panes ps).

Definition in_panes (m : muxModel) (i : Z) : bool := (0 <=? i) && (i <? zlen m.(panes)).

Section handlers.
Context `{Lipgloss} `{Tea}.

(** What a write to a session answers, and a write to the clipboard. *)
Context (write_err : session → string → option goerror) (copy_err : string → option goerror).

Definition activate (idx : Z) : MX Cmd :=
  do* m <- mget in
  if negb (in_panes m idx) then sret CmdNone
  else
    do* _ <- mset (set_active idx) in
    do* p <- pane_at idx in
    if negb (bool_decide (p.(p_state) = paneIdle)) then sret CmdNone
    else
      do* _ <- set_pane idx (fun p => with_gen (p.(p_gen) + 1) (with_state paneOpening p)) in
      do* p <- pane_at idx in
      do* _ <- act (OpenSession idx p.(p_gen)) in
      sret CmdNone.

Definition Init : MX Cmd :=
  do* c <- activate 0 in
  do* m <- mget in
  sret (Batch ([NextEvent; c] ++ (if String.eqb m.(m_title) "" then [] else [SetWindowTitle m.(m_title)]))).

(** A write to the emulator of a pane. *)
Definition screen_write (i : Z) (data : string) : MX unit :=
  do* p <- pane_at i in
  do* s <- mlift (Write data p.(p_screen)) in
  set_pane i (with_screen s).

Definition writeSystem (i : Z) (text : string) : MX unit :=
  screen_write i (String (az 13) newline +:+ esc +:+ "[0m[kathara] " +:+ text +:+ String (az 13) newline).

Definition everySessionEndedCleanly (m : muxModel) : bool :=
  forallb (fun p => bool_decide (p.(p_state) = paneClosed) && negb (bool_decide (is_Some p.(p_err)))) m.(panes).

Definition paneRows (m : muxModel) : Z := maxInt 1 (isub m.(height) 2).

Definition uint16 (z : Z) : Z := z mod 65536.

(** [for _, p := range m.panes]: the body for each index in turn. *)
Fixpoint for_panes (n : nat) (i : Z) (body : Z → MX unit) : MX unit :=
  match n with
  | O => sret tt
  | S n => do* _ <- body i in for_panes n (i + 1) body
  end.

Definition resize (w h : Z) : MX Cmd :=
  if (w <? 1) || (h <? 1) then sret CmdNone
  else
    do* _ <- mset (set_window w h) in
    let rows := maxInt 1 (isub h 2) in
    do* m <- mget in
    do* _ <- for_panes (length m.(panes)) 0 (fun i =>
      do* _ <- set_pane i (fun p => with_screen (Resize w rows p.(p_screen)) p) in
      do* p <- pane_at i in
      match p.(p_session) with
      | None => sret tt
      | Some s => act (SessionResize s (uint16 w) (uint16 rows))
      end) in
    sret CmdNone.

Definition closePane (idx : Z) (err : option goerror) : MX Cmd :=
  do* p <- pane_at idx in sret (SendClosed idx p.(p_gen) err).

Definition sendKey (k : KeyMsg) : MX Cmd :=
  do* m <- mget in
  do* _ <- set_pane m.(active) (with_offset 0) in
  do* p <- pane_at m.(active) in
  match p.(p_session) with
  | Some s =>
      if negb (bool_decide (p.(p_state) = paneLive)) then sret CmdNone
      else
        let b := encodeKey k in
        if String.eqb b "" then sret CmdNone
        else
          do* _ <- act (SessionWrite s b) in
          match write_err s b with
          | Some e => closePane m.(active) (Some e)
          | None => sret CmdNone
          end
  | None => sret CmdNone
  end.

Definition enterScroll : MX unit :=
  do* _ <- mset (set_mode modeScroll) in
  do* m <- mget in
  do* p <- pane_at m.(active) in
  let cursor := maxInt 0 (TotalLines p.(p_screen) - 1 - p.(p_offset)) in
  do* _ <- mset (set_sel (mkSelection false 0 cursor)) in
  mset (set_status "scrollback — v select, y copy, esc leave").

Definition reattach : MX Cmd :=
  do* m <- mget in
  do* p <- pane_at m.(active) in
  if negb (bool_decide (p.(p_state) = paneClosed)) then
    do* _ <- mset (set_status ("device " +:+ p.(p_name) +:+ " is already attached")) in sret CmdNone
  else
    do* _ <- set_pane m.(active) (fun p => with_err None (with_state paneIdle p)) in
    do* _ <- writeSystem m.(active) ("re-attaching to " +:+ p.(p_name) +:+ "…") in
    activate m.(active).

Definition plural (n : Z) : string := if n =? 1 then "" else "s".

Definition yank : MX unit :=
  do* m <- mget in
  do* p <- pane_at m.(active) in
  let total := TotalLines p.(p_screen) in
  let rows := paneRows m in
  let '(from, to) :=
    if m.(sel).(s_active) then sel_bounds m.(sel)
    else let to := maxInt 0 (total - 1 - p.(p_offset)) in (maxInt 0 (to - rows + 1), to) in
  do* text <- mlift (Text from (to + 1) p.(p_screen)) in
  do* _ <- mset (fun m => set_sel no_selection (set_mode modeAttached m)) in
  do* _ <- set_pane m.(active) (with_offset 0) in
  do* _ <- act (CopyText text) in
  match copy_err text with
  | Some e => mset (set_status ("copy failed: " +:+ Error e))
  | None =>
      let n := to - from + 1 in
      mset (set_status ("copied " +:+ Itoa n +:+ " line" +:+ plural n))
  end.

(** [move] of [scrollKey]. *)
Definition move (rows total delta : Z) : MX unit :=
  do* m <- mget in
  let cursor := clamp (m.(sel).(s_cursor) + delta) 0 (maxInt 0 (total - 1)) in
  let anchor := if m.(sel).(s_active) then m.(sel).(s_anchor) else cursor in
  do* _ <- mset (set_sel (mkSelection m.(sel).(s_active) anchor cursor)) in
  do* p <- pane_at m.(active) in
  let bottom := total - 1 - p.(p_offset) in
  let top := bottom - rows + 1 in
  if bottom <? cursor then set_pane m.(active) (with_offset (maxInt 0 (total - 1 - cursor)))
  else if cursor <? top then
    set_pane m.(active) (with_offset (clamp (total - rows - cursor) 0 (maxInt 0 (total - rows))))
  else sret tt.

Definition scrollKey (k : KeyMsg) : MX Cmd :=
  do* m <- mget in
  do* p <- pane_at m.(active) in
  let rows := paneRows m in
  let total := TotalLines p.(p_screen) in
  let s := keyString k in
  let is_key l := str_in s l in
  do* _ <-
    (if is_key ["esc"; "q"] then
       do* _ <- mset (fun m => set_status "" (set_sel no_selection (set_mode modeAttached m))) in
       set_pane m.(active) (with_offset 0)
     else if is_key ["up"; "k"] then move rows total (-1)
     else if is_key ["down"; "j"] then move rows total 1
     else if is_key ["pgup"; "ctrl+b"] then move rows total (- rows)
     else if is_key ["pgdown"; "ctrl+f"; " "] then move rows total rows
     else if is_key ["home"; "g"] then move rows total (- total)
     else if is_key ["end"; "G"] then move rows total total
     else if is_key ["v"] then
       let a := negb m.(sel).(s_active) in
       do* _ <- mset (set_sel (mkSelection a m.(sel).(s_cursor) m.(sel).(s_cursor))) in
       mset (set_status (if a then "selecting — y copies" else "selection cleared"))
     else if is_key ["y"] then yank
     else sret tt) in
  sret CmdNone.

Definition prefixCommand (k : KeyMsg) : MX Cmd :=
  do* _ <- mset (set_status "") in
  do* m <- mget in
  if k.(kType) =? KeyCtrlB then
    if bool_decide (m.(mode) = modeScroll) then scrollKey k
    else do* _ <- mset (set_mode modeAttached) in sendKey k
  else
    let s := keyString k in
    let n := zlen m.(panes) in
    if str_in s ["d"; "q"] then sret SendDetach
    else if str_in s ["n"; "right"; "tab"] then
      do* _ <- mset (set_mode modeAttached) in activate (Z.rem (m.(active) + 1) n)
    else if str_in s ["p"; "left"; "shift+tab"] then
      do* _ <- mset (set_mode modeAttached) in activate (Z.rem (m.(active) - 1 + n) n)
    else if str_in s ["["] then do* _ <- enterScroll in sret CmdNone
    else if str_in s ["?"] then do* _ <- mset (set_mode modeHelp) in sret CmdNone
    else if str_in s ["r"] then reattach
    else
      match Atoi s with
      | Ok d =>
          if (0 <=? d) && (d <=? 9) then
            let idx := if d =? 0 then 9 else d - 1 in
            if idx <? n then
              do* _ <- mset (set_mode modeAttached) in activate idx
            else do* _ <- mset (set_status ("no device " +:+ s)) in sret CmdNone
          else sret CmdNone
      | Err _ => sret CmdNone
      end.

Definition key (k : KeyMsg) : MX Cmd :=
  do* m <- mget in
  if m.(prefix) then
    do* _ <- mset (set_prefix false) in prefixCommand k
  else if (k.(kType) =? KeyCtrlB) && negb k.(kAlt) then
    do* _ <- mset (fun m => set_status "prefix" (set_prefix true m)) in sret CmdNone
  else
    match m.(mode) with
    | modeHelp => do* _ <- mset (fun m => set_status "" (set_mode modeAttached m)) in sret CmdNone
    | modeScroll => scrollKey k
    | modeAttached => sendKey k
    end.

(** The pane a message is for, if it exists and is of that attach. *)
Definition paneFor (idx gen : Z) : MX (option pane) :=
  do* m <- mget in
  if negb (in_panes m idx) then sret None
  else
    do* p <- pane_at idx in
    sret (if p.(p_gen) =? gen then Some p else None).

Definition paneOutput (idx gen : Z) (data : string) : MX Cmd :=
  do* o <- paneFor idx gen in
  match o with
  | None => sret NextEvent
  | Some p =>
      let before := TotalLines p.(p_screen) in
      do* _ <- screen_write idx data in
      do* p <- pane_at idx in
      do* _ <-
        (if 0 <? p.(p_offset) then
           let total := TotalLines p.(p_screen) in
           do* m <- mget in
           set_pane idx (with_offset (clamp (p.(p_offset) + total - before) 0 (maxInt 0 (total - paneRows m))))
         else sret tt) in
      sret NextEvent
  end.

Definition close_stale (s : option session) : MX unit :=
  match s with Some s => act (SessionClose s) | None => sret tt end.


Definition paneOpened (idx gen : Z) (s : option session) (err : option goerror) : MX Cmd :=
  do* o <- paneFor idx gen in
  match o with
  | None => do* _ <- close_stale s in sret NextEvent
  | Some p =>
      match err with
      | Some e =>
          do* _ <- set_pane idx (fun p => with_err (Some e) (with_state paneClosed p)) in
          do* _ <- writeSystem idx ("cannot attach to " +:+ p.(p_name) +:+ ": " +:+ Error e) in
          sret NextEvent
      | None =>
          do* _ <- set_pane idx (fun p => with_state paneLive (with_session s p)) in
          let '(cols, rows) := Screen.Size p.(p_screen) in
          match s with
          | None => mlift (Err NilSession)
          | Some s =>
              do* _ <- act (SessionResize s (uint16 cols) (uint16 rows)) in
              do* _ <- act (StartPump idx gen s) in
              sret NextEvent
          end
      end
  end.

Definition paneClosedBy (idx gen : Z) (err : option goerror) : MX Cmd :=
  do* o <- paneFor idx gen in
  match o with
  | None => sret NextEvent
  | Some p =>
      do* _ <- set_pane idx (fun p => with_err err (with_state paneClosed p)) in
      do* _ <- (match p.(p_session) with
                | Some s => do* _ <- act (SessionClose s) in set_pane idx (with_session None)
                | None => sret tt
                end) in
      do* _ <- writeSystem idx (match err with
                                | Some e => "session ended: " +:+ Error e
                                | None => "session ended. ctrl+b r re-attaches, ctrl+b d detaches."
                                end) in
      do* m <- mget in
      sret (if everySessionEndedCleanly m then Quit else NextEvent)
  end.

Definition Update (msg : Msg) : MX Cmd :=
  match msg with
  | WindowSizeMsg w h => resize w h
  | KeyMsgOf k => key k
  | paneOutputMsg idx gen data => paneOutput idx gen data
  | paneOpenedMsg idx gen s err => paneOpened idx gen s err
  | paneClosedMsg idx gen err => paneClosedBy idx gen err
  | DetachMsg => sret Quit
  | OtherMsg => sret CmdNone
  end.
End handlers.

(** ** The view *)

Definition csi_end (b : ascii) : bool := (0x40 <=? zb b) && (zb b <=? 0x7e).

(** [stripANSI]; [seq] is set inside of a control sequence. *)
Fixpoint strip_from (seq : bool) (s : string) : string :=
  match s with
  | EmptyString => ""
  | String b r =>
      if seq then strip_from (negb (csi_end b)) r
      else if zb b =? 0x1b then
        match r with
        | String c r' => if isc c "[" then strip_from true r' else strip_from false r
        | EmptyString => ""
        end
      else String b (strip_from false r)
  end.

Definition stripANSI (s : string) : string := strip_from false s.

(** The control sequence at the head of [s], after its escape and bracket: up
    to and including its final byte. *)
Fixpoint seq_length (s : string) : nat :=
  match s with
  | EmptyString => 0
  | String b r => if csi_end b then 1 else S (seq_length r)
  end.

Section views.
Context `{Lipgloss} `{Tea}.

(** The loop of [truncateToWidth] with the cells used so far; every round
    takes a byte at least, so the length of the string is enough fuel. *)
Fixpoint truncate_loop (fuel : nat) (s : string) (width used : Z) : string :=
  match fuel, s with
  | S fuel, String b r =>
      if zb b =? 0x1b then
        match r with
        | String c r' =>
            if isc c "[" then
              let n := seq_length r' in
              String b (String c (string_take n r' +:+ truncate_loop fuel (string_drop n r') width used))
            else truncate_loop fuel r width used
        | EmptyString => truncate_loop fuel r width used
        end
      else
        let '(rn, size) := DecodeRune s in
        let w := runeWidth rn in
        if width <? used + w then ""
        else encode_rune rn +:+ truncate_loop fuel (string_drop size s) width (used + w)
  | _, _ => ""
  end.

Definition truncateToWidth (s : string) (width : Z) : string :=
  if (width <=? 0) || (lgWidth s <=? width) then s
  else truncate_loop (String.length s) s width 0 +:+ esc +:+ "[0m".

(** The loop of [joinAround]: it grows [lo, hi) until neither side fits. *)
Fixpoint join_loop (fuel : nat) (labels : list string) (width lo hi total : Z) : result panic (Z * Z) :=
  match fuel with
  | O => Ok (lo, hi)
  | S fuel =>
      if (0 <? lo) || (hi <? zlen labels) then
        let* (hi2, total, grew) :=
          (if hi <? zlen labels then
             let* l := index_at labels hi in
             Ok (if total + lgWidth l <=? width then (hi + 1, total + lgWidth l, true) else (hi, total, false))
           else Ok (hi, total, false)) in
        let* (lo2, total, grew) :=
          (if 0 <? lo then
             let* l := index_at labels (lo - 1) in
             Ok (if total + lgWidth l <=? width then (lo - 1, total + lgWidth l, true) else (lo, total, grew))
           else Ok (lo, total, grew)) in
        if grew then join_loop fuel labels width lo2 hi2 total else Ok (lo2, hi2)
      else Ok (lo, hi)
  end.

Definition joinAround (labels : list string) (active width : Z) : result panic string :=
  if width <=? 0 then Ok (string_concat labels)
  else
    let* l := index_at labels active in
    let* (lo, hi) := join_loop (length labels) labels width active (active + 1) (lgWidth l) in
    let* ls := slice labels lo hi in
    Ok (string_concat ls).

Definition tab_label (m : muxModel) (i : Z) (p : pane) : string :=
  let label := Itoa (i + 1) +:+ ":" +:+ p.(p_name) in
  let t := p.(p_screen).(title) in
  let label := if negb (String.eqb t "") && negb (String.eqb t p.(p_name))
               then label +:+ " (" +:+ t +:+ ")" else label in
  let label := " " +:+ label +:+ " " in
  if i =? m.(active) then renderStyle activeTab label
  else if bool_decide (p.(p_state) = paneClosed) then renderStyle closedTab label
  else renderStyle inactiveTab label.

Definition tabBar (m : muxModel) : result panic string :=
  let labels := imap (fun i p => tab_label m (Z.of_nat i) p) m.(panes) in
  let* bar := joinAround labels m.(active) m.(width) in
  Ok (truncateToWidth bar m.(width)).

Definition current (m : muxModel) : result panic pane := index_at m.(panes) m.(active).

Definition highlightSelection (m : muxModel) (lines : list string) (top : Z) : list string :=
  let '(from, to) := if m.(sel).(s_active) then sel_bounds m.(sel) else (m.(sel).(s_cursor), m.(sel).(s_cursor)) in
  imap (fun i line =>
    let abs := top + Z.of_nat i in
    if (abs <? from) || (to <? abs) then line
    else renderStyle selectedLine (stripANSI (if String.eqb line "" then " " else line))) lines.

(** [for len(lines) < rows { lines = append(lines, empty) }]. *)
Definition pad_lines (lines : list string) (rows : Z) : list string :=
  lines ++ replicate (Z.to_nat (rows - zlen lines)) "".

Definition paneBody (m : muxModel) : result panic (list string) :=
  let* p := current m in
  let rows := paneRows m in
  let total := TotalLines p.(p_screen) in
  let bottom := total - p.(p_offset) in
  let top := maxInt 0 (bottom - rows) in
  let showCursor := bool_decide (m.(mode) = modeAttached) && (p.(p_offset) =? 0) &&
                    bool_decide (p.(p_state) = paneLive) in
  let* lines := RenderView top bottom showCursor p.(p_screen) in
  let lines := if bool_decide (m.(mode) = modeScroll) then highlightSelection m lines top else lines in
  slice (pad_lines lines rows) 0 rows.

Definition statusBar (m : muxModel) : result panic string :=
  let* p := current m in
  let left :=
    if m.(prefix) then "prefix"
    else if bool_decide (m.(mode) = modeScroll) then "scrollback"
    else if bool_decide (m.(mode) = modeHelp) then "help — any key returns"
    else if bool_decide (p.(p_state) = paneOpening) then "attaching to " +:+ p.(p_name) +:+ "…"
    else if bool_decide (p.(p_state) = paneClosed) then
      p.(p_name) +:+ " detached — ctrl+b r re-attach, ctrl+b d detach"
    else "ctrl+b ? keys · ctrl+b d detach" in
  let left := if negb (String.eqb m.(status) "") && negb (bool_decide (m.(mode) = modeHelp))
              then m.(status) +:+ " · " +:+ left else left in
  let left := if bool_decide (m.(mode) = modeScroll)
              then left +:+ " · line " +:+ Itoa (m.(sel).(s_cursor) + 1) +:+ "/" +:+ Itoa (TotalLines p.(p_screen))
              else left in
  Ok (renderStyle statusLine (truncateToWidth left m.(width))).

Definition helpRows : list string :=
  ["kathara built-in terminal multiplexer";
   "";
   "  ctrl+b          prefix";
   "  ctrl+b ctrl+b   send a literal ctrl+b to the device";
   "  ctrl+b d / q    detach — the devices keep running";
   "  ctrl+b n / p    next / previous device";
   "  ctrl+b 1..9,0   select a device by position";
   "  ctrl+b r        re-attach a device whose session ended";
   "  ctrl+b [        scrollback and copy mode";
   "  ctrl+b ?        this help";
   "";
   "  scrollback: up/down k/j move · pgup/pgdn page (ctrl+b pages up) · g/G ends";
   "              v select lines · y copy · esc leave";
   "";
   "  Detaching leaves every container running. `kathara connect <device>`";
   "  re-attaches, and `kathara lclean` is what actually stops them."].

Definition helpBody (m : muxModel) : result panic string :=
  let* rows := slice (pad_lines helpRows (paneRows m)) 0 (paneRows m) in
  Ok (str_join newline rows).

Definition View (m : muxModel) : result panic string :=
  let* bar := tabBar m in
  let* body := (if bool_decide (m.(mode) = modeHelp) then helpBody m
                else rmap (str_join newline) (paneBody m)) in
  let* st := statusBar m in
  Ok (bar +:+ newline +:+ body +:+ newline +:+ st).
End views.

(** ** Starting up (mux.go) *)

Record Device : Type := mkDevice { DeviceName : string }.

Definition ErrNoDevices : goerror := EPlain "term: multiplexer started with no devices".

(** [newMux]: the channels, contexts and writers it also sets up are the
    plumbing between the update loop and the goroutines. *)
Definition newMux (title : string) (scrollback : Z) (devices : list Device) : result goerror muxModel :=
  if zlen devices =? 0 then Err ErrNoDevices
  else
    let scrollback := if scrollback =? 0 then DefaultScrollback else scrollback in
    Ok (mkMux title
          ((fun d => mkPane d.(DeviceName) (NewScreen 80 22 scrollback) None paneIdle None 0 0) <$> devices)
          0 80 24 modeAttached false "" no_selection).

(** ** The goroutines (mux.go) *)

(** What a read of a session's stream reports besides its bytes. *)
Inductive readStatus : Type := ReadMore | ReadEOF | ReadFailed (e : goerror).

(** [pump] over the reads of the session, while the window takes messages. *)
Fixpoint pump (idx gen : Z) (reads : list (string * readStatus)) : list Msg :=
  match reads with
  | [] => []
  | (data, st) :: reads =>
      (if String.eqb data "" then [] else [paneOutputMsg idx gen data]) ++
      match st with
      | ReadMore => pump idx gen reads
      | ReadEOF => [paneClosedMsg idx gen None]
      | ReadFailed e => [paneClosedMsg idx gen (Some e)]
      end
  end.

(** [openSession]: the registry of opened sessions, the message, and what it
    does itself when the window has gone, [emitted] being what [emit] says. *)
Definition openSession (idx gen : Z) (opened : result goerror session) (emitted : bool) (registry : list session)
    : list session * (option Msg * list action) :=
  match opened with
  | Err e => (registry, (if emitted then Some (paneOpenedMsg idx gen None (Some e)) else None, []))
  | Ok s => (registry ++ [s],
             if emitted then (Some (paneOpenedMsg idx gen (Some s) None), []) else (None, [SessionClose s]))
  end.

(** [shutdown], once the goroutines have been told to stop. *)
Definition shutdown (m : muxModel) (registry : list session) : list action :=
  (SessionClose <$> omap p_session m.(panes)) ++ (SessionClose <$> registry).

(** ** Examples

    A numbering of the keys in which the package's guarantees hold. *)
Definition numbered : Tea := {|
  KeyRunes := -1;
  KeySpace := -2;
  KeyCtrlB := 2;
  keyCode k := -3 - match list_find (fun e => e.1 = k) specialKeys with Some (i, _) => Z.of_nat i | None => 0 end;
  keyString k := if k.(kType) =? -1 then string_of_runes k.(kRunes) else "";
  renderStyle _ s := s;
|}.

Lemma all_special k : existsb (fun e => bool_decide (e.1 = k)) specialKeys = true.
Proof. by destruct k. Qed.

Lemma numbered_inj k k' : @keyCode numbered k = @keyCode numbered k' → k = k'.
Proof.
  assert (D : forallb (fun a => forallb (fun b =>
    implb (@keyCode numbered a.1 =? @keyCode numbered b.1) (bool_decide (a.1 = b.1))) specialKeys) specialKeys = true)
    by (vm_compute; reflexivity).
  pose proof (all_special k) as (a & Ha & Ea)%existsb_exists. pose proof (all_special k') as (b & Hb & Eb)%existsb_exists.
  apply bool_decide_eq_true in Ea as <-. apply bool_decide_eq_true in Eb as <-. intros E.
  rewrite forallb_forall in D. specialize (D _ Ha). rewrite forallb_forall in D. specialize (D _ Hb).
  rewrite E, Z.eqb_refl in D. by apply bool_decide_eq_true in D.
Qed.

Lemma numbered_laws : @TeaLaws numbered.
Proof. split; [done..| | | |exact numbered_inj]; intros k; cbn -[list_find]; destruct (list_find _ _) as [[i e]|]; lia. Qed.

Section examples.
#[local] Existing Instance narrow.
#[local] Existing Instance numbered.

Example encode_up : encodeKey (mkKey (keyCode KeyUp) [] false) = esc +:+ "[A".
Proof. vm_compute. reflexivity. Qed.
Example encode_alt : encodeKey (mkKey KeyRunes [0xe9] true) = esc +:+ "é".
Proof. vm_compute. reflexivity. Qed.
Example strip : stripANSI ("a" +:+ esc +:+ "[1;31mb" +:+ esc +:+ "[0m") = "ab".
Proof. vm_compute. reflexivity. Qed.
End examples.
