(* ===== verification/MuxInv.v ===== *)
(** * The terminal multiplexer: invariant and safety

    The window's state machine: what the update loop and its goroutines can do
    is a step relation on the model, the sessions being opened and the actions
    done so far.  In every reachable state the model is well-formed, no handler
    and no view panics, and every session handed to the window is held by one
    pane or has been closed, exactly once.  Then the keys and the tabs. *)

From S2P Require Export Mux ScreenInv.
Local Open Scope string_scope.
Local Open Scope list_scope.
Local Open Scope Z_scope.
Local Open Scope kat_scope.

(** ** Programs that do not panic *)

Definition state : Type := muxModel * list action.

Definition runs {A} (x : MX A) (σ : state) (Q : A → state → Prop) : Prop :=
  ∃ a σ', x σ = (σ', Ok a) ∧ Q a σ'.

Section runs.
Context {A B : Type}.
Implicit Types (σ : state).

Lemma runs_ret (a : A) σ (Q : A → state → Prop) : Q a σ → runs (sret a) σ Q.
Proof. intros. by exists a, σ. Qed.

Lemma runs_bind (x : MX A) (f : A → MX B) σ Q :
  runs x σ (fun a σ' => runs (f a) σ' Q) → runs (sbind x f) σ Q.
Proof. intros (a & σ1 & E & b & σ2 & E2 & HQ). exists b, σ2. split; [|done]. unfold sbind. by rewrite E. Qed.

Lemma runs_weaken (x : MX A) σ (Q Q' : A → state → Prop) :
  runs x σ Q → (∀ a σ', Q a σ' → Q' a σ') → runs x σ Q'.
Proof. intros (a & σ' & E & HQ) H. exists a, σ'. auto. Qed.

Lemma runs_get σ (Q : muxModel → state → Prop) : Q σ.1 σ → runs mget σ Q.
Proof. intros. by exists σ.1, σ. Qed.

Lemma runs_set f σ (Q : unit → state → Prop) : Q tt (f σ.1, σ.2) → runs (mset f) σ Q.
Proof. intros. by exists tt, (f σ.1, σ.2). Qed.

Lemma runs_act a σ (Q : unit → state → Prop) : Q tt (σ.1, σ.2 ++ [a]) → runs (act a) σ Q.
Proof. intros. by exists tt, (σ.1, σ.2 ++ [a]). Qed.

Lemma runs_lift (a : A) r σ (Q : A → state → Prop) : r = Ok a → Q a σ → runs (mlift r) σ Q.
Proof. intros -> ?. by exists a, σ. Qed.
End runs.

Lemma runs_pane_at i p σ (Q : pane → state → Prop) :
  0 <= i → σ.1.(panes) !! Z.to_nat i = Some p → Q p σ → runs (pane_at i) σ Q.
Proof.
  intros Hi Hp HQ. apply runs_bind, runs_get, (runs_lift p); [|done]. by apply index_at_Ok.
Qed.

Lemma runs_set_pane i f p σ (Q : unit → state → Prop) :
  0 <= i → σ.1.(panes) !! Z.to_nat i = Some p →
  Q tt (set_panes (<[Z.to_nat i := f p]> σ.1.(panes)) σ.1, σ.2) → runs (set_pane i f) σ Q.
Proof.
  intros Hi Hp HQ. apply runs_bind, runs_get, runs_bind, (runs_pane_at i p); [done..|].
  apply runs_bind. eapply runs_lift; [apply set_at_in|by apply runs_set].
  apply lookup_lt_Some in Hp. unfold zlen. lia.
Qed.

(** ** Panes *)

Definition no_esc (t : string) : bool := all_bytes (fun b => negb (zb b =? 0x1b)) t.

(** The bytes of the parameter a control sequence is in. *)
Definition param_len (s : Screen) : nat :=
  match s.(Screen.state) with
  | stCSI => String.length (default "" (last (split_byte semicolon s.(params))))
  | _ => 0
  end.

(** The emulator of a pane, in the middle of its input. *)
Definition fine (s : Screen) : Prop := good (param_len s) s.

(** Data whose control sequences, continuing the one [s] is in, have short
    parameters. *)
Definition accepts (s : Screen) (data : string) : Prop :=
  is_Some (scan s.(Screen.state) (param_len s) data).

Lemma good_fine k s : good k s → fine s.
Proof.
  intros (Hs & Hset & Hk). split; [done|]. split; [done|]. intros Hc. destruct (Hk Hc) as (fs & f & E & Hf & Hl).
  exists fs, f. split; [done|]. split; [done|]. unfold param_len. rewrite Hc, E, last_snoc. cbn. lia.
Qed.

Lemma NewScreen_fine c r sb : c <= small → r <= small → fine (NewScreen c r sb).
Proof. intros. apply (good_fine 0). split; [by apply NewScreen_ok|]. by split; intros ?. Qed.

Lemma NewScreen_size c r sb : 1 <= c → 1 <= r → size (NewScreen c r sb) = (c, r).
Proof. intros. unfold NewScreen. by rewrite (proj2 (Z.ltb_ge c 1)), (proj2 (Z.ltb_ge r 1)). Qed.

Lemma Resize_size c r s : 1 <= c → 1 <= r → size (Resize c r s) = (c, r).
Proof.
  intros Hc Hr. unfold Resize. rewrite (proj2 (Z.ltb_ge c 1)), (proj2 (Z.ltb_ge r 1)) by done.
  destruct (Z.eqb_spec c s.(cols)) as [->|]; [destruct (Z.eqb_spec r s.(rows)) as [->|]; [done|]|]; cbn [andb].
  all: destruct (altActive s); repeat (match goal with |- context [resizeGrid ?g ?c ?r ?y ?b ?s] =>
    destruct (resizeGrid g c r y b s) as [? [? ?]] end); done.
Qed.

Lemma Resize_fine c r s : fine s → c <= small → r <= small → fine (Resize c r s).
Proof.
  intros (Hs & Hset & Hk) Hc Hr. destruct (Resize_ok c r s) as (H & Ep & Es & Epar); [done..|].
  apply (good_fine (param_len s)). split; [done|]. unfold settled, params_short. by rewrite Ep, Es, Epar.
Qed.

(** Reading a range of lines. *)
Lemma lineAt_ok s i : screen_ok s → 0 <= i < TotalLines s → ∃ l, lineAt s i = Ok l.
Proof.
  intros Hs Hi. pose proof (ok_grid _ Hs) as Hg. unfold TotalLines in Hi. unfold lineAt.
  destruct (Z.ltb_spec i (zlen s.(scrollback))).
  - destruct (index_at_in s.(scrollback) i) as (l & E & _); [lia|]. by exists l.
  - destruct (index_at_in s.(grid) (i - zlen s.(scrollback))) as (l & E & _); [|by exists l].
    destruct Hg as [-> _]. lia.
Qed.

Lemma view_range_in s from to :
  screen_ok s → let '(f, t) := view_range s from to in 0 <= f <= t ∧ t <= TotalLines s.
Proof.
  intros Hs. screen_facts Hs. unfold view_range.
  assert (0 <= TotalLines s) by (unfold TotalLines; pose proof (zlen_nonneg s.(scrollback)); lia).
  pose proof (clamp_in from 0 (TotalLines s)). pose proof (clamp_in to (clamp from 0 (TotalLines s)) (TotalLines s)). lia.
Qed.

Lemma read_lines {A} (f : Z → list cell → A) s from to :
  screen_ok s →
  ∃ ls, (let '(from, to) := view_range s from to in
         collect (Z.to_nat (to - from)) from (fun i => let* line := lineAt s i in Ok (f i line))) = Ok ls ∧
        zlen ls = (view_range s from to).2 - (view_range s from to).1.
Proof.
  intros Hs. pose proof (view_range_in s from to Hs) as Hr. destruct (view_range s from to) as [a b]. cbn [fst snd].
  destruct (collect_total (Z.to_nat (b - a)) a (fun i => let* line := lineAt s i in Ok (f i line))) as (ls & E & Hl).
  { intros i Hi. destruct (lineAt_ok s i) as [l El]; [done|lia|]. rewrite El. by eexists. }
  exists ls. split; [done|]. unfold zlen. lia.
Qed.

Lemma Text_ok from to s : screen_ok s → ∃ t, Text from to s = Ok t.
Proof.
  intros Hs. destruct (read_lines (fun _ l => plainLine l) s from to Hs) as (ls & E & _).
  unfold Text, PlainLines. rewrite E. by eexists.
Qed.

Section panes.
Context `{LG : Lipgloss} {LL : LipglossLaws}.

Lemma Write_fine p s : fine s → accepts s p → ∃ s', Write p s = Ok s' ∧ fine s' ∧ size s' = size s.
Proof.
  intros Hs [[st k] E]. destruct (Write_scan p _ _ _ _ Hs E) as (s' & E' & _ & Hg & Hz).
  exists s'. split_and!; [done|by eapply good_fine|done].
Qed.
End panes.

(** The lines the window itself writes. *)
Definition system_head : string := String (az 13) newline +:+ esc +:+ "[0m[kathara] ".
Definition system_line (t : string) : string := system_head +:+ t +:+ String (az 13) newline.

Lemma scan_no_esc t st k :
  no_esc t = true → st ≠ stCSI → st ≠ stEsc →
  ∃ st', scan st k t = Some (st', 0%nat) ∧ st' ≠ stCSI ∧ st' ≠ stEsc.
Proof.
  revert st k. induction t as [|b t IH]; intros st k; cbn.
  { intros _ H1 H2. exists st. by destruct st. }
  intros [Hb Ht]%andb_true_iff H1 H2. apply negb_true_iff in Hb.
  destruct st; try done; cbn; rewrite ?Hb; try case_match; by apply IH.
Qed.

Lemma accepts_system s t : no_esc t = true → accepts s (system_line t).
Proof.
  intros Ht. unfold accepts, system_line. rewrite scan_app.
  assert (E : ∀ st k, scan st k system_head = Some (stGround, 0%nat)).
  { intros [] k; vm_compute; reflexivity. }
  rewrite E. destruct (scan_no_esc (t +:+ String (az 13) newline) stGround 0) as (st' & -> & _); [|done..|done].
  unfold no_esc in *. by rewrite all_bytes_app, Ht.
Qed.

(** ** The invariant *)

Definition sessions (m : muxModel) : list session := omap p_session m.(panes).

Definition closed_by (a : action) : option session :=
  match a with SessionClose s => Some s | _ => None end.
Definition opened_by (a : action) : option (Z * Z) :=
  match a with OpenSession i g => Some (i, g) | _ => None end.

(** A pane shows its device's screen at the size the window leaves it, and
    holds a session exactly while it is live. *)
Record pane_ok (w rows : Z) (p : pane) : Prop := {
  ok_screen : fine p.(p_screen);
  ok_size : size p.(p_screen) = (w, rows);
  ok_offset : 0 <= p.(p_offset);
  ok_name : no_esc p.(p_name) = true;
  ok_live : p.(p_state) = paneLive ↔ is_Some p.(p_session);
}.

Definition mux_ok (m : muxModel) : Prop :=
  ((1 <= m.(width) <= small) ∧ (1 <= m.(height) <= small)) ∧
  (0 <= m.(active) < zlen m.(panes)) ∧
  Forall (pane_ok m.(width) (paneRows m)) m.(panes).

(** The attaches whose session is being opened, [L], and those that have been
    answered, [D], as a pane and its generation: none twice, none to come, and
    while one being opened is the current one the pane waits for it. *)
Definition opens_ok (L D : list (Z * Z)) (ps : list pane) : Prop :=
  NoDup (L ++ D) ∧
  (∀ i g, (i, g) ∈ L ++ D → 0 <= i ∧ ∃ p, ps !! Z.to_nat i = Some p ∧ g <= p.(p_gen)) ∧
  (∀ i p, 0 <= i → (i, p.(p_gen)) ∈ L → ps !! Z.to_nat i = Some p → p.(p_state) = paneOpening).

(** [O] is being opened, [D] has been answered and [S] has been handed to the
    window before the actions of the state. *)
Definition inv (O D : list (Z * Z)) (S : list session) (σ : state) : Prop :=
  mux_ok σ.1 ∧ opens_ok (O ++ omap opened_by σ.2) D σ.1.(panes) ∧
  sessions σ.1 ++ omap closed_by σ.2 ≡ₚ S.

(** *** One pane changes *)

Lemma omap_insert_same {A B} (f : A → option B) (l : list A) i x y :
  l !! i = Some x → f y = f x → omap f (<[i := y]> l) = omap f l.
Proof.
  revert i. induction l as [|z l IH]; intros [|i]; cbn; [done..| |].
  - intros [= ->] ->. done.
  - intros H E. destruct (f z); [f_equal|]; by apply IH.
Qed.

Lemma omap_insert_perm {A B} (f : A → option B) (l : list A) i x y :
  l !! i = Some x → option_list (f x) ++ omap f (<[i := y]> l) ≡ₚ option_list (f y) ++ omap f l.
Proof.
  intros H. rewrite <- (take_drop_middle l i x H) at 2. rewrite insert_take_drop by by eapply lookup_lt_Some.
  rewrite !omap_app. cbn. destruct (f x), (f y); cbn; solve_Permutation.
Qed.

Lemma opens_insert L D ps i p p' :
  opens_ok L D ps → ps !! Z.to_nat i = Some p → p.(p_gen) <= p'.(p_gen) →
  ((i, p'.(p_gen)) ∈ L → p'.(p_state) = paneOpening) → 0 <= i →
  opens_ok L D (<[Z.to_nat i := p']> ps).
Proof.
  intros (HN & HL & HO) Hp Hg Hst Hi. pose proof (lookup_lt_Some _ _ _ Hp). split; [done|]. split.
  - intros j g Hj. destruct (HL j g Hj) as [H0 (q & Hq & Hle)]. split; [done|]. destruct (decide (j = i)) as [->|E].
    + simplify_eq. exists p'. rewrite list_lookup_insert_eq by done. split; [done|lia].
    + exists q. by rewrite list_lookup_insert_ne by lia.
  - intros j q Hj Hin. destruct (decide (j = i)) as [->|E].
    + rewrite list_lookup_insert_eq by done. intros [= <-]. by apply Hst.
    + rewrite list_lookup_insert_ne by lia. by apply HO.
Qed.

(** A change of a pane that opens and closes nothing. *)
Record quiet (w rows : Z) (p p' : pane) : Prop := {
  quiet_ok : pane_ok w rows p';
  quiet_session : p'.(p_session) = p.(p_session);
  quiet_gen : p'.(p_gen) = p.(p_gen);
  quiet_opening : p.(p_state) = paneOpening → p'.(p_state) = paneOpening;
}.

Definition frame (σ σ' : state) : Prop :=
  zlen σ'.1.(panes) = zlen σ.1.(panes) ∧ σ'.1.(active) = σ.1.(active) ∧ paneRows σ'.1 = paneRows σ.1.

Definition in_range (σ : state) (i : Z) : Prop := 0 <= i < zlen σ.1.(panes).

Lemma in_range_lookup σ i : in_range σ i → ∃ p, σ.1.(panes) !! Z.to_nat i = Some p.
Proof. intros Hi. destruct (index_at_in _ _ Hi) as (p & _ & Hp). by exists p. Qed.

Section invariant.
Context (O D : list (Z * Z)) (S : list session).

Lemma inv_pane σ i p :
  inv O D S σ → σ.1.(panes) !! i = Some p → pane_ok σ.1.(width) (paneRows σ.1) p.
Proof. intros ((_ & _ & H) & _) Hp. by eapply Forall_lookup_1 in Hp. Qed.

Lemma inv_active σ : inv O D S σ → in_range σ σ.1.(active).
Proof. by intros ((_ & H & _) & _). Qed.

(** The invariant reads the panes, the selection of one and the window. *)
Lemma inv_same σ m :
  inv O D S σ → m.(panes) = σ.1.(panes) → m.(active) = σ.1.(active) →
  m.(width) = σ.1.(width) → m.(height) = σ.1.(height) → inv O D S (m, σ.2).
Proof.
  intros (H1 & H2 & H3) Ep Ea Ew Eh. unfold inv, mux_ok, sessions, paneRows in *. cbn. by rewrite Ep, Ea, Ew, Eh.
Qed.

Lemma inv_insert σ i p p' :
  inv O D S σ → 0 <= i → σ.1.(panes) !! Z.to_nat i = Some p →
  quiet σ.1.(width) (paneRows σ.1) p p' →
  inv O D S (set_panes (<[Z.to_nat i := p']> σ.1.(panes)) σ.1, σ.2).
Proof.
  intros ((H1 & H2 & H3) & H4 & H5) Hi Hp [Hok Hs Hg Ho]. split; [|split].
  - split; [done|]. cbn. split; [by rewrite zlen_insert|]. by apply Forall_insert.
  - eapply opens_insert; [done..|by rewrite Hg| |done]. intros Hin.
    destruct H4 as (_ & _ & H4). apply Ho, (H4 i); [done|by rewrite <- Hg|done].
  - unfold sessions. cbn. by erewrite omap_insert_same.
Qed.

Lemma runs_quiet i f σ (Q : unit → state → Prop) :
  inv O D S σ → in_range σ i →
  (∀ p, pane_ok σ.1.(width) (paneRows σ.1) p → quiet σ.1.(width) (paneRows σ.1) p (f p)) →
  (∀ σ', inv O D S σ' → frame σ σ' → Q tt σ') → runs (set_pane i f) σ Q.
Proof.
  intros H Hi Hf HQ. destruct (in_range_lookup _ _ Hi) as [p Hp].
  eapply runs_set_pane; [apply Hi|done|]. apply HQ; [|split; [apply zlen_insert|done]].
  eapply inv_insert; [done|apply Hi|done|]. by apply Hf, (inv_pane σ _ _ H Hp).
Qed.

(** An action that neither opens nor closes. *)
Lemma inv_act σ a : inv O D S σ → opened_by a = None → closed_by a = None → inv O D S (σ.1, σ.2 ++ [a]).
Proof.
  intros (H1 & H2 & H3) E1 E2. split; [done|]. cbn. rewrite !omap_app. cbn. rewrite E1, E2, !app_nil_r. done.
Qed.
End invariant.

Lemma quiet_offset w rows p o : pane_ok w rows p → 0 <= o → quiet w rows p (with_offset o p).
Proof. intros [] Ho. by split. Qed.

Lemma quiet_screen w rows p s :
  pane_ok w rows p → fine s → size s = (w, rows) → quiet w rows p (with_screen s p).
Proof. intros [] Hs Hz. by split. Qed.

Lemma frame_refl σ : frame σ σ.
Proof. done. Qed.

Lemma frame_trans σ1 σ2 σ3 : frame σ1 σ2 → frame σ2 σ3 → frame σ1 σ3.
Proof. unfold frame. intros (? & ? & ?) (? & ? & ?). split_and!; congruence. Qed.

Lemma in_range_frame σ σ' i : in_range σ i → frame σ σ' → in_range σ' i.
Proof. unfold in_range. by intros ? (-> & _). Qed.

(** ** The handlers *)

(** What the environment may deliver: output a pane can take, a window of a
    size terminals have, the answer to a request of [O], a session or an error,
    and the end of a session in [D]; errors have no escapes in their text. *)
Definition acceptable (O D : list (Z * Z)) (m : muxModel) (msg : Msg) : Prop :=
  match msg with
  | WindowSizeMsg w h => w <= small ∧ h <= small
  | paneOutputMsg i g d => ∀ p, index_at m.(panes) i = Ok p → p.(p_gen) = g → accepts p.(p_screen) d
  | paneClosedMsg i g err => (i, g) ∈ D ∧ ∀ e, err = Some e → no_esc (Error e) = true
  | paneOpenedMsg i g s err =>
      (i, g) ∈ O ∧ match err with Some e => s = None ∧ no_esc (Error e) = true | None => is_Some s end
  | _ => True
  end.

(** The session a message hands over, and the request it answers. *)
Definition delivered (msg : Msg) : list session :=
  match msg with paneOpenedMsg _ _ (Some s) _ => [s] | _ => [] end.
Definition answered (msg : Msg) : list (Z * Z) :=
  match msg with paneOpenedMsg i g _ _ => [(i, g)] | _ => [] end.

Ltac run :=
  lazymatch goal with
  | |- runs (sbind _ _) _ _ => apply runs_bind
  | |- runs (sret _) _ _ => apply runs_ret
  | |- runs mget _ _ => apply runs_get
  | |- runs (mset _) _ _ => apply runs_set
  | |- runs (act _) _ _ => apply runs_act
  | |- runs (if ?b then _ else _) _ _ => destruct b eqn:?
  end.

Section handlers.
Context `{LG : Lipgloss} {LL : LipglossLaws} `{T : Tea}.
Context (write_err : session → string → option goerror) (copy_err : string → option goerror).
Context (O D : list (Z * Z)) (S : list session).

(** [x] keeps the invariant. *)
Definition safe {A} (x : MX A) (σ : state) : Prop := runs x σ (fun _ σ' => inv O D S σ').

Lemma msafe_bind {A B} (x : MX A) (f : A → MX B) σ :
  safe x σ → (∀ a σ', inv O D S σ' → safe (f a) σ') → safe (sbind x f) σ.
Proof. intros Hx Hf. apply runs_bind. eapply runs_weaken; [exact Hx|]. intros a σ' H. by apply Hf. Qed.

Lemma msafe_ret {A} (a : A) σ : inv O D S σ → safe (sret a) σ.
Proof. intros. by apply runs_ret. Qed.

Lemma safe_mset f σ :
  inv O D S σ → panes (f σ.1) = σ.1.(panes) → active (f σ.1) = σ.1.(active) →
  width (f σ.1) = σ.1.(width) → height (f σ.1) = σ.1.(height) → safe (mset f) σ.
Proof. intros. apply runs_set. by apply (inv_same O D S). Qed.

Lemma safe_offset i f σ :
  inv O D S σ → in_range σ i → (∀ p, pane_ok σ.1.(width) (paneRows σ.1) p → 0 <= f p) →
  safe (set_pane i (fun p => with_offset (f p) p)) σ.
Proof.
  intros H Hi Hf. eapply (runs_quiet O D S); [done..| |done]. intros p Hp. apply quiet_offset; [done|by apply Hf].
Qed.

Lemma runs_pane σ i (Q : pane → state → Prop) :
  inv O D S σ → in_range σ i →
  (∀ p, σ.1.(panes) !! Z.to_nat i = Some p → pane_ok σ.1.(width) (paneRows σ.1) p → Q p σ) →
  runs (pane_at i) σ Q.
Proof.
  intros H Hi HQ. destruct (in_range_lookup _ _ Hi) as [p Hp].
  eapply runs_pane_at; [apply Hi|done|]. apply HQ; [done|]. by eapply inv_pane.
Qed.

Lemma runs_screen_write i data σ (Q : unit → state → Prop) :
  inv O D S σ → in_range σ i →
  (∀ p, σ.1.(panes) !! Z.to_nat i = Some p → accepts p.(p_screen) data) →
  (∀ σ', inv O D S σ' → frame σ σ' → Q tt σ') → runs (screen_write i data) σ Q.
Proof.
  intros H Hi Ha HQ. unfold screen_write. run. apply runs_pane; [done..|]. intros p Hp Hok. run.
  destruct (Write_fine data (p_screen p)) as (s & E & Hs & Hz); [apply Hok|by apply Ha|].
  apply (runs_lift s); [done|]. eapply (runs_quiet O D S); [done..| |done].
  intros q Hq. apply quiet_screen; [done..|]. rewrite Hz. apply Hok.
Qed.

Lemma runs_writeSystem i t σ (Q : unit → state → Prop) :
  inv O D S σ → in_range σ i → no_esc t = true →
  (∀ σ', inv O D S σ' → frame σ σ' → Q tt σ') → runs (writeSystem i t) σ Q.
Proof.
  intros H Hi Ht HQ. apply runs_screen_write; [done..| |done]. intros p _. by apply (accepts_system _ t).
Qed.

Lemma inv_open σ i p :
  inv O D S σ → 0 <= i → σ.1.(panes) !! Z.to_nat i = Some p → p.(p_state) = paneIdle →
  inv O D S (set_panes (<[Z.to_nat i := with_gen (p.(p_gen) + 1) (with_state paneOpening p)]> σ.1.(panes)) σ.1,
           σ.2 ++ [OpenSession i (p.(p_gen) + 1)]).
Proof.
  intros H Hi Hp Hst. pose proof (inv_pane O D S _ _ _ H Hp) as [? ? ? ? Hl].
  destruct H as ((H1 & H2 & H3) & H4 & H5). split; [|split]; cbn.
  - split; [done|]. cbn. split; [by rewrite zlen_insert|]. apply Forall_insert; [done|]. split; [done..|]. cbn.
    split; [done|]. intros Hs. apply Hl in Hs. congruence.
  - rewrite omap_app, app_assoc. cbn. set (L := O ++ omap opened_by σ.2) in *.
    pose proof (lookup_lt_Some _ _ _ Hp). destruct H4 as (HN & HL & HO).
    assert (Hnew : (i, p.(p_gen) + 1) ∉ L ++ D).
    { intros Hin. destruct (HL _ _ Hin) as (_ & q & Hq & Hle). simplify_eq. lia. }
    split; [|split].
    + rewrite <- app_assoc. assert (E : L ++ [(i, p.(p_gen) + 1)] ++ D ≡ₚ (i, p.(p_gen) + 1) :: (L ++ D)) by solve_Permutation.
      rewrite E. by constructor.
    + intros j g Hj. assert ((j, g) ∈ L ++ D ∨ (j, g) = (i, p.(p_gen) + 1)) as [Hj'|Hj'] by set_solver.
      * destruct (HL _ _ Hj') as (? & q & Hq & ?). split; [done|]. destruct (decide (j = i)) as [->|].
        -- rewrite list_lookup_insert_eq by done. simplify_eq. eexists. split; [done|]. cbn. lia.
        -- rewrite list_lookup_insert_ne by lia. by exists q.
      * injection Hj' as -> ->. split; [done|]. rewrite list_lookup_insert_eq by done. by eexists.
    + intros j q Hj Hin. destruct (decide (j = i)) as [->|].
      * rewrite list_lookup_insert_eq by done. by intros [= <-].
      * rewrite list_lookup_insert_ne by lia. apply HO; [done|]. set_solver.
  - rewrite omap_app. cbn. rewrite app_nil_r. unfold sessions. cbn. by erewrite omap_insert_same.
Qed.

Lemma activate_safe i σ : inv O D S σ → safe (activate i) σ.
Proof.
  intros H. unfold safe, activate. run. run. run; [by run|].
  apply negb_false_iff in Heqb. unfold in_panes in Heqb. bool_prop.
  assert (H' : inv O D S (set_active i σ.1, σ.2)).
  { destruct H as ((Hw & Ha & Hp) & ?). split; [|done]. split; [done|]. split; [cbn; lia|done]. }
  assert (Hi : in_range (set_active i σ.1, σ.2) i) by (unfold in_range; cbn; lia).
  run. run. run. apply runs_pane; [done..|]. intros p Hp _. run; [by run|].
  apply negb_false_iff, bool_decide_eq_true in Heqb. pose proof (inv_open _ _ _ H' (proj1 Hi) Hp Heqb) as Ho.
  run. eapply runs_set_pane; [lia|done|]. run. eapply runs_pane_at; [lia| |].
  { cbn. apply list_lookup_insert_eq. by eapply lookup_lt_Some. }
  run. run. run. exact Ho.
Qed.

(** *** The window changes *)

Definition resize_pane (w rows : Z) (p : pane) : pane := with_screen (Resize w rows p.(p_screen)) p.
Definition resize_session (w rows : Z) (p : pane) : option action :=
  s ← p.(p_session); Some (SessionResize s (uint16 w) (uint16 rows)).

Definition resize_body (w rows i : Z) : MX unit :=
  do* _ <- set_pane i (fun p => with_screen (Resize w rows p.(p_screen)) p) in
  do* p <- pane_at i in
  match p.(p_session) with
  | None => sret tt
  | Some s => act (SessionResize s (uint16 w) (uint16 rows))
  end.

Lemma resize_loop w rows todo σ done :
  σ.1.(panes) = done ++ todo →
  for_panes (length todo) (zlen done) (resize_body w rows) σ =
  ((set_panes (done ++ (resize_pane w rows <$> todo)) σ.1, σ.2 ++ omap (resize_session w rows) todo), Ok tt).
Proof.
  revert σ done. induction todo as [|p todo IH]; intros [m as_] done Hp; cbn [fst snd] in *.
  { cbn. rewrite <- Hp, app_nil_r. by destruct m. }
  cbn [length for_panes].
  assert (Hl : (done ++ p :: todo) !! Z.to_nat (zlen done) = Some p).
  { unfold zlen. rewrite Nat2Z.id, lookup_app_r, Nat.sub_diag by done. done. }
  pose proof (zlen_nonneg done) as Hd.
  assert (E : resize_body w rows (zlen done) (m, as_) =
    ((set_panes (done ++ resize_pane w rows p :: todo) m, as_ ++ option_list (resize_session w rows p)), Ok tt)).
  { set (ps := done ++ resize_pane w rows p :: todo).
    assert (Hi : <[Z.to_nat (zlen done) := resize_pane w rows p]> (done ++ p :: todo) = ps).
    { unfold zlen. rewrite Nat2Z.id. rewrite <- (Nat.add_0_r (length done)) at 1. by rewrite insert_app_r. }
    assert (R : runs (resize_body w rows (zlen done)) (m, as_)
      (fun _ σ' => σ' = (set_panes ps m, as_ ++ option_list (resize_session w rows p)))).
    { unfold resize_body. run. eapply runs_set_pane; [lia|cbn; by rewrite Hp|]. cbn. rewrite Hp.
      change (with_screen _ p) with (resize_pane w rows p). rewrite Hi.
      run. eapply (runs_pane_at _ (resize_pane w rows p)); [lia| |].
      { cbn. rewrite <- Hi. apply list_lookup_insert_eq. by eapply lookup_lt_Some. }
      unfold resize_session. cbn. destruct (p_session p); cbn; run; [done|]. by rewrite app_nil_r. }
    destruct R as ([] & σ' & E & ->). exact E. }
  unfold sbind at 1. rewrite E. rewrite <- zlen_snoc with (x := resize_pane w rows p).
  rewrite IH; cbn [fst snd set_panes panes]; [|by rewrite <- app_assoc].
  rewrite fmap_cons. cbn [omap list_omap]. rewrite <- !app_assoc. cbn.
  by destruct (resize_session w rows p).
Qed.

(** The window takes the new size and with it every pane, whose session is
    told; a size below one cell is ignored. *)
Lemma resize_spec w h σ :
  Mux.resize w h σ =
    if (w <? 1) || (h <? 1) then (σ, Ok CmdNone)
    else
      let rows := maxInt 1 (isub h 2) in
      ((set_panes (resize_pane w rows <$> σ.1.(panes)) (set_window w h σ.1),
        σ.2 ++ omap (resize_session w rows) σ.1.(panes)), Ok CmdNone).
Proof.
  unfold Mux.resize. case_match; [done|]. unfold sbind, mset, mget. cbn [fst snd].
  pose proof (resize_loop w (maxInt 1 (isub h 2)) σ.1.(panes) (set_window w h σ.1, σ.2) [] eq_refl) as E.
  change (zlen []) with 0 in E. unfold resize_body in E. unfold sbind in E.
  cbn [panes set_window fst snd app] in E |- *. by rewrite E.
Qed.

Lemma resize_quiet {A} (f : action → option A) w rows ps :
  (∀ s c r, f (SessionResize s c r) = None) → omap f (omap (resize_session w rows) ps) = [].
Proof.
  intros Hf. induction ps as [|p ps IH]; [done|]. cbn. unfold resize_session at 1.
  destruct (p_session p); cbn; [by rewrite Hf|done].
Qed.

Lemma resize_safe w h σ : inv O D S σ → w <= small → h <= small → safe (Mux.resize w h) σ.
Proof.
  intros ((H1 & H2 & H3) & H4 & H5) Hw Hh. unfold safe, runs. rewrite resize_spec.
  destruct ((w <? 1) || (h <? 1)) eqn:Hs; [by eexists _, _|]. bool_prop.
  eexists _, _. split; [done|]. set (rows := maxInt 1 (isub h 2)).
  assert (Hr : 1 <= rows <= small).
  { unfold rows, small in *. rewrite maxInt_max. unfold isub, wrap64. rewrite Z.mod_small; lia. }
  split; [|split]; cbn.
  - split; [done|]. cbn. split; [by rewrite zlen_fmap|]. apply Forall_fmap. eapply Forall_impl; [exact H3|].
    intros p []. split; try done; [apply Resize_fine; [done|lia..]|apply (Resize_size w rows); lia].
  - rewrite omap_app.
    rewrite (resize_quiet opened_by), app_nil_r by done. destruct H4 as (HN & HL & HO). split; [done|]. split.
    + intros i g Hi. destruct (HL i g Hi) as (? & q & Hq & ?). split; [done|]. exists (resize_pane w rows q).
      by rewrite list_lookup_fmap, Hq.
    + intros i q Hi Hin. rewrite list_lookup_fmap, fmap_Some. intros (q' & Hq & ->). by apply (HO i q').
  - rewrite omap_app.
    rewrite (resize_quiet closed_by), app_nil_r by done. unfold sessions in *. cbn. rewrite <- H5. f_equiv.
    clear. induction (panes σ.1) as [|p ps IH]; [done|]. cbn. destruct (p_session p); by rewrite IH.
Qed.

(** *** Keys *)

Ltac keep := first
  [ done
  | apply msafe_ret; done
  | apply safe_mset; done ].

Lemma runs_offset i f σ (Q : unit → state → Prop) :
  inv O D S σ → in_range σ i → (∀ p, pane_ok σ.1.(width) (paneRows σ.1) p → 0 <= f p) →
  (∀ σ', inv O D S σ' → frame σ σ' → Q tt σ') → runs (set_pane i (fun p => with_offset (f p) p)) σ Q.
Proof.
  intros H Hi Hf HQ. eapply (runs_quiet O D S); [done..| |done]. intros p Hp. apply quiet_offset; [done|by apply Hf].
Qed.

Lemma sendKey_safe k σ : inv O D S σ → safe (sendKey write_err k) σ.
Proof.
  intros H. unfold safe, sendKey. run. run. run. pose proof (inv_active O D S σ H) as Ha.
  apply (runs_offset _ (fun _ => 0)); [done..|]. intros σ1 H1 F1.
  run. apply runs_pane; [done|by eapply in_range_frame|]. intros p Hp Hok.
  destruct (p_session p) as [s|]; [|by run]. run; [by run|]. cbv zeta. run; [by run|]. run. run.
  apply inv_act with (a := SessionWrite s (encodeKey k)) in H1; [|done..].
  destruct (write_err _ _); [|by run]. unfold closePane. run. apply runs_pane; [done|by eapply in_range_frame|].
  intros q _ _. by run.
Qed.

Lemma enterScroll_safe σ : inv O D S σ → safe enterScroll σ.
Proof.
  intros H. unfold safe, enterScroll. run. run. run. run. run.
  apply runs_pane; [done|by eapply inv_active|]. intros p _ _. cbv zeta. run. run. run. done.
Qed.

Lemma reattach_safe σ : inv O D S σ → safe reattach σ.
Proof.
  intros H. unfold safe, reattach. run. run. run. pose proof (inv_active O D S σ H) as Ha.
  apply runs_pane; [done..|]. intros p Hp Hok. run; [run; by repeat run|].
  apply negb_false_iff, bool_decide_eq_true in Heqb. run.
  eapply runs_set_pane; [apply Ha|done|].
  assert (H1 : inv O D S (set_panes (<[Z.to_nat σ.1.(active) := with_err None (with_state paneIdle p)]> σ.1.(panes)) σ.1, σ.2)).
  { apply (inv_insert O D S) with (p := p); [done|apply Ha|done|]. destruct Hok as [? ? ? ? Hl].
    split; [split; cbn; try done|done..|cbn; congruence]. rewrite <- Hl, Heqb. done. }
  run. apply runs_writeSystem; [done|by eapply in_range_frame, (conj (zlen_insert _ _ _))| |].
  { destruct Hok. unfold no_esc in *. by rewrite !all_bytes_app, ok_name0. }
  intros σ2 H2 _. by apply activate_safe.
Qed.

Lemma yank_safe σ : inv O D S σ → safe (yank copy_err) σ.
Proof.
  intros H. unfold safe, yank. run. run. run. apply runs_pane; [done|by eapply inv_active|]. intros p Hp Hok. cbv zeta.
  destruct (if s_active _ then _ else _) as [from to]. run.
  destruct (Text_ok from (to + 1) (p_screen p)) as [t Ht]; [apply Hok|]. eapply runs_lift; [done|].
  run. run. assert (H1 : inv O D S (set_sel no_selection (set_mode modeAttached σ.1), σ.2)) by by apply (inv_same O D S).
  run. apply (runs_offset _ (fun _ => 0)); [done|by eapply (inv_active O D S σ)|done|]. intros σ2 H2 _.
  run. run. apply inv_act with (a := CopyText t) in H2; [|done..]. destruct (copy_err t); by apply safe_mset.
Qed.

Lemma move_safe rows total d σ : inv O D S σ → safe (move rows total d) σ.
Proof.
  intros H. unfold safe, move. run. run. cbv zeta. run. run.
  set (σ1 := (set_sel _ σ.1, σ.2)). assert (H1 : inv O D S σ1) by by apply (inv_same O D S).
  pose proof (inv_active O D S σ H) as Ha. change (in_range σ (active σ.1)) with (in_range σ1 (active σ.1)) in Ha.
  run. apply runs_pane; [done..|]. intros p Hp Hok. run; [|run]; [| |by run].
  - apply (safe_offset _ (fun _ => _)); [done..|]. intros _ _. rewrite maxInt_max. lia.
  - apply (safe_offset _ (fun _ => _)); [done..|]. intros _ _. apply clamp_in. rewrite maxInt_max. lia.
Qed.

Lemma scrollKey_safe k σ : inv O D S σ → safe (scrollKey copy_err k) σ.
Proof.
  intros H. unfold safe, scrollKey. run. run. run. pose proof (inv_active O D S σ H) as Ha.
  apply runs_pane; [done..|]. intros p Hp Hok. cbv zeta. run.
  eapply runs_weaken; [|intros ? ? Hq; apply runs_ret; exact Hq].
  run; [|repeat (run; [by apply move_safe|])].
  - run. run. apply (safe_offset _ (fun _ => 0)); [by apply (inv_same O D S)|done..].
  - run; [run; run; apply runs_set; by apply (inv_same O D S)|]. run; [by apply yank_safe|by run].
Qed.

Lemma prefixCommand_safe k σ : inv O D S σ → safe (prefixCommand write_err copy_err k) σ.
Proof.
  intros H. unfold safe, prefixCommand. run. run.
  assert (H1 : inv O D S (set_status "" σ.1, σ.2)) by by apply (inv_same O D S).
  run. run. run; [run|].
  { by apply scrollKey_safe. }
  { run. run. by apply sendKey_safe, (inv_same O D S). }
  cbv zeta. run; [by run|]. run; [run; run; by apply activate_safe, (inv_same O D S)|].
  run; [run; run; by apply activate_safe, (inv_same O D S)|].
  run; [run; eapply runs_weaken; [by apply enterScroll_safe|intros; by run]|].
  run; [run; run; run; by apply (inv_same O D S)|]. run; [by apply reattach_safe|].
  destruct (Atoi _); [|by run]. run; [|by run].
  run; run; run; [by apply activate_safe, (inv_same O D S)|run; by apply (inv_same O D S)].
Qed.

Lemma key_safe k σ : inv O D S σ → safe (key write_err copy_err k) σ.
Proof.
  intros H. unfold safe, key. run. run. run; [run; run; by apply prefixCommand_safe, (inv_same O D S)|].
  run; [run; run; run; by apply (inv_same O D S)|].
  destruct (mode σ.1); [by apply sendKey_safe|by apply scrollKey_safe|].
  run; run; run; by apply (inv_same O D S).
Qed.

(** *** Messages of the panes *)

Lemma runs_paneFor i g σ (Q : option pane → state → Prop) :
  Q None σ →
  (∀ p, 0 <= i → σ.1.(panes) !! Z.to_nat i = Some p → p.(p_gen) = g → Q (Some p) σ) → runs (paneFor i g) σ Q.
Proof.
  intros HN HS. unfold paneFor. run. run. unfold in_panes. run; [by run|]. bool_prop.
  destruct (in_range_lookup σ i) as [p Hp]; [unfold in_range; lia|].
  run. eapply runs_pane_at; [done|done|]. run. destruct (Z.eqb_spec p.(p_gen) g); [by apply HS|done].
Qed.

Lemma paneOutput_safe i g d σ :
  inv O D S σ → acceptable O D σ.1 (paneOutputMsg i g d) → safe (paneOutput i g d) σ.
Proof.
  intros H Ha. unfold safe, paneOutput. run. apply runs_paneFor; [by run|]. intros p Hi Hp Hg. cbv zeta. run.
  assert (Hr : in_range σ i) by (apply lookup_lt_Some in Hp; unfold in_range, zlen; lia).
  apply runs_screen_write; [done..| |].
  { intros q Hq. apply Ha; [by apply index_at_Ok|]. congruence. }
  intros σ1 H1 F1. apply (in_range_frame _ _ _ Hr) in F1. run. apply runs_pane; [done..|]. intros q _ _. run.
  eapply runs_weaken; [|intros ? ? Hq; apply runs_ret; exact Hq]. run; [|by run]. cbv zeta. run. run.
  apply (safe_offset _ (fun _ => _)); [done..|]. intros _ _. apply clamp_in. rewrite maxInt_max. lia.
Qed.

(** The session of a pane whose attach has been answered ends. *)
Lemma inv_closed σ i p e :
  inv O D S σ → 0 <= i → σ.1.(panes) !! Z.to_nat i = Some p → (i, p.(p_gen)) ∈ D →
  inv O D S (set_panes (<[Z.to_nat i := with_session None (with_err e (with_state paneClosed p))]> σ.1.(panes)) σ.1,
             σ.2 ++ (SessionClose <$> option_list p.(p_session))).
Proof.
  intros H Hi Hp Hd. pose proof (inv_pane O D S _ _ _ H Hp) as [? ? ? ? Hl].
  destruct H as ((H1 & H2 & H3) & H4 & H5). split; [|split].
  - split; [done|]. cbn. split; [by rewrite zlen_insert|]. apply Forall_insert; [done|]. split; try done. cbn.
    split; [done|]. by intros [].
  - cbn. assert (omap opened_by (SessionClose <$> option_list (p_session p)) = []) as E by by destruct (p_session p).
    rewrite omap_app, E, app_nil_r. eapply opens_insert; [done..| |done]. cbn. intros Hin.
    destruct H4 as (HN & _ & _). apply NoDup_app in HN as (_ & HN & _). by destruct (HN _ Hin).
  - rewrite <- H5. unfold sessions. cbn. rewrite omap_app.
    pose proof (omap_insert_perm p_session _ _ _ (with_session None (with_err e (with_state paneClosed p))) Hp) as E.
    cbn in E. rewrite <- E. destruct (p_session p); cbn; solve_Permutation.
Qed.

Lemma paneClosedBy_safe i g err σ :
  inv O D S σ → acceptable O D σ.1 (paneClosedMsg i g err) → safe (paneClosedBy i g err) σ.
Proof.
  intros H [Hd He]. unfold safe, paneClosedBy. run. apply runs_paneFor; [by run|]. intros p Hi Hp Hg. subst g.
  pose proof (inv_closed σ i p err H Hi Hp Hd) as H1. pose proof (lookup_lt_Some _ _ _ Hp).
  assert (Hr : in_range σ i) by (unfold in_range, zlen; lia).
  run. eapply runs_set_pane; [done..|]. run.
  eapply (runs_weaken _ _ (fun _ σ' => inv O D S σ' ∧ in_range σ' i)).
  { destruct (p_session p) as [s|] eqn:Es; cbn in H1.
    - run. run. eapply runs_set_pane; [done|cbn; by apply list_lookup_insert_eq|].
      split; [|unfold in_range; cbn; by rewrite !zlen_insert]. cbn. rewrite list_insert_insert_eq. exact H1.
    - rewrite app_nil_r in H1. run. split; [|unfold in_range; cbn; by rewrite zlen_insert].
      assert (E : with_session None (with_err err (with_state paneClosed p)) = with_err err (with_state paneClosed p)).
      { destruct p. cbn in *. by subst. }
      by rewrite E in H1. }
  intros _ σ1 [H2 Hr2]. run. apply runs_writeSystem; [done..| |].
  { destruct err as [e|]; [|done]. unfold no_esc in *. by rewrite all_bytes_app, He. }
  intros σ2 H3 _. run. run. by run.
Qed.
End handlers.

Section updates.
Context `{LG : Lipgloss} {LL : LipglossLaws} `{T : Tea}.
Context (write_err : session → string → option goerror) (copy_err : string → option goerror).

(** A request is answered: it is no longer being opened. *)
Lemma opens_answered L L' D ps i g :
  L ≡ₚ (i, g) :: L' → opens_ok L D ps →
  opens_ok L' ((i, g) :: D) ps ∧ (i, g) ∉ L' ∧ 0 <= i ∧
  ∃ p, ps !! Z.to_nat i = Some p ∧ (g = p.(p_gen) → p.(p_state) = paneOpening).
Proof.
  intros E (HN & HL & HO). assert (HE : L ++ D ≡ₚ L' ++ (i, g) :: D) by (rewrite E; solve_Permutation).
  assert (Hi : (i, g) ∈ L) by (rewrite E; set_solver).
  destruct (HL i g) as (H0 & p & Hp & _); [set_solver|].
  rewrite HE in HN. split_and!; [split; [done|split]| |done|].
  - intros j h. rewrite <- HE. apply HL.
  - intros j q Hj Hin. apply HO; [done|]. rewrite E. set_solver.
  - apply NoDup_app in HN as (_ & HN & _). intros Hin. apply (HN _ Hin). set_solver.
  - exists p. split; [done|]. intros ->. by eapply (HO i).
Qed.

Lemma inv_answered O O' D S σ i g :
  inv O D S σ → O ≡ₚ (i, g) :: O' →
  inv O' ((i, g) :: D) S σ ∧ (i, g) ∉ O' ++ omap opened_by σ.2 ∧
  ∃ p, 0 <= i ∧ σ.1.(panes) !! Z.to_nat i = Some p ∧ (g = p.(p_gen) → p.(p_state) = paneOpening).
Proof.
  intros (H1 & H2 & H3) E. eapply (opens_answered _ (O' ++ omap opened_by σ.2) _ _ i g) in H2 as (H2 & Hn & Hi & p & Hp & Hst);
    [|by rewrite E].
  split; [by split|]. split; [done|]. by exists p.
Qed.

(** The pane of the current attach, once answered. *)
Lemma inv_opened O D S σ i p p' :
  inv O D S σ → 0 <= i → σ.1.(panes) !! Z.to_nat i = Some p → p.(p_session) = None →
  (i, p.(p_gen)) ∉ O ++ omap opened_by σ.2 → p'.(p_gen) = p.(p_gen) →
  pane_ok σ.1.(width) (paneRows σ.1) p' →
  inv O D (option_list p'.(p_session) ++ S) (set_panes (<[Z.to_nat i := p']> σ.1.(panes)) σ.1, σ.2).
Proof.
  intros ((H1 & H2 & H3) & H4 & H5) Hi Hp Hs Hn Hg Hok. split; [|split].
  - split; [done|]. cbn. split; [by rewrite zlen_insert|]. by apply Forall_insert.
  - eapply opens_insert; [done..|by rewrite Hg| |done]. cbn. intros Hin. by rewrite Hg in Hin.
  - rewrite <- H5. unfold sessions. cbn. pose proof (omap_insert_perm p_session _ _ _ p' Hp) as E.
    rewrite Hs in E. cbn in E. rewrite E. by rewrite app_assoc.
Qed.

Lemma paneOpened_safe O O' D S i g s err σ :
  inv O D S σ → O ≡ₚ (i, g) :: O' → acceptable O D σ.1 (paneOpenedMsg i g s err) →
  runs (paneOpened i g s err) σ (fun _ σ' => inv O' ((i, g) :: D) (option_list s ++ S) σ').
Proof.
  intros H E [_ Ha]. destruct (inv_answered _ _ _ _ _ _ _ H E) as (H1 & Hn & p & Hi & Hp & Hst).
  unfold paneOpened. run. apply runs_paneFor.
  { run. unfold close_stale. destruct s as [s|]; cbn; run; run; [|done].
    destruct H1 as (? & ? & H1). split; [done|]. cbn. rewrite !omap_app. cbn. rewrite app_nil_r.
    split; [done|]. rewrite <- H1. cbn. solve_Permutation. }
  intros q _ Hq Hg. simplify_eq. specialize (Hst eq_refl).
  pose proof (inv_pane _ _ _ _ _ _ H Hp) as Hok. pose proof (lookup_lt_Some _ _ _ Hp).
  assert (Hs : p_session p = None).
  { destruct Hok. destruct (p_session p); [|done]. destruct ok_live0 as [_ Hl]. by rewrite Hl in Hst. }
  assert (Hr : in_range σ i) by (unfold in_range, zlen; lia).
  destruct err as [e|].
  - destruct Ha as [-> He]. run. eapply runs_set_pane; [done..|].
    eapply (inv_opened _ _ _ _ _ _ (with_err (Some e) (with_state paneClosed p))) in H1; [|try done..].
    2:{ destruct Hok. split; try done. cbn. rewrite Hs. split; [done|]. by intros []. }
    cbn [p_session with_err with_state] in H1. rewrite Hs in H1. run. eapply runs_writeSystem; [exact H1|..].
    + unfold in_range. cbn. by rewrite zlen_insert.
    + destruct Hok. unfold no_esc in *. by rewrite !all_bytes_app, ok_name0, He.
    + intros σ2 H2 _. by run.
  - destruct Ha as [s' ->]. run. eapply runs_set_pane; [done..|].
    eapply (inv_opened _ _ _ _ _ _ (with_state paneLive (with_session (Some s') p))) in H1; [|try done..].
    2:{ destruct Hok. by split. }
    destruct (Screen.Size _) as [c r]. run. run. run. run. run. by apply inv_act; [apply inv_act|..].
Qed.

(** Every message: the requests, answers and sessions of the message are
    accounted for. *)
Lemma Update_safe O O' D S msg σ :
  inv O D S σ → O ≡ₚ answered msg ++ O' → acceptable O D σ.1 msg →
  runs (Update write_err copy_err msg) σ
    (fun _ σ' => inv O' (answered msg ++ D) (delivered msg ++ S) σ').
Proof.
  intros H E Ha. destruct (decide (answered msg = [])) as [En|].
  - rewrite En in *. cbn in E. assert (H' : inv O' D S σ).
    { destruct H as (H1 & (HN & HL & HO) & H2). split; [done|]. split; [|done]. rewrite E in HN. split; [done|].
      split; [intros i g; rewrite <- E; apply HL|intros i p; rewrite <- E; apply HO]. }
    destruct msg; try discriminate En; cbn [delivered app Update].
    + by destruct Ha; apply resize_safe.
    + by apply key_safe.
    + by apply paneOutput_safe.
    + by apply paneClosedBy_safe.
    + by run.
    + by run.
  - destruct msg as [| | |i g s err| | |]; try done. cbn in E.
    eapply runs_weaken; [by eapply paneOpened_safe|]. intros a σ' Hq. destruct s; exact Hq.
Qed.
End updates.

(** *** The view *)

Section view.
Context `{LG : Lipgloss} `{T : Tea}.

(** The tabs drawn around the active one are a range of them that holds it. *)
Lemma join_loop_range fuel labels w lo hi total :
  0 <= lo → lo < hi <= zlen labels →
  ∃ lo' hi', join_loop fuel labels w lo hi total = Ok (lo', hi') ∧ 0 <= lo' <= lo ∧ hi <= hi' <= zlen labels.
Proof.
  revert lo hi total. induction fuel as [|fuel IH]; intros lo hi total Hlo Hhi; cbn [join_loop]; [exists lo, hi; split; [done|lia]|].
  destruct ((0 <? lo) || (hi <? zlen labels)); [|exists lo, hi; split; [done|lia]].
  assert (H1 : ∃ hi2 t2 g2, (if hi <? zlen labels then
     let* l := index_at labels hi in
     Ok (if total + lgWidth l <=? w then (hi + 1, total + lgWidth l, true) else (hi, total, false))
     else Ok (hi, total, false)) = @Ok panic _ (hi2, t2, g2) ∧ hi <= hi2 <= zlen labels).
  { destruct (Z.ltb_spec hi (zlen labels)); [|exists hi, total, false; split; [done|lia]].
    destruct (index_at_in labels hi) as (l & -> & _); [lia|]. cbn. case_match; eexists _, _, _; (split; [done|lia]). }
  destruct H1 as (hi2 & t2 & g2 & -> & Hh2). cbn [rbind].
  assert (H2 : ∃ lo2 t3 g3, (if 0 <? lo then
     let* l := index_at labels (lo - 1) in
     Ok (if t2 + lgWidth l <=? w then (lo - 1, t2 + lgWidth l, true) else (lo, t2, g2))
     else Ok (lo, t2, g2)) = @Ok panic _ (lo2, t3, g3) ∧ 0 <= lo2 <= lo).
  { destruct (Z.ltb_spec 0 lo); [|exists lo, t2, g2; split; [done|lia]].
    destruct (index_at_in labels (lo - 1)) as (l & -> & _); [lia|]. cbn. case_match; eexists _, _, _; (split; [done|lia]). }
  destruct H2 as (lo2 & t3 & g3 & -> & Hl2). cbn [rbind].
  destruct g3; [|exists lo2, hi2; split; [done|lia]]. destruct (IH lo2 hi2 t3) as (lo' & hi' & -> & ? & ?); [lia..|].
  exists lo', hi'. split; [done|lia].
Qed.

Lemma joinAround_ok labels a w : 0 <= a < zlen labels → ∃ s, joinAround labels a w = Ok s.
Proof.
  intros Ha. unfold joinAround. destruct (w <=? 0); [by eexists|].
  destruct (index_at_in labels a Ha) as (l & -> & _). cbn [rbind].
  destruct (join_loop_range (length labels) labels w a (a + 1) (lgWidth l)) as (lo & hi & -> & ? & ?); [lia..|].
  cbn [rbind]. rewrite slice_in by lia. by eexists.
Qed.

Lemma pad_slice ls rows : 0 <= rows → ∃ body, slice (pad_lines ls rows) 0 rows = Ok body ∧ zlen body = rows.
Proof.
  intros Hr. assert (rows <= zlen (pad_lines ls rows)) by (unfold pad_lines; rewrite zlen_app, zlen_replicate; lia).
  rewrite slice_in by lia. eexists. split; [done|]. unfold zlen in *. rewrite length_take, length_drop. lia.
Qed.

Lemma paneRows_pos m : 1 <= paneRows m.
Proof. unfold paneRows. rewrite maxInt_max. lia. Qed.

Lemma paneBody_ok m : mux_ok m → ∃ body, paneBody m = Ok body ∧ zlen body = paneRows m.
Proof.
  intros (_ & Ha & Hp). destruct (index_at_in m.(panes) m.(active) Ha) as (p & E & El).
  unfold paneBody, current. rewrite E. cbn [rbind]. rewrite Forall_lookup in Hp. destruct (Hp _ _ El) as [[Hs _] _ _ _ _].
  unfold RenderView. match goal with |- context [view_range (p_screen p) ?a ?b] =>
    match goal with |- context [fun i => let* line := lineAt (p_screen p) i in Ok (@?f i line)] =>
      destruct (read_lines f (p_screen p) a b Hs) as (ls & Els & _) end end.
  cbv zeta in Els |- *. destruct (view_range _ _ _) as [from to]. rewrite Els. cbn [rbind].
  apply pad_slice. pose proof (paneRows_pos m). lia.
Qed.

Lemma View_ok m : mux_ok m → ∃ s, View m = Ok s.
Proof.
  intros H. pose proof H as (_ & Ha & _). unfold View, tabBar.
  destruct (joinAround_ok (imap (λ i p, tab_label m (Z.of_nat i) p) m.(panes)) m.(active) m.(width)) as [bar ->].
  { unfold zlen. by rewrite length_imap. }
  cbn [rbind]. unfold statusBar, current. destruct (index_at_in m.(panes) m.(active) Ha) as (p & -> & _). cbn [rbind].
  destruct (bool_decide (mode m = modeHelp)).
  - unfold helpBody. destruct (pad_slice helpRows (paneRows m)) as (b & -> & _); [pose proof (paneRows_pos m); lia|].
    by eexists.
  - destruct (paneBody_ok m H) as (b & -> & _). by eexists.
Qed.
End view.

(** ** The window and its environment *)

(** The model, the attaches being opened and those answered, the sessions
    handed to the window and the sessions it has closed. *)
Record world : Type := World {
  w_mux : muxModel;
  w_opening : list (Z * Z);
  w_answered : list (Z * Z);
  w_handed : list session;
  w_closed : list session;
}.

Section world.
Context `{LG : Lipgloss} `{T : Tea}.
Context (write_err : session → string → option goerror) (copy_err : string → option goerror).

(** The window opens on devices whose names have no escapes. *)
Inductive start : world → Prop :=
| start_intro title sb ds m m' as_ c :
    newMux title sb ds = Ok m → Forall (fun d => no_esc d.(DeviceName) = true) ds →
    Init (m, []) = ((m', as_), Ok c) →
    start (World m' (omap opened_by as_) [] [] (omap closed_by as_)).

(** The update loop handles one message. *)
Inductive step (w : world) (msg : Msg) : world → Prop :=
| step_intro opening m as_ c :
    acceptable w.(w_opening) w.(w_answered) w.(w_mux) msg →
    w.(w_opening) ≡ₚ answered msg ++ opening →
    Update write_err copy_err msg (w.(w_mux), []) = ((m, as_), Ok c) →
    step w msg (World m (opening ++ omap opened_by as_) (answered msg ++ w.(w_answered))
                  (delivered msg ++ w.(w_handed)) (w.(w_closed) ++ omap closed_by as_)).

Inductive reachable : world → Prop :=
| reachable_start w : start w → reachable w
| reachable_step w msg w' : reachable w → step w msg w' → reachable w'.

Definition world_ok (w : world) : Prop :=
  inv w.(w_opening) w.(w_answered) (sessions w.(w_mux)) (w.(w_mux), []) ∧
  sessions w.(w_mux) ++ w.(w_closed) ≡ₚ w.(w_handed).

Context {LL : LipglossLaws}.

(** Between two messages the actions are done. *)
Lemma inv_settle O D S m as_ :
  inv O D S (m, as_) → inv (O ++ omap opened_by as_) D (sessions m) (m, []).
Proof. intros (H1 & H2 & H3). split; [done|]. cbn in *. by rewrite !app_nil_r. Qed.

Lemma start_ok w : start w → world_ok w.
Proof.
  intros [title sb ds m m' as_ c Hm Hn Hi]. unfold newMux in Hm. destruct (Z.eqb_spec (zlen ds) 0) as [|Hne]; [done|].
  injection Hm as <-. set (sb' := if sb =? 0 then _ else sb) in *. set (m0 := mkMux _ _ _ _ _ _ _ _ _) in *.
  assert (Hs : sessions m0 = []) by (unfold sessions; cbn; clear; by induction ds).
  assert (H0 : inv [] [] [] (m0, [])).
  { split; [|split].
    - unfold mux_ok. change (width m0) with 80. change (height m0) with 24. change (paneRows m0) with 22.
      split; [by vm_compute|]. cbn. rewrite zlen_fmap. pose proof (zlen_nonneg ds). split; [lia|].
      apply Forall_fmap. eapply Forall_impl; [exact Hn|]. intros d Hd. split; cbn -[NewScreen]; try done.
      by apply NewScreen_fine.
    - split; [apply NoDup_nil_2|]. split; [intros i g Hi'; by apply not_elem_of_nil in Hi'|].
      intros i p _ Hi'. by apply not_elem_of_nil in Hi'.
    - change (sessions (m0, []).1) with (sessions m0). by rewrite Hs. }
  assert (R : runs Init (m0, []) (fun _ σ' => inv [] [] [] σ')).
  { unfold Init. run. eapply runs_weaken; [by apply activate_safe|]. intros ? ? ?. run. run. by run. }
  destruct R as (a & σ' & E & H1). rewrite E in Hi. injection Hi as -> ->. split; [exact (inv_settle _ _ _ _ _ H1)|].
  destruct H1 as (_ & _ & H1). exact H1.
Qed.

Lemma step_ok w msg w' : world_ok w → step w msg w' → world_ok w'.
Proof.
  intros [H1 H2] [opening m as_ c Ha HO HU].
  destruct (Update_safe write_err copy_err _ opening _ _ msg _ H1 HO Ha) as (c' & σ' & E & H').
  rewrite HU in E. injection E as <- _. split; [exact (inv_settle _ _ _ _ _ H')|].
  destruct H' as (_ & _ & H'). cbn in *.
  trans ((sessions m ++ omap closed_by as_) ++ w.(w_closed)); [solve_Permutation|]. by rewrite H', <- H2, app_assoc.
Qed.

Lemma reachable_ok w : reachable w → world_ok w.
Proof. induction 1; [by apply start_ok|by eapply step_ok]. Qed.


End world.

Section witnesses.
#[local] Existing Instance narrow.
#[local] Existing Instance narrow_laws.
#[local] Existing Instance numbered.

Definition all_well {A : Type} (_ : A) : option goerror := None.

(** A window on one device, whose session has been opened. *)
Lemma one_session : ∃ w, reachable (fun _ => all_well) all_well w ∧ w.(w_handed) = [1%positive].
Proof.
  eexists. split.
  - eapply reachable_step.
    + apply reachable_start. eapply (start_intro "" 0 [mkDevice "pc1"]); [reflexivity|by repeat constructor|].
      vm_compute. reflexivity.
    + eapply (step_intro _ _ _ (paneOpenedMsg 0 1 (Some 1%positive) None) []); [|reflexivity|vm_compute; reflexivity].
      split; [by left|done].
  - reflexivity.
Qed.


End witnesses.

(** * The terminal multiplexer: keys and tabs

    What a device receives is what is typed at it; how the tabs are fitted into
    the window. *)

(** ** Keys and devices *)

Definition written (a : action) : option (session * string) :=
  match a with SessionWrite s b => Some (s, b) | _ => None end.

Section typing.
Context `{LG : Lipgloss} `{T : Tea}.
Context (write_err : session → string → option goerror) (copy_err : string → option goerror).

(** Nothing has been written to a session. *)
Definition silent (σ : state) : Prop := omap written σ.2 = [].

Lemma silent_mset f : sinv silent (mset f).
Proof. by intros σ H. Qed.
Lemma silent_mget : sinv silent mget.
Proof. by intros σ H. Qed.
Lemma silent_mlift {A} (r : result panic A) : sinv silent (mlift r).
Proof. by intros σ H. Qed.
Lemma silent_act a : written a = None → sinv silent (act a).
Proof. intros Ha σ H. unfold silent in *. cbn. rewrite omap_app, H. cbn. by rewrite Ha. Qed.

#[local] Hint Resolve silent_mset silent_mget silent_mlift : core.
#[local] Hint Extern 1 (sinv silent (act _)) => by apply silent_act : core.

Ltac quietly :=
  repeat (cbv zeta; match goal with
  | |- sinv silent (sbind _ _) => apply sinv_bind; [|intros ?]
  | |- sinv silent (sret _) => apply sinv_ret
  | |- sinv silent (match ?x with _ => _ end) => destruct x
  end); auto.

Lemma silent_pane_at i : sinv silent (pane_at i).
Proof. unfold pane_at. quietly. Qed.
Lemma silent_set_pane i f : sinv silent (set_pane i f).
Proof. unfold set_pane. quietly. Qed.
#[local] Hint Resolve silent_pane_at silent_set_pane : core.

Lemma silent_for_panes n i body : (∀ i, sinv silent (body i)) → sinv silent (for_panes n i body).
Proof. intros Hb. revert i. induction n as [|n IH]; intros i; cbn; quietly. Qed.
Lemma silent_activate i : sinv silent (activate i).
Proof. unfold activate. quietly. Qed.
Lemma silent_writeSystem i t : sinv silent (writeSystem i t).
Proof. unfold writeSystem, screen_write. quietly. Qed.
Lemma silent_paneFor i g : sinv silent (paneFor i g).
Proof. unfold paneFor. quietly. Qed.
#[local] Hint Resolve silent_activate silent_writeSystem silent_paneFor : core.

Lemma silent_move rows total d : sinv silent (move rows total d).
Proof. unfold move. quietly. Qed.
Lemma silent_yank : sinv silent (yank copy_err).
Proof. unfold yank. quietly. Qed.
#[local] Hint Resolve silent_move silent_yank : core.

Lemma silent_scrollKey k : sinv silent (scrollKey copy_err k).
Proof. unfold scrollKey. quietly. Qed.

Lemma silent_other msg : (∀ k, msg ≠ KeyMsgOf k) → sinv silent (Update write_err copy_err msg).
Proof.
  intros Hk. destruct msg as [w h|k|i g d|i g s e|i g e| |]; cbn [Update]; [|by destruct (Hk k)|..].
  - unfold Mux.resize. quietly. apply silent_for_panes. intros i. quietly.
  - unfold paneOutput, screen_write. quietly.
  - unfold paneOpened, close_stale. quietly.
  - unfold paneClosedBy. quietly.
  - quietly.
  - quietly.
Qed.

(** [sendKey] against the pane it is for. *)
Lemma sendKey_spec k σ p :
  index_at σ.1.(panes) σ.1.(active) = Ok p →
  ∃ c, sendKey write_err k σ =
    ((set_panes (<[Z.to_nat σ.1.(active) := with_offset 0 p]> σ.1.(panes)) σ.1,
      σ.2 ++ match p.(p_session) with
             | Some s => if bool_decide (p.(p_state) = paneLive) && negb (String.eqb (encodeKey k) "")
                         then [SessionWrite s (encodeKey k)] else []
             | None => []
             end), Ok c) ∧
    (∀ s, p.(p_session) = Some s → write_err s (encodeKey k) = None → c = CmdNone).
Proof.
  intros [Hi Hp]%index_at_Ok.
  assert (R : runs (sendKey write_err k) σ (fun c σ' =>
    σ' = (set_panes (<[Z.to_nat σ.1.(active) := with_offset 0 p]> σ.1.(panes)) σ.1,
      σ.2 ++ match p.(p_session) with
             | Some s => if bool_decide (p.(p_state) = paneLive) && negb (String.eqb (encodeKey k) "")
                         then [SessionWrite s (encodeKey k)] else []
             | None => []
             end) ∧ (∀ s, p.(p_session) = Some s → write_err s (encodeKey k) = None → c = CmdNone))).
  { unfold sendKey. run. run. run. eapply runs_set_pane; [done..|].
    assert (Hp' : ((set_panes (<[Z.to_nat σ.1.(active) := with_offset 0 p]> σ.1.(panes)) σ.1, σ.2) : state).1.(panes)
      !! Z.to_nat σ.1.(active) = Some (with_offset 0 p)).
    { cbn. apply list_lookup_insert_eq. by eapply lookup_lt_Some. }
    run. eapply runs_pane_at; [done|exact Hp'|]. cbn [p_session p_state with_offset].
    destruct (p_session p) as [s|]; [|run; by rewrite app_nil_r].
    destruct (bool_decide (p_state p = paneLive)); cbn [negb andb]; [|run; by rewrite app_nil_r].
    cbv zeta. destruct (String.eqb (encodeKey k) "") eqn:?; cbn [negb]; [run; by rewrite app_nil_r|].
    run. run. destruct (write_err s (encodeKey k)) eqn:Ew; [|by run].
    unfold closePane. run. eapply runs_pane_at; [done|exact Hp'|]. run. split; [done|].
    intros ? [= <-] Hn. by rewrite Hn in Ew. }
  destruct R as (c & σ' & E & -> & Hc). by exists c.
Qed.

Lemma sendKey_panics k σ e :
  index_at σ.1.(panes) σ.1.(active) = Err e → sendKey write_err k σ = (σ, Err e).
Proof.
  intros E. unfold sendKey, set_pane, pane_at, sbind, mget, mlift, slift. cbn [fst]. by rewrite E.
Qed.

(** What a write by the window can be. *)
Definition typed_to (m : muxModel) (k : KeyMsg) (w : session * string) : Prop :=
  w.2 = encodeKey k ∧
  ∃ p, index_at m.(panes) m.(active) = Ok p ∧ p.(p_session) = Some w.1 ∧ p.(p_state) = paneLive.

Lemma sendKey_writes k σ w :
  silent σ → w ∈ omap written (sendKey write_err k σ).1.2 → typed_to σ.1 k w.
Proof.
  intros Hs. destruct (index_at σ.1.(panes) σ.1.(active)) as [p|e] eqn:E.
  - destruct (sendKey_spec k σ p E) as (c & -> & _). cbn [fst snd]. rewrite omap_app, Hs. cbn.
    destruct (p_session p) as [s|] eqn:Es; [|by intros ?%not_elem_of_nil].
    destruct (bool_decide (p_state p = paneLive)) eqn:El; [|by intros ?%not_elem_of_nil].
    destruct (negb _); [|by intros ?%not_elem_of_nil]. cbn. intros ->%list_elem_of_singleton. split; [done|].
    bool_prop. by exists p.
  - rewrite (sendKey_panics k σ e E). cbn [fst]. rewrite Hs. by intros ?%not_elem_of_nil.
Qed.

(** A device receives what is typed at it and nothing else: only
    a key makes the window write to a session, the bytes are those the key
    stands for, and the session is that of the pane being shown, live. *)
Theorem only_typed_keys_are_written msg m σ r w :
  Update write_err copy_err msg (m, []) = (σ, r) → w ∈ omap written σ.2 →
  ∃ k, msg = KeyMsgOf k ∧ typed_to m k w.
Proof.
  intros E Hw.
  assert (Hq : ∀ x : MX Cmd, sinv silent x → ∀ m, x (m, []) = (σ, r) → w ∉ omap written σ.2).
  { intros x Hx m' Ex. specialize (Hx (m', []) eq_refl). rewrite Ex in Hx. cbn in Hx. rewrite Hx. apply not_elem_of_nil. }
  destruct msg as [| k | | | | |]; try (by eapply Hq in E; [|by apply silent_other]).
  exists k. split; [done|]. cbn [Update] in E. unfold key in E. unfold sbind at 1, mget in E. cbn [fst] in E.
  destruct (Mux.prefix m); [|destruct (_ && _); [by eapply Hq in E; [|by apply sinv_bind]|]].
  - unfold sbind at 1, mset at 1 in E. cbn [fst snd] in E. unfold prefixCommand in E.
    unfold sbind at 1, mset at 1 in E. cbn [fst snd] in E. unfold sbind at 1, mget at 1 in E. cbn [fst snd] in E.
    destruct (kType k =? KeyCtrlB).
    + destruct (bool_decide _); [by eapply Hq in E; [|by apply silent_scrollKey]|].
      unfold sbind at 1, mset at 1 in E. cbn [fst snd] in E.
      match type of E with sendKey _ _ ?σ0 = _ => pose proof (sendKey_writes k σ0 w eq_refl) as H; rewrite E in H end.
      exact (H Hw).
    + eapply Hq in E; [done|]. cbv zeta. unfold enterScroll, reattach.
      repeat (cbv zeta; match goal with
      | |- sinv silent (sbind _ _) => apply sinv_bind; [|intros ?]
      | |- sinv silent (sret _) => apply sinv_ret
      | |- sinv silent (match ?x with _ => _ end) => destruct x
      end); auto.
  - destruct (mode m).
    + pose proof (sendKey_writes k (m, []) w eq_refl) as H. rewrite E in H. exact (H Hw).
    + by eapply Hq in E; [|by apply silent_scrollKey].
    + by eapply Hq in E; [|by apply sinv_bind].
Qed.

(** While a live pane is attached every key but the prefix goes
    to its device as the bytes the key stands for, following the output again,
    and the prefix typed twice goes to it once. *)
Theorem keys_reach_the_device m p s k `{TL : !TeaLaws} :
  m.(mode) = modeAttached → m.(Mux.prefix) = false → index_at m.(panes) m.(active) = Ok p →
  p.(p_state) = paneLive → p.(p_session) = Some s → (∀ b, write_err s b = None) →
  encodeKey k ≠ ""%string →
  let m' := set_panes (<[Z.to_nat m.(active) := with_offset 0 p]> m.(panes)) m in
  (k.(kType) ≠ KeyCtrlB ∨ k.(kAlt) = true →
   key write_err copy_err k (m, []) = ((m', [SessionWrite s (encodeKey k)]), Ok CmdNone)) ∧
  (k.(kType) = KeyCtrlB → k.(kAlt) = false →
   (do* _ <- key write_err copy_err k in key write_err copy_err k) (m, []) =
   ((set_status "" m', [SessionWrite s (str1 (az 2))]), Ok CmdNone)).
Proof.
  intros Hmode Hpre Hp Hst Hs Hw Hk. cbv zeta.
  assert (Hsend : ∀ m1, m1.(panes) = m.(panes) → m1.(active) = m.(active) →
    sendKey write_err k (m1, []) =
    ((set_panes (<[Z.to_nat m.(active) := with_offset 0 p]> m.(panes)) m1, [SessionWrite s (encodeKey k)]), Ok CmdNone)).
  { intros m1 Ep Ea. destruct (sendKey_spec k (m1, []) p) as (c & E & Hc); [cbn; by rewrite Ep, Ea|].
    rewrite E. cbn [fst snd]. rewrite (Hc s Hs (Hw _)), Hs, Hst, Ep, Ea.
    by rewrite (proj2 (String.eqb_neq _ _) Hk). }
  split.
  - intros H. unfold key, sbind at 1, mget. cbn [fst]. rewrite Hpre.
    assert ((kType k =? KeyCtrlB) && negb (kAlt k) = false) as ->.
    { destruct H as [H| ->]; [by rewrite (proj2 (Z.eqb_neq _ _) H)|by rewrite andb_false_r]. }
    rewrite Hmode. by apply Hsend.
  - intros Ht Ha. unfold sbind at 1, key at 1, sbind at 1, mget. cbn [fst]. rewrite Hpre, Ht, Ha, Z.eqb_refl.
    cbn [andb negb]. unfold sbind at 1, mset at 1, sret at 1. cbn [fst snd].
    unfold key, sbind at 1, mget. cbn [fst Mux.prefix set_status set_prefix]. unfold sbind at 1, mset at 1. cbn [fst snd].
    unfold prefixCommand, sbind at 1, mset at 1. cbn [fst snd]. unfold sbind at 1, mget at 1. cbn [fst snd].
    rewrite Ht, Z.eqb_refl. cbn [mode set_status set_prefix]. rewrite Hmode. cbn [bool_decide decide_rel uiMode_eq_dec].
    unfold sbind at 1, mset at 1. cbn [fst snd]. rewrite bool_decide_eq_false_2 by done. rewrite Hsend by done.
    assert (encodeKey k = str1 (az 2)) as ->.
    { pose proof ctrl_b as Hb. unfold encodeKey. rewrite Ht, Ha, Hb.
      pose proof runes_negative. pose proof space_negative.
      by rewrite (proj2 (Z.eqb_neq 2 KeyRunes)), (proj2 (Z.eqb_neq 2 KeySpace)) by lia. }
    destruct m. cbn in *. by subst.
Qed.
End typing.

(** ** Tabs *)

Section tabs.
Context `{LG : Lipgloss} `{T : Tea}.

Fixpoint widths (ls : list string) : Z :=
  match ls with [] => 0 | l :: ls => lgWidth l + widths ls end.

Lemma widths_app l k : widths (l ++ k) = widths l + widths k.
Proof. induction l as [|x l IH]; cbn; [done|]. rewrite IH. lia. Qed.

Definition between (lo hi : Z) (labels : list string) : list string :=
  take (Z.to_nat (hi - lo)) (drop (Z.to_nat lo) labels).

Lemma between_snoc lo hi labels l :
  0 <= lo <= hi → labels !! Z.to_nat hi = Some l → between lo (hi + 1) labels = between lo hi labels ++ [l].
Proof.
  intros H Hl. unfold between. replace (Z.to_nat (hi + 1 - lo)) with (Datatypes.S (Z.to_nat (hi - lo))) by lia.
  apply take_S_r. rewrite lookup_drop. rewrite <- Hl. f_equal. lia.
Qed.

Lemma between_cons lo hi labels l :
  0 < lo <= hi → labels !! Z.to_nat (lo - 1) = Some l → between (lo - 1) hi labels = l :: between lo hi labels.
Proof.
  intros H Hl. unfold between. rewrite (drop_S labels l) by done.
  replace (Z.to_nat (hi - (lo - 1))) with (Datatypes.S (Z.to_nat (hi - lo))) by lia. cbn.
  do 3 f_equal. lia.
Qed.

(** The label at [i] does not fit beside the range. *)
Definition no_room (labels : list string) (w lo hi i : Z) : Prop :=
  ∀ l, index_at labels i = Ok l → w < widths (between lo hi labels) + lgWidth l.

(** One side of the range, in a round of the loop: it takes the label or has
    no room for it. *)
Lemma grow_right labels w lo hi :
  0 <= lo <= hi → hi <= zlen labels →
  ∃ hi' g, (if hi <? zlen labels then
     let* l := index_at labels hi in
     Ok (if widths (between lo hi labels) + lgWidth l <=? w
         then (hi + 1, widths (between lo hi labels) + lgWidth l, true)
         else (hi, widths (between lo hi labels), false))
     else Ok (hi, widths (between lo hi labels), false)) = @Ok panic _ (hi', widths (between lo hi' labels), g) ∧
    hi' <= zlen labels ∧
    (if g : bool then hi' = hi + 1 ∧ widths (between lo hi' labels) <= w else hi' = hi ∧ no_room labels w lo hi hi).
Proof.
  intros Hlo Hhi. destruct (Z.ltb_spec hi (zlen labels)) as [H1|H1].
  - destruct (index_at_in labels hi) as (l & El & Hl); [lia|]. rewrite El. cbn [rbind].
    pose proof (between_snoc lo hi labels l Hlo Hl) as B. destruct (Z.leb_spec (widths (between lo hi labels) + lgWidth l) w).
    + exists (hi + 1), true. rewrite B, widths_app. cbn. rewrite Z.add_0_r. split_and!; [done|lia|lia|done].
    + exists hi, false. split_and!; [done..|]. intros l'. rewrite El. by intros [= <-].
  - exists hi, false. split_and!; [done..|]. intros l [_ Hl]%index_at_Ok. apply lookup_lt_Some in Hl. unfold zlen in *. lia.
Qed.

Lemma grow_left labels w lo hi grew :
  0 <= lo <= hi → hi <= zlen labels → lo < zlen labels ∨ lo = 0 →
  ∃ lo' g, (if 0 <? lo then
     let* l := index_at labels (lo - 1) in
     Ok (if widths (between lo hi labels) + lgWidth l <=? w
         then (lo - 1, widths (between lo hi labels) + lgWidth l, true)
         else (lo, widths (between lo hi labels), grew))
     else Ok (lo, widths (between lo hi labels), grew)) = @Ok panic _ (lo', widths (between lo' hi labels), g) ∧
    0 <= lo' ∧
    (g = true ∧ lo' = lo - 1 ∧ widths (between lo' hi labels) <= w ∨
     g = grew ∧ lo' = lo ∧ no_room labels w lo hi (lo - 1)).
Proof.
  intros Hlo Hhi Hl0. destruct (Z.ltb_spec 0 lo) as [H1|H1].
  - destruct (index_at_in labels (lo - 1)) as (l & El & Hl); [lia|]. rewrite El. cbn [rbind].
    pose proof (between_cons lo hi labels l ltac:(lia) Hl) as B. destruct (Z.leb_spec (widths (between lo hi labels) + lgWidth l) w).
    + exists (lo - 1), true. rewrite B. cbn. rewrite (Z.add_comm (lgWidth l)). split; [done|]. split; [lia|]. by left.
    + exists lo, grew. split; [done|]. split; [lia|]. right. split_and!; [done..|]. intros l'. rewrite El. by intros [= <-].
  - exists lo, grew. split; [done|]. split; [lia|]. right. split_and!; [done..|]. intros l [Hn _]%index_at_Ok. lia.
Qed.

Lemma join_loop_spec fuel labels w lo hi :
  0 <= lo → lo < hi <= zlen labels → zlen labels < Z.of_nat fuel + (hi - lo) →
  ∃ lo' hi', join_loop fuel labels w lo hi (widths (between lo hi labels)) = Ok (lo', hi') ∧
    0 <= lo' <= lo ∧ hi <= hi' <= zlen labels ∧
    no_room labels w lo' hi' hi' ∧ no_room labels w lo' hi' (lo' - 1) ∧
    (widths (between lo' hi' labels) <= w ∨ lo' = lo ∧ hi' = hi).
Proof.
  revert lo hi. induction fuel as [|fuel IH]; intros lo hi Hlo Hhi Hf; [lia|]. cbn [join_loop].
  assert (Hout : ∀ j l, j < 0 ∨ zlen labels <= j → index_at labels j ≠ Ok l).
  { intros j l Hj [Hn Hl%lookup_lt_Some]%index_at_Ok. unfold zlen in *. lia. }
  destruct ((0 <? lo) || (hi <? zlen labels)) eqn:E.
  2:{ bool_prop. exists lo, hi. split_and!; try lia; [done| |];
      intros l Hl; exfalso; eapply Hout; try exact Hl; lia. }
  clear E. destruct (grow_right labels w lo hi) as (hi2 & g & -> & Hh & Hg); [lia..|]. cbn [rbind].
  assert (hi <= hi2) by (destruct g; lia).
  destruct (grow_left labels w lo hi2 g) as (lo2 & g2 & -> & Hl & Hg2); [lia..|]. cbn [rbind].
  destruct g2.
  - assert (Hw : widths (between lo2 hi2 labels) <= w ∧ lo2 <= lo ∧ hi - lo < hi2 - lo2).
    { destruct Hg2 as [(_ & -> & ?)|(<- & -> & _)]; [lia|]. destruct Hg. lia. }
    destruct (IH lo2 hi2) as (a & b & -> & ? & ? & ? & ? & Hs); [lia..|].
    exists a, b. split_and!; try done; try lia. left. destruct Hs as [?|[-> ->]]; [done|]. apply Hw.
  - destruct Hg2 as [(? & _)|(<- & -> & ?)]; [done|]. destruct Hg as [-> ?].
    exists lo, hi. split_and!; try done; try lia.
Qed.

(** The tabs drawn are a range of the labels that holds the
    active one, fits the window unless it is that label alone, and cannot be
    extended by either neighbour. *)
Theorem joinAround_keeps_active labels a w :
  0 < w → 0 <= a < zlen labels →
  ∃ lo hi, joinAround labels a w = Ok (string_concat (between lo hi labels)) ∧
    0 <= lo <= a ∧ a < hi <= zlen labels ∧
    (widths (between lo hi labels) <= w ∨ lo = a ∧ hi = a + 1) ∧
    no_room labels w lo hi hi ∧ no_room labels w lo hi (lo - 1).
Proof.
  intros Hw Ha. unfold joinAround. rewrite (proj2 (Z.leb_gt _ _)) by done.
  destruct (index_at_in labels a Ha) as (l & -> & Hl). cbn [rbind].
  assert (E : lgWidth l = widths (between a (a + 1) labels)).
  { rewrite (between_snoc a a labels l) by (lia || done). rewrite widths_app. unfold between. rewrite Z.sub_diag, take_0. cbn. lia. }
  rewrite E. destruct (join_loop_spec (length labels) labels w a (a + 1)) as (lo & hi & -> & ? & ? & ? & ? & ?);
    [lia|lia|unfold zlen; lia|]. cbn [rbind]. rewrite slice_in by lia.
  exists lo, hi. split_and!; try done; lia.
Qed.
End tabs.

(** No key's sequence begins another's, so a device tells the
    keys apart from the bytes. *)
Theorem specialKeys_prefix_free k1 k2 s1 s2 :
  (k1, s1) ∈ specialKeys → (k2, s2) ∈ specialKeys → String.prefix s1 s2 = true → k1 = k2.
Proof.
  intros H1 H2 Hp.
  assert (D : forallb (fun a => forallb (fun b => implb (String.prefix a.2 b.2) (bool_decide (a.1 = b.1)))
                specialKeys) specialKeys = true) by (vm_compute; reflexivity).
  rewrite forallb_forall in D. specialize (D _ (proj1 (list_elem_of_In _ _) H1)).
  rewrite forallb_forall in D. specialize (D _ (proj1 (list_elem_of_In _ _) H2)).
  cbn [fst snd] in D. rewrite Hp in D. by apply bool_decide_eq_true in D.
Qed.

Section witnesses.
#[local] Existing Instance narrow.
#[local] Existing Instance numbered.

Definition live_pane : pane := mkPane "pc1" (NewScreen 80 22 0) (Some 1%positive) paneLive None 1 0.
Definition one_pane : muxModel := mkMux "" [live_pane] 0 80 24 modeAttached false "" no_selection.
Definition up : KeyMsg := mkKey (keyCode KeyUp) [] false.

Lemma only_typed_keys_are_written_witness :
  (1%positive, esc +:+ "[A") ∈ omap written (Update (fun _ => all_well) all_well (KeyMsgOf up) (one_pane, [])).1.2 ∧
  ∃ k, KeyMsgOf up = KeyMsgOf k ∧ typed_to one_pane k (1%positive, esc +:+ "[A").
Proof.
  assert (H : (1%positive, esc +:+ "[A") ∈ omap written (Update (fun _ => all_well) all_well (KeyMsgOf up) (one_pane, [])).1.2).
  { vm_compute. left. }
  split; [exact H|]. eapply (only_typed_keys_are_written (fun _ => all_well) all_well (KeyMsgOf up) one_pane); [|exact H].
  vm_compute. reflexivity.
Defined.

Lemma keys_reach_the_device_witness :
  key (fun _ => all_well) all_well up (one_pane, []) =
  ((set_panes (<[0%nat := with_offset 0 live_pane]> [live_pane]) one_pane, [SessionWrite 1%positive (esc +:+ "[A")]), Ok CmdNone).
Proof.
  apply (keys_reach_the_device (fun _ => all_well) all_well one_pane live_pane 1%positive up (TL := numbered_laws));
    try reflexivity; try (vm_compute; discriminate). left. vm_compute. discriminate.
Defined.

Lemma joinAround_keeps_active_witness :
  ∃ lo hi, joinAround ["aaaa"; "bbbb"; "cccc"] 1 2 = Ok (string_concat (between lo hi ["aaaa"; "bbbb"; "cccc"])) ∧
    0 <= lo <= 1 ∧ 1 < hi <= 3.
Proof.
  destruct (joinAround_keeps_active ["aaaa"; "bbbb"; "cccc"] 1 2) as (lo & hi & E & H1 & H2 & _);
    [reflexivity|split; [discriminate|reflexivity]|]. by exists lo, hi.
Defined.

Lemma specialKeys_prefix_free_witness : KeyUp = KeyUp.
Proof. apply (specialKeys_prefix_free KeyUp KeyUp "[A" "[A"); [left|left|reflexivity]. Defined.
End witnesses.
