(* ===== verification/StrOrder.v ===== *)
(** * Sorting strings

    [strings.Compare], [slices.Sort] and [slices.Compact] on strings, with the
    laws of the order they sort by. *)

From S2P Require Export GoString OrderedMap.
From Stdlib Require Import Sorting.Sorted.
Local Open Scope string_scope.
Local Open Scope list_scope.
Local Open Scope Z_scope.
Local Open Scope kat_scope.

(** [strings.Compare]. *)
Definition strings_Compare (a b : string) : Z :=
  match str_compare a b with Lt => -1 | Eq => 0 | Gt => 1 end.

Definition sort_strings (l : list string) : list string := SortStable strings_Compare l.

(** [slices.Compact]: of a run of equal elements the first stays. *)
Fixpoint Compact (l : list string) : list string :=
  match l with
  | [] => []
  | x :: l' =>
      match l' with
      | y :: _ => if String.eqb x y then Compact l' else x :: Compact l'
      | [] => [x]
      end
  end.

Lemma str_compare_antisym s t : str_compare t s = CompOpp (str_compare s t).
Proof.
  revert t. induction s as [|a s IH]; intros [|b t]; try done. cbn [str_compare].
  rewrite (Z.compare_antisym (zb a) (zb b)). destruct (zb a ?= zb b); [apply IH|done|done].
Qed.

Lemma str_compare_lt_trans s t u : str_compare s t = Lt → str_compare t u = Lt → str_compare s u = Lt.
Proof.
  revert t u. induction s as [|a s IH]; intros [|b t] [|c u]; try done. cbn [str_compare].
  destruct (Z.compare_spec (zb a) (zb b)) as [E|L|L], (Z.compare_spec (zb b) (zb c)) as [E'|L'|L']; try done; intros H1 H2.
  - rewrite E, E', Z.compare_refl. by eapply IH.
  - rewrite E. apply Z.compare_lt_iff in L'. by rewrite L'.
  - rewrite <- E'. apply Z.compare_lt_iff in L. by rewrite L.
  - assert (Hl : (zb a ?= zb c) = Lt) by (apply Z.compare_lt_iff; lia). by rewrite Hl.
Qed.

Lemma strings_Compare_neg a b : (strings_Compare a b <? 0) = match str_compare a b with Lt => true | _ => false end.
Proof. unfold strings_Compare. by destruct (str_compare a b). Qed.


Definition str_lt (s t : string) : Prop := str_compare s t = Lt.
Definition str_le (s t : string) : Prop := str_compare s t ≠ Gt.

#[export] Instance str_lt_trans : Transitive str_lt.
Proof. intros s t u. apply str_compare_lt_trans. Qed.

Lemma str_lt_irrefl s : ¬ str_lt s s.
Proof. unfold str_lt. by rewrite (proj2 (str_compare_eq s s)). Qed.

Lemma str_le_lt s t : str_le s t → s = t ∨ str_lt s t.
Proof.
  unfold str_le, str_lt. destruct (str_compare s t) eqn:E; [|by right|done]. left. by apply str_compare_eq.
Qed.

Lemma str_lt_le s t : str_lt s t → str_le s t.
Proof. unfold str_le, str_lt. by intros ->. Qed.

#[export] Instance str_le_trans : Transitive str_le.
Proof.
  intros s t u [->|H]%str_le_lt Htu; [done|]. apply str_le_lt in Htu as [<-|H']; apply str_lt_le; [done|].
  by etransitivity.
Qed.

Lemma sort_strings_elem x l : x ∈ sort_strings l ↔ x ∈ l.
Proof. unfold sort_strings. by rewrite SortStable_perm. Qed.

Lemma sort_strings_sorted l : StronglySorted str_le (sort_strings l).
Proof.
  induction l as [|x l IH]; [constructor|]. cbn [sort_strings SortStable foldr].
  change (foldr (stable_insert strings_Compare) [] l) with (sort_strings l). revert IH. generalize (sort_strings l).
  intros s. induction s as [|y s IHs]; intros Hs; cbn [stable_insert]; [by repeat constructor|].
  rewrite strings_Compare_neg. destruct (str_compare y x) eqn:E.
  - constructor; [done|]. apply str_compare_eq in E as ->. inversion Hs; subst. constructor; [|done].
    unfold str_le. by rewrite (proj2 (str_compare_eq x x)).
  - inversion Hs as [|? ? Hs' Hy]; subst. constructor; [by apply IHs|].
    apply Forall_forall. intros z Hz. rewrite stable_insert_perm in Hz. apply elem_of_cons in Hz as [->|Hz].
    + unfold str_le. by rewrite E.
    + rewrite Forall_forall in Hy. by apply Hy.
  - assert (Hxy : str_le x y) by (apply str_lt_le; unfold str_lt; by rewrite str_compare_antisym, E).
    constructor; [done|]. inversion Hs as [|? ? Hs' Hy]; subst. constructor; [done|].
    eapply Forall_impl; [exact Hy|]. intros z Hz. by etransitivity.
Qed.

Lemma Compact_elem x l : x ∈ Compact l ↔ x ∈ l.
Proof.
  induction l as [|y l IH]; [done|]. destruct l as [|z l]; [done|].
  cbn [Compact]. destruct (String.eqb_spec y z) as [->|Hn].
  - rewrite IH, !elem_of_cons. tauto.
  - rewrite !elem_of_cons, IH, elem_of_cons. tauto.
Qed.

(** A sorted list is left without duplicates. *)
Lemma Compact_sorted l : StronglySorted str_le l → StronglySorted str_lt (Compact l).
Proof.
  induction 1 as [|x l Hl IH Hx]; [constructor|]. destruct l as [|y l]; [by repeat constructor|].
  cbn [Compact]. destruct (String.eqb_spec x y) as [->|Hn]; [done|].
  constructor; [done|]. apply Forall_forall. intros z Hz. apply (proj1 (Compact_elem z (y :: l))) in Hz.
  rewrite Forall_forall in Hx. destruct (str_le_lt x z (Hx z Hz)) as [<-|Hlt]; [exfalso|done].
  apply elem_of_cons in Hz as [->|Hz]; [done|]. inversion Hl as [|? ? _ Hy]; subst. rewrite Forall_forall in Hy.
  apply Hn, str_compare_eq. specialize (Hy x Hz). specialize (Hx y ltac:(by left)). unfold str_le in Hx, Hy.
  rewrite str_compare_antisym in Hy. destruct (str_compare x y); done.
Qed.

Lemma strict_NoDup l : StronglySorted str_lt l → NoDup l.
Proof.
  induction 1 as [|x l _ IH Hx]; constructor; [|done]. intros Hin. rewrite Forall_forall in Hx.
  by apply (str_lt_irrefl x), Hx.
Qed.
