(* ===== verification/Pool.v ===== *)
(** * The worker pool of the backends (backend/docker/pool.go, backend/kubernetes/pool.go)

    Both backends fan a list of tasks out over goroutines, a chunk at a time,
    and join the failures of the first chunk that has any.  A task is a finite
    sequence of atomic actions on the world the tasks share; [step] interleaves
    the actions of the goroutines of a chunk in any order, with the group of
    golang.org/x/sync/errgroup as its documentation has it ([Go] waits while the
    limit is reached, [Wait] for every goroutine, and returns the first error).
    A failure is recorded under the mutex: locking it, reading the list, writing the
    longer one and unlocking it are steps of their own, between which anyone may run.

    [every_run_completes]: no interleaving deadlocks, and none runs for ever when the
    tasks do not.
    [runs_refine_sequence]: when the tasks do not interfere, every interleaving
    ends in the world and the error of running them one after another. *)

From S2P Require Export StrOrder Errors.
Local Open Scope string_scope.
Local Open Scope list_scope.
Local Open Scope Z_scope.
Local Open Scope kat_scope.

(** ** Chunks *)

Section chunks.
Context {A : Type}.

(** The loop of [chunk] over the items from [start]; each round takes at least one. *)
Fixpoint chunk_loop (fuel : nat) (items : list A) (size : nat) : list (list A) :=
  match fuel, items with
  | O, _ | _, [] => []
  | S fuel, _ => take size items :: chunk_loop fuel (drop size items) size
  end.

Definition chunk (items : list A) (size : Z) : list (list A) :=
  if bool_decide (items = []) then []
  else if (size <? 1) || (Z.of_nat (length items) <=? size) then [items]
  else chunk_loop (length items) items (Z.to_nat size).
End chunks.

(** ** Failures *)

Record batchFailure : Type := mkFailure { f_name : string; f_err : goerror }.

Definition sort_failures (failed : list batchFailure) : list batchFailure :=
  SortStable (fun a b => strings_Compare a.(f_name) b.(f_name)) failed.

Definition joinFailures (failed : list batchFailure) : goerror := EJoin (f_err <$> sort_failures failed).

(** ** Tasks and goroutines *)

Section pool.
Context {W A : Type} (name : A → string).

(** The body of a task: [Act f k] changes the world by [f] in one atomic
    action and goes on with what the world before it decides. *)
Inductive proc : Type :=
| Done (e : option goerror)
| Act (f : W → W) (k : W → proc).

Context (task : A → proc) (size : Z).

(** A goroutine runs its task; when that has failed it takes the mutex, reads the
    failures, writes them back with its own appended and gives the mutex back; then
    it returns the task's error to the group. *)
Inductive phase : Type :=
| Running (p : proc)
| Locking (e : goerror)
| Reading (e : goerror)
| Writing (e : goerror) (seen : list batchFailure)
| Unlocking (e : goerror)
| Returning (e : option goerror).

Notation goroutine := (A * phase)%type.

(** Where [runChunked] stands: the items of the chunk still to be handed to
    the group, the goroutines, the group's first error, whether the mutex is taken,
    the failures recorded so far, and the chunks to come. *)
Record pool : Type := mkPool {
  world : W;
  todo : list A;
  active : list goroutine;
  group_err : option goerror;
  mu : bool;
  failed : list batchFailure;
  rest : list (list A)
}.

Inductive conf : Type :=
| Looping (p : pool)
| Returned (w : W) (r : option goerror).

(** The head of the loop over the chunks. *)
Definition next_chunk (w : W) (chunks : list (list A)) : conf :=
  match chunks with
  | [] => Returned w None
  | c :: cs => Looping (mkPool w c [] None false [] cs)
  end.

Definition start (w : W) (items : list A) : conf := next_chunk w (chunk items size).

(** What a goroutine does when its task is done. *)
Definition done_with (e : option goerror) : phase :=
  match e with Some e => Locking e | None => Returning None end.

(** [append(failed, ...)] of a task that failed. *)
Definition record (x : A) (e : option goerror) (failed : list batchFailure) : list batchFailure :=
  match e with Some e => failed ++ [mkFailure (name x) e] | None => failed end.

(** The group keeps the first error. *)
Definition first_error (old new : option goerror) : option goerror :=
  match old with Some _ => old | None => new end.

(** [group.Wait()] has returned. *)
Definition after_wait (p : pool) : conf :=
  match p.(group_err) with
  | Some _ => Returned p.(world) (Some (joinFailures p.(failed)))
  | None => next_chunk p.(world) p.(rest)
  end.

Inductive step : conf → conf → Prop :=
| step_go w x xs gs ge l fs cs :
    Z.of_nat (length gs) < size →
    step (Looping (mkPool w (x :: xs) gs ge l fs cs)) (Looping (mkPool w xs (gs ++ [(x, Running (task x))]) ge l fs cs))
| step_act w xs g1 x f k g2 ge l fs cs :
    step (Looping (mkPool w xs (g1 ++ (x, Running (Act f k)) :: g2) ge l fs cs))
         (Looping (mkPool (f w) xs (g1 ++ (x, Running (k w)) :: g2) ge l fs cs))
| step_done w xs g1 x e g2 ge l fs cs :
    step (Looping (mkPool w xs (g1 ++ (x, Running (Done e)) :: g2) ge l fs cs))
         (Looping (mkPool w xs (g1 ++ (x, done_with e) :: g2) ge l fs cs))
| step_lock w xs g1 x e g2 ge fs cs :
    step (Looping (mkPool w xs (g1 ++ (x, Locking e) :: g2) ge false fs cs))
         (Looping (mkPool w xs (g1 ++ (x, Reading e) :: g2) ge true fs cs))
| step_read w xs g1 x e g2 ge l fs cs :
    step (Looping (mkPool w xs (g1 ++ (x, Reading e) :: g2) ge l fs cs))
         (Looping (mkPool w xs (g1 ++ (x, Writing e fs) :: g2) ge l fs cs))
| step_write w xs g1 x e seen g2 ge l fs cs :
    step (Looping (mkPool w xs (g1 ++ (x, Writing e seen) :: g2) ge l fs cs))
         (Looping (mkPool w xs (g1 ++ (x, Unlocking e) :: g2) ge l (record x (Some e) seen) cs))
| step_unlock w xs g1 x e g2 ge l fs cs :
    step (Looping (mkPool w xs (g1 ++ (x, Unlocking e) :: g2) ge l fs cs))
         (Looping (mkPool w xs (g1 ++ (x, Returning (Some e)) :: g2) ge false fs cs))
| step_return w xs g1 x e g2 ge l fs cs :
    step (Looping (mkPool w xs (g1 ++ (x, Returning e) :: g2) ge l fs cs))
         (Looping (mkPool w xs (g1 ++ g2) (first_error ge e) l fs cs))
| step_wait w ge l fs cs :
    step (Looping (mkPool w [] [] ge l fs cs)) (after_wait (mkPool w [] [] ge l fs cs)).

(** ** The specification: one task after another *)

Fixpoint run (p : proc) (w : W) : W * option goerror :=
  match p with
  | Done e => (w, e)
  | Act f k => run (k w) (f w)
  end.

(** What a goroutine still does to the world and to the failures. *)
Definition finish (g : goroutine) (w : W) : W * list batchFailure :=
  match g.2 with
  | Running p => let '(w, e) := run p w in (w, record g.1 e [])
  | Locking e | Reading e | Writing e _ => (w, record g.1 (Some e) [])
  | Unlocking _ | Returning _ => (w, [])
  end.

Fixpoint finish_all (gs : list goroutine) (w : W) : W * list batchFailure :=
  match gs with
  | [] => (w, [])
  | g :: gs => let '(w, fs) := finish g w in let '(w, fs') := finish_all gs w in (w, fs ++ fs')
  end.

Definition fresh (x : A) : goroutine := (x, Running (task x)).

(** A whole chunk is run even when a task of it fails; no chunk after it is. *)
Fixpoint run_chunks (chunks : list (list A)) (w : W) : W * option goerror :=
  match chunks with
  | [] => (w, None)
  | c :: cs =>
      let '(w, fs) := finish_all (fresh <$> c) w in
      if bool_decide (fs = []) then run_chunks cs w else (w, Some (joinFailures fs))
  end.

Definition run_sequence (w : W) (items : list A) : W * option goerror := run_chunks (chunk items size) w.

(** ** Interference *)

(** The states a task's body can reach. *)
Inductive later : proc → proc → Prop :=
| later_refl p : later p p
| later_act f k w p : later (k w) p → later (Act f k) p.

(** No action of one body changes what an action of the other does or decides. *)
Definition independent (p q : proc) : Prop :=
  ∀ f k g h, later p (Act f k) → later q (Act g h) →
  ∀ w, f (g w) = g (f w) ∧ k (g w) = k w ∧ h (f w) = h w.

Definition body (g : goroutine) : proc :=
  match g.2 with Running p => p | _ => Done None end.

Definition apart (g h : goroutine) : Prop := independent (body g) (body h).

Fixpoint pairwise (gs : list goroutine) : Prop :=
  match gs with
  | [] => True
  | g :: gs => Forall (apart g) gs ∧ pairwise gs
  end.

(** ** Chunks: lemmas *)

Lemma chunk_loop_concat {B} (size' : nat) (items : list B) n :
  (0 < size')%nat → (length items <= n)%nat → concat (chunk_loop n items size') = items.
Proof.
  intros Hs. revert items. induction n as [|n IH]; intros [|x xs]; cbn [length]; try lia; intros Hn; try done.
  cbn [chunk_loop]. cbn [concat]. rewrite IH; [apply take_drop|]. rewrite length_drop. cbn [length]. lia.
Qed.

Lemma chunk_loop_bound {B} (size' : nat) (items : list B) n :
  (0 < size')%nat → Forall (fun c => 0 < length c <= size')%nat (chunk_loop n items size').
Proof.
  intros Hs. revert items. induction n as [|n IH]; intros [|x xs]; cbn [chunk_loop]; constructor.
  - rewrite length_take. cbn [length]. lia.
  - apply IH.
Qed.

Lemma chunk_concat {B} (items : list B) z : concat (chunk items z) = items.
Proof.
  unfold chunk. case_bool_decide as Hn; [by subst|].
  destruct (Z.ltb_spec z 1); [apply app_nil_r|]. destruct (Z.leb_spec (Z.of_nat (length items)) z); [apply app_nil_r|].
  cbn [orb]. apply chunk_loop_concat; lia.
Qed.

Lemma chunk_bound {B} (items : list B) z :
  1 <= z → Forall (fun c => c ≠ [] ∧ Z.of_nat (length c) <= z) (chunk items z).
Proof.
  intros Hz. unfold chunk. case_bool_decide as Hn; [constructor|].
  destruct (Z.ltb_spec z 1); [lia|]. cbn [orb]. destruct (Z.leb_spec (Z.of_nat (length items)) z).
  - by repeat constructor.
  - eapply Forall_impl; [apply chunk_loop_bound; lia|]. cbn. intros c [Hc1 Hc2]. split; [by destruct c; [cbn in Hc1; lia|]|lia].
Qed.

(** ** Sorting the failures *)

Notation insert_failure := (stable_insert (fun a b => strings_Compare a.(f_name) b.(f_name))).

Lemma insert_failure_lt a b l :
  str_compare a.(f_name) b.(f_name) = Lt → insert_failure a (insert_failure b l) = insert_failure b (insert_failure a l).
Proof.
  intros Hlt. assert (Hgt : str_compare b.(f_name) a.(f_name) = Gt) by (by rewrite str_compare_antisym, Hlt).
  induction l as [|c l IH]; cbn [stable_insert]; rewrite ?strings_Compare_neg, ?Hlt, ?Hgt; [done|].
  destruct (str_compare c.(f_name) b.(f_name)) eqn:Ecb; destruct (str_compare c.(f_name) a.(f_name)) eqn:Eca;
    cbn [stable_insert]; rewrite ?strings_Compare_neg, ?Hlt, ?Hgt, ?Ecb, ?Eca, ?IH; try done;
    pose proof (str_compare_lt_trans _ _ _ Eca Hlt) as H; by rewrite Ecb in H.
Qed.

Lemma insert_failure_comm a b l :
  a.(f_name) ≠ b.(f_name) → insert_failure a (insert_failure b l) = insert_failure b (insert_failure a l).
Proof.
  intros Hab. destruct (str_compare a.(f_name) b.(f_name)) eqn:E.
  - by apply str_compare_eq in E.
  - by apply insert_failure_lt.
  - symmetry. apply insert_failure_lt. by rewrite str_compare_antisym, E.
Qed.

Lemma sort_failures_perm fs fs' : NoDup (f_name <$> fs) → fs ≡ₚ fs' → sort_failures fs = sort_failures fs'.
Proof.
  intros Hnd Hp. apply foldr_permutation with (R := eq); [apply _|intros ? ? ? ->; done| |done].
  intros i a j b l Hij Ha Hb. apply insert_failure_comm. intros E. apply Hij.
  eapply NoDup_lookup; [exact Hnd|..]; rewrite list_lookup_fmap; [by rewrite Ha|by rewrite Hb, E].
Qed.

Lemma joinFailures_perm fs fs' : NoDup (f_name <$> fs) → fs ≡ₚ fs' → joinFailures fs = joinFailures fs'.
Proof. intros Hnd Hp. unfold joinFailures. by rewrite (sort_failures_perm fs fs'). Qed.

(** ** Every run ends *)

Inductive phase_after : phase → phase → Prop :=
| after_act f k w : phase_after (Running (k w)) (Running (Act f k))
| after_done e : phase_after (done_with e) (Running (Done e))
| after_lock e : phase_after (Reading e) (Locking e)
| after_read e seen : phase_after (Writing e seen) (Reading e)
| after_write e seen : phase_after (Unlocking e) (Writing e seen)
| after_unlock e : phase_after (Returning (Some e)) (Unlocking e).

Lemma phase_after_wf ph : Acc phase_after ph.
Proof.
  assert (Hr : ∀ e, Acc phase_after (Returning e)) by (intros e; constructor; intros y Hy; inversion Hy).
  assert (Hu : ∀ e, Acc phase_after (Unlocking e)) by (intros e; constructor; intros y Hy; inversion Hy; subst; apply Hr).
  assert (Hw : ∀ e seen, Acc phase_after (Writing e seen)) by (intros e seen; constructor; intros y Hy; inversion Hy; subst; apply Hu).
  assert (Hd : ∀ e, Acc phase_after (Reading e)) by (intros e; constructor; intros y Hy; inversion Hy; subst; apply Hw).
  assert (Hl : ∀ e, Acc phase_after (Locking e)) by (intros e; constructor; intros y Hy; inversion Hy; subst; apply Hd).
  destruct ph as [p|e|e|e seen|e|e]; [|apply Hl|apply Hd|apply Hw|apply Hu|apply Hr].
  induction p as [e|f k IH]; constructor; intros y Hy; inversion Hy; subst; [|apply IH].
  destruct e as [e|]; [apply Hl|apply Hr].
Qed.

(** One goroutine moves on or leaves. *)
Inductive moved : list goroutine → list goroutine → Prop :=
| moved_on g1 x ph ph' g2 : phase_after ph' ph → moved (g1 ++ (x, ph') :: g2) (g1 ++ (x, ph) :: g2)
| moved_out g1 g g2 : moved (g1 ++ g2) (g1 ++ g :: g2).

Lemma moved_nil gs : ¬ moved gs [].
Proof. intros H. remember [] as l eqn:El. destruct H as [[]|[]]; discriminate El. Qed.

Lemma moved_cons_inv gs x ph gs0 :
  moved gs ((x, ph) :: gs0) →
  gs = gs0 ∨ (∃ ph', phase_after ph' ph ∧ gs = (x, ph') :: gs0) ∨ (∃ gs', moved gs' gs0 ∧ gs = (x, ph) :: gs').
Proof.
  inversion 1 as [g1 y p p' g2 Hp Heq Hl|g1 g g2 Heq Hl].
  - destruct g1 as [|h g1]; injection Hl as ?; subst; [by eauto|]. right; right. eauto using moved.
  - destruct g1 as [|h g1]; injection Hl as ?; subst; [by eauto|]. right; right. eauto using moved.
Qed.

Lemma moved_wf gs : Acc moved gs.
Proof.
  induction gs as [|[x ph] gs IH].
  { constructor. intros y Hy. by apply moved_nil in Hy. }
  revert gs IH. induction (phase_after_wf ph) as [ph _ IHph]. intros gs Hgs.
  induction Hgs as [gs Hgs IHgs]. constructor. intros y Hy.
  apply moved_cons_inv in Hy as [->|[(ph' & Hph & ->)|(gs' & Hm & ->)]].
  - by constructor.
  - apply IHph; [done|]. by constructor.
  - by apply IHgs.
Qed.

Definition terminates (c : conf) : Prop := Acc (fun c' c => step c c') c.

Lemma returned_terminates w r : terminates (Returned w r).
Proof. constructor. intros c Hc. inversion Hc. Qed.

Lemma looping_terminates cs :
  (∀ w, terminates (next_chunk w cs)) → ∀ xs gs w ge l fs, terminates (Looping (mkPool w xs gs ge l fs cs)).
Proof.
  intros Hcs xs. induction xs as [|x xs IHxs]; intros gs; induction (moved_wf gs) as [gs _ IHgs]; intros w ge l fs;
    constructor; intros c Hc; inversion Hc; subst; try (by apply IHxs);
    try (apply IHgs; by constructor; constructor); try (apply IHgs; by apply moved_out).
  unfold after_wait. cbn. destruct ge; [apply returned_terminates|apply Hcs].
Qed.

Lemma next_chunk_terminates cs w : terminates (next_chunk w cs).
Proof.
  revert w. induction cs as [|c cs IH]; intros w; [apply returned_terminates|]. by apply looping_terminates.
Qed.

(** ** The mutex *)

Definition holding (ph : phase) : bool :=
  match ph with Reading _ | Writing _ _ | Unlocking _ => true | _ => false end.

(** How many goroutines are between [Lock] and [Unlock]. *)
Fixpoint held (gs : list goroutine) : nat :=
  match gs with [] => 0 | g :: gs => Nat.b2n (holding g.2) + held gs end.

Definition up_to_date (failed : list batchFailure) (g : goroutine) : Prop :=
  match g.2 with Writing _ seen => seen = failed | _ => True end.

(** The mutex is taken exactly while one goroutine holds it, and nobody writes a list
    of failures that is out of date. *)
Definition lock_ok (c : conf) : Prop :=
  match c with
  | Looping p => held p.(active) = Nat.b2n p.(mu) ∧ Forall (up_to_date p.(failed)) p.(active)
  | Returned _ _ => True
  end.

Lemma held_app gs hs : held (gs ++ hs) = (held gs + held hs)%nat.
Proof. induction gs as [|g gs IH]; cbn [app held]; [done|]. rewrite IH. lia. Qed.

Lemma unheld_current gs fs : held gs = 0%nat → Forall (up_to_date fs) gs.
Proof.
  induction gs as [|[x ph] gs IH]; cbn [held snd]; intros H; constructor; [|apply IH; lia]. by destruct ph.
Qed.

Lemma next_chunk_lock w cs : lock_ok (next_chunk w cs).
Proof. destruct cs; [done|]. by split; [|constructor]. Qed.

Lemma step_lock_ok c c' : lock_ok c → step c c' → lock_ok c'.
Proof.
  intros Hok Hs. destruct Hs as [w x xs gs ge l fs cs Hsz|w xs g1 x f k g2 ge l fs cs|w xs g1 x e g2 ge l fs cs|w xs g1 x e g2 ge fs cs
    |w xs g1 x e g2 ge l fs cs|w xs g1 x e seen g2 ge l fs cs|w xs g1 x e g2 ge l fs cs|w xs g1 x e g2 ge l fs cs|w ge l fs cs];
    cbn [lock_ok active mu failed] in *; [..|unfold after_wait; cbn; destruct ge; [done|apply next_chunk_lock]];
    destruct Hok as [Hh Hu]; rewrite ?held_app, ?Forall_app, ?Forall_cons in *; cbn [held holding snd Nat.b2n] in *.
  - split; [lia|]. split; [done|]. split; [done|constructor].
  - done.
  - split; [destruct e; cbn; lia|]. split; [tauto|]. split; [by destruct e|tauto].
  - split; [lia|]. split; [tauto|]. split; [done|tauto].
  - split; [done|]. split; [tauto|]. split; [done|tauto].
  - assert (held g1 = 0%nat ∧ held g2 = 0%nat) as [H1 H2] by (destruct l; cbn in Hh; lia). split; [lia|].
    split; [by apply unheld_current|]. split; [done|]. by apply unheld_current.
  - split; [destruct l; cbn in *; lia|]. split; [tauto|]. split; [done|tauto].
  - split; [lia|tauto].
Qed.

Lemma run_lock_ok c c' : lock_ok c → rtc step c c' → lock_ok c'.
Proof. intros Hok Hr. induction Hr as [|c1 c2 c3 Hs _ IH]; [done|]. apply IH. by eapply step_lock_ok. Qed.

Lemma holder gs : held gs ≠ 0%nat → ∃ g1 x ph g2, gs = g1 ++ (x, ph) :: g2 ∧ holding ph = true.
Proof.
  induction gs as [|[x ph] gs IH]; cbn [held snd]; [done|]. intros H. destruct (holding ph) eqn:E.
  - by exists [], x, ph, gs.
  - destruct (IH H) as (g1 & y & ph' & g2 & -> & E'). by exists ((x, ph) :: g1), y, ph', g2.
Qed.

(** A run that has not returned can go on: when the mutex is taken, its holder can, and
    otherwise anyone can. *)
Lemma progress p : 1 <= size → lock_ok (Looping p) → ∃ c, step (Looping p) c.
Proof.
  intros Hsz [Hh _]. destruct p as [w xs gs ge l fs cs]. cbn in Hh. destruct l.
  - destruct (holder gs ltac:(by rewrite Hh)) as (g1 & x & ph & g2 & -> & E).
    destruct ph as [p|e|e|e seen|e|e]; try done; eexists; [apply step_read|apply step_write|apply step_unlock].
  - destruct gs as [|[x ph] gs]; [destruct xs as [|x xs]; eexists; [apply step_wait|apply step_go; cbn; lia]|].
    destruct ph as [[e|f k]|e|e|e seen|e|e]; eexists.
    + apply (step_done _ _ []).
    + apply (step_act _ _ []).
    + apply (step_lock _ _ []).
    + apply (step_read _ _ []).
    + apply (step_write _ _ []).
    + apply (step_unlock _ _ []).
    + apply (step_return _ _ []).
Qed.

Lemma runs_on c : 1 <= size → lock_ok c → terminates c → ∃ w r, rtc step c (Returned w r).
Proof.
  intros Hsz Hok Hc. induction Hc as [c _ IH]. destruct c as [p|w r]; [|by exists w, r; constructor].
  destruct (progress p Hsz Hok) as [c Hs]. destruct (IH c Hs) as (w & r & Hr); [by eapply step_lock_ok|].
  exists w, r. by econstructor.
Qed.

(** ** Independent tasks *)

Lemma later_trans p q r : later p q → later q r → later p r.
Proof. induction 1; [done|]. intros. econstructor. eauto. Qed.

Lemma independent_sym p q : independent p q → independent q p.
Proof. intros H f k g h Hf Hg w. destruct (H g h f k Hg Hf w) as (E & Ek & Eh). by rewrite E. Qed.

Lemma independent_later p p' q : later p p' → independent p q → independent p' q.
Proof. intros Hl H f k g h Hf Hg. eapply H; [by eapply later_trans|done]. Qed.

Lemma run_independent p g h w :
  independent p (Act g h) → run p (g w) = (g (run p w).1, (run p w).2) ∧ h (run p w).1 = h w.
Proof.
  revert w. induction p as [e|f k IH]; intros w Hi; [done|]. cbn [run].
  destruct (Hi f k g h (later_refl _) (later_refl _) w) as (E & -> & Eh). rewrite E.
  assert (Hi' : independent (k w) (Act g h)) by (eapply independent_later; [|done]; econstructor; constructor).
  destruct (IH w (f w) Hi') as [-> ->]. by rewrite Eh.
Qed.

Lemma finish_independent gs x g h w :
  Forall (apart (x, Running (Act g h))) gs →
  finish_all gs (g w) = (g (finish_all gs w).1, (finish_all gs w).2) ∧ h (finish_all gs w).1 = h w.
Proof.
  revert w. induction gs as [|[y ph] gs IH]; intros w Hf; [done|]. apply Forall_cons in Hf as [Hy Hf].
  assert (Hb : independent (body (y, ph)) (Act g h)) by (by apply independent_sym).
  cbn [finish_all]. unfold finish. destruct ph as [p|e|e|e seen|e|e]; cbn [fst snd];
    [|destruct (IH w Hf) as [-> Eh']; by destruct (finish_all gs w)..].
  destruct (run_independent p g h w Hb) as [-> Eh]. destruct (run p w) as [w1 e]. cbn [fst snd] in *.
  destruct (IH w1 Hf) as [-> Eh']. destruct (finish_all gs w1). cbn in *. by rewrite Eh'.
Qed.

Lemma finish_all_app gs hs w :
  finish_all (gs ++ hs) w =
  let '(w1, fs) := finish_all gs w in let '(w2, fs') := finish_all hs w1 in (w2, fs ++ fs').
Proof.
  revert w. induction gs as [|g gs IH]; intros w; [cbn; by destruct (finish_all hs w)|].
  cbn [finish_all app]. destruct (finish g w) as [w1 f1]. rewrite IH.
  destruct (finish_all gs w1) as [w2 f2], (finish_all hs w2) as [w3 f3]. by rewrite (assoc_L (++)).
Qed.

Lemma pairwise_mid g1 g g2 : pairwise (g1 ++ g :: g2) ↔ Forall (apart g) (g1 ++ g2) ∧ pairwise (g1 ++ g2).
Proof.
  assert (Hs : ∀ a b, apart a b ↔ apart b a) by (intros a b; split; apply independent_sym).
  induction g1 as [|h g1 IH]; cbn; [done|]. rewrite IH, !Forall_app, !Forall_cons, !Forall_app, (Hs h g). tauto.
Qed.

(** The names a goroutine may yet record a failure under. *)
Definition live_name (g : goroutine) : option string :=
  match g.2 with Unlocking _ | Returning _ => None | _ => Some (name g.1) end.

Lemma finish_names gs w : sublist (f_name <$> (finish_all gs w).2) (omap live_name gs).
Proof.
  revert w. induction gs as [|[x ph] gs IH]; intros w; [done|]. cbn [finish_all]. unfold finish.
  destruct ph as [p|e|e|e seen|e|e]; cbn [fst snd omap list_omap live_name];
    [|specialize (IH w); destruct (finish_all gs w); cbn in *; by try constructor..].
  destruct (run p w) as [w1 e]. specialize (IH w1). destruct (finish_all gs w1) as [w2 fs].
  cbn in *. destruct e; cbn; by constructor.
Qed.

(** ** What a pool will return *)

Definition pending (p : pool) : list goroutine := p.(active) ++ (fresh <$> p.(todo)).

Definition close (w : W) (fs : list batchFailure) (cs : list (list A)) : W * option goerror :=
  if bool_decide (fs = []) then run_chunks cs w else (w, Some (joinFailures fs)).

Definition outcome (c : conf) : W * option goerror :=
  match c with
  | Returned w r => (w, r)
  | Looping p => let '(w, fs) := finish_all (pending p) p.(world) in close w (p.(failed) ++ fs) p.(rest)
  end.

Definition good_chunk (c : list A) : Prop := NoDup (name <$> c) ∧ pairwise (fresh <$> c).

(** A goroutine whose failure has been written down and not been returned. *)
Definition recorded (ph : phase) : Prop := ∃ e, ph = Unlocking e ∨ ph = Returning (Some e).

(** What holds of a pool whose tasks do not interfere. *)
Record pool_ok (p : pool) : Prop := {
  ok_names : NoDup ((f_name <$> p.(failed)) ++ omap live_name (pending p));
  ok_apart : pairwise (pending p);
  ok_error : p.(failed) ≠ [] ↔ p.(group_err) ≠ None ∨ Exists (fun g => recorded g.2) p.(active);
  ok_rest : Forall good_chunk p.(rest)
}.

Definition conf_ok (c : conf) : Prop := match c with Looping p => pool_ok p | Returned _ _ => True end.

Lemma close_perm w fs fs' cs : NoDup (f_name <$> fs) → fs ≡ₚ fs' → close w fs cs = close w fs' cs.
Proof.
  intros Hnd Hp. unfold close. rewrite (joinFailures_perm fs fs') by done.
  assert (Hb : bool_decide (fs = []) = bool_decide (fs' = [])); [|by rewrite Hb].
  apply bool_decide_ext. split; intros ->; [by apply Permutation_nil_l in Hp|by apply Permutation_nil_r in Hp].
Qed.

Lemma omap_fresh (xs : list A) : omap live_name (fresh <$> xs) = name <$> xs.
Proof. induction xs as [|x xs IH]; [done|]. cbn. by rewrite IH. Qed.

Lemma next_chunk_ok w cs :
  Forall good_chunk cs → conf_ok (next_chunk w cs) ∧ outcome (next_chunk w cs) = run_chunks cs w.
Proof.
  intros Hcs. destruct cs as [|c cs]; [done|]. apply Forall_cons in Hcs as [[Hnd Hp] Hcs]. split.
  - constructor; cbn; [by rewrite omap_fresh|done| |done].
    split; [done|]. intros [?|He]; [done|by apply Exists_nil in He].
  - cbn. by destruct (finish_all (fresh <$> c) w).
Qed.

(** One step of the interleaving keeps what the pool will return. *)

Lemma act_outcome w xs g1 x f k g2 ge l fs cs :
  pool_ok (mkPool w xs (g1 ++ (x, Running (Act f k)) :: g2) ge l fs cs) →
  pool_ok (mkPool (f w) xs (g1 ++ (x, Running (k w)) :: g2) ge l fs cs) ∧
  outcome (Looping (mkPool (f w) xs (g1 ++ (x, Running (k w)) :: g2) ge l fs cs)) =
  outcome (Looping (mkPool w xs (g1 ++ (x, Running (Act f k)) :: g2) ge l fs cs)).
Proof.
  intros [Hnd Hap Her Hrest]; cbn in *. unfold pending in *. cbn in *. rewrite <- !(assoc_L (++)) in *. cbn in *.
  pose proof Hap as [Hx Hg]%pairwise_mid. split.
  - constructor; cbn; unfold pending; cbn; rewrite <- ?(assoc_L (++)); cbn.
    + rewrite omap_app in *. done.
    + apply pairwise_mid. split; [|done]. eapply Forall_impl; [done|]. intros h Hh.
      eapply independent_later; [|exact Hh]. cbn. econstructor. constructor.
    + rewrite Her. rewrite !Exists_app, !Exists_cons. unfold recorded. cbn. naive_solver.
    + done.
  - rewrite !finish_all_app. apply Forall_app in Hx as [Hx _].
    destruct (finish_independent g1 x f k w Hx) as [-> Ek]. destruct (finish_all g1 w) as [w1 f1]. cbn in *.
    unfold finish. cbn. by rewrite Ek.
Qed.

(** A step of one goroutine after which it has the same still to do. *)
Lemma same_outcome w xs g1 x ph ph' g2 ge l l' fs cs :
  (∀ w, finish (x, ph') w = finish (x, ph) w) → (live_name (x, ph') = None ∨ live_name (x, ph') = live_name (x, ph)) →
  (∀ q, independent (body (x, ph)) q → independent (body (x, ph')) q) → (recorded ph' ↔ recorded ph) →
  pool_ok (mkPool w xs (g1 ++ (x, ph) :: g2) ge l fs cs) →
  pool_ok (mkPool w xs (g1 ++ (x, ph') :: g2) ge l' fs cs) ∧
  outcome (Looping (mkPool w xs (g1 ++ (x, ph') :: g2) ge l' fs cs)) =
  outcome (Looping (mkPool w xs (g1 ++ (x, ph) :: g2) ge l fs cs)).
Proof.
  intros Hf Hl Hb Hrec [Hnd Hap Her Hrest]; cbn in *. unfold pending in *. cbn in *. rewrite <- !(assoc_L (++)) in *. cbn in *.
  split.
  - constructor; cbn; unfold pending; cbn; rewrite <- ?(assoc_L (++)); cbn.
    + rewrite omap_app in *. cbn in *. destruct Hl as [->| ->]; [|done].
      eapply sublist_NoDup; [exact Hnd|]. apply sublist_app; [done|]. apply sublist_app; [done|].
      destruct (live_name (x, ph)); [by constructor|done].
    + apply pairwise_mid in Hap as [Hx Hg]. apply pairwise_mid. split; [|done].
      eapply Forall_impl; [done|]. intros h. apply Hb.
    + rewrite Her, !Exists_app, !Exists_cons. cbn. by rewrite Hrec.
    + done.
  - rewrite !finish_all_app. destruct (finish_all g1 w) as [w1 f1]. cbn [finish_all]. by rewrite Hf.
Qed.

Lemma done_independent (q : proc) : independent (Done None) q.
Proof. intros f k g h Hf. inversion Hf. Qed.

Lemma write_outcome w xs g1 x e g2 ge l fs cs :
  pool_ok (mkPool w xs (g1 ++ (x, Writing e fs) :: g2) ge l fs cs) →
  pool_ok (mkPool w xs (g1 ++ (x, Unlocking e) :: g2) ge l (record x (Some e) fs) cs) ∧
  outcome (Looping (mkPool w xs (g1 ++ (x, Unlocking e) :: g2) ge l (record x (Some e) fs) cs)) =
  outcome (Looping (mkPool w xs (g1 ++ (x, Writing e fs) :: g2) ge l fs cs)).
Proof.
  intros [Hnd Hap Her Hrest]; cbn in *. unfold pending in *. cbn in *. rewrite <- !(assoc_L (++)) in *. cbn in *.
  split.
  - constructor; cbn; unfold pending; cbn; rewrite <- ?(assoc_L (++)); cbn.
    + rewrite omap_app in *. cbn in *. rewrite <- Permutation_middle in Hnd.
      rewrite fmap_app, <- (assoc_L (++)). done.
    + apply pairwise_mid. by apply pairwise_mid in Hap.
    + rewrite !Exists_app, !Exists_cons in *. cbn in *.
      split; [intros _; right; right; left; exists e; by left|]. intros _. by destruct fs.
    + done.
  - rewrite !finish_all_app. destruct (finish_all g1 w) as [w1 f1] eqn:E1. cbn [finish_all]. unfold finish; cbn [fst snd].
    destruct (finish_all (g2 ++ (fresh <$> xs)) w1) as [w2 f2] eqn:E2. symmetry. apply close_perm.
    + eapply sublist_NoDup; [exact Hnd|]. rewrite fmap_app. apply sublist_app; [done|].
      pose proof (finish_names (g1 ++ (x, Writing e fs) :: g2 ++ (fresh <$> xs)) w) as Hs.
      rewrite finish_all_app, E1 in Hs. cbn in Hs. unfold finish in Hs. cbn in Hs. by rewrite E2 in Hs.
    + cbn. rewrite <- (assoc_L (++)). cbn. by rewrite <- Permutation_middle.
Qed.

Lemma return_outcome w xs g1 x e g2 ge l fs cs :
  pool_ok (mkPool w xs (g1 ++ (x, Returning e) :: g2) ge l fs cs) →
  pool_ok (mkPool w xs (g1 ++ g2) (first_error ge e) l fs cs) ∧
  outcome (Looping (mkPool w xs (g1 ++ g2) (first_error ge e) l fs cs)) =
  outcome (Looping (mkPool w xs (g1 ++ (x, Returning e) :: g2) ge l fs cs)).
Proof.
  intros [Hnd Hap Her Hrest]; cbn in *. unfold pending in *. cbn in *. rewrite <- !(assoc_L (++)) in *. cbn in *.
  split.
  - constructor; cbn; unfold pending; cbn; rewrite <- ?(assoc_L (++)); cbn.
    + rewrite omap_app in *. done.
    + by apply pairwise_mid in Hap as [_ Hap].
    + rewrite Her, !Exists_app, !Exists_cons. unfold recorded. cbn. destruct ge as [e'|], e as [e|]; cbn; naive_solver.
    + done.
  - rewrite !finish_all_app. destruct (finish_all g1 w) as [w1 f1]. cbn [finish_all]. unfold finish; cbn [fst snd].
    by destruct (finish_all (g2 ++ (fresh <$> xs)) w1).
Qed.

Lemma step_outcome c c' : lock_ok c → conf_ok c → step c c' → conf_ok c' ∧ outcome c' = outcome c.
Proof.
  intros Hlock Hok Hs. destruct Hs as [w x xs gs ge l fs cs Hsz|w xs g1 x f k g2 ge l fs cs|w xs g1 x e g2 ge l fs cs|w xs g1 x e g2 ge fs cs
    |w xs g1 x e g2 ge l fs cs|w xs g1 x e seen g2 ge l fs cs|w xs g1 x e g2 ge l fs cs|w xs g1 x e g2 ge l fs cs|w ge l fs cs].
  - assert (Hp : pending (mkPool w xs (gs ++ [fresh x]) ge l fs cs) = pending (mkPool w (x :: xs) gs ge l fs cs))
      by (unfold pending; cbn; by rewrite <- (assoc_L (++))).
    destruct Hok as [Hnd Hap Her Hrest]. cbn [conf_ok outcome]. fold (fresh x). split.
    + constructor; rewrite ?Hp; try done. cbn in *. rewrite Exists_app, Exists_cons, Exists_nil. unfold recorded at 2. cbn. naive_solver.
    + cbn [world failed rest]. by rewrite Hp.
  - by apply act_outcome.
  - destruct e as [e|]; (apply same_outcome; [by intros ?|by auto|intros q _; apply done_independent| |done]); unfold recorded; naive_solver.
  - apply same_outcome; [by intros ?|by auto|done| |done]. unfold recorded. naive_solver.
  - apply same_outcome; [by intros ?|by auto|done| |done]. unfold recorded. naive_solver.
  - destruct Hlock as [_ Hu]. cbn in Hu. apply Forall_app in Hu as [_ Hu]. apply Forall_cons in Hu as [Hu _]. cbn in Hu. subst seen.
    by apply write_outcome.
  - apply same_outcome; [by intros ?|by auto|done| |done]. unfold recorded. naive_solver.
  - by apply return_outcome.
  - destruct Hok as [Hnd Hap Her Hrest]. cbn in *. unfold after_wait. cbn. rewrite Exists_nil in Her.
    destruct ge as [e|]; cbn.
    + split; [done|]. rewrite app_nil_r. unfold close. rewrite bool_decide_false; [done|]. naive_solver.
    + assert (fs = []) as -> by (destruct fs; [done|naive_solver]). by apply next_chunk_ok.
Qed.

Lemma run_outcome c c' : lock_ok c → conf_ok c → rtc step c c' → conf_ok c' ∧ outcome c' = outcome c.
Proof.
  intros Hlock Hok Hr. induction Hr as [|c1 c2 c3 Hs _ IH]; [done|].
  destruct (step_outcome _ _ Hlock Hok Hs) as [Hok' <-]. apply IH; [by eapply step_lock_ok|done].
Qed.

Lemma pairwise_fresh (xs : list A) :
  NoDup xs → (∀ x y, x ∈ xs → y ∈ xs → x ≠ y → independent (task x) (task y)) → pairwise (fresh <$> xs).
Proof.
  induction 1 as [|x xs Hx Hnd IH]; intros Hi; cbn; [done|]. split.
  - apply Forall_fmap, Forall_forall. intros y Hy. apply Hi; [by left|by right|by intros ->].
  - apply IH. intros y z Hy Hz. apply Hi; by right.
Qed.

Lemma chunk_tasks_good cs :
  NoDup (name <$> concat cs) →
  (∀ x y, x ∈ concat cs → y ∈ concat cs → x ≠ y → independent (task x) (task y)) →
  Forall good_chunk cs.
Proof.
  induction cs as [|c cs IH]; intros Hnd Hi; constructor.
  - cbn in Hnd. rewrite fmap_app in Hnd. apply NoDup_app in Hnd as (Hnd & _ & _). split; [done|].
    apply pairwise_fresh; [by apply NoDup_fmap_1 in Hnd|]. intros x y Hx Hy. apply Hi; cbn; apply elem_of_app; by left.
  - cbn in Hnd. rewrite fmap_app in Hnd. apply NoDup_app in Hnd as (_ & _ & Hnd). apply IH; [done|].
    intros x y Hx Hy. apply Hi; cbn; apply elem_of_app; by right.
Qed.


(** C7: the pool refines the sequential loop: when tasks under different
    names do not interfere, every execution returns the world and the error of
    running the tasks one after another, whatever the interleaving of their
    actions and the order in which they fail, and that result is reached. *)
Theorem runs_refine_sequence w items w' r :
  1 <= size →
  NoDup (name <$> items) →
  (∀ x y, x ∈ items → y ∈ items → x ≠ y → independent (task x) (task y)) →
  rtc step (start w items) (Returned w' r) ↔ run_sequence w items = (w', r).
Proof.
  intros Hsz Hnd Hi.
  assert (Hgood : Forall good_chunk (chunk items size)) by (apply chunk_tasks_good; by rewrite chunk_concat).
  destruct (next_chunk_ok w _ Hgood) as [Hok Ho].
  assert (Hout : ∀ w' r, rtc step (start w items) (Returned w' r) → run_sequence w items = (w', r)).
  { intros w1 r1 Hr. destruct (run_outcome _ _ (next_chunk_lock _ _) Hok Hr) as [_ E]. unfold run_sequence. by rewrite <- Ho. }
  split; [apply Hout|]. intros E.
  destruct (runs_on (start w items) Hsz (next_chunk_lock _ _) (next_chunk_terminates _ _)) as (w1 & r1 & Hr).
  specialize (Hout w1 r1 Hr) as E1. rewrite E in E1. by injection E1 as <- <-.
Qed.

(** The limit of the group is never what [Go] waits for: a chunk has no more
    items than the group has room. *)
Definition fits (c : conf) : Prop :=
  match c with
  | Looping p => Z.of_nat (length p.(active) + length p.(todo)) <= size ∧ Forall (fun c => Z.of_nat (length c) <= size) p.(rest)
  | Returned _ _ => True
  end.

Lemma step_fits c c' : fits c → step c c' → fits c'.
Proof.
  intros Hf Hs. destruct Hs; cbn in *; rewrite ?length_app in *; cbn in *; try (split; [lia|tauto]).
  destruct Hf as [_ Hf]. unfold after_wait. cbn. destruct ge; [done|]. destruct cs as [|c cs]; [done|].
  by apply Forall_cons in Hf.
Qed.

Theorem Go_never_waits w items p x xs :
  1 <= size → rtc step (start w items) (Looping p) → p.(todo) = x :: xs → Z.of_nat (length p.(active)) < size.
Proof.
  intros Hsz Hr Ht. assert (Hf : fits (Looping p)); [|cbn in Hf; rewrite Ht in Hf; cbn in Hf; lia].
  clear Ht.
  assert (H0 : fits (start w items)).
  { pose proof (chunk_bound items size Hsz) as Hb. unfold start. destruct (chunk items size) as [|c cs]; [done|].
    apply Forall_cons in Hb as [[_ Hc] Hb]. cbn. split; [lia|]. eapply Forall_impl; [exact Hb|]. by intros ? [_ ?]. }
  revert Hr H0. generalize (start w items) as c0. intros c0 Hr. remember (Looping p) as c eqn:Ec. revert Ec.
  induction Hr as [c|c1 c2 c3 Hs _ IH]; [by intros ->|]. intros Ec H0. apply IH; [done|]. by eapply step_fits.
Qed.
End pool.

(** ** A batch of counters *)

Module Example.
(** Each task increments the counter of its name; the one called b fails. *)
Definition task (x : string) : proc (W := gmap string Z) :=
  Act (fun w => <[x := 1 + default 0 (w !! x)]> w)
      (fun _ => Done (if String.eqb x "b" then Some (EPlain "b failed") else None)).

Definition batch : list string := ["c"; "b"; "a"; "d"].

Lemma tasks_independent x y : x ≠ y → independent (task x) (task y).
Proof.
  intros Hxy f k g h Hf Hg w. unfold task in *.
  inversion Hf as [|? ? ? ? Hl]; subst; [|inversion Hl]. inversion Hg as [|? ? ? ? Hl]; subst; [|inversion Hl].
  split; [|done]. rewrite !lookup_insert_ne by done. by rewrite insert_insert_ne.
Qed.
End Example.


Lemma runs_refine_sequence_witness :
  let w := {["a" := 1; "b" := 1; "c" := 1]} in
  NoDup (id <$> Example.batch) ∧
  rtc (step id Example.task 3) (start 3 ∅ Example.batch) (Returned w (Some (EJoin [EPlain "b failed"]))).
Proof.
  assert (Hnd : NoDup (id <$> Example.batch)) by (apply (bool_decide_unpack _); vm_compute; exact I).
  split; [exact Hnd|].
  apply (runs_refine_sequence id Example.task 3 ∅ Example.batch).
  - lia.
  - exact Hnd.
  - intros x y _ _. apply Example.tasks_independent.
  - vm_compute. reflexivity.
Defined.
