(* ===== verification/Shlex.v ===== *)
(** * Shell words (backend/docker/shlex.go, backend/kubernetes/shlex.go)

    The POSIX word splitter the two backends share line for line, the quoting
    of the Kubernetes one, and the round trip between them. *)

From S2P Require Export GoString Messages.
Local Open Scope string_scope.
Local Open Scope list_scope.
Local Open Scope Z_scope.
Local Open Scope kat_scope.

(** ** Splitting *)

Definition shlexWhitespace : string := " " +:+ str1 (az 9) +:+ str1 (az 13) +:+ str1 (az 10).
Definition shlexQuotes : string := String (az 39) (String (az 34) "").
Definition shlexEscape : Z := 92.
Definition shlexEscapedQuotes : string := str1 (az 34).

(** The loop of [ShlexSplit] over the remaining runes; inside of a quoted run
    (its inner loop) [quote] is the quote that closes it. *)
Fixpoint shlex_loop (quote : option Z) (rs : list Z) (tokens : list string) (current : string) (started : bool)
    : result goerror (list string) :=
  match rs with
  | [] =>
      match quote with
      | Some _ => Err (NewValue "No closing quotation")
      | None => Ok (if started then tokens ++ [current] else tokens)
      end
  | r :: rs =>
      match quote with
      | None =>
          if ContainsRune shlexWhitespace r then
            if started then shlex_loop None rs (tokens ++ [current]) "" false
            else shlex_loop None rs tokens current started
          else if r =? shlexEscape then
            match rs with
            | [] => Err (NewValue "No escaped character")
            | c :: rs => shlex_loop None rs tokens (current +:+ encode_rune c) true
            end
          else if ContainsRune shlexQuotes r then shlex_loop (Some r) rs tokens current true
          else shlex_loop None rs tokens (current +:+ encode_rune r) true
      | Some q =>
          if r =? q then shlex_loop None rs tokens current started
          else if (r =? shlexEscape) && ContainsRune shlexEscapedQuotes q then
            match rs with
            | [] => Err (NewValue "No escaped character")
            | next :: rs' =>
                if (next =? q) || (next =? shlexEscape)
                then shlex_loop (Some q) rs' tokens (current +:+ encode_rune next) started
                else shlex_loop (Some q) rs tokens (current +:+ encode_rune r) started
            end
          else shlex_loop (Some q) rs tokens (current +:+ encode_rune r) started
      end
  end.

Definition ShlexSplit (s : string) : result goerror (list string) := shlex_loop None (runes s) [] "" false.

Definition dq : string := str1 (az 34).

Example split_1 : ShlexSplit ("a 'b c'  \d" +:+ dq +:+ "e\" +:+ dq +:+ "f\g" +:+ dq +:+ " ''")
  = Ok ["a"; "b c"; "de" +:+ dq +:+ "f\g"; ""].
Proof. vm_compute. reflexivity. Qed.
Example split_2 : ShlexSplit "ls 'x" = Err (NewValue "No closing quotation").
Proof. vm_compute. reflexivity. Qed.
Example split_3 : ShlexSplit "ls \" = Err (NewValue "No escaped character").
Proof. vm_compute. reflexivity. Qed.
Example split_4 : ShlexSplit "'a\'" = Ok ["a\"].
Proof. vm_compute. reflexivity. Qed.

(** ** Quoting *)

Definition shlexUnsafe (r : Z) : bool :=
  if ((0x61 <=? r) && (r <=? 0x7a)) || ((0x41 <=? r) && (r <=? 0x5a)) || ((0x30 <=? r) && (r <=? 0x39))
  then false
  else negb (ContainsRune "_@%+=:,./-" r).

(** A single quote, inside of single quotes. *)
Definition quoted_quote : string := "'" +:+ dq +:+ "'" +:+ dq +:+ "'".

Definition shlexQuote (s : string) : string :=
  if String.eqb s "" then "''"
  else if negb (ContainsFunc s shlexUnsafe) then s
  else "'" +:+ ReplaceAll s "'" quoted_quote +:+ "'".

Definition ShlexJoin (argv : list string) : string := str_join " " (shlexQuote <$> argv).

Example join_1 : ShlexJoin ["ip"; "a b"; ""; "it's"] = "ip 'a b' '' 'it'" +:+ dq +:+ "'" +:+ dq +:+ "'s'".
Proof. vm_compute. reflexivity. Qed.

(** ** The round trip *)

(** Splitting rune by rune. *)
Lemma runes_app_ok rs s :
  Forall (fun r => valid_rune r = true) rs → runes (string_of_runes rs +:+ s) = rs ++ runes s.
Proof.
  intros H. unfold runes. rewrite decode_string_of_runes, fmap_app, <- list_fmap_compose by done.
  f_equal. apply list_fmap_id.
Qed.

Lemma valid_utf8_runes s : utf8_valid s = true → string_of_runes (runes s) = s.
Proof. intros H%utf8_valid_good. unfold runes. rewrite <- chunks_good by done. apply chunks_decode. Qed.

Definition safe_rune (r : Z) : Prop := shlexUnsafe r = false.

(** A rune that needs no quotes is no separator, escape or quote. *)
Lemma safe_rune_plain r :
  safe_rune r → ContainsRune shlexWhitespace r = false ∧ (r =? shlexEscape) = false ∧ ContainsRune shlexQuotes r = false.
Proof.
  unfold safe_rune, shlexUnsafe, ContainsRune, shlexEscape.
  change (runes shlexWhitespace) with [32; 9; 13; 10]. change (runes shlexQuotes) with [39; 34].
  change (runes "_@%+=:,./-") with [95; 64; 37; 43; 61; 58; 44; 46; 47; 45]. cbn [existsb].
  destruct (((97 <=? r) && (r <=? 122) || (65 <=? r) && (r <=? 90)) || (48 <=? r) && (r <=? 57)) eqn:E.
  - intros _. rewrite !orb_true_iff, !andb_true_iff, !Z.leb_le in E.
    repeat rewrite (proj2 (Z.eqb_neq r _)) by lia. done.
  - intros H%negb_false_iff. rewrite !orb_true_iff, !Z.eqb_eq in H.
    repeat rewrite (proj2 (Z.eqb_neq r _)) by (destruct_or?; lia || done). done.
Qed.

Lemma loop_safe rs rest tokens cur started :
  Forall safe_rune rs → rs ≠ [] ∨ started = true →
  shlex_loop None (rs ++ rest) tokens cur started = shlex_loop None rest tokens (cur +:+ string_of_runes rs) true.
Proof.
  intros H. revert cur started. induction H as [|r rs Hr _ IH]; intros cur started Hst.
  { destruct Hst as [?| ->]; [done|]. by rewrite string_app_nil_r. }
  destruct (safe_rune_plain r Hr) as (H1 & H2 & H3). cbn [app shlex_loop]. rewrite H1, H2, H3, IH by by right.
  by rewrite string_app_assoc.
Qed.

(** What a rune becomes between single quotes. *)
Definition quote_rune (r : Z) : list Z := if r =? 39 then [39; 34; 39; 34; 39] else [r].

Lemma loop_quoted rs rest tokens cur :
  shlex_loop (Some 39) (flat_map quote_rune rs ++ rest) tokens cur true =
  shlex_loop (Some 39) rest tokens (cur +:+ string_of_runes rs) true.
Proof.
  revert cur. induction rs as [|r rs IH]; intros cur; cbn [flat_map]; [by rewrite string_app_nil_r|].
  rewrite <- app_assoc.
  assert (E : shlex_loop (Some 39) (quote_rune r ++ flat_map quote_rune rs ++ rest) tokens cur true =
              shlex_loop (Some 39) (flat_map quote_rune rs ++ rest) tokens (cur +:+ encode_rune r) true).
  { unfold quote_rune. destruct (Z.eqb_spec r 39) as [->|Hr]; [done|]. cbn [app shlex_loop].
    rewrite (proj2 (Z.eqb_neq r 39)) by done. change (ContainsRune shlexEscapedQuotes 39) with false.
    by rewrite andb_false_r. }
  rewrite E, IH. by rewrite string_app_assoc.
Qed.

(** The runes of a quoted word, and what the splitter makes of them. *)
Definition word_runes (rs : list Z) : list Z :=
  if bool_decide (rs = []) then [39; 39]
  else if negb (existsb shlexUnsafe rs) then rs
  else [39] ++ flat_map quote_rune rs ++ [39].

Lemma loop_word rs rest tokens :
  shlex_loop None (word_runes rs ++ rest) tokens "" false = shlex_loop None rest tokens (string_of_runes rs) true.
Proof.
  unfold word_runes. case_bool_decide as Hn; [by subst|]. destruct (existsb shlexUnsafe rs) eqn:E; cbn [negb].
  - rewrite <- !app_assoc. cbn [app]. change (shlex_loop None (39 :: ?l) tokens "" false) with (shlex_loop (Some 39) l tokens "" true).
    by rewrite loop_quoted.
  - apply loop_safe; [|by left]. apply Forall_forall. intros r Hr. unfold safe_rune.
    destruct (shlexUnsafe r) eqn:Er; [|done]. exfalso.
    assert (existsb shlexUnsafe rs = true) by (apply existsb_exists; exists r; by rewrite <- list_elem_of_In).
    congruence.
Qed.

(** [ReplaceAll] of a one-byte ASCII pattern, rune by rune. *)
Lemma replace_byte_app a new s t :
  ReplaceAll (s +:+ t) (str1 a) new = ReplaceAll s (str1 a) new +:+ ReplaceAll t (str1 a) new.
Proof.
  unfold ReplaceAll, str1. induction s as [|b s IH]; [done|]. cbn [String.append replace_from String.prefix].
  destruct (ascii_dec a b); cbn [String.length Nat.pred].
  - destruct s, t; cbn in *; by rewrite ?IH, ?string_app_assoc.
  - by rewrite IH.
Qed.

Lemma replace_byte_free a new s : contains_byte a s = false → ReplaceAll s (str1 a) new = s.
Proof.
  unfold ReplaceAll, str1. induction s as [|b s IH]; [done|]. cbn [contains_byte replace_from String.prefix].
  intros [Hb Hs]%orb_false_iff. destruct (ascii_dec a b) as [->|]; [by rewrite Ascii.eqb_refl in Hb|]. by rewrite IH.
Qed.

Notation valid_runes := (Forall (fun r => valid_rune r = true)).

Lemma replace_quote_runes rs :
  valid_runes rs → ReplaceAll (string_of_runes rs) "'" quoted_quote = string_of_runes (flat_map quote_rune rs).
Proof.
  induction 1 as [|r rs Hr _ IH]; [done|]. cbn [flat_map]. rewrite string_of_runes_app.
  change (string_of_runes (r :: rs)) with (encode_rune r +:+ string_of_runes rs).
  change "'" with (str1 (az 39)) in IH |- *. rewrite replace_byte_app, IH. f_equal.
  unfold quote_rune. destruct (Z.eqb_spec r 39) as [->|Hn]; [done|].
  rewrite replace_byte_free; [by unfold string_of_runes; cbn; rewrite string_app_nil_r|].
  apply not_true_is_false. intros Hc. by apply Hn, (encode_rune_byte (az 39)).
Qed.

Lemma string_of_runes_nil rs : valid_runes rs → string_of_runes rs = ""%string → rs = [].
Proof. intros Hv E. rewrite <- (runes_string_of_runes rs Hv), E. done. Qed.

Lemma shlexQuote_runes rs : valid_runes rs → shlexQuote (string_of_runes rs) = string_of_runes (word_runes rs).
Proof.
  intros Hv. unfold shlexQuote, word_runes. destruct (String.eqb_spec (string_of_runes rs) "") as [E|E].
  { by rewrite (string_of_runes_nil rs Hv E). }
  rewrite bool_decide_eq_false_2 by (intros ->; done). unfold ContainsFunc. rewrite runes_string_of_runes by done.
  destruct (existsb shlexUnsafe rs); cbn [negb]; [|done].
  by rewrite replace_quote_runes, !string_of_runes_app.
Qed.

Lemma word_runes_valid rs : valid_runes rs → valid_runes (word_runes rs).
Proof.
  intros Hv. unfold word_runes. case_bool_decide; [by repeat constructor|]. destruct (negb _); [done|].
  apply Forall_app. split; [by repeat constructor|]. apply Forall_app. split; [|by repeat constructor].
  clear H. induction Hv as [|r rs Hr _ IH]; [done|]. cbn. apply Forall_app. split; [|done].
  unfold quote_rune. case_match; [by repeat constructor|]. by apply Forall_singleton.
Qed.

(** The joined line, rune by rune. *)
Fixpoint line_runes (ws : list (list Z)) : list Z :=
  match ws with
  | [] => []
  | [w] => word_runes w
  | w :: ws => word_runes w ++ [32] ++ line_runes ws
  end.

Lemma ShlexJoin_runes ws :
  Forall valid_runes ws → ShlexJoin (string_of_runes <$> ws) = string_of_runes (line_runes ws).
Proof.
  unfold ShlexJoin. induction 1 as [|w ws Hw Hws IH]; [done|]. destruct ws as [|w2 ws].
  - by apply shlexQuote_runes.
  - cbn [fmap list_fmap str_join line_runes] in *. rewrite string_of_runes_app, shlexQuote_runes by done.
    rewrite IH. by rewrite string_of_runes_app.
Qed.

Lemma line_runes_valid ws : Forall valid_runes ws → valid_runes (line_runes ws).
Proof.
  induction 1 as [|w ws Hw Hws IH]; [done|]. destruct ws as [|w2 ws]; [by apply word_runes_valid|].
  apply Forall_app. split; [by apply word_runes_valid|]. apply Forall_app. split; [by repeat constructor|done].
Qed.

Lemma loop_line ws tokens :
  shlex_loop None (line_runes ws) tokens "" false = Ok (tokens ++ (string_of_runes <$> ws)).
Proof.
  revert tokens. induction ws as [|w ws IH]; intros tokens; [by rewrite app_nil_r|]. destruct ws as [|w2 ws].
  - cbn [line_runes]. rewrite <- (app_nil_r (word_runes w)). by rewrite loop_word.
  - cbn [line_runes] in IH |- *. rewrite loop_word. cbn [app shlex_loop].
    change (ContainsRune shlexWhitespace 32) with true. cbv iota. rewrite IH. by rewrite <- app_assoc.
Qed.

(** Splitting a joined command gives back its words, empty
    words, spaces, quotes and backslashes included, as long as the words are
    valid UTF-8. *)
Theorem ShlexSplit_Join argv :
  Forall (fun w => utf8_valid w = true) argv → ShlexSplit (ShlexJoin argv) = Ok argv.
Proof.
  intros Hv. assert (E : argv = string_of_runes <$> (runes <$> argv)).
  { rewrite <- list_fmap_compose. induction Hv as [|w ws Hw _ IH]; [done|]. cbn. by rewrite valid_utf8_runes, <- IH. }
  assert (Hr : Forall valid_runes (runes <$> argv)) by (apply Forall_fmap, Forall_true; intros w; apply runes_valid).
  rewrite E, ShlexJoin_runes by done. unfold ShlexSplit.
  rewrite runes_string_of_runes by by apply line_runes_valid. apply loop_line.
Qed.

(** Outside of valid UTF-8 it does not: the splitter reads runes, and writes
    the replacement character for a byte that is none. *)
Example split_invalid : ShlexSplit (ShlexJoin [str1 (az 255)]) = Ok [encode_rune RuneError].
Proof. vm_compute. reflexivity. Qed.

Lemma ShlexSplit_Join_witness : ShlexSplit (ShlexJoin ["echo"; "it's"; ""; "a\ b"]) = Ok ["echo"; "it's"; ""; "a\ b"].
Proof. apply ShlexSplit_Join. repeat constructor. Defined.
