(* ===== verification/Json.v ===== *)
(** * Package [encoding/json]

    The decoder as the settings file uses it: the grammar of RFC 8259 with the
    package's nesting limit, strings decoded with the replacement character
    for what is not Unicode, and the typed reads of a scalar.  [value] is given
    one more than the bytes of the document as fuel; every call has consumed
    one before it recurses. *)

From S2P Require Export Strconv.
From Stdlib Require Import SpecFloat.
Local Open Scope string_scope.
Local Open Scope list_scope.
Local Open Scope Z_scope.
Local Open Scope kat_scope.

Inductive json : Type :=
| JNull
| JBool (b : bool)
| JNum (literal : string)
| JStr (s : string)
| JArr (l : list json)
| JObj (l : list (string * json)).

Definition quote_char : ascii := az 34.
Definition backslash : ascii := az 92.

(** ** Lexing *)

Definition json_space (b : ascii) : bool :=
  (zb b =? 0x20) || (zb b =? 0x09) || (zb b =? 0x0d) || (zb b =? 0x0a).

Fixpoint skip_ws (s : string) : string :=
  match s with
  | String b r => if json_space b then skip_ws r else s
  | EmptyString => ""
  end.

Definition hex_value (b : ascii) : option Z :=
  let z := zb b in
  if (48 <=? z) && (z <=? 57) then Some (z - 48)
  else if (97 <=? z) && (z <=? 102) then Some (z - 87)
  else if (65 <=? z) && (z <=? 70) then Some (z - 55)
  else None.

(** Four hexadecimal digits, and what follows. *)
Definition hex4 (s : string) : option (Z * string) :=
  match s with
  | String a (String b (String c (String d r))) =>
      match hex_value a, hex_value b, hex_value c, hex_value d with
      | Some a, Some b, Some c, Some d => Some (((a * 16 + b) * 16 + c) * 16 + d, r)
      | _, _, _, _ => None
      end
  | _ => None
  end.

(** [getu4]: with its prefix. *)
Definition getu4 (s : string) : option (Z * string) :=
  match s with
  | String a (String b r) => if Ascii.eqb a backslash && Ascii.eqb b "u" then hex4 r else None
  | _ => None
  end.

Definition is_surrogate (r : Z) : bool := (0xd800 <=? r) && (r <? 0xe000).

(** [utf16.DecodeRune]. *)
Definition decode_pair (r1 r2 : Z) : option Z :=
  if (0xd800 <=? r1) && (r1 <? 0xdc00) && (0xdc00 <=? r2) && (r2 <? 0xe000)
  then Some ((r1 - 0xd800) * 1024 + (r2 - 0xdc00) + 0x10000) else None.

Definition simple_escape (c : ascii) : option ascii :=
  if Ascii.eqb c quote_char then Some quote_char
  else if Ascii.eqb c backslash then Some backslash
  else if Ascii.eqb c "/" then Some "/"%char
  else if Ascii.eqb c "b" then Some (az 8)
  else if Ascii.eqb c "f" then Some (az 12)
  else if Ascii.eqb c "n" then Some (az 10)
  else if Ascii.eqb c "r" then Some (az 13)
  else if Ascii.eqb c "t" then Some (az 9)
  else None.

Definition prepend (t : string) (o : option (string * string)) : option (string * string) :=
  match o with Some (s, rest) => Some (t +:+ s, rest) | None => None end.

(** A string after its opening quote: decoded, and what follows the closing
    quote.  Each round takes a byte at least. *)
Fixpoint str_body (fuel : nat) (s : string) : option (string * string) :=
  match fuel, s with
  | S fuel, String b r =>
      if Ascii.eqb b quote_char then Some ("", r)
      else if Ascii.eqb b backslash then
        match r with
        | EmptyString => None
        | String c r2 =>
            match simple_escape c with
            | Some e => prepend (str1 e) (str_body fuel r2)
            | None =>
                match getu4 s with
                | None => None
                | Some (u, r3) =>
                    if is_surrogate u then
                      match getu4 r3 with
                      | Some (u2, r4) =>
                          match decode_pair u u2 with
                          | Some v => prepend (encode_rune v) (str_body fuel r4)
                          | None => prepend (encode_rune RuneError) (str_body fuel r3)
                          end
                      | None => prepend (encode_rune RuneError) (str_body fuel r3)
                      end
                    else prepend (encode_rune u) (str_body fuel r3)
                end
            end
        end
      else if zb b <? 0x20 then None
      else if zb b <? 0x80 then prepend (str1 b) (str_body fuel r)
      else let '(v, n) := DecodeRune s in prepend (encode_rune v) (str_body fuel (string_drop n s))
  | _, _ => None
  end.

Definition read_string (s : string) : option (string * string) := str_body (String.length s) s.

(** *** Numbers *)

Definition digit_byte (b : ascii) : bool := is_digit (zb b).

Fixpoint span_digits (s : string) : string * string :=
  match s with
  | String b r => if digit_byte b then let '(d, t) := span_digits r in (String b d, t) else ("", s)
  | EmptyString => ("", "")
  end.

(** The integer part: no leading zero but zero itself. *)
Definition read_int (s : string) : option (string * string) :=
  match s with
  | String b r =>
      if zb b =? 48 then Some (str1 b, r)
      else if digit_byte b then Some (span_digits s) else None
  | EmptyString => None
  end.

Definition read_frac (s : string) : option (string * string) :=
  match s with
  | String b r =>
      if Ascii.eqb b "." then
        let '(d, t) := span_digits r in if String.eqb d "" then None else Some (String b d, t)
      else Some ("", s)
  | EmptyString => Some ("", "")
  end.

Definition read_exp (s : string) : option (string * string) :=
  match s with
  | String b r =>
      if Ascii.eqb b "e" || Ascii.eqb b "E" then
        let '(sign, r) := match r with
                          | String c r' => if Ascii.eqb c "+" || Ascii.eqb c "-" then (str1 c, r') else ("", r)
                          | EmptyString => ("", "")
                          end in
        let '(d, t) := span_digits r in if String.eqb d "" then None else Some (String b (sign +:+ d), t)
      else Some ("", s)
  | EmptyString => Some ("", "")
  end.

Definition read_number (s : string) : option (string * string) :=
  let '(sign, r) := match s with
                    | String c r' => if Ascii.eqb c "-" then (str1 c, r') else ("", s)
                    | EmptyString => ("", "")
                    end in
  match read_int r with
  | None => None
  | Some (i, r) =>
      match read_frac r with
      | None => None
      | Some (f, r) =>
          match read_exp r with
          | None => None
          | Some (e, r) => Some (sign +:+ i +:+ f +:+ e, r)
          end
      end
  end.

(** ** Values *)

Definition maxNestingDepth : Z := 10000.

Fixpoint value (fuel : nat) (depth : Z) (s : string) : option (json * string) :=
  match fuel with
  | O => None
  | S fuel =>
      match skip_ws s with
      | EmptyString => None
      | String b r =>
          if Ascii.eqb b "{" then
            if maxNestingDepth <? depth + 1 then None
            else match skip_ws r with
                 | String c r' => if Ascii.eqb c "}" then Some (JObj [], r') else members fuel (depth + 1) [] (skip_ws r)
                 | EmptyString => None
                 end
          else if Ascii.eqb b "[" then
            if maxNestingDepth <? depth + 1 then None
            else match skip_ws r with
                 | String c r' => if Ascii.eqb c "]" then Some (JArr [], r') else elements fuel (depth + 1) [] r
                 | EmptyString => None
                 end
          else if Ascii.eqb b quote_char then
            match read_string r with Some (v, r) => Some (JStr v, r) | None => None end
          else if Ascii.eqb b "t" then
            if String.prefix "rue" r then Some (JBool true, string_drop 3 r) else None
          else if Ascii.eqb b "f" then
            if String.prefix "alse" r then Some (JBool false, string_drop 4 r) else None
          else if Ascii.eqb b "n" then
            if String.prefix "ull" r then Some (JNull, string_drop 3 r) else None
          else match read_number (String b r) with Some (n, r) => Some (JNum n, r) | None => None end
      end
  end
with members (fuel : nat) (depth : Z) (acc : list (string * json)) (s : string) : option (json * string) :=
  match fuel with
  | O => None
  | S fuel =>
      match s with
      | EmptyString => None
      | String b r =>
          if negb (Ascii.eqb b quote_char) then None
          else match read_string r with
               | None => None
               | Some (k, r) =>
                   match skip_ws r with
                   | EmptyString => None
                   | String c r =>
                       if negb (Ascii.eqb c ":") then None
                       else match value fuel depth r with
                            | None => None
                            | Some (v, r) =>
                                match skip_ws r with
                                | EmptyString => None
                                | String c r =>
                                    if Ascii.eqb c "," then members fuel depth (acc ++ [(k, v)]) (skip_ws r)
                                    else if Ascii.eqb c "}" then Some (JObj (acc ++ [(k, v)]), r)
                                    else None
                                end
                            end
                   end
               end
      end
  end
with elements (fuel : nat) (depth : Z) (acc : list json) (s : string) : option (json * string) :=
  match fuel with
  | O => None
  | S fuel =>
      match value fuel depth s with
      | None => None
      | Some (v, r) =>
          match skip_ws r with
          | EmptyString => None
          | String c r =>
              if Ascii.eqb c "," then elements fuel depth (acc ++ [v]) r
              else if Ascii.eqb c "]" then Some (JArr (acc ++ [v]), r)
              else None
          end
      end
  end.

(** A document: a value and nothing after it. *)
Definition parse (data : string) : option json :=
  match value (S (String.length data)) 0 data with
  | Some (v, rest) => if String.eqb (skip_ws rest) "" then Some v else None
  | None => None
  end.

(** ** Typed reads

    [json.Unmarshal] into a Go variable; [null] leaves the fresh variable at
    its zero value. *)

(** Into a [map[string]json.RawMessage]: the last of equal keys stays, and
    [null] leaves the map nil. *)
Definition obj_map (l : list (string * json)) : gmap string json :=
  foldl (fun m e => <[e.1 := e.2]> m) ∅ l.

Definition to_map (v : json) : option (option (gmap string json)) :=
  match v with JObj l => Some (Some (obj_map l)) | JNull => Some None | _ => None end.

Definition to_string (v : json) : option string :=
  match v with JStr s => Some s | JNull => Some "" | _ => None end.

Definition to_bool (v : json) : option bool :=
  match v with JBool b => Some b | JNull => Some false | _ => None end.

Definition is_infinite (f : f64) : bool := match f with S754_infinity _ => true | _ => false end.

Definition to_float (v : json) : option f64 :=
  match v with
  | JNum n => match ParseFloat (runes n) with
              | Some f => if is_infinite f then None else Some f
              | None => None
              end
  | JNull => Some (S754_zero false)
  | _ => None
  end.

Definition to_int (v : json) : option Z :=
  match v with
  | JNum n => match Atoi n with Ok z => Some z | Err _ => None end
  | JNull => Some 0
  | _ => None
  end.

Definition quoted (s : string) : string := str1 quote_char +:+ s +:+ str1 quote_char.

Example parse_1 : parse ("{ " +:+ quoted "a" +:+ ": [1, -2.5e3, true]," +:+ quoted "b\u00e9\n" +:+ " :null}")
  = Some (JObj [("a", JArr [JNum "1"; JNum "-2.5e3"; JBool true]); ("bé" +:+ str1 (az 10), JNull)]).
Proof. vm_compute. reflexivity. Qed.
Example parse_2 : parse "[1,]" = None.
Proof. vm_compute. reflexivity. Qed.
Example parse_3 : parse "[01]" = None.
Proof. vm_compute. reflexivity. Qed.
Example parse_4 : parse (quoted "\ud83d\ude00\ud83d") = Some (JStr (encode_rune 0x1f600 +:+ encode_rune RuneError)).
Proof. vm_compute. reflexivity. Qed.
