(* ===== verification/Settings.v ===== *)
(** * The settings file (settings/)

    The schema of kathara.conf, its reading and writing in the serialisation of
    CPython, and the checks of its values.  A key is a lens on the record:
    [get_field] and [set_field] stand for the pointer the schema's closures
    return.  The host (clock, terminal emulators, writing the file) is an
    argument of the checks that use it. *)

From S2P Require Export Json Regex Messages.
From Stdlib Require Import SpecFloat.
Local Open Scope string_scope.
Local Open Scope list_scope.
Local Open Scope Z_scope.
Local Open Scope kat_scope.

(** ** The data *)

Definition NotShared : Z := 1.
Definition SharedBetweenLabs : Z := 2.
Definition SharedBetweenUsers : Z := 3.

Definition ToString (o : Z) : string :=
  if o =? NotShared then "Not Shared"
  else if o =? SharedBetweenLabs then "Share collision domains between network scenarios"
  else if o =? SharedBetweenUsers then "Share collision domains between users"
  else "".

Definition availableDebugLevels : list string := ["CRITICAL"; "ERROR"; "WARNING"; "INFO"; "DEBUG"; "EXCEPTION"].
Definition availableManagers : list string := ["docker"; "kubernetes"].
Definition availableVolumeMountPolicies : list string := ["Always"; "Prompt"; "Never"].
Definition availableImageUpdatePolicies : list string := ["Prompt"; "Always"; "Never"].
Definition availableNetworkPlugins : list string := ["kathara/katharanp"; "kathara/katharanp_vde"].
Definition availableImagePullPolicies : list string := ["Always"; "IfNotPresent"; "Never"].

(** The fields of the record, by the type of their key. *)
Inductive str_field : Type :=
| Image | ManagerType | Terminal | DeviceShell | NetPrefix | DevicePrefix | DebugLevel
| VolumeMountPolicy | ImageUpdatePolicy.
Inductive bool_field : Type :=
| OpenTerminals | PrintStartupLog | EnableIPv6 | HosthomeMount | SharedMount | HostShared.
Inductive opt_field : Type :=
| RemoteURL | CertPath | NetworkPlugin | APIServerURL | APIToken | ImagePullPolicy | DockerConfigJSON.

#[export] Instance str_field_eq_dec : EqDecision str_field.
Proof. solve_decision. Defined.
#[export] Instance bool_field_eq_dec : EqDecision bool_field.
Proof. solve_decision. Defined.
#[export] Instance opt_field_eq_dec : EqDecision opt_field.
Proof. solve_decision. Defined.

Record Settings : Type := mkSettings {
  sImage : string;
  sManagerType : string;
  sTerminal : string;
  sOpenTerminals : bool;
  sDeviceShell : string;
  sNetPrefix : string;
  sDevicePrefix : string;
  sDebugLevel : string;
  sPrintStartupLog : bool;
  sEnableIPv6 : bool;
  sVolumeMountPolicy : string;
  sLastChecked : f64;
  sHosthomeMount : bool;
  sSharedMount : bool;
  sImageUpdatePolicy : string;
  sSharedCds : Z;
  sRemoteURL : option string;
  sCertPath : option string;
  sNetworkPlugin : option string;
  sAPIServerURL : option string;
  sAPIToken : option string;
  sHostShared : bool;
  sImagePullPolicy : option string;
  sDockerConfigJSON : option string;
}.

(** *** Access by field *)

Definition get_str (f : str_field) (s : Settings) :=
  match f with
  | Image => s.(sImage)
  | ManagerType => s.(sManagerType)
  | Terminal => s.(sTerminal)
  | DeviceShell => s.(sDeviceShell)
  | NetPrefix => s.(sNetPrefix)
  | DevicePrefix => s.(sDevicePrefix)
  | DebugLevel => s.(sDebugLevel)
  | VolumeMountPolicy => s.(sVolumeMountPolicy)
  | ImageUpdatePolicy => s.(sImageUpdatePolicy)
  end.
Definition get_bool (f : bool_field) (s : Settings) :=
  match f with
  | OpenTerminals => s.(sOpenTerminals)
  | PrintStartupLog => s.(sPrintStartupLog)
  | EnableIPv6 => s.(sEnableIPv6)
  | HosthomeMount => s.(sHosthomeMount)
  | SharedMount => s.(sSharedMount)
  | HostShared => s.(sHostShared)
  end.
Definition get_opt (f : opt_field) (s : Settings) :=
  match f with
  | RemoteURL => s.(sRemoteURL)
  | CertPath => s.(sCertPath)
  | NetworkPlugin => s.(sNetworkPlugin)
  | APIServerURL => s.(sAPIServerURL)
  | APIToken => s.(sAPIToken)
  | ImagePullPolicy => s.(sImagePullPolicy)
  | DockerConfigJSON => s.(sDockerConfigJSON)
  end.

Definition set_str (f : str_field) (v : string) (s : Settings) : Settings :=
  let v' g old := if bool_decide (f = g) then v else old in
  mkSettings (v' Image s.(sImage)) (v' ManagerType s.(sManagerType)) (v' Terminal s.(sTerminal))
    s.(sOpenTerminals) (v' DeviceShell s.(sDeviceShell)) (v' NetPrefix s.(sNetPrefix))
    (v' DevicePrefix s.(sDevicePrefix)) (v' DebugLevel s.(sDebugLevel)) s.(sPrintStartupLog)
    s.(sEnableIPv6) (v' VolumeMountPolicy s.(sVolumeMountPolicy)) s.(sLastChecked)
    s.(sHosthomeMount) s.(sSharedMount) (v' ImageUpdatePolicy s.(sImageUpdatePolicy))
    s.(sSharedCds) s.(sRemoteURL) s.(sCertPath) s.(sNetworkPlugin) s.(sAPIServerURL) s.(sAPIToken)
    s.(sHostShared) s.(sImagePullPolicy) s.(sDockerConfigJSON).

Definition set_bool (f : bool_field) (v : bool) (s : Settings) : Settings :=
  let v' g old := if bool_decide (f = g) then v else old in
  mkSettings s.(sImage) s.(sManagerType) s.(sTerminal) (v' OpenTerminals s.(sOpenTerminals))
    s.(sDeviceShell) s.(sNetPrefix) s.(sDevicePrefix) s.(sDebugLevel)
    (v' PrintStartupLog s.(sPrintStartupLog)) (v' EnableIPv6 s.(sEnableIPv6))
    s.(sVolumeMountPolicy) s.(sLastChecked) (v' HosthomeMount s.(sHosthomeMount))
    (v' SharedMount s.(sSharedMount)) s.(sImageUpdatePolicy) s.(sSharedCds) s.(sRemoteURL)
    s.(sCertPath) s.(sNetworkPlugin) s.(sAPIServerURL) s.(sAPIToken)
    (v' HostShared s.(sHostShared)) s.(sImagePullPolicy) s.(sDockerConfigJSON).

Definition set_opt (f : opt_field) (v : option string) (s : Settings) : Settings :=
  let v' g old := if bool_decide (f = g) then v else old in
  mkSettings s.(sImage) s.(sManagerType) s.(sTerminal) s.(sOpenTerminals) s.(sDeviceShell) s.(sNetPrefix)
    s.(sDevicePrefix) s.(sDebugLevel) s.(sPrintStartupLog) s.(sEnableIPv6) s.(sVolumeMountPolicy)
    s.(sLastChecked) s.(sHosthomeMount) s.(sSharedMount) s.(sImageUpdatePolicy) s.(sSharedCds)
    (v' RemoteURL s.(sRemoteURL)) (v' CertPath s.(sCertPath))
    (v' NetworkPlugin s.(sNetworkPlugin)) (v' APIServerURL s.(sAPIServerURL))
    (v' APIToken s.(sAPIToken)) s.(sHostShared) (v' ImagePullPolicy s.(sImagePullPolicy))
    (v' DockerConfigJSON s.(sDockerConfigJSON)).

Definition set_checked (v : f64) (s : Settings) : Settings :=
  mkSettings s.(sImage) s.(sManagerType) s.(sTerminal) s.(sOpenTerminals) s.(sDeviceShell) s.(sNetPrefix)
    s.(sDevicePrefix) s.(sDebugLevel) s.(sPrintStartupLog) s.(sEnableIPv6) s.(sVolumeMountPolicy)
    v s.(sHosthomeMount) s.(sSharedMount) s.(sImageUpdatePolicy) s.(sSharedCds) s.(sRemoteURL)
    s.(sCertPath) s.(sNetworkPlugin) s.(sAPIServerURL) s.(sAPIToken) s.(sHostShared)
    s.(sImagePullPolicy) s.(sDockerConfigJSON).
Definition set_cds (v : Z) (s : Settings) : Settings :=
  mkSettings s.(sImage) s.(sManagerType) s.(sTerminal) s.(sOpenTerminals) s.(sDeviceShell) s.(sNetPrefix)
    s.(sDevicePrefix) s.(sDebugLevel) s.(sPrintStartupLog) s.(sEnableIPv6) s.(sVolumeMountPolicy)
    s.(sLastChecked) s.(sHosthomeMount) s.(sSharedMount) s.(sImageUpdatePolicy) v s.(sRemoteURL)
    s.(sCertPath) s.(sNetworkPlugin) s.(sAPIServerURL) s.(sAPIToken) s.(sHostShared)
    s.(sImagePullPolicy) s.(sDockerConfigJSON).

(** [defaultSettings] on Linux and [Defaults], which reads the clock. *)
Definition defaultSettings : Settings :=
  mkSettings "kathara/base" "docker" "/usr/bin/xterm" true "/bin/bash" "kathara" "kathara" "INFO" true false
    "Always" (S754_zero false) false true "Prompt" NotShared None None (Some "kathara/katharanp_vde")
    None None true (Some "IfNotPresent") None.

Definition oneWeek : f64 := f64_of_Z 604800.
Definition f64_sub (x y : f64) : f64 := SFsub 53 1024 x y.
Definition f64_gt (x y : f64) : bool := SFltb y x.

Definition Defaults (now : f64) : Settings := set_checked (f64_sub now oneWeek) defaultSettings.

(** ** Serialisation (pyjson.go) *)

Definition pyEscapeDict (r : Z) : option string :=
  if r =? 92 then Some "\\"
  else if r =? 34 then Some (str1 backslash +:+ str1 quote_char)
  else if r =? 8 then Some "\b"
  else if r =? 12 then Some "\f"
  else if r =? 10 then Some "\n"
  else if r =? 13 then Some "\r"
  else if r =? 9 then Some "\t"
  else None.

Definition unicodeEscape (r : Z) : string :=
  "\u" +:+ hexdigit (Z.land (Z.shiftr r 12) 15) +:+ hexdigit (Z.land (Z.shiftr r 8) 15)
    +:+ hexdigit (Z.land (Z.shiftr r 4) 15) +:+ hexdigit (Z.land r 15).

Definition pyEscapeRune (r : Z) : string :=
  match pyEscapeDict r with
  | Some short => short
  | None =>
      if (0x20 <=? r) && (r <=? 0x7e) then str1 (az r)
      else if 0xffff <? r then
        let r := r - 0x10000 in
        unicodeEscape (0xd800 + Z.shiftr r 10) +:+ unicodeEscape (0xdc00 + Z.land r 0x3ff)
      else unicodeEscape r
  end.

Definition pyJSONString (s : string) : string :=
  str1 quote_char +:+ string_concat (pyEscapeRune <$> runes s) +:+ str1 quote_char.

Definition formatExponent (exp : Z) : string :=
  let body := Itoa (Z.abs exp) in
  (if exp <? 0 then "-" else "+") +:+ (if Z.of_nat (String.length body) <? 2 then "0" +:+ body else body).

Definition cutByte (s : string) (sep : ascii) : string * string * bool :=
  match cut_byte sep s with Some (a, b) => (a, b, true) | None => (s, "", false) end.

(** [strconv.FormatFloat(f, 'e', -1, 64)] of a finite float. *)
Definition FormatFloat_e (f : f64) : string :=
  match f with
  | S754_finite s m e => let '(ds, decpt) := shortest_decimal m e in (if s then "-" else "") +:+ format_e ds decpt
  | S754_zero s => (if s then "-" else "") +:+ "0e+00"
  | S754_infinity s => if s then "-Inf" else "+Inf"
  | S754_nan => "NaN"
  end.

Definition pyFloatRepr (f : f64) : string :=
  match f with
  | S754_nan => "NaN"
  | S754_infinity false => "Infinity"
  | S754_infinity true => "-Infinity"
  | _ =>
      let sci := FormatFloat_e f in
      let '(sign, sci) := match sci with
                          | String b r => if Ascii.eqb b "-" then ("-", r) else ("", sci)
                          | EmptyString => ("", sci)
                          end in
      let '(mantissa, exponent, ok) := cutByte sci "e" in
      if negb ok then sign +:+ sci
      else
        let digits := let '(head, tail, found) := cutByte mantissa "." in if found then head +:+ tail else mantissa in
        match Atoi exponent with
        | Err _ => sign +:+ sci
        | Ok exp =>
            let decpt := exp + 1 in
            let n := Z.of_nat (String.length digits) in
            if (decpt <=? -4) || (16 <? decpt) then
              sign +:+ string_take 1 digits +:+ (if 1 <? n then "." +:+ string_drop 1 digits else "")
                +:+ "e" +:+ formatExponent exp
            else if decpt <=? 0 then sign +:+ "0." +:+ zeros (Z.to_nat (- decpt)) +:+ digits
            else if n <=? decpt then sign +:+ digits +:+ zeros (Z.to_nat (decpt - n)) +:+ ".0"
            else sign +:+ string_take (Z.to_nat decpt) digits +:+ "." +:+ string_drop (Z.to_nat decpt) digits
        end
  end.

Example repr_clock : rmap pyFloatRepr (pyFloat "1785923124.0260758") = Ok "1785923124.0260758".
Proof. vm_compute. reflexivity. Qed.
Example repr_zero : pyFloatRepr (S754_zero true) = "-0.0".
Proof. vm_compute. reflexivity. Qed.
Example escaped : pyJSONString ("é" +:+ encode_rune 0x1f600 +:+ "<" +:+ str1 (az 127)) = quoted "\u00e9\ud83d\ude00<\u007f".
Proof. vm_compute. reflexivity. Qed.

(** ** The schema (keys.go, addon.go, addon_docker.go, addon_kubernetes.go) *)

Inductive Kind : Type := KindString | KindBool | KindFloat | KindInt | KindNullableString.

Definition label (k : Kind) : string :=
  match k with
  | KindBool => "a boolean"
  | KindFloat => "a number"
  | KindInt => "an integer"
  | KindNullableString => "a string or null"
  | KindString => "a string"
  end.

(** What a key's pointer points at. *)
Inductive field : Type :=
| PStr (f : str_field)
| PBool (f : bool_field)
| PFloat                 (* LastChecked *)
| PCds                   (* SharedCds *)
| PNStr (f : opt_field).

#[export] Instance field_eq_dec : EqDecision field.
Proof. solve_decision. Defined.

(** A Go value of the schema's types, or of none of them. *)
Inductive anyval : Type :=
| AString (s : string)
| ABool (b : bool)
| AFloat (f : f64)
| ACds (z : Z)
| AInt (z : Z)
| ANil
| AStrPtr (p : option string)
| AOther.

Record keyDesc : Type := mkKey {
  kName : string;
  kKind : Kind;
  kPtr : field;
  kValidate : option (Settings → anyval → result goerror unit);
}.

Definition must_be (d : keyDesc) : goerror :=
  NewSettingsInvalid ("Setting `" +:+ d.(kName) +:+ "` must be " +:+ label d.(kKind) +:+ ".").

(** *** Validators (validate.go) *)

Definition requireOneOf (name : string) (v : anyval) (allowed : list string) : result goerror unit :=
  match v with
  | AString s =>
      if str_in s allowed then Ok tt
      else Err (NewSettingsInvalid ("Setting `" +:+ name +:+ "` must be one of the following: " +:+
                                    str_join ", " allowed +:+ "."))
  | _ => Err (NewSettingsInvalid ("Setting `" +:+ name +:+ "` must be a string."))
  end.

Definition validateManagerTypeValue (v : anyval) : result goerror unit :=
  match v with
  | AString s => if str_in s availableManagers then Ok tt else Err ErrSettingsManagerType
  | _ => Err ErrSettingsManagerType
  end.

(** [value.(string)] with its failure ignored. *)
Definition as_string (v : anyval) : string := match v with AString s => s | _ => "" end.

Definition lower_letter (r : Z) : bool := (97 <=? r) && (r <=? 122).
Definition prefixPattern : re Z :=
  Cat (Plus (Cls lower_letter))
    (Cat (Opt (Cls (fun r => r =? 95)))
      (Cat (Plus (Cls (fun r => lower_letter r || (r =? 95)))) (Cat (Opt (Cls (fun r => r =? 10))) Eot))).

Definition prefix_ok (p : string) : bool := match_bool prefixPattern (runes p).

Definition CheckNetPrefix (p : string) : result goerror unit :=
  if prefix_ok p then Ok tt else Err ErrSettingsNetworksPrefix.
Definition CheckDevicePrefix (p : string) : result goerror unit :=
  if prefix_ok p then Ok tt else Err ErrSettingsDevicePrefix.
Definition CheckDebugLevel (level : string) : result goerror unit :=
  if str_in level availableDebugLevels then Ok tt else Err ErrSettingsDebugLevel.

Definition TerminalTMUX : string := "TMUX".
Definition TerminalMultiplexer : string := "MULTIPLEXER".

Definition validateSharedCdsValue (v : anyval) : result goerror unit :=
  match v with
  | ACds z =>
      if (z =? NotShared) || (z =? SharedBetweenLabs) || (z =? SharedBetweenUsers) then Ok tt
      else Err (NewSettingsInvalid "Setting `shared_cds` must be one of the following: 1, 2, 3.")
  | _ => Err (NewSettingsInvalid "Setting `shared_cds` must be an integer.")
  end.

(** A [value.(T)] at the pointer type, with its failure ignored. *)
Definition as_pointer (v : anyval) : option string := match v with AStrPtr p => p | _ => None end.

Definition validateNetworkPluginValue (v : anyval) : result goerror unit :=
  match as_pointer v with
  | None => Ok tt
  | Some s => requireOneOf "network_plugin" (AString s) availableNetworkPlugins
  end.

Definition validateImagePullPolicyValue (v : anyval) : result goerror unit :=
  match as_pointer v with
  | None => Ok tt
  | Some s => requireOneOf "image_pull_policy" (AString s) availableImagePullPolicies
  end.

Section schema.
(** Whether the platform can launch a terminal emulator. *)
Context (terminalAvailable : string → result goerror bool).

Definition CheckTerminal (s : Settings) (terminal : string) : result goerror unit :=
  let terminal := if String.eqb terminal "" then s.(sTerminal) else terminal in
  if String.eqb terminal TerminalTMUX || String.eqb terminal TerminalMultiplexer then Ok tt
  else
    let* ok := terminalAvailable terminal in
    if ok then Ok tt else Err (NewSettingsTerminal terminal).

Definition baseKeys : list keyDesc :=
  [mkKey "image" KindString (PStr Image) None;
   mkKey "manager_type" KindString (PStr ManagerType) (Some (fun _ => validateManagerTypeValue));
   mkKey "terminal" KindString (PStr Terminal) (Some (fun s v => CheckTerminal s (as_string v)));
   mkKey "open_terminals" KindBool (PBool OpenTerminals) None;
   mkKey "device_shell" KindString (PStr DeviceShell) None;
   mkKey "net_prefix" KindString (PStr NetPrefix) (Some (fun _ v => CheckNetPrefix (as_string v)));
   mkKey "device_prefix" KindString (PStr DevicePrefix) (Some (fun _ v => CheckDevicePrefix (as_string v)));
   mkKey "debug_level" KindString (PStr DebugLevel) (Some (fun _ v => CheckDebugLevel (as_string v)));
   mkKey "print_startup_log" KindBool (PBool PrintStartupLog) None;
   mkKey "enable_ipv6" KindBool (PBool EnableIPv6) None;
   mkKey "volume_mount_policy" KindString (PStr VolumeMountPolicy)
     (Some (fun _ v => requireOneOf "volume_mount_policy" v availableVolumeMountPolicies));
   mkKey "last_checked" KindFloat PFloat None].

Definition dockerKeys : list keyDesc :=
  [mkKey "hosthome_mount" KindBool (PBool HosthomeMount) None;
   mkKey "shared_mount" KindBool (PBool SharedMount) None;
   mkKey "image_update_policy" KindString (PStr ImageUpdatePolicy)
     (Some (fun _ v => requireOneOf "image_update_policy" v availableImageUpdatePolicies));
   mkKey "shared_cds" KindInt PCds (Some (fun _ => validateSharedCdsValue));
   mkKey "remote_url" KindNullableString (PNStr RemoteURL) None;
   mkKey "cert_path" KindNullableString (PNStr CertPath) None;
   mkKey "network_plugin" KindNullableString (PNStr NetworkPlugin) (Some (fun _ => validateNetworkPluginValue))].

Definition kubernetesKeys : list keyDesc :=
  [mkKey "api_server_url" KindNullableString (PNStr APIServerURL) None;
   mkKey "api_token" KindNullableString (PNStr APIToken) None;
   mkKey "host_shared" KindBool (PBool HostShared) None;
   mkKey "image_pull_policy" KindNullableString (PNStr ImagePullPolicy) (Some (fun _ => validateImagePullPolicyValue));
   mkKey "docker_config_json" KindNullableString (PNStr DockerConfigJSON) None].

(** [unicode.ToTitle] where the result is ASCII, which is all the names of
    the registry can tell apart. *)
Definition title_rune (r : Z) : Z :=
  if lower_letter r then r - 32
  else if r =? 0x131 then 73
  else if r =? 0x17f then 83
  else r.

Definition pyCapitalize (s : string) : string :=
  if String.eqb s "" then ""
  else let '(first, size) := DecodeRune s in encode_rune (title_rune first) +:+ ToLower (string_drop size s).

Definition addonKeys (managerType : string) : result goerror (list keyDesc) :=
  let name := pyCapitalize managerType in
  if String.eqb name "Docker" then Ok dockerKeys
  else if String.eqb name "Kubernetes" then Ok kubernetesKeys
  else Err ErrSettingsManagerType.

Definition schema (s : Settings) : result goerror (list keyDesc) :=
  let* addon := addonKeys s.(sManagerType) in Ok (baseKeys ++ addon).

(** *** Operations on a key *)

Definition put (p : field) (o : option anyval) (s : Settings) : Settings :=
  match p, o with
  | PStr f, Some (AString v) => set_str f v s
  | PBool f, Some (ABool v) => set_bool f v s
  | PFloat, Some (AFloat v) => set_checked v s
  | PCds, Some (ACds v) => set_cds v s
  | PNStr f, Some (AStrPtr v) => set_opt f v s
  | _, _ => s
  end.

(** [decode]. *)
Definition decode_value (p : field) (raw : json) : option anyval :=
  match p with
  | PStr _ => AString <$> to_string raw
  | PBool _ => ABool <$> to_bool raw
  | PFloat => AFloat <$> to_float raw
  | PCds => ACds <$> to_int raw
  | PNStr _ => match raw with JNull => Some (AStrPtr None) | _ => AStrPtr ∘ Some <$> to_string raw end
  end.

Definition decode (d : keyDesc) (s : Settings) (raw : json) : Settings * result goerror unit :=
  match decode_value d.(kPtr) raw with
  | Some v => (put d.(kPtr) (Some v) s, Ok tt)
  | None => (s, Err (must_be d))
  end.

(** [appendValue]. *)
Definition encodeValue (d : keyDesc) (s : Settings) : string :=
  match d.(kPtr) with
  | PStr f => pyJSONString (get_str f s)
  | PBool f => if get_bool f s then "true" else "false"
  | PFloat => pyFloatRepr s.(sLastChecked)
  | PCds => Itoa s.(sSharedCds)
  | PNStr f => match get_opt f s with None => "null" | Some v => pyJSONString v end
  end.

Definition getValue (d : keyDesc) (s : Settings) : anyval :=
  match d.(kPtr) with
  | PStr f => AString (get_str f s)
  | PBool f => ABool (get_bool f s)
  | PFloat => AFloat s.(sLastChecked)
  | PCds => ACds s.(sSharedCds)
  | PNStr f => match get_opt f s with None => ANil | Some v => AString v end
  end.

Definition toSharedCollisionDomains (v : anyval) : option Z :=
  match v with ACds z | AInt z => Some z | _ => None end.

Definition toNullableString (v : anyval) : option (option string) :=
  match v with ANil => Some None | AString s => Some (Some s) | AStrPtr p => Some p | _ => None end.

Definition check_value (d : keyDesc) (s : Settings) (v : anyval) : result goerror unit :=
  match d.(kValidate) with Some f => f s v | None => Ok tt end.

(** [set]: the type, then the key's restriction, then the assignment. *)
Definition setValue (d : keyDesc) (s : Settings) (v : anyval) : Settings * result goerror unit :=
  let assign v := match check_value d s v with
                  | Ok _ => (put d.(kPtr) (Some v) s, Ok tt)
                  | Err e => (s, Err e)
                  end in
  match d.(kPtr) with
  | PStr _ => match v with AString _ => assign v | _ => (s, Err (must_be d)) end
  | PBool _ => match v with ABool _ => (put d.(kPtr) (Some v) s, Ok tt) | _ => (s, Err (must_be d)) end
  | PFloat => match v with AFloat _ => (put d.(kPtr) (Some v) s, Ok tt) | _ => (s, Err (must_be d)) end
  | PCds => match toSharedCollisionDomains v with Some z => assign (ACds z) | None => (s, Err (must_be d)) end
  | PNStr _ => match toNullableString v with Some p => assign (AStrPtr p) | None => (s, Err (must_be d)) end
  end.

(** [copy]. *)
Definition copyKey (d : keyDesc) (dst src : Settings) : Settings :=
  put d.(kPtr) (Some (match d.(kPtr) with
                      | PStr f => AString (get_str f src)
                      | PBool f => ABool (get_bool f src)
                      | PFloat => AFloat src.(sLastChecked)
                      | PCds => ACds src.(sSharedCds)
                      | PNStr f => AStrPtr (get_opt f src)
                      end)) dst.

(** *** Operations on the settings *)

Definition lookup (s : Settings) (name : string) : result goerror keyDesc :=
  let* keys := schema s in
  of_option (NewSettingsInvalid ("Setting `" +:+ name +:+ "` not found."))
    (List.find (fun d => String.eqb d.(kName) name) keys).

Definition Keys (s : Settings) : result goerror (list string) :=
  let* keys := schema s in Ok (kName <$> keys).

Definition Settings_Kind (s : Settings) (name : string) : result goerror Kind :=
  let* d := lookup s name in Ok d.(kKind).

Definition Get (s : Settings) (name : string) : result goerror anyval :=
  let* d := lookup s name in Ok (getValue d s).

Definition SM (A : Type) : Type := M Settings goerror A.

Definition resetAddon : SM (list keyDesc) := fun s =>
  match addonKeys s.(sManagerType) with
  | Ok addon => (foldl (fun s d => copyKey d s defaultSettings) s addon, Ok addon)
  | Err e => (s, Err e)
  end.

Definition Set_ (name : string) (v : anyval) : SM unit := fun s =>
  match lookup s name with
  | Err e => (s, Err e)
  | Ok d =>
      match setValue d s v with
      | (s', Err e) => (s', Err e)
      | (s', Ok _) =>
          if String.eqb d.(kName) "manager_type" && negb (String.eqb s'.(sManagerType) s.(sManagerType))
          then match resetAddon s' with (s2, Ok _) => (s2, Ok tt) | (s2, Err e) => (s2, Err e) end
          else (s', Ok tt)
      end
  end.

Definition Encode (s : Settings) : result goerror string :=
  let* keys := schema s in
  let nl := str1 (az 10) in
  Ok ("{" +:+ nl +:+
      str_join ("," +:+ nl) ((fun d => " " +:+ pyJSONString d.(kName) +:+ ": " +:+ encodeValue d s) <$> keys) +:+
      nl +:+ "}").

Definition MarshalJSON (s : Settings) : result goerror string :=
  let* keys := schema s in
  Ok ("{" +:+ str_join "," ((fun d => pyJSONString d.(kName) +:+ ":" +:+ encodeValue d s) <$> keys) +:+ "}").

(** The loops over a key table in [LoadFromJSON]. *)
Definition load_keys (raw : gmap string json) (keys : list keyDesc) : SM unit :=
  sfor keys (fun d s => match raw !! d.(kName) with Some v => decode d s v | None => (s, Ok tt) end).

Definition LoadFromJSON (data : string) : SM unit :=
  if negb (utf8_valid data) then sthrow ErrSettingsInvalidJSON
  else match mbind to_map (parse data) with
       | None | Some None => sthrow ErrSettingsInvalidJSON
       | Some (Some raw) =>
           do* _ <- load_keys raw baseKeys in
           do* addon <- resetAddon in
           load_keys raw addon
       end.

(** *** The startup check (check.go) *)

Definition CheckManager (s : Settings) : result goerror unit :=
  if str_in s.(sManagerType) availableManagers then Ok tt else Err ErrSettingsManagerType.

(** [Check]; [save] writes the file. *)
Definition Check (now : f64) (save : Settings → result goerror unit) : SM unit := fun s =>
  match CheckManager s with
  | Err e => (s, Err e)
  | Ok _ =>
      let stale := f64_gt (f64_sub now s.(sLastChecked)) oneWeek in
      let s := if stale then set_checked now s else s in
      (s, let* _ := (if stale then save s else Ok tt) in
          let* _ := CheckNetPrefix s.(sNetPrefix) in
          let* _ := CheckDevicePrefix s.(sDevicePrefix) in
          CheckDebugLevel s.(sDebugLevel))
  end.
End schema.

(** The rest of validate.go. *)
Definition CheckImage (checker : string → result goerror unit) (s : Settings) (image : string) : result goerror unit :=
  checker (if String.eqb image "" then s.(sImage) else image).

(** [joinConfPath] off Windows. *)
Definition Filename : string := "kathara.conf".
Definition joinConfPath (dir : string) : string :=
  if String.eqb dir "" || HasSuffix dir "/" then dir +:+ Filename else dir +:+ "/" +:+ Filename.
