(* ===== verification/K8sConf.v ===== *)
(** * What the Kubernetes backend names and writes down

    The digest it hashes with; the pure half of the backend: resource names, labels and
    selectors (naming.go), the shell line of the postStart hook (startup.go), the
    NetworkAttachmentDefinitions and the annotation a pod is attached by
    (apiobject.go), and the numbers of the VXLANs (link.go); and what the templates and
    the names amount to.  A Go map is a finite map. *)

From S2P Require Export Hash.
From S2P Require Export Machine StrOrder Json Settings.
From S2P Require Import Shlex.
Local Open Scope string_scope.
Local Open Scope list_scope.
Local Open Scope Z_scope.
Local Open Scope kat_scope.

(** * Package [crypto/sha256]

    The digest of FIPS 180-4 on 32-bit words, which the Kubernetes backend
    hashes the names of collision domains with. *)

(** The constants are the first 32 bits of the fractional parts of the cube
    roots of the first 64 primes, the initial state those of the square roots
    of the first eight. *)
Fixpoint root_bits (fits : Z → bool) (n : nat) (root : Z) : Z :=
  match n with
  | O => root
  | S n => let next := root + 2 ^ Z.of_nat n in root_bits fits n (if fits next then next else root)
  end.

Definition is_prime (n : Z) : bool := forallb (fun d => negb (n mod Z.of_nat d =? 0)) (seq 2 (Z.to_nat n - 2)).
Definition primes : list Z := List.filter is_prime (Z.of_nat <$> seq 2 310).

Definition cube_bits (p : Z) : Z := w32 (root_bits (fun r => r ^ 3 <=? p * 2 ^ 96) 36 0).
Definition square_bits (p : Z) : Z := w32 (root_bits (fun r => r ^ 2 <=? p * 2 ^ 64) 38 0).

Definition sha_K : list Z := Eval vm_compute in cube_bits <$> primes.
Definition sha_H : list Z := Eval vm_compute in square_bits <$> take 8 primes.

Definition rotr32 (x n : Z) : Z := rotl32 x (32 - n).

Definition small_sigma (a b c x : Z) : Z := Z.lxor (Z.lxor (rotr32 x a) (rotr32 x b)) (Z.shiftr x c).
Definition big_sigma (a b c x : Z) : Z := Z.lxor (Z.lxor (rotr32 x a) (rotr32 x b)) (rotr32 x c).

(** The message schedule, kept with its latest word first. *)
Definition sha_extend (w : list Z) : list Z :=
  w32 (small_sigma 17 19 10 (nth 1 w 0) + nth 6 w 0 + small_sigma 7 18 3 (nth 14 w 0) + nth 15 w 0) :: w.

Definition sha_schedule (block : list Z) : list Z := rev (Nat.iter 48 sha_extend (rev block)).

(** One round on the eight working variables [a] to [h]. *)
Definition sha_round (st : list Z) (kw : Z * Z) : list Z :=
  match st with
  | [a; b; c; d; e; f; g; h] =>
      let ch := Z.lxor (Z.land e f) (Z.land (not32 e) g) in
      let maj := Z.lxor (Z.lxor (Z.land a b) (Z.land a c)) (Z.land b c) in
      let t1 := h + big_sigma 6 11 25 e + ch + kw.1 + kw.2 in
      let t2 := big_sigma 2 13 22 a + maj in
      [w32 (t1 + t2); a; b; c; w32 (d + t1); e; f; g]
  | _ => st
  end.

Definition sha_block (st block : list Z) : list Z :=
  zip_with (fun x y => w32 (x + y)) st (foldl sha_round st (zip sha_K (sha_schedule block))).

Fixpoint be_words (bs : list Z) : list Z :=
  match bs with
  | b0 :: b1 :: b2 :: b3 :: bs => (Z.shiftl b0 24 + Z.shiftl b1 16 + Z.shiftl b2 8 + b3) :: be_words bs
  | _ => []
  end.

Definition be_bytes (n : nat) (z : Z) : list Z := rev (le_bytes n z).

Definition sha_pad (bs : list Z) : list Z :=
  let n := length bs in
  bs ++ [0x80] ++ replicate (Z.to_nat ((55 - Z.of_nat n) mod 64)) 0 ++ be_bytes 8 (8 * Z.of_nat n).

(** One block of sixteen words for each unit of fuel. *)
Fixpoint sha_blocks (fuel : nat) (words st : list Z) : list Z :=
  match fuel with
  | O => st
  | S fuel => if decide (words = []) then st else sha_blocks fuel (drop 16 words) (sha_block st (take 16 words))
  end.

Definition sha256_Sum (bs : list Z) : list Z :=
  let words := be_words (sha_pad bs) in flat_map (be_bytes 4) (sha_blocks (length words) words sha_H).

(** [new(big.Int).SetBytes]. *)
Definition big_endian (bs : list Z) : Z := foldl (fun z b => 256 * z + b) 0 bs.

Lemma big_endian_nonneg bs : Forall (fun b => 0 <= b) bs → 0 <= big_endian bs.
Proof.
  unfold big_endian. cut (∀ z, 0 <= z → Forall (fun b => 0 <= b) bs → 0 <= foldl (fun z b => 256 * z + b) z bs); [auto with lia|].
  induction bs as [|b bs IH]; intros z Hz Hbs; [done|]. cbn. apply Forall_cons in Hbs as [Hb Hbs]. apply IH; [lia|done].
Qed.

Lemma le_bytes_range n z : Forall (fun b => 0 <= b <= 255) (le_bytes n z).
Proof.
  revert z. induction n as [|n IH]; intros z; cbn; [done|]. constructor; [|apply IH].
  change 0xFF with (Z.ones 8). rewrite Z.land_ones by lia. pose proof (Z.mod_pos_bound z (2 ^ 8) ltac:(lia)). change (2 ^ 8) with 256 in *. change (Z.ones 8) with 255. lia.
Qed.

(** Every byte of a digest is a byte. *)
Lemma sha256_Sum_range bs : Forall (fun b => 0 <= b <= 255) (sha256_Sum bs).
Proof.
  unfold sha256_Sum. apply Forall_flat_map, Forall_true. intros z. apply Forall_rev, le_bytes_range.
Qed.

Example sha256_abc : big_endian (sha256_Sum [97; 98; 99]) =
  0xba7816bf8f01cfea414140de5dae2223b00361a396177a9cb410ff61f20015ad.
Proof. vm_compute. reflexivity. Qed.
Example sha256_empty : big_endian (sha256_Sum []) =
  0xe3b0c44298fc1c149afbf4c8996fb92427ae41e4649b934ca495991b7852b855.
Proof. vm_compute. reflexivity. Qed.
Example sha256_two_blocks :
  big_endian (sha256_Sum (zb <$> string_bytes "abcdbcdecdefdefgefghfghighijhijkijkljklmklmnlmnomnopnopq")) =
  0x248d6a61d20638b8e5c026930c3e6039a33ce45964ff2167f6ecedd419db06c1.
Proof. vm_compute. reflexivity. Qed.

(** * Names, labels, hooks and annotations *)

(** ** naming.go *)

Definition labelApp : string := "app".
Definition labelName : string := "name".
Definition labelAppValue : string := "kathara".
Definition metadataNameLabel : string := "kubernetes.io/metadata.name".
Definition networkAttachmentAnnotation : string := "k8s.v1.cni.cncf.io/networks".
Definition megalosShellEnv : string := "_MEGALOS_SHELL".
Definition privateRegistrySecretName : string := "private-registry".

Definition labels : Type := gmap string string.

(** The bytes of [s] without its invalid encodings. *)
Definition sanitizeUTF8 (s : string) : string :=
  if utf8_valid s then s
  else string_concat (snd <$> List.filter (fun l : letter => negb ((l.1 =? RuneError) && (String.length l.2 =? 1)%nat))
                                (GoString.decode s)).

Definition hex_digits (b : Z) : list ascii :=
  let hex n := az (if n <? 10 then 48 + n else 87 + n) in [hex (Z.shiftr b 4); hex (Z.land b 15)].

(** [hex.EncodeToString]. *)
Definition hex_encode (bs : list Z) : string := bytes_string (flat_map hex_digits bs).

Definition resource_rune (r : Z) : bool :=
  ((48 <=? r) && (r <=? 57)) || ((97 <=? r) && (r <=? 122)) || (r =? 45) || (r =? 46).

Definition ResourceName (prefix name : string) : string :=
  let '(name, suffix) :=
    if contains_byte (az 95) name
    then (ReplaceAll name "_" "-",
          "-" +:+ string_take 8 (hex_encode (md5_Sum (zb <$> string_bytes (sanitizeUTF8 name)))))
    else (name, "") in
  let full := ToLower (prefix +:+ "-" +:+ name +:+ suffix) in
  string_of_runes (List.filter resource_rune (runes full)).

Definition DeploymentName (devicePrefix machineName : string) : string := ResourceName devicePrefix machineName.
Definition NetworkName (netPrefix linkName : string) : string := ResourceName netPrefix linkName.
Definition ConfigMapName (deploymentName namespace : string) : string := deploymentName +:+ "-" +:+ namespace +:+ "-files".

Definition ObjectSelector (name : string) : string :=
  if String.eqb name "" then labelApp +:+ "=" +:+ labelAppValue
  else labelApp +:+ "=" +:+ labelAppValue +:+ "," +:+ labelName +:+ "=" +:+ name.

Definition ObjectLabels (name : string) : labels := {[ labelName := name; labelApp := labelAppValue ]}.

Definition namespaceSelector (labHash : string) : string := metadataNameLabel +:+ "=" +:+ labHash.

(** ** startup.go *)

Definition startupCommands : list string := [
  "if [ -f " +:+ dq +:+ "/tmp/post_start" +:+ dq +:+ " ]; then exit; else touch /tmp/post_start; fi";
  "{sysctl_commands}";
  "rm -Rf /etc/bind/*";
  "umount /etc/resolv.conf";
  "umount /etc/hosts";
  "if [ -f " +:+ dq +:+ "/tmp/kathara/hostlab.b64" +:+ dq +:+ " ]; then base64 -d /tmp/kathara/hostlab.b64 > /hostlab.tar.gz";
  "tar xmfz /hostlab.tar.gz -C /; rm -f hostlab.tar.gz";
  "fi";
  "if [ -d " +:+ dq +:+ "/hostlab/{machine_name}" +:+ dq +:+
    " ]; then (cd /hostlab/{machine_name} && tar c .) | (cd / && tar xhf - --no-same-owner --no-same-permissions); fi";
  "if [ ! -s " +:+ dq +:+ "/etc/hosts" +:+ dq +:+ " ]; then echo '127.0.0.1 localhost' > /etc/hosts";
  "echo '::1 localhost' >> /etc/hosts";
  "echo '127.0.1.1 {machine_name}' >> /etc/hosts";
  "fi";
  "if [ -d " +:+ dq +:+ "/var/www" +:+ dq +:+ " ]; then chmod -R 777 /var/www/*; fi";
  "if [ -d " +:+ dq +:+ "/etc/quagga" +:+ dq +:+ " ]; then chown -R quagga:quagga /etc/quagga/";
  "chmod 640 /etc/quagga/*; fi";
  "if [ -d " +:+ dq +:+ "/etc/frr" +:+ dq +:+ " ]; then chown -R frr:frr /etc/frr/";
  "chmod 640 /etc/frr/*; fi";
  "if [ -f " +:+ dq +:+ "/hostlab/shared.startup" +:+ dq +:+ " ]; then chmod u+x /hostlab/shared.startup";
  "sed -i " +:+ dq +:+ "1s;^;set -x\n\n;" +:+ dq +:+ " /hostlab/shared.startup";
  "/hostlab/shared.startup &> /var/log/shared.log; fi";
  "if [ -f " +:+ dq +:+ "/hostlab/{machine_name}.startup" +:+ dq +:+ " ]; then chmod u+x /hostlab/{machine_name}.startup";
  "sed -i " +:+ dq +:+ "1s;^;set -x\n\n;" +:+ dq +:+ " /hostlab/{machine_name}.startup";
  "/hostlab/{machine_name}.startup &> /var/log/startup.log; fi";
  "ip route del default dev eth0 || true";
  "{machine_commands}";
  "touch /tmp/EOS"].

Definition shutdownCommands : list string := [
  "if [ -f " +:+ dq +:+ "/hostlab/{machine_name}.shutdown" +:+ dq +:+
    " ]; then chmod u+x /hostlab/{machine_name}.shutdown; /hostlab/{machine_name}.shutdown; fi";
  "if [ -f " +:+ dq +:+ "/hostlab/shared.shutdown" +:+ dq +:+
    " ]; then chmod u+x /hostlab/shared.shutdown; /hostlab/shared.shutdown; fi"].

Definition open_brace : ascii := az 123.
Definition close_brace : ascii := az 125.

(** The rest after a doubled brace. *)
Definition doubled (c : ascii) (rest : string) : option string :=
  match rest with String c' rest' => if Ascii.eqb c' c then Some rest' else None | EmptyString => None end.

(** The loop of [formatCommands] over the rest of the template; every round
    takes a byte at least. *)
Fixpoint format_loop (fuel : nat) (template : string) (fields : labels) : string :=
  match fuel, template with
  | S fuel, String c rest =>
      if negb (Ascii.eqb c open_brace || Ascii.eqb c close_brace) then String c (format_loop fuel rest fields)
      else match doubled c rest with
      | Some rest' => String c (format_loop fuel rest' fields)
      | None =>
          if Ascii.eqb c close_brace then String c (format_loop fuel rest fields)
          else match cut_byte close_brace rest with
               | None => template
               | Some (name, after) =>
                   default (str1 open_brace +:+ name +:+ str1 close_brace) (fields !! name)
                   +:+ format_loop fuel after fields
               end
      end
  | _, _ => ""
  end.

Definition formatCommands (template : string) (fields : labels) : string :=
  format_loop (String.length template) template fields.

Definition StartupCommandsString (machineName sysctlCommands machineCommands : string) : string :=
  formatCommands (str_join "; " startupCommands)
    {[ "machine_name" := machineName; "sysctl_commands" := sysctlCommands; "machine_commands" := machineCommands ]}.

Definition ShutdownCommandsString (machineName : string) : string :=
  formatCommands (str_join "; " shutdownCommands) {[ "machine_name" := machineName ]}.

Definition newPyTypeError (msg : string) : goerror := EPyRuntime "TypeError" msg.

(** [int64(v)] of a float: truncation, and the least integer for what has none
    (the conversion of amd64). *)
Definition int64_of_float (f : f64) : Z :=
  match floatToBigInt f with
  | Ok z => if (MinInt64 <=? z) && (z <=? MaxInt64) then z else MinInt64
  | Err _ => MinInt64
  end.

Definition formatSysctlValue (value : Scalar) : result goerror string :=
  match value with
  | Int v => Ok (Itoa v)
  | Bool b => Ok (if b then "1" else "0")
  | Float v => Ok (Itoa (int64_of_float v))
  | Str _ => Err (newPyTypeError "%d format: a real number is required, not str")
  | Strings _ => Err (newPyTypeError "%d format: a real number is required, not list")
  | SAbsent => Err (newPyTypeError "%d format: a real number is required, not NoneType")
  end.

Fixpoint sysctl_parts (entries : list (string * Scalar)) : result goerror (list string) :=
  match entries with
  | [] => Ok []
  | (key, value) :: entries =>
      let* rendered := formatSysctlValue value in
      let* parts := sysctl_parts entries in
      Ok (("sysctl -w -q " +:+ key +:+ "=" +:+ rendered) :: parts)
  end.

Definition SysctlCommands (sysctls : OrderedMap string Scalar) : result goerror string :=
  let* parts := sysctl_parts (Entries sysctls) in Ok (str_join "; " parts).

Example format_1 : formatCommands "a{x}b{{c}}{y}}" {[ "x" := "{y}" ]} = "a{y}b{c}{y}}".
Proof. reflexivity. Qed.
Example name_1 : ResourceName "kathara" "Host_A" = "kathara-host-a-4dc7a845".
Proof. vm_compute. reflexivity. Qed.

(** ** apiobject.go: collision domains *)

Definition netGroup : string := "k8s.cni.cncf.io".
Definition netVersion : string := "v1".
Definition netKind : string := "NetworkAttachmentDefinition".

(** The fields of an unstructured NetworkAttachmentDefinition the backend
    reads and writes; [None] is a [spec.config] that is absent or no string. *)
Record Network : Type := mkNetwork {
  nAPIVersion : string;
  nKind : string;
  nName : string;
  nNamespace : string;
  nLabels : labels;
  nConfig : option string
}.

Definition nl : string := str1 (az 10).
Definition json_field (key value : string) : string :=
  "                            " +:+ dq +:+ key +:+ dq +:+ ": " +:+ value.

Definition networkConfigJSON (linkName labHash : string) (networkID : Z) : string :=
  let suffix := if (6 <? String.length labHash)%nat then string_take 6 labHash else labHash in
  "{" +:+ nl
    +:+ json_field "cniVersion" (dq +:+ "0.3.0" +:+ dq) +:+ "," +:+ nl
    +:+ json_field "name" (dq +:+ ToLower linkName +:+ dq) +:+ "," +:+ nl
    +:+ json_field "type" (dq +:+ "megalos" +:+ dq) +:+ "," +:+ nl
    +:+ json_field "suffix" (dq +:+ suffix +:+ dq) +:+ "," +:+ nl
    +:+ json_field "vxlanId" (Itoa networkID) +:+ nl
    +:+ "                        }".

(** The namespace is set by the API server. *)
Definition NetworkDefinition (networkName linkName labHash : string) (networkID : Z) : Network :=
  mkNetwork (netGroup +:+ "/" +:+ netVersion) netKind networkName "" {[ labelName := linkName; labelApp := labelAppValue ]}
    (Some (networkConfigJSON linkName labHash networkID)).

Definition NetworkNameOf (n : option Network) : string := match n with Some n => n.(nName) | None => "" end.
Definition NetworkNamespace (n : option Network) : string := match n with Some n => n.(nNamespace) | None => "" end.
Definition NetworkLinkName (n : option Network) : string :=
  match n with Some n => default "" (n.(nLabels) !! labelName) | None => "" end.

(** Every number of a document an [any] is made of fits a float. *)
Fixpoint numbers_fit (v : json) : bool :=
  match v with
  | JNum _ => match to_float v with Some _ => true | None => false end
  | JArr l => forallb numbers_fit l
  | JObj l => (fix go l := match l with [] => true | (_, v) :: l => numbers_fit v && go l end) l
  | _ => true
  end.

(** [json.Unmarshal] into a [map[string]any]; [null] leaves it nil. *)
Definition unmarshal_map (raw : string) : option (gmap string json) :=
  match parse raw with
  | Some v => if numbers_fit v then match to_map v with Some m => Some (default ∅ m) | None => None end else None
  | None => None
  end.

(** [NetworkConfig] and its error are read through [NetworkVXLANID] alone. *)
Definition NetworkConfig (n : option Network) : option (gmap string json) :=
  match n with
  | Some n => match n.(nConfig) with Some raw => unmarshal_map raw | None => None end
  | None => None
  end.

Definition NetworkVXLANID (n : option Network) : option Z :=
  match NetworkConfig n with
  | None => None
  | Some config =>
      match config !! "vxlanId" with
      | Some (JNum v) => int64_of_float <$> to_float (JNum v)
      | Some (JStr v) => match PyInt v with Ok id => Some id | Err _ => None end
      | _ => None
      end
  end.

(** ** apiobject.go: pods *)

Record containerPort : Type := mkPort { portName : string; ContainerPort : Z; HostPort : Z; Protocol : string }.
Record volumeMount : Type := mkMount { mountName : string; MountPath : string; ReadOnly : bool }.

(** A container of a pod, what the backend sets of it; [kLimits] holds
    quantities in the form the API server gives them. *)
Record kContainer : Type := mkKContainer {
  kName : string;
  kImage : string;
  kPostStart : list string;
  kStdin : bool;
  kTTY : bool;
  kImagePullPolicy : string;
  kPorts : list containerPort;
  kLimits : gmap string string;
  kVolumeMounts : list volumeMount;
  kPrivileged : bool;
  kEnv : list (string * string);
  kCommand : option (list string);
  kArgs : option (list string)
}.

Record containerStatus : Type := mkStatus {
  csImage : string;
  csReady : bool;
  csRestartCount : Z;
  csTerminated : option string;     (* the reason *)
  csWaiting : option string
}.

(** A volume is a ConfigMap or a directory of the node. *)
Inductive volumeSource : Type := FromConfigMap (name : string) | FromHostPath (path : string).

Record podSpec : Type := mkPodSpec {
  spContainers : list kContainer;
  spHostname : string;
  spDNSPolicy : string;
  spNameservers : list string;
  spVolumes : list (string * volumeSource);
  spImagePullSecrets : list string;
  spNodeName : string
}.

Record Pod : Type := mkPod {
  pName : string;
  pNamespace : string;
  pLabels : labels;
  pAnnotations : labels;
  pSpec : podSpec;
  pPhase : string;
  pStatuses : list containerStatus
}.

Definition EnvVarValueFromPod (pod : option Pod) (name : string) : string :=
  match pod with
  | None => ""
  | Some pod =>
      match List.last (Some <$> pod.(pSpec).(spContainers)) None with
      | None => ""
      | Some c => match List.find (fun e => String.eqb e.1 name) c.(kEnv) with Some e => e.2 | None => "" end
      end
  end.

Definition podItemName (p : Pod) : string :=
  let name := default "" (p.(pLabels) !! labelName) in if negb (String.eqb name "") then name else p.(pName).
Definition networkItemName (n : Network) : string :=
  let name := NetworkLinkName (Some n) in if negb (String.eqb name "") then name else NetworkNameOf (Some n).

(** *** The annotation *)

Record podNetworkAttachment : Type := mkAttachment {
  aName : string;
  aNamespace : string;
  aInterface : string;
  aKatharaLink : string;
  aMAC : string
}.

(** [\u] and four hexadecimal digits. *)
Definition pyJSONEscape (r : Z) : string :=
  "\u" +:+ hexdigit (Z.land (Z.shiftr r 12) 15) +:+ hexdigit (Z.land (Z.shiftr r 8) 15)
    +:+ hexdigit (Z.land (Z.shiftr r 4) 15) +:+ hexdigit (Z.land r 15).

Definition pyJSONRune (r : Z) : string :=
  if r =? 92 then "\\"
  else if r =? 34 then "\" +:+ dq
  else if r =? 8 then "\b"
  else if r =? 12 then "\f"
  else if r =? 10 then "\n"
  else if r =? 13 then "\r"
  else if r =? 9 then "\t"
  else if (0x20 <=? r) && (r <=? 0x7e) then encode_rune r
  else if 0xffff <? r then
    let r := r - 0x10000 in
    pyJSONEscape (0xd800 + Z.shiftr r 10) +:+ pyJSONEscape (0xdc00 + Z.land r 0x3ff)
  else pyJSONEscape r.

Definition pyJSONString (s : string) : string := dq +:+ string_concat (pyJSONRune <$> runes s) +:+ dq.

Definition pyJSONField (key value : string) (first : bool) : string :=
  (if first then "" else ", ") +:+ pyJSONString key +:+ ": " +:+ pyJSONString value.

Definition encodeAttachment (a : podNetworkAttachment) : string :=
  "{" +:+ pyJSONField "name" a.(aName) true +:+ pyJSONField "namespace" a.(aNamespace) false
    +:+ pyJSONField "interface" a.(aInterface) false +:+ pyJSONField "kathara.link" a.(aKatharaLink) false
    +:+ (if negb (String.eqb a.(aMAC) "") then pyJSONField "mac" a.(aMAC) false else "") +:+ "}".

Definition encodeNetworkAttachments (attachments : list podNetworkAttachment) : string :=
  "[" +:+ str_join ", " (encodeAttachment <$> attachments) +:+ "]".

(** [json.Unmarshal] of the annotation.  A key stands for a field whatever its
    case, which for these letters folds the Kelvin sign and the long s too. *)
Definition fold_rune (r : Z) : Z :=
  if (65 <=? r) && (r <=? 90) then r + 32 else if r =? 0x212a then 107 else if r =? 0x17f then 115 else r.
Definition fold_name (s : string) : string := string_of_runes (fold_rune <$> runes s).

(** A field of type string: [null] leaves it, another value is an error. *)
Definition set_string (v : json) (old : string) : option string :=
  match v with JStr s => Some s | JNull => Some old | _ => None end.

Definition set_attachment_field (a : podNetworkAttachment) (key : string) (v : json) : option podNetworkAttachment :=
  let k := fold_name key in
  if String.eqb k "name" then
    (fun s => mkAttachment s a.(aNamespace) a.(aInterface) a.(aKatharaLink) a.(aMAC)) <$> set_string v a.(aName)
  else if String.eqb k "namespace" then
    (fun s => mkAttachment a.(aName) s a.(aInterface) a.(aKatharaLink) a.(aMAC)) <$> set_string v a.(aNamespace)
  else if String.eqb k "interface" then
    (fun s => mkAttachment a.(aName) a.(aNamespace) s a.(aKatharaLink) a.(aMAC)) <$> set_string v a.(aInterface)
  else if String.eqb k "kathara.link" then
    (fun s => mkAttachment a.(aName) a.(aNamespace) a.(aInterface) s a.(aMAC)) <$> set_string v a.(aKatharaLink)
  else if String.eqb k "mac" then
    (fun s => mkAttachment a.(aName) a.(aNamespace) a.(aInterface) a.(aKatharaLink) s) <$> set_string v a.(aMAC)
  else Some a.

Definition emptyAttachment : podNetworkAttachment := mkAttachment "" "" "" "" "".

Fixpoint read_fields (l : list (string * json)) (a : podNetworkAttachment) : option podNetworkAttachment :=
  match l with
  | [] => Some a
  | (key, v) :: l => match set_attachment_field a key v with Some a => read_fields l a | None => None end
  end.

Definition read_attachment (v : json) : option podNetworkAttachment :=
  match v with JObj l => read_fields l emptyAttachment | JNull => Some emptyAttachment | _ => None end.

Definition unmarshal_attachments (raw : string) : option (list podNetworkAttachment) :=
  match parse raw with
  | Some (JArr l) => mapM read_attachment l
  | Some JNull => Some []
  | _ => None
  end.

Definition newPyKeyError (key : string) : goerror := EPyRuntime "KeyError" ("'" +:+ key +:+ "'").
Definition newPyAttributeError (attr : string) : goerror :=
  EPyRuntime "AttributeError" ("'NoneType' object has no attribute '" +:+ attr +:+ "'").
Definition newPySubscriptError : goerror := EPyRuntime "TypeError" "'NoneType' object is not subscriptable".

(** [json_error] is the text of the error of package [encoding/json]. *)
Definition podNetworkAttachments (json_error : string → string) (pod : Pod) : result goerror (list podNetworkAttachment) :=
  match pod.(pAnnotations) !! networkAttachmentAnnotation with
  | None => Err (newPyKeyError networkAttachmentAnnotation)
  | Some raw => match unmarshal_attachments raw with
                | Some attachments => Ok attachments
                | None => Err (EPlain (json_error raw))
                end
  end.

(** ** link.go: the numbers of the VXLANs *)

Definition maxLinkNumber : Z := 16777206.     (* (1 << 24) - 10 *)

Definition NetworkID (seed name : string) (offset : Z) : Z :=
  (big_endian (sha256_Sum (zb <$> string_bytes (seed +:+ name))) + offset) mod maxLinkNumber.

Record vniAllocator : Type := mkAllocator { seed : string; reserved : gset Z }.

Definition newVNIAllocator (seed : string) (existing : list Z) : vniAllocator := mkAllocator seed (list_to_set existing).

(** The loop of [Allocate]: [None] is one that is still looking. *)
Fixpoint allocate_loop (fuel : nat) (a : vniAllocator) (name : string) (networkID offset : Z) : option Z :=
  match fuel with
  | O => None
  | S fuel =>
      if negb (bool_decide (networkID ∈ a.(reserved))) then Some networkID
      else allocate_loop fuel a name (NetworkID a.(seed) name offset) (offset + 1)
  end.

Definition Allocate (fuel : nat) (name : string) (a : vniAllocator) : option (vniAllocator * Z) :=
  match allocate_loop fuel a name (NetworkID a.(seed) name 0) 1 with
  | Some id => Some (mkAllocator a.(seed) ({[ id ]} ∪ a.(reserved)), id)
  | None => None
  end.

Definition Reserved (a : vniAllocator) (id : Z) : bool := bool_decide (id ∈ a.(reserved)).

(** The numbers of the collision domains of a deployment, in their order. *)
Fixpoint allocate_all (fuel : nat) (names : list string) (a : vniAllocator) : option (vniAllocator * list Z) :=
  match names with
  | [] => Some (a, [])
  | name :: names =>
      match Allocate fuel name a with
      | None => None
      | Some (a, id) =>
          match allocate_all fuel names a with
          | Some (a, ids) => Some (a, id :: ids)
          | None => None
          end
      end
  end.

Example network_1 : NetworkVXLANID (Some (NetworkDefinition "kathara-a" "A" "abcdefgh" 4711)) = Some 4711.
Proof. vm_compute. reflexivity. Qed.
Example attachments_1 :
  let a := mkAttachment "kathara-a" "hash" "net0" "A" "" in let b := mkAttachment "kathara-b" "hash" "net1" "é" "00:00:00:00:00:01" in
  unmarshal_attachments (encodeNetworkAttachments [a; b]) = Some [a; b].
Proof. vm_compute. reflexivity. Qed.

(** * The text the Kubernetes backend writes

    The templates of the startup and shutdown lines are filled in once: what is
    put into them is not read again.  Names of resources keep to the characters
    a cluster allows. *)

(** ** Templates *)

(** A template is text, its braces doubled, and holes. *)
Inductive piece : Type := Lit (s : string) | Hole (name : string).

Fixpoint double_braces (s : string) : string :=
  match s with
  | EmptyString => ""
  | String c s => if Ascii.eqb c open_brace || Ascii.eqb c close_brace then String c (String c (double_braces s))
                  else String c (double_braces s)
  end.

Definition written (p : piece) : string :=
  match p with Lit s => double_braces s | Hole name => str1 open_brace +:+ name +:+ str1 close_brace end.

(** What stands for a piece; a field nobody gave stays as it is written. *)
Definition filled (fields : labels) (p : piece) : string :=
  match p with
  | Lit s => s
  | Hole name => default (str1 open_brace +:+ name +:+ str1 close_brace) (fields !! name)
  end.

Definition hole_ok (p : piece) : Prop :=
  match p with
  | Lit _ => True
  | Hole name => contains_byte close_brace name = false ∧ ∀ c r, name = String c r → c ≠ open_brace
  end.

Lemma format_lit s t fields fuel :
  (String.length (double_braces s +:+ t) <= fuel)%nat →
  ∃ fuel', (String.length t <= fuel')%nat ∧
    format_loop fuel (double_braces s +:+ t) fields = s +:+ format_loop fuel' t fields.
Proof.
  revert fuel. induction s as [|c s IH]; intros fuel Hf; [by exists fuel|]. cbn [double_braces] in *.
  destruct (Ascii.eqb c open_brace || Ascii.eqb c close_brace) eqn:E; cbn [String.append String.length] in *;
    (destruct fuel as [|fuel]; [lia|]); cbn [format_loop]; rewrite E; cbn [negb].
  - cbn [doubled]. rewrite Ascii.eqb_refl. destruct (IH fuel ltac:(lia)) as (f & Hf' & ->). by exists f.
  - destruct (IH fuel ltac:(lia)) as (f & Hf' & ->). by exists f.
Qed.

Lemma cut_at c name t : contains_byte c name = false → cut_byte c (name +:+ String c t) = Some (name, t).
Proof.
  induction name as [|a name IH]; cbn [String.append cut_byte contains_byte].
  - by rewrite Ascii.eqb_refl.
  - intros [Ha Hn]%orb_false_iff. by rewrite Ha, IH.
Qed.

Lemma format_hole name t fields fuel :
  hole_ok (Hole name) → (String.length (written (Hole name) +:+ t) <= fuel)%nat →
  ∃ fuel', (String.length t <= fuel')%nat ∧
    format_loop fuel (written (Hole name) +:+ t) fields = filled fields (Hole name) +:+ format_loop fuel' t fields.
Proof.
  intros [Hc Ho] Hf.
  assert (Hl : String.length (written (Hole name) +:+ t) = S (String.length name + S (String.length t)))
    by (unfold written; rewrite !string_length_app; cbn [str1 String.length]; lia).
  rewrite Hl in Hf. destruct fuel as [|fuel]; [lia|].
  assert (Hr : written (Hole name) +:+ t = String open_brace (name +:+ String close_brace t))
    by (cbn [written str1 String.append]; by rewrite string_app_assoc).
  exists fuel. split; [lia|].
  rewrite Hr. cbn [format_loop]. change (Ascii.eqb open_brace open_brace) with true. cbn [orb negb].
  assert (Hd : doubled open_brace (name +:+ String close_brace t) = None).
  { destruct name as [|c r]; [done|]. cbn [String.append doubled].
    destruct (Ascii.eqb_spec c open_brace) as [E|]; [|done]. by destruct (Ho c r eq_refl). }
  rewrite Hd. change (Ascii.eqb open_brace close_brace) with false. cbv iota. by rewrite cut_at.
Qed.

Lemma format_filled ps fields :
  Forall hole_ok ps →
  formatCommands (string_concat (written <$> ps)) fields = string_concat (filled fields <$> ps).
Proof.
  intros Hok. unfold formatCommands.
  assert (H : ∀ fuel, (String.length (string_concat (written <$> ps)) <= fuel)%nat →
            format_loop fuel (string_concat (written <$> ps)) fields = string_concat (filled fields <$> ps)); [|by apply H].
  induction Hok as [|p ps Hp _ IH]; intros fuel Hf; [by destruct fuel|].
  cbn [fmap list_fmap string_concat] in *. destruct p as [s|name].
  - destruct (format_lit s (string_concat (written <$> ps)) fields fuel Hf) as (f & Hf' & E). cbn [written filled].
    rewrite E. f_equal. by apply IH.
  - destruct (format_hole name (string_concat (written <$> ps)) fields fuel Hp Hf) as (f & Hf' & ->). f_equal. by apply IH.
Qed.

(** A template is filled in piece by piece: doubled braces stand
    for themselves, a field for its value, an unknown field for itself, and no
    value is looked into for fields again. *)
Theorem format_pieces ps fields :
  Forall hole_ok ps →
  formatCommands (string_concat (written <$> ps)) fields = string_concat (filled fields <$> ps).
Proof. apply format_filled. Qed.

Lemma format_pieces_witness :
  formatCommands "a{x}b{{c}}{y}" {[ "x" := "{y}" ]} = "a{y}b{c}{y}".
Proof.
  apply (format_pieces [Lit "a"; Hole "x"; Lit "b{c}"; Hole "y"]).
  repeat constructor; intros c r [= <- _]; done.
Defined.

(** The startup line: sysctls third, the user's commands last but one. *)
Fixpoint pieces (fuel : nat) (t : string) : list piece :=
  match fuel with
  | O => []
  | S fuel =>
      match cut_byte open_brace t with
      | None => [Lit t]
      | Some (before, after) =>
          match cut_byte close_brace after with
          | Some (name, rest) => Lit before :: Hole name :: pieces fuel rest
          | None => [Lit t]
          end
      end
  end.

Definition startup_pieces : list piece := Eval vm_compute in pieces 20 (str_join "; " startupCommands).

Lemma startup_pieces_ok :
  string_concat (written <$> startup_pieces) = str_join "; " startupCommands ∧ Forall hole_ok startup_pieces.
Proof. split; [vm_compute; reflexivity|]. repeat constructor; intros c r [= <- _]; done. Qed.

Definition needs_commands (p : piece) : bool :=
  match p with Hole name => String.eqb name "machine_commands" | Lit _ => false end.

Lemma startup_pieces_end :
  startup_pieces = take (length startup_pieces - 2) startup_pieces ++ [Hole "machine_commands"; Lit "; touch /tmp/EOS"]
  ∧ Forall (fun p => needs_commands p = false) (take (length startup_pieces - 2) startup_pieces).
Proof. split; [vm_compute; reflexivity | repeat constructor]. Qed.

(** The commands of the user are the last thing of the startup line
    but the marker that it is done; they are in it letter for letter, whatever
    braces they have, and nothing before them depends on them. *)
Theorem startup_line machineName sysctls :
  ∃ head, ∀ commands,
    StartupCommandsString machineName sysctls commands = head +:+ commands +:+ "; touch /tmp/EOS".
Proof.
  set (fields c := {[ "machine_name" := machineName; "sysctl_commands" := sysctls; "machine_commands" := c ]} : labels).
  exists (string_concat (filled (fields "") <$> take (length startup_pieces - 2) startup_pieces)). intros c.
  unfold StartupCommandsString. destruct startup_pieces_ok as [<- Hok]. rewrite (format_filled _ _ Hok).
  destruct startup_pieces_end as [E Hn]. rewrite E at 1. rewrite fmap_app, string_concat_app. f_equal.
Qed.
