(* ===== verification/SettingsInv.v ===== *)
(** * The settings file: round trip and setting of keys

    Every string survives CPython's ASCII serialisation and the decoder; a
    settings file that was written is read back; what [Set] does to the record,
    and that a refused value does nothing. *)

From S2P Require Export Settings.
From S2P Require Import Shlex.
From Stdlib Require Import SpecFloat.
Local Open Scope string_scope.
Local Open Scope list_scope.
Local Open Scope Z_scope.
Local Open Scope kat_scope.

(** ** Strings *)

Lemma hexdigit_value n : 0 <= n < 16 → ∃ a, hexdigit n = str1 a ∧ hex_value a = Some n.
Proof.
  intros Hn. assert (n = 0 ∨ n = 1 ∨ n = 2 ∨ n = 3 ∨ n = 4 ∨ n = 5 ∨ n = 6 ∨ n = 7 ∨ n = 8 ∨ n = 9 ∨ n = 10 ∨ n = 11
    ∨ n = 12 ∨ n = 13 ∨ n = 14 ∨ n = 15) as H by lia.
  destruct_or?; subst; by eexists.
Qed.

Lemma nibble r k : 0 <= k → Z.land (Z.shiftr r k) 15 = r / 2 ^ k mod 16.
Proof. intros Hk. change 15 with (Z.ones 4). by rewrite Z.land_ones, Z.shiftr_div_pow2. Qed.

Lemma getu4_escape r t : 0 <= r < 65536 → getu4 (unicodeEscape r +:+ t) = Some (r, t).
Proof.
  intros Hr. unfold unicodeEscape. rewrite !nibble by lia. change (Z.land r 15) with (Z.land (Z.shiftr r 0) 15).
  rewrite nibble by lia.
  destruct (hexdigit_value (r / 2 ^ 12 mod 16)) as (a & -> & Ea); [by apply Z.mod_pos_bound|].
  destruct (hexdigit_value (r / 2 ^ 8 mod 16)) as (b & -> & Eb); [by apply Z.mod_pos_bound|].
  destruct (hexdigit_value (r / 2 ^ 4 mod 16)) as (c & -> & Ec); [by apply Z.mod_pos_bound|].
  destruct (hexdigit_value (r / 2 ^ 0 mod 16)) as (d & -> & Ed); [by apply Z.mod_pos_bound|].
  cbn. rewrite Ea, Eb, Ec, Ed. do 3 f_equal. Z.to_euclidean_division_equations. lia.
Qed.

(** One escape is one round of the decoder. *)
Lemma str_body_unicode fuel r t :
  0 <= r < 65536 → is_surrogate r = false →
  str_body (S fuel) (unicodeEscape r +:+ t) = prepend (encode_rune r) (str_body fuel t).
Proof.
  intros Hr Hs. pose proof (getu4_escape r t Hr) as E. unfold unicodeEscape in *. cbn [String.append] in *.
  cbn [str_body]. change (Ascii.eqb "\" quote_char) with false. change (Ascii.eqb "\" backslash) with true. cbv iota.
  change (simple_escape "u") with (@None ascii). cbv iota. rewrite E. by rewrite Hs.
Qed.

Lemma str_body_pair fuel r t :
  0x10000 <= r <= 0x10ffff →
  str_body (S fuel) (unicodeEscape (0xd800 + Z.shiftr (r - 0x10000) 10) +:+
                     unicodeEscape (0xdc00 + Z.land (r - 0x10000) 0x3ff) +:+ t) = prepend (encode_rune r) (str_body fuel t).
Proof.
  intros Hr. change 0x3ff with (Z.ones 10). rewrite Z.land_ones, Z.shiftr_div_pow2 by lia.
  set (h := 0xd800 + (r - 0x10000) / 2 ^ 10). set (l := 0xdc00 + (r - 0x10000) mod 2 ^ 10).
  assert (Hh : 0xd800 <= h < 0xdc00) by (unfold h; Z.to_euclidean_division_equations; lia).
  assert (Hl : 0xdc00 <= l < 0xe000) by (unfold l; Z.to_euclidean_division_equations; lia).
  assert (Ev : (h - 0xd800) * 1024 + (l - 0xdc00) + 0x10000 = r) by (unfold h, l; Z.to_euclidean_division_equations; lia).
  clearbody h l. pose proof (getu4_escape h (unicodeEscape l +:+ t) ltac:(lia)) as E1.
  pose proof (getu4_escape l t ltac:(lia)) as E2.
  assert (Es : is_surrogate h = true).
  { unfold is_surrogate. by rewrite (proj2 (Z.leb_le _ _)), (proj2 (Z.ltb_lt _ _)) by lia. }
  assert (Ep : decode_pair h l = Some r).
  { unfold decode_pair. rewrite !(proj2 (Z.leb_le _ _)), !(proj2 (Z.ltb_lt _ _)) by lia. cbn. by rewrite Ev. }
  generalize dependent (unicodeEscape l +:+ t). intros u E1 E2. unfold unicodeEscape in E1 |- *. cbn [String.append] in *.
  cbn [str_body]. change (Ascii.eqb "\" quote_char) with false. change (Ascii.eqb "\" backslash) with true. cbv iota.
  change (simple_escape "u") with (@None ascii). cbv iota. rewrite E1, Es, E2. by rewrite Ep.
Qed.

Lemma str_body_rune fuel r t :
  valid_rune r = true → str_body (S fuel) (pyEscapeRune r +:+ t) = prepend (encode_rune r) (str_body fuel t).
Proof.
  intros Hv. apply valid_rune_spec in Hv. unfold pyEscapeRune. destruct (pyEscapeDict r) as [e|] eqn:E.
  - unfold pyEscapeDict in E. repeat (case_match; bool_prop; subst; [injection E as <-; reflexivity|]). done.
  - unfold pyEscapeDict in E. repeat (case_match; bool_prop; [done|]).
    destruct ((32 <=? r) && (r <=? 126)) eqn:Ea.
    + bool_prop. cbn [str1 String.append str_body]. unfold quote_char, backslash.
      assert (Hz : zb (az r) = r) by (apply zb_az; lia).
      assert (Hne : ∀ k, 0 <= k < 256 → r ≠ k → Ascii.eqb (az r) (az k) = false).
      { intros k Hk Hn. apply Ascii.eqb_neq. intros Hc. apply (f_equal zb) in Hc. rewrite Hz, zb_az in Hc by lia. done. }
      rewrite !Hne by lia. rewrite Hz, (proj2 (Z.ltb_ge _ _)), (proj2 (Z.ltb_lt _ _)) by lia.
      rewrite <- (encode_1 (az r)) by lia. by rewrite Hz.
    + destruct (Z.ltb_spec 0xffff r); [rewrite string_app_assoc; apply str_body_pair; lia|].
      apply str_body_unicode; [lia|]. unfold is_surrogate. apply not_true_is_false. intros Hs. bool_prop. lia.
Qed.

Lemma str_body_runes rs rest fuel :
  valid_runes rs → (length rs < fuel)%nat →
  str_body fuel (string_concat (pyEscapeRune <$> rs) +:+ String quote_char rest) = Some (string_of_runes rs, rest).
Proof.
  intros Hv. revert fuel. induction Hv as [|r rs Hr _ IH]; intros fuel Hf; (destruct fuel; [lia|]).
  - done.
  - cbn [fmap list_fmap string_concat]. rewrite string_app_assoc, str_body_rune by done.
    rewrite IH by (cbn in Hf; lia). done.
Qed.

Lemma pyEscapeRune_length r : (1 <= String.length (pyEscapeRune r))%nat.
Proof.
  unfold pyEscapeRune. destruct (pyEscapeDict r) as [e|] eqn:E.
  - unfold pyEscapeDict in E. repeat (case_match; [injection E as <-; cbn; lia|]). done.
  - repeat case_match; unfold unicodeEscape; cbn [String.append String.length str1]; lia.
Qed.

Lemma escaped_length rs : (length rs <= String.length (string_concat (pyEscapeRune <$> rs)))%nat.
Proof.
  induction rs as [|r rs IH]; cbn; [lia|]. rewrite string_length_app. pose proof (pyEscapeRune_length r). lia.
Qed.

Lemma read_escaped s rest :
  utf8_valid s = true →
  read_string (string_concat (pyEscapeRune <$> runes s) +:+ String quote_char rest) = Some (s, rest).
Proof.
  intros Hv. unfold read_string. rewrite str_body_runes; [by rewrite valid_utf8_runes|apply runes_valid|].
  rewrite string_length_app. cbn [String.length]. pose proof (escaped_length (runes s)). lia.
Qed.

(** A string written in CPython's ASCII JSON is read back as it
    was: quotes, control characters, every plane of Unicode. *)
Theorem pyJSONString_round_trip s rest :
  utf8_valid s = true → read_string (string_drop 1 (pyJSONString s +:+ rest)) = Some (s, rest).
Proof.
  intros Hv. unfold pyJSONString. rewrite !string_app_assoc. cbn [str1 String.append string_drop].
  change (string_drop 0 ?x) with x. by apply read_escaped.
Qed.

Lemma pyJSONString_round_trip_witness :
  read_string (string_drop 1 (pyJSONString ("é" +:+ str1 (az 0) +:+ encode_rune 0x1f600) +:+ "}")) =
  Some ("é" +:+ str1 (az 0) +:+ encode_rune 0x1f600, "}").
Proof. apply pyJSONString_round_trip. reflexivity. Defined.

(** ** The document *)

Lemma pyJSONString_eq s rest :
  pyJSONString s +:+ rest =
  String quote_char (string_concat (pyEscapeRune <$> runes s) +:+ String quote_char rest).
Proof. unfold pyJSONString. by rewrite !string_app_assoc. Qed.

(** What follows a value in the file. *)
Definition ends_value (rest : string) : Prop := ∃ b r, rest = String b r ∧ (b = ","%char ∨ b = az 10).

(** The decoder takes [t] for [v]. *)
Definition reads (t : string) (v : json) : Prop :=
  ∀ fuel rest, ends_value rest → value (S fuel) 1 (t +:+ rest) = Some (v, rest).

Lemma reads_string s : utf8_valid s = true → reads (pyJSONString s) (JStr s).
Proof.
  intros Hv fuel rest _. rewrite pyJSONString_eq. cbn [value skip_ws]. change (json_space quote_char) with false.
  cbv iota. change (Ascii.eqb quote_char ?c) with (Ascii.eqb (az 34) c). cbn [az Ascii.eqb Bool.eqb].
  change (Ascii.eqb (az 34) "{") with false. change (Ascii.eqb (az 34) "[") with false.
  change (Ascii.eqb (az 34) quote_char) with true. cbv iota. by rewrite read_escaped.
Qed.

Lemma reads_true : reads "true" (JBool true).
Proof. intros fuel rest (b & r & -> & _). reflexivity. Qed.
Lemma reads_false : reads "false" (JBool false).
Proof. intros fuel rest (b & r & -> & _). reflexivity. Qed.
Lemma reads_null : reads "null" JNull.
Proof. intros fuel rest (b & r & -> & _). reflexivity. Qed.

Lemma reads_cds z : z = 1 ∨ z = 2 ∨ z = 3 → reads (Itoa z) (JNum (Itoa z)).
Proof. intros [->|[->| ->]] fuel rest (b & r & -> & [->| ->]); reflexivity. Qed.

(** One entry of the file, its key, the text of its value and what it reads as. *)
Record entry : Type := mkEntry { e_name : string; e_text : string; e_json : json }.

Definition entry_text (e : entry) : string := " " +:+ pyJSONString e.(e_name) +:+ ": " +:+ e.(e_text).
Definition nl : string := str1 (az 10).
Definition document (es : list entry) : string :=
  "{" +:+ nl +:+ str_join ("," +:+ nl) (entry_text <$> es) +:+ nl +:+ "}".

Definition entry_ok (e : entry) : Prop :=
  utf8_valid e.(e_name) = true ∧ reads e.(e_text) e.(e_json) ∧ is_ascii e.(e_text) = true.

Lemma read_entry e fuel acc rest :
  entry_ok e → ends_value rest → (1 <= fuel)%nat →
  members (S fuel) 1 acc (skip_ws (entry_text e +:+ rest)) =
  match skip_ws rest with
  | EmptyString => None
  | String c r =>
      if Ascii.eqb c "," then members fuel 1 (acc ++ [(e.(e_name), e.(e_json))]) (skip_ws r)
      else if Ascii.eqb c "}" then Some (JObj (acc ++ [(e.(e_name), e.(e_json))]), r) else None
  end.
Proof.
  intros (Hn & Ht & _) Hr Hf. unfold entry_text. rewrite !string_app_assoc, pyJSONString_eq.
  change (skip_ws (" " +:+ ?x)) with (skip_ws x). cbn [skip_ws]. change (json_space quote_char) with false. cbv iota.
  cbn [members]. change (Ascii.eqb quote_char quote_char) with true. cbn [negb]. rewrite read_escaped by done.
  cbn [String.append skip_ws]. change (json_space ":") with false. cbv iota. change (Ascii.eqb ":" ":") with true. cbn [negb].
  destruct fuel as [|fuel]; [lia|].
  assert (E : ∀ x, value (S fuel) 1 (String " " x) = value (S fuel) 1 x) by done.
  change (value (S fuel) 1 (String " " (e_text e +:+ rest))) with (value (S fuel) 1 (e_text e +:+ rest)).
  by rewrite Ht.
Qed.

Lemma read_entries es fuel acc :
  es ≠ [] → Forall entry_ok es → (length es < fuel)%nat →
  members fuel 1 acc (skip_ws (str_join ("," +:+ nl) (entry_text <$> es) +:+ nl +:+ "}")) =
  Some (JObj (acc ++ ((λ e, (e.(e_name), e.(e_json))) <$> es)), "").
Proof.
  intros Hne H. revert fuel acc. induction H as [|e es He Hes IH]; [done|]. intros fuel acc Hf.
  destruct fuel as [|fuel]; [lia|]. cbn [length] in Hf. destruct es as [|e2 es].
  - cbn [fmap list_fmap str_join]. rewrite read_entry; [done|done|by eexists _, _; split; [|by right]|cbn in Hf; lia].
  - change (str_join ("," +:+ nl) (entry_text <$> e :: e2 :: es))
      with (entry_text e +:+ ("," +:+ nl) +:+ str_join ("," +:+ nl) (entry_text <$> e2 :: es)).
    rewrite !string_app_assoc, read_entry; [|done|by eexists _, _; split; [|by left]|lia].
    change (skip_ws ("," +:+ ?x)) with ("," +:+ x). cbn [String.append]. change (Ascii.eqb "," ",") with true. cbv iota.
    change (skip_ws (nl +:+ ?x)) with (skip_ws x). rewrite IH by (done || lia). by rewrite <- app_assoc.
Qed.

Lemma str_join_length sep l : (length l <= S (String.length (str_join sep l)))%nat ∨ sep = ""%string.
Proof.
  destruct sep as [|a sep]; [by right|left]. induction l as [|x l IH]; cbn; [lia|]. destruct l as [|y l]; [cbn; lia|].
  set (t := str_join _ (y :: l)) in *. rewrite string_length_app. cbn [String.length length] in *.
  rewrite string_length_app. lia.
Qed.

Lemma parse_document es :
  es ≠ [] → Forall entry_ok es →
  parse (document es) = Some (JObj ((λ e, (e.(e_name), e.(e_json))) <$> es)).
Proof.
  intros Hne Hes. unfold parse, document. set (body := str_join _ _ +:+ nl +:+ "}").
  assert (Hb : ∃ r, skip_ws body = String quote_char r).
  { unfold body. destruct es as [|e es]; [done|]. destruct es; eexists; reflexivity. }
  assert (Hl : (length es < String.length (nl +:+ body))%nat).
  { unfold body. destruct (str_join_length ("," +:+ nl) (entry_text <$> es)) as [H|H]; [|done].
    rewrite length_fmap in H. rewrite !string_length_app. cbn [String.length nl str1]. lia. }
  cbn [String.append String.length]. set (n := String.length (nl +:+ body)) in *.
  cbn [value skip_ws]. change (json_space "{") with false. cbv iota. change (Ascii.eqb "{" "{") with true. cbv iota.
  change (maxNestingDepth <? 0 + 1) with false. cbv iota. change (skip_ws (nl +:+ body)) with (skip_ws body).
  destruct Hb as [r Hr]. rewrite Hr. change (Ascii.eqb quote_char "}") with false. cbv iota. rewrite <- Hr.
  change (0 + 1) with 1. unfold body. rewrite read_entries by (done || lia). done.
Qed.

(** ** ASCII *)

Lemma is_ascii_concat l : Forall (fun s => is_ascii s = true) l → is_ascii (string_concat l) = true.
Proof. induction 1 as [|s l Hs _ IH]; [done|]. change (string_concat (s :: l)) with (s +:+ string_concat l). by rewrite is_ascii_app, Hs. Qed.

Lemma is_ascii_join sep l :
  is_ascii sep = true → Forall (fun s => is_ascii s = true) l → is_ascii (str_join sep l) = true.
Proof.
  intros Hsep. induction 1 as [|s l Hs Hl IH]; [done|]. destruct l; [done|].
  change (str_join sep (s :: s0 :: l)) with (s +:+ sep +:+ str_join sep (s0 :: l)).
  by rewrite !is_ascii_app, Hs, Hsep.
Qed.

Lemma is_ascii_valid s : is_ascii s = true → utf8_valid s = true.
Proof.
  intros H. unfold utf8_valid. rewrite decode_is_ascii by done. apply forallb_forall. intros c Hc.
  apply list_elem_of_In, list_elem_of_fmap in Hc as (a & -> & Ha).
  unfold is_ascii, all_bytes in H. rewrite forallb_forall in H. apply list_elem_of_In, H in Ha. bool_prop.
  unfold bad_chunk, RuneError. cbn. by rewrite (proj2 (Z.eqb_neq _ _)) by lia.
Qed.

Lemma hex_ascii n : is_ascii (hexdigit (n mod 16)) = true.
Proof.
  destruct (hexdigit_value (n mod 16)) as (a & -> & Ea); [by apply Z.mod_pos_bound|].
  unfold hex_value in Ea. cbn. rewrite andb_true_r. apply Z.ltb_lt.
  repeat case_match; bool_prop; try done; lia.
Qed.

Lemma unicodeEscape_ascii r : is_ascii (unicodeEscape r) = true.
Proof.
  unfold unicodeEscape. rewrite !nibble by lia. change (Z.land r 15) with (Z.land (Z.shiftr r 0) 15).
  rewrite nibble by lia. by rewrite !is_ascii_app, !hex_ascii.
Qed.

Lemma pyEscapeRune_ascii r : is_ascii (pyEscapeRune r) = true.
Proof.
  unfold pyEscapeRune. destruct (pyEscapeDict r) as [e|] eqn:E.
  - unfold pyEscapeDict in E. repeat (case_match; [injection E as <-; reflexivity|]). done.
  - case_match; bool_prop.
    + cbn. rewrite zb_az by lia. rewrite andb_true_r. apply Z.ltb_lt. lia.
    + case_match; by rewrite ?is_ascii_app, !unicodeEscape_ascii.
Qed.

Lemma pyJSONString_ascii s : is_ascii (pyJSONString s) = true.
Proof.
  unfold pyJSONString. rewrite !is_ascii_app, is_ascii_concat; [done|].
  apply Forall_fmap, Forall_true. intros r. apply pyEscapeRune_ascii.
Qed.

Lemma document_ascii es : Forall entry_ok es → is_ascii (document es) = true.
Proof.
  intros H. unfold document. rewrite !is_ascii_app, is_ascii_join; [done..|].
  apply Forall_fmap. eapply Forall_impl; [exact H|]. intros e (_ & _ & He). unfold entry_text.
  cbn [compose]. by rewrite !is_ascii_app, pyJSONString_ascii, He.
Qed.

(** ** The keys of a record *)

Section keys.
Context (terminalAvailable : string → result goerror bool).
Notation schema := (schema terminalAvailable).
Notation LoadFromJSON := (LoadFromJSON terminalAvailable).

(** The float of [last_checked] survives its shortest decimal form. *)
Definition float_ok (f : f64) : Prop :=
  reads (pyFloatRepr f) (JNum (pyFloatRepr f)) ∧ is_ascii (pyFloatRepr f) = true ∧
  to_float (JNum (pyFloatRepr f)) = Some f.

(** What the file can carry: text in UTF-8, one of the three sharing modes and
    a float that survives. *)
Record writable (s : Settings) : Prop := {
  w_str f : utf8_valid (get_str f s) = true;
  w_opt f v : get_opt f s = Some v → utf8_valid v = true;
  w_cds : s.(sSharedCds) = NotShared ∨ s.(sSharedCds) = SharedBetweenLabs ∨ s.(sSharedCds) = SharedBetweenUsers;
  w_float : float_ok s.(sLastChecked);
}.

(** The value a key carries over, and its JSON. *)
Definition carried (d : keyDesc) (s : Settings) : anyval :=
  match d.(kPtr) with
  | PStr f => AString (get_str f s)
  | PBool f => ABool (get_bool f s)
  | PFloat => AFloat s.(sLastChecked)
  | PCds => ACds s.(sSharedCds)
  | PNStr f => AStrPtr (get_opt f s)
  end.

Definition carried_json (d : keyDesc) (s : Settings) : json :=
  match d.(kPtr) with
  | PStr f => JStr (get_str f s)
  | PBool f => JBool (get_bool f s)
  | PFloat => JNum (pyFloatRepr s.(sLastChecked))
  | PCds => JNum (Itoa s.(sSharedCds))
  | PNStr f => match get_opt f s with None => JNull | Some v => JStr v end
  end.

Definition entry_of (s : Settings) (d : keyDesc) : entry := mkEntry d.(kName) (encodeValue d s) (carried_json d s).

Lemma entry_of_ok s d : writable s → utf8_valid d.(kName) = true → entry_ok (entry_of s d).
Proof.
  intros [Hs Ho Hc (Hf1 & Hf2 & _)] Hn. split; [done|]. unfold entry_of, encodeValue, carried_json. cbn [e_text e_json].
  destruct (kPtr d) as [f|f| | |f].
  - split; [by apply reads_string|apply pyJSONString_ascii].
  - destruct (get_bool f s); split; (apply reads_true || apply reads_false || done).
  - done.
  - split; [by apply reads_cds|]. by destruct Hc as [->|[->| ->]].
  - destruct (get_opt f s) as [v|] eqn:E; [|split; [apply reads_null|done]].
    split; [by eapply reads_string, Ho|apply pyJSONString_ascii].
Qed.

Lemma decode_carried s d : writable s → decode_value d.(kPtr) (carried_json d s) = Some (carried d s).
Proof.
  intros [Hs Ho Hc (_ & _ & Hf)]. unfold decode_value, carried_json, carried.
  destruct (kPtr d) as [f|f| | |f]; try done.
  - by rewrite Hf.
  - by destruct Hc as [->|[->| ->]].
  - by destruct (get_opt f s).
Qed.

(** The schema of any record: names in ASCII and told apart. *)
Lemma schema_names s keys :
  schema s = Ok keys → NoDup (kName <$> keys) ∧ Forall (fun d => utf8_valid d.(kName) = true) keys ∧ keys ≠ [].
Proof.
  unfold Settings.schema, addonKeys. destruct (String.eqb _ "Docker"); [|destruct (String.eqb _ "Kubernetes")]; cbn [rbind].
  3: done.
  all: intros [= <-]; split; [apply (bool_decide_unpack _); vm_compute; done|]; split; [|done]; repeat constructor.
Qed.

Lemma Encode_document s keys :
  schema s = Ok keys → Encode terminalAvailable s = Ok (document (entry_of s <$> keys)).
Proof. intros E. unfold Encode. rewrite E. cbn [rbind]. unfold document. by rewrite <- list_fmap_compose. Qed.

(** *** Loading *)

Lemma obj_map_list l : obj_map l = list_to_map (reverse l).
Proof.
  unfold obj_map. rewrite <- (reverse_involutive l) at 1. induction (reverse l) as [|[k v] r IH]; [done|].
  rewrite reverse_cons, foldl_snoc, IH. done.
Qed.

Lemma obj_map_lookup l k v : NoDup l.*1 → (k, v) ∈ l → obj_map l !! k = Some v.
Proof.
  intros Hn Hin. rewrite obj_map_list. apply elem_of_list_to_map; [|by apply elem_of_reverse].
  by rewrite fmap_reverse, reverse_Permutation.
Qed.

(** The keys of [ks] taken from [s], put into [s0]. *)
Definition overlay (ks : list keyDesc) (s s0 : Settings) : Settings := foldl (fun st d => copyKey d st s) s0 ks.

Lemma load_keys_overlay raw ks s s0 :
  writable s → (∀ d, d ∈ ks → raw !! d.(kName) = Some (carried_json d s)) →
  load_keys raw ks s0 = (overlay ks s s0, Ok tt).
Proof.
  intros Hw. revert s0. induction ks as [|d ks IH]; intros s0 H; [done|].
  unfold load_keys. cbn [sfor]. unfold sbind. rewrite H by left. unfold Settings.decode. rewrite decode_carried by done.
  apply IH. intros d' Hd. apply H. by right.
Qed.

Lemma resetAddon_overlay s addon :
  addonKeys s.(sManagerType) = Ok addon →
  resetAddon s = (overlay addon defaultSettings s, Ok addon).
Proof. intros E. unfold resetAddon. by rewrite E. Qed.

Lemma overlay_manager s s0 : (overlay (baseKeys terminalAvailable) s s0).(sManagerType) = s.(sManagerType).
Proof. by destruct s, s0. Qed.

Lemma overlay_reset s s0 keys addon :
  schema s = Ok keys → addonKeys s.(sManagerType) = Ok addon →
  overlay addon s (overlay addon defaultSettings (overlay (baseKeys terminalAvailable) s s0)) = overlay keys s s0.
Proof.
  unfold Settings.schema. intros E1 E2. rewrite E2 in E1. injection E1 as <-. unfold addonKeys in E2.
  destruct (String.eqb _ "Docker"); [|destruct (String.eqb _ "Kubernetes"); [|done]]; injection E2 as <-; by destruct s, s0.
Qed.

Lemma overlay_get s s0 keys d :
  schema s = Ok keys → d ∈ keys → getValue d (overlay keys s s0) = getValue d s.
Proof.
  unfold Settings.schema, addonKeys. destruct (String.eqb _ "Docker"); [|destruct (String.eqb _ "Kubernetes"); [|done]];
    cbn [rbind]; intros [= <-] Hd; destruct s, s0; cbn in Hd; set_unfold; by destruct_or?; subst.
Qed.

Lemma schema_manager s s' : s'.(sManagerType) = s.(sManagerType) → schema s' = schema s.
Proof. unfold Settings.schema. by intros ->. Qed.

Lemma overlay_schema s s0 keys : schema s = Ok keys → schema (overlay keys s s0) = schema s.
Proof.
  intros E. apply schema_manager. revert E. unfold Settings.schema, addonKeys.
  destruct (String.eqb _ "Docker"); [|destruct (String.eqb _ "Kubernetes"); [|done]]; intros [= <-]; by destruct s, s0.
Qed.

Lemma encodeValue_get d s s' : getValue d s' = getValue d s → encodeValue d s' = encodeValue d s.
Proof.
  unfold getValue, encodeValue. destruct (kPtr d) as [f|f| | |f]; try by intros [= ->].
  destruct (get_opt f s), (get_opt f s'); by intros [= ->] || done.
Qed.

Lemma lookup_elem s name d keys :
  schema s = Ok keys → Settings.lookup terminalAvailable s name = Ok d → d ∈ keys ∧ d.(kName) = name.
Proof.
  intros E. unfold Settings.lookup. rewrite E. cbn [rbind]. unfold of_option.
  destruct (List.find _ keys) as [d'|] eqn:F; [|done]. intros [= ->]. apply find_some in F as [F1 F2].
  split; [by apply list_elem_of_In|by apply String.eqb_eq].
Qed.

Lemma encoded_settings_load s s0 data :
  writable s → Encode terminalAvailable s = Ok data →
  ∃ s', LoadFromJSON data s0 = (s', Ok tt) ∧
        (∀ name, Get terminalAvailable s' name = Get terminalAvailable s name) ∧
        Encode terminalAvailable s' = Ok data.
Proof.
  intros Hw E. destruct (schema s) as [keys|] eqn:Es; [|unfold Encode in E; by rewrite Es in E].
  destruct (schema_names _ _ Es) as (Hnd & Hu & Hne).
  assert (Hes : Forall entry_ok (entry_of s <$> keys)).
  { apply Forall_fmap. eapply Forall_impl; [exact Hu|]. intros d Hd. by apply entry_of_ok. }
  rewrite (Encode_document s keys Es) in E. injection E as <-.
  assert (Ea : ∃ addon, addonKeys s.(sManagerType) = Ok addon ∧ keys = baseKeys terminalAvailable ++ addon).
  { unfold Settings.schema in Es. destruct (addonKeys _) as [addon|]; [|done]. injection Es as <-. by exists addon. }
  destruct Ea as (addon & Ea & Ek).
  exists (overlay keys s s0). split; [|split].
  - unfold Settings.LoadFromJSON. rewrite is_ascii_valid by by apply document_ascii. cbn [negb].
    rewrite parse_document by (done || by destruct keys). cbn [mbind option_bind to_map].
    set (raw := obj_map _).
    assert (Hraw : ∀ d, d ∈ keys → raw !! d.(kName) = Some (carried_json d s)).
    { intros d Hd. apply obj_map_lookup.
      - rewrite <- !list_fmap_compose. exact Hnd.
      - rewrite <- list_fmap_compose. apply list_elem_of_fmap. by exists d. }
    unfold sbind. rewrite (load_keys_overlay _ _ s) by (done || (intros d Hd; apply Hraw; rewrite Ek; apply elem_of_app; auto)).
    rewrite (resetAddon_overlay _ addon) by by rewrite overlay_manager.
    rewrite (load_keys_overlay _ _ s) by (done || (intros d Hd; apply Hraw; rewrite Ek; apply elem_of_app; auto)).
    by rewrite (overlay_reset s s0 keys addon).
  - intros name. unfold Get, Settings.lookup. rewrite (overlay_schema s s0 keys), Es by done. cbn [rbind].
    destruct (List.find _ keys) as [d|] eqn:F; [|done]. cbn. apply find_some in F as [F _].
    f_equal. apply (overlay_get s s0 keys); [done|]. by apply list_elem_of_In.
  - unfold Encode. rewrite (overlay_schema s s0 keys), Es by done. cbn [rbind]. unfold document.
    rewrite <- list_fmap_compose. do 4 f_equal. unfold nl. f_equal. apply list_fmap_ext. intros i d Hd. unfold compose, entry_text.
    cbn [entry_of e_name e_text]. do 3 f_equal. apply encodeValue_get, (overlay_get s s0 keys); [done|]. by eapply list_elem_of_lookup_2.
Qed.


(** *** Setting a key *)

Lemma put_get_same d v s :
  match d.(kPtr), v with
  | PStr _, AString _ | PBool _, ABool _ | PFloat, AFloat _ | PCds, ACds _ | PNStr _, AStrPtr _ => True
  | _, _ => False
  end → carried d (put d.(kPtr) (Some v) s) = v.
Proof.
  unfold carried, put. destruct (kPtr d) as [f|f| | |f], v; try done; intros _; f_equal; by destruct f.
Qed.

Lemma put_get_other d d' v s : d'.(kPtr) ≠ d.(kPtr) → getValue d' (put d.(kPtr) v s) = getValue d' s.
Proof.
  unfold getValue, put. intros Hne. destruct (kPtr d') as [f'|f'| | |f'], (kPtr d) as [f|f| | |f], v as [[]|]; try done;
    f_equal; try (by destruct f'); try (destruct f, f'; done).
  all: destruct f', f; done.
Qed.

Lemma schema_pointers s keys : schema s = Ok keys → NoDup (kPtr <$> keys).
Proof.
  unfold Settings.schema, addonKeys. destruct (String.eqb _ "Docker"); [|destruct (String.eqb _ "Kubernetes")]; cbn [rbind].
  3: done.
  all: intros [= <-]; apply (bool_decide_unpack _); vm_compute; done.
Qed.

(** The value [Set] stores for one of a type the key takes. *)
Definition normal (d : keyDesc) (v : anyval) : option anyval :=
  match d.(kPtr), v with
  | PStr _, AString _ | PBool _, ABool _ | PFloat, AFloat _ | PCds, ACds _ | PNStr _, AStrPtr _ => Some v
  | PCds, AInt z => Some (ACds z)
  | PNStr _, ANil => Some (AStrPtr None)
  | PNStr _, AString s => Some (AStrPtr (Some s))
  | _, _ => None
  end.

Lemma normal_type d v w s : normal d v = Some w → carried d (put d.(kPtr) (Some w) s) = w.
Proof.
  intros H. apply put_get_same. unfold normal in H. destruct (kPtr d), v; try done; by injection H as <-.
Qed.

Lemma setValue_spec d s v :
  d ∈ baseKeys terminalAvailable ++ dockerKeys ++ kubernetesKeys →
  setValue d s v =
    match normal d v with
    | None => (s, Err (must_be d))
    | Some w => match check_value d s w with
                | Ok _ => (put d.(kPtr) (Some w) s, Ok tt)
                | Err e => (s, Err e)
                end
    end.
Proof.
  intros Hd. unfold setValue, normal, check_value. destruct (kPtr d) as [f|f| | |f] eqn:Ep; destruct v; try done.
  all: assert (kValidate d = None) as -> by (set_unfold in Hd; destruct_or?; subst; done); done.
Qed.

Lemma schema_form s keys :
  schema s = Ok keys →
  ∃ addon, addonKeys s.(sManagerType) = Ok addon ∧ keys = baseKeys terminalAvailable ++ addon ∧
    (addon = dockerKeys ∨ addon = kubernetesKeys).
Proof.
  unfold Settings.schema. destruct (addonKeys _) as [addon|] eqn:Ea; [|done]. intros [= <-]. exists addon.
  split; [done|]. split; [done|]. unfold addonKeys in Ea.
  destruct (String.eqb _ "Docker"); [|destruct (String.eqb _ "Kubernetes"); [|done]]; injection Ea as <-; auto.
Qed.

Lemma schema_elem s keys d :
  schema s = Ok keys → d ∈ keys → d ∈ baseKeys terminalAvailable ++ dockerKeys ++ kubernetesKeys.
Proof. intros (addon & _ & -> & [->| ->])%schema_form; rewrite !elem_of_app; tauto. Qed.

Lemma known_manager m : str_in m availableManagers = true → ∃ addon, addonKeys m = Ok addon.
Proof.
  intros H%str_in_elem. set_unfold in H. destruct_or?; subst; vm_compute; by eexists.
Qed.

Lemma manager_checked d s v w :
  d ∈ baseKeys terminalAvailable ++ dockerKeys ++ kubernetesKeys → d.(kName) = "manager_type" →
  normal d v = Some w → check_value d s w = Ok tt →
  d.(kPtr) = PStr ManagerType ∧ ∃ m, w = AString m ∧ str_in m availableManagers = true.
Proof.
  intros Hd Hn Hv Hc. assert (E : d = mkKey "manager_type" KindString (PStr ManagerType) (Some (λ _, validateManagerTypeValue))).
  { set_unfold in Hd. destruct_or?; subst; done. }
  subst d. split; [done|]. unfold normal in Hv. cbn in Hv. destruct v as [m| | | | | | |]; try done. injection Hv as <-. exists m. split; [done|].
  unfold check_value in Hc. cbn [kValidate] in Hc. unfold validateManagerTypeValue in Hc.
  by destruct (str_in m availableManagers).
Qed.

(** Resetting the keys of a backend leaves the base keys. *)
Lemma reset_base s addon d :
  addonKeys s.(sManagerType) = Ok addon → d ∈ baseKeys terminalAvailable →
  carried d (overlay addon defaultSettings s) = carried d s ∧
  getValue d (overlay addon defaultSettings s) = getValue d s.
Proof.
  unfold addonKeys. destruct (String.eqb _ "Docker"); [|destruct (String.eqb _ "Kubernetes"); [|done]];
    intros [= <-] Hd; set_unfold in Hd; destruct_or?; subst; by destruct s.
Qed.

Lemma reset_addon s addon d :
  addonKeys s.(sManagerType) = Ok addon → d ∈ addon →
  getValue d (overlay addon defaultSettings s) = getValue d defaultSettings.
Proof.
  unfold addonKeys. destruct (String.eqb _ "Docker"); [|destruct (String.eqb _ "Kubernetes"); [|done]];
    intros [= <-] Hd; set_unfold in Hd; destruct_or?; subst; by destruct s.
Qed.

Lemma Set_outcome name v s :
  (∃ e, Settings.Set_ terminalAvailable name v s = (s, Err e)) ∨
  (∃ d w s' keys,
    Settings.Set_ terminalAvailable name v s = (s', Ok tt) ∧ schema s = Ok keys ∧ d ∈ keys ∧ d.(kName) = name ∧
    normal d v = Some w ∧ check_value d s w = Ok tt ∧ carried d s' = w ∧
    (∀ d', d' ∈ (if decide (s'.(sManagerType) = s.(sManagerType)) then keys else baseKeys terminalAvailable) →
       d'.(kPtr) ≠ d.(kPtr) → getValue d' s' = getValue d' s) ∧
    (s'.(sManagerType) ≠ s.(sManagerType) → ∀ addon, addonKeys s'.(sManagerType) = Ok addon →
       ∀ d', d' ∈ addon → getValue d' s' = getValue d' defaultSettings)).
Proof.
  unfold Settings.Set_. destruct (Settings.lookup terminalAvailable s name) as [d|e] eqn:El; [|left; by exists e].
  destruct (schema s) as [keys|e] eqn:Es; [|unfold Settings.lookup in El; by rewrite Es in El].
  destruct (lookup_elem s name d keys Es El) as [Hd Hn]. pose proof (schema_elem s keys d Es Hd) as Hd'.
  rewrite setValue_spec by done. destruct (normal d v) as [w|] eqn:Ev; [|left; by eexists].
  destruct (check_value d s w) as [[]|e] eqn:Ec; [|left; by exists e].
  right. set (s1 := put (kPtr d) (Some w) s). exists d, w.
  destruct (String.eqb d.(kName) "manager_type" && negb (String.eqb s1.(sManagerType) s.(sManagerType))) eqn:Em.
  - apply andb_true_iff in Em as [En Ene]. apply String.eqb_eq in En. apply negb_true_iff, String.eqb_neq in Ene.
    destruct (manager_checked d s v w Hd' En Ev Ec) as (Ep & m & -> & Hm).
    assert (E1 : s1.(sManagerType) = m) by (unfold s1; by rewrite Ep). destruct (known_manager m Hm) as [addon Ea].
    rewrite (resetAddon_overlay s1 addon) by by rewrite E1.
    exists (overlay addon defaultSettings s1), keys. rewrite <- E1 in Ea.
    assert (Hb : d ∈ baseKeys terminalAvailable).
    { clear -Hd' En. rewrite elem_of_app in Hd'. destruct Hd' as [|H]; [done|]. set_unfold in H. destruct_or?; by subst. }
    assert (E2 : (overlay addon defaultSettings s1).(sManagerType) = s1.(sManagerType)).
    { pose proof (reset_base s1 addon d Ea Hb) as [H _]. unfold carried in H. rewrite Ep in H. by injection H. }
    do 6 (split; [done|]). split; [|split].
    + rewrite (proj1 (reset_base s1 addon d Ea Hb)). by apply normal_type with v.
    + rewrite E2, decide_False by done. intros d2 Hd2 Hne. rewrite (proj2 (reset_base s1 addon d2 Ea Hd2)).
      by apply put_get_other.
    + intros _ addon' Ea'. rewrite E2, Ea in Ea'. injection Ea' as <-. intros d2 Hd2. by apply reset_addon.
  - assert (E1 : s1.(sManagerType) = s.(sManagerType)).
    { apply andb_false_iff in Em as [En|Ene]; [|by apply negb_false_iff, String.eqb_eq in Ene].
      apply String.eqb_neq in En. unfold s1. clear -Hd' En Ev. unfold normal in Ev.
      set_unfold in Hd'. destruct_or?; subst d; try (by destruct w). }
    exists s1, keys. do 6 (split; [done|]). split; [|split].
    + by apply normal_type with v.
    + intros d2 _ Hne. by apply put_get_other.
    + done.
Qed.

(** C23: setting a key either refuses the value and changes nothing,
    or stores it, and every other key keeps its value; but a new manager type
    puts the keys of its backend back to their defaults. *)
Theorem Set_exact name v s :
  (∃ e, Settings.Set_ terminalAvailable name v s = (s, Err e)) ∨
  (∃ d w s' keys,
    Settings.Set_ terminalAvailable name v s = (s', Ok tt) ∧ schema s = Ok keys ∧ d ∈ keys ∧ d.(kName) = name ∧
    normal d v = Some w ∧ check_value d s w = Ok tt ∧ carried d s' = w ∧
    (∀ d', d' ∈ (if decide (s'.(sManagerType) = s.(sManagerType)) then keys else baseKeys terminalAvailable) →
       d'.(kPtr) ≠ d.(kPtr) → getValue d' s' = getValue d' s) ∧
    (s'.(sManagerType) ≠ s.(sManagerType) → ∀ addon, addonKeys s'.(sManagerType) = Ok addon →
       ∀ d', d' ∈ addon → getValue d' s' = getValue d' defaultSettings)).
Proof. apply Set_outcome. Qed.

(** A value of the kind a key announces, read and written. *)
Definition of_kind (k : Kind) (v : anyval) : bool :=
  match k, v with
  | KindString, AString _ | KindBool, ABool _ | KindFloat, AFloat _ | KindInt, ACds _
  | KindNullableString, (ANil | AString _) => true
  | _, _ => false
  end.

Definition takes_kind (k : Kind) (v : anyval) : bool :=
  of_kind k v || match k, v with KindInt, AInt _ | KindNullableString, AStrPtr _ => true | _, _ => false end.

Lemma kind_pointer d :
  d ∈ baseKeys terminalAvailable ++ dockerKeys ++ kubernetesKeys →
  d.(kKind) = match d.(kPtr) with
              | PStr _ => KindString | PBool _ => KindBool | PFloat => KindFloat | PCds => KindInt
              | PNStr _ => KindNullableString
              end.
Proof. intros Hd. set_unfold in Hd. destruct_or?; by subst. Qed.

(** C24: the schema is typed: a key has the kind it announces, and
    takes values of that kind only, whatever has been set or loaded. *)
Theorem keys_are_typed s name k :
  Settings_Kind terminalAvailable s name = Ok k →
  (∃ v, Get terminalAvailable s name = Ok v ∧ of_kind k v = true) ∧
  (∀ v, takes_kind k v = false → ∃ e, Settings.Set_ terminalAvailable name v s = (s, Err e)).
Proof.
  unfold Settings_Kind, Get, Settings.Set_. destruct (Settings.lookup terminalAvailable s name) as [d|e] eqn:El; [|done].
  cbn [rbind]. intros [= <-].
  destruct (schema s) as [keys|e] eqn:Es; [|unfold Settings.lookup in El; by rewrite Es in El].
  destruct (lookup_elem s name d keys Es El) as [Hd Hn]. pose proof (schema_elem s keys d Es Hd) as Hd'.
  rewrite (kind_pointer d Hd'). split.
  - eexists. split; [done|]. unfold getValue. destruct (kPtr d); try done. by destruct (get_opt f s).
  - intros v Hv. rewrite setValue_spec by done.
    assert (normal d v = None) as -> by (unfold normal; by destruct (kPtr d), v). by eexists.
Qed.

(** A file's [null] counts as the zero value of any key. *)
Theorem null_is_zero d s :
  ∃ v, decode_value d.(kPtr) JNull = Some v ∧
       v = match d.(kPtr) with
           | PStr _ => AString "" | PBool _ => ABool false | PFloat => AFloat (S754_zero false)
           | PCds => ACds 0 | PNStr _ => AStrPtr None
           end ∧
       Settings.decode d s JNull = (put d.(kPtr) (Some v) s, Ok tt).
Proof. unfold Settings.decode. destruct (kPtr d); by eexists. Qed.
End keys.

(** ** Witnesses *)

Definition no_terminal (t : string) : result goerror bool := Ok false.

Lemma defaults_writable : writable defaultSettings.
Proof.
  split.
  - by intros [].
  - intros [] v H; try discriminate H; by injection H as <-.
  - by left.
  - split; [|done]. intros fuel rest (b & r & -> & [->| ->]); reflexivity.
Qed.


Lemma keys_are_typed_witness :
  ∃ e, Settings.Set_ no_terminal "shared_cds" (AString "1") defaultSettings = (defaultSettings, Err e).
Proof. apply (keys_are_typed no_terminal defaultSettings "shared_cds" KindInt); reflexivity. Defined.
