(* ===== verification/FloatInt.v ===== *)
(** * Arithmetic of binary64

    Integers of at most 53 bits are floats, and the quotient of two is rounded to the
    right side of every integer.  Rounding depends on the rational that is rounded
    alone, what is within half of the last place of a float is rounded to it, and so the
    shortest decimal that [strconv.FormatFloat] looks for exists and reads back. *)

From S2P Require Export Scalar.
From Stdlib Require Import SpecFloat.
Local Open Scope Z_scope.

Lemma digits2_pos_log m : Z.pos (digits2_pos m) = Z.log2 (Z.pos m) + 1.
Proof.
  induction m as [m IH|m IH|]; cbn [digits2_pos]; [| |done]; rewrite Pos2Z.inj_succ, IH.
  - change (Z.pos m~1) with (2 * Z.pos m + 1). rewrite Z.log2_succ_double by lia. lia.
  - change (Z.pos m~0) with (2 * Z.pos m). rewrite Z.log2_double by lia. lia.
Qed.

Lemma iter_xO d m : Z.pos (Pos.iter xO m d) = Z.pos m * 2 ^ Z.pos d.
Proof.
  induction d as [|d IH] using Pos.peano_ind; [cbn; lia|]. rewrite Pos.iter_succ, Pos2Z.inj_xO, IH.
  rewrite Pos2Z.inj_succ, Z.pow_succ_r by lia. lia.
Qed.

(** A mantissa of 53 bits needs no rounding. *)
Lemma round_exact sx m e :
  Z.pos (digits2_pos m) = 53 → -1074 <= e <= 971 →
  binary_round_aux 53 1024 sx (Z.pos m) e loc_Exact = S754_finite sx m e.
Proof.
  intros Hd He.
  assert (Hs : ∀ l, shr_fexp 53 1024 (Z.pos m) e l = (shr_record_of_loc (Z.pos m) l, e)).
  { intros l. unfold shr_fexp, Zdigits2. rewrite Hd.
    assert (E : fexp 53 1024 (53 + e) - e = 0) by (unfold fexp, emin; lia). by rewrite E. }
  unfold binary_round_aux. rewrite Hs. cbn [shr_record_of_loc shr_m loc_of_shr_record round_nearest_even].
  rewrite Hs. cbn [shr_record_of_loc shr_m]. by rewrite (proj2 (Z.leb_le e (1024 - 53))) by lia.
Qed.

Lemma float_of_pos m :
  Z.pos m < 2 ^ 53 → floatToBigInt (binary_normalize 53 1024 (Z.pos m) 0 false) = Ok (Z.pos m).
Proof.
  intros Hm. unfold binary_normalize, binary_round. rewrite Z.add_0_r.
  pose proof (digits2_pos_log m) as Hd. pose proof (Z.log2_nonneg (Z.pos m)) as H0.
  assert (Hl : Z.log2 (Z.pos m) < 53) by (apply Z.log2_lt_pow2; lia).
  assert (Ef : fexp 53 1024 (Z.pos (digits2_pos m)) = Z.pos (digits2_pos m) - 53)
    by (rewrite Hd; unfold fexp, emin; lia).
  unfold shl_align. rewrite Ef, Z.sub_0_r. destruct (Z.pos (digits2_pos m) - 53) as [|d|d] eqn:Ed.
  - rewrite round_exact by lia. cbn [floatToBigInt Z.leb Z.compare]. change (2 ^ 0) with 1. by rewrite Z.mul_1_r.
  - lia.
  - rewrite round_exact.
    + cbn [floatToBigInt]. change (0 <=? Z.neg d) with false. cbv iota. change (- Z.neg d) with (Z.pos d).
      by rewrite iter_xO, Z.div_mul by lia.
    + rewrite digits2_pos_log, iter_xO, Z.log2_mul_pow2 by lia. lia.
    + lia.
Qed.

(** Decimal digits. *)
Lemma float_of_int z : 0 <= z < 2 ^ 53 → floatToBigInt (f64_of_decimal false z 0) = Ok z.
Proof.
  intros Hz. destruct z as [|m|m]; [done| |lia]. unfold f64_of_decimal. change (0 <=? 0) with true. cbv iota zeta.
  change (10 ^ 0) with 1. rewrite Z.mul_1_r. apply float_of_pos. lia.
Qed.

(** * Quotients of integers in binary64

    The quotient of two integers, computed in binary64, lies on the right side of
    every integer: rounding takes it to an integer at most. *)

(** ** Shifting right, with what is lost *)

Definition inexact (mrs : shr_record) : bool := shr_r mrs || shr_s mrs.

Lemma shr_1_spec mrs : 0 <= shr_m mrs →
  shr_m (shr_1 mrs) = shr_m mrs / 2 ∧
  (inexact (shr_1 mrs) = true → ¬ (2 | shr_m mrs) ∨ inexact mrs = true).
Proof.
  destruct mrs as [m r s]. cbn [shr_m]. intros Hm.
  assert (Hodd : ∀ k, ¬ (2 | 2 * k + 1)) by (intros k [j Hj]; lia).
  destruct m as [|[p|p|]|p]; [| | | |lia]; unfold inexact; cbn [shr_1 shr_m shr_r shr_s].
  - split; [done|]. destruct r, s; auto.
  - split; [|left; replace (Z.pos p~1) with (2 * Z.pos p + 1) by lia; apply Hodd].
    replace (Z.pos p~1) with (1 + Z.pos p * 2) by lia. by rewrite Z.div_add by lia.
  - split; [change (Z.pos p~0) with (2 * Z.pos p); symmetry; rewrite Z.mul_comm; by apply Z.div_mul|].
    destruct r, s; auto.
  - split; [done|]. left. apply (Hodd 0).
Qed.

Lemma iter_pos_shr p : ∀ mrs, 0 <= shr_m mrs →
  shr_m (iter_pos shr_1 p mrs) = shr_m mrs / 2 ^ Z.pos p ∧
  (inexact (iter_pos shr_1 p mrs) = true → ¬ (2 ^ Z.pos p | shr_m mrs) ∨ inexact mrs = true).
Proof.
  assert (Hstep : ∀ a b m, 0 <= m → 0 < a → 0 < b → ¬ (b | m / a) → ¬ (a * b | m)).
  { intros a b m Hm Ha Hb Hn [k ->]. apply Hn. exists k.
    replace (k * (a * b)) with (k * b * a) by ring. by rewrite Z.div_mul by lia. }
  assert (Hdiv : ∀ a b m, 0 < a → 0 < b → ¬ (a | m) → ¬ (a * b | m)).
  { intros a b m Ha Hb Hn [k ->]. apply Hn. exists (k * b). ring. }
  assert (Htwice : ∀ q, (∀ mrs, 0 <= shr_m mrs →
      shr_m (iter_pos shr_1 q mrs) = shr_m mrs / 2 ^ Z.pos q ∧
      (inexact (iter_pos shr_1 q mrs) = true → ¬ (2 ^ Z.pos q | shr_m mrs) ∨ inexact mrs = true)) →
    ∀ mrs, 0 <= shr_m mrs →
      shr_m (iter_pos shr_1 q (iter_pos shr_1 q mrs)) = shr_m mrs / 2 ^ (Z.pos q + Z.pos q) ∧
      (inexact (iter_pos shr_1 q (iter_pos shr_1 q mrs)) = true → ¬ (2 ^ (Z.pos q + Z.pos q) | shr_m mrs) ∨ inexact mrs = true)).
  { intros q IH mrs Hm. destruct (IH mrs Hm) as [E1 I1].
    assert (Hpow : 0 < 2 ^ Z.pos q) by (apply Z.pow_pos_nonneg; lia).
    assert (Hm' : 0 <= shr_m (iter_pos shr_1 q mrs)) by (rewrite E1; apply Z.div_pos; lia).
    destruct (IH _ Hm') as [E2 I2]. rewrite Z.pow_add_r by lia. rewrite E1 in E2, I2. split.
    - rewrite E2, Z.div_div by lia. done.
    - intros Hi. destruct (I2 Hi) as [Hn|Hn]; [left; by apply Hstep|].
      destruct (I1 Hn) as [Hn'|Hn']; [left; by apply Hdiv|by right]. }
  induction p as [p IH|p IH|]; intros mrs Hm; cbn [iter_pos].
  - destruct (shr_1_spec mrs Hm) as [E1 I1].
    assert (Hm' : 0 <= shr_m (shr_1 mrs)) by (rewrite E1; apply Z.div_pos; lia).
    destruct (Htwice p IH _ Hm') as [E2 I2]. rewrite E1 in E2, I2.
    assert (Hp : 2 ^ Z.pos p~1 = 2 * 2 ^ (Z.pos p + Z.pos p))
      by (rewrite <- Z.pow_succ_r by lia; f_equal; lia).
    assert (Hpow : 0 < 2 ^ (Z.pos p + Z.pos p)) by (apply Z.pow_pos_nonneg; lia).
    rewrite Hp. split.
    + rewrite E2, Z.div_div by lia. done.
    + intros Hi. destruct (I2 Hi) as [Hn|Hn]; [left; by apply Hstep|].
      destruct (I1 Hn) as [Hn'|Hn']; [left; by apply Hdiv|by right].
  - replace (Z.pos p~0) with (Z.pos p + Z.pos p) by lia. by apply Htwice.
  - change (2 ^ 1) with 2. by apply shr_1_spec.
Qed.

Lemma Zdigits2_log m : 0 < m → Zdigits2 m = Z.log2 m + 1.
Proof. destruct m as [|m|m]; [lia| |lia]. intros _. apply digits2_pos_log. Qed.

Lemma record_inexact m l : inexact (shr_record_of_loc m l) = true → l ≠ loc_Exact.
Proof. by intros H ->. Qed.

Lemma record_m m l : shr_m (shr_record_of_loc m l) = m.
Proof. by destruct l as [|[]]. Qed.

(** Rounding a mantissa of at least 53 bits: the one cut off, or one more when
    something was lost, with a factor of two moved to the exponent at most. *)
Lemma round_spec m e l n :
  0 < m → 0 <= n → Z.log2 m = 52 + n → -1000 <= e → e + n <= 900 →
  ∃ b e2 M, binary_round_aux 53 1024 false m e l = S754_finite false b e2 ∧
    (M = m / 2 ^ n ∨ M = m / 2 ^ n + 1 ∧ (¬ (2 ^ n | m) ∨ l ≠ loc_Exact)) ∧
    (e2 = e + n ∧ Z.pos b = M ∨ e2 = e + n + 1 ∧ 2 * Z.pos b = M ∧ M = 2 ^ 53).
Proof.
  intros Hm Hn Hlog He1 He2.
  set (mrs := if decide (n = 0) then shr_record_of_loc m l else iter_pos shr_1 (Z.to_pos n) (shr_record_of_loc m l)).
  assert (Hshr : shr_fexp 53 1024 m e l = (mrs, e + n)).
  { unfold shr_fexp, fexp, emin. rewrite Zdigits2_log, Hlog by lia.
    replace (Z.max (52 + n + 1 + e - 53) (3 - 1024 - 53) - e) with n by lia. unfold shr, mrs.
    destruct (decide (n = 0)) as [->|Hn0]; [by rewrite Z.add_0_r|].
    destruct n as [|n|n]; [done|done|lia]. }
  assert (Hmrs : shr_m mrs = m / 2 ^ n ∧ (inexact mrs = true → ¬ (2 ^ n | m) ∨ l ≠ loc_Exact)).
  { unfold mrs. destruct (decide (n = 0)) as [->|Hn0].
    - rewrite record_m, Z.pow_0_r, Z.div_1_r. split; [done|]. intros Hi. right. by eapply record_inexact.
    - destruct (iter_pos_shr (Z.to_pos n) (shr_record_of_loc m l)) as [E I]; [rewrite record_m; lia|].
      rewrite record_m, Z2Pos.id in * by lia. split; [done|]. intros Hi.
      destruct (I Hi) as [?|?]; [by left|right; by eapply record_inexact]. }
  destruct Hmrs as [Em Im].
  assert (HA : 2 ^ 52 <= m / 2 ^ n < 2 ^ 53).
  { pose proof (Z.log2_spec m Hm) as [Hlo Hhi]. rewrite Hlog in Hlo, Hhi.
    assert (Hpow : 0 < 2 ^ n) by (apply Z.pow_pos_nonneg; lia). split.
    - apply Z.div_le_lower_bound; [done|]. rewrite <- Z.pow_add_r by lia. by rewrite Z.add_comm.
    - apply Z.div_lt_upper_bound; [done|]. rewrite <- Z.pow_add_r by lia.
      by replace (n + 53) with (Z.succ (52 + n)) by lia. }
  set (M := round_nearest_even (shr_m mrs) (loc_of_shr_record mrs)).
  assert (HM : M = m / 2 ^ n ∨ M = m / 2 ^ n + 1 ∧ inexact mrs = true).
  { subst M. rewrite Em. clear. destruct mrs as [k [] []]; cbn; auto. destruct (Z.even _); auto. }
  assert (Hup : M = m / 2 ^ n ∨ M = m / 2 ^ n + 1 ∧ (¬ (2 ^ n | m) ∨ l ≠ loc_Exact)) by (destruct HM as [?|[??]]; auto).
  unfold binary_round_aux. rewrite Hshr. fold M.
  assert (HMr : 2 ^ 52 <= M <= 2 ^ 53) by (destruct HM as [-> |[-> _]]; lia).
  destruct (decide (M = 2 ^ 53)) as [EM|EM].
  - assert (Hs2 : shr_fexp 53 1024 M (e + n) loc_Exact = (Build_shr_record (2 ^ 52) false false, e + n + 1)).
    { rewrite EM. unfold shr_fexp. change (Zdigits2 (2 ^ 53)) with 54. unfold fexp, emin.
      replace (Z.max (54 + (e + n) - 53) (3 - 1024 - 53) - (e + n)) with 1 by lia. reflexivity. }
    rewrite Hs2. change (2 ^ 52) with 4503599627370496. cbn [shr_m].
    rewrite (proj2 (Z.leb_le (e + n + 1) (1024 - 53))) by lia.
    exists 4503599627370496%positive, (e + n + 1), M. split; [done|]. split; [exact Hup|]. right. split; [done|].
    split; [by rewrite EM|done].
  - assert (HlogM : Z.log2 M = 52) by (apply Z.log2_unique; lia).
    assert (Hs2 : shr_fexp 53 1024 M (e + n) loc_Exact = (Build_shr_record M false false, e + n)).
    { unfold shr_fexp. rewrite Zdigits2_log, HlogM by lia. unfold fexp, emin.
      replace (Z.max (52 + 1 + (e + n) - 53) (3 - 1024 - 53) - (e + n)) with 0 by lia. reflexivity. }
    rewrite Hs2. cbn [shr_m]. destruct M as [|b|b] eqn:EMb; [lia| |lia].
    rewrite (proj2 (Z.leb_le (e + n) (1024 - 53))) by lia.
    exists b, (e + n), (Z.pos b). split; [done|]. split; [exact Hup|]. by left.
Qed.

(** ** Integers *)

(** The float of a positive integer: 53 bits of mantissa. *)
Definition mantissa (z : Z) : positive := Z.to_pos (z * 2 ^ (52 - Z.log2 z)).
Definition exponent (z : Z) : Z := Z.log2 z - 52.
Definition normal (z : Z) : spec_float := S754_finite false (mantissa z) (exponent z).

Lemma mantissa_pos z : 0 < z < 2 ^ 53 → Z.pos (mantissa z) = z * 2 ^ (52 - Z.log2 z).
Proof.
  intros Hz. assert (Z.log2 z < 53) by (apply Z.log2_lt_pow2; lia). unfold mantissa. apply Z2Pos.id.
  apply Z.mul_pos_pos; [lia|]. apply Z.pow_pos_nonneg; lia.
Qed.

Lemma mantissa_log z : 0 < z < 2 ^ 53 → Z.log2 (Z.pos (mantissa z)) = 52.
Proof.
  intros Hz. assert (Z.log2 z < 53) by (apply Z.log2_lt_pow2; lia).
  rewrite mantissa_pos, Z.log2_mul_pow2 by lia. lia.
Qed.

(** An integer times a power of two that the exponent takes back. *)
Lemma round_exact_shift z k : 0 < z < 2 ^ 53 → 52 - Z.log2 z <= k <= 900 →
  binary_round_aux 53 1024 false (z * 2 ^ k) (- k) loc_Exact = normal z.
Proof.
  intros Hz Hk. assert (H53 : Z.log2 z < 53) by (apply Z.log2_lt_pow2; lia).
  pose proof (Z.log2_nonneg z) as H0. set (n := k - (52 - Z.log2 z)).
  assert (Hpow : 0 < 2 ^ k) by (apply Z.pow_pos_nonneg; lia).
  assert (Em : z * 2 ^ k = z * 2 ^ (52 - Z.log2 z) * 2 ^ n).
  { rewrite <- Z.mul_assoc, <- Z.pow_add_r by lia. do 2 f_equal. lia. }
  destruct (round_spec (z * 2 ^ k) (- k) loc_Exact n) as (b & e2 & M & E & HM & Hb);
    [nia|lia|rewrite Z.log2_mul_pow2 by lia; lia|lia|lia|].
  assert (HA : z * 2 ^ k / 2 ^ n = z * 2 ^ (52 - Z.log2 z)) by (rewrite Em; apply Z.div_mul; apply Z.pow_nonzero; lia).
  rewrite HA in HM.
  assert (EM : M = z * 2 ^ (52 - Z.log2 z)).
  { destruct HM as [?|[_ [Hd|Hd]]]; [done| |done]. exfalso. apply Hd. rewrite Em. by exists (z * 2 ^ (52 - Z.log2 z)). }
  pose proof (mantissa_pos z Hz) as Hmp. pose proof (mantissa_log z Hz) as Hml. rewrite <- EM in Hmp.
  rewrite E. unfold normal, exponent. destruct Hb as [[-> Hb]|(_ & _ & Hb)].
  - f_equal; [|lia]. lia.
  - exfalso. rewrite Hmp, Hb in Hml. vm_compute in Hml. discriminate.
Qed.

Lemma f64_normal z : 0 < z < 2 ^ 53 → f64_of_Z z = normal z.
Proof.
  intros Hz. assert (H53 : Z.log2 z < 53) by (apply Z.log2_lt_pow2; lia). pose proof (Z.log2_nonneg z) as H0.
  rewrite <- (round_exact_shift z (52 - Z.log2 z) Hz) by lia.
  unfold f64_of_Z, binary_normalize. destruct z as [|z|z]; [lia| |lia]. unfold binary_round.
  assert (Ed : Z.pos (digits2_pos z) = Z.log2 (Z.pos z) + 1) by apply digits2_pos_log.
  rewrite Z.add_0_r, Ed. unfold shl_align.
  replace (fexp 53 1024 (Z.log2 (Z.pos z) + 1) - 0) with (- (52 - Z.log2 (Z.pos z))) by (unfold fexp, emin; lia).
  replace (fexp 53 1024 (Z.log2 (Z.pos z) + 1)) with (- (52 - Z.log2 (Z.pos z))) by (unfold fexp, emin; lia).
  destruct (52 - Z.log2 (Z.pos z)) as [|d|d] eqn:Ed2; [|change (- Z.pos d) with (Z.neg d)|lia].
  - change (- 0) with 0. by rewrite Z.pow_0_r, Z.mul_1_r.
  - cbv iota beta. by rewrite iter_xO.
Qed.

Lemma f64_mul_exact a b : 0 < a → 0 < b → a * b < 2 ^ 53 → f64_mul (f64_of_Z a) (f64_of_Z b) = normal (a * b).
Proof.
  intros Ha Hb Hab. assert (0 < a < 2 ^ 53 /\ 0 < b < 2 ^ 53) as [Ha' Hb'] by nia.
  assert (Z.log2 a < 53 /\ Z.log2 b < 53) as [Hla Hlb] by (split; apply Z.log2_lt_pow2; lia).
  pose proof (Z.log2_mul_below a b Ha Hb) as Hlow.
  rewrite <- (round_exact_shift (a * b) (52 - Z.log2 a + (52 - Z.log2 b)));
    [|nia|pose proof (Z.log2_nonneg a); pose proof (Z.log2_nonneg b); lia].
  rewrite !f64_normal by done. unfold f64_mul, normal, SFmul. cbn [xorb]. rewrite Pos2Z.inj_mul, !mantissa_pos by done.
  unfold exponent. rewrite Z.pow_add_r by lia. f_equal; [ring|lia].
Qed.

(** ** Quotients *)

(** A float of at most one significant integer part: where it lies. *)
Definition near (p c : Z) (f : spec_float) : Prop :=
  ∃ b e, f = S754_finite false b e ∧ e <= 0 ∧
    ∀ n, 0 <= n → (p <= n * c → Z.pos b <= n * 2 ^ (- e)) ∧ (n * c <= p → n * 2 ^ (- e) <= Z.pos b).

Lemma f64_div_near p c : 0 < p < 2 ^ 50 → 0 < c < 2 ^ 50 → near p c (f64_div (normal p) (f64_of_Z c)).
Proof.
  intros Hp Hc. assert (Z.log2 p < 50 /\ Z.log2 c < 50) as [Hlp Hlc] by (split; apply Z.log2_lt_pow2; lia).
  pose proof (Z.log2_nonneg p) as Hp0. pose proof (Z.log2_nonneg c) as Hc0.
  rewrite f64_normal by lia. unfold f64_div, normal, SFdiv, SFdiv_core_binary. cbn [xorb].
  rewrite !Zdigits2_log, !mantissa_log by lia. unfold exponent.
  set (sp := 52 - Z.log2 p). set (sc := 52 - Z.log2 c).
  replace (Z.min (fexp 53 1024 (52 + 1 + (Z.log2 p - 52) - (52 + 1 + (Z.log2 c - 52)))) (Z.log2 p - 52 - (Z.log2 c - 52)))
    with (sc - sp - 53) by (unfold fexp, emin; lia).
  replace (Z.log2 p - 52 - (Z.log2 c - 52) - (sc - sp - 53)) with 53 by lia.
  rewrite Z.shiftl_mul_pow2, !mantissa_pos by lia. fold sp sc.
  destruct (Z.div_eucl (p * 2 ^ sp * 2 ^ 53) (c * 2 ^ sc)) as [q r] eqn:Eqr.
  set (D := c * 2 ^ sc) in *. set (N := p * 2 ^ sp * 2 ^ 53) in *.
  assert (HD : 2 ^ 52 <= D < 2 ^ 53).
  { pose proof (mantissa_log c ltac:(lia)) as Hl. rewrite mantissa_pos in Hl by lia. fold sc D in Hl.
    pose proof (Z.log2_spec D) as Hs. rewrite Hl in Hs. apply Hs. subst D. apply Z.mul_pos_pos; [lia|]. apply Z.pow_pos_nonneg; lia. }
  assert (HN : 2 ^ 52 * 2 ^ 53 <= N < 2 ^ 53 * 2 ^ 53).
  { pose proof (mantissa_log p ltac:(lia)) as Hl. rewrite mantissa_pos in Hl by lia. fold sp in Hl.
    pose proof (Z.log2_spec (p * 2 ^ sp)) as Hs. rewrite Hl in Hs. subst N.
    assert (0 < p * 2 ^ sp) as H by (apply Z.mul_pos_pos; [lia|]; apply Z.pow_pos_nonneg; lia). specialize (Hs H). lia. }
  pose proof (Z_div_mod N D ltac:(lia)) as Hdm. rewrite Eqr in Hdm. destruct Hdm as [EN Hr].
  assert (Hq : 2 ^ 52 <= q < 2 ^ 54) by (clearbody N D; change (2 ^ 54) with 18014398509481984; change (2 ^ 52) with 4503599627370496 in *; change (2 ^ 53) with 9007199254740992 in *; nia).
  set (n := Z.log2 q - 52).
  assert (Hn : 0 <= n <= 1).
  { subst n. split; [pose proof (Z.log2_le_mono (2 ^ 52) q ltac:(lia)) as Hl; change (Z.log2 (2 ^ 52)) with 52 in Hl; lia|].
    assert (Z.log2 q < 54) by (apply Z.log2_lt_pow2; lia). lia. }
  destruct (round_spec q (sc - sp - 53) (new_location D r) n) as (b & e2 & M & E & HM & Hb); [lia|lia|lia|lia|lia|].
  rewrite E. exists b, e2. split; [done|].
  set (X := sc - sp - 53 + n) in *.
  assert (HX : X <= -2) by lia.
  split; [lia|]. intros k Hk.
  (* the mantissa before the last shift, against the integer *)
  assert (Hpow : 0 < 2 ^ n) by (apply Z.pow_pos_nonneg; lia).
  set (K := 2 ^ (- X)).
  assert (HK : 0 < K) by (apply Z.pow_pos_nonneg; lia).
  assert (Escale : N * 1 = p * K * 2 ^ sc * 2 ^ n).
  { subst N K X. rewrite Z.mul_1_r, <- !Z.mul_assoc. f_equal. rewrite <- !Z.pow_add_r by lia. f_equal. lia. }
  assert (Hpc : 0 < 2 ^ sc) by (apply Z.pow_pos_nonneg; lia).
  assert (HMk : (p <= k * c → M <= k * K) ∧ (k * c <= p → k * K <= M)).
  { set (A := q / 2 ^ n) in *. pose proof (Z.div_mod q (2 ^ n) ltac:(lia)) as Eq. fold A in Eq.
    pose proof (Z.mod_pos_bound q (2 ^ n) Hpow) as Hmod. set (t := q mod 2 ^ n) in *.
    (* p K = c A + something below c, in units of 2 ^ (sc + n) *)
    assert (Emain : p * K * 2 ^ sc * 2 ^ n = c * 2 ^ sc * (2 ^ n * A + t) + r) by (rewrite <- Escale, Z.mul_1_r, EN, Eq; reflexivity).
    assert (HA : c * A <= p * K < c * (A + 1)).
    { subst D. clearbody A t K. clear -Emain Hr Hmod Hpow Hpc Hc HK Hp. set (S := 2 ^ sc) in *. set (P := 2 ^ n) in *.
      assert (HU : 0 < S * P) by (apply Z.mul_pos_pos; lia).
      assert (HcS : 0 < c * S) by (apply Z.mul_pos_pos; lia).
      assert (Hrest : 0 <= c * S * t + r < c * (S * P)).
      { assert (0 <= c * S * t) by (apply Z.mul_nonneg_nonneg; lia).
        assert (c * S * t <= c * S * (P - 1)) by (apply Z.mul_le_mono_nonneg_l; lia).
        replace (c * (S * P)) with (c * S * (P - 1) + c * S) by ring. lia. }
      assert (E : p * K * (S * P) = c * A * (S * P) + (c * S * t + r)) by (rewrite Z.mul_assoc, Emain; ring). clear Emain.
      split.
      - apply (Z.mul_le_mono_pos_r _ _ (S * P)); lia.
      - apply (Z.mul_lt_mono_pos_r (S * P)); lia. }
    split.
    - intros Hle. assert (Hle2 : p * K <= c * (k * K)).
      { replace (c * (k * K)) with (k * c * K) by ring. apply Z.mul_le_mono_nonneg_r; lia. }
      assert (HAk : A <= k * K) by (apply (Z.mul_le_mono_pos_l _ _ c); lia).
      destruct HM as [->|[-> Hin]]; [done|].
      assert (Hstrict : c * A < p * K).
      { assert (c * A ≠ p * K); [|lia]. intros Ec.
        assert (Hz : c * 2 ^ sc * t + r = 0).
        { assert (p * K * 2 ^ sc * 2 ^ n = c * 2 ^ sc * (2 ^ n * A)) by (rewrite <- Ec; ring). lia. }
        assert (0 < c * 2 ^ sc) as HcS by (apply Z.mul_pos_pos; lia).
        assert (0 <= c * 2 ^ sc * t) as Hct by (apply Z.mul_nonneg_nonneg; lia).
        assert (r = 0) as Hr0 by lia. assert (c * 2 ^ sc * t = 0) as Ht0 by lia.
        assert (t = 0) as Ht by (apply Z.mul_eq_0 in Ht0 as [?|?]; lia).
        destruct Hin as [Hd|Hl]; [apply Hd; exists A; lia|]. apply Hl. rewrite Hr0. unfold new_location, new_location_even, new_location_odd.
        by destruct (Z.even D). }
      assert (A < k * K) by (apply (Z.mul_lt_mono_pos_l c); lia). lia.
    - intros Hle. assert (c * (k * K) <= p * K).
      { replace (c * (k * K)) with (k * c * K) by ring. apply Z.mul_le_mono_nonneg_r; lia. }
      assert (k * K < A + 1) by (apply (Z.mul_lt_mono_pos_l c); lia). destruct HM as [->|[-> _]]; lia. }
  destruct Hb as [[-> Hb]|(-> & Hb & _)].
  - fold K. rewrite Hb. exact HMk.
  - assert (EK : K = 2 * 2 ^ (- (X + 1))).
    { subst K. rewrite <- Z.pow_succ_r by lia. f_equal. lia. }
    rewrite <- Hb, EK in HMk. clear -HMk. split; intros Hle; [apply proj1 in HMk|apply proj2 in HMk]; specialize (HMk Hle); nia.
Qed.

(** * Rounding depends on the value

    What [binary_round_aux] makes of a mantissa, an exponent and a location is
    determined by the rational they stand for. *)

(** The fraction [n / d] lies where a record says: its integer part, the half
    it is in and whether it is inside. *)
Definition lies (n d : Z) (mrs : shr_record) : Prop :=
  0 < d ∧ ∃ f, n = shr_m mrs * d + f ∧ 0 <= f < d ∧
    match shr_r mrs, shr_s mrs with
    | false, false => f = 0
    | false, true => 0 < f ∧ 2 * f < d
    | true, false => 2 * f = d
    | true, true => d < 2 * f
    end.

Lemma lies_same n d mrs n' d' : lies n d mrs → 0 < d' → n * d' = n' * d → lies n' d' mrs.
Proof.
  intros (Hd & f & En & Hf & Hc) Hd' E. split; [done|]. exists (n' - shr_m mrs * d').
  assert (Ef : f * d' = (n' - shr_m mrs * d') * d) by (rewrite Z.mul_sub_distr_r, <- E, En; ring).
  set (f' := n' - shr_m mrs * d') in *. split; [lia|]. clearbody f'.
  assert (Hlt : ∀ x y, x * d' < y * d' ↔ x < y) by (intros; symmetry; by apply Z.mul_lt_mono_pos_r).
  assert (Hlt' : ∀ x y, x * d < y * d ↔ x < y) by (intros; symmetry; by apply Z.mul_lt_mono_pos_r).
  assert (H0 : 0 <= f') by (apply (Z.mul_le_mono_pos_r _ _ d); [done|]; rewrite <- Ef, Z.mul_0_l; apply Z.mul_nonneg_nonneg; lia).
  split; [split; [done|]; apply Hlt'; rewrite <- Ef, (Z.mul_comm d'); apply Hlt; lia|].
  assert (E2 : 2 * f * d' = 2 * f' * d) by lia.
  destruct (shr_r mrs), (shr_s mrs).
  - apply Hlt'. rewrite <- E2, (Z.mul_comm d'). by apply Hlt.
  - apply (Z.mul_reg_r _ _ d); [lia|]. rewrite <- E2, Hc. ring.
  - destruct Hc as [Hc1 Hc2]. split; apply Hlt'; rewrite <- ?E2, <- ?Ef, ?(Z.mul_comm d'); [|by apply Hlt].
    rewrite Z.mul_0_l. by apply Z.mul_pos_pos.
  - subst f. rewrite Z.mul_0_l in Ef. symmetry in Ef. apply Z.mul_eq_0 in Ef. lia.
Qed.

Lemma lies_unique n d a b : lies n d a → lies n d b → a = b.
Proof.
  intros (Hd & f & En & Hf & Hc) (_ & g & En' & Hg & Hc'). assert (Em : shr_m a = shr_m b).
  { assert (shr_m a - shr_m b = 0); [|lia]. assert (f - g = (shr_m b - shr_m a) * d) by lia. nia. }
  rewrite Em in En. assert (f = g) as -> by lia. destruct a as [m r s], b as [m' r' s']; cbn in *. subst.
  destruct r, s, r', s'; try done; lia.
Qed.

Lemma shr_1_lies n d mrs : 0 <= shr_m mrs → lies n d mrs → lies n (d * 2) (shr_1 mrs) ∧ 0 <= shr_m (shr_1 mrs).
Proof.
  intros Hm (Hd & f & En & Hf & Hc). destruct mrs as [m r s]. cbn [shr_m shr_r shr_s] in *.
  assert (H : ∀ m' (b : bool), m = 2 * m' + Z.b2z b → lies n (d * 2) (Build_shr_record m' b (r || s))).
  { intros m' b ->. split; [lia|]. exists (Z.b2z b * d + f). cbn [shr_m shr_r shr_s].
    destruct b, r, s; cbn [Z.b2z orb] in *; (split; [lia|]); (split; [lia|]); lia. }
  destruct m as [|[p|p|]|p]; [| | | |lia]; cbn [shr_1]; (split; [|cbn; lia]); apply H; cbn [Z.b2z]; lia.
Qed.

Lemma iter_shr_lies n p : ∀ d mrs, 0 <= shr_m mrs → lies n d mrs →
  lies n (d * 2 ^ Z.pos p) (iter_pos shr_1 p mrs) ∧ 0 <= shr_m (iter_pos shr_1 p mrs).
Proof.
  induction p as [p IH|p IH|]; intros d mrs Hm Hl; cbn [iter_pos].
  - destruct (shr_1_lies n d mrs Hm Hl) as [Hl1 Hm1]. destruct (IH _ _ Hm1 Hl1) as [Hl2 Hm2].
    destruct (IH _ _ Hm2 Hl2) as [Hl3 Hm3]. split; [|done]. replace (d * 2 ^ Z.pos p~1) with (d * 2 * 2 ^ Z.pos p * 2 ^ Z.pos p); [done|].
    rewrite <- !Z.mul_assoc, <- Z.pow_add_r by lia. rewrite <- Z.pow_succ_r by lia. do 2 f_equal. lia.
  - destruct (IH _ _ Hm Hl) as [Hl2 Hm2]. destruct (IH _ _ Hm2 Hl2) as [Hl3 Hm3]. split; [|done].
    replace (d * 2 ^ Z.pos p~0) with (d * 2 ^ Z.pos p * 2 ^ Z.pos p); [done|].
    rewrite <- Z.mul_assoc, <- Z.pow_add_r by lia. do 2 f_equal. lia.
  - change (2 ^ 1) with 2. by apply shr_1_lies.
Qed.

Lemma shr_lies n d mrs e k : 0 <= k → 0 <= shr_m mrs → lies n d mrs →
  ∃ mrs', shr mrs e k = (mrs', e + k) ∧ lies n (d * 2 ^ k) mrs' ∧ 0 <= shr_m mrs'.
Proof.
  intros Hk Hm Hl. destruct k as [|p|p]; [|by eexists; split; [reflexivity|apply iter_shr_lies]|lia].
  exists mrs. rewrite Z.mul_1_r, Z.add_0_r. done.
Qed.

(** ** Powers of two from [2 ^ -1076] on *)

Definition pow2 (z : Z) : Z := 2 ^ (z + 1076).

Lemma pow2_pos z : -1076 <= z → 0 < pow2 z.
Proof. intros Hz. apply Z.pow_pos_nonneg; lia. Qed.
Lemma pow2_add z k : -1076 <= z → 0 <= k → pow2 (z + k) = pow2 z * 2 ^ k.
Proof. intros Hz Hk. unfold pow2. rewrite <- Z.pow_add_r by lia. f_equal. lia. Qed.
Lemma pow2_le a b : -1076 <= a → a <= b → pow2 a <= pow2 b.
Proof. intros Ha Hb. apply Z.pow_le_mono_r; lia. Qed.
Lemma pow2_lt a b : -1076 <= a → -1076 <= b → pow2 a < pow2 b → a < b.
Proof. unfold pow2. intros Ha Hb Hl. apply Z.pow_lt_mono_r_iff in Hl; lia. Qed.

(** ** The value of a mantissa, an exponent and a location *)

Lemma digits_bounds q : 0 <= q → q < 2 ^ Zdigits2 q ∧ (0 < q → 2 ^ (Zdigits2 q - 1) <= q) ∧ 0 <= Zdigits2 q.
Proof.
  intros Hq. destruct (decide (q = 0)) as [->|Hne]; [cbn; lia|]. rewrite Zdigits2_log by lia.
  pose proof (Z.log2_spec q ltac:(lia)) as Hs. pose proof (Z.log2_nonneg q). replace (Z.succ (Z.log2 q)) with (Z.log2 q + 1) in Hs by lia.
  replace (Z.log2 q + 1 - 1) with (Z.log2 q) by lia. lia.
Qed.

(** The rational [N / D] is [n / d] times [2 ^ e], and [n / d] is where [q] and [l] say. *)
Definition stands (N D q e : Z) (l : location) : Prop :=
  0 <= q ∧ -1074 <= e ∧ e <= fexp 53 1024 (Zdigits2 q + e) ∧
  ∃ n d, lies n d (shr_record_of_loc q l) ∧ n * D * pow2 e = N * d * pow2 0.

(** The exponent a value is rounded at. *)
Definition rounded_at (N D E : Z) : Prop :=
  -1074 <= E ∧ N * pow2 0 < D * pow2 (E + 53) ∧ (-1074 < E → D * pow2 (E + 52) <= N * pow2 0).

Lemma rounded_at_unique N D E E' : 0 < D → rounded_at N D E → rounded_at N D E' → E = E'.
Proof.
  intros HD. enough (H : ∀ E E', rounded_at N D E → rounded_at N D E' → E <= E') by (intros; apply Z.le_antisymm; by apply H).
  clear E E'. intros E E' (HE & _ & Hlow) (HE' & Hup & _). destruct (decide (E = -1074)) as [->|Hne]; [lia|].
  specialize (Hlow ltac:(lia)). assert (Hlt : D * pow2 (E + 52) < D * pow2 (E' + 53)) by lia.
  apply Z.mul_lt_mono_pos_l in Hlt; [|done]. apply pow2_lt in Hlt; lia.
Qed.

(** Rounding a record at its exponent. *)
Definition rounded (sx : bool) (mrs : shr_record) (E : Z) : spec_float :=
  let '(mrs'', e'') := shr_fexp 53 1024 (round_nearest_even (shr_m mrs) (loc_of_shr_record mrs)) E loc_Exact in
  match shr_m mrs'' with
  | Z0 => S754_zero sx
  | Zpos m => if Z.leb e'' (1024 - 53) then S754_finite sx m e'' else S754_infinity sx
  | _ => S754_nan
  end.

Lemma rounded_neg mrs E : rounded true mrs E = match rounded false mrs E with
  | S754_zero _ => S754_zero true | S754_finite _ m e => S754_finite true m e | S754_infinity _ => S754_infinity true | S754_nan => S754_nan end.
Proof. unfold rounded. destruct (shr_fexp _ _ _ _ _) as [m e]. destruct (shr_m m); [done| |done]. by destruct (e <=? _). Qed.

Lemma stands_rounds N D q e l : 0 < D → stands N D q e l →
  ∃ mrs E, rounded_at N D E ∧ lies (N * pow2 0) (D * pow2 E) mrs ∧
    ∀ sx, binary_round_aux 53 1024 sx q e l = rounded sx mrs E.
Proof.
  intros HD (Hq & He & HeE & n & d & Hl & Hv). set (E := fexp 53 1024 (Zdigits2 q + e)) in *.
  assert (HE : -1074 <= E) by (unfold E, fexp, emin; lia).
  assert (Hr0 : shr_m (shr_record_of_loc q l) = q) by apply record_m.
  destruct (shr_lies n d (shr_record_of_loc q l) e (E - e)) as (mrs & Hs & Hl' & Hm'); [lia|lia|done|].
  exists mrs, E. pose proof (digits_bounds q Hq) as (Hup & Hlow & Hg). set (g := Zdigits2 q) in *.
  pose proof (pow2_pos e ltac:(lia)) as Pe. pose proof (pow2_pos 0 ltac:(lia)) as P0. pose proof (pow2_pos E ltac:(lia)) as PE.
  pose proof Hl as (Hd & f & En & Hf & _). rewrite Hr0 in En.
  split; [|split].
  - split; [done|]. split.
    + assert (H1 : n < d * 2 ^ g) by nia. assert (H2 : N * pow2 0 < D * (2 ^ g * pow2 e)).
      { apply (Z.mul_lt_mono_pos_r d); [done|]. replace (N * pow2 0 * d) with (n * (D * pow2 e)) by (rewrite Z.mul_assoc, Hv; ring).
        replace (D * (2 ^ g * pow2 e) * d) with (d * 2 ^ g * (D * pow2 e)) by ring. apply Z.mul_lt_mono_pos_r; nia. }
      eapply Z.lt_le_trans; [exact H2|]. apply Z.mul_le_mono_nonneg_l; [lia|]. rewrite Z.mul_comm, <- pow2_add by lia.
      apply pow2_le; unfold E, fexp; lia.
    + intros HE'. assert (Eg : E = g + e - 53) by (unfold E, fexp, emin in *; lia).
      assert (Hq0 : 0 < q) by (destruct (decide (q = 0)) as [->|]; [cbn in g; subst g; lia|lia]). specialize (Hlow Hq0).
      assert (H1 : d * 2 ^ (g - 1) <= n) by nia.
      replace (E + 52) with (e + (g - 1)) by lia.
      assert (Hg1 : 1 <= g) by (destruct (decide (g = 0)) as [E0|]; [rewrite E0 in Hup; cbn in Hup; lia|lia]).
      rewrite pow2_add by lia. apply (Z.mul_le_mono_pos_r _ _ d); [done|].
      replace (N * pow2 0 * d) with (n * (D * pow2 e)) by (rewrite Z.mul_assoc, Hv; ring).
      replace (D * (pow2 e * 2 ^ (g - 1)) * d) with (d * 2 ^ (g - 1) * (D * pow2 e)) by ring. apply Z.mul_le_mono_pos_r; nia.
  - eapply lies_same; [exact Hl'|nia|]. replace E with (e + (E - e)) at 1 by lia. rewrite pow2_add by lia.
    replace (n * (D * (pow2 e * 2 ^ (E - e)))) with (n * D * pow2 e * 2 ^ (E - e)) by ring. rewrite Hv. ring.
  - intros sx. unfold binary_round_aux, rounded. unfold shr_fexp at 1. fold g E. rewrite Hs. replace (e + (E - e)) with E by lia. done.
Qed.

Lemma stands_same N D q e l N' D' q' e' l' sx : 0 < D → 0 < D' → stands N D q e l → stands N' D' q' e' l' → N * D' = N' * D →
  binary_round_aux 53 1024 sx q e l = binary_round_aux 53 1024 sx q' e' l'.
Proof.
  intros HD HD' H H' E. apply stands_rounds in H as (mrs & X & (H1 & H2 & H3) & Hl & ->); [|done].
  apply stands_rounds in H' as (mrs' & X' & HX' & Hl' & ->); [|done].
  assert (HX : rounded_at N' D' X).
  { split; [done|]. split.
    - apply (Z.mul_lt_mono_pos_r D); [done|]. replace (N' * pow2 0 * D) with (N * pow2 0 * D') by (rewrite <- !Z.mul_assoc, (Z.mul_comm (pow2 0)), (Z.mul_comm (pow2 0)), !Z.mul_assoc, E; ring).
      replace (D' * pow2 (X + 53) * D) with (D * pow2 (X + 53) * D') by ring. by apply Z.mul_lt_mono_pos_r.
    - intros Hx. specialize (H3 Hx). apply (Z.mul_le_mono_pos_r _ _ D); [done|].
      replace (N' * pow2 0 * D) with (N * pow2 0 * D') by (rewrite <- !Z.mul_assoc, (Z.mul_comm (pow2 0)), (Z.mul_comm (pow2 0)), !Z.mul_assoc, E; ring).
      replace (D' * pow2 (X + 52) * D) with (D * pow2 (X + 52) * D') by ring. by apply Z.mul_le_mono_pos_r. }
  rewrite (rounded_at_unique N' D' X X' HD' HX HX') in Hl |- *. f_equal. eapply lies_unique; [|exact Hl'].
  destruct HX' as (HX' & _). pose proof (pow2_pos X' ltac:(lia)).
  eapply lies_same; [exact Hl|nia|]. replace (N * pow2 0 * (D' * pow2 X')) with (N * D' * (pow2 0 * pow2 X')) by ring. rewrite E. ring.
Qed.

(** ** Decimals *)

Definition pow10 (z : Z) : Z := 10 ^ (Z.max z 0).

Lemma pow10_pos z : 0 < pow10 z.
Proof. apply Z.pow_pos_nonneg; lia. Qed.

Lemma decimal_stands d x : 0 < d → ∃ q e l, stands (d * pow10 x) (pow10 (- x)) q e l ∧
  ∀ neg, f64_of_decimal neg d x = binary_round_aux 53 1024 neg q e l.
Proof.
  intros Hd. destruct d as [|d|]; [lia| |lia]. unfold f64_of_decimal. destruct (Z.leb_spec 0 x) as [Hx|Hx].
  - assert (Ex : pow10 x = 10 ^ x ∧ pow10 (- x) = 1) by (unfold pow10; rewrite Z.max_l, Z.max_r by lia; done).
    destruct Ex as [-> ->]. assert (Hv : 0 < Z.pos d * 10 ^ x) by (apply Z.mul_pos_pos; [lia|]; apply Z.pow_pos_nonneg; lia).
    destruct (Z.pos d * 10 ^ x) as [|v|] eqn:Ev; [lia| |lia]. clear Ev Hv Hx.
    set (ef := fexp 53 1024 (Z.pos (digits2_pos v) + 0)).
    destruct (shl_align v 0 ef) as [mz ez] eqn:Es. exists (Z.pos mz), ez, loc_Exact.
    split.
    + assert (Hdig : Z.pos (digits2_pos v) = Z.log2 (Z.pos v) + 1) by apply digits2_pos_log. unfold shl_align in Es. rewrite Z.sub_0_r in Es.
      assert (Hef : ef = Z.max (Z.log2 (Z.pos v) + 1 - 53) (-1074)) by (unfold ef, fexp, emin; rewrite Hdig; lia).
      assert (Hlog : 0 <= Z.log2 (Z.pos v)) by apply Z.log2_nonneg.
      assert (Hval : Z.pos mz = Z.pos v * 2 ^ (- ez) ∧ ez <= 0 ∧ ez <= ef ∧ -1074 <= ez).
      { destruct ef as [|p|p] eqn:Eef; injection Es as <- <-; [by rewrite Z.mul_1_r; lia|by rewrite Z.mul_1_r; lia|].
        rewrite iter_xO. change (- Z.neg p) with (Z.pos p). lia. }
      destruct Hval as (Hval & Hez & Hle & Hlow). split; [lia|]. split; [done|]. split.
      * rewrite Zdigits2_log, Hval, Z.log2_mul_pow2 by lia. unfold fexp, emin. lia.
      * exists (Z.pos mz), 1. split; [split; [lia|]; exists 0; cbn [shr_record_of_loc shr_m shr_r shr_s]; lia|].
        rewrite Hval. replace (pow2 0) with (2 ^ (- ez) * pow2 ez) by (rewrite Z.mul_comm, <- pow2_add by lia; f_equal; lia). ring.
    + intros [].
      * change (- Z.pos v) with (Z.neg v). cbn [binary_normalize]. unfold binary_round. fold ef. by rewrite Es.
      * cbn [binary_normalize]. unfold binary_round. fold ef. by rewrite Es.
  - assert (Ex : pow10 x = 1 ∧ pow10 (- x) = 10 ^ (- x)) by (unfold pow10; rewrite Z.max_r, Z.max_l by lia; done).
    destruct Ex as [-> ->]. assert (Hden : 0 < 10 ^ (- x)) by (apply Z.pow_pos_nonneg; lia). set (den := 10 ^ (- x)) in *. clearbody den.
    unfold SFdiv_core_binary. rewrite !Z.add_0_r. set (d1 := Zdigits2 (Z.pos d)). set (d2 := Zdigits2 den).
    set (e' := Z.min (fexp 53 1024 (d1 - d2)) (0 - 0)).
    assert (He' : -1074 <= e' <= 0) by (unfold e', fexp, emin; lia).
    assert (Hm : match 0 - 0 - e' with Z0 => Z.pos d | Z.pos _ => Z.shiftl (Z.pos d) (0 - 0 - e') | Z.neg _ => 0 end = Z.pos d * 2 ^ (- e')).
    { replace (0 - 0 - e') with (- e') by lia. destruct (- e') eqn:Ee; [by rewrite Z.mul_1_r|by rewrite Z.shiftl_mul_pow2 by lia|lia]. }
    rewrite Hm. set (m' := Z.pos d * 2 ^ (- e')). destruct (Z.div_eucl m' den) as [q r] eqn:Eqr.
    pose proof (Z_div_mod m' den ltac:(lia)) as Hdm. rewrite Eqr in Hdm. destruct Hdm as [Em Hr].
    assert (Hp : 0 < 2 ^ (- e')) by (apply Z.pow_pos_nonneg; lia).
    assert (Hm' : 0 < m') by (unfold m'; lia).
    assert (Hq : 0 <= q) by (destruct (Z.neg_nonneg_cases q); [nia|done]).
    exists q, e', (new_location den r). split; [|done]. split; [done|]. split; [lia|]. split.
    + destruct (digits_bounds (Z.pos d) ltac:(lia)) as (_ & Hlow & _). specialize (Hlow ltac:(lia)). fold d1 in Hlow.
      destruct (digits_bounds den ltac:(lia)) as (Hup & _ & Hd2). fold d2 in Hup, Hd2.
      destruct (digits_bounds q Hq) as (Hqup & _ & Hg). set (g := Zdigits2 q) in *.
      assert (Hd1 : 1 <= d1) by (unfold d1; cbn; lia).
      assert (Hcmp : d1 - 1 - e' < d2 + g).
      { apply (Z.pow_lt_mono_r_iff 2); [lia|lia|]. rewrite Z.pow_add_r by lia.
        replace (d1 - 1 - e') with (d1 - 1 + - e') by lia. rewrite Z.pow_add_r by lia.
        assert (H1 : 2 ^ (d1 - 1) * 2 ^ (- e') <= m') by (unfold m'; apply Z.mul_le_mono_nonneg_r; lia).
        assert (H2 : m' < den * 2 ^ g) by (rewrite Em; nia). nia. }
      unfold e', fexp, emin in *. lia.
    + exists m', den. split.
      * split; [done|]. exists r. rewrite record_m. split; [rewrite Em; ring|]. split; [done|].
        unfold new_location, new_location_even, new_location_odd. destruct (Z.even den) eqn:Ev.
        -- destruct (Z.eqb_spec r 0) as [->|Hr0]; [done|]. destruct (Z.compare_spec (2 * r) den); cbn [shr_record_of_loc shr_r shr_s]; lia.
        -- assert (Hodd : ∃ k, den = 2 * k + 1) by (apply Z.odd_spec; by rewrite <- Z.negb_even, Ev).
           destruct Hodd as [k Hk]. destruct (Z.eqb_spec r 0) as [->|Hr0]; [done|].
           destruct (Z.compare_spec (2 * r + 1) den); cbn [shr_record_of_loc shr_r shr_s]; lia.
      * unfold m'. replace (pow2 0) with (pow2 e' * 2 ^ (- e')) by (rewrite <- pow2_add by lia; f_equal; lia). ring.
Qed.

(** Equal decimals are equal floats. *)
Lemma decimal_scale neg d x k : 0 < d → 0 <= k → f64_of_decimal neg (d * 10 ^ k) x = f64_of_decimal neg d (x + k).
Proof.
  intros Hd Hk. assert (Hp : 0 < 10 ^ k) by (apply Z.pow_pos_nonneg; lia).
  destruct (decimal_stands (d * 10 ^ k) x) as (q & e & l & Hs & ->); [lia|].
  destruct (decimal_stands d (x + k)) as (q' & e' & l' & Hs' & ->); [done|].
  eapply stands_same; [apply pow10_pos| |exact Hs|exact Hs'|]; [apply pow10_pos|].
  unfold pow10. destruct (Z.max_spec x 0) as [[? ->]|[? ->]], (Z.max_spec (- x) 0) as [[? ->]|[? ->]],
    (Z.max_spec (x + k) 0) as [[? ->]|[? ->]], (Z.max_spec (- (x + k)) 0) as [[? ->]|[? ->]]; try lia;
    rewrite ?Z.pow_0_r, ?Z.mul_1_r, <- ?Z.mul_assoc, <- ?Z.pow_add_r by lia; f_equal; try f_equal; lia.
Qed.

Definition float_neg (f : f64) : f64 :=
  match f with
  | S754_zero _ => S754_zero true | S754_finite _ m e => S754_finite true m e | S754_infinity _ => S754_infinity true | S754_nan => S754_nan
  end.

Lemma decimal_neg d x : f64_of_decimal true d x = float_neg (f64_of_decimal false d x).
Proof.
  destruct (decide (0 < d)) as [Hd|]; [|by destruct d].
  destruct (decimal_stands d x Hd) as (q & e & l & Hs & E). rewrite !E.
  apply stands_rounds in Hs as (mrs & X & _ & _ & Hb); [|apply pow10_pos]. rewrite !Hb. apply rounded_neg.
Qed.

(** ** What is near a float is rounded to it *)

Lemma bounded_spec m e : bounded 53 1024 m e = true →
  Z.pos m < 2 ^ 53 ∧ -1074 <= e <= 971 ∧ (e = -1074 ∨ 2 ^ 52 <= Z.pos m) ∧ fexp 53 1024 (Zdigits2 (Z.pos m) + e) = e.
Proof.
  unfold bounded, canonical_mantissa. intros [Hc%Z.eqb_eq He%Z.leb_le]%andb_true_iff. cbn [Zdigits2].
  destruct (digits_bounds (Z.pos m) ltac:(lia)) as (Hup & Hlow & Hg). specialize (Hlow ltac:(lia)). cbn [Zdigits2] in *.
  set (g := Z.pos (digits2_pos m)) in *. split; [|split; [|split; [|done]]].
  - eapply Z.lt_le_trans; [exact Hup|]. apply Z.pow_le_mono_r; [lia|]. unfold fexp, emin in Hc. lia.
  - unfold fexp, emin in Hc. lia.
  - destruct (decide (e = -1074)) as [|Hne]; [by left|right]. etransitivity; [|exact Hlow].
    apply Z.pow_le_mono_r; [lia|]. unfold fexp, emin in Hc. lia.
Qed.

Lemma rounded_exact m e mrs : bounded 53 1024 m e = true → round_nearest_even (shr_m mrs) (loc_of_shr_record mrs) = Z.pos m →
  rounded false mrs e = S754_finite false m e.
Proof.
  intros Hb Hm. apply bounded_spec in Hb as (_ & He & _ & Hc). unfold rounded, shr_fexp. rewrite Hm, Hc, Z.sub_diag. cbn [shr shr_record_of_loc shr_m].
  by rewrite (proj2 (Z.leb_le _ _)) by lia.
Qed.

(** The mantissa of a record within half of an integer. *)
Lemma rounds_near X Y mrs m : lies X Y mrs → (2 * m - 1) * Y < 2 * X < (2 * m + 1) * Y →
  round_nearest_even (shr_m mrs) (loc_of_shr_record mrs) = m.
Proof.
  intros (HY & f & -> & Hf & Hc) [H1 H2]. destruct mrs as [A r s]. cbn [shr_m shr_r shr_s] in *.
  assert (HA : A = m ∨ A = m - 1) by nia.
  destruct HA as [-> | ->], r, s; cbn [loc_of_shr_record round_nearest_even]; try lia;
    try (exfalso; nia).
Qed.

Lemma near_rounds N D q e l m e0 : 0 < N → 0 < D → stands N D q e l → bounded 53 1024 m e0 = true →
  let X := N * pow2 0 in let Y := D * pow2 e0 in
  (2 * Z.pos m - 1) * Y < 2 * X < (2 * Z.pos m + 1) * Y →
  (Z.pos m = 2 ^ 52 → (4 * Z.pos m - 1) * Y < 4 * X) →
  binary_round_aux 53 1024 false q e l = S754_finite false m e0.
Proof.
  intros HN HD Hs Hb X Y Hn Hlow. pose proof (bounded_spec m e0 Hb) as (Hm & He0 & Hcase & _).
  apply stands_rounds in Hs as (mrs & E & HE & Hl & ->); [|done]. fold X in Hl.
  pose proof (pow2_pos e0 ltac:(lia)) as P0. assert (HY : 0 < Y) by (unfold Y; nia).
  assert (Hat : ∀ k, 0 <= k → D * pow2 (e0 + k) = Y * 2 ^ k) by (intros k Hk; rewrite pow2_add by lia; unfold Y; ring).
  destruct (decide (e0 = -1074 ∨ 2 ^ 52 * Y <= X)) as [Hreg|Hreg].
  - assert (E = e0) as ->.
    { eapply (rounded_at_unique N D); [done|exact HE|]. split; [lia|]. fold X. rewrite !Hat by lia. split; [nia|].
      intros Hgt. destruct Hreg; [lia|]. nia. }
    apply rounded_exact; [done|]. by eapply rounds_near.
  - assert (He : -1074 < e0) by lia. assert (HX : X < 2 ^ 52 * Y) by lia. assert (Em : Z.pos m = 2 ^ 52) by (destruct Hcase; [lia|nia]).
    specialize (Hlow Em). assert (HY2 : Y = 2 * (D * pow2 (e0 - 1))).
    { unfold Y. replace e0 with (e0 - 1 + 1) at 1 by lia. rewrite pow2_add by lia. change (2 ^ 1) with 2. ring. }
    set (Y' := D * pow2 (e0 - 1)) in *. assert (HY' : 0 < Y') by lia.
    assert (E = e0 - 1) as ->.
    { eapply (rounded_at_unique N D); [done|exact HE|]. split; [lia|]. fold X. split.
      - replace (e0 - 1 + 53) with (e0 + 52) by lia. rewrite Hat by lia. lia.
      - intros _. replace (D * pow2 (e0 - 1 + 52)) with (Y' * 2 ^ 52) by (rewrite pow2_add by lia; unfold Y'; ring).
        rewrite Em in Hlow. lia. }
    fold Y' in Hl. assert (Hr : round_nearest_even (shr_m mrs) (loc_of_shr_record mrs) = 2 ^ 53).
    { eapply rounds_near; [exact Hl|]. rewrite Em in Hlow. change (2 ^ 53) with (2 * 2 ^ 52). nia. }
    unfold rounded. rewrite Hr. unfold shr_fexp. change (Zdigits2 (2 ^ 53)) with 54. unfold fexp, emin.
    replace (Z.max (54 + (e0 - 1) - 53) (3 - 1024 - 53) - (e0 - 1)) with 1 by lia. cbn [shr shr_record_of_loc].
    change (shr_m (iter_pos shr_1 1 {| shr_m := 2 ^ 53; shr_r := false; shr_s := false |})) with 4503599627370496.
    rewrite (proj2 (Z.leb_le _ _)) by lia. f_equal; [|lia]. change (2 ^ 52) with 4503599627370496 in Em. lia.
Qed.

(** ** Seventeen digits are enough *)

Lemma decimal_point_up fuel : ∀ num den k, 0 < den <= num → num < den * 10 ^ Z.of_nat fuel →
  ∃ j, 1 <= j <= Z.of_nat fuel ∧ decimal_point fuel num den k = k + j ∧ den * 10 ^ (j - 1) <= num < den * 10 ^ j.
Proof.
  induction fuel as [|fuel IH]; intros num den k Hd Hf; [cbn in Hf; lia|]. cbn [decimal_point].
  rewrite (proj2 (Z.ltb_ge num den)) by lia. rewrite Nat2Z.inj_succ, Z.pow_succ_r in Hf by lia.
  destruct (Z.ltb_spec num (den * 10)) as [Hlt|Hge].
  - exists 1. change (10 ^ (1 - 1)) with 1. change (10 ^ 1) with 10. split; [lia|]. split; [|lia].
    destruct fuel as [|fuel]; [done|]. cbn [decimal_point]. rewrite (proj2 (Z.ltb_lt num (den * 10))) by lia.
    by rewrite (proj2 (Z.ltb_ge (num * 10) (den * 10))) by lia.
  - destruct (IH num (den * 10) (k + 1)) as (j & Hj & -> & Hb); [lia|lia|]. exists (j + 1). split; [lia|]. split; [lia|].
    rewrite <- !Z.mul_assoc, <- !Z.pow_succ_r in Hb by lia. replace (Z.succ (j - 1)) with (j + 1 - 1) in Hb by lia.
    by replace (Z.succ j) with (j + 1) in Hb by lia.
Qed.

Lemma decimal_point_down fuel : ∀ num den k, 0 < num < den → den <= num * 10 ^ Z.of_nat fuel →
  ∃ j, 0 <= j <= Z.of_nat fuel ∧ decimal_point fuel num den k = k - j ∧ num * 10 ^ j < den <= num * 10 ^ (j + 1).
Proof.
  induction fuel as [|fuel IH]; intros num den k Hd Hf; [cbn in Hf; lia|]. cbn [decimal_point].
  rewrite (proj2 (Z.ltb_lt num den)) by lia. rewrite Nat2Z.inj_succ, Z.pow_succ_r in Hf by lia.
  destruct (Z.ltb_spec (num * 10) den) as [Hlt|Hge].
  - destruct (IH (num * 10) den (k - 1)) as (j & Hj & -> & Hb); [lia|lia|]. exists (j + 1). split; [lia|]. split; [lia|].
    rewrite <- !Z.mul_assoc, <- !Z.pow_succ_r in Hb by lia.
    replace (Z.succ j) with (j + 1) in Hb by lia. by replace (Z.succ (j + 1)) with (j + 1 + 1) in Hb by lia.
  - exists 0. change (10 ^ (0 + 1)) with 10. change (10 ^ 0) with 1. split; [lia|]. split; lia.
Qed.

(** Where the point of a fraction is: [10 ^ (k - 1) <= num / den < 10 ^ k], without negative powers. *)
Lemma decimal_point_spec fuel num den : 0 < num → 0 < den → num < den * 10 ^ Z.of_nat fuel → den <= num * 10 ^ Z.of_nat fuel →
  let k := decimal_point fuel num den 0 in - Z.of_nat fuel <= k <= Z.of_nat fuel ∧
  den * pow10 (k - 1) <= num * pow10 (1 - k) ∧ num * pow10 (- k) <= den * pow10 k.
Proof.
  intros Hn Hd Hu Hl. destruct (Z.lt_ge_cases num den) as [Hlt|Hge].
  - destruct (decimal_point_down fuel num den 0) as (j & Hj & E & Hb); [lia|done|]. cbv zeta. rewrite E. split; [lia|]. unfold pow10.
    replace (Z.max (0 - j - 1) 0) with 0 by lia. replace (Z.max (1 - (0 - j)) 0) with (j + 1) by lia.
    replace (Z.max (- (0 - j)) 0) with j by lia. replace (Z.max (0 - j) 0) with 0 by lia. change (10 ^ 0) with 1. lia.
  - destruct (decimal_point_up fuel num den 0) as (j & Hj & E & Hb); [lia|done|]. cbv zeta. rewrite E. split; [lia|]. unfold pow10.
    replace (Z.max (0 + j - 1) 0) with (j - 1) by lia. replace (Z.max (1 - (0 + j)) 0) with 0 by lia.
    replace (Z.max (- (0 + j)) 0) with 0 by lia. replace (Z.max (0 + j) 0) with j by lia. change (10 ^ 0) with 1. lia.
Qed.

(** The fraction a float is. *)
Definition float_num (m : positive) (e : Z) : Z := if 0 <=? e then Zpos m * 2 ^ e else Zpos m.
Definition float_den (e : Z) : Z := if 0 <=? e then 1 else 2 ^ (- e).

Lemma float_den_pos e : 0 < float_den e.
Proof. unfold float_den. destruct (Z.leb_spec 0 e); [done|]. apply Z.pow_pos_nonneg; lia. Qed.

Lemma float_num_pos m e : 0 < float_num m e.
Proof. unfold float_num. destruct (Z.leb_spec 0 e); [|done]. apply Z.mul_pos_pos; [done|]. apply Z.pow_pos_nonneg; lia. Qed.

Lemma float_fraction m e : -1074 <= e → float_num m e * pow2 0 = Zpos m * float_den e * pow2 e.
Proof.
  intros He. unfold float_num, float_den. destruct (Z.leb_spec 0 e).
  - replace (pow2 e) with (pow2 0 * 2 ^ e) by (rewrite <- pow2_add by lia; f_equal; lia). ring.
  - replace (pow2 0) with (pow2 e * 2 ^ (- e)) by (rewrite <- pow2_add by lia; f_equal; lia). ring.
Qed.

Definition point_of (m : positive) (e : Z) : Z := decimal_point 400 (float_num m e) (float_den e) 0.

Lemma float_point m e : bounded 53 1024 m e = true →
  -400 <= point_of m e <= 400 ∧
  float_den e * pow10 (point_of m e - 1) <= float_num m e * pow10 (1 - point_of m e) ∧
  float_num m e * pow10 (- point_of m e) <= float_den e * pow10 (point_of m e).
Proof.
  intros Hb. destruct (bounded_spec m e Hb) as (Hm & He & _). pose proof (float_num_pos m e). pose proof (float_den_pos e).
  apply (decimal_point_spec 400); [done|done|..].
  - assert (Hn : float_num m e < 2 ^ 53 * 2 ^ 971).
    { unfold float_num. destruct (Z.leb_spec 0 e).
      - assert (2 ^ e <= 2 ^ 971) by (apply Z.pow_le_mono_r; lia). assert (0 < 2 ^ e) by (apply Z.pow_pos_nonneg; lia). nia.
      - assert (1 <= 2 ^ 971) by done. lia. }
    assert (2 ^ 53 * 2 ^ 971 <= 10 ^ Z.of_nat 400) by (vm_compute; discriminate). nia.
  - assert (Hn : float_den e <= 2 ^ 1074).
    { unfold float_den. destruct (Z.leb_spec 0 e); [done|]. apply Z.pow_le_mono_r; lia. }
    assert (2 ^ 1074 <= 10 ^ Z.of_nat 400) by (vm_compute; discriminate). nia.
Qed.

Lemma scaled_num num x : (if 0 <=? x then num else num * 10 ^ (- x)) = num * pow10 (- x).
Proof. unfold pow10. destruct (Z.leb_spec 0 x); [rewrite Z.max_r by lia; change (10 ^ 0) with 1; lia|by rewrite Z.max_l by lia]. Qed.
Lemma scaled_den den x : (if 0 <=? x then den * 10 ^ x else den) = den * pow10 x.
Proof. unfold pow10. destruct (Z.leb_spec 0 x); [by rewrite Z.max_l by lia|rewrite Z.max_r by lia; change (10 ^ 0) with 1; lia]. Qed.

(** The integer part of a float in units of [10 ^ x]. *)
Definition units (m : positive) (e x : Z) : Z := (float_num m e * pow10 (- x)) / (float_den e * pow10 x).

Definition reads_as (m : positive) (e v x : Z) : Prop := f64_of_decimal false v x = S754_finite false m e.

Definition reads_ok (m : positive) (e x v : Z) : bool :=
  match f64_of_decimal false v x with S754_finite false m' e' => Pos.eqb m m' && (e =? e') | _ => false end.

Lemma reads_ok_spec m e x v : reads_ok m e x v = true ↔ reads_as m e v x.
Proof.
  unfold reads_ok, reads_as. split.
  - destruct (f64_of_decimal false v x) as [| | |[] m' e']; try done. by intros [->%Pos.eqb_eq ->%Z.eqb_eq]%andb_true_iff.
  - intros ->. by rewrite Pos.eqb_refl, Z.eqb_refl.
Qed.

Lemma candidate_cases m e k n : let q := units m e (k - n) in ∃ up : bool, candidate m e k n =
  match reads_ok m e (k - n) q, reads_ok m e (k - n) (q + 1) with
  | true, true => Some (if up then q + 1 else q) | true, false => Some q | false, true => Some (q + 1) | false, false => None end.
Proof. cbv zeta. unfold candidate. rewrite !scaled_num, !scaled_den. by eexists. Qed.

Lemma candidate_reads m e k n d : candidate m e k n = Some d → reads_as m e d (k - n) ∧ units m e (k - n) <= d <= units m e (k - n) + 1.
Proof.
  destruct (candidate_cases m e k n) as [up ->]. rewrite <- reads_ok_spec. generalize (units m e (k - n)) as q. intros q.
  destruct (reads_ok m e (k - n) q) eqn:E1, (reads_ok m e (k - n) (q + 1)) eqn:E2; [destruct up| | |by intros [=]]; intros E; injection E as <-; (split; [assumption|lia]).
Qed.

Lemma candidate_some m e k n v : (v = units m e (k - n) ∨ v = units m e (k - n) + 1) → reads_as m e v (k - n) → is_Some (candidate m e k n).
Proof.
  destruct (candidate_cases m e k n) as [up ->]. set (q := units m e (k - n)). intros Hv Hr%reads_ok_spec.
  destruct (reads_ok m e (k - n) q) eqn:E1, (reads_ok m e (k - n) (q + 1)) eqn:E2; try by eexists.
  exfalso. destruct Hv as [-> | ->]; congruence.
Qed.

(** A decimal at most half a unit away from a float of which a unit is a small part. *)
Lemma near_decimal m e x v : bounded 53 1024 m e = true → 0 < v →
  let a := float_num m e * pow10 (- x) in let b := float_den e * pow10 x in
  Z.pos m * b < a → (Z.pos m = 2 ^ 52 → 2 * Z.pos m * b < a) → - b <= 2 * (v * b - a) <= b → reads_as m e v x.
Proof.
  intros Hb Hv a b Hsmall Hsmall' Hnear. destruct (bounded_spec m e Hb) as (Hm & He & _).
  pose proof (float_num_pos m e) as Hn. pose proof (float_den_pos e) as Hd. pose proof (pow10_pos x) as Hp. pose proof (pow10_pos (- x)) as Hr.
  pose proof (pow2_pos e ltac:(lia)) as Pe. pose proof (pow2_pos 0 ltac:(lia)) as P0.
  destruct (decimal_stands v x Hv) as (q & e' & l & Hs & E). unfold reads_as. rewrite E.
  assert (Ha : 0 < a) by (unfold a; nia). assert (Hbp : 0 < b) by (unfold b; nia).
  eapply near_rounds; [|apply pow10_pos|exact Hs|exact Hb|..]; [nia|..]; set (X := v * pow10 x * pow2 0); set (Y := pow10 (- x) * pow2 e).
  all: assert (HY : 0 < Y) by (unfold Y; nia).
  all: assert (EX : X * a = v * Z.pos m * b * Y) by
    (unfold X, a, b, Y; replace (v * pow10 x * pow2 0 * (float_num m e * pow10 (- x))) with (v * pow10 x * pow10 (- x) * (float_num m e * pow2 0)) by ring;
     rewrite float_fraction by lia; ring).
  all: assert (Hlow : 2 * (Z.pos m * Y) * a - Z.pos m * Y * b <= 2 * (X * a)) by (rewrite EX; nia).
  all: assert (Hup : 2 * (X * a) <= 2 * (Z.pos m * Y) * a + Z.pos m * Y * b) by (rewrite EX; nia).
  - assert (Hs' : Z.pos m * Y * b < Y * a) by nia. split; apply (Z.mul_lt_mono_pos_r a); lia.
  - intros Em. specialize (Hsmall' Em). assert (Hs' : 2 * (Z.pos m * Y * b) < Y * a) by nia. apply (Z.mul_lt_mono_pos_r a); lia.
Qed.

Lemma units_bounds m e n : bounded 53 1024 m e = true → 0 <= n <= 17 →
  let a := float_num m e * pow10 (- (point_of m e - n)) in let b := float_den e * pow10 (point_of m e - n) in
  b * 10 ^ n <= a * 10 ∧ a <= b * 10 ^ n.
Proof.
  intros Hb Hn. destruct (float_point m e Hb) as (Hk & Hlow & Hup). generalize dependent (point_of m e). intros k Hk Hlow Hup.
  pose proof (float_num_pos m e) as Hnum. pose proof (float_den_pos e) as Hden.
  generalize dependent (float_num m e). intros num Hlow Hup Hnum. generalize dependent (float_den e). intros den Hlow Hup Hden a b.
  assert (Hsplit : ∀ z, -600 <= z → pow10 z * 10 ^ 600 = pow10 (- z) * 10 ^ (z + 600)).
  { intros z Hz. unfold pow10. destruct (Z.max_spec z 0) as [[? ->]|[? ->]], (Z.max_spec (- z) 0) as [[? ->]|[? ->]]; try lia;
      rewrite <- !Z.pow_add_r by lia; f_equal; lia. }
  set (T := 10 ^ 600) in *. assert (HT : 0 < T) by done. pose proof (Hsplit (k - n) ltac:(lia)) as Ex.
  pose proof (Hsplit k ltac:(lia)) as Ek. pose proof (Hsplit (k - 1) ltac:(lia)) as Ek1. replace (- (k - 1)) with (1 - k) in Ek1 by lia. clearbody T.
  pose proof (pow10_pos (- k)) as P1. pose proof (pow10_pos (1 - k)) as P2. pose proof (pow10_pos (- (k - n))) as P3. pose proof (pow10_pos (k - n)) as P4.
  assert (Hx : 0 < 10 ^ (k - n + 600)) by (apply Z.pow_pos_nonneg; lia).
  assert (E1 : 10 ^ (k + 600) = 10 ^ (k - n + 600) * 10 ^ n) by (rewrite <- Z.pow_add_r by lia; f_equal; lia).
  assert (E2 : 10 ^ (k + 600) = 10 ^ (k - 1 + 600) * 10) by (rewrite <- (Z.pow_1_r 10) at 3; rewrite <- Z.pow_add_r by lia; f_equal; lia).
  revert Ex Ek Ek1 Hx E1 E2. generalize (10 ^ (k - 1 + 600)) as A1, (10 ^ (k + 600)) as A, (10 ^ (k - n + 600)) as U.
  intros A1 A U Ex Ek Ek1 HU E1 E2.
  (* the value against powers of ten *)
  assert (Hlow' : den * A1 <= num * T).
  { apply (Z.mul_le_mono_pos_r _ _ (pow10 (1 - k))); [done|].
    replace (den * A1 * pow10 (1 - k)) with (den * pow10 (k - 1) * T) by (rewrite <- !Z.mul_assoc, Ek1; ring).
    replace (num * T * pow10 (1 - k)) with (num * pow10 (1 - k) * T) by ring. apply Z.mul_le_mono_nonneg_r; lia. }
  assert (Hup' : num * T <= den * A).
  { apply (Z.mul_le_mono_pos_r _ _ (pow10 (- k))); [done|].
    replace (den * A * pow10 (- k)) with (den * pow10 k * T) by (rewrite <- !Z.mul_assoc, Ek; ring).
    replace (num * T * pow10 (- k)) with (num * pow10 (- k) * T) by ring. apply Z.mul_le_mono_nonneg_r; lia. }
  assert (Ea : a * den * U = num * T * b).
  { unfold a, b. replace (num * T * (den * pow10 (k - n))) with (num * den * (pow10 (k - n) * T)) by ring. rewrite Ex. ring. }
  assert (HbT : 0 < b) by (unfold b; nia). assert (HdU : 0 < den * U) by nia. clearbody a b.
  split; apply (Z.mul_le_mono_pos_r _ _ (den * U)); [done| |done|].
  - replace (b * 10 ^ n * (den * U)) with (b * den * (U * 10 ^ n)) by ring. rewrite <- E1, E2.
    replace (b * den * (A1 * 10)) with (b * (den * A1) * 10) by ring.
    replace (a * 10 * (den * U)) with (b * (num * T) * 10) by (replace (a * 10 * (den * U)) with (a * den * U * 10) by ring; rewrite Ea; ring).
    apply Z.mul_le_mono_nonneg_r; [done|]. apply Z.mul_le_mono_nonneg_l; lia.
  - replace (a * (den * U)) with (b * (num * T)) by (replace (a * (den * U)) with (a * den * U) by ring; rewrite Ea; ring).
    replace (b * 10 ^ n * (den * U)) with (b * (den * A)) by (rewrite E1; ring). apply Z.mul_le_mono_nonneg_l; lia.
Qed.

Lemma candidate_17 m e : bounded 53 1024 m e = true → is_Some (candidate m e (point_of m e) 17).
Proof.
  intros Hb. destruct (bounded_spec m e Hb) as (Hm & _). destruct (units_bounds m e 17 Hb ltac:(lia)) as [Hlow _].
  pose proof (candidate_some m e (point_of m e) 17) as Hsome. unfold units in Hsome. generalize dependent (point_of m e - 17). intros x Hlow Hsome.
  pose proof (near_decimal m e x) as Hnear. pose proof (float_num_pos m e) as Hn. pose proof (float_den_pos e) as Hd.
  pose proof (pow10_pos x). pose proof (pow10_pos (- x)).
  set (a := float_num m e * pow10 (- x)) in *. set (b := float_den e * pow10 x) in *. assert (Hbp : 0 < b) by (unfold b; nia). clearbody a b.
  change (10 ^ 17) with (10 ^ 16 * 10) in Hlow. assert (H16 : b * 10 ^ 16 <= a) by lia. change (10 ^ 16) with 10000000000000000 in H16.
  change (2 ^ 53) with 9007199254740992 in Hm. change (2 ^ 52) with 4503599627370496 in Hnear.
  pose proof (Z.div_mod a b ltac:(lia)) as Eq. pose proof (Z.mod_pos_bound a b Hbp) as Hr. set (q := a / b) in *. set (r := a mod b) in *. clearbody q r.
  assert (Hq : 0 < q) by nia.
  destruct (Z.le_gt_cases (2 * r) b).
  - apply (Hsome q); [by left|]. apply Hnear; [done|done|nia|nia|lia].
  - apply (Hsome (q + 1)); [by right|]. apply Hnear; [done|lia|nia|nia|lia].
Qed.

Lemma shortest_found m e k : is_Some (candidate m e k 17) → ∀ fuel n, 1 <= n → Z.of_nat fuel + n = 18 → (0 < fuel)%nat →
  ∃ n' d, shortest fuel m e k n = (d, k - n') ∧ n <= n' <= 17 ∧ candidate m e k n' = Some d.
Proof.
  intros [d17 H17]. induction fuel as [|fuel IH]; intros n Hn Hf H0; [lia|]. cbn [shortest].
  destruct (candidate m e k n) as [d|] eqn:E; [exists n, d; split; [done|]; split; [lia|done]|].
  assert (n ≠ 17) by congruence. destruct (IH (n + 1)) as (n' & d & -> & Hn' & Hd); [lia..|]. exists n', d. split; [done|]. split; [lia|done].
Qed.

Lemma strip_zeros_spec fuel : ∀ d x, 0 <= d → ∃ j, 0 <= j <= Z.of_nat fuel ∧ (d = 0 → j = 0) ∧
  (strip_zeros fuel d x).2 = x + j ∧ d = (strip_zeros fuel d x).1 * 10 ^ j.
Proof.
  induction fuel as [|fuel IH]; intros d x Hd; cbn [strip_zeros]; [exists 0; cbn [fst snd]; change (10 ^ 0) with 1; lia|].
  destruct ((d mod 10 =? 0) && negb (d =? 0)) eqn:E; [|exists 0; cbn [fst snd]; change (10 ^ 0) with 1; lia].
  apply andb_true_iff in E as [E1%Z.eqb_eq E2%negb_true_iff%Z.eqb_neq].
  destruct (IH (d / 10) (x + 1)) as (j & Hj & _ & -> & Ed); [apply Z.div_pos; lia|]. exists (j + 1). split; [lia|]. split; [lia|]. split; [lia|].
  rewrite Z.pow_add_r, Z.mul_assoc, <- Ed by lia. change (10 ^ 1) with 10. pose proof (Z.div_mod d 10 ltac:(lia)). lia.
Qed.

Lemma units_le m e n : bounded 53 1024 m e = true → 0 <= n <= 17 → units m e (point_of m e - n) <= 10 ^ n.
Proof.
  intros Hb Hn. destruct (units_bounds m e n Hb Hn) as [_ Hup]. unfold units. generalize dependent (point_of m e - n). intros x Hup.
  pose proof (pow10_pos x). pose proof (float_den_pos e). apply Z.div_le_upper_bound; [nia|done].
Qed.

Lemma shortest_decimal_unfold m e : shortest_decimal m e =
  let '(d, x) := shortest 17 m e (point_of m e) 1 in
  let '(d, x) := strip_zeros 20 d x in (Itoa d, x + Z.of_nat (String.length (Itoa d))).
Proof. unfold shortest_decimal, point_of, float_num, float_den. reflexivity. Qed.

(** The digits printed for a float, and the place of the point among them, read back as it. *)
Theorem shortest_decimal_reads m e : bounded 53 1024 m e = true →
  ∃ d x, shortest_decimal m e = (Itoa d, x + Z.of_nat (String.length (Itoa d))) ∧ 0 < d <= 10 ^ 17 + 1 ∧ -417 <= x <= 419 ∧
    f64_of_decimal false d x = S754_finite false m e.
Proof.
  intros Hb. destruct (float_point m e Hb) as (Hk & _). rewrite shortest_decimal_unfold.
  destruct (shortest_found m e (point_of m e) (candidate_17 m e Hb) 17 1) as (n & d & -> & Hn & Hc); [lia..|].
  apply candidate_reads in Hc as (Hr & _ & Hu).
  assert (Hd : 0 < d) by (destruct d; [done|lia|done]).
  assert (Hd' : d <= 10 ^ 17 + 1).
  { pose proof (units_le m e n Hb ltac:(lia)). assert (10 ^ n <= 10 ^ 17) by (apply Z.pow_le_mono_r; lia). lia. }
  generalize dependent (point_of m e). intros k Hk Hr Hu.
  destruct (strip_zeros_spec 20 d (k - n) ltac:(lia)) as (j & Hj & _ & E2 & E1).
  destruct (strip_zeros 20 d (k - n)) as [d' x'] eqn:Es. cbn [fst snd] in E1, E2.
  assert (Hp : 0 < 10 ^ j) by (apply Z.pow_pos_nonneg; lia).
  exists d', x'. split; [done|]. split; [nia|]. split; [lia|]. rewrite E2, <- decimal_scale, <- E1 by nia. exact Hr.
Qed.
