(* ===== verification/JsonInv.v ===== *)
(** * What the decoder makes of a document

    One lemma for each production, for documents put together from text whose
    parts are not known: [reads] says that a text is a value, whatever comes
    after it. *)

From S2P Require Export Json FloatInt.
From S2P Require Import Shlex.
Local Open Scope string_scope.
Local Open Scope list_scope.
Local Open Scope Z_scope.
Local Open Scope kat_scope.

(** Whitespace, and what may follow a number. *)
Definition blank (w : string) : Prop := ∀ s, skip_ws (w +:+ s) = skip_ws s.
Definition after_number (rest : string) : Prop :=
  match rest with
  | EmptyString => True
  | String b _ => digit_byte b = false ∧ Ascii.eqb b "." = false ∧ Ascii.eqb b "e" = false ∧ Ascii.eqb b "E" = false
  end.

(** With [n] of fuel and at most [d] values around it, [t] is the value [v]. *)
Definition reads (n : nat) (d : Z) (t : string) (v : json) : Prop :=
  ∀ fuel depth rest, (n <= fuel)%nat → depth <= d → after_number rest → value fuel depth (t +:+ rest) = Some (v, rest).

(** A string with its quotes. *)
Definition reads_str (t s : string) : Prop :=
  ∃ t', t = String quote_char t' ∧ ∀ rest, read_string (t' +:+ rest) = Some (s, rest).

(** The members of an object, from the first quote to the closing brace. *)
Definition reads_members (n : nat) (d : Z) (t : string) (l : list (string * json)) : Prop :=
  (∃ r, t = String quote_char r) ∧
  ∀ fuel depth acc rest, (n <= fuel)%nat → depth <= d → members fuel depth acc (t +:+ rest) = Some (JObj (acc ++ l), rest).

(** The elements of an array, to the closing bracket. *)
Definition reads_elements (n : nat) (d : Z) (t : string) (l : list json) : Prop :=
  ∀ fuel depth acc rest, (n <= fuel)%nat → depth <= d → Json.elements fuel depth acc (t +:+ rest) = Some (JArr (acc ++ l), rest).

Lemma skip_quote r : skip_ws (String quote_char r) = String quote_char r.
Proof. reflexivity. Qed.

Lemma reads_quoted n d t s : reads_str t s → reads (S n) d t (JStr s).
Proof.
  intros (t' & -> & Ht) fuel depth rest Hf _ _. destruct fuel as [|fuel]; [lia|]. cbn [String.append value].
  rewrite skip_quote. change (Ascii.eqb quote_char "{") with false. change (Ascii.eqb quote_char "[") with false.
  change (Ascii.eqb quote_char quote_char) with true. cbv iota. by rewrite Ht.
Qed.

Lemma reads_more n n' d t v : reads n d t v → (n <= n')%nat → reads n' d t v.
Proof. intros H Hn fuel depth rest Hf. apply H. lia. Qed.

Lemma reads_space n d t v : reads (S n) d t v → reads (S n) d (" " +:+ t) v.
Proof. intros H fuel depth rest Hf. destruct fuel as [|fuel]; [lia|]. apply (H (S fuel) depth rest Hf). Qed.

Lemma members_more n n' d t l : reads_members n d t l → (n <= n')%nat → reads_members n' d t l.
Proof. intros [Hq H] Hn. split; [done|]. intros fuel depth acc rest Hf. apply H. lia. Qed.

(** What comes after the value of a member or an element. *)
Lemma after_blank w c s : blank w → (c = ","%char ∨ c = "}"%char ∨ c = "]"%char) → after_number (w +:+ String c s).
Proof.
  intros Hw Hc. destruct w as [|b w]; cbn [String.append after_number]; [by destruct Hc as [->|[->| ->]]|].
  specialize (Hw ""). cbn [String.append skip_ws] in Hw.
  destruct (json_space b) eqn:E; [|by apply (f_equal String.length) in Hw; destruct w].
  unfold json_space in E. rewrite !orb_true_iff, !Z.eqb_eq in E. rewrite <- (az_zb b).
  destruct E as [[[->| ->]| ->]| ->]; repeat split.
Qed.

Lemma blank_skip w c s : blank w → json_space c = false → skip_ws (w +:+ String c s) = String c s.
Proof. intros Hw Hc. rewrite Hw. cbn [skip_ws]. by rewrite Hc. Qed.

Section members.
Context (kt k t : string) (v : json) (w : string) (n : nat) (d : Z).
Context (Hk : reads_str kt k) (Ht : reads n d t v) (Hw : blank w).

Lemma members_head fuel depth acc c rest :
  (S n <= fuel)%nat → depth <= d → (c = ","%char ∨ c = "}"%char) →
  members fuel depth acc ((kt +:+ ":" +:+ t +:+ w) +:+ String c rest) =
  if Ascii.eqb c "," then members (pred fuel) depth (acc ++ [(k, v)]) (skip_ws rest)
  else Some (JObj (acc ++ [(k, v)]), rest).
Proof.
  intros Hf Hd Hc. destruct fuel as [|fuel]; [lia|]. cbn [pred]. destruct Hk as (t' & -> & Hr). rewrite !string_app_assoc.
  cbn [String.append members]. change (Ascii.eqb quote_char quote_char) with true. cbn [negb]. rewrite Hr.
  cbn [skip_ws]. change (json_space ":") with false. cbv iota. change (Ascii.eqb ":" ":") with true. cbn [negb].
  rewrite Ht; [|lia|done|by apply after_blank; tauto].
  rewrite blank_skip by (done || by destruct Hc as [->| ->]). by destruct Hc as [->| ->].
Qed.

Lemma members_last : reads_members (S n) d (kt +:+ ":" +:+ t +:+ w +:+ "}") [(k, v)].
Proof.
  split; [destruct Hk as (t' & -> & _); by eexists|]. intros fuel depth acc rest Hf Hd.
  assert (E : (kt +:+ ":" +:+ t +:+ w +:+ "}") +:+ rest = (kt +:+ ":" +:+ t +:+ w) +:+ String "}" rest)
    by (rewrite !string_app_assoc; done).
  rewrite E, members_head by tauto. done.
Qed.

Lemma members_cons m w' text l :
  reads_members m d text l → blank w' →
  reads_members (S (Nat.max n m)) d (kt +:+ ":" +:+ t +:+ w +:+ "," +:+ w' +:+ text) ((k, v) :: l).
Proof.
  intros [(r & Htx) Hl] Hw'. split; [destruct Hk as (t' & -> & _); by eexists|]. intros fuel depth acc rest Hf Hd.
  assert (E : (kt +:+ ":" +:+ t +:+ w +:+ "," +:+ w' +:+ text) +:+ rest =
              (kt +:+ ":" +:+ t +:+ w) +:+ String "," (w' +:+ text +:+ rest)) by (rewrite !string_app_assoc; done).
  rewrite E, members_head by (lia || tauto). change (Ascii.eqb "," ",") with true. cbv iota.
  rewrite Hw', Htx. cbn [String.append]. rewrite skip_quote.
  change (String quote_char (r +:+ rest)) with (String quote_char r +:+ rest). rewrite <- Htx, Hl by lia.
  by rewrite <- app_assoc.
Qed.
End members.

Lemma reads_object n d w text l :
  reads_members n (d + 1) text l → blank w → d + 1 <= maxNestingDepth → reads (S n) d ("{" +:+ w +:+ text) (JObj l).
Proof.
  intros [(r & Htx) Hl] Hw Hd fuel depth rest Hf Hdepth _. destruct fuel as [|fuel]; [lia|]. rewrite string_app_assoc.
  cbn [String.append value skip_ws]. change (json_space "{") with false. cbv iota. change (Ascii.eqb "{" "{") with true. cbv iota.
  rewrite (proj2 (Z.ltb_ge _ _)) by lia. rewrite string_app_assoc, Hw, Htx. cbn [String.append]. rewrite skip_quote.
  change (Ascii.eqb quote_char "}") with false. cbv iota. change (String quote_char (r +:+ rest)) with (String quote_char r +:+ rest).
  rewrite <- Htx, Hl by lia. done.
Qed.

Lemma elements_last n d t v : reads n d t v → reads_elements (S n) d (t +:+ "]") [v].
Proof.
  intros Ht fuel depth acc rest Hf Hd. destruct fuel as [|fuel]; [lia|]. rewrite string_app_assoc. cbn [String.append Json.elements].
  rewrite Ht by (done || lia). cbn [skip_ws]. change (json_space "]") with false. cbv iota.
  change (Ascii.eqb "]" ",") with false. change (Ascii.eqb "]" "]") with true. done.
Qed.

Lemma elements_cons n m d t v text l :
  reads n d t v → reads_elements m d text l → reads_elements (S (Nat.max n m)) d (t +:+ "," +:+ text) (v :: l).
Proof.
  intros Ht Hl fuel depth acc rest Hf Hd. destruct fuel as [|fuel]; [lia|]. rewrite !string_app_assoc. cbn [String.append Json.elements].
  rewrite Ht by (done || lia). cbn [skip_ws]. change (json_space ",") with false. cbv iota.
  change (Ascii.eqb "," ",") with true. cbv iota. rewrite Hl by lia. by rewrite <- app_assoc.
Qed.

(** An element starts with something else than a bracket. *)
Lemma reads_array n d text l b r :
  reads_elements n (d + 1) text l → text = String b r → json_space b = false → Ascii.eqb b "]" = false →
  d + 1 <= maxNestingDepth → reads (S n) d ("[" +:+ text) (JArr l).
Proof.
  intros Hl Htx Hb Hne Hd fuel depth rest Hf Hdepth _. destruct fuel as [|fuel]; [lia|].
  cbn [String.append value skip_ws]. change (json_space "[") with false. cbv iota.
  change (Ascii.eqb "[" "{") with false. change (Ascii.eqb "[" "[") with true. cbv iota.
  rewrite (proj2 (Z.ltb_ge _ _)) by lia. rewrite Htx. cbn [String.append skip_ws]. rewrite Hb, Hne.
  change (String b (r +:+ rest)) with (String b r +:+ rest). rewrite <- Htx, Hl by lia. done.
Qed.

Lemma reads_parse n d t v : reads n d t v → (n <= S (String.length t))%nat → 0 <= d → parse t = Some v.
Proof.
  intros Ht Hn Hd. unfold parse. rewrite <- (string_app_nil_r t) at 2. by rewrite Ht.
Qed.

(** The elements of a list, separated by a comma and a space. *)
Lemma elements_join n d pre ts vs :
  ts ≠ [] → (pre = "" ∨ pre = " ") → Forall2 (reads (S n) d) ts vs →
  reads_elements (S n + length ts) d (pre +:+ str_join ", " ts +:+ "]") vs.
Proof.
  intros Hne Hpre H. revert pre Hpre Hne. induction H as [|t v ts vs Ht Hts IH]; intros pre Hpre Hne; [done|].
  assert (Ht' : reads (S n) d (pre +:+ t) v) by (destruct Hpre as [-> | -> ]; [done|by apply reads_space]).
  destruct ts as [|t2 ts].
  - inversion Hts; subst. cbn [str_join length]. rewrite <- string_app_assoc. rewrite Nat.add_1_r. by apply elements_last.
  - specialize (IH " " (or_intror eq_refl) ltac:(done)). cbn [length] in *.
    change (str_join ", " (t :: t2 :: ts)) with (t +:+ ", " +:+ str_join ", " (t2 :: ts)).
    assert (E : pre +:+ (t +:+ ", " +:+ str_join ", " (t2 :: ts)) +:+ "]" =
                (pre +:+ t) +:+ "," +:+ " " +:+ str_join ", " (t2 :: ts) +:+ "]") by (rewrite !string_app_assoc; done).
    rewrite E. pose proof (elements_cons _ _ _ _ _ _ _ Ht' IH) as Hc.
    intros fuel depth acc rest Hf. apply Hc. lia.
Qed.

(** ** Strings written as they are *)

(** A rune the decoder takes for itself. *)
Definition plain_rune (r : Z) : bool := (0x20 <=? r) && negb (r =? 34) && negb (r =? 92).
Definition json_plain (s : string) : bool := utf8_valid s && forallb plain_rune (runes s).

Lemma str_body_plain fuel r t :
  valid_rune r = true → plain_rune r = true →
  str_body (S fuel) (encode_rune r +:+ t) = prepend (encode_rune r) (str_body fuel t).
Proof.
  intros Hv Hp. unfold plain_rune in Hp. rewrite !andb_true_iff, !negb_true_iff, Z.leb_le, !Z.eqb_neq in Hp.
  assert (Hd : GoString.decode (encode_rune r +:+ t) = (r, encode_rune r) :: GoString.decode t) by by apply decode_encode.
  destruct (encode_rune r) as [|a x] eqn:E; [by apply encode_rune_nonempty in E|]. cbn [String.append] in Hd |- *.
  assert (Ha : zb a < 0x80 → r = zb a) by (intros; by eapply encode_rune_head).
  assert (Hne : ∀ k, 0 <= k < 128 → r ≠ k → Ascii.eqb a (az k) = false).
  { intros k Hk Hn. apply Ascii.eqb_neq. intros ->. rewrite zb_az in Ha by lia. lia. }
  cbn [str_body]. unfold quote_char, backslash. rewrite !Hne by lia.
  rewrite (proj2 (Z.ltb_ge (zb a) 0x20)) by lia. destruct (Z.ltb_spec (zb a) 0x80) as [Hlt|Hge].
  - rewrite Ha in E by done. rewrite encode_1 in E by done. by injection E as <-.
  - unfold DecodeRune. rewrite Hd. cbv iota beta. rewrite E.
    change (String a (x +:+ t)) with (String a x +:+ t). by rewrite string_drop_length_app.
Qed.

Lemma runes_length rs : (length rs <= String.length (string_of_runes rs))%nat.
Proof.
  induction rs as [|r rs IH]; [done|]. change (string_of_runes (r :: rs)) with (encode_rune r +:+ string_of_runes rs).
  rewrite string_length_app. cbn [length]. pose proof (encode_rune_nonempty r). destruct (encode_rune r); [done|cbn; lia].
Qed.

Lemma reads_plain s : json_plain s = true → reads_str (str1 quote_char +:+ s +:+ str1 quote_char) s.
Proof.
  unfold json_plain. intros [Hv Hp]%andb_true_iff. exists (s +:+ str1 quote_char). split; [done|]. intros rest.
  unfold read_string. rewrite string_app_assoc. cbn [str1 String.append].
  assert (H : ∀ rs fuel, valid_runes rs → forallb plain_rune rs = true → (length rs < fuel)%nat →
    str_body fuel (string_of_runes rs +:+ String quote_char rest) = Some (string_of_runes rs, rest)).
  { intros rs fuel Hrs. revert fuel. induction Hrs as [|r rs Hr _ IH]; intros fuel Hp' Hf; (destruct fuel; [cbn in Hf; lia|]); [done|].
    cbn [forallb] in Hp'. apply andb_true_iff in Hp' as [Hr' Hp'].
    change (string_of_runes (r :: rs)) with (encode_rune r +:+ string_of_runes rs).
    rewrite string_app_assoc, str_body_plain by done. rewrite IH; [done|done|cbn in Hf; lia]. }
  pose proof (H (runes s) (String.length (s +:+ String quote_char rest)) (runes_valid s) Hp) as Hs.
  rewrite valid_utf8_runes in Hs by done. apply Hs. rewrite string_length_app. cbn [String.length].
  rewrite <- (valid_utf8_runes s) at 2 by done. pose proof (runes_length (runes s)). lia.
Qed.

(** ** Numbers *)

Lemma pretty_lead x s : x ≠ 0%N → ∃ d t, pretty_N_go x s = String (az (48 + d)) t ∧ 1 <= d <= 9.
Proof.
  revert s. induction x as [x IH] using (well_founded_induction N.lt_wf_0); intros s Hx. rewrite pretty_N_go_step by lia.
  destruct (decide (x `div` 10 = 0)%N) as [E|E].
  - rewrite E, pretty_N_go_0. assert (Hlt : (x < 10)%N) by (apply N.div_small_iff in E; lia).
    rewrite N.mod_small, pretty_N_char_digit by done. eexists _, _. split; [done|lia].
  - apply IH; [apply N.div_lt; lia|done].
Qed.

Lemma Itoa_lead n : 0 < n → ∃ d t, Itoa n = String (az (48 + d)) t ∧ 1 <= d <= 9.
Proof.
  intros Hn. destruct n as [|p|p]; [lia| |lia]. unfold Itoa, pretty, pretty_Z, pretty_N.
  change (pretty p) with (pretty (N.pos p)). unfold pretty, pretty_N. rewrite decide_False by done. by apply pretty_lead.
Qed.

Lemma digit_byte_digit d : 0 <= d <= 9 → digit_byte (az (48 + d)) = true.
Proof. intros Hd. unfold digit_byte, is_digit. rewrite zb_az by lia. by rewrite !(proj2 (Z.leb_le _ _)) by lia. Qed.

Lemma span_digits_all ds rest :
  Forall (fun d => 0 <= d <= 9) ds → after_number rest →
  span_digits (digit_string ds +:+ rest) = (digit_string ds, rest).
Proof.
  intros Hds Hr. induction Hds as [|d ds Hd _ IH].
  - destruct rest as [|b r]; [done|]. destruct Hr as [Hb _]. cbn. by rewrite Hb.
  - unfold digit_string in *. cbn [fmap list_fmap bytes_string String.append span_digits]. by rewrite digit_byte_digit, IH.
Qed.

Lemma read_number_Itoa n rest : 0 <= n → after_number rest → read_number (Itoa n +:+ rest) = Some (Itoa n, rest).
Proof.
  intros Hn Hr. assert (Hi : read_int (Itoa n +:+ rest) = Some (Itoa n, rest) ∧
    ∃ d t, Itoa n = String (az (48 + d)) t ∧ 0 <= d <= 9).
  { destruct (decide (n = 0)) as [->|Hne]; [split; [done|by exists 0, ""]|].
    destruct (Itoa_lead n ltac:(lia)) as (d & t & E & Hd). split; [|exists d, t; split; [done|lia]].
    destruct (Itoa_digits n) as (ds & Eds & _ & Hds & _). rewrite (proj2 (Z.ltb_ge n 0)) in Eds by lia. cbn in Eds.
    pose proof (span_digits_all ds rest Hds Hr) as Hs. rewrite <- Eds, E in Hs. rewrite E. cbn [String.append read_int] in *.
    rewrite zb_az by lia. rewrite (proj2 (Z.eqb_neq (48 + d) 48)), digit_byte_digit by lia. by rewrite Hs. }
  destruct Hi as [Hi (d & t & E & Hd)]. unfold read_number.
  assert (Hm : Ascii.eqb (az (48 + d)) "-" = false).
  { apply Ascii.eqb_neq. intros Hc. apply (f_equal zb) in Hc. rewrite zb_az in Hc by lia. change (zb "-") with 45 in Hc. lia. }
  assert (Hs : match Itoa n +:+ rest with
               | String c r' => if Ascii.eqb c "-" then (str1 c, r') else ("", Itoa n +:+ rest)
               | EmptyString => ("", "")
               end = ("", Itoa n +:+ rest)) by (rewrite E; cbn; by rewrite Hm).
  rewrite Hs, Hi.
  destruct rest as [|b r]; [by cbn; rewrite string_app_nil_r|]. destruct Hr as (_ & Hdot & He & HE).
  cbn [read_frac read_exp]. rewrite Hdot. cbn [read_exp]. rewrite He, HE. cbn [orb String.append]. by rewrite !string_app_nil_r.
Qed.

Lemma reads_number n d m : 0 <= m → reads (S n) d (Itoa m) (JNum (Itoa m)).
Proof.
  intros Hm fuel depth rest Hf _ Hr. destruct fuel as [|fuel]; [lia|].
  pose proof (read_number_Itoa m rest Hm Hr) as Hn.
  assert (Hl : ∃ d t, Itoa m = String (az (48 + d)) t ∧ 0 <= d <= 9).
  { destruct (decide (m = 0)) as [->|Hne]; [by exists 0, ""|]. destruct (Itoa_lead m ltac:(lia)) as (d' & t & E & Hd).
    exists d', t. split; [done|lia]. }
  destruct Hl as (k & t & E & Hk). rewrite E in *. cbn [String.append value skip_ws].
  assert (Hne : ∀ c, (zb c < 48 ∨ 57 < zb c) → Ascii.eqb (az (48 + k)) c = false).
  { intros c Hc. apply Ascii.eqb_neq. intros <-. rewrite zb_az in Hc by lia. lia. }
  assert (Hsp : json_space (az (48 + k)) = false).
  { unfold json_space. rewrite zb_az by lia. by rewrite !(proj2 (Z.eqb_neq _ _)) by lia. }
  rewrite Hsp. rewrite !Hne by (vm_compute; by (left + right)). change (String ?a (t +:+ rest)) with (String a t +:+ rest). by rewrite Hn.
Qed.

Lemma digits_value_foldl ds v :
  digits_value v ((fun d => 48 + d) <$> ds) = foldl (fun v d => v * 10 + d) v ds.
Proof. revert v. induction ds as [|d ds IH]; intros v; [done|]. cbn [fmap list_fmap digits_value foldl]. rewrite IH. f_equal. lia. Qed.

Lemma digits_all ds :
  Forall (fun d => 0 <= d <= 9) ds →
  take_while is_digit ((fun d => 48 + d) <$> ds) = (fun d => 48 + d) <$> ds ∧
  drop_while is_digit ((fun d => 48 + d) <$> ds) = [].
Proof.
  induction 1 as [|d ds Hd _ [IH1 IH2]]; [done|]. cbn [fmap list_fmap take_while drop_while].
  assert (E : is_digit (48 + d) = true) by (unfold is_digit; by rewrite !(proj2 (Z.leb_le _ _)) by lia).
  rewrite E. split; [by f_equal|done].
Qed.

(** Without a sign. *)
Lemma ParseFloat_unsigned z rs :
  z ≠ 43 → z ≠ 45 →
  ParseFloat (z :: rs) =
  let s := z :: rs in
  let after := drop_while is_digit s in
  let '(frac, tail) := match after with
                       | 46 :: f => (take_while is_digit f, drop_while is_digit f)
                       | a => ([], a)
                       end in
  if Nat.eqb (length (take_while is_digit s) + length frac) 0 then None
  else match read_exponent tail with
       | None => None
       | Some e => Some (f64_of_decimal false (digits_value 0 (take_while is_digit s ++ frac)) (e - Z.of_nat (length frac)))
       end.
Proof.
  intros H1 H2. destruct z as [|p|p]; try reflexivity. do 6 (destruct p as [p|p|]; try reflexivity); congruence.
Qed.

(** The float of a number of at most 53 bits. *)
Lemma to_float_Itoa m : 0 <= m < 2 ^ 53 → ∃ f, to_float (JNum (Itoa m)) = Some f ∧ floatToBigInt f = Ok m.
Proof.
  intros Hm. destruct (Itoa_digits m) as (ds & E & Hne & Hds & Hv). rewrite (proj2 (Z.ltb_ge m 0)) in E by lia. cbn in E.
  exists (f64_of_decimal false m 0). assert (Hi : floatToBigInt (f64_of_decimal false m 0) = Ok m) by by apply float_of_int.
  split; [|done]. unfold to_float. rewrite E, runes_digit_string by done.
  assert (Hp : ParseFloat ((fun d => 48 + d) <$> ds) = Some (f64_of_decimal false m 0)).
  { destruct (digits_all ds Hds) as [Ht Hdr]. destruct ds as [|d ds]; [done|]. pose proof (Forall_inv Hds) as Hd. cbn beta in Hd.
    rewrite fmap_cons in Ht, Hdr |- *. rewrite ParseFloat_unsigned by lia. cbv zeta. rewrite Ht, Hdr, app_nil_r. cbn [length Nat.add Nat.eqb read_exponent].
    change (0 - Z.of_nat 0) with 0. rewrite <- (fmap_cons (fun d => 48 + d)), digits_value_foldl, Hv. rewrite Z.abs_eq by lia. reflexivity. }
  rewrite Hp. destruct (f64_of_decimal false m 0); done.
Qed.
