(* ===== verification/Base64.v ===== *)
(** * Package [encoding/base64], the standard encoding

    [StdEncoding], padded: what carries a device's archive in a ConfigMap and
    the credentials of a private registry in the settings. *)

From S2P Require Export Hash.
Local Open Scope string_scope.
Local Open Scope list_scope.
Local Open Scope Z_scope.
Local Open Scope kat_scope.

(** The two alphabets differ in their last two letters. *)
Definition std_letter (b : ascii) : ascii :=
  if zb b =? 45 then az 43 else if zb b =? 95 then az 47 else b.

Definition base64_encode (bs : list Z) : list ascii := std_letter <$> b64_encode bs.
Definition EncodeToString (s : string) : string := bytes_string (base64_encode (zb <$> string_bytes s)).

(** The value of a letter. *)
Definition b64_value (b : ascii) : option Z :=
  let z := zb b in
  if (65 <=? z) && (z <=? 90) then Some (z - 65)
  else if (97 <=? z) && (z <=? 122) then Some (z - 71)
  else if (48 <=? z) && (z <=? 57) then Some (z + 4)
  else if z =? 43 then Some 62 else if z =? 47 then Some 63 else None.

Definition byte_of (z n : Z) : Z := Z.land (Z.shiftr z n) 255.

(** One quantum of four letters at a time; only the last one has padding.  The
    unused bits of a padded quantum are not looked at. *)
Fixpoint b64_decode (s : list ascii) : option (list Z) :=
  match s with
  | [] => Some []
  | a :: b :: c :: d :: rest =>
      match b64_value a, b64_value b with
      | Some va, Some vb =>
          match b64_value c, b64_value d with
          | Some vc, Some vd =>
              let z := ((va * 64 + vb) * 64 + vc) * 64 + vd in
              match b64_decode rest with
              | Some bs => Some (byte_of z 16 :: byte_of z 8 :: byte_of z 0 :: bs)
              | None => None
              end
          | Some vc, None =>
              if Ascii.eqb d (az 61) && bool_decide (rest = [])
              then let z := ((va * 64 + vb) * 64 + vc) * 64 in Some [byte_of z 16; byte_of z 8] else None
          | None, _ =>
              if Ascii.eqb c (az 61) && Ascii.eqb d (az 61) && bool_decide (rest = [])
              then Some [byte_of ((va * 64 + vb) * 4096) 16] else None
          end
      | _, _ => None
      end
  | _ => None
  end.

(** [DecodeString]: line breaks are dropped wherever they are. *)
Definition line_break (b : ascii) : bool := (zb b =? 10) || (zb b =? 13).
Definition DecodeString (s : string) : option string :=
  (fun bs => bytes_string (az <$> bs)) <$> b64_decode (List.filter (fun b => negb (line_break b)) (string_bytes s)).

Example base64_encode_1 : EncodeToString "Ma" = "TWE=".
Proof. reflexivity. Qed.
Example base64_encode_2 : EncodeToString (str1 (az 251) +:+ str1 (az 255)) = "+/8=".
Proof. reflexivity. Qed.
Example base64_decode_1 : DecodeString ("TW" +:+ str1 (az 10) +:+ "Fu") = Some "Man".
Proof. reflexivity. Qed.
Example base64_decode_2 : DecodeString "TWE" = None.
Proof. reflexivity. Qed.

(** ** The round trip *)

Lemma letter_value i : 0 <= i < 64 → b64_value (std_letter (b64_char i)) = Some i.
Proof.
  intros Hi. assert (Hall : forallb (fun k => bool_decide (b64_value (std_letter (b64_char (Z.of_nat k))) = Some (Z.of_nat k)))
                              (seq 0 64) = true) by (vm_compute; reflexivity).
  rewrite forallb_forall in Hall. specialize (Hall (Z.to_nat i)).
  rewrite Z2Nat.id in Hall by lia. apply bool_decide_eq_true in Hall; [done|]. apply in_seq. lia.
Qed.

Lemma letter_plain i : 0 <= i < 64 → line_break (std_letter (b64_char i)) = false ∧ b64_value (az 61) = None.
Proof.
  intros Hi. split; [|reflexivity].
  assert (Hall : forallb (fun k => negb (line_break (std_letter (b64_char (Z.of_nat k))))) (seq 0 64) = true)
    by (vm_compute; reflexivity).
  rewrite forallb_forall in Hall. specialize (Hall (Z.to_nat i)).
  rewrite Z2Nat.id in Hall by lia. apply negb_true_iff, Hall, in_seq. lia.
Qed.

Lemma letter_land z : b64_value (std_letter (b64_char (Z.land z 63))) = Some (Z.land z 63).
Proof. apply letter_value. change 63 with (Z.ones 6). rewrite Z.land_ones by lia. apply Z.mod_pos_bound. lia. Qed.

(** The bytes of a quantum and its letters, of which a short one leaves out
    the last. *)
Lemma quantum_bytes b0 b1 b2 :
  0 <= b0 < 256 → 0 <= b1 < 256 → 0 <= b2 < 256 →
  let z := b0 * 65536 + b1 * 256 + b2 in
  let c n := Z.land (Z.shiftr z n) 63 in
  ((c 18 * 64 + c 12) * 64 + c 6) * 64 + Z.land z 63 = z ∧
  (b2 = 0 → Z.land z 63 = 0) ∧ (b1 = 0 → b2 = 0 → c 6 = 0) ∧
  byte_of z 16 = b0 ∧ byte_of z 8 = b1 ∧ byte_of z 0 = b2.
Proof.
  intros H0 H1 H2. cbn zeta. unfold byte_of. change 63 with (Z.ones 6). change 255 with (Z.ones 8).
  rewrite !Z.land_ones, !Z.shiftr_div_pow2 by lia.
  change (2 ^ 18) with 262144. change (2 ^ 12) with 4096. change (2 ^ 6) with 64. change (2 ^ 0) with 1.
  change (2 ^ 16) with 65536. change (2 ^ 8) with 256.
  repeat split; intros; subst; Z.to_euclidean_division_equations; lia.
Qed.

(** Three bytes at a time. *)
Lemma triples_ind (P : list Z → Prop) :
  P [] → (∀ a, P [a]) → (∀ a b, P [a; b]) → (∀ a b c l, P l → P (a :: b :: c :: l)) → ∀ l, P l.
Proof.
  intros H0 H1 H2 H3 l. revert l. fix IH 1. intros [|a [|b [|c l]]]; [done|done|done|]. apply H3, IH.
Qed.

Local Notation is_byte := (fun b => 0 <= b < 256).

Lemma b64_decode_encode bs : Forall is_byte bs → b64_decode (base64_encode bs) = Some bs.
Proof.
  induction bs as [|a|a b|a b c l IH] using triples_ind; intros Hb; [done|..]; rewrite !Forall_cons in Hb;
    unfold base64_encode; cbn [b64_encode fmap list_fmap b64_decode]; rewrite ?Z.shiftl_mul_pow2 by lia;
    change (2 ^ 16) with 65536; change (2 ^ 8) with 256; rewrite !letter_land.
  - destruct (quantum_bytes a 0 0) as (Hz & H6 & H12 & H0 & _); [lia..|]. rewrite H6, H12 in Hz by done.
    rewrite !Z.add_0_r in *. change (Ascii.eqb (std_letter (az 61)) (az 61)) with true.
    change (b64_value (std_letter (az 61))) with (@None Z). cbn [andb bool_decide decide_rel].
    match goal with |- context [byte_of ?x 16] => replace x with (a * 65536) by lia end. by rewrite H0.
  - destruct (quantum_bytes a b 0) as (Hz & H6 & _ & H0 & H1 & _); [lia..|]. rewrite H6 in Hz by done.
    rewrite !Z.add_0_r in *. change (Ascii.eqb (std_letter (az 61)) (az 61)) with true.
    change (b64_value (std_letter (az 61))) with (@None Z). cbn [andb]. by rewrite Hz, H0, H1.
  - destruct (quantum_bytes a b c) as (Hz & _ & _ & H0 & H1 & H2); [lia..|].
    rewrite Hz. fold (base64_encode l). rewrite IH by tauto. by rewrite H0, H1, H2.
Qed.

Lemma encoded_plain bs : List.filter (fun b => negb (line_break b)) (base64_encode bs) = base64_encode bs.
Proof.
  assert (Hl : ∀ z, line_break (std_letter (b64_char (Z.land z 63))) = false).
  { intros z. apply (letter_plain (Z.land z 63)). change 63 with (Z.ones 6). rewrite Z.land_ones by lia.
    apply Z.mod_pos_bound. lia. }
  unfold base64_encode.
  induction bs as [|a|a b|a b c l IH] using triples_ind; [done|..]; cbn [b64_encode fmap list_fmap List.filter];
    rewrite !Hl; cbn [negb]; [done|done|]. by rewrite IH.
Qed.

(** What was encoded is decoded, whatever bytes it has. *)
Lemma DecodeString_EncodeToString s : DecodeString (EncodeToString s) = Some s.
Proof.
  unfold DecodeString, EncodeToString. rewrite string_bytes_string, encoded_plain, b64_decode_encode.
  - cbn. f_equal. rewrite <- list_fmap_compose. rewrite <- (bytes_string_bytes s) at 2. f_equal.
    rewrite <- (list_fmap_id (string_bytes s)) at 2. apply list_fmap_ext. intros i a _. apply az_zb.
  - apply Forall_fmap, Forall_true. intros a. apply zb_range.
Qed.
