(* ===== verification/Params.v ===== *)
(** * The public client API (kathara/params.go, registry.go, client.go)

    What callers hand to a manager, the table of backends and the choice of one.
    The manager a backend builds is a parameter: the client forwards to it. *)

From S2P Require Export Machine StrOrder.
From S2P Require Settings Shlex.
Local Open Scope string_scope.
Local Open Scope list_scope.
Local Open Scope Z_scope.
Local Open Scope kat_scope.

(** ** Parameters (params.go) *)

(** A set of names that may be nil: [None]. *)
Definition NameSet : Type := option (gset string).

Definition NewNameSet (names : list string) : NameSet := Some (list_to_set names).
Definition set_len (s : NameSet) : Z := match s with Some s => Z.of_nat (size s) | None => 0 end.
Definition set_has (s : NameSet) (name : string) : bool :=
  match s with Some s => bool_decide (name ∈ s) | None => false end.
(** [Names]: the members, sorted. *)
Definition set_names (s : NameSet) : list string :=
  match s with Some s => sort_strings (elements s) | None => [] end.

Record DeployLabOptions : Type := mkDeployOptions { SelectedMachines : NameSet; ExcludedMachines : NameSet }.

Record UndeployLabOptions : Type := mkUndeployOptions {
  uSelectedMachines : NameSet;
  uExcludedMachines : NameSet;
  uSelectedLinks : NameSet
}.

Definition labRefParamNames : list string := ["lab_hash"; "lab_name"; "lab"].

Record LabRef : Type := mkLabRef { refHash : string; refName : string; refLab : option loc }.

Definition ref_count (r : LabRef) : Z :=
  (if negb (String.eqb r.(refHash) "") then 1 else 0) + (if negb (String.eqb r.(refName) "") then 1 else 0)
  + match r.(refLab) with Some _ => 1 | None => 0 end.

Definition RequireSingle (r : LabRef) : result goerror unit :=
  let n := ref_count r in
  if n =? 0 then Err (NewOneParameter labRefParamNames)
  else if 1 <? n then Err (NewOnlyOneParameter labRefParamNames)
  else Ok tt.

Definition AtMostOne (r : LabRef) : result goerror unit :=
  if 1 <? ref_count r then Err (NewOnlyOneParameter labRefParamNames) else Ok tt.

(** Whether to wait, how often to try ([None] is for ever) and how many
    nanoseconds apart. *)
Record WaitPolicy : Type := mkWait { Enabled : bool; Retries : option Z; Interval : Z }.

Definition Second : Z := 1000000000.
Definition NoWait : WaitPolicy := mkWait false None 0.
Definition WaitForever : WaitPolicy := mkWait true None Second.
Definition WaitRetries (retries interval : Z) : WaitPolicy := mkWait true (Some retries) interval.

Record Command : Type := mkCommand { argv : list string; cmdLine : string; shell : bool }.

Definition NewCommand (argv : list string) : Command := mkCommand argv "" false.
Definition NewShellCommand (line : string) : Command := mkCommand [] line true.

Definition Argv (c : Command) : option (list string) := if c.(shell) then None else Some c.(argv).
Definition Line (c : Command) : option string := if negb c.(shell) then None else Some c.(cmdLine).

(** [commandWords] of both backends. *)
Definition commandWords (command : Command) : result goerror (list string) :=
  match Argv command with
  | Some argv => Ok argv
  | None => Shlex.ShlexSplit (default "" (Line command))
  end.

(** [commandRepr]: a line as it is, words as Python prints a list of strings. *)
Definition commandRepr (command : Command) : string :=
  match Line command with
  | Some line => line
  | None => PythonStrListRepr (default [] (Argv command))
  end.

Record ConnectTTYOptions : Type := mkTTYOptions { ttyShell : string; ttyLogs : bool; ttyWait : WaitPolicy }.

Definition DefaultConnectTTYOptions : ConnectTTYOptions := mkTTYOptions "" false WaitForever.

(** ** Backends (registry.go) *)

Definition ErrInvalidBackend : goerror := EPlain "kathara: invalid backend registration".
Definition ErrDuplicateBackend : goerror := EPlain "kathara: backend already registered".
Definition ErrNoSettings : goerror := EPlain "kathara: settings must not be nil".

Section registry.
(** What a factory makes of the configuration; a nil manager is [None]. *)
Context {Manager Dispatcher : Type}.

Record Config : Type := mkConfig { cfgSettings : Settings.Settings; cfgDispatcher : Dispatcher; cfgDefaults : Defaults }.

Record Backend : Type := mkBackend {
  bName : string;
  FormattedName : string;
  New : option (Config → result goerror (option Manager))
}.

Record Registry : Type := mkRegistry { order : list string; backends : gmap string Backend }.

Definition NewRegistry : Registry := mkRegistry [] ∅.

(** [%q] of a name: the quoting is Go's. *)
Context (quote : string → string).

Definition Register (b : Backend) : M Registry goerror unit := fun r =>
  if String.eqb b.(bName) "" then (r, Err (EFmt (Error ErrInvalidBackend +:+ ": empty name") ErrInvalidBackend))
  else match b.(New) with
  | None => (r, Err (EFmt (Error ErrInvalidBackend +:+ ": " +:+ quote b.(bName) +:+ " has no constructor") ErrInvalidBackend))
  | Some _ =>
      match r.(backends) !! b.(bName) with
      | Some _ => (r, Err (EFmt (Error ErrDuplicateBackend +:+ ": " +:+ quote b.(bName)) ErrDuplicateBackend))
      | None => (mkRegistry (r.(order) ++ [b.(bName)]) (<[b.(bName) := b]> r.(backends)), Ok tt)
      end
  end.

Definition Lookup (r : Registry) (name : string) : option Backend := r.(backends) !! name.

(** [Available]: a name without a backend would show an empty display name. *)
Definition Available (r : Registry) : list (string * string) :=
  (fun name => (name, match r.(backends) !! name with Some b => b.(FormattedName) | None => "" end)) <$> r.(order).

Definition Names (r : Registry) : list string := r.(order).

(** ** The client (client.go) *)

Definition DefaultsFrom (s : option Settings.Settings) : Defaults :=
  match s with
  | None => DefaultDefaults
  | Some s => mkDefaults s.(Settings.sImage) s.(Settings.sDeviceShell) s.(Settings.sEnableIPv6)
                s.(Settings.sVolumeMountPolicy)
  end.

Record clientOptions : Type := mkOptions {
  optRegistry : option Registry;
  optDispatcher : option Dispatcher;
  optDefaults : option Defaults
}.

Record Client : Type := mkClient { manager : Manager; registry : option Registry }.

(** The options are folded into a record before anything is resolved. *)
Definition NewClient (DefaultRegistry : Registry) (event_Default : Dispatcher) (s : option Settings.Settings)
    (opts : list (clientOptions → clientOptions)) : result goerror Client :=
  match s with
  | None => Err ErrNoSettings
  | Some set =>
      let o := foldl (fun o opt => opt o) (mkOptions None None None) opts in
      let reg := default DefaultRegistry o.(optRegistry) in
      let dispatcher := default event_Default o.(optDispatcher) in
      let defaults := default (DefaultsFrom s) o.(optDefaults) in
      match Lookup reg set.(Settings.sManagerType) with
      | None => Err ErrSettingsManagerType
      | Some backend =>
          match backend.(New) with
          | None => Err ErrInvalidBackend
          | Some new =>
              let* m := new (mkConfig set dispatcher defaults) in
              match m with
              | None => Err (EFmt (Error ErrInvalidBackend +:+ ": " +:+ quote backend.(bName) +:+ " returned no manager")
                               ErrInvalidBackend)
              | Some m => Ok (mkClient m (Some reg))
              end
          end
      end
  end.

Definition NewClientWithManager (m : option Manager) : option Client :=
  match m with None => None | Some m => Some (mkClient m None) end.

Definition AvailableManagers (DefaultRegistry : Registry) (c : Client) : list (string * string) :=
  Available (default DefaultRegistry c.(registry)).

(** ** Lemmas *)

(** A registry reachable by registrations. *)
Inductive registered : Registry → Prop :=
| registered_new : registered NewRegistry
| registered_step r b : registered r → registered (Register b r).1.

Record registry_ok (r : Registry) : Prop := {
  reg_nodup : NoDup r.(order);
  reg_dom : ∀ n, n ∈ r.(order) ↔ is_Some (r.(backends) !! n);
  reg_named : ∀ n b, r.(backends) !! n = Some b → b.(bName) = n ∧ n ≠ "" ∧ is_Some b.(New)
}.

Lemma Register_ok b r : registry_ok r → registry_ok (Register b r).1.
Proof.
  intros [Hnd Hdom Hnamed]. unfold Register. destruct (String.eqb_spec b.(bName) ""); [done|].
  destruct (New b) as [f|] eqn:Ef; [|done]. destruct (r.(backends) !! b.(bName)) as [b'|] eqn:E; [done|].
  constructor; cbn.
  - apply NoDup_app. split; [done|]. split; [|by repeat constructor; set_solver].
    intros x Hx Hin. apply list_elem_of_singleton in Hin as ->. apply Hdom in Hx as [? ?]. congruence.
  - intros m. rewrite elem_of_app, Hdom, list_elem_of_singleton. destruct (decide (m = b.(bName))) as [->|Hne].
    + rewrite lookup_insert_eq. naive_solver.
    + rewrite lookup_insert_ne by done. naive_solver.
  - intros m b'. destruct (decide (b.(bName) = m)) as [<-|Hne].
    + rewrite lookup_insert_eq. intros [= <-]. by rewrite Ef.
    + rewrite lookup_insert_ne by done. apply Hnamed.
Qed.

(** The table of backends stays sound whatever is registered: every
    listed name once, in the order of registration, each with a constructor. *)
Theorem registry_sound r : registered r → registry_ok r.
Proof.
  induction 1 as [|r b _ IH]; [|by apply Register_ok].
  constructor; cbn; [constructor| |done]. intros n. rewrite lookup_empty. set_solver.
Qed.

(** A registered backend is found under its name until the end, and no later
    registration changes what a name stands for. *)
Theorem Register_Lookup b r r' :
  Register b r = (r', Ok tt) →
  Lookup r' b.(bName) = Some b ∧ (∀ n, n ≠ b.(bName) → Lookup r' n = Lookup r n) ∧
  Names r' = Names r ++ [b.(bName)] ∧ ∀ b2 n, is_Some (Lookup r' n) → Lookup (Register b2 r').1 n = Lookup r' n.
Proof.
  intros Hr. assert (Hkeep : ∀ b2 r n, is_Some (Lookup r n) → Lookup (Register b2 r).1 n = Lookup r n).
  { intros b2 r0 n [b0 Hn]. unfold Register, Lookup in *. destruct (String.eqb_spec b2.(bName) ""); [done|].
    destruct (New b2); [|done]. destruct (r0.(backends) !! b2.(bName)) eqn:E; [done|]. cbn.
    rewrite lookup_insert_ne; [done|]. intros <-. congruence. }
  unfold Register in Hr. destruct (String.eqb_spec b.(bName) ""); [discriminate|].
  destruct (New b); [|discriminate]. destruct (r.(backends) !! b.(bName)) eqn:E; [discriminate|].
  injection Hr as <-. unfold Lookup. cbn. split; [apply lookup_insert_eq|].
  split; [by intros m Hm; apply lookup_insert_ne|]. split; [done|]. intros b2 m Hm. by apply Hkeep.
Qed.
End registry.

(** A scenario is named in exactly one way, or refused. *)
Lemma RequireSingle_exact r :
  RequireSingle r = Ok tt ↔
  (r.(refHash) ≠ "" ∧ r.(refName) = "" ∧ r.(refLab) = None) ∨
  (r.(refHash) = "" ∧ r.(refName) ≠ "" ∧ r.(refLab) = None) ∨
  (r.(refHash) = "" ∧ r.(refName) = "" ∧ r.(refLab) ≠ None).
Proof.
  unfold RequireSingle, ref_count. destruct r as [h n l]; cbn.
  destruct (String.eqb_spec h ""), (String.eqb_spec n ""), l; cbn; naive_solver.
Qed.
