(* ===== verification/Services.v ===== *)
(** * What the services of a backend are made of

    Both backends keep the same kind of state and run the same kind of program:
    calls to a client that changes a world the backend cannot see, edits of the
    scenario, objects hung on devices and collision domains, and batches of
    tasks (pool.go).  [C] and [N] are what a backend hangs on a device and on a
    collision domain, [W] the world of its client. *)

From S2P Require Export Lab Pool Params.
Local Open Scope string_scope.
Local Open Scope list_scope.
Local Open Scope Z_scope.
Local Open Scope kat_scope.

Section services.
Context {F C N W : Type} `{TextCases}.

Record dstate : Type := mkD {
  d_heap : heap F;
  d_machines : gmap loc C;    (* machine.APIObject *)
  d_links : gmap loc N;       (* link.APIObject *)
  d_world : W
}.

Definition SM (A : Type) : Type := M dstate failure A.

(** A program over the scenario, and a call to the client. *)
Definition hp {A} (m : MM (F := F) A) : SM A := fun s =>
  let '(h, r) := m s.(d_heap) in (mkD h s.(d_machines) s.(d_links) s.(d_world), r).
Definition api {A} (m : M W goerror A) : SM A := fun s =>
  let '(w, r) := m s.(d_world) in
  (mkD s.(d_heap) s.(d_machines) s.(d_links) w, match r with Ok a => Ok a | Err e => Err (Go e) end).
Definition fail {A} (e : goerror) : SM A := sthrow (Go e).
Definition dgo {A} (r : result goerror A) : SM A := match r with Ok a => sret a | Err e => fail e end.

Definition containerOf (machine : loc) : SM (option C) := fun s => (s, Ok (s.(d_machines) !! machine)).
Definition networkOf (link : loc) : SM (option N) := fun s => (s, Ok (s.(d_links) !! link)).
Definition set_container (machine : loc) (c : C) : SM unit :=
  smodify (fun s => mkD s.(d_heap) (<[machine := c]> s.(d_machines)) s.(d_links) s.(d_world)).
Definition set_network (link : loc) (n : option N) : SM unit :=
  smodify (fun s => mkD s.(d_heap) s.(d_machines) (partial_alter (fun _ => n) link s.(d_links)) s.(d_world)).

Definition machine_of (l : loc) : SM Machine := hp (getMachine l).
Definition link_of (l : loc) : SM Link := hp (getLink l).
Definition lab_of (l : loc) : SM (Lab F) := hp (getLab l).
Definition update_meta (l : loc) (f : Meta → Meta) : SM unit :=
  do* m <- machine_of l in hp (putMachine l (set_meta (f m.(mMeta)) m)).

(** A call whose errors decide what happens next. *)
Definition try_ {A} (m : SM A) : SM (result goerror A) := fun s =>
  match m s with
  | (s, Ok a) => (s, Ok (Ok a))
  | (s, Err (Go e)) => (s, Ok (Err e))
  | (s, Err NilDeref) => (s, Err NilDeref)
  end.

(** ** Batches (pool.go)

    Of the interleavings of [Pool] the one that runs a task at a time;
    [Pool.runs_refine_sequence] says when the others agree with it.  A panic of
    a task ends the program. *)

Fixpoint run_chunk {A} (name : A → SM string) (task : A → SM unit) (c : list A) : SM (list batchFailure) :=
  match c with
  | [] => sret []
  | x :: c => fun s =>
      match task x s with
      | (s, Ok _) => run_chunk name task c s
      | (s, Err (Go e)) =>
          (do* n <- name x in
           do* fs <- run_chunk name task c in
           sret (mkFailure n e :: fs)) s
      | (s, Err NilDeref) => (s, Err NilDeref)
      end
  end.

Fixpoint run_chunks {A} (name : A → SM string) (task : A → SM unit) (chunks : list (list A)) : SM unit :=
  match chunks with
  | [] => sret tt
  | c :: chunks =>
      do* failed <- run_chunk name task c in
      if bool_decide (failed = []) then run_chunks name task chunks else fail (joinFailures failed)
  end.

Definition runBatches (size : Z) {A} (items : list A) (name : A → SM string) (task : A → SM unit) : SM unit :=
  run_chunks name task (chunk items size).

Definition pure_name {A} (f : A → string) (x : A) : SM string := sret (f x).
Definition machineItemName (l : loc) : SM string := do* m <- machine_of l in sret m.(mName).
Definition linkItemName (l : loc) : SM string := do* k <- link_of l in sret k.(lName).

(** ** Selections (filterMachines, filterLinks) *)

(** The links or devices of a list whose name passes. *)
Fixpoint keep_named {A} (name : A → SM string) (keep : string → bool) (l : list A) : SM (list A) :=
  match l with
  | [] => sret []
  | x :: l => do* n <- name x in do* l <- keep_named name keep l in sret (if keep n then x :: l else l)
  end.

Definition filter_named {A} (name : A → SM string) (l : list A) (selected excluded : NameSet) : SM (list A) :=
  if 0 <? set_len selected then keep_named name (set_has selected) l
  else if 0 <? set_len excluded then keep_named name (fun n => negb (set_has excluded n)) l
  else sret l.

Definition filterLinks (links : list loc) (selected excluded : NameSet) : SM (list loc) :=
  filter_named linkItemName links selected excluded.
Definition filterMachines (machines : list loc) (selected excluded : NameSet) : SM (list loc) :=
  filter_named machineItemName machines selected excluded.

Fixpoint with_volumes (machines : list loc) : SM (list loc) :=
  match machines with
  | [] => sret []
  | l :: machines =>
      do* m <- machine_of l in
      do* rest <- with_volumes machines in
      sret (if 0 <? Len m.(mMeta).(Volumes) then l :: rest else rest)
  end.

(** ** The scenario and the collision domains a call is about (manager.go of both) *)

Definition resolveHash (ref : LabRef) : SM string :=
  match ref.(refLab) with
  | Some lab => do* b <- lab_of lab in sret b.(LabHash)
  | None => sret (if negb (String.eqb ref.(refName) "") then GenerateURLSafeHash ref.(refName) else ref.(refHash))
  end.

Definition missingMachines (b : Lab F) (names : NameSet) : list string :=
  List.filter (fun name => negb (Has b.(labMachines) name)) (set_names names).

Definition HasMachines (b : Lab F) (names : list string) : bool := forallb (Has b.(labMachines)) names.

(** The collision domains only devices left out are on. *)
Definition excluded_links (lab : loc) (excluded : NameSet) : SM NameSet :=
  do* b <- lab_of lab in
  let remaining := List.filter (fun name => negb (set_has excluded name)) (Keys b.(labMachines)) in
  do* runningLinks <- hp (GetLinksFromMachines lab remaining) in
  do* excludedOnly <- hp (GetLinksFromMachines lab (set_names excluded)) in
  sret (Some (excludedOnly ∖ runningLinks)).

(** The collision domains to deploy, and those to leave out. *)
Definition chosen_links (lab : loc) (selected excluded : NameSet) : SM (NameSet * NameSet) :=
  do* selectedLinks <-
    (if 0 <? set_len selected
     then do* links <- hp (GetLinksFromMachines lab (set_names selected)) in sret (Some links)
     else sret None) in
  do* excludedLinks <- (if 0 <? set_len excluded then excluded_links lab excluded else sret None) in
  sret (selectedLinks, excludedLinks).

(** What [DeployLab] of both backends checks before anything is created. *)
Definition check_selection (lab : loc) (selected excluded : NameSet) : SM unit :=
  do* _ <- hp (CheckIntegrity lab) in
  if (0 <? set_len selected) && (0 <? set_len excluded) then fail ErrSelectOrExcludeDevices
  else
    do* b <- lab_of lab in
    if (0 <? set_len selected) && negb (HasMachines b (set_names selected))
    then fail (NewMachineNotFoundSet (missingMachines b selected))
    else if (0 <? set_len excluded) && negb (HasMachines b (set_names excluded))
    then fail (NewMachineNotFoundSet (missingMachines b excluded))
    else sret tt.

Definition last_or {A} (l : list A) (err : goerror) : SM A :=
  match List.last (Some <$> l) None with Some a => sret a | None => fail err end.

Definition obj_ref (m : Machine) : LabRef := mkLabRef "" "" (Some m.(mLab)).
End services.
Arguments dstate F C N W : clear implicits.
