(* ===== verification/Emits.v ===== *)
(** * What the programs of a backend ask of its client

    A client that writes down some of its calls, and a triple over the programs
    of a backend that says what they may write down, whatever the client
    answers. *)

From S2P Require Export Services.
Local Open Scope string_scope.
Local Open Scope list_scope.
Local Open Scope Z_scope.
Local Open Scope kat_scope.

Definition logged {W L A} (c : L) (m : M W goerror A) : M (W * list L) goerror A := fun s =>
  let '(w, r) := m s.1 in ((w, s.2 ++ [c]), r).
Definition silent {W L A} (m : M W goerror A) : M (W * list L) goerror A := fun s =>
  let '(w, r) := m s.1 in ((w, s.2), r).

(** ** The triple

    [emits log P m Q]: every call [m] adds to the log satisfies [P], and a result
    satisfies [Q]. *)
Section emits.
Context {S E L : Type} (log : S → list L).

Definition emits {A} (P : L → Prop) (m : M S E A) (Q : A → Prop) : Prop :=
  ∀ s, ∃ l, log (m s).1 = log s ++ l ∧ Forall P l ∧ ∀ a, (m s).2 = Ok a → Q a.

Lemma emits_ret {A} P (a : A) (Q : A → Prop) : Q a → emits P (sret a) Q.
Proof. intros HQ s. exists []. rewrite app_nil_r. naive_solver. Qed.

Lemma emits_throw {A} P (e : E) (Q : A → Prop) : emits P (sthrow e) Q.
Proof. intros s. exists []. rewrite app_nil_r. naive_solver. Qed.

Lemma emits_lift {A} P (r : result E A) (Q : A → Prop) : (∀ a, r = Ok a → Q a) → emits P (slift r) Q.
Proof. intros HQ s. exists []. rewrite app_nil_r. naive_solver. Qed.

Lemma emits_bind {A A'} P (m : M S E A) (k : A → M S E A') R Q :
  emits P m R → (∀ a, R a → emits P (k a) Q) → emits P (sbind m k) Q.
Proof.
  intros Hm Hk s. unfold sbind. destruct (Hm s) as (l & Hl & HP & HR). destruct (m s) as [s1 [a|e]] eqn:Em; cbn in *.
  - destruct (Hk a (HR _ eq_refl) s1) as (l' & Hl' & HP' & HQ). exists (l ++ l').
    rewrite Hl', Hl, app_assoc. split; [done|]. split; [by apply Forall_app|done].
  - exists l. naive_solver.
Qed.

Lemma emits_seq {A A'} P (m : M S E A) (k : A → M S E A') Q :
  emits P m (fun _ => True) → (∀ a, emits P (k a) Q) → emits P (sbind m k) Q.
Proof. intros Hm Hk. eapply emits_bind; [exact Hm|]. intros a _. apply Hk. Qed.

Lemma emits_weaken {A} (P P' : L → Prop) (m : M S E A) (Q Q' : A → Prop) :
  emits P m Q → (∀ c, P c → P' c) → (∀ a, Q a → Q' a) → emits P' m Q'.
Proof.
  intros Hm HP HQ s. destruct (Hm s) as (l & Hl & Hf & Ha). exists l.
  split; [done|]. split; [by eapply Forall_impl|]. naive_solver.
Qed.

Lemma emits_any {A} P (m : M S E A) (Q : A → Prop) : emits P m Q → emits P m (fun _ => True).
Proof. intros H. by eapply emits_weaken. Qed.

Lemma emits_quiet {A} P (m : M S E A) (Q : A → Prop) : emits (fun _ => False) m Q → emits P m Q.
Proof. intros H. by eapply emits_weaken. Qed.

Lemma emits_for {A} P (xs : list A) (f : A → M S E unit) :
  (∀ x, x ∈ xs → emits P (f x) (fun _ => True)) → emits P (sfor xs f) (fun _ => True).
Proof.
  induction xs as [|x xs IH]; intros Hf; cbn [sfor]; [by apply emits_ret|].
  eapply emits_bind; [apply Hf; set_solver|]. intros _ _. apply IH. set_solver.
Qed.

(** [traces m R]: the calls [m] adds to the log, all of them, satisfy [R]. *)
Definition traces {A} (m : M S E A) (R : list L → Prop) : Prop := ∀ s, ∃ l, log (m s).1 = log s ++ l ∧ R l.

Lemma emits_none {A} (m : M S E A) Q s : emits (fun _ => False) m Q → log (m s).1 = log s.
Proof. intros Hm. destruct (Hm s) as ([|c l] & Hl & HP & _); [by rewrite app_nil_r in Hl|]. by apply Forall_cons in HP as [[] _]. Qed.

Lemma traces_quiet {A} (m : M S E A) Q (R : list L → Prop) : emits (fun _ => False) m Q → R [] → traces m R.
Proof. intros Hm HR s. exists []. rewrite app_nil_r. split; [by eapply emits_none|done]. Qed.

(** Before and after what calls nothing. *)
Lemma traces_after {A A'} (m : M S E A) (k : A → M S E A') Q (R : list L → Prop) :
  emits (fun _ => False) m Q → (∀ a, Q a → traces (k a) R) → R [] → traces (sbind m k) R.
Proof.
  intros Hm Hk HR s. pose proof (emits_none m Q s Hm) as El. destruct (Hm s) as (_ & _ & _ & HQ). unfold sbind.
  destruct (m s) as [s1 [a|e]]; cbn in *.
  - destruct (Hk a (HQ _ eq_refl) s1) as (l & Hl & HRl). exists l. by rewrite Hl, El.
  - exists []. by rewrite app_nil_r.
Qed.

Lemma traces_before {A A'} (m : M S E A) (k : A → M S E A') Q (R : list L → Prop) :
  traces m R → (∀ a, emits (fun _ => False) (k a) Q) → traces (sbind m k) R.
Proof.
  intros Hm Hk s. destruct (Hm s) as (l & Hl & HR). unfold sbind. exists l.
  destruct (m s) as [s1 [a|e]]; cbn in *; [|done]. split; [|done]. by rewrite (emits_none (k a) Q s1 (Hk a)).
Qed.

Lemma traces_weaken {A} (m : M S E A) (R R' : list L → Prop) : traces m R → (∀ l, R l → R' l) → traces m R'.
Proof. intros Hm HR s. destruct (Hm s) as (l & Hl & H). exists l. auto. Qed.
End emits.

Section world.
Context {W L : Type}.
Local Notation wlog := (snd : W * list L → list L).

Lemma emits_logged {A} (P : L → Prop) c (m : M W goerror A) (Q : A → Prop) :
  P c → (∀ w a, (m w).2 = Ok a → Q a) → emits wlog P (logged c m) Q.
Proof.
  intros Hc HQ [w l]. exists [c]. unfold logged. cbn. specialize (HQ w). destruct (m w) as [w' r]. cbn in *.
  split; [done|]. split; [by repeat constructor|done].
Qed.

Lemma emits_silent {A} (P : L → Prop) (m : M W goerror A) (Q : A → Prop) :
  (∀ w a, (m w).2 = Ok a → Q a) → emits wlog P (silent m) Q.
Proof.
  intros HQ [w l]. exists []. rewrite app_nil_r. unfold silent. cbn. specialize (HQ w). destruct (m w) as [w' r].
  cbn in *. split; [done|]. by split.
Qed.

Lemma traces_logged {A} (R : list L → Prop) c (m : M W goerror A) : R [c] → traces wlog (logged c m) R.
Proof. intros HR [w l]. exists [c]. unfold logged. cbn. by destruct (m w). Qed.
End world.

(** ** Programs of a backend *)

Section programs.
Context {F C N W L : Type}.
Local Notation dstate := (Services.dstate F C N (W * list L)).
Local Notation SM A := (M dstate failure A).

Definition dlog (s : dstate) : list L := s.(d_world).2.

Lemma emits_pure {A} P (m : SM A) : (∀ s, d_world (m s).1 = d_world s) → emits dlog P m (fun _ => True).
Proof. intros Hm s. exists []. unfold dlog. rewrite Hm, app_nil_r. naive_solver. Qed.

Lemma emits_hp {A} P (m : MM (F := F) A) : emits dlog P (hp m : SM A) (fun _ => True).
Proof. apply emits_pure. intros s. unfold hp. by destruct (m (d_heap s)). Qed.

Lemma emits_api {A} P (m : M (W * list L) goerror A) Q : emits snd P m Q → emits dlog P (api m : SM A) Q.
Proof.
  intros Hm s. destruct (Hm s.(d_world)) as (l & Hl & HP & HQ). exists l. unfold api, dlog.
  destruct (m (d_world s)) as [w [a|e]]; cbn in *; naive_solver.
Qed.

Lemma traces_api {A} (m : M (W * list L) goerror A) R : traces snd m R → traces dlog (api m : SM A) R.
Proof.
  intros Hm s. destruct (Hm s.(d_world)) as (l & Hl & HR). exists l. unfold api, dlog.
  by destruct (m (d_world s)) as [w [a|e]].
Qed.

Lemma emits_dgo {A} P (r : result goerror A) (Q : A → Prop) :
  (∀ a, r = Ok a → Q a) → emits dlog P (dgo r : SM A) Q.
Proof. intros HQ. destruct r; [by apply emits_ret, HQ|apply emits_throw]. Qed.

Lemma emits_try {A} P (m : SM A) (Q : A → Prop) :
  emits dlog P m Q → emits dlog P (try_ m) (fun r => ∀ a, r = Ok a → Q a).
Proof.
  intros Hm s. destruct (Hm s) as (l & Hl & HP & HQ). exists l. unfold try_.
  destruct (m s) as [s' [a|[e|]]]; cbn in *; naive_solver.
Qed.

(** A batch calls what its tasks call. *)
Lemma emits_run_chunk {A} P name (task : A → SM unit) c :
  (∀ x, emits dlog P (name x) (fun _ => True)) → (∀ x, x ∈ c → emits dlog P (task x) (fun _ => True)) →
  emits dlog P (run_chunk name task c) (fun _ => True).
Proof.
  intros Hname. induction c as [|x c IH]; intros Htask; cbn [run_chunk]; [by apply emits_ret|].
  specialize (IH ltac:(set_solver)). intros s.
  destruct (Htask x ltac:(set_solver) s) as (l & Hl & HP & _). destruct (task x s) as [s' [[]|[e|]]]; cbn in *.
  - destruct (IH s') as (l' & Hl' & HP' & HQ). exists (l ++ l'). rewrite Hl', Hl, app_assoc.
    split; [done|]. split; [by apply Forall_app|done].
  - assert (Hk : emits dlog P (do* n <- name x in do* fs <- run_chunk name task c in sret (mkFailure n e :: fs)) (fun _ => True)).
    { eapply emits_bind; [apply Hname|]. intros n _. eapply emits_bind; [apply IH|]. intros fs _. by apply emits_ret. }
    destruct (Hk s') as (l' & Hl' & HP' & HQ). exists (l ++ l'). rewrite Hl', Hl, app_assoc.
    split; [done|]. split; [by apply Forall_app|done].
  - exists l. naive_solver.
Qed.

Lemma emits_runBatches {A} P size (items : list A) name task :
  (∀ x, emits dlog P (name x) (fun _ => True)) → (∀ x, x ∈ items → emits dlog P (task x) (fun _ => True)) →
  emits dlog P (runBatches size items name task) (fun _ => True).
Proof.
  intros Hname Htask. unfold runBatches.
  assert (Hc : ∀ c, c ∈ chunk items size → ∀ x, x ∈ c → x ∈ items).
  { intros c Hc x Hx. rewrite <- (chunk_concat items size). apply list_elem_of_In, in_concat.
    exists c. by rewrite <- !list_elem_of_In. }
  induction (chunk items size) as [|c cs IH]; cbn [run_chunks]; [by apply emits_ret|].
  eapply emits_bind; [apply emits_run_chunk; [done|]; intros x Hx; eapply Htask, Hc; [|done]; set_solver|].
  intros fs _. case_bool_decide; [|apply emits_throw]. apply IH. intros c' Hc'. apply Hc. set_solver.
Qed.

(** The calls of a batch are those of its tasks, in their order; a task that was
    not reached called nothing. *)
Definition by_task {A} (R : A → list L → Prop) (items : list A) (l : list L) : Prop :=
  ∃ ls, Forall2 R items ls ∧ l = concat ls.

Lemma by_task_none {A} (R : A → list L → Prop) items : (∀ x, R x []) → by_task R items [].
Proof.
  intros HR. exists ((fun _ => []) <$> items). split; [induction items; constructor; auto|]. by induction items.
Qed.

Lemma by_task_cons {A} (R : A → list L → Prop) x items l l' :
  R x l → by_task R items l' → by_task R (x :: items) (l ++ l').
Proof. intros Hx (ls & Hls & ->). exists (l :: ls). split; [by constructor|done]. Qed.

Lemma by_task_app {A} (R : A → list L → Prop) items items' l l' :
  by_task R items l → by_task R items' l' → by_task R (items ++ items') (l ++ l').
Proof.
  intros (ls & Hls & ->) (ls' & Hls' & ->). exists (ls ++ ls'). split; [by apply Forall2_app|]. by rewrite concat_app.
Qed.

Lemma traces_run_chunk {A} (R : A → list L → Prop) name (task : A → SM unit) c :
  (∀ x, emits dlog (fun _ => False) (name x) (fun _ => True)) → (∀ x, traces dlog (task x) (R x)) → (∀ x, R x []) →
  traces dlog (run_chunk name task c) (by_task R c).
Proof.
  intros Hname Htask HR. induction c as [|x c IH]; cbn [run_chunk].
  { eapply traces_quiet; [by apply (emits_ret dlog _ _ (fun _ => True))|]. by apply by_task_none. }
  intros s. destruct (Htask x s) as (l & Hl & Hx). destruct (task x s) as [s' [[]|[e|]]]; cbn in *.
  - destruct (IH s') as (l' & Hl' & H'). exists (l ++ l'). rewrite Hl', Hl, app_assoc. split; [done|]. by apply by_task_cons.
  - assert (Hk : traces dlog (do* n <- name x in do* fs <- run_chunk name task c in sret (mkFailure n e :: fs)) (by_task R c)).
    { eapply traces_after; [apply Hname| |by apply by_task_none]. intros n _.
      eapply traces_before; [exact IH|]. intros fs. by apply (emits_ret dlog _ _ (fun _ => True)). }
    destruct (Hk s') as (l' & Hl' & H'). exists (l ++ l'). rewrite Hl', Hl, app_assoc. split; [done|]. by apply by_task_cons.
  - exists l. split; [done|]. rewrite <- (app_nil_r l). apply by_task_cons; [done|]. by apply by_task_none.
Qed.

Lemma traces_runBatches {A} (R : A → list L → Prop) size items name (task : A → SM unit) :
  (∀ x, emits dlog (fun _ => False) (name x) (fun _ => True)) → (∀ x, traces dlog (task x) (R x)) → (∀ x, R x []) →
  traces dlog (runBatches size items name task) (by_task R items).
Proof.
  intros Hname Htask HR. unfold runBatches. rewrite <- (chunk_concat items size) at 2.
  induction (chunk items size) as [|c cs IH]; cbn [run_chunks concat].
  { eapply traces_quiet; [by apply (emits_ret dlog _ _ (fun _ => True))|]. by apply by_task_none. }
  intros s. destruct (traces_run_chunk R name task c Hname Htask HR s) as (l & Hl & Hc). unfold sbind.
  destruct (run_chunk name task c s) as [s1 [failed|e]]; cbn in *.
  - case_bool_decide.
    + destruct (IH s1) as (l' & Hl' & H'). exists (l ++ l'). rewrite Hl', Hl, app_assoc. split; [done|]. by apply by_task_app.
    + exists l. split; [done|]. rewrite <- (app_nil_r l). apply by_task_app; [done|]. by apply by_task_none.
  - exists l. split; [done|]. rewrite <- (app_nil_r l). apply by_task_app; [done|]. by apply by_task_none.
Qed.

(** What is read off the scenario calls nobody. *)
Lemma emits_check_selection `{TextCases} P lab selected excluded :
  emits dlog P (check_selection lab selected excluded : SM unit) (fun _ => True).
Proof.
  unfold check_selection, lab_of. apply emits_seq; [apply emits_hp|]. intros _. destruct (_ && _); [apply emits_throw|].
  apply emits_seq; [apply emits_hp|]. intros b. repeat (destruct (_ && _); [apply emits_throw|]). by apply emits_ret.
Qed.

Lemma emits_chosen_links P lab selected excluded :
  emits dlog P (chosen_links lab selected excluded : SM _) (fun _ => True).
Proof.
  unfold chosen_links, excluded_links, lab_of.
  apply emits_seq; [destruct (0 <? _); [apply emits_seq; [apply emits_hp|intros ?]|]; by apply emits_ret|]. intros sl.
  apply emits_seq; [|intros el; by apply emits_ret]. destruct (0 <? _); [|by apply emits_ret].
  do 3 (apply emits_seq; [apply emits_hp|intros ?]). by apply emits_ret.
Qed.
End programs.
