(* ===== verification/DockerConf.v ===== *)
(** * What the Docker backend asks the daemon for

    The pure half of the backend: names, labels and filters (naming.go), the
    driver options of an endpoint (driveropts.go), engine versions (apierr.go),
    the shell line a container runs (startup.go) and the payload of a container
    (containerconfig.go).  A Go map is a finite map. *)

From S2P Require Export Machine StrOrder.
From S2P Require Slice Settings.
From Stdlib Require Import Floats.SpecFloat Sorting.Sorted.
Local Open Scope string_scope.
Local Open Scope list_scope.
Local Open Scope Z_scope.
Local Open Scope kat_scope.

(** ** naming.go *)

Definition labelApp : string := "app".
Definition labelName : string := "name".
Definition labelLabHash : string := "lab_hash".
Definition labelUser : string := "user".
Definition labelShell : string := "shell".
Definition labelBridgedIface : string := "bridged_iface".
Definition labelExternal : string := "external".
Definition labelAppValue : string := "kathara".

Definition ContainerName (devicePrefix user machineName labHash : string) : string :=
  devicePrefix +:+ "_" +:+ user +:+ "_" +:+ machineName +:+ "_" +:+ labHash.

Definition NetworkName (netPrefix user linkName labHash : string) (shared : Z) : string :=
  if shared =? Settings.NotShared then netPrefix +:+ "_" +:+ user +:+ "_" +:+ linkName +:+ "_" +:+ labHash
  else if shared =? Settings.SharedBetweenLabs then netPrefix +:+ "_" +:+ user +:+ "_" +:+ linkName
  else if shared =? Settings.SharedBetweenUsers then netPrefix +:+ "_" +:+ linkName
  else "".

Record LabelFilter : Type := mkFilter { Key : string; Value : string }.

Definition LabelFilter_String (f : LabelFilter) : string := f.(Key) +:+ "=" +:+ f.(Value).

Definition ObjectFilters (user labHash name : string) : list LabelFilter :=
  [mkFilter labelApp labelAppValue]
  ++ (if negb (String.eqb user "") then [mkFilter labelUser user] else [])
  ++ (if negb (String.eqb labHash "") then [mkFilter labelLabHash labHash] else [])
  ++ (if negb (String.eqb name "") then [mkFilter labelName name] else []).

Definition labels : Type := gmap string string.

Definition ContainerLabels (machineName labHash user shell : string) (bridgedIface : option Z) : labels :=
  let l : labels := {[ labelName := machineName; labelLabHash := labHash; labelUser := user;
                       labelApp := labelAppValue; labelShell := shell ]} in
  match bridgedIface with Some n => <[labelBridgedIface := Itoa n]> l | None => l end.

Definition NetworkLabels (linkName user labHash external : string) (shared : Z) : labels :=
  let l : labels := {[ labelName := linkName; labelApp := labelAppValue; labelExternal := external ]} in
  let l := if negb (shared =? Settings.SharedBetweenUsers) then <[labelUser := user]> l else l in
  if shared =? Settings.NotShared then <[labelLabHash := labHash]> l else l.

Definition NetworkDriver (networkPlugin architecture : string) : string := networkPlugin +:+ ":" +:+ architecture.

Definition pluginNameOf (s : Settings.Settings) : string := default "None" (Settings.get_opt Settings.NetworkPlugin s).

Definition BridgeName (networkID : string) : string :=
  "kt-" +:+ (if (12 <? String.length networkID)%nat then string_take 12 networkID else networkID).

Definition externalLabel (external : list ExternalLink) : string := str_join ";" (FullName <$> external).

(** ** apierr.go: versions *)

(** [PyInt] with Python's own ValueError. *)
Definition py_int (s : string) : result goerror Z :=
  match PyInt s with
  | Ok n => Ok n
  | Err e => let failure := PyIntFailure e s in Err (WrapValue failure (Error failure))
  end.

Fixpoint version_ints (parts : list string) : result goerror (list Z) :=
  match parts with
  | [] => Ok []
  | part :: parts => let* n := py_int part in let* ns := version_ints parts in Ok (n :: ns)
  end.

Definition versionTuple (v : string) : result goerror (list Z) := version_ints (split_byte dot v).

(** The loop over the longer of the two tuples; a missing part is zero. *)
Fixpoint compare_tuples (n : nat) (ls rs : list Z) : Z :=
  match n with
  | O => 0
  | S n =>
      let c1 := default 0 (head ls) in let c2 := default 0 (head rs) in
      if c1 =? c2 then compare_tuples n (tail ls) (tail rs) else if c2 <? c1 then -1 else 1
  end.

Definition compareVersion (v1 v2 : string) : result goerror Z :=
  if String.eqb v1 v2 then Ok 0
  else
    let* ls := versionTuple v1 in
    let* rs := versionTuple v2 in
    Ok (compare_tuples (Nat.max (length ls) (length rs)) ls rs).

Definition versionLT (v1 v2 : string) : result goerror bool := let* cmp := compareVersion v1 v2 in Ok (0 <? cmp).
Definition versionGTE (v1 v2 : string) : result goerror bool := let* lt := versionLT v1 v2 in Ok (negb lt).

(** ** driveropts.go *)

Definition driverOptIface : string := "kathara.iface".
Definition driverOptLink : string := "kathara.link".
Definition driverOptMacAddr : string := "kathara.mac_addr".
Definition driverOptSysctls : string := "com.docker.network.endpoint.sysctls".
Definition ifnamePlaceholder : string := "IFNAME".
Definition engineEndpointSysctls : string := "27.0.0".
Definition engineFirstIfaceRPFilter : string := "26.0.0".

(** The letters of an ASCII literal. *)
Definition rstr (s : string) : re letter := rlit (zb <$> string_bytes s).

(** [^net\.ipv[4,6]\.(conf|neigh)\.eth]: the comma of the class is a letter of it. *)
Definition iface_sysctl_prefix : re letter :=
  Cat (rstr "net.ipv") (Cat (rcls (fun r => (r =? 52) || (r =? 44) || (r =? 54)))
    (Cat (rstr ".") (Cat (Alt (rstr "conf") (rstr "neigh")) (rstr ".eth")))).

Definition ifaceSysctlRE : re letter := Cat iface_sysctl_prefix (Plus (rcls IsNd)).

Definition ifaceSysctls (sysctls : OrderedMap string Scalar) (interfaceNum : Z) : list string :=
  let num := Itoa interfaceNum in
  let match_ := Cat iface_sysctl_prefix (rstr num) in
  let out := omap (fun e : string * Scalar =>
    if MatchString match_ e.1
    then Some (ReplaceAll e.1 ("eth" +:+ num) ifnamePlaceholder +:+ "=" +:+ scalar_string e.2)
    else None) (Entries sysctls) in
  Compact (sort_strings out).

Section machine_payload.
Context {F : Type} `{TextCases}.
Implicit Types (lab : Lab F) (machine : Machine).

(** [linkName] and [mac] are the interface's. *)
Definition createDriverOpt (engineVersion : string) lab machine (number : Z) (linkName mac : string)
    (sysctls : list string) : result goerror labels :=
  let driverOpt : labels := {[ driverOptIface := Itoa number; driverOptLink := linkName ]} in
  let* endpointSysctls := versionGTE engineVersion engineEndpointSysctls in
  let* driverOpt :=
    if endpointSysctls then
      let* ipv6 := IsIPv6Enabled lab machine in
      let opts := ["net.ipv4.conf." +:+ ifnamePlaceholder +:+ ".rp_filter=0"]
        ++ (if ipv6 : bool
            then ["net.ipv6.conf." +:+ ifnamePlaceholder +:+ ".disable_ipv6=0";
                  "net.ipv6.conf." +:+ ifnamePlaceholder +:+ ".forwarding=1"]
            else ["net.ipv6.conf." +:+ ifnamePlaceholder +:+ ".disable_ipv6=1"])
        ++ sysctls in
      Ok (<[driverOptSysctls := str_join "," (Compact (sort_strings opts))]> driverOpt)
    else Ok driverOpt in
  Ok (if negb (String.eqb mac "") then <[driverOptMacAddr := mac]> driverOpt else driverOpt).

(** ** containerconfig.go *)

Definition rpFilter (iface : string) : string := "net.ipv4.conf." +:+ iface +:+ ".rp_filter".

Definition set_sysctl (o : OrderedMap string Scalar) (k : string) (v : Scalar) : OrderedMap string Scalar := (SetKey o k v).1.

Definition set_sysctls (o : OrderedMap string Scalar) (kvs : list (string * Scalar)) : OrderedMap string Scalar :=
  foldl (fun o kv => set_sysctl o kv.1 kv.2) o kvs.

Definition base_sysctls : list (string * Scalar) :=
  [(rpFilter "all", Int 0); (rpFilter "default", Int 0); (rpFilter "lo", Int 0);
   ("net.ipv4.ip_forward", Int 1); ("net.ipv4.icmp_ratelimit", Int 0)].

Definition ipv6_sysctls (enabled : bool) : list (string * Scalar) :=
  if enabled then
    [("net.ipv6.conf.all.forwarding", Int 1); ("net.ipv6.conf.all.accept_ra", Int 0);
     ("net.ipv6.icmp.ratelimit", Int 0); ("net.ipv6.conf.default.disable_ipv6", Int 0);
     ("net.ipv6.conf.all.disable_ipv6", Int 0)]
  else
    [("net.ipv6.conf.default.disable_ipv6", Int 1); ("net.ipv6.conf.all.disable_ipv6", Int 1);
     ("net.ipv6.conf.default.forwarding", Int 0); ("net.ipv6.conf.all.forwarding", Int 0)].

Definition containerSysctls (engineVersion : string) lab machine (hasFirstInterface : bool) : result goerror labels :=
  let sysctls := set_sysctls NewOrderedMap base_sysctls in
  let* firstIfaceRPFilter :=
    if hasFirstInterface then versionLT engineVersion engineFirstIfaceRPFilter else Ok false in
  let* ipv6 := IsIPv6Enabled lab machine in
  let sysctls := set_sysctls sysctls (ipv6_sysctls ipv6) in
  let sysctls := set_sysctls sysctls (Entries machine.(mMeta).(Sysctls)) in
  let sysctls := if firstIfaceRPFilter : bool then set_sysctl sysctls (rpFilter "eth0") (Int 0) else sysctls in
  let* newEngine := versionGTE engineVersion engineEndpointSysctls in
  Ok (foldl (fun (out : labels) (e : string * Scalar) =>
        if newEngine && MatchString ifaceSysctlRE e.1 then out
        else <[e.1 := scalar_string e.2]> out) ∅ (Entries sysctls)).
End machine_payload.

(** [big.Float.Int] of a float times a power of two, which 64 bits hold
    exactly: truncation towards zero. *)
Definition scaled_float (value : f64) (unit : Z) : Z :=
  match value with
  | S754_finite s m e =>
      let v := if 0 <=? e then Zpos m * 2 ^ e * unit else Zpos m * unit / 2 ^ (- e) in
      if s then - v else v
  | _ => 0
  end.

(** [units.KiB] and its likes are powers of 1024; digits are what [ParseFloat]
    models, the decimal spellings. *)
Definition parseMemory (mem : string) : Z :=
  if String.eqb mem "" then 0
  else
    let last := string_drop (String.length mem - 1) mem in
    let init := string_take (String.length mem - 1) mem in
    let '(unit, digits) :=
      if String.eqb last "b" then (1, init)
      else if String.eqb last "k" then (1024, init)
      else if String.eqb last "m" then (1048576, init)
      else if String.eqb last "g" then (1073741824, init)
      else (1, mem) in
    match ParseFloat (runes digits) with
    | None => 0
    | Some (S754_infinity s) => if s then MinInt64 else MaxInt64
    | Some value => saturateInt64 (scaled_float value unit)
    end.

(** The bindings of a port: here always one, of the last host port declared. *)
Definition PortMap : Type := gmap string (list (string * string)).

Definition port_name (e : PortKey * Z) : string := Itoa e.2 +:+ "/" +:+ e.1.2.

Definition portBindings (ports : OrderedMap PortKey Z) : option (PortMap * gset string) :=
  if Len ports =? 0 then None
  else
    let bindings : PortMap :=
      foldl (fun (m : PortMap) e => <[port_name e := [("", Itoa e.1.1)]]> m) ∅ (Entries ports) in
    Some (bindings, dom bindings).

Definition bind (hostPath guestPath mode : string) : string := hostPath +:+ ":" +:+ guestPath +:+ ":" +:+ mode.

Definition envList (envs : OrderedMap string string) : list string :=
  (fun e : string * string => e.1 +:+ "=" +:+ e.2) <$> Entries envs.

Definition ulimitList (ulimits : OrderedMap string Ulimit) : list (string * Z * Z) :=
  (fun e : string * Ulimit => (e.1, e.2.(Soft), e.2.(Hard))) <$> Entries ulimits.

(** The parts of docker's configuration structs the backend fills in; the
    others keep their zero value.  [None] is the nil slice or map. *)
Record endpointSettings : Type := mkEndpoint { DriverOpts : labels }.

Record containerConfig : Type := mkConfig {
  cImage : string;
  cHostname : string;
  cEnv : list string;
  cLabels : labels;
  cTty : bool;
  cOpenStdin : bool;
  cExposedPorts : option (gset string);
  cVolumes : option (gset string);
  cEntrypoint : option (list string);
  cCmd : option (list string)
}.

Record hostConfig : Type := mkHost {
  hNetworkMode : string;
  hCapAdd : list string;
  hPrivileged : bool;
  hSysctls : labels;
  hPortBindings : option PortMap;
  hBinds : list string;
  hMemory : Z;
  hNanoCPUs : Z;
  hUlimits : list (string * Z * Z)
}.

Record createRequest : Type := mkRequest {
  rName : string;
  rConfig : containerConfig;
  rHostConfig : hostConfig;
  rNetworking : option (gmap string endpointSettings)
}.

Definition createArgs (name image hostname : string) (privileged : bool) (firstNetworkName : string)
    (endpoint : option endpointSettings) (envs : list string) (sysctls : labels) (memory nanoCPUs : Z)
    (bindings : option PortMap) (exposed : option (gset string)) (binds mountPoints : list string)
    (labels : labels) (ulimits : list (string * Z * Z)) (entrypoint args : option (list string)) : createRequest :=
  mkRequest name
    (mkConfig image hostname envs labels true true exposed
       (if bool_decide (mountPoints = []) then None else Some (list_to_set mountPoints)) entrypoint args)
    (mkHost (if String.eqb firstNetworkName "" then "none" else firstNetworkName)
       (if privileged then [] else machineCapabilities) privileged sysctls bindings binds memory nanoCPUs ulimits)
    (if String.eqb firstNetworkName "" then None
     else (fun e => {[ firstNetworkName := e ]}) <$> endpoint).

Record networkOptions : Type := mkNetOptions { nDriver : string; nIPAM : string; nLabels : labels }.

Definition networkCreateOptions (driver : string) (labels : labels) : networkOptions := mkNetOptions driver "null" labels.

(** ** startup.go *)

Definition dq : string := str1 (az 34).

Definition startupCommands : list string := [
  "umount /etc/resolv.conf";
  "umount /etc/hosts";
  "if [ -d " +:+ dq +:+ "/hostlab/{machine_name}" +:+ dq +:+ " ]; then " +:+
    "(cd /hostlab/{machine_name} && tar c .) | (cd / && tar xhf - --no-same-owner --no-same-permissions); fi";
  "if [ ! -s " +:+ dq +:+ "/etc/hosts" +:+ dq +:+ " ]; then " +:+
    "echo '127.0.0.1 localhost' > /etc/hosts";
  "echo '::1 localhost' >> /etc/hosts";
  "echo '127.0.1.1 {machine_name}' >> /etc/hosts";
  "fi";
  "if [ -d " +:+ dq +:+ "/var/www" +:+ dq +:+ " ]; then " +:+
    "chmod -R 777 /var/www/*; fi";
  "if [ -d " +:+ dq +:+ "/etc/quagga" +:+ dq +:+ " ]; then " +:+
    "chown -R quagga:quagga /etc/quagga/";
  "chmod 640 /etc/quagga/*; fi";
  "if [ -d " +:+ dq +:+ "/etc/frr" +:+ dq +:+ " ]; then " +:+
    "chown -R frr:frr /etc/frr/";
  "chmod 640 /etc/frr/*; fi";
  "if [ -f " +:+ dq +:+ "/hostlab/shared.startup" +:+ dq +:+ " ]; then " +:+
    "chmod u+x /hostlab/shared.startup";
  "sed -i " +:+ dq +:+ "1s;^;set -x\n\n;" +:+ dq +:+ " /hostlab/shared.startup";
  "/hostlab/shared.startup &> /var/log/shared.log; fi";
  "if [ -f " +:+ dq +:+ "/hostlab/{machine_name}.startup" +:+ dq +:+ " ]; then " +:+
    "chmod u+x /hostlab/{machine_name}.startup";
  "sed -i " +:+ dq +:+ "1s;^;set -x\n\n;" +:+ dq +:+ " /hostlab/{machine_name}.startup";
  "/hostlab/{machine_name}.startup &> /var/log/startup.log; fi";
  "{machine_commands}";
  "touch /tmp/EOS"].

Definition shutdownCommands : list string := [
  "if [ -f " +:+ dq +:+ "/hostlab/{machine_name}.shutdown" +:+ dq +:+ " ]; then " +:+
    "chmod u+x /hostlab/{machine_name}.shutdown; /hostlab/{machine_name}.shutdown; fi";
  "if [ -f " +:+ dq +:+ "/hostlab/shared.shutdown" +:+ dq +:+ " ]; then " +:+
    "chmod u+x /hostlab/shared.shutdown; /hostlab/shared.shutdown; fi"].

Definition noopCommand : string := ":".

Definition interleaveExecCommands (commands : list string) : list string :=
  flat_map (fun command => ["echo " +:+ dq +:+ "++ " +:+ command +:+ dq +:+ " &>> /var/log/startup.log"; command]) commands.

Definition renderStartupCommands (machineName : string) (execCommands : list string) : string :=
  let machineCommands := if bool_decide (execCommands = []) then noopCommand else str_join "; " execCommands in
  let line := str_join "; " startupCommands in
  let line := ReplaceAll line "{machine_name}" machineName in
  ReplaceAll line "{machine_commands}" machineCommands.

Definition renderShutdownCommands (machineName : string) : string :=
  ReplaceAll (str_join "; " shutdownCommands) "{machine_name}" machineName.

(** ** Names and labels *)

(** The daemon's label filter: every term holds of the object. *)
Definition matches (l : labels) (terms : list LabelFilter) : Prop :=
  Forall (fun f => l !! f.(Key) = Some f.(Value)) terms.

(** The filter by which [linkService.Create] looks a collision domain up. *)
Definition link_filters (user labHash name : string) (shared : Z) : list LabelFilter :=
  ObjectFilters (if negb (shared =? Settings.SharedBetweenUsers) then user else "")
    (if shared =? Settings.NotShared then labHash else "") name.

Definition sharing (shared : Z) : Prop :=
  shared = Settings.NotShared ∨ shared = Settings.SharedBetweenLabs ∨ shared = Settings.SharedBetweenUsers.

Lemma matches_filters l user hash name :
  matches l (ObjectFilters user hash name) ↔
  l !! labelApp = Some labelAppValue ∧ (user ≠ "" → l !! labelUser = Some user) ∧
  (hash ≠ "" → l !! labelLabHash = Some hash) ∧ (name ≠ "" → l !! labelName = Some name).
Proof.
  unfold matches, ObjectFilters. rewrite !Forall_app, Forall_singleton. cbn [Key Value].
  assert (Ht : ∀ s k, Forall (fun f => l !! f.(Key) = Some f.(Value)) (if negb (String.eqb s "") then [mkFilter k s] else [])
               ↔ (s ≠ "" → l !! k = Some s)).
  { intros s k. destruct (String.eqb_spec s ""); cbn [negb]; rewrite ?Forall_singleton, ?Forall_nil; cbn; tauto. }
  rewrite !Ht. tauto.
Qed.

(** A device is listed under a user, a scenario hash and a name, each
    of which may be left open, exactly when it was created with the ones given. *)
Theorem listed_containers machineName labHash user shell bridgedIface u h n :
  matches (ContainerLabels machineName labHash user shell bridgedIface) (ObjectFilters u h n) ↔
  (u ≠ "" → u = user) ∧ (h ≠ "" → h = labHash) ∧ (n ≠ "" → n = machineName).
Proof.
  rewrite matches_filters. unfold ContainerLabels.
  destruct bridgedIface as [b|]; simplify_map_eq; naive_solver.
Qed.

(** A collision domain finds an existing network exactly when it
    would have created one itself under that name: same user and scenario when
    domains are not shared, same user when they are shared between scenarios,
    any when they are shared between users.  A network it finds carries the name
    it would have chosen. *)
Theorem shared_network_is_found link labHash user external link' labHash' user' shared prefix :
  sharing shared → link ≠ "" → labHash ≠ "" → user ≠ "" →
  (matches (NetworkLabels link' user' labHash' external shared) (link_filters user labHash link shared) ↔
   link = link' ∧ (shared ≠ Settings.SharedBetweenUsers → user = user') ∧
   (shared = Settings.NotShared → labHash = labHash')) ∧
  (matches (NetworkLabels link' user' labHash' external shared) (link_filters user labHash link shared) →
   NetworkName prefix user link labHash shared = NetworkName prefix user' link' labHash' shared).
Proof.
  intros Hsh Hl Hh Hu. unfold link_filters. rewrite matches_filters. unfold NetworkLabels, NetworkName.
  unfold Settings.NotShared, Settings.SharedBetweenLabs, Settings.SharedBetweenUsers in *.
  destruct Hsh as [-> | [-> | -> ]]; cbn; simplify_map_eq; naive_solver.
Qed.

Lemma shared_network_is_found_witness :
  matches (NetworkLabels "A" "bob" "h2" "" 2) (link_filters "bob" "h1" "A" 2) ∧
  NetworkName "kt" "bob" "A" "h1" 2 = NetworkName "kt" "bob" "A" "h2" 2.
Proof.
  destruct (shared_network_is_found "A" "h1" "bob" "" "A" "h2" "bob" 2 "kt") as [Hiff Hname];
    [by right; left|done..|].
  assert (Hm : matches (NetworkLabels "A" "bob" "h2" "" 2) (link_filters "bob" "h1" "A" 2)) by by apply Hiff.
  split; [exact Hm|by apply Hname].
Defined.

(** Two devices of a user never share a container name: hashes have
    one length, so the name determines the device and its scenario. *)
Theorem ContainerName_inj prefix user m m' h h' :
  String.length h = String.length h' →
  ContainerName prefix user m h = ContainerName prefix user m' h' → m = m' ∧ h = h'.
Proof.
  unfold ContainerName. intros Hl E.
  apply (inj (String.append prefix)), (inj (String.append "_")), (inj (String.append user)), (inj (String.append "_")) in E.
  rewrite <- !string_app_assoc in E. apply string_app_inj_r in E as [E ->]; [|done].
  apply string_app_inj_r in E as [-> _]; [|done]. done.
Qed.

(** ** Engine versions *)

Lemma compare_tuples_lex n ls rs :
  compare_tuples n ls rs =
  match n with
  | O => 0
  | S n => if default 0 (head ls) =? default 0 (head rs) then compare_tuples n (tail ls) (tail rs)
           else if default 0 (head rs) <? default 0 (head ls) then -1 else 1
  end.
Proof. by destruct n. Qed.

(** The comparison of zero-padded tuples, to any depth. *)
Definition older (ls rs : list Z) : Prop :=
  ∃ n, (∀ i, (i < n)%nat → nth i ls 0 = nth i rs 0) ∧ nth n ls 0 < nth n rs 0.

Lemma nth_head (l : list Z) : nth 0 l 0 = default 0 (head l).
Proof. by destruct l. Qed.
Lemma nth_tail (l : list Z) i : nth (S i) l 0 = nth i (tail l) 0.
Proof. destruct l; [by destruct i|done]. Qed.

Lemma older_step ls rs :
  older ls rs ↔
  default 0 (head ls) < default 0 (head rs) ∨
  default 0 (head ls) = default 0 (head rs) ∧ older (tail ls) (tail rs).
Proof.
  rewrite <- !nth_head. split.
  - intros ([|n] & Hlt & Hn); [by left|]. right. split; [apply Hlt; lia|]. exists n.
    rewrite !nth_tail in Hn. split; [|done]. intros i Hi. rewrite <- !nth_tail. apply Hlt. lia.
  - intros [Hlt|[E (n & Heq & Hn)]].
    + exists 0%nat. split; [lia|done].
    + exists (S n). rewrite !nth_tail. split; [|done]. intros [|i] Hi; [done|]. rewrite !nth_tail. apply Heq. lia.
Qed.

Lemma older_nil ls rs : length ls = 0%nat → length rs = 0%nat → ¬ older ls rs.
Proof. destruct ls, rs; try done. intros _ _ (n & _ & Hn). destruct n; cbn in Hn; lia. Qed.

Lemma compare_tuples_older n ls rs :
  (length ls <= n)%nat → (length rs <= n)%nat → 0 < compare_tuples n ls rs ↔ older ls rs.
Proof.
  revert ls rs. induction n as [|n IH]; intros ls rs Hl Hr; rewrite compare_tuples_lex.
  - split; [lia|]. intros H. exfalso. eapply older_nil; [..|exact H]; lia.
  - rewrite older_step. destruct (Z.eqb_spec (default 0 (head ls)) (default 0 (head rs))) as [E|E].
    + rewrite IH; [|destruct ls; cbn in *; lia|destruct rs; cbn in *; lia].
      split; [by right|]. intros [H|[_ H]]; [lia|done].
    + destruct (Z.ltb_spec (default 0 (head rs)) (default 0 (head ls))) as [Hlt|Hlt]; [|lia].
      split; [lia|]. intros [H|[H _]]; lia.
Qed.

Lemma older_irrefl ls : ¬ older ls ls.
Proof. intros (n & _ & Hn). lia. Qed.

Lemma older_trans ls ms rs : older ls ms → older ms rs → older ls rs.
Proof.
  intros (n & En & Hn) (k & Ek & Hk). exists (Nat.min n k). split.
  - intros i Hi. rewrite En, Ek by lia. done.
  - destruct (Nat.lt_trichotomy n k) as [H|[->|H]].
    + rewrite Nat.min_l by lia. rewrite <- (Ek n H). lia.
    + rewrite Nat.min_id. lia.
    + rewrite Nat.min_r by lia. rewrite (En k H). lia.
Qed.

(** [versionLT] is the order of the padded tuples. *)
Lemma versionLT_exact v w a b :
  versionTuple v = Ok a → versionTuple w = Ok b → ∃ r, versionLT v w = Ok r ∧ (r = true ↔ older a b).
Proof.
  intros Ha Hb. unfold versionLT, compareVersion. destruct (String.eqb_spec v w) as [->|Hn].
  - eexists. split; [reflexivity|]. rewrite Ha in Hb. injection Hb as ->. cbn.
    split; [done|]. intros H. by apply older_irrefl in H.
  - rewrite Ha, Hb. cbn. eexists. split; [reflexivity|].
    rewrite Z.ltb_lt. apply compare_tuples_older; lia.
Qed.

(** The two forks over the engine version exclude each other: an
    engine old enough for the sysctl on the first interface never has the
    per-endpoint ones, and between the two there is a version with neither. *)
Theorem engine_forks_disjoint v :
  versionLT v engineFirstIfaceRPFilter = Ok true → versionGTE v engineEndpointSysctls = Ok false.
Proof.
  intros Hold. assert (Hv : ∃ a, versionTuple v = Ok a).
  { unfold versionLT, compareVersion in Hold. destruct (String.eqb v _); [discriminate|].
    destruct (versionTuple v); [eauto|discriminate]. }
  destruct Hv as [a Ha].
  destruct (versionLT_exact v engineFirstIfaceRPFilter a [26; 0; 0] Ha ltac:(reflexivity)) as (r & Hr & E).
  rewrite Hold in Hr. injection Hr as <-.
  destruct (versionLT_exact v engineEndpointSysctls a [27; 0; 0] Ha ltac:(reflexivity)) as (r' & Hr' & E').
  unfold versionGTE. rewrite Hr'. cbn. do 2 f_equal. apply negb_false_iff, E'.
  eapply older_trans; [by apply E|]. exists 0%nat. split; [lia|cbn; lia].
Qed.

(** ** Sysctls *)

Lemma find_absent (kvs : list (string * Scalar)) k : k ∉ kvs.*1 → list_find (fun e => e.1 = k) kvs = None.
Proof.
  intros Hk. apply list_find_None, Forall_forall. intros e He <-. by apply Hk, list_elem_of_fmap_2.
Qed.

Lemma get_set_sysctls o kvs k :
  NoDup kvs.*1 →
  Get (set_sysctls o kvs) k = match list_find (fun e => e.1 = k) kvs with Some (_, e) => Some e.2 | None => Get o k end.
Proof.
  revert o. induction kvs as [|[k' v] kvs IH]; intros o Hnd; [done|].
  rewrite fmap_cons, NoDup_cons in Hnd. destruct Hnd as [Hk Hnd]. cbn [fst] in Hk. cbn [set_sysctls foldl]. fold (set_sysctls (set_sysctl o k' v) kvs).
  rewrite IH by done. cbn [list_find]. unfold set_sysctl. destruct (decide (k' = k)) as [->|Hne].
  - rewrite decide_True by done. rewrite (find_absent kvs k Hk). apply get_set_eq.
  - rewrite decide_False by done. destruct (list_find _ kvs) as [[]|]; [done|]. by apply get_set_ne.
Qed.

Lemma get_set_entries o m k :
  wf_map m → Get (set_sysctls o (Entries m)) k = match Get m k with Some v => Some v | None => Get o k end.
Proof.
  intros Hwf. rewrite get_set_sysctls by (rewrite entries_keys; [apply Hwf|done]).
  destruct (list_find _ _) as [[i [k' v]]|] eqn:E.
  - apply list_find_Some in E as (Hi & <- & _). apply list_elem_of_lookup_2, elem_of_entries in Hi; [|done].
    cbn [fst snd]. by rewrite Hi.
  - destruct (Get m k) as [v|] eqn:Hm; [|done]. exfalso. apply elem_of_entries in Hm; [|done].
    apply list_find_None in E. rewrite Forall_forall in E. by apply (E _ Hm).
Qed.

Lemma wf_set_sysctls o kvs : wf_map o → wf_map (set_sysctls o kvs).
Proof. intros Ho. unfold set_sysctls. apply (foldl_inv wf_map); [done|]. intros b a Hb. by apply wf_set. Qed.

Lemma flattened (p : string → bool) (es : list (string * Scalar)) (m : labels) k :
  NoDup es.*1 →
  foldl (fun (out : labels) (e : string * Scalar) => if p e.1 then out else <[e.1 := scalar_string e.2]> out) m es !! k =
  match list_find (fun e => e.1 = k) es with
  | Some (_, e) => if p k then m !! k else Some (scalar_string e.2)
  | None => m !! k
  end.
Proof.
  revert m. induction es as [|[k' v] es IH]; intros m Hnd; [done|]. rewrite fmap_cons, NoDup_cons in Hnd.
  destruct Hnd as [Hk Hnd]. cbn [fst] in Hk. cbn [foldl list_find]. rewrite IH by done. cbn [fst snd]. destruct (decide (k' = k)) as [->|Hne].
  - rewrite (find_absent es k Hk). cbn. destruct (p k); [done|]. apply lookup_insert_eq.
  - assert (Hm : (if p k' then m else <[k' := scalar_string v]> m) !! k = m !! k)
      by (destruct (p k'); [done|by apply lookup_insert_ne]).
    rewrite Hm. by destruct (list_find _ es) as [[]|].
Qed.

Section sysctls.
Context {F : Type} `{TextCases}.

(** A sysctl set on a device is what its container gets, whatever the
    defaults say, but for two cases: on an engine with per-endpoint sysctls those
    of an interface are left to the endpoints, and on an old engine the reverse
    path filter of a wired eth0 is always off. *)
Theorem user_sysctl_wins v (lab : Lab F) machine first out k value :
  wf_map machine.(mMeta).(Sysctls) →
  containerSysctls v lab machine first = Ok out →
  Get machine.(mMeta).(Sysctls) k = Some value →
  ∃ new old, versionGTE v engineEndpointSysctls = Ok new ∧
    (first = true → versionLT v engineFirstIfaceRPFilter = Ok old) ∧ (first = false → old = false) ∧
    out !! k =
      if new && MatchString ifaceSysctlRE k then None
      else if old && String.eqb k (rpFilter "eth0") then Some "0"
      else Some (scalar_string value).
Proof.
  intros Hwf Hc Hk. unfold containerSysctls in Hc.
  destruct (if first then _ else _) as [old|] eqn:Eold in Hc; [|discriminate]. cbn in Hc.
  destruct (IsIPv6Enabled lab machine) as [ipv6|]; [|discriminate]. cbn in Hc.
  destruct (versionGTE v engineEndpointSysctls) as [new|] eqn:Enew; [|discriminate]. cbn in Hc.
  injection Hc as <-. exists new, old. split; [done|].
  split; [by intros ->|]. split; [by intros ->; injection Eold as <-|].
  set (o := set_sysctls _ (Entries _)).
  assert (Ho : wf_map o) by (apply wf_set_sysctls, wf_set_sysctls, (wf_set_sysctls NewOrderedMap base_sysctls), wf_new).
  assert (Hg : Get o k = Some value) by (unfold o; rewrite get_set_entries by done; by rewrite Hk).
  assert (Hfin : ∀ o' : OrderedMap string Scalar, wf_map o' → ∀ val, Get o' k = Some val →
    foldl (fun (out : labels) (e : string * Scalar) =>
        if new && MatchString ifaceSysctlRE e.1 then out else <[e.1 := scalar_string e.2]> out) ∅ (Entries o') !! k =
    if new && MatchString ifaceSysctlRE k then None else Some (scalar_string val)).
  { intros o' Ho' val Hval. rewrite (flattened (fun k => new && MatchString ifaceSysctlRE k)) by (rewrite entries_keys; [apply Ho'|done]).
    apply elem_of_entries in Hval as Hin; [|done].
    destruct (list_find _ _) as [[i [k' v']]|] eqn:E.
    - apply list_find_Some in E as (Hi & Ek & _). cbn in Ek. subst k'.
      apply list_elem_of_lookup_2, elem_of_entries in Hi; [|done]. rewrite Hval in Hi. by injection Hi as <-.
    - exfalso. apply list_find_None in E. rewrite Forall_forall in E. by apply (E _ Hin). }
  destruct old; cbn [andb].
  - destruct (String.eqb_spec k (rpFilter "eth0")) as [->|Hne].
    + exact (Hfin (set_sysctl o (rpFilter "eth0") (Int 0)) (wf_set _ _ _ Ho) (Int 0) (get_set_eq _ _ _)).
    + apply Hfin; [by apply wf_set|]. unfold set_sysctl. by rewrite get_set_ne.
  - by apply Hfin.
Qed.

(** The sysctls handed to the endpoint of an interface: those whose name the
    pattern of its number matches, rewritten, sorted and without duplicates. *)
Lemma ifaceSysctls_exact (o : OrderedMap string Scalar) n :
  wf_map o →
  StronglySorted str_lt (ifaceSysctls o n) ∧
  ∀ s, s ∈ ifaceSysctls o n ↔
    ∃ k v, Get o k = Some v ∧ MatchString (Cat iface_sysctl_prefix (rstr (Itoa n))) k = true ∧
           s = ReplaceAll k ("eth" +:+ Itoa n) ifnamePlaceholder +:+ "=" +:+ scalar_string v.
Proof.
  intros Hwf. unfold ifaceSysctls. split; [apply Compact_sorted, sort_strings_sorted|].
  intros s. rewrite Compact_elem, sort_strings_elem, list_elem_of_omap. split.
  - intros ([k v] & Hin & E). cbn in E. destruct (MatchString _ k) eqn:Hm; [|discriminate].
    injection E as <-. exists k, v. split; [by apply elem_of_entries|done].
  - intros (k & v & Hg & Hm & ->). exists (k, v). split; [by apply elem_of_entries|]. cbn. by rewrite Hm.
Qed.
End sysctls.

#[local] Instance lower_cases : TextCases := ToLower.

(** A device that forwards nothing and tunes its first interface. *)
Definition tuned_machine : Machine :=
  set_meta (set_Sysctls (set_sysctl (set_sysctl NewOrderedMap "net.ipv4.ip_forward" (Int 0))
                           "net.ipv4.conf.eth0.rp_filter" (Int 1)) newMeta) three_slots.

Lemma user_sysctl_wins_witness :
  ∃ out, containerSysctls "25.0.3" mem_lab tuned_machine true = Ok out ∧
         out !! "net.ipv4.ip_forward" = Some "0" ∧ out !! "net.ipv4.conf.eth0.rp_filter" = Some "0".
Proof.
  assert (Hwf : wf_map tuned_machine.(mMeta).(Sysctls)) by (apply wf_set, wf_set, wf_new).
  assert (Hok : is_ok (containerSysctls "25.0.3" mem_lab tuned_machine true) = true) by (vm_compute; reflexivity).
  destruct (containerSysctls "25.0.3" mem_lab tuned_machine true) as [out|e] eqn:E; [|discriminate Hok].
  exists out. split; [reflexivity|]. clear Hok.
  assert (Hold : versionLT "25.0.3" engineFirstIfaceRPFilter = Ok true) by (vm_compute; reflexivity).
  assert (Hnew : versionGTE "25.0.3" engineEndpointSysctls = Ok false) by (vm_compute; reflexivity).
  split.
  - destruct (user_sysctl_wins "25.0.3" mem_lab tuned_machine true out "net.ipv4.ip_forward" (Int 0) Hwf E
                ltac:(vm_compute; reflexivity)) as (new & old & Hn & Ho & _ & ->).
    rewrite Hnew in Hn. injection Hn as <-. specialize (Ho eq_refl). rewrite Hold in Ho. injection Ho as <-. reflexivity.
  - destruct (user_sysctl_wins "25.0.3" mem_lab tuned_machine true out "net.ipv4.conf.eth0.rp_filter" (Int 1) Hwf E
                ltac:(vm_compute; reflexivity)) as (new & old & Hn & Ho & _ & ->).
    rewrite Hnew in Hn. injection Hn as <-. specialize (Ho eq_refl). rewrite Hold in Ho. injection Ho as <-. reflexivity.
Defined.

(** The pattern of an interface number is not anchored at its end: a setting of
    eth10 is taken for one of eth1, and reaches its endpoint with the last digit
    left behind. *)
Example eth10_taken_for_eth1 :
  ifaceSysctls (set_sysctl NewOrderedMap "net.ipv4.conf.eth10.forwarding" (Int 1)) 1
  = ["net.ipv4.conf.IFNAME0.forwarding=1"].
Proof. vm_compute. reflexivity. Qed.

(** ** The startup line *)

(** The parts of [s] between the occurrences of [old]. *)
Fixpoint pieces_from (old : string) (skip : nat) (s : string) : string * list string :=
  match s with
  | EmptyString => ("", [])
  | String a r =>
      match skip with
      | S k => pieces_from old k r
      | O => if String.prefix old s
             then let '(p, ps) := pieces_from old (Nat.pred (String.length old)) r in ("", p :: ps)
             else let '(p, ps) := pieces_from old 0 r in (String a p, ps)
      end
  end.

Fixpoint glue (sep p : string) (ps : list string) : string :=
  match ps with [] => p | q :: ps => p +:+ (sep +:+ glue sep q ps) end.

Lemma replace_pieces old new skip s :
  replace_from old new skip s = glue new (pieces_from old skip s).1 (pieces_from old skip s).2.
Proof.
  revert skip. induction s as [|a s IH]; intros skip; [done|]. cbn [replace_from pieces_from].
  destruct skip as [|k]; [|apply IH]. destruct (String.prefix old (String a s)).
  - rewrite IH. by destruct (pieces_from old _ s).
  - rewrite IH. destruct (pieces_from old 0 s) as [p [|q ps]]; done.
Qed.

Lemma replace_free a old new s t :
  contains_byte a s = false →
  replace_from (String a old) new 0 (s +:+ t) = s +:+ replace_from (String a old) new 0 t.
Proof.
  induction s as [|b s IH]; intros Hs; [done|]. cbn in Hs. apply orb_false_iff in Hs as [Hb Hs].
  change (String b s +:+ t) with (String b (s +:+ t)). cbn [replace_from String.prefix].
  destruct (ascii_dec a b) as [->|Hn]; [by rewrite Ascii.eqb_refl in Hb|]. by rewrite IH.
Qed.

Lemma replace_glue a old new sep p ps last :
  contains_byte a sep = false → contains_byte a p = false → forallb (fun q => negb (contains_byte a q)) ps = true →
  replace_from (String a old) new 0 (glue sep p (ps ++ [last])) =
  glue sep p ps +:+ (sep +:+ replace_from (String a old) new 0 last).
Proof.
  intros Hsep. revert p. induction ps as [|q ps IH]; intros p Hp Hps; cbn [glue app].
  - by rewrite !replace_free.
  - cbn in Hps. apply andb_true_iff in Hps as [Hq Hps]. apply negb_true_iff in Hq.
    rewrite !replace_free by done. rewrite IH by done. by rewrite !string_app_assoc.
Qed.

Lemma glue_last sep p ps last : glue sep p (ps ++ [last]) = glue sep p ps +:+ (sep +:+ last).
Proof.
  revert p. induction ps as [|q ps IH]; intros p; [done|]. cbn [glue app]. by rewrite IH, !string_app_assoc.
Qed.

(** Everything up to the user's commands. *)
Definition prologue (machineName : string) : string :=
  ReplaceAll (str_join "; " (take 18 startupCommands) +:+ "; ") "{machine_name}" machineName.

(** The commands of a device reach the shell verbatim, joined by
    semicolons, whatever braces they hold: after the prologue, which depends on
    the name alone, and before the sentinel that marks the end of the startup. *)
Theorem startup_commands_verbatim name commands :
  contains_byte (az 123) name = false →
  renderStartupCommands name commands =
  prologue name +:+ ((if bool_decide (commands = []) then ":" else str_join "; " commands) +:+ "; touch /tmp/EOS").
Proof.
  intros Hname. unfold renderStartupCommands, prologue, ReplaceAll.
  set (body := if bool_decide (commands = []) then _ else _).
  rewrite (replace_pieces "{machine_name}" name 0 (str_join "; " startupCommands)).
  rewrite (replace_pieces "{machine_name}" name 0 (_ +:+ "; ")).
  set (cut := pieces_from "{machine_name}" 0 (str_join "; " startupCommands)).
  set (cut' := pieces_from "{machine_name}" 0 (str_join "; " (take 18 startupCommands) +:+ "; ")).
  assert (E : cut = (cut'.1, take 6 cut'.2 ++ [List.last cut'.2 "" +:+ "{machine_commands}; touch /tmp/EOS"]))
    by (vm_compute; reflexivity).
  assert (E' : cut' = (cut'.1, take 6 cut'.2 ++ [List.last cut'.2 ""])) by (vm_compute; reflexivity).
  assert (Hfree : contains_byte (az 123) cut'.1 = false ∧ contains_byte (az 123) (List.last cut'.2 "") = false ∧
                  forallb (fun q => negb (contains_byte (az 123) q)) (take 6 cut'.2) = true)
    by (repeat split; vm_compute; reflexivity).
  destruct Hfree as (H1 & H2 & H3). set (ps := take 6 cut'.2) in *. set (lst := List.last cut'.2 "") in *.
  clearbody ps lst. rewrite E, E'. cbn [fst snd]. clearbody cut cut' body.
  rewrite (replace_glue (az 123)), (replace_free (az 123)), glue_last, !string_app_assoc by done. reflexivity.
Qed.

Lemma startup_commands_verbatim_witness :
  renderStartupCommands "pc1" ["echo {machine_name}"] =
  prologue "pc1" +:+ ("echo {machine_name}" +:+ "; touch /tmp/EOS").
Proof. apply (startup_commands_verbatim "pc1" ["echo {machine_name}"]). reflexivity. Defined.

(** Each command is announced in the startup log before it runs, in order. *)
Lemma interleave_commands commands :
  (∀ i c, commands !! i = Some c → interleaveExecCommands commands !! (2 * i + 1)%nat = Some c) ∧
  length (interleaveExecCommands commands) = (2 * length commands)%nat.
Proof.
  split.
  - induction commands as [|d commands IH]; intros i c Hc; [done|]. destruct i as [|i]; [done|].
    replace (2 * S i + 1)%nat with (S (S (2 * i + 1))) by lia. cbn. by apply IH.
  - induction commands as [|d commands IH]; [done|]. unfold interleaveExecCommands in *. cbn [flat_map length app]. lia.
Qed.

(** ** Ports *)

Lemma bindings_get (es : list (PortKey * Z)) (m : PortMap) p :
  foldl (fun (m : PortMap) e => <[port_name e := [("", Itoa e.1.1)]]> m) m es !! p =
  match List.find (fun e => String.eqb (port_name e) p) (reverse es) with
  | Some e => Some [("", Itoa e.1.1)]
  | None => m !! p
  end.
Proof.
  revert m. induction es as [|e es IH] using rev_ind; intros m; [done|].
  rewrite foldl_app, reverse_app, reverse_singleton. cbn [foldl app List.find].
  destruct (String.eqb_spec (port_name e) p) as [<-|Hn].
  - apply lookup_insert_eq.
  - etransitivity; [by apply lookup_insert_ne|apply IH].
Qed.

(** A guest port is bound to one host port, the last one declared for
    it; it is exposed exactly when it is bound, and nothing is when no port is
    declared. *)
Theorem portBindings_last_wins ports bindings exposed p :
  portBindings ports = Some (bindings, exposed) →
  (p ∈ exposed ↔ is_Some (bindings !! p)) ∧
  bindings !! p =
    match List.find (fun e => String.eqb (port_name e) p) (reverse (Entries ports)) with
    | Some e => Some [("", Itoa e.1.1)]
    | None => None
    end.
Proof.
  unfold portBindings. destruct (Len ports =? 0); [discriminate|]. intros [= <- <-]. split.
  - apply elem_of_dom.
  - rewrite bindings_get. by destruct (List.find _ _).
Qed.
