(* ===== verification/DockerApi.v ===== *)
(** * The Docker backend's view of the daemon

    The daemon is a third-party service reached through a third-party client:
    its calls are the operations of a class, over a world the client cannot
    see, and every one may change that world (other clients use the daemon too).
    What the backend builds on them is modelled: inspected objects
    (apiobject.go), the reading of daemon errors (apierr.go), running a command
    (machine.go, execstream.go) and the checks of an image (image.go).  Contexts
    are never cancelled. *)

From S2P Require Export DockerConf.
Local Open Scope string_scope.
Local Open Scope list_scope.
Local Open Scope Z_scope.
Local Open Scope kat_scope.

(** ** What an inspection reports, as far as the backend reads it *)

Record containerInspect : Type := mkInspect {
  ciName : string;
  ciLabels : labels;
  ciStatus : string;
  ciNetworks : gmap string (option labels);   (* an endpoint's driver options by network name; [None] is nil *)
  ciImage : string;                           (* the image's identifier *)
  ciConfigImage : string;                     (* and the name it was asked for by *)
  ciEnv : list string;
  ciPrivileged : bool;
  ciMemory : Z;
  ciNanoCPUs : Z;
  ciPortBindings : PortMap;
  ciSysctls : labels
}.

Record networkInspect : Type := mkNetInspect {
  niName : string;
  niLabels : labels;
  niEnableIPv6 : bool;
  niContainers : gset string                  (* the ids of the containers attached *)
}.

Record Container : Type := mkContainer { ContainerID : string; cAttrs : containerInspect }.
Record Network : Type := mkNetwork { NetworkID : string; nAttrs : networkInspect }.

(** [strings.TrimLeft(s, "/")]. *)
Fixpoint trim_slashes (s : string) : string :=
  match s with
  | EmptyString => ""
  | String a r => if Ascii.eqb a slash then trim_slashes r else s
  end.

Definition Container_Name (c : Container) : string := trim_slashes c.(cAttrs).(ciName).
Definition Container_Label (c : Container) (key : string) : string := default "" (c.(cAttrs).(ciLabels) !! key).
Definition Container_Status (c : Container) : string := c.(cAttrs).(ciStatus).
Definition Container_Networks (c : Container) : gmap string (option labels) := c.(cAttrs).(ciNetworks).

(** A nil network has the empty name. *)
Definition Network_Name (n : option Network) : string :=
  match n with Some n => n.(nAttrs).(niName) | None => "" end.
Definition Network_Label (n : Network) (key : string) : string := default "" (n.(nAttrs).(niLabels) !! key).
Definition ContainerCount (n : Network) : Z := Z.of_nat (size n.(nAttrs).(niContainers)).

Definition containerItemName (c : Container) : string :=
  let name := Container_Label c labelName in if negb (String.eqb name "") then name else Container_Name c.
Definition networkItemName (n : Network) : string :=
  let name := Network_Label n labelName in if negb (String.eqb name "") then name else Network_Name (Some n).

(** The filters of a network listing. *)
Inductive networkFilter : Type := ByLabels (terms : list LabelFilter) | ByName (name : string).

Record execOptions : Type := mkExecOptions {
  Cmd : list string;
  AttachStdout : bool;
  AttachStderr : bool;
  AttachStdin : bool;
  Tty : bool;
  ExecPrivileged : bool
}.

Record imageInspect : Type := mkImageInspect {
  Architecture : string;
  RepoDigests : list string;
  RepoTags : list string
}.
Record registryInspect : Type := mkRegistry { Digest : string; Platforms : list string }.

(** ** The client *)

Class DockerClient (W : Type) : Type := {
  ContainerList : list LabelFilter → M W goerror (list string);
  ContainerInspect : string → M W goerror containerInspect;
  ContainerCreate : createRequest → M W goerror string;
  ContainerStart : string → M W goerror unit;
  ContainerRemove : string → M W goerror unit;     (* with its volumes, by force *)
  NetworkList : networkFilter → M W goerror (list (string * networkInspect));
  NetworkInspect : string → M W goerror networkInspect;
  NetworkCreate : string → networkOptions → M W goerror string;
  NetworkRemove : string → M W goerror unit;
  NetworkConnect : string → string → option endpointSettings → M W goerror unit;
  NetworkDisconnect : string → string → M W goerror unit;
  ContainerExecCreate : string → execOptions → M W goerror string;
  ContainerExecStart : string → bool → M W goerror unit;    (* detached *)
  ContainerExecAttach : string → bool → M W goerror string; (* the bytes sent until the end *)
  ContainerExecInspect : string → M W goerror (bool * Z);   (* running, exit code *)
  CopyToContainer : string → string → string → M W goerror unit;
  ImageInspect : string → M W goerror imageInspect;
  DistributionInspect : string → M W goerror registryInspect;
  ImagePull : string → M W goerror (list string);           (* the lines of the progress stream *)
  IsNotFound : goerror → bool;                              (* containerd/errdefs *)
  ToHTTP : goerror → Z;
  IsErrConnectionFailed : goerror → bool
}.

Section api.
Context {W : Type} `{D : DockerClient W}.

(** ** apierr.go *)

Definition daemonPrefix : string := "Error response from daemon: ".

Definition explanation (err : goerror) : string := TrimPrefix (Error err) daemonPrefix.

Definition isServerError (err : goerror) : bool := ToHTTP err =? 500.

Definition isPluginInconsistentState (err : goerror) : bool :=
  if negb (isServerError err) then false
  else let e := explanation err in
       Contains e "network does not exist" || Contains e "endpoint does not exist".

Definition isMountsDenied (err : goerror) : bool :=
  isServerError err && HasPrefix (explanation err) "Mounts denied".

Definition isDialTCP (err : goerror) : bool := isServerError err && Contains (explanation err) "dial tcp".

Definition isDaemonAPIError (err : goerror) : bool :=
  if IsErrConnectionFailed err then false else IsNotFound err || HasPrefix (Error err) daemonPrefix.

(** ** Listing (apiobject.go) *)

Fixpoint inspect_containers (ids : list string) : M W goerror (list Container) :=
  match ids with
  | [] => sret []
  | id :: ids => fun w =>
      match ContainerInspect id w with
      | (w, Err err) => if IsNotFound err then inspect_containers ids w else (w, Err err)
      | (w, Ok inspected) => (do* cs <- inspect_containers ids in sret (mkContainer id inspected :: cs)) w
      end
  end.

Definition listContainers (terms : list LabelFilter) : M W goerror (list Container) :=
  do* summaries <- ContainerList terms in inspect_containers summaries.

Fixpoint inspect_networks (summaries : list (string * networkInspect)) : M W goerror (list Network) :=
  match summaries with
  | [] => sret []
  | (id, _) :: summaries =>
      do* inspected <- NetworkInspect id in
      do* ns <- inspect_networks summaries in
      sret (mkNetwork id inspected :: ns)
  end.

Definition listNetworks (terms : list LabelFilter) : M W goerror (list Network) :=
  do* summaries <- NetworkList (ByLabels terms) in inspect_networks summaries.

Definition reloadContainer (c : Container) : M W goerror Container :=
  do* inspected <- ContainerInspect c.(ContainerID) in sret (mkContainer c.(ContainerID) inspected).

Definition reloadNetwork (n : Network) : M W goerror Network :=
  do* inspected <- NetworkInspect n.(NetworkID) in sret (mkNetwork n.(NetworkID) inspected).

(** ** Output of a command (execstream.go) *)

(** [ociRuntimeRE]: [OCI runtime exec failed(.*?)] and then one of two ends,
    which capture the binary in group 3 or 4. *)
Definition not_newline : re letter := rcls (fun r => negb (r =? 10)).
Definition quote_mark : re letter := rchar 34.

Definition oci_end : re letter :=
  Alt (Cat (rstr "stat ") (Cat (Grp 3 (Star not_newline)) (rstr ": no such file or directory")))
      (Cat (rstr "exec: ") (Cat quote_mark (Cat (Grp 4 (Star not_newline))
        (Cat quote_mark (rstr ": executable file not found"))))).

(** The lazy star: the earliest place on the line where the rest matches. *)
Fixpoint lazy_match (r : re letter) (s : list letter) : option (@caps letter) :=
  match match_prefix r s with
  | Some c => Some c
  | None => match s with
            | [] => None
            | l :: s => if l.1 =? 10 then None else lazy_match r s
            end
  end.

Definition oci_start : re letter := rstr "OCI runtime exec failed".

(** [FindSubmatch]: the leftmost match. *)
Fixpoint find_oci (s : list letter) : option (@caps letter) :=
  match (if match_bool oci_start s then lazy_match oci_end (drop 23 s) else None) with
  | Some c => Some c
  | None => match s with [] => None | _ :: s => find_oci s end
  end.

Definition ociBinaryErrorFromOutput (out machineName : string) : option goerror :=
  match find_oci (GoString.decode out) with
  | None => None
  | Some matches =>
      let binary := submatch 3 matches in
      let binary := if String.eqb binary "" then submatch 4 matches else binary in
      Some (NewMachineBinary binary machineName)
  end.

Definition ociBinaryError (err : goerror) (machineName : string) : option goerror :=
  ociBinaryErrorFromOutput (explanation err) machineName.

(** One turn of [Next] on a multiplexed stream: the side the frame is for and
    its payload, with the rest of the stream; [None] is the end, which a frame
    cut short is too. *)
Inductive side : Type := Stdout | Stderr.

Definition byte_at (s : string) (i : nat) : Z := match String.get i s with Some a => zb a | None => 0 end.

Definition Next (s : string) : result goerror (option (side * string * string)) :=
  if (String.length s <? 8)%nat then Ok None
  else
    let size := ((byte_at s 4 * 256 + byte_at s 5) * 256 + byte_at s 6) * 256 + byte_at s 7 in
    let body := string_drop 8 s in
    if (String.length body <? Z.to_nat size)%nat then Ok None
    else
      let payload := string_take (Z.to_nat size) body in
      let rest := string_drop (Z.to_nat size) body in
      if byte_at s 0 =? 1 then Ok (Some (Stdout, payload, rest))
      else if byte_at s 0 =? 2 then Ok (Some (Stderr, payload, rest))
      else Err (NewValue (Itoa (byte_at s 0) +:+ " is not a valid stream")).

(** [ReadAll]; every turn takes at least a header. *)
Fixpoint read_frames (fuel : nat) (s : string) (stdout stderr : string) : result goerror (string * string) :=
  match fuel with
  | O => Ok (stdout, stderr)
  | S fuel =>
      let* frame := Next s in
      match frame with
      | None => Ok (stdout, stderr)
      | Some (Stdout, payload, rest) => read_frames fuel rest (stdout +:+ payload) stderr
      | Some (Stderr, payload, rest) => read_frames fuel rest stdout (stderr +:+ payload)
      end
  end.

Definition ReadAll (tty : bool) (stream : string) : result goerror (string * string) :=
  if tty then Ok (stream, "") else read_frames (S (String.length stream)) stream "" "".

(** ** Running a command (machine.go) *)

Record execRunOptions : Type := mkExecRun {
  xCmd : list string;
  xStdout : bool;
  xStderr : bool;
  xStdin : bool;
  xTty : bool;
  xPrivileged : bool;
  xDetach : bool;
  xStream : bool
}.

(** The exit code is absent while the command runs, and for a stream, whose
    bytes are handed on unread. *)
Record execRunResult : Type := mkExecResult {
  ExitCode : option Z;
  ExecID : string;
  resStdout : string;
  resStderr : string;
  resStream : option (string * bool)
}.

Definition execExitCode (inspect : bool * Z) : option Z := if inspect.1 then None else Some inspect.2.

(** A failed call reported as a missing binary when its message says so. *)
Definition or_binary {A} (c : Container) (m : M W goerror A) : M W goerror A := fun w =>
  match m w with
  | (w, Err err) => (w, Err (default err (ociBinaryError err (Container_Label c labelName))))
  | r => r
  end.

Definition execRun (c : Container) (opts : execRunOptions) : M W goerror execRunResult :=
  do* created <- ContainerExecCreate c.(ContainerID)
                   (mkExecOptions opts.(xCmd) opts.(xStdout) opts.(xStderr) opts.(xStdin) opts.(xTty) opts.(xPrivileged)) in
  if opts.(xDetach) then
    do* _ <- or_binary c (ContainerExecStart created opts.(xTty)) in
    do* inspect <- ContainerExecInspect created in
    sret (mkExecResult (execExitCode inspect) created "" "" None)
  else
    do* attached <- or_binary c (ContainerExecAttach created opts.(xTty)) in
    if opts.(xStream) then
      do* _ <- ContainerExecInspect created in
      sret (mkExecResult None created "" "" (Some (attached, opts.(xTty))))
    else
      do* out <- slift (ReadAll opts.(xTty) attached) in
      do* inspect <- ContainerExecInspect created in
      let exitCode := execExitCode inspect in
      let missing := match exitCode with
                     | Some code => if negb (code =? 0)
                                    then ociBinaryErrorFromOutput out.1 (Container_Label c labelName) else None
                     | None => None
                     end in
      match missing with
      | Some err => sthrow err
      | None => sret (mkExecResult exitCode created out.1 out.2 None)
      end.

(** ** Images (image.go) *)

Definition normalizeImageTag (imageName : string) : string :=
  if Contains imageName ":" then imageName else imageName +:+ ":latest".

(** The host's architecture, or why it cannot be told, and whether it is a Mac. *)
Context (GetArchitecture : result goerror string) (darwin : bool).

Definition compatibleArchitectures : result goerror (string * list string) :=
  let* host := GetArchitecture in
  Ok (host, if darwin then [host; "amd64"] else [host]).

Definition checkLocalImageArchitecture (imageName imageArch : string) : result goerror unit :=
  let* archs := compatibleArchitectures in
  if str_in imageArch archs.2 then Ok tt else Err (NewInvalidImageArchitecture imageName archs.1).

Definition checkRemoteImageArchitecture (imageName : string) (imageArchs : list string) : result goerror unit :=
  let* archs := compatibleArchitectures in
  if existsb (fun arch => str_in arch archs.2) imageArchs then Ok tt
  else Err (NewInvalidImageArchitecture imageName archs.1).
End api.
