(* ===== verification/DockerPlugin.v ===== *)
(** * The network plugin and the constructor of the manager (backend/docker/plugin.go, iptables_linux.go, manager.go)

    The plugin the daemon needs is looked up, installed, pointed at the host's
    lock file and enabled before anything else is asked of the daemon.  The
    theorem says what a successful check leaves behind, for every daemon whose
    calls do what their documentation says. *)

From S2P Require Export DockerApi.
From S2P Require Json Unicode.
Local Open Scope string_scope.
Local Open Scope list_scope.
Local Open Scope Z_scope.
Local Open Scope kat_scope.

Definition linuxPluginName : string := "kathara/katharanp".
Definition vdePluginName : string := "kathara/katharanp_vde".
Definition hosttmpKey : string := "tmp".
Definition xtablesConfigurationKey : string := "xtables_lock".
Definition xtablesLockPath : string := "/run/xtables.lock".
Definition pluginStatePath : string := "/run/docker/runtime-runc/plugins.moby/{id}/state.json".

Record PluginMount : Type := mkPluginMount { mountName : string; Source : option string; Destination : string }.
Record Plugin : Type := mkPlugin { PluginID : string; pEnabled : bool; Mounts : list PluginMount }.

(** [PluginInstall] ends with the reading of its progress to the end. *)
Class PluginClient (W : Type) : Type := {
  PluginInspect : string → M W goerror Plugin;
  PluginInstall : string → M W goerror unit;
  PluginEnable : string → M W goerror unit;
  PluginDisable : string → M W goerror unit;
  PluginSet : string → list string → M W goerror unit;
  KernelVersion : M W goerror string;
  plugin_not_found : goerror → bool
}.

(** The source of the last mount named [key]; a mount may have none. *)
Definition lastMountSource (mounts : list PluginMount) (key : string) : option (option string) :=
  foldl (fun source mount => if String.eqb mount.(mountName) key then Some mount.(Source) else source) None mounts.

(** ** The host's iptables (iptables_linux.go) *)

Definition iptablesFallbackPaths : list string := ["/sbin/iptables"; "/usr/sbin/iptables"].

(** The directories of a search path, each once. *)
Fixpoint search_dirs (isExecutableFile : string → bool) (dirs : list string) (seen : gset string) : option string :=
  match dirs with
  | [] => None
  | dir :: dirs =>
      if bool_decide (dir ∈ seen) then search_dirs isExecutableFile dirs seen
      else
        let candidate := GoPath.Join [dir; "iptables"] in
        if isExecutableFile candidate then Some candidate
        else search_dirs isExecutableFile dirs ({[ dir ]} ∪ seen)
  end.

Definition lookIptables (PATH : option string) (isExecutableFile exists_ : string → bool) : string :=
  let searchPath := default ":/bin:/usr/bin" PATH in
  let found := if String.eqb searchPath "" then None
               else search_dirs isExecutableFile (split_byte (az 58) searchPath) ∅ in
  match found with
  | Some candidate => candidate
  | None => default "" (List.find exists_ iptablesFallbackPaths)
  end.

(** [output] is what the program prints, empty when it fails. *)
Definition iptablesVersion (PATH : option string) (isExecutableFile exists_ : string → bool) (output : string → string)
    : result goerror string :=
  let binary := lookIptables PATH isExecutableFile exists_ in
  if String.eqb binary "" then Err ErrIptablesNotFound else Ok (TrimFunc Unicode.IsSpace (output binary)).

(** ** The plugin *)

Inductive goos : Type := Linux | Windows | OtherOS.

Section plugin.
Context {W : Type} `{P : PluginClient W}.
Context (settings : Settings.Settings) (architecture : string) (os : goos) (version : result goerror string).

Definition currentName : string := NetworkDriver (pluginNameOf settings) architecture.

Definition configured (name : string) : bool :=
  match Settings.get_opt Settings.NetworkPlugin settings with Some p => String.eqb p name | None => false end.
Definition isVDE : bool := configured vdePluginName.
Definition isBridge : bool := configured linuxPluginName.

Definition install : M W goerror Plugin :=
  do* _ <- PluginInstall currentName in PluginInspect currentName.

Definition configureXtablesMount (mount : string) : M W goerror unit :=
  PluginSet currentName [xtablesConfigurationKey +:+ ".source=" +:+ mount].

Definition xtablesLockMount : M W goerror string :=
  match os with
  | Linux =>
      do* version <- slift version in
      sret (if Contains version "nf_tables" then "" else xtablesLockPath)
  | Windows =>
      do* kernel <- KernelVersion in
      sret (if negb (Contains kernel "microsoft") then "" else xtablesLockPath)
  | OtherOS => sret ""
  end.

(** The plugin, installed when the daemon has none and is not a remote one. *)
Definition find_plugin : M W goerror Plugin := fun w =>
  match PluginInspect currentName w with
  | (w, Ok plugin) => (w, Ok plugin)
  | (w, Err err) =>
      if plugin_not_found err then
        if bool_decide (settings.(Settings.sRemoteURL) = None) then install w else (w, Err ErrPluginNotFound)
      else (w, Err err)
  end.

(** The lock file of the iptables flavour; an unset source is no match even
    for an empty one. *)
Definition check_bridge (plugin : Plugin) : M W goerror unit :=
  do* mount <- xtablesLockMount in
  if negb plugin.(pEnabled) then
    do* _ <- configureXtablesMount mount in PluginEnable currentName
  else match lastMountSource plugin.(Mounts) xtablesConfigurationKey with
  | None => sthrow (EPyRuntime "IndexError" "pop from empty list")
  | Some source =>
      if bool_decide (source = Some mount) then sret tt
      else
        do* _ <- PluginDisable currentName in
        do* _ <- configureXtablesMount mount in
        PluginEnable currentName
  end.

Definition CheckAndDownload : M W goerror unit :=
  do* plugin <- find_plugin in
  if negb (bool_decide (settings.(Settings.sRemoteURL) = None)) then
    if negb plugin.(pEnabled) then sthrow ErrPluginNotEnabled else sret tt
  else if isVDE && negb plugin.(pEnabled) then PluginEnable currentName
  else if isBridge then check_bridge plugin
  else sret tt.

Definition StorePath : M W goerror string :=
  do* plugin <- PluginInspect currentName in
  match List.find (fun mount => String.eqb mount.(mountName) hosttmpKey) plugin.(Mounts) with
  | Some mount => sret (GoPath.Join [mount.(Destination); "katharanp"])
  | None => sthrow (NewHostTmpNotFound hosttmpKey)
  end.

End plugin.

(** ** The constructor (manager.go) *)

(** The calls of the constructor that are not about the plugin, and the manager
    made of the engine's version. *)
Definition Manager_New {W Manager} `{PluginClient W} (settings : Settings.Settings) (os : goos)
    (iptables : result goerror string) (newAPIClient : M W goerror unit) (GetArchitecture : result goerror string)
    (ServerVersion : M W goerror string) (Ping : M W goerror unit) (make : string → Manager) : M W goerror Manager :=
  let daemon {A} (m : M W goerror A) : M W goerror A := fun w =>
    match m w with (w, Err err) => (w, Err (NewDaemonConnection err)) | r => r end in
  do* _ <- daemon newAPIClient in
  do* architecture <- slift GetArchitecture in
  do* _ <- CheckAndDownload settings architecture os iptables in
  do* version <- daemon ServerVersion in
  do* _ <- daemon Ping in
  sret (make (ParseDockerEngineVersion version)).

(** ** What a successful check leaves behind *)

(** A mount given a source, and a plugin enabled or disabled. *)
Definition set_source (key source : string) (p : Plugin) : Plugin :=
  mkPlugin p.(PluginID) p.(pEnabled)
    ((fun m => if String.eqb m.(mountName) key then mkPluginMount m.(mountName) (Some source) m.(Destination) else m)
       <$> p.(Mounts)).
Definition set_enabled (b : bool) (p : Plugin) : Plugin := mkPlugin p.(PluginID) b p.(Mounts).

(** A daemon used by nobody else: [view] is the plugin it holds, which every
    successful call reads or changes as documented. *)
Class PluginLaws {W} `{PluginClient W} (view : W → string → option Plugin) : Prop := {
  inspect_ok name w w' p : PluginInspect name w = (w', Ok p) → view w' name = Some p;
  enable_ok name w w' p : view w name = Some p → PluginEnable name w = (w', Ok tt) →
    view w' name = Some (set_enabled true p);
  disable_ok name w w' p : view w name = Some p → PluginDisable name w = (w', Ok tt) →
    view w' name = Some (set_enabled false p);
  set_ok name w w' p source : view w name = Some p →
    PluginSet name [xtablesConfigurationKey +:+ ".source=" +:+ source] w = (w', Ok tt) →
    is_Some (lastMountSource p.(Mounts) xtablesConfigurationKey) ∧
    view w' name = Some (set_source xtablesConfigurationKey source p);
  kernel_ok name w w' v : KernelVersion w = (w', Ok v) → view w' name = view w name
}.

Lemma sbind_ok {S E A A'} (m : M S E A) (k : A → M S E A') s s' b :
  sbind m k s = (s', Ok b) ↔ ∃ s1 a, m s = (s1, Ok a) ∧ k a s1 = (s', Ok b).
Proof. unfold sbind. destruct (m s) as [s1 [a|e]]; naive_solver. Qed.

Lemma lastMountSource_set key source l :
  is_Some (lastMountSource l key) →
  lastMountSource ((fun m => if String.eqb m.(mountName) key then mkPluginMount m.(mountName) (Some source) m.(Destination)
                             else m) <$> l) key = Some (Some source).
Proof.
  unfold lastMountSource. intros Hs.
  assert (H : ∀ acc0 acc, (acc0 ≠ None → acc = Some (Some source)) →
    is_Some (foldl (fun s m => if String.eqb m.(mountName) key then Some m.(Source) else s) acc0 l) →
    foldl (fun s m => if String.eqb m.(mountName) key then Some m.(Source) else s) acc
      ((fun m => if String.eqb m.(mountName) key then mkPluginMount m.(mountName) (Some source) m.(Destination) else m) <$> l)
    = Some (Some source)); [|by eapply H; [|exact Hs]].
  clear. induction l as [|m l IH]; intros acc0 acc Hacc [x Hx]; cbn in *.
  - apply Hacc. by rewrite Hx.
  - destruct (String.eqb (mountName m) key) eqn:E; cbn; rewrite E; (eapply IH; [|by exists x]); [done|exact Hacc].
Qed.

Section ready.
Context {W : Type} `{P : PluginClient W} (view : W → string → option Plugin) `{!PluginLaws view}.
Context (settings : Settings.Settings) (architecture : string) (os : goos) (version : result goerror string).
Local Notation name := (currentName settings architecture).

Definition remote : Prop := settings.(Settings.sRemoteURL) ≠ None.

Lemma find_plugin_view w w' p : find_plugin settings architecture w = (w', Ok p) → view w' name = Some p.
Proof using All.
  unfold find_plugin. destruct (PluginInspect _ w) as [w1 [p1|err]] eqn:E.
  - intros [= <- <-]. by eapply inspect_ok.
  - destruct (plugin_not_found err); [|done]. case_bool_decide; [|done].
    unfold install. rewrite sbind_ok. intros (w2 & ? & _ & Hi). by eapply inspect_ok.
Qed.

Lemma xtables_view w w' m : xtablesLockMount os version w = (w', Ok m) → view w' name = view w name.
Proof using All.
  unfold xtablesLockMount. destruct os.
  - rewrite sbind_ok. intros (w1 & v & Hv & [= <- <-]). by injection Hv as <- _.
  - rewrite sbind_ok. intros (w1 & v & Hv & [= <- <-]). by eapply kernel_ok.
  - by intros [= <- <-].
Qed.

Lemma configured_view w w' p m : view w name = Some p →
  sbind (configureXtablesMount settings architecture m) (fun _ => PluginEnable name) w = (w', Ok tt) →
  view w' name = Some (set_enabled true (set_source xtablesConfigurationKey m p)) ∧
  is_Some (lastMountSource p.(Mounts) xtablesConfigurationKey).
Proof using All.
  intros Hp. rewrite sbind_ok. intros (w1 & [] & Hset & Hen). unfold configureXtablesMount in Hset.
  destruct (set_ok _ _ _ _ _ Hp Hset) as [Hs Hp1]. split; [|done]. by eapply enable_ok.
Qed.

(** After a successful check the daemon has the plugin; a remote
    one, and a local one of the two known flavours, is enabled; and the iptables
    flavour on a local daemon has the lock file of this host as its mount source,
    whether the plugin was missing, disabled, or enabled with another one. *)
Theorem CheckAndDownload_ready w w' :
  CheckAndDownload settings architecture os version w = (w', Ok tt) →
  ∃ p, view w' name = Some p ∧
    (remote ∨ isVDE settings = true ∨ isBridge settings = true → p.(pEnabled) = true) ∧
    (¬ remote → isVDE settings = false → isBridge settings = true →
       ∃ w1 w2 mount, xtablesLockMount os version w1 = (w2, Ok mount) ∧
         lastMountSource p.(Mounts) xtablesConfigurationKey = Some (Some mount)).
Proof using All.
  unfold CheckAndDownload, remote. rewrite sbind_ok. intros (w1 & p & Hf & H). apply find_plugin_view in Hf.
  case_bool_decide as Hr; cbn [negb] in H.
  2: { destruct (pEnabled p) eqn:Hen; [|done]. injection H as <-. exists p. naive_solver. }
  destruct (isVDE settings && negb (pEnabled p)) eqn:Hv.
  { bool_prop. eapply enable_ok in H; [|done]. exists (set_enabled true p). naive_solver congruence. }
  destruct (isBridge settings) eqn:Hb.
  2: { injection H as <-. exists p. destruct (isVDE settings), (pEnabled p); naive_solver. }
  unfold check_bridge in H. apply sbind_ok in H as (w2 & m & Hm & H). pose proof (xtables_view _ _ _ Hm) as Hw2.
  rewrite Hf in Hw2.
  assert (Hdone : ∀ q, view w' name = Some (set_enabled true (set_source xtablesConfigurationKey m q)) →
    is_Some (lastMountSource (Mounts q) xtablesConfigurationKey) →
    ∃ p0, view w' name = Some p0 ∧ (settings.(Settings.sRemoteURL) ≠ None ∨ isVDE settings = true ∨ true = true → pEnabled p0 = true) ∧
      (¬ settings.(Settings.sRemoteURL) ≠ None → isVDE settings = false → true = true → ∃ w3 w4 mount,
         xtablesLockMount os version w3 = (w4, Ok mount) ∧ lastMountSource (Mounts p0) xtablesConfigurationKey = Some (Some mount))).
  { intros q Hq Hs. eexists; split; [exact Hq|]. split; [done|]. intros _ _ _. exists w1, w2, m. split; [done|].
    by apply lastMountSource_set. }
  destruct (pEnabled p) eqn:Hen; cbn [negb] in H.
  - destruct (lastMountSource (Mounts p) xtablesConfigurationKey) as [source|] eqn:Hs; [|done].
    case_bool_decide as Heq.
    + injection H as <-. exists p. split; [done|]. split; [done|]. intros _ _ _. exists w1, w2, m. by rewrite Hs, Heq.
    + apply sbind_ok in H as (w3 & [] & Hd & H). eapply disable_ok in Hd; [|exact Hw2].
      destruct (configured_view _ _ _ _ Hd H) as [Hv' Hs']. by eapply Hdone.
  - destruct (configured_view _ _ _ _ Hw2 H) as [Hv' Hs']. by eapply Hdone.
Qed.
End ready.

(** A daemon with at most one plugin, which comes disabled and with its lock
    file unset. *)
Definition fresh_plugin : Plugin :=
  mkPlugin "id" false [mkPluginMount "xtables_lock" None "/run/xtables.lock"; mkPluginMount "tmp" None "/hosttmp"].

Definition lock_setting : string := "xtables_lock.source=".

Definition small_set (arg : string) (w : option Plugin) : option Plugin * result goerror unit :=
  match w with
  | Some p =>
      match lastMountSource p.(Mounts) xtablesConfigurationKey with
      | Some _ => if HasPrefix arg lock_setting
                  then (Some (set_source xtablesConfigurationKey (TrimPrefix arg lock_setting) p), Ok tt)
                  else (w, Err (EPlain "invalid setting"))
      | None => (w, Err (EPlain "setting not found"))
      end
  | None => (w, Err (EPlain "not found"))
  end.

Definition on_plugin {A} (f : Plugin → option Plugin * A) (w : option Plugin) : option Plugin * result goerror A :=
  match w with Some p => let '(w, a) := f p in (w, Ok a) | None => (None, Err (EPlain "not found")) end.

#[local] Instance small_daemon : PluginClient (option Plugin) := {
  PluginInspect _ := on_plugin (fun p => (Some p, p));
  PluginInstall _ _ := (Some fresh_plugin, Ok tt);
  PluginEnable _ := on_plugin (fun p => (Some (set_enabled true p), tt));
  PluginDisable _ := on_plugin (fun p => (Some (set_enabled false p), tt));
  PluginSet _ args := match args with [arg] => small_set arg | _ => fun w => (w, Err (EPlain "invalid")) end;
  KernelVersion w := (w, Ok "6.8");
  plugin_not_found _ := true
}.

Lemma TrimPrefix_app p s : TrimPrefix (p +:+ s) p = s.
Proof.
  unfold TrimPrefix. assert (H : HasPrefix (p +:+ s) p = true).
  { unfold HasPrefix. induction p as [|a p IH]; [by destruct s|]. cbn. by destruct (ascii_dec a a). }
  rewrite H. clear H. induction p as [|a p IH]; [done|]. exact IH.
Qed.

#[local] Instance small_laws : PluginLaws (fun w _ => w).
Proof.
  split.
  - intros name [p|] w' q [= <- <-]. done.
  - intros name w w' p -> [= <-]. done.
  - intros name w w' p -> [= <-]. done.
  - intros name w w' p source -> H.
    change (small_set (lock_setting +:+ source) (Some p) = (w', Ok tt)) in H. unfold small_set in H.
    destruct (lastMountSource p.(Mounts) xtablesConfigurationKey) as [x|] eqn:E; [|discriminate].
    rewrite TrimPrefix_app in H. destruct (HasPrefix _ _); [|discriminate]. injection H as <-. by split; [eexists|].
  - by intros name w w' v [= <- _].
Qed.

Definition bridge_settings : Settings.Settings :=
  Settings.set_opt Settings.NetworkPlugin (Some linuxPluginName) Settings.defaultSettings.

(** On a host with the legacy iptables the plugin is installed, pointed at the
    lock file and enabled. *)
Lemma CheckAndDownload_ready_witness :
  ∃ p, (CheckAndDownload bridge_settings "amd64" Linux (Ok "iptables v1.8.7 (legacy)") None).1 = Some p ∧
    p.(pEnabled) = true ∧ lastMountSource p.(Mounts) xtablesConfigurationKey = Some (Some "/run/xtables.lock").
Proof.
  destruct (CheckAndDownload_ready (fun w _ => w) bridge_settings "amd64" Linux (Ok "iptables v1.8.7 (legacy)") None
              (CheckAndDownload bridge_settings "amd64" Linux (Ok "iptables v1.8.7 (legacy)") None).1) as (p & Hp & Hen & Hm).
  - vm_compute. reflexivity.
  - exists p. split; [exact Hp|]. split; [apply Hen; right; right; vm_compute; reflexivity|].
    destruct Hm as (w1 & w2 & m & Hx & ->).
    + intros Hr. apply Hr. vm_compute. reflexivity.
    + vm_compute. reflexivity.
    + vm_compute. reflexivity.
    + vm_compute in Hx. injection Hx as _ <-. reflexivity.
Defined.
