(* ===== verification/Docker.v ===== *)
(** * The Docker backend (backend/docker/link.go, machine.go, image.go, manager.go)

    Collision domains as Docker networks, devices as containers, and the manager
    that orders the two.  The state is the scenario heap, the API objects the
    backend hangs on devices and collision domains (the [APIObject] fields, which
    only a backend writes), and the world of the daemon.  A failed call keeps what
    it did before it failed. *)

From S2P Require Export DockerApi Services.
From S2P Require Shlex Strconv.
Local Open Scope string_scope.
Local Open Scope list_scope.
Local Open Scope Z_scope.
Local Open Scope kat_scope.

(** What the backend announces to subscribers, with its payload. *)
Inductive notice : Type :=
| LinksDeployStarted (links : list loc) | LinkDeployed (link : loc) | LinksDeployEnded
| LinksUndeployStarted (networks : list Network) | LinkUndeployed (n : Network) | LinksUndeployEnded
| MachinesWithVolumes (lab : loc) (machines : list loc)
| MachinesDeployStarted (machines : list loc) | MachineDeployed (machine : loc) | MachinesDeployEnded
| MachinesUndeployStarted (containers : list Container) | MachineUndeployed (c : Container) | MachinesUndeployEnded
| MachineStartupWaitStarted
| DockerPullStarted | DockerPullProgress (line : string) | DockerPullEnded | DockerImageUpdateFound (image : string).

Definition mountVolumesOption : string := "_mount_volumes".
Definition bridgeConnectedMeta : string := "_bridge_connected".
Definition BridgeLinkName : string := "kathara_host_bridge".
Definition eosProbe : list string := ["cat"; "/tmp/EOS"].

Definition newPyKeyErrorInt (key : Z) : goerror := EPyRuntime "KeyError" (Itoa key).
Definition newPyKeyError (key : string) : goerror := EPyRuntime "KeyError" ("'" +:+ key +:+ "'").
Definition newPyAttributeError (attr : string) : goerror :=
  EPyRuntime "AttributeError" ("'NoneType' object has no attribute '" +:+ attr +:+ "'").
Definition newPyTypeError (msg : string) : goerror := EPyRuntime "TypeError" msg.

Section docker.
Context {F : Type} (fsys : FileSystem F) `{TextCases} (cwd : option string).
Context {W : Type} `{D : DockerClient W}.

Definition DM (A : Type) : Type := M (dstate F Container Network W) failure A.

(** ** What the host answers, and the programs the backend runs on it *)

Record host : Type := mkHostEnv {
  PoolSize : Z;
  GetCurrentUserName : result goerror string;
  GetCurrentUserHome : result goerror string;
  IsAdmin : result goerror bool;
  GetArchitecture : result goerror string;
  onDarwin : bool;
  CheckDirectoryPermissions : string → string → result goerror (list string);
  lstat : string → option bool
}.

(** The settings and the engine version, fixed once the manager is made; the
    dispatcher with its subscribers, which may do anything; the host commands
    that attach interfaces of the host (external.go), the archive of a device's
    files (pack.go) and the question whether the user has hit a key. *)
Class Backend : Type := {
  settings : Settings.Settings;
  engineVersion : string;
  env : host;
  dispatch : notice → DM unit;
  preflightExternalInterfaces : list ExternalLink → M W goerror unit;
  attachExternalInterfaces : list ExternalLink → Network → M W goerror unit;
  deleteExternalInterfaces : string → Network → M W goerror unit;
  packData : loc → DM (option string);
  WaitUserInput : M W goerror bool
}.

Context {B : Backend}.

Definition runChunked {A} (items : list A) (name : A → DM string) (task : A → DM unit) : DM unit :=
  runBatches env.(PoolSize) items name task.

(** ** Collision domains (link.go) *)

Definition getLinksByFilters (labHash linkName user : string) : DM (list Network) :=
  api (listNetworks (ObjectFilters user labHash linkName)).

Definition Create (link : loc) : DM unit :=
  do* k <- link_of link in
  if String.eqb k.(lName) BridgeLinkName then sret tt
  else
    let shared := settings.(Settings.sSharedCds) in
    do* user <- (if negb (shared =? Settings.SharedBetweenUsers) then dgo env.(GetCurrentUserName) else sret "") in
    do* lab <- lab_of k.(lLab) in
    let filterLabHash := if shared =? Settings.NotShared then lab.(LabHash) else "" in
    let filterUser := if negb (shared =? Settings.SharedBetweenUsers) then user else "" in
    do* networks <- getLinksByFilters filterLabHash k.(lName) filterUser in
    match List.last (Some <$> networks) None with
    | Some n => set_network link (Some n)
    | None =>
        let external := externalLabel k.(External) in
        do* _ <- (if bool_decide (k.(External) = []) then sret tt
                  else api (preflightExternalInterfaces k.(External))) in
        let networkPlugin := pluginNameOf settings in
        do* architecture <- dgo env.(GetArchitecture) in
        do* created <- api (NetworkCreate
          (NetworkName settings.(Settings.sNetPrefix) user k.(lName) lab.(LabHash) shared)
          (networkCreateOptions (NetworkDriver networkPlugin architecture)
             (NetworkLabels k.(lName) user lab.(LabHash) external shared))) in
        do* inspected <- api (NetworkInspect created) in
        let n := mkNetwork created inspected in
        do* _ <- set_network link (Some n) in
        if bool_decide (k.(External) = []) then sret tt else api (attachExternalInterfaces k.(External) n)
    end.

Definition deployLink (link : loc) : DM unit :=
  do* k <- link_of link in
  if String.eqb k.(lName) BridgeLinkName then sret tt
  else
    do* _ <- Create link in
    dispatch (LinkDeployed link).

Definition DockerBridge : DM (option Network) :=
  do* summaries <- api (NetworkList (ByName "bridge")) in
  sret (List.last ((fun e : string * networkInspect => Some (mkNetwork e.1 e.2)) <$> summaries) None).

Definition DeployLinks (lab : loc) (selected excluded : NameSet) : DM unit :=
  if (0 <? set_len selected) && (0 <? set_len excluded) then fail ErrSelectedOrExcludedLinks
  else
    do* b <- lab_of lab in
    do* links <- filterLinks (Values b.(labLinks)) selected excluded in
    do* _ <-
      (if bool_decide (links = []) then sret tt
       else
         do* _ <- dispatch (LinksDeployStarted links) in
         do* _ <- runChunked links linkItemName deployLink in
         dispatch LinksDeployEnded) in
    do* bridge <- DockerBridge in
    do* link <- hp (GetOrNewLink lab BridgeLinkName) in
    set_network link bridge.

Fixpoint reload_networks (networks : list Network) : DM (list Network) :=
  match networks with
  | [] => sret []
  | n :: networks =>
      do* n <- api (reloadNetwork n) in do* ns <- reload_networks networks in sret (n :: ns)
  end.

Definition reloadAndKeepEmpty (networks : list Network) : DM (list Network) :=
  do* networks <- reload_networks networks in
  sret (List.filter (fun n => ContainerCount n <=? 0) networks).

Definition deleteLink (n : Network) : DM unit :=
  let external := Network_Label n labelExternal in
  do* _ <- (if negb (String.eqb external "") then api (deleteExternalInterfaces external n) else sret tt) in
  api (NetworkRemove n.(NetworkID)).

Definition undeployLink (n : Network) : DM unit :=
  do* _ <- deleteLink n in dispatch (LinkUndeployed n).

Definition Link_Undeploy (labHash : string) (selected : NameSet) : DM unit :=
  do* networks <- getLinksByFilters labHash "" "" in
  let networks := match selected with
                  | Some _ => List.filter (fun n => set_has selected (Network_Label n labelName)) networks
                  | None => networks
                  end in
  do* networks <- reloadAndKeepEmpty networks in
  if bool_decide (length networks = 0%nat) then sret tt
  else
    do* _ <- dispatch (LinksUndeployStarted networks) in
    do* _ <- runChunked networks (pure_name networkItemName) undeployLink in
    dispatch LinksUndeployEnded.

Definition Link_Wipe (user : string) : DM unit :=
  let userLabel := if settings.(Settings.sSharedCds) =? Settings.SharedBetweenUsers then "" else user in
  do* networks <- getLinksByFilters "" "" userLabel in
  do* networks <- reloadAndKeepEmpty networks in
  runChunked networks (pure_name networkItemName) undeployLink.

(** ** Images (image.go) *)

Definition Pull (imageName : string) : DM unit :=
  let imageName := normalizeImageTag imageName in
  do* _ <- dispatch DockerPullStarted in
  do* lines <- api (ImagePull imageName) in
  do* _ <- sfor lines (fun line => dispatch (DockerPullProgress line)) in
  dispatch DockerPullEnded.

(** What follows the first separator, empty without one. *)
Definition after_at (s : string) : string :=
  match cut_byte (az 64) s with Some (_, rest) => rest | None => "" end.

Definition CheckForUpdates (imageName : string) : DM unit :=
  if Contains imageName "@" then sret tt
  else
    do* local <- api (ImageInspect imageName) in
    match local.(RepoDigests) with
    | [] => sret tt
    | digest :: _ =>
        do* remote <- api (DistributionInspect imageName) in
        if String.eqb remote.(Digest) (after_at digest) then sret tt
        else dispatch (DockerImageUpdateFound imageName)
    end.

Definition checkAndPull (imageName : string) (pull : bool) : DM unit :=
  do* local <- try_ (api (ImageInspect imageName)) in
  match local with
  | Ok local =>
      do* _ <- dgo (checkLocalImageArchitecture env.(GetArchitecture) env.(onDarwin) imageName local.(Architecture)) in
      if pull then
        do* upd <- try_ (CheckForUpdates imageName) in
        match upd with
        | Err updErr => if isDaemonAPIError updErr then sret tt else fail updErr
        | Ok _ => sret tt
        end
      else sret tt
  | Err err =>
      if IsErrConnectionFailed err then fail err
      else
        do* registryData <- try_ (api (DistributionInspect imageName)) in
        match registryData with
        | Err err =>
            if negb (isDaemonAPIError err) then fail err
            else if isDialTCP err then fail (NewConnectionImagePull imageName)
            else fail (NewDockerImageNotFound imageName)
        | Ok registryData =>
            do* _ <- dgo (checkRemoteImageArchitecture env.(GetArchitecture) env.(onDarwin) imageName
                            registryData.(Platforms)) in
            if pull then Pull imageName else sret tt
        end
  end.

Definition Image_Check (imageName : string) : DM unit := checkAndPull imageName false.
Definition CheckFromList (images : list string) : DM unit := sfor images (fun name => checkAndPull name true).

(** ** Devices (machine.go) *)

Definition getMachinesByFilters (labHash machineName user : string) : DM (list Container) :=
  api (listContainers (ObjectFilters user labHash machineName)).

(** [machine.interfaces[0]], guarded by the emptiness of the dict. *)
Definition firstInterface (m : Machine) : result goerror (option (Interface * loc)) :=
  match m.(interfaces) with
  | [] => Ok None
  | slots =>
      match List.find (fun i => i.(Number) =? 0) slots with
      | None => Err (newPyKeyErrorInt 0)
      | Some slot => match slot.(iLink) with
                     | None => Err (newPyAttributeError "link")
                     | Some l => Ok (Some (slot, l))
                     end
      end
  end.

(** The greatest slot number, the first one's being the seed. *)
Definition highest_slot (first : Interface) (slots : list Interface) : Z :=
  foldl (fun n i => Z.max n i.(Number)) first.(Number) slots.

Definition next_bridged (m : Machine) : Z :=
  match m.(interfaces) with
  | [] => 0
  | slot :: slots => Strconv.iadd (highest_slot slot slots) 1
  end.

Definition bridgedIfaceNumber (m : Machine) : option Z :=
  match m.(mMeta).(BridgedIface) with Int n => Some n | _ => None end.

Definition entrypointAndArgs (m : Machine) : result goerror (option (list string) * option (list string)) :=
  let* entrypoint :=
    if IsSet m.(mMeta).(Entrypoint)
    then rmap Some (Shlex.ShlexSplit (scalar_string m.(mMeta).(Entrypoint))) else Ok None in
  if negb (Truthy m.(mMeta).(Args)) then Ok (entrypoint, None)
  else match AsStrings m.(mMeta).(Args) with
       | Some l => Ok (entrypoint, Some l)
       | None => let* args := Shlex.ShlexSplit (scalar_string m.(mMeta).(Args)) in
                 Ok (entrypoint, if bool_decide (args = []) then None else Some args)
       end.

(** The volumes of the device, in order; one whose directory lacks a
    permission stops the loop. *)
Fixpoint bind_volumes (vs : list (string * Volume)) (acc : list (string * string * string))
    : result goerror (list (string * string * string)) :=
  match vs with
  | [] => Ok acc
  | (hostPath, v) :: vs =>
      let* missing := env.(CheckDirectoryPermissions) hostPath v.(Mode) in
      if bool_decide (missing = []) then bind_volumes vs (acc ++ [(hostPath, v.(GuestPath), v.(Mode))])
      else Err (NewVolumePermission hostPath v.(GuestPath) missing)
  end.

Definition volumeBinds (lab : Lab F) (m : Machine) : result goerror (list string * list string) :=
  let sharedMount := match GeneralOption lab "shared_mount" with
                     | Some _ => true
                     | None => settings.(Settings.sSharedMount)
                     end in
  let acc := if sharedMount && negb (String.eqb lab.(SharedPath) "") then [(lab.(SharedPath), "/shared", "rw")] else [] in
  let hosthomeMount := match GeneralOption lab "hosthome_mount" with
                       | Some option => Truthy option
                       | None => settings.(Settings.sHosthomeMount)
                       end in
  let* acc :=
    if hosthomeMount && bool_decide (settings.(Settings.sRemoteURL) = None)
    then let* home := env.(GetCurrentUserHome) in Ok (acc ++ [(home, "/hosthome", "rw")])
    else Ok acc in
  let done_ (acc : list (string * string * string)) :=
    Ok ((fun b => bind b.1.1 b.1.2 b.2) <$> acc, (fun b => b.1.2) <$> acc) in
  match GetVolumes lab m with
  | Err err => if is_mount_denied err then done_ acc else Err err
  | Ok volumes => let* acc := bind_volumes (Entries volumes) acc in done_ acc
  end.

(** The part of [Create] that edits the metas before the container is made:
    scenario-wide metas, and the number of the bridged interface.  It gives the
    first interface with the network under it. *)
Definition prepare_metas (machine : loc) : DM (option (Interface * loc) * option Network) :=
  do* m <- machine_of machine in
  do* lab <- lab_of m.(mLab) in
  do* _ <- match GlobalMachineMetadata lab "bridged" with
           | Some _ => if IsBridged m then sret tt
                       else do* _ <- hp (Machine_AddMeta cwd machine "bridged" "True") in sret tt
           | None => sret tt
           end in
  do* _ <- match GlobalMachineMetadata lab "exec" with
           | Some execCommand => do* _ <- hp (Machine_AddMeta cwd machine "exec" (scalar_string execCommand)) in sret tt
           | None => sret tt
           end in
  do* m <- machine_of machine in
  do* first <- dgo (firstInterface m) in
  do* firstNetwork <- match first with Some (_, l) => networkOf l | None => sret None end in
  do* _ <- (if IsBridged m then update_meta machine (set_field FBridgedIface (Int (next_bridged m))) else sret tt) in
  match first with
  | None =>
      if IsBridged m then
        do* bridge <- hp (GetOrNewLink m.(mLab) BridgeLinkName) in
        do* firstNetwork <- networkOf bridge in
        do* _ <- update_meta machine (fun meta => set_Extras (SetKey meta.(Extras) bridgeConnectedMeta (Bool true)).1 meta) in
        sret (None, firstNetwork)
      else sret (None, firstNetwork)
  | Some _ => sret (first, firstNetwork)
  end.

Definition copyFiles (c : Container) (path tarData : string) : DM unit :=
  api (CopyToContainer c.(ContainerID) path tarData).

(** The endpoint of the first interface, which needs its network deployed. *)
Definition first_endpoint (lab : Lab F) (m : Machine) (first : option (Interface * loc)) (firstNetwork : option Network)
    : DM (option endpointSettings) :=
  match first with
  | None => sret None
  | Some (iface, l) =>
      do* k <- link_of l in
      do* driverOpt <- dgo (createDriverOpt engineVersion lab m iface.(Number) k.(lName) iface.(MAC)
                              (ifaceSysctls m.(mMeta).(Sysctls) iface.(Number))) in
      match firstNetwork with
      | None => fail (newPyAttributeError "name")
      | Some _ => sret (Some (mkEndpoint driverOpt))
      end
  end.

Definition nano_cpus : f64 := f64_of_Z 1000000000.

Definition Machine_Create (machine : loc) : DM unit :=
  do* user <- dgo env.(GetCurrentUserName) in
  do* m <- machine_of machine in
  do* lab <- lab_of m.(mLab) in
  do* existing <- getMachinesByFilters lab.(LabHash) m.(mName) user in
  if bool_decide (length existing = 0%nat) then
    let image := GetImage lab m in
    do* memory <- dgo (GetMem lab m) in
    do* cpus <- dgo (GetCPU nano_cpus lab m) in
    let ulimits := ulimitList m.(mMeta).(Ulimits) in
    let ports := portBindings m.(mMeta).(Ports) in
    do* first <- prepare_metas machine in
    do* m <- machine_of machine in
    do* lab <- lab_of m.(mLab) in
    do* sysctls <- dgo (containerSysctls engineVersion lab m (match first.1 with Some _ => true | None => false end)) in
    do* binds <- dgo (volumeBinds lab m) in
    let privileged := IsPrivileged lab m in
    do* admin <- dgo env.(IsAdmin) in
    if privileged && negb admin then fail (NewPrivilegeMachinePrivileged m.(mName))
    else
      let privileged := match settings.(Settings.sRemoteURL) with Some _ => false | None => privileged end in
      do* endpoint <- first_endpoint lab m first.1 first.2 in
      let bridgedIface := if IsBridged m then bridgedIfaceNumber m else None in
      let labels := ContainerLabels m.(mName) lab.(LabHash) user (GetShell lab m) bridgedIface in
      do* entry <- dgo (entrypointAndArgs m) in
      let request := createArgs
        (ContainerName settings.(Settings.sDevicePrefix) user m.(mName) lab.(LabHash))
        image m.(mName) privileged (Network_Name first.2) endpoint (envList m.(mMeta).(Envs)) sysctls
        (parseMemory memory) (default 0 cpus) (fst <$> ports) (snd <$> ports) binds.1 binds.2 labels ulimits
        entry.1 entry.2 in
      do* created <- api (ContainerCreate request) in
      do* inspected <- api (ContainerInspect created) in
      let c := mkContainer created inspected in
      do* tarData <- packData machine in
      do* _ <- match tarData with Some data => copyFiles c "/" data | None => sret tt end in
      set_container machine c
  else fail (NewMachineAlreadyExists m.(mName)).
(** *** Starting a device *)

Definition ConnectInterface (machine : loc) (iface : Interface) : DM unit :=
  do* container <- containerOf machine in
  match container with
  | None => fail (newPyAttributeError "attrs")
  | Some c =>
      do* l <- hp (deref iface.(iLink)) in
      do* network <- networkOf l in
      match network with
      | None => fail (newPyAttributeError "name")
      | Some n =>
          match Container_Networks c !! Network_Name (Some n) with
          | Some _ => sret tt
          | None =>
              do* m <- machine_of machine in
              do* lab <- lab_of m.(mLab) in
              do* k <- link_of l in
              do* driverOpt <- dgo (createDriverOpt engineVersion lab m iface.(Number) k.(lName) iface.(MAC)
                                      (ifaceSysctls m.(mMeta).(Sysctls) iface.(Number))) in
              do* err <- try_ (api (NetworkConnect n.(NetworkID) c.(ContainerID) (Some (mkEndpoint driverOpt)))) in
              match err with
              | Ok _ => sret tt
              | Err err => fail (if isPluginInconsistentState err then ErrInconsistentState else err)
              end
          end
      end
  end.

Definition DisconnectFromLink (machine link : loc) : DM unit :=
  do* container <- containerOf machine in
  match container with
  | None => fail (newPyAttributeError "attrs")
  | Some c =>
      do* network <- networkOf link in
      match network with
      | None => fail (newPyAttributeError "name")
      | Some n =>
          match Container_Networks c !! Network_Name (Some n) with
          | None => sret tt
          | Some _ => api (NetworkDisconnect n.(NetworkID) c.(ContainerID))
          end
      end
  end.

(** Every slot but the first, which the container was created on. *)
Definition connect_others (machine : loc) (slots : list Interface) : DM unit :=
  sfor (List.tl slots) (fun iface =>
    if IsTombstone iface then fail (newPyAttributeError "link") else ConnectInterface machine iface).

Definition bridge_later (machine : loc) (c : Container) : DM unit :=
  do* m <- machine_of machine in
  match Get m.(mMeta).(Extras) bridgeConnectedMeta with
  | Some _ => sret tt
  | None =>
      if negb (IsBridged m) then sret tt
      else
        do* l <- hp (GetOrNewLink m.(mLab) BridgeLinkName) in
        do* bridge <- networkOf l in
        match bridge with
        | None => fail (newPyAttributeError "connect")
        | Some n => api (NetworkConnect n.(NetworkID) c.(ContainerID) None)
        end
  end.

Definition startup_options (c : Container) (commands : string) : execRunOptions :=
  mkExecRun [Container_Label c labelShell; "-c"; commands] true true false false false true false.

Definition startContainer (c : Container) : DM unit :=
  do* err <- try_ (api (ContainerStart c.(ContainerID))) in
  match err with
  | Ok _ => sret tt
  | Err err => fail (if isMountsDenied err then ErrHostDriveNotShared
                     else if isPluginInconsistentState err then ErrInconsistentState else err)
  end.

Definition Start (machine : loc) : DM unit :=
  do* container <- containerOf machine in
  match container with
  | None => fail (newPyAttributeError "start")
  | Some c =>
      do* _ <- startContainer c in
      do* m <- machine_of machine in
      do* _ <- connect_others machine m.(interfaces) in
      do* _ <- bridge_later machine c in
      do* m <- machine_of machine in
      do* _ <- (if bool_decide (m.(mMeta).(ExecCommands) = []) then sret tt
                else update_meta machine (fun meta =>
                       set_ExecCommands (interleaveExecCommands meta.(ExecCommands)) meta)) in
      do* m <- machine_of machine in
      let startupCommandsString := renderStartupCommands m.(mName) m.(mMeta).(ExecCommands) in
      do* ran <- try_ (api (execRun c (startup_options c startupCommandsString))) in
      do* _ <- match ran with
               | Ok _ => sret tt
               | Err err => match as_binary err with
                            | None => fail err
                            | Some _ => update_meta machine (set_field FNumTerms (Int 0))
                            end
               end in
      do* c <- api (reloadContainer c) in
      do* _ <- set_container machine c in
      update_meta machine (fun meta => set_Extras (DeleteKey meta.(Extras) bridgeConnectedMeta).1 meta)
  end.
(** *** Deploying devices *)

Definition deployAndStart (machine : loc) : DM unit :=
  do* _ <- Machine_Create machine in
  do* _ <- Start machine in
  dispatch (MachineDeployed machine).

(** The images of the devices, each at its first place. *)
Fixpoint distinct_images (machines : list loc) (seen : gset string) : DM (list string) :=
  match machines with
  | [] => sret []
  | l :: machines =>
      do* m <- machine_of l in
      do* lab <- lab_of m.(mLab) in
      let image := GetImage lab m in
      if bool_decide (image ∈ seen) then distinct_images machines seen
      else do* images <- distinct_images machines ({[ image ]} ∪ seen) in sret (image :: images)
  end.

Definition mount_shared (lab : loc) : DM unit :=
  do* b <- lab_of lab in
  let sharedMount := match GeneralOption b "shared_mount" with
                     | Some option => Truthy option
                     | None => settings.(Settings.sSharedMount)
                     end in
  if sharedMount && bool_decide (settings.(Settings.sRemoteURL) = None)
  then hp (CreateSharedFolder fsys env.(lstat) lab) else sret tt.

Definition DeployMachines (lab : loc) (selected excluded : NameSet) : DM unit :=
  if (0 <? set_len selected) && (0 <? set_len excluded) then fail ErrSelectedOrExcludedMachines
  else
    do* b <- lab_of lab in
    do* machines <- filterMachines (Values b.(labMachines)) selected excluded in
    do* images <- distinct_images machines ∅ in
    do* _ <- CheckFromList images in
    let policy := settings.(Settings.sVolumeMountPolicy) in
    let canMount := String.eqb policy "Prompt" || String.eqb policy "Always" in
    do* _ <- hp (AddOption lab mountVolumesOption (Bool canMount)) in
    do* withVolumes <- with_volumes machines in
    do* _ <- (if bool_decide (withVolumes = []) then sret tt else dispatch (MachinesWithVolumes lab withVolumes)) in
    do* _ <- mount_shared lab in
    do* _ <- dispatch (MachinesDeployStarted machines) in
    do* b <- lab_of lab in
    do* _ <- (if negb b.(HasDependencies) then runChunked machines machineItemName deployAndStart
              else sfor machines deployAndStart) in
    do* _ <- dispatch MachinesDeployEnded in
    hp (AddOption lab mountVolumesOption (Bool canMount)).

(** *** Removing devices *)

(** The tag of an image, asked for when a shell is missing. *)
Definition imageTags (imageID : string) : DM (list string) :=
  if String.eqb imageID "" then sret []
  else
    do* inspected <- try_ (api (ImageInspect imageID)) in
    sret (match inspected with Ok i => i.(RepoTags) | Err _ => [] end).

Definition imageLabel (c : Container) : DM string :=
  do* tags <- imageTags c.(cAttrs).(ciImage) in
  sret (match tags with tag :: _ => tag | [] => c.(cAttrs).(ciImage) end).

Definition shutdown_options (c : Container) : execRunOptions :=
  mkExecRun [Container_Label c labelShell; "-c"; renderShutdownCommands (Container_Label c labelName)]
    true false false false true false false.

Definition deleteMachine (c : Container) : DM unit :=
  do* _ <-
    (if String.eqb (Container_Status c) "running" then
       do* ran <- try_ (api (execRun c (shutdown_options c))) in
       match ran with
       | Ok _ => sret tt
       | Err err => match as_binary err with
                    | None => fail err
                    | Some _ => do* _ <- imageLabel c in sret tt
                    end
       end
     else sret tt) in
  api (ContainerRemove c.(ContainerID)).

Definition undeployMachine (c : Container) : DM unit :=
  do* _ <- deleteMachine c in dispatch (MachineUndeployed c).

Definition filterContainers (containers : list Container) (keep : string → bool) : list Container :=
  List.filter (fun c => keep (Container_Label c labelName)) containers.

(** The devices a call to [Undeploy] is for; nil and empty sets differ here. *)
Definition undeploy_chosen (selected excluded : NameSet) (containers : list Container) : list Container :=
  match selected, excluded with
  | Some _, _ => filterContainers containers (set_has selected)
  | None, Some _ => filterContainers containers (fun name => negb (set_has excluded name))
  | None, None => containers
  end.

Definition Machine_Undeploy (labHash : string) (selected excluded : NameSet) : DM unit :=
  match selected, excluded with
  | Some _, Some _ => fail ErrSelectedOrExcludedMachines
  | _, _ =>
      do* user <- dgo env.(GetCurrentUserName) in
      do* containers <- getMachinesByFilters labHash "" user in
      let containers := undeploy_chosen selected excluded containers in
      if bool_decide (length containers = 0%nat) then sret tt
      else
        do* _ <- dispatch (MachinesUndeployStarted containers) in
        do* _ <- runChunked containers (pure_name containerItemName) undeployMachine in
        dispatch MachinesUndeployEnded
  end.

Definition Machine_Wipe (user : string) : DM unit :=
  do* containers <- getMachinesByFilters "" "" user in
  runChunked containers (pure_name containerItemName) undeployMachine.

(** *** Waiting for the startup commands, and running a command *)

Definition startupWaitInterrupted : Z := 0.
Definition startupWaitCompleted : Z := 1.
Definition startupWaitAPIError : Z := 2.

(** [positive := -*nRetries]. *)
Definition wait_retries (nRetries : option Z) : option Z :=
  match nRetries with Some n => Some (if n <? 0 then Strconv.isub 0 n else n) | None => None end.

Definition eos_options : execRunOptions := mkExecRun eosProbe true false false false false false false.

(** The polling loop, at most [fuel] probes: [None] when it is still waiting
    then. *)
Fixpoint wait_loop (fuel : nat) (c : Container) (nRetries : option Z) (retries : Z) (printed : bool)
    : DM (option Z) :=
  match fuel with
  | O => sret None
  | S fuel =>
      do* result <- try_ (api (execRun c eos_options)) in
      match result with
      | Err err => match as_binary err with Some _ => fail err | None => sret (Some startupWaitAPIError) end
      | Ok result =>
          let success := match result.(ExitCode) with Some code => code =? 0 | None => false end in
          do* _ <- (if negb printed && negb success then dispatch MachineStartupWaitStarted else sret tt) in
          let printed := printed || negb success in
          do* interrupted <- api WaitUserInput in
          if interrupted then sret (Some (if success then startupWaitCompleted else startupWaitInterrupted))
          else if success then sret (Some startupWaitCompleted)
          else match nRetries with
               | Some n => if retries =? n then sret (Some startupWaitCompleted)
                           else wait_loop fuel c nRetries (Strconv.iadd retries 1) printed
               | None => wait_loop fuel c nRetries retries printed
               end
      end
  end.

Definition waitStartupExecution (fuel : nat) (c : Container) (nRetries : option Z) : DM (option Z) :=
  wait_loop fuel c (wait_retries nRetries) 0 false.

Definition command_options (cmd : list string) (tty stream : bool) : execRunOptions :=
  mkExecRun cmd true true false tty false false stream.

(** [None]: still waiting after [fuel] probes. *)
Definition Machine_Exec (fuel : nat) (labHash machineName : string) (command : Command) (user : string)
    (tty : bool) (wait : WaitPolicy) (stream : bool) : DM (option execRunResult) :=
  do* containers <- getMachinesByFilters labHash machineName user in
  match List.last (Some <$> containers) None with
  | None => fail (NewMachineNotRunning machineName)
  | Some c =>
      do* waited <- (if wait.(Enabled) then waitStartupExecution fuel c wait.(Retries)
                     else sret (Some startupWaitCompleted)) in
      match waited with
      | None => sret None
      | Some waited =>
          if waited =? startupWaitAPIError then fail (NewMachineNotRunning machineName)
          else
            do* cmd <- dgo (commandWords command) in
            do* r <- api (execRun c (command_options cmd tty stream)) in
            sret (Some r)
      end
  end.
End docker.
