(* ===== verification/DockerMgr.v ===== *)
(** * The Docker manager (backend/docker/manager.go)

    What a client calls: every method resolves the scenario it is given, then
    orders the operations on collision domains and devices of [Docker].  A device
    and a collision domain of the model always have a scenario, so the refusals of
    one without are not modelled.  Then the numbers of the interfaces it adds. *)

From S2P Require Export Docker.
Local Open Scope string_scope.
Local Open Scope list_scope.
Local Open Scope Z_scope.
Local Open Scope kat_scope.

Section manager.
Context {F : Type} (fsys : FileSystem F) `{TextCases} (cwd : option string).
Context {W : Type} `{D : DockerClient W} {B : Docker.Backend (F := F) (W := W)}.
Local Notation DM := (@Docker.DM F W).

(** ** The scenario a call is about *)

Definition resolveRequired (ref : LabRef) : DM string :=
  do* _ <- dgo (RequireSingle ref) in resolveHash ref.

Definition resolveAtMostOne (ref : LabRef) : DM string :=
  do* _ <- dgo (AtMostOne ref) in resolveHash ref.

Definition scopedUser (allUsers : bool) : DM string :=
  if allUsers then sret "" else dgo env.(GetCurrentUserName).

(** ** Deploying *)

Definition interfaceLinkNames (m : Machine) : DM NameSet :=
  do* names <- hp (iface_links m.(interfaces) ∅) in sret (Some names).

Definition DeployMachine (machine : loc) : DM unit :=
  do* m <- machine_of machine in
  do* _ <- hp (Machine_Check machine) in
  do* links <- interfaceLinkNames m in
  do* _ <- DeployLinks m.(mLab) links None in
  DeployMachines fsys cwd m.(mLab) (NewNameSet [m.(mName)]) None.

Definition DeployLink (link : loc) : DM unit :=
  do* k <- link_of link in DeployLinks k.(lLab) (NewNameSet [k.(lName)]) None.

Definition DeployLab (lab : loc) (opts : DeployLabOptions) : DM unit :=
  let selected := opts.(SelectedMachines) in
  let excluded := opts.(ExcludedMachines) in
  do* _ <- check_selection lab selected excluded in
  do* links <- chosen_links lab selected excluded in
  do* _ <- DeployLinks lab links.1 links.2 in
  DeployMachines fsys cwd lab selected excluded.

(** ** Undeploying *)

Definition UndeployMachine (machine : loc) (keepLinks : bool) : DM unit :=
  do* m <- machine_of machine in
  do* b <- lab_of m.(mLab) in
  do* _ <- Machine_Undeploy b.(LabHash) (NewNameSet [m.(mName)]) None in
  if keepLinks then sret tt
  else
    do* m <- machine_of machine in
    do* links <- interfaceLinkNames m in
    do* b <- lab_of m.(mLab) in
    Link_Undeploy b.(LabHash) links.

Definition UndeployLink (link : loc) : DM unit :=
  do* k <- link_of link in
  do* b <- lab_of k.(lLab) in
  Link_Undeploy b.(LabHash) (NewNameSet [k.(lName)]).

Definition UndeployLab (ref : LabRef) (opts : UndeployLabOptions) : DM unit :=
  do* labHash <- resolveRequired ref in
  if (0 <? set_len opts.(uSelectedMachines)) && (0 <? set_len opts.(uExcludedMachines))
  then fail ErrSelectOrExcludeDevices
  else
    do* _ <- Machine_Undeploy labHash opts.(uSelectedMachines) opts.(uExcludedMachines) in
    Link_Undeploy labHash opts.(uSelectedLinks).

Definition Wipe (allUsers : bool) : DM unit :=
  let allUsers := if bool_decide (settings.(Settings.sRemoteURL) = None) then allUsers else false in
  do* user <- scopedUser allUsers in
  do* _ <- Machine_Wipe user in
  Link_Wipe user.

(** ** Attaching a running device, and detaching it *)

(** The container of a running device, inspected again. *)
Definition running_container (machine : loc) (name : string) : DM Container :=
  do* container <- containerOf machine in
  match container with
  | None => fail (NewMachineNotRunning name)
  | Some c =>
      do* c <- api (reloadContainer c) in
      do* _ <- set_container machine c in
      if negb (String.eqb (Container_Status c) "running") then fail (NewMachineNotRunning name) else sret c
  end.

(** [bridged_iface] from the container's label, when the device has none. *)
Definition recall_bridged (machine : loc) (c : Container) : DM unit :=
  do* m <- machine_of machine in
  if IsSet m.(mMeta).(BridgedIface) then sret tt
  else match c.(cAttrs).(ciLabels) !! labelBridgedIface with
  | None => fail (newPyKeyError labelBridgedIface)
  | Some raw => do* number <- dgo (py_int raw) in update_meta machine (set_field FBridgedIface (Int number))
  end.

(** The number past every slot and the bridged interface. *)
Definition next_number (m : Machine) : result goerror Z :=
  match bridgedIfaceNumber m, m.(interfaces) with
  | None, [] => Err (newPyTypeError ("can only concatenate str (not " +:+ Shlex.dq +:+ "int" +:+ Shlex.dq +:+ ") to str"))
  | None, _ => Err (newPyTypeError "'>' not supported between instances of 'str' and 'int'")
  | Some bridged, [] => Ok (Strconv.iadd bridged 1)
  | Some bridged, slot :: slots =>
      let highest := highest_slot slot slots in
      Ok (if highest <? bridged then Strconv.iadd bridged 1 else Strconv.iadd highest 1)
  end.

Definition ConnectMachineToLink (machine link : loc) (macAddress : string) : DM unit :=
  do* m <- machine_of machine in
  do* c <- running_container machine m.(mName) in
  do* k <- link_of link in
  if HasMachine k m.(mName) then fail (NewManagerMachineAlreadyConnected m.(mName) k.(lName))
  else
    do* ifaceNumber <-
      (if IsBridged m then
         do* _ <- recall_bridged machine c in
         do* m <- machine_of machine in
         do* n <- dgo (next_number m) in
         sret (Some n)
       else sret None) in
    do* iface <- hp (AddInterface machine link (mkIfaceOpts ifaceNumber macAddress)) in
    do* _ <- DeployLink link in
    ConnectInterface machine iface.

Definition DisconnectMachineFromLink (machine link : loc) (keepLink : bool) : DM unit :=
  do* m <- machine_of machine in
  do* _ <- running_container machine m.(mName) in
  do* k <- link_of link in
  if negb (HasMachine k m.(mName)) then fail (NewManagerMachineNotConnected m.(mName) k.(lName))
  else
    do* _ <- hp (RemoveInterface machine link) in
    do* _ <- DisconnectFromLink machine link in
    if keepLink then sret tt else UndeployLink link.

(** ** Running a command *)

(** [None]: still waiting for the startup commands after [fuel] probes. *)
Definition Exec (fuel : nat) (machineName : string) (command : Command) (ref : LabRef) (wait : WaitPolicy)
    : DM (option (string * string * Z)) :=
  do* labHash <- resolveRequired ref in
  do* user <- dgo env.(GetCurrentUserName) in
  do* result <- Machine_Exec fuel labHash machineName command user false wait false in
  sret (match result with
        | None => None
        | Some r => Some (r.(resStdout), r.(resStderr), default 0 r.(ExitCode))
        end).

Definition ExecObj (fuel : nat) (machine : loc) (command : Command) (wait : WaitPolicy)
    : DM (option (string * string * Z)) :=
  do* m <- machine_of machine in Exec fuel m.(mName) command (obj_ref m) wait.

(** A stream keeps the identifier of the command, to ask for its exit code. *)
Definition ExecStream (fuel : nat) (machineName : string) (command : Command) (ref : LabRef) (wait : WaitPolicy)
    : DM (option (option (string * bool) * string)) :=
  do* labHash <- resolveRequired ref in
  do* user <- dgo env.(GetCurrentUserName) in
  do* result <- Machine_Exec fuel labHash machineName command user false wait true in
  sret (match result with None => None | Some r => Some (r.(resStream), r.(ExecID)) end).

Definition ExecStreamObj (fuel : nat) (machine : loc) (command : Command) (wait : WaitPolicy)
    : DM (option (option (string * bool) * string)) :=
  do* m <- machine_of machine in ExecStream fuel m.(mName) command (obj_ref m) wait.

(** ** API objects *)

Definition GetMachineAPIObject (machineName : string) (ref : LabRef) (allUsers : bool) : DM Container :=
  do* labHash <- resolveRequired ref in
  do* user <- scopedUser allUsers in
  do* containers <- getMachinesByFilters labHash machineName user in
  last_or containers (NewMachineNotFoundQuoted machineName).

Definition GetMachinesAPIObjects (ref : LabRef) (allUsers : bool) : DM (list Container) :=
  do* labHash <- resolveAtMostOne ref in
  do* user <- scopedUser allUsers in
  getMachinesByFilters labHash "" user.

Definition GetLinkAPIObject (linkName : string) (ref : LabRef) (allUsers : bool) : DM Network :=
  do* labHash <- resolveRequired ref in
  do* user <- scopedUser allUsers in
  do* networks <- getLinksByFilters labHash linkName user in
  last_or networks (NewLinkNotFoundQuoted linkName).

Definition GetLinksAPIObjects (ref : LabRef) (allUsers : bool) : DM (list Network) :=
  do* labHash <- resolveAtMostOne ref in
  do* user <- scopedUser allUsers in
  getLinksByFilters labHash "" user.

Definition CheckImage (imageName : string) : DM unit := Image_Check imageName.
End manager.

(** * Numbering the bridged interface and interfaces added later

    The number the Docker backend gives to the bridged interface of a device, and
    to an interface connected to a running one, keep the numbering the device was
    checked for: 0, 1, ..., n with nothing missing and nothing twice. *)

Lemma highest_slot_spec first slots :
  (first.(Number) <= highest_slot first slots) ∧
  (∀ i, i ∈ slots → i.(Number) <= highest_slot first slots) ∧
  (highest_slot first slots = first.(Number) ∨ ∃ i, i ∈ slots ∧ highest_slot first slots = i.(Number)).
Proof.
  unfold highest_slot. generalize first.(Number). induction slots as [|s slots IH]; intros n; cbn [foldl].
  { split; [lia|]. split; [set_solver|by left]. }
  destruct (IH (Z.max n s.(Number))) as (H1 & H2 & H3). split; [lia|]. split.
  - intros i [->|Hi]%elem_of_cons; [lia|auto].
  - destruct H3 as [->|(i & Hi & ->)]; [|right; exists i; split; [set_solver|done]].
    destruct (Z.max_spec n s.(Number)) as [[_ ->]|[_ ->]]; [right; exists s; set_solver|by left].
Qed.

(** The greatest number of a device is one of its numbers, and bounds them. *)
Lemma highest_number i slots k : k ∈ numbers (i :: slots) → k <= highest_slot i (i :: slots).
Proof.
  destruct (highest_slot_spec i (i :: slots)) as (_ & H & _).
  unfold numbers. rewrite list_elem_of_fmap. intros (x & -> & Hx). auto.
Qed.

Lemma highest_mem i slots : highest_slot i (i :: slots) ∈ numbers (i :: slots).
Proof.
  destruct (highest_slot_spec i (i :: slots)) as (_ & _ & [->|(x & Hx & ->)]); unfold numbers;
    apply list_elem_of_fmap; [exists i; set_solver|by exists x].
Qed.

Lemma bridged_int m k : m.(mMeta).(BridgedIface) = Int k → bridgedIfaceValue m = Ok (Some (BFin k 0)).
Proof. intros H. unfold bridgedIfaceValue. by rewrite H. Qed.

Lemma cmp_int k v : cmpIntFloat k (BFin v 0) = Eq ↔ k = v.
Proof.
  unfold cmpIntFloat. cbn. rewrite ?Z.mul_1_r. apply Z.compare_eq_iff.
Qed.

(** Numbers 0..n are checked whichever of them is the bridged one. *)
Lemma check_merged m k :
  ifs_sorted m.(interfaces) → m.(mMeta).(BridgedIface) = Int k →
  checkNumbering m = Ok tt ↔ k :: numbers m.(interfaces) ≡ₚ seqZ 0 (Z.of_nat (S (length m.(interfaces)))).
Proof.
  intros Hs Hb. rewrite (checkNumbering_bridged m (BFin k 0)); [|done|by rewrite Hb|by apply bridged_int].
  setoid_rewrite cmp_int. naive_solver.
Qed.

Lemma seqZ_snoc n : seqZ 0 (Z.of_nat (S n)) = seqZ 0 (Z.of_nat n) ++ [Z.of_nat n].
Proof. replace (Z.of_nat (S n)) with (Z.of_nat n + 1) by lia. rewrite seqZ_app by lia. done. Qed.

Lemma elem_of_seqZ0 k n : k ∈ seqZ 0 (Z.of_nat n) ↔ 0 <= k < Z.of_nat n.
Proof. rewrite elem_of_seqZ. lia. Qed.

Lemma next_bridged_value m : m.(interfaces) ≠ [] → Z.of_nat (length m.(interfaces)) < MaxInt64 →
  numbers m.(interfaces) = seqZ 0 (Z.of_nat (length m.(interfaces))) →
  next_bridged m = Z.of_nat (length m.(interfaces)).
Proof.
  intros Hne Hlt Hnum. unfold next_bridged.
  assert (Hin : ∀ k, k ∈ numbers m.(interfaces) ↔ 0 <= k < Z.of_nat (length m.(interfaces)))
    by (intros k; rewrite Hnum; apply elem_of_seqZ0).
  destruct m.(interfaces) as [|i slots]; [done|].
  assert (Hh : highest_slot i slots = Z.of_nat (length (i :: slots)) - 1).
  { replace (highest_slot i slots) with (highest_slot i (i :: slots))
      by (unfold highest_slot; cbn [foldl]; by rewrite Z.max_id).
    apply Z.le_antisymm.
    - pose proof (highest_mem i slots) as Hm. apply Hin in Hm. lia.
    - apply highest_number, Hin. cbn [length]. lia. }
  rewrite Hh. unfold Strconv.iadd, Strconv.wrap64, MaxInt64 in *. rewrite Z.mod_small by lia. lia.
Qed.

(** A device that passes the check without a bridged interface
    passes it with the number the backend gives to one. *)
Theorem next_bridged_keeps_Check m :
  ifs_sorted m.(interfaces) → Z.of_nat (length m.(interfaces)) < MaxInt64 →
  IsSet m.(mMeta).(BridgedIface) = false → checkNumbering m = Ok tt →
  checkNumbering (set_meta (set_field FBridgedIface (Int (next_bridged m)) m.(mMeta)) m) = Ok tt.
Proof.
  intros Hs Hlt Hb Hc. apply checkNumbering_sequential in Hc; [|done].
  rewrite (check_merged _ (next_bridged m)); [|done|done]. cbn [interfaces set_meta]. rewrite Hc, seqZ_snoc.
  destruct (decide (m.(interfaces) = [])) as [E|Hne]; [by unfold next_bridged; rewrite E|].
  rewrite next_bridged_value by done. by rewrite Permutation_app_comm.
Qed.

Lemma next_number_value m k :
  m.(mMeta).(BridgedIface) = Int k → Z.of_nat (S (length m.(interfaces))) < MaxInt64 →
  k :: numbers m.(interfaces) ≡ₚ seqZ 0 (Z.of_nat (S (length m.(interfaces)))) →
  next_number m = Ok (Z.of_nat (S (length m.(interfaces)))).
Proof.
  intros Hb Hlt Hp. unfold next_number, bridgedIfaceNumber. rewrite Hb.
  assert (Hin : ∀ j, j = k ∨ j ∈ numbers m.(interfaces) ↔ 0 <= j < Z.of_nat (S (length m.(interfaces))))
    by (intros j; rewrite <- elem_of_seqZ0, <- Hp, elem_of_cons; done).
  pose proof (proj1 (Hin k) (or_introl eq_refl)) as Hk.
  destruct m.(interfaces) as [|i slots]; unfold Strconv.iadd, Strconv.wrap64, MaxInt64 in *; cbn [length] in *.
  { rewrite Z.mod_small by lia. f_equal. lia. }
  replace (highest_slot i slots) with (highest_slot i (i :: slots))
    by (unfold highest_slot; cbn [foldl]; by rewrite Z.max_id).
  pose proof (proj1 (Hin _) (or_intror (highest_mem i slots))) as Hh.
  pose proof (proj2 (Hin (Z.of_nat (S (length slots)))) ltac:(lia)) as Htop.
  destruct (Z.ltb_spec (highest_slot i (i :: slots)) k) as [L|L]; rewrite Z.mod_small by lia; f_equal;
    destruct Htop as [E|Htop%highest_number]; lia.
Qed.

(** An interface connected to a running bridged device gets the
    number past every interface and the bridged one, so that a device which passed
    the check passes it with the interface too. *)
Theorem next_number_keeps_Check m k n link mac :
  ifs_sorted m.(interfaces) → Z.of_nat (S (length m.(interfaces))) < MaxInt64 →
  m.(mMeta).(BridgedIface) = Int k → checkNumbering m = Ok tt → next_number m = Ok n →
  k ≠ n ∧ n ∉ numbers m.(interfaces) ∧
  checkNumbering (insertInterface (mkInterface None link n mac) m) = Ok tt.
Proof.
  intros Hs Hlt Hb Hc Hn. apply (check_merged m k Hs Hb) in Hc.
  rewrite (next_number_value m k Hb Hlt Hc) in Hn. injection Hn as <-.
  assert (Hnew : Z.of_nat (S (length m.(interfaces))) ∉ k :: numbers m.(interfaces))
    by (rewrite Hc, elem_of_seqZ0; lia).
  apply not_elem_of_cons in Hnew as [Hk Hnot]. split; [done|]. split; [done|].
  set (iface := mkInterface None link _ mac). destruct (insertInterface_spec iface m Hs Hnot) as [Hs' Hp].
  rewrite (check_merged _ k); [|done|].
  - rewrite (Permutation_length Hp). cbn [length]. rewrite (seqZ_snoc (S _)), <- Hc. unfold numbers at 1.
    rewrite (Hp : _ ≡ₚ _). cbn [fmap list_fmap]. rewrite (Permutation_app_comm (k :: _)). cbn [app].
    by rewrite Permutation_swap.
  - unfold insertInterface. by destruct (interfaceIndex _ _).
Qed.

Definition bridged_pc : Machine :=
  mkMachine 1%positive "pc1" (set_field FBridgedIface (Int 1) newMeta) None
    [mkInterface None (Some 2%positive) 0 ""; mkInterface None (Some 3%positive) 2 ""].

Lemma next_number_keeps_Check_witness :
  next_number bridged_pc = Ok 3 ∧
  checkNumbering (insertInterface (mkInterface None (Some 4%positive) 3 "") bridged_pc) = Ok tt.
Proof.
  split; [vm_compute; reflexivity|].
  apply (next_number_keeps_Check bridged_pc 1 3 (Some 4%positive) "").
  - repeat constructor.
  - vm_compute. reflexivity.
  - reflexivity.
  - vm_compute. reflexivity.
  - vm_compute. reflexivity.
Defined.
