(* ===== verification/DockerRec.v ===== *)
(** * Reading scenarios back from the daemon (backend/docker/reconstruct.go, stats.go)

    The inverse of deploying: a scenario rebuilt from the containers and networks
    of the daemon, one refreshed in place, and the inventory of both that the
    statistics streams list. *)

From S2P Require Export DockerMgr.
Local Open Scope string_scope.
Local Open Scope list_scope.
Local Open Scope Z_scope.
Local Open Scope kat_scope.

Definition newPyIndexError (msg : string) : goerror := EPyRuntime "IndexError" msg.

Definition reconstructedLabName : string := "reconstructed_lab".

Definition pyBoolString (b : bool) : string := if b then "True" else "False".

Definition sortedKeys {V} (m : gmap string V) : list string := sort_strings (fst <$> map_to_list m).

(** ** Endpoints *)

Definition ifaceNumberOf (options : option labels) : result goerror Z :=
  match options with
  | None => Err (newPyTypeError "'NoneType' object is not subscriptable")
  | Some opts => match opts !! driverOptIface with
                 | None => Err (newPyKeyError driverOptIface)
                 | Some raw => py_int raw
                 end
  end.

Definition ifaceOptOf (options : option labels) : string :=
  match options with None => "" | Some opts => default "" (opts !! driverOptIface) end.

Definition ifaceOptNumber (options : option labels) : Z :=
  match ifaceNumberOf options with Ok n => n | Err _ => 0 end.

(** By the text of the interface number and then by name: the numbers are
    compared as strings. *)
Definition iface_opt_cmp (endpoints : gmap string (option labels)) (a b : string) : Z :=
  let opt n := ifaceOptOf (default None (endpoints !! n)) in
  let c := strings_Compare (opt a) (opt b) in
  if negb (c =? 0) then c else strings_Compare a b.

Definition sortByIfaceOpt (endpoints : gmap string (option labels)) : list string :=
  SortStable (iface_opt_cmp endpoints) (fst <$> map_to_list endpoints).

(** The meta of one megabyte count: [int64(float64(n) / (1024 * 1024))]. *)
Definition megabytes (memory : Z) : Z :=
  match floatToBigInt (f64_div (f64_of_Z memory) (f64_of_Z 1048576)) with Ok z => z | Err _ => 0 end.

Section reconstruct.
Context {F : Type} (fsys : FileSystem F) `{TextCases} (cwd : option string).
Context {W : Type} `{D : DockerClient W} {B : Docker.Backend (F := F) (W := W)}.
Local Notation DM := (@Docker.DM F W).

(** The filesystem of a scenario made in memory, the defaults of the manager,
    and the order a loop over a map takes, which differs from loop to loop. *)
Context (memory : F) (defaults : Defaults).
Context (range : nat → ∀ V : Type, gmap string V → list (string * V)).

Definition add_meta (machine : loc) (name value : string) : DM unit :=
  do* _ <- hp (Machine_AddMeta cwd machine name value) in sret tt.

(** *** Metas (applyContainerMetas) *)

Definition port_of (bindings : PortMap) (port : string) : result goerror (PortKey * Z) :=
  match bindings !! port with
  | Some ((_, host) :: _) =>
      match cut_byte slash port with
      | None => Err (NewValue "not enough values to unpack (expected 2, got 1)")
      | Some (guestPort, protocol) =>
          let* hostPort := py_int host in
          let* guest := py_int guestPort in
          Ok ((hostPort, protocol), guest)
      end
  | _ => Err (newPyIndexError "list index out of range")
  end.

Definition applyContainerMetas (device : loc) (c : Container) : DM unit :=
  let attrs := c.(cAttrs) in
  do* _ <- add_meta device "privileged" (pyBoolString attrs.(ciPrivileged)) in
  do* _ <- add_meta device "image" attrs.(ciConfigImage) in
  do* shell <- (match attrs.(ciLabels) !! labelShell with
                | None => fail (newPyKeyError labelShell)
                | Some shell => sret shell
                end) in
  do* _ <- add_meta device "shell" shell in
  do* _ <- (if 0 <? attrs.(ciMemory) then add_meta device "mem" (Itoa (megabytes attrs.(ciMemory)) +:+ "M")
            else sret tt) in
  do* _ <- (if 0 <? attrs.(ciNanoCPUs) then
              update_meta device (fun meta => set_Extras
                (SetKey meta.(Extras) "cpu" (Float (f64_div (f64_of_Z attrs.(ciNanoCPUs)) nano_cpus))).1 meta)
            else sret tt) in
  do* _ <- sfor attrs.(ciEnv) (add_meta device "env") in
  do* _ <- sfor (sortedKeys attrs.(ciPortBindings)) (fun port =>
             do* e <- dgo (port_of attrs.(ciPortBindings) port) in
             update_meta device (fun meta => set_Ports (SetKey meta.(Ports) e.1 e.2).1 meta)) in
  update_meta device (set_Sysctls
    (foldl (fun o key => (SetKey o key (Str (default "" (attrs.(ciSysctls) !! key)))).1) NewOrderedMap
       (sortedKeys attrs.(ciSysctls)))).

(** *** Interfaces *)

Definition applyEndpointSysctls (device : loc) (driverOpts : labels) (ifaceNumber : Z) : DM unit :=
  match driverOpts !! driverOptSysctls with
  | None => sret tt
  | Some value =>
      let ifname := "eth" +:+ Itoa ifaceNumber in
      sfor (split_byte (az 44) value) (fun entry =>
        add_meta device "sysctl" (ReplaceAll entry ifnamePlaceholder ifname))
  end.

(** The interface of one endpoint. *)
Definition attach_endpoint (device link : loc) (options : option labels) : DM unit :=
  do* ifaceNumber <- dgo (ifaceNumberOf options) in
  do* mac <- match options with
             | None => sret ""
             | Some opts => do* _ <- applyEndpointSysctls device opts ifaceNumber in
                            sret (default "" (opts !! driverOptMacAddr))
             end in
  do* _ <- hp (AddInterface device link (mkIfaceOpts (Some ifaceNumber) mac)) in
  sret tt.

Definition key_error {A} (o : option A) (key : string) : DM A :=
  match o with Some a => sret a | None => fail (newPyKeyError key) end.

Definition applyContainerInterfaces (lab device : loc) (c : Container) (networksByName : gmap string Network) : DM unit :=
  let endpoints := Container_Networks c in
  match endpoints !! "none" with
  | Some _ => sret tt
  | None =>
      do* remaining <-
        match endpoints !! "bridge" with
        | None => sret endpoints
        | Some _ =>
            do* _ <- add_meta device "bridged" "True" in
            do* raw <- key_error (c.(cAttrs).(ciLabels) !! labelBridgedIface) labelBridgedIface in
            do* number <- dgo (py_int raw) in
            do* _ <- update_meta device (set_field FBridgedIface (Int number)) in
            sret (delete "bridge" endpoints)
        end in
      sfor (sortByIfaceOpt remaining) (fun name =>
        do* n <- key_error (networksByName !! name) name in
        do* link <- hp (GetOrNewLink lab (Network_Label n labelName)) in
        do* _ <- set_network link (Some n) in
        attach_endpoint device link (default None (remaining !! name)))
  end.

(** The networks a scenario's containers may be on, by their names. *)
Definition reconstructionNetworks (labHash : string) : DM (gmap string Network) :=
  let shared := settings.(Settings.sSharedCds) in
  let filterHash := if negb (shared =? Settings.NotShared) then "" else labHash in
  do* user <- scopedUser (shared =? Settings.SharedBetweenUsers) in
  do* networks <- getLinksByFilters filterHash "" user in
  sret (foldl (fun (m : gmap string Network) n => <[Network_Name (Some n) := n]> m) ∅ networks).

(** *** A scenario rebuilt *)

Definition GetLabFromAPI (labHash labName : string) : DM loc :=
  if String.eqb labHash "" && String.eqb labName "" then fail ErrLabHashOrName
  else
    do* lab <-
      (if negb (String.eqb labName "") then hp (newLab memory (fun _ => None) (Some labName) "" defaults)
       else
         do* lab <- hp (newLab memory (fun _ => None) (Some reconstructedLabName) "" defaults) in
         do* b <- lab_of lab in
         do* _ <- hp (putLab lab (set_labName b.(Machine.labName) labHash b)) in
         sret lab) in
    do* user <- scopedUser false in
    do* b <- lab_of lab in
    do* containers <- getMachinesByFilters b.(LabHash) "" user in
    do* networksByName <- reconstructionNetworks b.(LabHash) in
    do* _ <- sfor containers (fun c =>
      do* c <- api (reloadContainer c) in
      do* device <- hp (GetOrNewMachine fsys cwd lab (Container_Label c labelName) None) in
      do* _ <- set_container device c in
      do* _ <- applyContainerMetas device c in
      applyContainerInterfaces lab device c networksByName) in
    sret lab.

(** *** A scenario refreshed in place *)

(** The collision domains the device is on, by name; a removed interface has none. *)
Fixpoint static_links (ifs : list Interface) (acc : gmap string loc) : DM (gmap string loc) :=
  match ifs with
  | [] => sret acc
  | i :: ifs =>
      match i.(iLink) with
      | None => fail (newPyAttributeError "link")
      | Some l => do* k <- link_of l in static_links ifs (<[k.(lName) := l]> acc)
      end
  end.

(** The endpoints of the container by the names of the collision domains, in
    order; of two on the same one the last counts, at the first's place. *)
Fixpoint current_links (lab : loc) (networksByName : gmap string Network) (remaining : gmap string (option labels))
    (names : list string) (order : list string) (current : gmap string (option labels))
    : DM (list string * gmap string (option labels)) :=
  match names with
  | [] => sret (order, current)
  | name :: names =>
      do* n <- key_error (networksByName !! name) name in
      do* link <- hp (GetOrNewLink lab (Network_Label n labelName)) in
      do* k <- link_of link in
      let order := match current !! k.(lName) with Some _ => order | None => order ++ [k.(lName)] end in
      current_links lab networksByName remaining names order (<[k.(lName) := default None (remaining !! name)]> current)
  end.

Definition iface_number_cmp (current : gmap string (option labels)) (a b : string) : Z :=
  let n x := ifaceOptNumber (default None (current !! x)) in
  match n a ?= n b with Lt => -1 | Eq => 0 | Gt => 1 end.

Definition update_container (lab : loc) (networksByName byLinkName : gmap string Network) (c : Container) : DM unit :=
  do* c <- api (reloadContainer c) in
  do* device <- hp (GetOrNewMachine fsys cwd lab (Container_Label c labelName) None) in
  do* _ <- set_container device c in
  do* m <- machine_of device in
  do* staticLinks <- static_links m.(interfaces) ∅ in
  let remaining := delete "bridge" (delete "none" (Container_Networks c)) in
  do* cur <- current_links lab networksByName remaining (sortByIfaceOpt remaining) [] ∅ in
  let '(currentOrder, currentByLinkName) := cur in
  do* _ <- sfor (range 2 loc staticLinks) (fun e =>
             match byLinkName !! e.1 with Some n => set_network e.2 (Some n) | None => sret tt end) in
  let dynamic := SortStable (iface_number_cmp currentByLinkName)
                   (List.filter (fun name => negb (bool_decide (is_Some (staticLinks !! name)))) currentOrder) in
  do* _ <- sfor dynamic (fun name =>
             do* link <- hp (GetOrNewLink lab name) in
             do* n <- key_error (byLinkName !! name) name in
             do* _ <- set_network link (Some n) in
             attach_endpoint device link (default None (currentByLinkName !! name))) in
  let deleted := sort_strings (List.filter (fun name => negb (bool_decide (is_Some (currentByLinkName !! name))))
                                 (fst <$> map_to_list staticLinks)) in
  sfor deleted (fun name =>
    do* l <- hp (deref (staticLinks !! name)) in hp (RemoveInterface device l)).

(** The networks inspected again. *)
Fixpoint reload_all (es : list (string * Network)) (m : gmap string Network) : DM (gmap string Network) :=
  match es with
  | [] => sret m
  | (name, n) :: es => do* n <- api (reloadNetwork n) in reload_all es (<[name := n]> m)
  end.

Definition UpdateLabFromAPI (lab : loc) : DM unit :=
  do* user <- scopedUser false in
  do* b <- lab_of lab in
  do* containers <- getMachinesByFilters b.(LabHash) "" user in
  do* networksByName <- reconstructionNetworks b.(LabHash) in
  do* networksByName <- reload_all (range 0 Network networksByName) networksByName in
  let byLinkName := foldl (fun (m : gmap string Network) e => <[Network_Label e.2 labelName := e.2]> m) ∅
                      (range 1 Network networksByName) in
  sfor containers (update_container lab networksByName byLinkName).

(** ** Statistics (stats.go) *)

Record MachineStats : Type := mkMachineStats {
  msNetworkScenarioID : string;
  msName : string;
  msContainerName : string;
  msUser : option string;
  msStatus : option string;
  msImage : string
}.

Record LinkStats : Type := mkLinkStats {
  lsNetworkScenarioID : string;
  lsName : string;
  lsNetworkName : string;
  lsUser : option string;
  lsIPv6Enabled : option bool;
  lsExternal : list string;
  lsContainers : list string
}.

Definition machineStatsFor (c : Container) (imageTags : list string) : MachineStats :=
  mkMachineStats (Container_Label c labelLabHash) (Container_Label c labelName) (Container_Name c)
    (Some (Container_Label c labelUser)) (Some (Container_Status c))
    (match imageTags with tag :: _ => tag | [] => c.(cAttrs).(ciImage) end).

Definition linkStatsFor (n : Network) (containers : list string) : LinkStats :=
  let label := Network_Label n labelExternal in
  mkLinkStats (Network_Label n labelLabHash) (Network_Label n labelName) (Network_Name (Some n))
    (Some (Network_Label n labelUser)) (Some n.(nAttrs).(niEnableIPv6))
    (if negb (String.eqb label "") then split_byte (az 59) label else []) containers.

Fixpoint inspected_names (ids : list string) : DM (list string) :=
  match ids with
  | [] => sret []
  | id :: ids =>
      do* inspected <- api (ContainerInspect id) in
      do* rest <- inspected_names ids in
      sret (Container_Label (mkContainer id inspected) labelName :: rest)
  end.

Definition AttachedNames (n : Network) : DM (list string) :=
  do* names <- inspected_names (sort_strings (elements n.(nAttrs).(niContainers))) in
  sret (sort_strings names).

(** A stream over the inventory: what it is about, and whether its one check
    of the rights of the caller has passed (the answer of the host is fixed, so
    a stream whose [Next] failed may be asked again as it was). *)
Record statsStream : Type := mkStream { stHash : string; stName : string; stUser : string; checked : bool }.

Definition check_admin (s : statsStream) (refusal : goerror) : DM statsStream :=
  if s.(checked) then sret s
  else
    do* admin <- dgo env.(IsAdmin) in
    if String.eqb s.(stUser) "" && negb admin then fail refusal
    else sret (mkStream s.(stHash) s.(stName) s.(stUser) true).

(** Entries in the order of their names, which the daemon keeps distinct. *)
Definition by_id {A} (a b : string * A) : Z := strings_Compare a.1 b.1.

Fixpoint machine_entries (containers : list Container) : DM (list (string * MachineStats)) :=
  match containers with
  | [] => sret []
  | c :: containers =>
      do* tags <- imageTags c.(cAttrs).(ciImage) in
      do* rest <- machine_entries containers in
      sret ((Container_Name c, machineStatsFor c tags) :: rest)
  end.

(** [Next] of the machines' stream: the stream after it, and the entries. *)
Definition machinesStats_Next (s : statsStream) : DM (statsStream * list (string * MachineStats)) :=
  do* s <- check_admin s ErrPrivilegeMachineStats in
  do* containers <- getMachinesByFilters s.(stHash) s.(stName) s.(stUser) in
  do* entries <- machine_entries containers in
  sret (s, SortStable by_id entries).

Fixpoint link_entries (networks : list Network) : DM (list (string * LinkStats)) :=
  match networks with
  | [] => sret []
  | n :: networks =>
      do* containers <- AttachedNames n in
      do* rest <- link_entries networks in
      sret ((Network_Name (Some n), linkStatsFor n containers) :: rest)
  end.

Definition linksStats_Next (s : statsStream) : DM (statsStream * list (string * LinkStats)) :=
  do* s <- check_admin s ErrPrivilegeLinkStats in
  do* networks <- getLinksByFilters s.(stHash) s.(stName) s.(stUser) in
  do* entries <- link_entries networks in
  sret (s, SortStable by_id entries).

Definition GetMachinesStats (ref : LabRef) (machineName : string) (allUsers : bool) : DM statsStream :=
  do* labHash <- resolveAtMostOne ref in
  do* user <- scopedUser allUsers in
  sret (mkStream labHash machineName user false).

Definition GetLinksStats (ref : LabRef) (linkName : string) (allUsers : bool) : DM statsStream :=
  do* labHash <- resolveAtMostOne ref in
  do* user <- scopedUser allUsers in
  sret (mkStream labHash linkName user false).

(** The stream of one device or collision domain: a refusal kept for the first
    [Next], which is also the last whatever it answers.  [io.EOF] is [None]. *)
Record oneStream : Type := mkOneStream { deferred : option goerror; done_ : bool; inner : statsStream }.

Definition one_stream (ref : LabRef) (name : string) (allUsers : bool) : DM oneStream :=
  do* hash <- resolveHash ref in
  let user := if allUsers then Ok "" else env.(GetCurrentUserName) in
  let deferred := match RequireSingle ref, user with
                  | Err e, _ => Some e
                  | Ok _, Err e => Some e
                  | Ok _, Ok _ => None
                  end in
  sret (mkOneStream deferred false (mkStream hash name (match user with Ok u => u | Err _ => "" end) false)).

Definition GetMachineStats (machineName : string) (ref : LabRef) (allUsers : bool) : DM oneStream :=
  one_stream ref machineName allUsers.
Definition GetLinkStats (linkName : string) (ref : LabRef) (allUsers : bool) : DM oneStream :=
  one_stream ref linkName allUsers.

Definition one_next {A} (next : statsStream → DM (statsStream * list (string * A))) (s : oneStream)
    : DM (oneStream * option (result goerror (option A))) :=
  if s.(done_) then sret (s, None)
  else
    let s := mkOneStream s.(deferred) true s.(inner) in
    match s.(deferred) with
    | Some e => sret (s, Some (Err e))
    | None =>
        do* entries <- try_ (next s.(inner)) in
        sret (s, Some (rmap (fun r => match r.2 with (_, stats) :: _ => Some stats | [] => None end) entries))
    end.

Definition machineStats_Next (s : oneStream) : DM (oneStream * option (result goerror (option MachineStats))) := one_next machinesStats_Next s.
Definition linkStats_Next (s : oneStream) : DM (oneStream * option (result goerror (option LinkStats))) := one_next linksStats_Next s.

(** [ExitCode] of a command's stream (execstream.go). *)
Definition exec_ExitCode (execID : string) : DM Z :=
  do* inspect <- api (ContainerExecInspect execID) in
  match execExitCode inspect with
  | None => fail (newPyTypeError "int() argument must be a string, a bytes-like object or a real number, not 'NoneType'")
  | Some code => sret code
  end.
End reconstruct.

(** ** An interface read back *)

Lemma py_int_Itoa n : - MaxInt64 <= n <= MaxInt64 → py_int (Itoa n) = Ok n.
Proof.
  intros Hn. unfold py_int. pose proof (PyInt_pyBigInt (Itoa n)) as H. rewrite pyBigInt_Itoa in H.
  destruct (PyInt (Itoa n)) as [v|e]; [by destruct H as [[= ->] _]|].
  destruct H as [[_ H]|[_ H]]; [done|]. specialize (H n eq_refl). lia.
Qed.

Lemma driver_opt_lookup (o : labels) (v : option string) (mac : string) k :
  k ≠ driverOptSysctls → k ≠ driverOptMacAddr →
  (let o := match v with Some v => <[driverOptSysctls := v]> o | None => o end in
   if negb (String.eqb mac "") then <[driverOptMacAddr := mac]> o else o : labels) !! k = o !! k.
Proof.
  intros H1 H2. cbn zeta. destruct (negb _); [etransitivity; [by apply lookup_insert_ne|]|];
    (destruct v; [by apply lookup_insert_ne|done]).
Qed.

(** The options an interface is attached with give back its number,
    its MAC address and its collision domain when the scenario is rebuilt from the
    daemon, for every engine version, with sysctls or without. *)
Theorem endpoint_roundtrip {F} `{TextCases} engineVersion (lab : Lab F) m number linkName mac sysctls opts :
  - MaxInt64 <= number <= MaxInt64 →
  createDriverOpt engineVersion lab m number linkName mac sysctls = Ok opts →
  ifaceNumberOf (Some opts) = Ok number ∧ default "" (opts !! driverOptMacAddr) = mac ∧
  opts !! driverOptLink = Some linkName.
Proof.
  intros Hn Hc. unfold createDriverOpt in Hc.
  set (base := {[ driverOptIface := Itoa number; driverOptLink := linkName ]} : labels) in *.
  assert (Hb : ∃ v, opts = (let o := match v with Some v => <[driverOptSysctls := v]> base | None => base end in
                            if negb (String.eqb mac "") then <[driverOptMacAddr := mac]> o else o)).
  { destruct (versionGTE _ _) as [[]|]; cbn in Hc; [|by injection Hc as <-; exists None|done].
    destruct (IsIPv6Enabled lab m); cbn in Hc; [|done]. injection Hc as <-. eexists (Some _). reflexivity. }
  clear Hc. destruct Hb as [v ->]. split; [|split].
  - unfold ifaceNumberOf. rewrite driver_opt_lookup by done.
    assert (E : base !! driverOptIface = Some (Itoa number)) by apply lookup_insert_eq.
    rewrite E. by apply py_int_Itoa.
  - cbn zeta. destruct (String.eqb_spec mac "") as [->|Hm]; cbn [negb].
    + assert (E : base !! driverOptMacAddr = None) by (unfold base; by simplify_map_eq).
      destruct v as [v|]; [|by rewrite E].
      etransitivity; [apply (f_equal (default "")); by apply lookup_insert_ne|exact (f_equal (default "") E)].
    + etransitivity; [apply (f_equal (default "")), lookup_insert_eq|done].
  - rewrite driver_opt_lookup by done. unfold base. by simplify_map_eq.
Qed.

#[local] Instance rec_cases : TextCases := ToLower.

Definition rec_lab : Lab unit :=
  mkLab "" "" "" "" "" "h" "" false tt DefaultDefaults (Some "l") NewOrderedMap NewOrderedMap NewOrderedMap NewOrderedMap.
Definition rec_pc : Machine := mkMachine 1%positive "pc1" newMeta None [].
Definition rec_opts (version : string) : labels :=
  match createDriverOpt version rec_lab rec_pc 10 "A" "00:00:00:00:00:01" ["net.ipv4.x=1"] with Ok o => o | Err _ => ∅ end.

Lemma endpoint_roundtrip_witness :
  ifaceNumberOf (Some (rec_opts "26.1.0")) = Ok 10 ∧
  default "" (rec_opts "26.1.0" !! driverOptMacAddr) = "00:00:00:00:00:01" ∧
  rec_opts "26.1.0" !! driverOptLink = Some "A".
Proof.
  apply (endpoint_roundtrip "26.1.0" rec_lab rec_pc 10 "A" "00:00:00:00:00:01" ["net.ipv4.x=1"]).
  - split; vm_compute; discriminate.
  - vm_compute. reflexivity.
Defined.
