(* ===== verification/DockerSim.v ===== *)
(** * The Docker backend, observed

    A client that writes down what is asked of the daemon, and a small daemon the
    closed examples run against. *)

From S2P Require Export DockerMgr Emits.
Local Open Scope string_scope.
Local Open Scope list_scope.
Local Open Scope Z_scope.
Local Open Scope kat_scope.

(** * What the Docker backend asks of the daemon

    A client that writes down every call that changes containers or networks.
    It needs nothing of the daemon: the theorems hold whatever it answers. *)

(** ** The log *)

Inductive call : Type :=
| CreateContainer (r : createRequest) | StartContainer (id : string) | RemoveContainer (id : string)
| CreateNetwork (name : string) (o : networkOptions) | RemoveNetwork (id : string)
| Connect (network container : string) | Disconnect (network container : string)
| RunIn (container : string) (o : execOptions) | CopyInto (container : string).

#[export] Instance traced {W} `{D : DockerClient W} : DockerClient (W * list call) := {
  ContainerList terms := silent (ContainerList terms);
  ContainerInspect id := silent (ContainerInspect id);
  ContainerCreate r := logged (CreateContainer r) (ContainerCreate r);
  ContainerStart id := logged (StartContainer id) (ContainerStart id);
  ContainerRemove id := logged (RemoveContainer id) (ContainerRemove id);
  NetworkList f := silent (NetworkList f);
  NetworkInspect id := silent (NetworkInspect id);
  NetworkCreate n o := logged (CreateNetwork n o) (NetworkCreate n o);
  NetworkRemove id := logged (RemoveNetwork id) (NetworkRemove id);
  NetworkConnect n c e := logged (Connect n c) (NetworkConnect n c e);
  NetworkDisconnect n c := logged (Disconnect n c) (NetworkDisconnect n c);
  ContainerExecCreate c o := logged (RunIn c o) (ContainerExecCreate c o);
  ContainerExecStart e t := silent (ContainerExecStart e t);
  ContainerExecAttach e t := silent (ContainerExecAttach e t);
  ContainerExecInspect e := silent (ContainerExecInspect e);
  CopyToContainer c p d := logged (CopyInto c) (CopyToContainer c p d);
  ImageInspect i := silent (ImageInspect i);
  DistributionInspect i := silent (DistributionInspect i);
  ImagePull i := silent (ImagePull i);
  IsNotFound := IsNotFound;
  ToHTTP := ToHTTP;
  IsErrConnectionFailed := IsErrConnectionFailed
}.

(** * A small daemon and a quiet backend

    A daemon with two containers and three networks, which logs what is asked of it. *)

(** Device [pc1] of scenario [h1] and device [pc2] of scenario [h2]; collision
    domains [A] of [h1], empty, [B] of [h1], with a container, and [C], shared. *)
Definition sim_clabels (id : string) : labels :=
  if String.eqb id "c1" then ContainerLabels "pc1" "h1" "alice" "/bin/sh" None
  else if String.eqb id "c2" then ContainerLabels "pc2" "h2" "alice" "/bin/sh" None
  else ∅.
Definition sim_nlabels (id : string) : labels :=
  if String.eqb id "n1" then NetworkLabels "A" "alice" "h1" "" Settings.NotShared
  else if String.eqb id "n2" then NetworkLabels "B" "alice" "h1" "" Settings.NotShared
  else if String.eqb id "n3" then NetworkLabels "C" "alice" "h1" "" Settings.SharedBetweenLabs
  else ∅.

Definition sim_container (id : string) : containerInspect :=
  mkInspect ("/" +:+ id) (sim_clabels id) "running" {[ "net" +:+ id := None ]} "sha256:1" "kathara/base" [] false 0 0 ∅ ∅.
Definition sim_network (id : string) : networkInspect :=
  mkNetInspect ("net" +:+ id) (sim_nlabels id) false (if String.eqb id "n2" then {[ "c1" ]} else ∅).

Definition fits (l : labels) (terms : list LabelFilter) : bool :=
  forallb (fun f => bool_decide (l !! f.(Key) = Some f.(Value))) terms.

Lemma fits_matches l terms : fits l terms = true → matches l terms.
Proof.
  unfold fits, matches. rewrite forallb_forall, Forall_forall. intros Hf f Hin.
  apply list_elem_of_In, Hf in Hin. by apply bool_decide_eq_true in Hin.
Qed.

Definition answers {W A} (a : A) : M W goerror A := sret a.

#[export] Instance sim : DockerClient unit := {
  ContainerList terms := answers (List.filter (fun id => fits (sim_clabels id) terms) ["c1"; "c2"]);
  ContainerInspect id := answers (sim_container id);
  ContainerCreate r := answers r.(rName);
  ContainerStart _ := answers tt;
  ContainerRemove _ := answers tt;
  NetworkList f :=
    match f with
    | ByLabels terms => answers ((fun id => (id, sim_network id)) <$>
                                   List.filter (fun id => fits (sim_nlabels id) terms) ["n1"; "n2"; "n3"])
    | ByName _ => answers []
    end;
  NetworkInspect id := answers (sim_network id);
  NetworkCreate name _ := answers name;
  NetworkRemove _ := answers tt;
  NetworkConnect _ _ _ := answers tt;
  NetworkDisconnect _ _ := answers tt;
  ContainerExecCreate _ _ := answers "exec";
  ContainerExecStart _ _ := answers tt;
  ContainerExecAttach _ _ := answers "";
  ContainerExecInspect _ := answers (false, 0);
  CopyToContainer _ _ _ := answers tt;
  ImageInspect _ := answers (mkImageInspect "amd64" [] []);
  DistributionInspect _ := answers (DockerApi.mkRegistry "" ["amd64"]);
  ImagePull _ := answers [];
  IsNotFound _ := false;
  ToHTTP _ := 500;
  IsErrConnectionFailed _ := false
}.

Definition sim_host : host :=
  mkHostEnv 4 (Ok "alice") (Ok "/home/alice") (Ok false) (Ok "amd64") false (fun _ _ => Ok []) (fun _ => None).

#[export] Instance sim_backend {F} : Docker.Backend (F := F) (W := unit * list call) := {
  settings := Settings.defaultSettings;
  engineVersion := "26.1.0";
  env := sim_host;
  dispatch _ := sret tt;
  preflightExternalInterfaces _ := sret tt;
  attachExternalInterfaces _ _ := sret tt;
  deleteExternalInterfaces _ _ := sret tt;
  packData _ := sret None;
  WaitUserInput := sret false
}.

Definition sim_state {F} (h : heap F) : dstate F Container Network (unit * list call) := mkD h ∅ ∅ (tt, []).
Definition sim_start : dstate unit Container Network (unit * list call) := sim_state (mkHeap ∅ ∅ ∅ 1%positive).
