(* ===== verification/DockerRun.v ===== *)
(** * Waiting for a device and reading the output of a command

    The wait for the startup commands ends within its retries; the frames of a
    command's output come apart as they were put together. *)

From S2P Require Export DockerSim.
From S2P Require VfsInv.
Local Open Scope string_scope.
Local Open Scope list_scope.
Local Open Scope Z_scope.
Local Open Scope kat_scope.

(** ** The wait *)

Section wait.
Context {F W : Type} `{D : DockerClient W} {B : Docker.Backend (F := F) (W := W)}.
Local Notation DM := (@Docker.DM F W).
Local Notation dstate := (Services.dstate F Container Network W).

(** One probe: an answer, or another turn. *)
Definition probe (c : Container) (printed : bool) : DM (option Z * bool) :=
  do* result <- try_ (api (execRun c eos_options)) in
  match result with
  | Err err => match as_binary err with Some _ => fail err | None => sret (Some startupWaitAPIError, printed) end
  | Ok result =>
      let success := match result.(ExitCode) with Some code => code =? 0 | None => false end in
      do* _ <- (if negb printed && negb success then dispatch MachineStartupWaitStarted else sret tt) in
      do* interrupted <- api WaitUserInput in
      sret (if interrupted then Some (if success then startupWaitCompleted else startupWaitInterrupted)
            else if success then Some startupWaitCompleted else None, printed || negb success)
  end.

Lemma wait_loop_unfold fuel c n retries printed (s : dstate) :
  wait_loop (S fuel) c n retries printed s =
  (do* r <- probe c printed in
   match r.1 with
   | Some a => sret (Some a)
   | None => match n with
             | Some k => if retries =? k then sret (Some startupWaitCompleted)
                         else wait_loop fuel c n (Strconv.iadd retries 1) r.2
             | None => wait_loop fuel c n retries r.2
             end
   end) s.
Proof.
  cbn [wait_loop]. unfold probe, sbind, try_, api. destruct (execRun c eos_options (d_world s)) as [w [r|err]].
  - set (success := match ExitCode r with Some code => code =? 0 | None => false end).
    destruct (if negb printed && negb success then _ else _) as [s1 [[]|e]]; [|done].
    destruct (WaitUserInput (d_world s1)) as [w1 [[]|e]]; cbn; [by destruct success|by destruct success|done].
  - by destruct (as_binary err).
Qed.

(** With retries left to spend, a loop with more turns than retries ends, and
    more turns make no difference. *)
Lemma wait_loop_ends c n fuel fuel' : ∀ retries printed s,
  0 <= retries <= n → n <= MaxInt64 → n - retries < Z.of_nat fuel → n - retries < Z.of_nat fuel' →
  (wait_loop fuel c (Some n) retries printed s : dstate * result failure (option Z)).2 ≠ Ok None ∧
  wait_loop fuel c (Some n) retries printed s = wait_loop fuel' c (Some n) retries printed s.
Proof.
  revert fuel'. induction fuel as [|fuel IH]; intros fuel' retries printed s Hr Hn Hf Hf'; [lia|].
  destruct fuel' as [|fuel']; [lia|]. rewrite !wait_loop_unfold. unfold sbind.
  destruct (probe c printed s) as [s1 [[[a|] p]|e]]; cbn [fst snd]; [done| |done].
  destruct (Z.eqb_spec retries n); [done|].
  assert (E : Strconv.iadd retries 1 = retries + 1)
    by (unfold Strconv.iadd, Strconv.wrap64, MaxInt64 in *; rewrite Z.mod_small; lia).
  rewrite E. apply IH; lia.
Qed.

(** Waiting for the startup commands of a device with a number of
    retries, of either sign, ends: after at most that many retries and one more
    probe there is an answer, whatever the daemon says, and no later probe would
    have changed it. *)
Theorem wait_bounded c (n : Z) (fuel : nat) s :
  MinInt64 < n <= MaxInt64 → Z.abs n < Z.of_nat fuel →
  (waitStartupExecution fuel c (Some n) s : dstate * result failure (option Z)).2 ≠ Ok None ∧
  waitStartupExecution fuel c (Some n) s = waitStartupExecution (S (Z.to_nat (Z.abs n))) c (Some n) s.
Proof.
  intros Hn Hf. unfold waitStartupExecution, wait_retries.
  assert (E : (if n <? 0 then Strconv.isub 0 n else n) = Z.abs n).
  { unfold Strconv.isub, Strconv.wrap64, MinInt64, MaxInt64 in *.
    change (2 ^ 63) with 9223372036854775808. change (2 ^ 64) with 18446744073709551616.
    destruct (Z.ltb_spec n 0); [rewrite Z.mod_small by lia|]; lia. }
  rewrite E. apply wait_loop_ends; unfold MinInt64, MaxInt64 in *; lia.
Qed.
End wait.

(** A daemon on which the probe never succeeds. *)
Definition stuck : DockerClient unit := {|
  ContainerList := ContainerList; ContainerInspect := ContainerInspect; ContainerCreate := ContainerCreate;
  ContainerStart := ContainerStart; ContainerRemove := ContainerRemove; NetworkList := NetworkList;
  NetworkInspect := NetworkInspect; NetworkCreate := NetworkCreate; NetworkRemove := NetworkRemove;
  NetworkConnect := NetworkConnect; NetworkDisconnect := NetworkDisconnect;
  ContainerExecCreate := ContainerExecCreate; ContainerExecStart := ContainerExecStart;
  ContainerExecAttach := ContainerExecAttach; ContainerExecInspect _ := answers (false, 1);
  CopyToContainer := CopyToContainer; ImageInspect := ImageInspect; DistributionInspect := DistributionInspect;
  ImagePull := ImagePull; IsNotFound := IsNotFound; ToHTTP := ToHTTP; IsErrConnectionFailed := IsErrConnectionFailed
|}.

Definition sim_pc1 : Container := mkContainer "c1" (sim_container "c1").

(** Three retries are four probes; when they are spent the answer is that the
    startup commands are done, although the probe never succeeded. *)
Lemma wait_bounded_witness :
  (waitStartupExecution (D := traced (D := stuck)) 9 sim_pc1 (Some (-3)) sim_start).2 = Ok (Some startupWaitCompleted) ∧
  waitStartupExecution (D := traced (D := stuck)) 9 sim_pc1 (Some (-3)) sim_start =
    waitStartupExecution (D := traced (D := stuck)) 4 sim_pc1 (Some (-3)) sim_start.
Proof.
  split; [vm_compute; reflexivity|].
  apply (wait_bounded (D := traced (D := stuck)) sim_pc1 (-3) 9 sim_start); [by split|done].
Defined.

Example exhausted_is_completed :
  let s := (waitStartupExecution (D := traced (D := stuck)) 9 sim_pc1 (Some 2) sim_start) in
  s.2 = Ok (Some startupWaitCompleted) ∧ length (snd (d_world s.1)) = 3%nat.
Proof. split; vm_compute; reflexivity. Qed.

(** ** Frames *)

(** What the daemon sends for a payload: the number of the side, three zeros,
    the length in four bytes, and the payload. *)
Definition frame_header (sd : side) (size : Z) : string :=
  bytes_string [az (match sd with Stdout => 1 | Stderr => 2 end); az 0; az 0; az 0;
                az (size / 16777216); az (size / 65536 mod 256); az (size / 256 mod 256); az (size mod 256)].

Definition frame (f : side * string) : string := frame_header f.1 (Z.of_nat (String.length f.2)) +:+ f.2.

Definition frames (fs : list (side * string)) : string := string_concat (frame <$> fs).

(** The payloads of one side, together. *)
Definition side_output (sd : side) (fs : list (side * string)) : string :=
  string_concat (snd <$> List.filter (fun f => match sd, f.1 with Stdout, Stdout | Stderr, Stderr => true | _, _ => false end) fs).

Definition payload_fits (f : side * string) : Prop := Z.of_nat (String.length f.2) < 4294967296.

Lemma big_endian z : 0 <= z < 4294967296 →
  ((z / 16777216 * 256 + z / 65536 mod 256) * 256 + z / 256 mod 256) * 256 + z mod 256 = z.
Proof.
  intros Hz. pose proof (Z.div_mod z 256 ltac:(lia)). pose proof (Z.div_mod (z / 256) 256 ltac:(lia)).
  pose proof (Z.div_mod (z / 65536) 256 ltac:(lia)).
  rewrite !Z.div_div in * by lia. change (256 * 256) with 65536 in *. change (65536 * 256) with 16777216 in *. lia.
Qed.

Lemma Next_frame f rest : payload_fits f → Next (frame f +:+ rest) = Ok (Some (f.1, f.2, rest)).
Proof.
  intros Hfit. destruct f as [sd p]. unfold payload_fits in Hfit. cbn [fst snd] in *. unfold frame, Next. cbn [fst snd].
  set (z := Z.of_nat (String.length p)) in *. assert (Hz : 0 <= z < 4294967296) by lia.
  unfold frame_header. cbn [bytes_string foldr String.append byte_at String.get string_drop].
  set (b4 := az (z / 16777216)). set (b5 := az (z / 65536 mod 256)). set (b6 := az (z / 256 mod 256)). set (b7 := az (z mod 256)).
  assert (Hb : zb b4 = z / 16777216 ∧ zb b5 = z / 65536 mod 256 ∧ zb b6 = z / 256 mod 256 ∧ zb b7 = z mod 256).
  { assert (0 <= z / 16777216 < 256) by (split; [apply Z.div_pos; lia|apply Z.div_lt_upper_bound; lia]).
    repeat split; apply zb_az; try done; apply Z.mod_pos_bound; lia. }
  clearbody b4 b5 b6 b7. destruct Hb as (H4 & H5 & H6 & H7).
  replace (String.length _ <? 8)%nat with false by (symmetry; apply Nat.ltb_ge; cbn; lia).
  rewrite H4, H5, H6, H7, big_endian by done. unfold z. rewrite !Nat2Z.id.
  replace (String.length (p +:+ rest) <? String.length p)%nat with false
    by (symmetry; apply Nat.ltb_ge; rewrite string_length_app; lia).
  rewrite string_take_app, string_drop_length_app. destruct sd; reflexivity.
Qed.

Lemma frame_length f : (8 <= String.length (frame f))%nat.
Proof. unfold frame, frame_header. rewrite string_length_app. cbn. lia. Qed.

Lemma frames_length fs : (length fs <= String.length (frames fs))%nat.
Proof.
  induction fs as [|f fs IH]; [done|]. unfold frames in *. rewrite fmap_cons. cbn [string_concat length].
  rewrite string_length_app. pose proof (frame_length f). lia.
Qed.

Lemma Next_tail tail : (String.length tail < 8)%nat → Next tail = Ok None.
Proof. intros Ht. unfold Next. by rewrite (proj2 (Nat.ltb_lt _ _) Ht). Qed.

Lemma read_frames_spec fs tail : Forall payload_fits fs → (String.length tail < 8)%nat → ∀ fuel out err,
  (length fs < fuel)%nat →
  read_frames fuel (frames fs +:+ tail) out err = Ok (out +:+ side_output Stdout fs, err +:+ side_output Stderr fs).
Proof.
  intros Hfs Ht. induction Hfs as [|f fs Hf _ IH]; intros [|fuel] out err Hfuel; cbn [length] in Hfuel; [lia| |lia|].
  - cbn [read_frames]. rewrite Next_tail by done. cbn. by rewrite !string_app_nil_r.
  - cbn [read_frames]. unfold frames. cbn [fmap list_fmap]. change (string_concat (frame f :: ?l)) with (frame f +:+ string_concat l).
    rewrite string_app_assoc, Next_frame by done. cbn [rbind]. destruct f as [[] p]; cbn [fst snd];
      rewrite IH by lia; unfold side_output; cbn [List.filter fst fmap list_fmap snd];
      by rewrite string_app_assoc.
Qed.

(** However a command's output is cut into frames of the two sides,
    and wherever the stream stops inside a header, reading it gives what was
    written to each side, in order, and nothing else. *)
Theorem ReadAll_frames fs tail :
  Forall payload_fits fs → (String.length tail < 8)%nat →
  ReadAll false (frames fs +:+ tail) = Ok (side_output Stdout fs, side_output Stderr fs).
Proof.
  intros Hfs Ht. unfold ReadAll. rewrite (read_frames_spec fs tail Hfs Ht); [done|].
  rewrite string_length_app. pose proof (frames_length fs). lia.
Qed.

Lemma ReadAll_frames_witness :
  ReadAll false (frames [(Stdout, "one "); (Stderr, "oops"); (Stdout, "two")] +:+ "cut") = Ok ("one two", "oops").
Proof.
  apply (ReadAll_frames [(Stdout, "one "); (Stderr, "oops"); (Stdout, "two")] "cut").
  - repeat constructor.
  - cbn. lia.
Defined.
