(* ===== verification/DockerInv.v ===== *)
(** * What the Docker backend changes

    Undeploying removes the containers and networks of the scenario it is given
    and nothing else; deploying removes nothing, and runs a container privileged
    only for an administrator of the local daemon; waiting for the startup
    commands ends; and the collision domains deployed are those the devices are on. *)

From S2P Require Export LabInv DockerSim.
Local Open Scope string_scope.
Local Open Scope list_scope.
Local Open Scope Z_scope.
Local Open Scope kat_scope.

(** A daemon that lists what carries the labels asked for, and whose containers
    and networks keep the labels they were made with. *)
Class DaemonLabels {W} `{DockerClient W} (clabels nlabels : string → labels) : Prop := {
  listed_c terms w w' ids id : ContainerList terms w = (w', Ok ids) → id ∈ ids → matches (clabels id) terms;
  inspected_c id w w' i : ContainerInspect id w = (w', Ok i) → i.(ciLabels) = clabels id;
  listed_n terms w w' ns id n : NetworkList (ByLabels terms) w = (w', Ok ns) → (id, n) ∈ ns → matches (nlabels id) terms;
  inspected_n id w w' i : NetworkInspect id w = (w', Ok i) → i.(niLabels) = nlabels id
}.

Ltac open_calls :=
  cbn [ContainerList ContainerInspect ContainerCreate ContainerStart ContainerRemove NetworkList NetworkInspect
       NetworkCreate NetworkRemove NetworkConnect NetworkDisconnect ContainerExecCreate ContainerExecStart
       ContainerExecAttach ContainerExecInspect CopyToContainer ImageInspect DistributionInspect ImagePull
       IsNotFound ToHTTP IsErrConnectionFailed traced].

(** ** Calls of the client *)
Section world.
Context {W : Type} `{D : DockerClient W}.
Local Notation wlog := (snd : W * list call → list call).

Lemma emits_or_binary {A} P c (m : M (W * list call) goerror A) (Q : A → Prop) :
  emits wlog P m Q → emits wlog P (or_binary c m) Q.
Proof.
  intros Hm s. destruct (Hm s) as (l & Hl & HP & HQ). exists l. unfold or_binary.
  destruct (m s) as [s' [a|e]]; cbn in *; naive_solver.
Qed.

(** A command is one call on its container, whatever comes of it. *)
Lemma emits_execRun (P : call → Prop) c opts :
  P (RunIn c.(ContainerID) (mkExecOptions opts.(xCmd) opts.(xStdout) opts.(xStderr) opts.(xStdin) opts.(xTty)
      opts.(xPrivileged))) →
  emits wlog P (execRun c opts) (fun _ => True).
Proof.
  intros HP. unfold execRun. open_calls.
  apply emits_seq; [by apply emits_logged|]. intros created. destruct (xDetach opts).
  - apply emits_seq; [by apply emits_or_binary, emits_silent|]. intros _.
    apply emits_seq; [by apply emits_silent|]. intros i. by apply emits_ret.
  - apply emits_seq; [by apply emits_or_binary, emits_silent|]. intros attached. destruct (xStream opts).
    + apply emits_seq; [by apply emits_silent|]. intros i. by apply emits_ret.
    + apply emits_seq; [by apply emits_lift|]. intros out. apply emits_seq; [by apply emits_silent|]. intros i.
      destruct (match execExitCode i with Some _ => _ | None => _ end); [apply emits_throw|by apply emits_ret].
Qed.

Context (clabels nlabels : string → labels) `{!DaemonLabels clabels nlabels}.

Definition own_container (terms : list LabelFilter) (c : Container) : Prop :=
  c.(cAttrs).(ciLabels) = clabels c.(ContainerID) ∧ matches (clabels c.(ContainerID)) terms.
Definition own_network (terms : list LabelFilter) (n : Network) : Prop :=
  n.(nAttrs).(niLabels) = nlabels n.(NetworkID) ∧ matches (nlabels n.(NetworkID)) terms.
Definition seen_empty (id : string) : Prop :=
  ∃ w w' i, NetworkInspect id w = (w', Ok i) ∧ niContainers i = ∅.

Lemma inspect_containers_own (P : call → Prop) terms ids :
  (∀ id, id ∈ ids → matches (clabels id) terms) →
  emits wlog P (inspect_containers ids) (Forall (own_container terms)).
Proof using All.
  induction ids as [|id ids IH]; intros Hids; cbn [inspect_containers]; [by apply emits_ret|].
  specialize (IH ltac:(set_solver)). intros s. open_calls. unfold silent.
  destruct (ContainerInspect id s.1) as [w [i|err]] eqn:Ei; cbn.
  - apply inspected_c in Ei.
    assert (Hc : own_container terms (mkContainer id i)) by (split; [done|apply Hids; set_solver]).
    apply (emits_bind _ P _ _ (Forall (own_container terms)) (Forall (own_container terms)) IH
             (fun cs Hcs => emits_ret _ _ _ _ (Forall_cons_2 _ _ _ Hc Hcs)) (w, s.2)).
  - destruct (IsNotFound err); cbn.
    + destruct (IH (w, s.2)) as (l & Hl & HP & HQ). cbn in *. by exists l.
    + exists []. rewrite app_nil_r. naive_solver.
Qed.

Lemma listContainers_own (P : call → Prop) terms :
  emits wlog P (listContainers terms) (Forall (own_container terms)).
Proof using All.
  unfold listContainers. open_calls.
  eapply (emits_bind _ _ _ _ (fun ids => ∀ id, id ∈ ids → matches (clabels id) terms)).
  - apply emits_silent. intros w ids Hids id. destruct (ContainerList terms w) as [w' r] eqn:E. cbn in Hids. subst r.
    by eapply listed_c.
  - intros ids Hids. by apply inspect_containers_own.
Qed.

Lemma inspect_network (P : call → Prop) id terms : matches (nlabels id) terms →
  emits wlog P (NetworkInspect id)
    (fun i => own_network terms (mkNetwork id i) ∧ (niContainers i = ∅ → seen_empty id)).
Proof using All.
  intros Hm. open_calls. apply emits_silent. intros w i Hi. destruct (NetworkInspect id w) as [w' r] eqn:E. cbn in Hi.
  subst r. split; [split; [by eapply inspected_n|done]|]. intros Hi. by exists w, w', i.
Qed.

Lemma listNetworks_own (P : call → Prop) terms :
  emits wlog P (listNetworks terms) (Forall (own_network terms)).
Proof using All.
  unfold listNetworks.
  eapply (emits_bind _ _ _ _ (fun ns => ∀ id n, (id, n) ∈ ns → matches (nlabels id) terms)).
  { open_calls. apply emits_silent. intros w ns Hns id n. destruct (NetworkList (ByLabels terms) w) as [w' r] eqn:E.
    cbn in Hns. subst r. by eapply listed_n. }
  intros ns. induction ns as [|[id n] ns IH]; intros Hns; cbn [inspect_networks]; [by apply emits_ret|].
  eapply emits_bind; [apply inspect_network, (Hns id n); set_solver|]. intros i [Hi _].
  eapply emits_bind; [apply IH; set_solver|]. intros rest Hrest. apply emits_ret. by constructor.
Qed.
End world.

(** One call of the daemon that logs, or that does not. *)
Ltac one_call :=
  open_calls; first [apply emits_logged | apply emits_silent]; [try done ..].

(** ** Programs of the backend *)

Section backend.
Context {F : Type}.
Context {W : Type} `{D : DockerClient W} {B : Docker.Backend (F := F) (W := W * list call)}.
Local Notation dstate := (Services.dstate F Container Network (W * list call)).
Local Notation DM := (@Docker.DM F (W * list call)).

(** The subscribers, and the programs of the host, make no call of the daemon. *)
Class QuietBackend : Prop := {
  quiet_dispatch n : emits dlog (fun _ => False) (dispatch n) (fun _ => True);
  quiet_preflight es : emits snd (fun _ => False) (preflightExternalInterfaces es) (fun _ => True);
  quiet_attach es n : emits snd (fun _ => False) (attachExternalInterfaces es n) (fun _ => True);
  quiet_delete e n : emits snd (fun _ => False) (deleteExternalInterfaces e n) (fun _ => True);
  quiet_pack m : emits dlog (fun _ => False) (packData m) (fun _ => True)
}.

Lemma emits_runChunked {A} P (items : list A) name (task : A → DM unit) :
  (∀ x, emits dlog P (name x) (fun _ => True)) → (∀ x, x ∈ items → emits dlog P (task x) (fun _ => True)) →
  emits dlog P (runChunked items name task) (fun _ => True).
Proof. apply emits_runBatches. Qed.
End backend.

(** ** Undeploying *)

Section undeploy.
Context {F : Type}.
Context {W : Type} `{D : DockerClient W} {B : Docker.Backend (F := F) (W := W * list call)} `{!QuietBackend}.
Context (clabels nlabels : string → labels) `{!DaemonLabels clabels nlabels}.
Local Notation DM := (@Docker.DM F (W * list call)).

(** The name of an object is one of a set, or not one of it. *)
Definition named (l : labels) (selected excluded : NameSet) : Prop :=
  let name := default "" (l !! labelName) in
  match selected, excluded with
  | Some _, _ => set_has selected name = true
  | None, Some _ => set_has excluded name = false
  | None, None => True
  end.

(** The shutdown command of a container: the shell it is labelled with runs the
    shutdown commands rendered for the device it is labelled with. *)
Definition shuts_down (l : labels) (o : execOptions) : Prop :=
  o = mkExecOptions [default "" (l !! labelShell); "-c"; renderShutdownCommands (default "" (l !! labelName))]
        true false false false true.

(** What undeploying a scenario of a user may call: the shutdown command and the
    removal of a container of that user and scenario, and the removal of a
    network of the scenario that was seen to have no container. *)
Definition undeploys (user labHash : string) (opts : UndeployLabOptions) (c : call) : Prop :=
  let goes id := matches (clabels id) (ObjectFilters user labHash "") ∧
                 named (clabels id) opts.(uSelectedMachines) opts.(uExcludedMachines) in
  match c with
  | RunIn id o => goes id ∧ shuts_down (clabels id) o
  | RemoveContainer id => goes id
  | RemoveNetwork id =>
      matches (nlabels id) (ObjectFilters "" labHash "") ∧ named (nlabels id) opts.(uSelectedLinks) None ∧ seen_empty id
  | _ => False
  end.

Lemma emits_dispatch P n : emits dlog P (dispatch n : DM unit) (fun _ => True).
Proof using All. apply emits_quiet, quiet_dispatch. Qed.

Lemma emits_imageLabel P c : emits dlog P (imageLabel c : DM string) (fun _ => True).
Proof using All.
  unfold imageLabel, imageTags. apply emits_seq; [|intros tags; by apply emits_ret].
  destruct (String.eqb _ ""); [by apply emits_ret|]. apply emits_seq; [|intros r; by apply emits_ret].
  eapply emits_any, (emits_try _ _ (fun _ => True)), emits_api. by one_call.
Qed.

Lemma deleteMachine_emits (P : call → Prop) c :
  c.(cAttrs).(ciLabels) = clabels c.(ContainerID) →
  (∀ o, shuts_down (clabels c.(ContainerID)) o → P (RunIn c.(ContainerID) o)) → P (RemoveContainer c.(ContainerID)) →
  emits dlog P (undeployMachine c : DM unit) (fun _ => True).
Proof using All.
  intros Hl Hrun Hrem. unfold undeployMachine, deleteMachine.
  apply emits_seq; [|intros _; apply emits_dispatch].
  apply emits_seq; [|intros _; by apply emits_api; one_call].
  destruct (String.eqb _ _); [|by apply emits_ret].
  eapply emits_bind; [eapply emits_try, emits_api, emits_execRun, Hrun; unfold shuts_down, Container_Label; by rewrite <- Hl|]. intros [r|err] _; [by apply emits_ret|].
  destruct (as_binary err); [|apply emits_throw].
  apply emits_seq; [apply emits_imageLabel|]. intros _. by apply emits_ret.
Qed.

Lemma chosen_named terms selected excluded cs :
  Forall (own_container clabels terms) cs → ∀ c, c ∈ undeploy_chosen selected excluded cs →
  own_container clabels terms c ∧ named (clabels c.(ContainerID)) selected excluded.
Proof using All.
  intros Hcs c Hc. rewrite Forall_forall in Hcs. unfold named.
  assert (Hin : c ∈ cs ∧ match selected, excluded with
      | Some _, _ => set_has selected (Container_Label c labelName) = true
      | None, Some _ => set_has excluded (Container_Label c labelName) = false | None, None => True end).
  { unfold undeploy_chosen, filterContainers in Hc.
    destruct selected, excluded; rewrite ?list_elem_of_In, ?filter_In in Hc; rewrite ?list_elem_of_In; try tauto.
    destruct Hc as [? Hc]. split; [done|]. by apply negb_true_iff in Hc. }
  destruct Hin as [Hin Hn]. destruct (Hcs _ Hin) as [Hl Hm]. unfold Container_Label in Hn. rewrite Hl in Hn. done.
Qed.

Lemma Machine_Undeploy_emits user labHash opts :
  env.(GetCurrentUserName) = Ok user →
  emits dlog (undeploys user labHash opts)
    (Machine_Undeploy labHash opts.(uSelectedMachines) opts.(uExcludedMachines) : DM unit) (fun _ => True).
Proof using All.
  intros Huser. unfold Machine_Undeploy.
  destruct opts as [sel exc lk]; cbn [uSelectedMachines uExcludedMachines].
  destruct sel as [sel|], exc as [exc|]; try apply emits_throw;
    (eapply (emits_bind _ _ _ _ (fun u => u = user)); [apply emits_dgo; intros a; rewrite Huser; by intros [= <-]|];
     intros _ ->;
     eapply emits_bind; [apply emits_api, (listContainers_own clabels nlabels)|]; intros cs Hcs;
     case_bool_decide; [by apply emits_ret|];
     apply emits_seq; [apply emits_dispatch|]; intros _;
     apply emits_seq; [|intros _; apply emits_dispatch];
     apply emits_runChunked; [intros x; by apply emits_ret|]; intros c Hc;
     destruct (chosen_named _ _ _ _ Hcs c Hc) as [[Hl Hm] Hn];
     apply deleteMachine_emits; [done|intros o Ho; repeat split; done|done]).
Qed.

Lemma reload_networks_emits (P : call → Prop) (K : string → Prop) ns :
  Forall (fun n => matches (nlabels n.(NetworkID)) [] ∧ K n.(NetworkID)) ns →
  emits dlog P (reload_networks ns : DM (list Network))
    (Forall (fun n => K n.(NetworkID) ∧ (niContainers n.(nAttrs) = ∅ → seen_empty n.(NetworkID)))).
Proof using All.
  induction ns as [|n ns IH]; intros Hns; cbn [reload_networks]; [by apply emits_ret|].
  apply Forall_cons in Hns as [[Hm HK] Hns].
  eapply (emits_bind _ _ _ _ (fun n => K n.(NetworkID) ∧ (niContainers n.(nAttrs) = ∅ → (seen_empty n.(NetworkID))))).
  { apply emits_api. unfold reloadNetwork. eapply emits_bind; [by apply (inspect_network clabels nlabels)|].
    intros i [_ Hi]. by apply emits_ret. }
  intros m Hm'. eapply emits_bind; [by apply IH|]. intros rest Hrest. apply emits_ret. by constructor.
Qed.

Lemma reloadAndKeepEmpty_emits (P : call → Prop) (K : string → Prop) ns :
  Forall (fun n => K n.(NetworkID)) ns →
  emits dlog P (reloadAndKeepEmpty ns : DM (list Network)) (Forall (fun n => K n.(NetworkID) ∧ seen_empty n.(NetworkID))).
Proof using All.
  intros HK. unfold reloadAndKeepEmpty. eapply emits_bind.
  { apply (reload_networks_emits _ K). eapply Forall_impl; [exact HK|]. intros n Hn. split; [by constructor|done]. }
  intros l Hl. apply emits_ret. rewrite Forall_forall in Hl |- *. intros n Hn.
  rewrite list_elem_of_In, filter_In, <- list_elem_of_In in Hn. destruct Hn as [Hin Hz]. destruct (Hl _ Hin) as [HKn He].
  split; [done|]. apply He, leibniz_equiv, size_empty_inv. unfold ContainerCount in Hz. bool_prop. lia.
Qed.

Lemma Link_Undeploy_emits user labHash opts :
  emits dlog (undeploys user labHash opts) (Link_Undeploy labHash opts.(uSelectedLinks) : DM unit) (fun _ => True).
Proof using All.
  unfold Link_Undeploy. eapply emits_bind; [apply emits_api, (listNetworks_own clabels nlabels)|]. intros ns Hns.
  set (chosen := match uSelectedLinks opts with Some _ => _ | None => ns end).
  assert (Hch : Forall (fun n => own_network nlabels (ObjectFilters "" labHash "") n ∧
                                 named (nlabels n.(NetworkID)) (uSelectedLinks opts) None) chosen).
  { rewrite Forall_forall in Hns |- *. intros n Hn. subst chosen. unfold named.
    destruct (uSelectedLinks opts) as [sel|] eqn:E; [|by split; [apply Hns|]].
    rewrite list_elem_of_In, filter_In, <- list_elem_of_In in Hn. destruct Hn as [Hin Hs].
    destruct (Hns _ Hin) as [Hl Hm]. split; [done|]. unfold Network_Label in Hs. by rewrite Hl in Hs. }
  clearbody chosen.
  eapply (emits_bind _ _ _ _ (Forall (fun n => (matches (nlabels n.(NetworkID)) (ObjectFilters "" labHash "") ∧
            named (nlabels n.(NetworkID)) (uSelectedLinks opts) None) ∧ seen_empty n.(NetworkID)))).
  { apply (reloadAndKeepEmpty_emits _ (fun id => matches (nlabels id) (ObjectFilters "" labHash "") ∧
             named (nlabels id) (uSelectedLinks opts) None)).
    eapply Forall_impl; [exact Hch|]. intros n [[_ Hm] Hn]. done. }
  - intros es Hes. case_bool_decide; [by apply emits_ret|].
    apply emits_seq; [apply emits_dispatch|]. intros _. apply emits_seq; [|intros _; apply emits_dispatch].
    apply emits_runChunked; [intros x; by apply emits_ret|]. intros n Hn. rewrite Forall_forall in Hes.
    destruct (Hes n Hn) as [[Hm Hn'] He]. unfold undeployLink, deleteLink.
    apply emits_seq; [|intros _; apply emits_dispatch].
    apply emits_seq; [|intros _; by apply emits_api; one_call].
    destruct (negb _); [|by apply emits_ret]. apply emits_api, emits_quiet, quiet_delete.
Qed.

(** C4: Whatever happens while a scenario is undeployed, the calls it
    makes that change the daemon are the shutdown commands (rendered for the device,
    under the shell it is labelled with, privileged) in, and the removals of, containers of the current user and of that scenario among the devices asked
    for, and removals of networks of that scenario, among the collision domains
    asked for, that were inspected and had no container: no network shared between
    scenarios goes, and no container of another user or scenario is touched. *)
Theorem UndeployLab_only_its_own user ref opts s s1 labHash :
  env.(GetCurrentUserName) = Ok user →
  (resolveRequired ref : DM string) s = (s1, Ok labHash) →
  ∃ l, dlog (UndeployLab ref opts s).1 = dlog s ++ l ∧ Forall (undeploys user labHash opts) l.
Proof using All.
  intros Huser Hres.
  assert (Hs1 : s1 = s).
  { revert Hres. unfold resolveRequired, resolveHash, sbind, dgo. destruct (RequireSingle ref) as [[]|]; cbn; [|discriminate].
    destruct (refLab ref); cbn; [|by intros [= <- _]]. unfold lab_of, hp, getLab, deref.
    destruct (hLabs (d_heap s) !! l); cbn; [|discriminate]. destruct s. by intros [= <- _]. }
  subst s1. unfold UndeployLab, sbind at 1. rewrite Hres.
  assert (He : emits dlog (undeploys user labHash opts)
    (if (0 <? set_len opts.(uSelectedMachines)) && (0 <? set_len opts.(uExcludedMachines)) then fail ErrSelectOrExcludeDevices
     else do* _ <- Machine_Undeploy labHash opts.(uSelectedMachines) opts.(uExcludedMachines) in
          Link_Undeploy labHash opts.(uSelectedLinks) : DM unit) (fun _ => True)).
  { destruct (_ && _); [apply emits_throw|]. apply emits_seq; [by apply Machine_Undeploy_emits|].
    intros _. apply Link_Undeploy_emits. }
  destruct (He s) as (l & Hl & HP & _). by exists l.
Qed.
End undeploy.

#[export] Instance sim_labels : DaemonLabels sim_clabels sim_nlabels.
Proof.
  split.
  - intros terms w w' ids id Hl. assert (E : ids = List.filter (fun id => fits (sim_clabels id) terms) ["c1"; "c2"])
      by (unfold ContainerList, sim, answers, sret in Hl; congruence). clear Hl. subst ids.
    rewrite list_elem_of_In, filter_In. intros [_ Hf]. by apply fits_matches.
  - by intros id w w' i [= <- <-].
  - intros terms w w' ns id n Hl.
    assert (E : ns = (fun id => (id, sim_network id)) <$> List.filter (fun id => fits (sim_nlabels id) terms) ["n1"; "n2"; "n3"])
      by (unfold NetworkList, sim, answers, sret in Hl; congruence). clear Hl. subst ns.
    rewrite list_elem_of_fmap. intros (x & Ex & Hx). injection Ex as -> _. revert Hx.
    rewrite list_elem_of_In, filter_In. intros [_ Hf]. by apply fits_matches.
  - by intros id w w' i [= <- <-].
Qed.

#[export] Instance sim_quiet {F} : QuietBackend (F := F).
Proof. split; intros; by apply emits_ret. Qed.

(** Of the containers and networks of the small daemon, undeploying the scenario
    [h1] touches those of [h1] without a container on them. *)
Lemma UndeployLab_only_its_own_witness :
  ∃ l, dlog (UndeployLab (mkLabRef "h1" "" None) (mkUndeployOptions None None None) sim_start).1 = l ∧
    Forall (undeploys sim_clabels sim_nlabels "alice" "h1" (mkUndeployOptions None None None)) l ∧
    l = [RunIn "c1" (mkExecOptions ["/bin/sh"; "-c"; renderShutdownCommands "pc1"] true false false false true);
         RemoveContainer "c1"; RemoveNetwork "n1"].
Proof.
  destruct (UndeployLab_only_its_own sim_clabels sim_nlabels "alice" (mkLabRef "h1" "" None)
              (mkUndeployOptions None None None) sim_start sim_start "h1") as (l & Hl & HP); [reflexivity|reflexivity|].
  exists l. split; [exact Hl|]. split; [exact HP|]. transitivity (dlog sim_start ++ l); [reflexivity|].
  rewrite <- Hl. vm_compute. reflexivity.
Defined.

(** * Deploying removes nothing

    The calls of a deployment, step by step: what it creates carries the labels
    it is found by again, a container is privileged only for an administrator of
    the local daemon, and nothing is removed or detached. *)

Section adds.
Context {F : Type} (fsys : FileSystem F) `{TextCases} (cwd : option string).
Context {W : Type} `{D : DockerClient W} {B : Docker.Backend (F := F) (W := W * list call)} `{!QuietBackend}.
Local Notation DM := (@Docker.DM F (W * list call)).

(** The labels a listing asks for. *)
Definition labelled (l : labels) (name : string) (user labHash : option string) : Prop :=
  l !! labelApp = Some labelAppValue ∧ l !! labelName = Some name ∧ l !! labelUser = user ∧ l !! labelLabHash = labHash.

Definition adds (c : call) : Prop :=
  match c with
  | RemoveContainer _ | RemoveNetwork _ | Disconnect _ _ => False
  | CreateContainer r =>
      (∃ user name labHash, env.(GetCurrentUserName) = Ok user ∧
        r.(rName) = ContainerName settings.(Settings.sDevicePrefix) user name labHash ∧
        labelled r.(rConfig).(cLabels) name (Some user) (Some labHash)) ∧
      (r.(rHostConfig).(hPrivileged) = true → env.(IsAdmin) = Ok true ∧ settings.(Settings.sRemoteURL) = None)
  | CreateNetwork n o =>
      let shared := settings.(Settings.sSharedCds) in
      ∃ user name labHash, (shared ≠ Settings.SharedBetweenUsers → env.(GetCurrentUserName) = Ok user) ∧
        n = NetworkName settings.(Settings.sNetPrefix) user name labHash shared ∧
        labelled o.(nLabels) name (if decide (shared = Settings.SharedBetweenUsers) then None else Some user)
          (if decide (shared = Settings.NotShared) then Some labHash else None)
  | RunIn _ o => o.(ExecPrivileged) = false
  | _ => True
  end.

Local Notation calm m := (emits dlog adds (m : DM _) (fun _ => True)).

Lemma calm_dispatch n : calm (dispatch n).
Proof using All. apply emits_quiet, quiet_dispatch. Qed.

Lemma calm_dgo {A} (r : result goerror A) : calm (dgo r).
Proof using All. by apply emits_dgo. Qed.

Lemma calm_try {A} (m : DM A) : calm m → calm (try_ m).
Proof using All. intros Hm. eapply emits_any, emits_try, Hm. Qed.

Lemma calm_api {A} (m : M (W * list call) goerror A) : emits snd adds m (fun _ => True) → calm (api m).
Proof using All. apply emits_api. Qed.

Lemma calm_list_n terms : emits snd adds (listNetworks terms) (fun _ => True).
Proof using All.
  unfold listNetworks. apply emits_seq; [by one_call|]. intros l. induction l as [|[id n] l IH]; cbn [inspect_networks]; [by apply emits_ret|].
  apply emits_seq; [by one_call|]. intros i. apply emits_seq; [apply IH|]. intros r. by apply emits_ret.
Qed.

Lemma calm_list_c terms : emits snd adds (listContainers terms) (fun _ => True).
Proof using All.
  unfold listContainers. apply emits_seq; [by one_call|]. intros l. induction l as [|id l IH]; cbn [inspect_containers]; [by apply emits_ret|].
  intros s. open_calls. unfold silent. destruct (ContainerInspect id s.1) as [w [i|err]] eqn:Ei; cbn.
  - assert (Hb : emits snd adds (do* cs <- inspect_containers l in sret (mkContainer id i :: cs)) (fun _ => True))
      by (apply emits_seq; [apply IH|]; intros r; by apply emits_ret). apply (Hb (w, s.2)).
  - destruct (IsNotFound err); cbn; [apply (IH (w, s.2))|]. exists []. rewrite app_nil_r. naive_solver.
Qed.

Lemma calm_execRun c opts : opts.(xPrivileged) = false → emits snd adds (execRun c opts) (fun _ => True).
Proof using All. intros Hp. by apply emits_execRun. Qed.

Lemma calm_preflight es : emits snd adds (preflightExternalInterfaces es) (fun _ => True).
Proof using All. apply emits_quiet, quiet_preflight. Qed.
Lemma calm_attach es n : emits snd adds (attachExternalInterfaces es n) (fun _ => True).
Proof using All. apply emits_quiet, quiet_attach. Qed.
Lemma calm_pack m : calm (packData m).
Proof using All. apply emits_quiet, quiet_pack. Qed.

Lemma calm_pure {A} (m : DM A) : (∀ s, d_world (m s).1 = d_world s) → calm m.
Proof using All. apply emits_pure. Qed.

(** Through a program: reads and writes of the scenario, failures, branches; a
    call that must satisfy [adds] is left to show. *)
Ltac calm_step :=
  first
  [ apply emits_throw | by apply emits_ret | apply emits_hp | apply calm_dispatch | apply calm_dgo | apply calm_try
  | apply calm_pack | apply calm_preflight | apply calm_attach
  | by apply calm_pure | apply calm_list_n | apply calm_list_c | by apply calm_execRun
  | apply calm_api | by one_call
  | apply emits_seq; [|intros ?]
  | match goal with |- emits _ _ (match ?x with _ => _ end) _ => destruct x eqn:? end ].
Ltac calm := repeat calm_step.

(** *** Collision domains *)

Lemma NetworkLabels_labelled l u h e sh :
  labelled (NetworkLabels l u h e sh) l (if decide (sh = Settings.SharedBetweenUsers) then None else Some u)
    (if decide (sh = Settings.NotShared) then Some h else None).
Proof.
  unfold NetworkLabels. destruct (Z.eqb_spec sh Settings.SharedBetweenUsers), (Z.eqb_spec sh Settings.NotShared), (decide _), (decide _);
    try done; repeat split; by simplify_map_eq.
Qed.

Lemma Create_calm link : calm (Create link).
Proof using All.
  unfold Create, getLinksByFilters, lab_of. apply emits_seq; [unfold link_of; calm|]. intros k.
  destruct (String.eqb _ _); [by apply emits_ret|].
  eapply (emits_bind _ _ _ _ (fun user => Settings.sSharedCds settings ≠ Settings.SharedBetweenUsers → env.(GetCurrentUserName) = Ok user)).
  { destruct (Z.eqb_spec (Settings.sSharedCds settings) Settings.SharedBetweenUsers); cbn [negb]; [by apply emits_ret|].
    apply emits_dgo. by intros u ->. }
  intros user Huser. apply emits_seq; [calm|]. intros b. apply emits_seq; [calm|]. intros ns.
  destruct (List.last _ _); [by unfold set_network, smodify; apply emits_pure|].
  apply emits_seq; [calm|]. intros _. apply emits_seq; [calm|]. intros arch. apply emits_seq.
  - apply calm_api. open_calls. apply emits_logged; [|done]. exists user, (lName k), (LabHash b).
    split; [done|]. split; [done|]. apply NetworkLabels_labelled.
  - intros created. unfold set_network, smodify. calm.
Qed.

Lemma keep_named_calm {A} (name : A → DM string) keep l : (∀ x, calm (name x)) → calm (keep_named name keep l).
Proof using All.
  intros Hn. induction l as [|x l IH]; cbn [keep_named]; [by apply emits_ret|].
  apply emits_seq; [apply Hn|]. intros n. apply emits_seq; [apply IH|]. intros r. by apply emits_ret.
Qed.

Lemma filter_named_calm {A} (name : A → DM string) l s e : (∀ x, calm (name x)) → calm (filter_named name l s e).
Proof using All.
  intros Hn. unfold filter_named. destruct (0 <? set_len s); [by apply keep_named_calm|].
  destruct (0 <? set_len e); [by apply keep_named_calm|by apply emits_ret].
Qed.

Lemma item_names_calm : (∀ l, calm (machineItemName l)) ∧ (∀ l, calm (linkItemName l)).
Proof using All. split; intros l; unfold machineItemName, linkItemName, machine_of, link_of; calm. Qed.

Lemma DeployLinks_calm lab s e : calm (DeployLinks lab s e).
Proof using All.
  unfold DeployLinks, filterLinks, lab_of. destruct (_ && _); [apply emits_throw|].
  apply emits_seq; [apply emits_hp|]. intros b. apply emits_seq; [apply filter_named_calm, item_names_calm|]. intros links.
  apply emits_seq.
  { destruct (bool_decide _); [by apply emits_ret|]. apply emits_seq; [apply calm_dispatch|]. intros _.
    apply emits_seq; [|intros _; apply calm_dispatch]. apply emits_runChunked; [apply item_names_calm|].
    intros l _. unfold deployLink, link_of. apply emits_seq; [apply emits_hp|]. intros k.
    destruct (String.eqb _ _); [by apply emits_ret|]. apply emits_seq; [apply Create_calm|]. intros _. apply calm_dispatch. }
  intros _. unfold DockerBridge, set_network, smodify. calm.
Qed.

(** *** Images *)

Lemma checkAndPull_calm image pull : calm (checkAndPull image pull).
Proof using All. unfold checkAndPull, CheckForUpdates, Pull. calm. apply emits_for. intros line _. calm. Qed.

(** *** Devices *)

Lemma prepare_metas_calm machine : calm (prepare_metas cwd machine).
Proof using All.
  unfold prepare_metas, machine_of, lab_of, networkOf, update_meta, machine_of. calm.
Qed.

Lemma ContainerLabels_labelled n h u sh b : labelled (ContainerLabels n h u sh b) n (Some u) (Some h).
Proof. unfold ContainerLabels. destruct b; repeat split; by simplify_map_eq. Qed.

(** What the payload of a container keeps of what it is made from. *)
Lemma createArgs_keeps name image hostname privileged net e envs sys mem cpu b x bs mp ls ul en ar :
  let r := createArgs name image hostname privileged net e envs sys mem cpu b x bs mp ls ul en ar in
  r.(rName) = name ∧ r.(rConfig).(cLabels) = ls ∧ r.(rHostConfig).(hPrivileged) = privileged.
Proof. done. Qed.

Lemma Machine_Create_calm machine : calm (Machine_Create cwd machine).
Proof using All.
  unfold Machine_Create, getMachinesByFilters.
  eapply (emits_bind _ _ _ _ (fun u => env.(GetCurrentUserName) = Ok u)); [by apply emits_dgo|]. intros user Huser.
  unfold machine_of, lab_of. do 3 (apply emits_seq; [calm|]; intros ?). destruct (bool_decide _); [|apply emits_throw].
  do 2 (apply emits_seq; [calm|]; intros ?). apply emits_seq; [apply prepare_metas_calm|]. intros first.
  do 4 (apply emits_seq; [calm|]; intros ?).
  eapply (emits_bind _ _ _ _ (fun a => env.(IsAdmin) = Ok a)); [by apply emits_dgo|]. intros admin Hadmin.
  destruct (IsPrivileged _ _ && negb admin) eqn:Hp; [apply emits_throw|].
  apply emits_seq; [unfold first_endpoint, link_of; calm|]. intros endpoint.
  apply emits_seq; [calm|]. intros entry.
  apply emits_seq.
  { apply calm_api. open_calls. apply emits_logged; [|done]. cbn [adds].
    match goal with |- context [createArgs ?a ?b ?c ?d ?e ?f ?g ?h ?i ?j ?k ?l ?m ?n ?o ?p ?q ?r] =>
      destruct (createArgs_keeps a b c d e f g h i j k l m n o p q r) as (-> & -> & ->) end.
    split; [by eexists user, _, _; split_and!; [..|apply ContainerLabels_labelled]|].
    destruct (Settings.sRemoteURL settings); [done|]. intros Hpriv. rewrite Hpriv in Hp.
    destruct admin; [by rewrite Hadmin|done]. }
  intros created. unfold copyFiles, set_container, smodify. calm.
Qed.

Lemma ConnectInterface_calm machine iface : calm (ConnectInterface machine iface).
Proof using All. unfold ConnectInterface, containerOf, networkOf, machine_of, lab_of, link_of. calm. Qed.

Lemma Start_calm machine : calm (Start machine).
Proof using All.
  unfold Start, startContainer, connect_others, bridge_later, containerOf, networkOf, machine_of, update_meta, machine_of,
    set_container, smodify, reloadContainer.
  apply emits_seq; [by apply emits_pure|]. intros [c|]; [|apply emits_throw].
  apply emits_seq; [calm|]. intros _. apply emits_seq; [calm|]. intros m.
  apply emits_seq.
  { apply emits_for. intros i _. destruct (IsTombstone i); [apply emits_throw|apply ConnectInterface_calm]. }
  intros _. calm.
Qed.

Lemma DeployMachines_calm lab s e : calm (DeployMachines fsys cwd lab s e).
Proof using All.
  unfold DeployMachines, filterMachines, lab_of, mount_shared, lab_of. destruct (_ && _); [apply emits_throw|].
  apply emits_seq; [apply emits_hp|]. intros b. apply emits_seq; [apply filter_named_calm, item_names_calm|]. intros ms.
  apply emits_seq.
  { generalize (∅ : gset string). induction ms as [|l ms IH]; intros seen; cbn [distinct_images]; [by apply emits_ret|].
    unfold machine_of, lab_of. do 2 (apply emits_seq; [calm|]; intros ?). destruct (bool_decide _); [apply IH|].
    apply emits_seq; [apply IH|]. intros r. by apply emits_ret. }
  intros images. apply emits_seq; [apply emits_for; intros i _; apply checkAndPull_calm|]. intros _.
  apply emits_seq; [calm|]. intros _.
  apply emits_seq.
  { induction ms as [|l ms IH]; cbn [with_volumes]; [by apply emits_ret|]. unfold machine_of.
    apply emits_seq; [calm|]. intros m. apply emits_seq; [apply IH|]. intros r. by apply emits_ret. }
  intros vols. do 4 (apply emits_seq; [calm|]; intros ?).
  assert (Hds : ∀ m, calm (deployAndStart cwd m)).
  { intros m. unfold deployAndStart. apply emits_seq; [apply Machine_Create_calm|]. intros _.
    apply emits_seq; [apply Start_calm|]. intros _. apply calm_dispatch. }
  apply emits_seq; [|intros _; calm].
  destruct (negb _); [|by apply emits_for]. by apply emits_runChunked; [apply item_names_calm|].
Qed.

(** C8: Whatever the daemon answers, deploying a scenario, whole or for
    some of its devices, removes no container or network and detaches none; every
    network and container it creates carries the labels it is listed by: the label of
    the program, the name and the scenario its own name is made of and the current
    user, but no scenario on a network that is shared between scenarios and no user on
    one that is shared between users; and it asks for a privileged container only
    when the user is an administrator and the daemon is the local one. *)
Theorem DeployLab_only_adds lab opts s :
  ∃ l, dlog (DeployLab fsys cwd lab opts s).1 = dlog s ++ l ∧ Forall adds l.
Proof using All.
  enough (Hc : calm (DeployLab fsys cwd lab opts)) by (destruct (Hc s) as (l & Hl & HP & _); by exists l).
  unfold DeployLab. apply emits_seq; [apply emits_check_selection|]. intros _.
  apply emits_seq; [apply emits_chosen_links|]. intros links.
  apply emits_seq; [apply DeployLinks_calm|]. intros _. apply DeployMachines_calm.
Qed.
End adds.

#[local] Instance adds_cases : TextCases := ToLower.

(** One device on one collision domain, deployed on the small daemon. *)
Definition one_pc : heap memFS :=
  mkHeap {[ 2%positive := mkMachine 1%positive "pc1" newMeta None [mkInterface None (Some 3%positive) 0 ""] ]}
    {[ 3%positive := mkLink 1%positive "Z" [] (SetKey NewOrderedMap "pc1" 2%positive).1 ]}
    {[ 1%positive := mkLab "" "" "" "" "" "h9" "" false Memory DefaultDefaults (Some "l")
         (SetKey NewOrderedMap "pc1" 2%positive).1 (SetKey NewOrderedMap "Z" 3%positive).1 NewOrderedMap NewOrderedMap ]}
    4%positive.

Definition one_pc_log : list call :=
  dlog (DeployLab Memory_FS None 1%positive (mkDeployOptions None None) (sim_state one_pc)).1.

Lemma DeployLab_only_adds_witness :
  Forall (adds (B := sim_backend (F := memFS))) one_pc_log ∧
  (fun c => match c with CreateNetwork _ _ => 1 | CreateContainer _ => 2 | StartContainer _ => 3 | RunIn _ _ => 4 | _ => 0 end)
    <$> one_pc_log = [1; 2; 3; 4].
Proof.
  split; [|vm_compute; reflexivity].
  destruct (DeployLab_only_adds Memory_FS None 1%positive (mkDeployOptions None None) (sim_state one_pc)) as (l & Hl & HP).
  unfold one_pc_log. rewrite Hl. exact HP.
Defined.

(** * Deployed devices find their collision domains

    A scenario is deployed collision domains first, whole or for some of its
    devices; the collision domains picked for the devices picked are enough. *)

(** What passes the filters of a deployment. *)
Definition passes (selected excluded : NameSet) (name : string) : bool :=
  if 0 <? set_len selected then set_has selected name
  else if 0 <? set_len excluded then negb (set_has excluded name)
  else true.

Lemma set_len_has s n : set_has s n = true → 0 < set_len s.
Proof.
  destruct s as [s|]; [|done]. cbn. intros Hn%bool_decide_eq_true.
  assert (size s ≠ 0%nat); [|lia]. intros E%size_empty_inv%leibniz_equiv. set_solver.
Qed.

Lemma set_names_elem s n : n ∈ set_names s ↔ set_has s n = true.
Proof.
  destruct s as [s|]; cbn; [|by split; [intros ?%not_elem_of_nil|]].
  by rewrite sort_strings_elem, elem_of_elements, bool_decide_eq_true.
Qed.

Lemma values_get {K V} `{Countable K} (o : OrderedMap K V) v : wf_map o → v ∈ Values o ↔ ∃ k, Get o k = Some v.
Proof.
  intros Hw. unfold Values. rewrite list_elem_of_fmap. split.
  - intros ([k w] & -> & He%elem_of_entries); [|done]. by exists k.
  - intros [k Hk]. exists (k, v). split; [done|]. by apply elem_of_entries.
Qed.

Lemma entries_get {K V} `{Countable K} (o : OrderedMap K V) k v : (k, v) ∈ Entries o → Get o k = Some v ∧ k ∈ Keys o.
Proof.
  unfold Entries, Get, Keys. rewrite list_elem_of_omap. intros (k' & Hk & E).
  destruct (ovalues o !! k') as [v'|] eqn:E'; cbn in E; [|done]. by simplify_eq.
Qed.

Section cover.
Context {F : Type}.
Implicit Types (h : heap F) (b : Lab F).

(** The interfaces of one device. *)
Lemma iface_links_spec h ifs : ∀ acc h' r, iface_links ifs acc h = (h', Ok r) →
  h' = h ∧ acc ⊆ r ∧
  ∀ i l k, i ∈ ifs → i.(iLink) = Some l → h.(hLinks) !! l = Some k → k.(lName) ∈ r.
Proof.
  induction ifs as [|i ifs IH]; intros acc h' r; cbn [iface_links].
  { intros [= <- <-]. split; [done|]. split; [done|]. set_solver. }
  destruct (iLink i) as [l|] eqn:El; [|done]. unfold sbind, getLink, deref.
  destruct (hLinks h !! l) as [k|] eqn:Ek; cbn; [|done]. intros Hr. apply IH in Hr as (-> & Hsub & Hin).
  split; [done|]. split; [set_solver|]. intros j l' k' [->|Hj]%elem_of_cons Hl Hk; [|by eapply Hin].
  simplify_eq. set_solver.
Qed.

(** The interfaces of the devices of a set. *)
Lemma links_of_entries_spec h sel es : ∀ acc h' r, links_of_entries sel es acc h = (h', Ok r) →
  h' = h ∧ acc ⊆ r ∧
  ∀ name machine m i l k, (name, machine) ∈ es → name ∈ sel → h.(hMachines) !! machine = Some m →
    i ∈ m.(interfaces) → i.(iLink) = Some l → h.(hLinks) !! l = Some k → k.(lName) ∈ r.
Proof.
  induction es as [|[name machine] es IH]; intros acc h' r; cbn [links_of_entries].
  { intros [= <- <-]. split; [done|]. split; [done|]. set_solver. }
  case_decide as Hs.
  - unfold sbind, getMachine, deref. destruct (hMachines h !! machine) as [m|] eqn:Em; cbn; [|done].
    destruct (iface_links (interfaces m) acc h) as [h1 [acc1|e]] eqn:Ei; [|done].
    apply iface_links_spec in Ei as (-> & Hsub & Hin). intros Hr. apply IH in Hr as (-> & Hsub' & Hin').
    split; [done|]. split; [set_solver|].
    intros n ma m' i l k [E|Hes]%elem_of_cons Hn Hm Hi Hl Hk; [|by eapply Hin']. simplify_eq.
    apply Hsub'. by eapply Hin.
  - intros Hr. apply IH in Hr as (-> & Hsub & Hin). split; [done|]. split; [done|].
    intros n ma m' i l k [E|Hes]%elem_of_cons Hn Hm Hi Hl Hk; [by simplify_eq|by eapply Hin].
Qed.

Lemma GetLinksFromMachines_spec h h' lab b names r :
  h.(hLabs) !! lab = Some b → GetLinksFromMachines lab names h = (h', Ok r) →
  h' = h ∧ ∀ name machine m i l k, (name, machine) ∈ Entries b.(labMachines) → name ∈ names →
    h.(hMachines) !! machine = Some m → i ∈ m.(interfaces) → i.(iLink) = Some l →
    h.(hLinks) !! l = Some k → k.(lName) ∈ r.
Proof.
  intros Hb. unfold GetLinksFromMachines, linksOf, sbind, getLab, deref. rewrite Hb. cbn.
  rewrite Hb. cbn. intros Hr. apply links_of_entries_spec in Hr as (-> & _ & Hin). split; [done|].
  intros name machine m i l k He Hn. eapply Hin; [done|]. apply elem_of_list_to_set, list_elem_of_In, filter_In.
  split; [by apply list_elem_of_In|]. unfold Has. by rewrite (proj1 (entries_get _ _ _ He)).
Qed.

Context {W : Type} `{D : DockerClient W} {B : Docker.Backend (F := F) (W := W)}.
Local Notation dstate := (Services.dstate F Container Network W).
Local Notation DM := (@Docker.DM F W).

Lemma hp_ok {A} (m : MM (F := F) A) (s s' : dstate) a :
  (hp m : DM A) s = (s', Ok a) → ∃ h', m s.(d_heap) = (h', Ok a) ∧ s' = mkD h' s.(d_machines) s.(d_links) s.(d_world).
Proof. unfold hp. destruct (m (d_heap s)) as [h r] eqn:E. intros [= <- ->]. by exists h. Qed.

Lemma mkD_same (s : dstate) : mkD s.(d_heap) s.(d_machines) s.(d_links) s.(d_world) = s.
Proof. by destruct s. Qed.

(** The filter of [DeployLinks] and [DeployMachines] keeps what passes. *)
Lemma filter_named_ok {A} (name : A → DM string) (nm : A → string) selected excluded s l :
  (∀ x, x ∈ l → name x s = (s, Ok (nm x))) →
  filter_named name l selected excluded s = (s, Ok (List.filter (fun x => passes selected excluded (nm x)) l)).
Proof.
  intros Hn. assert (Hk : ∀ keep, keep_named name keep l s = (s, Ok (List.filter (fun x => keep (nm x)) l))).
  { intros keep. induction l as [|x l IH]; [done|]. cbn [keep_named List.filter]. unfold sbind.
    rewrite (Hn x ltac:(set_solver)), IH by set_solver. by destruct (keep (nm x)). }
  unfold filter_named, passes. destruct (0 <? set_len selected); [apply Hk|].
  destruct (0 <? set_len excluded); [apply Hk|]. unfold sret. do 2 f_equal. clear. induction l as [|x l IH]; [done|]. cbn. by rewrite <- IH.
Qed.

Lemma excluded_links_spec lab b excluded (s s' : dstate) r :
  s.(d_heap).(hLabs) !! lab = Some b → (excluded_links lab excluded : DM NameSet) s = (s', Ok r) →
  s' = s ∧ ∀ name machine m i l k, (name, machine) ∈ Entries b.(labMachines) → set_has excluded name = false →
    s.(d_heap).(hMachines) !! machine = Some m → i ∈ m.(interfaces) → i.(iLink) = Some l →
    s.(d_heap).(hLinks) !! l = Some k → set_has r k.(lName) = false.
Proof.
  intros Hb. unfold excluded_links, sbind, lab_of, hp at 1, getLab, deref. rewrite Hb. cbn. rewrite mkD_same.
  destruct (hp _ s) as [s1 [run|e]] eqn:E1; [|done]. apply hp_ok in E1 as (h1 & E1 & ->).
  destruct (GetLinksFromMachines_spec _ _ _ b _ _ Hb E1) as [-> Hin]. rewrite mkD_same.
  destruct (hp _ s) as [s2 [only|e]] eqn:E2; [|done]. apply hp_ok in E2 as (h2 & E2 & ->).
  destruct (GetLinksFromMachines_spec _ _ _ b _ _ Hb E2) as [-> _]. rewrite mkD_same. intros [= <- <-].
  split; [done|]. intros name machine m i l k He Hx Hm Hi Hl Hk. cbn. apply bool_decide_eq_false.
  assert (k.(lName) ∈ run); [|set_solver]. eapply Hin; try done. apply list_elem_of_In, filter_In.
  rewrite Hx. split; [|done]. apply list_elem_of_In. by apply entries_get in He as [_ ?].
Qed.

Lemma filter_named_sub {A} (name : A → DM string) l selected excluded (s s' : dstate) r :
  filter_named name l selected excluded s = (s', Ok r) → r ⊆ l.
Proof.
  assert (Hk : ∀ keep (s s' : dstate) r, keep_named name keep l s = (s', Ok r) → r ⊆ l).
  { intros keep. induction l as [|x l IH]; intros s1 s2 r1; cbn [keep_named]; [by intros [= _ <-]|].
    intros E. apply bind_inv in E as (n & s3 & _ & E). apply bind_inv in E as (r2 & s4 & E & E').
    apply IH in E. injection E' as _ <-. destruct (keep n); set_solver. }
  unfold filter_named. destruct (0 <? set_len selected); [apply Hk|]. destruct (0 <? set_len excluded); [apply Hk|].
  by intros [= _ <-].
Qed.

(** The items of a registry that pass, when each is registered under the name it has. *)
Lemma filter_registered (name : loc → DM string) (o : OrderedMap string loc) selected excluded s :
  wf_map o → (∀ n x, Get o n = Some x → name x s = (s, Ok n)) →
  ∃ l, filter_named name (Values o) selected excluded s = (s, Ok l) ∧
    ∀ n x, Get o n = Some x → x ∈ l ↔ passes selected excluded n = true.
Proof.
  intros Hw Hn. set (nm := fun x => match name x s with (_, Ok n) => n | _ => "" end).
  assert (Hnm : ∀ n x, Get o n = Some x → nm x = n) by (intros n x Hg; unfold nm; by rewrite (Hn n x Hg)).
  eexists. split.
  - apply filter_named_ok with (nm := nm). intros x Hx. apply values_get in Hx as (n & Hg); [|done].
    by rewrite (Hn n x Hg), (Hnm n x Hg).
  - intros n x Hg. rewrite list_elem_of_In, filter_In, (Hnm n x Hg), <- list_elem_of_In, values_get by done. naive_solver.
Qed.

Lemma machines_named lab b (s : dstate) : lab_inv s.(d_heap) lab b →
  ∀ n x, Get b.(labMachines) n = Some x → (machineItemName x : DM string) s = (s, Ok n).
Proof.
  intros Hi n x Hg. destruct (li_machine _ _ _ Hi _ _ Hg) as (m & Hm & Hok).
  unfold machineItemName, machine_of, hp, getMachine, deref, sbind. rewrite Hm. cbn. rewrite mkD_same.
  by rewrite (mo_name _ _ _ _ _ _ Hok).
Qed.

Lemma links_named lab b (s : dstate) : lab_inv s.(d_heap) lab b →
  ∀ n x, Get b.(labLinks) n = Some x → (linkItemName x : DM string) s = (s, Ok n).
Proof.
  intros Hi n x Hg. destruct (li_link _ _ _ Hi _ _ Hg) as (k & Hk & Hok).
  unfold linkItemName, link_of, hp, getLink, deref, sbind. rewrite Hk. cbn. rewrite mkD_same.
  by rewrite (lo_name _ _ _ _ _ _ Hok).
Qed.

Lemma chosen_links_pass lab b selected excluded (s s' : dstate) sl el name machine m i l k :
  s.(d_heap).(hLabs) !! lab = Some b →
  (chosen_links lab selected excluded : DM (NameSet * NameSet)) s = (s', Ok (sl, el)) →
  (set_len selected <= 0 ∨ set_len excluded <= 0) →
  (name, machine) ∈ Entries b.(labMachines) → passes selected excluded name = true →
  s.(d_heap).(hMachines) !! machine = Some m → i ∈ m.(interfaces) → i.(iLink) = Some l →
  s.(d_heap).(hLinks) !! l = Some k →
  s' = s ∧ passes sl el k.(lName) = true.
Proof.
  intros Hb Hc Hone He Hp Hm Hi Hl Hk. unfold chosen_links, sbind in Hc. unfold passes in Hp.
  destruct (Z.ltb_spec 0 (set_len selected)) as [Hs|Hs].
  - replace (0 <? set_len excluded) with false in Hc by (symmetry; apply Z.ltb_ge; lia).
    destruct (hp _ s) as [s1 [links|e]] eqn:E1; [|done]. apply hp_ok in E1 as (h1 & E1 & ->).
    destruct (GetLinksFromMachines_spec _ _ _ b _ _ Hb E1) as [-> Hin]. cbn in Hc. injection Hc as <- <- <-.
    assert (Hin' : set_has (Some links) k.(lName) = true).
    { apply bool_decide_eq_true. eapply Hin; try done. by apply set_names_elem. }
    unfold passes. rewrite (proj2 (Z.ltb_lt _ _) (set_len_has _ _ Hin')). split; [by destruct s|done].
  - cbn in Hc. destruct (Z.ltb_spec 0 (set_len excluded)) as [Hx|Hx].
    + destruct (excluded_links lab excluded s) as [s1 [r|e]] eqn:E1; [|done]. cbn in Hc. injection Hc as <- <- <-.
      destruct (excluded_links_spec lab b _ _ _ _ Hb E1) as [-> Hex]. split; [done|]. unfold passes. cbn [set_len]. cbn.
      rewrite (Hex name machine m i l k) by (try done; by apply negb_true_iff). by destruct (0 <? _).
    + cbn in Hc. by injection Hc as <- <- <-.
Qed.

End cover.

(** Devices [pc1] on [A], [pc2] on [A] and [B]; without [pc2], [B] is left out. *)
Definition two_pcs_calls : list lab_call :=
  [CConnect "pc1" "A" (mkIfaceOpts None ""); CConnect "pc2" "A" (mkIfaceOpts None ""); CConnect "pc2" "B" (mkIfaceOpts None "")].
Definition two_pcs : heap memFS := default demo_start (run_calls 1%positive two_pcs_calls demo_start).

Lemma two_pcs_inv : ∃ b, lab_inv two_pcs 1%positive b.
Proof. apply (run_calls_inv two_pcs_calls); [repeat constructor|]. vm_compute. reflexivity. Qed.

Definition without_pc2 : result failure (list loc * list loc) :=
  ((do* lab <- Services.lab_of 1%positive in
    do* chosen <- chosen_links 1%positive None (NewNameSet ["pc2"]) in
    do* machines <- filterMachines (Values lab.(labMachines)) None (NewNameSet ["pc2"]) in
    do* links <- filterLinks (Values lab.(labLinks)) chosen.1 chosen.2 in
    sret (machines, links)) (sim_state two_pcs)).2.

