(* ===== verification/K8sNet.v ===== *)
(** * Collision domains on a cluster: numbers and annotations

    The VXLAN of a collision domain: the search for its number ends, numbers of
    one deployment and those in use are all different, and the number written
    into a network is the one read out of it.  The networks a pod is attached
    to, read back from its annotation. *)

From S2P Require Export K8sConf JsonInv.
From S2P Require SettingsInv.
From S2P Require Import Shlex.
Local Open Scope string_scope.
Local Open Scope list_scope.
Local Open Scope Z_scope.
Local Open Scope kat_scope.

(** ** Numbers of VXLANs *)

Lemma NetworkID_range seed name o : 0 <= NetworkID seed name o < maxLinkNumber.
Proof. apply Z.mod_pos_bound. done. Qed.

(** The numbers tried one after the other are different, all the way round. *)
Lemma NetworkID_distinct seed name i j :
  0 <= i < maxLinkNumber → 0 <= j < maxLinkNumber → NetworkID seed name i = NetworkID seed name j → i = j.
Proof.
  unfold NetworkID. set (h := big_endian _). intros Hi Hj E.
  assert (Hm : maxLinkNumber ≠ 0) by done.
  pose proof (Z.div_mod (h + i) maxLinkNumber Hm). pose proof (Z.div_mod (h + j) maxLinkNumber Hm).
  unfold maxLinkNumber in *. nia.
Qed.

Lemma allocate_loop_spec fuel a name o :
  match allocate_loop fuel a name (NetworkID a.(seed) name o) (o + 1) with
  | Some id => id ∉ a.(reserved) ∧ 0 <= id < maxLinkNumber
  | None => ∀ i, o <= i < o + Z.of_nat fuel → NetworkID a.(seed) name i ∈ a.(reserved)
  end.
Proof.
  revert o. induction fuel as [|fuel IH]; intros o; cbn [allocate_loop]; [lia|].
  case_bool_decide as Hin; cbn [negb]; [|split; [done|apply NetworkID_range]].
  specialize (IH (o + 1)). destruct (allocate_loop _ _ _ _ _); [done|].
  intros i Hi. destruct (decide (i = o)) as [->|]; [done|]. apply IH. lia.
Qed.

(** While a number is left, the search finds one. *)
Lemma Allocate_total fuel name a :
  (size a.(reserved) < fuel)%nat → Z.of_nat (size a.(reserved)) < maxLinkNumber →
  ∃ id, Allocate fuel name a = Some (mkAllocator a.(seed) ({[ id ]} ∪ a.(reserved)), id) ∧
        id ∉ a.(reserved) ∧ 0 <= id < maxLinkNumber.
Proof.
  intros Hf Hs. unfold Allocate. pose proof (allocate_loop_spec fuel a name 0) as H. change (0 + 1) with 1 in H.
  destruct (allocate_loop _ _ _ _ _) as [id|]; [by exists id|]. exfalso.
  set (tried := (fun i : nat => NetworkID a.(seed) name (Z.of_nat i)) <$> seq 0 (S (size a.(reserved)))).
  assert (Hnd : NoDup tried).
  { apply NoDup_fmap_2_strong; [|apply NoDup_seq]. intros i j Hi%elem_of_seq Hj%elem_of_seq E.
    apply NetworkID_distinct in E; lia. }
  assert (Hsub : (list_to_set tried : gset Z) ⊆ a.(reserved)).
  { intros x Hx%elem_of_list_to_set. apply list_elem_of_fmap in Hx as (i & -> & Hi%elem_of_seq). apply H. lia. }
  apply subseteq_size in Hsub. rewrite size_list_to_set in Hsub by done.
  unfold tried in Hsub. rewrite length_fmap, length_seq in Hsub. lia.
Qed.

Lemma allocate_all_total fuel names a :
  (size a.(reserved) + length names < fuel)%nat → Z.of_nat (size a.(reserved) + length names) <= maxLinkNumber →
  ∃ a' ids, allocate_all fuel names a = Some (a', ids) ∧ length ids = length names ∧ NoDup ids ∧
    Forall (fun id => id ∉ a.(reserved) ∧ 0 <= id < maxLinkNumber) ids.
Proof.
  revert a. induction names as [|name names IH]; intros a Hf Hs; cbn [allocate_all length] in *.
  { exists a, []. by repeat constructor. }
  destruct (Allocate_total fuel name a ltac:(lia) ltac:(lia)) as (id & -> & Hid & Hr).
  assert (Hsz : size ({[ id ]} ∪ a.(reserved)) = S (size a.(reserved))).
  { rewrite size_union by set_solver. by rewrite size_singleton. }
  destruct (IH (mkAllocator a.(seed) ({[ id ]} ∪ a.(reserved)))) as (a' & ids & -> & Hl & Hnd & Hall);
    [cbn [reserved]; lia..|].
  exists a', (id :: ids). cbn [length]. rewrite Forall_forall in Hall. split_and!; [done|lia| |].
  - constructor; [|done]. intros Hin. destruct (Hall id Hin) as [Hn _]. cbn in Hn. set_solver.
  - constructor; [done|]. apply Forall_forall. intros x Hx. destruct (Hall x Hx) as [Hn Hx']. cbn in Hn. set_solver.
Qed.

(** Whatever the fuel, the numbers that were found are apart. *)
Lemma allocate_all_apart fuel names a a' ids :
  allocate_all fuel names a = Some (a', ids) →
  length ids = length names ∧ NoDup ids ∧ Forall (fun id => id ∉ a.(reserved) ∧ 0 <= id < maxLinkNumber) ids.
Proof.
  revert a ids. induction names as [|name names IH]; intros a ids; cbn [allocate_all].
  { intros [= <- <-]. by repeat constructor. }
  unfold Allocate. pose proof (allocate_loop_spec fuel a name 0) as Hs. change (0 + 1) with 1 in Hs.
  destruct (allocate_loop _ _ _ _ _) as [id|]; [|done]. destruct Hs as [Hid Hr].
  destruct (allocate_all fuel names _) as [[a2 ids2]|] eqn:E; [|done]. intros [= <- <-].
  destruct (IH _ _ E) as (Hl & Hnd & Hall). cbn [reserved] in Hall. rewrite Forall_forall in Hall.
  cbn [length]. split_and!; [lia| |].
  - constructor; [|done]. intros Hin. destruct (Hall id Hin) as [Hn _]. set_solver.
  - constructor; [done|]. apply Forall_forall. intros x Hx. destruct (Hall x Hx) as [Hn Hx']. set_solver.
Qed.

(** Deploying collision domains on a cluster, the search for a
    VXLAN number ends for each of them as long as numbers are left, and the
    numbers they get are pairwise different, different from every number in use
    on the cluster, and within the range of the network plugin. *)
Theorem allocated_apart user existing names fuel :
  (length existing + length names < fuel)%nat → Z.of_nat (length existing + length names) <= maxLinkNumber →
  ∃ a ids, allocate_all fuel names (newVNIAllocator user existing) = Some (a, ids) ∧
    length ids = length names ∧ NoDup ids ∧ Forall (fun id => id ∉ existing ∧ 0 <= id < maxLinkNumber) ids.
Proof.
  intros Hf Hs.
  assert (Hsz : (size (list_to_set existing : gset Z) <= length existing)%nat).
  { clear. induction existing as [|x l IH]; [done|]. cbn [list_to_set length]. rewrite size_union_alt, size_singleton.
    assert (Hle : (size ((list_to_set l : gset Z) ∖ {[ x ]}) <= size (list_to_set l : gset Z))%nat)
      by (apply subseteq_size; set_solver). lia. }
  destruct (allocate_all_total fuel names (newVNIAllocator user existing)) as (a & ids & E & Hl & Hnd & Hall);
    [cbn [newVNIAllocator reserved]; lia..|].
  exists a, ids. split_and!; [done|done|done|]. eapply Forall_impl; [exact Hall|]. cbn. set_solver.
Qed.

Lemma allocated_apart_witness :
  ∃ a ids, allocate_all 5 ["A"; "B"; "A"] (newVNIAllocator "kube" [6810193]) = Some (a, ids) ∧
    ids = [6810194; NetworkID "kube" "B" 0; 6810195] ∧ NoDup ids.
Proof.
  destruct (allocated_apart "kube" [6810193] ["A"; "B"; "A"] 5) as (a & ids & E & _ & Hnd & _); [cbn; lia|by apply Z.leb_le|].
  exists a, ids. split; [done|]. split; [|done]. vm_compute in E. injection E as _ <-. vm_compute. reflexivity.
Defined.

(** ** The number read out of a network *)

Lemma blank_nl (n : nat) : blank (nl +:+ string_concat (replicate n " ")).
Proof. intros s. rewrite string_app_assoc. cbn. induction n as [|n IH]; [done|]. cbn. exact IH. Qed.

Lemma blank_of n : blank (nl +:+ string_concat (replicate n " ")).
Proof. apply blank_nl. Qed.

(** The text of [networkConfigJSON], put together from members. *)
Definition indent : string := "                            ".
Definition closing : string := "                        ".

Definition quoted_str (s : string) : string := str1 quote_char +:+ s +:+ str1 quote_char.

Definition config_suffix (labHash : string) : string :=
  if (6 <? String.length labHash)%nat then string_take 6 labHash else labHash.

Definition config_members (linkName labHash : string) (id : Z) : list (string * json) :=
  [("cniVersion", JStr "0.3.0"); ("name", JStr (ToLower linkName)); ("type", JStr "megalos");
   ("suffix", JStr (config_suffix labHash)); ("vxlanId", JNum (Itoa id))].

Lemma config_parses linkName labHash id :
  json_plain (ToLower linkName) = true → json_plain (config_suffix labHash) = true → 0 <= id →
  parse (networkConfigJSON linkName labHash id) = Some (JObj (config_members linkName labHash id)).
Proof.
  intros Hl Hh Hid.
  assert (Hw : blank (nl +:+ indent)) by apply (blank_nl 28).
  assert (Hk : ∀ k, json_plain k = true → reads_str (quoted_str k) k) by (intros; by apply reads_plain).
  assert (Hs : ∀ s, json_plain s = true → reads 1 1 (" " +:+ quoted_str s) (JStr s)).
  { intros s Hp. by apply reads_space, reads_quoted, Hk. }
  assert (Hn : reads 1 1 (" " +:+ Itoa id) (JNum (Itoa id))) by (by apply reads_space, reads_number).
  assert (Hm : reads_members 6 1
    (quoted_str "cniVersion" +:+ ":" +:+ (" " +:+ quoted_str "0.3.0") +:+ "" +:+ "," +:+ (nl +:+ indent) +:+
     (quoted_str "name" +:+ ":" +:+ (" " +:+ quoted_str (ToLower linkName)) +:+ "" +:+ "," +:+ (nl +:+ indent) +:+
      (quoted_str "type" +:+ ":" +:+ (" " +:+ quoted_str "megalos") +:+ "" +:+ "," +:+ (nl +:+ indent) +:+
       (quoted_str "suffix" +:+ ":" +:+ (" " +:+ quoted_str (config_suffix labHash)) +:+ "" +:+ "," +:+ (nl +:+ indent) +:+
        (quoted_str "vxlanId" +:+ ":" +:+ (" " +:+ Itoa id) +:+ (nl +:+ closing) +:+ "}")))))
    (config_members linkName labHash id)).
  { assert (Hb : blank "") by done. unfold config_members.
    refine (members_cons _ _ _ _ _ 1 1 (Hk _ _) (Hs _ _) Hb 5 _ _ _ _ Hw); [done|done|].
    refine (members_cons _ _ _ _ _ 1 1 (Hk _ _) (Hs _ _) Hb 4 _ _ _ _ Hw); [done|done|].
    refine (members_cons _ _ _ _ _ 1 1 (Hk _ _) (Hs _ _) Hb 3 _ _ _ _ Hw); [done|done|].
    refine (members_cons _ _ _ _ _ 1 1 (Hk _ _) (Hs _ _) Hb 2 _ _ _ _ Hw); [done|done|].
    exact (members_last _ _ _ _ _ 1 1 (Hk "vxlanId" eq_refl) Hn (blank_nl 24)). }
  match type of Hm with reads_members _ _ ?t _ =>
    assert (E : networkConfigJSON linkName labHash id = "{" +:+ (nl +:+ indent) +:+ t) end.
  { unfold networkConfigJSON, json_field. fold (config_suffix labHash). unfold quoted_str. rewrite !string_app_assoc. reflexivity. }
  rewrite E. apply (reads_parse 7 0); [by apply (reads_object 6 0)| |done].
  cbn [String.append String.length nl indent str1]. lia.
Qed.

Lemma int64_of_exact f n : floatToBigInt f = Ok n → MinInt64 <= n <= MaxInt64 → int64_of_float f = n.
Proof. intros E Hn. unfold int64_of_float. rewrite E. by rewrite !(proj2 (Z.leb_le _ _)) by lia. Qed.

(** The VXLAN number written into the network of a collision
    domain is the one read out of it later, when the numbers in use are
    collected, as long as the name of the domain needs no escape in JSON. *)
Theorem vni_read_back networkName linkName labHash id :
  json_plain (ToLower linkName) = true → json_plain (config_suffix labHash) = true → 0 <= id < maxLinkNumber →
  NetworkVXLANID (Some (NetworkDefinition networkName linkName labHash id)) = Some id.
Proof.
  intros Hl Hh Hid. unfold NetworkVXLANID, NetworkConfig, NetworkDefinition, unmarshal_map. cbn [nConfig].
  rewrite config_parses by (done || lia). unfold maxLinkNumber in Hid.
  destruct (to_float_Itoa id) as (f & Hf & Hi); [change (2 ^ 53) with 9007199254740992; lia|].
  unfold config_members. cbn [numbers_fit]. rewrite Hf. cbn [andb to_map]. unfold obj_map. cbn [foldl fst snd].
  match goal with |- context [default ∅ (Some ?m)] => change (default ∅ (Some m)) with m end.
  rewrite lookup_insert_eq, Hf. cbn. f_equal. apply int64_of_exact; [done|]. unfold MinInt64, MaxInt64. lia.
Qed.

Lemma vni_read_back_witness :
  json_plain (ToLower "Área 1") = true ∧
  NetworkVXLANID (Some (NetworkDefinition "kathara-rea1" "Área 1" "hAsh" 42)) = Some 42.
Proof.
  assert (Hl : json_plain (ToLower "Área 1") = true) by (vm_compute; reflexivity).
  split; [exact Hl|]. apply vni_read_back; [exact Hl|vm_compute; reflexivity|by split].
Defined.

(** A name with a quote makes a configuration that is not JSON: the number is
    lost, and the next deployment may hand it out again. *)
Example quoted_name_loses_its_number :
  NetworkVXLANID (Some (NetworkDefinition "kathara-a" ("A" +:+ dq) "hash" 42)) = None.
Proof. vm_compute. reflexivity. Qed.

(** ** The annotation of a pod *)

Lemma pyJSONRune_settings r : valid_rune r = true → pyJSONRune r = Settings.pyEscapeRune r.
Proof.
  intros Hv%valid_rune_spec. unfold pyJSONRune, Settings.pyEscapeRune, Settings.pyEscapeDict.
  repeat (case_match; bool_prop; [try (subst; reflexivity); try lia|]).
  all: try done.
  - rewrite <- (encode_1 (az r)) by (rewrite zb_az; lia). by rewrite zb_az by lia.
Qed.

Lemma pyJSONString_settings s : pyJSONString s = Settings.pyJSONString s.
Proof.
  unfold pyJSONString, Settings.pyJSONString. do 3 f_equal. apply list_fmap_ext. intros i r Hr.
  apply pyJSONRune_settings. pose proof (runes_valid s) as Hv. rewrite Forall_forall in Hv.
  by apply Hv, list_elem_of_lookup_2 with i.
Qed.

Lemma reads_py s : utf8_valid s = true → reads_str (pyJSONString s) s.
Proof.
  intros Hv. rewrite pyJSONString_settings. exists (string_concat (Settings.pyEscapeRune <$> runes s) +:+ str1 quote_char).
  split; [done|]. intros rest. rewrite string_app_assoc. by apply SettingsInv.read_escaped.
Qed.

Definition attachment_ok (a : podNetworkAttachment) : Prop :=
  Forall (fun s => utf8_valid s = true) [a.(aName); a.(aNamespace); a.(aInterface); a.(aKatharaLink); a.(aMAC)].

Definition attachment_json (a : podNetworkAttachment) : json :=
  JObj ([("name", JStr a.(aName)); ("namespace", JStr a.(aNamespace)); ("interface", JStr a.(aInterface));
         ("kathara.link", JStr a.(aKatharaLink))]
        ++ if negb (String.eqb a.(aMAC) "") then [("mac", JStr a.(aMAC))] else []).

Lemma reads_attachment a : attachment_ok a → reads 7 1 (encodeAttachment a) (attachment_json a).
Proof.
  unfold attachment_ok. rewrite !Forall_cons. intros (H1 & H2 & H3 & H4 & H5 & _).
  assert (Hv : ∀ s, utf8_valid s = true → reads 1 2 (" " +:+ pyJSONString s) (JStr s))
    by (intros; by apply reads_space, reads_quoted, reads_py).
  assert (Hb : blank "") by done. assert (Hw : blank " ") by done.
  assert (Hk : ∀ k, utf8_valid k = true → reads_str (pyJSONString k) k) by (intros; by apply reads_py).
  assert (Hm : reads_members 6 2
    (pyJSONString "name" +:+ ":" +:+ (" " +:+ pyJSONString a.(aName)) +:+ "" +:+ "," +:+ " " +:+
     (pyJSONString "namespace" +:+ ":" +:+ (" " +:+ pyJSONString a.(aNamespace)) +:+ "" +:+ "," +:+ " " +:+
      (pyJSONString "interface" +:+ ":" +:+ (" " +:+ pyJSONString a.(aInterface)) +:+ "" +:+ "," +:+ " " +:+
       (pyJSONString "kathara.link" +:+ ":" +:+ (" " +:+ pyJSONString a.(aKatharaLink)) +:+ "" +:+
        (if negb (String.eqb a.(aMAC) "")
         then "," +:+ " " +:+ (pyJSONString "mac" +:+ ":" +:+ (" " +:+ pyJSONString a.(aMAC)) +:+ "" +:+ "}") else "}")))))
    ([("name", JStr a.(aName)); ("namespace", JStr a.(aNamespace)); ("interface", JStr a.(aInterface));
         ("kathara.link", JStr a.(aKatharaLink))]
        ++ if negb (String.eqb a.(aMAC) "") then [("mac", JStr a.(aMAC))] else [])).
  { cbn [app].
    refine (members_cons _ _ _ _ _ 1 2 (Hk _ _) (Hv _ _) Hb 5 _ _ _ _ Hw); [done|done|].
    refine (members_cons _ _ _ _ _ 1 2 (Hk _ _) (Hv _ _) Hb 4 _ _ _ _ Hw); [done|done|].
    refine (members_cons _ _ _ _ _ 1 2 (Hk _ _) (Hv _ _) Hb 3 _ _ _ _ Hw); [done|done|].
    destruct (String.eqb a.(aMAC) ""); cbn [negb].
    - apply (members_more 2); [|lia]. exact (members_last _ _ _ _ _ 1 2 (Hk "kathara.link" eq_refl) (Hv _ H4) Hb).
    - refine (members_cons _ _ _ _ _ 1 2 (Hk _ _) (Hv _ _) Hb 2 _ _ _ _ Hw); [done|done|].
      exact (members_last _ _ _ _ _ 1 2 (Hk "mac" eq_refl) (Hv _ H5) Hb). }
  match type of Hm with reads_members _ _ ?t _ => assert (E : encodeAttachment a = "{" +:+ "" +:+ t) end.
  { unfold encodeAttachment, pyJSONField. destruct (String.eqb a.(aMAC) ""); cbn [negb]; rewrite !string_app_assoc; reflexivity. }
  rewrite E. by apply (reads_object 6 1).
Qed.

Lemma read_attachment_json a : read_attachment (attachment_json a) = Some a.
Proof. destruct a as [n ns i k mac]. unfold attachment_json. cbn [aMAC]. destruct (String.eqb_spec mac "") as [->|]; reflexivity. Qed.

Lemma attachment_length a : (10 <= String.length (encodeAttachment a))%nat.
Proof.
  unfold encodeAttachment, pyJSONField. rewrite !string_length_app.
  change (String.length (pyJSONString "name")) with 6%nat. change (String.length (pyJSONString "namespace")) with 11%nat. lia.
Qed.

Lemma attachments_length l : (10 * length l <= String.length (str_join ", " (encodeAttachment <$> l)))%nat.
Proof.
  induction l as [|x xs IH]; [done|]. pose proof (attachment_length x). destruct xs as [|y xs]; [cbn [fmap list_fmap str_join length]; lia|].
  change (str_join ", " (encodeAttachment <$> x :: y :: xs))
    with (encodeAttachment x +:+ ", " +:+ str_join ", " (encodeAttachment <$> y :: xs)).
  rewrite !string_length_app. cbn [length] in *. lia.
Qed.

(** The annotation a pod is attached to its collision domains by
    is read back as the attachments it was written from: networks, interfaces,
    names of domains in any script, and MAC addresses where there are any. *)
Theorem annotation_read_back l :
  Forall attachment_ok l → unmarshal_attachments (encodeNetworkAttachments l) = Some l.
Proof.
  intros Hl. destruct l as [|a l]; [done|]. set (as_ := a :: l) in *.
  assert (He : reads_elements (7 + length (encodeAttachment <$> as_)) 1 ("" +:+ str_join ", " (encodeAttachment <$> as_) +:+ "]")
                 (attachment_json <$> as_)).
  { apply elements_join; [done|by left|]. rewrite Forall2_fmap. apply Forall_Forall2_diag.
    eapply Forall_impl; [exact Hl|]. apply reads_attachment. }
  unfold unmarshal_attachments, encodeNetworkAttachments.
  pose proof (attachments_length as_) as Hlen. assert (Hpos : (1 <= length as_)%nat) by (unfold as_; cbn; lia).
  rewrite (reads_parse (S (7 + length (encodeAttachment <$> as_))) 0 _ (JArr (attachment_json <$> as_))).
  - apply mapM_Some. rewrite Forall2_fmap_l. apply Forall_Forall2_diag, Forall_true. apply read_attachment_json.
  - assert (Hs : ∃ r, "" +:+ str_join ", " (encodeAttachment <$> as_) +:+ "]" = String "{" r)
      by (unfold as_; destruct l; eexists; reflexivity).
    destruct Hs as [r Hr]. eapply (reads_array _ 0 _ _ "{" r); [exact He|exact Hr|done|done|done].
  - rewrite length_fmap, !string_length_app. change (String.length "[") with 1%nat. lia.
  - done.
Qed.

Lemma annotation_read_back_witness :
  let l := [mkAttachment "kathara-a" "h" "net0" "A" ""; mkAttachment "kathara-b" "h" "net1" "β\" "00:00:00:00:00:01"] in
  Forall attachment_ok l ∧ unmarshal_attachments (encodeNetworkAttachments l) = Some l.
Proof.
  intros l. assert (Hl : Forall attachment_ok l) by (repeat constructor; vm_compute; reflexivity).
  split; [exact Hl|]. by apply (annotation_read_back l).
Defined.
