(* ===== verification/K8sApi.v ===== *)
(** * The API of a cluster, and the services that only need it

    The client of the API server is a parameter ([KubeClient]) over a world the
    backend cannot see.  Over it: how API errors are told apart (errors.go), the
    namespace of a scenario (namespace.go), the secret of a private registry
    (secret.go), the archive of a device (configmap.go) and commands run in a pod
    (execstream.go).  What a watch delivers is a finite stream: the API server
    ends every watch sooner or later. *)

From S2P Require Export K8sConf Services Base64.
From S2P Require Import Shlex.
Local Open Scope string_scope.
Local Open Scope list_scope.
Local Open Scope Z_scope.
Local Open Scope kat_scope.

(** ** Sizes for people (internal/util/bytes.go) *)

Definition sizeName : list string := ["B"; "KB"; "MB"; "GB"; "TB"; "PB"; "EB"; "ZB"; "YB"].

(** [hundredths] of a unit, the trailing zero dropped. *)
Definition two_decimals (hundredths : Z) : string :=
  let frac := hundredths mod 100 in
  Itoa (hundredths / 100) +:+ "."
    +:+ (if frac mod 10 =? 0 then Itoa (frac / 10)
         else (if frac <? 10 then "0" else "") +:+ Itoa frac).

(** The unit is the power of 1024 below the size.  The quotient of the
    logarithms the code takes is that power for every size below [2 ^ 50]; the
    quotient of the size is exact below [2 ^ 53]. *)
Definition HumanReadableBytes (sizeBytes : Z) : result goerror string :=
  if sizeBytes =? 0 then Ok "0 B"
  else if sizeBytes <? 0 then Err (NewValue "math domain error")
  else
    let i := Z.log2 sizeBytes / 10 in
    let p := 2 ^ (10 * i) in
    let hundredths := 100 * sizeBytes / p in
    let rest := 2 * (100 * sizeBytes mod p) in
    let rounded := if (p <? rest) || ((rest =? p) && Z.odd hundredths) then hundredths + 1 else hundredths in
    Ok (two_decimals rounded +:+ " " +:+ nth (Z.to_nat i) sizeName "").

Example human_1 : HumanReadableBytes 3145728 = Ok "3.0 MB".
Proof. reflexivity. Qed.
Example human_2 : HumanReadableBytes 3145729 = Ok "3.0 MB".
Proof. reflexivity. Qed.
Example human_3 : HumanReadableBytes 1126 = Ok "1.1 KB".
Proof. reflexivity. Qed.
Example human_4 : HumanReadableBytes 1034 = Ok "1.01 KB".
Proof. reflexivity. Qed.

(** ** What the client exchanges *)

Record Namespace : Type := mkNamespace { nsName : string; nsLabels : labels; nsPhase : string }.
Record Secret : Type := mkSecret {
  secName : string; secNamespace : string; secLabels : labels; secType : string; secData : labels }.
Record ConfigMap : Type := mkConfigMap { cmName : string; cmData : labels }.

(** A Deployment of one replica; the selector and the pods it makes. *)
Record Deployment : Type := mkDeployment {
  dName : string;
  dNamespace : string;
  dLabels : labels;
  dReplicas : Z;
  dMatchLabels : labels;
  dPodLabels : labels;
  dPodAnnotations : labels;
  dPodSpec : podSpec
}.

(** What [select] takes from a watch and from what it waits for besides: events,
    with their object when it is of the watched kind; the watchdog, when there is
    one; the end of the watch; the end of the context, by its deadline or not. *)
Inductive watchStream (A : Type) : Type :=
| Closed
| Cancelled (deadline : bool)
| Silence (rest : watchStream A)
| Event (type : string) (object : option A) (rest : watchStream A).
Arguments Closed {A}.
Arguments Cancelled {A} _.
Arguments Silence {A} _.
Arguments Event {A} _ _ _.

(** The types of events the backend asks for (k8s.io/apimachinery/pkg/watch). *)
Definition Added : string := "ADDED".
Definition Deleted : string := "DELETED".

Record execRequest : Type := mkExecRequest {
  exNamespace : string;
  exPod : string;
  exCommand : list string;
  exStdin : bool;
  exStderr : bool;
  exTTY : bool
}.

(** What the transport of a command does: the writes to the two sides, the error
    it ends with, and whether the caller's context had ended by then. *)
Record streamed : Type := mkStreamed {
  stWrites : list (bool * string);    (* true: standard error *)
  stErr : option goerror;
  stCancelled : bool
}.

Class KubeClient (W : Type) : Type := {
  NamespaceCreate : Namespace → M W goerror unit;
  NamespaceDelete : string → M W goerror unit;
  NamespaceList : string → M W goerror (list Namespace);
  NamespaceWatch : string → M W goerror (watchStream Namespace);
  SecretCreate : string → Secret → M W goerror unit;
  SecretWatch : string → string → M W goerror (watchStream string);     (* the name of the secret *)
  ConfigMapCreate : string → ConfigMap → M W goerror ConfigMap;
  ConfigMapDelete : string → string → M W goerror unit;
  DeploymentCreate : string → Deployment → M W goerror Deployment;
  DeploymentDelete : string → string → M W goerror unit;
  PodList : string → string → M W goerror (list Pod);
  PodWatch : string → M W goerror Z;                                    (* opens a watch *)
  PodEvents : Z → M W goerror (watchStream Pod);
  NetworkList : string → string → M W goerror (list Network);
  NetworkCreate : string → Network → M W goerror Network;
  NetworkDelete : string → string → M W goerror unit;
  NewExecutor : execRequest → M W goerror unit;
  StreamWithContext : execRequest → option string → M W goerror streamed;
  ServerVersion : M W goerror string;
  StatusCode : goerror → option Z;      (* of an error that is an APIStatus *)
  CodeExitError : goerror → option Z    (* of an error that is one *)
}.

Section api.
Context {W : Type} `{K : KubeClient W}.

(** ** errors.go *)

Definition apiStatusCode (err : goerror) : option Z := find_error StatusCode err.
Definition isAPIException (err : goerror) : bool := bool_decide (is_Some (apiStatusCode err)).
Definition isConflict (err : goerror) : bool := bool_decide (apiStatusCode err = Some 409).
Definition isForbidden (err : goerror) : bool := bool_decide (apiStatusCode err = Some 403).

Definition translateAPI (err : goerror) : goerror :=
  if negb (isAPIException err) then err
  else if is_class CodeKubernetesAPI err then err
  else NewKubernetesAPI err.

(** A call whose error is translated. *)
Definition translated {A} (m : M W goerror A) : M W goerror A := fun w =>
  match m w with
  | (w, Ok a) => (w, Ok a)
  | (w, Err err) => (w, Err (translateAPI err))
  end.

(** A call whose refusal by the API server is no failure. *)
Definition swallowed {A} (m : M W goerror A) : M W goerror (option A) := fun w =>
  match m w with
  | (w, Ok a) => (w, Ok (Some a))
  | (w, Err err) => (w, if isAPIException err then Ok None else Err err)
  end.

(** [ctx.Err()]. *)
Definition context_error (deadline : bool) : goerror :=
  EPlain (if deadline then "context deadline exceeded" else "context canceled").

(** ** namespace.go *)

Definition NamespaceActive : string := "Active".

Fixpoint until_active (events : watchStream Namespace) : result goerror unit :=
  match events with
  | Closed => Ok tt
  | Cancelled deadline => Err (context_error deadline)
  | Silence rest => until_active rest
  | Event _ (Some namespace) rest =>
      if String.eqb namespace.(nsPhase) NamespaceActive then Ok tt else until_active rest
  | Event _ None rest => until_active rest
  end.

Definition Namespace_waitCreation (labHash : string) : M W goerror unit :=
  do* events <- translated (NamespaceWatch (namespaceSelector labHash)) in
  fun w => (w, until_active events).

Definition Namespace_Create (labHash : string) : M W goerror (option Namespace) :=
  let definition := mkNamespace labHash {[ labelApp := labelAppValue ]} "" in
  swallowed (do* _ <- NamespaceCreate definition in
             do* _ <- Namespace_waitCreation labHash in
             sret definition).

Definition GetAll : M W goerror (list Namespace) := translated (NamespaceList (ObjectSelector "")).

Definition GetNamespace (labHash : string) : M W goerror (option Namespace) :=
  do* items <- translated (NamespaceList (namespaceSelector labHash)) in
  sret (List.last (Some <$> items) None).

(** As many deletions as there were namespaces to delete. *)
Fixpoint until_deleted (toDelete : Z) (events : watchStream Namespace) (deleted : Z) : result goerror unit :=
  match events with
  | Closed => Ok tt
  | Cancelled deadline => Err (context_error deadline)
  | Silence rest => until_deleted toDelete rest deleted
  | Event type (Some namespace) rest =>
      let deleted := if String.eqb type Deleted then Strconv.iadd deleted 1 else deleted in
      if deleted =? toDelete then Ok tt else until_deleted toDelete rest deleted
  | Event _ None rest => until_deleted toDelete rest deleted
  end.

Definition waitDeletion (selector : string) : M W goerror unit :=
  do* items <- translated (NamespaceList selector) in
  let toDelete := Z.of_nat (length items) in
  if toDelete =? 0 then sret tt
  else
    do* events <- translated (NamespaceWatch selector) in
    fun w => (w, until_deleted toDelete events 0).

Definition Namespace_Undeploy (labHash : string) : M W goerror unit :=
  do* _ <- swallowed (do* _ <- NamespaceDelete labHash in waitDeletion (namespaceSelector labHash)) in sret tt.

Definition Namespace_Wipe : M W goerror unit :=
  do* namespaces <- GetAll in
  do* _ <- sfor namespaces (fun namespace => translated (NamespaceDelete namespace.(nsName))) in
  waitDeletion (ObjectSelector "").

(** The namespaces a listing goes over (targetNamespaces of both services). *)
Definition targetNamespaces (labHash : string) : M W goerror (list string) :=
  if negb (String.eqb labHash "") then sret [labHash]
  else do* all <- GetAll in sret (nsName <$> all).

(** ** secret.go *)

Definition dockerConfigJSONKey : string := ".dockerconfigjson".
Definition SecretTypeDockerConfigJson : string := "kubernetes.io/dockerconfigjson".

Fixpoint until_added (events : watchStream string) : result goerror unit :=
  match events with
  | Closed => Ok tt
  | Cancelled deadline => Err (context_error deadline)
  | Silence rest => until_added rest
  | Event type (Some _) rest => if String.eqb type Added then Ok tt else until_added rest
  | Event _ None rest => until_added rest
  end.

Definition Secret_waitCreation (labHash name : string) : M W goerror unit :=
  do* events <- SecretWatch labHash ("metadata.name=" +:+ name) in
  fun w => (w, until_added events).

(** The data are one entry. *)
Definition createSecret (labHash name type key value : string) : M W goerror (option Secret) :=
  match DecodeString value with
  | None => sret None
  | Some raw =>
      let definition := mkSecret name labHash {[ labelApp := labelAppValue ]} type {[ key := raw ]} in
      swallowed (do* _ <- SecretCreate labHash definition in
                 do* _ <- Secret_waitCreation labHash name in
                 sret definition)
  end.

Definition stringOrEmpty (p : option string) : string := default "" p.

Definition Secret_Create (dockerConfigJSON : option string) (labHash : string) : M W goerror (list Secret) :=
  let dockerConfig := stringOrEmpty dockerConfigJSON in
  if String.eqb dockerConfig "" then sret []
  else
    do* secret <- createSecret labHash privateRegistrySecretName SecretTypeDockerConfigJson dockerConfigJSONKey dockerConfig in
    sret (match secret with Some secret => [secret] | None => [] end).

(** ** configmap.go *)

Definition MaxConfigMapSize : Z := 3145728.
Definition hostlabKey : string := "hostlab.b64".

(** The archive is made by pack.go, a parameter; [deployment] is the name the
    device has been given. *)
Definition buildForMachine (tarData deployment labHash : string) : result goerror (option ConfigMap) :=
  let size := Z.of_nat (String.length tarData) in
  if size =? 0 then Ok None
  else if MaxConfigMapSize <? size then
    let* maxSize := HumanReadableBytes MaxConfigMapSize in
    let* current := HumanReadableBytes size in
    Err (NewConfigMapTooLarge maxSize current)
  else Ok (Some (mkConfigMap (ConfigMapName deployment labHash) {[ hostlabKey := EncodeToString tarData ]})).

Definition DeployForMachine (tarData deployment labHash : string) : M W goerror (option ConfigMap) := fun w =>
  match buildForMachine tarData deployment labHash with
  | Err err => (w, Err err)
  | Ok None => (w, Ok None)
  | Ok (Some configMap) => (do* created <- ConfigMapCreate labHash configMap in sret (Some created)) w
  end.

(** Its failures are dropped. *)
Definition DeleteForMachine (machineName namespace : string) : M W goerror unit := fun w =>
  ((ConfigMapDelete namespace (ConfigMapName machineName namespace) w).1, Ok tt).

(** ** execstream.go *)

Definition ociRuntimeRE : string := "OCI runtime exec failed".

Record execResult : Type := mkExecResult { Stdout : string; Stderr : string; ExitCode : Z }.

Definition execExitCode (s : streamed) (machineName : string) (command : list string) : result goerror Z :=
  match s.(stErr) with
  | None => Ok 0
  | Some streamErr =>
      if s.(stCancelled) then Err streamErr
      else match find_error CodeExitError streamErr with
           | Some code => Ok code
           | None => if Contains (Error streamErr) ociRuntimeRE
                     then Err (NewMachineBinary (ShlexJoin command) machineName)
                     else Ok 1
           end
  end.

(** What was written to a side; nothing reads standard error unless the request
    asks for it. *)
Definition written_to (err : bool) (s : streamed) : string :=
  string_concat (snd <$> List.filter (fun w => Bool.eqb w.1 err) s.(stWrites)).

Definition exec_stdin (req : execRequest) (stdinBuffer : list string) : option string :=
  if req.(exStdin) then Some (string_concat stdinBuffer) else None.

Definition runExecAll (req : execRequest) (machineName : string) (stdinBuffer : list string) : M W goerror execResult :=
  do* _ <- NewExecutor req in
  do* s <- StreamWithContext req (exec_stdin req stdinBuffer) in
  fun w => (w, let* exitCode := execExitCode s machineName req.(exCommand) in
               Ok (mkExecResult (written_to false s) (if req.(exStderr) then written_to true s else "") exitCode)).

(** *** Streaming

    The frames the transport has yet to hand over, and what it ends with. *)
Record execStream : Type := mkExecStream {
  esFrames : list (bool * string);
  esEnd : streamed;
  esMachine : string;
  esCommand : list string
}.

(** A write of nothing is no frame. *)
Definition frames_of (req : execRequest) (s : streamed) : list (bool * string) :=
  List.filter (fun w => negb (String.eqb w.2 "") && (negb w.1 || req.(exStderr))) s.(stWrites).

Definition newExecStream (req : execRequest) (machineName : string) (stdinBuffer : list string) : M W goerror execStream :=
  do* _ <- NewExecutor req in
  do* s <- StreamWithContext req (exec_stdin req stdinBuffer) in
  sret (mkExecStream (frames_of req s) s machineName req.(exCommand)).

(** The next frame, as the two sides of it, one of them empty; [None] at the end. *)
Definition execStream_Next (s : execStream) : option (string * string) * execStream :=
  match s.(esFrames) with
  | [] => (None, s)
  | (err, chunk) :: frames =>
      (Some (if err then ("", chunk) else (chunk, "")), mkExecStream frames s.(esEnd) s.(esMachine) s.(esCommand))
  end.

Definition execStream_ExitCode (s : execStream) : result goerror Z :=
  execExitCode s.(esEnd) s.(esMachine) s.(esCommand).

(** *** Listing *)

Fixpoint list_pods (namespaces : list string) (selector : string) : M W goerror (list Pod) :=
  match namespaces with
  | [] => sret []
  | namespace :: namespaces =>
      do* items <- translated (PodList namespace selector) in
      do* rest <- list_pods namespaces selector in
      sret (items ++ rest)
  end.

Fixpoint list_networks (namespaces : list string) (selector : string) : M W goerror (list Network) :=
  match namespaces with
  | [] => sret []
  | namespace :: namespaces =>
      do* items <- translated (NetworkList namespace selector) in
      do* rest <- list_networks namespaces selector in
      sret (items ++ rest)
  end.

Definition getPodsByFilters (labHash machineName : string) : M W goerror (list Pod) :=
  do* namespaces <- targetNamespaces labHash in list_pods namespaces (ObjectSelector machineName).

Definition getNetworksByFilters (labHash linkName : string) : M W goerror (list Network) :=
  do* namespaces <- targetNamespaces labHash in list_networks namespaces (ObjectSelector linkName).

Definition existingNetworkIDs : M W goerror (list Z) :=
  do* networks <- getNetworksByFilters "" "" in
  sret (omap (fun network => NetworkVXLANID (Some network)) networks).
End api.
