(* ===== verification/K8s.v ===== *)
(** * The Kubernetes backend: collision domains and devices

    link.go and machine.go over the client of [K8sApi]: collision domains as
    NetworkAttachmentDefinitions, devices as Deployments, and the waits for their
    pods.  The state is the one both backends have ([Services]): the scenario
    heap, the API objects hung on devices and collision domains, and the world of
    the cluster.  A wait runs on a goroutine of its own in the code; here it
    announces its start before the batch it waits for and reads its events after
    it.  Log lines are left out. *)

From S2P Require Export K8sApi.
From S2P Require Import Shlex.
Local Open Scope string_scope.
Local Open Scope list_scope.
Local Open Scope Z_scope.
Local Open Scope kat_scope.

(** What the backend announces to subscribers. *)
Inductive notice : Type :=
| LinksDeployStarted (links : list loc) | LinkDeployed (link : loc) | LinksDeployEnded
| LinksUndeployStarted (networks : list Network) | LinkUndeployed (network : Network) | LinksUndeployEnded
| MachinesWithVolumes (lab : loc) (machines : list loc)
| MachinesDeployStarted (machines : list loc) | MachineDeployed (name : string) | MachinesDeployEnded
| MachinesUndeployStarted (names : list string) | MachineUndeployed (name : string) | MachinesUndeployEnded.

(** What [machine.APIObject] may be: the Deployment it was created as, or the pod
    it was read from. *)
Inductive machineObject : Type := OfDeployment (d : Deployment) | OfPod (p : Pod).
Definition object_labels (o : machineObject) : labels :=
  match o with OfDeployment d => d.(dLabels) | OfPod p => p.(pLabels) end.
Definition object_namespace (o : machineObject) : string :=
  match o with OfDeployment d => d.(dNamespace) | OfPod p => p.(pNamespace) end.

Definition rpFilterSysctl (iface : string) : string := "net.ipv4.conf." +:+ iface +:+ ".rp_filter".
Definition maxRestartCount : Z := 3.
Definition mountVolumesOption : string := "_mount_volumes".
Definition realNameMeta : string := "real_name".

(** [strings.ToUpper] of what is upper-cased here, which is ASCII. *)
Definition upper_byte (c : ascii) : ascii :=
  if (97 <=? zb c) && (zb c <=? 122) then az (zb c - 32) else c.
Definition ToUpper (s : string) : string := bytes_string (upper_byte <$> string_bytes s).

(** The conversion to [int32]. *)
Definition int32 (z : Z) : Z := (z + 2 ^ 31) mod 2 ^ 32 - 2 ^ 31.

Record execOptions : Type := mkExecOptions { eoTTY : bool; eoStdin : bool; eoStdinBuffer : list string; eoStderr : bool }.
Definition noOptions : execOptions := mkExecOptions false false [] false.

(** The pods left by a selection, and the names waited for. *)
Definition podLabel (pod : Pod) : string := default "" (pod.(pLabels) !! labelName).

Section kubernetes.
Context {F : Type} (fsys : FileSystem F) `{TextCases} (cwd : option string).
Context {W : Type} `{K : KubeClient W}.

Definition KM (A : Type) : Type := M (dstate F machineObject Network W) failure A.

(** The settings; the dispatcher with its subscribers, which may do anything; the
    user of the cluster ([seed]); the size of a batch and the permissions of a
    directory, which the host answers; the archive of a device (pack.go), random
    port names and quantities of resources (k8s.io/apimachinery), in the form
    the API server gives them. *)
Class Cluster : Type := {
  settings : Settings.Settings;
  seed : string;
  PoolSize : Z;
  dispatch : notice → KM unit;
  CheckDirectoryPermissions : string → string → result goerror (list string);
  packData : loc → KM string;
  portName : W → W * string;
  ParseQuantity : string → result goerror string
}.

Context {B : Cluster}.

Definition runChunked {A} (items : list A) (name : A → KM string) (task : A → KM unit) : KM unit :=
  runBatches PoolSize items name task.

(** ** Collision domains (link.go) *)

(** A network of the collision domain is adopted, the last one listed, and made
    when there is none. *)
Definition Link_Create (link : loc) (networkID : Z) : KM unit :=
  do* k <- link_of link in
  do* lab <- lab_of k.(lLab) in
  do* networks <- api (getNetworksByFilters lab.(LabHash) k.(lName)) in
  match List.last (Some <$> networks) None with
  | Some network => set_network link (Some network)
  | None =>
      let definition := NetworkDefinition (NetworkName settings.(Settings.sNetPrefix) k.(lName)) k.(lName)
                                          lab.(LabHash) networkID in
      do* created <- api (translated (NetworkCreate lab.(LabHash) definition)) in
      set_network link (Some created)
  end.

Definition deployLink (networkID : Z) (link : loc) : KM unit :=
  do* _ <- Link_Create link networkID in
  dispatch (LinkDeployed link).

(** The numbers of the collision domains, in their order.  The search for one
    ends when a number is left, within as many steps as numbers are taken;
    [None] is a search that does not. *)
Definition allocate_links (existing : list Z) (names : list string) : option (list Z) :=
  snd <$> allocate_all (S (length existing + length names)) names (newVNIAllocator seed existing).

Fixpoint names_with {A} (name : A → KM string) (l : list A) : KM (list string) :=
  match l with
  | [] => sret []
  | x :: l => do* n <- name x in do* ns <- names_with name l in sret (n :: ns)
  end.

Definition DeployLinks (lab : loc) (selected excluded : NameSet) : KM (option unit) :=
  if (0 <? set_len selected) && (0 <? set_len excluded) then fail ErrSelectedOrExcludedLinks
  else
    do* b <- lab_of lab in
    do* links <- filterLinks (Values b.(labLinks)) selected excluded in
    if bool_decide (links = []) then sret (Some tt)
    else
      do* _ <- dispatch (LinksDeployStarted links) in
      do* existing <- api existingNetworkIDs in
      do* names <- names_with linkItemName links in
      match allocate_links existing names with
      | None => sret None
      | Some networkIDs =>
          do* _ <- runChunked (zip links networkIDs) (fun x => linkItemName x.1) (fun x => deployLink x.2 x.1) in
          do* _ <- dispatch LinksDeployEnded in
          sret (Some tt)
      end.

Definition undeployLink (network : Network) : KM unit :=
  do* _ <- api (swallowed (NetworkDelete (NetworkNamespace (Some network)) (NetworkNameOf (Some network)))) in
  dispatch (LinkUndeployed network).

(** [selected] are names of networks. *)
Definition Link_Undeploy (labHash : string) (selected : NameSet) : KM unit :=
  do* networks <- api (getNetworksByFilters labHash "") in
  let networks := match selected with
                  | Some _ => List.filter (fun n => set_has selected (NetworkNameOf (Some n))) networks
                  | None => networks
                  end in
  if bool_decide (networks = []) then sret tt
  else
    do* _ <- dispatch (LinksUndeployStarted networks) in
    do* _ <- runChunked networks (pure_name networkItemName) undeployLink in
    dispatch LinksUndeployEnded.

Definition Link_Wipe : KM unit :=
  do* networks <- api (getNetworksByFilters "" "") in
  runChunked networks (pure_name networkItemName) undeployLink.

(** ** The Deployment of a device (machine.go) *)

Definition set_all (l : list (string * Scalar)) (m : OrderedMap string Scalar) : OrderedMap string Scalar :=
  foldl (fun m e => (SetKey m e.1 e.2).1) m l.

Definition default_sysctls : list (string * Scalar) :=
  ((fun iface => (rpFilterSysctl iface, Int 0)) <$> ["all"; "default"; "lo"])
    ++ [("net.ipv4.ip_forward", Int 1); ("net.ipv4.icmp_ratelimit", Int 0)].

Definition ipv6_sysctls (ipv6 : bool) : list (string * Scalar) :=
  if ipv6
  then [("net.ipv6.conf.all.forwarding", Int 1); ("net.ipv6.conf.all.accept_ra", Int 0);
        ("net.ipv6.icmp.ratelimit", Int 0); ("net.ipv6.conf.default.disable_ipv6", Int 0);
        ("net.ipv6.conf.all.disable_ipv6", Int 0)]
  else [("net.ipv6.conf.default.disable_ipv6", Int 1); ("net.ipv6.conf.all.disable_ipv6", Int 1);
        ("net.ipv6.conf.default.forwarding", Int 0); ("net.ipv6.conf.all.forwarding", Int 0)].

Definition merged_sysctls (ipv6 : bool) (own : list (string * Scalar)) : OrderedMap string Scalar :=
  set_all (default_sysctls ++ ipv6_sysctls ipv6 ++ own) NewOrderedMap.

Definition mergeSysctls (machine : loc) : KM unit :=
  do* m <- machine_of machine in
  do* lab <- lab_of m.(mLab) in
  do* ipv6 <- dgo (IsIPv6Enabled lab m) in
  update_meta machine (fun meta => set_Sysctls (merged_sysctls ipv6 (Entries meta.(Sysctls))) meta).

Definition realName (m : Machine) : string :=
  match Get m.(mMeta).(Extras) realNameMeta with Some value => scalar_string value | None => "" end.

Fixpoint mount_volumes (idx : Z) (volumes : list (string * Volume)) : result goerror (list volumeMount) :=
  match volumes with
  | [] => Ok []
  | (hostPath, v) :: volumes =>
      let* missing := CheckDirectoryPermissions hostPath v.(Mode) in
      match missing with
      | _ :: _ => Err (NewVolumePermission hostPath v.(GuestPath) missing)
      | [] =>
          let* mounts := mount_volumes (idx + 1) volumes in
          Ok (mkMount ("volume" +:+ Itoa idx) v.(GuestPath) (String.eqb v.(Mode) "ro") :: mounts)
      end
  end.

Definition volumeMounts (lab : Lab F) (m : Machine) (configMap : option ConfigMap) : result goerror (list volumeMount) :=
  let fixed :=
    match configMap with Some _ => [mkMount "hostlab" "/tmp/kathara" false] | None => [] end
    ++ (if settings.(Settings.sHostShared) then [mkMount "shared" "/shared" false] else []) in
  match GetVolumes lab m with
  | Ok volumes => let* mounts := mount_volumes 0 (Entries volumes) in Ok (fixed ++ mounts)
  | Err err => if is_mount_denied err then Ok fixed else Err err
  end.

Fixpoint containerPorts (ports : list (PortKey * Z)) : KM (list containerPort) :=
  match ports with
  | [] => sret []
  | ((hostPort, protocol), value) :: ports =>
      do* name <- api (fun w => let '(w, name) := portName w in (w, Ok name)) in
      do* rest <- containerPorts ports in
      sret (mkPort name (int32 value) (int32 hostPort) (ToUpper protocol) :: rest)
  end.

Definition resourceLimits (lab : Lab F) (m : Machine) : result goerror (gmap string string) :=
  let* memory := GetMem lab m in
  let* cpus := GetCPU (f64_of_Z 1000) lab m in
  let* limits :=
    if String.eqb memory "" then Ok ∅
    else match ParseQuantity (ToUpper memory) with
         | Ok quantity => Ok {[ "memory" := quantity ]}
         | Err err => Err (NewKubernetesAPI err)
         end in
  match cpus with
  | Some cpus => if cpus =? 0 then Ok limits
                 else let* quantity := ParseQuantity (Itoa cpus +:+ "m") in Ok (<[ "cpu" := quantity ]> limits)
  | None => Ok limits
  end.

Definition entrypoint (m : Machine) : result goerror (option (list string)) :=
  if IsSet m.(mMeta).(Entrypoint)
  then let* words := ShlexSplit (scalar_string m.(mMeta).(Entrypoint)) in Ok (Some words)
  else Ok None.

Definition containerArgs (m : Machine) : result goerror (option (list string)) :=
  if IsSet m.(mMeta).(Args) && Truthy m.(mMeta).(Args) then
    match AsStrings m.(mMeta).(Args) with
    | Some list => Ok (Some list)
    | None => let* words := ShlexSplit (scalar_string m.(mMeta).(Args)) in Ok (Some words)
    end
  else Ok None.

(** The annotation loop; the interfaces are on deployed collision domains. *)
Fixpoint attachments_of (namespace : string) (ifs : list Interface) : KM (list podNetworkAttachment) :=
  match ifs with
  | [] => sret []
  | iface :: ifs =>
      match iface.(iLink) with
      | None => fail (newPyAttributeError "link")
      | Some l =>
          do* k <- link_of l in
          do* network <- networkOf l in
          match network with
          | None => fail newPySubscriptError
          | Some network =>
              do* rest <- attachments_of namespace ifs in
              sret (mkAttachment (NetworkNameOf (Some network)) namespace ("net" +:+ Itoa iface.(Number)) k.(lName)
                                 iface.(MAC) :: rest)
          end
      end
  end.

Definition networkAttachments (m : Machine) : KM string :=
  do* lab <- lab_of m.(mLab) in
  do* attachments <- attachments_of lab.(LabHash) m.(interfaces) in
  sret (encodeNetworkAttachments attachments).

(** Every declared volume, mounted or not. *)
Fixpoint declared_volumes (idx : Z) (volumes : list (string * Volume)) : list (string * volumeSource) :=
  match volumes with
  | [] => []
  | (hostPath, _) :: volumes => ("volume" +:+ Itoa idx, FromHostPath hostPath) :: declared_volumes (idx + 1) volumes
  end.

Definition podVolumes (m : Machine) (configMap : option ConfigMap) : list (string * volumeSource) :=
  match configMap with Some configMap => [("hostlab", FromConfigMap configMap.(cmName))] | None => [] end
  ++ (if settings.(Settings.sHostShared) then [("shared", FromHostPath "/home/shared")] else [])
  ++ declared_volumes 0 (Entries m.(mMeta).(Volumes)).

Definition machineCommands (m : Machine) : string :=
  match m.(mMeta).(ExecCommands) with [] => ":" | commands => str_join "; " commands end.

Definition imagePullSecrets : list string :=
  if String.eqb (stringOrEmpty settings.(Settings.sDockerConfigJSON)) "" then [] else [privateRegistrySecretName].

Definition buildDefinition (machine : loc) (configMap : option ConfigMap) : KM Deployment :=
  do* m <- machine_of machine in
  do* lab <- lab_of m.(mLab) in
  do* mounts <- dgo (volumeMounts lab m configMap) in
  do* ports <- containerPorts (Entries m.(mMeta).(Ports)) in
  do* limits <- dgo (resourceLimits lab m) in
  let shell := GetShell lab m in
  do* sysctlCommands <- dgo (SysctlCommands m.(mMeta).(Sysctls)) in
  do* command <- dgo (entrypoint m) in
  do* args <- dgo (containerArgs m) in
  do* attachments <- networkAttachments m in
  let container :=
    mkKContainer (realName m) (GetImage lab m)
      [shell; "-c"; StartupCommandsString m.(mName) sysctlCommands (machineCommands m)]
      true true (stringOrEmpty settings.(Settings.sImagePullPolicy)) ports limits mounts true
      ((megalosShellEnv, shell) :: Entries m.(mMeta).(Envs)) command args in
  let podLabels := ObjectLabels m.(mName) in
  sret (mkDeployment (realName m) "" podLabels 1 podLabels podLabels {[ networkAttachmentAnnotation := attachments ]}
          (mkPodSpec [container] (realName m) "None" ["127.0.0.1"] (podVolumes m configMap) imagePullSecrets "")).

Definition translateCreateError (err : goerror) (machineName : string) : goerror :=
  if negb (isAPIException err) then err
  else if isConflict err then NewMachineAlreadyExists machineName
  else translateAPI err.

(** A part of [Create] whose errors are translated for the device. *)
Definition creating {A} (machineName : string) (m : KM A) : KM A := fun s =>
  match m s with
  | (s, Err (Go err)) => (s, Err (Go (translateCreateError err machineName)))
  | r => r
  end.

Definition Create (machine : loc) : KM unit :=
  do* m <- machine_of machine in
  do* lab <- lab_of m.(mLab) in
  do* _ <- match GlobalMachineMetadata lab "exec" with
           | Some execCommand => do* _ <- hp (Machine_AddMeta cwd machine "exec" (scalar_string execCommand)) in sret tt
           | None => sret tt
           end in
  do* _ <- mergeSysctls machine in
  do* _ <- hp (Machine_AddMeta cwd machine realNameMeta (DeploymentName settings.(Settings.sDevicePrefix) m.(mName))) in
  do* m <- machine_of machine in
  do* created <- creating m.(mName) (
    do* tarData <- packData machine in
    do* configMap <- api (DeployForMachine tarData (realName m) lab.(LabHash)) in
    do* definition <- buildDefinition machine configMap in
    api (DeploymentCreate lab.(LabHash) definition)) in
  set_container machine (OfDeployment created).

(** ** The wait for the pods *)

(** A failed announcement of the wait is logged and forgotten. *)
Definition announce (n : notice) : KM unit := do* _ <- try_ (dispatch n) in sret tt.

Definition watches (watched : NameSet) (name : string) : bool := (set_len watched =? 0) || set_has watched name.

(** Ready and failed after the event of a watched pod. *)
Definition pod_reported (name : string) (pod : Pod) (ready failed : Z) : KM (Z * Z) :=
  match pod.(pStatuses) with
  | [] => sret (ready, failed)
  | status :: _ =>
      if status.(csReady) then
        do* _ <- announce (MachineDeployed name) in sret (Strconv.iadd ready 1, failed)
      else if maxRestartCount <=? status.(csRestartCount) then sret (ready, Strconv.iadd failed 1)
      else sret (ready, failed)
  end.

(** The watchdog or the caller's context, when one of them ends the wait: the
    cause the context is cancelled with, true for a deadline. *)
Fixpoint startup_loop (total : Z) (watched : NameSet) (events : watchStream Pod) (ready failed : Z)
    : KM (option bool) :=
  match events with
  | Closed => sret None
  | Cancelled deadline => sret (Some deadline)
  | Silence _ => sret (Some true)
  | Event _ None rest => startup_loop total watched rest ready failed
  | Event _ (Some pod) rest =>
      match pod.(pLabels) !! labelName with
      | None => startup_loop total watched rest ready failed
      | Some name =>
          do* counts <- (if watches watched name then pod_reported name pod ready failed else sret (ready, failed)) in
          let '(ready, failed) := counts in
          if Strconv.iadd ready failed =? total then
            do* _ <- (if ready =? total then announce MachinesDeployEnded else sret tt) in sret None
          else startup_loop total watched rest ready failed
      end
  end.

(** The devices the wait is for, read from the scenario. *)
Definition startup_items (lab : loc) (watched : NameSet) : KM (list loc) :=
  do* b <- lab_of lab in
  keep_named machineItemName (watches watched) (Values b.(labMachines)).

(** ** Deploying *)

Definition DeployMachines (lab : loc) (selected excluded : NameSet) : KM unit :=
  if (0 <? set_len selected) && (0 <? set_len excluded) then fail ErrSelectedOrExcludedMachines
  else
    do* b <- lab_of lab in
    do* machines <- filterMachines (Values b.(labMachines)) selected excluded in
    let policy := settings.(Settings.sVolumeMountPolicy) in
    let canMount := String.eqb policy "Prompt" || String.eqb policy "Always" in
    do* _ <- hp (AddOption lab mountVolumesOption (Bool canMount)) in
    do* withVolumes <- with_volumes machines in
    do* _ <- (if bool_decide (withVolumes = []) then sret tt else dispatch (MachinesWithVolumes lab withVolumes)) in
    do* watched <-
      (if (0 <? set_len selected) || (0 <? set_len excluded)
       then do* names <- names_with machineItemName machines in sret (NewNameSet names)
       else sret None) in
    do* b <- lab_of lab in
    do* watcher <- api (translated (PodWatch b.(LabHash))) in
    do* items <- startup_items lab watched in
    do* _ <- announce (MachinesDeployStarted items) in
    do* b <- lab_of lab in
    do* _ <- (if negb b.(HasDependencies) then runChunked machines machineItemName Create else sfor machines Create) in
    do* events <- api (PodEvents watcher) in
    do* cause <- startup_loop (Z.of_nat (length items)) watched events 0 0 in
    if bool_decide (cause = Some true) then fail (context_error true)
    else hp (AddOption lab mountVolumesOption (Bool canMount)).

(** ** Removing devices *)

Fixpoint shutdown_loop (watched : gset string) (events : watchStream Pod) (cleaned : Z) : KM unit :=
  match events with
  | Closed | Cancelled _ | Silence _ => sret tt
  | Event _ None rest => shutdown_loop watched rest cleaned
  | Event type (Some pod) rest =>
      match pod.(pLabels) !! labelName with
      | None => shutdown_loop watched rest cleaned
      | Some name =>
          do* cleaned <-
            (if bool_decide (name ∈ watched) && String.eqb type Deleted
             then do* _ <- announce (MachineUndeployed name) in sret (Strconv.iadd cleaned 1)
             else sret cleaned) in
          if cleaned =? Z.of_nat (size watched) then announce MachinesUndeployEnded
          else shutdown_loop watched rest cleaned
      end
  end.

(** The Deployment a pod was made from, its archive, and nothing else. *)
Definition exec (labHash machineName : string) (command : list string) (opts : execOptions) : KM execResult :=
  do* pods <- api (translated (getPodsByFilters labHash machineName)) in
  match List.last (Some <$> pods) None with
  | None => fail (NewMachineNotRunning machineName)
  | Some pod =>
      api (runExecAll (mkExecRequest labHash pod.(pName) command opts.(eoStdin) opts.(eoStderr) opts.(eoTTY))
                      machineName opts.(eoStdinBuffer))
  end.

Definition execStream (labHash machineName : string) (command : list string) (opts : execOptions) : KM K8sApi.execStream :=
  do* pods <- api (translated (getPodsByFilters labHash machineName)) in
  match List.last (Some <$> pods) None with
  | None => fail (NewMachineNotRunning machineName)
  | Some pod =>
      api (newExecStream (mkExecRequest labHash pod.(pName) command opts.(eoStdin) opts.(eoStderr) opts.(eoTTY))
                         machineName opts.(eoStdinBuffer))
  end.

(** The shell a pod was deployed with, or the default one. *)
Definition pod_shell (pod : Pod) : string :=
  let shell := EnvVarValueFromPod (Some pod) megalosShellEnv in
  if String.eqb shell "" then settings.(Settings.sDeviceShell) else shell.

(** A shutdown script that cannot run because the device is gone is no failure. *)
Definition shutdown_failure (err : goerror) : option goerror :=
  if isAPIException err || is_class CodeKubernetesAPI err || is_class CodeMachineNotRunning err then None
  else Some err.

Definition undeployMachine (pod : Pod) : KM unit :=
  let machineName := podLabel pod in
  let machineNamespace := pod.(pNamespace) in
  do* ran <- try_ (exec machineNamespace machineName [pod_shell pod; "-c"; ShutdownCommandsString machineName] noOptions) in
  do* _ <- match ran with
           | Ok _ => sret tt
           | Err err => match shutdown_failure err with Some err => fail err | None => sret tt end
           end in
  let deploymentName := DeploymentName settings.(Settings.sDevicePrefix) machineName in
  do* _ <- api (DeleteForMachine deploymentName machineNamespace) in
  api (translated (DeploymentDelete machineNamespace deploymentName)).

(** The names of the pods; a pod without one is an error. *)
Fixpoint pod_names (pods : list Pod) : result goerror (gset string) :=
  match pods with
  | [] => Ok ∅
  | pod :: pods =>
      match pod.(pLabels) !! labelName with
      | None => Err (newPyKeyError labelName)
      | Some name => let* names := pod_names pods in Ok ({[ name ]} ∪ names)
      end
  end.

(** The pods to remove and the names to wait for. *)
Definition undeploy_chosen (selected excluded : NameSet) (pods : list Pod) (names : gset string) : list Pod * gset string :=
  match selected, excluded with
  | Some sel, _ =>
      (List.filter (fun pod => set_has selected (podLabel pod)) pods, if 0 <? set_len selected then sel else names)
  | None, Some ex => (List.filter (fun pod => negb (set_has excluded (podLabel pod))) pods, names ∖ ex)
  | None, None => (pods, names)
  end.

Definition Machine_Undeploy (labHash : string) (selected excluded : NameSet) : KM unit :=
  match selected, excluded with
  | Some _, Some _ => fail ErrSelectedOrExcludedMachines
  | _, _ =>
      do* pods <- api (getPodsByFilters labHash "") in
      do* names <- dgo (pod_names pods) in
      let '(pods, watched) := undeploy_chosen selected excluded pods names in
      if bool_decide (pods = []) then sret tt
      else
        do* watcher <- api (translated (PodWatch labHash)) in
        do* _ <- announce (MachinesUndeployStarted (sort_strings (elements watched))) in
        do* _ <- runChunked pods (pure_name podItemName) undeployMachine in
        do* events <- api (PodEvents watcher) in
        shutdown_loop watched events 0
  end.

Definition Machine_Wipe : KM unit :=
  do* pods <- api (getPodsByFilters "" "") in
  runChunked pods (pure_name podItemName) undeployMachine.

(** ** Terminals and files *)

(** What is left of a stream is read to its end. *)
Fixpoint drain (frames : list (bool * string)) : string :=
  match frames with
  | [] => ""
  | (err, chunk) :: frames => (if err then "" else chunk) +:+ drain frames
  end.

(** The banners and the log between them, as they are written. *)
Definition printStartupLog (labHash machineName : string) : KM string :=
  do* command <- dgo (ShlexSplit "/bin/cat /var/log/shared.log /var/log/startup.log /var/kathara/*") in
  do* stream <- execStream labHash machineName command noOptions in
  sret ("--- Startup Commands Log" +:+ nl +:+ nl +:+ drain stream.(esFrames)
          +:+ nl +:+ "--- End Startup Commands Log" +:+ nl +:+ nl).

(** What is printed, and the command the terminal is opened on. *)
Definition Connect (labHash machineName : string) (opts : ConnectTTYOptions) : KM (string * execRequest) :=
  do* pods <- api (getPodsByFilters labHash machineName) in
  match List.last (Some <$> pods) None with
  | None => fail (NewMachineNotRunning machineName)
  | Some pod =>
      if negb (Contains pod.(pPhase) "Running") then fail (NewMachineNotReady machineName)
      else
        let shellSource := if String.eqb opts.(ttyShell) "" then pod_shell pod else opts.(ttyShell) in
        do* shell <- dgo (ShlexSplit shellSource) in
        do* log <- (if opts.(ttyLogs) && settings.(Settings.sPrintStartupLog) then printStartupLog labHash machineName
                    else sret "") in
        sret (log, mkExecRequest labHash pod.(pName) shell true true true)
  end.

Definition copyFiles (obj : machineObject) (path tarData : string) : KM unit :=
  do* _ <- exec (object_namespace obj) (default "" (object_labels obj !! labelName)) ["tar"; "xvfz"; "-"; "-C"; path]
                (mkExecOptions false true [tarData] false) in
  sret tt.

(** The archive; its extraction on the host is left out. *)
Definition retrieveFiles (obj : machineObject) (src : string) : KM string :=
  do* stream <- execStream (object_namespace obj) (default "" (object_labels obj !! labelName)) ["tar"; "cf"; "-"; src]
                           noOptions in
  sret (drain stream.(esFrames)).
End kubernetes.
