(* ===== verification/K8sMgr.v ===== *)
(** * The Kubernetes manager (backend/kubernetes/manager.go, stats.go, config.go)

    What a client calls: every method resolves the namespace of the scenario it is
    given, in lower case, then orders the operations on namespaces, collision
    domains and devices of [K8s].  A device and a collision domain of the model
    always have a scenario, so the refusals of one without are not modelled. *)

From S2P Require Export K8s.
From S2P Require Import Shlex.
Local Open Scope string_scope.
Local Open Scope list_scope.
Local Open Scope Z_scope.
Local Open Scope kat_scope.

Section manager.
Context {F : Type} (fsys : FileSystem F) `{TextCases} (cwd : option string).
Context {W : Type} `{K : KubeClient W} {B : K8s.Cluster (F := F) (W := W)}.
Local Notation KM := (@K8s.KM F W).

(** ** The scenario a call is about *)

Definition resolveRequired (ref : LabRef) : KM string :=
  do* _ <- dgo (RequireSingle ref) in do* hash <- resolveHash ref in sret (ToLower hash).

Definition resolveAtMostOne (ref : LabRef) : KM string :=
  do* _ <- dgo (AtMostOne ref) in do* hash <- resolveHash ref in sret (ToLower hash).

Definition lowerLabHash (lab : loc) : KM unit :=
  do* b <- lab_of lab in hp (putLab lab (set_labName b.(Machine.labName) (ToLower b.(LabHash)) b)).

(** ** Deploying *)

Definition interfaceLinkNames (m : Machine) : KM NameSet :=
  do* names <- hp (iface_links m.(interfaces) ∅) in sret (Some names).

Definition create_namespace (lab : loc) : KM unit :=
  do* b <- lab_of lab in do* _ <- api (Namespace_Create b.(LabHash)) in sret tt.

Definition create_secret (lab : loc) : KM unit :=
  do* b <- lab_of lab in
  do* _ <- api (Secret_Create settings.(Settings.sDockerConfigJSON) b.(LabHash)) in sret tt.

Definition DeployMachine (machine : loc) : KM (option unit) :=
  do* m <- machine_of machine in
  do* _ <- hp (Machine_Check machine) in
  do* _ <- lowerLabHash m.(mLab) in
  do* _ <- create_namespace m.(mLab) in
  do* _ <- create_secret m.(mLab) in
  do* links <- interfaceLinkNames m in
  do* found <- DeployLinks m.(mLab) links None in
  match found with
  | None => sret None
  | Some _ => do* _ <- DeployMachines cwd m.(mLab) (NewNameSet [m.(mName)]) None in sret (Some tt)
  end.

Definition DeployLink (link : loc) : KM (option unit) :=
  do* k <- link_of link in
  do* _ <- lowerLabHash k.(lLab) in
  do* _ <- create_namespace k.(lLab) in
  DeployLinks k.(lLab) (NewNameSet [k.(lName)]) None.

(** Every error of a batch for itself; a batch may hold batches. *)
Fixpoint translateForbidden (err : goerror) : goerror :=
  match err with
  | EJoin ((_ :: _) as errs) => EJoin (translateForbidden <$> errs)
  | _ => if negb (isAPIException err) then err
         else if isForbidden err then ErrLabTerminating
         else translateAPI err
  end.

(** A part of [DeployLab] whose errors are translated. *)
Definition forbidden {A} (m : KM A) : KM A := fun s =>
  match m s with
  | (s, Err (Go err)) => (s, Err (Go (translateForbidden err)))
  | r => r
  end.

Definition DeployLab (lab : loc) (opts : DeployLabOptions) : KM (option unit) :=
  let selected := opts.(SelectedMachines) in
  let excluded := opts.(ExcludedMachines) in
  do* _ <- check_selection lab selected excluded in
  do* _ <- lowerLabHash lab in
  do* links <- chosen_links lab selected excluded in
  do* _ <- create_namespace lab in
  do* _ <- create_secret lab in
  do* found <- forbidden (DeployLinks lab links.1 links.2) in
  match found with
  | None => sret None
  | Some _ => do* _ <- forbidden (DeployMachines cwd lab selected excluded) in sret (Some tt)
  end.

(** A pod's attachments are fixed when it is made. *)
Definition ConnectMachineToLink (machine link : loc) (macAddress : string) : KM unit := fail ErrUpdateRunningDevice.
Definition DisconnectMachineFromLink (machine link : loc) (keepLink : bool) : KM unit := fail ErrUpdateRunningDevice.

(** ** Undeploying *)

Definition not_terminating (pod : Pod) : bool := negb (Contains pod.(pPhase) "Terminating").

Section attachments.
Context (json_error : string → string).

Fixpoint attachedNetworkNames (pods : list Pod) : result goerror (gset string) :=
  match pods with
  | [] => Ok ∅
  | pod :: pods =>
      let* attachments := podNetworkAttachments json_error pod in
      let* names := attachedNetworkNames pods in
      Ok (list_to_set (aName <$> attachments) ∪ names)
  end.

(** The networks of a device's interfaces that no other running pod is on. *)
Fixpoint abandoned_networks (ifs : list Interface) (runningNetworks : gset string) : KM (gset string) :=
  match ifs with
  | [] => sret ∅
  | iface :: ifs =>
      match iface.(iLink) with
      | None => fail (newPyAttributeError "link")
      | Some l =>
          do* k <- link_of l in
          let name := NetworkName settings.(Settings.sNetPrefix) k.(lName) in
          do* rest <- abandoned_networks ifs runningNetworks in
          sret (if bool_decide (name ∈ runningNetworks) then rest else {[ name ]} ∪ rest)
      end
  end.

Definition UndeployMachine (machine : loc) (keepLinks : bool) : KM unit :=
  do* m <- machine_of machine in
  do* _ <- lowerLabHash m.(mLab) in
  do* b <- lab_of m.(mLab) in
  do* pods <- api (getPodsByFilters b.(LabHash) "") in
  let running := List.filter (fun pod => not_terminating pod && negb (String.eqb (podLabel pod) m.(mName))) pods in
  do* networksToDelete <-
    (if keepLinks then sret None
     else
       do* runningNetworks <- dgo (attachedNetworkNames running) in
       do* names <- abandoned_networks m.(interfaces) runningNetworks in
       sret (Some names)) in
  do* _ <- Machine_Undeploy b.(LabHash) (NewNameSet [m.(mName)]) None in
  do* _ <- (if keepLinks then sret tt else Link_Undeploy b.(LabHash) networksToDelete) in
  if bool_decide (running = []) && negb keepLinks then api (Namespace_Undeploy b.(LabHash)) else sret tt.

(** Whether some pod is on the network; the first pod that cannot be read decides. *)
Fixpoint network_in_use (pods : list Pod) (networkName : string) : result goerror bool :=
  match pods with
  | [] => Ok false
  | pod :: pods =>
      let* attachments := podNetworkAttachments json_error pod in
      if existsb (fun a => String.eqb a.(aName) networkName) attachments then Ok true
      else network_in_use pods networkName
  end.

Definition UndeployLink (link : loc) : KM unit :=
  do* k <- link_of link in
  do* _ <- lowerLabHash k.(lLab) in
  let networkName := NetworkName settings.(Settings.sNetPrefix) k.(lName) in
  do* b <- lab_of k.(lLab) in
  do* pods <- api (getPodsByFilters b.(LabHash) "") in
  do* used <- dgo (network_in_use (List.filter not_terminating pods) networkName) in
  if used then sret tt else Link_Undeploy b.(LabHash) (NewNameSet [networkName]).

(** Whether a pod stays when the devices [selected] go, or all but [excluded]. *)
Definition survives (selected excluded : NameSet) (name : string) : bool :=
  match selected with Some _ => negb (set_has selected name) | None => false end
  || match excluded with Some _ => set_has excluded name | None => false end.

(** The networks of the pods that stay.  Every pod is read, be it to stay or not. *)
Fixpoint survivors (selected excluded : NameSet) (pods : list Pod) : result goerror (gset string) :=
  match pods with
  | [] => Ok ∅
  | pod :: pods =>
      let* attachments := podNetworkAttachments json_error pod in
      let* names := survivors selected excluded pods in
      Ok (if survives selected excluded (podLabel pod) then list_to_set (aName <$> attachments) ∪ names else names)
  end.

Definition network_names (networks : list Network) : gset string :=
  list_to_set ((fun n => NetworkNameOf (Some n)) <$> networks).

(** What a selection of devices leaves behind: the networks listed, those no
    remaining pod is on, and the running devices. *)
Definition machine_derived (labHash : string) (selected excluded : NameSet)
    : KM (option (list Network) * NameSet * gset string) :=
  if (0 <? set_len selected) || (0 <? set_len excluded) then
    do* networks <- api (getNetworksByFilters labHash "") in
    do* pods <- api (getPodsByFilters labHash "") in
    let running := List.filter not_terminating pods in
    do* staying <- dgo (survivors selected excluded running) in
    sret (Some networks, Some (network_names networks ∖ staying), list_to_set (podLabel <$> running))
  else sret (None, None, ∅).

(** The networks of the collision domains picked, cut down to what the devices
    leave behind unless that is nothing.  Go lists again when the slice is nil,
    which it also is for no network. *)
Definition link_derived (labHash : string) (selectedLinks : NameSet) (networks : option (list Network))
    (networksToDelete : NameSet) : KM NameSet :=
  match selectedLinks with
  | None => sret networksToDelete
  | Some _ =>
      do* networks <- match networks with
                      | Some ((_ :: _) as networks) => sret networks
                      | _ => api (getNetworksByFilters labHash "")
                      end in
      let selectedNetworks := network_names (List.filter (fun n => set_has selectedLinks (NetworkLinkName (Some n))) networks) in
      sret (match networksToDelete with
            | Some names => if 0 <? set_len networksToDelete then Some (names ∩ selectedNetworks) else Some selectedNetworks
            | None => Some selectedNetworks
            end)
  end.

Definition anyOutside (running : gset string) (selected : NameSet) : bool :=
  existsb (fun name => negb (set_has selected name)) (elements running).
Definition anyInside (running : gset string) (excluded : NameSet) : bool :=
  existsb (set_has excluded) (elements running).

Definition undeploys_namespace (selected excluded selectedLinks : NameSet) (running : gset string) : bool :=
  (((set_len selected =? 0) && (set_len excluded =? 0))
   || ((0 <? set_len selected) && negb (anyOutside running selected))
   || ((0 <? set_len excluded) && negb (anyInside running excluded)))
  && (set_len selectedLinks =? 0).

Definition UndeployLab (ref : LabRef) (opts : UndeployLabOptions) : KM unit :=
  do* labHash <- resolveRequired ref in
  let selected := opts.(uSelectedMachines) in
  let excluded := opts.(uExcludedMachines) in
  let selectedLinks := opts.(uSelectedLinks) in
  if (0 <? set_len selected) && (0 <? set_len excluded) then fail ErrSelectOrExcludeDevices
  else
    do* derived <- machine_derived labHash selected excluded in
    let '(networks, networksToDelete, running) := derived in
    do* networksToDelete <- link_derived labHash selectedLinks networks networksToDelete in
    do* _ <- Machine_Undeploy labHash selected excluded in
    do* _ <- Link_Undeploy labHash networksToDelete in
    if undeploys_namespace selected excluded selectedLinks running then api (Namespace_Undeploy labHash) else sret tt.

Definition Wipe (allUsers : bool) : KM unit := api Namespace_Wipe.
End attachments.

(** ** Commands and files *)

Definition ConnectTTY (machineName : string) (ref : LabRef) (opts : ConnectTTYOptions) : KM (string * execRequest) :=
  do* labHash <- resolveRequired ref in Connect labHash machineName opts.

Definition ConnectTTYObj (machine : loc) (opts : ConnectTTYOptions) : KM (string * execRequest) :=
  do* m <- machine_of machine in ConnectTTY m.(mName) (obj_ref m) opts.

Definition errOnly : execOptions := mkExecOptions false false [] true.

(** The wait policy has no effect. *)
Definition Exec (machineName : string) (command : Command) (ref : LabRef) (wait : WaitPolicy) : KM execResult :=
  do* labHash <- resolveRequired ref in
  do* words <- dgo (commandWords command) in
  exec labHash machineName words errOnly.

Definition ExecObj (machine : loc) (command : Command) (wait : WaitPolicy) : KM execResult :=
  do* m <- machine_of machine in Exec m.(mName) command (obj_ref m) wait.

Definition ExecStream (machineName : string) (command : Command) (ref : LabRef) (wait : WaitPolicy) : KM K8sApi.execStream :=
  do* labHash <- resolveRequired ref in
  do* words <- dgo (commandWords command) in
  K8s.execStream labHash machineName words errOnly.

Definition ExecStreamObj (machine : loc) (command : Command) (wait : WaitPolicy) : KM K8sApi.execStream :=
  do* m <- machine_of machine in ExecStream m.(mName) command (obj_ref m) wait.

(** The contents of an entry to copy, and the archive made of them, which package
    util makes. *)
Section files.
Context {CopyEntry : Type} (copyEntryContent : CopyEntry → result goerror string).
Context (GuestPath : CopyEntry → string) (PackFilesForTar : list (string * string) → result goerror string).

Fixpoint tar_entries (files : list CopyEntry) : result goerror (list (string * string)) :=
  match files with
  | [] => Ok []
  | file :: files =>
      let* content := copyEntryContent file in
      let* entries := tar_entries files in
      Ok ((GuestPath file, content) :: entries)
  end.

Definition CopyFiles (machine : loc) (files : list CopyEntry) : KM unit :=
  do* entries <- dgo (tar_entries files) in
  do* tarData <- dgo (PackFilesForTar entries) in
  do* obj <- containerOf machine in
  match obj with
  | None => fail (newPyAttributeError "metadata")
  | Some obj => copyFiles obj "/" tarData
  end.
End files.

Definition RetrieveFiles (machine : loc) (src : string) : KM string :=
  do* obj <- containerOf machine in
  match obj with
  | None => fail (newPyAttributeError "metadata")
  | Some obj => retrieveFiles obj src
  end.

(** ** API objects; [allUsers] has no effect *)

Definition GetMachineAPIObject (machineName : string) (ref : LabRef) (allUsers : bool) : KM Pod :=
  do* labHash <- resolveRequired ref in
  do* pods <- api (getPodsByFilters labHash machineName) in
  last_or pods (NewMachineNotFoundUnquoted machineName).

Definition GetMachinesAPIObjects (ref : LabRef) (allUsers : bool) : KM (list Pod) :=
  do* labHash <- resolveAtMostOne ref in api (getPodsByFilters labHash "").

Definition GetLinkAPIObject (linkName : string) (ref : LabRef) (allUsers : bool) : KM Network :=
  do* labHash <- resolveRequired ref in
  do* networks <- api (getNetworksByFilters labHash linkName) in
  last_or networks (NewLinkNotFoundUnquoted linkName).

Definition GetLinksAPIObjects (ref : LabRef) (allUsers : bool) : KM (list Network) :=
  do* labHash <- resolveAtMostOne ref in api (getNetworksByFilters labHash "").

Definition GetReleaseVersion : KM string := api (translated ServerVersion).

Definition CheckImage (imageName : string) : KM unit := sret tt.
Definition UpdateLabFromAPI (lab : loc) : KM unit := fail ErrUpdateRunningLab.
End manager.

(** ** config.go

    The configuration file of the cluster, when there is one, is a parameter: the
    name of its context. *)
Section config.
Context (kubeconfig : option string).

(** The server and token of the settings, when it is made from them; the user. *)
Definition LoadKubeConfig (s : Settings.Settings) : result goerror (option (string * string) * string) :=
  match kubeconfig with
  | Some contextName => Ok (None, contextName)
  | None =>
      let apiURL := stringOrEmpty s.(Settings.sAPIServerURL) in
      let token := stringOrEmpty s.(Settings.sAPIToken) in
      if String.eqb apiURL "" || String.eqb token "" then Err ErrKubeConfigUnreadable
      else Ok (Some (apiURL, token), token)
  end.
End config.
