(* ===== verification/K8sRec.v ===== *)
(** * Scenarios rebuilt from a cluster, and statistics

    GetLabFromAPI of backend/kubernetes/manager.go, which rebuilds a scenario from
    the pods and networks of a namespace, and the inventory streams of stats.go. *)

From S2P Require Export K8sMgr.
Local Open Scope string_scope.
Local Open Scope list_scope.
Local Open Scope Z_scope.
Local Open Scope kat_scope.

Definition newPyIndexError (msg : string) : goerror := EPyRuntime "IndexError" msg.
Definition reconstructedLabName : string := "reconstructed_lab".

(** ** Statistics (stats.go) *)

Inductive OptionalString : Type := Unset | NullString | SomeString (s : string).

Record MachineStats : Type := mkMachineStats {
  msNetworkScenarioID : string;
  msName : string;
  msContainerName : string;
  msUser : option string;
  msStatus : option string;
  msImage : string;
  msAssignedNode : OptionalString
}.

Record LinkStats : Type := mkLinkStats {
  lsNetworkScenarioID : string;
  lsName : string;
  lsNetworkName : string;
  lsUser : option string;
  lsVXLANID : option Z
}.

(** The text before the first colon and space. *)
Fixpoint before_detail (s : string) : string :=
  match s with
  | EmptyString => ""
  | String c rest => if HasPrefix s ": " then "" else String c (before_detail rest)
  end.

Definition detailedMachineStatus (pod : Pod) : string :=
  match pod.(pStatuses) with
  | [] => pod.(pPhase)
  | status :: _ =>
      let stringStatus :=
        match status.(csTerminated), status.(csWaiting) with
        | Some reason, _ => if String.eqb reason "" then "Terminating" else reason
        | None, Some reason => reason
        | None, None => ""
        end in
      if String.eqb stringStatus "" then pod.(pPhase) else before_detail stringStatus
  end.

Definition machineStatsFor (pod : Pod) : MachineStats :=
  mkMachineStats pod.(pNamespace) (podLabel pod) pod.(pName) None (Some (detailedMachineStatus pod))
    (match pod.(pStatuses) with status :: _ => status.(csImage) | [] => "N/A" end)
    (if String.eqb pod.(pSpec).(spNodeName) "" then NullString else SomeString pod.(pSpec).(spNodeName)).

Definition linkStatsFor (network : Network) : LinkStats :=
  mkLinkStats (NetworkNamespace (Some network)) (NetworkLinkName (Some network)) (NetworkNameOf (Some network))
    None (NetworkVXLANID (Some network)).

Example status_1 : before_detail "ErrImagePull: not found: x" = "ErrImagePull".
Proof. reflexivity. Qed.

Section reconstruct.
Context {F : Type} (fsys : FileSystem F) `{TextCases} (cwd : option string).
Context {W : Type} `{K : KubeClient W} {B : K8s.Cluster (F := F) (W := W)}.
Local Notation KM := (@K8s.KM F W).

(** What a stream is about. *)
Record statsStream : Type := mkStream { labHash_ : string; filterName : string }.

(** The sort of the code is not stable; entries of one identifier may come in
    another order there. *)
Definition by_id {A} (a b : string * A) : Z := strings_Compare a.1 b.1.

Definition machinesStats_Next (s : statsStream) : KM (list (string * MachineStats)) :=
  do* pods <- api (getPodsByFilters s.(labHash_) s.(filterName)) in
  sret (SortStable by_id ((fun pod => (pod.(pName), machineStatsFor pod)) <$> pods)).

Definition linksStats_Next (s : statsStream) : KM (list (string * LinkStats)) :=
  do* networks <- api (getNetworksByFilters s.(labHash_) s.(filterName)) in
  sret (SortStable by_id ((fun n => (NetworkNameOf (Some n), linkStatsFor n)) <$> networks)).

Definition GetMachinesStats (ref : LabRef) (machineName : string) (allUsers : bool) : KM statsStream :=
  do* labHash <- resolveAtMostOne ref in sret (mkStream labHash machineName).
Definition GetLinksStats (ref : LabRef) (linkName : string) (allUsers : bool) : KM statsStream :=
  do* labHash <- resolveAtMostOne ref in sret (mkStream labHash linkName).

(** A stream of one element, whose check of the reference waits for the first
    [Next]; [io.EOF] is [None]. *)
Record oneStream : Type := mkOneStream { check : option goerror; done_ : bool; inner : statsStream }.

Definition one_stream (ref : LabRef) (name : string) : KM oneStream :=
  do* hash <- resolveHash ref in
  sret (mkOneStream (match RequireSingle ref with Err e => Some e | Ok _ => None end) false
                    (mkStream (ToLower hash) name)).

Definition GetMachineStats (machineName : string) (ref : LabRef) (allUsers : bool) : KM oneStream := one_stream ref machineName.
Definition GetLinkStats (linkName : string) (ref : LabRef) (allUsers : bool) : KM oneStream := one_stream ref linkName.
Definition GetMachineStatsObj (machine : loc) (allUsers : bool) : KM oneStream :=
  do* m <- machine_of machine in GetMachineStats m.(mName) (obj_ref m) allUsers.
Definition GetLinkStatsObj (link : loc) (allUsers : bool) : KM oneStream :=
  do* k <- link_of link in GetLinkStats k.(lName) (mkLabRef "" "" (Some k.(lLab))) allUsers.

Definition one_next {A} (next : statsStream → KM (list (string * A))) (s : oneStream)
    : KM (oneStream * option (result goerror (option A))) :=
  if s.(done_) then sret (s, None)
  else
    let s := mkOneStream s.(check) true s.(inner) in
    match s.(check) with
    | Some e => sret (s, Some (Err e))
    | None =>
        do* entries <- try_ (next s.(inner)) in
        sret (s, Some (rmap (fun es => match es with (_, stats) :: _ => Some stats | [] => None end) entries))
    end.

Definition machineStats_Next (s : oneStream) : KM (oneStream * option (result goerror (option MachineStats))) :=
  one_next machinesStats_Next s.
Definition linkStats_Next (s : oneStream) : KM (oneStream * option (result goerror (option LinkStats))) :=
  one_next linksStats_Next s.

(** ** Reconstruction (manager.go) *)

(** The filesystem of a scenario made in memory, the defaults of the manager, and
    the text of an error of encoding/json. *)
Context (memory : F) (defaults : Defaults) (json_error : string → string).

Definition add_meta (machine : loc) (name value : string) : KM unit :=
  do* _ <- hp (Machine_AddMeta cwd machine name value) in sret tt.

(** The processors of a limit: thousandths, whatever unit the limit has. *)
Definition cpu_meta (cpu : string) : result goerror Scalar :=
  let literal := ReplaceAll cpu "m" "" in
  match PyInt literal with
  | Ok millis => Ok (Float (f64_div (f64_of_Z millis) (f64_of_Z 1000)))
  | Err err => let failure := PyIntFailure err literal in Err (WrapValue failure (Error failure))
  end.

Definition set_envs (env : list (string * string)) (envs : OrderedMap string string) : OrderedMap string string :=
  foldl (fun o e => if negb (String.eqb e.1 megalosShellEnv) then (SetKey o e.1 e.2).1 else o) envs env.

Definition set_ports (ports : list containerPort) (o : OrderedMap PortKey Z) : OrderedMap PortKey Z :=
  foldl (fun o port => (SetKey o (port.(HostPort), ToLower port.(Protocol)) port.(ContainerPort)).1) o ports.

(** The metas of a device, read from the container of its pod. *)
Definition container_metas (device : loc) (pod : Pod) (container : kContainer) : KM unit :=
  do* _ <- add_meta device "image" container.(kImage) in
  do* _ <- add_meta device "shell" (EnvVarValueFromPod (Some pod) megalosShellEnv) in
  do* _ <- match container.(kLimits) !! "memory" with
           | Some memory => add_meta device "mem" (ToUpper memory)
           | None => sret tt
           end in
  do* _ <- match container.(kLimits) !! "cpu" with
           | Some cpu =>
               do* value <- dgo (cpu_meta cpu) in
               update_meta device (fun meta => set_Extras (SetKey meta.(Extras) "cpu" value).1 meta)
           | None => sret tt
           end in
  do* _ <- update_meta device (fun meta => set_Envs (set_envs container.(kEnv) meta.(Envs)) meta) in
  update_meta device (fun meta => set_Ports (set_ports container.(kPorts) meta.(Ports)) meta).

Definition reconstruct_interface (lab device : loc) (networks : gmap string Network) (a : podNetworkAttachment) : KM unit :=
  match networks !! a.(aName) with
  | None => fail (newPyKeyError a.(aName))
  | Some network =>
      do* link <- hp (GetOrNewLink lab (NetworkLinkName (Some network))) in
      do* _ <- set_network link (Some network) in
      do* _ <- hp (AddInterface device link (mkIfaceOpts None a.(aMAC))) in
      sret tt
  end.

Definition reconstructDevice (lab : loc) (networks : gmap string Network) (pod : Pod) : KM unit :=
  do* device <- hp (GetOrNewMachine fsys cwd lab (podLabel pod) None) in
  do* _ <- set_container device (OfPod pod) in
  match pod.(pSpec).(spContainers) with
  | [] => fail (newPyIndexError "list index out of range")
  | container :: _ =>
      do* _ <- container_metas device pod container in
      do* attachments <- dgo (podNetworkAttachments json_error pod) in
      sfor attachments (reconstruct_interface lab device networks)
  end.

Definition GetLabFromAPI (labHash labName : string) : KM loc :=
  if String.eqb labHash "" && String.eqb labName "" then fail ErrLabHashOrName
  else
    do* lab <-
      (if negb (String.eqb labName "") then hp (newLab memory (fun _ => None) (Some labName) "" defaults)
       else
         do* lab <- hp (newLab memory (fun _ => None) (Some reconstructedLabName) "" defaults) in
         do* b <- lab_of lab in
         do* _ <- hp (putLab lab (set_labName b.(Machine.labName) labHash b)) in
         sret lab) in
    do* b <- lab_of lab in
    do* pods <- GetMachinesAPIObjects (mkLabRef b.(LabHash) "" None) false in
    do* b <- lab_of lab in
    do* networkObjects <- GetLinksAPIObjects (mkLabRef b.(LabHash) "" None) false in
    let networks := foldl (fun (m : gmap string Network) n => <[NetworkNameOf (Some n) := n]> m) ∅ networkObjects in
    do* _ <- sfor pods (reconstructDevice lab networks) in
    sret lab.
End reconstruct.

(** A limit of two processors, which the API server writes without its unit, is
    read as two thousandths of one. *)
Example whole_cpus : cpu_meta "2" = Ok (Float (f64_div (f64_of_Z 2) (f64_of_Z 1000))).
Proof. reflexivity. Qed.
