(* ===== verification/K8sLog.v ===== *)
(** * What the Kubernetes backend asks of the cluster

    A client that writes down every call that changes a cluster or runs a command
    in it.  It needs nothing of the API server: what is said of the calls holds
    whatever it answers.  Then a small cluster, for closed examples. *)

From S2P Require Export K8sMgr Emits.
Local Open Scope string_scope.
Local Open Scope list_scope.
Local Open Scope Z_scope.
Local Open Scope kat_scope.

(** ** The log *)

Inductive call : Type :=
| CreateNamespace (n : Namespace) | DeleteNamespace (name : string)
| CreateSecret (namespace : string) (s : Secret)
| CreateConfigMap (namespace : string) (c : ConfigMap) | DeleteConfigMap (namespace name : string)
| CreateDeployment (namespace : string) (d : Deployment) | DeleteDeployment (namespace name : string)
| CreateNetwork (namespace : string) (n : Network) | DeleteNetwork (namespace name : string)
| RunIn (r : execRequest).

#[export] Instance traced {W} `{K : KubeClient W} : KubeClient (W * list call) := {
  NamespaceCreate n := logged (CreateNamespace n) (NamespaceCreate n);
  NamespaceDelete n := logged (DeleteNamespace n) (NamespaceDelete n);
  NamespaceList sel := silent (NamespaceList sel);
  NamespaceWatch sel := silent (NamespaceWatch sel);
  SecretCreate ns s := logged (CreateSecret ns s) (SecretCreate ns s);
  SecretWatch ns sel := silent (SecretWatch ns sel);
  ConfigMapCreate ns c := logged (CreateConfigMap ns c) (ConfigMapCreate ns c);
  ConfigMapDelete ns n := logged (DeleteConfigMap ns n) (ConfigMapDelete ns n);
  DeploymentCreate ns d := logged (CreateDeployment ns d) (DeploymentCreate ns d);
  DeploymentDelete ns n := logged (DeleteDeployment ns n) (DeploymentDelete ns n);
  PodList ns sel := silent (PodList ns sel);
  PodWatch ns := silent (PodWatch ns);
  PodEvents w := silent (PodEvents w);
  NetworkList ns sel := silent (NetworkList ns sel);
  NetworkCreate ns n := logged (CreateNetwork ns n) (NetworkCreate ns n);
  NetworkDelete ns n := logged (DeleteNetwork ns n) (NetworkDelete ns n);
  NewExecutor r := silent (NewExecutor r);
  StreamWithContext r i := logged (RunIn r) (StreamWithContext r i);
  ServerVersion := silent ServerVersion;
  StatusCode := StatusCode;
  CodeExitError := CodeExitError
}.

(** The calls of the client that logs, unfolded. *)
Ltac open_calls :=
  cbn [NamespaceCreate NamespaceDelete NamespaceList NamespaceWatch SecretCreate SecretWatch ConfigMapCreate
       ConfigMapDelete DeploymentCreate DeploymentDelete PodList PodWatch PodEvents NetworkList NetworkCreate
       NetworkDelete NewExecutor StreamWithContext ServerVersion StatusCode CodeExitError traced].

Ltac one_call := open_calls; first [apply emits_logged | apply emits_silent]; [try done ..].

(** What a label can say: letters, digits, dashes, underscores and dots. *)
Definition label_char (c : ascii) : bool :=
  let b := zb c in
  (48 <=? b) && (b <=? 57) || (65 <=? b) && (b <=? 90) || (97 <=? b) && (b <=? 122) || (b =? 45) || (b =? 46) || (b =? 95).
Definition label_value (s : string) : Prop := forallb label_char (string_bytes s) = true.

(** What the API server promises of a listing: its objects are in the namespace
    asked for, what their labels say is what a label can say, and those selected by a
    name carry it. *)
Class NamespacedLists (W : Type) `{K : KubeClient W} : Prop := {
  labelled_pods ns sel w w' pods : PodList ns sel w = (w', Ok pods) → Forall (fun p => label_value (podLabel p)) pods;
  selected_pods ns name w w' pods : name ≠ "" → label_value name →
    PodList ns (ObjectSelector name) w = (w', Ok pods) → Forall (fun p => podLabel p = name) pods;
  listed_pods ns sel w w' pods : PodList ns sel w = (w', Ok pods) → Forall (fun p => p.(pNamespace) = ns) pods;
  listed_networks ns sel w w' networks :
    NetworkList ns sel w = (w', Ok networks) → Forall (fun n => n.(nNamespace) = ns) networks
}.

(** ** Calls of the client *)

Section world.
Context {W : Type} `{K : KubeClient W}.
Local Notation wlog := (snd : W * list call → list call).

Lemma emits_translated {A} P (m : M (W * list call) goerror A) (Q : A → Prop) :
  emits wlog P m Q → emits wlog P (translated m) Q.
Proof.
  intros Hm s. destruct (Hm s) as (l & Hl & HP & HQ). exists l. unfold translated.
  destruct (m s) as [s' [a|e]]; cbn in *; naive_solver.
Qed.

Lemma emits_swallowed {A} P (m : M (W * list call) goerror A) (Q : A → Prop) :
  emits wlog P m Q → emits wlog P (swallowed m) (fun _ => True).
Proof.
  intros Hm s. destruct (Hm s) as (l & Hl & HP & HQ). exists l. unfold swallowed.
  destruct (m s) as [s' [a|e]]; cbn in *; [naive_solver|]. destruct (isAPIException e); naive_solver.
Qed.

Lemma emits_const {A} P (r : result goerror A) : emits wlog P (fun w => (w, r)) (fun _ => True).
Proof. intros s. exists []. rewrite app_nil_r. naive_solver. Qed.

(** *** Listings *)

Lemma emits_targetNamespaces P labHash : labHash ≠ "" →
  emits wlog P (targetNamespaces labHash) (fun l => l = [labHash]).
Proof. intros Hh. unfold targetNamespaces. apply String.eqb_neq in Hh as ->. by apply emits_ret. Qed.

(** Of the pods of one namespace, what every listing of it satisfies. *)
Lemma emits_pods_where P (Q : list Pod → Prop) labHash name :
  labHash ≠ "" →
  (∀ w w' pods, PodList labHash (ObjectSelector name) w = (w', Ok pods) → Q pods) →
  emits wlog P (getPodsByFilters labHash name) Q.
Proof.
  intros Hh HQ. unfold getPodsByFilters. eapply emits_bind; [by apply emits_targetNamespaces|]. intros _ ->.
  cbn [list_pods]. eapply emits_bind.
  { apply emits_translated. open_calls. apply emits_silent. intros w pods Hp.
    destruct (PodList labHash (ObjectSelector name) w) as [w' r] eqn:E. cbn in Hp. subst r. exact (HQ _ _ _ E). }
  intros pods Hp. apply (emits_bind _ _ _ _ (fun rest => rest = [])); [by apply emits_ret|].
  intros _ ->. apply emits_ret. by rewrite app_nil_r.
Qed.

Lemma emits_networks_where P (Q : list Network → Prop) labHash name :
  labHash ≠ "" →
  (∀ w w' networks, NetworkList labHash (ObjectSelector name) w = (w', Ok networks) → Q networks) →
  emits wlog P (getNetworksByFilters labHash name) Q.
Proof.
  intros Hh HQ. unfold getNetworksByFilters. eapply emits_bind; [by apply emits_targetNamespaces|]. intros _ ->.
  cbn [list_networks]. eapply emits_bind.
  { apply emits_translated. open_calls. apply emits_silent. intros w networks Hp.
    destruct (NetworkList labHash (ObjectSelector name) w) as [w' r] eqn:E. cbn in Hp. subst r. exact (HQ _ _ _ E). }
  intros networks Hp. apply (emits_bind _ _ _ _ (fun rest => rest = [])); [by apply emits_ret|].
  intros _ ->. apply emits_ret. by rewrite app_nil_r.
Qed.

(** A listing of any namespaces changes nothing. *)
Lemma emits_getPods P labHash name : emits wlog P (getPodsByFilters labHash name) (fun _ => True).
Proof.
  unfold getPodsByFilters, targetNamespaces, GetAll. apply emits_seq.
  { destruct (negb _); [by apply emits_ret|]. apply emits_seq; [|intros a; by apply emits_ret].
    by apply emits_translated; one_call. }
  intros l. induction l as [|ns l IH]; cbn [list_pods]; [by apply emits_ret|].
  apply emits_seq; [by apply emits_translated; one_call|]. intros items. apply emits_seq; [exact IH|].
  intros rest. by apply emits_ret.
Qed.

Lemma emits_getNetworks P labHash name : emits wlog P (getNetworksByFilters labHash name) (fun _ => True).
Proof.
  unfold getNetworksByFilters, targetNamespaces, GetAll. apply emits_seq.
  { destruct (negb _); [by apply emits_ret|]. apply emits_seq; [|intros a; by apply emits_ret].
    by apply emits_translated; one_call. }
  intros l. induction l as [|ns l IH]; cbn [list_networks]; [by apply emits_ret|].
  apply emits_seq; [by apply emits_translated; one_call|]. intros items. apply emits_seq; [exact IH|].
  intros rest. by apply emits_ret.
Qed.

(** *** Commands, namespaces, secrets and archives *)

Lemma emits_runExecAll (P : call → Prop) r name stdin :
  P (RunIn r) → emits wlog P (runExecAll r name stdin) (fun _ => True).
Proof.
  intros HP. unfold runExecAll. apply emits_seq; [by one_call|]. intros _.
  apply emits_seq; [by one_call|]. intros s. apply emits_const.
Qed.

Lemma emits_Namespace_Undeploy (P : call → Prop) labHash :
  P (DeleteNamespace labHash) → emits wlog P (Namespace_Undeploy labHash) (fun _ => True).
Proof.
  intros HP. unfold Namespace_Undeploy, waitDeletion. apply emits_seq; [|intros r; by apply emits_ret].
  apply (emits_swallowed _ _ (fun _ => True)). apply emits_seq; [by one_call|]. intros _.
  apply emits_seq; [by apply emits_translated; one_call|]. intros items. destruct (_ =? 0); [by apply emits_ret|].
  apply emits_seq; [by apply emits_translated; one_call|]. intros events. apply emits_const.
Qed.

Lemma emits_Namespace_Create (P : call → Prop) labHash :
  P (CreateNamespace (mkNamespace labHash {[ labelApp := labelAppValue ]} "")) →
  emits wlog P (Namespace_Create labHash) (fun _ => True).
Proof.
  intros HP. unfold Namespace_Create, Namespace_waitCreation.
  apply (emits_swallowed _ _ (fun _ => True)). apply emits_seq; [by one_call|]. intros _.
  apply emits_seq; [|intros _; by apply emits_ret].
  apply emits_seq; [by apply emits_translated; one_call|]. intros events. apply emits_const.
Qed.

Lemma emits_Secret_Create (P : call → Prop) config labHash :
  (∀ s, s.(secNamespace) = labHash → P (CreateSecret labHash s)) →
  emits wlog P (Secret_Create config labHash) (fun _ => True).
Proof.
  intros HP. unfold Secret_Create, createSecret, Secret_waitCreation. destruct (String.eqb _ _); [by apply emits_ret|].
  apply emits_seq; [|intros s; by apply emits_ret]. destruct (DecodeString _) as [raw|]; [|by apply emits_ret].
  apply (emits_swallowed _ _ (fun _ => True)). apply emits_seq; [one_call; by apply HP|]. intros _.
  apply emits_seq; [|intros _; by apply emits_ret]. apply emits_seq; [by one_call|]. intros events. apply emits_const.
Qed.

Lemma emits_DeleteForMachine (P : call → Prop) name namespace :
  P (DeleteConfigMap namespace (ConfigMapName name namespace)) →
  emits wlog P (DeleteForMachine name namespace) (fun _ => True).
Proof.
  intros HP s. unfold DeleteForMachine. open_calls. unfold logged.
  destruct (ConfigMapDelete namespace (ConfigMapName name namespace) s.1) as [w r]. cbn.
  exists [DeleteConfigMap namespace (ConfigMapName name namespace)]. split; [done|]. split; [by repeat constructor|done].
Qed.

Lemma emits_DeployForMachine (P : call → Prop) tarData deployment labHash :
  (∀ c, c.(cmName) = ConfigMapName deployment labHash → P (CreateConfigMap labHash c)) →
  emits wlog P (DeployForMachine tarData deployment labHash) (fun _ => True).
Proof.
  intros HP s. unfold DeployForMachine.
  destruct (buildForMachine tarData deployment labHash) as [[c|]|e] eqn:E;
    [|exists []; rewrite app_nil_r; naive_solver..].
  assert (Hc : c.(cmName) = ConfigMapName deployment labHash).
  { revert E. unfold buildForMachine. destruct (_ =? 0); [done|]. destruct (_ <? _); [|by intros [= <-]].
    by repeat destruct (HumanReadableBytes _). }
  apply (emits_seq wlog P _ _ (fun _ => True)); [one_call; by apply HP|]. intros created. by apply emits_ret.
Qed.
End world.

(** ** Programs of the backend *)

Section backend.
Context {F : Type}.
Context {W : Type} `{K : KubeClient W} {B : K8s.Cluster (F := F) (W := W * list call)}.
Local Notation KM := (@K8s.KM F (W * list call)).

(** The subscribers, the packing of a device and the names of ports change nothing
    of the cluster. *)
Class QuietCluster : Prop := {
  quiet_dispatch n : emits dlog (fun _ => False) (dispatch n) (fun _ => True);
  quiet_pack m : emits dlog (fun _ => False) (packData m) (fun _ => True);
  quiet_port w : (portName w).1.2 = w.2
}.

Context `{!QuietCluster}.

Lemma emits_dispatch_k8s P n : emits dlog P (dispatch n : KM unit) (fun _ => True).
Proof using All. apply emits_quiet, quiet_dispatch. Qed.

Lemma emits_announce P n : emits dlog P (announce n : KM unit) (fun _ => True).
Proof using All.
  unfold announce. apply emits_seq; [|intros r; by apply emits_ret].
  eapply emits_any, (emits_try _ _ (fun _ => True)), emits_dispatch_k8s.
Qed.

Lemma emits_runChunked_k8s {A} P (items : list A) name (task : A → KM unit) :
  (∀ x, emits dlog P (name x) (fun _ => True)) → (∀ x, x ∈ items → emits dlog P (task x) (fun _ => True)) →
  emits dlog P (runChunked items name task) (fun _ => True).
Proof. apply emits_runBatches. Qed.

(** The waits announce and call nothing. *)
Lemma emits_startup_loop P total watched events ready failed :
  emits dlog P (startup_loop total watched events ready failed : KM _) (fun _ => True).
Proof using All.
  revert ready failed. induction events as [|d|rest IH|type [pod|] rest IH]; intros ready failed; cbn [startup_loop];
    try (by apply emits_ret); [|apply IH].
  destruct (pLabels pod !! labelName) as [name|]; [|apply IH].
  apply emits_seq.
  { destruct (watches watched name); [|by apply emits_ret]. unfold pod_reported. destruct (pStatuses pod) as [|st sts];
      [by apply emits_ret|]. destruct (csReady st); [apply emits_seq; [apply emits_announce|intros _; by apply emits_ret]|].
    destruct (_ <=? _); by apply emits_ret. }
  intros [ready' failed']. destruct (_ =? total); [|apply IH].
  apply emits_seq; [destruct (ready' =? total); [apply emits_announce|by apply emits_ret]|]. intros _. by apply emits_ret.
Qed.

Lemma emits_shutdown_loop P watched events cleaned :
  emits dlog P (shutdown_loop watched events cleaned : KM unit) (fun _ => True).
Proof using All.
  revert cleaned. induction events as [|d|rest IH|type [pod|] rest IH]; intros cleaned; cbn [shutdown_loop];
    try (by apply emits_ret); [|apply IH].
  destruct (pLabels pod !! labelName) as [name|]; [|apply IH].
  apply emits_seq.
  { destruct (_ && _); [|by apply emits_ret]. apply emits_seq; [apply emits_announce|intros _; by apply emits_ret]. }
  intros cleaned'. destruct (_ =? _); [apply emits_announce|apply IH].
Qed.
End backend.

(** * A small cluster, for closed examples

    One namespace with three pods on two networks; every request is granted. *)

Definition sim_attachment (network link : string) : podNetworkAttachment :=
  mkAttachment network "h1" "net0" link "".

Definition sim_container (name : string) : kContainer :=
  mkKContainer name "kathara/base" [] true true "" [] ∅ [] true [(megalosShellEnv, "/bin/bash")] None None.

Definition sim_pod (name : string) (attached : list podNetworkAttachment) : Pod :=
  mkPod ("kathara-" +:+ name +:+ "-x") "h1" (ObjectLabels name)
    {[ networkAttachmentAnnotation := encodeNetworkAttachments attached ]}
    (mkPodSpec [sim_container ("kathara-" +:+ name)] ("kathara-" +:+ name) "None" ["127.0.0.1"] [] [] "n1")
    "Running" [mkStatus "kathara/base" true 0 None None].

Definition sim_network (link : string) (id : Z) : Network :=
  let n := NetworkDefinition (NetworkName "kathara" link) link "h1" id in
  mkNetwork n.(nAPIVersion) n.(nKind) n.(nName) "h1" n.(nLabels) n.(nConfig).

(** [pc1] and [pc2] on [A], [pc3] on [B]. *)
Definition sim_pods : list Pod :=
  [sim_pod "pc1" [sim_attachment "kathara-a" "A"]; sim_pod "pc2" [sim_attachment "kathara-a" "A"];
   sim_pod "pc3" [sim_attachment "kathara-b" "B"]].
Definition sim_networks : list Network := [sim_network "A" 11; sim_network "B" 12].

Definition selected_by (selector : string) (name : string) : bool :=
  String.eqb selector (ObjectSelector "") || String.eqb selector (ObjectSelector name).

Definition grant {A} (a : A) : M unit goerror A := sret a.

#[export] Instance sim : KubeClient unit := {
  NamespaceCreate _ := grant tt;
  NamespaceDelete _ := grant tt;
  NamespaceList _ := grant [mkNamespace "h1" {[ labelApp := labelAppValue ]} NamespaceActive];
  NamespaceWatch _ := grant (Event Deleted (Some (mkNamespace "h1" ∅ "")) Closed);
  SecretCreate _ _ := grant tt;
  SecretWatch _ _ := grant Closed;
  ConfigMapCreate _ c := grant c;
  ConfigMapDelete _ _ := grant tt;
  DeploymentCreate _ d := grant d;
  DeploymentDelete _ _ := grant tt;
  PodList ns sel := grant (if String.eqb ns "h1" then List.filter (fun p => selected_by sel (podLabel p)) sim_pods else []);
  PodWatch _ := grant 1;
  PodEvents _ := grant Closed;
  NetworkList ns sel :=
    grant (if String.eqb ns "h1" then List.filter (fun n => selected_by sel (NetworkLinkName (Some n))) sim_networks else []);
  NetworkCreate _ n := grant n;
  NetworkDelete _ _ := grant tt;
  NewExecutor _ := grant tt;
  StreamWithContext _ _ := grant (mkStreamed [] None false);
  ServerVersion := grant "v1.30";
  StatusCode _ := None;
  CodeExitError _ := None
}.

#[export] Instance sim_cluster {F} : K8s.Cluster (F := F) (W := unit * list call) := {
  settings := Settings.defaultSettings;
  seed := "kube";
  PoolSize := 4;
  dispatch _ := sret tt;
  CheckDirectoryPermissions _ _ := Ok [];
  packData _ := sret "archive";
  portName w := (w, "p");
  ParseQuantity := Ok
}.

#[export] Instance sim_quiet {F} : QuietCluster (F := F).
Proof. split; intros; [by apply emits_ret|by apply emits_ret|done]. Qed.

Lemma sim_pod_list ns sel w w' l : PodList ns sel w = (w', Ok l) →
  ∀ p, p ∈ l → ns = "h1" ∧ p ∈ sim_pods ∧ selected_by sel (podLabel p) = true.
Proof.
  intros E. assert (El : l = if String.eqb ns "h1" then List.filter (fun p => selected_by sel (podLabel p)) sim_pods else [])
    by (unfold PodList, sim, grant, sret in E; congruence).
  subst l. destruct (String.eqb_spec ns "h1") as [->|]; [|by intros p Hp%not_elem_of_nil].
  intros p [Hp%list_elem_of_In Hs]%list_elem_of_In%filter_In. done.
Qed.

Lemma sim_pods_are p : p ∈ sim_pods → p.(pNamespace) = "h1" ∧ (podLabel p = "pc1" ∨ podLabel p = "pc2" ∨ podLabel p = "pc3").
Proof. unfold sim_pods. rewrite !elem_of_cons. intros [->|[->|[->|[]%not_elem_of_nil]]]; vm_compute; tauto. Qed.

#[export] Instance sim_lists : NamespacedLists unit.
Proof.
  split.
  - intros ns sel w w' l E. apply Forall_forall. intros p Hp. destruct (sim_pod_list _ _ _ _ _ E p Hp) as (_ & Hin & _).
    destruct (sim_pods_are p Hin) as [_ [->|[->| ->]]]; by vm_compute.
  - intros ns name w w' l Hne Hv E. apply Forall_forall. intros p Hp. destruct (sim_pod_list _ _ _ _ _ E p Hp) as (_ & Hin & Hs).
    unfold selected_by in Hs. apply orb_true_iff in Hs as [Hs|Hs]; apply String.eqb_eq in Hs; unfold ObjectSelector in Hs.
    + apply String.eqb_neq in Hne. rewrite Hne in Hs. by apply (f_equal String.length) in Hs; cbn in Hs.
    + rewrite (proj2 (String.eqb_neq name "") Hne) in Hs. destruct (sim_pods_are p Hin) as [_ Hn].
      rewrite (proj2 (String.eqb_neq (podLabel p) "")) in Hs by (by destruct Hn as [->|[->| ->]]).
      by repeat injection Hs as Hs.
  - intros ns sel w w' l E. apply Forall_forall. intros p Hp. destruct (sim_pod_list _ _ _ _ _ E p Hp) as (-> & Hin & _).
    by destruct (sim_pods_are p Hin).
  - intros ns sel w w' l E.
    assert (El : l = if String.eqb ns "h1"
                     then List.filter (fun n => selected_by sel (NetworkLinkName (Some n))) sim_networks else [])
      by (unfold NetworkList, sim, grant, sret in E; congruence).
    subst l. destruct (String.eqb_spec ns "h1") as [->|]; [|by apply Forall_nil].
    apply Forall_forall. intros x [Hx%list_elem_of_In _]%list_elem_of_In%filter_In. clear E. unfold sim_networks in Hx.
    repeat (apply elem_of_cons in Hx as [-> | Hx]; [reflexivity|]); by apply not_elem_of_nil in Hx.
Qed.

Definition sim_state {F} (h : heap F) : dstate F machineObject Network (unit * list call) := mkD h ∅ ∅ (tt, []).
Definition sim_start : dstate unit machineObject Network (unit * list call) := sim_state (mkHeap ∅ ∅ ∅ 1%positive).
