(* ===== verification/K8sInv.v ===== *)
(** * What undeploying a scenario does to a cluster, and waiting for one

    Whatever the API server answers: the calls stay in the namespace of the
    scenario, on the devices asked for, and what another device stands on stays.
    The wait for the devices counts the reports of their pods. *)

From S2P Require Export K8sLog.
Local Open Scope string_scope.
Local Open Scope list_scope.
Local Open Scope Z_scope.
Local Open Scope kat_scope.

Section undeploy.
Context {F : Type}.
Context {W : Type} `{K : KubeClient W} {B : K8s.Cluster (F := F) (W := W * list call)} `{!QuietCluster}.
Context `{!NamespacedLists W}.
Local Notation KM := (@K8s.KM F (W * list call)).

(** Whether a device is among those to go. *)
Definition goes (selected excluded : NameSet) (name : string) : bool :=
  match selected, excluded with
  | Some _, _ => set_has selected name
  | None, Some _ => negb (set_has excluded name)
  | None, None => true
  end.

Definition deployment_of (name : string) : string := DeploymentName settings.(Settings.sDevicePrefix) name.

(** A pod the API server lists for a device of a namespace, and one it lists at all. *)
Definition pod_of (labHash name : string) (pod : Pod) : Prop :=
  (∃ w w' pods, PodList labHash (ObjectSelector name) w = (w', Ok pods) ∧ pod ∈ pods) ∧ (name ≠ "" → podLabel pod = name).
Definition listed (labHash : string) (pod : Pod) : Prop :=
  ∃ w w' pods, PodList labHash (ObjectSelector "") w = (w', Ok pods) ∧ pod ∈ pods.

(** The command of a request is the shutdown script of a device, and it goes to a pod of that device. *)
Definition shuts_down (labHash name : string) (r : execRequest) : Prop :=
  ∃ shell pod, r.(exCommand) = [shell; "-c"; ShutdownCommandsString name] ∧ r.(exPod) = pod.(pName) ∧ pod_of labHash name pod.

(** What undeploying may call in a namespace: a shutdown script in, and the
    removal of the Deployment and the archive of, a device that goes; the removal
    of networks; and the removal of the namespace itself. *)
Definition undeploys (labHash : string) (opts : UndeployLabOptions) (c : call) : Prop :=
  let chosen name := goes opts.(uSelectedMachines) opts.(uExcludedMachines) name = true ∧
                     ∃ pod, listed labHash pod ∧ podLabel pod = name in
  match c with
  | RunIn r => r.(exNamespace) = labHash ∧
      ∃ name, chosen name ∧ shuts_down labHash name r
  | DeleteConfigMap ns n => ns = labHash ∧ ∃ name, chosen name ∧ n = ConfigMapName (deployment_of name) labHash
  | DeleteDeployment ns n => ns = labHash ∧ ∃ name, chosen name ∧ n = deployment_of name
  | DeleteNetwork ns _ => ns = labHash
  | DeleteNamespace n => n = labHash ∧ set_len opts.(uSelectedLinks) = 0
  | _ => False
  end.

Lemma last_some {A} (l : list A) x : List.last (Some <$> l) None = Some x → x ∈ l.
Proof.
  induction l as [|y l IH]; [done|]. destruct l as [|z l]; [intros [= <-]; by left|]. intros E. right. by apply IH.
Qed.

Lemma emits_pod_of P labHash name : labHash ≠ "" → label_value name →
  emits snd P (translated (getPodsByFilters labHash name) : M (W * list call) goerror _) (Forall (pod_of labHash name)).
Proof using All.
  intros Hh Hv. apply emits_translated, emits_pods_where; [done|]. intros w w' pods E. apply Forall_forall. intros q Hq.
  split; [by exists w, w', pods|]. intros Hne. pose proof (selected_pods _ _ _ _ _ Hne Hv E) as Hs.
  rewrite Forall_forall in Hs. by apply Hs.
Qed.

Lemma undeployMachine_emits (P : call → Prop) pod :
  pod.(pNamespace) ≠ "" → label_value (podLabel pod) →
  (∀ r, r.(exNamespace) = pod.(pNamespace) → shuts_down pod.(pNamespace) (podLabel pod) r → P (RunIn r)) →
  P (DeleteConfigMap pod.(pNamespace) (ConfigMapName (deployment_of (podLabel pod)) pod.(pNamespace))) →
  P (DeleteDeployment pod.(pNamespace) (deployment_of (podLabel pod))) →
  emits dlog P (undeployMachine pod : KM unit) (fun _ => True).
Proof using All.
  intros Hh Hv Hr Hc Hd. unfold undeployMachine. apply emits_seq.
  { eapply emits_any, (emits_try _ _ (fun _ => True)). unfold exec.
    eapply emits_bind; [by apply emits_api, emits_pod_of|]. intros pods Hpods.
    destruct (List.last _ _) as [pod'|] eqn:El; [|apply emits_throw]. apply emits_api, emits_runExecAll, Hr; [done|].
    rewrite Forall_forall in Hpods. exists (pod_shell pod), pod'. split; [done|]. split; [done|]. by apply Hpods, last_some. }
  intros ran. apply emits_seq.
  { destruct ran as [r|err]; [by apply emits_ret|]. destruct (shutdown_failure err); [apply emits_throw|by apply emits_ret]. }
  intros _. apply emits_seq; [by apply emits_api, emits_DeleteForMachine|]. intros _.
  apply emits_api, emits_translated. by one_call.
Qed.

Lemma k8s_Link_Undeploy_emits (P : call → Prop) labHash selected :
  labHash ≠ "" →
  (∀ name, match selected with Some _ => set_has selected name = true | None => True end → P (DeleteNetwork labHash name)) →
  emits dlog P (Link_Undeploy labHash selected : KM unit) (fun _ => True).
Proof using All.
  intros Hh HP. unfold Link_Undeploy.
  eapply emits_bind; [apply emits_api, (emits_networks_where _ (Forall (fun n => n.(nNamespace) = labHash))); [done|];
                      intros w w' ns; apply listed_networks|].
  intros ns Hns. case_bool_decide; [by apply emits_ret|].
  apply emits_seq; [apply emits_dispatch_k8s|]. intros _. apply emits_seq; [|intros _; apply emits_dispatch_k8s].
  apply emits_runChunked_k8s; [intros x; by apply emits_ret|]. intros n Hn. rewrite Forall_forall in Hns.
  unfold undeployLink. apply emits_seq; [|intros _; apply emits_dispatch_k8s].
  apply emits_api, (emits_swallowed _ _ (fun _ => True)). one_call.
  assert (Hin : n ∈ ns ∧ match selected with Some _ => set_has selected (NetworkNameOf (Some n)) = true | None => True end).
  { destruct selected; [|done]. rewrite list_elem_of_In, filter_In, <- list_elem_of_In in Hn. done. }
  destruct Hin as [Hin Hs]. cbn [NetworkNamespace]. rewrite (Hns _ Hin). by apply HP.
Qed.

Lemma undeploy_chosen_goes selected excluded pods names pod :
  pod ∈ (undeploy_chosen selected excluded pods names).1 → pod ∈ pods ∧ goes selected excluded (podLabel pod) = true.
Proof using.
  unfold undeploy_chosen, goes. destruct selected, excluded; cbn [fst];
    rewrite ?list_elem_of_In, ?filter_In, <- ?list_elem_of_In; tauto.
Qed.

Lemma k8s_Machine_Undeploy_emits (P : call → Prop) labHash selected excluded :
  labHash ≠ "" →
  (∀ name, goes selected excluded name = true → (∃ pod, listed labHash pod ∧ podLabel pod = name) →
     (∀ r, r.(exNamespace) = labHash → shuts_down labHash name r → P (RunIn r)) ∧
     P (DeleteConfigMap labHash (ConfigMapName (deployment_of name) labHash)) ∧
     P (DeleteDeployment labHash (deployment_of name))) →
  emits dlog P (Machine_Undeploy labHash selected excluded : KM unit) (fun _ => selected = None ∨ excluded = None).
Proof using All.
  intros Hh HP. unfold Machine_Undeploy.
  assert (Hm : emits dlog P (do* pods <- api (getPodsByFilters labHash "") in
      do* names <- dgo (pod_names pods) in
      let '(pods, watched) := undeploy_chosen selected excluded pods names in
      if bool_decide (pods = []) then sret tt
      else
        do* watcher <- api (translated (PodWatch labHash)) in
        do* _ <- announce (MachinesUndeployStarted (sort_strings (elements watched))) in
        do* _ <- runChunked pods (pure_name podItemName) undeployMachine in
        do* events <- api (PodEvents watcher) in
        shutdown_loop watched events 0 : KM unit) (fun _ => True)).
  { eapply emits_bind; [apply emits_api, (emits_pods_where _ (Forall (fun p => p.(pNamespace) = labHash ∧ label_value (podLabel p) ∧ listed labHash p))); [done|]|].
    { intros w w' ps E. pose proof (listed_pods _ _ _ _ _ E) as Hn. pose proof (labelled_pods _ _ _ _ _ E) as Hv.
      rewrite Forall_forall in Hn, Hv |- *. intros q Hq. split; [by apply Hn|]. split; [by apply Hv|]. by exists w, w', ps. }
    intros ps Hps. apply emits_seq; [by apply emits_dgo|]. intros names.
    pose proof (undeploy_chosen_goes selected excluded ps names) as Hch.
    destruct (undeploy_chosen selected excluded ps names) as [chosen watched]. cbn [fst] in Hch.
    case_bool_decide; [by apply emits_ret|].
    apply emits_seq; [apply emits_api, emits_translated; by one_call|]. intros watcher.
    apply emits_seq; [apply emits_announce|]. intros _.
    apply emits_seq; [|intros _; apply emits_seq; [apply emits_api; by one_call|]; intros ev; apply emits_shutdown_loop].
    apply emits_runChunked_k8s; [intros x; by apply emits_ret|]. intros pod Hpod. destruct (Hch _ Hpod) as [Hin Hg].
    rewrite Forall_forall in Hps. destruct (Hps _ Hin) as (Hns & Hv & Hl). destruct (HP _ Hg) as (Hr & Hc & Hd); [by exists pod|].
    by apply undeployMachine_emits; rewrite ?Hns. }
  destruct selected, excluded; [apply emits_throw|eapply emits_weaken; [exact Hm|done|intros _ _; tauto]..].
Qed.

(** What a reference resolves to is read off the scenario. *)
Lemma resolveRequired_pure ref (s s1 : dstate F machineObject Network (W * list call)) labHash :
  (resolveRequired ref : KM string) s = (s1, Ok labHash) → s1 = s.
Proof using.
  unfold resolveRequired, resolveHash, sbind, dgo. destruct (RequireSingle ref) as [[]|]; cbn; [|discriminate].
  destruct (refLab ref); cbn; [|by intros [= <- _]]. unfold lab_of, hp, getLab, deref.
  destruct (hLabs (d_heap s) !! l); cbn; [|discriminate]. destruct s. by intros [= <- _].
Qed.

(** C25: Undeploying a scenario from a cluster, whatever the API server
    answers, stays in the namespace of the scenario: for devices that are to go and
    that it was given a pod of, and for no others, it runs the shutdown script in a pod
    that is listed under the name of the device, and removes its Deployment and its
    archive; it removes networks of the namespace, and the namespace itself only when
    no collision domains were picked. *)
Theorem UndeployLab_in_its_namespace json_error ref opts s s1 labHash :
  (resolveRequired ref : KM string) s = (s1, Ok labHash) → labHash ≠ "" →
  ∃ l, dlog (UndeployLab json_error ref opts s).1 = dlog s ++ l ∧ Forall (undeploys labHash opts) l.
Proof using All.
  intros Hres Hh. pose proof (resolveRequired_pure _ _ _ _ Hres) as ->.
  unfold UndeployLab, sbind at 1. rewrite Hres.
  match goal with |- context [dlog ((?m : _ → _) s).1] => set (body := m) end.
  assert (He : emits dlog (undeploys labHash opts) (body : KM unit) (fun _ => True)).
  { subst body. destruct (_ && _); [apply emits_throw|].
    apply emits_seq.
    { unfold machine_derived. destruct (_ || _); [|by apply emits_ret].
      apply emits_seq; [apply emits_api, emits_getNetworks|]. intros ns.
      apply emits_seq; [apply emits_api, emits_getPods|]. intros ps.
      apply emits_seq; [by apply emits_dgo|]. intros st. by apply emits_ret. }
    intros [[networks del] running]. apply emits_seq.
    { unfold link_derived. destruct (uSelectedLinks opts); [|by apply emits_ret].
      apply emits_seq; [|intros ns; by apply emits_ret].
      destruct networks as [[|n ns]|]; [apply emits_api, emits_getNetworks|by apply emits_ret|apply emits_api, emits_getNetworks]. }
    intros del'. apply emits_seq.
    { eapply emits_any, (k8s_Machine_Undeploy_emits (undeploys labHash opts) labHash (uSelectedMachines opts) (uExcludedMachines opts) Hh).
      intros name Hg Hl. unfold undeploys.
      split; [|split]; [intros r Hns Hcm; split; [done|by exists name]|split; [done|by exists name]..]. }
    intros _. apply emits_seq; [by apply k8s_Link_Undeploy_emits|]. intros _.
    destruct (undeploys_namespace _ _ _ _) eqn:En; [|by apply emits_ret].
    apply emits_api, emits_Namespace_Undeploy. unfold undeploys_namespace in En. apply andb_true_iff in En as [_ En].
    split; [done|]. by apply Z.eqb_eq. }
  destruct (He s) as (l & Hl & HP & _). by exists l.
Qed.

(** ** What stays *)

(** A device that stays: its pod is in every listing of the namespace, it is not
    on its way out, and it is on the networks [attachments]. *)
Section stays.
Context (json_error : string → string) (labHash : string) (opts : UndeployLabOptions) (p : Pod).
Context (attachments : list podNetworkAttachment).
Context (Hlisted : ∀ w w' pods, PodList labHash (ObjectSelector "") w = (w', Ok pods) → p ∈ pods).
Context (Hrunning : not_terminating p = true) (Hattached : podNetworkAttachments json_error p = Ok attachments).
Context (Hstays : goes opts.(uSelectedMachines) opts.(uExcludedMachines) (podLabel p) = false).

Definition spares (c : call) : Prop :=
  match c with
  | DeleteNetwork _ n => n ∉ aName <$> attachments
  | DeleteNamespace _ => False
  | DeleteDeployment _ n => n ≠ deployment_of (podLabel p)
  | DeleteConfigMap _ n => n ≠ ConfigMapName (deployment_of (podLabel p)) labHash
  | RunIn r => ∃ name, name ≠ podLabel p ∧ shuts_down labHash name r ∧ ∃ pod, r.(exPod) = pod.(pName) ∧ podLabel pod = name
  | _ => False
  end.

Lemma stays_survives : survives opts.(uSelectedMachines) opts.(uExcludedMachines) (podLabel p) = true.
Proof using All.
  revert Hstays. unfold goes, survives. destruct (uSelectedMachines opts), (uExcludedMachines opts); try done.
  - by intros ->.
  - by intros ->.
  - by intros H0%negb_false_iff.
Qed.

Lemma survivors_kept pods st :
  survivors json_error opts.(uSelectedMachines) opts.(uExcludedMachines) pods = Ok st → p ∈ pods →
  ∀ n, n ∈ aName <$> attachments → n ∈ st.
Proof using All.
  revert st. induction pods as [|q pods IH]; intros st; [by intros _ Hp%not_elem_of_nil|]. cbn [survivors].
  destruct (podNetworkAttachments json_error q) as [l|e] eqn:Eq; cbn; [|done].
  destruct (survivors _ _ _ pods) as [names|e] eqn:Es; cbn; [|done]. intros [= <-] [<- | Hp]%elem_of_cons n Hn.
  - rewrite stays_survives. assert (l = attachments) as -> by congruence. set_solver.
  - specialize (IH names eq_refl Hp n Hn). destruct (survives _ _ _); set_solver.
Qed.

Lemma machine_derived_spares (P : call → Prop) :
  labHash ≠ "" → 0 < set_len opts.(uSelectedMachines) ∨ 0 < set_len opts.(uExcludedMachines) →
  emits dlog P (machine_derived json_error labHash opts.(uSelectedMachines) opts.(uExcludedMachines) : KM _)
    (fun d => (∀ n, n ∈ aName <$> attachments → set_has d.1.2 n = false) ∧ d.1.2 ≠ None ∧ podLabel p ∈ d.2).
Proof using All.
  intros Hh Hsel. unfold machine_derived.
  destruct ((0 <? _) || (0 <? _)) eqn:E; [|rewrite orb_false_iff, !Z.ltb_ge in E; lia].
  apply emits_seq; [apply emits_api, emits_getNetworks|]. intros ns.
  eapply emits_bind; [apply emits_api, (emits_pods_where _ (fun l => p ∈ l)); [done|exact Hlisted]|]. intros ps Hps.
  assert (Hrun : p ∈ List.filter not_terminating ps)
    by (rewrite list_elem_of_In, filter_In, <- list_elem_of_In; done).
  eapply (emits_bind _ _ _ _ (fun st => ∀ n, n ∈ aName <$> attachments → n ∈ st));
    [apply emits_dgo; intros st Hst; by eapply survivors_kept|].
  intros st Hst. apply emits_ret. cbn. split; [|split; [done|]].
  - intros n Hn. specialize (Hst n Hn). case_bool_decide; set_solver.
  - apply elem_of_list_to_set, list_elem_of_fmap. by exists p.
Qed.

Lemma namespace_stays running :
  0 < set_len opts.(uSelectedMachines) ∨ 0 < set_len opts.(uExcludedMachines) → podLabel p ∈ running →
  opts.(uSelectedMachines) = None ∨ opts.(uExcludedMachines) = None →
  undeploys_namespace opts.(uSelectedMachines) opts.(uExcludedMachines) opts.(uSelectedLinks) running = false.
Proof using All.
  intros Hsel Hp Hone. unfold undeploys_namespace.
  destruct (uSelectedMachines opts) as [sel|] eqn:Es, (uExcludedMachines opts) as [exc|] eqn:Ee;
    [naive_solver| | |cbn in Hsel; lia]; rewrite andb_false_iff; left; cbn [goes] in Hstays.
  - assert (Ho : anyOutside running (Some sel) = true).
    { unfold anyOutside. apply existsb_exists. exists (podLabel p).
      rewrite <- list_elem_of_In, elem_of_elements. by rewrite Hstays. }
    rewrite Ho. rewrite !orb_false_iff, !andb_false_iff, !Z.eqb_neq. cbn [set_len] in *. cbn. lia.
  - assert (Ho : anyInside running (Some exc) = true).
    { unfold anyInside. apply existsb_exists. exists (podLabel p).
      rewrite <- list_elem_of_In, elem_of_elements. by apply negb_false_iff in Hstays. }
    rewrite Ho. rewrite !orb_false_iff, !andb_false_iff, !Z.eqb_neq. cbn [set_len] in *. cbn. lia.
Qed.
End stays.

Lemma ConfigMapName_inj d d' ns : ConfigMapName d ns = ConfigMapName d' ns → d = d'.
Proof. unfold ConfigMapName. intros E. by apply string_app_inj_r in E as [-> _]. Qed.

End undeploy.

(** Undeploying [pc3] of the small cluster removes it and the network it was alone
    on. *)
Definition only_pc3 : UndeployLabOptions := mkUndeployOptions (NewNameSet ["pc3"]) None None.
Definition pc3_log : list call :=
  dlog (UndeployLab (fun s => s) (mkLabRef "H1" "" None) only_pc3 sim_start).1.

Lemma UndeployLab_in_its_namespace_witness :
  Forall (undeploys (B := sim_cluster (F := unit)) "h1" only_pc3) pc3_log ∧ length pc3_log = 4%nat.
Proof.
  split; [|vm_compute; reflexivity].
  destruct (UndeployLab_in_its_namespace (fun s => s) (mkLabRef "H1" "" None) only_pc3 sim_start sim_start "h1")
    as (l & Hl & HP); [vm_compute; reflexivity|done|].
  unfold pc3_log. rewrite Hl. exact HP.
Defined.


(** * What waiting for the pods of a scenario amounts to

    The loop that waits for the devices of a scenario counts the reports of their
    pods.  Here it is compared with what those reports say, read off the stream of
    events as a whole. *)

(** ** The reports of a stream of events *)

(** Ready, or given up on. *)
Definition report_of (watched : NameSet) (pod : Pod) : option (string * bool) :=
  match pod.(pLabels) !! labelName, pod.(pStatuses) with
  | Some name, status :: _ =>
      if negb (watches watched name) then None
      else if status.(csReady) then Some (name, true)
      else if maxRestartCount <=? status.(csRestartCount) then Some (name, false)
      else None
  | _, _ => None
  end.

Fixpoint reports (watched : NameSet) (events : watchStream Pod) : list (string * bool) :=
  match events with
  | Event _ (Some pod) rest =>
      match report_of watched pod with Some r => r :: reports watched rest | None => reports watched rest end
  | Event _ None rest => reports watched rest
  | Closed | Cancelled _ | Silence _ => []
  end.

(** What ends the stream, for a wait that reads it to its end. *)
Fixpoint stream_end (events : watchStream Pod) : option bool :=
  match events with
  | Closed => None
  | Cancelled deadline => Some deadline
  | Silence _ => Some true
  | Event _ _ rest => stream_end rest
  end.

Definition deployed (rs : list (string * bool)) : list notice :=
  (fun r => MachineDeployed r.1) <$> List.filter snd rs.

(** The wait for [n] more reports, the earlier ones being good or not: what it
    announces, and the cause it ends with. *)
Definition outcome (n : nat) (good : bool) (watched : NameSet) (events : watchStream Pod) : list notice * option bool :=
  let rs := reports watched events in
  if (n <=? length rs)%nat
  then (deployed (take n rs) ++ (if good && forallb snd (take n rs) then [MachinesDeployEnded] else []), None)
  else (deployed rs, stream_end events).

Section waits.
Context {F : Type} {W : Type} `{K : KubeClient W} {B : K8s.Cluster (F := F) (W := W)}.
Local Notation KM := (@K8s.KM F W).

Definition announcing {A} (ns : list notice) (a : A) : KM A := do* _ <- sfor ns announce in sret a.

Lemma announcing_cons {A} n ns (a : A) s :
  announcing (n :: ns) a s = (do* _ <- announce n in announcing ns a) s.
Proof. unfold announcing, sbind. cbn [sfor]. unfold sbind. by destruct (announce n s) as [s1 [[]|e]]. Qed.

Lemma outcome_skip n good watched events events' :
  reports watched events = reports watched events' → stream_end events = stream_end events' →
  outcome n good watched events = outcome n good watched events'.
Proof. unfold outcome. by intros -> ->. Qed.

Lemma outcome_ready n good watched events events' name :
  reports watched events = (name, true) :: reports watched events' → stream_end events = stream_end events' →
  outcome (S n) good watched events =
    (MachineDeployed name :: (outcome n good watched events').1, (outcome n good watched events').2).
Proof. intros Hr He. unfold outcome. rewrite Hr, He. cbn [length Nat.leb]. by destruct (_ <=? _)%nat. Qed.

Lemma outcome_failed n good watched events events' name :
  reports watched events = (name, false) :: reports watched events' → stream_end events = stream_end events' →
  outcome (S n) good watched events = outcome n false watched events'.
Proof.
  intros Hr He. unfold outcome. rewrite Hr, He. cbn [length Nat.leb take forallb snd].
  destruct (_ <=? _)%nat; [|done]. by rewrite andb_false_r.
Qed.

Lemma outcome_done good watched events :
  outcome 0 good watched events = (if good then [MachinesDeployEnded] else [], None).
Proof. unfold outcome. cbn. by rewrite andb_true_r. Qed.

Lemma pod_counted watched name pod ready failed (s : dstate F machineObject Network W) :
  pod.(pLabels) !! labelName = Some name →
  (if watches watched name then pod_reported name pod ready failed else sret (ready, failed)) s =
  match report_of watched pod with
  | None => (s, Ok (ready, failed))
  | Some (_, true) => (do* _ <- announce (MachineDeployed name) in sret (Strconv.iadd ready 1, failed)) s
  | Some (_, false) => (s, Ok (ready, Strconv.iadd failed 1))
  end.
Proof.
  intros El. unfold report_of, pod_reported. rewrite El. destruct (pStatuses pod) as [|st sts]; [by destruct (watches _ _)|].
  destruct (watches watched name); [|done]. cbn [negb]. destruct (csReady st); [done|]. by destruct (_ <=? _).
Qed.

Lemma report_name watched name pod r :
  pod.(pLabels) !! labelName = Some name → report_of watched pod = Some r → r.1 = name.
Proof.
  intros El. unfold report_of. rewrite El. destruct (pStatuses pod) as [|st sts]; [done|].
  destruct (negb _); [done|]. destruct (csReady st); [by intros [= <-]|]. destruct (_ <=? _); [by intros [= <-]|done].
Qed.

Lemma startup_loop_outcome total watched events : ∀ n ready failed s,
  0 <= ready → 0 <= failed → total = ready + failed + Z.of_nat n → (0 < n)%nat → total < 2 ^ 63 →
  startup_loop total watched events ready failed s =
    announcing (outcome n (failed =? 0) watched events).1 (outcome n (failed =? 0) watched events).2 s.
Proof.
  induction events as [|d|rest IH|type [pod|] rest IH]; intros n ready failed s Hr Hf Ht Hn Hm; cbn [startup_loop];
    try (unfold outcome; cbn [reports stream_end length]; destruct n; [lia|]; done).
  2: { rewrite (IH n) by done. by rewrite (outcome_skip n _ watched (Event type None rest) rest). }
  assert (Hadd : ∀ a b, 0 <= a → 0 <= b → a + b <= total → Strconv.iadd a b = a + b).
  { intros a b Ha Hb Hab. apply Strconv.iadd_small. unfold MinInt64, MaxInt64.
    change (2 ^ 63) with 9223372036854775808 in *. lia. }
  destruct n as [|n]; [lia|].
  assert (Hrep : reports watched (Event type (Some pod) rest) =
    match report_of watched pod with Some r => r :: reports watched rest | None => reports watched rest end) by done.
  destruct (pLabels pod !! labelName) as [name|] eqn:El.
  2: { rewrite (IH (S n)) by done. rewrite (outcome_skip (S n) _ watched (Event type (Some pod) rest) rest); [done| |done].
       rewrite Hrep. unfold report_of. by rewrite El. }
  unfold sbind at 1. rewrite (pod_counted _ _ _ _ _ _ El).
  destruct (report_of watched pod) as [[name' [|]]|] eqn:Er.
  - (* ready *)
    assert (name' = name) as -> by (apply (report_name _ _ _ _ El Er)).
    rewrite (outcome_ready n _ watched _ rest name) by done. cbn [fst snd]. rewrite announcing_cons. unfold sbind.
    destruct (announce (MachineDeployed name) s) as [s1 [[]|e]]; [|done]. cbn.
    rewrite (Hadd ready 1) by lia. rewrite (Hadd (ready + 1) failed) by lia.
    destruct n as [|n].
    + rewrite (proj2 (Z.eqb_eq (ready + 1 + failed) total)) by lia. rewrite outcome_done. cbn [fst snd].
      assert (E : (ready + 1 =? total) = (failed =? 0)) by (destruct (Z.eqb_spec failed 0), (Z.eqb_spec (ready + 1) total); lia).
      rewrite E. unfold announcing, sbind. destruct (failed =? 0); cbn [sfor]; [|done]. unfold sbind.
      by destruct (announce MachinesDeployEnded s1) as [s2 [[]|e]].
    + rewrite (proj2 (Z.eqb_neq (ready + 1 + failed) total)) by lia. apply IH; lia.
  - (* given up on *)
    rewrite (outcome_failed n _ watched _ rest name') by done.
    rewrite (Hadd failed 1) by lia. rewrite (Hadd ready (failed + 1)) by lia.
    assert (E0 : (failed + 1 =? 0) = false) by lia.
    destruct n as [|n].
    + rewrite (proj2 (Z.eqb_eq (ready + (failed + 1)) total)) by lia. rewrite outcome_done.
      by rewrite (proj2 (Z.eqb_neq ready total)) by lia.
    + rewrite (proj2 (Z.eqb_neq (ready + (failed + 1)) total)) by lia. rewrite (IH (S n)) by lia. by rewrite E0.
  - rewrite (Hadd ready failed) by lia. rewrite (proj2 (Z.eqb_neq (ready + failed) total)) by lia.
    rewrite (IH (S n)) by done. by rewrite (outcome_skip (S n) _ watched (Event type (Some pod) rest) rest).
Qed.

(** The wait for the devices of a scenario amounts to counting the
    reports of their pods, ready or given up on: it ends at the report that makes
    as many as there are devices, saying that the deployment has ended exactly when
    all of those were good; with fewer reports it ends as the stream of events
    does, the watchdog included.  Every good report is announced. *)
Theorem startup_loop_counts_reports total watched events s :
  0 < total < 2 ^ 63 →
  let rs := reports watched events in
  startup_loop total watched events 0 0 s =
    if (Z.to_nat total <=? length rs)%nat
    then announcing (deployed (take (Z.to_nat total) rs)
                       ++ (if forallb snd (take (Z.to_nat total) rs) then [MachinesDeployEnded] else [])) None s
    else announcing (deployed rs) (stream_end events) s.
Proof.
  intros Ht rs. rewrite (startup_loop_outcome total watched events (Z.to_nat total) 0 0) by lia.
  unfold outcome. change (0 =? 0) with true. fold rs. by destruct (_ <=? _)%nat.
Qed.
End waits.


(** Two devices awaited, and two reports of the first: that is the end of the wait. *)
Lemma startup_loop_counts_reports_witness :
  let ready := Event "MODIFIED" (Some (sim_pod "pc1" [])) in
  startup_loop (B := sim_cluster) 2 None (ready (ready Closed)) 0 0 sim_start =
    announcing (B := sim_cluster) [MachineDeployed "pc1"; MachineDeployed "pc1"; MachinesDeployEnded] None sim_start.
Proof.
  intros ready. rewrite (startup_loop_counts_reports (B := sim_cluster)) by lia. vm_compute. reflexivity.
Defined.
