(* ===== verification/K8sDeploy.v ===== *)
(** * What deploying a scenario does to a cluster

    The numbers of the networks that are made, and what is created for a device,
    under which names it is found again. *)

From S2P Require Export K8sLog K8sNet.
Local Open Scope string_scope.
Local Open Scope list_scope.
Local Open Scope Z_scope.
Local Open Scope kat_scope.

(** What hangs an object on a collision domain, or reads the scenario, calls nobody. *)
Ltac silent_part :=
  first [apply emits_hp | by apply emits_ret | apply emits_throw | by apply emits_pure | apply emits_dgo; done].

Section links.
Context {F : Type}.
Context {W : Type} `{K : KubeClient W} {B : K8s.Cluster (F := F) (W := W * list call)} `{!QuietCluster}.
Local Notation KM := (@K8s.KM F (W * list call)).
Local Notation klog := (dlog : dstate F machineObject Network (W * list call) → list call).

Lemma traces_translated {A} (R : list call → Prop) (m : M (W * list call) goerror A) :
  traces snd m R → traces snd (translated m) R.
Proof using.
  intros Hm s. destruct (Hm s) as (l & Hl & HR). exists l. unfold translated. by destruct (m s) as [s' [a|e]].
Qed.

Lemma emits_names {A} P (name : A → KM string) l :
  (∀ x, emits klog P (name x) (fun _ => True)) → emits klog P (names_with name l) (fun ns => length ns = length l).
Proof using.
  intros Hn. induction l as [|x l IH]; cbn [names_with]; [by apply emits_ret|].
  apply emits_seq; [apply Hn|]. intros n. eapply emits_bind; [exact IH|]. intros ns Hl. apply emits_ret. cbn [length]. by rewrite Hl.
Qed.

Lemma emits_linkItemName P l : emits klog P (linkItemName l : KM string) (fun _ => True).
Proof using. unfold linkItemName, link_of. apply emits_seq; [apply emits_hp|]. intros k. by apply emits_ret. Qed.
Lemma emits_machineItemName P l : emits klog P (machineItemName l : KM string) (fun _ => True).
Proof using. unfold machineItemName, machine_of. apply emits_seq; [apply emits_hp|]. intros k. by apply emits_ret. Qed.

Lemma emits_keep_named {A} P (name : A → KM string) keep l :
  (∀ x, emits klog P (name x) (fun _ => True)) → emits klog P (keep_named name keep l) (fun _ => True).
Proof using.
  intros Hn. induction l as [|x l IH]; cbn [keep_named]; [by apply emits_ret|].
  apply emits_seq; [apply Hn|]. intros n. apply emits_seq; [exact IH|]. intros ns. by apply emits_ret.
Qed.

Lemma emits_filter_named {A} P (name : A → KM string) l sel exc :
  (∀ x, emits klog P (name x) (fun _ => True)) → emits klog P (filter_named name l sel exc) (fun _ => True).
Proof using.
  intros Hn. unfold filter_named. destruct (0 <? set_len sel); [by apply emits_keep_named|].
  destruct (0 <? set_len exc); [by apply emits_keep_named|]. by apply emits_ret.
Qed.

(** *** The numbers of the networks *)

Definition network_made (m : string * string * Z) : call :=
  CreateNetwork m.1.1 (NetworkDefinition (NetworkName settings.(Settings.sNetPrefix) m.1.2) m.1.2 m.1.1 m.2).

(** Deploying a collision domain makes at most one network, of its number. *)
Definition makes_one (x : loc * Z) (l : list call) : Prop := l = [] ∨ ∃ ns name, l = [network_made (ns, name, x.2)].

Lemma deployLink_makes_one x : traces klog (deployLink x.2 x.1 : KM unit) (makes_one x).
Proof using All.
  destruct x as [link id]. unfold deployLink. cbn [fst snd].
  eapply traces_before; [|intros []; apply emits_dispatch_k8s].
  assert (H0 : makes_one (link, id) []) by by left.
  unfold Link_Create, link_of, lab_of. eapply traces_after; [apply emits_hp| |done]. intros k _.
  eapply traces_after; [apply emits_hp| |done]. intros lab _.
  eapply traces_after; [apply emits_api, emits_getNetworks| |done]. intros networks _.
  destruct (List.last _ _) as [network|].
  - eapply traces_quiet; [|done]. by apply emits_pure.
  - eapply (traces_before _ _ _ (fun _ => True)); [|intros created; by apply emits_pure].
    apply traces_api, traces_translated. open_calls. apply traces_logged. right. by exists (LabHash lab), (lName k).
Qed.

Lemma by_task_numbers (items : list (loc * Z)) (l : list call) :
  by_task makes_one items l → ∃ made, l = network_made <$> made ∧ sublist (snd <$> made) (snd <$> items).
Proof using.
  intros (ls & Hls & ->). induction Hls as [|x l items ls Hx _ (made & E & Hs)]; cbn [concat].
  { exists []. done. }
  rewrite E. destruct Hx as [->|(ns & name & ->)].
  - exists made. split; [done|]. by constructor.
  - exists ((ns, name, x.2) :: made). split; [done|]. by constructor.
Qed.

(** A network that stands: it is in every listing of its namespace, which is in
    every listing of the namespaces. *)
Definition standing (n : Network) : Prop :=
  (∀ w w' l, NamespaceList (ObjectSelector "") w = (w', Ok l) → n.(nNamespace) ∈ nsName <$> l) ∧
  (∀ w w' l, NetworkList n.(nNamespace) (ObjectSelector "") w = (w', Ok l) → n ∈ l).

Lemma list_networks_standing P n namespaces :
  standing n → n.(nNamespace) ∈ namespaces →
  emits snd P (list_networks namespaces (ObjectSelector "") : M (W * list call) goerror _) (fun l => n ∈ l).
Proof using.
  intros [_ Hn]. induction namespaces as [|ns nss IH]; [by intros ?%not_elem_of_nil|]. intros Hin. cbn [list_networks].
  apply (emits_bind _ _ _ _ (fun l => ns = n.(nNamespace) → n ∈ l)).
  { apply emits_translated. open_calls. apply emits_silent. intros w l Hl ->.
    destruct (NetworkList (nNamespace n) (ObjectSelector "") w) as [w' r] eqn:E. cbn in Hl. subst r. by eapply Hn. }
  intros l Hl. destruct (decide (ns = n.(nNamespace))) as [E|].
  - apply emits_seq.
    + clear. induction nss as [|ns' nss IH]; cbn [list_networks]; [by apply emits_ret|].
      apply emits_seq; [by apply emits_translated; one_call|]. intros items. apply emits_seq; [exact IH|].
      intros rest. by apply emits_ret.
    + intros rest. apply emits_ret. apply elem_of_app. left. auto.
  - eapply emits_bind; [apply IH; apply elem_of_cons in Hin as [<-|]; done|]. intros rest Hr. apply emits_ret. apply elem_of_app. by right.
Qed.

Lemma existing_standing P :
  emits snd P (existingNetworkIDs : M (W * list call) goerror (list Z))
    (fun ids => ∀ n v, standing n → NetworkVXLANID (Some n) = Some v → v ∈ ids).
Proof using.
  assert (Hall : emits snd P (getNetworksByFilters "" "" : M (W * list call) goerror _) (fun l => ∀ n, standing n → n ∈ l)).
  { intros s. destruct (emits_getNetworks (K := K) P "" "" s) as (l & Hl & HP & _). exists l.
    split; [done|]. split; [done|]. intros a Ha n Hn.
    assert (He : emits snd P (getNetworksByFilters "" "" : M (W * list call) goerror _) (fun l => n ∈ l)).
    { unfold getNetworksByFilters, targetNamespaces, GetAll. cbn [negb String.eqb].
      eapply (emits_bind _ _ _ _ (fun nss => n.(nNamespace) ∈ nss)); [|intros nss Hin; by apply list_networks_standing].
      eapply (emits_bind _ _ _ _ (fun all => n.(nNamespace) ∈ nsName <$> all)); [|intros all Hin; by apply emits_ret].
      apply emits_translated. open_calls. apply emits_silent. intros w all Hw.
      destruct (NamespaceList (ObjectSelector "") w) as [w' r] eqn:E. cbn in Hw. subst r. by eapply Hn. }
    destruct (He s) as (_ & _ & _ & HQ). by apply HQ. }
  unfold existingNetworkIDs. eapply emits_bind; [exact Hall|]. intros l Hl. apply emits_ret. intros n v Hn Hv.
  apply list_elem_of_omap. exists n. auto.
Qed.

(** Deploying collision domains on a cluster makes networks with
    pairwise different VXLAN numbers, in the range of the network plugin and
    different from the number of every network that stands on the cluster, whoever
    deployed it and whatever the API server answers in between. *)
Theorem DeployLinks_numbers_apart lab selected excluded s :
  ∃ made, dlog ((DeployLinks lab selected excluded : KM _) s).1 = dlog s ++ (network_made <$> made) ∧
    NoDup (snd <$> made) ∧ Forall (fun id => 0 <= id < maxLinkNumber) (snd <$> made) ∧
    ∀ n v, standing n → NetworkVXLANID (Some n) = Some v → v ∉ snd <$> made.
Proof using All.
  set (R := fun l : list call => ∃ made, l = network_made <$> made ∧
    NoDup (snd <$> made) ∧ Forall (fun id => 0 <= id < maxLinkNumber) (snd <$> made) ∧
    ∀ n v, standing n → NetworkVXLANID (Some n) = Some v → v ∉ snd <$> made).
  assert (H0 : R []) by (exists []; repeat split; [constructor|constructor|set_solver]).
  enough (Ht : traces klog (DeployLinks lab selected excluded : KM _) R).
  { destruct (Ht s) as (l & Hl & made & -> & H1). by exists made. }
  unfold DeployLinks. destruct (_ && _); [by eapply traces_quiet; [by apply (emits_throw _ _ _ (fun _ => True))|]|].
  eapply traces_after; [apply emits_hp| |done]. intros b _.
  eapply traces_after; [apply emits_filter_named, emits_linkItemName| |done]. intros links _.
  case_bool_decide; [by eapply traces_quiet; [by apply (emits_ret _ _ _ (fun _ => True))|]|].
  eapply traces_after; [apply emits_dispatch_k8s| |done]. intros [] _.
  eapply traces_after; [apply emits_api, existing_standing| |done]. intros existing Hex.
  eapply traces_after; [apply emits_names, emits_linkItemName| |done]. intros names Hlen.
  destruct (allocate_links existing names) as [ids|] eqn:E; [|by eapply traces_quiet; [by apply (emits_ret _ _ _ (fun _ => True))|]].
  eapply traces_before; [|intros []; apply emits_seq; [apply emits_dispatch_k8s|intros []; by apply (emits_ret _ _ _ (fun _ => True))]].
  eapply traces_weaken.
  { apply traces_runBatches; [intros x; apply emits_linkItemName|intros x; apply deployLink_makes_one|by left]. }
  intros l (made & -> & Hs)%by_task_numbers. exists made. split; [done|].
  unfold allocate_links in E. apply fmap_Some in E as ([a' ids'] & E & ->).
  destruct (allocate_all_apart _ _ _ _ _ E) as (Hl & Hnd & Hall). cbn [snd] in *. cbn [newVNIAllocator reserved] in Hall.
  assert (Hsub : sublist (snd <$> made) ids').
  { etransitivity; [exact Hs|]. rewrite snd_zip by lia. reflexivity. }
  rewrite Forall_forall in Hall. split_and!.
  - by eapply sublist_NoDup.
  - apply Forall_forall. intros x Hx. apply Hall. by eapply elem_of_sublist.
  - intros n v Hn Hv Hin. specialize (Hex n v Hn Hv). destruct (Hall v) as [Hv' _]; [by eapply elem_of_sublist|].
    apply Hv'. by apply elem_of_list_to_set.
Qed.
End links.

(** ** The objects of a device *)

Section devices.
Context {F : Type} `{TextCases} (cwd : option string).
Context {W : Type} `{K : KubeClient W} {B : K8s.Cluster (F := F) (W := W * list call)} `{!QuietCluster}.
Local Notation KM := (@K8s.KM F (W * list call)).
Local Notation state := (dstate F machineObject Network (W * list call)).
Local Notation klog := (dlog : state → list call).

(** [does J P m J' Q]: from a heap in [J], the calls of [m] satisfy [P], and a
    result satisfies [Q] over a heap in [J']. *)
Definition does {A} (J : heap F → Prop) (P : call → Prop) (m : KM A) (J' : heap F → Prop) (Q : A → Prop) : Prop :=
  ∀ s : state, J s.(d_heap) → ∃ l, klog (m s).1 = klog s ++ l ∧ Forall P l ∧
    ∀ a, (m s).2 = Ok a → J' (m s).1.(d_heap) ∧ Q a.

Lemma does_emits {A} J P (m : KM A) Q : emits klog P m Q → does J P m (fun _ => True) Q.
Proof using. intros Hm s _. destruct (Hm s) as (l & Hl & HP & HQ). exists l. naive_solver. Qed.

Lemma does_keeps {A} J P (m : KM A) Q :
  emits klog P m Q → (∀ s, (m s).1.(d_heap) = s.(d_heap)) → does J P m J Q.
Proof using.
  intros Hm Hs s HJ. destruct (Hm s) as (l & Hl & HP & HQ). exists l. split; [done|]. split; [done|].
  intros a Ha. rewrite Hs. auto.
Qed.

Lemma does_bind {A A'} J P (m : KM A) (k : A → KM A') J1 R J2 Q :
  does J P m J1 R → (∀ a, R a → does J1 P (k a) J2 Q) → does J P (sbind m k) J2 Q.
Proof using.
  intros Hm Hk s HJ. destruct (Hm s HJ) as (l & Hl & HP & HR). unfold sbind.
  destruct (m s) as [s1 [a|e]]; cbn in *; [|exists l; naive_solver].
  destruct (HR a eq_refl) as [HJ1 Ha]. destruct (Hk a Ha s1 HJ1) as (l' & Hl' & HP' & HQ). exists (l ++ l').
  rewrite Hl', Hl, app_assoc. split; [done|]. split; [by apply Forall_app|done].
Qed.

Context (machine : loc) (m0 : Machine).

(** The device is the one it was, and has been given the name of its Deployment. *)
Definition same_device (h : heap F) : Prop :=
  ∃ m, h.(hMachines) !! machine = Some m ∧ m.(mName) = m0.(mName) ∧ m.(mLab) = m0.(mLab).
Definition named_device (h : heap F) : Prop :=
  ∃ m, h.(hMachines) !! machine = Some m ∧ m.(mName) = m0.(mName) ∧ m.(mLab) = m0.(mLab) ∧
       realName m = DeploymentName settings.(Settings.sDevicePrefix) m0.(mName).

Lemma does_machine_of P (J : heap F → Prop) (Q : Machine → Prop) :
  (∀ h, J h → ∀ m, h.(hMachines) !! machine = Some m → Q m) → does J P (machine_of machine : KM _) J Q.
Proof using.
  intros HQ s HJ. exists []. rewrite app_nil_r. unfold machine_of, hp, getMachine, deref.
  destruct (hMachines (d_heap s) !! machine) as [m|] eqn:E; cbn; (split; [done|]; split; [done|]).
  - intros a [= <-]. split; [by destruct s|by eapply HQ].
  - done.
Qed.

(** Editing the metas of the device keeps it. *)
Lemma does_update_meta P f : does same_device P (update_meta machine f : KM _) same_device (fun _ => True).
Proof using.
  intros s (m & Em & Hn & Hl). exists []. rewrite app_nil_r.
  unfold update_meta, machine_of, hp, getMachine, putMachine, deref, smodify, sbind. rewrite Em. cbn.
  rewrite ?Em. cbn. split; [done|]. split; [done|]. intros [] _. split; [|done].
  exists (set_meta (f (mMeta m)) m). split; [apply lookup_insert_eq|done].
Qed.

Lemma does_AddMeta P name value :
  does same_device P (hp (Machine_AddMeta cwd machine name value) : KM _) same_device (fun _ => True).
Proof using.
  intros s (m & Em & Hn & Hl). exists []. rewrite app_nil_r.
  unfold hp, Machine_AddMeta, getMachine, putMachine, deref, smodify, sbind. rewrite Em. cbn.
  destruct (AddMeta cwd (mName m) name value (mMeta m)) as [meta r]. cbn. unfold go.
  destruct r as [a|e]; cbn; (split; [done|]; split; [done|]); [|done].
  intros x _. split; [|done]. exists (set_meta meta m). split; [apply lookup_insert_eq|done].
Qed.

Lemma AddMeta_real_name mname value meta :
  ∃ r, AddMeta cwd mname realNameMeta value meta = (set_Extras (SetKey meta.(Extras) realNameMeta (Str value)).1 meta, Ok r).
Proof using.
  unfold AddMeta, setScalar. cbn -[SetKey]. destruct (SetKey _ _ _) as [extras prev]. eexists. reflexivity.
Qed.

Lemma does_real_name P value :
  value = DeploymentName settings.(Settings.sDevicePrefix) m0.(mName) →
  does same_device P (hp (Machine_AddMeta cwd machine realNameMeta value) : KM _) named_device (fun _ => True).
Proof using.
  intros Hv s (m & Em & Hn & Hl). exists []. rewrite app_nil_r.
  unfold hp, Machine_AddMeta, getMachine, putMachine, deref, smodify, sbind. rewrite Em. cbn -[AddMeta].
  destruct (AddMeta_real_name (mName m) value (mMeta m)) as [r ->]. cbn. split; [done|]. split; [done|].
  intros x _. split; [|done]. eexists. split; [apply lookup_insert_eq|]. cbn. split; [done|]. split; [done|].
  unfold realName. cbn [mMeta set_meta Extras set_Extras].
  by rewrite get_set_eq.
Qed.

(** *** What is made of the device *)

Lemma emits_containerPorts P ports : emits klog P (containerPorts ports : KM _) (fun _ => True).
Proof using All.
  induction ports as [|[[hp proto] v] ports IH]; cbn [containerPorts]; [by apply emits_ret|].
  apply emits_seq.
  - apply emits_api. intros w. exists []. rewrite app_nil_r. pose proof (quiet_port w) as Hq.
    destruct (K8s.portName w) as [w' n]. cbn in *. done.
  - intros name. apply emits_seq; [exact IH|]. intros rest. by apply emits_ret.
Qed.

Lemma emits_networkAttachments P m : emits klog P (networkAttachments m : KM _) (fun _ => True).
Proof using All.
  unfold networkAttachments, lab_of. apply emits_seq; [apply emits_hp|]. intros lab.
  apply emits_seq; [|intros l; by apply emits_ret].
  induction (interfaces m) as [|iface ifs IH]; cbn [attachments_of]; [by apply emits_ret|].
  destruct (iLink iface) as [l|]; [|apply emits_throw]. unfold link_of.
  apply emits_seq; [apply emits_hp|]. intros k. apply emits_seq; [by apply emits_pure|]. intros [network|]; [|apply emits_throw].
  apply emits_seq; [exact IH|]. intros rest. by apply emits_ret.
Qed.

(** The Deployment of a device: its name, and the labels of its pods. *)
Definition deployment_for (name : string) (d : Deployment) : Prop :=
  d.(dName) = DeploymentName settings.(Settings.sDevicePrefix) name ∧ d.(dReplicas) = 1 ∧
  d.(dMatchLabels) = d.(dPodLabels) ∧ d.(dPodLabels) = ObjectLabels name.

Lemma does_buildDefinition P configMap :
  does named_device P (buildDefinition machine configMap : KM _) (fun _ => True) (deployment_for m0.(mName)).
Proof using All.
  unfold buildDefinition.
  apply (does_bind _ _ _ _ named_device (fun m => m.(mName) = m0.(mName) ∧
           realName m = DeploymentName settings.(Settings.sDevicePrefix) m0.(mName))).
  { apply does_machine_of. intros h (m & Em & Hn & Hl & Hr) m' Em'. assert (m' = m) as -> by congruence. done. }
  intros m [Hn Hr]. apply does_emits. unfold lab_of.
  apply emits_seq; [apply emits_hp|]. intros lab. apply emits_seq; [by apply emits_dgo|]. intros mounts.
  apply emits_seq; [apply emits_containerPorts|]. intros ports.
  do 4 (apply emits_seq; [by apply emits_dgo|]; intros ?).
  apply emits_seq; [apply emits_networkAttachments|]. intros attachments. apply emits_ret. unfold deployment_for. cbn.
  by rewrite Hn, Hr.
Qed.

(** The objects made for the device of a name in a namespace. *)
Definition creates_for (name labHash : string) (c : call) : Prop :=
  match c with
  | CreateConfigMap ns cm =>
      ns = labHash ∧ cm.(cmName) = ConfigMapName (DeploymentName settings.(Settings.sDevicePrefix) name) labHash
  | CreateDeployment ns d => ns = labHash ∧ deployment_for name d
  | _ => False
  end.

Lemma does_creating {A} J P name (m : KM A) J' Q : does J P m J' Q → does J P (creating name m) J' Q.
Proof using.
  intros Hm s HJ. destruct (Hm s HJ) as (l & Hl & HP & HQ). exists l. unfold creating.
  destruct (m s) as [s' [a|[e|]]]; cbn in *; naive_solver.
Qed.

Lemma Create_does lab :
  (∀ l s, (packData l s : state * _).1.(d_heap) = s.(d_heap)) →
  ∀ s : state, s.(d_heap).(hMachines) !! machine = Some m0 → s.(d_heap).(hLabs) !! m0.(mLab) = Some lab →
  ∃ l, klog (Create cwd machine s).1 = klog s ++ l ∧ Forall (creates_for m0.(mName) lab.(LabHash)) l.
Proof using All.
  intros Hpack s Em El. unfold Create.
  assert (Em' : machine_of machine s = (s, Ok m0)).
  { unfold machine_of, hp, getMachine, deref. rewrite Em. by destruct s. }
  assert (El' : lab_of (mLab m0) s = (s, Ok lab)).
  { unfold lab_of, hp, getLab, deref. rewrite El. by destruct s. }
  unfold sbind at 1. rewrite Em'. unfold sbind at 1. rewrite El'.
  match goal with |- context [klog ((?m : _ → _) s).1] => set (body := m) end.
  enough (Hb : does same_device (creates_for (mName m0) (LabHash lab)) (body : KM unit) (fun _ => True) (fun _ => True)).
  { destruct (Hb s) as (l & Hl & HP & _); [by exists m0|]. by exists l. }
  subst body. eapply (does_bind _ _ _ _ same_device (fun _ => True)).
  { destruct (GlobalMachineMetadata lab "exec") as [v|]; [|by apply does_keeps; [apply emits_ret|]].
    eapply does_bind; [apply does_AddMeta|]. intros r _. by apply does_keeps; [apply emits_ret|]. }
  intros [] _. eapply (does_bind _ _ _ _ same_device (fun _ => True)).
  { unfold mergeSysctls. eapply does_bind; [by apply (does_machine_of _ _ (fun _ => True))|]. intros m _.
    apply (does_bind _ _ _ _ same_device (fun _ => True)).
    { apply does_keeps; [apply emits_hp|]. intros s'. unfold lab_of, hp, getLab, deref. cbn. destruct (hLabs (d_heap s') !! mLab m); reflexivity. }
    intros b _. apply (does_bind _ _ _ _ same_device (fun _ => True)); [by apply does_keeps; [apply emits_dgo|intros s'; by destruct (IsIPv6Enabled b m)]|].
    intros v6 _. apply does_update_meta. }
  intros [] _. eapply does_bind; [by apply does_real_name|]. intros r _.
  eapply does_bind.
  { apply (does_machine_of _ _ (fun m => m.(mName) = m0.(mName) ∧
           realName m = DeploymentName settings.(Settings.sDevicePrefix) m0.(mName))).
    intros h (m & Em1 & Hn & _ & Hr) m' Em2. assert (m' = m) as -> by congruence. done. }
  intros m [Hn Hr]. apply (does_bind _ _ _ _ (fun _ => True) (fun _ => True)).
  - apply does_creating.
    apply (does_bind _ _ _ _ named_device (fun _ => True)).
    { apply does_keeps; [eapply emits_quiet, quiet_pack|apply Hpack]. }
    intros tarData _. rewrite Hr. apply (does_bind _ _ _ _ named_device (fun _ => True)).
    { apply does_keeps; [|intros s'; unfold api; by destruct (DeployForMachine _ _ _ _)].
      apply emits_api, emits_DeployForMachine. by intros cm Hc. }
    intros configMap _. eapply does_bind; [apply does_buildDefinition|]. intros d Hd. apply does_emits, emits_api. by one_call.
  - intros created _. apply does_emits. by apply emits_pure.
Qed.

Lemma undeployMachine_removes pod (s : state) :
  (undeployMachine pod s).2 = Ok tt →
  ∃ runs, klog (undeployMachine pod s).1 = klog s ++ runs ++
    [DeleteConfigMap pod.(pNamespace)
       (ConfigMapName (DeploymentName settings.(Settings.sDevicePrefix) (podLabel pod)) pod.(pNamespace));
     DeleteDeployment pod.(pNamespace) (DeploymentName settings.(Settings.sDevicePrefix) (podLabel pod))].
Proof using.
  unfold undeployMachine.
  set (m := try_ (exec _ _ _ _)). assert (Hm : emits klog (fun _ => True) m (fun _ => True)).
  { subst m. eapply emits_any, (emits_try _ _ (fun _ => True)). unfold exec.
    apply emits_seq; [apply emits_api, emits_translated, emits_getPods|]. intros pods.
    destruct (List.last _ _) as [pod'|]; [|apply emits_throw]. by apply emits_api, emits_runExecAll. }
  destruct (Hm s) as (runs & Hl & _). unfold sbind at 1 4. destruct (m s) as [s1 [ran|e]]; [|done]. cbn in Hl.
  set (k := match ran with Ok _ => _ | Err _ => _ end).
  assert (Hk : k s1 = (s1, Ok tt) ∨ ∃ e, (k s1) = (s1, Err e)).
  { subst k. destruct ran as [r|err]; [by left|]. destruct (shutdown_failure err); [right; by eexists|by left]. }
  unfold sbind at 1 3. destruct Hk as [-> |[e ->]]; [|done].
  unfold sbind, api, DeleteForMachine, translated, dlog, logged in *. open_calls. unfold logged. cbn.
  destruct (ConfigMapDelete _ _ _) as [w1 r1]. cbn. destruct (DeploymentDelete _ _ _) as [w2 [[]|e]]; cbn; [|done].
  intros _. exists runs. by rewrite Hl, <- !app_assoc.
Qed.

(** C26: What is made for a device is what undeploying it removes: the
    Deployment and the archive that creating a device asks for, in the namespace of
    its scenario, are the ones that undeploying a pod with the labels of that
    Deployment removes, and the Deployment selects the pods it makes. *)
Theorem Create_then_undeploy lab pod (s s' : state) :
  (∀ l s, (packData l s : state * _).1.(d_heap) = s.(d_heap)) →
  s.(d_heap).(hMachines) !! machine = Some m0 → s.(d_heap).(hLabs) !! m0.(mLab) = Some lab →
  pod.(pLabels) = ObjectLabels m0.(mName) → pod.(pNamespace) = lab.(LabHash) → (undeployMachine pod s').2 = Ok tt →
  ∃ made gone, klog (Create cwd machine s).1 = klog s ++ made ∧ klog (undeployMachine pod s').1 = klog s' ++ gone ∧
    Forall (fun c => match c with
                     | CreateConfigMap ns cm => DeleteConfigMap ns cm.(cmName) ∈ gone
                     | CreateDeployment ns d => DeleteDeployment ns d.(dName) ∈ gone ∧
                                                d.(dPodLabels) = pod.(pLabels) ∧ d.(dMatchLabels) = d.(dPodLabels)
                     | _ => False
                     end) made.
Proof using All.
  intros Hpack Em El Hlabels Hns Hok. destruct (Create_does lab Hpack s Em El) as (made & Hmade & Hall).
  destruct (undeployMachine_removes pod s' Hok) as (runs & Hgone).
  assert (Hname : podLabel pod = m0.(mName)).
  { unfold podLabel. rewrite Hlabels. assert (E : ObjectLabels (mName m0) !! labelName = Some (mName m0)) by apply lookup_insert_eq.
    by rewrite E. }
  rewrite Hname, Hns in Hgone. exists made. eexists. split; [exact Hmade|]. split; [exact Hgone|].
  eapply Forall_impl; [exact Hall|]. intros [] Hc; try done; cbn in Hc.
  - destruct Hc as [-> ->]. set_solver.
  - destruct Hc as [-> (-> & _ & Hsel & Hpods)]. split; [set_solver|]. split; [congruence|done].
Qed.
End devices.

(** Two collision domains of the small cluster's namespace: one is there, one is
    made, with a number of its own. *)
#[local] Instance deploy_cases : TextCases := ToLower.

Definition two_links : heap unit :=
  mkHeap {[ 2%positive := mkMachine 1%positive "pc9" newMeta None [] ]}
    {[ 3%positive := mkLink 1%positive "A" [] NewOrderedMap; 4%positive := mkLink 1%positive "C" [] NewOrderedMap ]}
    {[ 1%positive := mkLab "" "" "" "" "" "h1" "" false tt DefaultDefaults (Some "l")
         (SetKey NewOrderedMap "pc9" 2%positive).1
         (SetKey (SetKey NewOrderedMap "A" 3%positive).1 "C" 4%positive).1 NewOrderedMap NewOrderedMap ]}
    5%positive.

Lemma DeployLinks_numbers_apart_witness :
  ∃ made, dlog (DeployLinks 1%positive None None (sim_state two_links)).1 = network_made (B := sim_cluster (F := unit)) <$> made ∧
    length made = 1%nat ∧ NoDup (snd <$> made).
Proof.
  destruct (DeployLinks_numbers_apart (B := sim_cluster) 1%positive None None (sim_state two_links)) as (made & Hl & Hnd & _).
  exists made. split; [exact Hl|]. split; [|exact Hnd]. apply (f_equal length) in Hl. rewrite length_app, length_fmap in Hl.
  transitivity (length (dlog (DeployLinks 1%positive None None (sim_state two_links)).1)); [by rewrite Hl|].
  vm_compute. reflexivity.
Defined.

(** [pc9] created in the small cluster, and a pod of it undeployed. *)
Lemma Create_then_undeploy_witness :
  ∃ made gone, dlog (Create None 2%positive (sim_state two_links)).1 = made ∧
    dlog (undeployMachine (sim_pod "pc9" []) (sim_state two_links)).1 = gone ∧ length made = 2%nat ∧
    Forall (fun c => match c with
                     | CreateConfigMap ns cm => DeleteConfigMap ns cm.(cmName) ∈ gone
                     | CreateDeployment ns d => DeleteDeployment ns d.(dName) ∈ gone ∧
                                                d.(dPodLabels) = ObjectLabels "pc9" ∧ d.(dMatchLabels) = d.(dPodLabels)
                     | _ => False
                     end) made.
Proof.
  destruct (Create_then_undeploy (B := sim_cluster) None 2%positive (mkMachine 1%positive "pc9" newMeta None [])
    (mkLab "" "" "" "" "" "h1" "" false tt DefaultDefaults (Some "l")
         (SetKey NewOrderedMap "pc9" 2%positive).1
         (SetKey (SetKey NewOrderedMap "A" 3%positive).1 "C" 4%positive).1 NewOrderedMap NewOrderedMap)
    (sim_pod "pc9" []) (sim_state two_links) (sim_state two_links)) as (made & gone & Hm & Hg & Hall);
    [done|reflexivity..| |].
  - vm_compute. reflexivity.
  - exists made, gone. split; [exact Hm|]. split; [exact Hg|]. split; [|exact Hall].
    transitivity (length (dlog (Create None 2%positive (sim_state two_links)).1)); [by rewrite Hm|]. vm_compute. reflexivity.
Defined.
