(* ===== verification/K8sBack.v ===== *)
(** * A device read back from its pod

    What the manager rebuilds of a device from a pod of its Deployment is what the
    device was deployed with. *)

From S2P Require Export K8sRec K8sLog.
Local Open Scope string_scope.
Local Open Scope list_scope.
Local Open Scope Z_scope.
Local Open Scope kat_scope.

(** ** Maps filled again from their entries *)

Section refill.
Context {K V : Type} `{Countable K}.

Lemma set_all_entries (l : list (K * V)) : NoDup l.*1 →
  foldl (fun o e => (SetKey o e.1 e.2).1) NewOrderedMap l = mkOrderedMap l.*1 (list_to_map l).
Proof.
  induction l as [|[k v] l IH] using rev_ind; [done|]. rewrite fmap_app. intros (Hnd & Hk & _)%NoDup_app.
  rewrite foldl_app, IH by done. cbn [foldl fst snd].
  assert (Hn : k ∉ l.*1) by (intros Hin; apply (Hk k Hin); cbn; set_solver).
  unfold SetKey. cbn [okeys ovalues]. rewrite (not_elem_of_list_to_map_1 _ _ Hn). cbn [fst].
  by rewrite list_to_map_snoc.
Qed.

Lemma refilled (o : OrderedMap K V) : wf_map o →
  foldl (fun m e => (SetKey m e.1 e.2).1) NewOrderedMap (Entries o) = o.
Proof.
  intros Hwf. pose proof (entries_keys o Hwf) as Hk. rewrite set_all_entries by (rewrite Hk; apply Hwf). rewrite Hk.
  destruct o as [ks vs]. cbn [okeys] in *. f_equal. apply map_eq. intros k.
  destruct (vs !! k) as [v|] eqn:E.
  - apply elem_of_list_to_map; [rewrite Hk; apply Hwf|]. by apply elem_of_entries.
  - apply not_elem_of_list_to_map. rewrite Hk. destruct Hwf as [_ Hdom]. intros [v Hv]%Hdom. cbn in Hv. congruence.
Qed.
End refill.

(** ** The container of a device *)

(** A port of the device and the port of the container it became. *)
Definition port_of (e : PortKey * Z) (p : containerPort) : Prop :=
  p.(HostPort) = int32 e.1.1 ∧ p.(Protocol) = ToUpper e.1.2 ∧ p.(ContainerPort) = int32 e.2.

(** A port that fits the fields of a container. *)
Definition port_fits (e : PortKey * Z) : Prop :=
  - 2 ^ 31 <= e.1.1 < 2 ^ 31 ∧ - 2 ^ 31 <= e.2 < 2 ^ 31 ∧ ToLower (ToUpper e.1.2) = e.1.2.

Lemma int32_small z : - 2 ^ 31 <= z < 2 ^ 31 → int32 z = z.
Proof. intros Hz. unfold int32. rewrite Z.mod_small; lia. Qed.

Lemma set_ports_back l ps o :
  Forall2 port_of l ps → Forall port_fits l →
  set_ports ps o = foldl (fun m e => (SetKey m e.1 e.2).1) o l.
Proof.
  intros Hp. revert o. induction Hp as [|[[h proto] v] p l ps (Eh & Ep & Ev) _ IH]; intros o Hf; [done|].
  apply Forall_cons in Hf as [(Hh & Hv & Hl) Hf]. cbn [fst snd] in *. unfold set_ports in *. cbn [foldl].
  rewrite Eh, Ep, Ev, !int32_small, Hl by done. by apply IH.
Qed.

Lemma set_envs_back l o : megalosShellEnv ∉ l.*1 →
  set_envs l o = foldl (fun m e => (SetKey m e.1 e.2).1) o l.
Proof.
  revert o. induction l as [|[k v] l IH]; intros o Hn; [done|]. cbn in Hn. unfold set_envs in *. cbn [foldl fst snd].
  assert (Hk : k ≠ megalosShellEnv) by set_solver. apply String.eqb_neq in Hk. rewrite Hk. cbn. apply IH. set_solver.
Qed.

Section back.
Context {F : Type} `{TextCases} (cwd : option string).
Context {W : Type} `{K : KubeClient W} {B : K8s.Cluster (F := F) (W := W)}.
Local Notation KM := (@K8s.KM F W).
Local Notation state := (dstate F machineObject Network W).

Lemma dgo_ok {A} (r : result goerror A) (s s' : state) a : dgo r s = (s', Ok a) → s' = s ∧ r = Ok a.
Proof. unfold dgo. destruct r; cbn; [|done]. by intros [= <- <-]. Qed.

Lemma containerPorts_back l (s s' : state) ps : containerPorts l s = (s', Ok ps) → Forall2 port_of l ps.
Proof.
  revert s s' ps. induction l as [|[[h proto] v] l IH]; intros s s' ps; cbn [containerPorts].
  { intros [= _ <-]. constructor. }
  intros (name & s1 & _ & E)%bind_inv. apply bind_inv in E as (rest & s2 & E & Er). injection Er as _ <-.
  constructor; [done|]. by eapply IH.
Qed.

(** The container of a Deployment the backend builds. *)
Lemma buildDefinition_container machine configMap (s s' : state) m lab d :
  s.(d_heap).(hMachines) !! machine = Some m → s.(d_heap).(hLabs) !! m.(mLab) = Some lab →
  buildDefinition machine configMap s = (s', Ok d) →
  ∃ c, d.(dPodSpec).(spContainers) = [c] ∧ c.(kImage) = GetImage lab m ∧
    c.(kEnv) = (megalosShellEnv, GetShell lab m) :: Entries m.(mMeta).(Envs) ∧
    Forall2 port_of (Entries m.(mMeta).(Ports)) c.(kPorts) ∧ resourceLimits lab m = Ok c.(kLimits).
Proof.
  intros Em El. unfold buildDefinition. intros (m' & s1 & E & Hk)%bind_inv.
  assert (m' = m ∧ s1 = s) as [-> ->].
  { revert E. unfold machine_of, hp, getMachine, deref. rewrite Em. cbn. destruct s. by intros [= <- <-]. }
  clear E. apply bind_inv in Hk as (lab' & s1 & E & Hk).
  assert (lab' = lab ∧ s1 = s) as [-> ->].
  { revert E. unfold lab_of, hp, getLab, deref. rewrite El. cbn. destruct s. by intros [= <- <-]. }
  clear E. apply bind_inv in Hk as (mounts & s1 & _ & Hk). apply bind_inv in Hk as (ports & s2 & Hp & Hk).
  apply bind_inv in Hk as (limits & s3 & [_ Hl]%dgo_ok & Hk).
  do 4 (apply bind_inv in Hk as (? & ? & _ & Hk)). injection Hk as _ <-. cbn [dPodSpec spContainers].
  eexists. split; [reflexivity|]. cbn [kImage kEnv kPorts kLimits]. split; [done|]. split; [done|].
  split; [by eapply containerPorts_back|done].
Qed.

(** *** Metas set one after the other *)

Definition with_meta (device : loc) (dev : Machine) (s : state) : state :=
  mkD (mkHeap (<[device := dev]> s.(d_heap).(hMachines)) s.(d_heap).(hLinks) s.(d_heap).(hLabs) s.(d_heap).(hNext))
    s.(d_machines) s.(d_links) s.(d_world).

Definition device_at (device : loc) (s : state) (dev : Machine) : Prop := s.(d_heap).(hMachines) !! device = Some dev.

Lemma device_at_with device dev s : device_at device (with_meta device dev s) dev.
Proof. apply lookup_insert_eq. Qed.

Lemma add_meta_run device name value s dev meta r :
  device_at device s dev → AddMeta cwd dev.(mName) name value dev.(mMeta) = (meta, Ok r) →
  (add_meta cwd device name value : KM unit) s = (with_meta device (set_meta meta dev) s, Ok tt).
Proof.
  intros Hd Ha. unfold add_meta, hp, Machine_AddMeta, getMachine, putMachine, deref, smodify, sbind.
  unfold device_at in Hd. rewrite Hd. cbn -[AddMeta]. by rewrite Ha.
Qed.

Lemma update_meta_run device f s dev :
  device_at device s dev →
  (update_meta device f : KM unit) s = (with_meta device (set_meta (f dev.(mMeta)) dev) s, Ok tt).
Proof.
  intros Hd. unfold update_meta, machine_of, hp, getMachine, putMachine, deref, smodify, sbind.
  unfold device_at in Hd. rewrite Hd. cbn. by destruct s as [[]].
Qed.

Lemma no_cpu_limit lab m limits :
  GetCPU (f64_of_Z 1000) lab m = Ok None → resourceLimits lab m = Ok limits → limits !! "cpu" = None.
Proof.
  intros Hc. unfold resourceLimits. destruct (GetMem lab m) as [mem|]; [|done]. cbn [Prelude.rbind] in *. rewrite Hc.
  destruct (String.eqb mem ""); [by intros [= <-]|].
  destruct (ParseQuantity _) as [q|]; [|done]. intros [= <-]. by apply lookup_singleton_ne.
Qed.

Lemma container_metas_back device pod c shell envs ports (s : state) dev :
  pod.(pSpec).(spContainers) = [c] → c.(kEnv) = (megalosShellEnv, shell) :: envs → megalosShellEnv ∉ envs.*1 →
  Forall2 port_of ports c.(kPorts) → Forall port_fits ports → c.(kLimits) !! "cpu" = None →
  device_at device s dev →
  ∃ s' dev', (container_metas cwd device pod c : KM unit) s = (s', Ok tt) ∧ device_at device s' dev' ∧
    dev'.(mMeta).(Image) = Str c.(kImage) ∧ dev'.(mMeta).(Shell) = Str shell ∧
    dev'.(mMeta).(Envs) = foldl (fun m e => (SetKey m e.1 e.2).1) dev.(mMeta).(Envs) envs ∧
    dev'.(mMeta).(Ports) = foldl (fun m e => (SetKey m e.1 e.2).1) dev.(mMeta).(Ports) ports.
Proof.
  intros Hc Henv Hn Hports Hfit Hcpu Hd.
  assert (Hshell : EnvVarValueFromPod (Some pod) megalosShellEnv = shell).
  { unfold EnvVarValueFromPod. rewrite Hc. cbn [fmap list_fmap List.last]. rewrite Henv. done. }
  set (d1 := set_meta (set_field FImage (Str c.(kImage)) dev.(mMeta)) dev).
  set (d2 := set_meta (set_field FShell (Str shell) d1.(mMeta)) d1).
  unfold container_metas. rewrite Hshell, Hcpu.
  rewrite (bind_ok _ _ _ _ _ (add_meta_run device "image" _ s dev _ _ Hd eq_refl)). fold d1.
  rewrite (bind_ok _ _ _ _ _ (add_meta_run device "shell" shell _ d1 _ _ (device_at_with _ _ _) eq_refl)). fold d2.
  set (s2 := with_meta device d2 _).
  assert (H3 : ∃ s3 d3, (match c.(kLimits) !! "memory" with
                         | Some memory => add_meta cwd device "mem" (ToUpper memory)
                         | None => sret tt
                         end : KM unit) s2 = (s3, Ok tt) ∧ device_at device s3 d3 ∧
             d3.(mMeta).(Image) = Str c.(kImage) ∧ d3.(mMeta).(Shell) = Str shell ∧
             d3.(mMeta).(Envs) = dev.(mMeta).(Envs) ∧ d3.(mMeta).(Ports) = dev.(mMeta).(Ports)).
  { destruct (kLimits c !! "memory") as [q|].
    - do 2 eexists. split; [eapply add_meta_run; [apply device_at_with|reflexivity]|].
      split; [apply device_at_with|]. done.
    - exists s2, d2. split; [done|]. split; [apply device_at_with|]. done. }
  destruct H3 as (s3 & d3 & E3 & Hd3 & Hi3 & Hs3 & He3 & Hp3).
  rewrite (bind_ok _ _ _ _ _ E3), (bind_ok (sret tt) _ _ _ tt eq_refl).
  rewrite (bind_ok _ _ _ _ _ (update_meta_run _ _ _ _ Hd3)), (update_meta_run _ _ _ _ (device_at_with _ _ _)).
  do 2 eexists. split; [reflexivity|]. split; [apply device_at_with|].
  cbn [mMeta set_meta set_Ports set_Envs Image Shell Envs Ports].
  split; [done|]. split; [done|]. split.
  - rewrite He3, Henv. unfold set_envs at 1. cbn [foldl fst]. rewrite String.eqb_refl. cbn [negb].
    rewrite <- set_envs_back by done. done.
  - rewrite Hp3. by apply set_ports_back.
Qed.

(** C27: A device read back from a pod of its Deployment has the image,
    the shell, the environment and the ports it was deployed with, whatever its
    memory limit, provided it asked for no processors, its ports fit 32 bits and
    its environment leaves the variable of the shell alone. *)
Theorem device_read_back machine configMap (s s' t : state) m lab d pod device dev :
  s.(d_heap).(hMachines) !! machine = Some m → s.(d_heap).(hLabs) !! m.(mLab) = Some lab →
  meta_ok m.(mMeta) → megalosShellEnv ∉ Keys m.(mMeta).(Envs) →
  (∀ k v, Get m.(mMeta).(Ports) k = Some v → - 2 ^ 31 <= k.1 < 2 ^ 31 ∧ - 2 ^ 31 <= v < 2 ^ 31) →
  GetCPU (f64_of_Z 1000) lab m = Ok None →
  buildDefinition machine configMap s = (s', Ok d) → pod.(pSpec) = d.(dPodSpec) →
  device_at device t dev → dev.(mMeta) = newMeta →
  ∃ c t' dev', pod.(pSpec).(spContainers) = [c] ∧
    (container_metas cwd device pod c : KM unit) t = (t', Ok tt) ∧ device_at device t' dev' ∧
    dev'.(mMeta).(Image) = Str (GetImage lab m) ∧ dev'.(mMeta).(Shell) = Str (GetShell lab m) ∧
    dev'.(mMeta).(Envs) = m.(mMeta).(Envs) ∧ dev'.(mMeta).(Ports) = m.(mMeta).(Ports).
Proof.
  intros Em El Hok Henv Hfit Hcpu Hb Hspec Hd Hnew.
  destruct (buildDefinition_container _ _ _ _ _ _ _ Em El Hb) as (c & Hc & Himg & Hke & Hkp & Hkl).
  rewrite <- Hspec in Hc.
  assert (Hports : Forall port_fits (Entries m.(mMeta).(Ports))).
  { apply Forall_forall. intros [k v] He. apply elem_of_entries in He; [|by apply ok_ports].
    destruct (Hfit _ _ He) as [Hk Hv]. split; [done|]. split; [done|].
    destruct (ok_port _ Hok _ _ He) as [Hp _]. cbn [fst snd] in *. unfold allowedPortProtocols in Hp.
    repeat (apply elem_of_cons in Hp as [Hp | Hp]; [rewrite Hp; vm_compute; reflexivity|]). by apply not_elem_of_nil in Hp. }
  assert (Hke' : megalosShellEnv ∉ (Entries m.(mMeta).(Envs)).*1) by (rewrite entries_keys; [exact Henv|by apply ok_envs]).
  destruct (container_metas_back device pod c _ _ _ t dev Hc Hke Hke' Hkp Hports (no_cpu_limit _ _ _ Hcpu Hkl) Hd)
    as (t' & dev' & E & Hd' & Hi & Hsh & He & Hp).
  exists c, t', dev'. split; [done|]. split; [done|]. split; [done|]. rewrite Hi, Himg. split; [done|]. split; [done|].
  rewrite He, Hp, Hnew. split; apply refilled; [by apply ok_envs|by apply ok_ports].
Qed.
End back.


(** A device with a port and a variable, and the blank device it is read back into. *)
#[local] Instance back_cases : TextCases := ToLower.

Definition web_meta : Meta :=
  (AddMeta None "web" "port" "8080:80/udp" (AddMeta None "web" "env" "A=1" newMeta).1).1.

Definition web_heap (meta : Meta) : heap unit :=
  mkHeap {[ 2%positive := mkMachine 1%positive "web" meta None [] ]} ∅
    {[ 1%positive := mkLab "" "" "" "" "" "h1" "" false tt DefaultDefaults (Some "l")
         (SetKey NewOrderedMap "web" 2%positive).1 NewOrderedMap NewOrderedMap NewOrderedMap ]}
    3%positive.

Definition web_pod (d : Deployment) : Pod := mkPod "web-x" "h1" ∅ ∅ d.(dPodSpec) "Running" [].

Lemma device_read_back_witness :
  ∃ d c t' dev', (buildDefinition (B := sim_cluster) 2%positive None (sim_state (web_heap web_meta))).2 = Ok d ∧
    container_metas None 2%positive (web_pod d) c (sim_state (web_heap newMeta)) = (t', Ok tt) ∧
    device_at 2%positive t' dev' ∧ Entries dev'.(mMeta).(Ports) = [((8080, "udp"), 80)] ∧
    Entries dev'.(mMeta).(Envs) = [("A", "1")].
Proof.
  destruct (buildDefinition (B := sim_cluster) 2%positive None (sim_state (web_heap web_meta))) as [s' [d|e]] eqn:E.
  2: { exfalso. apply (f_equal (fun r => match r.2 with Ok _ => true | Err _ => false end)) in E. vm_compute in E. discriminate. }
  assert (Hports : Ports web_meta = (SetKey NewOrderedMap (8080, "udp") 80).1) by (vm_compute; reflexivity).
  destruct (device_read_back None (B := sim_cluster) 2%positive None (sim_state (web_heap web_meta)) s'
    (sim_state (web_heap newMeta)) (mkMachine 1%positive "web" web_meta None [])
    (mkLab "" "" "" "" "" "h1" "" false tt DefaultDefaults (Some "l")
         (SetKey NewOrderedMap "web" 2%positive).1 NewOrderedMap NewOrderedMap NewOrderedMap)
    d (web_pod d) 2%positive (mkMachine 1%positive "web" newMeta None []))
    as (c & t' & dev' & _ & Hrun & Hd & _ & _ & Henvs & Hp);
    [reflexivity|reflexivity| | | |vm_compute; reflexivity|exact E|reflexivity|reflexivity|reflexivity|].
  - apply AddMeta_inv, AddMeta_inv, newMeta_ok.
  - assert (Hk : Keys (Envs web_meta) = ["A"]) by (vm_compute; reflexivity). cbn [mMeta]. rewrite Hk.
    intros [Ha | Ha%not_elem_of_nil]%elem_of_cons; [discriminate Ha|done].
  - cbn [mMeta]. rewrite Hports. intros k v Hg. 
    change ((<[(8080, "udp") := 80]> (∅ : gmap PortKey Z)) !! k = Some v) in Hg. apply lookup_insert_Some in Hg as [[<- <-] | [_ Hg]]; [cbn; lia|]. by rewrite lookup_empty in Hg.
  - exists d, c, t', dev'. split; [reflexivity|]. split; [exact Hrun|]. split; [exact Hd|]. rewrite Henvs, Hp.
    split; vm_compute; reflexivity.
Defined.
