(* ===== verification/CliTable.v ===== *)
(** * Text, tables and panels (internal/cliout/text.go, table.go, panel.go)

    Text in the columns of a terminal, and the two tables and the panels the command
    line prints: the solver for the widths of columns, with its shares in binary64, and
    the renderer of rows. *)

From S2P Require Export Unicode.
From S2P Require Export Scalar Strconv.
From Stdlib Require Import SpecFloat.
Local Open Scope string_scope.
Local Open Scope list_scope.
Local Open Scope Z_scope.

(** * Text in cells (internal/cliout/text.go, panel.go)

    What the command line prints is laid out in the columns of a terminal: the
    width of a rune, the folding of a text into lines of a width, panels.  The
    classes of runes that take no column or two, which come from the tables of
    package unicode and of golang.org/x/text/width, are a parameter. *)

(** A combining mark or a format character; a wide or full-width character. *)
Class CellTables : Type := { zeroWidth : Z → bool; wideRune : Z → bool }.

Definition repeat_str (s : string) (n : Z) : string := string_concat (repeat s (Z.to_nat n)).
Definition spaces (n : Z) : string := repeat_str " " n.

Inductive Justify : Type := JustifyDefault | JustifyLeft | JustifyCenter.

Section text.
Context `{CellTables}.

Definition CellWidth (r : Z) : Z :=
  if r <? 0x300 then 1 else if zeroWidth r then 0 else if wideRune r then 2 else 1.

Fixpoint cells (rs : list Z) : Z := match rs with [] => 0 | r :: rs => CellWidth r + cells rs end.

Definition CellLen (s : string) : Z := cells (runes s).

(** ** Folding *)

Fixpoint chop_loop (text : list Z) (w : Z) (line : list Z) (total : Z) : list (list Z) :=
  match text with
  | [] => match line with [] => [] | _ => [line] end
  | r :: text =>
      let cw := CellWidth r in
      if w <? total + cw then line :: chop_loop text w [r] cw
      else chop_loop text w (line ++ [r]) (total + cw)
  end.

Definition chopCells (text : list Z) (w : Z) : list (list Z) := chop_loop text w [] 0.

Definition not_space (r : Z) : bool := negb (IsSpace r).

(** The words with the blanks around them, each with the offset it starts at; what
    follows the last of them is blank and belongs to none. *)
Fixpoint words_from (fuel : nat) (start : Z) (text : list Z) : list (Z * list Z) :=
  match fuel with
  | O => []
  | S fuel =>
      let lead := take_while IsSpace text in
      match drop_while IsSpace text with
      | [] => []
      | rest =>
          let word := take_while not_space rest in
          let rest := drop_while not_space rest in
          let span := lead ++ word ++ take_while IsSpace rest in
          (start, span) :: words_from fuel (start + Z.of_nat (length span)) (drop_while IsSpace rest)
      end
  end.

Definition splitWords (text : list Z) : list (Z * list Z) := words_from (S (length text)) 0 text.

Definition rstripRunes (r : list Z) : list Z := reverse (drop_while IsSpace (reverse r)).

(** The pieces a word too long for a line is folded into: the breaks, and the
    cells its last piece takes. *)
Fixpoint fold_word (folded : list (list Z)) (start cellOffset : Z) : list Z * Z :=
  match folded with
  | [] => ([], cellOffset)
  | line :: folded =>
      let broken := if start =? 0 then [] else [start] in
      match folded with
      | [] => (broken, cells line)
      | _ => let '(breaks, cellOffset) := fold_word folded (start + Z.of_nat (length line)) cellOffset in
             (broken ++ breaks, cellOffset)
      end
  end.

Fixpoint divide_loop (words : list (Z * list Z)) (w cellOffset : Z) : list Z :=
  match words with
  | [] => []
  | (start, word) :: words =>
      let wordLength := cells (rstripRunes word) in
      if wordLength <=? w - cellOffset then divide_loop words w (cellOffset + cells word)
      else if w <? wordLength then
        let '(breaks, cellOffset) := fold_word (chopCells word w) start cellOffset in
        breaks ++ divide_loop words w cellOffset
      else if negb (cellOffset =? 0) && negb (start =? 0) then start :: divide_loop words w (cells word)
      else divide_loop words w cellOffset
  end.

Definition divideLine (text : list Z) (w : Z) : list Z := divide_loop (splitWords text) w 0.

(** Trailing blanks go, as far as they overflow, counted in runes. *)
Definition rstripEnd (r : list Z) (size : Z) : list Z :=
  let len := Z.of_nat (length r) in
  if len <=? size then r
  else
    let excess := len - size in
    let ws := Z.of_nat (length (take_while IsSpace (reverse r))) in
    if ws =? 0 then r else take (Z.to_nat (len - Z.min ws excess)) r.

Definition padTo (s : string) (w : Z) : string :=
  let n := CellLen s in if n <? w then s +:+ spaces (w - n) else s.

(** [runes[start:off]] for every offset, then what is left. *)
Fixpoint pieces_of (runes : list Z) (start : Z) (offsets : list Z) : list (list Z) :=
  match offsets with
  | [] => [drop (Z.to_nat start) runes]
  | off :: offsets =>
      let off := Z.min off (Z.of_nat (length runes)) in
      let off := Z.max off start in
      take (Z.to_nat (off - start)) (drop (Z.to_nat start) runes) :: pieces_of runes off offsets
  end.

(** [strings.TrimRightFunc]. *)
Definition TrimRightSpace (s : string) : string :=
  chunks_string (reverse (drop_while (fun c => IsSpace c.1) (reverse (decode s)))).

Definition wrap_piece (w : Z) (justify : Justify) (piece : list Z) : string :=
  let line := string_of_runes (rstripEnd piece w) in
  match justify with
  | JustifyCenter =>
      let line := TrimRightSpace line in
      let slack := w - CellLen line in
      let line := if 0 <? slack then spaces (slack / 2) +:+ line else line in
      padTo line w
  | _ => padTo line w
  end.

Definition wrap_line (w : Z) (justify : Justify) (logical : string) : list string :=
  let rs := runes logical in wrap_piece w justify <$> pieces_of rs 0 (divideLine rs w).

Definition Wrap (text : string) (w : Z) (justify : Justify) : list string :=
  if w <=? 0 then [] else concat (wrap_line w justify <$> split_byte (az 10) text).
End text.

(** * Tables and panels (internal/cliout/table.go, panel.go) *)

(** [int(math.Ceil(f))] and [int(math.RoundToEven(f))]; of no number, what amd64
    gives. *)
Definition f64_ceil (f : f64) : Z :=
  match f with
  | S754_finite s m e =>
      let n := if s then Z.neg m else Z.pos m in
      if 0 <=? e then n * 2 ^ e else - (- n / 2 ^ (- e))
  | S754_zero _ => 0
  | _ => MinInt64
  end.

Definition f64_round_even (f : f64) : Z :=
  match f with
  | S754_finite s m e =>
      let n := if s then Z.neg m else Z.pos m in
      if 0 <=? e then n * 2 ^ e
      else
        let q := n / 2 ^ (- e) in
        match 2 * (n mod 2 ^ (- e)) ?= 2 ^ (- e) with
        | Lt => q
        | Gt => q + 1
        | Eq => if Z.even q then q else q + 1
        end
  | S754_zero _ => 0
  | _ => MinInt64
  end.

(** [float64(ratio) * float64(remaining) / float64(totalRatio)] *)
Definition share (ratio remaining totalRatio : Z) : f64 :=
  f64_div (f64_mul (f64_of_Z ratio) (f64_of_Z remaining)) (f64_of_Z totalRatio).

Definition sum (xs : list Z) : Z := foldr Z.add 0 xs.
Definition largest (xs : list Z) : Z := foldr Z.max 0 xs.

(** ** Ratios *)

(** [ratioDistribute] without minimums, the only way it is called. *)
Fixpoint distribute_loop (ratios : list Z) (totalRatio remaining : Z) : list Z :=
  match ratios with
  | [] => []
  | ratio :: ratios =>
      let distributed :=
        if 0 <? totalRatio then Z.max (f64_ceil (share ratio remaining totalRatio)) 0 else remaining in
      distributed :: distribute_loop ratios (totalRatio - ratio) (remaining - distributed)
  end.

Definition ratioDistribute (total : Z) (ratios : list Z) : list Z := distribute_loop ratios (sum ratios) total.

Fixpoint reduce_loop (work maximums values : list Z) (totalRatio remaining : Z) : list Z :=
  match work, maximums, values with
  | ratio :: work, maximum :: maximums, value :: values =>
      if (ratio =? 0) || (totalRatio <=? 0) then value :: reduce_loop work maximums values totalRatio remaining
      else
        let distributed := Z.min (f64_round_even (share ratio remaining totalRatio)) maximum in
        (value - distributed) :: reduce_loop work maximums values (totalRatio - ratio) (remaining - distributed)
  | _, _, _ => []
  end.

Definition ratioReduce (total : Z) (ratios maximums values : list Z) : list Z :=
  let work := zip_with (fun ratio maximum => if maximum =? 0 then 0 else ratio) ratios maximums in
  let totalRatio := sum work in
  if totalRatio =? 0 then values else reduce_loop work maximums values totalRatio total.

(** One round of [collapseWidths], where every column may be wrapped: the widest
    columns down to the second widest; [None] when there is nothing to take. *)
Definition collapse_once (out : list Z) (excess : Z) : option (list Z) :=
  let maxColumn := largest out in
  let second := largest (filter (fun w => w ≠ maxColumn) out) in
  let difference := maxColumn - second in
  let ratios := (fun w => if w =? maxColumn then 1 else 0) <$> out in
  if forallb (fun r => r =? 0) ratios || (difference =? 0) then None
  else Some (ratioReduce excess ratios ((fun _ => Z.min excess difference) <$> out) out).

(** The rounds; [None] is a loop that has not ended. *)
Fixpoint collapse_loop (fuel : nat) (out : list Z) (maxWidth : Z) : option (list Z) :=
  match fuel with
  | O => None
  | S fuel =>
      let total := sum out in
      let excess := total - maxWidth in
      if (0 <? total) && (0 <? excess) then
        match collapse_once out excess with
        | None => Some out
        | Some out => collapse_loop fuel out maxWidth
        end
      else Some out
  end.

Definition collapseWidths (widths : list Z) (maxWidth : Z) : option (list Z) :=
  match widths with [] => Some [] | _ => collapse_loop (S (length widths)) widths maxWidth end.

(** ** Boxes and panels *)

Record Box : Type := mkBox {
  TopLeft : string; Top : string; TopCross : string; TopRight : string;
  MidLeft : string; MidVertical : string; MidRight : string;
  HeadRowLeft : string; HeadRow : string; HeadRowCross : string; HeadRowRight : string;
  RowLeft : string; Row : string; RowCross : string; RowRight : string;
  BottomLeft : string; Bottom : string; BottomCross : string; BottomRight : string
}.

(** Box-drawing characters by their code point. *)
Definition drawn (r : Z) : string := encode_rune r.

Definition BoxSquare : Box :=
  mkBox (drawn 0x250C) (drawn 0x2500) (drawn 0x252C) (drawn 0x2510)
        (drawn 0x2502) (drawn 0x2502) (drawn 0x2502)
        (drawn 0x251C) (drawn 0x2500) (drawn 0x253C) (drawn 0x2524)
        (drawn 0x251C) (drawn 0x2500) (drawn 0x253C) (drawn 0x2524)
        (drawn 0x2514) (drawn 0x2500) (drawn 0x2534) (drawn 0x2518).
Definition BoxDouble : Box :=
  mkBox (drawn 0x2554) (drawn 0x2550) (drawn 0x2566) (drawn 0x2557)
        (drawn 0x2551) (drawn 0x2551) (drawn 0x2551)
        (drawn 0x2560) (drawn 0x2550) (drawn 0x256C) (drawn 0x2563)
        (drawn 0x2560) (drawn 0x2550) (drawn 0x256C) (drawn 0x2563)
        (drawn 0x255A) (drawn 0x2550) (drawn 0x2569) (drawn 0x255D).
Definition BoxSquareDoubleHead : Box :=
  mkBox (drawn 0x250C) (drawn 0x2500) (drawn 0x252C) (drawn 0x2510)
        (drawn 0x2502) (drawn 0x2502) (drawn 0x2502)
        (drawn 0x255E) (drawn 0x2550) (drawn 0x256A) (drawn 0x2561)
        (drawn 0x251C) (drawn 0x2500) (drawn 0x253C) (drawn 0x2524)
        (drawn 0x2514) (drawn 0x2500) (drawn 0x2534) (drawn 0x2518).

Definition DefaultWidth : Z := 80.
Definition width_or_default (width : Z) : Z := if width <=? 0 then DefaultWidth else width.

Section tables.
Context `{CellTables}.

Record PanelOptions : Type := mkPanel { pTitle : string; pBox : option Box; pJustify : Justify; pWidth : Z }.

Definition Panel (message : string) (opts : PanelOptions) : list string :=
  let box := default BoxSquare opts.(pBox) in
  let w := Z.max (width_or_default opts.(pWidth)) 4 in
  let body := Wrap message (w - 4) opts.(pJustify) in
  let plain := box.(TopLeft) +:+ repeat_str box.(Top) (w - 2) +:+ box.(TopRight) in
  let top :=
    if String.eqb opts.(pTitle) "" then plain
    else
      let title := " " +:+ opts.(pTitle) +:+ " " in
      let titleWidth := Z.of_nat (length (runes title)) in
      if titleWidth <=? w - 2 then
        let left := (w - 2 - titleWidth) / 2 in
        box.(TopLeft) +:+ repeat_str box.(Top) left +:+ title +:+
          repeat_str box.(Top) (w - 2 - left - titleWidth) +:+ box.(TopRight)
      else plain in
  [top] ++ ((fun line => box.(MidLeft) +:+ " " +:+ line +:+ " " +:+ box.(MidRight)) <$> body)
    ++ [box.(BottomLeft) +:+ repeat_str box.(Bottom) (w - 2) +:+ box.(BottomRight)].

(** ** Tables *)

Record Table : Type := mkTable {
  tTitle : string; tBox : option Box; ShowLines : bool; Expand : bool;
  Columns : list string; Rows : list (list string)
}.

Definition extraWidth (t : Table) : Z := 2 + Z.of_nat (length t.(Columns)) - 1.
Definition cellPadding : Z := 2.

(** [strings.Fields], rune by rune. *)
Fixpoint fields_loop (rs word : list Z) : list (list Z) :=
  match rs with
  | [] => match word with [] => [] | _ => [word] end
  | r :: rs =>
      if IsSpace r then (match word with [] => [] | _ => [word] end) ++ fields_loop rs []
      else fields_loop rs (word ++ [r])
  end.

(** The cells of a column, its header first. *)
Definition column_cells (t : Table) (i : nat) : list string :=
  default "" (t.(Columns) !! i) :: omap (fun row : list string => row !! i) t.(Rows).

Definition measureColumn (t : Table) (i : nat) : Z * Z :=
  let lines := concat (split_byte (az 10) <$> column_cells t i) in
  let words := concat ((fun line => fields_loop (runes line) []) <$> lines) in
  (largest (cells <$> words) + cellPadding, largest (CellLen <$> lines) + cellPadding).

Definition columnWidths (t : Table) (maxWidth : Z) : option (list Z) :=
  let widths := (fun i => Z.max (measureColumn t i).2 1) <$> seq 0 (length t.(Columns)) in
  let extra := extraWidth t in
  let tableWidth := sum widths + extra in
  let solved :=
    if maxWidth <? tableWidth then
      match collapseWidths widths (maxWidth - extra) with
      | None => None
      | Some widths =>
          if maxWidth <? sum widths + extra
          then Some (ratioReduce (sum widths + extra - maxWidth) ((fun _ => 1) <$> widths) widths widths)
          else Some widths
      end
    else if (tableWidth <? maxWidth) && t.(Expand)
    then Some (zip_with Z.add widths (ratioDistribute (maxWidth - tableWidth) widths))
    else Some widths in
  match solved with
  | None => None
  | Some widths => Some ((fun w => Z.max w (cellPadding + 1)) <$> widths)
  end.

Definition rule (left mid cross right : string) (widths : list Z) : string :=
  left +:+ str_join cross (repeat_str mid <$> widths) +:+ right.

(** The lines of a cell, and the line of it that is on a row. *)
Definition cell_lines (content : string) (width : Z) : list string :=
  match Wrap content (width - cellPadding) JustifyDefault with
  | [] => [spaces (width - cellPadding)]
  | lines => lines
  end.

Definition cell_line (lines : list string) (width : Z) (row : nat) : string :=
  " " +:+ default (spaces (width - cellPadding)) (lines !! row) +:+ " ".

Definition renderRow (box : Box) (row_cells : list string) (widths : list Z) : list string :=
  let columns := imap (fun i w => (cell_lines (default "" (row_cells !! i)) w, w)) widths in
  let height := foldr Nat.max 1%nat (length ∘ fst <$> columns) in
  (fun row => box.(MidLeft) +:+ str_join box.(MidVertical) ((fun c => cell_line c.1 c.2 row) <$> columns) +:+ box.(MidRight))
    <$> seq 0 height.

Fixpoint body (t : Table) (box : Box) (widths : list Z) (rows : list (list string)) : list string :=
  match rows with
  | [] => []
  | row :: rows =>
      renderRow box row widths
      ++ (if t.(ShowLines) && negb (bool_decide (rows = []))
          then [rule box.(RowLeft) box.(Row) box.(RowCross) box.(RowRight) widths] else [])
      ++ body t box widths rows
  end.

Definition Render (t : Table) (width : Z) : option (list string) :=
  let width := width_or_default width in
  let box := default BoxSquareDoubleHead t.(tBox) in
  match t.(Columns) with
  | [] => Some []
  | _ =>
      match columnWidths t width with
      | None => None
      | Some widths =>
          let tableWidth := sum widths + extraWidth t in
          Some ((if String.eqb t.(tTitle) "" then [] else Wrap t.(tTitle) tableWidth JustifyCenter)
            ++ [rule box.(TopLeft) box.(Top) box.(TopCross) box.(TopRight) widths]
            ++ renderRow box t.(Columns) widths
            ++ [rule box.(HeadRowLeft) box.(HeadRow) box.(HeadRowCross) box.(HeadRowRight) widths]
            ++ body t box widths t.(Rows)
            ++ [rule box.(BottomLeft) box.(Bottom) box.(BottomCross) box.(BottomRight) widths])
      end
  end.

(** [strings.TrimRight(line, " ")] *)
Definition TrimRightBlanks (s : string) : string :=
  bytes_string (reverse (drop_while (fun c => Ascii.eqb c " "%char) (reverse (string_bytes s)))).

Definition EmptyBlock (timestamp message : string) (width : Z) : list string :=
  let width := width_or_default width in
  TrimRightBlanks <$> Wrap timestamp width JustifyCenter ++ Panel message (mkPanel "" (Some BoxDouble) JustifyCenter width).

(** The panic of [strings.Repeat]; the counts of the other functions are never
    negative. *)
Inductive panic : Type := NegativeRepeat (count : Z).

(** A table with neither borders nor header. *)
Definition RenderPlainTable (rows : list (list string)) (width : Z) : option (result panic (list string)) :=
  let width := width_or_default width in
  match rows with
  | [] => Some (Ok [])
  | first :: _ =>
      let t := mkTable "" None false false (repeat "" (length first)) rows in
      let widths := (fun i => (measureColumn t i).2) <$> seq 0 (length first) in
      match (if width <? sum widths then collapseWidths widths width else Some widths) with
      | None => None
      | Some widths =>
          match List.find (fun w => w <? cellPadding) widths with
          | Some w => Some (Err (NegativeRepeat (w - cellPadding)))
          | None =>
              Some (Ok (concat ((fun row : list string =>
                let columns := imap (fun i w => (Wrap (default "" (row !! i)) (w - cellPadding) JustifyDefault, w)) widths in
                let height := foldr Nat.max 1%nat (length ∘ fst <$> columns) in
                (fun line => string_concat ((fun c => cell_line c.1 c.2 line) <$> columns)) <$> seq 0 height) <$> rows)))
          end
      end
  end.
End tables.

(** Two columns on a console of six cells, and on one of three. *)
#[local] Instance no_wide : CellTables := { zeroWidth _ := false; wideRune _ := false }.
Example plain_6 : RenderPlainTable [["ab"; "c d"]; ["e"; "f"]] 6 = Some (Ok [" a  c "; " b  d "; " e  f "]).
Proof. vm_compute. reflexivity. Qed.
Example plain_3 : RenderPlainTable [["ab"; "c d"]] 3 = Some (Err (NegativeRepeat (-1))).
Proof. vm_compute. reflexivity. Qed.
Example table_16 :
  match Render (mkTable "now" None true true ["N"; "S"] [["pc1"; "up"]; ["r"; "down or so"]]) 16 with
  | Some lines => CellLen <$> lines
  | None => []
  end = [16; 16; 16; 16; 16; 16; 16; 16; 16].
Proof. vm_compute. reflexivity. Qed.
