(* ===== verification/CliLayout.v ===== *)
(** * What folding, the width solver and the renderer give

    Folded lines measure the width asked for; shares of a width in binary64 add up to
    it; and every line of a rendered table measures the same. *)

From S2P Require Export CliTable.
From S2P Require Export FloatInt CliTable.
From Stdlib Require Import SpecFloat.
Local Open Scope string_scope.
Local Open Scope list_scope.
Local Open Scope Z_scope.

(** * What folding a text gives

    Folded lines of narrow text measure the width asked for, neither more nor
    less, and lose nothing but blanks. *)

(** ** Blanks at the end *)

Definition blank (l : list Z) : Prop := Forall (fun r => IsSpace r = true) l.

Lemma take_while_blank l : blank (take_while IsSpace l).
Proof. apply Forall_forall. intros r Hr. apply (proj1 (forallb_forall _ _) (take_while_forallb IsSpace l)). by apply list_elem_of_In. Qed.

Lemma drop_while_blank l k : blank l → drop_while IsSpace (l ++ k) = drop_while IsSpace k.
Proof. induction 1 as [|r l Hr _ IH]; [done|]. cbn [app drop_while]. by rewrite Hr. Qed.

Lemma drop_while_app_stop l k : drop_while IsSpace l ≠ [] → drop_while IsSpace (l ++ k) = drop_while IsSpace l ++ k.
Proof. induction l as [|r l IH]; [done|]. cbn [app drop_while]. destruct (IsSpace r); [exact IH|done]. Qed.

Lemma rstrip_blank l k : blank k → rstripRunes (l ++ k) = rstripRunes l.
Proof. intros Hk. unfold rstripRunes. rewrite reverse_app, drop_while_blank; [done|]. by apply Forall_reverse. Qed.

Lemma rstrip_app l k : rstripRunes k ≠ [] → rstripRunes (l ++ k) = l ++ rstripRunes k.
Proof.
  intros Hk. unfold rstripRunes. rewrite reverse_app, drop_while_app_stop.
  - by rewrite reverse_app, reverse_involutive.
  - intros E. apply Hk. unfold rstripRunes. by rewrite E.
Qed.

Lemma rstrip_split l : ∃ k, l = rstripRunes l ++ k ∧ blank k.
Proof.
  exists (reverse (take_while IsSpace (reverse l))). split.
  - unfold rstripRunes. rewrite <- reverse_app, take_drop_while. by rewrite reverse_involutive.
  - apply Forall_reverse, take_while_blank.
Qed.

Lemma rstrip_length l : (length (rstripRunes l) <= length l)%nat.
Proof. destruct (rstrip_split l) as (k & E & _). rewrite E at 2. rewrite length_app. lia. Qed.

Lemma rstrip_stop l r k : IsSpace r = false → blank k → rstripRunes (l ++ [r] ++ k) = l ++ [r].
Proof.
  intros Hr Hk. rewrite app_assoc, rstrip_blank by done. unfold rstripRunes. rewrite reverse_snoc. cbn [drop_while]. rewrite Hr.
  by rewrite reverse_cons, reverse_involutive.
Qed.

(** What is left of a line fits it. *)
Definition fits (w : Z) (p : list Z) : Prop := Z.of_nat (length (rstripRunes p)) <= w.

Lemma rstripEnd_spec w p : 0 <= w → fits w p →
  Z.of_nat (length (rstripEnd p w)) <= w ∧ ∃ k, p = rstripEnd p w ++ k ∧ blank k.
Proof.
  intros Hw Hf. unfold rstripEnd. destruct (Z.leb_spec (Z.of_nat (length p)) w) as [Hl|Hl].
  { split; [done|]. exists []. rewrite app_nil_r. split; [done|constructor]. }
  set (t := take_while IsSpace (reverse p)).
  assert (E : p = rstripRunes p ++ reverse t).
  { unfold rstripRunes, t. rewrite <- reverse_app, take_drop_while. by rewrite reverse_involutive. }
  assert (Hlen : length p = (length (rstripRunes p) + length t)%nat) by (rewrite E at 1; by rewrite length_app, length_reverse).
  unfold fits in Hf.
  destruct (Z.eqb_spec (Z.of_nat (length t)) 0) as [H0|H0]; [lia|].
  set (n := Z.to_nat (Z.of_nat (length p) - Z.min (Z.of_nat (length t)) (Z.of_nat (length p) - w))).
  assert (Hn : (length (rstripRunes p) <= n <= length p)%nat /\ Z.of_nat n <= w) by lia.
  split; [rewrite length_take; lia|]. exists (drop n p). split; [symmetry; apply take_drop|].
  rewrite E, drop_app_ge by lia. unfold blank.
  apply Forall_drop, Forall_reverse, take_while_blank.
Qed.

(** ** Words *)

(** Words one after the other, from an offset on; each holds more than blanks. *)
Inductive worded : Z → list (Z * list Z) → Prop :=
  | worded_nil start : worded start []
  | worded_cons start word words :
      rstripRunes word ≠ [] → worded (start + Z.of_nat (length word)) words → worded start ((start, word) :: words).

Lemma words_from_spec fuel : ∀ start text, (length text < fuel)%nat →
  worded start (words_from fuel start text) ∧
  ∃ tail, text = concat (words_from fuel start text).*2 ++ tail ∧ blank tail.
Proof.
  induction fuel as [|fuel IH]; intros start text Hl; [lia|]. cbn [words_from].
  pose proof (take_drop_while IsSpace text) as Etext.
  destruct (drop_while IsSpace text) as [|r rest] eqn:Er.
  { split; [constructor|]. exists text. split; [done|]. rewrite app_nil_r in Etext. rewrite <- Etext. apply take_while_blank. }
  assert (Hr : IsSpace r = false) by (by eapply drop_while_head).
  set (lead := take_while IsSpace text) in *.
  set (word := take_while not_space (r :: rest)). set (after := drop_while not_space (r :: rest)).
  assert (Ew : word ++ after = r :: rest) by apply take_drop_while.
  assert (Hword : ∃ word', word = r :: word') by (subst word; cbn [take_while]; unfold not_space at 1; rewrite Hr; cbn [negb]; eauto).
  destruct Hword as [word' Hword].
  set (trail := take_while IsSpace after). set (next := drop_while IsSpace after).
  assert (Ea : trail ++ next = after) by apply take_drop_while.
  set (span := lead ++ word ++ trail).
  assert (Etot : text = span ++ next).
  { subst span. rewrite <- Etext, <- Ew, <- Ea. by rewrite <- !app_assoc. }
  assert (Hne : rstripRunes span ≠ []).
  { subst span. rewrite app_assoc, rstrip_blank by apply take_while_blank.
    assert (Hns : Forall (fun r => IsSpace r = false) word).
    { apply Forall_forall. intros x Hx. pose proof (take_while_forallb not_space (r :: rest)) as Hf. fold word in Hf.
      rewrite forallb_forall in Hf. apply list_elem_of_In, Hf in Hx. by apply negb_true_iff in Hx. }
    assert (∃ w1 x, word = w1 ++ [x]) as (w1 & x & Ex).
    { clear -Hword. destruct word as [|y ys _] using rev_ind; [discriminate|]. eauto. }
    rewrite Ex in Hns. apply Forall_app in Hns as [_ Hns]. apply Forall_cons in Hns as [Hx _].
    pose proof (rstrip_stop (lead ++ w1) x [] Hx (Forall_nil_2 _)) as Es. change ([x] ++ []) with [x] in Es.
    rewrite Ex, app_assoc, Es. intros E. by apply app_nil in E as [_ ?]. }
  assert (Hpos : (length next < fuel)%nat).
  { apply (f_equal length) in Hword. apply (f_equal length) in Etot. subst span. rewrite !length_app in Etot.
    cbn [length] in Hword. lia. }
  destruct (IH (start + Z.of_nat (length span)) next Hpos) as (Hw & tail & Et & Hb).
  split; [by constructor|]. exists tail. split; [|done]. cbn [fmap list_fmap concat]. rewrite <- app_assoc, <- Et. done.
Qed.

Lemma splitWords_spec text :
  worded 0 (splitWords text) ∧ ∃ tail, text = concat (splitWords text).*2 ++ tail ∧ blank tail.
Proof. apply words_from_spec. lia. Qed.

(** ** Pieces *)

Lemma pieces_of_concat rs offsets : ∀ start, 0 <= start <= Z.of_nat (length rs) →
  concat (pieces_of rs start offsets) = drop (Z.to_nat start) rs.
Proof.
  induction offsets as [|off offsets IH]; intros start Hs; cbn [pieces_of concat]; [apply app_nil_r|].
  set (off' := Z.max (Z.min off (Z.of_nat (length rs))) start). rewrite IH by lia.
  replace (Z.to_nat off') with (Z.to_nat start + Z.to_nat (off' - start))%nat by lia.
  rewrite <- drop_drop. apply take_drop.
Qed.

(** The next piece, between two offsets of the text. *)
Lemma pieces_of_next (before line rest : list Z) offsets start off :
  start = Z.of_nat (length before) → off = Z.of_nat (length (before ++ line)) →
  pieces_of (before ++ line ++ rest) start (off :: offsets) = line :: pieces_of (before ++ line ++ rest) off offsets.
Proof.
  intros -> ->. cbn [pieces_of]. rewrite !length_app, !Nat2Z.inj_add.
  rewrite Z.min_l by lia. rewrite Z.max_l by lia. f_equal.
  rewrite drop_app_length' by lia. by rewrite take_app_length' by lia.
Qed.

Section narrow.
Context `{CellTables}.

Definition narrow (rs : list Z) : Prop := Forall (fun r => CellWidth r = 1) rs.

Lemma cells_app a b : cells (a ++ b) = cells a + cells b.
Proof. induction a as [|r a IH]; [done|]. cbn. lia. Qed.

Lemma cells_narrow rs : narrow rs → cells rs = Z.of_nat (length rs).
Proof. induction 1 as [|r rs Hr _ IH]; [done|]. cbn [cells length]. lia. Qed.

Lemma narrow_app a b : narrow (a ++ b) ↔ narrow a ∧ narrow b.
Proof. apply Forall_app. Qed.

Lemma narrow_rstrip l : narrow l → narrow (rstripRunes l).
Proof. destruct (rstrip_split l) as (k & E & _). rewrite E at 1. by intros [??]%narrow_app. Qed.

Lemma chop_loop_spec text w : 0 < w → ∀ line total, narrow text → total = Z.of_nat (length line) → total <= w →
  concat (chop_loop text w line total) = line ++ text ∧
  Forall (fun l => l ≠ [] ∧ Z.of_nat (length l) <= w) (chop_loop text w line total).
Proof.
  intros Hw. induction text as [|r text IH]; intros line total Hn Ht Hle; cbn [chop_loop].
  { rewrite app_nil_r. destruct line; [done|]. cbn [concat]. rewrite app_nil_r. split; [done|].
    apply Forall_singleton. split; [done|lia]. }
  apply Forall_cons in Hn as [Hr Hn]. rewrite Hr. destruct (Z.ltb_spec w (total + 1)).
  - destruct (IH [r] 1 Hn eq_refl ltac:(lia)) as [Hc Hf]. cbn [concat]. rewrite Hc. split; [done|].
    constructor; [|done]. split; [intros ->; cbn in *; lia|lia].
  - destruct (IH (line ++ [r]) (total + 1) Hn) as [Hc Hf]; [rewrite length_app; cbn; lia|lia|].
    split; [|done]. by rewrite Hc, <- app_assoc.
Qed.

(** *** A word that takes several lines *)

(** The pieces of a text from an offset on fit. *)
Definition fit_from (w : Z) (text : list Z) (start : Z) (offsets : list Z) : Prop :=
  Forall (fits w) (pieces_of text start offsets).

(** A break after a line that fits. *)
Lemma break_fits w text before line rest start pos offsets :
  text = before ++ line ++ rest → start = Z.of_nat (length before) → pos = Z.of_nat (length (before ++ line)) →
  fits w line → fit_from w text pos offsets → fit_from w text start (pos :: offsets).
Proof. unfold fit_from. intros -> -> -> Hl Hr. rewrite pieces_of_next by done. by constructor. Qed.

Lemma break_unless_first w text before line rest start pos offsets :
  text = before ++ line ++ rest → start = Z.of_nat (length before) → pos = Z.of_nat (length (before ++ line)) →
  fits w line → fit_from w text pos offsets → fit_from w text start ((if pos =? 0 then [] else [pos]) ++ offsets).
Proof.
  intros Et Es Ep Hl Hr. destruct (Z.eqb_spec pos 0) as [E|E]; [|by eapply break_fits].
  rewrite length_app in Ep. cbn [app]. by replace start with pos by lia.
Qed.

Lemma fold_word_spec w cellOffset folded : ∀ before line start pos,
  folded ≠ [] → start = Z.of_nat (length before) → pos = Z.of_nat (length (before ++ line)) →
  fits w line → Forall (fits w) folded →
  ∃ init last, folded = init ++ [last] ∧ (fold_word folded pos cellOffset).2 = cells last ∧
    ∀ text rest off more, text = before ++ line ++ concat folded ++ rest →
      off = Z.of_nat (length (before ++ line ++ concat init)) →
      fit_from w text off more → fit_from w text start ((fold_word folded pos cellOffset).1 ++ more).
Proof.
  induction folded as [|l folded IH]; intros before line start pos Hne Es Ep Hf Hall; [done|].
  apply Forall_cons in Hall as [Hl Hall]. cbn [fold_word]. destruct folded as [|l2 folded].
  - exists [], l. split; [done|]. split; [done|]. cbn [concat fst]. rewrite !app_nil_r. intros text rest off more Et -> Hm.
    eapply break_unless_first; [exact Et|done|done|done|]. by rewrite Ep.
  - destruct (IH (before ++ line) l pos (pos + Z.of_nat (length l))) as (init & last & E & Hc & Hstep);
      [done|exact Ep|rewrite Ep, !length_app; lia|done|done|].
    destruct (fold_word (l2 :: folded) (pos + Z.of_nat (length l)) cellOffset) as [breaks co] eqn:Ef.
    exists (l :: init), last. split; [by rewrite E|]. split; [exact Hc|]. cbn [fst snd] in *.
    intros text rest off more Et Eo Hm. rewrite <- app_assoc.
    change (concat (l :: l2 :: folded)) with (l ++ concat (l2 :: folded)) in Et. rewrite <- app_assoc in Et.
    eapply break_unless_first; [exact Et|done|done|done|].
    apply (Hstep text rest off more); [by rewrite <- app_assoc| |done]. rewrite Eo. cbn [concat]. by rewrite <- !app_assoc.
Qed.

Lemma narrow_fits w l : Z.of_nat (length l) <= w → fits w l.
Proof. unfold fits. pose proof (rstrip_length l). lia. Qed.

(** The words of a text from [pos] on, the current line being the one from [start]. *)
Lemma divide_loop_fits w words : 0 < w → ∀ text before line start pos cellOffset tail,
  text = before ++ line ++ concat words.*2 ++ tail → narrow text → blank tail → worded pos words →
  start = Z.of_nat (length before) → pos = Z.of_nat (length (before ++ line)) → cellOffset = Z.of_nat (length line) →
  fits w line → fit_from w text start (divide_loop words w cellOffset).
Proof.
  intros Hw. induction words as [|[start' word] words IH];
    intros text before line start pos cellOffset tail Et Hn Htail Hwd Es Ep Ec Hf; cbn [divide_loop].
  { unfold fit_from. cbn [pieces_of]. apply Forall_singleton. rewrite Et, Es, Nat2Z.id, drop_app_length. cbn.
    unfold fits. by rewrite rstrip_blank. }
  inversion Hwd as [|? ? ? Hword Hrest]; subst start'. cbn [fmap list_fmap snd concat] in Et.
  assert (Hnw : narrow word) by (rewrite Et, !narrow_app in Hn; tauto).
  rewrite (cells_narrow _ (narrow_rstrip _ Hnw)). rewrite (cells_narrow _ Hnw).
  assert (Hrs : (length (rstripRunes word) <= length word)%nat) by apply rstrip_length.
  destruct (Z.leb_spec (Z.of_nat (length (rstripRunes word))) (w - cellOffset)) as [Hfit|Hfit].
  { eapply (IH text before (line ++ word) start _ _ tail); [|done|done|exact Hrest|done| | |].
    - by rewrite Et, <- !app_assoc.
    - rewrite Ep, !length_app. lia.
    - rewrite length_app. lia.
    - unfold fits. rewrite rstrip_app by done. rewrite length_app. lia. }
  destruct (Z.ltb_spec w (Z.of_nat (length (rstripRunes word)))) as [Hlong|Hlong].
  - destruct (chop_loop_spec word w Hw [] 0 Hnw eq_refl ltac:(lia)) as [Hc Hall]. fold (chopCells word w) in Hc, Hall.
    cbn [app] in Hc.
    assert (Hchunks : Forall (fits w) (chopCells word w)).
    { eapply Forall_impl; [exact Hall|]. intros l [_ Hl]. by apply narrow_fits. }
    destruct (fold_word_spec w cellOffset (chopCells word w) before line start pos) as (init & last & E & Ecell & Hstep);
      [intros E0; apply Hword; by rewrite <- Hc, E0|done|done|done|done|].
    destruct (fold_word (chopCells word w) pos cellOffset) as [breaks co]. cbn [fst snd] in *.
    assert (Ew : word = concat init ++ last) by (rewrite <- Hc, E, concat_app; cbn; by rewrite app_nil_r).
    eapply (Hstep text); [rewrite Hc; exact (eq_trans Et (f_equal _ (f_equal _ (eq_sym (app_assoc _ _ _)))))|done|].
    eapply (IH text (before ++ line ++ concat init) last _ _ _ tail); [|done|done|exact Hrest|done| | |].
    + rewrite Et, Ew, <- !app_assoc. done.
    + rewrite Ep, Ew, !length_app. lia.
    + rewrite Ecell. apply cells_narrow. rewrite Ew in Hnw. by apply narrow_app in Hnw as [_ ?].
    + rewrite E in Hchunks. apply Forall_app in Hchunks as [_ Hlast]. by apply Forall_cons in Hlast as [? _].
  - rewrite length_app in Ep.
    rewrite (proj2 (Z.eqb_neq cellOffset 0)) by lia. rewrite (proj2 (Z.eqb_neq pos 0)) by lia. cbn [negb andb].
    eapply break_fits; [exact Et|done|by rewrite length_app|done|].
    eapply (IH text (before ++ line) word _ _ _ tail); [|done|done|exact Hrest| |  |done|].
    + rewrite Et, <- !app_assoc. done.
    + by rewrite length_app.
    + rewrite !length_app. lia.
    + unfold fits. lia.
Qed.

Lemma divideLine_fits w text : 0 < w → narrow text → fit_from w text 0 (divideLine text w).
Proof.
  intros Hw Hn. destruct (splitWords_spec text) as (Hwd & tail & Et & Ht).
  eapply (divide_loop_fits w _ Hw text [] [] 0 0 0 tail); try done. unfold fits. cbn. lia.
Qed.
(** ** Lines *)

Definition valid (rs : list Z) : Prop := Forall (fun r => valid_rune r = true) rs.
Definition blanks (n : Z) : list Z := repeat 32 (Z.to_nat n).

Lemma spaces_runes n : spaces n = string_of_runes (blanks n).
Proof.
  unfold spaces, repeat_str, blanks, string_of_runes. induction (Z.to_nat n) as [|k IH]; [done|].
  cbn [repeat fmap list_fmap string_concat]. by rewrite IH.
Qed.

Lemma blanks_valid n : valid (blanks n).
Proof. unfold valid, blanks. induction (Z.to_nat n); cbn; by constructor. Qed.
Lemma blanks_narrow n : narrow (blanks n).
Proof. unfold narrow, blanks. induction (Z.to_nat n); cbn; by constructor. Qed.
Lemma blanks_blank n : blank (blanks n).
Proof. unfold blank, blanks. induction (Z.to_nat n); cbn; by constructor. Qed.
Lemma blanks_length n : 0 <= n → Z.of_nat (length (blanks n)) = n.
Proof. intros Hn. unfold blanks. rewrite repeat_length. lia. Qed.

Lemma CellLen_runes rs : valid rs → CellLen (string_of_runes rs) = cells rs.
Proof. intros Hv. unfold CellLen. by rewrite runes_string_of_runes. Qed.

Lemma padTo_runes rs w : valid rs → narrow rs → Z.of_nat (length rs) <= w →
  padTo (string_of_runes rs) w = string_of_runes (rs ++ blanks (w - Z.of_nat (length rs))).
Proof.
  intros Hv Hn Hw. unfold padTo. rewrite CellLen_runes, cells_narrow by done.
  destruct (Z.ltb_spec (Z.of_nat (length rs)) w); [by rewrite spaces_runes, string_of_runes_app|].
  replace (w - Z.of_nat (length rs)) with 0 by lia. by rewrite app_nil_r.
Qed.

Lemma drop_while_map {A B} (f : A → B) (q : B → bool) l :
  drop_while q (f <$> l) = f <$> drop_while (fun x => q (f x)) l.
Proof. induction l as [|x l IH]; [done|]. cbn [fmap list_fmap drop_while]. by destruct (q (f x)). Qed.

Lemma TrimRightSpace_runes rs : valid rs → TrimRightSpace (string_of_runes rs) = string_of_runes (rstripRunes rs).
Proof.
  intros Hv. unfold TrimRightSpace. rewrite <- (string_app_nil_r (string_of_runes rs)), decode_string_of_runes by done.
  rewrite app_nil_r, <- fmap_reverse, drop_while_map, <- fmap_reverse. cbn [fst]. fold (rstripRunes rs).
  unfold chunks_string. by rewrite <- list_fmap_compose.
Qed.

(** A piece laid out: its runes between blanks. *)
Definition laid_out (w : Z) (p line : list Z) : Prop :=
  ∃ a b core tail, line = a ++ core ++ b ∧ p = core ++ tail ∧ blank a ∧ blank b ∧ blank tail ∧
    valid line ∧ narrow line ∧ Z.of_nat (length line) = w.

Lemma wrap_piece_spec w justify p : 0 < w → valid p → narrow p → fits w p →
  ∃ line, wrap_piece w justify p = string_of_runes line ∧ laid_out w p line.
Proof.
  intros Hw Hv Hn Hf. destruct (rstripEnd_spec w p) as (Hl & tail & Ep & Htail); [lia|done|].
  set (core := rstripEnd p w) in *. unfold wrap_piece. fold core.
  assert (Hc : valid core ∧ narrow core) by (rewrite Ep in Hv, Hn; apply Forall_app in Hv, Hn; tauto).
  destruct Hc as [Hcv Hcn].
  assert (Hpad : padTo (string_of_runes core) w = string_of_runes (core ++ blanks (w - Z.of_nat (length core))))
    by (by apply padTo_runes).
  assert (Hleft : laid_out w p (core ++ blanks (w - Z.of_nat (length core)))).
  { exists [], (blanks (w - Z.of_nat (length core))), core, tail. split_and!; try done.
    - constructor.
    - apply blanks_blank.
    - apply Forall_app. split; [done|apply blanks_valid].
    - apply Forall_app. split; [done|apply blanks_narrow].
    - rewrite length_app, Nat2Z.inj_add, blanks_length by lia. lia. }
  destruct justify; [by eauto..|].
  rewrite TrimRightSpace_runes by done. destruct (rstrip_split core) as (k & Ek & Hk).
  set (c := rstripRunes core) in *.
  assert (Hc : valid c ∧ narrow c) by (rewrite Ek in Hcv, Hcn; apply Forall_app in Hcv, Hcn; tauto).
  destruct Hc as [Hv' Hn']. rewrite CellLen_runes, cells_narrow by done.
  assert (Hlen : Z.of_nat (length c) <= w) by (apply (f_equal length) in Ek; rewrite length_app in Ek; lia).
  set (half := (w - Z.of_nat (length c)) / 2).
  assert (Hhalf : 0 <= half /\ half + Z.of_nat (length c) <= w).
  { subst half. pose proof (Z.div_le_upper_bound (w - Z.of_nat (length c)) 2 (w - Z.of_nat (length c))).
    pose proof (Z.div_pos (w - Z.of_nat (length c)) 2). lia. }
  assert (Hline : (if 0 <? w - Z.of_nat (length c) then spaces half +:+ string_of_runes c else string_of_runes c) =
                  string_of_runes (blanks half ++ c)).
  { destruct (Z.ltb_spec 0 (w - Z.of_nat (length c))); [by rewrite spaces_runes, string_of_runes_app|].
    subst half. by replace (w - Z.of_nat (length c)) with 0 by lia. }
  rewrite Hline. set (line := blanks half ++ c).
  assert (Hvl : valid line) by (apply Forall_app; split; [apply blanks_valid|done]).
  assert (Hnl : narrow line) by (apply Forall_app; split; [apply blanks_narrow|done]).
  assert (Hll : Z.of_nat (length line) = half + Z.of_nat (length c))
    by (subst line; rewrite length_app, Nat2Z.inj_add, blanks_length; lia).
  rewrite padTo_runes by (done || lia).
  exists (line ++ blanks (w - Z.of_nat (length line))). split; [done|].
  exists (blanks half), (blanks (w - Z.of_nat (length line))), c, (k ++ tail). split_and!.
  - subst line. by rewrite <- app_assoc.
  - rewrite Ep, Ek at 1. by rewrite <- app_assoc.
  - apply blanks_blank.
  - apply blanks_blank.
  - by apply Forall_app.
  - apply Forall_app. split; [done|apply blanks_valid].
  - apply Forall_app. split; [done|apply blanks_narrow].
  - rewrite length_app, Nat2Z.inj_add, blanks_length by lia. lia.
Qed.

(** The runes of a line that are no blanks. *)
Definition ink (rs : list Z) : list Z := filter (fun r => IsSpace r = false) rs.

Lemma ink_app a b : ink (a ++ b) = ink a ++ ink b.
Proof. apply filter_app. Qed.
Lemma ink_blank a : blank a → ink a = [].
Proof. induction 1 as [|r a Hr _ IH]; [done|]. unfold ink. rewrite filter_cons_False; [done|]. by rewrite Hr. Qed.

Lemma laid_out_ink w p line : laid_out w p line → ink line = ink p.
Proof.
  intros (a & b & core & tail & -> & -> & Ha & Hb & Ht & _). rewrite !ink_app, (ink_blank _ Ha), (ink_blank _ Hb), (ink_blank _ Ht).
  by rewrite !app_nil_r.
Qed.

(** A text of so many columns, well-formed. *)
Definition measures (n : Z) (s : string) : Prop := ∃ rs, s = string_of_runes rs ∧ valid rs ∧ cells rs = n.

Lemma measures_CellLen n s : measures n s → CellLen s = n.
Proof. intros (rs & -> & Hv & Hn). by rewrite CellLen_runes. Qed.

Lemma measures_app n m s t : measures n s → measures m t → measures (n + m) (s +:+ t).
Proof.
  intros (rs & -> & Hv & Hn) (ts & -> & Ht & Hm). exists (rs ++ ts). split; [by rewrite string_of_runes_app|].
  split; [by apply Forall_app|]. rewrite cells_app. lia.
Qed.

Lemma measures_spaces n : 0 <= n → measures n (spaces n).
Proof.
  intros Hn. exists (blanks n). split; [apply spaces_runes|]. split; [apply blanks_valid|].
  by rewrite cells_narrow, blanks_length by apply blanks_narrow || done.
Qed.

Lemma wrap_line_spec w justify logical : 0 < w → narrow (runes logical) →
  Forall (measures w) (wrap_line w justify logical) ∧
  concat (ink ∘ runes <$> wrap_line w justify logical) = ink (runes logical).
Proof.
  intros Hw Hn. unfold wrap_line. pose proof (divideLine_fits w (runes logical) Hw Hn) as Hf. unfold fit_from in Hf.
  pose proof (pieces_of_concat (runes logical) (divideLine (runes logical) w) 0) as Hc.
  change (drop (Z.to_nat 0) (runes logical)) with (runes logical) in Hc. specialize (Hc ltac:(lia)).
  pose proof (runes_valid logical) as Hv. fold (valid (runes logical)) in Hv.
  set (ps := pieces_of _ _ _) in *. rewrite <- Hc in Hv, Hn |- *. clear Hc.
  induction ps as [|p ps IH]; [by split|]. cbn [concat] in Hv, Hn. apply Forall_app in Hv as [Hvp Hv], Hn as [Hnp Hn].
  apply Forall_cons in Hf as [Hfp Hf]. destruct (IH Hn Hf Hv) as [IH1 IH2].
  destruct (wrap_piece_spec w justify p Hw Hvp Hnp Hfp) as (line & E & Hlaid). cbn [fmap list_fmap concat].
  rewrite E. pose proof (laid_out_ink _ _ _ Hlaid) as Hink. destruct Hlaid as (a & b & core & tail & _ & _ & _ & _ & _ & Hvl & Hnl & Hll).
  split.
  - constructor; [|done]. exists line. split; [done|]. split; [done|]. by rewrite cells_narrow.
  - rewrite IH2, ink_app, <- Hink. cbn. by rewrite runes_string_of_runes.
Qed.

(** Text whose characters take one column each. *)
Definition narrow_text (s : string) : Prop := Forall (fun l => narrow (runes l)) (split_byte (az 10) s).

Lemma narrow_check s :
  forallb (fun l => forallb (fun r => CellWidth r =? 1) (runes l)) (split_byte (az 10) s) = true → narrow_text s.
Proof.
  intros Hs. apply Forall_forall. intros l Hl. apply Forall_forall. intros r Hr.
  rewrite forallb_forall in Hs. specialize (Hs l (proj1 (list_elem_of_In _ _) Hl)).
  rewrite forallb_forall in Hs. by apply Z.eqb_eq, Hs, list_elem_of_In.
Qed.

Lemma Wrap_spec text w justify : 0 < w → narrow_text text →
  Forall (measures w) (Wrap text w justify) ∧
  concat (ink ∘ runes <$> Wrap text w justify) = concat (ink ∘ runes <$> split_byte (az 10) text).
Proof.
  intros Hw Hn. unfold Wrap. rewrite (proj2 (Z.leb_gt w 0)) by lia.
  induction Hn as [|l ls Hl _ [IH1 IH2]]; [done|]. cbn [fmap list_fmap concat].
  destruct (wrap_line_spec w justify l Hw Hl) as [H1 H2]. split; [by apply Forall_app|].
  rewrite fmap_app, concat_app, H2. f_equal. exact IH2.
Qed.

(** Folding a text whose characters take one column each gives
    lines that measure the width asked for exactly, whatever the alignment, and
    that carry every character of the text but blanks, in order. *)
Theorem Wrap_exact text w justify :
  0 < w → narrow_text text →
  Forall (fun l => CellLen l = w) (Wrap text w justify) ∧
  concat (ink ∘ runes <$> Wrap text w justify) = concat (ink ∘ runes <$> split_byte (az 10) text).
Proof.
  intros Hw Hn. destruct (Wrap_spec text w justify Hw Hn) as [H1 H2]. split; [|done].
  eapply Forall_impl; [exact H1|]. apply measures_CellLen.
Qed.
End narrow.

(** Eight columns, in which a word of nine has to be folded. *)
#[export] Instance ascii_cells : CellTables := { zeroWidth _ := false; wideRune r := (0x4E00 <=? r) && (r <=? 0x9FFF) }.

Lemma Wrap_exact_witness :
  Wrap "a bcdefghij  k" 8 JustifyCenter = ["   a    "; "bcdefghi"; "  j  k  "] ∧
  Forall (fun l => CellLen l = 8) (Wrap "a bcdefghij  k" 8 JustifyCenter).
Proof.
  split; [vm_compute; reflexivity|]. apply (Wrap_exact "a bcdefghij  k" 8 JustifyCenter); [lia|].
  apply narrow_check. vm_compute. reflexivity.
Defined.

(** Two wide characters and the two blanks after them take six columns: blanks are
    cut off by the character, not by the column. *)
Definition wide_text : string := string_of_runes [0x6F22; 0x5B57; 32; 32; 120].

Theorem wide_text_overflows : CellLen <$> Wrap wide_text 4 JustifyDefault = [6; 4].
Proof. vm_compute. reflexivity. Qed.

(** * The width solver and the renderer *)

(** ** Shares *)

(** A whole number on the right side of a quotient. *)
Definition rounds (p c d : Z) : Prop := ∀ n, 0 <= n → (p <= n * c → d <= n) ∧ (n * c <= p → n <= d).

Lemma near_ceil p c f : near p c f → rounds p c (f64_ceil f).
Proof.
  intros (b & e & -> & He & Hb) n Hn. destruct (Hb n Hn) as [H1 H2]. cbn [f64_ceil].
  destruct (Z.leb_spec 0 e) as [Hz|Hz].
  { assert (e = 0) as -> by lia. change (- 0) with 0 in *. rewrite Z.pow_0_r, Z.mul_1_r in *. auto. }
  assert (HK : 0 < 2 ^ (- e)) by (apply Z.pow_pos_nonneg; lia). split; intros Hle.
  - specialize (H1 Hle). assert (- n <= - Z.pos b / 2 ^ (- e)); [|lia]. apply Z.div_le_lower_bound; [done|lia].
  - specialize (H2 Hle). assert (- Z.pos b / 2 ^ (- e) <= - n); [|lia]. apply Z.div_le_upper_bound; [done|lia].
Qed.

Lemma near_round p c f : near p c f → rounds p c (f64_round_even f).
Proof.
  intros (b & e & -> & He & Hb) n Hn. destruct (Hb n Hn) as [H1 H2]. cbn [f64_round_even].
  destruct (Z.leb_spec 0 e) as [Hz|Hz].
  { assert (e = 0) as -> by lia. change (- 0) with 0 in *. rewrite Z.pow_0_r, Z.mul_1_r in *. auto. }
  assert (HK : 0 < 2 ^ (- e)) by (apply Z.pow_pos_nonneg; lia). set (K := 2 ^ (- e)) in *.
  pose proof (Z.div_mod (Z.pos b) K ltac:(lia)) as Eb. pose proof (Z.mod_pos_bound (Z.pos b) K HK) as Hm.
  set (q := Z.pos b / K) in *. set (r := Z.pos b mod K) in *.
  assert (Hup : Z.pos b <= n * K → (q < n ∨ q = n ∧ r = 0)).
  { intros Hle. destruct (Z.lt_trichotomy q n) as [?|[->|Hgt]]; [by left|right; split; [done|lia]|].
    exfalso. assert (K * (n + 1) <= K * q) by (apply Z.mul_le_mono_nonneg_l; lia). lia. }
  assert (Hlow : n * K <= Z.pos b → n <= q).
  { intros Hle. apply Z.div_le_lower_bound; [done|lia]. }
  split; intros Hle.
  - destruct (Hup (H1 Hle)) as [Hq|[-> Hr]].
    + destruct (2 * r ?= K); [destruct (Z.even q)|..]; lia.
    + rewrite Hr. assert (E : (2 * 0 ?= K) = Lt) by (apply Z.compare_lt_iff; lia). rewrite E. lia.
  - specialize (Hlow (H2 Hle)). destruct (2 * r ?= K); [destruct (Z.even q)|..]; lia.
Qed.

Lemma share_near r rem T : 0 < r → 0 < rem → 0 < T → r * rem < 2 ^ 50 → T < 2 ^ 50 → near (r * rem) T (share r rem T).
Proof. intros Hr Hm HT Hp Hc. unfold share. rewrite f64_mul_exact by lia. apply f64_div_near; [nia|lia]. Qed.

Lemma share_zero r T : 0 < r < 2 ^ 53 → 0 < T < 2 ^ 53 → share r 0 T = S754_zero false.
Proof. intros Hr HT. unfold share. rewrite (f64_normal r), (f64_normal T) by lia. reflexivity. Qed.

Lemma share_rounds (int : f64 → Z) r rem T :
  (∀ p c f, near p c f → rounds p c (int f)) → int (S754_zero false) = 0 →
  0 < r < 2 ^ 50 → 0 <= rem → 0 < T < 2 ^ 50 → r * rem < 2 ^ 50 → rounds (r * rem) T (int (share r rem T)).
Proof.
  intros Hint H0 Hr Hm HT Hp. destruct (decide (rem = 0)) as [->|Hn].
  - rewrite share_zero by lia. rewrite H0, Z.mul_0_r. intros n Hn. split; [lia|]. intros Hle.
    assert (0 <= n * T) by (apply Z.mul_nonneg_nonneg; lia). assert (n * T = 0) as E by lia. apply Z.mul_eq_0 in E. lia.
  - apply Hint, share_near; lia.
Qed.

Definition ceil_rounds r rem T := share_rounds f64_ceil r rem T near_ceil eq_refl.
Definition even_rounds r rem T := share_rounds f64_round_even r rem T near_round eq_refl.

Lemma sum_nonneg l : Forall (fun x => 0 <= x) l → 0 <= sum l.
Proof. unfold sum. induction 1 as [|x l Hx _ IH]; cbn [foldr]; lia. Qed.

(** The shares of a width in proportion to positive ratios add up to it. *)
Lemma distribute_loop_spec ratios : ∀ T rem,
  ratios ≠ [] → Forall (fun r => 0 < r) ratios → T = sum ratios → 0 <= rem → T * (rem + 1) < 2 ^ 50 →
  sum (distribute_loop ratios T rem) = rem ∧ length (distribute_loop ratios T rem) = length ratios ∧
  Forall (fun d => 0 <= d) (distribute_loop ratios T rem).
Proof.
  induction ratios as [|r ratios IH]; intros T rem Hne Hpos ET Hrem Hsize; [done|].
  apply Forall_cons in Hpos as [Hr Hpos]. cbn [sum foldr] in ET. fold (sum ratios) in ET.
  assert (Hs : 0 <= sum ratios) by (apply sum_nonneg; eapply Forall_impl; [exact Hpos|]; intros x Hx; cbn beta in *; lia).
  assert (HrT : r * (rem + 1) <= T * (rem + 1)) by (apply Z.mul_le_mono_nonneg_r; lia).
  assert (HT1 : T * 1 <= T * (rem + 1)) by (apply Z.mul_le_mono_nonneg_l; lia).
  assert (Hrounds : rounds (r * rem) T (f64_ceil (share r rem T))) by (apply ceil_rounds; lia).
  cbn [distribute_loop]. rewrite (proj2 (Z.ltb_lt 0 T)) by lia. set (d := f64_ceil _) in *.
  assert (Hd : 0 <= d <= rem).
  { split; [apply (Hrounds 0); lia|]. apply Hrounds; [done|]. rewrite Z.mul_comm. apply Z.mul_le_mono_nonneg_l; lia. }
  rewrite Z.max_l by lia. cbn [sum foldr length]. fold (sum (distribute_loop ratios (T - r) (rem - d))).
  destruct ratios as [|r2 ratios].
  - cbn in ET. assert (d = rem).
    { cut (rem <= d); [lia|]. apply Hrounds; [done|]. replace T with r by lia. lia. }
    cbn. split; [lia|]. split; [done|]. by constructor; [lia|].
  - assert (HT2 : (T - r) * (rem - d + 1) <= T * (rem + 1)) by (apply Z.mul_le_mono_nonneg; lia).
    destruct (IH (T - r) (rem - d)) as (IH1 & IH2 & IH3); [done|done|lia|lia|lia|].
    rewrite IH1, IH2. split; [lia|]. split; [done|]. constructor; [lia|done].
Qed.

(** ** Taking a width away *)

(** What a column loses: nothing when its ratio is 0. *)
Definition loses (D ratio value out : Z) : Prop :=
  (ratio = 0 → out = value) ∧ (ratio = 1 → value - D <= out <= value).

Definition binary (work : list Z) : Prop := Forall (fun r => r = 0 ∨ r = 1) work.

(** Enough to take: the columns of ratio 1 give up what is asked, [D] at most each. *)
Lemma reduce_loop_all work : ∀ values T rem D Mx,
  binary work → T = sum work → length values = length work → 0 <= D <= Mx → 0 <= rem <= T * D →
  T < 2 ^ 50 → rem < 2 ^ 50 → (0 < T ∨ rem = 0) →
  let out := reduce_loop work ((fun _ => Mx) <$> work) values T rem in
  length out = length work ∧ sum out = sum values - rem ∧
  (∀ i r v o, work !! i = Some r → values !! i = Some v → out !! i = Some o → loses D r v o).
Proof.
  induction work as [|r work IH]; intros values T rem D Mx Hb ET Hl HD Hrem HT Hr Hpos; destruct values as [|v values]; try done.
  { cbn. destruct Hpos as [Hpos|Hpos]; [cbn in ET; lia|]. split; [done|]. split; [lia|]. by intros i. }
  apply Forall_cons in Hb as [Hr01 Hb]. cbn [sum foldr] in ET. fold (sum work) in ET. injection Hl as Hl.
  assert (Hs : 0 <= sum work).
  { apply sum_nonneg. eapply Forall_impl; [exact Hb|]. intros x Hx. cbn beta in *. lia. }
  cbn [fmap list_fmap reduce_loop].
  destruct (decide (r = 0)) as [->|Hr0].
  - rewrite Z.eqb_refl. cbn [orb]. destruct (IH values T rem D Mx) as (IH1 & IH2 & IH3); [done|lia|done|done|done|done|done|done|].
    cbn [length sum foldr]. fold (sum values). rewrite IH1. split; [done|]. split; [unfold sum in *; lia|].
    intros [|i] r' v' o; cbn; [|apply IH3]. intros [= <-] [= <-] [= <-]. split; lia.
  - assert (r = 1) as -> by lia. clear Hr01 Hr0. rewrite (proj2 (Z.leb_gt T 0)) by lia. change (1 =? 0) with false. cbn [orb].
    assert (Hround : rounds (1 * rem) T (f64_round_even (share 1 rem T))) by (apply even_rounds; lia).
    rewrite Z.mul_1_l in Hround. set (d0 := f64_round_even _) in *.
    assert (Hd0 : 0 <= d0 <= D) by (split; apply Hround; lia).
    rewrite Z.min_l by lia.
    assert (Hdrem : d0 <= rem).
    { apply Hround; [lia|]. replace rem with (rem * 1) at 1 by lia. apply Z.mul_le_mono_nonneg_l; lia. }
    assert (Hfloor : rem / T <= d0).
    { apply Hround; [apply Z.div_pos; lia|]. rewrite Z.mul_comm. apply Z.mul_div_le. lia. }
    assert (Hnext : rem - d0 <= (T - 1) * D).
    { pose proof (Z.div_mod rem T ltac:(lia)) as E. pose proof (Z.mod_pos_bound rem T ltac:(lia)) as Hm.
      set (f := rem / T) in *. set (m := rem mod T) in *. clearbody f m. cut (rem - f <= (T - 1) * D); [lia|]. clear -E Hm HD Hrem ET Hs HT Hfloor Hr.
      destruct (Z.le_gt_cases D f) as [Hf|Hf].
      - assert (f = D) by nia. subst f. nia.
      - assert (rem - f <= (f + 1) * (T - 1)) by nia.
        assert ((f + 1) * (T - 1) <= D * (T - 1)) by (apply Z.mul_le_mono_nonneg_r; lia). lia. }
    destruct (IH values (T - 1) (rem - d0) D Mx) as (IH1 & IH2 & IH3); [done|lia|done|done|lia|lia|lia| |].
    { destruct (decide (T = 1)) as [ET1|]; [right; rewrite ET1 in Hnext; lia|left; lia]. }
    cbn [length sum foldr]. fold (sum values). rewrite IH1. split; [done|]. split; [unfold sum in *; lia|].
    intros [|i] r' v' o; cbn; [|apply IH3]. intros [= <-] [= <-] [= <-]. split; lia.
Qed.

(** More to take than there is: every column of ratio 1 gives up all it may. *)
Lemma reduce_loop_full work : ∀ values T rem Mx,
  binary work → T = sum work → length values = length work → 0 <= Mx → T * Mx <= rem →
  T < 2 ^ 50 → rem < 2 ^ 50 →
  reduce_loop work ((fun _ => Mx) <$> work) values T rem = zip_with (fun r v => v - r * Mx) work values.
Proof.
  induction work as [|r work IH]; intros values T rem Mx Hb ET Hl HM Hrem HT Hr; destruct values as [|v values]; try done.
  apply Forall_cons in Hb as [Hr01 Hb]. cbn [sum foldr] in ET. fold (sum work) in ET. injection Hl as Hl.
  assert (Hs : 0 <= sum work).
  { apply sum_nonneg. eapply Forall_impl; [exact Hb|]. intros x Hx. cbn beta in *. lia. }
  cbn [fmap list_fmap reduce_loop zip_with].
  destruct (decide (r = 0)) as [->|Hr0].
  - rewrite Z.eqb_refl. cbn [orb]. rewrite IH by (done || lia). f_equal. lia.
  - assert (r = 1) as -> by lia. rewrite (proj2 (Z.leb_gt T 0)) by lia. change (1 =? 0) with false. cbn [orb].
    assert (Hround : rounds (1 * rem) T (f64_round_even (share 1 rem T))) by (apply even_rounds; nia).
    rewrite Z.mul_1_l in Hround. rewrite Z.min_r by (apply Hround; lia).
    rewrite IH by (done || lia || nia). f_equal. lia.
Qed.

(** ** The widest columns *)

Lemma largest_ge l x : x ∈ l → x <= largest l.
Proof.
  unfold largest. induction l as [|y l IH]; [by intros ?%not_elem_of_nil|]. cbn [foldr].
  intros [-> |Hx]%elem_of_cons; [lia|]. specialize (IH Hx). lia.
Qed.

Lemma largest_nonneg l : 0 <= largest l.
Proof. unfold largest. induction l; cbn [foldr]; lia. Qed.

Lemma largest_in l : 0 < largest l → largest l ∈ l.
Proof.
  unfold largest. induction l as [|y l IH]; cbn [foldr]; [lia|]. intros H.
  destruct (Z.max_spec y (foldr Z.max 0 l)) as [[Hlt E]|[Hle E]]; rewrite E in *; [right; by apply IH|left].
Qed.

Lemma largest_le l b : 0 <= b → (∀ x, x ∈ l → x <= b) → largest l <= b.
Proof.
  intros Hb H. destruct (decide (0 < largest l)) as [Hp|]; [by apply H, largest_in|lia].
Qed.

Lemma sum_le_length l b : Forall (fun x => x <= b) l → sum l <= Z.of_nat (length l) * b.
Proof. unfold sum. induction 1 as [|x l Hx _ IH]; cbn [foldr length]; lia. Qed.

Lemma sum_ge_length l b : Forall (fun x => b <= x) l → Z.of_nat (length l) * b <= sum l.
Proof. unfold sum. induction 1 as [|x l Hx _ IH]; cbn [foldr length]; lia. Qed.

Definition widest (out : list Z) : list Z := (fun w => if w =? largest out then 1 else 0) <$> out.
Definition second (out : list Z) : Z := largest (filter (fun w => w ≠ largest out) out).

Lemma widest_binary out : binary (widest out).
Proof. unfold widest, binary. apply Forall_fmap, Forall_true. intros w. cbn. destruct (_ =? _); auto. Qed.

Lemma second_lt out : 0 < largest out → 0 <= second out < largest out.
Proof.
  intros H. split; [apply largest_nonneg|]. destruct (decide (0 < second out)) as [Hs|]; [|lia].
  apply largest_in in Hs as Hin. fold (second out) in Hin. apply list_elem_of_filter in Hin as [Hne Hin]. apply largest_ge in Hin. lia.
Qed.

Lemma second_ge out v : v ∈ out → v ≠ largest out → v <= second out.
Proof. intros Hv Hne. apply largest_ge. by apply list_elem_of_filter. Qed.

Lemma widest_lookup out i r v : widest out !! i = Some r → out !! i = Some v → r = if v =? largest out then 1 else 0.
Proof. unfold widest. rewrite list_lookup_fmap. intros Hr Hv. rewrite Hv in Hr. by injection Hr. Qed.

Lemma indicator_sum N l :
  0 <= sum ((fun w => if w =? N then 1 else 0) <$> l) <= Z.of_nat (length l) ∧
  (N ∈ l → 0 < sum ((fun w => if w =? N then 1 else 0) <$> l)).
Proof.
  unfold sum. induction l as [|x l [IH1 IH2]]; cbn [fmap list_fmap foldr length]; [split; [lia|by intros ?%not_elem_of_nil]|].
  destruct (Z.eqb_spec x N) as [->|Hn]; (split; [lia|]).
  - intros _. lia.
  - intros Hx. apply elem_of_cons in Hx as [Hx|Hx]; [congruence|]. specialize (IH2 Hx). lia.
Qed.

Lemma indicator_sum_all N l : (∀ x, x ∈ l → x = N) →
  sum ((fun w => if w =? N then 1 else 0) <$> l) = Z.of_nat (length l) ∧ sum l = Z.of_nat (length l) * N.
Proof.
  unfold sum. induction l as [|x l IH]; intros H; [done|]. cbn [fmap list_fmap foldr length].
  rewrite (H x) by (by left). rewrite Z.eqb_refl. destruct IH as [IH1 IH2]; [intros y Hy; apply H; by right|].
  split; lia.
Qed.

Lemma widest_sum_pos out : 0 < largest out → 0 < sum (widest out).
Proof. intros H. apply indicator_sum. by apply largest_in. Qed.

(** One round: what is asked is taken from the widest columns, or they come down
    to the second widest. *)
Lemma collapse_once_spec out excess :
  0 < largest out → 0 < excess < 2 ^ 50 → Z.of_nat (length out) < 2 ^ 50 →
  ∃ out', collapse_once out excess = Some out' ∧ length out' = length out ∧
  ((excess <= sum (widest out) * (largest out - second out) ∧ sum out' = sum out - excess ∧
    ∀ D i v o, 0 <= D → excess <= sum (widest out) * D → out !! i = Some v → out' !! i = Some o →
      (v ≠ largest out → o = v) ∧ (v = largest out → v - D <= o <= v)) ∨
   (sum (widest out) * (largest out - second out) < excess ∧
    out' = (fun v : Z => if v =? largest out then second out else v) <$> out)).
Proof.
  intros Hmax Hex Hlen. pose proof (second_lt out Hmax) as Hsec. pose proof (widest_sum_pos out Hmax) as Hk.
  pose proof (indicator_sum (largest out) out) as [Hks _]. fold (widest out) in Hks.
  unfold collapse_once. fold (second out) (widest out).
  assert (Hany : forallb (fun r => r =? 0) (widest out) = false).
  { apply not_true_iff_false. intros Hall. rewrite forallb_forall in Hall. 
    assert (sum (widest out) = 0); [|lia]. clear -Hall. unfold sum. induction (widest out) as [|r l IH]; [done|].
    cbn [foldr]. rewrite IH by (intros; apply Hall; by right). specialize (Hall r (or_introl eq_refl)). lia. }
  rewrite Hany, (proj2 (Z.eqb_neq (largest out - second out) 0)) by lia. cbn [orb].
  set (Mx := Z.min excess (largest out - second out)). assert (HMx : 0 < Mx) by lia.
  unfold ratioReduce.
  assert (Emax : ((fun _ => Mx) <$> out) = ((fun _ => Mx) <$> widest out)) by (unfold widest; rewrite <- list_fmap_compose; done).
  rewrite Emax.
  assert (Ework : zip_with (fun ratio maximum => if maximum =? 0 then 0 else ratio) (widest out) ((fun _ => Mx) <$> widest out) = widest out).
  { clear -HMx. induction (widest out) as [|r l IH]; [done|]. cbn [fmap list_fmap zip_with].
    rewrite (proj2 (Z.eqb_neq Mx 0)) by lia. f_equal. exact IH. }
  rewrite Ework, (proj2 (Z.eqb_neq (sum (widest out)) 0)) by lia.
  assert (Hwl : length out = length (widest out)) by (unfold widest; by rewrite length_fmap).
  destruct (Z.le_gt_cases excess (sum (widest out) * (largest out - second out))) as [Hle|Hgt].
  - assert (HMxle : excess <= sum (widest out) * Mx).
    { subst Mx. destruct (Z.min_spec excess (largest out - second out)) as [[_ ->]|[_ ->]]; [|done].
      replace excess with (1 * excess) at 1 by lia. apply Z.mul_le_mono_nonneg_r; lia. }
    destruct (reduce_loop_all (widest out) out (sum (widest out)) excess Mx Mx (widest_binary out) eq_refl Hwl)
      as (H1 & H2 & _); [lia..|].
    eexists. split; [done|]. split; [by rewrite H1|]. left. split; [done|]. split; [done|].
    intros D i v o HD Hexd Hv Ho.
    assert (Hmin : excess <= sum (widest out) * Z.min D Mx)
      by (destruct (Z.min_spec D Mx) as [[_ ->]|[_ ->]]; done).
    destruct (reduce_loop_all (widest out) out (sum (widest out)) excess (Z.min D Mx) Mx (widest_binary out) eq_refl Hwl)
      as (_ & _ & H3); [lia..|].
    assert (∃ r, widest out !! i = Some r) as [r Hr].
    { unfold widest. rewrite list_lookup_fmap, Hv. by eexists. }
    destruct (H3 i r v o Hr Hv Ho) as [L0 L1]. pose proof (widest_lookup _ _ _ _ Hr Hv) as Er.
    split; intros Hm.
    + apply L0. rewrite Er. by rewrite (proj2 (Z.eqb_neq v (largest out))).
    + assert (r = 1) as Er1 by (rewrite Er, Hm; by rewrite Z.eqb_refl). specialize (L1 Er1). lia.
  - assert (Mx = largest out - second out) as EMx.
    { subst Mx. apply Z.min_r. assert (1 * (largest out - second out) <= sum (widest out) * (largest out - second out))
        by (apply Z.mul_le_mono_nonneg_r; lia). lia. }
    rewrite (reduce_loop_full (widest out) out); [|apply widest_binary|done|done|lia|rewrite EMx; lia|lia|lia].
    eexists. split; [done|]. split; [rewrite length_zip_with_l_eq; by rewrite <- Hwl|]. right. split; [done|].
    unfold widest. rewrite EMx. generalize (largest out) as N. generalize (second out) as sd. intros sd N. clear.
    induction out as [|x l IH]; [done|]. cbn [fmap list_fmap zip_with]. f_equal; [|exact IH].
    destruct (Z.eqb_spec x N); lia.
Qed.

(** ** The rounds *)

Lemma list_eq_nil_elem {A} (l : list A) : (∀ x, x ∉ l) → l = [].
Proof. destruct l as [|x l]; [done|]. intros H. destruct (H x). by left. Qed.

(** The widths that occur: one fewer after every round but the last. *)
Definition widths_of (out : list Z) : gset Z := list_to_set (filter (fun w => 0 < w) out).

Lemma widths_of_spec out v : v ∈ widths_of out ↔ v ∈ out ∧ 0 < v.
Proof. unfold widths_of. rewrite elem_of_list_to_set, list_elem_of_filter. tauto. Qed.

Lemma lowered_widths out : 0 < largest out →
  (size (widths_of ((fun v : Z => if (v =? largest out)%Z then second out else v) <$> out)) < size (widths_of out))%nat.
Proof.
  intros Hmax. pose proof (second_lt out Hmax) as Hs. apply subset_size. split.
  - intros v. rewrite !widths_of_spec, list_elem_of_fmap. intros ((w & -> & Hw) & Hp).
    destruct (Z.eqb_spec w (largest out)) as [E|E]; [|done]. split; [|done].
    apply largest_in in Hp. by apply list_elem_of_filter in Hp as [_ ?].
  - intros Hsub. assert (Hin : largest out ∈ widths_of out) by (apply widths_of_spec; split; [by apply largest_in|done]).
    apply Hsub, widths_of_spec in Hin as [(w & E & Hw)%list_elem_of_fmap _].
    destruct (Z.eqb_spec w (largest out)); lia.
Qed.

(** Widths cut down: none grows, none falls below what all had and all may keep,
    and they come to what was asked for when that is possible. *)
Definition cut_down (out res : list Z) (maxWidth : Z) : Prop :=
  length res = length out ∧ Forall (fun x => 0 <= x) res ∧
  (0 <= maxWidth <= sum out → sum res = maxWidth) ∧
  (∀ m, 0 <= m → (∀ v : Z, v ∈ out → m <= v) → Z.of_nat (length out) * m <= maxWidth → ∀ v : Z, v ∈ res → m <= v).

Lemma sum_zero_largest out : Forall (fun x => 0 <= x) out → 0 < sum out → 0 < largest out.
Proof.
  intros Hnn Hs. pose proof (largest_nonneg out). destruct (decide (largest out = 0)) as [E|]; [|lia].
  assert (sum out <= Z.of_nat (length out) * 0); [|lia]. apply sum_le_length, Forall_forall. intros x Hx.
  apply largest_ge in Hx. lia.
Qed.

Lemma lookup_both {A} (l k : list A) i x : length l = length k → k !! i = Some x → ∃ y, l !! i = Some y.
Proof. intros E Hx. apply lookup_lt_Some in Hx. rewrite <- E in Hx. by apply lookup_lt_is_Some_2. Qed.

Lemma collapse_loop_spec fuel : ∀ out maxWidth,
  Forall (fun x => 0 <= x) out → sum out < 2 ^ 49 → Z.of_nat (length out) < 2 ^ 49 → - 2 ^ 49 < maxWidth →
  (size (widths_of out) < fuel)%nat →
  ∃ res, collapse_loop fuel out maxWidth = Some res ∧ cut_down out res maxWidth.
Proof.
  induction fuel as [|fuel IH]; intros out maxWidth Hnn Hsum Hlen Hmw Hfuel; [lia|]. cbn [collapse_loop].
  destruct (Z.ltb_spec 0 (sum out)) as [Hpos|Hpos]; cbn [andb].
  2: { exists out. split; [done|]. split; [done|]. split; [done|]. split; [|auto]. pose proof (sum_nonneg out Hnn). lia. }
  destruct (Z.ltb_spec 0 (sum out - maxWidth)) as [Hex|Hex].
  2: { exists out. split; [done|]. split; [done|]. split; [done|]. split; [lia|auto]. }
  pose proof (sum_zero_largest out Hnn Hpos) as Hmax. pose proof (second_lt out Hmax) as Hsec.
  destruct (collapse_once_spec out (sum out - maxWidth)) as (out' & -> & Hl & Hround); [done|lia|lia|].
  assert (Hsecond : ∀ m, 0 <= m → (∀ v : Z, v ∈ out → m <= v) → Z.of_nat (length out) * m <= maxWidth →
    m <= second out ∨ (∀ v : Z, v ∈ out → v = largest out)).
  { intros m Hm Hall _. destruct (decide (Exists (fun v : Z => v ≠ largest out) out)) as [Hx|Hx].
    - left. apply Exists_exists in Hx as (v & Hv & Hne). pose proof (second_ge out v Hv Hne). specialize (Hall v Hv). lia.
    - right. intros v Hv. destruct (decide (v = largest out)); [done|]. exfalso. apply Hx, Exists_exists. by exists v. }
  destruct Hround as [(Hle & Hs' & Hcut)|[Hgt ->]].
  - (* the last round *)
    assert (Hin' : ∀ v : Z, v ∈ out' → ∃ i x, out !! i = Some x ∧ out' !! i = Some v).
    { intros v [i Hi]%list_elem_of_lookup. destruct (lookup_both out out' i v) as [x Hx]; [by rewrite Hl|done|]. eauto. }
    assert (Hlow : ∀ m, 0 <= m → m <= largest out → sum out - maxWidth <= sum (widest out) * (largest out - m) →
      (∀ v : Z, v ∈ out → m <= v) → ∀ v : Z, v ∈ out' → m <= v).
    { intros m Hm0 Hm Hexm Hall v Hv. destruct (Hin' v Hv) as (i & x & Hx & Hi).
      destruct (Hcut (largest out - m) i x v) as [C1 C2]; [lia|done|done|done|].
      specialize (Hall x (list_elem_of_lookup_2 _ _ _ Hx)).
      destruct (decide (x = largest out)) as [E|E]; [specialize (C2 E); lia|by rewrite (C1 E)]. }
    assert (Hres : ∀ m, 0 <= m → (∀ v : Z, v ∈ out → m <= v) → Z.of_nat (length out) * m <= maxWidth → ∀ v : Z, v ∈ out' → m <= v).
    { intros m Hm Hall Hroom. assert (Hml : m <= largest out) by (apply Hall, largest_in; done).
      apply Hlow; [done|done| |done]. destruct (Hsecond m Hm Hall Hroom) as [Hs2|Hs2].
      - etransitivity; [exact Hle|]. apply Z.mul_le_mono_nonneg_l; [pose proof (widest_sum_pos out Hmax)|]; lia.
      - destruct (indicator_sum_all (largest out) out Hs2) as [Ek Es]. fold (widest out) in Ek. rewrite Ek, Es.
        rewrite Z.mul_sub_distr_l. lia. }
    assert (Hnn' : Forall (fun x => 0 <= x) out').
    { apply Forall_forall. intros v Hv. apply (Hlow 0); [done|lia| | |done].
      - etransitivity; [exact Hle|]. apply Z.mul_le_mono_nonneg_l; [pose proof (widest_sum_pos out Hmax)|]; lia.
      - rewrite Forall_forall in Hnn. exact Hnn. }
    assert (Hin : largest out ∈ widths_of out) by (apply widths_of_spec; split; [by apply largest_in|done]).
    assert (size (widths_of out) ≠ 0%nat) by (apply size_non_empty_iff; set_solver).
    destruct fuel as [|fuel]; [lia|]. cbn [collapse_loop].
    replace (0 <? sum out' - maxWidth) with false by (symmetry; apply Z.ltb_ge; lia). rewrite andb_false_r.
    exists out'. split; [done|]. split; [done|]. split; [done|]. split; [lia|exact Hres].
  - set (out' := (fun v : Z => if v =? largest out then second out else v) <$> out) in *.
    assert (Hin' : ∀ v : Z, v ∈ out' → v = second out ∨ v ∈ out ∧ v ≠ largest out).
    { intros v (w & -> & Hw)%list_elem_of_fmap. destruct (Z.eqb_spec w (largest out)); [by left|by right]. }
    assert (Hnn' : Forall (fun x => 0 <= x) out').
    { apply Forall_forall. intros v Hv. rewrite Forall_forall in Hnn. destruct (Hin' v Hv) as [-> |[? _]]; [lia|by apply Hnn]. }
    assert (Hs' : sum out' = sum out - sum (widest out) * (largest out - second out)).
    { subst out'. unfold widest. generalize (largest out) as N. generalize (second out) as sd. clear. intros sd N.
      unfold sum. induction out as [|x l IH]; [cbn; lia|]. rewrite !fmap_cons. cbn [foldr]. rewrite IH.
      destruct (Z.eqb_spec x N); lia. }
    assert (Hlowsum : sum out' <= sum out).
    { rewrite Hs'. pose proof (widest_sum_pos out Hmax). assert (0 <= sum (widest out) * (largest out - second out)) by (apply Z.mul_nonneg_nonneg; lia). lia. }
    destruct (IH out' maxWidth) as (res & E & Hl2 & Hnn2 & Hs2 & Hm2); [done|lia|by rewrite Hl|done| |].
    { pose proof (lowered_widths out Hmax) as Hlt. fold out' in Hlt. lia. }
    exists res. split; [done|]. split; [by rewrite Hl2|]. split; [done|]. split; [intros Hr; apply Hs2; lia|].
    intros m Hm Hall Hroom. apply Hm2; [done| |by rewrite Hl].
    intros v Hv. destruct (Hin' v Hv) as [-> |[Hv' _]]; [|by apply Hall].
    destruct (Hsecond m Hm Hall Hroom) as [?|Hs3]; [done|]. exfalso.
    destruct (indicator_sum_all (largest out) out Hs3) as [Ek Es]. fold (widest out) in Ek. rewrite Ek, Es in Hgt.
    assert (0 <= Z.of_nat (length out) * m) by (apply Z.mul_nonneg_nonneg; lia).
    assert (Hsec0 : second out = 0).
    { unfold second. assert (E0 : filter (fun w => w ≠ largest out) out = []); [|by rewrite E0].
      clear -Hs3. apply list_eq_nil_elem. intros w [Hn Hw]%list_elem_of_filter. by apply Hn, Hs3. }
    rewrite Hsec0, Z.sub_0_r in Hgt. lia.
Qed.

Lemma widths_of_size out : (size (widths_of out) <= length out)%nat.
Proof.
  assert (Hf : ∀ l : list Z, (length (filter (fun w => 0 < w)%Z l) <= length l)%nat).
  { induction l as [|x l IH]; [done|]. rewrite filter_cons. destruct (decide _); cbn [length]; lia. }
  unfold widths_of. etransitivity; [|apply (Hf out)].
  generalize (filter (fun w => 0 < w)%Z out) as l. clear. induction l as [|x l IH]; [done|]. cbn [list_to_set length].
  rewrite size_union_alt, size_singleton.
  assert ((size ((list_to_set l : gset Z) ∖ {[ x ]}) <= size (list_to_set l : gset Z))%nat)
    by (apply subseteq_size; set_solver). lia.
Qed.

Lemma collapseWidths_spec widths maxWidth :
  Forall (fun x => 0 <= x) widths → sum widths < 2 ^ 49 → Z.of_nat (length widths) < 2 ^ 49 → - 2 ^ 49 < maxWidth →
  ∃ res, collapseWidths widths maxWidth = Some res ∧ cut_down widths res maxWidth.
Proof.
  intros Hnn Hs Hl Hm. unfold collapseWidths. destruct widths as [|x l] eqn:E.
  { exists []. split; [done|]. split; [done|]. split; [done|]. split; [cbn; lia|]. intros m _ _ _ v Hv. by apply not_elem_of_nil in Hv. }
  rewrite <- E in *. apply collapse_loop_spec; try done. pose proof (widths_of_size widths). lia.
Qed.

(** ** The columns of a table *)

Section columns.
Context `{CellTables}.

(** What every column of a table asks for. *)
Definition asked (t : Table) : list Z := (fun i => Z.max (measureColumn t i).2 1) <$> seq 0 (length t.(Columns)).

(** Columns that all have something to show, of a size that a binary64 carries,
    and a console that has a cell for each. *)
Record fits_console (t : Table) (width : Z) : Prop := {
  fc_columns : t.(Columns) ≠ [];
  fc_shown : Forall (fun w => cellPadding < w) (asked t);
  fc_size : sum (asked t) < 2 ^ 24;
  fc_width : width < 2 ^ 24;
  fc_room : Z.of_nat (length t.(Columns)) * (cellPadding + 1) + extraWidth t <= width
}.

Lemma asked_length t : length (asked t) = length t.(Columns).
Proof. unfold asked. by rewrite length_fmap, length_seq. Qed.

Lemma sum_zip_add a : ∀ b, length a = length b → sum (zip_with Z.add a b) = sum a + sum b.
Proof.
  unfold sum. induction a as [|x a IH]; intros [|y b] E; try done. injection E as E. cbn [zip_with foldr]. rewrite IH by done. lia.
Qed.

Lemma zip_add_ge m a : ∀ b, Forall (fun x => m <= x) a → Forall (fun x => 0 <= x) b → Forall (fun x => m <= x) (zip_with Z.add a b).
Proof.
  induction a as [|x a IH]; intros [|y b] Ha Hb; cbn [zip_with]; try constructor.
  - apply Forall_cons in Ha, Hb. lia.
  - apply Forall_cons in Ha as [_ Ha], Hb as [_ Hb]. by apply IH.
Qed.

Lemma max_id m l : Forall (fun x => m <= x) l → (fun w => Z.max w m) <$> l = l.
Proof. induction 1 as [|x l Hx _ IH]; [done|]. rewrite fmap_cons, IH. by rewrite Z.max_l. Qed.

Lemma columnWidths_spec t width : fits_console t width →
  ∃ ws, columnWidths t width = Some ws ∧ length ws = length t.(Columns) ∧ Forall (fun w => cellPadding + 1 <= w) ws ∧
    sum ws + extraWidth t <= width ∧ (t.(Expand) = true → sum ws + extraWidth t = width).
Proof.
  intros [Hcols Hshown Hsize Hwidth Hroom]. unfold columnWidths. fold (asked t).
  pose proof (asked_length t) as Hlen. set (out := asked t) in *. clearbody out.
  assert (Hge : Forall (fun x => cellPadding + 1 <= x) out) by (eapply Forall_impl; [exact Hshown|]; cbn beta; unfold cellPadding; lia).
  assert (Hn : (0 < length out)%nat) by (rewrite Hlen; destruct (Columns t); [done|cbn; lia]).
  assert (Hextra : extraWidth t = 1 + Z.of_nat (length out)) by (unfold extraWidth; rewrite Hlen; lia).
  rewrite <- Hlen in Hroom |- *. rewrite Hextra in *. unfold cellPadding in *.
  pose proof (sum_ge_length out (2 + 1) Hge) as Hsum.
  assert (Hfinish : ∀ ws, length ws = length out → Forall (fun x => 2 + 1 <= x) ws →
    sum ws + (1 + Z.of_nat (length out)) <= width → (t.(Expand) = true → sum ws + (1 + Z.of_nat (length out)) = width) →
    ∃ ws', Some ((fun w => Z.max w (2 + 1)) <$> ws) = Some ws' ∧ length ws' = length out ∧ Forall (fun w => 2 + 1 <= w) ws' ∧
      sum ws' + (1 + Z.of_nat (length out)) <= width ∧ (t.(Expand) = true → sum ws' + (1 + Z.of_nat (length out)) = width)).
  { intros ws H1 H2 H3 H4. exists ws. rewrite max_id by done. auto. }
  destruct (Z.ltb_spec width (sum out + (1 + Z.of_nat (length out)))) as [Hlt|Hge'].
  - destruct (collapseWidths_spec out (width - (1 + Z.of_nat (length out)))) as (res & -> & Hl & Hnn & Hs & Hm).
    + eapply Forall_impl; [exact Hge|]. cbn beta. lia.
    + lia.
    + lia.
    + lia.
    + assert (Es : sum res = width - (1 + Z.of_nat (length out))) by (apply Hs; lia).
      rewrite (proj2 (Z.ltb_ge width (sum res + (1 + Z.of_nat (length out))))) by lia.
      apply Hfinish; [done| |lia|lia]. apply Forall_forall. intros x Hx. apply Hm; [lia| |lia|done].
      intros v Hv. rewrite Forall_forall in Hge. by apply Hge.
  - destruct (Z.ltb_spec (sum out + (1 + Z.of_nat (length out))) width) as [Hlt|Heq]; cbn [andb]; [|by apply Hfinish; [..|lia]].
    destruct (Expand t) eqn:EE; [|by apply Hfinish].
    destruct (distribute_loop_spec out (sum out) (width - (sum out + (1 + Z.of_nat (length out))))) as (Hd & Hdl & Hdn).
    + by destruct out; [cbn in Hn; lia|].
    + eapply Forall_impl; [exact Hge|]. cbn beta. lia.
    + done.
    + lia.
    + transitivity (2 ^ 24 * 2 ^ 24); [|reflexivity]. apply Z.mul_lt_mono_nonneg; lia.
    + unfold ratioDistribute. apply Hfinish.
      * rewrite length_zip_with_l_eq; [done|]. by rewrite Hdl.
      * by apply zip_add_ge.
      * rewrite sum_zip_add by done. lia.
      * intros _. rewrite sum_zip_add by done. lia.
Qed.

(** ** Lines *)

(** A box whose strings take one column each. *)
Definition box_strings (b : Box) : list string :=
  [b.(TopLeft); b.(CliTable.Top); b.(TopCross); b.(TopRight); b.(MidLeft); b.(MidVertical); b.(MidRight);
   b.(HeadRowLeft); b.(HeadRow); b.(HeadRowCross); b.(HeadRowRight); b.(RowLeft); b.(Row); b.(RowCross); b.(RowRight);
   b.(BottomLeft); b.(CliTable.Bottom); b.(BottomCross); b.(BottomRight)].
Definition box_ok (b : Box) : Prop := Forall (measures 1) (box_strings b).

Lemma measures_repeat m n : 0 <= n → measures 1 m → measures n (repeat_str m n).
Proof.
  intros Hn Hm. unfold repeat_str. rewrite <- (Z2Nat.id n) at 1 by done. induction (Z.to_nat n) as [|k IH]; [exists []; split; [done|]; by split; [constructor|]|].
  replace (Z.of_nat (S k)) with (1 + Z.of_nat k) by lia. cbn [repeat string_concat]. by apply measures_app.
Qed.

Lemma measures_join sep parts : ∀ widths, measures 1 sep → Forall2 measures widths parts → parts ≠ [] →
  measures (sum widths + Z.of_nat (length parts) - 1) (str_join sep parts).
Proof.
  induction parts as [|p parts IH]; intros widths Hsep Hall Hne; [done|].
  apply Forall2_cons_inv_r in Hall as (w & widths' & Hp & Hall & ->).
  destruct parts as [|q parts].
  - apply Forall2_nil_inv_r in Hall as ->. replace (sum [w] + Z.of_nat (length [p]) - 1) with w by (unfold sum; cbn [foldr length]; lia). done.
  - specialize (IH widths' Hsep Hall ltac:(done)). change (str_join sep (p :: q :: parts)) with (p +:+ sep +:+ str_join sep (q :: parts)).
    replace (sum (w :: widths') + Z.of_nat (length (p :: q :: parts)) - 1)
      with (w + (1 + (sum widths' + Z.of_nat (length (q :: parts)) - 1))) by (unfold sum; cbn [foldr length]; lia).
    by repeat apply measures_app.
Qed.

Lemma rule_measures left mid cross right ws :
  measures 1 left → measures 1 mid → measures 1 cross → measures 1 right → ws ≠ [] → Forall (fun w => 0 <= w) ws →
  measures (sum ws + (1 + Z.of_nat (length ws))) (rule left mid cross right ws).
Proof.
  intros Hl Hm Hc Hr Hne Hws. unfold rule.
  assert (Hparts : Forall2 measures ws (repeat_str mid <$> ws)).
  { clear Hne. induction Hws as [|w ws Hw _ IH]; cbn; constructor; [by apply measures_repeat|done]. }
  pose proof (measures_join cross _ _ Hc Hparts ltac:(by destruct ws)) as Hj. rewrite length_fmap in Hj.
  replace (sum ws + (1 + Z.of_nat (length ws))) with (1 + (sum ws + Z.of_nat (length ws) - 1 + 1)) by lia.
  by repeat apply measures_app.
Qed.

Lemma cell_lines_measure content w : cellPadding < w → narrow_text content →
  Forall (measures (w - cellPadding)) (cell_lines content w).
Proof.
  intros Hw Hn. unfold cell_lines. destruct (Wrap_spec content (w - cellPadding) JustifyDefault ltac:(lia) Hn) as [Hm _].
  destruct (Wrap _ _ _); [|done]. apply Forall_singleton, measures_spaces. lia.
Qed.

Lemma cell_line_measures lines w row : cellPadding < w → Forall (measures (w - cellPadding)) lines →
  measures w (cell_line lines w row).
Proof.
  intros Hw Hall. unfold cell_line. assert (Hb : measures 1 " ") by (by apply (measures_spaces 1)).
  replace w with (1 + (w - cellPadding + 1)) at 1 by (unfold cellPadding; lia).
  apply measures_app; [done|]. apply measures_app; [|done].
  destruct (lines !! row) as [l|] eqn:E; cbn [default].
  - by eapply Forall_lookup_1 in Hall.
  - apply measures_spaces. lia.
Qed.

Lemma row_cells_measure row ws : ∀ f : nat → string,
  (∀ i, narrow_text (f i)) → Forall (fun w => cellPadding < w) ws →
  Forall2 measures ws ((fun c => cell_line c.1 c.2 row) <$> imap (fun i w => (cell_lines (f i) w, w)) ws).
Proof.
  induction ws as [|w ws IH]; intros f Hf Hws; [constructor|]. apply Forall_cons in Hws as [Hw Hws].
  rewrite imap_cons, fmap_cons. constructor; [by apply cell_line_measures, cell_lines_measure|]. apply (IH (f ∘ S)); [|done]. intros i. apply Hf.
Qed.

Lemma renderRow_measures box row_cells ws :
  box_ok box → ws ≠ [] → Forall (fun w => cellPadding < w) ws → Forall narrow_text row_cells →
  Forall (measures (sum ws + (1 + Z.of_nat (length ws)))) (renderRow box row_cells ws).
Proof.
  intros Hbox Hne Hws Hcells. unfold renderRow. apply Forall_fmap, Forall_true. intros row. cbn [compose].
  assert (Hf : ∀ i, narrow_text (default "" (row_cells !! i))).
  { intros i. destruct (row_cells !! i) eqn:E; [by eapply Forall_lookup_1 in E|]. by apply narrow_check. }
  pose proof (row_cells_measure row ws (fun i => default "" (row_cells !! i)) Hf Hws) as Hparts. cbn beta in Hparts.
  unfold box_ok, box_strings in Hbox. rewrite !Forall_cons in Hbox. destruct_and! Hbox.
  eapply (measures_join (MidVertical box)) in Hparts; [|done|by destruct ws].
  rewrite length_fmap, length_imap in Hparts.
  replace (sum ws + (1 + Z.of_nat (length ws))) with (1 + (sum ws + Z.of_nat (length ws) - 1 + 1)) by lia.
  by repeat apply measures_app.
Qed.

Lemma body_measures t box ws rows :
  box_ok box → ws ≠ [] → Forall (fun w => cellPadding < w) ws → Forall (Forall narrow_text) rows →
  Forall (measures (sum ws + (1 + Z.of_nat (length ws)))) (body t box ws rows).
Proof.
  intros Hbox Hne Hws. induction 1 as [|row rows Hrow _ IH]; cbn [body]; [constructor|].
  repeat apply Forall_app_2; [by apply renderRow_measures| |done].
  destruct (_ && _); [|constructor]. apply Forall_singleton.
  unfold box_ok, box_strings in Hbox. rewrite !Forall_cons in Hbox. destruct_and! Hbox.
  apply rule_measures; try done. eapply Forall_impl; [exact Hws|]. unfold cellPadding. cbn beta. lia.
Qed.

(** What a table shows takes one column a character. *)
Record narrow_table (t : Table) : Prop := {
  nt_title : narrow_text t.(tTitle);
  nt_box : box_ok (default BoxSquareDoubleHead t.(tBox));
  nt_columns : Forall narrow_text t.(Columns);
  nt_rows : Forall (Forall narrow_text) t.(Rows)
}.

End columns.

Lemma measures_check `{CellTables} n s : (CellLen s =? n) && String.eqb (string_of_runes (runes s)) s = true → measures n s.
Proof.
  intros [Hn%Z.eqb_eq Hs%String.eqb_eq]%andb_prop. exists (runes s). split; [done|]. split; [apply runes_valid|done].
Qed.

Lemma box_check `{CellTables} b :
  forallb (fun s => (CellLen s =? 1) && String.eqb (string_of_runes (runes s)) s) (box_strings b) = true → box_ok b.
Proof.
  intros Hb. apply Forall_forall. intros s Hs. rewrite forallb_forall in Hb. by apply measures_check, Hb, list_elem_of_In.
Qed.

(** The list of the devices of a scenario on a console of 24 columns. *)
Definition small_table : Table :=
  mkTable "LAB" None true true ["NAME"; "STATUS"] [["pc1"; "running"]; ["router"; "exited with an error"]].

