(* ===== verification/CliJson.v ===== *)
(** * The machine-readable output (internal/cliout/jsonwriter.go, envelopes.go)

    The builder of one JSON object and the envelope of every command.  What the
    builder hands to encoding/json is modelled with that package's encoder, HTML
    characters left alone. *)

From S2P Require Export Json Settings OrderedMap.
From S2P Require K8sRec.
From Stdlib Require Import SpecFloat.
Local Open Scope string_scope.
Local Open Scope list_scope.
Local Open Scope Z_scope.
Local Open Scope kat_scope.

(** ** Package encoding/json: the encoder *)

(** An ASCII character that does not stand for itself. *)
Definition escape_ascii (r : Z) : string :=
  str1 backslash +:+
  (if (r =? 34) || (r =? 92) then str1 (az r)
   else if r =? 8 then "b" else if r =? 12 then "f" else if r =? 10 then "n" else if r =? 13 then "r" else if r =? 9 then "t"
   else "u00" +:+ hexByte r).

(** A rune and the bytes it was decoded from; [html] is [EscapeHTML]. *)
Definition json_rune (html : bool) (c : Z * string) : string :=
  let '(r, bytes) := c in
  if r <? 0x80 then
    if (r <? 0x20) || (r =? 34) || (r =? 92) || html && ((r =? 60) || (r =? 62) || (r =? 38)) then escape_ascii r else bytes
  else if (r =? RuneError) && (String.length bytes =? 1)%nat then str1 backslash +:+ "ufffd"
  else if (r =? 0x2028) || (r =? 0x2029) then str1 backslash +:+ "u202" +:+ hexdigit (r mod 16)
  else bytes.

Definition json_text (html : bool) (s : string) : string := quoted (string_concat (json_rune html <$> GoString.decode s)).
Definition json_string (s : string) : string := json_text false s.

Definition json_bool (b : bool) : string := if b then "true" else "false".
Definition json_array (items : list string) : string := "[" +:+ str_join "," items +:+ "]".
Definition json_member (name value : string) : string := json_string name +:+ ":" +:+ value.
Definition json_object (members : list string) : string := "{" +:+ str_join "," members +:+ "}".
Definition json_nullable (s : option string) : string := match s with Some s => json_string s | None => "null" end.
Definition json_strings (l : option (list string)) : string :=
  match l with Some l => json_array (json_string <$> l) | None => "null" end.

(** [float64]: the shortest digits, with an exponent below 1e-6 and from 1e21 on;
    [None] for what is no number of JSON. *)
Definition float_digits (f : f64) : string * string * Z :=
  let sci := FormatFloat_e f in
  let '(sign, sci) := match sci with
                      | String b r => if Ascii.eqb b "-" then ("-", r) else ("", sci)
                      | EmptyString => ("", sci)
                      end in
  let '(mantissa, exponent, _) := cutByte sci "e" in
  let '(head, tail, _) := cutByte mantissa "." in
  (sign, head +:+ tail, match Atoi exponent with Ok e => e | Err _ => 0 end).

Definition json_float (f : f64) : option string :=
  match f with
  | S754_nan | S754_infinity _ => None
  | _ =>
      let '(sign, digits, exp) := float_digits f in
      let decpt := exp + 1 in
      let n := Z.of_nat (String.length digits) in
      Some (sign +:+
        (if match f with S754_zero _ => false | _ => (exp <? -6) || (21 <=? exp) end then
           string_take 1 digits +:+ (if 1 <? n then "." +:+ string_drop 1 digits else "") +:+ "e" +:+
           (if exp <? 0 then "-" +:+ Itoa (- exp) else "+" +:+ Itoa exp)
         else if decpt <=? 0 then "0." +:+ zeros (Z.to_nat (- decpt)) +:+ digits
         else if n <=? decpt then digits +:+ zeros (Z.to_nat (decpt - n))
         else string_take (Z.to_nat decpt) digits +:+ "." +:+ string_drop (Z.to_nat decpt) digits))
  end.

(** What a [Marshaler] gives is taken when it is a document. *)
Definition compacted (text : string) : option string := match parse text with Some _ => Some text | None => None end.

(** A value of the settings; [AOther] is a value of none of their types, which is
    never stored. *)
Definition json_setting (v : anyval) : option string :=
  match v with
  | AString s => Some (json_string s)
  | ABool b => Some (json_bool b)
  | AFloat f => json_float f
  | ACds z | AInt z => Some (Itoa z)
  | ANil => Some "null"
  | AStrPtr p => Some (json_nullable p)
  | AOther => None
  end.

(** [kathara.OptionalString] marshals itself, with HTML characters escaped. *)
Definition stats_json (s : K8sRec.MachineStats) : string :=
  json_object ([json_member "network_scenario_id" (json_string s.(K8sRec.msNetworkScenarioID));
                json_member "name" (json_string s.(K8sRec.msName));
                json_member "container_name" (json_string s.(K8sRec.msContainerName));
                json_member "user" (json_nullable s.(K8sRec.msUser));
                json_member "status" (json_nullable s.(K8sRec.msStatus));
                json_member "image" (json_string s.(K8sRec.msImage))]
    ++ match s.(K8sRec.msAssignedNode) with
       | K8sRec.Unset => []
       | K8sRec.NullString => [json_member "assigned_node" "null"]
       | K8sRec.SomeString node => [json_member "assigned_node" (json_text true node)]
       end).

Record LinfoLink : Type := mkLinfoLink { llName : string; llMachines : option (list string) }.

Definition link_json (l : LinfoLink) : string :=
  json_object [json_member "name" (json_string l.(llName)); json_member "machines" (json_strings l.(llMachines))].

(** The types of the values the envelopes hand to the encoder. *)
Inductive any : Type :=
| VString (s : string) | VBool (b : bool) | VInt (z : Z) | VStrings (l : list string)
| VStats (s : option K8sRec.MachineStats) | VStatsList (l : list K8sRec.MachineStats) | VLinks (l : list LinfoLink)
| VSetting (v : anyval) | VSettings (s : Settings).

(** ** Envelopes (envelopes.go) *)

Record Lab : Type := mkCliLab {
  lbName : option string; lbHash : string; lbPath : option string;
  lbDescription : string; lbVersion : string; lbAuthor : string; lbEmail : string; lbWeb : string
}.

Definition nilIfEmpty (s : string) : option string := if String.eqb s "" then None else Some s.

Definition hasMeta (l : Lab) : bool :=
  existsb (fun s => negb (String.eqb s "")) [l.(lbDescription); l.(lbVersion); l.(lbAuthor); l.(lbEmail); l.(lbWeb)].

Record LstartResult : Type := mkLstart {
  lsLab : Lab; lsDryRun : bool; lsChecks : list string; lsMachines : list string; lsLinks : list string;
  lsMachineStats : option (list K8sRec.MachineStats)
}.
Record LcleanResult : Type := mkLclean { lcLab : Lab; lcMachines : list string; lcLinks : list string }.
Record LinfoResult : Type := mkLinfo {
  liLab : Lab; liMode : string; liMachine : option K8sRec.MachineStats; liMachines : list K8sRec.MachineStats;
  liLinks : list LinfoLink; liDeviceCount : Z; liLinkCount : Z; liMachineText : string
}.
Record CheckResult : Type := mkCheck {
  ckManager : string; ckManagerVersion : string; ckRuntimeVersion : string; ckKatharaVersion : string;
  ckOSVersion : string; ckImage : string; ckOK : bool; ckError : string
}.

(** The result types of the commands. *)
Inductive Envelope : Type :=
| Lstart (r : LstartResult)
| Lclean (r : LcleanResult)
| Lrestart (clean : LcleanResult) (start : LstartResult)
| Wipe (settingsWiped allUsers : bool) (machines links : list string)
| ListResult (machines : list K8sRec.MachineStats)
| Linfo (r : LinfoResult)
| APIResult (ok : bool)
| ExecResult (stdout stderr : string) (exitCode : Z)
| Check_ (r : CheckResult)
| Vstart (lab : Lab) (machine : string) (dryRun : bool) (links : list string)
| Vclean (lab : Lab) (machine : string) (machines : list string)
| ConfigResult (lab : Lab) (machine : string) (added : list (string * string)) (removed : list string)
| SettingsGet (key : string) (value : anyval)
| SettingsSet (key : string) (value : anyval) (saved : bool)
| SettingsList (settings : Settings)
| SettingsReset (settings : Settings) (saved : bool).

(** The terminals that are there, which the schema of the settings asks for. *)
Class Terminals : Type := { terminalAvailable : string → result goerror bool }.

Section encoder.
Context `{Terminals}.

Definition json_settings (s : Settings) : option string :=
  match MarshalJSON terminalAvailable s with Ok text => compacted text | Err _ => None end.

(** What [Encode] writes, less the line feed; [None] when it refuses. *)
Definition encoded (v : any) : option string :=
  match v with
  | VString s => Some (json_string s)
  | VBool b => Some (json_bool b)
  | VInt z => Some (Itoa z)
  | VStrings l => Some (json_strings (Some l))
  | VStats s => Some (match s with Some s => stats_json s | None => "null" end)
  | VStatsList l => Some (json_array (stats_json <$> l))
  | VLinks l => Some (json_array (link_json <$> l))
  | VSetting v => json_setting v
  | VSettings s => json_settings s
  end.

(** ** The builder *)

Record jobj : Type := mkJobj { buf : string; count : Z; jerr : bool }.

Definition newObj : jobj := mkJobj "{" 0 false.
Definition write (s : string) (o : jobj) : jobj := mkJobj (o.(buf) +:+ s) o.(count) o.(jerr).

Definition writeValue (v : any) (o : jobj) : jobj :=
  match encoded v with
  | Some s => write s o
  | None => mkJobj (o.(buf) +:+ "null") o.(count) true
  end.

Definition key (name : string) (o : jobj) : jobj :=
  let o := if 0 <? o.(count) then write "," o else o in
  write ":" (writeValue (VString name) (mkJobj o.(buf) (o.(count) + 1) o.(jerr))).

Definition Any (name : string) (v : any) (o : jobj) : jobj := writeValue v (key name o).
Definition Str (name v : string) : jobj → jobj := Any name (VString v).
Definition NullableStr (name : string) (v : option string) (o : jobj) : jobj :=
  let o := key name o in
  match v with None => write "null" o | Some v => writeValue (VString v) o end.
Definition Bool (name : string) (v : bool) : jobj → jobj := Any name (VBool v).
Definition Int (name : string) (v : Z) : jobj → jobj := Any name (VInt v).
Definition Strings (name : string) (v : list string) : jobj → jobj := Any name (VStrings v).
Definition Raw (name raw : string) (o : jobj) : jobj := write raw (key name o).

Fixpoint raw_items (first : bool) (items : list string) (o : jobj) : jobj :=
  match items with
  | [] => o
  | item :: items => raw_items false items (write item (if first then o else write "," o))
  end.

Definition RawArray (name : string) (items : list string) (o : jobj) : jobj :=
  write "]" (raw_items true items (write "[" (key name o))).

Definition Bytes (o : jobj) : string := o.(buf) +:+ "}".

(** The builder is used as a chain of calls. *)
Definition built (calls : list (jobj → jobj)) : string := Bytes (foldl (fun o call => call o) newObj calls).

Definition encode_lab (withMeta : bool) (l : Lab) : string :=
  built ([NullableStr "name" l.(lbName); Str "hash" l.(lbHash); NullableStr "path" l.(lbPath)]
    ++ (if withMeta && hasMeta l
        then [NullableStr "description" (nilIfEmpty l.(lbDescription)); NullableStr "version" (nilIfEmpty l.(lbVersion));
              NullableStr "author" (nilIfEmpty l.(lbAuthor)); NullableStr "email" (nilIfEmpty l.(lbEmail));
              NullableStr "web" (nilIfEmpty l.(lbWeb))]
        else [])).

Definition encode_lstart (r : LstartResult) : string :=
  built ([Raw "lab" (encode_lab true r.(lsLab)); Bool "dry_run" r.(lsDryRun)]
    ++ if r.(lsDryRun) then [RawArray "checks" ((fun file => built [Str "file" file; Bool "ok" true]) <$> r.(lsChecks))]
       else [Strings "machines" r.(lsMachines); Strings "links" r.(lsLinks)]
         ++ match r.(lsMachineStats) with
            | Some stats => [RawArray "machine_stats" ((fun s => default "" (encoded (VStats (Some s)))) <$> stats)]
            | None => []
            end).

Definition encode_lclean (r : LcleanResult) : string :=
  built [Raw "lab" (encode_lab false r.(lcLab)); Strings "machines" r.(lcMachines); Strings "links" r.(lcLinks)].

(** By scenario, then by name. *)
Definition stats_order (a b : K8sRec.MachineStats) : Z :=
  let less s t := negb (str_leb t s) in
  if negb (String.eqb a.(K8sRec.msNetworkScenarioID) b.(K8sRec.msNetworkScenarioID))
  then if less a.(K8sRec.msNetworkScenarioID) b.(K8sRec.msNetworkScenarioID) then -1 else 1
  else if less a.(K8sRec.msName) b.(K8sRec.msName) then -1
  else if less b.(K8sRec.msName) a.(K8sRec.msName) then 1 else 0.

Definition encode_linfo (r : LinfoResult) : string :=
  built ([Raw "lab" (encode_lab true r.(liLab)); Str "mode" r.(liMode)]
    ++ (if String.eqb r.(liMode) "conf" then
          [Int "device_count" r.(liDeviceCount); Int "link_count" r.(liLinkCount)]
          ++ (if String.eqb r.(liMachineText) "" then [] else [Str "machine" r.(liMachineText)])
        else if String.eqb r.(liMode) "machine" then [Any "machine" (VStats r.(liMachine))]
        else if String.eqb r.(liMode) "topology" then [Any "links" (VLinks r.(liLinks))]
        else [Any "machines" (VStatsList r.(liMachines))])).

Definition encode_check (r : CheckResult) : string :=
  let test := built [Str "image" r.(ckImage); Bool "ok" r.(ckOK); NullableStr "error" (nilIfEmpty r.(ckError))] in
  built [Str "manager" r.(ckManager); Str "manager_version" r.(ckManagerVersion); Str "runtime_version" r.(ckRuntimeVersion);
         Str "kathara_version" r.(ckKatharaVersion); Str "os_version" r.(ckOSVersion); Raw "container_test" test].

Definition encode_lrestart (clean : LcleanResult) (start : LstartResult) : string :=
  built [Raw "clean" (encode_lclean clean); Raw "start" (encode_lstart start)].
Definition encode_wipe (settingsWiped allUsers : bool) (machines links : list string) : string :=
  built [Bool "settings_wiped" settingsWiped; Bool "all_users" allUsers; Strings "machines" machines; Strings "links" links].
Definition encode_list (machines : list K8sRec.MachineStats) : string :=
  built [RawArray "machines" ((fun s => default "" (encoded (VStats (Some s)))) <$> SortStable stats_order machines)].
Definition encode_api (ok : bool) : string := built [Bool "ok" ok].
Definition encode_exec (stdout stderr : string) (exitCode : Z) : string :=
  built [Str "stdout" stdout; Str "stderr" stderr; Int "exit_code" exitCode].
Definition encode_vstart (lab : Lab) (machine : string) (dryRun : bool) (links : list string) : string :=
  built ([Raw "lab" (encode_lab false lab); Str "machine" machine; Bool "dry_run" dryRun]
    ++ if dryRun then [] else [Strings "links" links]).
Definition encode_vclean (lab : Lab) (machine : string) (machines : list string) : string :=
  built [Raw "lab" (encode_lab false lab); Str "machine" machine; Strings "machines" machines].
Definition encode_config (lab : Lab) (machine : string) (added : list (string * string)) (removed : list string) : string :=
  built [Raw "lab" (encode_lab false lab); Str "machine" machine;
         RawArray "added" ((fun a => built [Str "link" a.1; NullableStr "mac" (nilIfEmpty a.2)]) <$> added);
         Strings "removed" removed].
Definition encode_get (key : string) (value : anyval) : string := built [Str "key" key; Any "value" (VSetting value)].
Definition encode_set (key : string) (value : anyval) (saved : bool) : string :=
  built [Str "key" key; Any "value" (VSetting value); Bool "saved" saved].
Definition encode_settings (settings : Settings) : string := built [Any "settings" (VSettings settings)].
Definition encode_reset (settings : Settings) (saved : bool) : string :=
  built [Any "settings" (VSettings settings); Bool "saved" saved].

Definition encode (e : Envelope) : string :=
  match e with
  | Lstart r => encode_lstart r
  | Lclean r => encode_lclean r
  | Lrestart clean start => encode_lrestart clean start
  | Wipe settingsWiped allUsers machines links => encode_wipe settingsWiped allUsers machines links
  | ListResult machines => encode_list machines
  | Linfo r => encode_linfo r
  | APIResult ok => encode_api ok
  | ExecResult stdout stderr exitCode => encode_exec stdout stderr exitCode
  | Check_ r => encode_check r
  | Vstart lab machine dryRun links => encode_vstart lab machine dryRun links
  | Vclean lab machine machines => encode_vclean lab machine machines
  | ConfigResult lab machine added removed => encode_config lab machine added removed
  | SettingsGet key value => encode_get key value
  | SettingsSet key value saved => encode_set key value saved
  | SettingsList settings => encode_settings settings
  | SettingsReset settings saved => encode_reset settings saved
  end.
End encoder.

#[local] Instance any_terminal : Terminals := { terminalAvailable _ := Ok true }.

(** A device without a node, one whose node needs escaping, and a string that is
    not Unicode. *)
Definition web_stats (node : K8sRec.OptionalString) : K8sRec.MachineStats :=
  K8sRec.mkMachineStats "ns" "web" "c" None (Some "Running") "img" node.

Example encode_stats : encode (ListResult [web_stats (K8sRec.SomeString "a<b"); web_stats K8sRec.Unset]) =
  string_concat (str_join (str1 quote_char) <$>
    [["{"; "machines"; ":[{"; "network_scenario_id"; ":"; "ns"; ","; "name"; ":"; "web"; ","; "container_name"; ":"; "c"; ",";
      "user"; ":null,"; "status"; ":"; "Running"; ","; "image"; ":"; "img"; ","; "assigned_node"; ":"; "a\u003cb"; "},{";
      "network_scenario_id"; ":"; "ns"; ","; "name"; ":"; "web"; ","; "container_name"; ":"; "c"; ",";
      "user"; ":null,"; "status"; ":"; "Running"; ","; "image"; ":"; "img"; "}]}"]]).
Proof. vm_compute. reflexivity. Qed.

Example encode_escapes : json_string (str1 (az 0xE9) +:+ "a" +:+ str1 (az 10) +:+ str1 (az 1) +:+ "<" +:+ encode_rune 0x2028 +:+ "é") =
  quoted ("\ufffda\n\u0001<\u2028é").
Proof. vm_compute. reflexivity. Qed.

Example encode_floats :
  rmap (fun f => json_float f) (pyFloat "1785923124.0260758") = Ok (Some "1785923124.0260758") ∧
  rmap json_float (pyFloat "0.0000001") = Ok (Some "1e-7") ∧ rmap json_float (pyFloat "1e21") = Ok (Some "1e+21") ∧
  rmap json_float (pyFloat "-300") = Ok (Some "-300") ∧ json_float (S754_zero true) = Some "-0".
Proof. vm_compute. repeat split. Qed.
