(* ===== verification/CliConsole.v ===== *)
(** * The console (internal/cliout: console.go, errors.go, slog.go, prompt.go, handlers.go)

    Where the command line writes: what went to standard output and to standard
    error, and the methods that add to them in the three formats; questions and
    progress.  A write never fails here: the code ignores what it returns. *)

From S2P Require Export Machine CliTable CliJson.
From S2P Require Import Shlex.
Local Open Scope string_scope.
Local Open Scope list_scope.
Local Open Scope Z_scope.
Local Open Scope kat_scope.

Inductive Format : Type := FormatHuman | FormatJSON | FormatJSONL.
Definition Format_text (f : Format) : string :=
  match f with FormatHuman => "human" | FormatJSON => "json" | FormatJSONL => "jsonl" end.
Definition Format_Machine (f : Format) : bool := match f with FormatHuman => false | _ => true end.

Definition LevelDebug : Z := 10.
Definition LevelInfo : Z := 20.
Definition LevelWarning : Z := 30.
Definition LevelError : Z := 40.
Definition LevelCritical : Z := 50.

Definition Level_String (l : Z) : string :=
  if l =? LevelDebug then "DEBUG" else if l =? LevelInfo then "INFO" else if l =? LevelWarning then "WARNING"
  else if l =? LevelError then "ERROR" else if l =? LevelCritical then "CRITICAL" else Itoa l.

(** [strings.ToUpper] of the name is a parameter. *)
Definition ParseLevel (ToUpper : string → string) (name : string) : Z :=
  let name := ToUpper name in
  if String.eqb name "CRITICAL" then LevelCritical else if String.eqb name "ERROR" then LevelError
  else if String.eqb name "WARNING" then LevelWarning else if String.eqb name "INFO" then LevelInfo else LevelDebug.

Record Console : Type := mkConsole {
  Out : string; Err : string; Width : Z; TTY : bool; cFormat : Format; Level : Z; Traceback : bool
}.

Definition nl : string := str1 (az 10).
Definition out (s : string) (c : Console) : Console :=
  mkConsole (c.(Out) +:+ s) c.(Err) c.(Width) c.(TTY) c.(cFormat) c.(Level) c.(Traceback).
Definition err (s : string) (c : Console) : Console :=
  mkConsole c.(Out) (c.(Err) +:+ s) c.(Width) c.(TTY) c.(cFormat) c.(Level) c.(Traceback).

(** [New]: whether the output is a file, whether it is a terminal and how wide, and
    the variables [TERM] and [COLUMNS]. *)
Definition New (fd : option (bool * option Z)) (TERM COLUMNS : string) (format : Format) (level : Z) : Console :=
  let '(tty, width) :=
    match fd with
    | None => (false, DefaultWidth)
    | Some (tty, size) =>
        (tty, match size with
              | Some w => if negb (String.eqb TERM "dumb") && (0 <? w) then w else DefaultWidth
              | None => DefaultWidth
              end)
    end in
  let width :=
    if String.eqb COLUMNS "" then width
    else match Atoi COLUMNS with Ok w => if 0 <? w then w else width | Prelude.Err _ => width end in
  mkConsole "" "" width tty format level false.

Definition human (f : Console → Console) (c : Console) : Console := if Format_Machine c.(cFormat) then c else f c.

Definition Print (line : string) : Console → Console := human (out (line +:+ nl)).
Definition PrintLines (lines : list string) : Console → Console :=
  human (fun c => foldl (fun c line => out (line +:+ nl) c) c lines).

(** [%-8s] of the name of a level. *)
Definition gutter (s : string) : string := s +:+ spaces (8 - Z.of_nat (length (runes s))).

Fixpoint log_rows (level : string) (rows : list string) (c : Console) : Console :=
  match rows with
  | [] => c
  | row :: rows => log_rows "" rows (out (gutter level +:+ " " +:+ row +:+ nl) c)
  end.

(** [Log] of a message already formatted. *)
Definition Log (level : Z) (msg : string) (c : Console) : Console :=
  if level <? c.(Level) then c
  else if Format_Machine c.(cFormat) then err (ToLower (Level_String level) +:+ ": " +:+ msg +:+ nl) c
  else log_rows (Level_String level) (split_byte (az 10) msg) c.

Definition WriteOut (p : string) : Console → Console := out p.
Definition WriteErr (p : string) : Console → Console := err p.

(** ** Log records of the packages below (slog.go) *)

Definition fromSlogLevel (level : Z) : Z :=
  if 12 <=? level then LevelCritical else if 8 <=? level then LevelError else if 4 <=? level then LevelWarning
  else if 0 <=? level then LevelInfo else LevelDebug.

Definition slog_Enabled (level : Z) (c : Console) : bool := c.(Level) <=? fromSlogLevel level.

(** A record with its attributes, the handler's first; their values are already text,
    and an attribute without key or value is left out. *)
Definition slog_Handle (groups : list string) (attrs : list (string * string)) (level : Z) (message : string)
  : Console → Console :=
  let prefix := match groups with [] => "" | _ => str_join "." groups +:+ "." end in
  Log (fromSlogLevel level) (message +:+ string_concat ((fun a => " " +:+ prefix +:+ a.1 +:+ "=" +:+ a.2) <$> attrs)).

Section console.
Context `{CellTables, Terminals}.

Definition PrintPanel (message : string) (opts : PanelOptions) (c : Console) : Console :=
  human (fun c =>
    let opts := if opts.(pWidth) =? 0 then mkPanel opts.(pTitle) opts.(pBox) opts.(pJustify) c.(Width) else opts in
    PrintLines (Panel message opts) c) c.

(** ** Envelopes and events *)

(** A document on a line of its own. *)
Definition line_out (document : string) (c : Console) : Console := out nl (out document c).

Definition Emit (e : Envelope) (c : Console) : Console :=
  match c.(cFormat) with FormatJSON => line_out (CliJson.encode e) c | _ => c end.

Definition EmitInterrupted (c : Console) : Console :=
  match c.(cFormat) with
  | FormatJSON => out ("{" +:+ quoted "interrupted" +:+ ":true}" +:+ nl) c
  | FormatJSONL => out ("{" +:+ quoted "type" +:+ ":" +:+ quoted "interrupted" +:+ "}" +:+ nl) c
  | FormatHuman => c
  end.

Definition EmitStreamChunk (stream data : string) (c : Console) : Console :=
  match c.(cFormat) with
  | FormatJSONL => if String.eqb data "" then c else line_out (built [Str "type" stream; Str "data" data]) c
  | _ => c
  end.

Definition EmitStreamExit (code : Z) (c : Console) : Console :=
  match c.(cFormat) with
  | FormatJSONL => line_out (built [Str "type" "exit"; Int "code" code]) c
  | _ => c
  end.

(** ** Errors (errors.go) *)

(** [errors.As] of one type of error, and the fields that come of it. *)
Definition as_fields (p : goerror → option (list (jobj → jobj))) (e : goerror) : option (list (jobj → jobj)) := find_error p e.

Definition error_fields : list (goerror → option (list (jobj → jobj))) :=
  [fun e => match e with EBinary binary machine => Some [Str "binary" binary; Str "machine" machine] | _ => None end;
   fun e => match e with EImageArch image arch => Some [Str "image" image; Str "arch" arch] | _ => None end;
   fun e => match e with ENonSeqInterface iface machine => Some [Int "iface" iface; Str "machine" machine] | _ => None end;
   fun e => match e with
            | EMacAddress mac iface machine => Some [Str "mac" mac; Int "iface" iface; Str "machine" machine]
            | _ => None
            end;
   fun e => match e with
            | ECollisionDomain machine link iface _ =>
                Some (Str "machine" machine :: if String.eqb link "" then [Int "iface" iface] else [Str "link" link])
            | _ => None
            end;
   fun e => match e with EOption machine option _ => Some [Str "machine" machine; Str "option" option] | _ => None end;
   fun e => match e with EMachineSet machines => Some [Strings "machines" machines] | _ => None end;
   fun e => match e with EHostArch arch => Some [Str "arch" arch] | _ => None end;
   fun e => match e with EFeature feature => Some [Str "feature" feature] | _ => None end;
   fun e => match e with ESettingsNotFound path => Some [Str "path" path] | _ => None end;
   fun e => match e with
            | EParse file line _ _ =>
                Some ((if String.eqb file "" then [] else [Str "file" file]) ++ (if line =? 0 then [] else [Int "line" line]))
            | _ => None
            end;
   fun e => match e with EMachine machine _ _ => Some [Str "machine" machine] | _ => None end;
   fun e => match e with ELink link _ _ => Some [Str "link" link] | _ => None end;
   fun e => match e with EImage image _ => Some [Str "image" image] | _ => None end;
   fun e => match e with EPath path _ => Some [Str "path" path] | _ => None end].

Fixpoint first_fields (ps : list (goerror → option (list (jobj → jobj)))) (e : goerror) : list (jobj → jobj) :=
  match ps with
  | [] => []
  | p :: ps => match as_fields p e with Some fields => fields | None => first_fields ps e end
  end.

Definition addErrorFields (e : goerror) : list (jobj → jobj) := first_fields error_fields e.

Definition encodeErrorObject (e : goerror) : string :=
  built ([Str "code" (Code (Some e)); Str "message" (Error e)] ++ addErrorFields e).

(** The label a type of error brings along, then the class of a Python error, then
    that of the code. *)
Definition HumanLabelOf (e : goerror) : string :=
  match find_error (fun e => match e with EPromptEOF => Some "EOFError" | _ => None end) e with
  | Some label => label
  | None =>
      match find_error (fun e => match e with EPyRuntime class _ => Some class | _ => None end) e with
      | Some class => if String.eqb class "" then HumanLabel (Code (Some e)) else class
      | None => HumanLabel (Code (Some e))
      end
  end.

Definition primaryOf (e : goerror) (batch : list goerror) : goerror := match batch with [] => e | first :: _ => first end.

(** The causes of an error, one below the other; [errors.Unwrap] stops at one that
    unwraps to several. *)
Fixpoint causes (fuel : nat) (e : goerror) (c : Console) : Console :=
  match fuel with
  | O => c
  | S fuel =>
      match Unwrap e with
      | UOne (Some cause) => causes fuel cause (Log LevelCritical ("  caused by: " +:+ Error cause) c)
      | _ => c
      end
  end.

Definition EmitError (e : option goerror) (c : Console) : Console * Z :=
  match e with
  | None => (c, 0)
  | Some e =>
      let batch := Joined (Some e) in
      let primary := primaryOf e batch in
      (match c.(cFormat) with
       | FormatJSON =>
           line_out (built (Raw "error" (encodeErrorObject primary)
             :: if 1 <? Z.of_nat (length batch) then [RawArray "errors" (encodeErrorObject <$> batch)] else [])) c
       | FormatJSONL => line_out (built [Str "type" "error"; Raw "error" (encodeErrorObject primary)]) c
       | FormatHuman =>
           let c := Log LevelCritical ("(" +:+ HumanLabelOf primary +:+ ") " +:+ Error primary) c in
           if c.(Traceback) then causes (depth primary) primary c else c
       end, 1)
  end.
End console.

(** * Questions and progress (internal/cliout/prompt.go, handlers.go)

    The confirmation prompt over a stream of lines, the tree of volumes, the
    progress bars, and the handlers that ask before an image is pulled or volumes
    are mounted. *)

Definition ErrPromptEOF : goerror := EPromptEOF.

(** [strings.TrimSpace] *)
Definition TrimSpace (s : string) : string := TrimFunc IsSpace s.

(** What is left to read: the lines with their terminators, the last of which may
    have none, and what ends the stream when it is not its end. *)
Record Input : Type := mkInput { inLines : list string; inError : option goerror }.

(** [HasSuffix(line, "\n")] *)
Definition terminated (line : string) : bool := bool_decide (last (string_bytes line) = Some (az 10)).

Definition printPromptSuffix (prompt : string) : Console → Console := human (out (prompt +:+ " [y/n]: ")).

(** The rounds of [Confirm], one a line; what is left of the stream comes back. *)
Fixpoint confirm_loop (prompt : string) (lines : list string) (ending : option goerror) (c : Console)
  : list string * Console * result goerror bool :=
  let c := printPromptSuffix prompt c in
  match lines with
  | [] => ([], c, Prelude.Err (default ErrPromptEOF ending))
  | line :: lines =>
      let answer := ToLower (TrimSpace line) in
      if String.eqb answer "y" then (lines, c, Ok true)
      else if String.eqb answer "n" then (lines, c, Ok false)
      else
        let c := Print "Please enter Y or N" c in
        if terminated line then confirm_loop prompt lines ending c else (lines, c, Prelude.Err ErrPromptEOF)
  end.

(** [Confirm]; without an input every question ends it. *)
Definition Confirm (input : option Input) (prompt : string) (c : Console) : option Input * Console * result goerror bool :=
  match input with
  | None => (None, printPromptSuffix prompt c, Prelude.Err ErrPromptEOF)
  | Some i =>
      let '(lines, c, r) := confirm_loop prompt i.(inLines) i.(inError) c in
      (Some (mkInput lines i.(inError)), c, r)
  end.

(** ** Trees *)

Inductive TreeNode : Type := mkTree (label : string) (children : list TreeNode).

(** The guides, drawn with the light box characters. *)
Definition guide_space : string := spaces 4.
Definition guide_continue : string := drawn 0x2502 +:+ spaces 3.
Definition guide_fork : string := drawn 0x251C +:+ drawn 0x2500 +:+ drawn 0x2500 +:+ " ".
Definition guide_end : string := drawn 0x2514 +:+ drawn 0x2500 +:+ drawn 0x2500 +:+ " ".

Section prompt.
Context `{CellTables}.

Definition renderTreeLabel (label prefix cont : string) (width : Z) : list string :=
  let avail := Z.max (width - CellLen prefix) 1 in
  imap (fun i line => TrimRightBlanks ((if (i =? 0)%nat then prefix else cont) +:+ line)) (CliTable.Wrap label avail JustifyDefault).

Definition Tree (node : TreeNode) (width : Z) : list string :=
  let width := width_or_default width in
  let '(mkTree label children) := node in
  renderTreeLabel label "" "" width
  ++ concat (imap (fun i '(mkTree label _) =>
       if (i =? length children - 1)%nat then renderTreeLabel label guide_end guide_space width
       else renderTreeLabel label guide_fork guide_continue width) children).

(** ** The progress bar *)

Definition barGlyph : string := drawn 0x2501.
Definition spinnerFrames : list Z := [0x280B; 0x2819; 0x2839; 0x2838; 0x283C; 0x2834; 0x2826; 0x2827; 0x2807; 0x280F].

Record ProgressBar : Type := mkBar {
  bMessage : string; bActive : bool; bTotal : Z; bDone : Z; bFrame : Z; bPainted : bool
}.

Definition NewProgressBar (message : string) : ProgressBar := mkBar message false 0 0 0 false.

(** The line of a bar on a console of that width. *)
Definition bar_line (b : ProgressBar) (width : Z) : string :=
  let desc := "[" +:+ b.(bMessage) +:+ "]" in
  let counts := Itoa b.(bDone) +:+ "/" +:+ Itoa b.(bTotal) in
  let spinner := if b.(bTotal) <=? b.(bDone) then " "
                 else drawn (default 0 (spinnerFrames !! Z.to_nat (b.(bFrame) mod 10))) in
  let barWidth := Z.max (width - CellLen desc - CellLen counts - 4) 1 in
  let filled := if (0 <? b.(bTotal)) && (b.(bDone) <? b.(bTotal)) then Z.quot (b.(bDone) * barWidth) b.(bTotal) else barWidth in
  let filled := Z.min (Z.max filled 1) barWidth in
  desc +:+ " " +:+ spinner +:+ " " +:+ (repeat_str barGlyph filled +:+ spaces (barWidth - filled)) +:+ " " +:+ counts.

Definition set_painted (b : ProgressBar) : ProgressBar :=
  mkBar b.(bMessage) b.(bActive) b.(bTotal) b.(bDone) b.(bFrame) true.

Definition bar_paint (final : bool) (b : ProgressBar) (c : Console) : ProgressBar * Console :=
  if negb c.(TTY) && negb final then (b, c)
  else
    let line := bar_line b c.(Width) in
    if c.(TTY) then (set_painted b, (if final then out nl else id) (out (str1 (az 13) +:+ line) c))
    else (set_painted b, out (line +:+ nl) c).

(** The methods do nothing in a machine format. *)
Definition unless_machine {A} (c : Console) (a : A) (f : A * Console) : A * Console := if Format_Machine c.(cFormat) then (a, c) else f.

Definition bar_Init (total : Z) (b : ProgressBar) (c : Console) : ProgressBar * Console :=
  unless_machine c b (bar_paint false (mkBar b.(bMessage) true total 0 0 false) c).

Definition bar_Advance (b : ProgressBar) (c : Console) : ProgressBar * Console :=
  unless_machine c b
    (if negb b.(bActive) then (b, c)
     else bar_paint false (mkBar b.(bMessage) true b.(bTotal) (b.(bDone) + 1) (b.(bFrame) + 1) b.(bPainted)) c).

Definition bar_Finish (b : ProgressBar) (c : Console) : ProgressBar * Console :=
  unless_machine c b
    (if negb b.(bActive) then (b, c)
     else let '(b, c) := bar_paint true b c in (mkBar b.(bMessage) false b.(bTotal) b.(bDone) b.(bFrame) b.(bPainted), c)).

(** ** The bar of an image pull *)

Record pullLayer : Type := mkLayer { lyComplete : bool; lyCurrent : Z; lyTotal : Z; lyHasTotal : bool }.
Record ImagePullBar : Type := mkPull { pActive : bool; pOrder : list string; pLayers : gmap string pullLayer }.

(** One line of the stream: its status, its layer and what it says of the layer. *)
Record PullProgress : Type := mkProgress {
  ppStatus : option string; ppID : option string; ppDetail : option (option Z * option Z)
}.

Definition NewImagePullBar : ImagePullBar := mkPull false [] ∅.

Definition pull_Init (b : ImagePullBar) (c : Console) : ImagePullBar := if Format_Machine c.(cFormat) then b else mkPull true [] ∅.

(** [%3d%%] of a percentage, the product at the width of an int64. *)
Definition percent (l : pullLayer) : string :=
  let digits := Itoa (Z.quot (wrap64 (l.(lyCurrent) * 100)) l.(lyTotal)) in
  spaces (3 - Z.of_nat (String.length digits)) +:+ digits +:+ "%".

Definition layer_line (id : string) (l : pullLayer) : string :=
  let '(label, pct) :=
    if l.(lyComplete) then ("[Download Complete " +:+ id +:+ "]", "100%")
    else ("[Downloading " +:+ id +:+ "]", if l.(lyHasTotal) && (0 <? l.(lyTotal)) then percent l else "  ?%") in
  str1 (az 13) +:+ label +:+ " " +:+ barGlyph +:+ " " +:+ pct +:+ nl.

Definition no_layer : pullLayer := mkLayer false 0 0 false.

Definition pull_paint (b : ImagePullBar) (c : Console) : Console :=
  if negb c.(TTY) then c
  else foldl (fun c id => out (layer_line id (default no_layer (b.(pLayers) !! id))) c) c b.(pOrder).

Definition newKeyError (key : string) : goerror := EPyRuntime "KeyError" ("'" +:+ key +:+ "'").

Definition pull_Update (p : PullProgress) (b : ImagePullBar) (c : Console) : ImagePullBar * Console * result goerror unit :=
  if Format_Machine c.(cFormat) then (b, c, Ok tt)
  else
    match p.(ppStatus) with
    | None => (b, c, Prelude.Err (newKeyError "status"))
    | Some status =>
        if negb b.(pActive) then (b, c, Ok tt)
        else if negb (String.eqb status "Download complete") && negb (String.eqb status "Downloading") then (b, c, Ok tt)
        else
          let complete := String.eqb status "Download complete" in
          match p.(ppID) with
          | None => (b, c, Prelude.Err (newKeyError "id"))
          | Some id =>
              let seen := b.(pLayers) !! id in
              let layer := default no_layer seen in
              let order := match seen with Some _ => b.(pOrder) | None => b.(pOrder) ++ [id] end in
              let stored layer := let b := mkPull true order (<[id := layer]> b.(pLayers)) in (b, pull_paint b c, Ok tt) in
              if complete then stored (mkLayer true 100 100 true)
              else
                match p.(ppDetail) with
                | None => (mkPull true order b.(pLayers), c, Prelude.Err (newKeyError "progressDetail"))
                | Some (current, total) =>
                    let '(t, has) := match seen, total with
                                     | None, Some t => (t, true)
                                     | _, _ => (layer.(lyTotal), layer.(lyHasTotal))
                                     end in
                    stored (mkLayer false (default layer.(lyCurrent) current) t has)
                end
          end
    end.

Definition pull_Finish (b : ImagePullBar) (c : Console) : ImagePullBar * Console :=
  unless_machine c b
    (if negb b.(pActive) then (b, c)
     else
       let b := mkPull true b.(pOrder) ((fun l => mkLayer true l.(lyTotal) l.(lyTotal) l.(lyHasTotal)) <$> b.(pLayers)) in
       (mkPull false [] ∅, pull_paint b c)).

(** ** The two policies *)

Definition PolicyPrompt : string := "Prompt".
Definition PolicyAlways : string := "Always".

(** Whether the image is pulled, or what the handler answers. *)
Definition ImageUpdatePolicy_Run (policy imageName : string) (input : option Input) (c : Console)
  : option Input * Console * result goerror bool :=
  if String.eqb policy PolicyAlways then (input, c, Ok true)
  else if String.eqb policy PolicyPrompt then
    if Format_Machine c.(cFormat) then
      (input, Log LevelInfo ("a new version of image `" +:+ imageName +:+ "` is available; not pulling it (--format "
                             +:+ Format_text c.(cFormat) +:+ " never prompts)") c, Ok false)
    else Confirm input ("A new version of image `" +:+ imageName +:+ "` has been found on Docker Hub. Do you want to pull it?") c
  else (input, c, Ok false).

Definition volume_node (name : string) (volumes : OrderedMap string Volume) : TreeNode :=
  mkTree ("* Device `" +:+ name +:+ "`")
    ((fun e : string * Volume =>
       let guest := if String.eqb e.2.(GuestPath) "" then "<missing guest_path>" else e.2.(GuestPath) in
       mkTree ("Host Path: " +:+ e.1 +:+ " -> Device Path: " +:+ guest) []) <$> Entries volumes).

(** The tree of the volumes of every device; the first that may not mount ends it. *)
Fixpoint print_volumes (machines : list (string * result goerror (OrderedMap string Volume))) (c : Console)
  : Console * result goerror unit :=
  match machines with
  | [] => (c, Ok tt)
  | (name, Prelude.Err e) :: _ => (c, Prelude.Err e)
  | (name, Ok volumes) :: machines => print_volumes machines (PrintLines (Tree (volume_node name volumes) c.(Width)) c)
  end.

(** Whether the scenario loses its mounts: [Ok true] is [AddOption("_mount_volumes",
    false)]. *)
Definition VolumeMountPolicy_Run (policy : string) (machines : list (string * result goerror (OrderedMap string Volume)))
  (input : option Input) (c : Console) : option Input * Console * result goerror bool :=
  let '(c, r) :=
    if Format_Machine c.(cFormat) then (c, Ok tt)
    else print_volumes machines (Print "The following devices have volumes configured:" c) in
  match r with
  | Prelude.Err e => (input, c, Prelude.Err e)
  | Ok _ =>
      if negb (String.eqb policy PolicyPrompt) then (input, c, Ok false)
      else if Format_Machine c.(cFormat) then
        (input, Log LevelInfo ("mounting the declared volumes (--format " +:+ Format_text c.(cFormat) +:+ " never prompts)") c, Ok false)
      else
        let '(input, c, r) := Confirm input "Continue with volume mounting?" c in
        (input, c, match r with Ok yes => Ok (negb yes) | Prelude.Err e => Prelude.Err e end)
  end.

Definition PrintWaitMessage : Console → Console := human (out "Waiting startup commands execution. Press [ENTER] to override...").

Definition ClearScreen (c : Console) : Console :=
  if Format_Machine c.(cFormat) || negb c.(TTY) then c
  else out (str1 (az 27) +:+ "[2J" +:+ str1 (az 27) +:+ "[0;0H") c.
End prompt.
