(* ===== verification/CliLines.v ===== *)
(** * The output of a command in a machine format

    The document of every envelope is read back as what the envelope holds, the
    object of an error carries its code and its message, and whatever a command
    does, in a machine format standard output is JSON documents on lines of their
    own. *)

From S2P Require Export JsonInv CliJson.
From S2P Require SettingsInv.
From S2P Require Import Shlex.
From S2P Require Export CliConsole.
Local Open Scope string_scope.
Local Open Scope list_scope.
Local Open Scope Z_scope.
Local Open Scope kat_scope.

(** * The envelopes are read back

    What the builder of jsonwriter.go writes is one line of JSON, and the document
    of every envelope decodes to what the envelope holds, text that is not Unicode
    being replaced as the decoder replaces it. *)

(** A text of one line that the decoder takes for a value with [k] levels of nesting. *)
Record printed (k : Z) (t : string) (v : json) : Prop := {
  pr_reads d : d + k <= maxNestingDepth → reads (String.length t) d t v;
  pr_line : contains_byte (az 10) t = false;
  pr_head : ∃ b r, t = String b r ∧ json_space b = false ∧ Ascii.eqb b "]" = false
}.

Lemma printed_more k k' t v : printed k t v → k <= k' → printed k' t v.
Proof. intros [Hr Hl Hh] Hk. split; [|done|done]. intros d Hd. apply Hr. lia. Qed.

Lemma printed_parse k t v : printed k t v → k <= maxNestingDepth → parse t = Some v.
Proof. intros [Hr _ _] Hk. eapply (reads_parse _ 0); [apply Hr; lia|lia|done]. Qed.

(** ** Strings *)

(** What is left of a text that may not be Unicode. *)
Definition unicode (s : string) : string := string_of_runes (runes s).

(** The runes that are escaped. *)
Definition escaped_runes : list Z := (Z.of_nat <$> seq 0 32) ++ [34; 92; 60; 62; 38].

Lemma escape_reads r fuel t : r ∈ escaped_runes →
  str_body (S fuel) (escape_ascii r +:+ t) = prepend (encode_rune r) (str_body fuel t).
Proof.
  intros Hr. unfold escaped_runes in Hr. cbn in Hr.
  repeat (apply elem_of_cons in Hr as [-> |Hr]; [reflexivity|]). by apply not_elem_of_nil in Hr.
Qed.

Lemma escape_line r : r ∈ escaped_runes → contains_byte (az 10) (escape_ascii r) = false ∧ (1 <= String.length (escape_ascii r))%nat.
Proof.
  intros Hr. unfold escaped_runes in Hr. cbn in Hr.
  repeat (apply elem_of_cons in Hr as [-> |Hr]; [split; [reflexivity|cbn; lia]|]). by apply not_elem_of_nil in Hr.
Qed.

Lemma escaped_spec html r :
  0 <= r → (r <? 0x20) || (r =? 34) || (r =? 92) || html && ((r =? 60) || (r =? 62) || (r =? 38)) = true → r ∈ escaped_runes.
Proof.
  intros Hr Hb. unfold escaped_runes. apply elem_of_app.
  destruct (Z.ltb_spec r 0x20) as [Hlt|Hge]; [left|right].
  - apply list_elem_of_fmap. exists (Z.to_nat r). rewrite elem_of_seq. lia.
  - rewrite !elem_of_cons. cbn [orb] in Hb. rewrite !orb_true_iff, !andb_true_iff, !orb_true_iff, !Z.eqb_eq in Hb. tauto.
Qed.

(** One rune, whatever it was decoded from, is one round of the decoder. *)
Definition one_round (r : Z) (piece : string) : Prop :=
  (∀ fuel t, str_body (S fuel) (piece +:+ t) = prepend (encode_rune r) (str_body fuel t)) ∧
  contains_byte (az 10) piece = false ∧ (1 <= String.length piece)%nat.

Lemma round_escaped r : r ∈ escaped_runes → one_round r (escape_ascii r).
Proof. intros Hr. split; [intros; by apply escape_reads|by apply escape_line]. Qed.

Lemma round_plain r : valid_rune r = true → plain_rune r = true → one_round r (encode_rune r).
Proof.
  intros Hv Hp. split; [intros; by apply str_body_plain|]. split.
  - apply not_true_is_false. intros Hc. apply encode_rune_byte in Hc; [|done|by vm_compute]. subst r. done.
  - pose proof (encode_rune_nonempty r). destruct (encode_rune r); [done|cbn; lia].
Qed.

Lemma json_rune_round html s c : c ∈ GoString.decode s → one_round c.1 (json_rune html c).
Proof.
  intros Hc. pose proof (decode_valid _ _ Hc) as Hv. destruct c as [r bytes]. cbn [fst] in *.
  pose proof (proj1 (valid_rune_spec r) Hv) as Hr.
  unfold json_rune. destruct (bad_chunk (r, bytes)) eqn:Eb.
  - unfold bad_chunk in Eb. cbn in Eb. apply andb_prop in Eb as [->%Z.eqb_eq Eb].
    change (RuneError <? 0x80) with false. cbv iota. rewrite Eb. cbn [andb Z.eqb]. 
    change (RuneError =? RuneError) with true. cbn [andb]. split; [reflexivity|]. split; [reflexivity|cbn; lia].
  - destruct (decode_good _ _ Hc Eb) as [_ Eg]. cbn [fst snd] in Eg. subst bytes.
    destruct (Z.ltb_spec r 0x80) as [Ha|Ha].
    + destruct (_ || _) eqn:Ee; [apply round_escaped; eapply escaped_spec; [lia|exact Ee]|].
      apply round_plain; [done|]. rewrite !orb_false_iff in Ee. destruct Ee as [[[H1 H2] H3] _].
      unfold plain_rune. rewrite H2, H3. cbn. rewrite !andb_true_r. apply Z.ltb_ge in H1. by apply Z.leb_le.
    + unfold bad_chunk in Eb. cbn [fst snd] in Eb. rewrite Eb.
      destruct ((r =? 0x2028) || (r =? 0x2029)) eqn:E2.
      * apply orb_prop in E2 as [->%Z.eqb_eq | ->%Z.eqb_eq];
          (split; [reflexivity|split; [reflexivity|cbn; lia]]).
      * apply round_plain; [done|]. unfold plain_rune. rewrite !andb_true_iff, !negb_true_iff, Z.leb_le, !Z.eqb_neq. lia.
Qed.

Lemma rounds_read cs pieces rest fuel :
  Forall2 (fun c p => one_round c.1 p) cs pieces → (length cs < fuel)%nat →
  str_body fuel (string_concat pieces +:+ String quote_char rest) = Some (string_of_runes (cs : list (Z * string)).*1, rest).
Proof.
  intros Hall. revert fuel. induction Hall as [|c p cs pieces [Hp _] _ IH]; intros fuel Hf; (destruct fuel; [lia|]); [done|].
  cbn [string_concat]. rewrite string_app_assoc, Hp, IH by (cbn in Hf; lia). done.
Qed.

Lemma rounds_length cs pieces : Forall2 (fun c p => one_round c.1 p) cs pieces →
  (length (cs : list (Z * string)) <= String.length (string_concat pieces))%nat.
Proof.
  induction 1 as [|c p cs pieces (_ & _ & Hp) _ IH]; cbn; [lia|]. rewrite string_length_app. lia.
Qed.

Lemma rounds_line cs pieces : Forall2 (fun c p => one_round c.1 p) (cs : list (Z * string)) pieces →
  contains_byte (az 10) (string_concat pieces) = false.
Proof. induction 1 as [|c p cs pieces (_ & Hp & _) _ IH]; [done|]. cbn [string_concat]. by rewrite contains_byte_app, Hp, IH. Qed.

Lemma json_text_rounds html s : Forall2 (fun c p => one_round c.1 p) (GoString.decode s) (json_rune html <$> GoString.decode s).
Proof.
  apply Forall2_fmap_r. apply Forall_Forall2_diag. apply Forall_forall. intros c Hc. by eapply json_rune_round.
Qed.

Lemma json_text_reads html s : reads_str (json_text html s) (unicode s).
Proof.
  pose proof (json_text_rounds html s) as Hr. eexists. split; [reflexivity|]. intros rest.
  unfold read_string. rewrite string_app_assoc. cbn [str1 String.append].
  rewrite (rounds_read _ _ _ _ Hr); [done|]. rewrite string_length_app. pose proof (rounds_length _ _ Hr). cbn. lia.
Qed.

Lemma json_text_line html s : contains_byte (az 10) (json_text html s) = false.
Proof. unfold json_text, quoted. rewrite !contains_byte_app, (rounds_line _ _ (json_text_rounds html s)). done. Qed.

Lemma quoted_length s : String.length (quoted s) = S (S (String.length s)).
Proof. unfold quoted. rewrite !string_length_app. cbn. lia. Qed.

Lemma json_text_printed html s : printed 0 (json_text html s) (JStr (unicode s)).
Proof.
  split; [|apply json_text_line|by eexists _, _].
  intros d _. eapply reads_more; [apply (reads_quoted 0), json_text_reads|]. unfold json_text. rewrite quoted_length. lia.
Qed.

(** ** Other values *)

Lemma printed_word (t : string) (v : json) :
  (t = "true" ∧ v = JBool true) ∨ (t = "false" ∧ v = JBool false) ∨ (t = "null" ∧ v = JNull) → printed 0 t v.
Proof.
  intros [[-> ->]|[[-> ->]|[-> ->]]]; (split; [|reflexivity|by eexists _, _]);
    intros d _ fuel depth rest Hf _ _; (destruct fuel as [|fuel]; [cbn in Hf; lia|]); destruct rest; reflexivity.
Qed.

Lemma printed_bool b : printed 0 (json_bool b) (JBool b).
Proof. apply printed_word. destruct b; cbn; tauto. Qed.
Lemma printed_null : printed 0 "null" JNull.
Proof. apply printed_word. tauto. Qed.

Lemma Itoa_head m : 0 <= m → ∃ k t, Itoa m = String (az (48 + k)) t ∧ 0 <= k <= 9.
Proof.
  intros Hm. destruct (decide (m = 0)) as [->|Hne]; [by exists 0, ""|]. destruct (Itoa_lead m ltac:(lia)) as (d' & t & E & Hd).
  exists d', t. split; [done|lia].
Qed.

Lemma digit_head k : 0 <= k <= 9 → json_space (az (48 + k)) = false ∧ Ascii.eqb (az (48 + k)) "]" = false.
Proof.
  intros Hk. assert (Hz : zb (az (48 + k)) = 48 + k) by (apply zb_az; lia). split.
  - unfold json_space. rewrite Hz. by rewrite !(proj2 (Z.eqb_neq _ _)) by lia.
  - apply Ascii.eqb_neq. intros E. apply (f_equal zb) in E. rewrite Hz in E. change (zb "]") with 93 in E. lia.
Qed.

Lemma Itoa_line z : contains_byte (az 10) (Itoa z) = false.
Proof. by apply Itoa_free. Qed.

Lemma Itoa_neg z : z < 0 → Itoa z = "-" +:+ Itoa (- z).
Proof.
  intros Hz. destruct (Itoa_digits z) as (ds & E & _). destruct (Itoa_digits (- z)) as (ds' & E' & _).
  destruct z as [|p|p]; try lia. reflexivity.
Qed.

Lemma read_number_minus a t n rest :
  Ascii.eqb a "-" = false → read_number (String a t) = Some (n, rest) → read_number ("-" +:+ String a t) = Some ("-" +:+ n, rest).
Proof.
  intros Ha. unfold read_number. cbn [String.append]. rewrite Ha. change (Ascii.eqb "-" "-") with true. cbv iota.
  destruct (read_int _) as [[i r]|]; [|done]. destruct (read_frac r) as [[f r']|]; [|done].
  destruct (read_exp r') as [[e r'']|]; [|done]. intros [= <- <-]. done.
Qed.

Lemma printed_int z : printed 0 (Itoa z) (JNum (Itoa z)).
Proof.
  destruct (Z.le_gt_cases 0 z) as [Hz|Hz].
  - destruct (Itoa_head z Hz) as (k & t & E & Hk). split; [|apply Itoa_line|].
    + intros d _. eapply reads_more; [by apply (reads_number 0)|]. rewrite E. cbn. lia.
    + destruct (digit_head k Hk). rewrite E. by eexists _, _.
  - split; [|apply Itoa_line|].
    + intros d _ fuel depth rest Hf _ Hr. rewrite Itoa_neg in * by lia. destruct fuel as [|fuel]; [cbn in Hf; lia|].
      pose proof (read_number_Itoa (- z) rest ltac:(lia) Hr) as Hn.
      destruct (Itoa_head (- z) ltac:(lia)) as (k & t & E & Hk). rewrite E in *.
      assert (Hm : Ascii.eqb (az (48 + k)) "-" = false).
      { apply Ascii.eqb_neq. intros Hc. apply (f_equal zb) in Hc. rewrite zb_az in Hc by lia. change (zb "-") with 45 in Hc. lia. }
      pose proof (read_number_minus (az (48 + k)) (t +:+ rest) _ _ Hm Hn) as Hneg. change ("-" +:+ ?x) with (String "-" x) in Hneg.
      cbn [String.append value skip_ws]. change (json_space "-") with false. cbv iota.
      change (Ascii.eqb "-" "{") with false. change (Ascii.eqb "-" "[") with false. change (Ascii.eqb "-" quote_char) with false.
      change (Ascii.eqb "-" "t") with false. change (Ascii.eqb "-" "f") with false. change (Ascii.eqb "-" "n") with false.
      cbv iota. by rewrite Hneg.
    + rewrite Itoa_neg by lia. by eexists _, _.
Qed.

(** ** Lists and objects *)

Lemma join_line sep l : contains_byte (az 10) sep = false → Forall (fun s => contains_byte (az 10) s = false) l →
  contains_byte (az 10) (str_join sep l) = false.
Proof.
  intros Hs. induction 1 as [|s l Hl Hall IH]; [done|]. destruct l as [|s2 l]; [done|].
  change (str_join sep (s :: s2 :: l)) with (s +:+ sep +:+ str_join sep (s2 :: l)). by rewrite !contains_byte_app, Hl, Hs, IH.
Qed.

Lemma elements_read d ts vs : ts ≠ [] → Forall2 (fun t v => reads (String.length t) d t v) ts vs →
  reads_elements (S (String.length (str_join "," ts))) d (str_join "," ts +:+ "]") vs.
Proof.
  intros Hne Hall. revert Hne. induction Hall as [|t v ts vs Ht Hall IH]; intros Hne; [by destruct Hne|]. destruct ts as [|t2 ts].
  - inversion Hall; subst. by apply elements_last.
  - specialize (IH ltac:(done)). change (str_join "," (t :: t2 :: ts)) with (t +:+ "," +:+ str_join "," (t2 :: ts)).
    rewrite !string_app_assoc. change ("," +:+ str_join "," (t2 :: ts)) with (String "," (str_join "," (t2 :: ts))).
    pose proof (elements_cons _ _ _ _ _ _ _ Ht IH) as Hc. intros fuel depth acc rest Hf. apply Hc.
    rewrite !string_length_app in Hf. cbn [String.length] in Hf. lia.
Qed.

Lemma printed_array k ts vs : 0 <= k → Forall2 (printed k) ts vs → printed (k + 1) (json_array ts) (JArr vs).
Proof.
  intros Hk Hall. split; [|unfold json_array; rewrite !contains_byte_app|by eexists _, _].
  - intros d Hd. unfold json_array. destruct ts as [|t ts].
    { inversion Hall; subst. intros fuel depth rest Hf Hdep _. destruct fuel as [|fuel]; [cbn in Hf; lia|]. cbn.
      by rewrite (proj2 (Z.ltb_ge _ _)) by (unfold maxNestingDepth in *; lia). }
    assert (Hr : Forall2 (fun t v => reads (String.length t) (d + 1) t v) (t :: ts) vs)
      by (eapply Forall2_impl; [exact Hall|]; intros ? ? [Hp _ _]; apply Hp; lia).
    assert (He : reads_elements (S (String.length (str_join "," (t :: ts)))) (d + 1) (str_join "," (t :: ts) +:+ "]") vs)
      by (by apply elements_read).
    apply Forall2_cons_inv_l in Hall as (v & vs' & [_ _ (b & r & -> & Hb & Hne)] & _ & ->).
    assert (∃ r', str_join "," (String b r :: ts) +:+ "]" = String b r') as [r' Er'] by (destruct ts; by eexists).
    eapply reads_more; [by eapply reads_array; [exact He|exact Er'|..]; try done; lia|]. cbn [String.append String.length].
    rewrite string_length_app. cbn. lia.
  - rewrite join_line; [done|done|]. apply Forall_forall. intros t Ht. apply list_elem_of_lookup in Ht as [i Hi].
    eapply Forall2_lookup_l in Hall as (v & _ & Hp); [|exact Hi]. apply Hp.
Qed.

(** A member: its name is read back as it is. *)
Record member_printed (k : Z) (t : string) (m : string * json) : Prop := mkMember {
  mp_name : string;
  mp_value : string;
  mp_text : t = mp_name +:+ ":" +:+ mp_value;
  mp_reads : reads_str mp_name m.1;
  mp_line : contains_byte (az 10) mp_name = false;
  mp_printed : printed k mp_value m.2
}.

Lemma printed_member k name value v : unicode name = name → printed k value v → member_printed k (json_member name value) (name, v).
Proof.
  intros Hn Hv. refine (mkMember k _ (name, v) (json_string name) value eq_refl _ _ Hv); [|apply json_text_line].
  cbn [fst]. rewrite <- Hn at 2. apply json_text_reads.
Qed.

Lemma members_read d k ms l : ms ≠ [] → Forall2 (member_printed k) ms l → d + k <= maxNestingDepth →
  reads_members (S (String.length (str_join "," ms))) d (str_join "," ms +:+ "}") l.
Proof.
  intros Hne Hall Hd. revert Hne.
  induction Hall as [|m [name v] ms l [key value Em Hk _ [Hr _ _]] Hall IH]; intros Hne; [done|]. cbn [fst snd] in *.
  specialize (Hr d Hd). subst m. destruct ms as [|m2 ms].
  - inversion Hall; subst. cbn [str_join].
    pose proof (members_last _ _ _ _ "" _ _ Hk Hr ltac:(intros s; done)) as Hm.
    assert (E : (key +:+ ":" +:+ value) +:+ "}" = key +:+ ":" +:+ value +:+ "" +:+ "}")
      by (rewrite !string_app_assoc; done).
    rewrite E. eapply members_more; [exact Hm|]. rewrite !string_length_app. cbn. lia.
  - specialize (IH ltac:(done)). change (str_join "," (?x :: m2 :: ms)) with (x +:+ "," +:+ str_join "," (m2 :: ms)).
    pose proof (members_cons _ _ _ _ "" _ _ Hk Hr ltac:(intros s; done) _ "" _ _ IH ltac:(intros s; done)) as Hm.
    assert (E : ((key +:+ ":" +:+ value) +:+ "," +:+ str_join "," (m2 :: ms)) +:+ "}" =
                key +:+ ":" +:+ value +:+ "" +:+ "," +:+ "" +:+ str_join "," (m2 :: ms) +:+ "}")
      by (rewrite !string_app_assoc; done).
    rewrite E. eapply members_more; [exact Hm|]. rewrite !string_length_app. cbn. lia.
Qed.

Lemma member_line k t m : member_printed k t m → contains_byte (az 10) t = false.
Proof.
  intros [key value -> _ Hk [_ Hl _]]. by rewrite !contains_byte_app, Hl, Hk.
Qed.

Lemma printed_object k ms l : 0 <= k → Forall2 (member_printed k) ms l → printed (k + 1) (json_object ms) (JObj l).
Proof.
  intros Hk Hall. split; [|unfold json_object; rewrite !contains_byte_app|by eexists _, _].
  - intros d Hd. unfold json_object. destruct ms as [|m ms].
    { inversion Hall; subst. intros fuel depth rest Hf Hdep _. destruct fuel as [|fuel]; [cbn in Hf; lia|]. cbn.
      by rewrite (proj2 (Z.ltb_ge _ _)) by (unfold maxNestingDepth in *; lia). }
    assert (Hm : reads_members (S (String.length (str_join "," (m :: ms)))) (d + 1) (str_join "," (m :: ms) +:+ "}") l)
      by (eapply members_read; [done|exact Hall|lia]).
    eapply reads_more; [eapply (reads_object _ d "" _ _ Hm); [by intros s|lia]|]. rewrite !string_length_app. cbn [String.length]. lia.
  - rewrite join_line; [done|done|]. apply Forall_forall. intros t Ht. apply list_elem_of_lookup in Ht as [i Hi].
    eapply Forall2_lookup_l in Hall as (v & _ & Hp); [|exact Hi]. by eapply member_line.
Qed.

(** ** The builder *)

(** The members a builder has so far. *)
Definition so_far (o : jobj) (ms : list string) : Prop :=
  o.(buf) = "{" +:+ str_join "," ms ∧ o.(count) = Z.of_nat (length ms).

Definition adds (call : jobj → jobj) (m : string) : Prop := ∀ o ms, so_far o ms → so_far (call o) (ms ++ [m]).

Lemma join_snoc sep l x : l ≠ [] → str_join sep (l ++ [x]) = str_join sep l +:+ sep +:+ x.
Proof.
  induction l as [|a l IH]; [done|]. intros _. destruct l as [|b l]; [done|].
  change ((a :: b :: l) ++ [x]) with (a :: (b :: l) ++ [x]).
  change (str_join sep (a :: b :: l)) with (a +:+ sep +:+ str_join sep (b :: l)).
  rewrite <- (app_comm_cons l [x] b) in *. change (str_join sep (a :: b :: l ++ [x])) with (a +:+ sep +:+ str_join sep (b :: l ++ [x])).
  rewrite IH by done. by rewrite !string_app_assoc.
Qed.

Lemma built_object calls ms : Forall2 adds calls ms → built calls = json_object ms.
Proof.
  intros Hall. unfold built, Bytes, json_object.
  assert (H : ∀ o done, so_far o done → so_far (foldl (fun o call => call o) o calls) (done ++ ms)).
  { induction Hall as [|call m calls ms Hc _ IH]; intros o done Ho; [by rewrite app_nil_r|]. cbn [foldl].
    replace (done ++ m :: ms) with ((done ++ [m]) ++ ms) by (by rewrite <- app_assoc). by apply IH, Hc. }
  destruct (H newObj [] ltac:(by split)) as [E _]. rewrite E. cbn [app]. by rewrite string_app_assoc.
Qed.

(** ** What a settings record marshals to *)

Lemma hexdigit_line n : 0 <= n < 16 → contains_byte (az 10) (hexdigit n) = false.
Proof.
  intros Hn. destruct (SettingsInv.hexdigit_value n Hn) as (a & -> & Ha). cbn [str1 contains_byte]. rewrite orb_false_r.
  destruct (Ascii.eqb_spec a (az 10)) as [-> |]; [done|done].
Qed.

Lemma nibble_range r k : 0 <= k → 0 <= Z.land (Z.shiftr r k) 15 < 16.
Proof. intros Hk. rewrite SettingsInv.nibble by done. by apply Z.mod_pos_bound. Qed.

Lemma unicodeEscape_line r : contains_byte (az 10) (unicodeEscape r) = false.
Proof.
  unfold unicodeEscape. rewrite !contains_byte_app.
  change (Z.land r 15) with (Z.land (Z.shiftr r 0) 15).
  by rewrite !hexdigit_line by (apply nibble_range; lia).
Qed.

Lemma pyEscapeRune_line r : contains_byte (az 10) (pyEscapeRune r) = false.
Proof.
  unfold pyEscapeRune. destruct (pyEscapeDict r) as [e|] eqn:E.
  - unfold pyEscapeDict in E. repeat (case_match; [injection E as <-; reflexivity|]). done.
  - destruct ((0x20 <=? r) && (r <=? 0x7e)) eqn:Ea.
    + apply andb_prop in Ea as [Ha%Z.leb_le Hb%Z.leb_le]. cbn [str1 contains_byte]. rewrite orb_false_r.
      apply Ascii.eqb_neq. intros Hc. apply (f_equal zb) in Hc. rewrite !zb_az in Hc by lia. lia.
    + destruct (0xffff <? r); rewrite ?contains_byte_app, !unicodeEscape_line; done.
Qed.

Lemma pyJSONString_line s : contains_byte (az 10) (pyJSONString s) = false.
Proof.
  unfold pyJSONString. rewrite !contains_byte_app.
  assert (H : contains_byte (az 10) (string_concat (pyEscapeRune <$> runes s)) = false); [|by rewrite H].
  induction (runes s) as [|r rs IH]; [done|]. cbn [fmap list_fmap string_concat]. by rewrite contains_byte_app, pyEscapeRune_line.
Qed.

Lemma pyJSONString_reads s : reads_str (pyJSONString s) (unicode s).
Proof.
  eexists. split; [reflexivity|]. intros rest. unfold read_string. rewrite string_app_assoc. cbn [str1 String.append].
  apply SettingsInv.str_body_runes; [apply runes_valid|].
  rewrite string_length_app. pose proof (SettingsInv.escaped_length (runes s)). cbn. lia.
Qed.

Lemma pyJSONString_printed s : printed 0 (pyJSONString s) (JStr (unicode s)).
Proof.
  split; [|apply pyJSONString_line|by eexists _, _].
  intros d _. eapply reads_more; [apply (reads_quoted 0), pyJSONString_reads|].
  unfold pyJSONString. rewrite !string_length_app. cbn. lia.
Qed.

(** ** The documents *)

Definition jstr (s : string) : json := JStr (unicode s).
Definition jopt (s : option string) : json := match s with Some s => jstr s | None => JNull end.
Definition jnum (z : Z) : json := JNum (Itoa z).
Definition jstrs (l : list string) : json := JArr (jstr <$> l).

Definition stats_tree (s : K8sRec.MachineStats) : json :=
  JObj ([("network_scenario_id", jstr s.(K8sRec.msNetworkScenarioID)); ("name", jstr s.(K8sRec.msName));
         ("container_name", jstr s.(K8sRec.msContainerName)); ("user", jopt s.(K8sRec.msUser));
         ("status", jopt s.(K8sRec.msStatus)); ("image", jstr s.(K8sRec.msImage))]
    ++ match s.(K8sRec.msAssignedNode) with
       | K8sRec.Unset => []
       | K8sRec.NullString => [("assigned_node", JNull)]
       | K8sRec.SomeString node => [("assigned_node", jstr node)]
       end).

Definition link_tree (l : LinfoLink) : json :=
  JObj [("name", jstr l.(llName)); ("machines", match l.(llMachines) with Some l => jstrs l | None => JNull end)].

Definition setting_tree (v : anyval) : json :=
  match v with
  | AString s => jstr s
  | ABool b => JBool b
  | AFloat f => match json_float f with Some t => JNum t | None => JNull end
  | ACds z | AInt z => jnum z
  | ANil | AOther => JNull
  | AStrPtr p => jopt p
  end.

(** A float whose text is a number: every one that [last_checked] has. *)
Definition setting_fits (v : anyval) : Prop :=
  match v with AFloat f => ∀ t, json_float f = Some t → printed 0 t (JNum t) | _ => True end.
Definition clock_fits (s : Settings) : Prop := printed 0 (pyFloatRepr s.(sLastChecked)) (JNum (pyFloatRepr s.(sLastChecked))).

Definition entry_tree (s : Settings) (d : keyDesc) : string * json :=
  (d.(kName),
   match d.(kPtr) with
   | PStr f => jstr (get_str f s)
   | PBool f => JBool (get_bool f s)
   | PFloat => JNum (pyFloatRepr s.(sLastChecked))
   | PCds => jnum s.(sSharedCds)
   | PNStr f => jopt (get_opt f s)
   end).

Lemma printed_jopt o : printed 0 (json_nullable o) (jopt o).
Proof. destruct o; [apply json_text_printed|apply printed_null]. Qed.

Lemma printed_strings l : printed 1 (json_array (json_string <$> l)) (jstrs l).
Proof.
  apply (printed_array 0); [done|]. apply Forall2_fmap_2. apply Forall_Forall2_diag, Forall_true. intros s. apply json_text_printed.
Qed.

Lemma entry_member s d : clock_fits s → utf8_valid d.(kName) = true →
  member_printed 0 (pyJSONString d.(kName) +:+ ":" +:+ encodeValue d s) (entry_tree s d).
Proof.
  intros Hc Hn. refine (mkMember 0 _ _ _ _ eq_refl _ (pyJSONString_line _) _); cbn [fst snd].
  - pose proof (pyJSONString_reads (kName d)) as Hr. unfold unicode in Hr. by rewrite valid_utf8_runes in Hr.
  - unfold encodeValue, entry_tree. destruct (kPtr d) as [f|f| | |f]; cbn [snd].
    + apply pyJSONString_printed.
    + destruct (get_bool f s); apply (printed_bool true) || apply (printed_bool false).
    + exact Hc.
    + apply printed_int.
    + destruct (get_opt f s); [apply pyJSONString_printed|apply printed_null].
Qed.

Section envelopes.
Context `{Terminals}.

Lemma key_so_far name o ms : so_far o ms →
  (key name o).(buf) = "{" +:+ (if bool_decide (ms = []) then "" else str_join "," ms +:+ ",") +:+ json_string name +:+ ":" ∧
  (key name o).(count) = Z.of_nat (length ms) + 1.
Proof.
  intros [Hb Hc]. unfold key, writeValue, write. cbn [encoded buf count]. rewrite Hc.
  destruct ms as [|m ms].
  - cbn [length] in *. rewrite bool_decide_true by done. change (0 <? Z.of_nat 0) with false. cbv iota. cbn [buf count jerr]. rewrite Hb, ?Hc. split; [|lia]. by rewrite !string_app_assoc.
  - rewrite bool_decide_false by done. rewrite (proj2 (Z.ltb_lt 0 _)) by (cbn [length]; lia). cbn [buf count jerr]. rewrite Hb, ?Hc.
    split; [|done]. by rewrite !string_app_assoc.
Qed.

(** A call that writes a key and then the text of a value adds that member. *)
Lemma adds_member name value call :
  (∀ o, (call o).(buf) = (key name o).(buf) +:+ value ∧ (call o).(count) = (key name o).(count)) →
  adds call (json_member name value).
Proof.
  intros Hcall o ms Ho. destruct (Hcall o) as [Hb Hc]. destruct (key_so_far name o ms Ho) as [Kb Kc]. split.
  - rewrite Hb, Kb. unfold json_member. case_bool_decide; [subst; cbn [app str_join]; by rewrite !string_app_assoc|].
    rewrite join_snoc by done. by rewrite !string_app_assoc.
  - rewrite Hc, Kc, length_app. cbn. lia.
Qed.

Lemma adds_any name v : adds (Any name v) (json_member name (default "null" (encoded v))).
Proof. apply adds_member. intros o. unfold Any, writeValue. by destruct (encoded v). Qed.

Lemma adds_nullable name v : adds (NullableStr name v) (json_member name (json_nullable v)).
Proof. apply adds_member. intros o. by destruct v. Qed.

Lemma adds_raw name raw : adds (Raw name raw) (json_member name raw).
Proof. by apply adds_member. Qed.

Lemma raw_items_text items : ∀ o,
  (raw_items true items o).(buf) = o.(buf) +:+ str_join "," items ∧ (raw_items true items o).(count) = o.(count).
Proof.
  assert (Hrest : ∀ items o, (raw_items false items o).(buf) = o.(buf) +:+ string_concat ((fun i => "," +:+ i) <$> items) ∧
                             (raw_items false items o).(count) = o.(count)).
  { clear. induction items as [|i items IH]; intros o; cbn [raw_items]; [split; [by rewrite string_app_nil_r|done]|].
    destruct (IH (write i (write "," o))) as [-> ->]. cbn [write buf count fmap list_fmap string_concat].
    split; [by rewrite !string_app_assoc|done]. }
  destruct items as [|i items]; intros o; cbn [raw_items]; [split; [by rewrite string_app_nil_r|done]|].
  destruct (Hrest items (write i o)) as [-> ->]. cbn [write buf count]. split; [|done]. rewrite string_app_assoc. f_equal.
  revert i. induction items as [|j items IH]; intros i; [by rewrite string_app_nil_r|]. cbn [fmap list_fmap string_concat].
  change (str_join "," (i :: j :: items)) with (i +:+ "," +:+ str_join "," (j :: items)). rewrite <- IH. by rewrite !string_app_assoc.
Qed.

Lemma adds_raw_array name items : adds (RawArray name items) (json_member name (json_array items)).
Proof.
  apply adds_member. intros o. unfold RawArray. cbn [write buf count].
  destruct (raw_items_text items (write "[" (key name o))) as [-> ->]. cbn [write buf count].
  unfold json_array. by rewrite !string_app_assoc.
Qed.

Definition settings_tree (s : Settings) : json :=
  match schema terminalAvailable s with Ok keys => JObj (entry_tree s <$> keys) | Prelude.Err _ => JNull end.

Lemma settings_printed s : clock_fits s → printed 1 (default "null" (json_settings s)) (settings_tree s).
Proof.
  intros Hc. unfold json_settings, MarshalJSON, settings_tree.
  destruct (schema terminalAvailable s) as [keys|] eqn:Es; cbn [rbind]; [|eapply printed_more; [apply printed_null|lia]].
  destruct (SettingsInv.schema_names _ _ _ Es) as (_ & Hu & _).
  assert (Hp : printed (0 + 1) (json_object ((fun d => pyJSONString d.(kName) +:+ ":" +:+ encodeValue d s) <$> keys)) (JObj (entry_tree s <$> keys))).
  { apply printed_object; [done|]. apply Forall2_fmap_2, Forall_Forall2_diag. eapply Forall_impl; [exact Hu|]. intros d. by apply entry_member. }
  pose proof (printed_parse _ _ _ Hp ltac:(done)) as E. unfold compacted, json_object in *. rewrite E. exact Hp.
Qed.

Definition any_tree (v : any) : json :=
  match v with
  | VString s => jstr s
  | VBool b => JBool b
  | VInt z => jnum z
  | VStrings l => jstrs l
  | VStats s => match s with Some s => stats_tree s | None => JNull end
  | VStatsList l => JArr (stats_tree <$> l)
  | VLinks l => JArr (link_tree <$> l)
  | VSetting v => setting_tree v
  | VSettings s => settings_tree s
  end.

Definition any_fits (v : any) : Prop :=
  match v with VSetting v => setting_fits v | VSettings s => clock_fits s | _ => True end.

Lemma stats_printed s : printed 1 (stats_json s) (stats_tree s).
Proof.
  apply (printed_object 0); [done|]. apply Forall2_app.
  - repeat (constructor; [apply printed_member; [reflexivity|apply json_text_printed || apply printed_jopt]|]). constructor.
  - destruct (K8sRec.msAssignedNode s); repeat constructor; apply printed_member; try reflexivity;
      [apply printed_null|apply json_text_printed].
Qed.

Lemma link_printed l : printed 2 (link_json l) (link_tree l).
Proof.
  apply (printed_object 1); [done|]. constructor; [|constructor; [|constructor]]; (apply printed_member; [reflexivity|]).
  - eapply printed_more; [apply json_text_printed|lia].
  - destruct (llMachines l) as [ms|]; [apply printed_strings|eapply printed_more; [apply printed_null|lia]].
Qed.

Lemma printed_map {A} k (f : A → string) (g : A → json) l :
  0 <= k → (∀ x, printed k (f x) (g x)) → printed (k + 1) (json_array (f <$> l)) (JArr (g <$> l)).
Proof. intros Hk H0. apply printed_array; [done|]. by apply Forall2_fmap_2, Forall_Forall2_diag, Forall_true. Qed.

Lemma setting_printed v : setting_fits v → printed 0 (default "null" (json_setting v)) (setting_tree v).
Proof.
  destruct v as [s|b|f|z|z| |p|]; cbn [setting_fits json_setting setting_tree default]; intros Hf;
    try apply json_text_printed; try apply printed_bool; try apply printed_int; try apply printed_null; try apply printed_jopt.
  destruct (json_float f) as [t|]; [by apply Hf|apply printed_null].
Qed.

Lemma any_printed v : any_fits v → printed 3 (default "null" (encoded v)) (any_tree v).
Proof.
  assert (Hm : ∀ k t j, printed k t j → k <= 3 → printed 3 t j) by (intros; by eapply printed_more).
  destruct v as [s|b|z|l|s|l|l|v|s]; cbn [any_fits encoded any_tree]; intros Hf.
  - by eapply Hm; [apply json_text_printed|].
  - by eapply Hm; [apply printed_bool|].
  - by eapply Hm; [apply printed_int|].
  - by eapply Hm; [apply printed_strings|].
  - destruct s as [s|]; [by eapply Hm; [apply stats_printed|]|by eapply Hm; [apply printed_null|]].
  - eapply Hm; [apply (printed_map 1); [done|apply stats_printed]|done].
  - eapply Hm; [apply (printed_map 2); [done|apply link_printed]|done].
  - eapply Hm; [by apply setting_printed|done].
  - eapply Hm; [by apply settings_printed|done].
Qed.

(** What a call of the builder writes, at [k] levels, and what it reads back as. *)
Definition calls_as (k : Z) (call : jobj → jobj) (m : string * json) : Prop :=
  unicode m.1 = m.1 ∧ ∃ value, adds call (json_member m.1 value) ∧ printed k value m.2.

Lemma built_printed k calls l : 0 <= k → Forall2 (calls_as k) calls l → printed (k + 1) (built calls) (JObj l).
Proof.
  intros Hk Hall.
  assert (∃ ms, Forall2 adds calls ms ∧ Forall2 (member_printed k) ms l) as (ms & Ha & Hp).
  { induction Hall as [|call [name v] calls l (Hn & value & Hadd & Hv) _ (ms & Ha & Hp)]; [by exists []|].
    exists (json_member name value :: ms). split; constructor; try done. by apply printed_member. }
  rewrite (built_object _ _ Ha). by apply printed_object.
Qed.

Section calls.
Context (k : Z) (name : string) (Hn : unicode name = name).

Lemma as_any v : any_fits v → 3 <= k → calls_as k (Any name v) (name, any_tree v).
Proof. intros Hv Hk. split; [done|]. eexists. split; [apply adds_any|]. eapply printed_more; [by apply any_printed|lia]. Qed.
Lemma as_string s : 0 <= k → calls_as k (Str name s) (name, jstr s).
Proof. intros Hk. split; [done|]. eexists. split; [apply adds_any|]. eapply printed_more; [apply json_text_printed|done]. Qed.
Lemma as_bool b : 0 <= k → calls_as k (Bool name b) (name, JBool b).
Proof. intros Hk. split; [done|]. eexists. split; [apply adds_any|]. eapply printed_more; [apply printed_bool|done]. Qed.
Lemma as_int z : 0 <= k → calls_as k (Int name z) (name, jnum z).
Proof. intros Hk. split; [done|]. eexists. split; [apply adds_any|]. eapply printed_more; [apply printed_int|done]. Qed.
Lemma as_strings l : 1 <= k → calls_as k (Strings name l) (name, jstrs l).
Proof. intros Hk. split; [done|]. eexists. split; [apply adds_any|]. eapply printed_more; [apply printed_strings|done]. Qed.
Lemma as_nullable s : 0 <= k → calls_as k (NullableStr name s) (name, jopt s).
Proof. intros Hk. split; [done|]. eexists. split; [apply adds_nullable|]. eapply printed_more; [apply printed_jopt|done]. Qed.
Lemma as_raw k' t v : printed k' t v → k' <= k → calls_as k (Raw name t) (name, v).
Proof. intros Hv Hk. split; [done|]. eexists. split; [apply adds_raw|]. by eapply printed_more. Qed.
Lemma as_raws {A} k' (f : A → string) (g : A → json) l :
  0 <= k' → (∀ x, printed k' (f x) (g x)) → k' + 1 <= k → calls_as k (RawArray name (f <$> l)) (name, JArr (g <$> l)).
Proof.
  intros Hk' H0 Hk. split; [done|]. eexists. split; [apply adds_raw_array|].
  eapply printed_more; [by apply (printed_map k')|done].
Qed.
End calls.
End envelopes.

Create HintDb calls.
#[export] Hint Resolve as_string as_bool as_int as_strings as_nullable : calls.
#[export] Hint Extern 1 (unicode _ = _) => reflexivity : calls.
#[export] Hint Extern 2 (_ <= _) => lia : calls.

(** The members of a builder, one by one. *)
Ltac members := repeat first [apply Forall2_nil_2 | apply Forall2_cons_2; [solve [auto with calls]|] | apply Forall2_app].

(** * A command in a machine format *)

Section envelopes.
Context `{Terminals}.

Definition lab_members (withMeta : bool) (l : Lab) : list (string * json) :=
  [("name", jopt l.(lbName)); ("hash", jstr l.(lbHash)); ("path", jopt l.(lbPath))]
  ++ (if withMeta && hasMeta l
      then [("description", jopt (nilIfEmpty l.(lbDescription))); ("version", jopt (nilIfEmpty l.(lbVersion)));
            ("author", jopt (nilIfEmpty l.(lbAuthor))); ("email", jopt (nilIfEmpty l.(lbEmail)));
            ("web", jopt (nilIfEmpty l.(lbWeb)))]
      else []).
Definition lab_tree (withMeta : bool) (l : Lab) : json := JObj (lab_members withMeta l).

Lemma lab_printed withMeta l : printed 1 (encode_lab withMeta l) (lab_tree withMeta l).
Proof. apply (built_printed 0); [done|]. unfold lab_members. destruct (withMeta && hasMeta l); members.
Qed.

Lemma as_lab k withMeta l : 1 <= k → calls_as k (Raw "lab" (encode_lab withMeta l)) ("lab", lab_tree withMeta l).
Proof. intros Hk. eapply as_raw; [reflexivity|apply lab_printed|done]. Qed.
#[local] Hint Resolve as_lab : calls.

Definition lstart_tree (r : LstartResult) : json :=
  JObj ([("lab", lab_tree true r.(lsLab)); ("dry_run", JBool r.(lsDryRun))]
    ++ if r.(lsDryRun) then [("checks", JArr ((fun file => JObj [("file", jstr file); ("ok", JBool true)]) <$> r.(lsChecks)))]
       else [("machines", jstrs r.(lsMachines)); ("links", jstrs r.(lsLinks))]
         ++ match r.(lsMachineStats) with Some stats => [("machine_stats", JArr (stats_tree <$> stats))] | None => [] end).

Lemma lstart_printed r : printed 3 (encode_lstart r) (lstart_tree r).
Proof.
  apply (built_printed 2); [done|]. apply Forall2_app; [members|]. destruct (lsDryRun r).
  - apply Forall2_cons_2; [|members]. eapply (as_raws _ _ eq_refl 1); [done| |lia]. intros file.
    apply (built_printed 0); [done|]. members.
  - apply Forall2_app; [members|]. destruct (lsMachineStats r); [|members]. apply Forall2_cons_2; [|members].
    eapply (as_raws _ _ eq_refl 1); [done|apply stats_printed|lia].
Qed.

Definition lclean_tree (r : LcleanResult) : json :=
  JObj [("lab", lab_tree false r.(lcLab)); ("machines", jstrs r.(lcMachines)); ("links", jstrs r.(lcLinks))].

Lemma lclean_printed r : printed 2 (encode_lclean r) (lclean_tree r).
Proof. apply (built_printed 1); [done|]. members. Qed.

Definition linfo_tree (r : LinfoResult) : json :=
  JObj ([("lab", lab_tree true r.(liLab)); ("mode", jstr r.(liMode))]
    ++ (if String.eqb r.(liMode) "conf" then
          [("device_count", jnum r.(liDeviceCount)); ("link_count", jnum r.(liLinkCount))]
          ++ (if String.eqb r.(liMachineText) "" then [] else [("machine", jstr r.(liMachineText))])
        else if String.eqb r.(liMode) "machine" then [("machine", any_tree (VStats r.(liMachine)))]
        else if String.eqb r.(liMode) "topology" then [("links", any_tree (VLinks r.(liLinks)))]
        else [("machines", any_tree (VStatsList r.(liMachines)))])).

Lemma linfo_printed r : printed 4 (encode_linfo r) (linfo_tree r).
Proof.
  apply (built_printed 3); [done|]. apply Forall2_app; [members|].
  destruct (String.eqb _ "conf"); [apply Forall2_app; [members|]; destruct (String.eqb _ ""); members|].
  destruct (String.eqb _ "machine"); [|destruct (String.eqb _ "topology")]; (apply Forall2_cons_2; [|members]); by apply as_any.
Qed.

Definition check_tree (r : CheckResult) : json :=
  JObj [("manager", jstr r.(ckManager)); ("manager_version", jstr r.(ckManagerVersion));
        ("runtime_version", jstr r.(ckRuntimeVersion)); ("kathara_version", jstr r.(ckKatharaVersion));
        ("os_version", jstr r.(ckOSVersion));
        ("container_test", JObj [("image", jstr r.(ckImage)); ("ok", JBool r.(ckOK)); ("error", jopt (nilIfEmpty r.(ckError)))])].

(** What an envelope says. *)
Definition tree (e : Envelope) : json :=
  match e with
  | Lstart r => lstart_tree r
  | Lclean r => lclean_tree r
  | Lrestart clean start => JObj [("clean", lclean_tree clean); ("start", lstart_tree start)]
  | Wipe settingsWiped allUsers machines links =>
      JObj [("settings_wiped", JBool settingsWiped); ("all_users", JBool allUsers); ("machines", jstrs machines); ("links", jstrs links)]
  | ListResult machines => JObj [("machines", JArr (stats_tree <$> SortStable stats_order machines))]
  | Linfo r => linfo_tree r
  | APIResult ok => JObj [("ok", JBool ok)]
  | ExecResult stdout stderr exitCode => JObj [("stdout", jstr stdout); ("stderr", jstr stderr); ("exit_code", jnum exitCode)]
  | Check_ r => check_tree r
  | Vstart lab machine dryRun links =>
      JObj ([("lab", lab_tree false lab); ("machine", jstr machine); ("dry_run", JBool dryRun)]
        ++ if dryRun then [] else [("links", jstrs links)])
  | Vclean lab machine machines => JObj [("lab", lab_tree false lab); ("machine", jstr machine); ("machines", jstrs machines)]
  | ConfigResult lab machine added removed =>
      JObj [("lab", lab_tree false lab); ("machine", jstr machine);
            ("added", JArr ((fun a => JObj [("link", jstr a.1); ("mac", jopt (nilIfEmpty a.2))]) <$> added));
            ("removed", jstrs removed)]
  | SettingsGet key value => JObj [("key", jstr key); ("value", setting_tree value)]
  | SettingsSet key value saved => JObj [("key", jstr key); ("value", setting_tree value); ("saved", JBool saved)]
  | SettingsList settings => JObj [("settings", settings_tree settings)]
  | SettingsReset settings saved => JObj [("settings", settings_tree settings); ("saved", JBool saved)]
  end.

(** The floats of the settings it carries are numbers. *)
Definition envelope_fits (e : Envelope) : Prop :=
  match e with
  | SettingsGet _ v | SettingsSet _ v _ => setting_fits v
  | SettingsList s | SettingsReset s _ => clock_fits s
  | _ => True
  end.

Lemma as_setting k name v : unicode name = name → setting_fits v → 3 <= k → calls_as k (Any name (VSetting v)) (name, setting_tree v).
Proof. intros Hn Hv Hk. by apply (as_any k name Hn (VSetting v)). Qed.
Lemma as_settings k name s : unicode name = name → clock_fits s → 3 <= k → calls_as k (Any name (VSettings s)) (name, settings_tree s).
Proof. intros Hn Hv Hk. by apply (as_any k name Hn (VSettings s)). Qed.
#[local] Hint Resolve as_setting as_settings : calls.

Lemma envelope_printed e : envelope_fits e → printed 5 (CliJson.encode e) (tree e).
Proof.
  assert (Hm : ∀ k t j, printed k t j → k <= 5 → printed 5 t j) by (intros; by eapply printed_more).
  destruct e as [r|r|clean start|w a ms ls|ms|r|ok|o e x|r|lab m d ls|lab m ms|lab m ad re|key v|key v sv|s|s sv];
    cbn [envelope_fits CliJson.encode tree]; intros Hf.
  - by eapply Hm; [apply lstart_printed|].
  - by eapply Hm; [apply lclean_printed|].
  - apply (built_printed 4); [done|]. apply Forall2_cons_2; [by eapply as_raw; [|apply lclean_printed|]|].
    apply Forall2_cons_2; [by eapply as_raw; [|apply lstart_printed|]|members].
  - apply (built_printed 4); [done|]. members.
  - apply (built_printed 4); [done|]. apply Forall2_cons_2; [|members]. eapply (as_raws _ _ eq_refl 1); [done|apply stats_printed|lia].
  - by eapply Hm; [apply linfo_printed|].
  - apply (built_printed 4); [done|]. members.
  - apply (built_printed 4); [done|]. members.
  - apply (built_printed 4); [done|].
    repeat (apply Forall2_cons_2; [solve [auto with calls]|]). apply Forall2_cons_2; [|members].
    eapply (as_raw _ _ eq_refl 1); [|lia]. apply (built_printed 0); [done|]. members.
  - apply (built_printed 4); [done|]. apply Forall2_app; [members|]. destruct d; members.
  - apply (built_printed 4); [done|]. members.
  - apply (built_printed 4); [done|]. apply Forall2_cons_2; [solve [auto with calls]|]. apply Forall2_cons_2; [solve [auto with calls]|].
    apply Forall2_cons_2; [|members]. eapply (as_raws _ _ eq_refl 1); [done| |lia]. intros [link mac].
    apply (built_printed 0); [done|]. members.
  - apply (built_printed 4); [done|]. members.
  - apply (built_printed 4); [done|]. members.
  - apply (built_printed 4); [done|]. members.
  - apply (built_printed 4); [done|]. members.
Qed.

End envelopes.

(** ** Errors *)

Section output.
Context `{CellTables, Terminals}.

Lemma find_error_some {A} (p : goerror → option A) : ∀ e a, find_error p e = Some a → ∃ e', p e' = Some a.
Proof.
  fix IH 1. intros e a. destruct e as [code text|msg class cause|m op e|l op e|i e|pa e| | | | | | | | | | | | | | |op pa e|errs|t e| |t];
    cbn [find_error]; (destruct (p _) as [x|] eqn:E; [intros [= <-]; by eexists|]); try done.
  - destruct (find_error p class) as [x|] eqn:Ec; [intros [= <-]; by apply (IH class)|]. destruct cause as [c|]; [apply IH|done].
  - destruct e as [e|]; [apply IH|done].
  - destruct e as [e|]; [apply IH|done].
  - destruct e as [e|]; [apply IH|done].
  - destruct e as [e|]; [apply IH|done].
  - apply IH.
  - clear E. induction errs as [|e errs IHe]; [done|]. destruct (find_error p e) as [x|] eqn:Ee; [intros [= <-]; by apply (IH e)|apply IHe].
  - apply IH.
Qed.

(** The fields of an error are members with values of one level at most. *)
Definition well_called (fields : list (jobj → jobj)) : Prop := ∃ l, Forall2 (calls_as 1) fields l.

Lemma error_fields_called : Forall (fun p => ∀ e fields, p e = Some fields → well_called fields) error_fields.
Proof.
  repeat (apply Forall_cons; split); [..|constructor]; intros e fields E; destruct e; try done; injection E as <-;
    try (eexists; members; fail).
  - destruct (String.eqb link ""); eexists; members.
  - destruct (String.eqb file ""), (line =? 0); eexists; members.
Qed.

Lemma addErrorFields_called e : well_called (addErrorFields e).
Proof.
  unfold addErrorFields. induction error_fields_called as [|p ps Hp _ IH]; [by exists []|]. cbn [first_fields].
  destruct (as_fields p e) as [fields|] eqn:E; [|done]. apply find_error_some in E as [e' E]. by eapply Hp.
Qed.

(** The object of an error: its code, its message, then the fields of its class. *)
Lemma error_printed e : ∃ l, printed 2 (encodeErrorObject e)
  (JObj ([("code", jstr (Code (Some e))); ("message", jstr (Error e))] ++ l)).
Proof.
  destruct (addErrorFields_called e) as [l Hl]. exists l. apply (built_printed 1); [done|]. apply Forall2_app; [members|done].
Qed.

(** ** What a command may do to the console *)

(** Everything but [WriteOut], which [exec] uses for the output of the device in the
    human format. *)
Inductive op : Type :=
| OPrint (line : string) | OPrintLines (lines : list string) | OPrintPanel (message : string) (opts : PanelOptions)
| OLog (level : Z) (msg : string) | OSlog (groups : list string) (attrs : list (string * string)) (level : Z) (msg : string)
| OWriteErr (p : string) | OEmit (e : Envelope) | OEmitInterrupted | OEmitStreamChunk (stream data : string)
| OEmitStreamExit (code : Z) | OEmitError (e : option goerror) | OWait | OClear
| OBar (b : ProgressBar) (step : ProgressBar → Console → ProgressBar * Console)
| OPull (b : ImagePullBar) (p : PullProgress) | OPullFinish (b : ImagePullBar)
| OImagePolicy (policy image : string) (input : option Input)
| OVolumePolicy (policy : string) (machines : list (string * result goerror (OrderedMap string Volume))) (input : option Input).

Definition do_op (o : op) (c : Console) : Console :=
  match o with
  | OPrint line => Print line c
  | OPrintLines lines => PrintLines lines c
  | OPrintPanel message opts => PrintPanel message opts c
  | OLog level msg => Log level msg c
  | OSlog groups attrs level msg => slog_Handle groups attrs level msg c
  | OWriteErr p => WriteErr p c
  | OEmit e => Emit e c
  | OEmitInterrupted => EmitInterrupted c
  | OEmitStreamChunk stream data => EmitStreamChunk stream data c
  | OEmitStreamExit code => EmitStreamExit code c
  | OEmitError e => (EmitError e c).1
  | OWait => PrintWaitMessage c
  | OClear => ClearScreen c
  | OBar b step => (step b c).2
  | OPull b p => (pull_Update p b c).1.2
  | OPullFinish b => (pull_Finish b c).2
  | OImagePolicy policy image input => (ImageUpdatePolicy_Run policy image input c).1.2
  | OVolumePolicy policy machines input => (VolumeMountPolicy_Run policy machines input c).1.2
  end.

Definition op_fits (o : op) : Prop :=
  match o with
  | OEmit e => envelope_fits e
  | OBar _ step => (∃ total, step = bar_Init total) ∨ step = bar_Advance ∨ step = bar_Finish
  | _ => True
  end.

(** A document of the protocol: an object on one line. *)
Definition document (d : string) : Prop := contains_byte (az 10) d = false ∧ ∃ l, parse d = Some (JObj l).

(** [c'] has written documents more than [c], each on a line. *)
Definition adds_documents (c c' : Console) : Prop :=
  c'.(cFormat) = c.(cFormat) ∧
  ∃ docs, c'.(Out) = c.(Out) +:+ string_concat ((fun d => d +:+ nl) <$> docs) ∧ Forall document docs.

Lemma adds_nothing c c' : c'.(cFormat) = c.(cFormat) → c'.(Out) = c.(Out) → adds_documents c c'.
Proof. intros Hf Ho. split; [done|]. exists []. split; [by rewrite Ho, string_app_nil_r|constructor]. Qed.

Lemma adds_one c d : document d → adds_documents c (line_out d c).
Proof. intros Hd. split; [done|]. exists [d]. split; [cbn; by rewrite string_app_nil_r, string_app_assoc|by apply Forall_singleton]. Qed.

Lemma adds_trans c1 c2 c3 : adds_documents c1 c2 → adds_documents c2 c3 → adds_documents c1 c3.
Proof.
  intros (F1 & d1 & O1 & D1) (F2 & d2 & O2 & D2). split; [congruence|]. exists (d1 ++ d2).
  rewrite O2, O1, fmap_app, string_concat_app, string_app_assoc. split; [done|by apply Forall_app].
Qed.

Lemma printed_document k d l : printed k d (JObj l) → k <= maxNestingDepth → document d.
Proof. intros Hp Hk. split; [apply Hp|]. exists l. by eapply printed_parse. Qed.

Lemma tree_object e : ∃ l, tree e = JObj l.
Proof. destruct e; by eexists. Qed.

Lemma emitted_document e : envelope_fits e → document (CliJson.encode e).
Proof.
  intros He. destruct (tree_object e) as [l El]. pose proof (envelope_printed e He) as Hp. rewrite El in Hp.
  by eapply printed_document.
Qed.

Lemma built_document calls l : Forall2 (calls_as 4) calls l → document (built calls).
Proof. intros Hc. eapply printed_document; [by apply (built_printed 4)|done]. Qed.

Lemma Log_machine level msg c : Format_Machine c.(cFormat) = true → adds_documents c (Log level msg c).
Proof. intros Hm. unfold Log. destruct (level <? Level c); [by apply adds_nothing|]. rewrite Hm. by apply adds_nothing. Qed.

Lemma human_machine f c : Format_Machine c.(cFormat) = true → adds_documents c (human f c).
Proof. intros Hm. unfold human. rewrite Hm. by apply adds_nothing. Qed.

Lemma error_documents e c : Format_Machine c.(cFormat) = true → adds_documents c (EmitError e c).1.
Proof.
  intros Hm. destruct e as [e|]; [|by apply adds_nothing]. unfold EmitError. cbn [fst].
  destruct (error_printed (primaryOf e (Joined (Some e)))) as [l Hl].
  destruct (cFormat c) eqn:Ef; [done|..]; apply adds_one.
  - destruct (1 <? _).
    + assert (Hall : ∃ vs, Forall2 (printed 2) (encodeErrorObject <$> Joined (Some e)) vs).
      { clear. induction (Joined (Some e)) as [|x xs (vs & IH)]; [by exists []|]. destruct (error_printed x) as [lx Hx].
        eexists (_ :: vs). cbn [fmap list_fmap]. by constructor. }
      destruct Hall as [vs Hvs]. eapply (built_document _ [("error", _); ("errors", JArr vs)]). apply Forall2_cons_2; [eapply as_raw; [reflexivity|exact Hl|lia]|].
      apply Forall2_cons_2; [|apply Forall2_nil_2]. split; [reflexivity|]. eexists. split; [apply adds_raw_array|].
      eapply printed_more; [by apply (printed_array 2)|done].
    + eapply built_document. apply Forall2_cons_2; [eapply as_raw; [reflexivity|exact Hl|lia]|apply Forall2_nil_2].
  - eapply built_document. apply Forall2_cons_2; [apply as_string; [reflexivity|lia]|].
    apply Forall2_cons_2; [eapply as_raw; [reflexivity|exact Hl|lia]|apply Forall2_nil_2].
Qed.

Lemma op_documents o c : Format_Machine c.(cFormat) = true → op_fits o → adds_documents c (do_op o c).
Proof.
  intros Hm Ho. destruct o; cbn [do_op op_fits] in *; try (by apply human_machine); try (by apply Log_machine).
  - by apply adds_nothing.
  - unfold Emit. destruct (cFormat c) eqn:Ef; try (by apply adds_nothing). by apply adds_one, emitted_document.
  - unfold EmitInterrupted. destruct (cFormat c) eqn:Ef; try (by apply adds_nothing).
    + split; [done|]. exists ["{" +:+ quoted "interrupted" +:+ ":true}"]. split; [reflexivity|].
      apply Forall_singleton. split; [reflexivity|]. eexists. vm_compute. reflexivity.
    + split; [done|]. exists ["{" +:+ quoted "type" +:+ ":" +:+ quoted "interrupted" +:+ "}"]. split; [reflexivity|].
      apply Forall_singleton. split; [reflexivity|]. eexists. vm_compute. reflexivity.
  - unfold EmitStreamChunk. destruct (cFormat c); try (by apply adds_nothing). destruct (String.eqb _ _); [by apply adds_nothing|].
    apply adds_one. eapply built_document. members.
  - unfold EmitStreamExit. destruct (cFormat c); try (by apply adds_nothing). apply adds_one. eapply built_document. members.
  - by apply error_documents.
  - unfold ClearScreen. rewrite Hm. by apply adds_nothing.
  - destruct Ho as [[total ->]|[-> | ->]]; unfold bar_Init, bar_Advance, bar_Finish, unless_machine; rewrite Hm; by apply adds_nothing.
  - unfold pull_Update. rewrite Hm. by apply adds_nothing.
  - unfold pull_Finish, unless_machine. rewrite Hm. by apply adds_nothing.
  - unfold ImageUpdatePolicy_Run. rewrite Hm. repeat (destruct (String.eqb _ _)); try (by apply adds_nothing). by apply Log_machine.
  - unfold VolumeMountPolicy_Run. rewrite Hm. cbv beta iota. destruct (negb _); [by apply adds_nothing|]. rewrite Hm. by apply Log_machine.
Qed.

End output.

#[local] Instance any_terminal : Terminals := { terminalAvailable _ := Ok true }.
#[local] Instance no_wide : CellTables := { zeroWidth _ := false; wideRune _ := false }.

(** The answer of [exec]: a byte that is no UTF-8, a quotation mark and a line feed. *)
Definition exec_answer : Envelope := ExecResult (str1 (az 0xE9) +:+ str1 quote_char) (str1 (az 10)) (-1).


(** A failure of two devices in JSON, with a warning and a line for the user. *)
Definition failing : list op :=
  [OPrint "Deploying"; OLog LevelWarning "slow"; OBar (NewProgressBar "x") (bar_Init 3);
   OEmitError (Some (EJoin [ENonSeqInterface 1 "pc1"; EPlain "b"]))].

