(* ===== verification/CliArgs.v ===== *)
(** * Arguments (cmd/kathara/args.go, flags.go)

    The two rewritings of the command line that come before the flag library: the
    runs of values of an option with nargs, and the cut before the remainder, with what
    it amounts to; and the values of the options that check their argument. *)

From S2P Require Export Strconv.
Local Open Scope string_scope.
Local Open Scope list_scope.
Local Open Scope Z_scope.
Local Open Scope kat_scope.

(** ** args.go *)

Definition has_byte (b : Z) (s : string) : bool := contains_byte (az b) s.
Definition starts_dash (s : string) : bool := HasPrefix s "-".

Definition isNegativeNumber (s : string) : bool :=
  if (String.length s <? 2)%nat || negb (starts_dash s) then false
  else
    let body := string_drop 1 s in
    match Atoi body with
    | Ok _ => true
    | Err _ => ParseFloat_ok body && has_byte 46 body
    end.

Definition isOptionToken (s : string) : bool :=
  negb ((String.length s <? 2)%nat || negb (starts_dash s)) && negb (has_byte 32 s) && negb (isNegativeNumber s).

(** The pattern of argparse is a dash and digits, or digits around a point: a second
    sign, an exponent and a point at the end are none of it, and its integers have
    no range. *)
Example negative_numbers : isNegativeNumber <$> ["-5"; "-.5"; "--5"; "-5."; "-1.5e3"; "-9223372036854775808"] =
  [true; true; true; true; true; false].
Proof. vm_compute. reflexivity. Qed.

Inductive greedyKind : Type := greedyOneOrMore | greedyZeroOrMore.
Record greedySpec : Type := mkGreedy { gLong : string; gShort : string; gKind : greedyKind }.

Definition emptyListSentinel : string := str1 (az 0) +:+ "kathara-empty-list" +:+ str1 (az 0).

(** The tokens that are values of the option before them. *)
Definition run_value (s : string) : bool := negb (String.eqb s "--") && negb (isOptionToken s).
Definition run (args : list string) : list string := take_while run_value args.

(** The specifications by what is written: the last of a name counts. *)
Definition greedy_named (specs : list greedySpec) (arg : string) : option greedySpec :=
  let find p := last (List.filter p specs) in
  match find (fun s => String.eqb ("--" +:+ s.(gLong)) arg) with
  | Some s => Some s
  | None => find (fun s => negb (String.eqb s.(gShort) "") && String.eqb ("-" +:+ s.(gShort)) arg)
  end.

(** [skip] tokens have been taken as values. *)
Fixpoint expand_from (specs : list greedySpec) (skip : nat) (args : list string) : list string :=
  match args with
  | [] => []
  | arg :: rest =>
      match skip with
      | S skip => expand_from specs skip rest
      | O =>
          if String.eqb arg "--" then arg :: rest
          else
            match greedy_named specs arg with
            | None => arg :: expand_from specs 0 rest
            | Some spec =>
                let values := run rest in
                (match values, spec.(gKind) with
                 | [], greedyZeroOrMore => ["--" +:+ spec.(gLong) +:+ "=" +:+ emptyListSentinel]
                 | [], greedyOneOrMore => [arg]
                 | _, _ => (fun v => "--" +:+ spec.(gLong) +:+ "=" +:+ v) <$> values
                 end) ++ expand_from specs (length values) rest
            end
      end
  end.

Definition expandGreedy (args : list string) (specs : list greedySpec) : list string :=
  match specs with [] => args | _ => expand_from specs 0 args end.

(** The options that take the token after them. *)
Record valueTaking : Type := mkTaking { vtLong : string → bool; vtShort : string → bool }.

Section remainder.
Context (taking : valueTaking) (greedy : list greedySpec).

Definition greedyLong (name : string) : bool := existsb (fun g => String.eqb g.(gLong) name) greedy.
Definition greedyShort (name : string) : bool :=
  existsb (fun g => negb (String.eqb g.(gShort) "") && String.eqb g.(gShort) name) greedy.

(** The tokens an option takes of those that follow. *)
Fixpoint cluster_takes (body : string) (rest : list string) : nat :=
  match body with
  | EmptyString => 0
  | String b body =>
      let short := str1 b in
      let last := String.eqb body "" in
      if String.eqb short "=" then 0
      else if greedyShort short then (if last then length (run rest) else 0)
      else if vtShort taking short then (if last then 1 else 0)
      else cluster_takes body rest
  end%nat.

Definition option_takes (arg : string) (rest : list string) : nat :=
  if HasPrefix arg "--" then
    let name := string_drop 2 arg in
    if has_byte 61 name then 0
    else if greedyLong name then length (run rest)
    else if vtLong taking name then 1 else 0
  else cluster_takes (string_drop 1 arg) rest.

Fixpoint split_from (skip : nat) (args : list string) : list string * list string :=
  match args with
  | [] => ([], [])
  | arg :: rest =>
      match skip with
      | S skip => let '(head, remainder) := split_from skip rest in (arg :: head, remainder)
      | O =>
          if String.eqb arg "--" || negb (isOptionToken arg) then ([], args)
          else let '(head, remainder) := split_from (option_takes arg rest) rest in (arg :: head, remainder)
      end
  end.

Definition splitRemainder (args : list string) : list string * list string := split_from 0 args.
End remainder.

(** ** flags.go *)

(** [^[\p{L}\p{N}_]+$] *)
Definition wordPattern (s : string) : bool := negb (String.eqb s "") && forallb isWordRune (runes s).

(** The values of an option with nargs, and whether it was given at all. *)
Record stringList : Type := mkList { slValues : list string; slPresent : bool }.

Definition stringList_String (l : stringList) : string := "[" +:+ str_join "," l.(slValues) +:+ "]".

Definition stringList_Set (validate : option (string → result goerror unit)) (l : stringList) (v : string)
  : stringList * result goerror unit :=
  let l := mkList l.(slValues) true in
  if String.eqb v emptyListSentinel then (l, Ok tt)
  else
    match match validate with Some f => f v | None => Ok tt end with
    | Err e => (l, Err e)
    | Ok _ => (mkList (l.(slValues) ++ [v]) true, Ok tt)
    end.

(** A flag of [store_const]: its value and its constant. *)
Record tristate : Type := mkTri { tsValue : option bool; tsConstant : bool }.
Definition tristate_String (t : tristate) : string :=
  match t.(tsValue) with None => "unset" | Some true => "true" | Some false => "false" end.
Definition tristate_Set (t : tristate) : tristate := mkTri (Some t.(tsConstant)) t.(tsConstant).

Definition alphanumeric (value : string) : result goerror unit :=
  if wordPattern value then Ok tt else Err (EPlain "invalid alphanumeric value").

Record ethSpec : Type := mkEth { eNumber : string; eCD : string; eMAC : string }.

Definition interfaceCDMAC (value : string) : result goerror ethSpec :=
  let invalid := EPlain ("invalid interface definition: " +:+ value) in
  let parts := split_byte (az 47) value in
  match split_byte (az 58) (default "" (head parts)) with
  | [number; cd] =>
      let mac := match parts with
                 | [_; mac] => if String.eqb mac "" then Err invalid else Ok mac
                 | _ => Ok ""
                 end in
      match mac with
      | Err e => Err e
      | Ok mac =>
          if wordPattern cd then Ok (mkEth number cd mac)
          else Err (EPlain ("invalid interface definition, collision domain `" +:+ cd +:+ "` contains non-alphanumeric characters"))
      end
  | _ => Err invalid
  end.

Definition validateEth (value : string) : result goerror unit :=
  match interfaceCDMAC value with Ok _ => Ok tt | Err e => Err e end.

Definition volumeSpec (value : string) : result goerror unit :=
  let n := length (List.filter (fun part => negb (String.eqb part "")) (split_byte (az 124) value)) in
  if (n =? 2)%nat || (n =? 3)%nat then Ok tt else Err (EPlain ("invalid volume definition: " +:+ value)).

Definition cdMAC (value : string) : result goerror (string * string) := ParseCDMACAddress value.

(** [vstart -Hn pc1 --exclude a b -- ls -la]: the name is the value of the last
    letter of the cluster, and the command comes through as it is. *)
Example expand_1 : expandGreedy ["-o"; "k=v"; "-5"; "x"; "--exclude"; "a"; "--pass"; "-d"]
  [mkGreedy "pass" "o" greedyZeroOrMore; mkGreedy "exclude" "" greedyOneOrMore] =
  ["--pass=k=v"; "--pass=-5"; "--pass=x"; "--exclude=a"; "--pass=" +:+ emptyListSentinel; "-d"].
Proof. vm_compute. reflexivity. Qed.
Example split_args_1 : splitRemainder (mkTaking (fun n => String.eqb n "name") (fun n => String.eqb n "n")) [mkGreedy "eth" "" greedyOneOrMore]
  ["-Hn"; "pc1"; "--eth"; "0:A"; "1:B"; "--name=x"; "ls"; "-la"] = (["-Hn"; "pc1"; "--eth"; "0:A"; "1:B"; "--name=x"], ["ls"; "-la"]).
Proof. vm_compute. reflexivity. Qed.

(** * The cut before the remainder

    [splitRemainder] reads a command line as argparse does: options with the values
    they take, up to the first token that is neither. *)

Section reading.
Context (taking : valueTaking) (greedy : list greedySpec).

(** What an option takes: nothing, the next token, or a run. *)
Inductive shape : Type := Alone | Takes | Run.

(** A cluster of letters ends at the first that takes a value, which is what is left
    of the token when something is. *)
Fixpoint cluster_shape (body : string) : shape :=
  match body with
  | EmptyString => Alone
  | String b rest =>
      if String.eqb (str1 b) "=" then Alone
      else if greedyShort greedy (str1 b) then (if String.eqb rest "" then Run else Alone)
      else if vtShort taking (str1 b) then (if String.eqb rest "" then Takes else Alone)
      else cluster_shape rest
  end.

Definition shape_of (arg : string) : shape :=
  if HasPrefix arg "--" then
    if has_byte 61 (string_drop 2 arg) then Alone
    else if greedyLong greedy (string_drop 2 arg) then Run
    else if vtLong taking (string_drop 2 arg) then Takes else Alone
  else cluster_shape (string_drop 1 arg).

Definition stops (arg : string) : bool := String.eqb arg "--" || negb (isOptionToken arg).

(** [values] are what an option of that shape takes of [values ++ next]. *)
Definition taken (sh : shape) (values next : list string) : Prop :=
  match sh with
  | Alone => values = []
  | Takes => (∃ v, values = [v]) ∨ values = [] ∧ next = []
  | Run => Forall (fun v => run_value v = true) values ∧ run next = []
  end.

(** A head of options with their values, before a remainder that is empty or starts
    with what is no option. *)
Inductive reading : list string → list string → Prop :=
| reading_end : reading [] []
| reading_stop arg rest : stops arg = true → reading [] (arg :: rest)
| reading_option arg values head rest :
    stops arg = false → taken (shape_of arg) values (head ++ rest) → reading head rest →
    reading (arg :: values ++ head) rest.

Lemma cluster_takes_shape body rest :
  cluster_takes taking greedy body rest = match cluster_shape body with Alone => 0 | Takes => 1 | Run => length (run rest) end%nat.
Proof.
  induction body as [|b body IH]; [done|]. cbn [cluster_takes cluster_shape].
  destruct (String.eqb (str1 b) "="); [done|]. destruct (greedyShort greedy (str1 b)); [by destruct (String.eqb body "")|].
  destruct (vtShort taking (str1 b)); [by destruct (String.eqb body "")|done].
Qed.

Lemma option_takes_shape arg rest :
  option_takes taking greedy arg rest = match shape_of arg with Alone => 0 | Takes => 1 | Run => length (run rest) end%nat.
Proof.
  unfold option_takes, shape_of. destruct (HasPrefix arg "--"); [|apply cluster_takes_shape].
  destruct (has_byte _ _); [done|]. destruct (greedyLong _ _); [done|]. by destruct (vtLong _ _).
Qed.

Lemma run_values values next : Forall (fun v => run_value v = true) values → run next = [] → run (values ++ next) = values.
Proof. intros Hv Hn. induction Hv as [|v values Hv _ IH]; [done|]. unfold run in *. cbn [app take_while]. by rewrite Hv, IH. Qed.

Lemma split_skip values : ∀ next,
  split_from taking greedy (length values) (values ++ next) =
  let '(head, rest) := split_from taking greedy 0 next in (values ++ head, rest).
Proof.
  induction values as [|v values IH]; intros next; [by cbn; destruct (split_from _ _ _ _)|]. cbn [length app split_from].
  rewrite IH. by destruct (split_from _ _ 0 next).
Qed.

Lemma reading_split head rest : reading head rest → splitRemainder taking greedy (head ++ rest) = (head, rest).
Proof.
  unfold splitRemainder. induction 1 as [|arg rest Hs|arg values head rest Hs Ht _ IH]; [done| |].
  - cbn [app split_from]. unfold stops in Hs. by rewrite Hs.
  - cbn [app split_from]. unfold stops in Hs. rewrite Hs, option_takes_shape, <- app_assoc.
    assert (E : split_from taking greedy (length values) (values ++ head ++ rest) = (values ++ head, rest))
      by (by rewrite split_skip, IH).
    unfold taken in Ht. destruct (shape_of arg).
    + subst values. cbn [length app] in *. by rewrite E.
    + destruct Ht as [[v ->]|[-> Hn]]; [cbn [length app] in E |- *; by rewrite E|]. apply app_eq_nil in Hn as [-> ->]. done.
    + destruct Ht as [Hv Hn]. rewrite (run_values _ _ Hv Hn), E. done.
Qed.

Lemma run_prefix l : ∃ next, l = run l ++ next ∧ Forall (fun v => run_value v = true) (run l) ∧ run next = [].
Proof.
  exists (drop_while run_value l). unfold run. rewrite take_drop_while. split; [done|]. split.
  - apply Forall_forall. intros v Hv. apply (proj1 (forallb_forall _ _) (take_while_forallb run_value l)). by apply list_elem_of_In.
  - induction l as [|x l IH]; [done|]. cbn [drop_while]. destruct (run_value x) eqn:E; [done|]. cbn [take_while]. by rewrite E.
Qed.

Lemma split_reading n : ∀ args, (length args <= n)%nat →
  ∃ head rest, splitRemainder taking greedy args = (head, rest) ∧ args = head ++ rest ∧ reading head rest.
Proof.
  unfold splitRemainder. induction n as [|n IH]; intros args Hn; (destruct args as [|arg args]; [by exists [], []; repeat constructor|]);
    cbn [length] in Hn; [lia|]. cbn [split_from]. destruct (String.eqb arg "--" || negb (isOptionToken arg)) eqn:Hs.
  { exists [], (arg :: args). split; [done|]. split; [done|]. by constructor. }
  assert (Hstep : ∀ values next, args = values ++ next → taken (shape_of arg) values next →
    option_takes taking greedy arg args = length values →
    ∃ head rest, (let '(head, remainder) := split_from taking greedy (option_takes taking greedy arg args) args in (arg :: head, remainder)) =
      (head, rest) ∧ arg :: args = head ++ rest ∧ reading head rest).
  { intros values next -> Ht ->. destruct (IH next) as (head & rest & E & -> & Hr); [rewrite length_app in Hn; lia|].
    exists (arg :: values ++ head), rest. rewrite split_skip, E. split; [done|]. split; [by rewrite <- app_comm_cons, <- app_assoc|].
    by constructor. }
  pose proof (option_takes_shape arg args) as Eo. unfold taken in Hstep.
  destruct (shape_of arg) eqn:Esh.
  - by apply (Hstep [] args).
  - destruct args as [|v args].
    + exists [arg], []. rewrite Eo. split; [done|]. split; [done|]. apply (reading_option arg [] [] []); [done| |constructor].
      rewrite Esh. by right.
    + apply (Hstep [v] args); [done|by left; exists v|done].
  - destruct (run_prefix args) as (next & E & Hv & Hnext). by apply (Hstep (run args) next).
Qed.

End reading.
