(* ===== verification/CliUsage.v ===== *)
(** * The parser of a command (cmd/kathara/usage.go, parser.go)

    What argparse has and the flag library has not: groups of options that exclude
    one another, required options and positionals, the order in which the checks
    fire, and the layout of the help text; and exactly what the checks accept. *)

From S2P Require Export CliArgs CliConsole.
From Stdlib Require Import Sorted.
Local Open Scope string_scope.
Local Open Scope list_scope.
Local Open Scope Z_scope.
Local Open Scope kat_scope.

(** ** The data *)

Inductive nargsKind : Type := nargsOne | nargsOneOrMore | nargsZeroOrMore | nargsRemainder.

Record positional : Type := mkPositional { pMetavar : string; pKind : nargsKind; pHelp : string }.

(** A flag of the library: its spellings, the value it has when none is attached
    (none for a flag that takes the token after it), and whether it was given. *)
Record Flag : Type := mkFlag {
  fName : string; fShorthand : string; fUsage : string; fNoOptDefVal : string; fHidden : bool; fChanged : bool
}.

Record parser : Type := mkParser {
  Use : string; Short : string; Flags : list Flag; FlagArgs : list string;
  metavars : gmap string string; optNames : gmap string (list string); aliasFor : gmap string string;
  listKind : gmap string nargsKind;
  required : list string; exclusive : list (list string); oneRequired : list (list string);
  positionals : list positional
}.

(** ** Declaring a parser *)

Definition with_flags (l : list Flag) (p : parser) : parser :=
  mkParser p.(Use) p.(Short) l p.(FlagArgs) p.(metavars) p.(optNames) p.(aliasFor) p.(listKind)
    p.(required) p.(exclusive) p.(oneRequired) p.(positionals).
Definition add_flag (f : Flag) (p : parser) : parser := with_flags (p.(Flags) ++ [f]) p.

(** [StringVarP] and [BoolVarP]. *)
Definition string_flag (name short usage : string) : parser → parser := add_flag (mkFlag name short usage "" false false).
Definition bool_flag (name short usage : string) : parser → parser := add_flag (mkFlag name short usage "true" false false).

Definition meta (name metavar : string) (p : parser) : parser :=
  mkParser p.(Use) p.(Short) p.(Flags) p.(FlagArgs) (<[name := metavar]> p.(metavars)) p.(optNames) p.(aliasFor) p.(listKind)
    p.(required) p.(exclusive) p.(oneRequired) p.(positionals).
Definition names (name : string) (l : list string) (p : parser) : parser :=
  mkParser p.(Use) p.(Short) p.(Flags) p.(FlagArgs) p.(metavars) (<[name := l]> p.(optNames)) p.(aliasFor) p.(listKind)
    p.(required) p.(exclusive) p.(oneRequired) p.(positionals).
Definition alias (name canonical : string) (p : parser) : parser :=
  mkParser p.(Use) p.(Short) p.(Flags) p.(FlagArgs) p.(metavars) p.(optNames) (<[name := canonical]> p.(aliasFor)) p.(listKind)
    p.(required) p.(exclusive) p.(oneRequired) p.(positionals).
Definition require (l : list string) (p : parser) : parser :=
  mkParser p.(Use) p.(Short) p.(Flags) p.(FlagArgs) p.(metavars) p.(optNames) p.(aliasFor) p.(listKind)
    (p.(required) ++ l) p.(exclusive) p.(oneRequired) p.(positionals).
Definition exclusiveGroup (l : list string) (p : parser) : parser :=
  mkParser p.(Use) p.(Short) p.(Flags) p.(FlagArgs) p.(metavars) p.(optNames) p.(aliasFor) p.(listKind)
    p.(required) (p.(exclusive) ++ [l]) p.(oneRequired) p.(positionals).
Definition requiredGroup (l : list string) (p : parser) : parser :=
  mkParser p.(Use) p.(Short) p.(Flags) p.(FlagArgs) p.(metavars) p.(optNames) p.(aliasFor) p.(listKind)
    p.(required) (p.(exclusive) ++ [l]) (p.(oneRequired) ++ [l]) p.(positionals).
Definition pos (metavar : string) (kind : nargsKind) (help : string) (p : parser) : parser :=
  mkParser p.(Use) p.(Short) p.(Flags) p.(FlagArgs) p.(metavars) p.(optNames) p.(aliasFor) p.(listKind)
    p.(required) p.(exclusive) p.(oneRequired) (p.(positionals) ++ [mkPositional metavar kind help]).
Definition set_list_kind (name : string) (kind : nargsKind) (p : parser) : parser :=
  mkParser p.(Use) p.(Short) p.(Flags) p.(FlagArgs) p.(metavars) p.(optNames) p.(aliasFor) (<[name := kind]> p.(listKind))
    p.(required) p.(exclusive) p.(oneRequired) p.(positionals).

Definition commandDescriptions : list (string * string) :=
  [("vstart", "Start a new Kathara device"); ("vclean", "Stop a single Kathara device");
   ("vconfig", "Manage the network interfaces of a running Kathara device");
   ("lstart", "Start a Kathara network scenario"); ("lclean", "Stop a Kathara network scenario");
   ("linfo", "Show information about a Kathara network scenario"); ("lrestart", "Restart a Kathara network scenario");
   ("lconfig", "Manage the network interfaces of a running Kathara device in a Kathara network scenario");
   ("connect", "Connect to a Kathara device"); ("exec", "Execute a command in a Kathara device");
   ("wipe", "Delete all Kathara devices and collision domains, optionally also delete settings");
   ("list", "Show all running Kathara devices of the current user");
   ("settings", "Show and edit Kathara settings"); ("check", "Check your system environment")].

Definition wikiDescription : string :=
  "For examples and further information visit: https://github.com/KatharaFramework/Kathara/wiki".

(** The first flag is the help. *)
Definition newParser (name : string) : parser :=
  let short := default "" (snd <$> List.find (fun c => String.eqb c.1 name) commandDescriptions) in
  bool_flag "help" "h" "Show a help message and exit."
    (mkParser ("kathara " +:+ name) short [] [] ∅ ∅ ∅ ∅ [] [] [] []).

Definition bindConst (name shorthand usage : string) : parser → parser := add_flag (mkFlag name shorthand usage "true" false false).

Definition bindList (name shorthand metavar usage : string) (kind : greedyKind) (p : parser) : parser :=
  match kind with
  | greedyZeroOrMore =>
      set_list_kind name nargsZeroOrMore (meta name metavar (add_flag (mkFlag name shorthand usage emptyListSentinel false false) p))
  | greedyOneOrMore =>
      set_list_kind name nargsOneOrMore (meta name metavar (add_flag (mkFlag name shorthand usage "" false false) p))
  end.

(** ** Looking an action up *)

Definition Lookup (p : parser) (name : string) : option Flag := List.find (fun f => String.eqb f.(fName) name) p.(Flags).

(** The empty shorthand is that of a flag without one. *)
Definition ShorthandLookup (p : parser) (short : string) : option Flag :=
  if String.eqb short "" then None else List.find (fun f => String.eqb f.(fShorthand) short) p.(Flags).
Definition Changed (p : parser) (name : string) : bool := match Lookup p name with Some f => f.(fChanged) | None => false end.

Fixpoint canonical_loop (fuel : nat) (aliases : gmap string string) (name : string) : string :=
  match fuel with
  | O => name
  | S fuel => match aliases !! name with None => name | Some next => canonical_loop fuel aliases next end
  end.

(** Aliases do not go round: as many steps as there are aliases are enough. *)
Definition canonical (p : parser) (name : string) : string := canonical_loop (size p.(aliasFor)) p.(aliasFor) name.

Definition actionChanged (p : parser) (name : string) : bool :=
  Changed p name || existsb (fun f => f.(fChanged) && String.eqb (canonical p f.(fName)) name) p.(Flags).

Definition optionStrings (p : parser) (name : string) : list string :=
  match p.(optNames) !! name with
  | Some custom => custom
  | None =>
      match Lookup p name with
      | None => ["--" +:+ name]
      | Some f => if negb (String.eqb f.(fShorthand) "") then ["-" +:+ f.(fShorthand); "--" +:+ f.(fName)] else ["--" +:+ f.(fName)]
      end
  end.

Definition actionName (p : parser) (name : string) : string := str_join "/" (optionStrings p name).

(** ** The order in which options are mentioned *)

Definition record (p : parser) (name : string) (i : nat) (order : gmap string nat) : gmap string nat :=
  let name := canonical p name in
  match order !! name with Some _ => order | None => <[name := i]> order end.

(** The letters of a cluster; whether the last takes the token after it. *)
Fixpoint order_cluster (p : parser) (body : string) (i : nat) (order : gmap string nat) : gmap string nat * bool :=
  match body with
  | EmptyString => (order, false)
  | String b body =>
      match ShorthandLookup p (encode_rune (zb b)) with
      | None => (order, false)
      | Some f =>
          let order := record p f.(fName) i order in
          if String.eqb f.(fNoOptDefVal) "" then (order, String.eqb body "") else order_cluster p body i order
      end
  end.

(** A long option: its name before an equals sign, and whether it has one. *)
Definition long_name (arg : string) : string * bool :=
  let name := string_drop 2 arg in
  if has_byte 61 name then (default "" (head (split_byte (az 61) name)), true) else (name, false).

Fixpoint order_from (p : parser) (skip : bool) (i : nat) (args : list string) (order : gmap string nat) : gmap string nat :=
  match args with
  | [] => order
  | arg :: rest =>
      if skip then order_from p false (S i) rest order
      else if String.eqb arg "--" then order
      else if negb (isOptionToken arg) then order_from p false (S i) rest order
      else if HasPrefix arg "--" then
        let '(name, attached) := long_name arg in
        match Lookup p name with
        | None => order_from p false (S i) rest order
        | Some f => order_from p (negb attached && String.eqb f.(fNoOptDefVal) "") (S i) rest (record p name i order)
        end
      else
        let '(order, skip) := order_cluster p (string_drop 1 arg) i order in
        order_from p skip (S i) rest order
  end.

Definition optionOrder (p : parser) (args : list string) : gmap string nat := order_from p false 0 args ∅.

(** ** The checks *)

Definition order_of (order : gmap string nat) (name : string) : nat := default 0%nat (order !! name).

(** The members of a group that were given, as the command line mentions them. *)
Definition mentioned (p : parser) (order : gmap string nat) (group : list string) : list string :=
  SortStable (fun a b => Z.of_nat (order_of order a) - Z.of_nat (order_of order b)) (List.filter (actionChanged p) group).

(** The first member that finds a sibling seen before it, and that sibling: the first
    of the group. *)
Fixpoint conflict_from (group seen names : list string) : option (string * string) :=
  match names with
  | [] => None
  | name :: names =>
      match List.find (fun sibling => negb (String.eqb sibling name) && existsb (String.eqb sibling) seen) group with
      | Some sibling => Some (name, sibling)
      | None => conflict_from group (name :: seen) names
      end
  end.

Definition conflict (p : parser) (order : gmap string nat) (group : list string) : option (string * string) :=
  match mentioned p order group with
  | [] | [_] => None
  | names => conflict_from group [] names
  end.

(** The conflict whose second option comes first on the command line. *)
Definition better (order : gmap string nat) (best found : option (string * string)) : option (string * string) :=
  match best, found with
  | Some b, Some f => if (order_of order f.1 <? order_of order b.1)%nat then found else best
  | None, _ => found
  | _, None => best
  end.

Definition usage_error (msg : string) : result goerror unit := Prelude.Err (EPlain msg).

Definition checkExclusive (p : parser) (head : list string) : result goerror unit :=
  let order := optionOrder p head in
  match foldl (fun best group => better order best (conflict p order group)) None p.(exclusive) with
  | None => Ok tt
  | Some (name, sibling) =>
      usage_error ("argument " +:+ actionName p name +:+ ": not allowed with argument " +:+ actionName p sibling)
  end.

(** Which positionals could not be filled, and the tokens nothing claimed. *)
Fixpoint match_from (specs : list positional) (args missing : list string) : list string * list string :=
  match specs with
  | [] => (missing, args)
  | spec :: specs =>
      match spec.(pKind), args with
      | nargsOne, _ :: args => match_from specs args missing
      | nargsOneOrMore, _ :: _ => match_from specs [] missing
      | nargsOne, [] | nargsOneOrMore, [] => match_from specs [] (missing ++ [spec.(pMetavar)])
      | nargsZeroOrMore, _ | nargsRemainder, _ => match_from specs [] missing
      end
  end.

Definition matchPositionals (p : parser) : list string * list string := match_from p.(positionals) p.(FlagArgs) [].

Definition missing_names (p : parser) : list string :=
  (actionName p <$> List.filter (fun name => negb (actionChanged p name)) p.(required)) ++ (matchPositionals p).1.

Definition checkRequired (p : parser) : result goerror unit :=
  match missing_names p with
  | [] => Ok tt
  | missing => usage_error ("the following arguments are required: " +:+ str_join ", " missing)
  end.

Definition checkOneRequired (p : parser) : result goerror unit :=
  match List.find (fun group => negb (existsb (actionChanged p) group)) p.(oneRequired) with
  | None => Ok tt
  | Some group => usage_error ("one of the arguments " +:+ str_join " " (actionName p <$> group) +:+ " is required")
  end.

Definition checkLeftovers (p : parser) : result goerror unit :=
  match (matchPositionals p).2 with
  | [] => Ok tt
  | extra => usage_error ("unrecognized arguments: " +:+ str_join " " extra)
  end.

Definition validate (p : parser) (head : list string) : result goerror unit :=
  let* _ := checkExclusive p head in
  let* _ := checkRequired p in
  let* _ := checkOneRequired p in
  checkLeftovers p.

(** ** Folding text

    [textwrap.wrap] on bytes: the words, packed greedily, those longer than a line
    cut. *)

Definition len (s : string) : nat := String.length s.

Definition Fields (text : string) : list string := string_of_runes <$> fields_loop (runes text) [].

(** The full lines at the start of a word that does not fit, and what is left. *)
Fixpoint chop_word (fuel width : nat) (word : string) : list string * string :=
  match fuel with
  | O => ([], word)
  | S fuel =>
      if (width <? len word)%nat then
        let '(lines, rest) := chop_word fuel width (string_drop width word) in
        (string_take width word :: lines, rest)
      else ([], word)
  end.

Definition flush (lines : list string) (line : string) : list string := if String.eqb line "" then lines else lines ++ [line].

Fixpoint wrap_words (width : nat) (words lines : list string) (line : string) : list string :=
  match words with
  | [] => flush lines line
  | word :: words =>
      let '(chunks, word) := chop_word (len word) width word in
      let '(lines, line) := match chunks with [] => (lines, line) | _ => (flush lines line ++ chunks, "") end in
      if String.eqb line "" then wrap_words width words lines word
      else if (len line + 1 + len word <=? width)%nat then wrap_words width words lines (line +:+ " " +:+ word)
      else wrap_words width words (flush lines line) word
  end.

Definition wrapText (text : string) (width : Z) : list string :=
  wrap_words (Z.to_nat (Z.max width 1)) (Fields text) [] "".

Definition fillText (text : string) (width : Z) : string := str_join nl (wrapText text width).

(** Runs of more than two newlines become two. *)
Fixpoint collapse_from (run : nat) (s : string) : string :=
  match s with
  | EmptyString => EmptyString
  | String c s =>
      if Ascii.eqb c (az 10) then (if (run <? 2)%nat then String c (collapse_from (S run) s) else collapse_from (S run) s)
      else String c (collapse_from 0 s)
  end.
Definition collapseBlankLines (s : string) : string := collapse_from 0 s.

(** ** The layout of an option *)

(** An option with no metavar takes no value. *)
Definition optionArgs (p : parser) (name : string) : string :=
  match p.(metavars) !! name with
  | None => ""
  | Some metavar =>
      match p.(listKind) !! name with
      | Some nargsOneOrMore => metavar +:+ " [" +:+ metavar +:+ " ...]"
      | Some nargsZeroOrMore => "[" +:+ metavar +:+ " ...]"
      | _ => metavar
      end
  end.

Definition positionalArgs (spec : positional) : string :=
  match spec.(pKind) with
  | nargsOneOrMore => spec.(pMetavar) +:+ " [" +:+ spec.(pMetavar) +:+ " ...]"
  | nargsZeroOrMore => "[" +:+ spec.(pMetavar) +:+ " ...]"
  | nargsRemainder => "..."
  | nargsOne => spec.(pMetavar)
  end.

Definition with_args (p : parser) (name spelled : string) : string :=
  let args := optionArgs p name in if String.eqb args "" then spelled else spelled +:+ " " +:+ args.

Definition usageInvocation (p : parser) (name : string) : string := with_args p name (default "" (head (optionStrings p name))).
Definition invocation (p : parser) (name : string) : string := with_args p name (str_join ", " (optionStrings p name)).

(** The flags that are no alias, in the order they were declared. *)
Definition actions (p : parser) : list Flag := List.filter (fun f => negb (bool_decide (is_Some (p.(aliasFor) !! f.(fName))))) p.(Flags).

Definition helpMaxPosition : nat := 24.
Definition helpWidth (consoleWidth : Z) : Z := (if consoleWidth <? 13 then 13 else consoleWidth) - 2.

Definition shown (p : parser) : list Flag := List.filter (fun f => negb f.(fHidden)) (actions p).

Definition helpPosition (p : parser) : nat :=
  let longest := foldr Nat.max 0%nat ((fun spec => len spec.(pMetavar)) <$> p.(positionals)) in
  let longest := foldr Nat.max longest ((fun f => len (invocation p f.(fName))) <$> shown p) in
  Nat.min (longest + 2 + 2) helpMaxPosition.

(** [%-*s] *)
Definition pad_right (s : string) (w : nat) : string := s +:+ spaces (Z.of_nat w - Z.of_nat (length (runes s))).

Definition formatAction (invocation help : string) (position : nat) (width : Z) : string :=
  let actionWidth := (position - 2 - 2)%nat in
  match wrapText help (Z.max (width - Z.of_nat position) 11) with
  | [] => spaces 2 +:+ invocation +:+ nl
  | first :: lines =>
      (if (len invocation <=? actionWidth)%nat then spaces 2 +:+ pad_right invocation actionWidth +:+ spaces 2 +:+ first +:+ nl
       else spaces 2 +:+ invocation +:+ nl +:+ spaces (Z.of_nat position) +:+ first +:+ nl)
      +:+ string_concat ((fun line => spaces (Z.of_nat position) +:+ line +:+ nl) <$> lines)
  end.

(** ** The usage line *)

Definition sameGroup (a b : list string) : bool := bool_decide (a = b).

(** The group of an option: the last that names it. *)
Definition groupOf (p : parser) (name : string) : option nat :=
  last (fst <$> List.filter (fun g => existsb (String.eqb name) g.2) (imap (fun i g => (i, g)) p.(exclusive))).

(** The parts of a group: a bracket before its first member and after its last, and a
    bar between them. *)
Definition group_parts (required : bool) (members : list string) : list string :=
  let '(opening, closing) := if required then (match members with [_] => ("", "") | _ => ("(", ")") end) else ("[", "]") in
  imap (fun i member =>
    (if (i =? 0)%nat then opening else "") +:+ member +:+ (if (i =? length members - 1)%nat then closing else " |")) members.

Fixpoint option_parts (p : parser) (emitted : list nat) (l : list Flag) : list string :=
  match l with
  | [] => []
  | f :: l =>
      match groupOf p f.(fName) with
      | None =>
          let part := usageInvocation p f.(fName) in
          (if existsb (String.eqb f.(fName)) p.(required) then part else "[" +:+ part +:+ "]") :: option_parts p emitted l
      | Some i =>
          if existsb (Nat.eqb i) emitted then option_parts p emitted l
          else
            let group := default [] (p.(exclusive) !! i) in
            group_parts (existsb (sameGroup group) p.(oneRequired)) (usageInvocation p <$> group) ++ option_parts p (i :: emitted) l
      end
  end.

Definition usageParts (p : parser) : list string * list string :=
  (option_parts p [] (actions p), positionalArgs <$> p.(positionals)).

(** Parts packed greedily into lines, each after [indent]; the first line starts where
    the prefix ends when there is one. *)
Fixpoint pack (width : Z) (indent : string) (parts line : list string) (lineLen : Z) : list string :=
  match parts with
  | [] => match line with [] => [] | _ => [indent +:+ str_join " " line] end
  | part :: parts =>
      match line with
      | _ :: _ =>
          if width <? lineLen + 1 + Z.of_nat (len part)
          then (indent +:+ str_join " " line) :: pack width indent parts [part] (Z.of_nat (len indent) - 1 + 1 + Z.of_nat (len part))
          else pack width indent parts (line ++ [part]) (lineLen + 1 + Z.of_nat (len part))
      | [] => pack width indent parts [part] (lineLen + 1 + Z.of_nat (len part))
      end
  end.

Definition usage_prefix : string := "usage: ".

Definition getLines (width : Z) (parts : list string) (indent : string) (hasPrefix : bool) : list string :=
  let lines := pack width indent parts [] (Z.of_nat (len (if hasPrefix then usage_prefix else indent)) - 1) in
  match lines with
  | first :: rest => if hasPrefix then string_drop (len indent) first :: rest else lines
  | [] => []
  end.

(** The floating-point comparison of the source is exact on lengths. *)
Definition formatUsage (p : parser) (width : Z) : string :=
  let prog := p.(Use) in
  let '(optParts, posParts) := usageParts p in
  let parts := optParts ++ posParts in
  let usage := TrimSpace (prog +:+ " " +:+ str_join " " parts) in
  if Z.of_nat (len usage_prefix + len usage) <=? width then usage_prefix +:+ usage +:+ nl
  else
    let lines :=
      if 4 * Z.of_nat (len usage_prefix + len prog) <=? 3 * width then
        let indent := spaces (Z.of_nat (len usage_prefix + len prog) + 1) in
        match optParts, posParts with
        | _ :: _, _ => getLines width (prog :: optParts) indent true ++ getLines width posParts indent false
        | [], _ :: _ => getLines width (prog :: posParts) indent true
        | [], [] => [prog]
        end
      else
        let indent := spaces (Z.of_nat (len usage_prefix)) in
        let lines := getLines width parts indent false in
        prog :: (if (1 <? length lines)%nat then getLines width optParts indent false ++ getLines width posParts indent false else lines)
    in usage_prefix +:+ str_join nl lines +:+ nl.

(** ** The help *)

Definition TrimNewlines (s : string) : string := TrimFunc (fun r => r =? 10) s.

Definition usageAt (p : parser) (width : Z) : string :=
  let w := helpWidth width in
  let position := helpPosition p in
  let text :=
    formatUsage p w +:+ nl +:+ fillText p.(Short) w +:+ nl +:+ nl
    +:+ (match p.(positionals) with
         | [] => ""
         | specs => nl +:+ "positional arguments:" +:+ nl
                    +:+ string_concat ((fun spec => formatAction spec.(pMetavar) spec.(pHelp) position w) <$> specs) +:+ nl
         end)
    +:+ nl +:+ "options:" +:+ nl
    +:+ string_concat ((fun f => formatAction (invocation p f.(fName)) f.(fUsage) position w) <$> shown p)
    +:+ nl +:+ fillText wikiDescription w +:+ nl +:+ nl in
  TrimNewlines (collapseBlankLines text) +:+ nl.

Definition usage (p : parser) : string := usageAt p 80.
Definition usageBlock (p : parser) : string := formatUsage p (helpWidth 80).

(** * What the checks of a parser accept

    A command line is accepted exactly when no two options of a group are given, what
    is required is there and the positionals take every token; the conflict reported
    is the one the command line runs into first. *)

(** ** Positionals *)

(** The tokens, dealt out to the positionals from the left, leave none over. *)
Inductive fills : list positional → list string → Prop :=
| fills_nil : fills [] []
| fills_one spec specs a args : spec.(pKind) = nargsOne → fills specs args → fills (spec :: specs) (a :: args)
| fills_more spec specs a args : spec.(pKind) = nargsOneOrMore → fills specs [] → fills (spec :: specs) (a :: args)
| fills_any spec specs args : spec.(pKind) = nargsZeroOrMore ∨ spec.(pKind) = nargsRemainder → fills specs [] → fills (spec :: specs) args.

Lemma match_from_prefix specs args missing : (match_from specs args missing).1 = missing ++ (match_from specs args []).1 ∧
  (match_from specs args missing).2 = (match_from specs args []).2.
Proof.
  revert args missing. induction specs as [|spec specs IH]; intros args missing; cbn [match_from]; [by rewrite app_nil_r|].
  destruct (pKind spec), args as [|a args]; try apply IH;
    (split; [rewrite (proj1 (IH [] (missing ++ _))), (proj1 (IH [] ([] ++ _))); by rewrite <- app_assoc
            |by rewrite (proj2 (IH [] (missing ++ _))), (proj2 (IH [] ([] ++ _)))]).
Qed.

Lemma match_from_fills specs args : match_from specs args [] = ([], []) ↔ fills specs args.
Proof.
  revert args. induction specs as [|spec specs IH]; intros args; cbn [match_from].
  - split; [intros [= ->]; constructor|by inversion 1].
  - assert (Hm : ∀ m l, match_from specs l ([] ++ [m]) ≠ ([], [])).
    { intros m l E. pose proof (proj1 (match_from_prefix specs l ([] ++ [m]))) as E'. by rewrite E in E'. }
    destruct (pKind spec) eqn:K, args as [|a args]; try (rewrite IH);
      (split; [intros H; try (by destruct (Hm _ _ H)); solve [econstructor; eauto]
              |inversion 1; subst; try congruence; try (by rewrite K in *; naive_solver); naive_solver]).
Qed.

Lemma matchPositionals_fills p : matchPositionals p = ([], []) ↔ fills p.(positionals) p.(FlagArgs).
Proof. apply match_from_fills. Qed.

(** ** Conflicts *)

(** Where a group declares an option. *)
Fixpoint place (x : string) (l : list string) : nat :=
  match l with
  | [] => 0
  | y :: l => if String.eqb x y then 0 else S (place x l)
  end.

Lemma place_inj x y l : x ∈ l → place x l = place y l → x = y.
Proof.
  induction l as [|z l IH]; [by intros ?%elem_of_nil|]. intros Hx. cbn [place].
  destruct (String.eqb_spec x z), (String.eqb_spec y z); subst; try done. intros [= E]. apply IH; [|done].
  by apply elem_of_cons in Hx as [->|].
Qed.

(** What a filter keeps is kept in the order of the list. *)
Lemma place_filter P l l1 l2 x y :
  List.filter P l = l1 ++ x :: l2 → y ∈ x :: l2 → y ∉ l1 → (place x l ≤ place y l)%nat.
Proof.
  revert l1. induction l as [|z l IH]; intros l1; cbn [List.filter place]; [by destruct l1|]. intros E Hy Hn.
  destruct (String.eqb_spec x z) as [->|Hx]; [lia|].
  assert (Hp : P y = true).
  { assert (Hin : y ∈ l1 ++ x :: l2) by (apply elem_of_app; by right).
    destruct (P z) eqn:Pz; rewrite <- E in Hin; [apply elem_of_cons in Hin as [->|Hin]; [done|]|];
      by apply list_elem_of_In, filter_In in Hin as [_ ?]. }
  destruct (P z) eqn:Pz.
  - destruct l1 as [|z' l1]; injection E as ? E; [by subst|]. subst z'.
    destruct (String.eqb_spec y z) as [->|]; [destruct Hn; left|]. specialize (IH l1 E Hy). apply le_n_S, IH. intros ?. apply Hn. by right.
  - destruct (String.eqb_spec y z) as [->|]; [by rewrite Hp in Pz|]. by apply le_n_S, (IH l1).
Qed.

Lemma filter_twice {A} (P Q : A → bool) l : List.filter P (List.filter Q l) = List.filter (fun x => Q x && P x) l.
Proof. induction l as [|x l IH]; [done|]. cbn. destruct (Q x); cbn; [|done]. destruct (P x); by rewrite IH. Qed.

Section conflicts.
Context (p : parser) (order : gmap string nat).

(** An option comes before another of its group: in an earlier token, or in the same one
    and declared before it. *)
Definition before (group : list string) (a b : string) : Prop :=
  (order_of order a < order_of order b)%nat ∨ order_of order a = order_of order b ∧ (place a group < place b group)%nat.

(** Two options of a group are given, the first before the second. *)
Definition clash (group : list string) (second first : string) : Prop :=
  second ∈ group ∧ first ∈ group ∧ actionChanged p second = true ∧ actionChanged p first = true ∧ before group first second.

Lemma before_total group a b : a ∈ group → a ≠ b → before group a b ∨ before group b a.
Proof.
  intros Ha Hab. assert (place a group ≠ place b group) by (intros E; by apply Hab, (place_inj a b group)).
  unfold before. lia.
Qed.

Lemma before_irrefl group a : ¬ before group a a.
Proof. unfold before. lia. Qed.

Lemma mentioned_elem group x : x ∈ mentioned p order group ↔ x ∈ group ∧ actionChanged p x = true.
Proof.
  unfold mentioned. rewrite SortStable_perm. rewrite !list_elem_of_In, filter_In. done.
Qed.

Definition earlier (a b : string) : Prop := (order_of order a ≤ order_of order b)%nat.

Lemma mentioned_sorted group : StronglySorted earlier (mentioned p order group).
Proof.
  pose proof (SortStable_sorted (fun a => Z.of_nat (order_of order a)) (List.filter (actionChanged p) group)) as H.
  unfold mentioned. induction H as [|x l _ IH Hx]; constructor; [done|].
  eapply List.Forall_impl; [|exact Hx]. intros y Hy. unfold earlier. cbn beta in Hy. lia.
Qed.

(** The names before the first that clashes are all the same. *)
Definition same (l : list string) : Prop := ∀ x y, x ∈ l → y ∈ l → x = y.

Lemma sibling_in_seen group seen name sibling :
  List.find (fun s => negb (String.eqb s name) && existsb (String.eqb s) seen) group = Some sibling →
  sibling ∈ group ∧ sibling ∈ seen ∧ name ≠ sibling.
Proof.
  intros E. apply List.find_some in E as [Hg [Hn Hs]%andb_prop]. apply list_elem_of_In in Hg. split; [done|].
  apply existsb_exists in Hs as (s & Hs & ->%String.eqb_eq). apply list_elem_of_In in Hs. split; [done|].
  intros ->. by rewrite String.eqb_refl in Hn.
Qed.

Lemma no_sibling group seen name :
  List.find (fun s => negb (String.eqb s name) && existsb (String.eqb s) seen) group = None →
  (∀ s, s ∈ seen → s ∈ group) → ∀ s, s ∈ seen → s = name.
Proof.
  intros E Hg s Hs. pose proof (List.find_none _ _ E s) as H. rewrite <- list_elem_of_In in H. specialize (H (Hg s Hs)).
  apply andb_false_iff in H as [H|H]; [by apply negb_false_iff, String.eqb_eq in H|].
  assert (existsb (String.eqb s) seen = true) as H'; [|by rewrite H' in H].
  apply existsb_exists. exists s. rewrite <- list_elem_of_In. split; [done|apply String.eqb_refl].
Qed.

Lemma same_cons name seen : same seen → (∀ s, s ∈ seen → s = name) → same (name :: seen).
Proof. intros Hs Hn x y [->|Hx]%elem_of_cons [->|Hy]%elem_of_cons; [done|by rewrite (Hn y)|by apply Hn|by apply Hs]. Qed.

Lemma conflict_from_none group names : ∀ seen, (∀ s, s ∈ seen ++ names → s ∈ group) → same seen →
  conflict_from group seen names = None → same (seen ++ names).
Proof.
  induction names as [|name names IH]; intros seen Hg Hs E; [by rewrite app_nil_r|]. cbn [conflict_from] in E.
  destruct (List.find _ group) eqn:F; [done|].
  assert (Hn : ∀ s, s ∈ seen → s = name) by (apply (no_sibling _ _ _ F); intros s Hin; apply Hg, elem_of_app; by left).
  specialize (IH (name :: seen)). intros x y Hx Hy. apply IH.
  - intros s Hin. apply Hg. set_solver.
  - by apply same_cons.
  - done.
  - set_solver.
  - set_solver.
Qed.

Lemma conflict_from_some group names second first : ∀ seen, (∀ s, s ∈ seen ++ names → s ∈ group) → same seen →
  conflict_from group seen names = Some (second, first) →
  ∃ pre post, names = pre ++ second :: post ∧ first ∈ seen ++ pre ∧ second ≠ first ∧ same (seen ++ pre).
Proof.
  induction names as [|name names IH]; intros seen Hg Hs E; [done|]. cbn [conflict_from] in E.
  destruct (List.find _ group) as [sibling|] eqn:F.
  - injection E as -> ->. apply sibling_in_seen in F as (_ & Hf & Hne). exists [], names. by rewrite app_nil_r.
  - assert (Hn : ∀ s, s ∈ seen → s = name) by (apply (no_sibling _ _ _ F); intros s Hin; apply Hg, elem_of_app; by left).
    destruct (IH (name :: seen)) as (pre & post & -> & Hf & Hne & Hsame).
    + intros s Hin. apply Hg. set_solver.
    + by apply same_cons.
    + done.
    + exists (name :: pre), post. split; [done|]. split; [set_solver|]. split; [done|].
      intros x y Hx Hy. apply Hsame; set_solver.
Qed.

Lemma conflict_names group : conflict p order group = conflict_from group [] (mentioned p order group).
Proof. unfold conflict. destruct (mentioned p order group) as [|x [|y l]]; [done| |done]. cbn. by induction group as [|g gr IH]; [|cbn; rewrite andb_false_r]. Qed.

Lemma mentioned_in_group group s : s ∈ [] ++ mentioned p order group → s ∈ group.
Proof. cbn. by intros [H _]%mentioned_elem. Qed.

Lemma conflict_none group second first : conflict p order group = None → ¬ clash group second first.
Proof.
  rewrite conflict_names. intros E (Hs & Hf & Cs & Cf & Hb).
  pose proof (conflict_from_none group _ [] (mentioned_in_group group) ltac:(intros ?? []%elem_of_nil) E) as H.
  assert (second = first) as -> by (apply H; by apply mentioned_elem). by apply before_irrefl in Hb.
Qed.

Lemma sorted_split (l1 l2 : list string) x y : StronglySorted earlier (l1 ++ x :: l2) → y ∈ l1 → earlier y x.
Proof.
  induction l1 as [|z l1 IH]; [by intros _ ?%elem_of_nil|]. cbn. intros H. inversion H as [|? ? Hs Hall]; subst.
  intros [->|Hy]%elem_of_cons; [|by apply IH].
  rewrite List.Forall_forall in Hall. apply Hall, in_or_app. right. by left.
Qed.

Lemma sorted_tail (l1 l2 : list string) x y : StronglySorted earlier (l1 ++ x :: l2) → y ∈ x :: l2 → earlier x y.
Proof.
  induction l1 as [|z l1 IH]; cbn; intros H; inversion H as [|? ? Hs Hall]; subst; [|by apply IH].
  intros [->|Hy]%elem_of_cons; [by unfold earlier|]. rewrite List.Forall_forall in Hall. by apply Hall, list_elem_of_In.
Qed.

(** The options of one token are mentioned as the group declares them. *)
Lemma mentioned_token group pre x post y : mentioned p order group = pre ++ x :: post → y ∈ x :: post → y ∉ pre →
  order_of order x = order_of order y → (place x group ≤ place y group)%nat.
Proof.
  intros E Hy Hn Ho. set (r := Z.of_nat (order_of order x)).
  pose proof (SortStable_stable (fun a => Z.of_nat (order_of order a)) r (List.filter (actionChanged p) group)) as Hs.
  change (SortStable _ _) with (mentioned p order group) in Hs. rewrite E, List.filter_app, filter_twice in Hs. cbn [List.filter] in Hs.
  replace (Z.of_nat (order_of order x) =? r) with true in Hs by (symmetry; by apply Z.eqb_eq). symmetry in Hs.
  apply (place_filter _ _ _ _ x y Hs).
  - apply elem_of_cons in Hy as [->|Hy]; [left|right]. apply list_elem_of_In, filter_In. rewrite <- list_elem_of_In.
    split; [done|]. apply Z.eqb_eq. unfold r. lia.
  - intros [Hin _]%list_elem_of_In%filter_In. by apply Hn, list_elem_of_In.
Qed.

(** The clash found is the one whose second option no other comes before. *)
Lemma conflict_some group second first : conflict p order group = Some (second, first) →
  clash group second first ∧ ∀ s f, clash group s f → ¬ before group s second.
Proof.
  rewrite conflict_names. intros E.
  destruct (conflict_from_some group _ second first [] (mentioned_in_group group) ltac:(intros ?? []%elem_of_nil) E)
    as (pre & post & Em & Hf & Hne & Hsame). cbn [app] in Hf, Hsame.
  pose proof (mentioned_sorted group) as Hs. rewrite Em in Hs.
  assert (Hin : ∀ x, x ∈ pre ++ second :: post → x ∈ group ∧ actionChanged p x = true)
    by (intros x; rewrite <- Em; apply mentioned_elem).
  assert (Hpre : ∀ x, x ∈ pre → x = first) by (intros x Hx; by apply Hsame).
  destruct pre as [|first' pre]; [by apply elem_of_nil in Hf|]. assert (first' = first) as -> by (apply Hpre; left).
  assert (Hleast : ∀ x, x ∈ first :: pre ++ second :: post → ¬ before group x first).
  { intros x Hx Hb. pose proof (sorted_tail [] (pre ++ second :: post) first x Hs Hx) as Ho. unfold earlier in Ho.
    destruct Hb as [Hb|[Eo Hp]]; [lia|].
    pose proof (mentioned_token group [] first (pre ++ second :: post) x Em Hx ltac:(by intros ?%elem_of_nil) ltac:(by symmetry)). lia. }
  assert (Hnext : ∀ x, x ∈ second :: post → x ≠ first → ¬ before group x second).
  { intros x Hx Hxf Hb. pose proof (sorted_tail (first :: pre) post second x Hs Hx) as Ho. unfold earlier in Ho.
    destruct Hb as [Hb|[Eo Hp]]; [lia|].
    pose proof (mentioned_token group (first :: pre) second post x Em Hx ltac:(by intros ?%Hpre) ltac:(by symmetry)). lia. }
  destruct (Hin second) as [H1 H2]; [set_solver|]. destruct (Hin first) as [H3 H4]; [set_solver|].
  split.
  - repeat split; try done. destruct (before_total group first second) as [|Hb]; [done..|].
    destruct (Hleast second) as []; [set_solver|done].
  - intros s f (Gs & Gf & Cs & Cf & Hb) Hb'.
    assert (Ms : s ∈ (first :: pre) ++ second :: post) by (rewrite <- Em; by apply mentioned_elem).
    assert (Mf : f ∈ (first :: pre) ++ second :: post) by (rewrite <- Em; by apply mentioned_elem).
    assert (Hsf : s ≠ first) by (intros ->; by apply (Hleast f)).
    apply elem_of_app in Ms as [Ms|Ms]; [by apply Hsf, Hpre|]. by apply (Hnext s).
Qed.

(** The best of several groups. *)
Lemma better_none best found : better order best found = None → best = None ∧ found = None.
Proof. unfold better. destruct best, found as [f|]; try done. by destruct (_ <? _)%nat. Qed.

Definition first_conflict (groups : list (list string)) : option (string * string) :=
  foldl (fun best group => better order best (conflict p order group)) None groups.

Lemma first_conflict_snoc groups g : first_conflict (groups ++ [g]) = better order (first_conflict groups) (conflict p order g).
Proof. unfold first_conflict. by rewrite foldl_app. Qed.

Lemma first_conflict_none groups : first_conflict groups = None →
  ∀ group second first, group ∈ groups → ¬ clash group second first.
Proof.
  induction groups as [|g groups IH] using rev_ind; [by intros _ ??? ?%elem_of_nil|].
  rewrite first_conflict_snoc. intros [E Eg]%better_none group s f [Hg| ->%list_elem_of_singleton]%elem_of_app; [by apply IH|].
  by apply conflict_none.
Qed.

(** The clash reported: its second option comes in the first token in which a clash is
    completed, in the first group with one there, and first in it. *)
Definition reported (groups : list (list string)) (second first : string) : Prop :=
  ∃ i group, groups !! i = Some group ∧ clash group second first ∧
    ∀ i' group' s f, groups !! i' = Some group' → clash group' s f →
      (order_of order second < order_of order s)%nat ∨
      order_of order second = order_of order s ∧ ((i < i')%nat ∨ i = i' ∧ ¬ before group s second).

Lemma first_conflict_some groups second first : first_conflict groups = Some (second, first) → reported groups second first.
Proof.
  revert second first. induction groups as [|g groups IH] using rev_ind; intros second first; [done|].
  rewrite first_conflict_snoc. set (n := length groups).
  assert (Hat : ∀ i group, (groups ++ [g]) !! i = Some group → groups !! i = Some group ∧ (i < n)%nat ∨ i = n ∧ group = g).
  { intros i group. destruct (Nat.lt_ge_cases i n) as [Hi|Hi].
    - rewrite lookup_app_l by done. by left.
    - rewrite lookup_app_r by done. intros E%list_lookup_singleton_Some. destruct E as [E <-]. right. split; [lia|done]. }
  assert (Hg : ∀ i group, groups !! i = Some group → (groups ++ [g]) !! i = Some group ∧ (i < n)%nat).
  { intros i group E. split; [by apply lookup_app_l_Some|]. by apply lookup_lt_Some in E. }
  assert (Hn : (groups ++ [g]) !! n = Some g) by (by apply list_lookup_middle).
  destruct (first_conflict groups) as [[s1 f1]|] eqn:E1, (conflict p order g) as [[s2 f2]|] eqn:E2; cbn [better fst snd]; [| | |done].
  - destruct (IH s1 f1 eq_refl) as (i & group & Hi & Hc & Hmin). destruct (conflict_some g s2 f2 E2) as [Hc2 Hmin2].
    destruct (Nat.ltb_spec (order_of order s2) (order_of order s1)); intros [= <- <-].
    + exists n, g. split; [done|]. split; [done|]. intros i' group' s f [[Hi' Hlt]|[-> ->]]%Hat Hcl; [left|].
      * specialize (Hmin i' group' s f Hi' Hcl). lia.
      * specialize (Hmin2 s f Hcl). unfold before in *. lia.
    + exists i, group. destruct (Hg i group Hi) as [Hi1 Hi2]. split; [done|]. split; [done|].
      intros i' group' s f [[Hi' Hlt]|[-> ->]]%Hat Hcl; [by apply (Hmin i' group' s f)|].
      specialize (Hmin2 s f Hcl). unfold before in *. lia.
  - intros [= <- <-]. destruct (IH s1 f1 eq_refl) as (i & group & Hi & Hc & Hmin). destruct (Hg i group Hi) as [Hi1 Hi2].
    exists i, group. split; [done|]. split; [done|].
    intros i' group' s f [[Hi' Hlt]|[-> ->]]%Hat Hcl; [by apply (Hmin i' group' s f)|]. by destruct (conflict_none g s f E2).
  - intros [= <- <-]. destruct (conflict_some g s2 f2 E2) as [Hc2 Hmin2]. exists n, g. split; [done|]. split; [done|].
    intros i' group' s f [[Hi' Hlt]|[-> ->]]%Hat Hcl.
    + apply list_elem_of_lookup_2 in Hi'. by destruct (first_conflict_none groups E1 group' s f).
    + specialize (Hmin2 s f Hcl). unfold before in *. lia.
Qed.
End conflicts.

(** ** The four checks *)

Definition conflict_error (p : parser) (second first : string) : goerror :=
  EPlain ("argument " +:+ actionName p second +:+ ": not allowed with argument " +:+ actionName p first).

Lemma checkExclusive_ok p head : checkExclusive p head = Ok tt ↔
  ∀ group a b, group ∈ p.(exclusive) → a ∈ group → b ∈ group → actionChanged p a = true → actionChanged p b = true → a = b.
Proof.
  unfold checkExclusive. set (order := optionOrder p head). fold (first_conflict p order p.(exclusive)).
  destruct (first_conflict p order (exclusive p)) as [[s f]|] eqn:E.
  - split; [done|]. intros H. apply first_conflict_some in E as (i & group & Hin & (Hs & Hf & Cs & Cf & Hb) & _).
    apply list_elem_of_lookup_2 in Hin. rewrite (H group s f) in Hb by done. by apply before_irrefl in Hb.
  - split; [|done]. intros _ group a b Hg Ha Hb Ca Cb. pose proof (first_conflict_none _ _ _ E group) as Hno.
    destruct (decide (a = b)) as [|Hne]; [done|].
    destruct (before_total order group a b Ha Hne); [destruct (Hno b a)|destruct (Hno a b)]; by try repeat split.
Qed.

Lemma checkExclusive_err p head e : checkExclusive p head = Prelude.Err e →
  ∃ second first, reported p (optionOrder p head) p.(exclusive) second first ∧ e = conflict_error p second first.
Proof.
  unfold checkExclusive. set (order := optionOrder p head). fold (first_conflict p order p.(exclusive)).
  destruct (first_conflict p order (exclusive p)) as [[s f]|] eqn:E; [|done]. intros [= <-].
  apply first_conflict_some in E. by exists s, f.
Qed.

Lemma checkRequired_ok p : checkRequired p = Ok tt ↔
  (∀ name, name ∈ p.(required) → actionChanged p name = true) ∧ (matchPositionals p).1 = [].
Proof.
  unfold checkRequired, missing_names. split.
  - intros E. destruct (_ ++ _) eqn:M; [|done]. apply app_eq_nil in M as [M ->]. split; [|done]. intros name Hin.
    destruct (actionChanged p name) eqn:C; [done|]. apply fmap_nil_inv in M.
    assert (Hf : In name (List.filter (fun name => negb (actionChanged p name)) (required p)))
      by (apply filter_In; by rewrite <- list_elem_of_In, C).
    by rewrite M in Hf.
  - intros [Hr ->]. rewrite app_nil_r. destruct (List.filter _ _) as [|name l] eqn:F; [done|].
    assert (Hf : In name (List.filter (fun name => negb (actionChanged p name)) (required p))) by (rewrite F; by left).
    apply filter_In in Hf as [Hin Hc]. apply list_elem_of_In in Hin. by rewrite Hr in Hc.
Qed.

Lemma checkOneRequired_ok p : checkOneRequired p = Ok tt ↔
  ∀ group, group ∈ p.(oneRequired) → ∃ name, name ∈ group ∧ actionChanged p name = true.
Proof.
  unfold checkOneRequired. assert (Hex : ∀ group, existsb (actionChanged p) group = true ↔ ∃ name, name ∈ group ∧ actionChanged p name = true).
  { intros group. rewrite existsb_exists. by setoid_rewrite <- list_elem_of_In. }
  destruct (List.find _ _) as [group|] eqn:F.
  - split; [done|]. intros H. apply List.find_some in F as [Hin Hn]. apply list_elem_of_In in Hin.
    apply H, Hex in Hin. by rewrite Hin in Hn.
  - split; [|done]. intros _ group Hin. apply Hex. pose proof (List.find_none _ _ F group) as Hn. cbn beta in Hn.
    rewrite <- list_elem_of_In in Hn. specialize (Hn Hin). by apply negb_false_iff in Hn.
Qed.

Lemma checkLeftovers_ok p : checkLeftovers p = Ok tt ↔ (matchPositionals p).2 = [].
Proof. unfold checkLeftovers. destruct (matchPositionals p).2; [done|]. split; [done|]. done. Qed.


(** ** Aliases *)

(** No alias of an alias: one step leads to the option itself. *)
Definition flat (p : parser) : Prop := ∀ name target, p.(aliasFor) !! name = Some target → p.(aliasFor) !! target = None.

Lemma canonical_final p name : flat p → p.(aliasFor) !! canonical p name = None.
Proof.
  intros Hf. unfold canonical. destruct (p.(aliasFor) !! name) as [target|] eqn:E.
  - destruct (size (aliasFor p)) as [|n] eqn:S; [by apply map_size_empty_inv in S; rewrite S, lookup_empty in E|].
    cbn [canonical_loop]. rewrite E. specialize (Hf _ _ E). destruct n; cbn [canonical_loop]; by rewrite Hf.
  - destruct (size _); cbn [canonical_loop]; by rewrite E.
Qed.
