(* ===== verification/CliCommands.v ===== *)
(** * The commands (cmd/kathara: the constructors of the commands, root.go)

    What each command declares: its options, their groups, its positionals, and the
    options with values the arguments are expanded for. *)

From S2P Require Export CliUsage.
Local Open Scope string_scope.
Local Open Scope list_scope.
Local Open Scope Z_scope.
Local Open Scope kat_scope.

(** A command without its body. *)
Record commandSpec : Type := mkSpec {
  csName : string; csCmd : parser; csGreedy : list greedySpec; csRemainder : bool; csStreaming : bool; csNoParser : bool
}.

(** [MarkHidden] *)
Definition hide (name : string) (p : parser) : parser :=
  with_flags ((fun f => if String.eqb f.(fName) name then mkFlag f.(fName) f.(fShorthand) f.(fUsage) f.(fNoOptDefVal) true f.(fChanged) else f)
                <$> p.(Flags)) p.

(** An option with a value and its metavar. *)
Definition valued (name short metavar usage : string) (p : parser) : parser := meta name metavar (string_flag name short usage p).

Definition registerFormat (streaming : bool) : parser → parser :=
  valued "format" "" "FORMAT" (if streaming then "Output format: human, json or jsonl." else "Output format: human or json.").

Definition registerLabRef (p : parser) : parser :=
  valued "lab-name" "" "LAB_NAME" "Address the running network scenario by name."
    (valued "lab-hash" "" "LAB_HASH" "Address the running network scenario by hash." p).

(** The steps of a declaration, in their order. *)
Definition declare (steps : list (parser → parser)) (p : parser) : parser := foldl (fun p step => step p) p steps.

Definition directory_option : parser → parser := valued "directory" "d" "DIRECTORY" "Specify the folder containing the network scenario.".
Definition vmachine_option : parser → parser := bool_flag "vmachine" "v" "The device has been started with vstart command.".
Definition mount_usage (dir place : string) (mounted : bool) : string :=
  (if mounted then "Mount " else "Do not mount ") +:+ quoted dir +:+ " directory inside " +:+ place +:+ ".".

Definition registerLstartFlags (restart : bool) : parser → parser := declare (
  [bindConst "noterminals" "" "Start the network scenario without opening terminal windows.";
   bindConst "terminals" "" "Start the network scenario opening terminal windows.";
   exclusiveGroup ["noterminals"; "terminals"];
   bindConst "privileged" "" "Start the devices in privileged mode. MUST BE ROOT FOR THIS OPTION.";
   directory_option;
   bool_flag "force-lab" "F" "Force the network scenario to start without a lab.conf or lab.dep file.";
   bool_flag "list" "l" "Show information about running devices after the network scenario has been started.";
   bindList "pass" "o" "METADATA" "Apply metadata to all devices of a network scenario during startup." greedyZeroOrMore]
  ++ (if restart then [valued "xterm" "" "XTERM" "Set a different terminal emulator application (Unix only)."]
      else [valued "terminal-emu" "" "TERMINAL_EMU" "Set a different terminal emulator application (Unix only).";
            bool_flag "print" "" "Open the lab.conf file and check if it is correct (dry run).";
            bool_flag "dry-mode" "" "Open the lab.conf file and check if it is correct (dry run).";
            alias "dry-mode" "print"; names "print" ["--print"; "--dry-mode"]])
  ++ [bindConst "no-hosthome" "H" (mount_usage "/hosthome" "devices" false);
      names "no-hosthome" ["--no-hosthome"; "-H"];
      bindConst "hosthome" "" (mount_usage "/hosthome" "devices" true);
      exclusiveGroup ["no-hosthome"; "hosthome"];
      bindConst "no-shared" "S" (mount_usage "/shared" "devices" false);
      names "no-shared" ["--no-shared"; "-S"];
      bindConst "shared" "" (mount_usage "/shared" "devices" true);
      exclusiveGroup ["no-shared"; "shared"];
      bindList "exclude" "" "DEVICE_NAME" (if restart then "Exclude specified devices." else "Exclude specified devices from startup.") greedyOneOrMore]
  ++ (if restart then []
      else [valued "from-archive" "" "ARCHIVE" "Deploy a network scenario read as a tar archive from stdin (only `-` is accepted).";
            valued "name" "" "LAB_NAME" "Name of the network scenario deployed with --from-archive."])
  ++ [pos "DEVICE_NAME" nargsZeroOrMore (if restart then "Restarts only specified devices." else "Launches only specified devices.")]).

Definition lstart_greedy : list greedySpec := [mkGreedy "pass" "o" greedyZeroOrMore; mkGreedy "exclude" "" greedyOneOrMore].

Definition newLstartCmd : commandSpec :=
  mkSpec "lstart" (registerFormat false (registerLstartFlags false (newParser "lstart"))) lstart_greedy false false false.
Definition newLrestartCmd : commandSpec :=
  mkSpec "lrestart" (registerFormat false (registerLstartFlags true (newParser "lrestart"))) lstart_greedy false false false.

Definition newLcleanCmd : commandSpec :=
  mkSpec "lclean" (declare [
    directory_option; registerLabRef; exclusiveGroup ["directory"; "lab-hash"; "lab-name"];
    bindList "exclude" "" "DEVICE_NAME" "Exclude specified devices from clean." greedyOneOrMore;
    registerFormat false;
    pos "DEVICE_NAME" nargsZeroOrMore "Clean only specified devices."] (newParser "lclean"))
  [mkGreedy "exclude" "" greedyOneOrMore] false false false.

Definition newLinfoCmd : commandSpec :=
  let watching := "Watch mode, can be used only when a network scenario is launched." in
  mkSpec "linfo" (declare [
    directory_option; bool_flag "watch" "w" watching; bool_flag "live" "l" watching; hide "live";
    alias "live" "watch"; names "watch" ["-w"; "-l"; "--watch"; "--live"];
    bool_flag "conf" "c" "Read static information from lab.conf."; exclusiveGroup ["watch"; "conf"];
    valued "name" "n" "DEVICE_NAME" "Show only information about a specified device.";
    bool_flag "topology" "t" "Get running topology info"; exclusiveGroup ["name"; "topology"];
    registerFormat false] (newParser "linfo")) [] false false false.

Definition registerConfigFlags (lab : bool) : parser → parser := declare (
  (if lab then
     [valued "directory" "d" "LAB_PATH" "Path of the network scenario to configure, if not specified the current path is used";
      registerLabRef; exclusiveGroup ["directory"; "lab-hash"; "lab-name"];
      string_flag "name" "n" "Name of the device to configure."]
   else [string_flag "name" "n" "Name of the device to be connected on desired collision domains."])
  ++ [meta "name" "DEVICE_NAME"; require ["name"];
      bindList "add" "" "CD/MAC" "Specify the collision domain to add." greedyOneOrMore;
      bindList "rm" "" "CD" "Specify the collision domain to remove." greedyOneOrMore;
      requiredGroup ["add"; "rm"]; registerFormat false]).

Definition config_greedy : list greedySpec := [mkGreedy "add" "" greedyOneOrMore; mkGreedy "rm" "" greedyOneOrMore].
Definition newLconfigCmd : commandSpec := mkSpec "lconfig" (registerConfigFlags true (newParser "lconfig")) config_greedy false false false.
Definition newVconfigCmd : commandSpec := mkSpec "vconfig" (registerConfigFlags false (newParser "vconfig")) config_greedy false false false.

Definition newVstartCmd : commandSpec :=
  mkSpec "vstart" (declare [
    bindConst "noterminals" "" "Start the device without opening a terminal window.";
    bindConst "terminals" "" "Start the device opening its terminal window.";
    valued "num_terms" "" "NUM_TERMS" "Choose the number of terminals to open for the device.";
    exclusiveGroup ["noterminals"; "terminals"; "num_terms"];
    bindConst "privileged" "" "Start the device in privileged mode. MUST BE ROOT FOR THIS OPTION.";
    valued "name" "n" "DEVICE_NAME" "Name of the device to be started."; require ["name"];
    bindList "eth" "" "N:CD/MAC" "Set a specific interface on a collision domain." greedyOneOrMore;
    bindList "exec" "e" "EXEC_COMMANDS" "Execute a specific command in the device during startup." greedyZeroOrMore;
    valued "mem" "" "MEM" "Limit the amount of RAM available for this device.";
    valued "cpus" "" "CPUS" "Limit the amount of CPU available for this device.";
    valued "image" "i" "IMAGE" "Run this device with a specific Docker Image.";
    bindConst "no-hosthome" "H" (mount_usage "/hosthome" "the device" false); names "no-hosthome" ["--no-hosthome"; "-H"];
    bindConst "hosthome" "" (mount_usage "/hosthome" "the device" true); exclusiveGroup ["no-hosthome"; "hosthome"];
    valued "terminal-emu" "" "TERMINAL_EMU" "Set a different terminal emulator application (Unix only).";
    bool_flag "print" "" "Check if the device parameters are correct (dry run).";
    bool_flag "dry-run" "" "Check if the device parameters are correct (dry run).";
    alias "dry-run" "print"; names "print" ["--print"; "--dry-run"];
    bool_flag "bridged" "" "Add a bridge interface to the device.";
    bindList "port" "" "[HOST:]GUEST[/PROTOCOL]"
      "Map localhost port HOST to the internal port GUEST of the device for the specified PROTOCOL." greedyOneOrMore;
    bindList "sysctl" "" "SYSCTL" "Set sysctl option for the device." greedyOneOrMore;
    bindList "env" "" "ENV" "Set environment variable for the device." greedyOneOrMore;
    bindList "ulimit" "" "KEY=SOFT[:HARD]" "Set ulimit for the device." greedyOneOrMore;
    bindList "volume" "" "HOST|GUEST|[MODE]" "Specify a volume to mount." greedyOneOrMore;
    valued "shell" "" "SHELL" "Set the shell (sh, bash, etc.) that should be used inside the device.";
    valued "entrypoint" "" "ENTRYPOINT" "Specify the entrypoint command of the device.";
    registerFormat false;
    pos "ARG" nargsRemainder "Specify extra arguments for the entrypoint command."] (newParser "vstart"))
  [mkGreedy "eth" "" greedyOneOrMore; mkGreedy "exec" "e" greedyZeroOrMore; mkGreedy "port" "" greedyOneOrMore;
   mkGreedy "sysctl" "" greedyOneOrMore; mkGreedy "env" "" greedyOneOrMore; mkGreedy "ulimit" "" greedyOneOrMore;
   mkGreedy "volume" "" greedyOneOrMore] true false false.

Definition newVcleanCmd : commandSpec :=
  mkSpec "vclean" (declare [valued "name" "n" "DEVICE_NAME" "The name of the device to clean."; require ["name"]; registerFormat false]
    (newParser "vclean")) [] false false false.

Definition newConnectCmd : commandSpec :=
  mkSpec "connect" (declare [
    directory_option; vmachine_option; exclusiveGroup ["directory"; "vmachine"];
    valued "shell" "" "SHELL" "Shell that should be used inside the device.";
    bool_flag "logs" "l" "Print device startup logs before launching the shell.";
    pos "DEVICE_NAME" nargsOne "Name of the device to connect to."] (newParser "connect")) [] false false false.

Definition newExecCmd : commandSpec :=
  mkSpec "exec" (declare [
    directory_option; vmachine_option; registerLabRef; exclusiveGroup ["directory"; "vmachine"; "lab-hash"; "lab-name"];
    bool_flag "no-stdout" "" "Disable stdout of the executed command.";
    bool_flag "no-stderr" "" "Disable stderr of the executed command.";
    bool_flag "wait" "" "Wait until startup commands execution finishes.";
    registerFormat true;
    pos "DEVICE_NAME" nargsOne "Name of the device to execute the command into.";
    pos "COMMAND" nargsOneOrMore "Shell command that will be executed inside the device."] (newParser "exec")) [] false true false.

Definition newListCmd : commandSpec :=
  mkSpec "list" (declare [
    bool_flag "all" "a" "Show all running Kathara devices of all users. MUST BE ROOT FOR THIS OPTION.";
    bool_flag "watch" "w" "Watch mode."; bool_flag "live" "l" "Watch mode."; hide "live";
    alias "live" "watch"; names "watch" ["-w"; "-l"; "--watch"; "--live"];
    valued "name" "n" "DEVICE_NAME" "Show only information about a specified device.";
    registerFormat false] (newParser "list")) [] false false false.

Definition newWipeCmd : commandSpec :=
  mkSpec "wipe" (declare [
    bool_flag "force" "f" "Force the wipe."; bool_flag "settings" "s" "Wipe the stored settings of the current user.";
    bool_flag "all" "a" "Wipe all Kathara devices and collision domains of all users. MUST BE ROOT FOR THIS OPTION.";
    exclusiveGroup ["settings"; "all"]; registerFormat false] (newParser "wipe")) [] false false false.

Definition newCheckCmd : commandSpec := mkSpec "check" (registerFormat false (newParser "check")) [] false false false.
Definition newSettingsCmd : commandSpec := mkSpec "settings" (newParser "settings") [] false false true.

(** The description of [config] is its own. *)
Definition set_short (short : string) (p : parser) : parser :=
  mkParser p.(Use) short p.(Flags) p.(FlagArgs) p.(metavars) p.(optNames) p.(aliasFor) p.(listKind)
    p.(required) p.(exclusive) p.(oneRequired) p.(positionals).
Definition newConfigCmd : commandSpec :=
  mkSpec "config" (declare [set_short "Read and write Kathara settings"; registerFormat false;
    pos "get|set|list|reset" nargsZeroOrMore "The settings operation to perform."] (newParser "config")) [] false false false.

Definition newAPICmd : commandSpec :=
  mkSpec "api" (declare [registerFormat false;
    pos "deploy-link|undeploy-link|copy-files|retrieve-files|check-image" nargsOne "Python API operation."] (newParser "api")) [] false false false.

Definition commandTable : list commandSpec :=
  [newLstartCmd; newLcleanCmd; newLrestartCmd; newLinfoCmd; newLconfigCmd; newVstartCmd; newVcleanCmd; newVconfigCmd;
   newConnectCmd; newExecCmd; newListCmd; newWipeCmd; newCheckCmd; newSettingsCmd; newConfigCmd; newAPICmd].

Definition command_named (name : string) : option commandSpec := List.find (fun s => String.eqb s.(csName) name) commandTable.

(** The flags that take the token after them. *)
Definition valueTaking_of (s : commandSpec) : valueTaking :=
  let takes p := existsb (fun f => String.eqb f.(fNoOptDefVal) "" && p f) s.(csCmd).(Flags) in
  mkTaking (fun name => takes (fun f => String.eqb f.(fName) name))
    (fun short => takes (fun f => negb (String.eqb f.(fShorthand) "") && String.eqb f.(fShorthand) short)).

(** ** The declarations are coherent *)

(** Options are named once, groups and aliases name options, an alias leads straight
    to its option, and the options whose runs of values are expanded are those declared
    with a list of values, with the same letter and the same number of values. *)
Definition unique (l : list string) : bool := bool_decide (NoDup l).
Definition option_names (p : parser) : list string := fName <$> p.(Flags).
Definition list_options (p : parser) : list (string * string * nargsKind) :=
  omap (fun f => kind ← p.(listKind) !! f.(fName); Some (f.(fName), f.(fShorthand), kind)) p.(Flags).
Definition greedy_options (l : list greedySpec) : list (string * string * nargsKind) :=
  (fun g => (g.(gLong), g.(gShort), match g.(gKind) with greedyOneOrMore => nargsOneOrMore | greedyZeroOrMore => nargsZeroOrMore end)) <$> l.

#[export] Instance nargsKind_eq : EqDecision nargsKind.
Proof. solve_decision. Defined.

Definition coherent (s : commandSpec) : bool :=
  let p := s.(csCmd) in
  let known name := existsb (String.eqb name) (option_names p) in
  unique (option_names p) && unique (List.filter (fun short => negb (String.eqb short "")) (fShorthand <$> p.(Flags)))
  && forallb (forallb known) p.(exclusive) && forallb (forallb known) p.(oneRequired) && forallb known p.(required)
  && forallb (fun a => known a.1 && known a.2 && bool_decide (p.(aliasFor) !! a.2 = None)) (map_to_list p.(aliasFor))
  && forallb (fun m => known m.1) (map_to_list p.(metavars)) && forallb (fun m => known m.1) (map_to_list p.(optNames))
  && bool_decide (list_options p = greedy_options s.(csGreedy)).

Example commands_coherent : forallb coherent commandTable && unique (csName <$> commandTable) = true.
Proof. vm_compute. reflexivity. Qed.

(** The help of [connect], as argparse prints it. *)
Example connect_help : usage newConnectCmd.(csCmd) = str_join nl [
  "usage: kathara connect [-h] [-d DIRECTORY | -v] [--shell SHELL] [-l]";
  "                       DEVICE_NAME"; "";
  "Connect to a Kathara device"; "";
  "positional arguments:";
  "  DEVICE_NAME           Name of the device to connect to."; "";
  "options:";
  "  -h, --help            Show a help message and exit.";
  "  -d, --directory DIRECTORY";
  "                        Specify the folder containing the network scenario.";
  "  -v, --vmachine        The device has been started with vstart command.";
  "  --shell SHELL         Shell that should be used inside the device.";
  "  -l, --logs            Print device startup logs before launching the shell."; "";
  "For examples and further information visit:";
  "https://github.com/KatharaFramework/Kathara/wiki"; ""].
Proof. vm_compute. reflexivity. Qed.

(** The options of one token count as given in the order their group declares them:
    of [wipe -as] it is [-a], given first, that is named as the one that arrived second;
    of [wipe -a -s] it is [-s]. *)
Definition with_given (given : list string) (p : parser) : parser :=
  with_flags ((fun f => mkFlag f.(fName) f.(fShorthand) f.(fUsage) f.(fNoOptDefVal) f.(fHidden)
                          (existsb (String.eqb f.(fName)) given)) <$> p.(Flags)) p.

Theorem cluster_names_the_first_given :
  let wipe := with_given ["all"; "settings"] newWipeCmd.(csCmd) in
  validate wipe ["-as"] = usage_error "argument -a/--all: not allowed with argument -s/--settings" ∧
  validate wipe ["-a"; "-s"] = usage_error "argument -s/--settings: not allowed with argument -a/--all".
Proof. vm_compute. split; reflexivity. Qed.
