(* ===== verification/CliExec.v ===== *)
(** * The output of a command (cmd/kathara/exec.go)

    The decoder of a stream of bytes that arrives in pieces, and the loop that shows
    what a command writes in the three formats; and that what is shown is the output. *)

From S2P Require Export CliConsole Params.
Local Open Scope string_scope.
Local Open Scope list_scope.
Local Open Scope Z_scope.
Local Open Scope kat_scope.

(** ** [utf8Step] *)

Inductive seq : Type := seqValid | seqInvalid | seqIncomplete.

(** [c&0xC0 == 0x80] *)
Definition cont (c : Z) : bool := Z.land c 0xC0 =? 0x80.
Definition between (lo hi c : Z) : bool := negb ((c <? lo) || (hi <? c)).

(** The bounds of the second byte of three and of four. *)
Definition bounds3 (c : Z) : Z * Z := (if c =? 0xE0 then 0xA0 else 0x80, if c =? 0xED then 0x9F else 0xBF).
Definition bounds4 (c : Z) : Z * Z := (if c =? 0xF0 then 0x90 else 0x80, if c =? 0xF4 then 0x8F else 0xBF).

(** How many bytes the sequence at the head covers; the text is never empty. *)
Definition utf8Step (b : string) : nat * seq :=
  match b with
  | EmptyString => (0%nat, seqIncomplete)
  | String a b1 =>
      let c := zb a in
      if c <? 0x80 then (1%nat, seqValid)
      else if c <? 0xC2 then (1%nat, seqInvalid)
      else if c <? 0xE0 then
        match b1 with
        | EmptyString => (1%nat, seqIncomplete)
        | String x _ => if cont (zb x) then (2%nat, seqValid) else (1%nat, seqInvalid)
        end
      else if c <? 0xF0 then
        match b1 with
        | EmptyString => (1%nat, seqIncomplete)
        | String x b2 =>
            if negb (between (bounds3 c).1 (bounds3 c).2 (zb x)) then (1%nat, seqInvalid)
            else match b2 with
                 | EmptyString => (2%nat, seqIncomplete)
                 | String y _ => if cont (zb y) then (3%nat, seqValid) else (2%nat, seqInvalid)
                 end
        end
      else if c <? 0xF5 then
        match b1 with
        | EmptyString => (1%nat, seqIncomplete)
        | String x b2 =>
            if negb (between (bounds4 c).1 (bounds4 c).2 (zb x)) then (1%nat, seqInvalid)
            else match b2 with
                 | EmptyString => (2%nat, seqIncomplete)
                 | String y b3 =>
                     if negb (cont (zb y)) then (2%nat, seqInvalid)
                     else match b3 with
                          | EmptyString => (3%nat, seqIncomplete)
                          | String z _ => if cont (zb z) then (4%nat, seqValid) else (3%nat, seqInvalid)
                          end
                 end
        end
      else (1%nat, seqInvalid)
  end.

(** ** The decoder *)

Definition replacement : string := encode_rune RuneError.

(** The text of a buffer, and the sequence at its end that is not complete. Each round
    takes a byte or more. *)
Fixpoint decode_loop (fuel : nat) (buf : string) : string * string :=
  match fuel with
  | O => ("", buf)
  | S fuel =>
      match buf with
      | EmptyString => ("", "")
      | _ =>
          let '(size, status) := utf8Step buf in
          match status with
          | seqIncomplete => ("", buf)
          | _ =>
              let '(text, pending) := decode_loop fuel (string_drop size buf) in
              ((match status with seqValid => string_take size buf | _ => replacement end) +:+ text, pending)
          end
      end
  end.

(** A decoder is what it holds back. *)
Definition utf8Decoder : Type := string.

Definition decode_chunk (d : utf8Decoder) (chunk : string) : utf8Decoder * string :=
  let buf := d +:+ chunk in
  let '(text, pending) := decode_loop (String.length buf) buf in (pending, text).

Definition decoder_flush (d : utf8Decoder) : string := if String.eqb d "" then "" else replacement.

(** ** The loop of [runExec] *)

Record execFlags : Type := mkExecFlags {
  efDirectory : string; efVmachine : bool; efLabHash : string; efLabName : string; noStdout : bool; noStderr : bool; efWait : bool
}.

(** What the backend streams: pieces of the two outputs, what ends them when it is not
    their end, and the exit code. *)
Record execStream : Type := mkExecStream { esChunks : list (string * string); esError : option goerror; esExit : result goerror Z }.

(** What is shown, and what is kept for the one document of a format that has one. *)
Record execState : Type := mkExec {
  xConsole : Console; xOut : utf8Decoder; xErr : utf8Decoder; xStdout : string; xStderr : string
}.

Section exec.
Context `{Terminals}.

(** A text of one output, in the format of the console. *)
Definition show_text (err : bool) (text : string) (x : execState) : execState :=
  let set (c : Console) := mkExec c x.(xOut) x.(xErr) x.(xStdout) x.(xStderr) in
  match x.(xConsole).(cFormat) with
  | FormatJSON =>
      if err then mkExec x.(xConsole) x.(xOut) x.(xErr) x.(xStdout) (x.(xStderr) +:+ text)
      else mkExec x.(xConsole) x.(xOut) x.(xErr) (x.(xStdout) +:+ text) x.(xStderr)
  | FormatJSONL => set (EmitStreamChunk (if err then "stderr" else "stdout") text x.(xConsole))
  | FormatHuman => set (if err then WriteErr text x.(xConsole) else WriteOut text x.(xConsole))
  end.

Definition out_chunk (chunk : string) (x : execState) : execState :=
  let '(d, text) := decode_chunk x.(xOut) chunk in
  show_text false text (mkExec x.(xConsole) d x.(xErr) x.(xStdout) x.(xStderr)).
Definition err_chunk (chunk : string) (x : execState) : execState :=
  let '(d, text) := decode_chunk x.(xErr) chunk in
  show_text true text (mkExec x.(xConsole) x.(xOut) d x.(xStdout) x.(xStderr)).

Definition when (b : bool) {A} (f : A → A) : A → A := if b then f else id.

(** One answer of the stream. *)
Definition exec_round (f : execFlags) (chunks : string * string) (x : execState) : execState :=
  let x := when (negb (String.eqb chunks.1 "") && negb f.(noStdout)) (out_chunk chunks.1) x in
  when (negb (String.eqb chunks.2 "") && negb f.(noStderr)) (err_chunk chunks.2) x.

Definition exec_loop (f : execFlags) (chunks : list (string * string)) (x : execState) : execState :=
  foldl (fun x c => exec_round f c x) x chunks.

(** The end of both outputs. *)
Definition exec_tails (f : execFlags) (x : execState) : execState :=
  let tail := decoder_flush x.(xOut) in
  let x := mkExec x.(xConsole) "" x.(xErr) x.(xStdout) x.(xStderr) in
  let x := when (negb (String.eqb tail "") && negb f.(noStdout)) (show_text false tail) x in
  let tail := decoder_flush x.(xErr) in
  let x := mkExec x.(xConsole) x.(xOut) "" x.(xStdout) x.(xStderr) in
  when (negb (String.eqb tail "") && negb f.(noStderr)) (show_text true tail) x.

(** What [runExec] shows of a stream; the code is 1 with an error. *)
Definition exec_output (f : execFlags) (s : execStream) (c : Console) : Console * (Z * option goerror) :=
  let x := exec_loop f s.(esChunks) (mkExec c "" "" "" "") in
  match s.(esError) with
  | Some e => (x.(xConsole), (1, Some e))
  | None =>
      let x := exec_tails f x in
      match s.(esExit) with
      | Prelude.Err e => (x.(xConsole), (1, Some e))
      | Ok code =>
          (match c.(cFormat) with
           | FormatJSON => Emit (ExecResult x.(xStdout) x.(xStderr) code) x.(xConsole)
           | FormatJSONL => EmitStreamExit code x.(xConsole)
           | FormatHuman => x.(xConsole)
           end, (code, None))
      end
  end.

End exec.

(** The words of the command: one word is a line for a shell. *)
Definition exec_command (words : list string) : Command :=
  match words with [word] => NewShellCommand word | _ => NewCommand words end.

Definition exec_wait (f : execFlags) : WaitPolicy := if f.(efWait) then WaitForever else NoWait.

(** A euro sign in three pieces, and one that is never finished. *)
#[local] Instance any_terminal : Terminals := {| terminalAvailable _ := Ok true |}.
Example euro : let byte n := str1 (az n) in
  exec_output (mkExecFlags "" false "" "" false false false)
    (mkExecStream [("a" +:+ byte 0xE2, byte 0xE2); (byte 0x82, ""); (byte 0xAC +:+ "b", byte 0x82)] None (Ok 3))
    (CliConsole.New None "" "" FormatHuman 10) =
  (WriteErr replacement (WriteOut ("a" +:+ encode_rune 0x20AC +:+ "b") (CliConsole.New None "" "" FormatHuman 10)), (3, None)).
Proof. vm_compute. reflexivity. Qed.

(** * What a command shows is what it wrote

    However the output of a command is cut into pieces, what is shown is the text of
    the whole: valid UTF-8, and the output itself when that is valid. *)

(** ** One step *)

Lemma cont_is_cont (a : ascii) : cont (zb a) = is_cont (zb a).
Proof. by destruct a as [[] [] [] [] [] [] [] []]. Qed.

Lemma between_within lo hi b : between lo hi b = (lo <=? b) && (b <=? hi).
Proof. unfold between. destruct (Z.ltb_spec b lo), (Z.ltb_spec hi b), (Z.leb_spec lo b), (Z.leb_spec b hi); try done; lia. Qed.

(** Comparisons one at a time, the impossible ones dropped at once. *)
Ltac byte_cases :=
  repeat match goal with
  | |- context [?a =? ?b] => destruct (Z.eqb_spec a b); try (exfalso; lia)
  | |- context [?a <? ?b] => destruct (Z.ltb_spec a b); try (exfalso; lia)
  | |- context [?a <=? ?b] => destruct (Z.leb_spec a b); try (exfalso; lia)
  end; try done; exfalso; lia.

Lemma second2 c x : 0xC2 <= c < 0xE0 → second_ok c x = is_cont x.
Proof. intros. unfold second_ok, is_cont. byte_cases. Qed.
Lemma second3 c x : 0xE0 <= c < 0xF0 → second_ok c x = between (bounds3 c).1 (bounds3 c).2 x.
Proof. intros. rewrite between_within. unfold second_ok, bounds3. cbn [fst snd]. byte_cases. Qed.
Lemma second4 c x : 0xF0 <= c < 0xF5 → second_ok c x = between (bounds4 c).1 (bounds4 c).2 x.
Proof. intros. rewrite between_within. unfold second_ok, bounds4. cbn [fst snd]. byte_cases. Qed.
Lemma second_none c x : c < 0xC2 ∨ 0xF5 <= c → second_ok c x = false.
Proof. intros. unfold second_ok. byte_cases. Qed.


(** A rune that does not decode at the head. *)
Lemma bad_head a b : GoString.decode (String a b) = (RuneError, str1 a) :: GoString.decode b → utf8_valid (String a b) = false.
Proof. intros E. unfold utf8_valid. by rewrite E. Qed.

(** A sequence that is no leading byte's, and one cut short. *)
Lemma decode_no_second a b : 0x80 <= zb a →
  match b with String x _ => second_ok (zb a) (zb x) = false | EmptyString => True end → utf8_valid (String a b) = false.
Proof.
  intros H Hx. apply bad_head. cbn [GoString.decode]. destruct (Z.ltb_spec (zb a) 0x80); [lia|]. destruct b as [|x b]; [done|]. by rewrite Hx.
Qed.
Lemma decode_no_third a x b : 0xE0 <= zb a →
  match b with String y _ => is_cont (zb y) = false | EmptyString => True end → utf8_valid (String a (String x b)) = false.
Proof.
  intros H Hy. apply bad_head. cbn [GoString.decode]. destruct (Z.ltb_spec (zb a) 0x80); [lia|]. destruct (second_ok _ _); [|done]. cbn [negb].
  destruct (Z.ltb_spec (zb a) 0xE0); [lia|]. destruct b as [|y b]; [done|]. by rewrite Hy.
Qed.
Lemma decode_no_fourth a x y b : 0xF0 <= zb a →
  match b with String z _ => is_cont (zb z) = false | EmptyString => True end → utf8_valid (String a (String x (String y b))) = false.
Proof.
  intros H Hz. apply bad_head. cbn [GoString.decode]. destruct (Z.ltb_spec (zb a) 0x80); [lia|]. destruct (second_ok _ _); [|done]. cbn [negb].
  destruct (Z.ltb_spec (zb a) 0xE0); [lia|]. destruct (is_cont (zb y)); [|done]. cbn [negb].
  destruct (Z.ltb_spec (zb a) 0xF0); [lia|]. destruct b as [|z b]; [done|]. by rewrite Hz.
Qed.

(** What a step of a kind says of the text. *)
Definition whole (n : nat) (b : string) : Prop :=
  ∃ r, bad_chunk (r, string_take n b) = false ∧
    ∀ s, utf8Step (string_take n b +:+ s) = (n, seqValid) ∧ GoString.decode (string_take n b +:+ s) = (r, string_take n b) :: GoString.decode s.

Lemma whole1 a b : zb a < 0x80 → whole 1 (String a b).
Proof.
  intros H. exists (zb a). cbn [string_take]. split.
  - unfold bad_chunk, RuneError. cbn [fst]. by destruct (Z.eqb_spec (zb a) 0xFFFD); [lia|].
  - intros s. cbn [String.append utf8Step GoString.decode]. by destruct (Z.ltb_spec (zb a) 0x80); [|lia].
Qed.

Lemma whole2 a x b : 0xC2 <= zb a < 0xE0 → cont (zb x) = true → whole 2 (String a (String x b)).
Proof.
  intros H Hx. eexists. cbn [string_take]. split; [|intros s; cbn [String.append utf8Step GoString.decode]; rewrite Hx].
  2: { destruct (Z.ltb_spec (zb a) 0x80); [lia|]. destruct (Z.ltb_spec (zb a) 0xC2); [lia|].
       destruct (Z.ltb_spec (zb a) 0xE0); [|lia]. rewrite second2, <- cont_is_cont, Hx by done. done. }
  unfold bad_chunk. cbn [fst snd String.length]. apply andb_false_r.
Qed.

Lemma whole3 a x y b : 0xE0 <= zb a < 0xF0 → between (bounds3 (zb a)).1 (bounds3 (zb a)).2 (zb x) = true → cont (zb y) = true →
  whole 3 (String a (String x (String y b))).
Proof.
  intros H Hx Hy. eexists. cbn [string_take]. split; [|intros s; cbn [String.append utf8Step GoString.decode]; rewrite Hx, Hy].
  2: { destruct (Z.ltb_spec (zb a) 0x80); [lia|]. destruct (Z.ltb_spec (zb a) 0xC2); [lia|].
       destruct (Z.ltb_spec (zb a) 0xE0); [lia|]. destruct (Z.ltb_spec (zb a) 0xF0); [|lia].
       rewrite second3, Hx, <- cont_is_cont, Hy by done. done. }
  unfold bad_chunk. cbn [fst snd String.length]. apply andb_false_r.
Qed.

Lemma whole4 a x y z b : 0xF0 <= zb a < 0xF5 → between (bounds4 (zb a)).1 (bounds4 (zb a)).2 (zb x) = true → cont (zb y) = true →
  cont (zb z) = true → whole 4 (String a (String x (String y (String z b)))).
Proof.
  intros H Hx Hy Hz. eexists. cbn [string_take]. split; [|intros s; cbn [String.append utf8Step GoString.decode]; rewrite Hx, Hy, Hz].
  2: { destruct (Z.ltb_spec (zb a) 0x80); [lia|]. destruct (Z.ltb_spec (zb a) 0xC2); [lia|].
       destruct (Z.ltb_spec (zb a) 0xE0); [lia|]. destruct (Z.ltb_spec (zb a) 0xF0); [lia|]. destruct (Z.ltb_spec (zb a) 0xF5); [|lia].
       rewrite second4, Hx, <- !cont_is_cont, Hy, Hz by done. done. }
  unfold bad_chunk. cbn [fst snd String.length]. apply andb_false_r.
Qed.

(** A step over the head agrees with the decoder of the language: a whole sequence is
    its first rune, anything else a rune that does not decode. *)
Lemma step_decode b : b ≠ "" →
  let '(n, status) := utf8Step b in
  (0 < n)%nat ∧ (n <= String.length b)%nat ∧ match status with seqValid => whole n b | _ => utf8_valid b = false end.
Proof.
  intros Hb. destruct b as [|a b1]; [done|]. clear Hb. cbn [utf8Step].
  destruct (Z.ltb_spec (zb a) 0x80); [split; [lia|]; split; [cbn; lia|by apply whole1]|].
  destruct (Z.ltb_spec (zb a) 0xC2).
  { split; [lia|]. split; [cbn; lia|]. apply decode_no_second; [done|]. destruct b1; [done|]. apply second_none. lia. }
  destruct (Z.ltb_spec (zb a) 0xE0).
  { destruct b1 as [|x b2]; [split; [lia|]; split; [cbn; lia|by apply decode_no_second]|]. destruct (cont (zb x)) eqn:X.
    - split; [lia|]. split; [cbn; lia|]. apply whole2; [lia|done].
    - split; [lia|]. split; [cbn; lia|]. apply decode_no_second; [done|]. rewrite second2, <- cont_is_cont by lia. done. }
  destruct (Z.ltb_spec (zb a) 0xF0).
  { destruct b1 as [|x b2]; [split; [lia|]; split; [cbn; lia|by apply decode_no_second]|].
    destruct (between _ _ _) eqn:X; cbn [negb]; [|split; [lia|]; split; [cbn; lia|apply decode_no_second; [done|by rewrite second3 by lia]]].
    destruct b2 as [|y b3]; [split; [lia|]; split; [cbn; lia|by apply decode_no_third]|]. destruct (cont (zb y)) eqn:Y.
    - split; [lia|]. split; [cbn; lia|]. apply whole3; [lia|done|done].
    - split; [lia|]. split; [cbn; lia|]. apply decode_no_third; [done|]. by rewrite <- cont_is_cont. }
  destruct (Z.ltb_spec (zb a) 0xF5).
  { destruct b1 as [|x b2]; [split; [lia|]; split; [cbn; lia|by apply decode_no_second]|].
    destruct (between _ _ _) eqn:X; cbn [negb]; [|split; [lia|]; split; [cbn; lia|apply decode_no_second; [done|by rewrite second4 by lia]]].
    destruct b2 as [|y b3]; [split; [lia|]; split; [cbn; lia|apply decode_no_third; [lia|done]]|].
    destruct (cont (zb y)) eqn:Y; cbn [negb]; [|split; [lia|]; split; [cbn; lia|apply decode_no_third; [lia|by rewrite <- cont_is_cont]]].
    destruct b3 as [|z b4]; [split; [lia|]; split; [cbn; lia|by apply decode_no_fourth]|]. destruct (cont (zb z)) eqn:Z.
    - split; [lia|]. split; [cbn; lia|]. apply whole4; [lia|done|done|done].
    - split; [lia|]. split; [cbn; lia|]. apply decode_no_fourth; [done|]. by rewrite <- cont_is_cont. }
  split; [lia|]. split; [cbn; lia|]. apply decode_no_second; [done|]. destruct b1; [done|]. apply second_none. lia.
Qed.

Lemma step_app b s n st : utf8Step b = (n, st) → st ≠ seqIncomplete → utf8Step (b +:+ s) = (n, st).
Proof.
  intros E Hst. destruct b as [|a [|x [|y [|z b]]]]; cbn [utf8Step String.append] in *; [by simplify_eq|..];
    repeat case_match; simplify_eq; done.
Qed.

(** ** The text of a buffer *)

Definition text_of (b : string) : string * string := decode_loop (String.length b) b.

Lemma string_drop_shorter n b : b ≠ "" → (0 < n)%nat → (String.length (string_drop n b) < String.length b)%nat.
Proof. intros Hb Hn. rewrite string_drop_length. destruct b; [done|]. cbn [String.length]. lia. Qed.

Lemma decode_loop_nonempty fuel b : b ≠ "" → decode_loop (S fuel) b =
  let '(size, status) := utf8Step b in
  match status with
  | seqIncomplete => ("", b)
  | _ => let '(text, pending) := decode_loop fuel (string_drop size b) in
         ((match status with seqValid => string_take size b | _ => replacement end) +:+ text, pending)
  end.
Proof. by destruct b. Qed.

Lemma decode_loop_fuel n : ∀ b fuel, (String.length b <= n)%nat → (String.length b <= fuel)%nat → decode_loop fuel b = text_of b.
Proof.
  induction n as [|n IH]; intros b fuel Hn Hf.
  - destruct b; [by destruct fuel|]. cbn in Hn. lia.
  - destruct (decide (b = "")) as [->|Hb]; [by destruct fuel|]. unfold text_of.
    destruct fuel as [|fuel]; [destruct b; [done|cbn in Hf; lia]|]. destruct (String.length b) as [|m] eqn:L; [by destruct b|].
    rewrite !decode_loop_nonempty by done. pose proof (step_decode b Hb) as Hs. destruct (utf8Step b) as [size status].
    destruct Hs as (Hpos & _ & _). pose proof (string_drop_shorter size b Hb Hpos) as Hd.
    rewrite (IH (string_drop size b) fuel), (IH (string_drop size b) m) by lia. done.
Qed.

(** One round of the loop. *)
Lemma text_of_step b : b ≠ "" → text_of b =
  let '(size, status) := utf8Step b in
  match status with
  | seqIncomplete => ("", b)
  | _ => let '(text, pending) := text_of (string_drop size b) in
         ((match status with seqValid => string_take size b | _ => replacement end) +:+ text, pending)
  end.
Proof.
  intros Hb. unfold text_of at 1. destruct (String.length b) as [|m] eqn:L; [by destruct b|].
  rewrite decode_loop_nonempty by done. pose proof (step_decode b Hb) as Hs. destruct (utf8Step b) as [size status].
  destruct Hs as (Hpos & _ & _). pose proof (string_drop_shorter size b Hb Hpos) as Hd.
  by rewrite (decode_loop_fuel m) by lia.
Qed.

(** Induction on what is left of a buffer. *)
Lemma text_ind (P : string → Prop) : P "" → (∀ b, b ≠ "" → (∀ n, (0 < n)%nat → P (string_drop n b)) → P b) → ∀ b, P b.
Proof.
  intros H0 Hs. assert (H : ∀ n b, (String.length b <= n)%nat → P b).
  { induction n as [|n IH]; intros b Hn; destruct (decide (b = "")) as [->|Hb]; [done| |done|].
    - destruct b; [done|]. cbn in Hn. lia.
    - apply Hs; [done|]. intros k Hk. apply IH. pose proof (string_drop_shorter k b Hb Hk). lia. }
  intros b. by apply (H (String.length b)).
Qed.

(** What is held back goes before what comes next. *)
Lemma text_of_app b s : text_of (b +:+ s) =
  let '(text, pending) := text_of b in let '(text', pending') := text_of (pending +:+ s) in (text +:+ text', pending').
Proof.
  revert b. refine (text_ind _ _ _).
  { change (text_of "") with ("", ""). cbn [String.append]. by destruct (text_of s). }
  intros b Hb IH.
  rewrite (text_of_step b Hb). pose proof (step_decode b Hb) as Hs. destruct (utf8Step b) as [size status] eqn:E.
  destruct Hs as (Hpos & Hle & _).
  assert (Hc : status = seqIncomplete ∨ status ≠ seqIncomplete) by (destruct status; auto).
  destruct Hc as [->|Hst]; [by cbn [String.append]; destruct (text_of (b +:+ s))|].
  assert (Hbs : b +:+ s ≠ "") by (by destruct b). rewrite (text_of_step _ Hbs), (step_app _ _ _ _ E Hst).
  assert (Hd : string_drop size (b +:+ s) = string_drop size b +:+ s) by (by apply string_drop_app).
  assert (Ht : string_take size (b +:+ s) = string_take size b).
  { pose proof (string_take_drop size b) as Eb. rewrite <- Eb at 1. rewrite string_app_assoc.
    assert (Hlen : String.length (string_take size b) = size)
      by (pose proof (f_equal String.length Eb) as El; rewrite string_length_app, string_drop_length in El; lia).
    rewrite <- Hlen at 1. apply string_take_app. }
  rewrite Hd, Ht, (IH size Hpos). destruct status; [| |done];
    (destruct (text_of (string_drop size b)) as [text pending], (text_of (pending +:+ s)) as [text' pending']; by rewrite string_app_assoc).
Qed.

(** The text is valid, whatever the bytes. *)
Lemma replacement_decodes s : utf8_valid (replacement +:+ s) = utf8_valid s.
Proof.
  unfold utf8_valid, replacement.
  pose proof (decode_string_of_runes [RuneError] s ltac:(by constructor)) as E.
  unfold string_of_runes in E. cbn [fmap list_fmap string_concat foldr] in E. rewrite string_app_nil_r in E. by rewrite E.
Qed.

Lemma text_of_valid b : ∀ s, utf8_valid ((text_of b).1 +:+ s) = utf8_valid s.
Proof.
  revert b. refine (text_ind _ _ _); [done|]. intros b Hb IH s. rewrite (text_of_step b Hb).
  pose proof (step_decode b Hb) as Hs. destruct (utf8Step b) as [size status]. destruct Hs as (Hpos & _ & Hw).
  specialize (IH size Hpos). destruct (text_of (string_drop size b)) as [text pending]. cbn [fst] in IH.
  destruct status; cbn [fst]; [| |done]; rewrite string_app_assoc.
  - destruct Hw as (r & Hr & Hd). unfold utf8_valid. rewrite (proj2 (Hd _)). cbn [forallb]. rewrite Hr. apply IH.
  - rewrite replacement_decodes. apply IH.
Qed.

(** A valid text comes through. *)
Lemma text_of_id b : utf8_valid b = true → text_of b = (b, "").
Proof.
  revert b. refine (text_ind _ _ _); [done|]. intros b Hb IH Hv. rewrite (text_of_step b Hb).
  pose proof (step_decode b Hb) as Hs. destruct (utf8Step b) as [size status]. destruct Hs as (Hpos & _ & Hw).
  destruct status; [|by rewrite Hv in Hw..]. destruct Hw as (r & Hr & Hd).
  rewrite (IH size Hpos); [by rewrite string_take_drop|].
  rewrite <- (string_take_drop size b) in Hv. unfold utf8_valid in Hv. rewrite (proj2 (Hd _)) in Hv. cbn [forallb] in Hv.
  by apply andb_prop in Hv as [_ Hv].
Qed.

(** What is left when the stream ends is one replacement character. *)
Definition decoded (b : string) : string := let '(text, pending) := text_of b in text +:+ decoder_flush pending.

Lemma decoded_valid b : utf8_valid (decoded b) = true.
Proof.
  unfold decoded. pose proof (text_of_valid b) as H. destruct (text_of b) as [text pending]. cbn [fst] in H. rewrite H.
  unfold decoder_flush. destruct (String.eqb pending ""); [done|]. by rewrite <- (string_app_nil_r replacement), replacement_decodes.
Qed.

Lemma decoded_id b : utf8_valid b = true → decoded b = b.
Proof. intros Hv. unfold decoded. rewrite text_of_id by done. apply string_app_nil_r. Qed.

(** ** The loop *)

Section exec.
Context `{Terminals}.

(** The texts of one side, of those that were shown. *)
Definition side (err : bool) (texts : list (bool * string)) : string :=
  string_concat (snd <$> List.filter (fun t => Bool.eqb t.1 err) texts).

Definition stream_name (err : bool) : string := if err then "stderr" else "stdout".

(** What showing a text does to the console. *)
Definition show_on (c : Console) (t : bool * string) : Console :=
  match c.(cFormat) with
  | FormatJSON => c
  | FormatJSONL => EmitStreamChunk (stream_name t.1) t.2 c
  | FormatHuman => if t.1 then WriteErr t.2 c else WriteOut t.2 c
  end.

Lemma side_app err l1 l2 : side err (l1 ++ l2) = side err l1 +:+ side err l2.
Proof. unfold side. by rewrite List.filter_app, fmap_app, string_concat_app. Qed.

Lemma side_one err e text : side err [(e, text)] = if Bool.eqb e err then text else "".
Proof. unfold side. cbn [List.filter fst]. destruct (Bool.eqb e err); [|done]. cbn. apply string_app_nil_r. Qed.

Lemma show_on_format c t : (show_on c t).(cFormat) = c.(cFormat).
Proof.
  unfold show_on, WriteErr, WriteOut, EmitStreamChunk. destruct (cFormat c) eqn:E; try done; [by destruct t.1|]. by destruct (String.eqb t.2 "").
Qed.

Lemma shown_format c texts : (foldl show_on c texts).(cFormat) = c.(cFormat).
Proof. revert c. induction texts as [|t texts IH]; intros c; [done|]. cbn [foldl]. by rewrite IH, show_on_format. Qed.

(** The state after the texts [texts], the outputs so far being [o] and [e]. *)
Definition showing (c : Console) (texts : list (bool * string)) (o e : string) (x : execState) : Prop :=
  x.(xConsole) = foldl show_on c texts ∧
  (c.(cFormat) = FormatJSON → x.(xStdout) = side false texts ∧ x.(xStderr) = side true texts) ∧
  text_of o = (side false texts, x.(xOut)) ∧ text_of e = (side true texts, x.(xErr)).

Lemma show_text_showing c texts x err text o' e' d d' :
  x.(xConsole) = foldl show_on c texts →
  (c.(cFormat) = FormatJSON → x.(xStdout) = side false texts ∧ x.(xStderr) = side true texts) →
  text_of o' = (side false (texts ++ [(err, text)]), d) → text_of e' = (side true (texts ++ [(err, text)]), d') →
  showing c (texts ++ [(err, text)]) o' e' (show_text err text (mkExec x.(xConsole) d d' x.(xStdout) x.(xStderr))).
Proof.
  intros Hc Hk Ho He. unfold showing, show_text. rewrite foldl_app. cbn [foldl xConsole xOut xErr xStdout xStderr].
  unfold show_on at 1. rewrite <- Hc. assert (F : (xConsole x).(cFormat) = c.(cFormat)) by (by rewrite Hc, shown_format).
  rewrite F in *. destruct (cFormat c) eqn:E; cbn [xConsole xOut xErr xStdout xStderr fst snd]; [by destruct err| |by destruct err].
  destruct (Hk eq_refl) as [-> ->].
  destruct err; cbn [xConsole xOut xErr xStdout xStderr]; (split; [done|]); (split; [intros _|done]);
    rewrite !side_app, !side_one; cbn [Bool.eqb]; by rewrite ?string_app_nil_r.
Qed.

Lemma out_chunk_showing c texts o e x chunk : showing c texts o e x →
  ∃ text, showing c (texts ++ [(false, text)]) (o +:+ chunk) e (out_chunk chunk x).
Proof.
  intros (Hc & Hk & Ho & He). unfold out_chunk, decode_chunk. fold (text_of (xOut x +:+ chunk)).
  pose proof (text_of_app o chunk) as Ha. rewrite Ho in Ha. destruct (text_of (xOut x +:+ chunk)) as [text pending].
  exists text. apply show_text_showing; [done|done| |]; rewrite side_app, side_one; cbn [Bool.eqb]; [done|by rewrite string_app_nil_r].
Qed.

Lemma err_chunk_showing c texts o e x chunk : showing c texts o e x →
  ∃ text, showing c (texts ++ [(true, text)]) o (e +:+ chunk) (err_chunk chunk x).
Proof.
  intros (Hc & Hk & Ho & He). unfold err_chunk, decode_chunk. fold (text_of (xErr x +:+ chunk)).
  pose proof (text_of_app e chunk) as Ha. rewrite He in Ha. destruct (text_of (xErr x +:+ chunk)) as [text pending].
  exists text. apply show_text_showing; [done|done| |]; rewrite side_app, side_one; cbn [Bool.eqb]; [by rewrite string_app_nil_r|done].
Qed.

(** What was written to a side that is not disabled. *)
Definition written (disabled : bool) (chunks : list string) : string := if disabled then "" else string_concat chunks.

Lemma written_cons disabled x l : written disabled (x :: l) = written disabled [x] +:+ written disabled l.
Proof. unfold written. destruct disabled; [done|]. apply (string_concat_app [x] l). Qed.

Lemma written_one disabled chunk : written disabled [chunk] = if disabled then "" else chunk.
Proof. unfold written. destruct disabled; [done|]. apply string_app_nil_r. Qed.

Lemma out_when c texts o e x disabled chunk : showing c texts o e x →
  ∃ texts', showing c texts' (o +:+ written disabled [chunk]) e (when (negb (String.eqb chunk "") && negb disabled) (out_chunk chunk) x).
Proof.
  intros Hx. rewrite written_one. unfold when. destruct disabled; [rewrite andb_false_r, string_app_nil_r; by exists texts|].
  destruct (String.eqb_spec chunk "") as [->|]; [rewrite string_app_nil_r; by exists texts|].
  destruct (out_chunk_showing _ _ _ _ _ chunk Hx) as (t & Ht). eauto.
Qed.

Lemma err_when c texts o e x disabled chunk : showing c texts o e x →
  ∃ texts', showing c texts' o (e +:+ written disabled [chunk]) (when (negb (String.eqb chunk "") && negb disabled) (err_chunk chunk) x).
Proof.
  intros Hx. rewrite written_one. unfold when. destruct disabled; [rewrite andb_false_r, string_app_nil_r; by exists texts|].
  destruct (String.eqb_spec chunk "") as [->|]; [rewrite string_app_nil_r; by exists texts|].
  destruct (err_chunk_showing _ _ _ _ _ chunk Hx) as (t & Ht). eauto.
Qed.

Lemma exec_loop_showing f c chunks : ∀ texts o e x, showing c texts o e x →
  ∃ texts', showing c texts' (o +:+ written f.(noStdout) (fst <$> chunks)) (e +:+ written f.(noStderr) (snd <$> chunks)) (exec_loop f chunks x).
Proof.
  unfold exec_loop. induction chunks as [|[co ce] chunks IH]; intros texts o e x Hx; cbn [foldl]; rewrite ?fmap_cons; cbn [fst snd].
  - exists texts. unfold written. cbn. by destruct (noStdout f), (noStderr f); rewrite !string_app_nil_r.
  - destruct (out_when _ _ _ _ _ f.(noStdout) co Hx) as (t1 & H1). destruct (err_when _ _ _ _ _ f.(noStderr) ce H1) as (t2 & H2).
    destruct (IH _ _ _ _ H2) as (t3 & H3). exists t3. rewrite (written_cons _ co), (written_cons _ ce), <- !string_app_assoc. exact H3.
Qed.

(** After the end of both outputs what was shown is the whole of them, decoded. *)
Definition shown (c : Console) (texts : list (bool * string)) (o e : string) (x : execState) : Prop :=
  x.(xConsole) = foldl show_on c texts ∧
  (c.(cFormat) = FormatJSON → x.(xStdout) = side false texts ∧ x.(xStderr) = side true texts) ∧
  side false texts = decoded o ∧ side true texts = decoded e.

(** The console and what is kept, after some texts. *)
Definition holds (c : Console) (texts : list (bool * string)) (x : execState) : Prop :=
  x.(xConsole) = foldl show_on c texts ∧
  (c.(cFormat) = FormatJSON → x.(xStdout) = side false texts ∧ x.(xStderr) = side true texts).

Lemma show_text_holds c texts x err text : holds c texts x → holds c (texts ++ [(err, text)]) (show_text err text x).
Proof.
  intros [Hc Hk]. unfold holds, show_text. rewrite foldl_app. cbn [foldl]. rewrite <- Hc. unfold show_on.
  assert (F : (xConsole x).(cFormat) = c.(cFormat)) by (by rewrite Hc, shown_format).
  rewrite F. destruct (cFormat c) eqn:E; [by destruct err| |by destruct err].
  destruct (Hk eq_refl) as [E1 E2]. rewrite !side_app, !side_one.
  by destruct err; cbn; rewrite ?string_app_nil_r, ?E1, ?E2.
Qed.

Lemma show_text_xErr err text x : (show_text err text x).(xErr) = x.(xErr).
Proof. unfold show_text. destruct (cFormat _), err; reflexivity. Qed.

(** The last text of a side: nothing when nothing is held back. *)
Lemma tail_holds c texts x err (disabled : bool) pending : holds c texts x → (disabled = true → pending = "") →
  ∃ texts', holds c texts' (when (negb (String.eqb (decoder_flush pending) "") && negb disabled) (show_text err (decoder_flush pending)) x) ∧
    side err texts' = side err texts +:+ decoder_flush pending ∧ side (negb err) texts' = side (negb err) texts.
Proof.
  intros Hx Hd. unfold when. destruct (String.eqb_spec (decoder_flush pending) "") as [E|E]; cbn [negb andb].
  - exists texts. by rewrite E, string_app_nil_r.
  - destruct disabled; [by destruct E; rewrite Hd|]. exists (texts ++ [(err, decoder_flush pending)]). split; [by apply show_text_holds|].
    rewrite !side_app, !side_one. by destruct err; cbn [Bool.eqb negb]; rewrite ?string_app_nil_r.
Qed.

Lemma exec_tails_shown f c texts o e x : showing c texts o e x →
  (f.(noStdout) = true → o = "") → (f.(noStderr) = true → e = "") →
  ∃ texts', holds c texts' (exec_tails f x) ∧ side false texts' = decoded o ∧ side true texts' = decoded e.
Proof.
  intros (Hc & Hk & Ho & He) Do De. unfold exec_tails.
  set (x1 := mkExec (xConsole x) "" (xErr x) (xStdout x) (xStderr x)).
  assert (H1 : holds c texts x1) by done.
  assert (D1 : noStdout f = true → xOut x = "") by (intros D; rewrite (Do D) in Ho; by injection Ho).
  destruct (tail_holds c texts x1 false (noStdout f) (xOut x) H1 D1) as (t1 & H2 & S1 & S2). cbn [negb] in S2.
  assert (E2 : (when (negb (String.eqb (decoder_flush (xOut x)) "") && negb (noStdout f)) (show_text false (decoder_flush (xOut x))) x1).(xErr) = xErr x)
    by (unfold when; destruct (negb _ && negb _); [by rewrite show_text_xErr|done]).
  revert H2 E2. generalize (when (negb (String.eqb (decoder_flush (xOut x)) "") && negb (noStdout f)) (show_text false (decoder_flush (xOut x))) x1).
  intros y H2 E2. rewrite E2. set (y1 := mkExec (xConsole y) (xOut y) "" (xStdout y) (xStderr y)).
  assert (H3 : holds c t1 y1) by done.
  assert (D2 : noStderr f = true → xErr x = "") by (intros D; rewrite (De D) in He; by injection He).
  destruct (tail_holds c t1 y1 true (noStderr f) (xErr x) H3 D2) as (t2 & H4 & S3 & S4). cbn [negb] in S4.
  exists t2. split; [done|]. unfold decoded. rewrite Ho, He, S3, S4, S1, S2. done.
Qed.

(** What the texts leave on a console for people. *)
Lemma shown_human c texts : c.(cFormat) = FormatHuman → foldl show_on c texts = out (side false texts) (err (side true texts) c).
Proof.
  revert c. induction texts as [|[e text] texts IH]; intros c F; cbn [foldl].
  - destruct c. unfold out, err, side. cbn. by rewrite !string_app_nil_r.
  - rewrite IH by (by rewrite show_on_format). unfold show_on. rewrite F.
    change ((e, text) :: texts) with ([(e, text)] ++ texts). rewrite !side_app, !side_one.
    destruct c, e; unfold WriteErr, WriteOut, out, err; cbn; by rewrite ?string_app_assoc.
Qed.

(** Without an error of the stream: the console of [exec_output]. *)
Lemma exec_output_shown f s c : s.(esError) = None →
  ∃ texts x, holds c texts x ∧ side false texts = decoded (written f.(noStdout) (fst <$> s.(esChunks))) ∧
    side true texts = decoded (written f.(noStderr) (snd <$> s.(esChunks))) ∧
    exec_output f s c =
      match s.(esExit) with
      | Prelude.Err e => (x.(xConsole), (1, Some e))
      | Ok code =>
          (match c.(cFormat) with
           | FormatJSON => Emit (ExecResult x.(xStdout) x.(xStderr) code) x.(xConsole)
           | FormatJSONL => EmitStreamExit code x.(xConsole)
           | FormatHuman => x.(xConsole)
           end, (code, None))
      end.
Proof.
  intros E. unfold exec_output. rewrite E.
  destruct (exec_loop_showing f c s.(esChunks) [] "" "" (mkExec c "" "" "" "")) as (texts & Hx); [done|]. cbn [String.append] in Hx.
  destruct (exec_tails_shown f _ _ _ _ _ Hx) as (texts' & Hh & So & Se); [by intros D; unfold written; rewrite D..|].
  by exists texts', (exec_tails f (exec_loop f (esChunks s) (mkExec c "" "" "" ""))).
Qed.

(** C33: However the output of a command is cut into pieces, be it inside a
    character, [exec] shows the text of the whole and nothing else: on each side valid
    UTF-8, the bytes themselves when they are, nothing when the side is disabled; on the
    two streams for people, in one document as JSON, and as the pieces of a stream of
    events, in their order, before the exit code. *)
Theorem exec_shows_its_output f s c code : s.(esError) = None → s.(esExit) = Ok code →
  ∃ texts, let o := side false texts in let e := side true texts in
    o = decoded (written f.(noStdout) (fst <$> s.(esChunks))) ∧ e = decoded (written f.(noStderr) (snd <$> s.(esChunks))) ∧
    utf8_valid o = true ∧ utf8_valid e = true ∧
    (utf8_valid (string_concat (fst <$> s.(esChunks))) = true → f.(noStdout) = false → o = string_concat (fst <$> s.(esChunks))) ∧
    (utf8_valid (string_concat (snd <$> s.(esChunks))) = true → f.(noStderr) = false → e = string_concat (snd <$> s.(esChunks))) ∧
    exec_output f s c =
      (match c.(cFormat) with
       | FormatHuman => out o (err e c)
       | FormatJSON => Emit (ExecResult o e code) c
       | FormatJSONL => EmitStreamExit code (foldl (fun c t => EmitStreamChunk (stream_name t.1) t.2 c) c texts)
       end, (code, None)).
Proof.
  intros Hs Hx. destruct (exec_output_shown f s c Hs) as (texts & x & [Hc Hk] & So & Se & E). exists texts. cbn zeta.
  split; [done|]. split; [done|]. split; [rewrite So; apply decoded_valid|]. split; [rewrite Se; apply decoded_valid|].
  split; [intros Hv D; rewrite So, D; by apply decoded_id|]. split; [intros Hv D; rewrite Se, D; by apply decoded_id|].
  rewrite E, Hx, Hc. f_equal. destruct (cFormat c) eqn:F.
  - by apply shown_human.
  - destruct (Hk eq_refl) as [-> ->]. f_equal. clear -F. induction texts as [|t texts IH]; [done|]. cbn [foldl]. unfold show_on at 2. by rewrite F.
  - f_equal. clear -F. revert c F. induction texts as [|t texts IH]; intros c F; [done|]. cbn [foldl]. rewrite <- IH by (by rewrite <- F, <- (show_on_format c t); unfold show_on; rewrite F).
    unfold show_on at 2. by rewrite F.
Qed.
End exec.


(** A euro sign in two pieces, written as JSON. *)
Lemma exec_shows_its_output_witness :
  let s := mkExecStream [(String (az 0xE2) (str1 (az 0x82)), "no"); (str1 (az 0xAC), "")] None (Ok 3) in
  exec_output (mkExecFlags "" false "" "" false false false) s (CliConsole.New None "" "" FormatJSON 10) =
  (Emit (ExecResult (encode_rune 0x20AC) "no" 3) (CliConsole.New None "" "" FormatJSON 10), (3, None)).
Proof.
  intros s. destruct (exec_shows_its_output (mkExecFlags "" false "" "" false false false) s (CliConsole.New None "" "" FormatJSON 10) 3)
    as (texts & _ & _ & _ & _ & Ho & He & E); [reflexivity|reflexivity|].
  rewrite E, (Ho eq_refl eq_refl), (He eq_refl eq_refl). reflexivity.
Defined.
