(* ===== verification/CliArchive.v ===== *)
(** * A scenario from an archive (cmd/kathara/archive.go)

    The extraction of the archive a scenario is read from: which paths of the host it
    writes, whatever the archive names. *)

From S2P Require Export Messages VfsInv.
Local Open Scope string_scope.
Local Open Scope list_scope.
Local Open Scope Z_scope.
Local Open Scope kat_scope.

(** ** Entries *)

(** The header of an entry, with what reading its content gives: the bytes, and the
    error that cuts them short. *)
Record header : Type := mkHeader { hName : string; hTypeflag : Z; hMode : Z; hContent : string; hCopyError : option goerror }.

Definition TypeReg : Z := 48.
Definition TypeDir : Z := 53.
Definition TypeXHeader : Z := 120.
Definition TypeXGlobalHeader : Z := 103.

Definition backslash : string := str1 (az 92).

Definition archiveEntryPath (name : string) : result goerror string :=
  let clean := Clean (ReplaceAll name backslash "/") in
  if String.eqb clean "." || String.eqb clean "" then Ok ""
  else if is_rooted clean || HasPrefix clean "../" || String.eqb clean ".." then
    Err (New ErrInvocation ("The network scenario archive contains an unsafe path `" +:+ name +:+ "`."))
  else Ok clean.

(** ** The host *)

(** What extraction does to the host's files. *)
Inductive hostWrite : Type :=
| MkdirAll (path : string) (mode : Z)
| WriteFile (path : string) (mode : Z) (content : string).

Definition write_path (w : hostWrite) : string := match w with MkdirAll p _ => p | WriteFile p _ _ => p end.

Section archive.
(** Package os: the error of a write, after those before it. *)
Context (fails : list hostWrite → hostWrite → option goerror).
(** Packages gzip and tar: what a stream decompresses to, and the entries of a stream
    with whether it ends well. *)
Context (gunzip : string → option string) (tar : string → list header * bool).

(** A program over the writes so far. *)
Definition XM (A : Type) : Type := M (list hostWrite) goerror A.

Definition host (w : hostWrite) : XM unit := fun log =>
  (log ++ [w], match fails log w with Some e => Err e | None => Ok tt end).

Definition writeArchiveFile (target : string) (h : header) : XM unit :=
  let mode := Z.land h.(hMode) 0x1FF in
  do* _ <- host (WriteFile target (if mode =? 0 then 0x1A4 else mode) h.(hContent)) in
  match h.(hCopyError) with Some e => sthrow e | None => sret tt end.

Definition extract_entry (dir : string) (h : header) : XM unit :=
  match archiveEntryPath h.(hName) with
  | Err e => sthrow e
  | Ok name =>
      if String.eqb name "" then sret tt
      else
        let target := Join [dir; name] in
        if h.(hTypeflag) =? TypeDir then host (MkdirAll target 0x1ED)
        else if h.(hTypeflag) =? TypeReg then
          do* _ <- host (MkdirAll (Dir target) 0x1ED) in writeArchiveFile target h
        else if (h.(hTypeflag) =? TypeXGlobalHeader) || (h.(hTypeflag) =? TypeXHeader) then sret tt
        else sthrow (New ErrInvocation ("The network scenario archive contains an unsupported entry `" +:+ h.(hName) +:+ "`."))
  end.

Fixpoint extract_entries (dir : string) (entries : list header) : XM unit :=
  match entries with
  | [] => sret tt
  | h :: entries => do* _ <- extract_entry dir h in extract_entries dir entries
  end.

Definition unreadable : goerror := NewOS "Cannot read the network scenario archive from stdin.".
Definition gzipMagic : list Z := [0x1F; 0x8B].

(** No reader, one whose first bytes cannot be read, or one with that content. *)
Definition extractScenarioArchive (stdin : option (option string)) (dir : string) : XM unit :=
  match stdin with
  | None | Some None => sthrow unreadable
  | Some (Some data) =>
      let source :=
        if bool_decide ((zb <$> string_bytes (string_take 2 data)) = gzipMagic) then gunzip data else Some data in
      match source with
      | None => sthrow (NewOS "The network scenario archive is not a valid gzip stream.")
      | Some source =>
          let '(entries, well) := tar source in
          do* _ <- extract_entries dir entries in
          if negb well then sthrow (NewOS "The network scenario archive is not a valid tar stream.")
          else match entries with
               | [] => sthrow (NewOS "The network scenario archive is empty.")
               | _ => sret tt
               end
      end
  end.
End archive.

(** A directory, a file in it, and a name that leads out. *)
Example extract_1 :
  let dir := mkHeader "./lab/" TypeDir 0 "" None in
  let file := mkHeader ("lab" +:+ backslash +:+ "lab.conf") TypeReg 0 "pc1[0]=A" None in
  let out := mkHeader "lab/../../etc/passwd" TypeReg 0x1ED "x" None in
  extractScenarioArchive (fun _ _ => None) Some (fun _ => ([dir; file; out], true)) (Some (Some "tar")) "/tmp/k" [] =
  ([MkdirAll "/tmp/k/lab" 0x1ED; MkdirAll "/tmp/k/lab" 0x1ED; WriteFile "/tmp/k/lab/lab.conf" 0x1A4 "pc1[0]=A"],
   Err (New ErrInvocation "The network scenario archive contains an unsafe path `lab/../../etc/passwd`.")).
Proof. vm_compute. reflexivity. Qed.

(** ** Everything is written below the directory *)

(** What a clean path keeps: some [..], then components that stand for themselves. *)
Lemma clean_relative cs : Forall (fun c => contains_byte sep c = false) cs → ∀ stack,
  (∃ n ps, stack = ps ++ repeat ".." n ∧ plain ps) →
  ∃ n ps, foldl (clean_step false) stack cs = ps ++ repeat ".." n ∧ plain ps.
Proof.
  induction 1 as [|c cs Hc _ IH]; intros stack (n & ps & -> & Hp); [by exists n, ps|]. cbn [foldl]. apply IH.
  unfold clean_step. destruct (String.eqb_spec c ""); [by exists n, ps|]. destruct (String.eqb_spec c "."); [by exists n, ps|].
  cbn [orb]. destruct (String.eqb_spec c "..") as [->|Hne].
  - destruct ps as [|p ps].
    + destruct n as [|n]; [by exists 1%nat, []|]. cbn [app repeat]. rewrite String.eqb_refl. by exists (S (S n)), [].
    + apply Forall_cons in Hp as [Hp Hps]. cbn [app].
      pose proof (plain_component_spec p Hp) as (_ & _ & Hpp & _).
      rewrite (proj2 (String.eqb_neq _ _)) by done. by exists n, ps.
  - exists n, (c :: ps). split; [done|]. constructor; [|done]. unfold plain_component.
    rewrite !(proj2 (String.eqb_neq _ _)) by done. cbn. by apply negb_true_iff.
Qed.

Lemma clean_shape p : is_rooted p = false → ∃ n ps, clean_components false (split_byte sep p) = repeat ".." n ++ ps ∧ plain ps.
Proof.
  intros _. destruct (clean_relative (split_byte sep p) (split_byte_free sep p) []) as (n & ps & E & Hp); [by exists 0%nat, []; repeat constructor|].
  exists n, (reverse ps). unfold clean_components. rewrite E, reverse_app. split; [|by apply Forall_reverse].
  f_equal. clear. induction n as [|n IH]; [done|]. cbn [repeat]. rewrite reverse_cons, IH. clear. induction n as [|n IH]; [done|]. cbn. by rewrite IH.
Qed.

Lemma HasPrefix_app a s : HasPrefix (a +:+ s) a = true.
Proof. unfold HasPrefix. induction a as [|c a IH]; [by destruct s|]. cbn. destruct (ascii_dec c c); [done|congruence]. Qed.

(** A name that is accepted is empty or made of components that stand for themselves. *)
Lemma accepted_plain name clean : archiveEntryPath name = Ok clean → clean ≠ "" →
  ∃ cs, cs ≠ [] ∧ plain cs ∧ clean = str_join "/" cs.
Proof.
  unfold archiveEntryPath. set (s := ReplaceAll name backslash "/"). intros E Hne.
  destruct (String.eqb (Clean s) "." || String.eqb (Clean s) "") eqn:E1; [by injection E as <-|].
  destruct (is_rooted (Clean s) || HasPrefix (Clean s) "../" || String.eqb (Clean s) "..") eqn:E2; [done|]. injection E as <-.
  apply orb_false_iff in E1 as [E1 _]. apply orb_false_iff in E2 as [[E2 E3]%orb_false_iff E4].
  destruct (is_rooted s) eqn:R.
  { unfold Clean in E2. rewrite R in E2. by rewrite is_rooted_slash in E2. }
  destruct (clean_shape s R) as (n & ps & Ec & Hp).
  assert (Hc : Clean s = if String.eqb (str_join "/" (repeat ".." n ++ ps)) "" then "." else str_join "/" (repeat ".." n ++ ps)).
  { unfold Clean. by rewrite R, Ec. }
  destruct (String.eqb (str_join "/" (repeat ".." n ++ ps)) "") eqn:E5; [by rewrite Hc in E1|]. rewrite Hc in E3, E4 |- *.
  destruct n as [|n].
  - cbn [repeat app] in *. exists ps. split; [by intros ->|done].
  - exfalso. cbn [repeat app] in E3, E4. destruct (repeat ".." n ++ ps) as [|q qs]; [done|].
    change (str_join "/" (".." :: q :: qs)) with ("../" +:+ str_join "/" (q :: qs)) in E3. by rewrite HasPrefix_app in E3.
Qed.

(** A path at or below the directory with these components. *)
Definition below (dir : list string) (p : string) : Prop := ∃ cs, plain cs ∧ p = "/" +:+ str_join "/" (dir ++ cs).

Lemma Clean_absolute cs : plain cs → Clean ("/" +:+ str_join "/" cs) = "/" +:+ str_join "/" cs.
Proof.
  intros Hp. unfold Clean. rewrite is_rooted_slash. f_equal. f_equal.
  change ("/" +:+ str_join "/" cs) with (String sep (str_join "/" cs)).
  destruct cs as [|c cs]; [done|].
  assert (E : split_byte sep (String sep (str_join "/" (c :: cs))) = "" :: c :: cs).
  { change (String sep (str_join "/" (c :: cs))) with (str_join (str1 sep) ("" :: c :: cs)).
    apply split_byte_join; [done|]. constructor; [done|]. by apply plain_free. }
  rewrite E. change (clean_components true ("" :: c :: cs)) with (clean_components true (c :: cs)). by apply clean_components_plain.
Qed.

Lemma str_join_app c l1 l2 : l1 ≠ [] → l2 ≠ [] → str_join c (l1 ++ l2) = str_join c l1 +:+ c +:+ str_join c l2.
Proof.
  intros H1 H2. induction l1 as [|x l1 IH]; [done|]. destruct l1 as [|y l1].
  - by destruct l2.
  - change ((x :: y :: l1) ++ l2) with (x :: (y :: l1) ++ l2).
    change (str_join c (x :: y :: l1)) with (x +:+ c +:+ str_join c (y :: l1)).
    change (str_join c (x :: (y :: l1) ++ l2)) with (x +:+ c +:+ str_join c ((y :: l1) ++ l2)).
    rewrite IH by done. by rewrite !string_app_assoc.
Qed.

(** A target, and the directory a file of it is in. *)
Lemma target_below dir cs : plain dir → plain cs → cs ≠ [] →
  Join ["/" +:+ str_join "/" dir; str_join "/" cs] = "/" +:+ str_join "/" (dir ++ cs).
Proof.
  intros Hd Hc Hne. pose proof (str_join_nonempty cs Hne Hc) as Hs. unfold Join. cbn [List.filter].
  rewrite (proj2 (String.eqb_neq (str_join "/" cs) "")) by done.
  rewrite (proj2 (String.eqb_neq ("/" +:+ str_join "/" dir) "")) by done. cbn [negb].
  destruct dir as [|d dir].
  - destruct cs as [|c cs]; [done|].
    change (Clean (str_join "/" ["/" +:+ str_join "/" []; str_join "/" (c :: cs)])) with
      (Clean (str_join (str1 sep) ("" :: "" :: c :: cs))).
    unfold Clean. change (is_rooted (str_join (str1 sep) ("" :: "" :: c :: cs))) with (is_rooted ("/" +:+ str_join (str1 sep) ("" :: c :: cs))).
    rewrite is_rooted_slash, split_byte_join; [|done|constructor; [done|]; constructor; [done|]; by apply plain_free].
    change (clean_components true ("" :: "" :: c :: cs)) with (clean_components true (c :: cs)). by rewrite clean_components_plain.
  - change (str_join "/" ["/" +:+ str_join "/" (d :: dir); str_join "/" cs]) with
      (("/" +:+ str_join "/" (d :: dir)) +:+ "/" +:+ str_join "/" cs).
    rewrite string_app_assoc, <- str_join_app by done. apply Clean_absolute. by apply Forall_app.
Qed.

Lemma Dir_below dir cs : plain dir → plain cs → cs ≠ [] → below dir (Dir ("/" +:+ str_join "/" (dir ++ cs))).
Proof.
  intros Hd Hc Hne. destruct (exists_last Hne) as (pre & x & ->). apply Forall_app in Hc as [Hpre Hx].
  exists pre. split; [done|]. rewrite app_assoc.
  assert (Hp : plain ((dir ++ pre) ++ [x])) by (by apply Forall_app; split; [apply Forall_app|]).
  destruct (dir ++ pre) as [|d ds] eqn:E.
  - unfold Dir, dir_part, Base_component. cbn [app str_join].
    assert (Es : split_byte sep ("/" +:+ x) = [""; x]).
    { change ("/" +:+ x) with (str_join (str1 sep) [""; x]). apply split_byte_join; [done|]. constructor; [done|]. by apply plain_free. }
    rewrite Es. cbn [List.last].
    replace (String.length ("/" +:+ x) - String.length x)%nat with 1%nat by (rewrite string_length_app; cbn; lia). done.
  - change ("/" +:+ str_join "/" ((d :: ds) ++ [x])) with (str_join (str1 sep) ("" :: (d :: ds) ++ [x])).
    change ("" :: (d :: ds) ++ [x]) with (("" :: d :: ds) ++ [x]).
    unfold Dir, dir_part, Base_component.
    rewrite split_byte_join; [|done|apply Forall_app in Hp as [Hp1 Hp2]; apply Forall_app; split; [constructor; [done|by apply plain_free]|by apply plain_free]].
    rewrite List.last_last, str_join_snoc by done.
    set (front := str_join (str1 sep) ("" :: d :: ds)).
    replace (String.length (front +:+ str1 sep +:+ x) - String.length x)%nat with (String.length (front +:+ str1 sep))
      by (rewrite !string_length_app; lia).
    rewrite <- string_app_assoc, string_take_app. unfold Clean.
    change (front +:+ str1 sep) with ("/" +:+ str_join (str1 sep) (d :: ds) +:+ str1 sep).
    rewrite is_rooted_slash. f_equal. f_equal.
    assert (Es : split_byte sep ("/" +:+ str_join (str1 sep) (d :: ds) +:+ str1 sep) = ("" :: d :: ds) ++ [""]).
    { replace ("/" +:+ str_join (str1 sep) (d :: ds) +:+ str1 sep) with (str_join (str1 sep) (("" :: d :: ds) ++ [""])).
      - apply split_byte_join; [done|]. apply Forall_app in Hp as [Hp1 _]. apply Forall_app; split; [constructor; [done|by apply plain_free]|by constructor].
      - rewrite str_join_snoc by done. by rewrite string_app_nil_r. }
    rewrite Es. apply Forall_app in Hp as [Hp1 _].
    change (clean_components true (("" :: d :: ds) ++ [""])) with (clean_components true ((d :: ds) ++ [""])).
    unfold clean_components. rewrite foldl_app, (foldl_clean_plain true (d :: ds)) by done. cbn [foldl].
    change (clean_step true (reverse (d :: ds) ++ []) "") with (reverse (d :: ds) ++ []). by rewrite app_nil_r, reverse_involutive.
Qed.

Section inside.
Context (fails : list hostWrite → hostWrite → option goerror) (gunzip : string → option string) (tar : string → list header * bool).
Context (dir : list string) (Hdir : plain dir).

Definition inside (w : hostWrite) : Prop := below dir (write_path w).

(** A program adds writes inside the directory only. *)
Definition stays {A} (p : XM A) : Prop := ∀ log, ∃ l, (p log).1 = log ++ l ∧ Forall inside l.

Lemma stays_ret {A} (a : A) : stays (sret a).
Proof. intros log. exists []. split; [by rewrite app_nil_r|constructor]. Qed.
Lemma stays_throw {A} e : stays (sthrow (A := A) e).
Proof. intros log. exists []. split; [by rewrite app_nil_r|constructor]. Qed.
Lemma stays_host w : inside w → stays (host fails w).
Proof. intros H log. exists [w]. by repeat constructor. Qed.
Lemma stays_bind {A B} (p : XM A) (k : A → XM B) : stays p → (∀ a, stays (k a)) → stays (sbind p k).
Proof.
  intros Hp Hk log. destruct (Hp log) as (l1 & E1 & H1). unfold sbind. destruct (p log) as [log1 [a|e]]; cbn in E1 |- *; subst log1.
  - destruct (Hk a (log ++ l1)) as (l2 & E2 & H2). exists (l1 ++ l2). by rewrite E2, app_assoc; split; [|apply Forall_app].
  - by exists l1.
Qed.

Definition root : string := "/" +:+ str_join "/" dir.

Lemma stays_entry h : stays (extract_entry fails root h).
Proof.
  unfold extract_entry. destruct (archiveEntryPath (hName h)) as [name|e] eqn:E; [|apply stays_throw].
  destruct (String.eqb_spec name "") as [->|Hne]; [apply stays_ret|].
  destruct (accepted_plain _ _ E Hne) as (cs & Hcs & Hp & ->). unfold root. rewrite target_below by done.
  assert (Ht : below dir ("/" +:+ str_join "/" (dir ++ cs))) by (by exists cs).
  destruct (_ =? TypeDir); [by apply stays_host|]. destruct (_ =? TypeReg).
  - apply stays_bind; [by apply stays_host, Dir_below|]. intros []. unfold writeArchiveFile. apply stays_bind; [by apply stays_host|].
    intros []. destruct (hCopyError h); [apply stays_throw|apply stays_ret].
  - destruct (_ || _); [apply stays_ret|apply stays_throw].
Qed.

Lemma stays_entries entries : stays (extract_entries fails root entries).
Proof. induction entries as [|h entries IH]; [apply stays_ret|]. apply stays_bind; [apply stays_entry|by intros []]. Qed.

Lemma stays_archive stdin : stays (extractScenarioArchive fails gunzip tar stdin root).
Proof.
  unfold extractScenarioArchive. destruct stdin as [[data|]|]; [|apply stays_throw..].
  destruct (if bool_decide _ then _ else _) as [source|]; [|apply stays_throw]. destruct (tar source) as [entries well].
  apply stays_bind; [apply stays_entries|]. intros []. destruct (negb well); [apply stays_throw|]. destruct entries; [apply stays_throw|apply stays_ret].
Qed.
End inside.

(** C34: Whatever archive a scenario is read from, and whatever its entries
    are called, every directory that is made and every file that is written is the
    directory it is extracted to or below it. *)
Theorem archive_stays_inside fails gunzip tar stdin dir : plain dir →
  Forall (inside dir) (extractScenarioArchive fails gunzip tar stdin ("/" +:+ str_join "/" dir) []).1.
Proof. intros Hd. destruct (stays_archive fails gunzip tar dir Hd stdin []) as (l & E & H). unfold root in E. by rewrite E. Qed.

Lemma archive_stays_inside_witness :
  let w := (extractScenarioArchive (fun _ _ => None) Some (fun _ => ([mkHeader "a/../b" TypeReg 0 "x" None], true)) (Some (Some "tar")) "/tmp/k" []).1 in
  w = [MkdirAll "/tmp/k" 0x1ED; WriteFile "/tmp/k/b" 0x1A4 "x"] ∧ Forall (inside ["tmp"; "k"]) w.
Proof.
  split; [reflexivity|]. apply (archive_stays_inside _ _ _ _ ["tmp"; "k"]). repeat constructor.
Defined.
