(* ===== verification/LabFolder.v ===== *)
(** * Directory scenarios (labfile/folder.go)

    The expansion of a path by [glob], with the translation of a pattern into a
    regular expression, and the scenario whose devices are the subdirectories of a
    directory. *)

From S2P Require Export LabConf LabInv VfsInv StrOrder.
Local Open Scope string_scope.
Local Open Scope list_scope.
Local Open Scope Z_scope.
Local Open Scope kat_scope.

(** ** Paths as [os.path] cuts and joins them *)

Definition trailing_slashes (p : string) : string :=
  bytes_string (reverse (drop_while (Ascii.eqb sep) (reverse (string_bytes p)))).

(** The head loses the separators at its end, unless it is nothing else. *)
Definition pySplitPath (p : string) : string * string :=
  let head := dir_part p in
  let trimmed := trailing_slashes head in
  (if String.eqb trimmed "" then head else trimmed, Base_component p).

Definition pyBasename (p : string) : string := (pySplitPath p).2.

Definition ends_slash (p : string) : bool := bool_decide (last (string_bytes p) = Some sep).

Definition pyJoinPath (a b : string) : string :=
  if is_rooted b then b
  else if String.eqb a "" || ends_slash a then a +:+ b
  else a +:+ "/" +:+ b.

(** The identity where paths are those of POSIX. *)
Definition pyNormcase (s : string) : string := s.

Definition hasMagic (s : string) : bool := contains_byte (az 42) s || contains_byte (az 63) s || contains_byte (az 91) s.

(** ** [fnTranslate] *)

Definition bslash : string := str1 (az 92).
Definition star_rune : Z := 42.

(** [regexp.QuoteMeta] of one character. *)
Definition QuoteMeta_rune (c : Z) : string :=
  if existsb (Z.eqb c) [92; 46; 43; 42; 63; 40; 41; 124; 91; 93; 123; 125; 94; 36] then bslash +:+ encode_rune c else encode_rune c.

(** [pat[a:b]] *)
Definition sub (pat : list Z) (a b : nat) : list Z := take (b - a) (drop a pat).

Fixpoint find_from (r : Z) (i : nat) (l : list Z) : option nat :=
  match l with [] => None | x :: l => if x =? r then Some i else find_from r (S i) l end.
Definition findRune (pat : list Z) (r : Z) (start stop : nat) : option nat := find_from r start (sub pat start stop).

(** The body of a class, cut at every dash that can start a range. *)
Fixpoint chunk_loop (fuel : nat) (pat : list Z) (i k j : nat) (chunks : list (list Z)) : nat * list (list Z) :=
  match fuel with
  | O => (i, chunks)
  | S fuel =>
      match findRune pat 45 k j with
      | None => (i, chunks)
      | Some m => chunk_loop fuel pat (m + 1) (m + 3) j (chunks ++ [sub pat i m])
      end
  end.

Definition last_chunk (chunks : list (list Z)) : list (list Z) :=
  match reverse chunks with [] => chunks | c :: front => reverse ((c ++ [45]) :: front) end.

(** A range whose ends are the wrong way round goes, from the right. *)
Fixpoint fold_ranges (chunks : list (list Z)) : list (list Z) :=
  match chunks with
  | [] => []
  | prev :: chunks =>
      match fold_ranges chunks with
      | [] => [prev]
      | cur :: rest =>
          match last prev, cur with
          | Some x, y :: ys => if y <? x then (take (length prev - 1) prev ++ ys) :: rest else prev :: cur :: rest
          | _, _ => prev :: cur :: rest
          end
      end
  end.

Definition double_bslash (s : string) : string := ReplaceAll s bslash (bslash +:+ bslash).

(** What goes between the brackets; [pat[i:j]] is the body. *)
Definition class_stuff (pat : list Z) (i j : nat) : string :=
  let body := sub pat i j in
  if negb (existsb (Z.eqb 45) body) then double_bslash (string_of_runes body)
  else
    let k := if bool_decide (pat !! i = Some 33) then (i + 2)%nat else (i + 1)%nat in
    let '(i, chunks) := chunk_loop (length pat) pat i k j [] in
    let chunks := match sub pat i j with [] => last_chunk chunks | chunk => chunks ++ [chunk] end in
    str_join "-" ((fun c => ReplaceAll (double_bslash (string_of_runes c)) "-" (bslash +:+ "-")) <$> fold_ranges chunks).

(** The escapes of the translation are passed over. *)
Fixpoint class_body (escaped : bool) (s : string) : string :=
  match s with
  | EmptyString => EmptyString
  | String c r =>
      if escaped then String c (class_body false r)
      else if Ascii.eqb c (az 92) then String c (class_body (negb (String.eqb r "")) r)
      else if Ascii.eqb c (az 93) || Ascii.eqb c (az 91) then bslash +:+ String c (class_body false r)
      else String c (class_body false r)
  end.
Definition re2ClassBody (stuff : string) : string := class_body false stuff.

(** Where the bracket that closes is, or the end of the pattern. *)
Definition closing (pat : list Z) (i : nat) : nat :=
  let j := if bool_decide (pat !! i = Some 33) then S i else i in
  let j := if bool_decide (pat !! j = Some 93) then S j else j in
  default (length pat) (find_from 93 j (drop j pat)).

(** A star, or a piece of the expression. *)
Inductive piece : Type := Star | Text (text : string).

(** The pieces from [i] on; [None] for a pattern that matches nothing. *)
Fixpoint pieces_from (fuel : nat) (pat : list Z) (i : nat) (res : list piece) : option (list piece) :=
  match fuel, pat !! i with
  | S fuel, Some c =>
      if c =? star_rune then
        pieces_from fuel pat (S i) (match last res with Some Star => res | _ => res ++ [Star] end)
      else if c =? 63 then pieces_from fuel pat (S i) (res ++ [Text "."])
      else if c =? 91 then
        let i := S i in
        let j := closing pat i in
        if (length pat <=? j)%nat then pieces_from fuel pat i (res ++ [Text (bslash +:+ "[")])
        else
          let stuff := class_stuff pat i j in
          if String.eqb stuff "" then None
          else
            let text :=
              if String.eqb stuff "!" then "."
              else
                let stuff := if HasPrefix stuff "!" then "^" +:+ string_drop 1 stuff
                             else if HasPrefix stuff "^" || HasPrefix stuff "[" then bslash +:+ stuff else stuff in
                "[" +:+ re2ClassBody stuff +:+ "]" in
            pieces_from fuel pat (S j) (res ++ [Text text])
      else pieces_from fuel pat (S i) (res ++ [Text (QuoteMeta_rune c)])
  | _, _ => Some res
  end.

Definition fnTranslate (pattern : string) : option string :=
  let pat := runes pattern in
  pieces ← pieces_from (length pat) pat 0 [];
  Some (bslash +:+ "A(?s:" +:+ string_concat ((fun p => match p with Star => ".*" | Text t => t end) <$> pieces) +:+ ")" +:+ bslash +:+ "z").

Example translate_star : fnTranslate "*" = Some (bslash +:+ "A(?s:.*)" +:+ bslash +:+ "z").
Proof. vm_compute. reflexivity. Qed.
Example translate_class : fnTranslate "a**[!x-]?.[" =
  Some (bslash +:+ "A(?s:a.*[^x" +:+ bslash +:+ "-]." +:+ bslash +:+ "." +:+ bslash +:+ "[)" +:+ bslash +:+ "z").
Proof. vm_compute. reflexivity. Qed.
Example translate_ranges : fnTranslate "[z-ab-d]" = Some (bslash +:+ "A(?s:[b-d])" +:+ bslash +:+ "z") ∧ fnTranslate "[z-a]" = None ∧
  fnTranslate "[]-a]" = Some (bslash +:+ "A(?s:[" +:+ bslash +:+ "]-a])" +:+ bslash +:+ "z").
Proof. split; [vm_compute; reflexivity|]. split; vm_compute; reflexivity. Qed.

(** ** [glob] *)

Section glob.
(** [regexp.Compile], as what the expression matches. *)
Context (Compile : string → option (string → bool)).
(** Package os: the names in a directory, whether a path leads to a directory, links
    followed, and whether it exists, links not followed. *)
Context (os_ReadDir : string → option (list string)) (is_dir : string → bool) (exists_link : string → bool).

Definition newGlobMatcher (pattern : string) (name : string) : bool :=
  match fnTranslate (pyNormcase pattern) with
  | None => false
  | Some expr => match Compile expr with None => false | Some matches => matches (pyNormcase name) end
  end.

Definition globMatchNames (names : list string) (pattern : string) : list string :=
  let hidden := HasPrefix pattern "." in
  List.filter (fun name => (hidden || negb (HasPrefix name ".")) && newGlobMatcher pattern name) names.

Definition globListDirs (dir : string) : list string :=
  match os_ReadDir (if String.eqb dir "" then "." else dir) with
  | None => []
  | Some names => List.filter (fun name => is_dir (pyJoinPath dir name)) names
  end.

(** A directory is shorter than what it is the directory of. *)
Fixpoint glob_loop (fuel : nat) (pattern : string) : list string :=
  match fuel with
  | O => []
  | S fuel =>
      let '(dirname, basename) := pySplitPath pattern in
      if String.eqb dirname "" then globMatchNames (globListDirs "") basename
      else
        let dirs := if negb (String.eqb dirname pattern) && hasMagic dirname then glob_loop fuel dirname else [dirname] in
        concat ((fun dir =>
          if hasMagic basename then pyJoinPath dir <$> globMatchNames (globListDirs dir) basename
          else if String.eqb basename "" then []
          else if exists_link (pyJoinPath dir basename) then [pyJoinPath dir basename] else []) <$> dirs)
  end.

Definition globDirs (pattern : string) : list string := glob_loop (S (String.length pattern)) pattern.

Definition machineFolders (path : string) : list string :=
  sort_strings (pyBasename <$> List.filter is_dir (globDirs (path +:+ "/*"))).

Section scenario.
Context {F : Type} (fsys : FileSystem F) `{TextCases} (cwd : option string).
Context (memory : F) (OSDir : string → option F).
Local Notation MM := (@Lab.MM F).

Fixpoint add_folders (lab : loc) (names : list string) : MM unit :=
  match names with
  | [] => sret tt
  | name :: names =>
      if IsReservedMachineName name then add_folders lab names
      else do* _ <- GetOrNewMachine fsys cwd lab name None in add_folders lab names
  end.

Definition ParseFolder (path : string) (defaults : Defaults) : MM loc :=
  do* lab <- newLab memory OSDir None path defaults in
  do* _ <- add_folders lab (machineFolders path) in
  sret lab.
End scenario.
End glob.

(** ** What a directory expands to *)

Section paths.
Implicit Type p : string.

Lemma trailing_slashes_one p : ends_slash p = false → trailing_slashes (p +:+ "/") = p.
Proof.
  intros He. unfold trailing_slashes. rewrite string_bytes_app, reverse_app. cbn [string_bytes reverse rev_append app].
  change (reverse [sep] ++ reverse (string_bytes p)) with (sep :: reverse (string_bytes p)). cbn [drop_while].
  rewrite Ascii.eqb_refl. unfold ends_slash in He. apply bool_decide_eq_false in He.
  assert (E : drop_while (Ascii.eqb sep) (reverse (string_bytes p)) = reverse (string_bytes p)).
  { destruct (reverse (string_bytes p)) as [|a r] eqn:R; [done|]. cbn [drop_while].
    destruct (Ascii.eqb_spec sep a) as [<-|]; [|done]. exfalso. apply He.
    rewrite <- (reverse_involutive (string_bytes p)), R, reverse_cons. apply last_snoc. }
  rewrite E, reverse_involutive. apply bytes_string_bytes.
Qed.

Lemma pySplitPath_under p name : p ≠ "" → ends_slash p = false → contains_byte sep name = false →
  pySplitPath (p +:+ "/" +:+ name) = (p, name).
Proof.
  intros Hne He Hn. unfold pySplitPath. rewrite dir_part_under, basename_under, trailing_slashes_one by done.
  by rewrite (proj2 (String.eqb_neq _ _) Hne).
Qed.

Lemma pyJoinPath_under p name : p ≠ "" → ends_slash p = false → is_rooted name = false → pyJoinPath p name = p +:+ "/" +:+ name.
Proof. intros Hne He Hn. unfold pyJoinPath. by rewrite Hn, He, (proj2 (String.eqb_neq _ _) Hne). Qed.
End paths.

(** The documented behaviour of package regexp on the one expression a scenario
    directory gives rise to, and of package os on the names of a directory. *)
Definition star_expr : string := bslash +:+ "A(?s:.*)" +:+ bslash +:+ "z".
Definition matches_anything (Compile : string → option (string → bool)) : Prop :=
  ∃ m, Compile star_expr = Some m ∧ ∀ s, m s = true.
Definition names_are_names (os_ReadDir : string → option (list string)) : Prop :=
  ∀ dir names, os_ReadDir dir = Some names → NoDup names ∧ Forall (fun n => contains_byte sep n = false) names.

(** The path of a scenario: not empty, without a slash at its end or a character of a pattern. *)
Definition scenario_path (path : string) : Prop := path ≠ "" ∧ ends_slash path = false ∧ hasMagic path = false.

Lemma rooted_slash name : is_rooted name = true → contains_byte sep name = true.
Proof. destruct name as [|a name]; [done|]. rewrite is_rooted_cons. intros E. cbn [contains_byte]. by rewrite E. Qed.

(** The names a directory scenario is made of. *)
Definition visible (n : string) : bool := negb (HasPrefix n ".").
Definition subdirectories (os_ReadDir : string → option (list string)) (is_dir : string → bool) (path : string) : list string :=
  List.filter (fun n => visible n && is_dir (pyJoinPath path n)) (default [] (os_ReadDir path)).

Section expansion.
Context (Compile : string → option (string → bool)).
Context (os_ReadDir : string → option (list string)) (is_dir : string → bool) (exists_link : string → bool).
Context (HC : matches_anything Compile) (HN : names_are_names os_ReadDir).

Lemma star_matches name : newGlobMatcher Compile "*" name = true.
Proof. unfold newGlobMatcher. change (fnTranslate (pyNormcase "*")) with (Some star_expr). destruct HC as (m & -> & Hm). apply Hm. Qed.

Lemma globMatchNames_star names : globMatchNames Compile names "*" = List.filter visible names.
Proof.
  unfold globMatchNames. change (HasPrefix "*" ".") with false. apply filter_ext. intros n. rewrite star_matches. by rewrite andb_true_r.
Qed.

Lemma filter_filter_and {A} (p q : A → bool) l : List.filter p (List.filter q l) = List.filter (fun x => p x && q x) l.
Proof. induction l as [|x l IH]; [done|]. cbn. destruct (q x); cbn; destruct (p x); cbn; by rewrite IH. Qed.

Lemma filter_all {A} (p : A → bool) l : (∀ x, x ∈ l → p x = true) → List.filter p l = l.
Proof.
  induction l as [|x l IH]; intros H; [done|]. cbn. rewrite (H x) by left. f_equal. apply IH. intros y Hy. apply H. by right.
Qed.

Lemma globDirs_star path : scenario_path path →
  globDirs Compile os_ReadDir is_dir exists_link (path +:+ "/*") = pyJoinPath path <$> subdirectories os_ReadDir is_dir path.
Proof.
  intros (Hne & He & Hm). unfold globDirs. cbn [glob_loop].
  change (path +:+ "/*") with (path +:+ "/" +:+ "*"). rewrite pySplitPath_under by done.
  rewrite (proj2 (String.eqb_neq _ _) Hne), Hm, andb_false_r. change (hasMagic "*") with true. cbn [fmap list_fmap concat app].
  rewrite app_nil_r, globMatchNames_star. unfold globListDirs, subdirectories. rewrite (proj2 (String.eqb_neq _ _) Hne).
  destruct (os_ReadDir path) as [names|]; [|done]. cbn [default]. by rewrite filter_filter_and.
Qed.

Lemma subdirectory_names path n : n ∈ subdirectories os_ReadDir is_dir path → contains_byte sep n = false ∧ is_dir (pyJoinPath path n) = true.
Proof.
  unfold subdirectories. intros Hn. apply list_elem_of_In, filter_In in Hn as [Hn [_ Hd]%andb_prop]. split; [|done].
  destruct (os_ReadDir path) as [names|] eqn:E; [|done]. destruct (HN _ _ E) as [_ Hall].
  rewrite Forall_forall in Hall. by apply Hall, list_elem_of_In.
Qed.

(** The devices of a directory scenario are its subdirectories that are not hidden. *)
Lemma machineFolders_exact path : scenario_path path →
  machineFolders Compile os_ReadDir is_dir exists_link path = sort_strings (subdirectories os_ReadDir is_dir path).
Proof.
  intros Hp. unfold machineFolders. rewrite globDirs_star by done. f_equal. destruct Hp as (Hne & He & _).
  rewrite filter_all; [|intros x Hx; apply list_elem_of_fmap in Hx as (n & -> & Hn); by apply (subdirectory_names path)].
  rewrite <- list_fmap_compose. etrans; [|apply list_fmap_id]. apply list_fmap_ext. intros i n Hn. apply list_elem_of_lookup_2 in Hn.
  apply subdirectory_names in Hn as [Hn _].
  assert (Hr : is_rooted n = false) by (destruct (is_rooted n) eqn:R; [apply rooted_slash in R; congruence|done]).
  change (pyBasename (pyJoinPath path n) = n). unfold pyBasename. rewrite pyJoinPath_under by done. by rewrite pySplitPath_under.
Qed.

Lemma subdirectories_NoDup path : NoDup (sort_strings (subdirectories os_ReadDir is_dir path)).
Proof.
  unfold sort_strings. rewrite SortStable_perm. unfold subdirectories. destruct (os_ReadDir path) as [names|] eqn:E; [|constructor].
  destruct (HN _ _ E) as [Hnd _]. cbn [default]. apply NoDup_ListNoDup, List.NoDup_filter. by apply NoDup_ListNoDup.
Qed.
End expansion.

(** ** The scenario *)

Section devices.
Context {F : Type} (fsys : FileSystem F) `{TextCases} (cwd : option string).
Context (memory : F) (OSDir : string → option F).

(** A device is added at the end of a scenario that has none of that name. *)
Lemma GetOrNewMachine_adds h lab b name : lab_inv h lab b → Has b.(labMachines) name = false → pyStrip name = name →
  (∃ e, GetOrNewMachine fsys cwd lab name None h = (h, Err (Go e))) ∨
  ∃ h' b' l, GetOrNewMachine fsys cwd lab name None h = (h', Ok l) ∧ lab_inv h' lab b' ∧
    Keys b'.(labMachines) = Keys b.(labMachines) ++ [name] ∧ b'.(labLinks) = b.(labLinks).
Proof.
  intros Hi Hh Hs. pose proof Hh as Hn. apply has_get_false in Hn. unfold GetOrNewMachine.
  rewrite (bind_ok _ _ _ _ _ (getLab_run h lab b (li_lab _ _ _ Hi))), Hn. unfold register.
  destruct (newMachine_run fsys cwd h lab b name None (li_lab _ _ _ Hi)) as [[e He]|(m & He & En & Hv & El & Hmo & Eif)].
  - left. exists e. by rewrite (bind_err _ _ _ _ _ He).
  - right. rewrite (bind_ok _ _ _ _ _ He). rewrite Hs in *.
    rewrite (bind_ok _ _ _ _ _ (getLab_run (upd_machine _ _ (bump h)) lab b (li_lab _ _ _ Hi))).
    eexists _, _, _. split; [reflexivity|]. split; [by apply (inv_register h lab b name m)|].
    split; [|done]. cbn [set_labMachines labMachines]. by rewrite keys_set, Hh.
Qed.

Lemma add_folders_run lab names : ∀ h b h', lab_inv h lab b → NoDup names → Forall (fun n => pyStrip n = n) names →
  (∀ n, n ∈ names → Has b.(labMachines) n = false) →
  add_folders fsys cwd lab names h = (h', Ok tt) →
  ∃ b', lab_inv h' lab b' ∧ Keys b'.(labMachines) = Keys b.(labMachines) ++ List.filter (fun n => negb (IsReservedMachineName n)) names ∧
    b'.(labLinks) = b.(labLinks).
Proof.
  induction names as [|n names IH]; intros h b h' Hi Hnd Hst Hnew E.
  { injection E as <-. exists b. by rewrite app_nil_r. }
  apply NoDup_cons in Hnd as [Hn Hnd]. apply Forall_cons in Hst as [Hs Hst]. cbn [add_folders] in E. cbn [List.filter].
  destruct (IsReservedMachineName n); cbn [negb]; [apply (IH h); try done; intros x Hx; apply Hnew; by right|].
  destruct (GetOrNewMachine_adds h lab b n Hi) as [[e Ee]|(h1 & b1 & l & El & Hi1 & Hk & Hl)]; [apply Hnew; by left|done| |].
  { by rewrite (bind_err _ _ _ _ _ Ee) in E. }
  rewrite (bind_ok _ _ _ _ _ El) in E. destruct (IH h1 b1 h' Hi1 Hnd Hst) as (b' & Hi' & Hk' & Hl').
  - intros x Hx. destruct (Has (labMachines b1) x) eqn:Hh; [|done]. apply elem_of_keys in Hh; [|apply Hi1].
    rewrite Hk in Hh. apply elem_of_app in Hh as [Hh|Hh%list_elem_of_singleton]; [|by subst].
    apply elem_of_keys in Hh; [|apply Hi]. rewrite Hnew in Hh; [done|by right].
  - done.
  - exists b'. split; [done|]. rewrite Hk', Hk, Hl', Hl. by rewrite <- app_assoc.
Qed.

Lemma newLab_empty name path defaults h lab : newLab memory OSDir name path defaults empty_heap = (h, Ok lab) →
  ∃ b, lab_inv h lab b ∧ b.(labMachines) = NewOrderedMap ∧ b.(labLinks) = NewOrderedMap.
Proof.
  intros E. destruct (newLab_inv memory OSDir name path defaults h lab E) as (b & Hi). exists b. split; [done|].
  pose proof (li_lab _ _ _ Hi) as Hb. unfold newLab, sbind, newLoc, putLab, smodify, sret, throw, sthrow in E.
  destruct (String.eqb path ""); [|destruct (OSDir path); [|done]]; simplify_eq; cbn in Hb; rewrite lookup_insert_eq in Hb; by simplify_eq.
Qed.

End devices.

(** A directory with a hidden one, a file, a reserved one and two devices. *)
Definition small_dir (dir : string) : option (list string) :=
  if String.eqb dir "/lab" then Some [".git"; "shared"; "pc2"; "lab.ext"; "pc1"] else None.
Definition small_parse : heap memFS * result failure loc :=
  @ParseFolder (fun _ => Some (fun _ => true)) small_dir (fun p => negb (String.eqb p "/lab/lab.ext")) (fun _ => true)
    memFS Memory_FS (ToLower : TextCases) None Memory (fun _ => Some Memory) "/lab" DefaultDefaults empty_heap.


(** A name that [str.strip] changes is registered as it is, though the device is
    called by what is left of it. *)
Example blank_name :
  let s := @ParseFolder (fun _ => Some (fun _ => true)) (fun _ => Some ["pc1 "]) (fun _ => true) (fun _ => true)
    memFS Memory_FS (ToLower : TextCases) None Memory (fun _ => Some Memory) "/lab" DefaultDefaults empty_heap in
  (b ← s.1.(hLabs) !! 1%positive; l ← Get b.(labMachines) "pc1 "; m ← s.1.(hMachines) !! l; Some m.(mName)) = Some "pc1".
Proof. vm_compute. reflexivity. Qed.
