(* ===== verification/RealPath.v ===== *)
(** * Absolute paths (internal/util/realpath_unix.go, path.go)

    The walk over the components of a path that follows symbolic links, with its stack
    of components, markers for links being resolved, and the table of links seen; that
    it ends, and where. *)

From S2P Require Export GoPath Errors.
From S2P Require Export VfsInv.
Local Open Scope string_scope.
Local Open Scope list_scope.
Local Open Scope Z_scope.
Local Open Scope kat_scope.

Record realpathFrame : Type := mkFrame { name : string; resolved : bool }.

Section realpath.
(** Package os: whether a path is a symbolic link, when it can be read at all, and
    where a link leads. *)
Context (Lstat : string → option bool) (Readlink : string → option string).

(** The stack, its top first, how many components of it are still to be processed,
    the resolved prefix, and the links: with what they resolve to, or with the empty
    text while they are being resolved. *)
Record walk : Type := mkWalk { rest : list realpathFrame; partCount : Z; path : string; seen : gmap string string }.

(** [path[:i]] at the last separator, which is no separator at the start. *)
Definition parent (p : string) : string :=
  let dir := string_take (String.length (dir_part p) - 1) p in
  if String.eqb dir "" then "/" else dir.

Definition child (p name : string) : string := if String.eqb p "/" then p +:+ name else p +:+ "/" +:+ name.

(** What is pushed of a text: its components, the first on top. *)
Definition frames (s : string) : list realpathFrame := (fun part => mkFrame part false) <$> split_byte sep s.

(** One round; [None] is an index out of range. *)
Definition round (w : walk) : option walk :=
  match w.(rest) with
  | [] => None
  | frame :: rest =>
      if frame.(resolved) then
        match rest with
        | [] => None
        | link :: rest => Some (mkWalk rest w.(partCount) w.(path) (<[link.(name) := w.(path)]> w.(seen)))
        end
      else
        let go p := Some (mkWalk rest (w.(partCount) - 1) p w.(seen)) in
        let name := frame.(name) in
        if String.eqb name "" || String.eqb name "." then go w.(path)
        else if String.eqb name ".." then go (parent w.(path))
        else
          let newPath := child w.(path) name in
          match Lstat newPath with
          | None | Some false => go newPath
          | Some true =>
              match w.(seen) !! newPath with
              | Some cached => if negb (String.eqb cached "") then go cached else go newPath
              | None =>
                  match Readlink newPath with
                  | None => go newPath
                  | Some target =>
                      Some (mkWalk (frames target ++ mkFrame "" true :: mkFrame newPath false :: rest)
                              (w.(partCount) - 1 + Z.of_nat (length (split_byte sep target)))
                              (if HasPrefix target "/" then "/" else w.(path)) (<[newPath := ""]> w.(seen)))
                  end
              end
          end
  end.

Inductive outcome : Type := Returned (p : string) | IndexPanic | OutOfFuel.

Fixpoint walk_loop (fuel : nat) (w : walk) : outcome :=
  if 0 <? w.(partCount) then
    match fuel with
    | O => OutOfFuel
    | S fuel => match round w with None => IndexPanic | Some w => walk_loop fuel w end
    end
  else Returned w.(path).

Definition start (filename cwd : string) : walk :=
  mkWalk (frames filename) (Z.of_nat (length (split_byte sep filename))) (if HasPrefix filename "/" then "/" else cwd) ∅.

(** Enough rounds on a host whose symbolic links are [links]: each link is followed at
    most once, which takes a round for the link, one for its marker and one for every
    component of its target. *)
Definition link_weight (l : string) : nat := S (S (length (split_byte sep (default "" (Readlink l))))).
Definition walk_fuel (links : gset string) (filename : string) : nat :=
  length (split_byte sep filename) + sum_list_with link_weight (elements links).

(** [realPath]; the working directory is asked for when the path is relative. *)
Definition realPath (fuel : nat) (getcwd : result goerror string) (filename : string) : result goerror outcome :=
  if HasPrefix filename "/" then Ok (walk_loop fuel (start filename ""))
  else let* cwd := getcwd in Ok (walk_loop fuel (start filename cwd)).

(** [GetAbsolutePath]: the target of a path that is still a link. *)
Definition GetAbsolutePath (fuel : nat) (getcwd : result goerror string) (readlink_error : goerror) (path : string) : result goerror outcome :=
  let* absPath := realPath fuel getcwd path in
  match absPath with
  | Returned p =>
      match Lstat p with
      | Some true => match Readlink p with Some target => Ok (Returned target) | None => Err readlink_error end
      | _ => Ok (Returned p)
      end
  | failure => Ok failure
  end.
End realpath.

(** A link to a directory that is a link, a loop, and a path up. *)
Definition some_links (p : string) : option string :=
  if String.eqb p "/a" then Some "b/c" else if String.eqb p "/b" then Some "/d" else if String.eqb p "/loop" then Some "loop/x" else None.
Definition some_lstat (p : string) : option bool := Some (bool_decide (is_Some (some_links p))).
Example real_1 : realPath some_lstat some_links 20 (Ok "/") "a/../a/x" = Ok (Returned "/d/a/x"). Proof. vm_compute. reflexivity. Qed.
Example real_2 : realPath some_lstat some_links 20 (Ok "/") "/d/../loop/y" = Ok (Returned "/loop/x/y"). Proof. vm_compute. reflexivity. Qed.

(** * The walk ends, and where

    On a host with finitely many symbolic links the walk ends, loops of links
    included; and where the links of a path lead somewhere, it returns that place. *)

Section walk.
Context (Lstat : string → option bool) (Readlink : string → option string).
Local Notation round := (round Lstat Readlink).
Local Notation walk_loop := (walk_loop Lstat Readlink).

Definition is_link (p : string) : Prop := Lstat p = Some true.

(** ** The stack is well formed

    Components, and markers each with its link below. *)
Inductive stack (seen : gmap string string) : Z → list realpathFrame → Prop :=
| stack_nil : stack seen 0 []
| stack_part n part rest : stack seen n rest → stack seen (n + 1) (mkFrame part false :: rest)
| stack_link n l rest : is_Some (seen !! l) → stack seen n rest → stack seen n (mkFrame "" true :: mkFrame l false :: rest).

Definition rooted (p : string) : Prop := is_rooted p = true.

Record wf (w : walk) : Prop := {
  wf_stack : stack w.(seen) w.(partCount) w.(rest);
  wf_path : rooted w.(path);
  wf_seen : ∀ l p, w.(seen) !! l = Some p → is_link l ∧ (p = "" ∨ rooted p)
}.

Lemma stack_count seen n rest : stack seen n rest → 0 <= n.
Proof. induction 1; lia. Qed.

Lemma stack_more seen seen' n rest : stack seen n rest → (∀ l, is_Some (seen !! l) → is_Some (seen' !! l)) → stack seen' n rest.
Proof. intros H Hs. induction H; constructor; auto. Qed.

Lemma stack_parts seen n ps rest : stack seen n rest → stack seen (n + Z.of_nat (length ps)) (((fun part => mkFrame part false) <$> ps) ++ rest).
Proof.
  intros H. induction ps as [|part ps IH]; [by rewrite Z.add_0_r|]. cbn [fmap list_fmap app length].
  replace (n + Z.of_nat (S (length ps))) with (n + Z.of_nat (length ps) + 1) by lia. by constructor.
Qed.

Lemma rooted_app p s : rooted p → rooted (p +:+ s).
Proof. unfold rooted. destruct p as [|a p]; [done|]. cbn [String.append]. by rewrite !is_rooted_cons. Qed.

Lemma rooted_child p name : rooted p → rooted (child p name).
Proof. intros H. unfold child. destruct (String.eqb p "/"); by apply rooted_app. Qed.

Lemma rooted_take n p : rooted p → string_take n p ≠ "" → rooted (string_take n p).
Proof. unfold rooted. destruct n, p as [|a p]; try done. cbn [string_take]. by rewrite !is_rooted_cons. Qed.

Lemma take_nonempty n p : string_take n p ≠ "" → p ≠ "".
Proof. by destruct n, p. Qed.

Lemma rooted_parent p : rooted p → rooted (parent p).
Proof.
  intros H. unfold parent. destruct (String.eqb_spec (string_take (String.length (dir_part p) - 1) (dir_part p)) "") as [E|E];
    (destruct (String.eqb_spec (string_take (String.length (dir_part p) - 1) p) "") as [E'|E']; [done|]); by apply rooted_take.
Qed.

Lemma rooted_nonempty p : rooted p → p ≠ "".
Proof. by intros H ->. Qed.

Lemma frames_parts target rest seen n : stack seen n rest →
  stack seen (n + Z.of_nat (length (split_byte sep target))) (frames target ++ rest).
Proof. intros H. by apply stack_parts. Qed.

(** ** Every round leaves a well-formed walk with less to do

    What is left to do: the frames, and the links that were not seen. *)
Definition left_to_do (links : gset string) (w : walk) : nat :=
  length w.(rest) + sum_list_with (link_weight Readlink) (elements (links ∖ dom w.(seen))).

Definition less (links : gset string) (w' w : walk) : Prop := (left_to_do links w' < left_to_do links w)%nat.

Lemma weight_seen (links : gset string) (seen : gmap string string) l v : l ∈ links → l ∉ dom seen →
  sum_list_with (link_weight Readlink) (elements (links ∖ dom seen)) =
  (link_weight Readlink l + sum_list_with (link_weight Readlink) (elements (links ∖ dom (<[l := v]> seen))))%nat.
Proof.
  intros Hl Hs. assert (E : links ∖ dom seen = {[l]} ∪ (links ∖ dom (<[l := v]> seen))).
  { rewrite dom_insert_L. apply set_eq. intros x. destruct (decide (x = l)) as [->|]; set_solver. }
  rewrite E, elements_disj_union, elements_singleton by (rewrite dom_insert_L; set_solver). done.
Qed.

Lemma round_step links w : (∀ p, is_link p → p ∈ links) → wf w → 0 < w.(partCount) →
  ∃ w', round w = Some w' ∧ wf w' ∧ less links w' w.
Proof.
  intros HL [Hst Hp Hsn] Hn. unfold RealPath.round. destruct w as [rest n path seen]. cbn [RealPath.rest partCount RealPath.path RealPath.seen] in *.
  assert (Hplain : ∀ m p part r, stack seen m r → rooted p → n = m + 1 → rest = mkFrame part false :: r →
    ∃ w', Some (mkWalk r (n - 1) p seen) = Some w' ∧ wf w' ∧ less links w' (mkWalk rest n path seen)).
  { intros m p part r Hr Hrp -> ->. eexists. split; [reflexivity|]. split.
    - split; [|done|done]. cbn. by replace (m + 1 - 1) with m by lia.
    - unfold less, left_to_do. cbn [RealPath.rest RealPath.seen length]. lia. }
  inversion Hst as [E1 E2|m part r Hr E1 E2|m l r Hl Hr E1 E2]; subst; [lia| |].
  - cbn [resolved RealPath.name]. destruct (String.eqb part "" || String.eqb part "."); [by eapply Hplain|].
    destruct (String.eqb part ".."); [eapply Hplain; try done; by apply rooted_parent|].
    assert (Hc : rooted (child path part)) by by apply rooted_child.
    destruct (Lstat (child path part)) as [[]|] eqn:L; [|by eapply Hplain..].
    destruct (seen !! child path part) as [cached|] eqn:S.
    + destruct (String.eqb_spec cached "") as [->|Hne]; cbn [negb]; [by eapply Hplain|].
      destruct (Hsn _ _ S) as [_ [->|Hrc]]; [done|by eapply Hplain].
    + destruct (Readlink (child path part)) as [target|] eqn:R; [|by eapply Hplain]. eexists. split; [reflexivity|]. split.
      * split; cbn [RealPath.rest partCount RealPath.path RealPath.seen].
        -- replace (m + 1 - 1 + Z.of_nat (length (split_byte sep target))) with (m + Z.of_nat (length (split_byte sep target))) by lia.
           apply frames_parts. apply stack_link; [rewrite lookup_insert_eq; eauto|].
           eapply stack_more; [exact Hr|]. intros l [x Hx]. destruct (decide (l = child path part)) as [->|Hne].
           ++ rewrite lookup_insert_eq. eauto.
           ++ rewrite lookup_insert_ne by done. eauto.
        -- by destruct (HasPrefix target "/").
        -- intros l p Hlp. destruct (decide (l = child path part)) as [->|Hne].
           ++ rewrite lookup_insert_eq in Hlp. injection Hlp as <-. split; [done|by left].
           ++ rewrite lookup_insert_ne in Hlp by done. by apply Hsn.
      * unfold less, left_to_do. cbn [RealPath.rest RealPath.seen].
        rewrite (weight_seen links seen (child path part) "") by (by apply HL || by apply not_elem_of_dom).
        unfold link_weight. rewrite R. cbn [default]. unfold frames. rewrite length_app, length_fmap. cbn [length]. unfold id. lia.
  - cbn [resolved]. eexists. split; [reflexivity|]. destruct Hl as [x Hx]. split.
    + split; cbn [RealPath.rest partCount RealPath.path RealPath.seen RealPath.name]; [|done|].
      * eapply stack_more; [exact Hr|]. intros l' [y Hy]. destruct (decide (l = l')) as [<-|Hne].
        -- rewrite lookup_insert_eq. eauto.
        -- rewrite lookup_insert_ne by done. eauto.
      * intros l' p Hlp. destruct (decide (l = l')) as [<-|Hne].
        -- rewrite lookup_insert_eq in Hlp. injection Hlp as <-. split; [by apply (Hsn _ _ Hx)|by right].
        -- rewrite lookup_insert_ne in Hlp by done. by apply Hsn.
    + unfold less, left_to_do. cbn [RealPath.seen RealPath.rest RealPath.name length].
      replace (dom (<[l := path]> seen)) with (dom seen); [lia|]. rewrite dom_insert_L.
      assert (l ∈ dom seen) by (by apply elem_of_dom_2 in Hx). set_solver.
Qed.

Lemma walk_more w p : ∀ fuel fuel', (fuel <= fuel')%nat → walk_loop fuel w = Returned p → walk_loop fuel' w = Returned p.
Proof.
  intros fuel. revert w. induction fuel as [|fuel IH]; intros w fuel' Hle; destruct fuel' as [|fuel']; cbn [RealPath.walk_loop]; try done; [..|lia|].
  - by destruct (0 <? partCount w).
  - destruct (0 <? partCount w); [|done]. destruct (round w); [|done]. apply IH. lia.
Qed.

Lemma walk_ends links : (∀ p, is_link p → p ∈ links) → ∀ fuel w, (left_to_do links w <= fuel)%nat → wf w →
  ∃ p, rooted p ∧ walk_loop fuel w = Returned p.
Proof.
  intros HL. induction fuel as [|fuel IH]; intros w Hf Hw; cbn [RealPath.walk_loop];
    (destruct (Z.ltb_spec 0 w.(partCount)) as [Hlt|Hge]; [|exists w.(path); split; [apply Hw|done]]);
    destruct (round_step links w HL Hw Hlt) as (w' & E & Hw' & Hless); unfold less in Hless; [lia|].
  rewrite E. apply IH; [lia|done].
Qed.

Lemma wf_start filename cwd : rooted (if HasPrefix filename "/" then "/" else cwd) → wf (start filename cwd).
Proof.
  intros H. split; [|done|done]. cbn [start RealPath.rest partCount RealPath.seen].
  rewrite <- (app_nil_r (frames filename)). apply (frames_parts filename [] ∅ 0). constructor.
Qed.
End walk.

(** ** What a path resolves to

    The reference: one component after another, the target of a link resolved from
    the directory that holds the link, with no table of what links resolved to and no
    stack. A link that is met again while it is being resolved leads nowhere. *)
Section resolves.
Context (Lstat : string → option bool) (Readlink : string → option string).
Local Notation walk_loop := (walk_loop Lstat Readlink).

Definition link_to (l : string) : option string := match Lstat l with Some true => Readlink l | _ => None end.

Definition base (dir target : string) : string := if HasPrefix target "/" then "/" else dir.

Inductive resolves (open : gset string) : string → list string → string → Prop :=
| res_nil p : resolves open p [] p
| res_skip p c cs q : c = "" ∨ c = "." → resolves open p cs q → resolves open p (c :: cs) q
| res_up p cs q : resolves open (parent p) cs q → resolves open p (".." :: cs) q
| res_plain p c cs q : c ∉ [""; "."; ".."] → link_to (child p c) = None →
    resolves open (child p c) cs q → resolves open p (c :: cs) q
| res_link p c target p' cs q : c ∉ [""; "."; ".."] → link_to (child p c) = Some target → child p c ∉ open →
    resolves ({[child p c]} ∪ open) (base p target) (split_byte sep target) p' → resolves open p' cs q →
    resolves open p (c :: cs) q.

Lemma resolves_deterministic open p cs q : resolves open p cs q → ∀ open' q', resolves open' p cs q' → q = q'.
Proof.
  induction 1 as [o p|o p c cs q Hc _ IH|o p cs q _ IH|o p c cs q Hc Hl _ IH|o p c t p' cs q Hc Hl Ho _ IHt _ IH]; intros o' q' H'.
  - by inversion H'.
  - inversion H'; subst; [by eapply IH|..]; set_solver.
  - inversion H'; subst; [set_solver|by eapply IH|..]; set_solver.
  - inversion H'; subst; [set_solver|set_solver|by eapply IH|congruence].
  - inversion H' as [|? ? ? ? Hs _|? ? ? Hu|? ? ? ? _ Hp _|? ? t2 p2 ? ? _ Hl2 _ Ht2 Hr]; subst; [set_solver|set_solver|congruence|].
    rewrite Hl in Hl2. injection Hl2 as <-. pose proof (IHt _ _ Ht2) as <-. by eapply IH.
Qed.

Lemma rooted_base p t : rooted p → rooted (base p t).
Proof. unfold base. by destruct (HasPrefix _ _). Qed.

Lemma resolves_rooted open p cs q : resolves open p cs q → rooted p → rooted q.
Proof. induction 1; intros Hp; eauto using rooted_parent, rooted_child, rooted_base. Qed.

Lemma parent_child p c : rooted p → contains_byte sep c = false → parent (child p c) = p.
Proof.
  intros Hp Hc. unfold child. destruct (String.eqb_spec p "/") as [->|Hne].
  - change ("/" +:+ c) with ("" +:+ "/" +:+ c). unfold parent. rewrite dir_part_under by done. done.
  - unfold parent. rewrite dir_part_under by done. rewrite string_length_app, Nat.add_sub, string_take_app.
    by rewrite (proj2 (String.eqb_neq _ _)) by by apply rooted_nonempty.
Qed.

(** ** The table

    A link that is being resolved is one of [open]; what is recorded of another is
    what it resolves to. *)
Definition leads (l v : string) : Prop :=
  ∃ target open, link_to l = Some target ∧ resolves open (base (parent l) target) (split_byte sep target) v.

Definition table_ok (open : gset string) (seen : gmap string string) : Prop :=
  ∀ l v, seen !! l = Some v → if String.eqb v "" then l ∈ open else leads l v.

(** The walk takes the components off the stack and arrives at [q], with a table that
    is still right; as many rounds more as were there before are left. *)
Definition arrives (open : gset string) (p : string) (cs : list string) (q : string) : Prop :=
  ∀ rest n seen, 0 <= n → table_ok open seen →
  ∃ k seen', table_ok open seen' ∧
    ∀ fuel, walk_loop (k + fuel) (mkWalk (((fun c => mkFrame c false) <$> cs) ++ rest) (n + Z.of_nat (length cs)) p seen) =
            walk_loop fuel (mkWalk rest n q seen').

Lemma walk_round fuel frame rest n p seen : 0 < n →
  walk_loop (S fuel) (mkWalk (frame :: rest) n p seen) =
    match round Lstat Readlink (mkWalk (frame :: rest) n p seen) with None => IndexPanic | Some w => walk_loop fuel w end.
Proof. intros Hn. cbn [RealPath.walk_loop partCount]. by rewrite (proj2 (Z.ltb_lt 0 n) Hn). Qed.

Lemma arrives_step open p p1 c cs q :
  (∀ rest n seen, 0 < n → table_ok open seen →
     round Lstat Readlink (mkWalk (mkFrame c false :: rest) n p seen) = Some (mkWalk rest (n - 1) p1 seen)) →
  arrives open p1 cs q → arrives open p (c :: cs) q.
Proof.
  intros Hstep H rest n seen Hn Hs. destruct (H rest n seen Hn Hs) as (k & seen' & Hs' & E).
  exists (S k), seen'. split; [done|]. intros fuel. cbn [fmap list_fmap app length Nat.add].
  rewrite walk_round, Hstep by (done || lia). rewrite <- E. f_equal. f_equal. lia.
Qed.

Lemma table_open open seen l : table_ok open seen → table_ok ({[l]} ∪ open) (<[l := ""]> seen).
Proof.
  intros H l' v. destruct (decide (l = l')) as [<-|Hne].
  - rewrite lookup_insert_eq. intros [= <-]. cbn. set_solver.
  - rewrite lookup_insert_ne by done. intros Hv. specialize (H _ _ Hv). destruct (String.eqb v ""); [set_solver|done].
Qed.

Lemma table_close open seen l v : table_ok ({[l]} ∪ open) seen → leads l v → v ≠ "" → table_ok open (<[l := v]> seen).
Proof.
  intros H Hl Hv l' v'. destruct (decide (l = l')) as [<-|Hne].
  - rewrite lookup_insert_eq. intros [= <-]. by rewrite (proj2 (String.eqb_neq _ _) Hv).
  - rewrite lookup_insert_ne by done. intros Hv'. specialize (H _ _ Hv'). destruct (String.eqb v' ""); [set_solver|done].
Qed.

Lemma plain_name c : c ∉ [""; "."; ".."] → String.eqb c "" || String.eqb c "." = false ∧ String.eqb c ".." = false.
Proof. intros H. rewrite !(proj2 (String.eqb_neq c _)); [done|intros ->; set_solver..]. Qed.

Lemma link_to_some l t : link_to l = Some t → Lstat l = Some true ∧ Readlink l = Some t.
Proof. unfold link_to. by destruct (Lstat l) as [[]|]. Qed.

(** A link: read from the table, or followed and recorded. *)
Lemma arrives_link open p c target p' cs q :
  rooted p → contains_byte sep c = false → c ∉ [""; "."; ".."] → link_to (child p c) = Some target → child p c ∉ open →
  resolves ({[child p c]} ∪ open) (base p target) (split_byte sep target) p' →
  arrives ({[child p c]} ∪ open) (base p target) (split_byte sep target) p' →
  arrives open p' cs q → arrives open p (c :: cs) q.
Proof.
  intros Hp Hc Hn Hl Ho Hres Ht H. pose proof (plain_name c Hn) as [E1 E2]. pose proof (link_to_some _ _ Hl) as [L R].
  assert (Hleads : leads (child p c) p').
  { exists target, ({[child p c]} ∪ open). split; [done|]. by rewrite parent_child. }
  assert (Hp' : p' ≠ "") by (apply rooted_nonempty; eapply resolves_rooted; [exact Hres|by apply rooted_base]).
  intros rest n seen Hn0 Hs. destruct (seen !! child p c) as [cached|] eqn:S.
  - pose proof (Hs _ _ S) as Hv. destruct (String.eqb cached "") eqn:Ec; [done|].
    assert (cached = p') as -> by (destruct Hv as (t & o & Hl' & Hr'); rewrite Hl in Hl'; injection Hl' as <-;
      rewrite parent_child in Hr' by done; by eapply resolves_deterministic).
    destruct (H rest n seen Hn0 Hs) as (k & seen' & Hs' & E). exists (Datatypes.S k), seen'. split; [done|]. intros fuel.
    cbn [fmap list_fmap app length Nat.add]. rewrite walk_round by lia. unfold RealPath.round.
    cbn [RealPath.rest resolved name RealPath.path RealPath.seen partCount]. rewrite E1, E2, L, S, Ec. cbn [negb].
    rewrite <- E. f_equal. f_equal. lia.
  - destruct (Ht (mkFrame "" true :: mkFrame (child p c) false :: ((fun c => mkFrame c false) <$> cs) ++ rest)
      (n + Z.of_nat (length cs)) _ ltac:(lia) (table_open open seen (child p c) Hs)) as (k & seen1 & Hs1 & E).
    assert (Estart : ∀ fuel, walk_loop (Datatypes.S k + fuel)
        (mkWalk (((fun c => mkFrame c false) <$> c :: cs) ++ rest) (n + Z.of_nat (length (c :: cs))) p seen) =
      walk_loop fuel (mkWalk (mkFrame "" true :: mkFrame (child p c) false :: ((fun c => mkFrame c false) <$> cs) ++ rest)
        (n + Z.of_nat (length cs)) p' seen1)).
    { intros fuel. rewrite <- E. cbn [fmap list_fmap app length Nat.add]. rewrite walk_round by lia. unfold RealPath.round.
      cbn [RealPath.rest resolved name RealPath.path RealPath.seen partCount]. rewrite E1, E2, L, S, R.
      unfold base, frames. f_equal. f_equal. lia. }
    pose proof (table_close _ _ _ _ Hs1 Hleads Hp') as Hs2.
    destruct (H rest n _ Hn0 Hs2) as (k2 & seen2 & Hs3 & E3).
    destruct (Z.eqb_spec (n + Z.of_nat (length cs)) 0) as [E0|Hpos].
    + assert (n = 0 ∧ cs = []) as [-> ->] by (destruct cs; cbn [length] in E0; [split; [lia|done]|lia]).
      exists (Datatypes.S k), seen. split; [done|]. intros fuel. rewrite Estart. specialize (E3 0%nat). cbn in E3 |- *.
      by destruct fuel, k2.
    + exists (Datatypes.S k + Datatypes.S k2)%nat, seen2. split; [done|]. intros fuel. rewrite <- E3, <- Nat.add_assoc, Estart.
      cbn [Nat.add]. rewrite walk_round by lia. reflexivity.
Qed.

Lemma arrives_resolves open p cs q : resolves open p cs q → rooted p → Forall (fun c => contains_byte sep c = false) cs → arrives open p cs q.
Proof.
  induction 1 as [o p|o p c cs q Hc _ IH|o p cs q _ IH|o p c cs q Hc Hl _ IH|o p c t p' cs q Hc Hl Ho Hres IHt Hcs IH]; intros Hp Hf.
  - intros rest n seen _ Hs. exists 0%nat, seen. split; [done|]. intros fuel. cbn. by rewrite Z.add_0_r.
  - apply Forall_cons in Hf as [_ Hf]. eapply arrives_step; [|by apply IH]. intros rest n seen _ _. unfold RealPath.round.
    cbn [RealPath.rest resolved name]. by destruct Hc as [-> | ->].
  - apply Forall_cons in Hf as [_ Hf]. eapply arrives_step; [|by apply IH; [apply rooted_parent|]]. by intros rest n seen _ _.
  - apply Forall_cons in Hf as [_ Hf]. eapply arrives_step; [|by apply IH; [apply rooted_child|]].
    intros rest n seen _ Hs. pose proof (plain_name c Hc) as [E1 E2]. unfold RealPath.round.
    cbn [RealPath.rest resolved name RealPath.path RealPath.seen partCount]. rewrite E1, E2.
    unfold link_to in Hl. destruct (Lstat (child p c)) as [[]|]; [|done..]. rewrite Hl.
    destruct (seen !! child p c) as [cached|] eqn:S; [|done]. destruct (String.eqb cached "") eqn:Ec; [done|]. exfalso.
    specialize (Hs _ _ S). rewrite Ec in Hs. destruct Hs as (t & o' & Hl' & _). unfold link_to in Hl'.
    destruct (Lstat (child p c)) as [[]|]; congruence.
  - apply Forall_cons in Hf as [Hf1 Hf]. eapply arrives_link; eauto.
    + apply IHt; [by apply rooted_base|apply split_byte_free].
    + apply IH; [|done]. eapply resolves_rooted; [exact Hres|by apply rooted_base].
Qed.
End resolves.

(** ** What the walk does *)

Lemma realPath_returns Lstat Readlink (links : gset string) cwd filename fuel :
  (∀ p, Lstat p = Some true → p ∈ links) → rooted (if HasPrefix filename "/" then "/" else cwd) →
  (walk_fuel Readlink links filename <= fuel)%nat →
  ∃ p, rooted p ∧ realPath Lstat Readlink fuel (Ok cwd) filename = Ok (Returned p).
Proof.
  intros HL Hr Hf.
  assert (Hw : wf Lstat (start filename (if HasPrefix filename "/" then "" else cwd)))
    by (apply wf_start; by destruct (HasPrefix filename "/")).
  destruct (walk_ends Lstat Readlink links HL fuel (start filename (if HasPrefix filename "/" then "" else cwd))) as (p & Hp & E); [|exact Hw|].
  { unfold left_to_do. cbn [start rest seen]. unfold frames. rewrite length_fmap, dom_empty_L, difference_empty_L. exact Hf. }
  exists p. split; [done|]. unfold realPath. destruct (HasPrefix filename "/"); cbn [rbind]; by rewrite E.
Qed.

(** C35: on a host with finitely many symbolic links the walk over a path
    ends with an absolute path, whatever the links are, loops of links included, after
    at most as many rounds as the path and the targets of all links have components,
    and two more for each link; its stack is never read below its bottom, and more
    rounds change nothing. *)
Theorem realPath_ends Lstat Readlink (links : gset string) cwd filename :
  (∀ p, Lstat p = Some true → p ∈ links) → rooted (if HasPrefix filename "/" then "/" else cwd) →
  ∃ p, rooted p ∧ ∀ fuel, (walk_fuel Readlink links filename <= fuel)%nat →
    realPath Lstat Readlink fuel (Ok cwd) filename = Ok (Returned p).
Proof.
  intros HL Hr. destruct (realPath_returns Lstat Readlink links cwd filename _ HL Hr (Nat.le_refl _)) as (p & Hp & E).
  exists p. split; [done|]. intros fuel Hle. revert E. unfold realPath. destruct (HasPrefix filename "/"); cbn [rbind];
    intros [= E]; by rewrite (walk_more _ _ _ _ _ _ Hle E).
Qed.

Lemma realPath_ends_witness : ∃ p, rooted p ∧
  realPath some_lstat some_links 15 (Ok "/") "loop/a/.." = Ok (Returned p).
Proof.
  destruct (realPath_ends some_lstat some_links {["/a"; "/b"; "/loop"]} "/" "loop/a/..") as (p & Hp & E).
  - intros p. unfold some_lstat, some_links. destruct (String.eqb_spec p "/a") as [->|]; [set_solver|].
    destruct (String.eqb_spec p "/b") as [->|]; [set_solver|]. destruct (String.eqb_spec p "/loop") as [->|]; [set_solver|].
    rewrite bool_decide_eq_false_2 by by intros []. done.
  - vm_compute. reflexivity.
  - exists p. split; [exact Hp|]. apply E. vm_compute. repeat constructor.
Defined.

(** C36: Where the links of a path lead somewhere, the walk with its stack,
    its markers and its table of links returns what resolving one component after
    another returns. *)
Theorem realPath_resolves Lstat Readlink cwd filename q :
  let from := if HasPrefix filename "/" then "/" else cwd in
  rooted from → resolves Lstat Readlink ∅ from (split_byte sep filename) q →
  ∃ fuel, ∀ fuel', (fuel <= fuel')%nat → realPath Lstat Readlink fuel' (Ok cwd) filename = Ok (Returned q).
Proof.
  intros from Hr Hq.
  assert (Ht : table_ok Lstat Readlink ∅ ∅) by (intros l v Hv; by rewrite lookup_empty in Hv).
  destruct (arrives_resolves _ _ _ _ _ _ Hq Hr (split_byte_free _ _) [] 0 ∅ ltac:(lia) Ht) as (k & seen & _ & E).
  exists k. intros fuel' Hle. specialize (E (fuel' - k)%nat). rewrite app_nil_r, Z.add_0_l in E.
  replace (k + (fuel' - k))%nat with fuel' in E by lia.
  replace (walk_loop _ _ (fuel' - k) _) with (Returned q) in E by by destruct (fuel' - k)%nat.
  unfold realPath, start, frames. subst from. destruct (HasPrefix filename "/"); cbn [rbind]; by rewrite E.
Qed.

Lemma realPath_resolves_witness :
  ∃ fuel, ∀ fuel', (fuel <= fuel')%nat → realPath some_lstat some_links fuel' (Ok "/") "a/../b" = Ok (Returned "/d/b").
Proof.
  apply (realPath_resolves some_lstat some_links "/" "a/../b" "/d/b"); [reflexivity|]. vm_compute.
  eapply (res_link _ _ _ "/" "a" "b/c" "/d/c"); [by apply (bool_decide_unpack _)|reflexivity|by apply (bool_decide_unpack _)|..]; vm_compute.
  - eapply (res_link _ _ _ "/" "b" "/d"); [by apply (bool_decide_unpack _)|reflexivity|by apply (bool_decide_unpack _)|..]; vm_compute.
    + apply res_skip; [by left|]. apply res_plain; [by apply (bool_decide_unpack _)|reflexivity|constructor].
    + apply res_plain; [by apply (bool_decide_unpack _)|reflexivity|constructor].
  - apply res_up. vm_compute. apply res_plain; [by apply (bool_decide_unpack _)|reflexivity|constructor].
Defined.
