(* ===== verification/SettingsFile.v ===== *)
(** * The settings file on the host (settings/settings.go, keys.go)

    Where the file is, reading it, writing and removing it, over a disk whose
    operations are those of package os; and the keys set from a word of the command
    line. *)

From S2P Require Export SettingsInv Strconv GoPath.
From S2P Require Base64.
From Stdlib Require Import SpecFloat.
Local Open Scope string_scope.
Local Open Scope list_scope.
Local Open Scope Z_scope.
Local Open Scope kat_scope.

(** ** A word as the value of a key (keyDesc.parse, SetString) *)

Section words.
Context `{TextCases} (terminalAvailable : string → result goerror bool).

Definition parse_word (d : keyDesc) (raw : string) : result goerror anyval :=
  match d.(kKind) with
  | KindBool => match StrToBool raw with Ok v => Ok (ABool v) | Err _ => Err (must_be d) end
  | KindFloat =>
      match ParseFloat_value raw with
      | Some (S754_infinity _) | Some S754_nan | None => Err (must_be d)
      | Some v => Ok (AFloat v)
      end
  | KindInt => match Atoi raw with Ok v => Ok (ACds v) | Err _ => Err (must_be d) end
  | KindNullableString => Ok (if String.eqb raw "" then ANil else AString raw)
  | KindString => Ok (AString raw)
  end.

Definition SetString (name value : string) : Settings.SM unit := fun s =>
  match (let* d := Settings.lookup terminalAvailable s name in parse_word d value) with
  | Err e => (s, Err e)
  | Ok typed => Settings.Set_ terminalAvailable name typed s
  end.
End words.

(** ** The disk *)

(** Package os over what the disk holds; [Stat] answers whether a path is a directory,
    and its size. *)
Class Disk (D : Type) : Type := {
  Stat : string → D → result goerror (bool * Z);
  ReadFile : string → D → result goerror string;
  Mkdir : string → Z → M D goerror unit;
  WriteFile : string → string → Z → M D goerror unit;
  Remove : string → M D goerror unit;
  Chmod : string → Z → M D goerror unit;
  Chown : string → Z → Z → M D goerror unit
}.

Definition wrapped {D A} (m : M D goerror A) : M D goerror A := fun d =>
  match m d with (d, Err e) => (d, Err (WrapOS e (Error e))) | r => r end.

Section file.
Context `{Disk D} (terminalAvailable : string → result goerror bool).
(** The home of the invoking user and his ids; whether the host is Windows is not. *)
Context (GetCurrentUserHome : result goerror string) (GetCurrentUserUIDGID : result goerror (Z * Z)).

Definition DefaultPath : result goerror string :=
  let* home := GetCurrentUserHome in Ok (GoPath.Join [home; ".config"; Filename]).

Definition confPath (dir : string) : result goerror string := if String.eqb dir "" then DefaultPath else Ok (joinConfPath dir).

(** [LoadFromDisk]: the settings may be half loaded when it fails. *)
Definition LoadFromDisk (dir : string) (disk : D) : Settings.SM unit := fun s =>
  match confPath dir with
  | Err e => (s, Err e)
  | Ok path =>
      match Stat path disk with
      | Err _ => (s, Err (NewSettingsNotFound path))
      | Ok _ =>
          match ReadFile path disk with
          | Err e => (s, Err (WrapOS e (Error e)))
          | Ok data => LoadFromJSON terminalAvailable data s
          end
      end
  end.

Definition Load (now : f64) (dir : string) (disk : D) : result goerror Settings :=
  match LoadFromDisk dir disk (Defaults now) with (s, Ok _) => Ok s | (_, Err e) => Err e end.

Definition applyOwnership (path : string) : M D goerror unit :=
  match GetCurrentUserUIDGID with
  | Err e => sthrow e
  | Ok (uid, gid) => do* _ <- wrapped (Chmod path 0x180) in wrapped (Chown path uid gid)
  end.

(** [toTextFile] with the line separator of the host. *)
Definition toTextFile (data : string) : string := data.

Definition is_directory (path : string) (disk : D) : bool := match Stat path disk with Ok (true, _) => true | _ => false end.

Definition Save (s : Settings) (dir : string) : M D goerror unit :=
  match confPath dir with
  | Err e => sthrow e
  | Ok path =>
      let dirname := if String.eqb dir "" then GoPath.Dir path else dir in
      do* _ <- (fun disk => if is_directory dirname disk then (disk, Ok tt) else wrapped (Mkdir dirname 0x1FF) disk) in
      match Encode terminalAvailable s with
      | Err e => sthrow e
      | Ok data =>
          do* _ <- wrapped (WriteFile path (toTextFile data) 0x1B6) in
          applyOwnership path
      end
  end.

Definition Wipe : M D goerror unit :=
  match DefaultPath with
  | Err e => sthrow e
  | Ok path => fun disk => match Stat path disk with Err _ => (disk, Ok tt) | Ok _ => wrapped (Remove path) disk end
  end.
End file.

(** ** The registry credentials (dockerconfig.go, expanduser_unix.go) *)

(** [expandUser]: the home of the process, or of a user by name. *)
Section expand.
Context (HOME : option string) (own_home : option string) (home_of : string → option string).

(** [strings.TrimRight] of slashes. *)
Definition trim_slashes (s : string) : string := bytes_string (reverse (drop_while (Ascii.eqb sep) (reverse (string_bytes s)))).

Definition expandUser (path : string) : string :=
  if negb (HasPrefix path "~") then path
  else
    let user := string_drop 1 (default "" (head (split_byte sep path))) in
    let rest := string_drop (S (String.length user)) path in
    let home := if String.eqb user "" then match HOME with Some home => Some home | None => own_home end else home_of user in
    match home with
    | None => path
    | Some home => let expanded := trim_slashes home +:+ rest in if String.eqb expanded "" then "/" else expanded
    end.
End expand.

Definition pyNumberRepr (literal : string) : string :=
  if existsb (fun b => contains_byte b literal) [az 46; az 101; az 69] then
    match to_float (JNum literal) with Some f => pyFloatRepr f | None => literal end
  else if forallb (fun b => Ascii.eqb b (az 45) || Ascii.eqb b (az 48)) (string_bytes literal) then "0" else literal.

(** A key that comes again keeps its place and takes the later value. *)
Fixpoint set_entry (k v : string) (l : list (string * string)) : list (string * string) :=
  match l with
  | [] => [(k, v)]
  | e :: l => if String.eqb e.1 k then (k, v) :: l else e :: set_entry k v l
  end.

(** [json.dumps] of what was decoded. *)
Fixpoint pyJSONValue (j : json) : string :=
  match j with
  | JNull => "null"
  | JBool b => if b then "true" else "false"
  | JNum literal => pyNumberRepr literal
  | JStr s => pyJSONString s
  | JArr l => "[" +:+ str_join ", " (pyJSONValue <$> l) +:+ "]"
  | JObj l =>
      "{" +:+ str_join ", " ((fun e => pyJSONString e.1 +:+ ": " +:+ e.2)
        <$> foldl (fun acc e => set_entry e.1 e.2 acc) [] ((fun e => (e.1, pyJSONValue e.2)) <$> l)) +:+ "}"
  end.

(** [pyJSONDumps], of documents that nest as deep as [json.Unmarshal] lets them; the
    error of the decoder is its own. *)
Definition pyJSONDumps (decode_error : string → goerror) (data : string) : result goerror string :=
  match Json.value (S (String.length data)) 0 data with
  | None => let e := decode_error data in Err (WrapValue e (Error e))
  | Some (j, rest) => if String.eqb (skip_ws rest) "" then Ok (pyJSONValue j) else Err (NewValue "Extra data")
  end.

Definition EncodeDockerConfigJSON `{Disk D} (expand : string → string) (decode_error : string → goerror) (path : string) (disk : D)
  : result goerror string :=
  match ReadFile (expand path) disk with
  | Err e => Err (WrapOS e (Error e))
  | Ok data => let* encoded := pyJSONDumps decode_error data in Ok (Base64.EncodeToString encoded)
  end.

Example dumped : pyJSONDumps EPlain ("{" +:+ quoted "a" +:+ ":1.50, " +:+ quoted "b" +:+ " : [ ]," +:+ quoted "a" +:+ ":-0}")
  = Ok ("{" +:+ quoted "a" +:+ ": 0, " +:+ quoted "b" +:+ ": []}").
Proof. vm_compute. reflexivity. Qed.
Example dumped_twice : pyJSONDumps EPlain "1 2" = Err (NewValue "Extra data").
Proof. vm_compute. reflexivity. Qed.
Example expanded : (fun p => expandUser (Some "/root/") None (fun u => if String.eqb u "bob" then Some "/" else None) p) <$>
  ["~"; "~/x"; "~bob"; "~ann/x"; "x"] = ["/root"; "/root/x"; "/"; "~ann/x"; "x"].
Proof. vm_compute. reflexivity. Qed.

(** ** What is saved is what is loaded *)

(** What is written to a file is read from it, and its mode and its owner are neither
    its text nor whether it is there. *)
Class DiskLaws `(Disk D) : Prop := {
  write_read path data mode (d d' : D) : WriteFile path data mode d = (d', Ok tt) → ReadFile path d' = Ok data ∧ (∃ x, Stat path d' = Ok x);
  chmod_keeps path mode (d d' : D) q : Chmod path mode d = (d', Ok tt) → ReadFile q d' = ReadFile q d ∧ Stat q d' = Stat q d;
  chown_keeps path uid gid (d d' : D) q : Chown path uid gid d = (d', Ok tt) → ReadFile q d' = ReadFile q d ∧ Stat q d' = Stat q d
}.

Section kept.
Context `{DiskLaws D} (terminalAvailable : string → result goerror bool).
Context (home : result goerror string) (ids : result goerror (Z * Z)).

Lemma wrapped_ok {A} (m : M D goerror A) d d' a : wrapped m d = (d', Ok a) → m d = (d', Ok a).
Proof. unfold wrapped. by destruct (m d) as [d1 [x|e]]. Qed.

Lemma Save_writes s dir disk disk' : Save terminalAvailable home ids s dir disk = (disk', Ok tt) →
  ∃ path data, confPath home dir = Ok path ∧ Encode terminalAvailable s = Ok data ∧ ReadFile path disk' = Ok data ∧ (∃ x, Stat path disk' = Ok x).
Proof.
  unfold Save. destruct (confPath home dir) as [path|]; [|done]. unfold sbind at 1.
  destruct (if is_directory _ disk then _ else _) as [d1 [[]|e]]; [|done].
  destruct (Encode terminalAvailable s) as [data|]; [|done]. unfold sbind at 1.
  destruct (wrapped _ d1) as [d2 [[]|e]] eqn:E2; [|done]. apply wrapped_ok in E2.
  destruct (write_read _ _ _ _ _ E2) as [Hr Hs]. unfold applyOwnership. destruct ids as [[uid gid]|]; [|done]. unfold sbind.
  destruct (wrapped (Chmod path _) d2) as [d3 [[]|e]] eqn:E3; [|done]. apply wrapped_ok in E3.
  intros E4. apply wrapped_ok in E4. exists path, data.
  pose proof (chmod_keeps _ _ _ _ path E3) as [R3 S3]. pose proof (chown_keeps _ _ _ _ _ path E4) as [R4 S4].
  by rewrite R4, S4, R3, S3.
Qed.
End kept.


(** ** A small disk, for closed examples *)

Record memDisk : Type := mkDisk { dkFiles : gmap string string; dkDirs : gset string }.

Definition missing (path : string) : goerror := EFsPath "open" path fs_ErrNotExist.

#[export] Instance mem_disk : Disk memDisk := {
  Stat path d := match d.(dkFiles) !! path with
                 | Some data => Ok (false, Z.of_nat (String.length data))
                 | None => if bool_decide (path ∈ d.(dkDirs)) then Ok (true, 0) else Err (missing path)
                 end;
  ReadFile path d := of_option (missing path) (d.(dkFiles) !! path);
  Mkdir path _ d := (mkDisk d.(dkFiles) ({[path]} ∪ d.(dkDirs)), Ok tt);
  WriteFile path data _ d := (mkDisk (<[path := data]> d.(dkFiles)) d.(dkDirs), Ok tt);
  Remove path d := (mkDisk (delete path d.(dkFiles)) d.(dkDirs), Ok tt);
  Chmod _ _ d := (d, Ok tt);
  Chown _ _ _ d := (d, Ok tt)
}.

#[export] Instance mem_disk_laws : DiskLaws mem_disk.
Proof.
  split.
  - intros path data mode d d' [= <-]. cbn. rewrite lookup_insert_eq. cbn. by eauto.
  - by intros path mode d d' q [= <-].
  - by intros path uid gid d d' q [= <-].
Qed.

Definition saved_defaults : memDisk * result goerror unit :=
  Save no_terminal (Ok "/root") (Ok (0, 0)) defaultSettings "" (mkDisk ∅ ∅).


#[local] Instance file_cases : TextCases := ToLower.

(** Words: a null key is cleared by the empty word, a number has to be finite. *)
Example words : let s name v := (SetString (H := file_cases) no_terminal name v defaultSettings).2 in
  (s "enable_ipv6" "YES", s "last_checked" "1e2", s "shared_cds" "2", s "remote_url" "") = (Ok tt, Ok tt, Ok tt, Ok tt).
Proof. vm_compute. reflexivity. Qed.
Example wrong_words : (fun w => is_ok (SetString (H := file_cases) no_terminal w.1 w.2 defaultSettings).2) <$>
  [("enable_ipv6", "maybe"); ("last_checked", "inf"); ("shared_cds", "7"); ("cert", "x")] = [false; false; false; false].
Proof. vm_compute. reflexivity. Qed.
