(* ===== verification/SettingsForm.v ===== *)
(** * The settings form (cmd/kathara/settings_tui.go, settings.go)

    The screen of [kathara settings]: its items with their menus and prompts, and the
    handler of every key; then what no key can do to it.  The text field of package
    bubbles is a parameter, as the names of keys and the rendering of styles are. *)

From S2P Require Export SettingsFile Mux.
From S2P Require CliUsage.
Local Open Scope string_scope.
Local Open Scope list_scope.
Local Open Scope Z_scope.
Local Open Scope kat_scope.

(** ** Items and answers *)

Record settingsAssign : Type := mkAssign { saKey : string; saValue : string }.
Record settingsChoice : Type := mkChoice { scLabel : string; scValue : string; scExtra : list settingsAssign }.
Record settingsField : Type := mkField {
  sfKey : string; sfTitle : string; sfHelp : string; sfChoices : list settingsChoice; sfFreeText : bool;
  sfPrompt : string; sfPrefill : string
}.

Definition answer (label value : string) : settingsChoice := mkChoice label value [].

Definition dockerConfigJSONKey : string := "docker_config_json".
Definition isPath (f : settingsField) : bool := String.eqb f.(sfKey) dockerConfigJSONKey.

Definition yesNo : list settingsChoice := [answer "Yes" "true"; answer "No" "false"].
Definition resetToNull : settingsChoice := answer "Reset value to Empty String" "".
Definition shellHints : list string :=
  ["/bin/bash"; "/bin/sh"; "/bin/ash"; "/bin/ksh"; "/bin/zsh"; "/bin/fish"; "/bin/csh"; "/bin/tcsh"].

(** The platform is one of the two the host can be. *)
Definition terminalHints (onDarwin : bool) : list string :=
  (if onDarwin then ["Terminal"; "iTerm"] else ["/usr/bin/xterm"; "/usr/bin/gnome-terminal"]) ++ ["TMUX"].

Definition labelledChoices (values : list string) (labels : gmap string string) : list settingsChoice :=
  (fun v => answer (default v (labels !! v)) v) <$> values.
Definition literalChoices (values : list string) : list settingsChoice := labelledChoices values ∅.

Definition menu (key title help : string) (choices : list settingsChoice) : settingsField :=
  mkField key title help choices false "" "".
Definition prompted (key title help prompt : string) (choices : list settingsChoice) : settingsField :=
  mkField key title help choices true prompt "".

Definition dockerFields : list settingsField :=
  [menu "network_plugin" "Choose Docker Network Plugin version"
     "`kathara/katharanp` is based on Linux bridges; `kathara/katharanp_vde` is based on VDE switches."
     (literalChoices availableNetworkPlugins);
   menu "hosthome_mount" "Automatically mount /hosthome on startup"
     "The home directory of the current user is made available for reading/writing inside the device under the special directory `/hosthome`."
     yesNo;
   menu "shared_mount" "Automatically mount /shared on startup"
     "The shared directory inside the network scenario folder is made available for reading/writing inside the device under the special directory `/shared`."
     yesNo;
   menu "image_update_policy" "Docker Image Update Policy"
     "Choose the policy when a Docker image update is available for a running device." (literalChoices availableImageUpdatePolicies);
   menu "shared_cds" "Enable Shared Collision Domains"
     "This option allows sharing collision domains between network scenarios and users."
     [answer (ToString SharedBetweenLabs) (Itoa SharedBetweenLabs); answer (ToString SharedBetweenUsers) (Itoa SharedBetweenUsers);
      answer "Do not share collision domains" (Itoa NotShared)];
   prompted "remote_url" "Configure a remote Docker connection" "You can specify a remote Docker Daemon URL."
     "Write a Docker Daemon URL (format http[s]://<remote-url>:<remote-port>):"
     [mkChoice "Reset remote Docker connection to default" "" [mkAssign "cert_path" ""]];
   prompted "cert_path" "Configure a Docker Daemon TLS Cert Path" "When using a remote Docker Daemon, a TLS Cert could be required."
     "Write a TLS Cert Path:" [resetToNull]].

Definition DefaultDockerConfigJSONPath : string := "~/.docker/config.json".

Definition kubernetesFields : list settingsField :=
  [prompted "api_server_url" "Insert a Kubernetes API Server URL"
     "You can specify a remote Kubernetes API Server URL to connect to when Megalos is not used on a Kubernetes master."
     "Write a Kubernetes API Server URL:" [resetToNull];
   prompted "api_token" "Insert a Kubernetes API Token"
     "When using a remote Kubernetes API Server, you must also specify the authentication token to use."
     "Write a Kubernetes API Token:" [resetToNull];
   menu "host_shared" "Automatically mount /shared on startup"
     "Each Kubernetes worker node creates a /home/shared directory and it is made available for reading/writing inside the device under the special directory `/shared`."
     yesNo;
   menu "image_pull_policy" "Image Pull Policy" "Specify the image pull policy for Docker images used by devices."
     (labelledChoices availableImagePullPolicies {["IfNotPresent" := "If Not Present"]});
   mkField dockerConfigJSONKey "Configure a Docker Private Registry"
     "Insert the config.json file path containing the configuration to access private container registries. The content is stored as a base64 string and is used to create a Kubernetes Secret of type `kubernetes.io/dockerconfigjson`."
     [resetToNull] true "Write the path to the Docker Config JSON file:" DefaultDockerConfigJSONPath].

Definition commonFields (onDarwin : bool) (managers : list settingsChoice) : list settingsField :=
  [menu "manager_type" "Choose default manager" "Manager is the Engine used to run Kathara labs." managers;
   prompted "image" "Choose default image" "Default Docker image when you start a network scenario or a single Kathara device."
     "Write the name of a Docker image available on Docker Hub:" [];
   menu "open_terminals" "Automatically open terminals on startup"
     "Determines if the device terminal should be opened when starting it." yesNo;
   prompted "device_shell" "Choose device shell to be used"
     "The shell to use inside the device. The application must be correctly installed in the Docker image used for the device!"
     "Write the name of a shell:" (literalChoices shellHints);
   prompted "terminal" "Choose terminal emulator to be used"
     "Terminal emulator application to be used for device terminals. The application must be correctly installed in the host system!"
     "Write the path of a terminal emulator:" (literalChoices (terminalHints onDarwin));
   prompted "net_prefix" "Insert Kathara networks prefix" "Prefix assigned to the network names when deployed."
     "Write a Kathara networks prefix:" [];
   prompted "device_prefix" "Insert Kathara devices prefix" "Prefix assigned to the device names when deployed."
     "Write a Kathara devices prefix:" [];
   menu "debug_level" "Choose logging level to be used" "Logging level of Kathara messages." (literalChoices availableDebugLevels);
   menu "print_startup_log" "Print Startup Logs on device startup" "When opening a device terminal, print its startup log." yesNo;
   menu "enable_ipv6" "Enable IPv6" "This option enables IPv6 inside the devices." yesNo;
   menu "volume_mount_policy" "Device Volume Mount Policy"
     "Choose the policy to apply when a device is trying to mount a volume from the host." (literalChoices availableVolumeMountPolicies)].

Definition settingsFields (onDarwin : bool) (managers : list settingsChoice) (s : Settings) : list settingsField :=
  commonFields onDarwin managers ++ if String.eqb (ToLower s.(sManagerType)) "kubernetes" then kubernetesFields else dockerFields.

Definition freeTextSentinel : string := str1 (az 0) +:+ "free-text".
Definition ellipsis : string := encode_rune 0x2026.

Definition options (f : settingsField) : list settingsChoice :=
  f.(sfChoices) ++ if f.(sfFreeText) && negb (bool_decide (f.(sfChoices) = []))
                   then [answer ("Choose another value" +:+ ellipsis) freeTextSentinel] else [].

(** ** The form *)

Inductive settingsMode : Type := settingsBrowse | settingsChoosing | settingsEditing | settingsConfirmQuit.

(** What a handler asks the runtime for: nothing, the end, or a command of the field. *)
Inductive Cmd (C : Type) : Type := NoCmd | Quit | FieldCmd (c : C).
Arguments NoCmd {C}.
Arguments Quit {C}.
Arguments FieldCmd {C} c.
Definition field_cmd {C} (c : option C) : Cmd C := match c with Some c => FieldCmd c | None => NoCmd end.
Definition cmd_nil {C} (c : Cmd C) : bool := match c with NoCmd => true | _ => false end.

(** Package bubbles/textinput. *)
Class TextInput (I C : Type) : Type := {
  input_New : I;
  input_Value : I → string;
  input_SetValue : string → I → I;
  input_CursorEnd : I → I;
  input_Focus : I → I * option C;
  input_Blur : I → I;
  input_Update : KeyMsg → I → I * option C;
  input_View : I → string
}.

(** The control keys are their codes. *)
Definition KeyCtrlC : Z := 3.
Definition KeyEnter : Z := 13.
Definition KeyEsc : Z := 27.

Inductive formMsg : Type := WindowSize (width height : Z) | Key (k : KeyMsg) | OtherMsg.

Section form.
Context `{TextCases, Tea} {I C : Type} `{TextInput I C} (terminalAvailable : string → result goerror bool) (onDarwin : bool).
(** The managers of the registry, the encoding of the file at a path, and what saving
    does to the world: the file and the settings of the process. *)
Context (managers : list settingsChoice) (EncodeDockerConfigJSON : string → result goerror string).
Context {W : Type} (save : Settings → M W goerror unit).

Record form : Type := mkForm {
  cfg : Settings; fields : list settingsField; mode : settingsMode; cursor : Z; choice : Z; input : I;
  status : string; failed : bool; dirty : bool; formErr : option goerror; width : Z; world : W
}.

Definition set_cfg s m := mkForm s m.(fields) m.(mode) m.(cursor) m.(choice) m.(input) m.(status) m.(failed) m.(dirty) m.(formErr) m.(width) m.(world).
Definition set_fields l m := mkForm m.(cfg) l m.(mode) m.(cursor) m.(choice) m.(input) m.(status) m.(failed) m.(dirty) m.(formErr) m.(width) m.(world).
Definition set_mode p m := mkForm m.(cfg) m.(fields) p m.(cursor) m.(choice) m.(input) m.(status) m.(failed) m.(dirty) m.(formErr) m.(width) m.(world).
Definition set_cursor i m := mkForm m.(cfg) m.(fields) m.(mode) i m.(choice) m.(input) m.(status) m.(failed) m.(dirty) m.(formErr) m.(width) m.(world).
Definition set_choice i m := mkForm m.(cfg) m.(fields) m.(mode) m.(cursor) i m.(input) m.(status) m.(failed) m.(dirty) m.(formErr) m.(width) m.(world).
Definition set_input i m := mkForm m.(cfg) m.(fields) m.(mode) m.(cursor) m.(choice) i m.(status) m.(failed) m.(dirty) m.(formErr) m.(width) m.(world).
Definition set_status t b m := mkForm m.(cfg) m.(fields) m.(mode) m.(cursor) m.(choice) m.(input) t b m.(dirty) m.(formErr) m.(width) m.(world).
Definition set_dirty b m := mkForm m.(cfg) m.(fields) m.(mode) m.(cursor) m.(choice) m.(input) m.(status) m.(failed) b m.(formErr) m.(width) m.(world).
Definition set_err e m := mkForm m.(cfg) m.(fields) m.(mode) m.(cursor) m.(choice) m.(input) m.(status) m.(failed) m.(dirty) e m.(width) m.(world).
Definition set_width w m := mkForm m.(cfg) m.(fields) m.(mode) m.(cursor) m.(choice) m.(input) m.(status) m.(failed) m.(dirty) m.(formErr) w m.(world).
Definition set_world w m := mkForm m.(cfg) m.(fields) m.(mode) m.(cursor) m.(choice) m.(input) m.(status) m.(failed) m.(dirty) m.(formErr) m.(width) w.

(** Handlers change the form; an index out of range panics. *)
Definition FM (A : Type) : Type := M form panic A.

Definition the_field : FM settingsField := fun m => (m, index_at m.(fields) m.(cursor)).

Definition newSettingsModel (s : Settings) (w : W) : form :=
  mkForm s (settingsFields onDarwin managers s) settingsBrowse 0 0 input_New "" false false None 80 w.

Definition fail_form (e : goerror) : form → form := set_status (Error e) true.

(** [doSave] *)
Definition doSave : FM bool := fun m =>
  match save m.(cfg) m.(world) with
  | (w, Err e) => (set_err (Some e) (fail_form e (set_world w m)), Ok false)
  | (w, Ok _) => (set_err None (set_status "Saved successfully!" false (set_dirty false (set_world w m))), Ok true)
  end.

(** The assignments of an answer, up to the first that is refused. *)
Fixpoint assign_all (l : list settingsAssign) : Settings.SM unit :=
  match l with
  | [] => sret tt
  | a :: l => do* _ <- SetString terminalAvailable a.(saKey) a.(saValue) in assign_all l
  end.

Definition answer_value (f : settingsField) (c : settingsChoice) : result goerror string :=
  if isPath f && negb (String.eqb c.(scValue) "") then EncodeDockerConfigJSON c.(scValue) else Ok c.(scValue).

(** [apply] *)
Definition apply (f : settingsField) (c : settingsChoice) : FM bool := fun m =>
  match answer_value f c with
  | Err e => (fail_form e m, Ok false)
  | Ok value =>
      match assign_all (mkAssign f.(sfKey) value :: c.(scExtra)) m.(cfg) with
      | (s, Err e) => (fail_form e (set_cfg s m), Ok false)
      | (s, Ok _) =>
          let l := settingsFields onDarwin managers s in
          let m := set_fields l (set_status "" false (set_dirty true (set_cfg s m))) in
          (if zlen l <=? m.(cursor) then set_cursor (zlen l - 1) m else m, Ok true)
      end
  end.

Definition editableSettingValue (FormatFloat_g : f64 → string) (s : Settings) (key : string) : string :=
  match Get terminalAvailable s key with
  | Err _ => ""
  | Ok v =>
      match v with
      | AString s => s
      | ABool b => if b then "true" else "false"
      | AFloat f => FormatFloat_g f
      | ACds z | AInt z => Itoa z
      | _ => ""
      end
  end.

(** [strconv.FormatFloat] of the shortest form. *)
Context (FormatFloat_g : f64 → string).

Definition startEditing (f : settingsField) : FM (Cmd C) := fun m =>
  let value := if String.eqb f.(sfPrefill) "" then editableSettingValue FormatFloat_g m.(cfg) f.(sfKey) else f.(sfPrefill) in
  let '(i, cmd) := input_Focus (input_CursorEnd (input_SetValue value m.(input))) in
  (set_input i (set_mode settingsEditing m), Ok (field_cmd cmd)).

Definition open : FM (Cmd C) :=
  do* f <- the_field in
  do* _ <- smodify (set_status "" false) in
  if bool_decide (options f = []) then startEditing f
  else do* _ <- smodify (fun m => set_choice 0 (set_mode settingsChoosing m)) in sret NoCmd.

Definition move (delta : Z) : FM unit := smodify (fun m =>
  let next := m.(cursor) + delta in
  if (next <? 0) || (zlen m.(fields) <=? next) then m else set_status "" false (set_cursor next m)).

Definition is_key (k : KeyMsg) (l : list string) : bool := existsb (String.eqb (keyString k)) l.

Definition updateBrowse (k : KeyMsg) : FM (Cmd C) :=
  if is_key k ["up"; "k"] then do* _ <- move (-1) in sret NoCmd
  else if is_key k ["down"; "j"] then do* _ <- move 1 in sret NoCmd
  else if is_key k ["enter"; " "] then open
  else if is_key k ["s"] then do* _ <- doSave in sret NoCmd
  else if is_key k ["q"; "esc"] then
    do* m <- sget in
    if m.(dirty) then do* _ <- smodify (set_mode settingsConfirmQuit) in sret NoCmd else sret Quit
  else sret NoCmd.

Definition updateChoosing (k : KeyMsg) : FM (Cmd C) :=
  do* f <- the_field in
  let l := options f in
  do* m <- sget in
  if is_key k ["up"; "k"] then do* _ <- smodify (fun m => if 0 <? m.(choice) then set_choice (m.(choice) - 1) m else m) in sret NoCmd
  else if is_key k ["down"; "j"] then
    do* _ <- smodify (fun m => if m.(choice) <? zlen l - 1 then set_choice (m.(choice) + 1) m else m) in sret NoCmd
  else if is_key k ["esc"; "q"] then do* _ <- smodify (set_mode settingsBrowse) in sret NoCmd
  else if is_key k ["enter"; " "] then
    if bool_decide (l = []) then do* _ <- smodify (set_mode settingsBrowse) in sret NoCmd
    else
      match index_at l m.(choice) with
      | Err p => sthrow p
      | Ok c =>
          if String.eqb c.(scValue) freeTextSentinel then startEditing f
          else
            do* ok <- apply f c in
            if ok then do* _ <- smodify (set_mode settingsBrowse) in sret NoCmd else sret NoCmd
      end
  else sret NoCmd.

Definition blur : FM unit := smodify (fun m => set_input (input_Blur m.(input)) (set_mode settingsBrowse m)).

Definition updateEditing (k : KeyMsg) : FM (Cmd C) :=
  do* f <- the_field in
  if k.(kType) =? KeyEsc then do* _ <- blur in sret NoCmd
  else if k.(kType) =? KeyEnter then
    do* m <- sget in
    do* ok <- apply f (answer "" (input_Value m.(input))) in
    if ok then do* _ <- blur in sret NoCmd else sret NoCmd
  else fun m => let '(i, cmd) := input_Update k m.(input) in (set_input i m, Ok (field_cmd cmd)).

Definition updateConfirmQuit (k : KeyMsg) : FM (Cmd C) :=
  if is_key k ["y"; "Y"] then
    do* saved <- doSave in
    if saved then sret Quit else do* _ <- smodify (set_mode settingsBrowse) in sret NoCmd
  else if is_key k ["n"; "N"] then sret Quit
  else if is_key k ["esc"] then do* _ <- smodify (set_mode settingsBrowse) in sret NoCmd
  else sret NoCmd.

(** A key that is no burst. *)
Definition updateKey (k : KeyMsg) : FM (Cmd C) :=
  if k.(kType) =? KeyCtrlC then sret Quit
  else
    do* m <- sget in
    match m.(mode) with
    | settingsBrowse => updateBrowse k
    | settingsChoosing => updateChoosing k
    | settingsEditing => updateEditing k
    | settingsConfirmQuit => updateConfirmQuit k
    end.

(** [replayRunes]: the letters of a burst, up to the first that returns a command. *)
Fixpoint replayRunes (runes : list Z) : FM (Cmd C) :=
  match runes with
  | [] => sret NoCmd
  | r :: runes =>
      do* cmd <- updateKey (mkKey KeyRunes [r] false) in
      if cmd_nil cmd then replayRunes runes else sret cmd
  end.

Definition in_editing (m : form) : bool := match m.(mode) with settingsEditing => true | _ => false end.

Definition Update (msg : formMsg) : FM (Cmd C) :=
  match msg with
  | WindowSize w _ => do* _ <- smodify (fun m => if 0 <? w then set_width w m else m) in sret NoCmd
  | Key k =>
      if k.(kType) =? KeyCtrlC then sret Quit
      else
        do* m <- sget in
        if negb (in_editing m) && (k.(kType) =? KeyRunes) && (1 <? zlen k.(kRunes)) then replayRunes k.(kRunes)
        else updateKey k
  | OtherMsg => sret NoCmd
  end.

(** ** The pages *)

Inductive formStyle : Type := titleStyle | selectedStyle | faintStyle | errorStyle.
Context `{Lipgloss} (render : formStyle → string → string).

(** [formatSettingValue] of config.go. *)
Definition formatSettingValue (v : anyval) : string :=
  match v with
  | ANil => "None"
  | AString s => s
  | ABool b => if b then "True" else "False"
  | AFloat f => FormatFloat_g f
  | ACds z | AInt z => Itoa z
  | AStrPtr _ | AOther => ""
  end.

Definition displaySettingValue (v : anyval) : string :=
  match v with
  | ABool b => if b then "Yes" else "No"
  | ACds z => let label := ToString z in if String.eqb label "" then Itoa z else label
  | _ => formatSettingValue v
  end.

Definition newline : string := str1 (az 10).
Definition blanks (n : Z) : string := bytes_string (replicate (Z.to_nat n) (az 32)).
Definition padRight (s : string) (width : Z) : string := if lgWidth s <? width then s +:+ blanks (width - lgWidth s) else s.

Definition truncate (s : string) (width : Z) : string :=
  let width := if width <? 4 then 4 else width in
  if zlen (runes s) <=? width then s else string_of_runes (take (Z.to_nat (width - 1)) (runes s)) +:+ ellipsis.

Definition bodyWidth (m : form) : Z := if m.(width) <? 40 then 40 else m.(width) - 2.
Definition titleWidth (m : form) : Z :=
  let w := foldl (fun w f => Z.max w (lgWidth f.(sfTitle))) 0 m.(fields) in
  let half := Z.quot (bodyWidth m) 2 in
  if half <? w then half else w.
Definition valueWidth (m : form) : Z :=
  let w := bodyWidth m - titleWidth m - 4 in if w <? 12 then 12 else w.

Definition currentValue (m : form) (f : settingsField) : string :=
  match Get terminalAvailable m.(cfg) f.(sfKey) with
  | Err _ => ""
  | Ok v => truncate (displaySettingValue v) (valueWidth m)
  end.

Definition status_line (m : form) : string :=
  if String.eqb m.(status) "" then ""
  else (if m.(failed) then render errorStyle m.(status) else m.(status)) +:+ newline +:+ newline.

Definition faintBlock (text : string) : string := str_join newline (render faintStyle <$> split_byte (az 10) text).

(** The arrows, the bullet and what the keys do. *)
Definition bullet : string := encode_rune 0x2022.
Definition arrows : string := encode_rune 0x2191 +:+ "/" +:+ encode_rune 0x2193.

Definition viewBrowse (m : form) : string :=
  let w := titleWidth m in
  render titleStyle "Kathara Settings" +:+ newline +:+ newline +:+
  string_concat (imap (fun i f =>
    let line := padRight (truncate f.(sfTitle) w) w +:+ "  " +:+ currentValue m f in
    (if Z.of_nat i =? m.(cursor) then "> " +:+ render selectedStyle line else "  " +:+ line) +:+ newline) m.(fields)) +:+
  newline +:+ status_line m +:+
  render faintStyle (arrows +:+ " move " +:+ bullet +:+ " enter edit " +:+ bullet +:+ " s save " +:+ bullet +:+ " q quit") +:+
  if m.(dirty) then render faintStyle ("  " +:+ bullet +:+ "  unsaved changes") else "".

Definition page_head (m : form) (f : settingsField) : string :=
  render titleStyle f.(sfTitle) +:+ newline +:+ render faintStyle ("Current: " +:+ currentValue m f) +:+ newline +:+ newline.

Definition viewChoosing (m : form) (f : settingsField) : string :=
  page_head m f +:+
  (if String.eqb f.(sfHelp) "" then "" else faintBlock (CliUsage.fillText f.(sfHelp) (bodyWidth m)) +:+ newline +:+ newline) +:+
  string_concat (imap (fun i o =>
    (if Z.of_nat i =? m.(choice) then "> " +:+ render selectedStyle o.(scLabel) else "  " +:+ o.(scLabel)) +:+ newline) (options f)) +:+
  newline +:+ status_line m +:+ render faintStyle (arrows +:+ " move " +:+ bullet +:+ " enter select " +:+ bullet +:+ " esc back").

Definition viewEditing (m : form) (f : settingsField) : string :=
  page_head m f +:+
  (if String.eqb f.(sfPrompt) "" then "" else CliUsage.fillText f.(sfPrompt) (bodyWidth m) +:+ newline) +:+
  input_View m.(input) +:+ newline +:+ newline +:+ status_line m +:+
  render faintStyle ("enter confirm " +:+ bullet +:+ " esc cancel").

Definition viewConfirmQuit : string :=
  render titleStyle "Kathara Settings" +:+ newline +:+ newline +:+
  "You have unsaved changes. Save them before quitting? [y/n]" +:+ newline +:+ newline +:+
  render faintStyle ("y save and quit " +:+ bullet +:+ " n discard and quit " +:+ bullet +:+ " esc keep editing").

Definition View : FM string :=
  do* m <- sget in
  match m.(mode) with
  | settingsChoosing => do* f <- the_field in sret (viewChoosing m f)
  | settingsEditing => do* f <- the_field in sret (viewEditing m f)
  | settingsConfirmQuit => sret viewConfirmQuit
  | settingsBrowse => sret (viewBrowse m)
  end.
End form.

(** ** The command *)

(** [runSettings] around the program that runs the form: it needs a terminal, edits a
    copy of the settings, and a save writes the file and then replaces the settings of
    the process. *)
Definition save_live {D} (Save : Settings → M D goerror unit) (s : Settings) : M (D * Settings) goerror unit := fun w =>
  match Save s w.1 with
  | (d, Ok _) => ((d, s), Ok tt)
  | (d, Err e) => ((d, w.2), Err e)
  end.

Definition needs_terminal : goerror :=
  New ErrInvocation "`kathara settings` needs a terminal. Use `kathara config get|set|list|reset` instead.".

Definition runSettings {I C D} `{TextInput I C} (onDarwin : bool) (managers : list settingsChoice) (tty : bool)
    (Run : form (I := I) (W := D * Settings) → form (I := I) (W := D * Settings) * result goerror unit)
    (w : D * Settings) : (D * Settings) * result goerror Z :=
  if negb tty then (w, Err needs_terminal)
  else
    match Run (newSettingsModel onDarwin managers w.2 w) with
    | (final, Err e) => (final.(world), Err e)
    | (final, Ok _) => (final.(world), match final.(formErr) with Some e => Err e | None => Ok 0 end)
    end.

Definition managerChoices (available : list (string * string)) : list settingsChoice :=
  (fun name =>
     let label := default "" (snd <$> List.find (fun i => String.eqb i.1 name) (rev available)) in
     answer (if String.eqb label "" then name else label) name) <$> availableManagers.

(** * The settings form is safe

    No key makes the form read past its items or its answers; it is left without a
    question only when every edit has been saved; and every answer its menus offer is
    one the settings take. *)

(** ** Words *)

Section words.
Context `{TextCases} (terminalAvailable : string → result goerror bool).
Implicit Type s : Settings.
Local Notation SetString := (SetString terminalAvailable).

(** A word that is refused changes nothing. *)
Lemma SetString_refused name v s s' e : SetString name v s = (s', Err e) → s' = s.
Proof.
  unfold SettingsFile.SetString. destruct (rbind _ _) as [w|]; [|congruence]. intros E.
  destruct (Set_outcome terminalAvailable name w s) as [(e' & E')|(d & w' & s2 & keys & E' & _)]; congruence.
Qed.

(** A word under another name than [manager_type] leaves the manager as it is. *)
Lemma SetString_manager name v s s' r : SetString name v s = (s', r) → name ≠ "manager_type" → s'.(sManagerType) = s.(sManagerType).
Proof.
  unfold SettingsFile.SetString. destruct (rbind _ _) as [w|]; [|congruence]. intros E Hn.
  destruct (Set_outcome terminalAvailable name w s) as [(e' & E')|(d & w' & s2 & keys & E' & Es & Hd & En & Hv & _)]; [congruence|].
  rewrite E in E'. injection E' as -> ->. destruct (decide (sManagerType s2 = sManagerType s)) as [|Hne]; [done|]. exfalso.
  revert E. unfold Settings.Set_. destruct (Settings.lookup terminalAvailable s name) as [d2|] eqn:El; [|congruence].
  destruct (lookup_elem terminalAvailable s name d2 keys Es El) as [Hd2 Hn2].
  pose proof (schema_elem terminalAvailable s keys d2 Es Hd2) as Hd2'.
  rewrite (setValue_spec terminalAvailable) by done. destruct (normal d2 w) as [w2|] eqn:Ev; [|congruence].
  destruct (check_value d2 s w2) as [[]|]; [|congruence]. rewrite Hn2, (proj2 (String.eqb_neq _ _) Hn). cbn [andb].
  intros [= <-]. apply Hne. clear -Hd2' Hn2 Hn Ev. set_unfold in Hd2'. destruct_or?; subst d2; cbn in *; try done; by destruct w2.
Qed.
End words.

(** ** What an answer does *)

Section answers.
Context `{TextCases} (terminalAvailable : string → result goerror bool) (onDarwin : bool).
Context (managers : list settingsChoice) (Hmanagers : Forall (fun c => c.(scExtra) = []) managers).
Implicit Type s : Settings.
Local Notation SetString := (SetString terminalAvailable).

Lemma lookup_docker s d : Settings.lookup terminalAvailable s "remote_url" = Ok d →
  Settings.lookup terminalAvailable s "cert_path" = Ok (Settings.mkKey "cert_path" KindNullableString (PNStr CertPath) None).
Proof.
  unfold Settings.lookup, Settings.schema, addonKeys. destruct (String.eqb _ "Docker"); [done|]. by destruct (String.eqb _ "Kubernetes").
Qed.

(** The connection is reset with its certificates, or not at all. *)
Lemma reset_remote s s' : SetString "remote_url" "" s = (s', Ok tt) → ∃ s2, SetString "cert_path" "" s' = (s2, Ok tt).
Proof.
  intros E. pose proof (SetString_manager _ _ _ _ _ _ E ltac:(done)) as Hm. revert E. unfold SettingsFile.SetString.
  destruct (Settings.lookup terminalAvailable s "remote_url") as [d|] eqn:El; [|done]. intros _.
  pose proof (lookup_docker s d El) as Ec. unfold Settings.lookup in Ec |- *. rewrite (schema_manager _ s s') by done.
  rewrite Ec. cbn [rbind parse_word kKind String.eqb]. unfold Settings.Set_, Settings.lookup. rewrite (schema_manager _ s s'), Ec by done.
  cbn. by eexists.
Qed.

Definition sound_answer (f : settingsField) (c : settingsChoice) : Prop :=
  c.(scExtra) = [] ∨ (f.(sfKey) = "remote_url" ∧ c.(scValue) = "" ∧ c.(scExtra) = [mkAssign "cert_path" ""]).

Lemma assign_refused f c s s' e : sound_answer f c → ∀ v, v = c.(scValue) ∨ f.(sfKey) ≠ "remote_url" →
  assign_all terminalAvailable (mkAssign f.(sfKey) v :: c.(scExtra)) s = (s', Err e) → s' = s.
Proof.
  intros Hc v Hv. cbn [assign_all saKey saValue]. unfold sbind at 1.
  destruct (SetString (sfKey f) v s) as [s1 [[]|e1]] eqn:E; [|intros [= <- <-]; by eapply SetString_refused].
  destruct Hc as [->|(Hk & Hv' & ->)]; [done|]. destruct Hv as [->|Hv]; [|done]. rewrite Hk, Hv' in E.
  destruct (reset_remote _ _ E) as [s2 E2]. cbn [assign_all saKey saValue]. unfold sbind. by rewrite E2.
Qed.

Lemma literal_extra values labels c : c ∈ labelledChoices values labels → c.(scExtra) = [].
Proof. unfold labelledChoices. intros Hc. by apply list_elem_of_fmap in Hc as (v & -> & _). Qed.

Ltac plain_answers :=
  first [exact Hmanagers | apply Forall_forall; intros ? ?; by eapply literal_extra | by repeat constructor].

Lemma fields_sound s f : f ∈ settingsFields onDarwin managers s → ∀ c, c ∈ options f → sound_answer f c.
Proof.
  intros Hf c Hc. unfold options in Hc. apply elem_of_app in Hc as [Hc|Hc].
  2: { left. destruct (_ && _); [|by apply not_elem_of_nil in Hc]. by apply list_elem_of_singleton in Hc as ->. }
  assert (Hone : ∀ c', Forall (fun c => c.(scExtra) = []) (sfChoices f) → c' ∈ sfChoices f → sound_answer f c').
  { intros c' HF Hc'. left. rewrite Forall_forall in HF. by apply HF. }
  unfold settingsFields in Hf. apply elem_of_app in Hf as [Hf|Hf].
  - unfold commonFields in Hf. set_unfold in Hf. destruct_or?; subst f; (apply Hone; [|done]); cbn [menu prompted sfChoices];
      plain_answers.
  - destruct (String.eqb _ _); unfold kubernetesFields, dockerFields in Hf; set_unfold in Hf; destruct_or?; subst f;
      (try (apply Hone; [|done]; cbn [menu prompted sfChoices]; plain_answers)).
    cbn [prompted sfChoices] in Hc. apply list_elem_of_singleton in Hc as ->. by right.
Qed.
End answers.

(** ** The form *)

Section safe.
Context `{TextCases, Tea} {I C : Type} `{TextInput I C} (terminalAvailable : string → result goerror bool) (onDarwin : bool).
Context (managers : list settingsChoice) (Hmanagers : Forall (fun c => c.(scExtra) = []) managers).
Context (EncodeDockerConfigJSON : string → result goerror string) {D : Type} (Save : Settings → M D goerror unit) (FormatFloat_g : f64 → string).
Notation form := (form (I := I) (W := D * Settings)).
Notation FM := (FM (I := I) (W := D * Settings)).
Notation apply := (apply terminalAvailable onDarwin managers EncodeDockerConfigJSON).
Notation updateKey := (updateKey terminalAvailable onDarwin managers EncodeDockerConfigJSON (save_live Save) FormatFloat_g).
Notation Update := (Update terminalAvailable onDarwin managers EncodeDockerConfigJSON (save_live Save) FormatFloat_g).

(** The items are those of the settings being edited, the cursor is on one of them and
    the choice on one of its answers; without edits the settings are those of the
    process. *)
Record form_ok (m : form) : Prop := {
  fo_fields : m.(fields) = settingsFields onDarwin managers m.(cfg);
  fo_cursor : 0 <= m.(cursor) < zlen m.(fields);
  fo_choice : m.(mode) = settingsChoosing → ∃ f, index_at m.(fields) m.(cursor) = Ok f ∧ 0 <= m.(choice) < zlen (options f);
  fo_saved : m.(dirty) = false → m.(cfg) = m.(world).2
}.

(** A program that does not panic, from forms of which [P] holds to those of which
    [Q] does. *)
Definition safely {A} (P : form → Prop) (c : FM A) (Q : A → form → Prop) : Prop :=
  ∀ m, form_ok m → P m → ∃ m' a, c m = (m', Ok a) ∧ form_ok m' ∧ Q a m'.

Lemma safely_ret {A} (a : A) (P : form → Prop) (Q : A → form → Prop) : (∀ m, form_ok m → P m → Q a m) → safely P (sret a) Q.
Proof. intros HQ m Hm HP. exists m, a. auto. Qed.

Lemma safely_bind {A B} P (c : FM A) Q (k : A → FM B) R : safely P c Q → (∀ a, safely (Q a) (k a) R) → safely P (sbind c k) R.
Proof.
  intros Hc Hk m Hm HP. destruct (Hc m Hm HP) as (m1 & a & E & G1 & HQ). destruct (Hk a m1 G1 HQ) as (m2 & b & E2 & G2 & HR).
  exists m2, b. unfold sbind. by rewrite E.
Qed.

Lemma safely_modify P (f : form → form) (Q : unit → form → Prop) :
  (∀ m, form_ok m → P m → form_ok (f m) ∧ Q tt (f m)) → safely P (smodify f) Q.
Proof. intros Hf m Hm HP. destruct (Hf m Hm HP). by exists (f m), tt. Qed.

Lemma safely_get P : safely P sget (fun m' m => m = m' ∧ P m).
Proof. intros m Hm HP. by exists m, m. Qed.

Lemma safely_field P : safely P the_field (fun f m => index_at m.(fields) m.(cursor) = Ok f ∧ P m).
Proof.
  intros m Hm HP. destruct (index_at_in _ _ (fo_cursor _ Hm)) as (f & E & _). exists m, f. unfold the_field. by rewrite E.
Qed.

Lemma settingsFields_length s : 1 <= zlen (settingsFields onDarwin managers s).
Proof. unfold settingsFields, commonFields. rewrite zlen_app. cbn [app]. rewrite !zlen_cons. pose proof (zlen_nonneg (if String.eqb (ToLower (sManagerType s)) "kubernetes" then kubernetesFields else dockerFields)). rewrite zlen_nil. lia. Qed.

Lemma field_known m f : form_ok m → index_at m.(fields) m.(cursor) = Ok f → f ∈ settingsFields onDarwin managers m.(cfg).
Proof. intros Hm E. rewrite <- (fo_fields _ Hm). apply index_at_Ok in E as [_ E]. by eapply list_elem_of_lookup_2. Qed.

(** An answer that is refused changes nothing but the status line; one that is taken
    makes the form dirty and its items are built again. *)
Lemma apply_total f c m : form_ok m → index_at m.(fields) m.(cursor) = Ok f → sound_answer f c →
  ∃ m' ok, apply f c m = (m', Ok ok) ∧ m'.(mode) = m.(mode) ∧ (ok = false → form_ok m') ∧ form_ok (set_mode settingsBrowse m').
Proof.
  intros Hm Ef Hc. pose proof Hm as [Hf Hcur Hch Hsv]. unfold SettingsForm.apply.
  assert (Hrefuse : ∀ e s, s = m.(cfg) → form_ok (fail_form e (set_cfg s m)) ∧ form_ok (set_mode settingsBrowse (fail_form e (set_cfg s m)))).
  { intros e s ->. by split; split. }
  destruct (answer_value EncodeDockerConfigJSON f c) as [v|e] eqn:Ev.
  2: { exists (fail_form e m), false. assert (E : fail_form e m = fail_form e (set_cfg m.(cfg) m)) by by destruct m. rewrite E.
    destruct (Hrefuse e _ eq_refl). by destruct m. }
  assert (Hv : v = c.(scValue) ∨ f.(sfKey) ≠ "remote_url").
  { unfold answer_value, isPath in Ev. destruct (String.eqb_spec (sfKey f) dockerConfigJSONKey) as [->|]; [by right|]. cbn in Ev. left. congruence. }
  destruct (assign_all terminalAvailable _ (cfg m)) as [s [[]|e]] eqn:Ea.
  - set (l := settingsFields onDarwin managers s). pose proof (settingsFields_length s) as Hl. fold l in Hl.
    eexists _, true. split; [reflexivity|]. split; [by destruct (zlen l <=? _)|]. split; [done|].
    cbn [cursor set_fields set_status set_dirty set_cfg].
    destruct (Z.leb_spec (zlen l) (cursor m)); split; cbn [cursor set_fields set_status set_dirty set_cfg set_cursor set_mode fields cfg mode dirty world]; (done || lia).
  - apply (assign_refused terminalAvailable f c) in Ea; [|done..]. subst s. destruct (Hrefuse e _ eq_refl).
    by exists (fail_form e (set_cfg m.(cfg) m)), false.
Qed.

(** What a command of a key may be: the form is left from the list of its items only
    when the settings are those of the process. *)
Definition leaves (cmd : Cmd C) (m : form) : Prop := cmd = Quit → m.(mode) = settingsBrowse → m.(cfg) = m.(world).2.

Lemma field_cmd_leaves (c : option C) m : leaves (field_cmd c) m.
Proof. by destruct c. Qed.

Definition on_list (m : form) : Prop := m.(mode) = settingsBrowse.

Lemma safely_startEditing P f : safely P (startEditing terminalAvailable FormatFloat_g f) leaves.
Proof.
  intros m [Hf Hcur Hch Hsv] _. unfold startEditing. destruct (input_Focus _) as [i cmd]. eexists _, _. split; [reflexivity|].
  split; [by split|]. apply field_cmd_leaves.
Qed.

Lemma safely_doSave P : safely P (doSave (save_live Save)) (fun ok m => ok = true → m.(cfg) = m.(world).2).
Proof.
  intros m [Hf Hcur Hch Hsv] _. unfold doSave, save_live. destruct (Save (cfg m) (world m).1) as [d [[]|e]].
  - eexists _, true. split; [reflexivity|]. by split; [split|].
  - eexists _, false. split; [reflexivity|]. by split; [split|].
Qed.

(** What ends without a command. *)
Lemma safely_quietly {A} P (c : FM A) Q : safely P c Q → safely P (do* _ <- c in sret NoCmd) leaves.
Proof. intros Hc. eapply safely_bind; [exact Hc|]. intros a. by apply safely_ret. Qed.

Lemma safely_move delta : safely on_list (move delta) (fun _ _ => True).
Proof.
  apply safely_modify. intros m Hm Hb. split; [|done]. cbv zeta. unfold on_list in Hb.
  destruct (Z.ltb_spec (cursor m + delta) 0), (Z.leb_spec (zlen (fields m)) (cursor m + delta)); cbn [orb]; try done.
  destruct Hm as [Hf Hcur Hch Hsv]. split; cbn; (done || lia || congruence).
Qed.

Lemma safely_to_list P : safely P (smodify (set_mode settingsBrowse)) (fun _ _ => True).
Proof. apply safely_modify. intros m [Hf Hcur Hch Hsv] _. split; [by split|done]. Qed.

Lemma safely_open : safely on_list (open terminalAvailable FormatFloat_g) leaves.
Proof.
  eapply safely_bind; [apply safely_field|]. intros f.
  apply (safely_bind _ _ (fun _ m => index_at m.(fields) m.(cursor) = Ok f ∧ on_list m)).
  { apply safely_modify. intros m [Hf Hcur Hch Hsv] [Ef Hb]. split; [by split|done]. }
  intros []. destruct (bool_decide (options f = [])) eqn:Eo; [by apply safely_startEditing|].
  apply safely_quietly with (Q := fun _ _ => True). apply safely_modify. intros m [Hf Hcur Hch Hsv] [Ef Hb]. split; [|done].
  split; cbn; try done. intros _. exists f. split; [done|]. apply bool_decide_eq_false in Eo.
  destruct (options f); [done|]. rewrite zlen_cons. pose proof (zlen_nonneg l). lia.
Qed.

Lemma safely_browse k : safely on_list (updateBrowse terminalAvailable (save_live Save) FormatFloat_g k) leaves.
Proof.
  unfold updateBrowse. destruct (is_key k _); [eapply safely_quietly, safely_move|].
  destruct (is_key k _); [eapply safely_quietly, safely_move|]. destruct (is_key k _); [apply safely_open|].
  destruct (is_key k _); [eapply safely_quietly, safely_doSave|]. destruct (is_key k _); [|by apply safely_ret].
  eapply safely_bind; [apply safely_get|]. intros m. destruct (dirty m) eqn:Ed.
  - eapply safely_quietly with (Q := fun _ _ => True). apply safely_modify. intros m' [Hf Hcur Hch Hsv] _. by split; [split|].
  - apply safely_ret. intros m' Hm' [-> _] _ _. by apply (fo_saved _ Hm').
Qed.

Lemma safely_choosing k : safely (fun m => m.(mode) = settingsChoosing)
  (updateChoosing terminalAvailable onDarwin managers EncodeDockerConfigJSON FormatFloat_g k) leaves.
Proof.
  unfold updateChoosing. eapply safely_bind; [apply safely_field|]. intros f. eapply safely_bind; [apply safely_get|]. intros m0.
  assert (Hchoice : ∀ m, form_ok m → m = m0 ∧ index_at (fields m) (cursor m) = Ok f ∧ mode m = settingsChoosing →
    0 <= choice m < zlen (options f)).
  { intros m Hm (_ & Ef & Hmode). destruct (fo_choice _ Hm Hmode) as (f' & Ef' & Hc). rewrite Ef in Ef'. by injection Ef' as ->. }
  assert (Hmove : ∀ g : Z → Z, (∀ c, 0 <= c < zlen (options f) → 0 <= g c < zlen (options f)) → ∀ m, form_ok m →
    m = m0 ∧ index_at (fields m) (cursor m) = Ok f ∧ mode m = settingsChoosing → form_ok (set_choice (g (choice m)) m)).
  { intros g Hg m Hm Hp. pose proof (Hchoice m Hm Hp) as Hc. destruct Hm as [Hf Hcur Hch Hsv], Hp as (_ & Ef & Hmode).
    split; cbn; try done. intros _. exists f. split; [done|]. by apply Hg. }
  destruct (is_key k _).
  { eapply safely_quietly with (Q := fun _ _ => True). apply safely_modify. intros m Hm Hp. split; [|done].
    destruct (Z.ltb_spec 0 (choice m)); [|done]. pose proof (Hchoice m Hm Hp).
    apply (Hmove (fun _ => choice m - 1)); [intros _ _; lia|done..]. }
  destruct (is_key k _).
  { eapply safely_quietly with (Q := fun _ _ => True). apply safely_modify. intros m Hm Hp. split; [|done].
    destruct (Z.ltb_spec (choice m) (zlen (options f) - 1)); [|done]. pose proof (Hchoice m Hm Hp).
    apply (Hmove (fun _ => choice m + 1)); [intros _ _; lia|done..]. }
  destruct (is_key k _); [eapply safely_quietly, safely_to_list|]. destruct (is_key k _); [|by apply safely_ret].
  destruct (bool_decide (options f = [])) eqn:Eo; [eapply safely_quietly, safely_to_list|].
  intros m Hm Hp. destruct (index_at_in _ _ (Hchoice m Hm Hp)) as (c & Ec & Hin). destruct Hp as (<- & Ef & Hmode). rewrite Ec.
  destruct (String.eqb (scValue c) freeTextSentinel); [by apply (safely_startEditing (fun _ => True))|].
  destruct (apply_total f c m Hm Ef) as (m' & ok & E & Hmo & Hno & Hyes).
  { apply (fields_sound onDarwin managers Hmanagers (cfg m)); [by apply field_known|by eapply list_elem_of_lookup_2]. }
  unfold sbind at 1. rewrite E. destruct ok; [|by exists m', NoCmd; split; [|split; [apply Hno|]]].
  by eexists _, NoCmd.
Qed.

Lemma safely_editing k : safely (fun m => m.(mode) = settingsEditing)
  (updateEditing terminalAvailable onDarwin managers EncodeDockerConfigJSON k) leaves.
Proof.
  assert (Hblur : ∀ m, form_ok (set_mode settingsBrowse m) → form_ok (set_input (input_Blur m.(input)) (set_mode settingsBrowse m)))
    by by intros m [Hf Hcur Hch Hsv].
  unfold updateEditing. eapply safely_bind; [apply safely_field|]. intros f.
  destruct (_ =? KeyEsc).
  { eapply safely_quietly with (Q := fun _ _ => True). apply safely_modify. intros m [Hf Hcur Hch Hsv] _. split; [by split|done]. }
  destruct (_ =? KeyEnter).
  - intros m Hm [Ef Hmode]. unfold sbind at 1, sget. destruct (apply_total f (answer "" (input_Value (input m))) m Hm Ef) as (m' & ok & E & Hmo & Hno & Hyes);
      [by left|]. unfold sbind at 1. rewrite E. destruct ok; [|by exists m', NoCmd; split; [|split; [apply Hno|]]].
    eexists _, NoCmd. split; [reflexivity|]. split; [by apply Hblur|done].
  - intros m [Hf Hcur Hch Hsv] _. destruct (input_Update k (input m)) as [i cmd]. eexists _, _. split; [reflexivity|].
    split; [by split|]. apply field_cmd_leaves.
Qed.

Lemma safely_confirm k : safely (fun m => m.(mode) = settingsConfirmQuit) (updateConfirmQuit (save_live Save) k) leaves.
Proof.
  unfold updateConfirmQuit. destruct (is_key k _).
  - eapply safely_bind; [apply safely_doSave|]. intros [].
    + apply safely_ret. intros m _ Hs _ _. by apply Hs.
    + eapply safely_quietly, safely_to_list.
  - destruct (is_key k _).
    + apply safely_ret. intros m _ Hmode _ Hb. unfold on_list in *. congruence.
    + destruct (is_key k _); [eapply safely_quietly, safely_to_list|by apply safely_ret].
Qed.

Lemma safely_key k : k.(kType) ≠ KeyCtrlC → safely (fun _ => True) (updateKey k) leaves.
Proof.
  intros Hk m Hm _. unfold SettingsForm.updateKey. rewrite (proj2 (Z.eqb_neq _ _) Hk). unfold sbind, sget.
  destruct (mode m) eqn:Hmode;
    [by apply safely_browse|by apply safely_choosing|by apply safely_editing|by apply safely_confirm].
Qed.

Context (Hrunes : KeyRunes ≠ KeyCtrlC).

Lemma safely_replay l : safely (fun _ => True)
  (replayRunes terminalAvailable onDarwin managers EncodeDockerConfigJSON (save_live Save) FormatFloat_g l) leaves.
Proof.
  induction l as [|r l IH]; [by apply safely_ret|]. cbn [replayRunes]. eapply safely_bind; [by apply safely_key|].
  intros cmd. destruct (cmd_nil cmd) eqn:Ec; [by intros m Hm _; apply IH|]. by apply safely_ret.
Qed.

Lemma safely_Update msg m : form_ok m →
  ∃ m' cmd, Update msg m = (m', Ok cmd) ∧ form_ok m' ∧ ((∃ k, msg = Key k ∧ k.(kType) = KeyCtrlC) ∨ leaves cmd m').
Proof.
  intros Hm. destruct msg as [w h|k|]; cbn [SettingsForm.Update].
  - eexists _, NoCmd. split; [reflexivity|]. split; [|by right]. destruct Hm as [Hf Hcur Hch Hsv]. destruct (0 <? w); by split.
  - destruct (Z.eqb_spec (kType k) KeyCtrlC) as [Hk|Hk]; [exists m, Quit; split; [done|]; split; [done|]; left; by exists k|].
    unfold sbind, sget. destruct (_ && _).
    + destruct (safely_replay (kRunes k) m Hm Logic.I) as (m' & cmd & E & Hm' & Hl). exists m', cmd. auto.
    + destruct (safely_key k Hk m Hm Logic.I) as (m' & cmd & E & Hm' & Hl). exists m', cmd. auto.
  - exists m, NoCmd. split; [done|]. split; [done|]. by right.
Qed.

Lemma form_start_ok s d : form_ok (newSettingsModel onDarwin managers s (d, s)).
Proof. pose proof (settingsFields_length s). split; cbn; (done || lia). Qed.

Lemma View_total `{Lipgloss} render m : form_ok m → ∃ text, View terminalAvailable FormatFloat_g render m = (m, Ok text).
Proof.
  intros Hm. unfold View, sbind at 1, sget. destruct (index_at_in _ _ (fo_cursor _ Hm)) as (f & E & _).
  destruct (mode m); try (by eexists); unfold sbind, the_field; rewrite E; by eexists.
Qed.

(** The forms the program that runs them can have: messages arrive one after another
    until one ends it. *)
Inductive reached (s : Settings) (d : D) : form → Prop :=
| reached_start : reached s d (newSettingsModel onDarwin managers s (d, s))
| reached_next msg m m' cmd : reached s d m → Update msg m = (m', Ok cmd) → cmd ≠ Quit → reached s d m'.

Lemma reached_ok s d m : reached s d m → form_ok m.
Proof.
  induction 1 as [|msg m m' cmd _ IH E _]; [apply form_start_ok|]. destruct (safely_Update msg m IH) as (m2 & cmd2 & E2 & H2 & _).
  rewrite E in E2. by injection E2 as -> _.
Qed.
End safe.

(** C11: Whatever keys are typed at the settings form, and however fast, it
    never reads past its items or the answers of one, every page of it can be drawn,
    and it is left from the list of its items, other than by an interrupt, only when
    the settings of the process are the ones that were edited. *)
Theorem settings_form_is_safe `{TextCases, TeaLaws} {I C} `{TextInput I C} `{Lipgloss} terminalAvailable onDarwin managers Encode
    {D} (Save : Settings → M D goerror unit) FormatFloat_g render s d m :
  Forall (fun c => c.(scExtra) = []) managers →
  reached terminalAvailable onDarwin managers Encode Save FormatFloat_g s d m →
  (∃ text, View terminalAvailable FormatFloat_g render m = (m, Ok text)) ∧
  ∀ msg, ∃ m' cmd,
    Update terminalAvailable onDarwin managers Encode (save_live Save) FormatFloat_g msg m = (m', Ok cmd) ∧
    (cmd = Quit → m'.(mode) = settingsBrowse → (∀ k, msg = Key k → k.(kType) ≠ KeyCtrlC) → m'.(cfg) = m'.(world).2).
Proof.
  intros Hm Hr. assert (Hk : KeyRunes ≠ KeyCtrlC) by (unfold KeyCtrlC; pose proof runes_negative; lia).
  pose proof (reached_ok _ _ _ Hm _ _ _ Hk _ _ _ Hr) as Hok. split; [by eapply View_total|]. intros msg.
  destruct (safely_Update terminalAvailable _ _ Hm Encode Save FormatFloat_g Hk msg m Hok) as (m' & cmd & E & _ & Hl). exists m', cmd. split; [done|].
  intros Hq Hb Hc. destruct Hl as [(k & -> & Hkc)|Hl]; [by destruct (Hc k)|by apply Hl].
Qed.

(** ** The menus *)

Section menus.
Context `{TextCases} {TL : TextCasesLaws} (terminalAvailable : string → result goerror bool) (onDarwin : bool) (managers : list settingsChoice).

Lemma menu_answer s name v d w s1 :
  Settings.lookup terminalAvailable s name = Ok d → parse_word d v = Ok w → setValue d s w = (s1, Ok tt) →
  str_in s1.(sManagerType) availableManagers = true → ∃ s', SetString terminalAvailable name v s = (s', Ok tt).
Proof.
  intros El Ep Es Hm. unfold SetString. rewrite El. cbn [rbind]. rewrite Ep. unfold Settings.Set_. rewrite El, Es.
  destruct (_ && _); [|by eexists]. destruct (known_manager _ Hm) as [addon Ea]. unfold resetAddon. rewrite Ea. by eexists.
Qed.

Lemma str_to_bool_true : StrToBool "true" = Ok true.
Proof. unfold StrToBool. by rewrite pyLower_ascii. Qed.
Lemma str_to_bool_false : StrToBool "false" = Ok false.
Proof. unfold StrToBool. by rewrite pyLower_ascii. Qed.
End menus.

(** An answer is legal as soon as its word is, for its key. *)
Ltac legal_answer Hone Hsch Hs :=
  eapply Hone; [reflexivity|reflexivity|reflexivity|done|by unfold Settings.lookup; rewrite Hsch|
    first [reflexivity|cbn; rewrite str_to_bool_true; reflexivity|cbn; rewrite str_to_bool_false; reflexivity]|reflexivity|exact Hs].

(** Every answer the menus of the settings form offer is one the
    settings take, the resets of nullable keys and the reset of a remote connection
    included; only a terminal emulator may be missing from the host. *)
Theorem menu_answers_are_legal `{TC : TextCases} {TL : TextCasesLaws} terminalAvailable onDarwin managers Encode s f c :
  str_in s.(sManagerType) availableManagers = true →
  Forall (fun c => str_in c.(scValue) availableManagers = true ∧ c.(scExtra) = []) managers →
  f ∈ settingsFields onDarwin managers s → c ∈ options f → c.(scValue) ≠ freeTextSentinel → f.(sfKey) ≠ "terminal" →
  ∃ s', (let* v := answer_value Encode f c in Ok (assign_all terminalAvailable (mkAssign f.(sfKey) v :: c.(scExtra)) s)) = Ok (s', Ok tt).
Proof.
  intros Hs Hman Hf Hc Hfree Hterm.
  assert (Hone : ∀ name v d w s1, c.(scValue) = v → f.(sfKey) = name → c.(scExtra) = [] → (isPath f = true → v = "") →
    Settings.lookup terminalAvailable s name = Ok d → parse_word d v = Ok w → setValue d s w = (s1, Ok tt) →
    str_in s1.(sManagerType) availableManagers = true →
    ∃ s', (let* v := answer_value Encode f c in Ok (assign_all terminalAvailable (mkAssign f.(sfKey) v :: c.(scExtra)) s)) = Ok (s', Ok tt)).
  { intros name v d w s1 Ev En Ex Hp El Ep Es Hm. destruct (menu_answer terminalAvailable s name v d w s1 El Ep Es Hm) as [s' E].
    exists s'. unfold answer_value. rewrite Ev, En, Ex. destruct (isPath f); [rewrite Hp by done|]; cbn [negb String.eqb andb rbind assign_all saKey saValue]; unfold sbind.
    - rewrite Hp in E by done. by rewrite E.
    - by rewrite E. }
  assert (Hsch : Settings.schema terminalAvailable s = Ok (baseKeys terminalAvailable ++ if String.eqb (sManagerType s) "docker" then dockerKeys else kubernetesKeys)
    ∧ String.eqb (ToLower (sManagerType s)) "kubernetes" = negb (String.eqb (sManagerType s) "docker")).
  { unfold Settings.schema. clear -Hs. unfold str_in, availableManagers in Hs. cbn [existsb] in Hs.
    destruct (String.eqb_spec (sManagerType s) "docker") as [->|]; [done|]. destruct (String.eqb_spec (sManagerType s) "kubernetes") as [->|]; [done|]. done. }
  destruct Hsch as [Hsch Hkind].
  assert (Hc2 : c ∈ f.(sfChoices)).
  { unfold options in Hc. apply elem_of_app in Hc as [|Hc]; [done|]. destruct (_ && _); [|by apply not_elem_of_nil in Hc].
    apply list_elem_of_singleton in Hc as ->. done. }
  clear Hc. unfold settingsFields in Hf. apply elem_of_app in Hf as [Hf|Hf].
  - unfold commonFields in Hf. set_unfold in Hf. destruct Hf as [->|Hf].
    { rewrite Forall_forall in Hman. destruct (Hman c Hc2) as [Hv Hx].
      eapply (Hone "manager_type" (scValue c)); [done|done|done|done|by unfold Settings.lookup; rewrite Hsch|reflexivity|..].
      - unfold setValue, check_value, validateManagerTypeValue, requireOneOf. cbn [kPtr kValidate]. rewrite Hv. reflexivity.
      - exact Hv. }
    destruct_or?; subst f; try done; cbn in Hc2; set_unfold in Hc2; destruct_or?; subst c;
      legal_answer Hone Hsch Hs.
  - rewrite Hkind in Hf. destruct (String.eqb (sManagerType s) "docker"); cbn [negb] in Hf.
    + unfold dockerFields in Hf. set_unfold in Hf.
      destruct_or?; subst f; cbn in Hc2; set_unfold in Hc2; destruct_or?; subst c; try legal_answer Hone Hsch Hs.
      destruct (menu_answer terminalAvailable s "remote_url" "" (Settings.mkKey "remote_url" KindNullableString (PNStr RemoteURL) None) ANil
        (put (PNStr RemoteURL) (Some (AStrPtr None)) s)) as [s1 E1]; [by unfold Settings.lookup; rewrite Hsch|reflexivity|reflexivity|exact Hs|].
      destruct (reset_remote _ _ _ E1) as [s2 E2]. exists s2. cbn. unfold sbind. by rewrite E1, E2.
    + unfold kubernetesFields in Hf. set_unfold in Hf.
      destruct_or?; subst f; cbn in Hc2; set_unfold in Hc2; destruct_or?; subst c; legal_answer Hone Hsch Hs.
Qed.

(** ** Closed examples *)

#[local] Instance form_cases : TextCases := ToLower.
#[local] Instance form_cases_laws : TextCasesLaws.
Proof. by intros s. Qed.
#[local] Instance form_width : Lipgloss := fun s => Z.of_nat (length (runes s)).
#[local] Instance form_tea : Tea := {
  KeyRunes := -1; KeySpace := -2; KeyCtrlB := 2;
  keyCode k := - 3 - Z.of_nat (default 0%nat (fst <$> list_find (fun e => e.1 = k) specialKeys));
  keyString k := if k.(kType) =? 13 then "enter" else if k.(kType) =? 27 then "esc" else string_of_runes k.(kRunes);
  renderStyle _ s := s
}.
#[local] Instance form_tea_laws : TeaLaws.
Proof.
  split; try done.
  - intros k. cbn. lia.
  - intros k. cbn. lia.
  - intros k. cbn. lia.
  - intros k k'. destruct k, k'; vm_compute; congruence.
Qed.
#[local] Instance text_field : TextInput string unit := {
  input_New := ""; input_Value := id; input_SetValue v _ := v; input_CursorEnd := id; input_Focus i := (i, Some tt);
  input_Blur := id; input_Update k i := (i +:+ string_of_runes k.(kRunes), None); input_View i := "> " +:+ i
}.

Definition two_managers : list settingsChoice := [answer "Docker (Kathara)" "docker"; answer "Kubernetes (Megalos)" "kubernetes"].
Definition typed (text : string) : formMsg := Key (Mux.mkKey (-1) (runes text) false).
Definition enter_key : formMsg := Key (Mux.mkKey KeyEnter [] false).
Definition save_file : Settings → M memDisk goerror unit := fun s => Save no_terminal (Ok "/root") (Ok (0, 0)) s "".
Local Notation do_form := (Update no_terminal false two_managers (fun _ => Ok "") (save_live save_file) (fun _ => "")).
Local Notation form_at := (form (I := string) (W := memDisk * Settings)).
Definition fresh_form : form_at := newSettingsModel false two_managers defaultSettings (mkDisk ∅ ∅, defaultSettings).

Lemma surjective_run {A B} (p : A * result panic B) b : p.2 = Ok b → p = (p.1, Ok b).
Proof. destruct p. by intros <-. Qed.

(** Two items down, the second answer, and that one taken. *)
Definition edits : list formMsg := [typed "jj"; enter_key; typed "j"; enter_key].
Definition edited_form : form_at := foldl (fun m msg => (do_form msg m).1) fresh_form edits.

Example form_edits : (edited_form.(dirty), edited_form.(cfg).(sOpenTerminals), edited_form.(world).2.(sOpenTerminals), edited_form.(cursor)) = (true, false, true, 2).
Proof. vm_compute. reflexivity. Qed.
Example form_asks : let q := do_form (typed "q") edited_form in
  match q with (m, Ok NoCmd) => match m.(mode) with settingsConfirmQuit => true | _ => false end | _ => false end = true.
Proof. vm_compute. reflexivity. Qed.
Example form_saves : match do_form (typed "sq") edited_form with
  | (m, Ok Quit) => (m.(world).2.(sOpenTerminals), map_size (dkFiles m.(world).1)) = (false, 1%nat) | _ => False end.
Proof. vm_compute. reflexivity. Qed.

Lemma settings_form_is_safe_witness :
  ∃ m' cmd, do_form (typed "sq") edited_form = (m', Ok cmd) ∧ cmd = Quit ∧ m'.(cfg) = m'.(world).2.
Proof.
  assert (Hr : reached no_terminal false two_managers (fun _ => Ok "") save_file (fun _ => "") defaultSettings (mkDisk ∅ ∅) edited_form).
  { unfold edited_form, edits. cbn [foldl].
    repeat (eapply reached_next; [|apply surjective_run; vm_compute; reflexivity|done]). apply reached_start. }
  destruct (settings_form_is_safe no_terminal false two_managers (fun _ => Ok "") save_file (fun _ => "") (fun _ s => s) defaultSettings
    (mkDisk ∅ ∅) edited_form) as (_ & H); [by repeat constructor|exact Hr|].
  destruct (H (typed "sq")) as (m' & cmd & E & Hq). exists m', cmd. split; [exact E|].
  assert (Ec : (do_form (typed "sq") edited_form).2 = Ok Quit ∧ mode (do_form (typed "sq") edited_form).1 = settingsBrowse)
    by (split; vm_compute; reflexivity).
  rewrite E in Ec. destruct Ec as [Ec Em]. cbn in Ec, Em. injection Ec as ->. split; [done|]. apply Hq; [done|done|].
  intros k [= <-]. done.
Defined.

Lemma menu_answers_are_legal_witness :
  ∃ s', (let* v := answer_value (fun _ => Ok "") (nth 16 (settingsFields false two_managers defaultSettings) (menu "" "" "" []))
           (mkChoice "Reset remote Docker connection to default" "" [mkAssign "cert_path" ""]) in
         Ok (assign_all no_terminal [mkAssign "remote_url" v; mkAssign "cert_path" ""] defaultSettings)) = Ok (s', Ok tt).
Proof.
  apply (menu_answers_are_legal no_terminal false two_managers (fun _ => Ok "") defaultSettings
    (nth 16 (settingsFields false two_managers defaultSettings) (menu "" "" "" []))
    (mkChoice "Reset remote Docker connection to default" "" [mkAssign "cert_path" ""])); [done|by repeat constructor|..].
  - by apply (list_elem_of_lookup_2 _ 16).
  - by apply (list_elem_of_lookup_2 _ 0).
  - done.
  - done.
Defined.
