(* ===== verification/CliApp.v ===== *)
(** * The application (cmd/kathara/app.go)

    What a command works on: the console, the settings, the scenarios, the disk and the
    world of a manager; and what several commands share. *)

From S2P Require Export LabFolder LabExt CliCommands CliExec SettingsFile Params.
From S2P Require CliArchive RealPath K8sRec.
Local Open Scope string_scope.
Local Open Scope list_scope.
Local Open Scope Z_scope.
Local Open Scope kat_scope.

(** ** The host *)

(** What the commands ask of the host beside its files: symbolic links, the listing of
    a directory, a directory as a scenario filesystem, temporary directories and the
    writes of an archive. *)
Class Host (D F : Type) : Type := {
  host_disk : Disk D;
  is_link : D → string → option bool;
  link_target : D → string → option string;
  host_links : D → gset string;
  readlink_error : goerror;
  list_dir : D → string → option (list string);
  dir_exists : D → string → bool;
  link_exists : D → string → bool;
  OSDir : D → string → option F;
  MkdirTemp : string → M D goerror string;
  RemoveAll : string → M D goerror unit;
  host_write : CliArchive.hostWrite → M D goerror unit
}.
#[export] Existing Instance host_disk.

Definition file_size `{Disk D} (d : D) (p : string) : result goerror Z := rmap snd (Stat p d).
Definition stat_size `{Disk D} (d : D) (p : string) : option Z := match file_size d p with Ok n => Some n | Err _ => None end.

(** ** The state *)

Inductive cliError : Type :=
| Usage (message : string)   (* a failure of usage, reported with the usage line *)
| Failed (e : failure).

Definition fails (e : goerror) : cliError := Failed (Go e).

Record app (D F W : Type) : Type := mkApp {
  console : Console;
  prompter : option Input;
  settings : Settings;
  made : option (result cliError unit);   (* whether the manager could be made, once it was tried *)
  suppressEmit : bool;
  lastClean : LcleanResult;   (* the results under way, and of the last runs *)
  lastStart : LstartResult;
  rawArgs : list string;
  commandName : string;
  muxDevices : list loc;
  disk : D;
  scenarios : heap F;
  world : W
}.
Arguments mkApp {D F W}.
Arguments console {D F W}.
Arguments prompter {D F W}.
Arguments settings {D F W}.
Arguments made {D F W}.
Arguments suppressEmit {D F W}.
Arguments lastClean {D F W}.
Arguments lastStart {D F W}.
Arguments rawArgs {D F W}.
Arguments commandName {D F W}.
Arguments muxDevices {D F W}.
Arguments disk {D F W}.
Arguments scenarios {D F W}.
Arguments world {D F W}.

(** A program of a command. *)
Definition AM (D F W A : Type) : Type := M (app D F W) cliError A.

Section setters.
Context {D F W : Type}.
Definition set_console c (a : app D F W) : app D F W := mkApp c a.(prompter) a.(settings) a.(made) a.(suppressEmit) a.(lastClean) a.(lastStart) a.(rawArgs) a.(commandName) a.(muxDevices) a.(disk) a.(scenarios) a.(world).
Definition set_prompter p (a : app D F W) : app D F W := mkApp a.(console) p a.(settings) a.(made) a.(suppressEmit) a.(lastClean) a.(lastStart) a.(rawArgs) a.(commandName) a.(muxDevices) a.(disk) a.(scenarios) a.(world).
Definition set_settings s (a : app D F W) : app D F W := mkApp a.(console) a.(prompter) s a.(made) a.(suppressEmit) a.(lastClean) a.(lastStart) a.(rawArgs) a.(commandName) a.(muxDevices) a.(disk) a.(scenarios) a.(world).
Definition set_made m (a : app D F W) : app D F W := mkApp a.(console) a.(prompter) a.(settings) m a.(suppressEmit) a.(lastClean) a.(lastStart) a.(rawArgs) a.(commandName) a.(muxDevices) a.(disk) a.(scenarios) a.(world).
Definition set_suppress b (a : app D F W) : app D F W := mkApp a.(console) a.(prompter) a.(settings) a.(made) b a.(lastClean) a.(lastStart) a.(rawArgs) a.(commandName) a.(muxDevices) a.(disk) a.(scenarios) a.(world).
Definition set_lastClean r (a : app D F W) : app D F W := mkApp a.(console) a.(prompter) a.(settings) a.(made) a.(suppressEmit) r a.(lastStart) a.(rawArgs) a.(commandName) a.(muxDevices) a.(disk) a.(scenarios) a.(world).
Definition set_lastStart r (a : app D F W) : app D F W := mkApp a.(console) a.(prompter) a.(settings) a.(made) a.(suppressEmit) a.(lastClean) r a.(rawArgs) a.(commandName) a.(muxDevices) a.(disk) a.(scenarios) a.(world).
Definition set_command name args (a : app D F W) : app D F W := mkApp a.(console) a.(prompter) a.(settings) a.(made) a.(suppressEmit) a.(lastClean) a.(lastStart) args name a.(muxDevices) a.(disk) a.(scenarios) a.(world).
Definition set_mux l (a : app D F W) : app D F W := mkApp a.(console) a.(prompter) a.(settings) a.(made) a.(suppressEmit) a.(lastClean) a.(lastStart) a.(rawArgs) a.(commandName) l a.(disk) a.(scenarios) a.(world).
Definition set_disk d (a : app D F W) : app D F W := mkApp a.(console) a.(prompter) a.(settings) a.(made) a.(suppressEmit) a.(lastClean) a.(lastStart) a.(rawArgs) a.(commandName) a.(muxDevices) d a.(scenarios) a.(world).
Definition set_scenarios h (a : app D F W) : app D F W := mkApp a.(console) a.(prompter) a.(settings) a.(made) a.(suppressEmit) a.(lastClean) a.(lastStart) a.(rawArgs) a.(commandName) a.(muxDevices) a.(disk) h a.(world).
Definition set_world w (a : app D F W) : app D F W := mkApp a.(console) a.(prompter) a.(settings) a.(made) a.(suppressEmit) a.(lastClean) a.(lastStart) a.(rawArgs) a.(commandName) a.(muxDevices) a.(disk) a.(scenarios) w.

(** ** Programs *)

Local Notation AM A := (AM D F W A).

Definition afail {A} (e : goerror) : AM A := sthrow (fails e).
Definition ago {A} (r : result goerror A) : AM A := match r with Ok a => sret a | Err e => afail e end.
Definition asks {A} (f : app D F W → A) : AM A := fun a => (a, Ok (f a)).
(** A write to the console, a step on the scenarios, on the disk and on the settings. *)
Definition shows (f : Console → Console) : AM unit := smodify (fun a => set_console (f a.(console)) a).
Definition on_lab {A} (m : MM (F := F) A) : AM A := fun a =>
  let '(h, r) := m a.(scenarios) in (set_scenarios h a, match r with Ok x => Ok x | Err e => Err (Failed e) end).
Definition on_disk {A} (m : M D goerror A) : AM A := fun a =>
  let '(d, r) := m a.(disk) in (set_disk d a, match r with Ok x => Ok x | Err e => Err (fails e) end).
Definition on_settings {A} (m : Settings.SM A) : AM A := fun a =>
  let '(s, r) := m a.(settings) in (set_settings s a, match r with Ok x => Ok x | Err e => Err (fails e) end).
Definition when (b : bool) (c : AM unit) : AM unit := if b then c else sret tt.
(** [errors.As] of a usage error has nothing else to look for: no command wraps one. *)
Definition usage {A} (message : string) : AM A := sthrow (Usage message).
End setters.

(** ** The manager *)

(** The manager a command talks to (kathara/manager.go): what it does to the state, the
    events it announces on the way included.  A stream is the program that takes its
    next step, whose answer is [None] at its end; closing one changes nothing a command
    can see.  [Obj] is what it hangs on devices and collision domains. *)
Class Manager (D F W Obj : Type) : Type := {
  newManager : AM D F W unit;
  FormattedName : string;
  DeployLab : loc → DeployLabOptions → AM D F W unit;
  DeployMachine : loc → AM D F W unit;
  UndeployMachine : loc → bool → AM D F W unit;
  UndeployLab : LabRef → UndeployLabOptions → AM D F W unit;
  ManagerWipe : bool → AM D F W unit;
  ConnectMachineToLink : loc → loc → string → AM D F W unit;
  DisconnectMachineFromLink : loc → loc → bool → AM D F W unit;
  UpdateLabFromAPI : loc → AM D F W unit;
  GetMachineAPIObject : string → LabRef → bool → AM D F W Obj;
  GetLinkAPIObject : string → LabRef → bool → AM D F W Obj;
  hang_machine : loc → Obj → AM D F W unit;   (* machine.APIObject = obj *)
  hang_link : loc → Obj → AM D F W unit;      (* link.APIObject = obj *)
  GetMachinesStats : LabRef → string → bool → AM D F W (AM D F W (option (list (option K8sRec.MachineStats))));
  GetMachineStats : string → LabRef → bool → AM D F W (option (option K8sRec.MachineStats));
  GetLinksStats : LabRef → string → bool → AM D F W (AM D F W (option (list (option K8sRec.LinkStats))));
  ExecStream : string → Command → LabRef → WaitPolicy → AM D F W CliExec.execStream;
  GetReleaseVersion : AM D F W string
}.

(** ** What the process is given *)

(** The working directory it starts in, the home and the ids of its user, whether he is
    the administrator, the host's system and its clock; the terminals that are there;
    the patterns of a shell; and the filesystem of a scenario kept in memory. *)
Class Process (F : Type) : Type := {
  proc_fs : FileSystem F;
  memory : F;
  cwd : string;
  stdin : option (option string);
  home : result goerror string;
  ids : result goerror (Z * Z);
  IsAdmin : result goerror bool;
  linux : bool;
  runtime_version : string;
  osVersion : string;
  timestamp : string;
  now : f64;
  format_g : f64 → string;   (* strconv.FormatFloat with the verb g *)
  is_not_exist : goerror → bool;
  glob_pattern : string → option (string → bool);
  gunzip : string → option string;
  tar_entries : string → list CliArchive.header * bool;
  range_externals : external_map → list (string * list ExternalLink)   (* the order a map is ranged over in *)
}.

Section app.
Context {D F W Obj : Type} `{Host D F, Process F, TextCases, CellTables, Terminals, Mgr : !Manager D F W Obj}.
Local Notation AM := (AM D F W).
#[local] Existing Instance proc_fs.

(** ** What several commands share (app.go) *)

(** [manager]: it is made once, and remembered with the error it ended in. *)
Definition manager : AM unit := fun a =>
  match a.(made) with
  | Some r => (a, r)
  | None => let '(a, r) := newManager a in (set_made (Some r) a, r)
  end.

(** Both quote characters are dropped. *)
Definition unquoted (directory : string) : string :=
  bytes_string (List.filter (fun c => negb (Ascii.eqb c (az 34) || Ascii.eqb c (az 39))) (string_bytes directory)).

(** [util.GetAbsolutePath] on the host, with the rounds that are enough for its links. *)
Definition absolute_path (d : D) (path : string) : result goerror RealPath.outcome :=
  RealPath.GetAbsolutePath (is_link d) (link_target d) (RealPath.walk_fuel (link_target d) (host_links d) path) (Ok cwd) readlink_error path.

Definition resolveLabPath (directory : string) : AM string := fun a =>
  let labPath := if String.eqb directory "" then cwd else unquoted directory in
  (a, match absolute_path a.(disk) labPath with
      | Err e => Err (fails e)
      | Ok (RealPath.Returned path) => Ok path
      | Ok _ => Err (Failed NilDeref)
      end).

Definition loadCustomConfiguration (labPath : string) : AM unit :=
  let custom := GoPath.Join [labPath; Filename] in
  do* d <- asks disk in
  match Stat custom d with
  | Err _ => sret tt
  | Ok _ =>
      do* _ <- shows (Log LevelInfo ("Loading custom kathara.conf file from path `" +:+ custom +:+ "`...")) in
      on_settings (LoadFromDisk terminalAvailable home labPath d)
  end.

Definition defaults : AM Defaults := asks (fun a => DefaultsFrom (Some a.(settings))).

Definition Format_of (value : string) : option Format :=
  if String.eqb value "human" then Some FormatHuman else if String.eqb value "json" then Some FormatJSON
  else if String.eqb value "jsonl" then Some FormatJSONL else None.

Definition set_format (f : Format) (c : Console) : Console :=
  mkConsole c.(Out) c.(CliConsole.Err) c.(Width) c.(TTY) f c.(Level) c.(Traceback).

(** [applyFormat]: the value of [--format] of a command that has the option. *)
Definition applyFormat (streaming : bool) (quote : string → string) (format : option string) : AM unit :=
  match format with
  | None => sret tt
  | Some value =>
      let invalid := "argument --format: invalid choice: " +:+ quote value in
      match Format_of value with
      | None => usage invalid
      | Some FormatJSONL => if streaming then shows (set_format FormatJSONL) else usage invalid
      | Some f => shows (set_format f)
      end
  end.

(** [Lab.FSPath]: the path of the scenario on the host, when it has one. *)
Definition FSPath (b : Machine.Lab F) : option string := fsSysPath "" b.(labFS).

Definition asLabObject (b : Machine.Lab F) (withPath : bool) : CliJson.Lab :=
  mkCliLab b.(labName) b.(LabHash)
    (if withPath then FSPath b else None)
    b.(Description) b.(Version) b.(Author) b.(Email) b.(Web).

Definition vlabName : string := "kathara_vlab".
Definition newVlab : AM loc :=
  do* ds <- defaults in
  fun a => on_lab (newLab memory (OSDir a.(disk)) (Some vlabName) "" ds) a.
End app.
