(* ===== verification/CliStart.v ===== *)
(** * Starting and stopping (cmd/kathara: parser.go, lstart.go, lclean.go, vstart.go, exec.go)

    The body of the command that starts a scenario, in the order the code has: where
    the scenario is, its files, what the options add, the checks, and the deployment;
    the bodies of those that stop it, and that start and stop a single device; and the
    scenario a command addresses by name, by hash or by directory. *)

From S2P Require Export CliApp.
Local Open Scope string_scope.
Local Open Scope list_scope.
Local Open Scope Z_scope.
Local Open Scope kat_scope.

(** ** The tables of devices (parser.go) *)

Definition pyStr (s : option string) : string := default "None" s.

(** [ColumnHeader]; the keys are ASCII, so the bytes are mapped. *)
Definition upper_letter (c : ascii) : ascii := if (97 <=? zb c) && (zb c <=? 122) then az (zb c - 32) else c.
Definition ColumnHeader (key : string) : string := bytes_string (upper_letter <$> string_bytes (ReplaceAll key "_" " ")).

Definition docker_columns : list string := ["network_scenario_id"; "name"; "user"; "status"; "image"].
Definition kubernetes_columns : list string := ["network_scenario_id"; "name"; "pod_name"; "image"; "status"; "assigned_node"].

Definition machineTableColumns (head : option K8sRec.MachineStats) : list string :=
  match head with
  | Some s => match s.(K8sRec.msAssignedNode) with K8sRec.Unset => docker_columns | _ => kubernetes_columns end
  | None => docker_columns
  end.

Definition stats_column (s : K8sRec.MachineStats) (key : string) : option string :=
  if String.eqb key "network_scenario_id" then Some s.(K8sRec.msNetworkScenarioID)
  else if String.eqb key "name" then Some s.(K8sRec.msName)
  else if String.eqb key "pod_name" then Some s.(K8sRec.msContainerName)
  else if String.eqb key "user" then Some (pyStr s.(K8sRec.msUser))
  else if String.eqb key "status" then Some (pyStr s.(K8sRec.msStatus))
  else if String.eqb key "image" then Some s.(K8sRec.msImage)
  else if String.eqb key "assigned_node" then
    Some (match s.(K8sRec.msAssignedNode) with K8sRec.SomeString v => v | _ => "None" end)
  else None.

Definition statsRow (s : K8sRec.MachineStats) (columns : list string) : list string := omap (stats_column s) columns.

(** The records that are there, by name. *)
Definition statsValues (entries : list (option K8sRec.MachineStats)) : list K8sRec.MachineStats :=
  SortStable (fun a b => strings_Compare a.(K8sRec.msName) b.(K8sRec.msName)) (omap id entries).

Section tables.
Context `{CellTables}.

(** [None] is the panic of a record that is missing. *)
Definition renderMachinesTable (timestamp : string) (entries : list (option K8sRec.MachineStats)) (width : Z) : option (list string) :=
  match entries with
  | [] => Some (EmptyBlock timestamp "No Devices Found" width)
  | head :: _ =>
      let columns := machineTableColumns head in
      match mapM (fun e : option K8sRec.MachineStats => (fun s => statsRow s columns) <$> e) entries with
      | None => None
      | Some rows => Render (mkTable timestamp (Some BoxSquareDoubleHead) true true (ColumnHeader <$> columns) rows) width
      end
  end.
End tables.

(** ** The options of the command *)

Record lstartFlags : Type := mkLstartFlags {
  fTerminals : option bool * option bool;   (* terminalPair, hosthomePair, sharedPair *)
  fHosthome : option bool * option bool;
  fShared : option bool * option bool;
  fPrivileged : option bool;
  fMetadata : list string;
  fExcluded : list string;
  fDirectory : string;
  forceLab : bool;
  fList : bool;
  terminalEmu : string;
  dryMode : bool;
  fromArchive : string;
  archiveName : string
}.

Definition pickTristate (pair : option bool * option bool) : option bool :=
  match pair.1 with Some v => Some v | None => pair.2 end.

Definition terminalsValue (f : lstartFlags) : option bool := pickTristate f.(fTerminals).
Definition hosthomeValue (f : lstartFlags) : option bool := pickTristate f.(fHosthome).
Definition sharedValue (f : lstartFlags) : option bool := pickTristate f.(fShared).

Definition tristateScalar (v : option bool) : Scalar :=
  match v with None => SAbsent | Some b => Scalar.Bool b end.

Definition isIOError (e : goerror) : bool := String.eqb (Code (Some e)) CodeOS.

Section start.
Context {D F W Obj : Type} `{Host D F, Process F, TextCases, CellTables, Terminals, Mgr : !Manager D F W Obj}.
Local Notation AM := (AM D F W).
#[local] Existing Instance proc_fs.

(** ** Where the scenario is *)

(** A write of the archive, on a disk where those before it were made. *)
Definition archive_fails (d : D) (log : list CliArchive.hostWrite) (w : CliArchive.hostWrite) : option goerror :=
  let d := foldl (fun d w => (host_write w d).1) d log in
  match (host_write w d).2 with Ok _ => None | Err e => Some e end.

Definition extract (dir : string) : M D goerror unit := fun d =>
  let '(log, r) := CliArchive.extractScenarioArchive (archive_fails d) gunzip tar_entries stdin dir [] in
  (foldl (fun d w => (host_write w d).1) d log, r).

(** The error of a clean-up is dropped. *)
Definition cleanup (dir : option string) : AM unit := fun a =>
  match dir with
  | None => (a, Ok tt)
  | Some dir => (set_disk (RemoveAll dir a.(disk)).1 a, Ok tt)
  end.

(** The directory, and the one to remove when it is not put to use. *)
Definition resolveScenario (f : lstartFlags) : AM (string * option string) :=
  if String.eqb f.(fromArchive) "" then
    if negb (String.eqb f.(archiveName) "") then usage "argument --name: only valid together with --from-archive"
    else do* path <- resolveLabPath f.(fDirectory) in sret (path, None)
  else if negb (String.eqb f.(fromArchive) "-") then usage "argument --from-archive: only `-` is accepted"
  else if String.eqb f.(archiveName) "" then usage "argument --name: required with --from-archive"
  else if negb (String.eqb f.(fDirectory) "") then usage "argument --from-archive: not allowed with argument -d/--directory"
  else
    do* dir <- on_disk (MkdirTemp "kathara-archive-") in
    fun a =>
      match on_disk (extract dir) a with
      | (a, Ok _) => (a, Ok (dir, Some dir))
      | (a, Err e) => ((cleanup (Some dir) a).1, Err e)
      end.

(** ** The devices that are deployed *)

Definition shown_stats (entries : list (option K8sRec.MachineStats)) : AM unit := fun a =>
  match renderMachinesTable timestamp entries a.(console).(Width) with
  | None => (a, Err (Failed NilDeref))
  | Some lines => shows (PrintLines lines) a
  end.

Definition filtered_out (selected excluded : NameSet) (name : string) : bool :=
  (0 <? set_len selected) && negb (set_has selected name) || (0 <? set_len excluded) && set_has excluded name.

Definition bridge_link : string := "kathara_host_bridge".

Fixpoint live_links (ifs : list Interface) (acc : gset string) : MM (F := F) (gset string) :=
  match ifs with
  | [] => sret acc
  | i :: ifs =>
      match i.(iLink) with
      | None => live_links ifs acc
      | Some l => do* k <- getLink l in live_links ifs ({[ k.(lName) ]} ∪ acc)
      end
  end.

Fixpoint deployed_loop (opts : DeployLabOptions) (machines : list loc) (names : list string) (links : gset string)
    : MM (F := F) (list string * list string) :=
  match machines with
  | [] => sret (names, sort_strings (elements links))
  | l :: machines =>
      do* m <- getMachine l in
      if filtered_out opts.(SelectedMachines) opts.(ExcludedMachines) m.(mName) then deployed_loop opts machines names links
      else
        do* links <- live_links m.(interfaces) links in
        deployed_loop opts machines (names ++ [m.(mName)]) (if IsBridged m then {[ bridge_link ]} ∪ links else links)
  end.

Definition deployedNames (lab : loc) (opts : DeployLabOptions) : MM (F := F) (list string * list string) :=
  do* b <- getLab lab in deployed_loop opts (Values b.(labMachines)) [] ∅.

(** ** The body *)

(** The result is built where the command leaves it. *)
Definition no_lab : CliJson.Lab := mkCliLab None "" None "" "" "" "" "".
Definition no_start : LstartResult := mkLstart no_lab false [] [] [] None.
Definition into_start (g : LstartResult → LstartResult) : AM unit := smodify (fun a => set_lastStart (g a.(lastStart)) a).

Definition set_open_terminals (b : bool) : AM unit := smodify (fun a => set_settings (set_bool Settings.OpenTerminals b a.(settings)) a).

Definition centred (title : string) : AM unit := shows (PrintPanel title (mkPanel "" None JustifyCenter 0)).
Definition paneled (text : string) : AM unit := shows (PrintPanel text (mkPanel "" None JustifyDefault 0)).

Definition set_terminal (name : string) : AM unit := smodify (fun a => set_settings (set_str Settings.Terminal name a.(settings)) a).
Definition set_device_shell (name : string) : AM unit := smodify (fun a => set_settings (set_str Settings.DeviceShell name a.(settings)) a).
Definition with_value {A} (o : option A) (k : A → AM unit) : AM unit := match o with Some v => k v | None => sret tt end.
Definition unless_empty (s : string) (m : AM unit) : AM unit := if String.eqb s "" then sret tt else m.


Definition DefaultConfName : string := "lab.conf".

(** The files of a scenario are read on the disk as it is at the time. *)
Definition parse_lab (path : string) : AM loc :=
  do* ds <- defaults in
  fun a => let d := a.(disk) in
    on_lab (ParseLab proc_fs (Some cwd) memory (OSDir d) (stat_size d) (fun p => SettingsFile.ReadFile p d) path DefaultConfName ds) a.
Definition parse_folder (path : string) : AM loc :=
  do* ds <- defaults in
  fun a => let d := a.(disk) in
    on_lab (ParseFolder glob_pattern (list_dir d) (dir_exists d) (link_exists d) proc_fs (Some cwd) memory (OSDir d) path ds) a.
Definition parse_dep (path : string) : AM (list string) := fun a =>
  let d := a.(disk) in ago (ParseDep (stat_size d) (fun p => SettingsFile.ReadFile p d) path) a.
Definition parse_ext (path : string) : AM (option external_map) := fun a =>
  let d := a.(disk) in ago (ParseExt (file_size d) is_not_exist (fun p => SettingsFile.ReadFile p d) path) a.

(** [except IOError]: what [--force-lab] forgives. *)
Definition read_lab (f : lstartFlags) (labPath : string) : AM loc := fun a =>
  match parse_lab labPath a with
  | (a', Err (Failed (Go e))) => if negb f.(forceLab) || negb (isIOError e) then (a', Err (fails e)) else parse_folder labPath a'
  | r => r
  end.

Definition lab_of (lab : loc) : AM (Machine.Lab F) := on_lab (getLab lab).

Definition add_metadata (lab : loc) (e : string * string) : AM unit :=
  on_lab (AddGlobalMachineMetadata lab e.1 (Scalar.Str e.2)).

(** [util.IsAdmin] with the error of who is not. *)
Definition require_admin (e : goerror) : AM unit :=
  do* admin <- ago IsAdmin in if admin then sret tt else afail e.

(** The file of external links: whether it is there, after its links are attached. *)
Definition attach_ext (lab : loc) (labPath : string) : AM bool := fun a =>
  match SettingsFile.Stat (GoPath.Join [labPath; ExtName]) a.(disk) with
  | Err _ => (a, Ok false)
  | Ok _ =>
      (if negb linux then afail (NewOS "lab.ext is only available on Linux systems.")
       else
         do* _ <- require_admin (Errors.New ErrPrivilege "You must be root in order to use lab.ext file.") in
         do* external <- parse_ext labPath in
         match external with
         | None => sret true
         | Some external =>
             if bool_decide (external = ∅) then sret true
             else
               do* _ <- on_lab (AttachExternalLinks lab (range_externals external)) in
               do* _ <- set_open_terminals false in
               sret true
         end) a
  end.

Definition checked (file : string) : AM unit :=
  do* _ <- shows (Print (drawn 0x2713 +:+ " " +:+ file +:+ " file is correct.")) in
  into_start (fun r => mkLstart r.(lsLab) r.(lsDryRun) (r.(lsChecks) ++ [file]) r.(lsMachines) r.(lsLinks) r.(lsMachineStats)).

Fixpoint any_privileged (b : Machine.Lab F) (machines : list loc) : MM (F := F) bool :=
  match machines with
  | [] => sret false
  | l :: machines => do* m <- getMachine l in if IsPrivileged b m then sret true else any_privileged b machines
  end.

(** The scenario as its files and the options give it, up to its first panel. *)
Definition read_scenario (f : lstartFlags) (labPath : string) : AM (loc * list string) :=
  do* _ <- loadCustomConfiguration labPath in
  do* _ <- with_value (terminalsValue f) set_open_terminals in
  do* _ <- unless_empty f.(terminalEmu) (set_terminal f.(terminalEmu)) in
  do* _ <- centred (if f.(dryMode) then "Checking Network Scenario" else "Starting Network Scenario") in
  do* lab <- read_lab f labPath in
  do* _ <- unless_empty f.(archiveName) (on_lab (SetName lab f.(archiveName))) in
  do* dependencies <- parse_dep labPath in
  do* _ <- (match dependencies with [] => sret tt | _ => on_lab (ApplyDependencies lab dependencies) end) in
  do* b <- lab_of lab in
  do* _ <- unless_empty (Lab_String b) (paneled (Lab_String b)) in
  sret (lab, dependencies).

(** The checks before the deployment; no answer when there is to be none. *)
Definition prepare (f : lstartFlags) (labPath : string) : AM (option loc) :=
  do* (lab, dependencies) <- read_scenario f labPath in
  do* b <- lab_of lab in
  if bool_decide (OrderedMap.Keys b.(labMachines) = []) then afail ErrNoDevicesInScenario
  else
    do* options <- ago (ParseOptions f.(fMetadata)) in
    do* _ <- sfor (Entries options) (add_metadata lab) in
    do* labExtExists <- attach_ext lab labPath in
    do* b <- lab_of lab in
    do* _ <- into_start (fun r => mkLstart (asLabObject b (String.eqb f.(fromArchive) "")) f.(dryMode) r.(lsChecks) r.(lsMachines) r.(lsLinks) r.(lsMachineStats)) in
    if f.(dryMode) then
      do* _ <- checked DefaultConfName in
      do* _ <- (match dependencies with [] => sret tt | _ => checked DepName end) in
      do* _ <- (if labExtExists then checked ExtName else sret tt) in
      sret None
    else
      do* _ <- on_lab (AddOption lab "hosthome_mount" (tristateScalar (hosthomeValue f))) in
      do* _ <- on_lab (AddOption lab "shared_mount" (tristateScalar (sharedValue f))) in
      do* b <- lab_of lab in
      do* some <- on_lab (any_privileged b (Values b.(labMachines))) in
      do* _ <- (if default false f.(fPrivileged) || some then
                  do* _ <- require_admin ErrPrivilegeLabPrivileged in
                  do* opens <- asks (fun a => a.(settings).(sOpenTerminals)) in
                  if opens then shows (Print (drawn 0x26A0 +:+ " Running devices with privileged capabilities, terminals might not open!")) else sret tt
                else sret tt) in
      do* _ <- on_lab (AddGlobalMachineMetadata lab "privileged" (tristateScalar f.(fPrivileged))) in
      do* _ <- manager in
      sret (Some lab).

(** What is reported of a deployment. *)
Definition report (f : lstartFlags) (lab : loc) (opts : DeployLabOptions) : AM unit :=
  do* (machines, links) <- on_lab (deployedNames lab opts) in
  do* _ <- into_start (fun r => mkLstart r.(lsLab) r.(lsDryRun) r.(lsChecks) machines links r.(lsMachineStats)) in
  if f.(fList) then
    do* b <- lab_of lab in
    do* next <- GetMachinesStats (mkLabRef b.(LabHash) "" None) "" false in
    do* entries <- next in
    do* _ <- with_value entries shown_stats in
    into_start (fun r => mkLstart r.(lsLab) r.(lsDryRun) r.(lsChecks) r.(lsMachines) r.(lsLinks) (Some (statsValues (default [] entries))))
  else sret tt.

Definition lstart_opts (f : lstartFlags) (selected : list string) : DeployLabOptions :=
  mkDeployOptions (NewNameSet selected) (NewNameSet f.(fExcluded)).

(** [runLstart]: a directory that was made for an archive goes on every path that does
    not deploy. *)
Definition runLstart (f : lstartFlags) (selected : list string) : AM unit :=
  do* _ <- into_start (fun _ => no_start) in
  do* (labPath, dir) <- resolveScenario f in
  fun a =>
    let opts := lstart_opts f selected in
    match (do* lab <- prepare f labPath in
           match lab with
           | None => sret None
           | Some lab => do* _ <- DeployLab lab opts in sret (Some lab)
           end) a with
    | (a, Ok (Some lab)) => report f lab opts a
    | (a, Ok None) => cleanup dir a
    | (a, Err e) => ((cleanup dir a).1, Err e)
    end.
End start.

(** ** Stopping a scenario, and the commands on one device *)

Record lcleanFlags : Type := mkLcleanFlags { cDirectory : string; cLabHash : string; cLabName : string; cExcluded : list string }.

Record vstartFlags : Type := mkVstartFlags {
  vTerminals : option bool * option bool;
  numTerms : option string;   (* the options that were given *)
  vPrivileged : option bool;
  vName : string;
  eths : list string;
  vExecCommands : list string;
  vMem : option string;
  vCPUs : option string;
  vImage : option string;
  vHosthome : option bool * option bool;
  vTerminalEmu : string;
  vDryMode : bool;
  bridged : bool;
  vPorts : list string;
  vSysctls : list string;
  vEnvs : list string;
  vUlimits : list string;
  vVolumes : list string;
  vShell : option string;
  vEntrypoint : option string
}.

Section clean.
Context {D F W Obj : Type} `{Host D F, Process F, TextCases, CellTables, Terminals, Mgr : !Manager D F W Obj}.
Local Notation AM := (AM D F W).
#[local] Existing Instance proc_fs.

Definition by_hash (hash : string) : LabRef := mkLabRef hash "" None.
Definition by_name (name : string) : LabRef := mkLabRef "" name None.
Definition no_ref : LabRef := mkLabRef "" "" None.

(** [model.NewLab] and [model.NewLabFromPath]. *)
Definition new_lab (name : option string) (path : string) : AM loc :=
  do* ds <- defaults in
  fun a => on_lab (newLab memory (OSDir a.(disk)) name path ds) a.

Definition set_hash (hash : string) (b : Machine.Lab F) : Machine.Lab F := set_labName b.(labName) hash b.

Definition resolveRunningLab (directory labHash labName : string) : AM loc :=
  if negb (String.eqb labHash "") then
    do* lab <- new_lab None "" in
    do* b <- lab_of lab in
    do* _ <- on_lab (putLab lab (set_hash labHash b)) in
    sret lab
  else if negb (String.eqb labName "") then new_lab (Some labName) ""
  else
    do* labPath <- resolveLabPath directory in
    do* _ <- loadCustomConfiguration labPath in
    fun a =>
      match parse_lab labPath a with
      | (a, Ok lab) => (a, Ok lab)
      | (a, Err (Failed NilDeref)) => (a, Err (Failed NilDeref))
      | (a, Err _) => new_lab None labPath a
      end.

(** ** What is running *)

Definition snapshotMachines (ref : LabRef) (allUsers : bool) : AM (list (option K8sRec.MachineStats)) :=
  do* next <- GetMachinesStats ref "" allUsers in
  do* entries <- next in sret (default [] entries).

Definition snapshotLinkNames (ref : LabRef) (allUsers : bool) : AM (list string) :=
  do* next <- GetLinksStats ref "" allUsers in
  do* entries <- next in
  sret (sort_strings (K8sRec.lsName <$> omap id (default [] entries))).

(** ** lclean *)

(** A name a filter keeps; a filter that is nil keeps everything. *)
Definition kept_by (opts : UndeployLabOptions) (name : string) : bool :=
  match opts.(uSelectedMachines) with Some s => bool_decide (name ∈ s) | None => true end
  && match opts.(uExcludedMachines) with Some s => negb (bool_decide (name ∈ s)) | None => true end.

Definition running_names (running : list (option K8sRec.MachineStats)) : list string := K8sRec.msName <$> omap id running.

(** The collision domains of a device the scenario has. *)
Definition links_of (h : heap F) (b : Machine.Lab F) (name : string) : list string :=
  match OrderedMap.Get b.(labMachines) name ≫= (fun l => h.(hMachines) !! l) with
  | None => []
  | Some m => omap (fun i => (i.(iLink) ≫= (fun l => h.(hLinks) !! l)) ≫= (fun k => Some k.(lName))) m.(interfaces)
  end.

Definition undeployedNames (h : heap F) (b : Machine.Lab F) (running : list (option K8sRec.MachineStats)) (deployedLinks : list string)
    (opts : UndeployLabOptions) : list string * list string :=
  let machines := sort_strings (List.filter (kept_by opts) (running_names running)) in
  match opts.(uSelectedMachines), opts.(uExcludedMachines) with
  | None, None => (machines, deployedLinks)
  | _, _ =>
      let links_on (names : list string) : gset string := list_to_set (concat (links_of h b <$> names)) in
      let staying := List.filter (fun name => negb (bool_decide (name ∈ machines))) (running_names running) in
      let kept := links_on machines ∖ links_on staying in
      (machines, List.filter (fun name => bool_decide (name ∈ kept)) deployedLinks)
  end.

Definition no_clean : LcleanResult := mkLclean no_lab [] [].
Definition into_clean (r : LcleanResult) : AM unit := smodify (set_lastClean r).

Definition some_set (names : list string) : NameSet := match names with [] => None | _ => NewNameSet names end.

Definition runLclean (f : lcleanFlags) (selected : list string) : AM unit :=
  do* _ <- into_clean no_clean in
  do* lab <- resolveRunningLab f.(cDirectory) f.(cLabHash) f.(cLabName) in
  do* b <- lab_of lab in
  let obj := asLabObject b (String.eqb f.(cLabHash) "" && String.eqb f.(cLabName) "") in
  do* _ <- into_clean (mkLclean obj [] []) in
  do* _ <- centred "Stopping Network Scenario" in
  do* _ <- manager in
  let opts := mkUndeployOptions (some_set selected) (some_set f.(cExcluded)) None in
  do* machine_format <- asks (fun a => Format_Machine a.(console).(cFormat)) in
  do* b <- lab_of lab in
  let ref := by_hash b.(LabHash) in
  do* running <- (if machine_format then snapshotMachines ref false else sret []) in
  do* links <- (if machine_format then snapshotLinkNames ref false else sret []) in
  do* _ <- UndeployLab ref opts in
  do* h <- asks scenarios in
  do* b <- lab_of lab in
  let names := undeployedNames h b running links opts in
  into_clean (mkLclean obj names.1 names.2).

(** ** The scenario of a command on one device (exec.go) *)

Definition execLabRef (directory : string) (vmachine : bool) (labHash labName : string) : AM LabRef :=
  if vmachine then sret (by_name vlabName)
  else if negb (String.eqb labHash "") then sret (by_hash labHash)
  else if negb (String.eqb labName "") then sret (by_name labName)
  else
    do* lab <- resolveRunningLab directory "" "" in
    do* b <- lab_of lab in
    sret (by_hash b.(LabHash)).

(** ** vstart *)

Definition metaOptions (f : vstartFlags) (args : list string) (privileged : option bool) : MetaOptions :=
  mkMetaOptions privileged f.(vExecCommands) f.(vMem) f.(vCPUs) f.(vImage) (if f.(bridged) then Some true else None)
    f.(vPorts) f.(numTerms) f.(vSysctls) f.(vEnvs) f.(vUlimits) None f.(vShell) f.(vEntrypoint) (Some args) [].

(** The interfaces of [--eth], and the collision domains they are on. *)
Fixpoint connect_eths (lab : loc) (name : string) (eths : list string) (links : list string) : AM (list string) :=
  match eths with
  | [] => sret links
  | raw :: eths =>
      do* spec <- ago (interfaceCDMAC raw) in
      match PyInt spec.(eNumber) with
      | Err _ =>
          afail (NewSyntaxEthNumber spec.(eNumber) (if String.eqb spec.(eMAC) "" then spec.(eCD) else spec.(eCD) +:+ "/" +:+ spec.(eMAC)))
      | Ok number =>
          do* _ <- on_lab (Lab.ConnectMachineToLink proc_fs (Some cwd) lab name spec.(eCD) (mkIfaceOpts (Some number) spec.(eMAC))) in
          connect_eths lab name eths (links ++ [spec.(eCD)])
      end
  end.

(** [slices.Sort] and [slices.Compact]. *)
Definition sorted_names (l : list string) : list string := Compact (sort_strings l).

Definition without_dashes (remainder : list string) : list string :=
  match remainder with "--" :: rest => rest | _ => remainder end.

Record VstartResult : Type := mkVstart { vrLab : CliJson.Lab; vrMachine : string; vrDryRun : bool; vrLinks : list string }.

Definition vstart_settings (f : vstartFlags) : AM unit :=
  do* _ <- with_value (pickTristate f.(vTerminals)) set_open_terminals in
  do* _ <- unless_empty f.(vTerminalEmu) (set_terminal f.(vTerminalEmu)) in
  unless_empty (default "" f.(vShell)) (set_device_shell (default "" f.(vShell))).

(** The device with all its options, on a scenario of its own. *)
Definition vstart_lab (f : vstartFlags) (remainder : list string) : AM (loc * list string) :=
  do* lab <- newVlab in
  do* _ <- on_lab (AddOption lab "hosthome_mount" (tristateScalar (pickTristate f.(vHosthome)))) in
  do* _ <- on_lab (AddOption lab "shared_mount" (Scalar.Bool false)) in
  do* _ <- (if default false f.(vPrivileged) then
              do* _ <- require_admin ErrPrivilegeDevicePrivileged in
              do* opens <- asks (fun a => a.(settings).(sOpenTerminals)) in
              if opens then shows (Print (drawn 0x26A0 +:+ " Running devices with privileged capabilities, terminal might not open!")) else sret tt
            else sret tt) in
  do* _ <- on_lab (AddGlobalMachineMetadata lab "privileged" (tristateScalar f.(vPrivileged))) in
  do* device <- on_lab (GetOrNewMachine proc_fs (Some cwd) lab f.(vName) (Some (metaOptions f (without_dashes remainder) f.(vPrivileged)))) in
  do* m <- on_lab (getMachine device) in
  do* links <- connect_eths lab m.(mName) f.(eths) [] in
  do* _ <- sfor f.(vVolumes) (fun v => do* _ <- on_lab (Machine_AddMeta (Some cwd) device "volume" v) in sret tt) in
  sret (lab, links).

Definition runVstart (f : vstartFlags) (remainder : list string) : AM VstartResult :=
  do* _ <- centred ((if f.(vDryMode) then "Checking Device `" else "Starting Device `") +:+ f.(vName) +:+ "`") in
  if f.(vDryMode) then
    do* _ <- shows (Print (drawn 0x2713 +:+ " " +:+ f.(vName) +:+ " configuration is correct.")) in
    do* lab <- newVlab in
    do* b <- lab_of lab in
    sret (mkVstart (mkCliLab (Some vlabName) b.(LabHash) None "" "" "" "" "") f.(vName) true [])
  else
    do* _ <- vstart_settings f in
    do* (lab, links) <- vstart_lab f remainder in
    do* _ <- manager in
    do* _ <- DeployLab lab (mkDeployOptions None None) in
    do* b <- lab_of lab in
    sret (mkVstart (asLabObject b false) f.(vName) false
      (sorted_names (if f.(bridged) then links ++ [bridge_link] else links))).

(** ** vclean *)

Record VcleanResult : Type := mkVclean { vcLab : CliJson.Lab; vcMachine : string; vcMachines : list string }.

Definition runVclean (name : string) : AM VcleanResult :=
  do* lab <- newVlab in
  do* b <- lab_of lab in
  do* _ <- centred ("Stopping Device `" +:+ name +:+ "`") in
  do* _ <- manager in
  do* machine_format <- asks (fun a => Format_Machine a.(console).(cFormat)) in
  do* running <- (if machine_format then snapshotMachines (by_name vlabName) false else sret []) in
  do* _ <- UndeployLab (by_name vlabName) (mkUndeployOptions (NewNameSet [name]) None None) in
  sret (mkVclean (asLabObject b false) name (List.filter (String.eqb name) (running_names running))).
End clean.
