(* ===== verification/CliInfo.v ===== *)
(** * The other commands (cmd/kathara: list.go, lconfig.go, wipe.go, config.go, exec.go)

    The bodies of the commands that show what runs, rewire a device, remove everything,
    try the system out, keep the settings and run a command in a device. *)

From S2P Require Export CliStart.
From S2P Require SettingsForm.
Local Open Scope string_scope.
Local Open Scope list_scope.
Local Open Scope Z_scope.
Local Open Scope kat_scope.

Record listFlags : Type := mkListFlags { listAll : bool; listWatch : bool; listName : string }.
Record linfoFlags : Type := mkLinfoFlags { iDirectory : string; iWatch : bool; iConf : bool; iName : string; iTopology : bool }.
Record wipeFlags : Type := mkWipeFlags { wForce : bool; wSettings : bool; wAll : bool }.
Record configFlags : Type := mkConfigFlags {
  gDirectory : string; gLabHash : string; gLabName : string; gName : string; toAdd : list string; toRemove : list string
}.

Definition formatLinfoMachine (s : K8sRec.MachineStats) : string :=
  "Network Scenario ID: " +:+ s.(K8sRec.msNetworkScenarioID) +:+ nl +:+ "Device Name: " +:+ s.(K8sRec.msName) +:+ nl
  +:+ "Container Name: " +:+ s.(K8sRec.msContainerName) +:+ nl +:+ "Status: " +:+ pyStr s.(K8sRec.msStatus) +:+ nl
  +:+ "Image: " +:+ s.(K8sRec.msImage).

(** [expandTabs], from a column on. *)
Definition checkTabSize : Z := 8.
Fixpoint expand_from (column : Z) (rs : list Z) : list Z :=
  match rs with
  | [] => []
  | r :: rs =>
      if r =? 9 then
        let width := checkTabSize - column mod checkTabSize in
        repeat 32 (Z.to_nat width) ++ expand_from (column + width) rs
      else r :: expand_from (if r =? 10 then 0 else column + 1) rs
  end.
Definition expandTabs (s : string) : string :=
  if contains_byte (az 9) s then string_of_runes (expand_from 0 (runes s)) else s.

Example tabs_1 : expandTabs ("ab" +:+ str1 (az 9) +:+ "c") = "ab      c". Proof. vm_compute. reflexivity. Qed.

Section info.
Context {D F W Obj : Type} `{Host D F, Process F, TextCases, CellTables, Terminals, Mgr : !Manager D F W Obj}.
Local Notation AM := (AM D F W).
#[local] Existing Instance proc_fs.

(** ** list *)

Definition emits (e : Envelope) : AM unit := shows (Emit e).

Definition not_with_watch (c : Console) : string := "argument -w/--watch: not allowed with --format " +:+ Format_text c.(cFormat).

(** The redrawing of the table until the stream ends, or until the interruption that
    comes after so many rounds. *)
Fixpoint watch_loop (rounds : nat) (next : AM (option (list (option K8sRec.MachineStats)))) : AM unit :=
  match rounds with
  | O => sret tt
  | S rounds =>
      do* entries <- next in
      match entries with
      | None => sret tt
      | Some entries =>
          do* _ <- shows ClearScreen in
          do* _ <- shown_stats entries in
          watch_loop rounds next
      end
  end.

Definition runList (rounds : nat) (f : listFlags) : AM unit :=
  do* _ <- (if f.(listAll) then require_admin ErrPrivilegeListAllUsers else sret tt) in
  do* c <- asks console in
  if f.(listWatch) && Format_Machine c.(cFormat) then usage (not_with_watch c)
  else
    do* _ <- manager in
    do* next <- GetMachinesStats no_ref f.(listName) f.(listAll) in
    if f.(listWatch) then watch_loop rounds next
    else
      do* entries <- next in
      match entries with
      | None => emits (ListResult [])
      | Some entries => do* _ <- shown_stats entries in emits (ListResult (statsValues entries))
      end.

(** ** linfo *)

Definition titled (title text : string) : AM unit := shows (PrintPanel text (mkPanel title None JustifyDefault 0)).

Definition renderTopologyTable (timestamp : string) (links : list LinfoLink) (width : Z) : option (list string) :=
  match links with
  | [] => Some (EmptyBlock timestamp "No Collision Domains Found" width)
  | _ => Render (mkTable timestamp (Some BoxSquareDoubleHead) true false ["LINK NAME"; "DEVICES"]
           ((fun l => [l.(llName); str_join ", " (default [] l.(llMachines))]) <$> links)) width
  end.

(** The collision domains by name; no two have the same. *)
Fixpoint read_links (links : list loc) : MM (F := F) (list Link) :=
  match links with
  | [] => sret []
  | l :: links => do* k <- getLink l in do* ks <- read_links links in sret (k :: ks)
  end.
Definition linfoLinks (lab : loc) : MM (F := F) (list LinfoLink) :=
  do* b <- getLab lab in
  do* links <- read_links (Values b.(labLinks)) in
  sret ((fun k => mkLinfoLink k.(lName) (Some (OrderedMap.Keys k.(lMachines)))) <$>
          SortStable (fun x y => strings_Compare x.(lName) y.(lName)) links).

(** The scenario of a directory, when its file cannot be read too. *)
Definition lab_or_empty (path : string) : AM loc := fun a =>
  match parse_lab path a with
  | (a, Ok lab) => (a, Ok lab)
  | (a, Err (Failed NilDeref)) => (a, Err (Failed NilDeref))
  | (a, Err _) => new_lab None path a
  end.

Definition linfo_result (lab : CliJson.Lab) (mode : string) : LinfoResult := mkLinfo lab mode None [] [] 0 0 "".

(** What the files say. *)
Definition linfo_conf (lab : loc) (obj : CliJson.Lab) (name : string) : AM LinfoResult :=
  if negb (String.eqb name "") then
    do* machine <- on_lab (GetMachine lab name) in
    do* m <- on_lab (getMachine machine) in
    do* b <- lab_of lab in
    do* h <- asks scenarios in
    let text := Machine_String h b m in
    do* _ <- titled (name +:+ " Information") text in
    sret (mkLinfo obj "conf" None [] [] 0 0 text)
  else
    do* b <- lab_of lab in
    do* _ <- unless_empty (Lab_String b) (titled "Network Scenario Information" (Lab_String b)) in
    let devices := Z.of_nat (length (Values b.(labMachines))) in
    let links := Z.of_nat (length (Values b.(labLinks))) - (if Has b.(labLinks) bridge_link then 1 else 0) in
    do* _ <- titled "Topology Information" ("There are " +:+ Itoa devices +:+ " devices." +:+ nl +:+ "There are " +:+ Itoa links +:+ " collision domains.") in
    sret (mkLinfo obj "conf" None [] [] devices links "").

(** What runs, once. *)
Definition linfo_once (f : linfoFlags) (lab : loc) (r : LinfoResult) : AM LinfoResult :=
  do* b <- lab_of lab in
  let ref := by_hash b.(LabHash) in
  if negb (String.eqb f.(iName) "") then
    do* found <- GetMachineStats f.(iName) ref false in
    let machine := default None found in
    do* _ <- titled (f.(iName) +:+ " Information")
               (match machine with None => "Device `" +:+ f.(iName) +:+ "` Not Found." | Some s => formatLinfoMachine s end) in
    sret (mkLinfo r.(liLab) "machine" machine r.(liMachines) r.(liLinks) r.(liDeviceCount) r.(liLinkCount) r.(liMachineText))
  else if f.(iTopology) then
    do* _ <- UpdateLabFromAPI lab in
    do* links <- on_lab (linfoLinks lab) in
    do* c <- asks console in
    match renderTopologyTable timestamp links c.(Width) with
    | None => sthrow (Failed NilDeref)
    | Some lines =>
        do* _ <- shows (PrintLines lines) in
        sret (mkLinfo r.(liLab) "topology" r.(liMachine) r.(liMachines) links r.(liDeviceCount) r.(liLinkCount) r.(liMachineText))
    end
  else
    do* entries <- snapshotMachines ref false in
    do* _ <- shown_stats entries in
    sret (mkLinfo r.(liLab) "lab" r.(liMachine) (statsValues entries) r.(liLinks) r.(liDeviceCount) r.(liLinkCount) r.(liMachineText)).

Fixpoint linfo_loop (rounds : nat) (f : linfoFlags) (lab : loc) (r : LinfoResult) : AM LinfoResult :=
  do* r <- linfo_once f lab r in
  if negb f.(iWatch) then sret r
  else match rounds with
       | O => sret r
       | S rounds => do* _ <- shows ClearScreen in linfo_loop rounds f lab r
       end.

Definition runLinfo (rounds : nat) (f : linfoFlags) : AM LinfoResult :=
  do* path <- resolveLabPath f.(iDirectory) in
  do* _ <- loadCustomConfiguration path in
  do* lab <- lab_or_empty path in
  do* b <- lab_of lab in
  let obj := asLabObject b true in
  if f.(iConf) then linfo_conf lab obj f.(iName)
  else
    do* _ <- manager in
    linfo_loop rounds f lab (linfo_result obj "").

Definition linfo_command (rounds : nat) (f : linfoFlags) : AM unit :=
  do* c <- asks console in
  if f.(iWatch) && Format_Machine c.(cFormat) then usage (not_with_watch c)
  else do* r <- runLinfo rounds f in emits (Linfo r).

(** ** lconfig and vconfig *)

Record ConfigResult : Type := mkConfigResult { crLab : CliJson.Lab; crMachine : string; crAdded : list (string * string); crRemoved : list string }.

(** The scenario; one by directory must have a file that can be read. *)
Definition config_lab (f : configFlags) (isLab : bool) : AM loc :=
  if negb isLab then newVlab
  else if negb (String.eqb f.(gLabHash) "") || negb (String.eqb f.(gLabName) "") then resolveRunningLab "" f.(gLabHash) f.(gLabName)
  else
    do* labPath <- resolveLabPath f.(gDirectory) in
    do* _ <- loadCustomConfiguration labPath in
    parse_lab labPath.

Fixpoint add_links (f : configFlags) (lab device : loc) (added : list (string * string)) : AM unit :=
  match added with
  | [] => sret tt
  | (cd, mac) :: added =>
      do* _ <- shows (Print ("+ Adding interface to device `" +:+ f.(gName) +:+ "` on collision domain `" +:+ cd +:+ "`"
                               +:+ (if String.eqb mac "" then "" else " with MAC Address " +:+ mac) +:+ "...")) in
      do* link <- on_lab (GetOrNewLink lab cd) in
      do* _ <- CliApp.ConnectMachineToLink device link mac in
      add_links f lab device added
  end.

Fixpoint remove_links (f : configFlags) (isLab : bool) (lab device : loc) (cds : list string) : AM unit :=
  match cds with
  | [] => sret tt
  | cd :: cds =>
      do* _ <- shows (Print ("- Removing interface on collision domain `" +:+ cd +:+ "` from device `" +:+ f.(gName) +:+ "`...")) in
      do* link <- on_lab (GetLink lab cd) in
      do* _ <- (if isLab then sret tt
                else do* b <- lab_of lab in
                     do* obj <- GetLinkAPIObject cd (by_name (Lab_Name b)) false in
                     hang_link link obj) in
      do* _ <- DisconnectMachineFromLink device link false in
      remove_links f isLab lab device cds
  end.

Fixpoint parse_added (values : list string) : result goerror (list (string * string)) :=
  match values with
  | [] => Ok []
  | v :: values => let* one := cdMAC v in let* rest := parse_added values in Ok (one :: rest)
  end.

Definition runConfig (f : configFlags) (isLab : bool) : AM ConfigResult :=
  do* added <- ago (parse_added f.(toAdd)) in
  do* lab <- config_lab f isLab in
  do* _ <- manager in
  do* _ <- UpdateLabFromAPI lab in
  do* device <- on_lab (GetMachine lab f.(gName)) in
  do* _ <- (if isLab then sret tt
            else do* b <- lab_of lab in
                 do* obj <- GetMachineAPIObject f.(gName) (by_name (Lab_Name b)) false in
                 hang_machine device obj) in
  do* _ <- centred ((if isLab then "Updating Network Scenario Device `" else "Updating Device `") +:+ f.(gName) +:+ "`") in
  do* b <- lab_of lab in
  let obj := asLabObject b (isLab && String.eqb f.(gLabHash) "" && String.eqb f.(gLabName) "") in
  do* _ <- add_links f lab device added in
  do* _ <- remove_links f isLab lab device f.(toRemove) in
  sret (mkConfigResult obj f.(gName) added f.(toRemove)).

Definition config_command (f : configFlags) (isLab : bool) : AM unit :=
  do* r <- runConfig f isLab in
  emits (CliJson.ConfigResult r.(crLab) r.(crMachine) r.(crAdded) r.(crRemoved)).

(** ** wipe *)

(** A question to the user; [None] of the answer is the end of the command. *)
Definition confirms (prompt : string) : AM bool := fun a =>
  let '(input, c, r) := Confirm a.(prompter) prompt a.(console) in
  (set_prompter input (set_console c a), match r with Ok b => Ok b | Err e => Err (fails e) end).

Definition wipe_confirmed (f : wipeFlags) : AM bool :=
  if f.(wForce) then sret true
  else
    do* c <- asks console in
    if Format_Machine c.(cFormat) then afail ErrWipeConfirmationRequired else confirms "Are you sure to wipe Kathara?".

Definition runWipe (f : wipeFlags) : AM unit :=
  do* go_on <- wipe_confirmed f in
  if negb go_on then sret tt
  else if f.(wSettings) then
    do* _ <- on_disk (SettingsFile.Wipe home) in
    emits (CliJson.Wipe true f.(wAll) [] [])
  else
    do* _ <- (if f.(wAll) then require_admin ErrPrivilegeWipeAllUsers else sret tt) in
    do* _ <- manager in
    do* machine_format <- asks (fun a => Format_Machine a.(console).(cFormat)) in
    do* running <- (if machine_format then snapshotMachines no_ref f.(wAll) else sret []) in
    do* links <- (if machine_format then snapshotLinkNames no_ref f.(wAll) else sret []) in
    do* _ <- ManagerWipe f.(wAll) in
    emits (CliJson.Wipe false f.(wAll) (sort_strings (running_names running)) links).

(** ** check *)

Definition tabbed (label : string) (tabs : nat) (value : string) : AM unit :=
  shows (Print (expandTabs (label +:+ repeat_str (str1 (az 9)) (Z.of_nat tabs) +:+ value))).

Definition deployAndUndeploy (machine : loc) : AM unit :=
  do* _ <- DeployMachine machine in UndeployMachine machine false.

(** The error of the device that was tried is part of the answer. *)
Definition attempt (m : AM unit) : AM (option goerror) := fun a =>
  match m a with
  | (a, Ok _) => (a, Ok None)
  | (a, Err (Failed (Go e))) => (a, Ok (Some e))
  | (a, Err e) => (a, Err e)
  end.

(** The exit code. *)
Definition runCheck (version : string) : AM Z :=
  do* _ <- centred "System Check" in
  do* _ <- manager in
  do* image <- asks (fun a => a.(settings).(sImage)) in
  do* _ <- tabbed "Current Manager is:" 2 FormattedName in
  do* release <- GetReleaseVersion in
  do* _ <- tabbed "Manager version is:" 2 release in
  do* _ <- tabbed "Go version is:" 3 runtime_version in
  do* _ <- tabbed "Kathara version is:" 2 version in
  do* _ <- tabbed "Operating System version is:" 1 osVersion in
  do* _ <- set_open_terminals false in
  do* lab <- new_lab (Some "kathara_test") "" in
  do* _ <- on_lab (AddOption lab "hosthome_mount" (Scalar.Bool false)) in
  do* machine <- on_lab (GetOrNewMachine proc_fs (Some cwd) lab "hello_world" None) in
  do* failed <- attempt (deployAndUndeploy machine) in
  let answer ok error := emits (Check_ (mkCheck FormattedName release runtime_version version osVersion image ok error)) in
  match failed with
  | Some e =>
      do* _ <- shows (Print (drawn 0xD7 +:+ " Running container failed: " +:+ Error e)) in
      do* _ <- answer false (Error e) in
      sret 1
  | None =>
      do* _ <- shows (Print (drawn 0x2713 +:+ " Container run successfully.")) in
      do* _ <- answer true "" in
      sret 0
  end.

(** ** config *)

Definition settingsDir : string := "".
Definition save_settings (s : Settings) : AM unit := on_disk (Save terminalAvailable home ids s settingsDir).
Definition get_setting (s : Settings) (key : string) : AM Settings.anyval := ago (Settings.Get terminalAvailable s key).
Definition shows_setting (key : string) (v : Settings.anyval) : AM unit :=
  shows (Print (key +:+ " = " +:+ SettingsForm.formatSettingValue format_g v)).

Definition configGet (key : string) : AM unit :=
  do* s <- asks settings in
  do* value <- get_setting s key in
  do* _ <- shows_setting key value in
  emits (SettingsGet key value).

Definition dockerConfigJSONKey : string := "docker_config_json".

Definition configSet (encode : string → D → result goerror string) (key raw : string) : AM unit :=
  do* d <- asks disk in
  do* value <- (if String.eqb key dockerConfigJSONKey && negb (String.eqb raw "") then ago (encode raw d) else sret raw) in
  do* _ <- on_settings (SetString terminalAvailable key value) in
  do* s <- asks settings in
  do* _ <- save_settings s in
  do* stored <- get_setting s key in
  do* _ <- shows_setting key stored in
  emits (SettingsSet key stored true).

Definition configList : AM unit :=
  do* s <- asks settings in
  do* keys <- ago (Settings.Keys terminalAvailable s) in
  do* _ <- sfor keys (fun key => do* value <- get_setting s key in shows_setting key value) in
  emits (SettingsList s).

Definition configResetAll : AM unit :=
  let fresh := Settings.Defaults now in
  do* _ <- save_settings fresh in
  do* _ <- smodify (set_settings fresh) in
  do* _ <- shows (Print "Settings reset to their defaults.") in
  emits (SettingsReset fresh true).

Definition configResetKey (key : string) : AM unit :=
  do* s <- asks settings in
  let fresh := Settings.Defaults now in
  let fresh := if String.eqb key "manager_type" then fresh else set_str Settings.ManagerType s.(sManagerType) fresh in
  do* value <- get_setting fresh key in
  do* _ <- on_settings (Settings.Set_ terminalAvailable key value) in
  do* s <- asks settings in
  do* _ <- save_settings s in
  do* _ <- shows_setting key value in
  emits (SettingsReset s true).

Definition runConfigCmd (encode : string → D → result goerror string) (positional : list string) : AM unit :=
  match positional with
  | [] => usage "the following arguments are required: get|set|list|reset"
  | word :: rest =>
      if String.eqb word "get" then match rest with [key] => configGet key | _ => usage "config get takes exactly one KEY" end
      else if String.eqb word "set" then
        match rest with [key; raw] => configSet encode key raw | _ => usage "config set takes exactly one KEY and one VALUE" end
      else if String.eqb word "list" then match rest with [] => configList | _ => usage "config list takes no arguments" end
      else if String.eqb word "reset" then
        match rest with
        | [] => configResetAll
        | [key] => configResetKey key
        | _ => usage "config reset takes at most one KEY"
        end
      else usage ("unknown config subcommand `" +:+ word +:+ "`")
  end.

(** ** exec *)

Definition runExec (f : CliExec.execFlags) (positional : list string) : AM Z :=
  match positional with
  | [] => sthrow (Failed NilDeref)
  | machineName :: words =>
      do* ref <- execLabRef f.(efDirectory) f.(efVmachine) f.(efLabHash) f.(efLabName) in
      do* _ <- manager in
      do* stream <- ExecStream machineName (exec_command words) ref (exec_wait f) in
      fun a =>
        let '(c, (code, e)) := exec_output f stream a.(console) in
        (set_console c a, match e with None => Ok code | Some e => Err (fails e) end)
  end.
End info.
