(* ===== verification/CliRoot.v ===== *)
(** * The program (cmd/kathara: root.go, main.go, lrestart.go, connect.go, terminal.go)

    From the words of the command line to the exit code: the dispatch on the first
    word, the parsing and the checks before a command's body, the body, and how it ends. *)

From S2P Require Export CliInfo.
Local Open Scope string_scope.
Local Open Scope list_scope.
Local Open Scope Z_scope.
Local Open Scope kat_scope.

(** ** What a command line gives *)

(** The parser after its flags were parsed, and the variables they write, by the name of
    the option: text, switches, the constant of an option that has one, and the values
    of an option that takes a list. *)
Record parsed : Type := mkParsed {
  pCmd : parser;
  text_value : string → string;
  switch : string → bool;
  constant : string → option bool;
  values_of : string → list string
}.

(** The library that parses flags, Go's quoting of a text, the classes of runes, the
    release this is, and what takes over the terminal: the form of the settings, the
    window of a command on several devices, and the session of [connect]. *)
Class Frontend (D F W : Type) : Type := {
  ParseFlags : commandSpec → list string → result goerror parsed;
  quote_go : string → string;
  rune_upper : Z → bool;   (* upper or title case *)
  rune_lower : Z → bool;
  version : string;
  interactive : bool;
  rounds : nat;   (* how often a command that watches redraws before it is interrupted *)
  encode_docker_config : string → D → result goerror string;
  run_settings : AM D F W unit;
  term_Run : list loc → AM D F W unit;
  attach_tty : string → LabRef → string → bool → AM D F W unit;
  run_api : string → AM D F W unit
}.

Definition given (v : parsed) (name : string) : option string := if Changed v.(pCmd) name then Some (v.(text_value) name) else None.
Definition pair_of (v : parsed) (no yes : string) : option bool * option bool := (v.(constant) no, v.(constant) yes).

Definition lstart_flags (v : parsed) : lstartFlags :=
  mkLstartFlags (pair_of v "noterminals" "terminals") (pair_of v "no-hosthome" "hosthome") (pair_of v "no-shared" "shared")
    (v.(constant) "privileged") (v.(values_of) "pass") (v.(values_of) "exclude") (v.(text_value) "directory")
    (v.(switch) "force-lab") (v.(switch) "list") (v.(text_value) "terminal-emu") (v.(switch) "print")
    (v.(text_value) "from-archive") (v.(text_value) "name").
Definition lclean_flags (v : parsed) : lcleanFlags :=
  mkLcleanFlags (v.(text_value) "directory") (v.(text_value) "lab-hash") (v.(text_value) "lab-name") (v.(values_of) "exclude").
Definition vstart_flags (v : parsed) : vstartFlags :=
  mkVstartFlags (pair_of v "noterminals" "terminals") (given v "num_terms") (v.(constant) "privileged") (v.(text_value) "name")
    (v.(values_of) "eth") (v.(values_of) "exec") (given v "mem") (given v "cpus") (given v "image")
    (pair_of v "no-hosthome" "hosthome") (v.(text_value) "terminal-emu") (v.(switch) "print") (v.(switch) "bridged")
    (v.(values_of) "port") (v.(values_of) "sysctl") (v.(values_of) "env") (v.(values_of) "ulimit") (v.(values_of) "volume")
    (given v "shell") (given v "entrypoint").
Definition linfo_flags (v : parsed) : linfoFlags :=
  mkLinfoFlags (v.(text_value) "directory") (v.(switch) "watch") (v.(switch) "conf") (v.(text_value) "name") (v.(switch) "topology").
Definition list_flags (v : parsed) : listFlags := mkListFlags (v.(switch) "all") (v.(switch) "watch") (v.(text_value) "name").
Definition wipe_flags (v : parsed) : wipeFlags := mkWipeFlags (v.(switch) "force") (v.(switch) "settings") (v.(switch) "all").
Definition config_flags (v : parsed) : configFlags :=
  mkConfigFlags (v.(text_value) "directory") (v.(text_value) "lab-hash") (v.(text_value) "lab-name") (v.(text_value) "name")
    (v.(values_of) "add") (v.(values_of) "rm").
Definition exec_flags (v : parsed) : CliExec.execFlags :=
  mkExecFlags (v.(text_value) "directory") (v.(switch) "vmachine") (v.(text_value) "lab-hash") (v.(text_value) "lab-name")
    (v.(switch) "no-stdout") (v.(switch) "no-stderr") (v.(switch) "wait").

(** ** The help of the program *)

Section help.
Context `{CellTables}.

(** [None] is the panic of a console that is too narrow. *)
Definition commandTableLines (width : Z) : option (list string) :=
  match RenderPlainTable ((fun c => [c.1; c.2]) <$> commandDescriptions) width with
  | Some (Ok lines) => Some lines
  | _ => None
  end.

Definition topLevelUsage (width : Z) : option string :=
  (fun lines => "usage: kathara [-h] [-v] <command> [<args>]" +:+ nl +:+ nl +:+ "Possible Kathara commands are:" +:+ nl +:+ nl
     +:+ string_concat ((fun line => line +:+ nl) <$> lines)) <$> commandTableLines width.

Definition topLevelHelp (width : Z) : option string :=
  (fun usage => usage +:+ nl +:+ "A network emulation tool." +:+ nl +:+ nl +:+ "positional arguments:" +:+ nl
     +:+ "  command        Command to run." +:+ nl +:+ nl +:+ "options:" +:+ nl
     +:+ "  -h, --help     Show an help message and exit." +:+ nl
     +:+ "  -v, --version  Print the current Kathara version.") <$> topLevelUsage width.
End help.

Section root.
Context {D F W Obj : Type} `{Host D F, Process F, TextCases, CellTables, Terminals, Mgr : !Manager D F W Obj, Frontend D F W}.
Local Notation AM := (AM D F W).
#[local] Existing Instance proc_fs.

(** [isLower] *)
Definition isLower (s : string) : bool := negb (existsb rune_upper (runes s)) && existsb rune_lower (runes s).

(** ** One command *)

Definition usageError (spec : commandSpec) (message : string) : AM Z :=
  do* _ <- shows (WriteErr (usageBlock spec.(csCmd))) in
  do* _ <- shows (WriteErr ("kathara " +:+ spec.(csName) +:+ ": error: " +:+ message +:+ nl)) in
  sret 2.

Definition emitError (e : goerror) : AM Z := fun a =>
  let '(c, code) := EmitError (Some e) a.(console) in (set_console c a, Ok code).

Definition trim_newlines_right (s : string) : string :=
  bytes_string (reverse (drop_while (Ascii.eqb (az 10)) (reverse (string_bytes s)))).

(** [enqueueMuxDevice]: a device waits once, by its name. *)
Definition enqueueMuxDevice (machine : loc) : AM unit := fun a =>
  let name l := mName <$> (a.(scenarios).(hMachines) !! l) in
  (if existsb (fun l => bool_decide (name l = name machine)) a.(muxDevices) then a else set_mux (a.(muxDevices) ++ [machine]) a, Ok tt).

(** [openMachineTerminals], on the event of a device that was deployed: as many windows
    as the device asks for, opened one after another until one fails. *)
Definition openMachineTerminals (open : loc → AM unit) (machine : loc) : AM unit :=
  do* opens <- asks (fun a => a.(settings).(sOpenTerminals)) in
  do* machine_format <- asks (fun a => Format_Machine a.(console).(cFormat)) in
  if negb opens || machine_format then sret tt
  else
    do* m <- on_lab (getMachine machine) in
    do* b <- lab_of m.(mLab) in
    do* n <- ago (GetNumTerms b m) in
    sfor (repeat machine (Z.to_nat n)) open.

(** The devices whose window opens once the command is done. *)
Definition runPendingTerminals : AM unit :=
  do* devices <- asks muxDevices in
  do* _ <- smodify (set_mux []) in
  match devices with
  | [] => sret tt
  | _ =>
      if negb interactive then
        shows (Log LevelDebug ("Not opening the terminal multiplexer for " +:+ Itoa (Z.of_nat (length devices))
                                 +:+ " device(s): stdin and stdout are not both terminals."))
      else do* _ <- manager in term_Run devices
  end.

Definition body : Type := parsed → list string → list string → AM Z.

(** The end of a body: a failure of usage, another failure, or a code. *)
Definition ended (spec : commandSpec) (m : AM Z) : AM Z := fun a =>
  match m a with
  | (a, Err (Usage message)) => usageError spec message a
  | (a, Err (Failed (Go e))) => emitError e a
  | (a, Err (Failed NilDeref)) => (a, Err (Failed NilDeref))
  | (a, Ok code) =>
      if a.(suppressEmit) then (a, Ok code)
      else match runPendingTerminals a with
           | (a, Ok _) => (a, Ok code)
           | (a, Err (Failed (Go e))) => emitError e a
           | (a, Err (Usage message)) => emitError (EPlain message) a
           | (a, Err (Failed NilDeref)) => (a, Err (Failed NilDeref))
           end
  end.

Definition format_value (spec : commandSpec) (v : parsed) : option string :=
  match CliUsage.Lookup spec.(csCmd) "format" with None => None | Some _ => Some (v.(text_value) "format") end.

(** The format is applied, and the body run. *)
Definition enter (spec : commandSpec) (run : body) (v : parsed) (remainder : list string) : AM Z := fun a =>
  match (if a.(suppressEmit) then sret tt else applyFormat spec.(csStreaming) quote_go (format_value spec v)) a with
  | (a, Err (Usage message)) => usageError spec message a
  | (a, Err e) => (a, Err e)
  | (a, Ok _) => ended spec (run v v.(pCmd).(FlagArgs) remainder) a
  end.

Definition unparsed (spec : commandSpec) : parsed := mkParsed spec.(csCmd) (fun _ => "") (fun _ => false) (fun _ => None) (fun _ => []).

Definition runCommand (spec : commandSpec) (run : body) (args : list string) : AM Z :=
  if spec.(csNoParser) then enter spec run (unparsed spec) []
  else
    let '(head, remainder) := if spec.(csRemainder) then splitRemainder (valueTaking_of spec) spec.(csGreedy) args else (args, []) in
    let head := expandGreedy head spec.(csGreedy) in
    match ParseFlags spec head with
    | Err e => usageError spec (Error e)
    | Ok v =>
        if v.(switch) "help" then
          do* _ <- shows (Print (trim_newlines_right (CliUsage.usage spec.(csCmd)))) in sret 0
        else match validate v.(pCmd) head with
             | Err e => usageError spec (Error e)
             | Ok _ => enter spec run v remainder
             end
    end.

(** ** The bodies *)

Definition code_0 (m : AM unit) : AM Z := do* _ <- m in sret 0.
Definition unless_suppressed (m : AM unit) : AM unit := do* quiet <- asks suppressEmit in if quiet then sret tt else m.

Definition lstart_body : body := fun v positional _ => code_0 (
  do* _ <- runLstart (lstart_flags v) positional in
  unless_suppressed (do* r <- asks lastStart in emits (Lstart r))).

Definition lclean_body : body := fun v positional _ => code_0 (
  do* _ <- runLclean (lclean_flags v) positional in
  unless_suppressed (do* r <- asks lastClean in emits (Lclean r))).

(** [runLrestart]: the arguments of the clean are put together, those of the start are
    the ones that were typed. *)
Definition lclean_argv (f : lstartFlags) (positional : list string) : list string :=
  (if String.eqb f.(fDirectory) "" then [] else ["-d"; f.(fDirectory)]) ++ positional
  ++ (match f.(fExcluded) with [] => [] | names => "--exclude" :: names end).

Definition suppressing (m : AM Z) : AM Z := fun a =>
  let '(a, r) := m (set_suppress true a) in (set_suppress false a, r).

Definition lrestart_phases (f : lstartFlags) (positional : list string) : AM Z :=
  do* code <- runCommand newLcleanCmd lclean_body (lclean_argv f positional) in
  if negb (code =? 0) then sret code
  else
    do* clean <- asks lastClean in
    do* args <- asks rawArgs in
    do* code <- runCommand newLstartCmd lstart_body args in
    if negb (code =? 0) then sret code
    else
      do* start <- asks lastStart in
      do* _ <- smodify (set_suppress false) in
      do* _ <- emits (Lrestart clean start) in
      sret 0.

Definition runLrestart (f : lstartFlags) (positional : list string) : AM Z := suppressing (lrestart_phases f positional).

Definition runConnect (v : parsed) (positional : list string) : AM unit :=
  match positional with
  | [] => sthrow (Failed NilDeref)
  | machineName :: _ =>
      let vmachine := v.(switch) "vmachine" in
      do* ref <- execLabRef (v.(text_value) "directory") vmachine "" "" in
      do* hash <- (if String.eqb ref.(refHash) "" && vmachine
                   then do* lab <- newVlab in do* b <- lab_of lab in sret b.(LabHash) else sret ref.(refHash)) in
      do* _ <- shows (Log LevelDebug ("Executing `connect` command with hash `" +:+ hash +:+ "`...")) in
      do* _ <- manager in
      attach_tty machineName ref (v.(text_value) "shell") (v.(switch) "logs")
  end.

(** The body of a command, by its name. *)
Definition body_of (name : string) : body := fun v positional remainder =>
  if String.eqb name "lstart" then lstart_body v positional remainder
  else if String.eqb name "lclean" then lclean_body v positional remainder
  else if String.eqb name "lrestart" then runLrestart (lstart_flags v) positional
  else if String.eqb name "linfo" then code_0 (linfo_command rounds (linfo_flags v))
  else if String.eqb name "lconfig" then code_0 (config_command (config_flags v) true)
  else if String.eqb name "vstart" then
    code_0 (do* r <- runVstart (vstart_flags v) remainder in emits (Vstart r.(vrLab) r.(vrMachine) r.(vrDryRun) r.(vrLinks)))
  else if String.eqb name "vclean" then
    code_0 (do* r <- runVclean (v.(text_value) "name") in emits (Vclean r.(vcLab) r.(vcMachine) r.(vcMachines)))
  else if String.eqb name "vconfig" then code_0 (config_command (config_flags v) false)
  else if String.eqb name "connect" then code_0 (runConnect v positional)
  else if String.eqb name "exec" then runExec (exec_flags v) positional
  else if String.eqb name "list" then code_0 (runList rounds (list_flags v))
  else if String.eqb name "wipe" then code_0 (runWipe (wipe_flags v))
  else if String.eqb name "check" then runCheck version
  else if String.eqb name "settings" then code_0 run_settings
  else if String.eqb name "config" then code_0 (runConfigCmd encode_docker_config positional)
  else code_0
    match positional with
    | [operation] => do* _ <- run_api operation in emits (APIResult true)
    | _ => usage "api requires exactly one operation"
    end.

(** ** The program *)

(** [Settings.Check] with the file it may write. *)
Definition check_settings : AM unit := fun a =>
  let save s := Save terminalAvailable home ids s settingsDir a.(disk) in
  let '(s, r) := Settings.Check now (fun s => (save s).2) a.(settings) in
  let writes := match CheckManager a.(settings) with Ok _ => f64_gt (f64_sub now a.(settings).(sLastChecked)) oneWeek | Err _ => false end in
  (set_settings s (if writes then set_disk (save s).1 a else a), match r with Ok _ => Ok tt | Err e => Err (fails e) end).

Definition contains_settings (word : string) : bool := Contains word "settings".

Definition show_help (code : Z) : AM Z := fun a =>
  match topLevelHelp a.(console).(Width) with
  | None => (a, Err (Failed NilDeref))
  | Some text => (set_console (Print text a.(console)) a, Ok code)
  end.

Definition unrecognized (word : string) : AM Z := fun a =>
  match topLevelUsage a.(console).(Width) with
  | None => (a, Err (Failed NilDeref))
  | Some text =>
      (do* _ <- shows (WriteErr text) in
       do* _ <- shows (WriteErr ("kathara: error: unrecognized arguments: " +:+ word +:+ nl)) in sret 2) a
  end.

(** A command whose name has been read, once the settings are in order. *)
Definition run_word (word : string) (args : list string) : AM Z :=
  match command_named word with
  | None =>
      do* _ <- shows (Log LevelError ("Unrecognized command `" +:+ word +:+ "`.")) in show_help 1
  | Some spec =>
      do* _ <- smodify (set_command word args) in
      runCommand spec (body_of word) args
  end.

Definition dispatch (argv : list string) : AM Z :=
  let word := match argv with _ :: word :: _ => if String.eqb word "--" then "" else word | _ => "" end in
  let args := drop 2 argv in
  if String.eqb word "-h" || String.eqb word "--help" then show_help 0
  else if String.eqb word "-v" || String.eqb word "--version" then
    do* _ <- shows (Print ("Current version: " +:+ version)) in sret 0
  else if negb (String.eqb word "") && HasPrefix word "-" then unrecognized word
  else if negb (isLower word) then show_help 1
  else if contains_settings word || String.eqb word "config" then run_word word args
  else fun a =>
    match check_settings a with
    | (a, Err (Failed (Go e))) =>
        (set_console (Log LevelCritical ("(" +:+ HumanLabelOf e +:+ ") " +:+ Error e) a.(console)) a, Ok 1)
    | (a, Err e) => (a, Err e)
    | (a, Ok _) => run_word word args a
    end.

Definition interruptExempt (name : string) : bool := str_in name ["exec"; "linfo"; "list"; "settings"; "config"].

(** [finish]: the exit code, after the warning of a command that was interrupted. *)
Definition finish (code : Z) (wasInterrupted : bool) : AM Z :=
  if wasInterrupted then
    do* name <- asks commandName in
    do* _ <- (if interruptExempt name then sret tt
              else shows (Log LevelWarning ("You interrupted Kathara during a command. The system may be in an "
                     +:+ "inconsistent state! If you encounter any problem please run `kathara wipe`."))) in
    do* _ <- shows EmitInterrupted in
    sret 0
  else sret code.
End root.

(** ** A small host

    Instances of what the commands are written over: a disk in memory as the host, no
    wide runes, a process of a plain user, and a manager that writes down what it is asked. *)

Module Demo.
Definition under (dir path : string) : bool := String.eqb dir path || HasPrefix path (dir +:+ "/").

Definition temp_dir : string := "/tmp/kathara-archive-1".

#[export] Instance demo_host : Host memDisk memFS := {
  host_disk := mem_disk;
  is_link _ _ := Some false;
  link_target _ _ := None;
  host_links _ := ∅;
  readlink_error := missing "";
  list_dir d path := Some (omap (fun p => if HasPrefix p (path +:+ "/") then Some (string_drop (S (String.length path)) p) else None) (elements d.(dkDirs)));
  dir_exists d path := bool_decide (path ∈ d.(dkDirs));
  link_exists d path := bool_decide (path ∈ d.(dkDirs));
  OSDir d path := if bool_decide (path ∈ d.(dkDirs)) then Some Memory else None;
  MkdirTemp _ d := (mkDisk d.(dkFiles) ({[temp_dir]} ∪ d.(dkDirs)), Ok temp_dir);
  RemoveAll dir d := (mkDisk (list_to_map (List.filter (fun f => negb (under dir f.1)) (map_to_list d.(dkFiles))))
                        (list_to_set (List.filter (fun p => negb (under dir p)) (elements d.(dkDirs)))), Ok tt);
  host_write w d :=
    match w with
    | CliArchive.MkdirAll p _ => (mkDisk d.(dkFiles) ({[p]} ∪ d.(dkDirs)), Ok tt)
    | CliArchive.WriteFile p _ data => (mkDisk (<[p := data]> d.(dkFiles)) d.(dkDirs), Ok tt)
    end
}.

Definition demo_header (name content : string) : CliArchive.header := CliArchive.mkHeader name CliArchive.TypeReg 0 content None.

#[export] Instance demo_process : Process memFS := {
  proc_fs := Memory_FS;
  memory := Memory;
  cwd := "/home";
  stdin := Some (Some "tar");
  home := Ok "/root";
  ids := Ok (0, 0);
  IsAdmin := Ok false;
  linux := true;
  runtime_version := "go1.24";
  osVersion := "Linux-6-x86_64";
  timestamp := "TIMESTAMP: now";
  now := f64_of_Z 0;
  format_g _ := "";
  is_not_exist _ := true;
  glob_pattern _ := Some (fun _ => true);
  gunzip _ := None;
  tar_entries _ := ([demo_header "lab.conf" "pc1[0]=A"], true);
  range_externals m := map_to_list m
}.

#[export] Instance demo_cells : CellTables := { zeroWidth _ := false; wideRune _ := false }.
#[export] Instance demo_terminals : Terminals := { terminalAvailable _ := Ok true }.
#[export] Instance demo_cases : TextCases := ToLower.

(** What the manager was asked, the last first. *)
Definition demo_app : Type := app memDisk memFS (list string).
Definition noted {A} (what : string) (x : A) : AM memDisk memFS (list string) A := fun a => (set_world (what :: a.(world)) a, Ok x).

Definition demo_stats : list (option K8sRec.MachineStats) :=
  [Some (K8sRec.mkMachineStats "h" "pc1" "c1" (Some "root") (Some "running") "kathara/base" K8sRec.Unset);
   Some (K8sRec.mkMachineStats "h" "r1" "c2" (Some "root") None "kathara/frr" K8sRec.Unset)].

#[export] Instance demo_manager : Manager memDisk memFS (list string) unit := {
  newManager := noted "new" tt;
  FormattedName := "Docker (Kathara)";
  DeployLab _ _ := noted "deploy lab" tt;
  DeployMachine _ := noted "deploy device" tt;
  UndeployMachine _ _ := noted "undeploy device" tt;
  UndeployLab _ _ := noted "undeploy lab" tt;
  ManagerWipe _ := noted "wipe" tt;
  ConnectMachineToLink _ _ _ := noted "connect" tt;
  DisconnectMachineFromLink _ _ _ := noted "disconnect" tt;
  UpdateLabFromAPI _ := noted "update" tt;
  GetMachineAPIObject _ _ _ := noted "device" tt;
  GetLinkAPIObject _ _ _ := noted "link" tt;
  hang_machine _ _ := sret tt;
  hang_link _ _ := sret tt;
  GetMachinesStats _ _ _ := noted "devices" (sret (Some demo_stats));
  GetMachineStats _ _ _ := sret None;
  GetLinksStats _ _ _ := noted "links" (sret (Some [Some (K8sRec.mkLinkStats "h" "A" "a" None None); Some (K8sRec.mkLinkStats "h" "B" "b" None None)]));
  ExecStream _ _ _ _ := sret (mkExecStream [("out", "")] None (Ok 3));
  GetReleaseVersion := sret "28.0"
}.

(** An application on a disk, in a format. *)
Definition demo_start (d : memDisk) (format : Format) : demo_app :=
  mkApp (CliConsole.New None "" "" format 10) None defaultSettings None false no_clean no_start [] "" [] d (mkHeap ∅ ∅ ∅ 1%positive) [].

Definition demo_lab (conf : string) : memDisk := mkDisk {["/lab/lab.conf" := conf]} {["/lab"; "/tmp"]}.

Definition plain_lstart (directory archive name : string) (dry : bool) : lstartFlags :=
  mkLstartFlags (None, None) (None, None) (None, None) None [] [] directory false false "" dry archive name.

(** The outcome of a command: how it ended, what the manager was asked, and what was shown. *)
Definition outcome_of {A} (r : demo_app * result cliError A) : option (result string A) * list string :=
  (match r.2 with
   | Ok x => Some (Ok x)
   | Prelude.Err (Usage m) => Some (Prelude.Err m)
   | Prelude.Err (Failed (Go e)) => Some (Prelude.Err (Error e))
   | Prelude.Err (Failed NilDeref) => None
   end, r.1.(world)).

Example lstart_1 :
  let r := runLstart (plain_lstart "'/lab'" "" "" false) [] (demo_start (demo_lab ("pc1[0]=A" +:+ nl +:+ "pc1[1]=B")) FormatHuman) in
  (outcome_of r, lsMachines r.1.(lastStart), lsLinks r.1.(lastStart)) =
  ((Some (Ok tt), ["deploy lab"; "new"]), ["pc1"], ["A"; "B"]).
Proof. vm_compute. reflexivity. Qed.

(** A scenario without devices, one with a privileged device, and a dry run. *)
Example lstart_2 :
  outcome_of (runLstart (plain_lstart "/lab" "" "" false) [] (demo_start (demo_lab "LAB_NAME=x") FormatHuman)) =
  (Some (Prelude.Err (Error ErrNoDevicesInScenario)), []).
Proof. vm_compute. reflexivity. Qed.
Example lstart_3 :
  outcome_of (runLstart (plain_lstart "/lab" "" "" false) [] (demo_start (demo_lab "pc1[privileged]=true") FormatHuman)) =
  (Some (Prelude.Err (Error ErrPrivilegeLabPrivileged)), []).
Proof. vm_compute. reflexivity. Qed.
Example lstart_4 :
  let r := runLstart (plain_lstart "/lab" "" "" true) [] (demo_start (demo_lab "pc1[privileged]=true") FormatJSON) in
  (outcome_of r, lsChecks r.1.(lastStart)) = ((Some (Ok tt), []), ["lab.conf"]).
Proof. vm_compute. reflexivity. Qed.

(** From an archive: deployed, and refused for what it is called. *)
Example lstart_5 :
  let r := runLstart (plain_lstart "" "-" "demo" false) [] (demo_start (mkDisk ∅ ∅) FormatHuman) in
  (outcome_of r, lsMachines r.1.(lastStart), dir_exists r.1.(disk) temp_dir) = ((Some (Ok tt), ["deploy lab"; "new"]), ["pc1"], true).
Proof. vm_compute. reflexivity. Qed.
Example lstart_6 :
  let r := runLstart (plain_lstart "" "-" "demo" true) [] (demo_start (mkDisk ∅ ∅) FormatHuman) in
  (outcome_of r, dir_exists r.1.(disk) temp_dir) = ((Some (Ok tt), []), false).
Proof. vm_compute. reflexivity. Qed.
Example lstart_7 :
  outcome_of (runLstart (plain_lstart "/lab" "-" "demo" false) [] (demo_start (mkDisk ∅ ∅) FormatHuman)) =
  (Some (Prelude.Err "argument --from-archive: not allowed with argument -d/--directory"), []).
Proof. vm_compute. reflexivity. Qed.
End Demo.
