(* ===== verification/CliStartInv.v ===== *)
(** * What lstart deploys (cmd/kathara/lstart.go)

    The scenario that reaches the manager is well formed, has devices, and asks for
    privileges only of the administrator; the dry run reaches no manager; the
    directory an archive was extracted in is removed unless it is deployed; and the
    devices and the collision domains that lstart and lclean (lclean.go) name in their
    answer are exactly those that came up, and those that went. *)

From S2P Require Export CliStart LabInv.
From S2P Require Import CliRoot.
From Stdlib Require Import Sorted.
Import CliRoot.Demo.
Local Open Scope string_scope.
Local Open Scope list_scope.
Local Open Scope Z_scope.
Local Open Scope kat_scope.

(** ** Scenarios read into a heap that is not empty *)

Section fresh.
Context {F : Type} (fsys : FileSystem F) `{TextCases} (cwd : option string).
Context (memory : F) (OSDir : string → option F).

Definition fresh (h : heap F) : Prop := ∀ l, (h.(hNext) ≤ l)%positive → h.(hMachines) !! l = None ∧ h.(hLinks) !! l = None.

Lemma inv_fresh h lab b : lab_inv h lab b → fresh h.
Proof. intros Hi. exact (li_fresh _ _ _ Hi). Qed.

Lemma newLab_fresh name path defaults h : fresh h →
  (∃ h' lab b, newLab memory OSDir name path defaults h = (h', Ok lab) ∧ lab_inv h' lab b) ∨
  ∃ e, newLab memory OSDir name path defaults h = (h, Err (Go e)).
Proof.
  intros Hf. unfold newLab, sbind, newLoc, putLab, smodify, sret, throw, sthrow.
  destruct (String.eqb path ""); [|destruct (OSDir path)]; try (right; by eexists);
    left; eexists _, _, _; (split; [reflexivity|]);
    (split; cbn [hLabs hMachines hLinks hNext labMachines labLinks];
     [apply lookup_insert_eq|apply wf_new|apply wf_new|by intros n l Hn|by intros n k Hk|intros l Hl; apply Hf; lia]).
Qed.

Lemma safe_after {A} (h : heap F) lab b (op : @MM F A) : lab_inv h lab b → safe lab op → fresh (op h).1.
Proof. intros Hi Hs. destruct (Hs h b Hi) as (b' & Hi' & _). by apply (inv_fresh _ _ _ Hi'). Qed.

Lemma ParseLab_fresh Stat_ ReadFile_ path confName defaults h h' r : fresh h →
  ParseLab fsys cwd memory OSDir Stat_ ReadFile_ path confName defaults h = (h', r) →
  fresh h' ∧ ∀ lab, r = Ok lab → ∃ b, lab_inv h' lab b.
Proof.
  intros Hf. unfold ParseLab. destruct (Stat_ _) as [size|]; [|by intros [= <- <-]].
  destruct (size =? 0); [by intros [= <- <-]|]. destruct (ReadFile_ _) as [data|e]; [|by intros [= <- <-]].
  destruct (newLab_fresh None path defaults h Hf) as [(h0 & lab0 & b0 & E & Hi)|(e & E)];
    [|rewrite (bind_err _ _ _ _ _ E); by intros [= <- <-]].
  rewrite (bind_ok _ _ _ _ _ E).
  destruct (parse_lines_safe fsys cwd lab0 confName (readLines data) 1 h0 b0 Hi) as (b1 & Hi1 & _).
  destruct (parse_lines _ _ _ _ _ _ h0) as [h1 [[]|e]] eqn:E1;
    [|rewrite (bind_err _ _ _ _ _ E1); intros [= <- <-]; split; [by apply (inv_fresh _ _ _ Hi1)|done]].
  rewrite (bind_ok _ _ _ _ _ E1). cbn in Hi1. destruct (CheckIntegrity_safe lab0 h1 b1 Hi1) as (b2 & Hi2 & _).
  destruct (CheckIntegrity lab0 h1) as [h2 [[]|e]] eqn:E2; cbn in Hi2.
  - rewrite (bind_ok _ _ _ _ _ E2). intros [= <- <-]. split; [by apply (inv_fresh _ _ _ Hi2)|]. intros lab [= <-]. by exists b2.
  - rewrite (bind_err _ _ _ _ _ E2). intros [= <- <-]. split; [by apply (inv_fresh _ _ _ Hi2)|done].
Qed.

Lemma add_folders_safe lab names : Forall (fun n => pyStrip n = n) names → safe lab (add_folders fsys cwd lab names).
Proof.
  induction 1 as [|n names Hn _ IH]; cbn [add_folders]; [apply safe_ret|]. destruct (IsReservedMachineName n); [done|].
  apply safe_bind; [|by intros ?]. intros h b Hi.
  destruct (GetOrNewMachine_run fsys cwd h lab b n None Hi Hn) as [[e ->]|(h' & b' & l & -> & Hi' & _)]; eauto.
Qed.

Lemma ParseFolder_fresh Compile list_dir is_dir link path defaults h h' lab : fresh h →
  Forall (fun n => pyStrip n = n) (machineFolders Compile list_dir is_dir link path) →
  ParseFolder Compile list_dir is_dir link fsys cwd memory OSDir path defaults h = (h', Ok lab) → ∃ b, lab_inv h' lab b.
Proof.
  intros Hf Hn. unfold ParseFolder.
  destruct (newLab_fresh None path defaults h Hf) as [(h0 & lab0 & b0 & E & Hi)|(e & E)]; [|by rewrite (bind_err _ _ _ _ _ E)].
  rewrite (bind_ok _ _ _ _ _ E). destruct (add_folders_safe lab0 _ Hn h0 b0 Hi) as (b1 & Hi1 & _).
  destruct (add_folders _ _ _ _ h0) as [h1 [[]|e]] eqn:E1; [|by rewrite (bind_err _ _ _ _ _ E1)].
  rewrite (bind_ok _ _ _ _ _ E1). intros [= <- <-]. by exists b1.
Qed.
End fresh.

(** ** Steps that leave the scenarios alone *)

Section quiet.
Context {D F W : Type}.
Local Notation AM := (CliApp.AM D F W).

Definition quiet {A} (m : AM A) : Prop := ∀ a, (m a).1.(scenarios) = a.(scenarios).

Lemma quiet_bind {A B} (m : AM A) (k : A → AM B) : quiet m → (∀ x, quiet (k x)) → quiet (sbind m k).
Proof.
  intros Hm Hk a. unfold sbind. specialize (Hm a). destruct (m a) as [a' [x|e]]; cbn in *; [|done]. by rewrite Hk.
Qed.
Lemma quiet_ret {A} (x : A) : quiet (sret x : AM A). Proof. by intros a. Qed.
Lemma quiet_throw {A} e : quiet (sthrow e : AM A). Proof. by intros a. Qed.
Lemma quiet_ago {A} (r : result goerror A) : quiet (ago r : AM A). Proof. by destruct r. Qed.
Lemma quiet_asks {A} (f : CliApp.app D F W → A) : quiet (asks f). Proof. by intros a. Qed.
Lemma quiet_shows f : quiet (shows f : AM unit). Proof. by intros a. Qed.
Lemma quiet_on_settings {A} (m : Settings.SM A) : quiet (on_settings m : AM A).
Proof. intros a. unfold on_settings. by destruct (m _). Qed.
Lemma quiet_with_value {A} (o : option A) (k : A → AM unit) : (∀ x, quiet (k x)) → quiet (with_value o k).
Proof. intros Hk. destruct o; [apply Hk|apply quiet_ret]. Qed.
Lemma quiet_unless s (m : AM unit) : quiet m → quiet (unless_empty s m).
Proof. intros Hm. unfold unless_empty. destruct (String.eqb s ""); [apply quiet_ret|done]. Qed.
Lemma quiet_if {A} (b : bool) (m1 m2 : AM A) : quiet m1 → quiet m2 → quiet (if b then m1 else m2).
Proof. by destruct b. Qed.

Lemma quiet_run {A} (m : AM A) a a' r : quiet m → m a = (a', r) → a'.(scenarios) = a.(scenarios).
Proof. intros Hq E. specialize (Hq a). by rewrite E in Hq. Qed.

Lemma bind_same {A B} (m : AM A) (k1 k2 : A → AM B) a :
  (∀ x a', m a = (a', Ok x) → k1 x a' = k2 x a') → sbind m k1 a = sbind m k2 a.
Proof. intros Hk. unfold sbind. destruct (m a) as [a' [x|e]]; [by apply Hk|done]. Qed.

Lemma on_lab_run {A} (m : @MM F A) (a a' : CliApp.app D F W) x : on_lab m a = (a', Ok x) →
  m a.(scenarios) = (a'.(scenarios), Ok x).
Proof.
  unfold on_lab. destruct (m a.(scenarios)) as [h [y|e]]; [|done]. by intros [= <- <-].
Qed.
End quiet.
#[export] Hint Resolve quiet_bind quiet_ret quiet_throw quiet_ago quiet_asks quiet_shows quiet_on_settings quiet_with_value
  quiet_unless quiet_if : kat.

(** Goes past a step that leaves the scenarios alone. *)
Tactic Notation "pass" hyp(H) "as" ident(x) ident(a) ident(E) :=
  apply bind_inv in H as (x & a & E & H); apply quiet_run in E.

(** ** The scenario that reaches the manager *)

Section checked.
Context {D F W : Type} `{Host D F, Process F, TextCases, CellTables, Terminals}.
Local Notation AM := (CliApp.AM D F W).
Local Notation app := (CliApp.app D F W).
#[local] Existing Instance proc_fs.

(** The scenario invariant, at least one device, and no device that is privileged unless
    the user is the administrator. *)
Definition checked_lab (lab : loc) (h : heap F) : Prop :=
  ∃ b, lab_inv h lab b ∧ OrderedMap.Keys b.(labMachines) ≠ [] ∧
    ∀ l m, l ∈ Values b.(labMachines) → h.(hMachines) !! l = Some m → IsPrivileged b m = true → IsAdmin = Ok true.

Lemma quiet_defaults : quiet (defaults : AM Defaults).
Proof. apply quiet_asks. Qed.
Lemma quiet_load p : quiet (loadCustomConfiguration p : AM unit).
Proof.
  unfold loadCustomConfiguration. apply quiet_bind; [auto with kat|]. intros d. destruct (SettingsFile.Stat _ _); eauto with kat.
Qed.
Lemma quiet_parse_dep p : quiet (parse_dep p : AM (list string)).
Proof. intros a. unfold parse_dep. by destruct (ParseDep _ _ _). Qed.
Lemma quiet_parse_ext p : quiet (parse_ext p : AM (option external_map)).
Proof. intros a. unfold parse_ext. by destruct (ParseExt _ _ _ _). Qed.
Lemma quiet_require_admin e : quiet (require_admin e : AM unit).
Proof. apply quiet_bind; [auto with kat|]. intros []; [auto with kat|]. unfold afail. auto with kat. Qed.
Lemma quiet_modify f : (∀ a : app, (f a).(scenarios) = a.(scenarios)) → quiet (smodify f : AM unit).
Proof. intros Hf a. apply Hf. Qed.
Lemma quiet_into g : quiet (into_start g : AM unit). Proof. by apply quiet_modify. Qed.
Lemma quiet_open b : quiet (set_open_terminals b : AM unit). Proof. by apply quiet_modify. Qed.
Lemma quiet_terminal s : quiet (set_terminal s : AM unit). Proof. by apply quiet_modify. Qed.
Lemma quiet_centred s : quiet (centred s : AM unit). Proof. apply quiet_shows. Qed.
Lemma quiet_paneled s : quiet (paneled s : AM unit). Proof. apply quiet_shows. Qed.

(** Reading a scenario. *)
Definition stripped_folders (f : lstartFlags) (labPath : string) : Prop :=
  f.(forceLab) = true → ∀ d : D, Forall (fun n => pyStrip n = n)
    (machineFolders glob_pattern (list_dir d) (dir_exists d) (link_exists d) labPath).

Lemma parse_lab_fresh p (a a' : app) r : fresh a.(scenarios) → parse_lab p a = (a', r) →
  fresh a'.(scenarios) ∧ ∀ lab, r = Ok lab → ∃ b, lab_inv a'.(scenarios) lab b.
Proof.
  intros Hf. unfold parse_lab. rewrite (bind_ok _ _ a a (DefaultsFrom (Some a.(settings))) eq_refl). cbv zeta. unfold on_lab.
  destruct (ParseLab _ _ _ _ _ _ _ _ _ a.(scenarios)) as [h r0] eqn:E. intros [= <- <-].
  destruct (ParseLab_fresh _ _ _ _ _ _ _ _ _ _ _ _ Hf E) as [Hf' Hr]. split; [done|]. intros lab.
  destruct r0 as [x|e]; [intros [= <-]; by apply Hr|done].
Qed.

Lemma parse_folder_fresh p (a a' : app) lab : fresh a.(scenarios) →
  Forall (fun n => pyStrip n = n) (machineFolders glob_pattern (list_dir a.(disk)) (dir_exists a.(disk)) (link_exists a.(disk)) p) →
  parse_folder p a = (a', Ok lab) → ∃ b, lab_inv a'.(scenarios) lab b.
Proof.
  intros Hf Hn. unfold parse_folder. rewrite (bind_ok _ _ a a (DefaultsFrom (Some a.(settings))) eq_refl). cbv zeta. intros E.
  apply on_lab_run in E. by apply (ParseFolder_fresh _ _ _ _ _ _ _ _ _ _ _ _ _ Hf Hn E).
Qed.

Lemma read_lab_inv f p (a a' : app) lab : fresh a.(scenarios) → stripped_folders f p →
  read_lab f p a = (a', Ok lab) → ∃ b, lab_inv a'.(scenarios) lab b.
Proof.
  intros Hf Hn. unfold read_lab. destruct (parse_lab p a) as [a1 r] eqn:E.
  destruct (parse_lab_fresh _ _ _ _ Hf E) as [Hf1 Hr]. destruct r as [l|[|[e|]]]; try done.
  - intros [= <- <-]. by apply Hr.
  - destruct (negb (forceLab f)) eqn:Ef; [done|]. destruct (negb (isIOError e)); [done|]. cbn [orb].
    apply negb_false_iff in Ef. intros E2. by apply (parse_folder_fresh p a1 a' lab Hf1 (Hn Ef _)).
Qed.

Lemma on_lab_safe {A} lab (op : @MM F A) (a a' : app) b x : lab_inv a.(scenarios) lab b → safe lab op →
  on_lab op a = (a', Ok x) → ∃ b', lab_inv a'.(scenarios) lab b'.
Proof.
  intros Hi Hs E. apply on_lab_run in E. destruct (Hs _ _ Hi) as (b' & Hi' & _). rewrite E in Hi'. by exists b'.
Qed.

Lemma unless_safe lab s (op : @MM F unit) (a a' : app) b : lab_inv a.(scenarios) lab b → safe lab op →
  unless_empty s (on_lab op) a = (a', Ok tt) → ∃ b', lab_inv a'.(scenarios) lab b'.
Proof.
  intros Hi Hs. unfold unless_empty. destruct (String.eqb s ""); [intros [= <-]; by exists b|]. by apply on_lab_safe with b.
Qed.

Lemma read_scenario_inv f p (a a' : app) lab deps : fresh a.(scenarios) → stripped_folders f p →
  read_scenario f p a = (a', Ok (lab, deps)) → ∃ b, lab_inv a'.(scenarios) lab b.
Proof.
  intros Hf Hn. unfold read_scenario. intros E.
  pass E as x0 a0 E0; [|apply quiet_load]. pass E as x1 a1 E1; [|apply quiet_with_value; apply quiet_open].
  pass E as x2 a2 E2; [|apply quiet_unless, quiet_terminal]. pass E as x3 a3 E3; [|apply quiet_centred].
  apply bind_inv in E as (lab0 & a4 & El & E). apply read_lab_inv in El as [b0 Hi0]; [|by rewrite E3, E2, E1, E0|done].
  apply bind_inv in E as ([] & a5 & En & E). apply (unless_safe lab0 _ _ _ _ _ Hi0) in En as [b1 Hi1]; [|apply SetName_safe].
  pass E as found a6 E6; [|apply quiet_parse_dep]. rewrite <- E6 in Hi1.
  apply bind_inv in E as ([] & a7 & Ed & E).
  assert (∃ b2, lab_inv a7.(scenarios) lab0 b2) as [b2 Hi2].
  { destruct found as [|dep deps0]; [injection Ed as <-; by exists b1|].
    by apply (on_lab_safe lab0 _ _ _ _ _ Hi1 (ApplyDependencies_safe _ _)) in Ed. }
  apply bind_inv in E as (b3 & a8 & Eb & E). unfold lab_of in Eb. apply on_lab_run in Eb.
  rewrite (getLab_run _ _ _ (li_lab _ _ _ Hi2)) in Eb. injection Eb as Eb _.
  pass E as x9 a9 E9; [|apply quiet_unless, quiet_paneled]. injection E as <- <- _. exists b2. by rewrite E9, <- Eb.
Qed.

(** The steps that leave the devices alone. *)
Definition keeps_devices {A} (lab : loc) (op : @MM F A) : Prop := ∀ h b, lab_inv h lab b →
  ∃ b', lab_inv (op h).1 lab b' ∧ b'.(labMachines) = b.(labMachines) ∧ (op h).1.(hMachines) = h.(hMachines).

Lemma upd_keeps lab (f : Machine.Lab F → Machine.Lab F) :
  (∀ b, (f b).(labMachines) = b.(labMachines)) → (∀ b, (f b).(labLinks) = b.(labLinks)) →
  keeps_devices lab (do* b <- getLab lab in putLab lab (f b)).
Proof.
  intros Hm Hl h b Hi. rewrite (bind_ok _ _ _ _ _ (getLab_run h lab b (li_lab _ _ _ Hi))).
  exists (f b). split; [|by rewrite Hm]. apply (inv_upd_lab h lab b (f b) Hi); [rewrite Hm; apply Hi| |by rewrite Hl].
  intros n. by rewrite Hm.
Qed.

Lemma ret_keeps {A} lab (x : A) : keeps_devices lab (sret x : @MM F A).
Proof. intros h b Hi. by exists b. Qed.
Lemma AddGlobal_keeps lab name v : keeps_devices lab (AddGlobalMachineMetadata lab name v : @MM F unit).
Proof. unfold AddGlobalMachineMetadata. destruct (negb _); [apply ret_keeps|by apply upd_keeps]. Qed.
Lemma AddOption_keeps lab name v : keeps_devices lab (AddOption lab name v : @MM F unit).
Proof. unfold AddOption. destruct (negb _); [apply ret_keeps|by apply upd_keeps]. Qed.

Lemma attach_one_devices lab e (h : heap F) : (attach_one lab e h).1.(hMachines) = h.(hMachines).
Proof.
  unfold attach_one, sbind, getLab, getLink, deref. destruct (hLabs h !! lab) as [b|]; [|done]. cbn.
  destruct (OrderedMap.Get _ _) as [l|]; [|done]. by destruct (hLinks h !! l).
Qed.

Lemma AttachExternal_keeps lab external : keeps_devices lab (AttachExternalLinks lab external : @MM F unit).
Proof.
  intros h b Hi. unfold AttachExternalLinks. rewrite (bind_ok _ _ _ _ _ (getLab_run h lab b (li_lab _ _ _ Hi))).
  destruct (List.find _ external) as [e|] eqn:E; [by exists b|]. exists b.
  destruct (attach_run h lab b external Hi) as [Hi' _].
  { intros e He. pose proof (find_none _ _ E e) as Hn. apply list_elem_of_In in He. specialize (Hn He). by apply negb_false_iff in Hn. }
  split; [done|]. split; [done|]. clear. revert h. induction external as [|e external IH]; intros h; [done|]. cbn [sfor]. unfold sbind.
  pose proof (attach_one_devices lab e h) as Hd. destruct (attach_one lab e h) as [h' [[]|e']]; cbn in *; [by rewrite IH|done].
Qed.

Lemma on_lab_keeps {A} lab (op : @MM F A) (a a' : app) b x : lab_inv a.(scenarios) lab b → keeps_devices lab op →
  on_lab op a = (a', Ok x) →
  ∃ b', lab_inv a'.(scenarios) lab b' ∧ b'.(labMachines) = b.(labMachines) ∧ a'.(scenarios).(hMachines) = a.(scenarios).(hMachines).
Proof. intros Hi Hs E. apply on_lab_run in E. specialize (Hs _ _ Hi). by rewrite E in Hs. Qed.

Lemma metadata_keeps lab entries : ∀ (a a' : app) b, lab_inv a.(scenarios) lab b → sfor entries (add_metadata lab) a = (a', Ok tt) →
  ∃ b', lab_inv a'.(scenarios) lab b' ∧ b'.(labMachines) = b.(labMachines).
Proof.
  induction entries as [|e entries IH]; intros a a' b Hi E; [injection E as <-; by exists b|]. cbn [sfor] in E.
  apply bind_inv in E as ([] & a1 & E1 & E). unfold add_metadata in E1.
  destruct (on_lab_keeps _ _ _ _ _ _ Hi (AddGlobal_keeps _ _ _) E1) as (b1 & Hi1 & Em & _).
  destruct (IH _ _ _ Hi1 E) as (b2 & Hi2 & Em2). exists b2. by rewrite Em2.
Qed.

Lemma lab_of_run lab (a a' : app) b x : lab_inv a.(scenarios) lab b → lab_of lab a = (a', Ok x) →
  x = b ∧ a'.(scenarios) = a.(scenarios).
Proof.
  intros Hi E. unfold lab_of in E. apply on_lab_run in E. rewrite (getLab_run _ _ _ (li_lab _ _ _ Hi)) in E. by injection E as <- <-.
Qed.

Lemma attach_ext_inv lab p (a a' : app) b x : lab_inv a.(scenarios) lab b → attach_ext lab p a = (a', Ok x) →
  ∃ b', lab_inv a'.(scenarios) lab b' ∧ b'.(labMachines) = b.(labMachines).
Proof.
  intros Hi. unfold attach_ext. destruct (SettingsFile.Stat _ _); [|intros [= <- <-]; by exists b].
  destruct (negb linux); [done|]. intros E. pass E as y0 c0 E0; [|apply quiet_require_admin]. pass E as external c1 E1; [|apply quiet_parse_ext].
  rewrite <- E0, <- E1 in Hi. destruct external as [external|]; [|injection E as <- <-; by exists b].
  destruct (bool_decide _); [injection E as <- <-; by exists b|]. apply bind_inv in E as ([] & a2 & E2 & E).
  destruct (on_lab_keeps _ _ _ _ _ _ Hi (AttachExternal_keeps _ _) E2) as (b2 & Hi2 & Em & _).
  pass E as x3 a3 E3; [|apply quiet_open]. injection E as <- <-. exists b2. by rewrite E3.
Qed.

Lemma any_privileged_run b ls : ∀ (h : heap F) h' x, any_privileged b ls h = (h', Ok x) →
  h' = h ∧ (x = false → ∀ l m, l ∈ ls → h.(hMachines) !! l = Some m → IsPrivileged b m = false).
Proof.
  induction ls as [|l ls IH]; intros h h' x E.
  { injection E as <- <-. split; [done|]. by intros _ l m ?%elem_of_nil. }
  cbn [any_privileged] in E. apply bind_inv in E as (m & h1 & Em & E). unfold getMachine, deref in Em.
  destruct (hMachines h !! l) as [m'|] eqn:El; [|done]. injection Em as <- <-. destruct (IsPrivileged b m') eqn:Ep.
  { injection E as <- <-. by split. }
  destruct (IH _ _ _ E) as [-> Hall]. split; [done|]. intros Hx l' m1 [->|Hl]%elem_of_cons Hm; [congruence|by eapply Hall].
Qed.

Lemma require_admin_ok e (a a' : app) x : require_admin e a = (a', Ok x) → IsAdmin = Ok true.
Proof. unfold require_admin, ago, sbind, sret, afail, sthrow. destruct IsAdmin as [[]|]; done. Qed.

(** After the option of the command is recorded, a device is privileged when it was, or
    when the option says so. *)
Lemma privileged_recorded lab v (a a' : app) b : lab_inv a.(scenarios) lab b →
  on_lab (AddGlobalMachineMetadata lab "privileged" (tristateScalar v)) a = (a', Ok tt) →
  ∃ b', lab_inv a'.(scenarios) lab b' ∧ b'.(labMachines) = b.(labMachines) ∧ a'.(scenarios).(hMachines) = a.(scenarios).(hMachines) ∧
    ∀ m, IsPrivileged b' m = true → v = Some true ∨ v = None ∧ IsPrivileged b m = true.
Proof.
  intros Hi E. apply on_lab_run in E. unfold AddGlobalMachineMetadata in E. destruct v as [v|]; cbn in E.
  - rewrite (bind_ok _ _ _ _ _ (getLab_run _ _ _ (li_lab _ _ _ Hi))) in E. unfold putLab, smodify in E. injection E as E.
    eexists. rewrite <- E. split; [apply (inv_upd_lab _ lab b _ Hi); [apply Hi|done|done]|]. split; [done|]. split; [done|].
    intros m. unfold IsPrivileged, GlobalMachineMetadata. cbn [set_options globalMachineMetadata].
    rewrite get_set_eq. destruct v; [by left|done].
  - injection E as E. exists b. rewrite <- E. eauto 6.
Qed.
End checked.

(** ** The deployment *)

Section deployment.
Context {D F W Obj : Type} `{Host D F, Process F, TextCases, CellTables, Terminals}.
Local Notation AM := (CliApp.AM D F W).
Local Notation app := (CliApp.app D F W).
#[local] Existing Instance proc_fs.

Lemma quiet_manager `{Manager D F W Obj} : quiet newManager → quiet (manager : AM unit).
Proof.
  intros Hq a. unfold manager. destruct (made a); [done|]. specialize (Hq a). by destruct (newManager a).
Qed.

(** What has been checked when the deployment starts. *)
Lemma prepare_checked `{Manager D F W Obj} f p (a a' : app) lab : quiet newManager → fresh a.(scenarios) → stripped_folders f p →
  prepare f p a = (a', Ok (Some lab)) → f.(dryMode) = false ∧ checked_lab lab a'.(scenarios).
Proof.
  intros Hm Hf Hn E. unfold prepare in E. apply bind_inv in E as ([lab0 deps] & a0 & E0 & E).
  destruct (read_scenario_inv f p a a0 lab0 deps Hf Hn E0) as [b0 Hi0].
  apply bind_inv in E as (x1 & a1 & E1 & E). destruct (lab_of_run _ _ _ _ _ Hi0 E1) as [-> Es1].
  destruct (bool_decide _) eqn:Ene; [done|]. apply bool_decide_eq_false in Ene.
  pass E as options a2 E2; [|apply quiet_ago]. apply bind_inv in E as ([] & a3 & E3 & E).
  rewrite <- Es1, <- E2 in Hi0. destruct (metadata_keeps _ _ _ _ _ Hi0 E3) as (b3 & Hi3 & Em3).
  apply bind_inv in E as (ext & a4 & E4 & E). destruct (attach_ext_inv _ _ _ _ _ _ Hi3 E4) as (b4 & Hi4 & Em4).
  apply bind_inv in E as (x5 & a5 & E5 & E). destruct (lab_of_run _ _ _ _ _ Hi4 E5) as [-> Es5].
  pass E as x6 a6 E6; [|apply quiet_into]. rewrite <- Es5, <- E6 in Hi4.
  destruct (dryMode f).
  { apply bind_inv in E as (? & ? & _ & E). apply bind_inv in E as (? & ? & _ & E). by apply bind_inv in E as (? & ? & _ & E). }
  apply bind_inv in E as (x7 & a7 & E7 & E). destruct (on_lab_keeps _ _ _ _ _ _ Hi4 (AddOption_keeps _ _ _) E7) as (b7 & Hi7 & Em7 & _).
  apply bind_inv in E as (x8 & a8 & E8 & E). destruct (on_lab_keeps _ _ _ _ _ _ Hi7 (AddOption_keeps _ _ _) E8) as (b8 & Hi8 & Em8 & _).
  apply bind_inv in E as (x9 & a9 & E9 & E). destruct (lab_of_run _ _ _ _ _ Hi8 E9) as [-> Es9]. rewrite <- Es9 in Hi8.
  apply bind_inv in E as (some & a10 & E10 & E). apply on_lab_run in E10. apply any_privileged_run in E10 as [Es10 Hnone].
  apply bind_inv in E as ([] & a11 & E11 & E).
  assert (Es11 : a11.(scenarios) = a10.(scenarios)).
  { revert E11. apply quiet_run. apply quiet_if; [|apply quiet_ret]. apply quiet_bind; [apply quiet_require_admin|]. intros _.
    apply quiet_bind; [apply quiet_asks|]. intros []; [apply quiet_shows|apply quiet_ret]. }
  assert (Hadmin : default false f.(fPrivileged) || some = true → IsAdmin = Ok true).
  { intros Hp. rewrite Hp in E11. apply bind_inv in E11 as (? & ? & E11 & _). by apply require_admin_ok in E11. }
  apply bind_inv in E as ([] & a12 & E12 & E). rewrite <- Es10, <- Es11 in Hi8.
  destruct (privileged_recorded _ _ _ _ _ Hi8 E12) as (b12 & Hi12 & Em12 & Eh12 & Hp).
  pass E as x13 a13 E13; [|by apply quiet_manager]. injection E as <- <-. split; [done|]. exists b12. rewrite E13.
  assert (Eb : b12.(labMachines) = b8.(labMachines)) by done. split; [done|]. split; [by rewrite Eb, Em8, Em7, Em4, Em3|].
  intros l m Hl Hlm Hpriv. apply Hadmin. destruct (Hp m Hpriv) as [->|[-> Hb]]; [done|].
  destruct some; [done|]. exfalso. rewrite Eb in Hl. rewrite Eh12, Es11, Es10 in Hlm.
  rewrite (Hnone eq_refl l m Hl Hlm) in Hb. done.
Qed.

Lemma quiet_resolveLabPath p : quiet (resolveLabPath p : AM string).
Proof. by intros a. Qed.
Lemma quiet_on_disk {A} (m : M D goerror A) : quiet (on_disk m : AM A).
Proof. intros a. unfold on_disk. by destruct (m _). Qed.
Lemma quiet_cleanup dir : quiet (cleanup dir : AM unit).
Proof. intros a. by destruct dir. Qed.

Lemma quiet_resolveScenario f : quiet (resolveScenario f : AM (string * option string)).
Proof.
  unfold resolveScenario, CliApp.usage. repeat case_match; try apply quiet_throw.
  - apply quiet_bind; [apply quiet_resolveLabPath|]. intros p. apply quiet_ret.
  - apply quiet_bind; [apply quiet_on_disk|]. intros dir a. pose proof (quiet_on_disk (extract dir) a) as Hq.
    destruct (on_disk (extract dir) a) as [a' []]; cbn in *; done.
Qed.

(** Two managers that are made alike, list alike, and deploy alike what satisfies [P]. *)
Record deploy_alike (P : loc → app → Prop) (M1 M2 : Manager D F W Obj) : Prop := {
  made_alike : @newManager _ _ _ _ M1 = @newManager _ _ _ _ M2;
  listed_alike : @GetMachinesStats _ _ _ _ M1 = @GetMachinesStats _ _ _ _ M2;
  deployed_alike : ∀ lab opts a, P lab a → @DeployLab _ _ _ _ M1 lab opts a = @DeployLab _ _ _ _ M2 lab opts a
}.

Lemma prepare_alike (M1 M2 : Manager D F W Obj) : @newManager _ _ _ _ M1 = @newManager _ _ _ _ M2 →
  ∀ f p, prepare (Mgr := M1) f p = prepare (Mgr := M2) f p.
Proof. intros E f p. unfold prepare, manager. by rewrite E. Qed.

Lemma report_alike (M1 M2 : Manager D F W Obj) : @GetMachinesStats _ _ _ _ M1 = @GetMachinesStats _ _ _ _ M2 →
  ∀ f lab opts, report (Mgr := M1) f lab opts = report (Mgr := M2) f lab opts.
Proof. intros E f lab opts. unfold report. by rewrite E. Qed.


(** The dry run is the same whatever the manager. *)
Theorem dry_run_needs_no_manager (M1 M2 : Manager D F W Obj) f selected a : f.(dryMode) = true →
  runLstart (Mgr := M1) f selected a = runLstart (Mgr := M2) f selected a.
Proof.
  intros Hd. unfold runLstart. apply bind_same. intros [] a0 _. apply bind_same. intros [p dir] a1 _.
  assert (E : prepare (Mgr := M1) f p = prepare (Mgr := M2) f p) by (unfold prepare; by rewrite Hd).
  rewrite <- E. unfold sbind. destruct (prepare f p a1) as [a2 [[lab|]|e]] eqn:E2; [|done|done]. exfalso.
  unfold prepare in E2. rewrite Hd in E2. apply bind_inv in E2 as ([? ?] & ? & _ & E2). apply bind_inv in E2 as (? & ? & _ & E2).
  destruct (bool_decide _); [done|]. do 4 apply bind_inv in E2 as (? & ? & _ & E2). apply bind_inv in E2 as (? & ? & _ & E2).
  do 3 apply bind_inv in E2 as (? & ? & _ & E2). done.
Qed.

End deployment.

(** ** Closed instances *)

(** A manager that refuses what has no devices. *)
Definition careful_manager : Manager memDisk memFS (list string) unit :=
  let 'Build_Manager _ _ _ _ a b _ d e f g h i j k l m n o p q r s := demo_manager in
  Build_Manager _ _ _ _ a b
    (fun lab opts app =>
       match app.(scenarios).(hLabs) !! lab with
       | Some b => if bool_decide (OrderedMap.Keys b.(labMachines) = []) then (app, Prelude.Err (Failed NilDeref)) else DeployLab lab opts app
       | None => (app, Prelude.Err (Failed NilDeref))
       end) d e f g h i j k l m n o p q r s.



(** ** What the commands report *)

Section report.
Context {F : Type}.
Implicit Types (h : heap F) (b : Machine.Lab F).

(** A device of the scenario that has the name, one with an interface on a collision
    domain of that name, and one that is bridged. *)
Definition has_device h b (name : string) (m : Machine) : Prop :=
  ∃ l, OrderedMap.Get b.(labMachines) name = Some l ∧ h.(hMachines) !! l = Some m.
Definition on_domain h (m : Machine) (x : string) : Prop :=
  ∃ i k kk, i ∈ m.(interfaces) ∧ i.(iLink) = Some k ∧ h.(hLinks) !! k = Some kk ∧ kk.(lName) = x.

Lemma live_links_run h lab b n m ifs : lab_inv h lab b → (∀ i, i ∈ ifs → ∃ l, iface_ok h b n l i) → ∀ acc,
  ∃ links, live_links ifs acc h = (h, Ok links) ∧
    ∀ x, x ∈ links ↔ x ∈ acc ∨ on_domain h (mkMachine lab n m None ifs) x.
Proof.
  intros Hi. induction ifs as [|i ifs IH]; intros Hok acc; cbn [live_links].
  { exists acc. split; [done|]. intros x. split; [by left|]. intros [?|(i & ? & ? & Hn & _)]; [done|]. by apply elem_of_nil in Hn. }
  destruct (Hok i ltac:(by left)) as [l Hl]. assert (Hok' : ∀ j, j ∈ ifs → ∃ l, iface_ok h b n l j) by (intros j Hj; apply Hok; by right).
  destruct (iLink i) as [k|] eqn:Ek.
  - destruct (Hl k Ek) as (_ & kk & Ekk & _). rewrite (bind_ok _ _ _ _ _ (getLink_run h k kk Ekk)).
    destruct (IH Hok' ({[lName kk]} ∪ acc)) as (links & -> & Hx). exists links. split; [done|]. intros x. rewrite Hx. split.
    + intros [[->%elem_of_singleton|Hacc]%elem_of_union|(j & k' & kk' & Hj & Hrest)]; [right|by left|right].
      * exists i, k, kk. split; [by left|done].
      * exists j, k', kk'. split; [by right|done].
    + intros [Hacc|(j & k' & kk' & [->|Hj]%elem_of_cons & Ek' & Ekk' & <-)]; [left; set_solver| |].
      * left. assert (k' = k) as -> by congruence. assert (kk' = kk) as -> by congruence. set_solver.
      * right. by exists j, k', kk'.
  - destruct (IH Hok' acc) as (links & -> & Hx). exists links. split; [done|]. intros x. rewrite Hx. apply or_iff_compat_l. split.
    + intros (j & k' & kk' & Hj & Hrest). exists j, k', kk'. split; [by right|done].
    + intros (j & k' & kk' & [->|Hj]%elem_of_cons & Ek' & Hrest); [by rewrite Ek in Ek'|by exists j, k', kk'].
Qed.

Lemma on_domain_ifs h m m' x : m.(interfaces) = m'.(interfaces) → on_domain h m x ↔ on_domain h m' x.
Proof. unfold on_domain. by intros ->. Qed.

(** The reported devices, and the names of their collision domains. *)
Definition reported (opts : DeployLabOptions) (name : string) : bool :=
  negb (filtered_out opts.(SelectedMachines) opts.(ExcludedMachines) name).

Definition domain_of h b (name x : string) : Prop :=
  ∃ m, has_device h b name m ∧ (on_domain h m x ∨ IsBridged m = true ∧ x = bridge_link).

Lemma deployed_loop_run h lab b opts es : lab_inv h lab b → (∀ e, e ∈ es → OrderedMap.Get b.(labMachines) e.1 = Some e.2) →
  ∀ names (links : gset string), ∃ all : gset string, deployed_loop opts es.*2 names links h =
    (h, Ok (names ++ List.filter (reported opts) es.*1, sort_strings (elements all))) ∧
    ∀ x : string, x ∈ all ↔ x ∈ links ∨ ∃ n, n ∈ List.filter (reported opts) es.*1 ∧ domain_of h b n x.
Proof.
  intros Hi. induction es as [|[n l] es IH]; intros Hes names links; cbn [fmap list_fmap fst snd deployed_loop].
  { exists links. split; [by rewrite app_nil_r|]. intros x. split; [by left|]. intros [?|(n & Hn & _)]; [done|]. by apply elem_of_nil in Hn. }
  pose proof (Hes (n, l) ltac:(by left)) as Hl. cbn in Hl. destruct (li_machine _ _ _ Hi n l Hl) as (m & Em & Hm).
  rewrite (bind_ok _ _ _ _ _ (getMachine_run h l m Em)). rewrite (mo_name _ _ _ _ _ _ Hm).
  specialize (IH ltac:(intros e He; apply Hes; by right)). cbn [List.filter]. 
  destruct (reported opts n) eqn:Er; pose proof Er as Ef; unfold reported in Ef;
    [apply negb_true_iff in Ef|apply negb_false_iff in Ef]; rewrite Ef; [|apply IH].
  destruct (live_links_run h lab b n m.(mMeta) m.(interfaces) Hi) with (acc := links) as (links1 & E1 & Hx1).
  { intros i Hii. exists l. by apply Hm. }
  rewrite (bind_ok _ _ _ _ _ E1).
  destruct (IH (names ++ [n]) (if IsBridged m then {[bridge_link]} ∪ links1 else links1)) as (all & Eall & Hall).
  exists all. split; [by rewrite Eall, <- app_assoc|]. intros x. rewrite Hall.
  assert (Hd : domain_of h b n x ↔ on_domain h m x ∨ IsBridged m = true ∧ x = bridge_link).
  { split; [|intros Hor; exists m; split; [by exists l|done]]. intros (m' & (l' & El' & Em') & Hor).
    unfold OrderedMap.Get in El'. assert (l' = l) as -> by congruence. by assert (m' = m) as -> by congruence. }
  assert (Hl1 : x ∈ links1 ↔ x ∈ links ∨ on_domain h m x) by (rewrite Hx1; by rewrite (on_domain_ifs h _ m)).
  assert (Hset : x ∈ (if IsBridged m then {[bridge_link]} ∪ links1 else links1) ↔ x ∈ links ∨ domain_of h b n x).
  { rewrite Hd. destruct (IsBridged m); [rewrite elem_of_union, elem_of_singleton|]; rewrite Hl1; naive_solver. }
  rewrite Hset. split.
  - intros [[?|?]|(n' & Hn' & ?)]; [by left|right; exists n; split; [by left|done]|right; exists n'; split; [by right|done]].
  - intros [?|(n' & [->|Hn']%elem_of_cons & ?)]; [by left; left|by left; right|right; by exists n'].
Qed.

(** Lstart reports the devices of the scenario that the options keep, in the order they
    boot in, and the collision domains those devices are on, sorted and each once, with the
    bridge when one of them is bridged. *)
Theorem deployedNames_exact h lab b opts : lab_inv h lab b →
  ∃ links, deployedNames lab opts h = (h, Ok (List.filter (reported opts) (OrderedMap.Keys b.(labMachines)), links)) ∧
    StronglySorted str_le links ∧ NoDup links ∧
    ∀ x, x ∈ links ↔ ∃ n, n ∈ List.filter (reported opts) (OrderedMap.Keys b.(labMachines)) ∧ domain_of h b n x.
Proof.
  intros Hi. unfold deployedNames. rewrite (bind_ok _ _ _ _ _ (getLab_run h lab b (li_lab _ _ _ Hi))).
  destruct (deployed_loop_run h lab b opts (Entries b.(labMachines)) Hi) with (names := @nil string) (links := (∅ : gset string)) as (all & E & Hx).
  { intros [n l] He. apply elem_of_entries in He; [done|apply Hi]. }
  rewrite entries_keys in E, Hx by apply Hi. exists (sort_strings (elements all)). split; [exact E|].
  split; [apply sort_strings_sorted|]. split; [unfold sort_strings; rewrite SortStable_perm; apply NoDup_elements|].
  intros x. rewrite sort_strings_elem, elem_of_elements, Hx. set_solver.
Qed.
End report.

Section undeployed.
Context {F : Type}.
Implicit Types (h : heap F) (b : Machine.Lab F).

Lemma links_of_domain h b name x : x ∈ links_of h b name ↔ ∃ m, has_device h b name m ∧ on_domain h m x.
Proof.
  unfold links_of, has_device, on_domain. split.
  - destruct (OrderedMap.Get _ name) as [l|] eqn:El; cbn [mbind option_bind]; [|by intros ?%elem_of_nil].
    destruct (hMachines h !! l) as [m|] eqn:Em; [|by intros ?%elem_of_nil].
    intros (i & Hi & Hx)%list_elem_of_omap. destruct (iLink i) as [k|] eqn:Ek; [|done]. cbn in Hx.
    destruct (hLinks h !! k) as [kk|] eqn:Ekk; [|done]. injection Hx as <-. exists m. split; [by exists l|]. by exists i, k, kk.
  - intros (m & (l & El & Em) & i & k & kk & Hi & Ek & Ekk & <-). rewrite El. cbn [mbind option_bind]. rewrite Em.
    apply list_elem_of_omap. exists i. split; [done|]. rewrite Ek. cbn. by rewrite Ekk.
Qed.

Definition on_some h b (names : list string) (x : string) : Prop := ∃ n m, n ∈ names ∧ has_device h b n m ∧ on_domain h m x.

Lemma concat_links h b names x : x ∈ (list_to_set (concat (links_of h b <$> names)) : gset string) ↔ on_some h b names x.
Proof.
  rewrite elem_of_list_to_set, list_elem_of_In, in_concat. unfold on_some. split.
  - intros (l & (n & -> & Hn)%list_elem_of_In%list_elem_of_fmap & Hx%list_elem_of_In). apply links_of_domain in Hx as (m & Hm & Hd). eauto.
  - intros (n & m & Hn & Hm & Hd). exists (links_of h b n). split; apply list_elem_of_In; [apply list_elem_of_fmap; eauto|].
    apply links_of_domain. eauto.
Qed.

(** C30: lclean reports, sorted, the running devices its options do not spare, and the
    collision domains that went with them: all that were deployed when no option picks
    devices, and otherwise those a removed device of the scenario was on and no device that
    stays is on. *)
Theorem undeployedNames_exact h b running deployed opts : let r := undeployedNames h b running deployed opts in
  StronglySorted str_le r.1 ∧ (∀ n, n ∈ r.1 ↔ n ∈ running_names running ∧ kept_by opts n = true) ∧
  (opts.(uSelectedMachines) = None ∧ opts.(uExcludedMachines) = None ∧ r.2 = deployed ∨
   (opts.(uSelectedMachines) ≠ None ∨ opts.(uExcludedMachines) ≠ None) ∧ sublist r.2 deployed ∧
   ∀ x, x ∈ r.2 ↔ x ∈ deployed ∧ on_some h b r.1 x ∧
     ¬ on_some h b (List.filter (fun n => negb (bool_decide (n ∈ r.1))) (running_names running)) x).
Proof.
  cbv zeta. unfold undeployedNames. set (machines := sort_strings _).
  set (links := List.filter _ deployed).
  assert (Hs : StronglySorted str_le machines) by apply sort_strings_sorted.
  assert (Hm : ∀ n, n ∈ machines ↔ n ∈ running_names running ∧ kept_by opts n = true).
  { intros n. unfold machines. rewrite sort_strings_elem, list_elem_of_In, filter_In, <- list_elem_of_In. done. }
  assert (Hl : sublist links deployed).
  { unfold links. clear. induction deployed as [|x l IH]; [constructor|]. cbn [List.filter].
    match goal with |- context [if ?c then _ else _] => destruct c end; by constructor. }
  assert (Hx : ∀ x, x ∈ links ↔ x ∈ deployed ∧ on_some h b machines x ∧
    ¬ on_some h b (List.filter (fun n => negb (bool_decide (n ∈ machines))) (running_names running)) x).
  { intros x. unfold links. rewrite list_elem_of_In, filter_In, <- list_elem_of_In, bool_decide_eq_true, elem_of_difference, !concat_links. done. }
  destruct (uSelectedMachines opts) eqn:E1, (uExcludedMachines opts) eqn:E2; cbn [fst snd];
    (split; [exact Hs|]); (split; [exact Hm|]); try (right; split; [first [by left|by right]|done]). by left.
Qed.
End undeployed.

(** ** Closed instances *)

Definition two_devices : heap memFS * result failure loc :=
  @ParseLab memFS Memory_FS (ToLower : TextCases) None Memory (fun _ => Some Memory) (fun _ => Some 70)
    (fun _ => Ok ("pc1[0]=A" +:+ nl +:+ "pc1[bridged]=true" +:+ nl +:+ "r1[0]=B")) "/lab" "lab.conf" DefaultDefaults (mkHeap ∅ ∅ ∅ 1%positive).

Lemma deployedNames_exact_witness :
  ∃ links, deployedNames 1%positive (mkDeployOptions (NewNameSet ["pc1"]) None) two_devices.1 = (two_devices.1, Ok (["pc1"], links)) ∧ NoDup links.
Proof.
  destruct (ParseLab_sound Memory_FS None Memory (fun _ => Some Memory) (fun _ => Some 70)
    (fun _ => Ok ("pc1[0]=A" +:+ nl +:+ "pc1[bridged]=true" +:+ nl +:+ "r1[0]=B")) "/lab" "lab.conf" DefaultDefaults two_devices.1 1%positive)
    as (b & Hi & _); [by vm_compute|].
  destruct (deployedNames_exact two_devices.1 1%positive b (mkDeployOptions (NewNameSet ["pc1"]) None) Hi) as (links & E & _ & Hnd & _).
  exists links. split; [|done]. rewrite E. do 3 f_equal.
  assert (Hb : hLabs two_devices.1 !! 1%positive = Some b) by apply Hi. vm_compute in Hb. injection Hb as <-. by vm_compute.
Defined.

Example undeployed_1 :
  undeployedNames two_devices.1 (default (mkLab "" "" "" "" "" "" "" false Memory DefaultDefaults None NewOrderedMap NewOrderedMap NewOrderedMap NewOrderedMap)
    (hLabs two_devices.1 !! 1%positive)) demo_stats ["A"; "B"] (mkUndeployOptions None (Some {["r1"]}) None) = (["pc1"], ["A"]).
Proof. vm_compute. reflexivity. Qed.
